(* ===== verification/_CoqProject ===== *)
-Q . S2P
Prelude.v
Sync.v
State.v
Utils.v
PageTables.v
Se.v
Engine.v
Pages.v
Config.v
Keys.v
Power.v
SmcUser.v
SmcApi.v
Package2.v
Bootup.v
Platform.v
Frame.v
SmcProps.v
SmcSafety.v
SeProps.v
KeyProps.v
ConfigProps.v
CryptoProps.v
PageProps.v
Package2Props.v
PowerProps.v
PageTableProps.v
BootProps.v
Devices.v
Fusee.v
FuseeToy.v
Ips.v
KernelPatches.v
Stratosphere.v
IpsProps.v
BlzProps.v
KernelProps.v
IniProps.v
FuseeKeys.v
FuseePackage2.v
RebuildProps.v
XtsProps.v
FuseeKeyProps.v
Storage.v
Nxfs.v
StorageProps.v
StorageToy.v
RawDevProps.v
MountProps.v
EmuDevProps.v
StorageInv.v
IniFile.v
IniFileProps.v
Loader.v
LoaderProps.v
Nxboot.v
NxbootProps.v
Sc7Fw.v
Lp0.v
Sleep.v
Lp0Props.v
LibC.v
LibCProps.v
FsOffsets.v
Emummc.v
InjectProps.v
EmummcInit.v
EmummcProps.v
EmummcThreads.v
EmummcToy.v
