(* ===== verification/Prelude.v ===== *)
(** * Atmosphere: boot loader, secure monitor, sleep firmware and emummc

    The C programs of the repository that carry its own logic are modelled.  They
    run on the same hardware, a Tegra X1 console, and hand data to one another.

    fusee-secondary (src/fusee/fusee-secondary/src) runs on the boot processor.
    It derives the keys of the console, decrypts package2 (the kernel and the
    first processes), patches the kernel, replaces and patches the processes, and
    leaves the rebuilt, plaintext package2 in memory.

    Exosphere (src/exosphere/src) is the EL3 secure monitor.  At boot it builds
    its page tables, sets up the Security Engine (SE) and the registers that
    protect the hardware, loads package2 and jumps to it; afterwards it runs only
    when the normal world executes an SMC, when its FIQ fires, or when a core
    comes out of reset.  Keys live in the SE's key slots and never in memory the
    normal world can read; the monitor's promise is that its SMCs give the use of
    keys but not the keys.

    The sleep firmware (src/exosphere/sc7fw, src/exosphere/lp0fw) runs on the boot
    processor: sc7fw puts the memory to sleep after the monitor has saved itself,
    lp0fw wakes the console, restores the monitor and starts its core.

    Emummc (src/emummc/source) is linked into FS, the process of the operating
    system that owns the cards.  It asks the monitor for the configuration that
    the boot loader wrote, hooks the functions of FS that read and write the
    eMMC, and serves them from a partition or from files of the SD card.

    ** Parts and how they interact

    - [call_smc_handler] (smc_api.c) looks an SMC id up in the user, the
      privileged or the Atmosphere table, which [set_version_specific_smcs]
      adjusts to the target firmware, and runs the handler.  User SMCs take a
      lock; asynchronous ones start an SE operation, register a callback under
      a random key and keep the lock until the result is fetched
      ([smc_check_status], [smc_get_result]); the SE's completion arrives as a
      FIQ.
    - The handlers (smc_user.c) check their arguments, copy through one mapped
      page of the caller (userpage.c), and work on keys through sealedkeys.c,
      titlekey.c, gcm.c, masterkey.c and the SE driver se.c.
    - Configuration comes from exocfg.c (left by the boot loader), fuse.c,
      bootconfig.c and configitem.c.
    - cpu_context.c, mc.c, sc7.c, interrupt.c, actmon.c with the drivers car.c,
      i2c.c and uart.c implement core power, memory carveouts and deep sleep;
      synchronization.h guards the way of the cores in and out of the monitor.
    - The cold boot (coldboot_init.c, package2.c, bootup.c, coldboot_main.c) runs
      once; the warm boot path (warmboot_init.c, warmboot_main.c) runs on each
      core that CPU_ON starts and on core 3 after deep sleep.
    - In the boot loader, key_derivation.c fills the key slots with the help of
      masterkey.c and extkeys.c; package2.c takes package2 apart, has the kernel
      patched by kernel_patches.c and ips.c and the processes merged by
      stratosphere.c, which has each of them patched by ips.c, and puts the
      result where the monitor's package2.c reads it.
    - Package1 and package2 come from the eMMC or an emulated one on the SD card:
      nxfs.c drives the cards, encrypts and decrypts sectors, and mounts the
      partitions that gpt.c finds in the partition table; device_partition.c
      gives access to sectors, raw_dev.c and emu_dev.c to bytes, fs_dev.c to FAT
      volumes; package1.c reads the boot area.
    - lib/ini.c parses BCT.ini and emummc.ini; loader.c, chainloader.c and
      nxboot.c act on them, and nxboot.c leaves the mailbox that exocfg.c reads.
    - CPU_SUSPEND (sc7.c) has the SE encrypt TZRAM with a key it generates,
      stores the image in DRAM and its CMAC in the power controller, and starts
      sc7fw; lp0fw (lp0.c, secmon.c, se.c) checks the CMAC, decrypts the image
      into TZRAM and starts the core at the monitor's warm boot.
    - In emummc, main.c gets the configuration with an SMC of smc_ams.c, picks
      the table of the version of FS (FS_offsets.c) and patches FS with another;
      emummc.c holds the functions that FS then calls from several threads.

    ** Files

    The monitor:

    - Prelude: C integers at their width (results are reduced by [u8] .. [u64]),
      byte strings ([le_bytes], [be_value], [splice], ...), bit lemmas, tactics
      and hint databases.
    - Sync: Module CriticalSection, [critical_section_enter] and
      [critical_section_leave] of synchronization.h as interleaved steps of four
      cores, one shared access per step.
    - State: a record per C file with its static variables under their C names;
      [World] collects them with the hardware; the monad [M] (return, panic,
      endless loop, fault), and the class [SoC] of what the hardware does.
    - Utils: memory_map.h, mmu.h, utils.c, timers.c, exocfg.c, the spin locks.
    - PageTables: the tables of memory_map.h, the mapping functions of mmu.h on a
      memory of descriptors, [configure_ttbls] of coldboot_init.c, and the table
      walk of the hardware.
    - Se: Module SE, se.c register write by register write.
    - Engine: the laws assumed of the SE, classes [EngineDone] (operations
      finish, without an error) and [CryptoEngine] (which cipher, hash and
      exponentiation it computes for the settings the driver writes), and the
      driver's functions run against them.
    - Pages: Modules UserPage (userpage.c) and AMS (smc_ams.c).
    - Config: Modules Fuse, BootConfig, ConfigItem, BootConfigLoad (fuse.c,
      bootconfig.c, configitem.c).
    - Keys: Modules MasterKey, SealedKeys, TitleKey, Gcm, RandomCache.
    - Power: Modules Mc, Car, I2c, Uart, Interrupt (with actmon.c), Cpu
      (cpu_context.c, flow.h), Sc7.
    - SmcUser, SmcApi: smc_user.c and smc_api.c.
    - Package2: the image part of package2.c.  Bootup: bootup.c, warmboot_init.c,
      warmboot_main.c, coldboot_main.c, the MMU part of [coldboot_init], and
      [load_package2] as a whole.
    - Platform: Module Toy, a concrete platform that satisfies the laws, and
      boot states; the witnesses run on it.
    - Frame: the interfaces [Frame], [SeFrame] and [EngineKeyFrame], against
      which it is proved once what a handler leaves unchanged.
    - SmcProps, SmcSafety, SeProps, KeyProps, ConfigProps, CryptoProps,
      PageProps, Package2Props, PowerProps, PageTableProps, BootProps: the
      theorems.

    The boot loader:

    - Fusee: its state and monad [F], in which an access outside a heap block is
      the outcome [BadAccess] and [fatal_error] one of its own, and the helpers of
      utils.c and fs_utils.c.  The SD card, the heap and the built-in binaries are
      the parameters of the class [Card]; the SE driver is the monitor's, run on
      the shared hardware by [hw].
    - Ips: Modules Kip (kip.h) and Ips (ips.c).  KernelPatches:
      kernel_patches.c with the tables of all known kernels.  Stratosphere:
      stratosphere.c.  FuseePackage2: package2.c.
    - FuseeKeys: Modules FuseeSe (the parts of se.c the monitor's driver lacks),
      FuseeMasterKey, ExtKeys and KeyDerivation.
    - Devices: the data of device_partition.h, raw_dev.c, emu_dev.c, fs_dev.c and
      nxfs.c and the state they keep, with the bytes of the cards.
    - Storage: Modules NxfsDriver (the drivers and ciphers of nxfs.c),
      DevicePartition (device_partition.c), FileDev (reading, writing and seeking,
      which raw_dev.c and emu_dev.c share), RawDev, EmuDev and FsDev (the tables).
      Which transfer, mount or allocation succeeds is a parameter of the class
      [Storage]; what a transfer that succeeds moves is the card's bytes.
    - Nxfs: stdio on the devices, Modules Gpt (gpt.c), Nxfs (nxfs.c) and Package1
      (package1.c).
    - FuseeToy, StorageToy: a concrete card for the witnesses.
    - IpsProps, BlzProps, KernelProps, IniProps, RebuildProps, XtsProps,
      FuseeKeyProps: the theorems on patching, rebuilding and keys.
    - StorageProps: the class [SectorDevice], what the sector access promises to
      the byte access; the byte access is proved against it, and a plain and an
      encrypted partition are its instances, on cards that work (the class
      [WorkingCards]).  RawDevProps, MountProps, EmuDevProps: the theorems on
      devices, mounting and reading package1, split images and unmounting.
      StorageInv: the tables stay well formed.
    - IniFile: the parser of configuration files (lib/ini.c), on strings; the
      handler is an argument and its user data is threaded through.  Loader:
      [sscanf] of a number, Modules Chainloader (chainloader.c) and Loader
      (loader.c); the linker's symbols and [qsort] are the class [Layout].  Nxboot:
      the handlers and configuration functions of nxboot.c.  IniFileProps,
      LoaderProps, NxbootProps: their theorems, on the text [print_config] of a
      configuration and its [setting]s.

    The C library, the sleep firmware and emummc:

    - LibC: Module LibC, my_libc.c on a memory of bytes, each function in the
      version for size and the version with word accesses.  LibCProps: its
      theorems.
    - Sc7Fw, Lp0: Modules Sc7Fw and Lp0, the two programs on device registers by
      physical address.  Sleep: the class [SleepEngine], what the SE promises
      about AES-256 in CBC mode and its CMAC, and the monitor's save run against
      it.  Lp0Props: the class [WakeHardware] (polls of the wake-up end)
      and the theorems.
    - FsOffsets: the tables of the 27 versions of FS.  Emummc: the class
      [EmuSystem] of the functions of FS, of the card driver and of FatFs that
      emummc calls, its state and monad [E] (outcomes: done, reported fatal
      error, undefined behaviour), and Modules Smc (smc.c), Fatal (fatal.c),
      EmuMMC (emummc.c) and Inject (main.c).
    - InjectProps: what the four generated instructions mean to the processor,
      the class [CodePatching] of writing an instruction, and a check of all
      tables.  EmummcInit: the class [QuietStart] (what the start calls leaves
      the code of FS alone) and the way of the configuration from the mailbox through
      the monitor's SMC into emummc.  EmummcProps: the classes [WorkingEmu] and
      [StartingCards] of cards and file systems that work, and the emulated
      eMMC.  EmummcThreads: the class [FsMutex] and Module Threads, the hooks as
      interleaved steps of any number of threads.  EmummcToy: Module Console, a
      concrete FS, card and file system for the witnesses.

    A function that touches the state is a definition in [M], [F] or [E] with the name
    it has in C; a buffer argument is the list of its bytes and a function that
    fills a buffer returns it.  The user page and the AMS windows are accessed
    through the L3 table and physical memory, not by value.  Function pointers
    are the constructors of an enumeration ([smc_handler], [smc_callback], ...)
    with the function that runs them.

    ** What the theorems show

    - SMC protocol (SmcProps): every step of the monitor (an SMC on any core, or
      a FIQ) is a step of a small protocol on the lock, the key and the
      callback; an outstanding key always has a callback; polling before the
      operation is done leaves the lock taken for ever.
    - Protection (SmcSafety): no SMC other than CPU_SUSPEND changes a word of
      the session, RNG, master and device key slots; register accesses stay within the
      whitelist and change only the masked bits; each SMC is reached by its id,
      other ids panic.
    - Security Engine (SeProps): key slots hold what was stored, RSA is modular
      exponentiation of big-endian numbers, PSS verification is that of RFC
      8017, the CMAC subkey step is doubling in GF(2^128).
    - Keys (KeyProps, CryptoProps): GenerateAesKek followed by LoadAesKey loads
      the key of the intended derivation; sealing and unsealing are inverse;
      master key detection finds the revision; OAEP unwrapping inverts the
      encoding; [gf128_mul] multiplies in GCM's field; the random cache always
      answers.
    - Configuration (ConfigProps): the answer of each configuration item, the
      effect of setting one, the device ID, what is kept of a boot
      configuration.
    - Memory (PageProps): a user page reference covers one page, copies round
      trip, the Atmosphere SMCs copy what they say and unmap their windows.
    - Boot (Package2Props, PageTableProps, BootProps): validated metadata
      describes disjoint sections within bounds, a relocation window always
      exists, the sections of a plaintext package2 land at their addresses; the
      boot page tables map every range of memory_map.h although its parts share
      one L3 table, and after the unmapping only TZRAM is executable; a core that
      CPU_ON starts reaches its entry point.
    - Power (PowerProps): CPU_ON then the jump delivers entry point and
      argument; core contexts and kernel carveouts survive sleep.
    - Cores (Sync): tickets, progress and, because of the loop that reads the
      own ticket four times, the absence of mutual exclusion.
    - Patching (IpsProps, BlzProps, KernelProps): an IPS file does the writes of
      its records and no other; the in-place decompression of a KIP inverts the
      encoding; the kernel search finds the first occurrence; a hook branches to
      its payload and back; each known kernel is patched without leaving it.
    - Rebuilding (IniProps, RebuildProps): merging archives keeps one process per
      title; the package2 the boot loader builds is loaded by the monitor with
      every byte of kernel and INI1 in place.
    - Boot loader keys (XtsProps, FuseeKeyProps): sector encryption is AES-XTS
      and decryption undoes it; a printed key file is parsed back; the slots the
      monitor expects hold the keys derived for the firmware.
    - Storage (RawDevProps, MountProps, EmuDevProps, StorageInv): a mounted
      partition is an array of bytes, behind AES-XTS if it is encrypted, for
      reading, writing and both after one another; the walk through the partition
      table sees its entries, and known ones become devices that can be read;
      package1 is found where the boot configuration table says; the tables keep
      their shape through all operations, however they end.  What the code gets
      wrong is stated too: a request that ends in the last sector is extended to
      its end, large encrypted transfers overflow the work buffer, and unmounting
      stops at the first unused slot.
    - Configuration (IniFileProps, LoaderProps, NxbootProps): the text of a
      configuration is parsed back entry by entry, and any text is read to its
      end; what BCT.ini sets is what the monitor loads from the mailbox; the
      payload loader takes its paths from BCT.ini and never loads a payload; what
      [xmemmove] moves, and what it leaves behind.
    - C library (LibCProps): the two versions of each memory and string function
      agree, end, and do what the C standard says.
    - Sleep (Lp0Props): TZRAM comes back from sleep byte for byte, and the core is
      started with exactly the image whose CMAC was saved; otherwise the console
      reboots.
    - Emummc (EmummcInit, EmummcProps, EmummcThreads): the configuration the boot
      loader wrote arrives, and FS is patched at the places of the table and
      nowhere else; requests are served like three arrays of bytes, in both modes;
      the files are found and opened; the cards are never used by two threads at
      once; the swap of the SD driver can lose the mutex of the SD card for ever.

    ** Bounds and fuel

    A poll of a status register that has no timeout is bounded by [soc_fuel], a
    parameter: running out is the outcome [Spin], as if the hardware never
    answered.  Theorems that a call returns assume a platform whose engine
    finishes, and then one poll suffices.  Polls with a timeout use the
    source's own limit (5001 reads in [cpu_on]).  Loops over constant ranges
    are folds over [range n]; the ten master key revisions and the MGF1 rounds
    are structural.  The search for a relocation window has fuel 8, and
    [Package2Props] proves that it needs at most 7.  A core alone enters the
    critical section in 15 steps.  In the boot loader the fuel is a length: each
    IPS record and each line of a key file takes at least one byte of its file,
    each step of the decompression and of the pattern search moves through its
    block, each XTS sector has a positive size; the theorems include that the
    loops end by themselves.  The loop over the work buffer of a partition has
    one round per sector as fuel.  A configuration file has a line per character
    at most, and the loop over a load list moves through its buffer of 0x200
    characters.  The polls of the sleep firmware have fuel [soc_fuel] too, and
    [WakeHardware] says that they end within it.  The loops of the C library have
    the length as fuel, those over strings the distance to the terminator.  In
    emummc the loop over the parts has 31 rounds and the setup of the SD card 5
    tries, the limits of the source; the loop over the path table is structural.

    ** Not modelled

    Caches, barriers and TLB maintenance: memory is coherent, and in Sync and
    EmummcThreads sequentially consistent.  Physical addresses of SE linked lists: the lists
    are given to the engine by content.  The handlers are atomic with respect to
    one another except in these two files.  The AES cipher, the hash and the firmware binaries
    are parameters.

    Of the monitor: the assembly entry code, the relocation of sections by the
    linker script's list and the stack address getters of the boot code, which
    depend on the linker, and the reboot stub, a jump in assembly.  Of the boot
    loader: the boot sequence around the modelled parts ([nxboot_main] and what
    follows it, main.c), which drives the display, TSEC and DRAM and ends with a
    jump; the file and directory operations of fs_dev.c, which are calls of
    FatFs; the buffer of newlib's stdio and the card driver.  Of the sleep
    firmware: start.s and the check of memory accesses against the carveouts.
    Of emummc: its copies of the card driver and of FatFs, the board code for
    I2C, GPIO and the regulator, its relocation, and the wrappers of smc.c that
    it does not call.

    Other programs of the repository: fusee-primary and fusee-mtc (hardware setup
    and DRAM training), sept (a second boot stage with copies of the drivers), the
    C++ system modules of stratosphere, troposphere and thermosphere.  Vendored
    libraries: FatFs, the display and compression libraries.  Properties of the
    modelled code that are stated nowhere: the encrypted path of package2 beyond
    its definition, what [bootup_misc_mmio] leaves in the protection registers,
    and [gcm_decrypt_key] as authenticated decryption. *)
From Stdlib Require Export ZArith Lia.
From stdpp Require Export base numbers list gmap.

#[global] Open Scope Z_scope.

(** ** C integer operators *)

Declare Scope c_scope.
Delimit Scope c_scope with C.
Notation "a .& b" := (Z.land a b) (at level 40, left associativity) : c_scope.
Notation "a .| b" := (Z.lor a b) (at level 50, left associativity) : c_scope.
Notation "a .^ b" := (Z.lxor a b) (at level 45, left associativity) : c_scope.
Notation "a <<. n" := (Z.shiftl a n) (at level 39, left associativity) : c_scope.
Notation "a >>. n" := (Z.shiftr a n) (at level 39, left associativity) : c_scope.
#[global] Open Scope c_scope.

(** Conversions to the fixed-width unsigned types: reduction modulo [2^w]. *)
Definition u8 (x : Z) : Z := x mod 2 ^ 8.
Definition u16 (x : Z) : Z := x mod 2 ^ 16.
Definition u32 (x : Z) : Z := x mod 2 ^ 32.
Definition u64 (x : Z) : Z := x mod 2 ^ 64.

(** [~x] on a [uint32_t] / [uint64_t]. *)
Definition not32 (x : Z) : Z := u32 (Z.lnot x).
Definition not64 (x : Z) : Z := u64 (Z.lnot x).

Definition is_u8 (x : Z) : Prop := 0 <= x < 2 ^ 8.
Definition is_u32 (x : Z) : Prop := 0 <= x < 2 ^ 32.
Definition is_u64 (x : Z) : Prop := 0 <= x < 2 ^ 64.

Lemma u8_range x : is_u8 (u8 x).
Proof. apply Z.mod_pos_bound. lia. Qed.
Lemma u32_range x : is_u32 (u32 x).
Proof. apply Z.mod_pos_bound. lia. Qed.
Lemma u64_range x : is_u64 (u64 x).
Proof. apply Z.mod_pos_bound. lia. Qed.
Lemma u8_id x : is_u8 x -> u8 x = x.
Proof. apply Z.mod_small. Qed.
Lemma u32_id x : is_u32 x -> u32 x = x.
Proof. apply Z.mod_small. Qed.
Lemma u64_id x : is_u64 x -> u64 x = x.
Proof. apply Z.mod_small. Qed.

(** ** Byte buffers *)

(** A buffer is a list of bytes; an index is the C offset.  Out-of-range reads
    give 0: every use in the models is within the buffer's size, which the
    components check. *)
Definition byte_at (buf : list Z) (i : Z) : Z := nth (Z.to_nat i) buf 0.

Definition is_bytes (buf : list Z) : Prop := Forall is_u8 buf.

(** Little-endian value of a byte string, and its inverse. *)
Fixpoint le_value (bs : list Z) : Z :=
  match bs with [] => 0 | b :: r => b + 2 ^ 8 * le_value r end.

Fixpoint le_bytes (n : nat) (v : Z) : list Z :=
  match n with O => [] | S m => v mod 2 ^ 8 :: le_bytes m (v / 2 ^ 8) end.

Definition slice (buf : list Z) (off size : Z) : list Z :=
  take (Z.to_nat size) (drop (Z.to_nat off) buf).

(** [memcpy(buf + off, src, |src|)]: bytes past the end of [buf] are not written. *)
Definition splice (buf : list Z) (off : Z) (src : list Z) : list Z :=
  take (Z.to_nat off) buf ++ take (length buf - Z.to_nat off) src
    ++ drop (Z.to_nat off + length src) buf.

(** utils.h: [read32le], [read32be], [read64le], [read64be], [write32be], [write64be]. *)
Definition read32le (buf : list Z) (off : Z) : Z := le_value (slice buf off 4).
Definition read32be (buf : list Z) (off : Z) : Z := le_value (rev (slice buf off 4)).
Definition read64le (buf : list Z) (off : Z) : Z := le_value (slice buf off 8).
Definition read64be (buf : list Z) (off : Z) : Z := le_value (rev (slice buf off 8)).
Definition write32be (buf : list Z) (off v : Z) : list Z := splice buf off (rev (le_bytes 4 v)).
Definition write64be (buf : list Z) (off v : Z) : list Z := splice buf off (rev (le_bytes 8 v)).
Definition bswap32 (v : Z) : Z := le_value (rev (le_bytes 4 v)).
Definition bswap64 (v : Z) : Z := le_value (rev (le_bytes 8 v)).

(** Pointwise XOR, as the [a[i] ^= b[i]] loops compute it. *)
Definition xor_bytes (a b : list Z) : list Z := zip_with Z.lxor a b.

Definition zeros (n : nat) : list Z := replicate n 0.

(** The 32-bit little-endian words of a buffer. *)
Fixpoint words32 (n : nat) (buf : list Z) : list Z :=
  match n with O => [] | S m => le_value (take 4 buf) :: words32 m (drop 4 buf) end.

Definition bytes_of_words32 (ws : list Z) : list Z := ws ≫= le_bytes 4.
Definition bytes_of_words64 (ws : list Z) : list Z := ws ≫= le_bytes 8.

(** The bytes of a pair of [uint64_t] (the [uint64_t x[2]] buffers). *)
Definition bytes_of_pair (a b : Z) : list Z := le_bytes 8 a ++ le_bytes 8 b.

(** Point update of a register file or memory. *)
Definition upd (f : Z -> Z) (a v : Z) : Z -> Z := fun b => if b =? a then v else f b.

(** Decides the integer comparisons of the goal that [lia] can. *)
Ltac zdec := repeat match goal with
  | |- context [?a <=? ?b] => first [rewrite (proj2 (Z.leb_le a b)) by lia | rewrite (proj2 (Z.leb_gt a b)) by lia]
  | |- context [?a <? ?b] => first [rewrite (proj2 (Z.ltb_lt a b)) by lia | rewrite (proj2 (Z.ltb_ge a b)) by lia]
  | |- context [?a =? ?b] => first [rewrite (proj2 (Z.eqb_eq a b)) by lia | rewrite (proj2 (Z.eqb_neq a b)) by lia]
  | |- context [?a >=? ?b] => rewrite (Z.geb_leb a b)
  | |- context [?a >? ?b] => rewrite (Z.gtb_ltb a b)
  end; cbn [andb orb negb].

(** Successive offsets of a counted loop. *)
Definition range (n : Z) : list Z := seqZ 0 n.

Lemma elem_of_range n x : x ∈ range n <-> 0 <= x < n.
Proof. unfold range. rewrite elem_of_seqZ. lia. Qed.

(** [|] of a shifted slot number and an index below the shift is a sum. *)
Lemma lor_shiftl_add a b n : 0 <= n -> 0 <= b < 2 ^ n -> (a <<. n) .| b = a * 2 ^ n + b.
Proof.
  intros Hn Hb. rewrite Z.shiftl_mul_pow2 by done. rewrite <- Z.add_lor_land.
  enough (a * 2 ^ n .& b = 0) by lia. rewrite <- Z.shiftl_mul_pow2 by done.
  apply Z.bits_inj'. intros k Hk. rewrite Z.land_spec, Z.shiftl_spec, Z.bits_0 by done.
  destruct (decide (k < n)) as [Hlt|Hge]; [by rewrite Z.testbit_neg_r by lia|].
  destruct (decide (b = 0)) as [->|Hnz]; [by rewrite Z.bits_0, andb_false_r|].
  rewrite (Z.bits_above_log2 b k), andb_false_r; [done|lia|].
  assert (Z.log2 b < n) by (apply Z.log2_lt_pow2; lia). lia.
Qed.

Lemma upd_eq f a v : upd f a v a = v.
Proof. unfold upd. by rewrite Z.eqb_refl. Qed.
Lemma upd_ne f a b v : b <> a -> upd f a v b = f b.
Proof. intros H. unfold upd. by rewrite (proj2 (Z.eqb_neq _ _) H). Qed.

Lemma le_value_bound bs : is_bytes bs -> 0 <= le_value bs < 2 ^ (8 * Z.of_nat (length bs)).
Proof.
  induction 1 as [|b r Hb _ IH]; [simpl; lia|].
  cbn [le_value length]. unfold is_u8 in Hb.
  replace (8 * Z.of_nat (S (length r))) with (8 + 8 * Z.of_nat (length r)) by lia.
  rewrite Z.pow_add_r by lia. nia.
Qed.

Lemma length_le_bytes n v : length (le_bytes n v) = n.
Proof. revert v. induction n; intros; simpl; auto. Qed.

Lemma le_bytes_is_bytes n v : is_bytes (le_bytes n v).
Proof.
  revert v. induction n as [|n IH]; intros v; cbn [le_bytes]; [constructor|].
  constructor; [apply Z.mod_pos_bound; lia|apply IH].
Qed.

Lemma le_bytes_value bs : is_bytes bs -> le_bytes (length bs) (le_value bs) = bs.
Proof.
  induction 1 as [|b r Hb _ IH]; [done|]. cbn [le_value length le_bytes]. unfold is_u8 in Hb.
  rewrite (Z.add_comm b), (Z.mul_comm (2 ^ 8)).
  rewrite Z.div_add_l by lia. rewrite (Z.div_small b) by lia. rewrite Z.add_0_r, IH.
  f_equal. rewrite Z.add_comm, Z.mod_add by lia. by apply Z.mod_small.
Qed.

Lemma le_value_bytes n v : 0 <= v < 2 ^ (8 * Z.of_nat n) -> le_value (le_bytes n v) = v.
Proof.
  revert v. induction n as [|n IH]; intros v Hv; [simpl in *; lia|]. cbn [le_bytes le_value].
  replace (8 * Z.of_nat (S n)) with (8 + 8 * Z.of_nat n) in Hv by lia.
  rewrite Z.pow_add_r in Hv by lia.
  rewrite IH.
  - pose proof (Z.div_mod v (2 ^ 8)). lia.
  - split; [apply Z.div_pos; lia|]. apply Z.div_lt_upper_bound; lia.
Qed.

Lemma le_value_app a b : le_value (a ++ b) = le_value a + 2 ^ (8 * Z.of_nat (length a)) * le_value b.
Proof.
  induction a as [|x a IH]; [simpl; lia|]. cbn [le_value app length]. rewrite IH.
  replace (8 * Z.of_nat (S (length a))) with (8 + 8 * Z.of_nat (length a)) by lia.
  rewrite Z.pow_add_r by lia. lia.
Qed.

Lemma xor_bytes_involutive a b :
  (length a <= length b)%nat -> xor_bytes (xor_bytes a b) b = a.
Proof.
  revert b. induction a as [|x a IH]; intros [|y b] H; try done; [cbn in H; lia|].
  cbn in *. f_equal; [by rewrite Z.lxor_assoc, Z.lxor_nilpotent, Z.lxor_0_r|]. apply IH. lia.
Qed.

Lemma length_xor_bytes a b : length (xor_bytes a b) = Nat.min (length a) (length b).
Proof. unfold xor_bytes. revert b; induction a as [|x a IH]; intros [|y b]; simpl; auto. Qed.

Lemma length_slice buf off size :
  0 <= off -> 0 <= size -> off + size <= Z.of_nat (length buf) ->
  length (slice buf off size) = Z.to_nat size.
Proof. intros. unfold slice. rewrite length_take, length_drop. lia. Qed.

Lemma slice_is_bytes buf off size : is_bytes buf -> is_bytes (slice buf off size).
Proof. intros. by apply Forall_take, Forall_drop. Qed.

Lemma length_splice buf off src :
  0 <= off <= Z.of_nat (length buf) -> length (splice buf off src) = length buf.
Proof.
  intros. unfold splice. rewrite !length_app, !length_take, length_drop. lia.
Qed.

Lemma lxor_u8 a b : is_u8 a -> is_u8 b -> is_u8 (a .^ b).
Proof.
  intros Ha Hb. rewrite <- (u8_id a Ha), <- (u8_id b Hb).
  replace (u8 a .^ u8 b) with (u8 (a .^ b)); [apply u8_range|].
  unfold u8. apply Z.bits_inj'. intros k Hk. rewrite Z.lxor_spec, !Z.testbit_mod_pow2 by lia.
  rewrite Z.lxor_spec. by destruct (k <? 8).
Qed.
Lemma testbit_u8 x k : is_u8 x -> 8 <= k -> Z.testbit x k = false.
Proof. intros Hx Hk. rewrite <- (u8_id x Hx). unfold u8. by apply Z.mod_pow2_bits_high. Qed.

(** XOR with a byte stays within the low byte. *)
Lemma lxor_low a x y : is_u8 x -> is_u8 y -> (a * 2 ^ 8 + x) .^ y = a * 2 ^ 8 + (x .^ y).
Proof.
  intros Hx Hy. rewrite <- !lor_shiftl_add by (done || lia || by apply lxor_u8).
  apply Z.bits_inj'. intros k Hk. rewrite Z.lxor_spec, !Z.lor_spec, Z.lxor_spec, Z.shiftl_spec by done.
  destruct (decide (k < 8)); [by rewrite Z.testbit_neg_r by lia|].
  by rewrite !(testbit_u8 _ k) by (done || lia); destruct (Z.testbit a _).
Qed.

(** ** Buffers by index *)

Lemma bytes_ext a b : length a = length b ->
  (forall i, 0 <= i < Z.of_nat (length a) -> byte_at a i = byte_at b i) -> a = b.
Proof.
  intros Hl H. apply (nth_ext _ _ 0 0); [done|]. intros n Hn.
  specialize (H (Z.of_nat n)). unfold byte_at in H. rewrite Nat2Z.id in H. apply H. lia.
Qed.

Lemma byte_at_lookup l i : 0 <= i -> byte_at l i = default 0 (l !! Z.to_nat i).
Proof. intros _. unfold byte_at. apply nth_lookup. Qed.

Lemma byte_at_app_l a b i : 0 <= i < Z.of_nat (length a) -> byte_at (a ++ b) i = byte_at a i.
Proof. intros. unfold byte_at. apply app_nth1. lia. Qed.
Lemma byte_at_app_r a b i : Z.of_nat (length a) <= i ->
  byte_at (a ++ b) i = byte_at b (i - Z.of_nat (length a)).
Proof. intros. unfold byte_at. rewrite app_nth2 by lia. f_equal. lia. Qed.

Lemma byte_at_cons x l i : 1 <= i -> byte_at (x :: l) i = byte_at l (i - 1).
Proof. intros. apply (byte_at_app_r [x] l i). cbn [length]. lia. Qed.

Lemma byte_at_drop l n i : 0 <= i -> byte_at (drop n l) i = byte_at l (Z.of_nat n + i).
Proof.
  intros. rewrite !byte_at_lookup, lookup_drop by lia. do 2 f_equal. lia.
Qed.
Lemma byte_at_take l n i : 0 <= i < Z.of_nat n -> byte_at (take n l) i = byte_at l i.
Proof. intros. rewrite !byte_at_lookup, lookup_take_lt by lia. done. Qed.

Lemma byte_at_slice l off n i : 0 <= off -> 0 <= i < n -> byte_at (slice l off n) i = byte_at l (off + i).
Proof. intros. unfold slice. rewrite byte_at_take, byte_at_drop by lia. f_equal. lia. Qed.

Lemma byte_at_replicate n v i : 0 <= i < Z.of_nat n -> byte_at (replicate n v) i = v.
Proof. intros. rewrite byte_at_lookup, lookup_replicate_2 by lia. done. Qed.

Lemma byte_at_splice_in l off src i :
  0 <= off -> off + Z.of_nat (length src) <= Z.of_nat (length l) -> off <= i < off + Z.of_nat (length src) ->
  byte_at (splice l off src) i = byte_at src (i - off).
Proof.
  intros. unfold splice. rewrite byte_at_app_r; rewrite length_take_le by lia; [|lia].
  rewrite byte_at_app_l by (rewrite length_take; lia). rewrite byte_at_take by lia. f_equal. lia.
Qed.

Lemma byte_at_splice_out l off src i :
  0 <= off -> off + Z.of_nat (length src) <= Z.of_nat (length l) -> 0 <= i ->
  ~ (off <= i < off + Z.of_nat (length src)) -> byte_at (splice l off src) i = byte_at l i.
Proof.
  intros Ho Hl Hi Hn. unfold splice. destruct (decide (i < off)).
  - rewrite byte_at_app_l by (rewrite length_take; lia). apply byte_at_take. lia.
  - rewrite byte_at_app_r; rewrite length_take_le by lia; [|lia].
    rewrite (take_ge src), byte_at_app_r by lia.
    rewrite byte_at_drop by lia. f_equal. lia.
Qed.

Lemma slice_full l n : n = Z.of_nat (length l) -> slice l 0 n = l.
Proof. intros ->. unfold slice. rewrite drop_0, take_ge by lia. done. Qed.

Lemma slice_app_at a b off n : off = Z.of_nat (length a) -> slice (a ++ b) off n = take (Z.to_nat n) b.
Proof. intros ->. unfold slice. rewrite Nat2Z.id, drop_app_length. done. Qed.

Lemma slice_splice_eq l off src n : 0 <= off -> off + Z.of_nat (length src) <= Z.of_nat (length l) ->
  n = Z.of_nat (length src) -> slice (splice l off src) off n = src.
Proof.
  intros Ho Hl ->. apply bytes_ext; rewrite length_slice by (rewrite ?length_splice; lia); [lia|].
  intros i Hi. rewrite byte_at_slice, byte_at_splice_in by lia. f_equal. lia.
Qed.
Lemma slice_splice_ne l off src off' n :
  0 <= off -> off + Z.of_nat (length src) <= Z.of_nat (length l) -> 0 <= off' -> 0 <= n ->
  off' + n <= Z.of_nat (length l) -> off' + n <= off \/ off + Z.of_nat (length src) <= off' ->
  slice (splice l off src) off' n = slice l off' n.
Proof.
  intros. apply bytes_ext; rewrite !length_slice by (rewrite ?length_splice; lia); [lia|].
  intros i Hi. rewrite !byte_at_slice, byte_at_splice_out by lia. done.
Qed.
Lemma splice_app_at a b c src off : off = Z.of_nat (length a) -> length b = length src ->
  splice (a ++ b ++ c) off src = a ++ src ++ c.
Proof.
  intros -> Hl. unfold splice. rewrite Nat2Z.id, take_app_length, !length_app.
  rewrite (take_ge src) by lia. rewrite <- Hl, drop_app_add, drop_app_length. done.
Qed.
Lemma slice_app_mid a b c off n : off = Z.of_nat (length a) -> n = Z.of_nat (length b) ->
  slice (a ++ b ++ c) off n = b.
Proof. intros -> ->. unfold slice. by rewrite !Nat2Z.id, drop_app_length, take_app_length. Qed.
