(* ===== verification/Sync.v ===== *)
(** synchronization.h: the critical section around a core's way in and out of
    the monitor while the MMU is off (the boot critical section).

    The four cores run [critical_section_enter] and [critical_section_leave]
    interleaved; each step of a core is one access to the shared customers
    (they are volatile, on memory without caches).  A core that waits in a loop
    steps to itself.  A schedule is the sequence of the cores that step. *)
From S2P Require Import Prelude.

Module CriticalSection.

(** [critical_section_t]: ticket number (7 bits) and [is_entering] of each core. *)
Definition critical_section_t : Type := list (Z * bool).
Definition ticket_number (cs : critical_section_t) (i : nat) : Z := fst (nth i cs (0, false)).
Definition is_entering (cs : critical_section_t) (i : nat) : bool := snd (nth i cs (0, false)).
Definition set_ticket_number (v : Z) (i : nat) (cs : critical_section_t) : critical_section_t :=
  alter (fun c => (v mod 2 ^ 7, snd c)) i cs.
Definition set_is_entering (b : bool) (i : nat) (cs : critical_section_t) : critical_section_t :=
  alter (fun c => (fst c, b)) i cs.

(** Where a core is: its next access, with the loop counter [i] and
    [my_ticket_number]. *)
Inductive pc :=
| Outside                                  (* about to set is_entering *)
| ReadTicket (i : nat) (my : Z)            (* first loop *)
| StoreTicket (my : Z)
| ClearEntering (my : Z)
| WaitEntering (i : nat) (my : Z)          (* second loop, first do/while *)
| WaitTicket (i : nat) (my : Z)            (* second loop, second do/while *)
| Inside.                                  (* entered, about to leave *)
#[export] Instance pc_eq_dec : EqDecision pc.
Proof. solve_decision. Defined.

Record cores := mk_cores { customers : critical_section_t; pcs : list pc }.

Definition initial : cores := mk_cores (replicate 4 (0, false)) (replicate 4 Outside).

(** One access of core [id]: [critical_section_enter] up to [Inside], then
    [critical_section_leave]. *)
Definition core_step (id : nat) (p : pc) (cs : critical_section_t) : critical_section_t * pc :=
  match p with
  | Outside => (set_is_entering true id cs, ReadTicket 0 0)
  | ReadTicket i my =>
      let tmp := ticket_number cs id in
      let my := if tmp >? my then tmp else my in
      (cs, if (S i <? 4)%nat then ReadTicket (S i) my else StoreTicket (u8 (my + 1)))
  | StoreTicket my => (set_ticket_number my id cs, ClearEntering my)
  | ClearEntering my => (set_is_entering false id cs, WaitEntering 0 my)
  | WaitEntering i my => (cs, if is_entering cs i then WaitEntering i my else WaitTicket i my)
  | WaitTicket i my =>
      let tmp := ticket_number cs i in
      (cs, if negb (tmp =? 0) && ((tmp <? my) || ((tmp =? my) && (i <? id)%nat)) then WaitTicket i my
           else if (S i <? 4)%nat then WaitEntering (S i) my else Inside)
  | Inside => (set_ticket_number 0 id cs, Outside)
  end.

Definition pc_of (s : cores) (id : nat) : pc := nth id (pcs s) Outside.
Definition step (s : cores) (id : nat) : cores :=
  let '(cs, p) := core_step id (pc_of s id) (customers s) in mk_cores cs (<[id := p]> (pcs s)).
Definition run (sched : list nat) (s : cores) : cores := foldl step s sched.

(** The states the four cores can reach. *)
Inductive reachable : cores -> Prop :=
| reachable_initial : reachable initial
| reachable_step s id : reachable s -> (id < 4)%nat -> reachable (step s id).

(** What a core's place says about its customer record. *)
Definition holds_ticket (p : pc) : bool :=
  match p with Outside | ReadTicket _ _ | StoreTicket _ => false | _ => true end.
Definition entering (p : pc) : bool :=
  match p with ReadTicket _ _ | StoreTicket _ | ClearEntering _ => true | _ => false end.
Definition customer_of (p : pc) : Z * bool := (if holds_ticket p then 1 else 0, entering p).
Definition pc_ok (p : pc) : Prop :=
  match p with
  | ReadTicket i my => (i < 4)%nat /\ my = 0
  | StoreTicket my | ClearEntering my => my = 1
  | WaitEntering i my | WaitTicket i my => (i < 4)%nat /\ my = 1
  | Outside | Inside => True
  end.
Definition consistent (s : cores) : Prop :=
  length (pcs s) = 4%nat /\ Forall pc_ok (pcs s) /\ customers s = map customer_of (pcs s).

Lemma ticket_of l i : ticket_number (map customer_of l) i = fst (customer_of (nth i l Outside)).
Proof. unfold ticket_number. by rewrite <- (map_nth customer_of). Qed.
Lemma entering_of l i : is_entering (map customer_of l) i = entering (nth i l Outside).
Proof. unfold is_entering. change (0, false) with (customer_of Outside). by rewrite map_nth. Qed.
Lemma alter_customer f id p l :
  (id < length l)%nat -> f (customer_of (nth id l Outside)) = customer_of p ->
  alter f id (map customer_of l) = map customer_of (<[id := p]> l).
Proof.
  revert id. induction l as [|q l IH]; intros [|id] Hl Hf; cbn in *; [lia|lia|by rewrite Hf|].
  f_equal. apply IH; [lia|done].
Qed.
Lemma same_customer id p l :
  (id < length l)%nat -> customer_of (nth id l Outside) = customer_of p ->
  map customer_of l = map customer_of (<[id := p]> l).
Proof. intros Hl Hc. rewrite <- (alter_customer (fun c => c)) by done. by rewrite list_alter_id. Qed.
Lemma nth_insert id p l : (id < length l)%nat -> nth id (<[id := p]> l) Outside = p.
Proof. intros H. apply nth_lookup_Some. by apply list_lookup_insert_eq. Qed.
Lemma nth_insert_ne i id p l : i <> id -> nth i (<[id := p]> l) Outside = nth i l Outside.
Proof. intros H. by rewrite !nth_lookup, list_lookup_insert_ne. Qed.

(** A core's step keeps its own record in line with its place. *)
Lemma core_step_ok l id :
  (id < length l)%nat -> Forall pc_ok l ->
  let '(cs, p) := core_step id (nth id l Outside) (map customer_of l) in
  pc_ok p /\ cs = map customer_of (<[id := p]> l).
Proof.
  intros Hl Hok. assert (Hp : pc_ok (nth id l Outside)) by (apply Forall_nth; [done|lia]).
  destruct (nth id l Outside) as [|i my|my|my|i my|i my|] eqn:E; cbn [core_step].
  - split; [split; [lia|done]|]. by apply alter_customer; [|rewrite E].
  - destruct Hp as [Hi ->]. rewrite ticket_of, E. cbn [customer_of holds_ticket fst].
    change (0 >? 0) with false. cbv iota. destruct (Nat.ltb_spec (S i) 4); (split; [done|]);
      by apply same_customer; [|rewrite E].
  - cbn in Hp. subst my. split; [done|]. by apply alter_customer; [|rewrite E].
  - cbn in Hp. subst my. split; [split; [lia|done]|]. by apply alter_customer; [|rewrite E].
  - destruct Hp as [Hi ->]. destruct (is_entering _ i); (split; [done|]); by apply same_customer; [|rewrite E].
  - destruct Hp as [Hi ->]. destruct (_ && _); [split; [done|]; by apply same_customer; [|rewrite E]|].
    destruct (Nat.ltb_spec (S i) 4); (split; [done|]); by apply same_customer; [|rewrite E].
  - split; [done|]. by apply alter_customer; [|rewrite E].
Qed.

Lemma step_consistent s id : consistent s -> (id < 4)%nat -> consistent (step s id).
Proof.
  intros (L & O & C) Hi. destruct s as [cs l]. cbn in *. subst cs. unfold step, pc_of. cbn.
  pose proof (core_step_ok l id ltac:(lia) O) as H. destruct (core_step _ _ _) as [cs p].
  destruct H as [Hp Hc]. split; [|split]; cbn; [by rewrite length_insert|by apply Forall_insert|done].
Qed.
Lemma reachable_consistent s : reachable s -> consistent s.
Proof.
  induction 1; [|by apply step_consistent]. split; [done|]. split; [by repeat constructor|done].
Qed.

Lemma consistent_customer s id :
  consistent s -> ticket_number (customers s) id = (if holds_ticket (pc_of s id) then 1 else 0) /\
    is_entering (customers s) id = entering (pc_of s id).
Proof. intros (_ & _ & ->). by rewrite ticket_of, entering_of. Qed.

(** In every interleaving the ticket a core takes is 1, whatever the other
    cores hold (the first loop reads its own record four times instead of the
    others'): its ticket is 1 from the moment it is stored until the core
    leaves and 0 otherwise, and [is_entering] is set exactly in the doorway. *)
Theorem critical_section_tickets s id :
  reachable s -> ticket_number (customers s) id = (if holds_ticket (pc_of s id) then 1 else 0) /\
    is_entering (customers s) id = entering (pc_of s id).
Proof. intros H. by apply consistent_customer, reachable_consistent. Qed.

(** Core [j] is past its checks of core [i]. *)
Definition passed (i : nat) (p : pc) : bool :=
  match p with WaitEntering k _ | WaitTicket k _ => (i <? k)%nat | Inside => true | _ => false end.

Lemma step_other s id j : j <> id -> pc_of (step s id) j = pc_of s j.
Proof. intros H. unfold pc_of, step, pc_of. destruct (core_step _ _ _). by apply nth_insert_ne. Qed.
Lemma step_self s id : (id < length (pcs s))%nat -> pc_of (step s id) id = snd (core_step id (pc_of s id) (customers s)).
Proof. intros H. unfold pc_of, step, pc_of. destruct (core_step _ _ _). by apply nth_insert. Qed.
Lemma pc_of_ok s j : consistent s -> pc_ok (pc_of s j).
Proof.
  intros (_ & O & _). unfold pc_of. destruct (decide (j < length (pcs s))%nat); [by apply Forall_nth|].
  by rewrite nth_overflow by lia.
Qed.

(** While core [i] holds its ticket no step takes a higher core past it. *)
Lemma step_not_passed s i j id :
  consistent s -> (i < j < 4)%nat -> holds_ticket (pc_of s i) = true -> passed i (pc_of s j) = false ->
  passed i (pc_of (step s id) j) = false.
Proof.
  intros Hc Hij Hh Hp. destruct (decide (j = id)) as [<-|Hne]; [|by rewrite step_other].
  rewrite step_self by (destruct Hc as [-> _]; lia). pose proof (pc_of_ok s j Hc) as Hok.
  destruct (pc_of s j) as [|k my|my|my|k my|k my|]; cbn [core_step passed snd pc_ok] in *; try done.
  - by destruct k as [|[|[|[|]]]].
  - by destruct (is_entering _ k).
  - destruct Hok as [Hk ->]. apply Nat.ltb_ge in Hp. destruct (Nat.eqb_spec k i) as [->|Hki].
    + rewrite (proj1 (consistent_customer s i Hc)), Hh. rewrite (proj2 (Nat.ltb_lt i j)) by lia. apply Nat.ltb_irrefl.
    + destruct (_ && _); [by apply Nat.ltb_ge|]. rewrite (proj2 (Nat.ltb_lt (S k) 4)) by lia. apply Nat.ltb_ge. lia.
Qed.

(** What the section does guarantee is priority by core number: a core
    that has not yet passed its checks of a lower-numbered core does not enter
    as long as that core keeps its ticket, in any interleaving. *)
Theorem lower_core_blocks s i j sched :
  reachable s -> (i < j < 4)%nat -> Forall (fun id => (id < 4)%nat) sched ->
  (forall k, holds_ticket (pc_of (run (take k sched) s) i) = true) ->
  passed i (pc_of s j) = false -> passed i (pc_of (run sched s) j) = false /\ pc_of (run sched s) j <> Inside.
Proof.
  intros Hr Hij Hs Hh Hp.
  enough (H : passed i (pc_of (run sched s) j) = false) by (split; [done|]; by intros E; rewrite E in H).
  apply reachable_consistent in Hr. revert s Hr Hh Hp. induction Hs as [|id sched Hid _ IH]; intros s Hc Hh Hp; [done|].
  change (run (id :: sched) s) with (run sched (step s id)). apply IH.
  - by apply step_consistent.
  - intros k. apply (Hh (S k)).
  - apply step_not_passed; [done..| |done]. apply (Hh O).
Qed.

(** The rest of the section's users when core [id] arrives. *)
Definition room_for (s : cores) (id : nat) : Prop :=
  pc_of s id = Outside /\
  forall j, (j < 4)%nat -> j <> id -> pc_of s j = Outside \/ ((id < j)%nat /\ pc_of s j = Inside).

Lemma enter_run s id :
  consistent s -> (id < 4)%nat -> room_for s id ->
  run (replicate 15 id) s = mk_cores (map customer_of (<[id := Inside]> (pcs s))) (<[id := Inside]> (pcs s)).
Proof.
  intros (L & _ & C) Hid [Ho Hr]. destruct s as [cs l]. unfold pc_of in *. cbn [customers pcs] in *. subst cs.
  destruct l as [|a [|b [|c [|d [|]]]]]; try done. clear L.
  pose proof (Hr 0%nat) as R0. pose proof (Hr 1%nat) as R1.
  pose proof (Hr 2%nat) as R2. pose proof (Hr 3%nat) as R3. clear Hr. cbn [nth] in *.
  destruct id as [|[|[|[|]]]]; [..|lia]; subst;
    try destruct (R0 ltac:(lia) ltac:(lia)) as [->|[? ->]]; try destruct (R1 ltac:(lia) ltac:(lia)) as [->|[? ->]];
    try destruct (R2 ltac:(lia) ltac:(lia)) as [->|[? ->]]; try destruct (R3 ltac:(lia) ltac:(lia)) as [->|[? ->]];
    try lia; vm_compute; reflexivity.
Qed.

(** A core enters in 15 accesses of its own, without waiting, whenever the
    other cores are outside or are higher-numbered cores inside; the ones inside
    stay there. *)
Theorem critical_section_enters s id :
  reachable s -> (id < 4)%nat -> room_for s id ->
  pc_of (run (replicate 15 id) s) id = Inside /\
  forall j, j <> id -> pc_of (run (replicate 15 id) s) j = pc_of s j.
Proof.
  intros Hr Hid Hroom. apply reachable_consistent in Hr. rewrite enter_run by done. unfold pc_of. cbn [pcs].
  split; [apply nth_insert; destruct Hr as [-> _]; lia|]. intros j Hj. by apply nth_insert_ne.
Qed.

Lemma reachable_run sched s : reachable s -> Forall (fun id => (id < 4)%nat) sched -> reachable (run sched s).
Proof.
  intros Hr Hs. revert s Hr. induction Hs as [|id sched Hid _ IH]; intros s Hr; [done|]. by apply IH, reachable_step.
Qed.

(** C40: the critical section does not exclude: when the cores arrive in
    descending order they all enter, and the four are inside at once. *)
Theorem critical_section_not_exclusive :
  exists s, reachable s /\ forall id, (id < 4)%nat -> pc_of s id = Inside.
Proof.
  exists (run ([3; 2; 1; 0]%nat ≫= replicate 15) initial). split.
  - apply reachable_run; [apply reachable_initial|]. by repeat constructor.
  - intros [|[|[|[|]]]] H; [reflexivity..|lia].
Qed.

(** Core 1 is inside; core 2 arrives, takes its ticket and waits at core 1 even
    though core 3 goes through the doorway meanwhile. *)
Lemma lower_core_blocks_witness :
  let s := run (replicate 15 1%nat) initial in
  let sched := replicate 20 2%nat ++ replicate 9 3%nat ++ replicate 5 2%nat in
  passed 1 (pc_of (run sched s) 2) = false /\ pc_of (run sched s) 2 <> Inside.
Proof.
  apply (lower_core_blocks (run (replicate 15 1%nat) initial) 1 2).
  - apply reachable_run; [apply reachable_initial|by repeat constructor].
  - lia.
  - by repeat constructor.
  - intros k. do 35 (destruct k as [|k]; [reflexivity|]). reflexivity.
  - reflexivity.
Defined.

(** Core 0 walks in while core 3 is inside. *)
Lemma critical_section_enters_witness :
  let s := run (replicate 15 3%nat) initial in
  pc_of (run (replicate 15 0%nat) s) 0 = Inside /\
  forall j, j <> 0%nat -> pc_of (run (replicate 15 0%nat) s) j = pc_of s j.
Proof.
  apply (critical_section_enters (run (replicate 15 3%nat) initial) 0).
  - apply reachable_run; [apply reachable_initial|by repeat constructor].
  - lia.
  - split; [reflexivity|]. intros [|[|[|[|]]]] Hj Hn; try lia; [by left..|right; split; [lia|reflexivity]].
Defined.

Lemma critical_section_tickets_witness :
  let s := run (replicate 15 3%nat ++ replicate 7 1%nat) initial in
  ticket_number (customers s) 1 = 1 /\ is_entering (customers s) 1 = false.
Proof.
  apply (critical_section_tickets (run (replicate 15 3%nat ++ replicate 7 1%nat) initial) 1).
  apply reachable_run; [apply reachable_initial|by repeat constructor].
Defined.
End CriticalSection.
