(* ===== verification/State.v ===== *)
(** The state of the secure monitor and the monad its code runs in.

    One record per C file holds that file's [static] globals under their C
    names; [World] collects them with the hardware state the code reads and
    writes.  [M] is the monad of every function that touches the state: a
    function returns, panics ([panic] never returns), spins forever, or takes a
    fault on an unmapped address or a NULL function pointer. *)
From S2P Require Import Prelude.

(** ** Record update *)

Class Eta (R : Type) := eta : R -> R.
Class Updater {R T : Type} (proj : R -> T) := update : (T -> T) -> R -> R.
Arguments update {R T} proj {_} f r.

Ltac solve_updater :=
  match goal with
  | |- @Updater ?R ?T ?proj =>
      let i := constr:(_ : Eta R) in
      let e := eval hnf in i in
      let p := eval pattern proj in e in
      match p with
      | ?body _ =>
          let t := constr:(fun f : T -> T => body (fun x => f (proj x))) in
          let t := eval cbv beta in t in
          exact t
      end
  end.
#[export] Hint Extern 1 (Updater _) => solve_updater : typeclass_instances.

Declare Scope record_scope.
Notation "w <| proj := v |>" := (update proj (fun _ => v) w)
  (at level 1, left associativity, format "w  <| proj  :=  v |>") : record_scope.
Notation "w <| proj ::= f |>" := (update proj f w)
  (at level 1, left associativity, format "w  <| proj  ::=  f |>") : record_scope.
#[global] Open Scope record_scope.

(** ** Hardware *)

(** The Security Engine as the driver sees it: its register file, by the byte
    offset in [tegra_se_t] (se.h), and the two key tables behind the
    [*_KEYTABLE_ADDR] / [*_KEYTABLE_DATA] ports, by key table address. *)
Record se_hw := mk_se_hw {
  se_regs : Z -> Z;
  aes_keytable : Z -> Z;
  rsa_keytable : Z -> Z }.
#[export] Instance eta_se_hw : Eta se_hw := fun x =>
  mk_se_hw (se_regs x) (aes_keytable x) (rsa_keytable x).

(** ** Globals, per source file *)

(** se.c: the two functions ever registered with [set_security_engine_callback]. *)
Inductive se_callback := exp_mod_done_handler_cb | crypt_aes_done_handler_cb.

Record se_driver := mk_se_driver {
  g_se_callback : option se_callback;
  g_se_modulus_sizes : list Z;
  g_se_exp_sizes : list Z;
  g_se_generated_vector : bool;
  g_se_stored_test_vector : list Z }.
#[export] Instance eta_se_driver : Eta se_driver := fun x =>
  mk_se_driver (g_se_callback x) (g_se_modulus_sizes x) (g_se_exp_sizes x)
    (g_se_generated_vector x) (g_se_stored_test_vector x).

(** emummc_cfg.h: [exo_emummc_config_t]; the union is its 0x80 bytes. *)
Record exo_emummc_config_t := mk_emummc_config {
  emummc_magic : Z;
  emummc_type : Z;
  emummc_id : Z;
  emummc_fs_version : Z;
  emummc_union : list Z;
  emu_dir_path : list Z }.

(** exocfg.h: [exosphere_config_t] ([reserved] is never read). *)
Record exosphere_config_t := mk_exosphere_config {
  cfg_magic : Z;
  target_firmware : Z;
  cfg_flags : Z;
  emummc_cfg : exo_emummc_config_t }.

Record exocfg_state := mk_exocfg {
  g_exosphere_cfg : exosphere_config_t;
  g_has_loaded_config : bool;
  mailbox_exosphere_config : exosphere_config_t }.
#[export] Instance eta_exocfg : Eta exocfg_state := fun x =>
  mk_exocfg (g_exosphere_cfg x) (g_has_loaded_config x) (mailbox_exosphere_config x).

Record configitem_state := mk_configitem {
  g_hiz_mode_enabled : bool;
  g_debugmode_override_user : bool;
  g_debugmode_override_priv : bool;
  g_enable_usermode_exception_handlers : bool }.
#[export] Instance eta_configitem : Eta configitem_state := fun x =>
  mk_configitem (g_hiz_mode_enabled x) (g_debugmode_override_user x)
    (g_debugmode_override_priv x) (g_enable_usermode_exception_handlers x).

Record fuse_state := mk_fuse {
  g_has_checked_for_rcm_bug_patch : bool;
  g_has_rcm_bug_patch : bool }.
#[export] Instance eta_fuse : Eta fuse_state := fun x =>
  mk_fuse (g_has_checked_for_rcm_bug_patch x) (g_has_rcm_bug_patch x).

(** bootconfig.h: [boot_reason_t]. *)
Record boot_reason_t := mk_boot_reason {
  bootloader_version : Z;
  bootloader_start_block : Z;
  bootloader_start_page : Z;
  bootloader_attribute : Z;
  boot_reason_value : Z;
  boot_reason_state : Z }.

(** bootconfig.h: [bootconfig_t] at [LOADED_BOOTCONFIG], as its three parts. *)
Record bootconfig_t := mk_bootconfig {
  unsigned_config : list Z;
  bc_signature : list Z;
  signed_config : list Z }.
#[export] Instance eta_bootconfig_t : Eta bootconfig_t := fun x =>
  mk_bootconfig (unsigned_config x) (bc_signature x) (signed_config x).

Record bootconfig_state := mk_bootconfig_state {
  loaded_bootconfig : bootconfig_t;
  g_boot_reason : boot_reason_t;
  g_package2_hash_for_recovery : list Z }.
#[export] Instance eta_bootconfig_state : Eta bootconfig_state := fun x =>
  mk_bootconfig_state (loaded_bootconfig x) (g_boot_reason x) (g_package2_hash_for_recovery x).

Record masterkey_state := mk_masterkey {
  g_mkey_revision : Z;
  g_determined_mkey_revision : bool;
  g_old_masterkeys : list (list Z);
  g_old_devicekeys : list (list Z) }.
#[export] Instance eta_masterkey : Eta masterkey_state := fun x =>
  mk_masterkey (g_mkey_revision x) (g_determined_mkey_revision x)
    (g_old_masterkeys x) (g_old_devicekeys x).

Record titlekey_state := mk_titlekey {
  g_tkey_expected_label_hash : list Z;
  g_tkey_master_key_rev : Z;
  g_tkey_type : Z }.
#[export] Instance eta_titlekey : Eta titlekey_state := fun x =>
  mk_titlekey (g_tkey_expected_label_hash x) (g_tkey_master_key_rev x) (g_tkey_type x).

Record randomcache_state := mk_randomcache {
  g_random_cache : list Z;
  g_random_cache_low : Z;
  g_random_cache_high : Z }.
#[export] Instance eta_randomcache : Eta randomcache_state := fun x =>
  mk_randomcache (g_random_cache x) (g_random_cache_low x) (g_random_cache_high x).

(** mc.c: [g_saved_carveouts], as (address, size) pairs. *)
Record mc_state := mk_mc { g_saved_carveouts : list (Z * Z) }.
#[export] Instance eta_mc : Eta mc_state := fun x => mk_mc (g_saved_carveouts x).

(** cpu_context.h: the fields of [saved_cpu_context_t] other than the debug
    registers, which are [saved_regs] in declaration order. *)
Record saved_cpu_context_t := mk_cpu_context {
  ctx_argument : Z;
  ctx_ELR_EL3 : Z;
  ctx_is_active : bool;
  ctx_is_saved : bool;
  saved_regs : list Z }.
#[export] Instance eta_cpu_context : Eta saved_cpu_context_t := fun x =>
  mk_cpu_context (ctx_argument x) (ctx_ELR_EL3 x) (ctx_is_active x) (ctx_is_saved x) (saved_regs x).

(** cpu_context.c, with the registers of the running core it saves and restores:
    [cpu_sysregs] are the debug registers and SPSR_EL3 in the order of
    [saved_cpu_context_t].  A customer of the boot critical section is its
    ticket number and its [is_entering] bit. *)
Record cpu_state := mk_cpu {
  g_cpu_contexts : list saved_cpu_context_t;
  g_boot_critical_section : list (Z * bool);
  cpu_sysregs : list Z;
  oslar_el1 : Z;
  dbgauthstatus_el1 : Z }.
#[export] Instance eta_cpu : Eta cpu_state := fun x =>
  mk_cpu (g_cpu_contexts x) (g_boot_critical_section x) (cpu_sysregs x) (oslar_el1 x)
    (dbgauthstatus_el1 x).

(** interrupt.c: the two functions ever registered, and the table of
    (id, handler) pairs; actmon.c: its callback. *)
Inductive intr_handler := se_operation_completed_ih | actmon_interrupt_handler_ih.
Inductive actmon_callback := actmon_on_bpmp_wakeup_cb.

Record intr_state := mk_intr {
  g_registered_interrupts : list (Z * option intr_handler);
  g_actmon_callback : option actmon_callback }.
#[export] Instance eta_intr : Eta intr_state := fun x =>
  mk_intr (g_registered_interrupts x) (g_actmon_callback x).

Record userpage_state := mk_userpage { g_user_page_user_address : Z }.
#[export] Instance eta_userpage : Eta userpage_state := fun x =>
  mk_userpage (g_user_page_user_address x).

Record ams_state := mk_ams {
  g_ams_userpage_mapped : bool;
  g_ams_iram_page_mapped : bool }.
#[export] Instance eta_ams : Eta ams_state := fun x =>
  mk_ams (g_ams_userpage_mapped x) (g_ams_iram_page_mapped x).

Record smc_user_state := mk_smc_user {
  g_crypt_aes_done : bool;
  g_exp_mod_done : bool;
  g_imported_exponents : list (list Z) }.
#[export] Instance eta_smc_user : Eta smc_user_state := fun x =>
  mk_smc_user (g_crypt_aes_done x) (g_exp_mod_done x) (g_imported_exponents x).

(** smc_api.c: the functions the three handler tables point to. *)
Inductive smc_handler :=
| smc_set_config_user_h | smc_get_config_user_h | smc_check_status_h | smc_get_result_h
| smc_exp_mod_h | smc_get_random_bytes_for_user_h | smc_generate_aes_kek_h
| smc_load_aes_key_h | smc_crypt_aes_h | smc_generate_specific_aes_key_h
| smc_compute_cmac_h | smc_load_rsa_oaep_key_h | smc_decrypt_rsa_private_key_h
| smc_load_secure_exp_mod_key_h | smc_secure_exp_mod_h
| smc_unwrap_rsa_oaep_wrapped_titlekey_h | smc_load_titlekey_h
| smc_unwrap_aes_wrapped_titlekey_h | smc_encrypt_rsa_key_for_import_h
| smc_decrypt_or_import_rsa_key_h
| smc_cpu_suspend_h | smc_cpu_off_h | smc_cpu_on_h | smc_get_config_priv_h
| smc_get_random_bytes_for_priv_h | smc_panic_h | smc_configure_carveout_h
| smc_read_write_register_h
| smc_ams_iram_copy_h | smc_ams_write_address_h | smc_ams_get_emummc_config_h.
#[export] Instance smc_handler_eq_dec : EqDecision smc_handler.
Proof. solve_decision. Defined.

(** smc_api.c: the functions ever passed to [try_set_smc_callback]. *)
Inductive smc_callback :=
| smc_exp_mod_get_result_cb | smc_crypt_aes_status_check_cb
| smc_unwrap_rsa_oaep_wrapped_titlekey_get_result_cb.
#[export] Instance smc_callback_eq_dec : EqDecision smc_callback.
Proof. solve_decision. Defined.

Record smc_table_entry_t := mk_smc_entry {
  entry_id : Z;
  blacklist_mask : Z;
  entry_handler : option smc_handler }.
#[export] Instance eta_smc_entry : Eta smc_table_entry_t := fun x =>
  mk_smc_entry (entry_id x) (blacklist_mask x) (entry_handler x).

Record smc_api_state := mk_smc_api {
  g_smc_user_table : list smc_table_entry_t;
  g_smc_priv_table : list smc_table_entry_t;
  g_smc_ams_table : list smc_table_entry_t;
  g_smc_blacklist_mask : Z;
  g_is_user_smc_in_progress : bool;
  g_is_priv_smc_in_progress : bool;
  g_configured_carveouts : list bool;
  g_has_suspended : bool;
  g_smc_callback : option smc_callback;
  g_smc_callback_key : Z }.
#[export] Instance eta_smc_api : Eta smc_api_state := fun x =>
  mk_smc_api (g_smc_user_table x) (g_smc_priv_table x) (g_smc_ams_table x)
    (g_smc_blacklist_mask x) (g_is_user_smc_in_progress x) (g_is_priv_smc_in_progress x)
    (g_configured_carveouts x) (g_has_suspended x) (g_smc_callback x) (g_smc_callback_key x).

(** bootup.c and warmboot_init.c, with the system registers of the running core
    that only the boot code writes. *)
Inductive sysreg :=
| actlr_el3 | actlr_el2 | hcr_el2 | dacr32_el2 | sctlr_el1 | sctlr_el2 | cntfrq_el0 | cnthctl_el2
| scr_el3 | ttbr0_el3 | vbar_el3 | cpuectlr_el1 | tcr_el3 | cptr_el3 | mair_el3 | sctlr_el3.
#[export] Instance sysreg_eq_dec : EqDecision sysreg.
Proof. solve_decision. Defined.

Record boot_state := mk_boot {
  g_has_booted_up : bool;
  g_exosphere_target_firmware_for_init : Z;
  boot_sysregs : sysreg -> Z }.
#[export] Instance eta_boot : Eta boot_state := fun x =>
  mk_boot (g_has_booted_up x) (g_exosphere_target_firmware_for_init x) (boot_sysregs x).

(** ** The whole state *)

Record World := mk_world {
  w_core : Z;                    (* mpidr_el1: the core that runs *)
  w_se : se_hw;                  (* the Security Engine *)
  w_mmio : Z -> Z;               (* the other device registers, by monitor virtual address *)
  w_phys : Z -> Z;               (* physical memory (DRAM and IRAM), one byte per address *)
  w_l3 : Z -> Z;                 (* the L3 translation table, by entry index *)
  w_par_el1 : Z -> Z;            (* PAR_EL1 after [at s1e0r] on a virtual address *)
  w_drv : se_driver;             (* se.c *)
  w_exo : exocfg_state;          (* exocfg.c *)
  w_cfg : configitem_state;      (* configitem.c *)
  w_fuse : fuse_state;           (* fuse.c *)
  w_bc : bootconfig_state;       (* bootconfig.c *)
  w_mkey : masterkey_state;      (* masterkey.c *)
  w_tkey : titlekey_state;       (* titlekey.c *)
  w_rand : randomcache_state;    (* randomcache.c *)
  w_mc : mc_state;               (* mc.c *)
  w_cpu : cpu_state;             (* cpu_context.c *)
  w_intr : intr_state;           (* interrupt.c, actmon.c *)
  w_upage : userpage_state;      (* userpage.c *)
  w_ams : ams_state;             (* smc_ams.c *)
  w_user : smc_user_state;       (* smc_user.c *)
  w_smc : smc_api_state;         (* smc_api.c *)
  w_boot : boot_state }.         (* bootup.c, warmboot_init.c *)
#[export] Instance eta_world : Eta World := fun x =>
  mk_world (w_core x) (w_se x) (w_mmio x) (w_phys x) (w_l3 x) (w_par_el1 x) (w_drv x)
    (w_exo x) (w_cfg x) (w_fuse x) (w_bc x) (w_mkey x) (w_tkey x) (w_rand x) (w_mc x)
    (w_cpu x) (w_intr x) (w_upage x) (w_ams x) (w_user x) (w_smc x) (w_boot x).

(** ** The monad *)

Inductive outcome (A : Type) :=
| Ret (a : A)
| Panic (code : Z)      (* [panic(code)], after its register writes *)
| Spin                  (* an endless loop, or a poll that never succeeds *)
| Fault.                (* a NULL function pointer or an unmapped page *)
Arguments Ret {A} a.
Arguments Panic {A} code.
Arguments Spin {A}.
Arguments Fault {A}.

Definition M (A : Type) : Type := World -> outcome A * World.

#[export] Instance M_ret : MRet M := fun A a w => (Ret a, w).
#[export] Instance M_bind : MBind M := fun A B f m w =>
  match m w with
  | (Ret a, w') => f a w'
  | (Panic c, w') => (Panic c, w')
  | (Spin, w') => (Spin, w')
  | (Fault, w') => (Fault, w')
  end.

Definition gets {A} (f : World -> A) : M A := fun w => (Ret (f w), w).
Definition modify (f : World -> World) : M unit := fun w => (Ret tt, f w).
Definition spin {A} : M A := fun w => (Spin, w).
Definition fault {A} : M A := fun w => (Fault, w).
Definition raise_panic {A} (code : Z) : M A := fun w => (Panic code, w).

(** [for (x : l) { body }], and the same threading an accumulator. *)
Fixpoint for_each {A} (l : list A) (body : A -> M unit) : M unit :=
  match l with [] => mret tt | x :: r => body x ;; for_each r body end.

Fixpoint fold_m {A B} (f : B -> A -> M B) (acc : B) (l : list A) : M B :=
  match l with [] => mret acc | x :: r => acc' ← f acc x; fold_m f acc' r end.

(** ** The system-on-chip *)

(** A linked list handed to the Security Engine: null, a buffer of the monitor
    (its bytes stand for its physical address), or a raw physical address. *)
Inductive se_ll := ll_null | ll_buf (bytes : list Z) | ll_phys (paddr : Z).

(** What the hardware does is a parameter.  [se_engine op input output h] is
    the engine's state once the operation [op] started with its registers as in
    [h] has completed, and the bytes it wrote to a buffer [output].
    [soc_wait us m] is the device register file after [us] microseconds.
    [soc_fuel] bounds the polls of a status register that has no timeout.
    [uninit_buf n] is what an uninitialised stack buffer of [n] bytes holds.
    [rebootstub_bin], [sc7fw_bin] and [ATMOSPHERE_RELEASE_VERSION_HASH] come
    from the build. *)
Class SoC := {
  se_engine : Z -> se_ll -> se_ll -> se_hw -> se_hw * list Z;
  soc_wait : Z -> (Z -> Z) -> (Z -> Z);
  soc_fuel : nat;
  uninit_buf : Z -> list Z;
  rebootstub_bin : list Z;
  sc7fw_bin : list Z;
  ATMOSPHERE_RELEASE_VERSION_HASH : Z }.

(** ** Running a program *)

Lemma run_bind {A B} (m : M A) (f : A -> M B) w a w' :
  m w = (Ret a, w') -> (m ≫= f) w = f a w'.
Proof. unfold mbind, M_bind. by intros ->. Qed.

Lemma ret_fst {A} (m : M A) w a : fst (m w) = Ret a -> m w = (Ret a, snd (m w)).
Proof. destruct (m w) as [o w']. cbn. by intros ->. Qed.

Lemma run_gets {A B} (f : World -> A) (k : A -> M B) w : (gets f ≫= k) w = k (f w) w.
Proof. done. Qed.

Lemma run_modify {B} (f : World -> World) (k : unit -> M B) w : (modify f ≫= k) w = k tt (f w).
Proof. done. Qed.

Lemma run_ret {A B} (a : A) (k : A -> M B) w : (mret a ≫= k) w = k a w.
Proof. done. Qed.

Lemma run_bind_panic {A B} (m : M A) (f : A -> M B) w c w' :
  m w = (Panic c, w') -> (m ≫= f) w = (Panic c, w').
Proof. unfold mbind, M_bind. by intros ->. Qed.

Lemma bind_fst_panic {A B} (m : M A) (f : A -> M B) w c :
  fst (m w) = Panic c -> fst ((m ≫= f) w) = Panic c.
Proof. unfold mbind, M_bind. destruct (m w) as [[] ?]; cbn; naive_solver. Qed.

Lemma bind_ret_inv {A B} (m : M A) (f : A -> M B) w b w'' :
  (m ≫= f) w = (Ret b, w'') -> exists a w', m w = (Ret a, w') /\ f a w' = (Ret b, w'').
Proof. unfold mbind, M_bind. destruct (m w) as [[] ?]; naive_solver. Qed.

(** ** Programs that never return *)

Definition never_returns {A} (m : M A) : Prop := forall w a w', m w <> (Ret a, w').

Lemma never_bind {A B} (m : M A) (f : A -> M B) :
  (forall a, never_returns (f a)) -> never_returns (m ≫= f).
Proof. intros H w b w' E. apply bind_ret_inv in E as (a & w1 & _ & E). by apply H in E. Qed.
Lemma never_raise {A} c : never_returns (raise_panic c : M A).
Proof. by intros w a w'. Qed.
Lemma never_spin {A} : never_returns (spin : M A).
Proof. by intros w a w'. Qed.
Ltac never := repeat first
  [ apply never_raise | apply never_spin
  | apply never_bind; intros
  | match goal with |- never_returns (if ?b then _ else _) => destruct b end
  | match goal with |- never_returns ?m =>
      let rec head t := match t with ?f _ => head f | _ => t end in
      let h := head m in unfold h; cbn beta
    end ].

(** [keeps R m]: whatever the outcome of [m], the final state is related to the
    initial one by [R].  The rules make frame conditions compositional. *)
Definition keeps {A} (R : World -> World -> Prop) (m : M A) : Prop :=
  forall w, R w (snd (m w)).

Lemma bind_assoc {A B C} (m : M A) (f : A -> M B) (g : B -> M C) w :
  ((m ≫= f) ≫= g) w = (m ≫= fun a => f a ≫= g) w.
Proof. unfold mbind, M_bind. by destruct (m w) as [[] ?]. Qed.

Section Keeps.
Context (R : World -> World -> Prop) {HR : PreOrder R}.

Lemma keeps_ret {A} (a : A) : keeps R (mret a).
Proof. intros w. reflexivity. Qed.
Lemma keeps_gets {A} (f : World -> A) : keeps R (gets f).
Proof. intros w. reflexivity. Qed.
Lemma keeps_spin {A} : keeps R (@spin A).
Proof. intros w. reflexivity. Qed.
Lemma keeps_fault {A} : keeps R (@fault A).
Proof. intros w. reflexivity. Qed.
Lemma keeps_raise_panic {A} c : keeps R (@raise_panic A c).
Proof. intros w. reflexivity. Qed.
Lemma keeps_modify f : (forall w, R w (f w)) -> keeps R (modify f).
Proof. intros H w. apply H. Qed.
Lemma keeps_bind {A B} (m : M A) (f : A -> M B) :
  keeps R m -> (forall a, keeps R (f a)) -> keeps R (m ≫= f).
Proof.
  intros Hm Hf w. specialize (Hm w). unfold mbind, M_bind.
  destruct (m w) as [[a|c| |] w']; simpl in *; [|done..].
  etransitivity; [apply Hm|apply Hf].
Qed.
Lemma keeps_bind_assoc {A B C} (m : M A) (f : A -> M B) (g : B -> M C) :
  keeps R (m ≫= fun a => f a ≫= g) -> keeps R ((m ≫= f) ≫= g).
Proof. intros H w. rewrite bind_assoc. apply H. Qed.
Lemma keeps_bind_ret {A B} (P : A -> Prop) (m : M A) (f : A -> M B) :
  keeps R m -> (forall w a w', m w = (Ret a, w') -> P a) -> (forall a, P a -> keeps R (f a)) ->
  keeps R (m ≫= f).
Proof.
  intros Hm HP Hf w. specialize (Hm w). unfold mbind, M_bind.
  destruct (m w) as [[a|c| |] w'] eqn:E; simpl in *; [|done..].
  etransitivity; [apply Hm|eapply Hf, HP, E].
Qed.
Lemma keeps_for_each {A} (l : list A) body :
  (forall x, keeps R (body x)) -> keeps R (for_each l body).
Proof.
  intros H. induction l as [|x r IH]; cbn [for_each]; [apply keeps_ret|].
  by apply keeps_bind.
Qed.
Lemma keeps_for_each_in {A} (l : list A) body :
  (forall x, x ∈ l -> keeps R (body x)) -> keeps R (for_each l body).
Proof.
  intros H. induction l as [|x r IH]; cbn [for_each]; [apply keeps_ret|].
  apply keeps_bind; [apply H; left|]. intros _. apply IH. intros y Hy. apply H. by right.
Qed.
Lemma keeps_fold_m {A B} (f : B -> A -> M B) acc l :
  (forall b x, keeps R (f b x)) -> keeps R (fold_m f acc l).
Proof.
  intros H. revert acc. induction l as [|x r IH]; intros acc; cbn [fold_m]; [apply keeps_ret|].
  by apply keeps_bind.
Qed.
End Keeps.

Create HintDb keeps.
#[export] Hint Resolve keeps_ret keeps_gets keeps_spin keeps_fault
  keeps_raise_panic : keeps.

(** Splits a [keeps] goal along the program text; leaves to the [keeps]
    database the calls it knows. *)
Ltac keeps_step :=
  match goal with
  | |- keeps _ (mbind _ _) => apply keeps_bind; [typeclasses eauto| |intros]
  | |- keeps _ (for_each _ _) => apply keeps_for_each; [typeclasses eauto|intros]
  | |- keeps _ (fold_m _ _ _) => apply keeps_fold_m; [typeclasses eauto|intros]
  | |- keeps _ (if ?b then _ else _) => destruct b eqn:?
  | |- keeps _ (match ?x with _ => _ end) => destruct x eqn:?
  | |- keeps _ (let _ := _ in _) => intros ?
  end.
Ltac solve_keeps := repeat first [solve [eauto 2 with keeps nocore typeclass_instances] | keeps_step].
