(* ===== verification/Utils.v ===== *)
(** The base layer of the monitor: the memory map (memory_map.h), page table
    writes (mmu.h), device register accesses, timers.c, utils.c, the spin locks
    of synchronization.h, and exocfg.c. *)
From S2P Require Import Prelude State.

(** ** memory_map.h *)

(** The sizes of [_MMAPDEV0].. and the VA increments of [_MMAPTZS0].. *)
Definition mmapdev_sizes : list Z :=
  [0x1000; 0x2000; 0x1000; 0x1000; 0x1000; 0x1000; 0x1000; 0x2000; 0x1000; 0x1000; 0x1000;
   0x4000; 0x1000; 0x1000; 0x1000; 0x1000; 0x1000; 0x1000; 0x1000; 0x1000; 0x5000].
Definition mmaptzs_increments : list Z :=
  [0x10000; 0x04000; 0x02000; 0x02000; 0x02000; 0x02000; 0x02000; 0x02000].

Definition MMIO_BASE : Z := 0x1F0080000.
Definition TZRAM_SEGMENT_BASE : Z := MMIO_BASE + 0x000160000.

Definition sum_Z (l : list Z) : Z := foldr Z.add 0 l.

Definition MMIO_GET_DEVICE_ADDRESS (device_id : Z) : Z :=
  sum_Z (take (Z.to_nat device_id) mmapdev_sizes) + MMIO_BASE + 0x1000 * device_id.
Definition TZRAM_GET_SEGMENT_ADDRESS (segment_id : Z) : Z :=
  sum_Z (take (Z.to_nat segment_id) mmaptzs_increments) + TZRAM_SEGMENT_BASE.

Definition MMIO_DEVID_GICD := 0.
Definition MMIO_DEVID_GICC := 1.
Definition MMIO_DEVID_UART := 2.
Definition MMIO_DEVID_CLKRST := 3.
Definition MMIO_DEVID_RTC_PMC := 4.
Definition MMIO_DEVID_TMRs_WDTs := 5.
Definition MMIO_DEVID_SYSREGS := 6.
Definition MMIO_DEVID_MC := 9.
Definition MMIO_DEVID_FUSE := 10.
Definition MMIO_DEVID_MISC := 11.
Definition MMIO_DEVID_FLOWCTRL := 12.
Definition MMIO_DEVID_I2C56_SPI2B := 14.
Definition MMIO_DEVID_GPIO := 15.
Definition MMIO_DEVID_DTV_I2C234 := 16.
Definition MMIO_DEVID_EXCEPTION_VECTORS := 17.
Definition MMIO_DEVID_AMS_IRAM_PAGE := 18.
Definition MMIO_DEVID_AMS_USER_PAGE := 19.
Definition TZRAM_SEGMENT_ID_USERPAGE := 2.

Definition PMC_BASE : Z := MMIO_GET_DEVICE_ADDRESS MMIO_DEVID_RTC_PMC + 0x400.
Definition TIMERS_BASE : Z := MMIO_GET_DEVICE_ADDRESS MMIO_DEVID_TMRs_WDTs.
Definition FUSE_REGS : Z := MMIO_GET_DEVICE_ADDRESS MMIO_DEVID_FUSE + 0x800.
Definition FUSE_CHIP_REGS : Z := MMIO_GET_DEVICE_ADDRESS MMIO_DEVID_FUSE + 0x900.
Definition CAR_BASE : Z := MMIO_GET_DEVICE_ADDRESS MMIO_DEVID_CLKRST.
Definition FLOW_BASE : Z := MMIO_GET_DEVICE_ADDRESS MMIO_DEVID_FLOWCTRL.
Definition GICD_BASE : Z := MMIO_GET_DEVICE_ADDRESS MMIO_DEVID_GICD.
Definition MC_BASE : Z := MMIO_GET_DEVICE_ADDRESS MMIO_DEVID_MC.
Definition GICC_BASE : Z := MMIO_GET_DEVICE_ADDRESS MMIO_DEVID_GICC.
Definition MISC_BASE : Z := MMIO_GET_DEVICE_ADDRESS MMIO_DEVID_MISC.
Definition UART_BASE : Z := MMIO_GET_DEVICE_ADDRESS MMIO_DEVID_UART.
Definition BPMP_VECTOR_BASE : Z := MMIO_GET_DEVICE_ADDRESS MMIO_DEVID_EXCEPTION_VECTORS.
Definition ACTMON_BASE : Z := MMIO_GET_DEVICE_ADDRESS MMIO_DEVID_SYSREGS + 0x800.

(** ** Device registers: [MAKE_REG32(a)] as an rvalue and as an lvalue *)

Definition reg_read (a : Z) : M Z := gets (fun w => w_mmio w a).
Definition reg_write (a v : Z) : M unit := modify (fun w => w <| w_mmio ::= fun m => upd m a v |>).
Definition reg_update (a : Z) (f : Z -> Z) : M unit := v ← reg_read a; reg_write a (f v).
Definition get_core_id : M Z := gets w_core.

(** ** mmu.h, for the L3 table with a 4 KB granule *)

Definition mmu_compute_index (level base_addr : Z) : Z :=
  (base_addr >>. (12 + 9 * (3 - level))) .& 0x1FF.

Definition MMU_PTE_TYPE_FAULT := 0.
Definition MMU_PTE_TYPE_PAGE := 3.
Definition MMU_PTE_BLOCK_AF := 1 <<. 10.
Definition MMU_PTE_BLOCK_NS := 1 <<. 5.
Definition MMU_PTE_BLOCK_INNER_SHAREBLE := 3 <<. 8.
Definition MMU_PTE_BLOCK_XN := 1 <<. 54.
Definition ATTRIB_MEMTYPE_NORMAL := 0 <<. 2.
Definition ATTRIB_MEMTYPE_DEVICE := 1 <<. 2.

Definition mmu_map_page (base_addr phys_addr attrs : Z) : M unit :=
  modify (fun w => w <| w_l3 ::= fun t => upd t (mmu_compute_index 3 base_addr)
    (phys_addr .| attrs .| MMU_PTE_BLOCK_AF .| MMU_PTE_TYPE_PAGE) |>).
Definition mmu_unmap_page (base_addr : Z) : M unit :=
  modify (fun w => w <| w_l3 ::= fun t => upd t (mmu_compute_index 3 base_addr) MMU_PTE_TYPE_FAULT |>).

(** An access through the L3 table: the page descriptor's output address
    (bits 47..12) and the page offset, when the descriptor is a page. *)
Definition mmu_translate (t : Z -> Z) (va : Z) : option Z :=
  let e := t (mmu_compute_index 3 va) in
  if e .& 3 =? MMU_PTE_TYPE_PAGE then Some ((e .& 0xFFFFFFFFF000) + (va .& 0xFFF)) else None.

Fixpoint phys_read_bytes (mem : Z -> Z) (pa : Z) (n : nat) : list Z :=
  match n with O => [] | S m => mem pa :: phys_read_bytes mem (pa + 1) m end.
Definition phys_write_bytes (mem : Z -> Z) (pa : Z) (bs : list Z) : Z -> Z :=
  fun a => if (pa <=? a) && (a <? pa + Z.of_nat (length bs))
           then byte_at bs (a - pa) else mem a.

(** [memcpy(dst, src, n)] between disjoint ranges and [memset(dst, v, n)]. *)
Definition mem_copy (mem : Z -> Z) (dst src n : Z) : Z -> Z :=
  fun a => if (dst <=? a) && (a <? dst + n) then mem (src + (a - dst)) else mem a.
Definition mem_set (mem : Z -> Z) (dst v n : Z) : Z -> Z :=
  fun a => if (dst <=? a) && (a <? dst + n) then v else mem a.

(** The same on identity-mapped physical memory. *)
Definition phys_load (pa n : Z) : M (list Z) :=
  gets (fun w => phys_read_bytes (w_phys w) pa (Z.to_nat n)).
Definition phys_store (pa : Z) (bs : list Z) : M unit :=
  modify (fun w => w <| w_phys ::= fun m => phys_write_bytes m pa bs |>).
Definition phys_memcpy (dst src n : Z) : M unit :=
  modify (fun w => w <| w_phys ::= fun m => mem_copy m dst src n |>).
Definition phys_memset (dst v n : Z) : M unit :=
  modify (fun w => w <| w_phys ::= fun m => mem_set m dst v n |>).

(** Reads and writes within one page of monitor virtual memory. *)
Definition va_read_bytes (va : Z) (n : Z) : M (list Z) :=
  t ← gets w_l3;
  match mmu_translate t va with
  | Some pa => gets (fun w => phys_read_bytes (w_phys w) pa (Z.to_nat n))
  | None => fault
  end.
Definition va_write_bytes (va : Z) (bs : list Z) : M unit :=
  t ← gets w_l3;
  match mmu_translate t va with
  | Some pa => modify (fun w => w <| w_phys ::= fun m => phys_write_bytes m pa bs |>)
  | None => fault
  end.

(** utils.h: [get_physical_address_el0], from the PAR_EL1 the translation leaves. *)
Definition get_physical_address_el0 (el0_vaddr : Z) : M Z :=
  par ← gets (fun w => w_par_el1 w el0_vaddr);
  mret (if par .& 1 =? 1 then 0
        else (par .& 0xFFFFFFF000) .| (el0_vaddr .& 0xFFF)).

(** smc_api.h: [smc_args_t], the eight argument registers. *)
Definition smc_args_t := list Z.
Definition X (args : smc_args_t) (i : Z) : Z := nth (Z.to_nat i) args 0.
Definition set_X (args : smc_args_t) (i v : Z) : smc_args_t := <[Z.to_nat i := v]> args.

(** [memcpy(&args->X[i], bytes, |bytes|)], within the eight registers. *)
Fixpoint words64 (n : nat) (buf : list Z) : list Z :=
  match n with O => [] | S m => le_value (take 8 buf) :: words64 m (drop 8 buf) end.
Definition copy_to_X (args : smc_args_t) (i : Z) (bytes : list Z) : smc_args_t :=
  words64 8 (splice (bytes_of_words64 args) (8 * i) bytes).

(** synchronization.h on an [atomic_flag] global. *)
Definition lock_acquire (get : World -> bool) (set : bool -> World -> World) : M unit :=
  held ← gets get; if (held : bool) then spin else modify (set true).
Definition lock_release (set : bool -> World -> World) : M unit := modify (set false).
Definition lock_try_acquire (get : World -> bool) (set : bool -> World -> World) : M bool :=
  held ← gets get; modify (set true) ;; mret (negb held).

Section Base.
Context {soc : SoC}.

(** ** timers.c *)

Definition wait (microseconds : Z) : M unit :=
  modify (fun w => w <| w_mmio ::= soc_wait microseconds |>).

Definition get_time : M Z := reg_read (TIMERS_BASE + 0x10).

(** [while (!cond(reg)) ;]: the device advances between two reads. *)
Fixpoint poll_loop (fuel : nat) (a : Z) (cond : Z -> bool) : M unit :=
  match fuel with
  | O => spin
  | S n => v ← reg_read a; if cond v then mret tt else wait 0 ;; poll_loop n a cond
  end.
Definition poll_reg (a : Z) (cond : Z -> bool) : M unit := poll_loop soc_fuel a cond.

Definition GET_WDT (n : Z) : Z := TIMERS_BASE + 0x100 + 0x20 * n.

(** [watchdog_reboot] arms the watchdog and spins; the caller is [panic]. *)
Definition watchdog_reboot_writes : M unit :=
  current_core ← get_core_id;
  let wdt := GET_WDT current_core in
  reg_write (wdt + 0xC) 0xC45A ;;
  reg_write (wdt + 0x8) 2 ;;
  reg_write (TIMERS_BASE + 0x60 + 0x8 * current_core) 0xC0000000 ;;
  reg_write (wdt + 0x0) (0x8015 + current_core) ;;
  reg_write (wdt + 0x8) 1.

(** fuse.c: [fuse_disable_programming]. *)
Definition fuse_disable_programming : M unit := reg_write (FUSE_REGS + 0x2C) 1.

(** ** utils.c *)

Definition panic {A} (code : Z) : M A :=
  scratch200 ← reg_read (PMC_BASE + 0x840);
  (if scratch200 =? 0 then reg_write (PMC_BASE + 0x840) code else mret tt) ;;
  fuse_disable_programming ;;
  reg_write (PMC_BASE + 0xF4) 1 ;;
  watchdog_reboot_writes ;;
  raise_panic code.

Definition generic_panic {A} : M A := panic 0xFF000006.

Definition panic_codes : list Z :=
  [0x00F00003; 0x0F000003; 0xF0000003; 0x0FF00003; 0xF0F00003; 0xFF000003; 0xFFF00003;
   0xAAF00003; 0xAFA00003; 0xFAA00003; 0x33300003; 0x06F00003; 0x14800003; 0x00300003;
   0x03000003; 0xB6000003].
Definition panic_predefined {A} (which : Z) : M A := panic (byte_at panic_codes (which .& 0xF)).

Definition overlaps (as_ ae bs be : Z) : bool :=
  if (as_ <=? bs) && (bs <? ae) then true
  else if (bs <=? as_) && (as_ <? be) then true
  else false.

(** ** exocfg.c *)

Definition MAGIC_EXOSPHERE_CONFIG := 0x304F5845.

Definition exosphere_load_config : M Z :=
  loaded ← gets (fun w => g_has_loaded_config (w_exo w));
  if (loaded : bool) then generic_panic else
  modify (fun w => w <| w_exo ::= fun s => s <| g_has_loaded_config := true |> |>) ;;
  mailbox ← gets (fun w => mailbox_exosphere_config (w_exo w));
  (if cfg_magic mailbox =? MAGIC_EXOSPHERE_CONFIG
   then modify (fun w => w <| w_exo ::= fun s => s <| g_exosphere_cfg := mailbox |> |>)
   else mret tt) ;;
  gets (fun w => target_firmware (g_exosphere_cfg (w_exo w))).

(** The guard every getter of exocfg.c starts with. *)
Definition require_loaded_config : M unit :=
  loaded ← gets (fun w => g_has_loaded_config (w_exo w));
  if (loaded : bool) then mret tt else generic_panic.

Definition exosphere_get_target_firmware : M Z :=
  require_loaded_config ;; gets (fun w => target_firmware (g_exosphere_cfg (w_exo w))).

Definition exosphere_check_flag (flag : Z) : M bool :=
  require_loaded_config ;;
  gets (fun w => negb (cfg_flags (g_exosphere_cfg (w_exo w)) .& flag =? 0)).

Definition exosphere_should_override_debugmode_priv : M bool := exosphere_check_flag (1 <<. 1).
Definition exosphere_should_override_debugmode_user : M bool := exosphere_check_flag (1 <<. 2).
Definition exosphere_should_disable_usermode_exception_handlers : M bool :=
  exosphere_check_flag (1 <<. 3).
Definition exosphere_should_perform_620_keygen : M bool :=
  require_loaded_config ;; mret false.
Definition exosphere_get_emummc_config : M exo_emummc_config_t :=
  require_loaded_config ;; gets (fun w => emummc_cfg (g_exosphere_cfg (w_exo w))).

(** ** Runs *)

Lemma generic_panic_fst {A} w : fst ((generic_panic : M A) w) = Panic 0xFF000006.
Proof.
  unfold generic_panic, panic, reg_read. rewrite run_gets. by destruct (_ =? 0).
Qed.

Lemma target_firmware_run w :
  g_has_loaded_config (w_exo w) = true ->
  exosphere_get_target_firmware w = (Ret (target_firmware (g_exosphere_cfg (w_exo w))), w).
Proof.
  intros H. unfold exosphere_get_target_firmware, require_loaded_config, mbind, M_bind, gets. by rewrite H.
Qed.
End Base.

(** ATMOSPHERE_TARGET_FIRMWARE_* *)
Definition ATMOSPHERE_TARGET_FIRMWARE_100 := 1.
Definition ATMOSPHERE_TARGET_FIRMWARE_200 := 2.
Definition ATMOSPHERE_TARGET_FIRMWARE_300 := 3.
Definition ATMOSPHERE_TARGET_FIRMWARE_400 := 4.
Definition ATMOSPHERE_TARGET_FIRMWARE_500 := 5.
Definition ATMOSPHERE_TARGET_FIRMWARE_600 := 6.
Definition ATMOSPHERE_TARGET_FIRMWARE_620 := 7.
Definition ATMOSPHERE_TARGET_FIRMWARE_700 := 8.
Definition ATMOSPHERE_TARGET_FIRMWARE_800 := 9.
Definition ATMOSPHERE_TARGET_FIRMWARE_810 := 10.
Definition ATMOSPHERE_TARGET_FIRMWARE_900 := 11.

Ltac fw_consts :=
  unfold ATMOSPHERE_TARGET_FIRMWARE_100, ATMOSPHERE_TARGET_FIRMWARE_200, ATMOSPHERE_TARGET_FIRMWARE_300,
    ATMOSPHERE_TARGET_FIRMWARE_400, ATMOSPHERE_TARGET_FIRMWARE_500, ATMOSPHERE_TARGET_FIRMWARE_600,
    ATMOSPHERE_TARGET_FIRMWARE_620, ATMOSPHERE_TARGET_FIRMWARE_700, ATMOSPHERE_TARGET_FIRMWARE_800,
    ATMOSPHERE_TARGET_FIRMWARE_810, ATMOSPHERE_TARGET_FIRMWARE_900 in *.
