(* ===== verification/PageTables.v ===== *)
(** The boot page tables: the mapping functions of mmu.h and memory_map.h and
    [configure_ttbls] of coldboot_init.c, which builds the three tables in TZRAM
    while the MMU is off, and the walk the MMU does on them. *)
From S2P Require Import Prelude State Utils.

Module PageTables.

(** ** mmu.h *)

(** The 64-bit words the tables are made of, by physical address. *)
Definition table_memory := Z -> Z.

Definition MMU_PTE_TYPE_TABLE := 3.
Definition MMU_PTE_TYPE_BLOCK := 1.
Definition MMU_AP_PRIV_RO := 2 <<. 6.
Definition MMU_Lx_SHIFT (x : Z) : Z := 12 + 9 * (3 - x).

Definition mmu_init_table (tbl num_entries : Z) (m : table_memory) : table_memory :=
  foldl (fun m i => upd m (tbl + 8 * i) MMU_PTE_TYPE_FAULT) m (range (num_entries / 8)).

(** [tbl[mmu_compute_index(level, base_addr)] = v] *)
Definition store_entry (level tbl base_addr v : Z) (m : table_memory) : table_memory :=
  upd m (tbl + 8 * mmu_compute_index level base_addr) v.

Definition mmu_map_table (level tbl base_addr next_lvl_tbl_pa attrs : Z) : table_memory -> table_memory :=
  store_entry level tbl base_addr (next_lvl_tbl_pa .| attrs .| MMU_PTE_TYPE_TABLE).
Definition mmu_map_block (level tbl base_addr phys_addr attrs : Z) : table_memory -> table_memory :=
  store_entry level tbl base_addr (phys_addr .| attrs .| MMU_PTE_BLOCK_AF .| MMU_PTE_TYPE_BLOCK).
Definition mmu_map_page (tbl base_addr phys_addr attrs : Z) : table_memory -> table_memory :=
  store_entry 3 tbl base_addr (phys_addr .| attrs .| MMU_PTE_BLOCK_AF .| MMU_PTE_TYPE_PAGE).

(** The offsets of [for(offset = 0; offset < size; offset += BITL(shift))] for
    the size rounded up. *)
Definition range_offsets (level size : Z) : list Z :=
  let sh := MMU_Lx_SHIFT level in
  map (fun i => i <<. sh) (range (u64 (size + ((1 <<. sh) - 1)) >>. sh)).

Definition mmu_map_block_range (level tbl base_addr phys_addr size attrs : Z) (m : table_memory) : table_memory :=
  foldl (fun m offset => mmu_map_block level tbl (u64 (base_addr + offset)) (u64 (phys_addr + offset)) attrs m)
    m (range_offsets level size).
Definition mmu_map_page_range (tbl base_addr phys_addr size attrs : Z) (m : table_memory) : table_memory :=
  foldl (fun m offset => mmu_map_page tbl (u64 (base_addr + offset)) (u64 (phys_addr + offset)) attrs m)
    m (range_offsets 3 size).

(** ** memory_map.h *)

(** (addr, size, additional attributes, is block range) *)
Definition _MMAPID : list (Z * Z * Z * bool) :=
  [(0x40006000, 0x01000, 0, false);
   (0x40020000, 0x20000, 0, false);
   (0x7C010000, 0x10000, 0, false);
   (0x80000000, 4 <<. 30, MMU_PTE_BLOCK_XN .| MMU_PTE_BLOCK_NS, true)].

(** (addr, size, is secure) *)
Definition _MMAPDEV : list (Z * Z * bool) :=
  [(0x50041000, 0x1000, true); (0x50042000, 0x2000, true); (0x70006000, 0x1000, false); (0x60006000, 0x1000, false);
   (0x7000E000, 0x1000, true); (0x60005000, 0x1000, true); (0x6000C000, 0x1000, true); (0x70012000, 0x2000, true);
   (0x700F0000, 0x1000, true); (0x70019000, 0x1000, true); (0x7000F000, 0x1000, true); (0x70000000, 0x4000, true);
   (0x60007000, 0x1000, true); (0x40002000, 0x1000, true); (0x7000D000, 0x1000, true); (0x6000D000, 0x1000, true);
   (0x7000C000, 0x1000, true); (0x6000F000, 0x1000, true); (0x00000000, 0x1000, true); (0x00000000, 0x1000, true);
   (0x40038000, 0x5000, true)].
Definition _MMAPDEV7X : list Z :=
  [0x50041000; 0x50042000; 0x70006000; 0x60006000; 0x7000E000; 0x60005000; 0x6000C000; 0x70012000; 0x700F0000;
   0x70019000; 0x7000F000; 0x70000000; 0x60007000; 0x40000000; 0x7000D000; 0x6000D000; 0x7000C000; 0x6000F000;
   0x00000000; 0x00000000; 0x40038000].

(** (addr, size, additional attributes) *)
Definition _MMAPLP0ES : list (Z * Z * Z) :=
  [(0x40020000, 0x10000, MMU_PTE_BLOCK_NS .| ATTRIB_MEMTYPE_DEVICE);
   (0x40003000, 0x01000, MMU_PTE_BLOCK_NS .| ATTRIB_MEMTYPE_DEVICE);
   (0x7C010000, 0x10000, MMU_AP_PRIV_RO .| ATTRIB_MEMTYPE_NORMAL)].
Definition _MMAPWBS : list (Z * Z * Z) :=
  [(0x8000F000, 0x01000, MMU_PTE_BLOCK_NS .| ATTRIB_MEMTYPE_DEVICE);
   (0x80010000, 0x10000, MMU_PTE_BLOCK_NS .| ATTRIB_MEMTYPE_DEVICE)].

(** (offset, size, VA increment, is executable) *)
Definition _MMAPTZS : list (Z * Z * Z * bool) :=
  [(0x3000, 0x10000 - 0x2000 - 0x3000, 0x10000, true);
   (0x10000 - 0x2000, 0x2000, 0x04000, true);
   (0, 0, 0x02000, false);
   (0x10000 - 0x2000, 0x1000, 0x02000, false);
   (0x10000 - 0x1000, 0x1000, 0x02000, false);
   (0, 0x1000, 0x02000, true);
   (0x1000, 0x1000, 0x02000, false);
   (0x2000, 0x1000, 0x02000, false)].
Definition _MMAPTZ5XS : list Z := [0x3000; 0; 0; 0; 0x1000; 0x2000; 0x10000 - 0x2000; 0x10000 - 0x1000].

Definition LP0_ENTRY_RAM_SEGMENT_BASE : Z := MMIO_BASE + 0x000100000.
Definition WARMBOOT_RAM_SEGMENT_BASE : Z := LP0_ENTRY_RAM_SEGMENT_BASE + 0x000047000.
Definition TZRAM_SEGMENT_ID_WARMBOOT_CRT0_AND_MAIN := 0.
Definition TZRAM_SEGMENT_ID_PK2LDR := 1.
Definition TZRAM_SEGMENT_ID_CORE012_STACK := 3.
Definition TZRAM_SEGMENT_ID_CORE3_STACK := 4.
Definition TZRAM_SEGEMENT_ID_SECMON_EVT := 5.
Definition TZRAM_SEGMENT_ID_L2_TRANSLATION_TABLE := 6.
Definition TZRAM_SEGMENT_ID_L3_TRANSLATION_TABLE := 7.

Definition TZRAM_GET_SEGMENT_PA (segment_id : Z) : Z :=
  0x7C010000 + nth (Z.to_nat segment_id) (map (fun s => s.1.1.1) _MMAPTZS) 0.
Definition TZRAM_GET_SEGMENT_5X_PA (segment_id : Z) : Z := 0x7C010000 + nth (Z.to_nat segment_id) _MMAPTZ5XS 0.

Definition identity_map_mapping (mmu_l1_tbl mmu_l3_tbl addr size attribs : Z) (is_block_range : bool)
    : table_memory -> table_memory :=
  if is_block_range
  then mmu_map_block_range 1 mmu_l1_tbl addr addr size (attribs .| MMU_PTE_BLOCK_INNER_SHAREBLE .| ATTRIB_MEMTYPE_NORMAL)
  else mmu_map_page_range mmu_l3_tbl addr addr size (attribs .| MMU_PTE_BLOCK_INNER_SHAREBLE .| ATTRIB_MEMTYPE_NORMAL).

Definition secure_device_attributes := MMU_PTE_BLOCK_XN .| MMU_PTE_BLOCK_INNER_SHAREBLE .| ATTRIB_MEMTYPE_DEVICE.
Definition device_attributes := MMU_PTE_BLOCK_NS .| secure_device_attributes.
Definition mmio_map_device (mmu_l3_tbl addr pa size : Z) (is_secure : bool) : table_memory -> table_memory :=
  mmu_map_page_range mmu_l3_tbl addr pa size (if is_secure then secure_device_attributes else device_attributes).

Definition lp0_entry_map_ram_segment (mmu_l3_tbl addr pa size attribs : Z) : table_memory -> table_memory :=
  mmu_map_page_range mmu_l3_tbl addr pa size (MMU_PTE_BLOCK_XN .| MMU_PTE_BLOCK_INNER_SHAREBLE .| attribs).
Definition warmboot_map_ram_segment (mmu_l3_tbl addr pa size attribs : Z) : table_memory -> table_memory :=
  mmu_map_page_range mmu_l3_tbl addr pa size (MMU_PTE_BLOCK_XN .| MMU_PTE_BLOCK_INNER_SHAREBLE .| attribs).
Definition tzram_map_segment (mmu_l3_tbl addr pa size : Z) (is_executable : bool) : table_memory -> table_memory :=
  mmu_map_page_range mmu_l3_tbl addr pa size
    ((if is_executable then 0 else MMU_PTE_BLOCK_XN) .| MMU_PTE_BLOCK_INNER_SHAREBLE .| ATTRIB_MEMTYPE_NORMAL).

(** ** coldboot_init.c *)

Definition identity_map_all_mappings (mmu_l1_tbl mmu_l3_tbl : Z) (m : table_memory) : table_memory :=
  foldl (fun m e => let '(addr, size, attribs, is_block) := e : Z * Z * Z * bool in
    identity_map_mapping mmu_l1_tbl mmu_l3_tbl addr size attribs is_block m) m _MMAPID.

(** The accumulator of the next three is the table memory and [offset]. *)
Definition mmio_map_all_devices (mmu_l3_tbl target_firmware : Z) (m : table_memory) : table_memory :=
  (foldl (fun acc e =>
    let '(m, offset) := acc : table_memory * Z in
    let '((pa, size, is_secure), pa_7x) := e : Z * Z * bool * Z in
    let pa := if target_firmware <? ATMOSPHERE_TARGET_FIRMWARE_700 then pa else pa_7x in
    (mmio_map_device mmu_l3_tbl (MMIO_BASE + offset) pa size is_secure m, u64 (offset + size + 0x1000)))
   (m, 0) (combine _MMAPDEV _MMAPDEV7X)).1.

Definition lp0_entry_map_all_ram_segments (mmu_l3_tbl : Z) (m : table_memory) : table_memory :=
  (foldl (fun acc e =>
    let '(m, offset) := acc : table_memory * Z in
    let '(pa, size, attribs) := e : Z * Z * Z in
    (lp0_entry_map_ram_segment mmu_l3_tbl (LP0_ENTRY_RAM_SEGMENT_BASE + offset) pa size attribs m, u64 (offset + 0x10000)))
   (m, 0) _MMAPLP0ES).1.

Definition warmboot_map_all_ram_segments (mmu_l3_tbl : Z) (m : table_memory) : table_memory :=
  (foldl (fun acc e =>
    let '(m, offset) := acc : table_memory * Z in
    let '(pa, size, attribs) := e : Z * Z * Z in
    (warmboot_map_ram_segment mmu_l3_tbl (WARMBOOT_RAM_SEGMENT_BASE + offset) pa size attribs m, u64 (offset + size)))
   (m, 0) _MMAPWBS).1.

Definition tzram_map_all_segments (mmu_l3_tbl target_firmware : Z) (m : table_memory) : table_memory :=
  (foldl (fun acc e =>
    let '(m, offset) := acc : table_memory * Z in
    let '((off, size, increment, is_executable), off_5x) := e : Z * Z * Z * bool * Z in
    let off := if target_firmware <? ATMOSPHERE_TARGET_FIRMWARE_500 then off else off_5x in
    (tzram_map_segment mmu_l3_tbl (TZRAM_SEGMENT_BASE + offset) (0x7C010000 + off) size is_executable m,
     u64 (offset + increment)))
   (m, 0) (combine _MMAPTZS _MMAPTZ5XS)).1.

(** Where the tables are, for a firmware. *)
Definition segment_pa (target_firmware segment_id : Z) : Z :=
  if target_firmware <? ATMOSPHERE_TARGET_FIRMWARE_500 then TZRAM_GET_SEGMENT_PA segment_id
  else TZRAM_GET_SEGMENT_5X_PA segment_id.
Definition mmu_l1_tbl (target_firmware : Z) : Z := segment_pa target_firmware TZRAM_SEGEMENT_ID_SECMON_EVT + 0x800 - 64.
Definition mmu_l2_tbl (target_firmware : Z) : Z := segment_pa target_firmware TZRAM_SEGMENT_ID_L2_TRANSLATION_TABLE.
Definition mmu_l3_tbl (target_firmware : Z) : Z := segment_pa target_firmware TZRAM_SEGMENT_ID_L3_TRANSLATION_TABLE.

Definition configure_ttbls (target_firmware : Z) (m : table_memory) : table_memory :=
  let l1 := mmu_l1_tbl target_firmware in
  let l2 := mmu_l2_tbl target_firmware in
  let l3 := mmu_l3_tbl target_firmware in
  let m := mmu_init_table l1 64 m in
  let m := mmu_init_table l2 4096 m in
  let m := mmu_init_table l3 4096 m in
  let m := mmu_map_table 1 l1 0x40000000 l2 0 m in
  let m := mmu_map_table 1 l1 0x1C0000000 l2 0 m in
  let m := mmu_map_table 2 l2 0x40000000 l3 0 m in
  let m := mmu_map_table 2 l2 0x7C000000 l3 0 m in
  let m := mmu_map_table 2 l2 0x1F0000000 l3 0 m in
  let m := identity_map_all_mappings l1 l3 m in
  let m := mmio_map_all_devices l3 target_firmware m in
  let m := lp0_entry_map_all_ram_segments l3 m in
  let m := warmboot_map_all_ram_segments l3 m in
  tzram_map_all_segments l3 target_firmware m.

(** ** The walk *)

(** The descriptor that maps [va] and the level it was found at, in a 33-bit
    address space with 4 KB pages, where the walk starts at level 1: a table
    descriptor (levels 1 and 2) gives the address of the next table in its bits
    47 to 12. *)
Definition next_table (d : Z) : Z := d .& 0xFFFFFFFFF000.
Fixpoint walk_from (levels : nat) (m : table_memory) (level tbl va : Z) : option (Z * Z) :=
  match levels with
  | O => None
  | S n =>
      let d := m (tbl + 8 * mmu_compute_index level va) in
      if level =? 3 then if d .& 3 =? MMU_PTE_TYPE_PAGE then Some (level, d) else None
      else if d .& 3 =? MMU_PTE_TYPE_BLOCK then Some (level, d)
      else if d .& 3 =? MMU_PTE_TYPE_TABLE then walk_from n m (level + 1) (next_table d) va
      else None
  end.
Definition walk (m : table_memory) (ttbr0 va : Z) : option (Z * Z) :=
  if (0 <=? va) && (va <? 2 ^ 33) then walk_from 3 m 1 ttbr0 va else None.

(** The output address, and the attribute bits of the descriptor (upper 63..48,
    lower 11..2). *)
Definition output_address (level d va : Z) : Z :=
  let sh := MMU_Lx_SHIFT level in (((d .& 0xFFFFFFFFFFFF) >>. sh) <<. sh) + va mod 2 ^ sh.
Definition attributes (d : Z) : Z := d .& 0xFFFF000000000FFC.
Definition translate (m : table_memory) (ttbr0 va : Z) : option (Z * Z) :=
  match walk m ttbr0 va with
  | Some (level, d) => Some (output_address level d va, attributes d)
  | None => None
  end.
End PageTables.
