(* ===== verification/Se.v ===== *)
(** se.c: the Security Engine driver.

    Registers are written one by one as in the source.  A buffer argument is
    the list of its bytes; a function that fills a buffer returns its new
    contents (a stack buffer the source leaves uninitialised starts as zeros).
    Cache maintenance and barriers have no counterpart: memory is coherent in
    the model.  The physical addresses of the linked lists are not modelled,
    the lists themselves are given to the engine. *)
From S2P Require Import Prelude State Utils.

Module SE.

(** ** se.h *)

Definition KEYSLOT_SWITCH_SRKGENKEY := 0x8.
Definition KEYSLOT_SWITCH_PACKAGE2KEY := 0x8.
Definition KEYSLOT_SWITCH_TEMPKEY := 0x9.
Definition KEYSLOT_SWITCH_SESSIONKEY := 0xA.
Definition KEYSLOT_SWITCH_RNGKEY := 0xB.
Definition KEYSLOT_SWITCH_MASTERKEY := 0xC.
Definition KEYSLOT_SWITCH_DEVICEKEY := 0xD.
Definition KEYSLOT_SWITCH_4XNEWDEVICEKEYGENKEY := 0xD.
Definition KEYSLOT_SWITCH_4XOLDDEVICEKEY := 0xF.
Definition KEYSLOT_SWITCH_5XNEWDEVICEKEYGENKEY := 0xA.

Definition KEYSLOT_AES_MAX := 0x10.
Definition KEYSLOT_RSA_MAX := 0x2.
Definition KEYSIZE_AES_MAX := 0x20.
Definition KEYSIZE_RSA_MAX := 0x100.

Definition ALG_AES_ENC := 1 <<. 12.
Definition ALG_AES_DEC := 1 <<. 8.
Definition ALG_RNG := 2 <<. 12.
Definition ALG_SHA := 3 <<. 12.
Definition ALG_RSA := 4 <<. 12.
Definition DST_MEMORY := 0 <<. 2.
Definition DST_HASHREG := 1 <<. 2.
Definition DST_KEYTAB := 2 <<. 2.
Definition DST_SRK := 3 <<. 2.
Definition DST_RSAREG := 4 <<. 2.
Definition ENCMODE_SHA256 := 5 <<. 24.
Definition OP_START := 1.
Definition OP_CTX_SAVE := 3.
Definition CTX_SAVE_SRC_STICKY_BITS := 0 <<. 29.
Definition CTX_SAVE_SRC_KEYTABLE_AES := 2 <<. 29.
Definition CTX_SAVE_SRC_KEYTABLE_RSA := 1 <<. 29.
Definition CTX_SAVE_SRC_MEM := 4 <<. 29.
Definition CTX_SAVE_SRC_SRK := 6 <<. 29.
Definition CTX_SAVE_KEY_LOW_BITS := 0.
Definition CTX_SAVE_KEY_HIGH_BITS := 1.
Definition CTX_SAVE_KEY_ORIGINAL_IV := 2.
Definition CTX_SAVE_KEY_UPDATED_IV := 3.
Definition RSA_2048_BYTES := 0x100.

(** Offsets in [tegra_se_t]. *)
Definition R_0x0 := 0x0.
Definition OPERATION_REG := 0x8.
Definition INT_ENABLE_REG := 0xC.
Definition INT_STATUS_REG := 0x10.
Definition CONFIG_REG := 0x14.
Definition IN_LL_ADDR_REG := 0x18.
Definition OUT_LL_ADDR_REG := 0x24.
Definition HASH_RESULT_REG := 0x30.
Definition CONTEXT_SAVE_CONFIG_REG := 0x70.
Definition SHA_CONFIG_REG := 0x200.
Definition SHA_MSG_LENGTH_REG := 0x204.
Definition SHA_MSG_LEFT_REG := 0x214.
Definition AES_KEY_READ_DISABLE_REG := 0x280.
Definition AES_KEYSLOT_FLAGS := 0x284.
Definition CRYPTO_REG := 0x304.
Definition CRYPTO_CTR_REG := 0x308.
Definition BLOCK_COUNT_REG := 0x318.
Definition AES_KEYTABLE_ADDR := 0x31C.
Definition AES_KEYTABLE_DATA := 0x320.
Definition CRYPTO_KEYTABLE_DST_REG := 0x330.
Definition RNG_CONFIG_REG := 0x340.
Definition RNG_SRC_CONFIG_REG := 0x344.
Definition RNG_RESEED_INTERVAL_REG := 0x348.
Definition RSA_CONFIG := 0x400.
Definition RSA_KEY_SIZE_REG := 0x404.
Definition RSA_EXP_SIZE_REG := 0x408.
Definition RSA_KEY_READ_DISABLE_REG := 0x40C.
Definition RSA_KEYSLOT_FLAGS := 0x410.
Definition RSA_KEYTABLE_ADDR := 0x420.
Definition RSA_KEYTABLE_DATA := 0x424.
Definition RSA_OUTPUT := 0x428.
Definition FLAGS_REG := 0x800.
Definition ERR_STATUS_REG := 0x804.
Definition SPARE_0 := 0x80C.

(** A store to a register; a store to a [*_KEYTABLE_DATA] port also stores the
    word in the key table at the address in the matching [*_KEYTABLE_ADDR]. *)
Definition hw_write (off v : Z) (h : se_hw) : se_hw :=
  let h := if off =? AES_KEYTABLE_DATA
           then h <| aes_keytable ::= fun t => upd t (se_regs h AES_KEYTABLE_ADDR) v |> else h in
  let h := if off =? RSA_KEYTABLE_DATA
           then h <| rsa_keytable ::= fun t => upd t (se_regs h RSA_KEYTABLE_ADDR) v |> else h in
  h <| se_regs ::= fun r => upd r off v |>.

Definition se_write (off v : Z) : M unit := modify (fun w => w <| w_se ::= hw_write off v |>).
Definition se_read (off : Z) : M Z := gets (fun w => se_regs (w_se w) off).

Section Driver.
Context {soc : SoC}.

(** The engine runs the operation just written to OPERATION_REG. *)
Definition se_run (op : Z) (input output : se_ll) : M (list Z) := fun w =>
  let r := se_engine op input output (w_se w) in (Ret (snd r), w <| w_se := fst r |>).

Definition ll_init (buffer : option (list Z)) : se_ll :=
  match buffer with Some b => ll_buf b | None => ll_null end.

Definition set_security_engine_callback (callback : option se_callback) : M unit :=
  cur ← gets (fun w => g_se_callback (w_drv w));
  match callback, cur with
  | Some _, None => modify (fun w => w <| w_drv ::= fun s => s <| g_se_callback := callback |> |>)
  | _, _ => generic_panic
  end.

(** [run] is the call through the function pointer. *)
Definition se_operation_completed (run : se_callback -> M Z) : M unit :=
  se_write INT_ENABLE_REG 0 ;;
  cur ← gets (fun w => g_se_callback (w_drv w));
  match cur with
  | Some cb =>
      run cb ;;
      modify (fun w => w <| w_drv ::= fun s => s <| g_se_callback := None |> |>)
  | None => mret tt
  end.

Definition se_check_error_status_reg : M unit :=
  err ← se_read ERR_STATUS_REG;
  if negb (err =? 0) then generic_panic else mret tt.

Definition se_check_for_error : M unit :=
  int_status ← se_read INT_STATUS_REG;
  flags ← se_read FLAGS_REG;
  err ← se_read ERR_STATUS_REG;
  if negb (int_status .& 0x10000 =? 0) || negb (flags .& 3 =? 0) || negb (err =? 0)
  then generic_panic else mret tt.

(** interrupt.c: [intr_set_pending]; the 8-bit mask shift stays below 32. *)
Definition intr_set_pending (id : Z) : M unit :=
  reg_write (GICD_BASE + 0x200 + 4 * (id >>. 5)) (u32 (1 <<. (id .& 0x1F))).

Definition INTERRUPT_ID_USER_SECURITY_ENGINE := 0x2C.
Definition se_trigger_interrupt : M unit := intr_set_pending INTERRUPT_ID_USER_SECURITY_ENGINE.

Definition se_verify_flags_cleared : M unit :=
  flags ← se_read FLAGS_REG;
  if negb (flags .& 3 =? 0) then generic_panic else mret tt.

Definition se_generate_test_vector : M (list Z) := mret (zeros 0x10).

Definition se_validate_stored_vector : M unit :=
  generated ← gets (fun w => g_se_generated_vector (w_drv w));
  if negb generated then generic_panic else
  calc_vector ← se_generate_test_vector;
  stored ← gets (fun w => g_se_stored_test_vector (w_drv w));
  if bool_decide (calc_vector = stored) then mret tt else generic_panic.

Definition se_generate_stored_vector : M unit :=
  generated ← gets (fun w => g_se_generated_vector (w_drv w));
  if (generated : bool) then generic_panic else
  vector ← se_generate_test_vector;
  modify (fun w => w <| w_drv ::= fun s =>
    s <| g_se_stored_test_vector := vector |> <| g_se_generated_vector := true |> |>).

(** ** Key slots *)

Definition set_aes_keyslot_flags (keyslot flags : Z) : M unit :=
  if keyslot >=? KEYSLOT_AES_MAX then generic_panic else
  (if negb (flags .& not32 0x80 =? 0)
   then se_write (AES_KEYSLOT_FLAGS + 4 * keyslot) (not32 flags) else mret tt) ;;
  (if negb (flags .& 0x80 =? 0)
   then rd ← se_read AES_KEY_READ_DISABLE_REG;
        se_write AES_KEY_READ_DISABLE_REG (rd .& not32 (1 <<. keyslot))
   else mret tt).

Definition set_rsa_keyslot_flags (keyslot flags : Z) : M unit :=
  if keyslot >=? KEYSLOT_RSA_MAX then generic_panic else
  (if negb (flags .& not32 0x80 =? 0)
   then se_write (RSA_KEYSLOT_FLAGS + 4 * keyslot) ((((flags >>. 4) .& 4) .| (flags .& 3)) .^ 7)
   else mret tt) ;;
  (if negb (flags .& 0x80 =? 0)
   then rd ← se_read RSA_KEY_READ_DISABLE_REG;
        se_write RSA_KEY_READ_DISABLE_REG (rd .& not32 (1 <<. keyslot))
   else mret tt).

Definition aes_keytable_store (addr v : Z) : M unit :=
  se_write AES_KEYTABLE_ADDR addr ;; se_write AES_KEYTABLE_DATA v.
Definition rsa_keytable_store (addr v : Z) : M unit :=
  se_write RSA_KEYTABLE_ADDR addr ;; se_write RSA_KEYTABLE_DATA v.

Definition clear_aes_keyslot (keyslot : Z) : M unit :=
  if keyslot >=? KEYSLOT_AES_MAX then generic_panic else
  for_each (range 0x10) (fun i => aes_keytable_store ((keyslot <<. 4) .| i) 0).

Definition clear_rsa_keyslot (keyslot : Z) : M unit :=
  if keyslot >=? KEYSLOT_RSA_MAX then generic_panic else
  for_each (range 0x40) (fun i => rsa_keytable_store ((keyslot <<. 7) .| i .| 0x40) 0) ;;
  for_each (range 0x40) (fun i => rsa_keytable_store ((keyslot <<. 7) .| i) 0).

Definition set_aes_keyslot (keyslot : Z) (key : list Z) (key_size : Z) : M unit :=
  if (keyslot >=? KEYSLOT_AES_MAX) || (key_size >? KEYSIZE_AES_MAX) then generic_panic else
  for_each (range (key_size >>. 2)) (fun i =>
    aes_keytable_store ((keyslot <<. 4) .| i) (read32le key (4 * i))).

Definition set_rsa_keyslot (keyslot : Z) (modulus : list Z) (modulus_size : Z)
    (exponent : list Z) (exp_size : Z) : M unit :=
  if (keyslot >=? KEYSLOT_RSA_MAX) || (modulus_size >? KEYSIZE_RSA_MAX)
     || (exp_size >? KEYSIZE_RSA_MAX) then generic_panic else
  for_each (range (modulus_size >>. 2)) (fun i =>
    rsa_keytable_store ((keyslot <<. 7) .| 0x40 .| i)
      (read32be modulus (4 * (modulus_size >>. 2) - 4 * i - 4))) ;;
  for_each (range (exp_size >>. 2)) (fun i =>
    rsa_keytable_store ((keyslot <<. 7) .| i)
      (read32be exponent (4 * (exp_size >>. 2) - 4 * i - 4))) ;;
  modify (fun w => w <| w_drv ::= fun s =>
    s <| g_se_modulus_sizes ::= fun l => <[Z.to_nat keyslot := modulus_size]> l |>
      <| g_se_exp_sizes ::= fun l => <[Z.to_nat keyslot := exp_size]> l |> |>).

Definition set_aes_keyslot_iv (keyslot : Z) (iv : list Z) (iv_size : Z) : M unit :=
  if (keyslot >=? KEYSLOT_AES_MAX) || (iv_size >? 0x10) then generic_panic else
  for_each (range (iv_size >>. 2)) (fun i =>
    aes_keytable_store ((keyslot <<. 4) .| 8 .| i) (read32le iv (4 * i))).

Definition clear_aes_keyslot_iv (keyslot : Z) : M unit :=
  if keyslot >=? KEYSLOT_AES_MAX then generic_panic else
  for_each (range (0x10 >>. 2)) (fun i => aes_keytable_store ((keyslot <<. 4) .| 8 .| i) 0).

Definition set_se_ctr (ctr : list Z) : M unit :=
  for_each (range 4) (fun i => se_write (CRYPTO_CTR_REG + 4 * i) (read32le ctr (i * 4))).

(** ** Operations *)

Definition poll_int_status (mask : Z) : M unit :=
  int_status ← se_read INT_STATUS_REG;
  if int_status .& mask =? 0 then spin else mret tt.

(** [REG = REG], the write that acknowledges the pending status bits. *)
Definition ack_reg (off : Z) : M unit := v ← se_read off; se_write off v.

Definition trigger_se_rsa_op (buf : list Z) : M unit :=
  let in_ll := ll_init (Some buf) in
  ack_reg ERR_STATUS_REG ;;
  ack_reg INT_STATUS_REG ;;
  se_write OPERATION_REG 1 ;;
  se_run 1 in_ll ll_null ;;
  mret tt.

Definition trigger_se_blocking_op (op : Z) (dst src : option (list Z)) : M (list Z) :=
  let in_ll := ll_init src in
  let out_ll := ll_init dst in
  ack_reg ERR_STATUS_REG ;;
  ack_reg INT_STATUS_REG ;;
  se_write OPERATION_REG op ;;
  out ← se_run op in_ll out_ll;
  poll_int_status 0x10 ;;
  se_check_for_error ;;
  mret (splice (default [] dst) 0 out).

Definition decrypt_data_into_keyslot (keyslot_dst keyslot_src : Z)
    (wrapped_key : list Z) (wrapped_key_size : Z) : M unit :=
  if (keyslot_dst >=? KEYSLOT_AES_MAX) || (keyslot_src >=? KEYSIZE_AES_MAX)
     || (wrapped_key_size >? KEYSIZE_AES_MAX) then generic_panic else
  se_write CONFIG_REG (ALG_AES_DEC .| DST_KEYTAB) ;;
  se_write CRYPTO_REG (u32 (keyslot_src <<. 24)) ;;
  se_write BLOCK_COUNT_REG 0 ;;
  se_write CRYPTO_KEYTABLE_DST_REG (u32 (keyslot_dst <<. 8)) ;;
  trigger_se_blocking_op OP_START None (Some (slice wrapped_key 0 wrapped_key_size)) ;;
  mret tt.

Definition se_aes_crypt_insecure_internal (keyslot out_ll_paddr in_ll_paddr size crypt_config : Z)
    (encrypt : bool) (callback : option se_callback) : M unit :=
  if keyslot >=? KEYSLOT_AES_MAX then generic_panic else
  if size =? 0 then mret tt else
  (if encrypt then se_write CONFIG_REG (ALG_AES_ENC .| DST_MEMORY)
   else se_write CONFIG_REG (ALG_AES_DEC .| DST_MEMORY)) ;;
  se_write CRYPTO_REG
    (u32 (crypt_config .| (keyslot <<. 24) .| (Z.b2z encrypt <<. 8))) ;;
  (crypto ← se_read CRYPTO_REG; se_write CRYPTO_REG (crypto .| 0x80000000)) ;;
  se_write BLOCK_COUNT_REG (u32 ((size >>. 4) - 1)) ;;
  set_security_engine_callback callback ;;
  se_write INT_ENABLE_REG 0x10 ;;
  se_write IN_LL_ADDR_REG in_ll_paddr ;;
  se_write OUT_LL_ADDR_REG out_ll_paddr ;;
  ack_reg ERR_STATUS_REG ;;
  ack_reg INT_STATUS_REG ;;
  se_write OPERATION_REG 1.

Definition se_aes_ctr_crypt_insecure (keyslot out_ll_paddr in_ll_paddr size : Z) (ctr : list Z)
    (callback : option se_callback) : M unit :=
  se_write SPARE_0 1 ;;
  set_se_ctr ctr ;;
  se_aes_crypt_insecure_internal keyslot out_ll_paddr in_ll_paddr size 0x81E true callback.

Definition se_aes_cbc_encrypt_insecure (keyslot out_ll_paddr in_ll_paddr size : Z) (iv : list Z)
    (callback : option se_callback) : M unit :=
  set_aes_keyslot_iv keyslot iv 0x10 ;;
  se_aes_crypt_insecure_internal keyslot out_ll_paddr in_ll_paddr size 0x44 true callback.

Definition se_aes_cbc_decrypt_insecure (keyslot out_ll_paddr in_ll_paddr size : Z) (iv : list Z)
    (callback : option se_callback) : M unit :=
  set_aes_keyslot_iv keyslot iv 0x10 ;;
  se_aes_crypt_insecure_internal keyslot out_ll_paddr in_ll_paddr size 0x66 false callback.

(** ** RSA *)

Definition modulus_size_of (keyslot : Z) : M Z :=
  gets (fun w => byte_at (g_se_modulus_sizes (w_drv w)) keyslot).
Definition exp_size_of (keyslot : Z) : M Z :=
  gets (fun w => byte_at (g_se_exp_sizes (w_drv w)) keyslot).

(** The registers both exponentiations program. *)
Definition rsa_op_setup (keyslot : Z) : M unit :=
  se_write CONFIG_REG (ALG_RSA .| DST_RSAREG) ;;
  se_write RSA_CONFIG (u32 (keyslot <<. 24)) ;;
  modulus_size ← modulus_size_of keyslot;
  se_write RSA_KEY_SIZE_REG (u32 ((modulus_size >>. 6) - 1)) ;;
  exp_size ← exp_size_of keyslot;
  se_write RSA_EXP_SIZE_REG (exp_size >>. 2).

Definition se_exp_mod (keyslot : Z) (buf : list Z) (size : Z)
    (callback : option se_callback) : M unit :=
  if (keyslot >=? KEYSLOT_RSA_MAX) || (size >? KEYSIZE_RSA_MAX) then generic_panic else
  let stack_buf := rev (slice buf 0 size) in
  rsa_op_setup keyslot ;;
  set_security_engine_callback callback ;;
  se_write INT_ENABLE_REG 0x10 ;;
  trigger_se_rsa_op stack_buf ;;
  poll_int_status 2.

(** The output words, last word of the buffer first in RSA_OUTPUT. *)
Definition se_get_exp_mod_output (size : Z) : M (list Z) :=
  gets (fun w => rev (range (size >>. 2)) ≫= fun i =>
    le_bytes 4 (bswap32 (se_regs (w_se w) (RSA_OUTPUT + 4 * i)))).

Definition se_synchronous_exp_mod (keyslot : Z) (dst_size : Z) (src : list Z) (src_size : Z)
    : M (list Z) :=
  if (keyslot >=? KEYSLOT_RSA_MAX) || (src_size >? KEYSIZE_RSA_MAX)
     || (dst_size >? KEYSIZE_RSA_MAX) then generic_panic else
  let stack_buf := rev (slice src 0 src_size) in
  rsa_op_setup keyslot ;;
  trigger_se_blocking_op OP_START None (Some stack_buf) ;;
  se_get_exp_mod_output dst_size.

(** ** AES, secure buffers *)

Definition se_perform_aes_block_operation (dst_size : Z) (src : list Z) (src_size : Z)
    : M (list Z) :=
  if (src_size >? 0x10) || (dst_size >? 0x10) then generic_panic else
  let block := splice (zeros 0x10) 0 (slice src 0 src_size) in
  se_write BLOCK_COUNT_REG 0 ;;
  block ← trigger_se_blocking_op OP_START (Some block) (Some block);
  mret (slice block 0 dst_size).

Definition se_aes_ctr_crypt (keyslot : Z) (dst : list Z) (dst_size : Z) (src : list Z)
    (src_size : Z) (ctr : list Z) (ctr_size : Z) : M (list Z) :=
  if (keyslot >=? KEYSLOT_AES_MAX) || negb (ctr_size =? 0x10) then generic_panic else
  let num_blocks := u32 (src_size >>. 4) in
  se_write SPARE_0 1 ;;
  se_write CONFIG_REG (ALG_AES_ENC .| DST_MEMORY) ;;
  se_write CRYPTO_REG (u32 ((keyslot <<. 24) .| 0x91E)) ;;
  set_se_ctr ctr ;;
  let aligned_size := num_blocks <<. 4 in
  dst ← (if negb (aligned_size =? 0)
         then se_write BLOCK_COUNT_REG (u32 (num_blocks - 1)) ;;
              out ← trigger_se_blocking_op OP_START (Some (slice dst 0 dst_size))
                      (Some (slice src 0 aligned_size));
              mret (splice dst 0 out)
         else mret dst);
  if (aligned_size <? dst_size) && (aligned_size <? src_size)
  then let last_block_size := if src_size <? dst_size then src_size - aligned_size
                              else dst_size - aligned_size in
       out ← se_perform_aes_block_operation last_block_size
               (slice src aligned_size (src_size - aligned_size)) (src_size - aligned_size);
       mret (splice dst aligned_size out)
  else mret dst.

Definition se_aes_ecb_encrypt_block (keyslot dst_size : Z) (src : list Z) (src_size config_high : Z)
    : M (list Z) :=
  if (keyslot >=? KEYSLOT_AES_MAX) || negb (dst_size =? 0x10) || negb (src_size =? 0x10)
  then generic_panic else
  se_write CONFIG_REG (u32 (ALG_AES_ENC .| DST_MEMORY .| (config_high <<. 16))) ;;
  se_write CRYPTO_REG (u32 ((keyslot <<. 24) .| 0x100)) ;;
  se_perform_aes_block_operation 0x10 src 0x10.

Definition se_aes_128_ecb_encrypt_block (keyslot dst_size : Z) (src : list Z) (src_size : Z)
    : M (list Z) := se_aes_ecb_encrypt_block keyslot dst_size src src_size 0.
Definition se_aes_256_ecb_encrypt_block (keyslot dst_size : Z) (src : list Z) (src_size : Z)
    : M (list Z) := se_aes_ecb_encrypt_block keyslot dst_size src src_size 0x202.

Definition se_aes_ecb_decrypt_block (keyslot dst_size : Z) (src : list Z) (src_size : Z)
    : M (list Z) :=
  if (keyslot >=? KEYSLOT_AES_MAX) || negb (dst_size =? 0x10) || negb (src_size =? 0x10)
  then generic_panic else
  se_write CONFIG_REG (ALG_AES_DEC .| DST_MEMORY) ;;
  se_write CRYPTO_REG (u32 (keyslot <<. 24)) ;;
  se_perform_aes_block_operation 0x10 src 0x10.

(** The loop of [shift_left_xor_rb], from the last byte of the key up:
    returns the shifted bytes and the bit carried out of them. *)
Fixpoint shift_left_bytes (key : list Z) : list Z * Z :=
  match key with
  | [] => ([], 0)
  | cur_byte :: rest =>
      let '(rest', prev_high_bit) := shift_left_bytes rest in
      (u8 (cur_byte <<. 1) .| prev_high_bit :: rest', cur_byte >>. 7)
  end.
Definition shift_left_xor_rb (key : list Z) : list Z :=
  let '(key', prev_high_bit) := shift_left_bytes key in
  if negb (prev_high_bit =? 0) then splice key' 0xF [byte_at key' 0xF .^ 0x87] else key'.

Definition cmac_last_block (data : list Z) (data_size : Z) : list Z :=
  if negb (data_size .& 0xF =? 0)
  then splice (splice (zeros 0x10) 0 (slice data (data_size .& Z.lnot 0xF) (data_size .& 0xF)))
         (data_size .& 0xF) [0x80]
  else if data_size >=? 0x10
  then splice (zeros 0x10) 0 (slice data (data_size - 0x10) 0x10)
  else zeros 0x10.

Definition se_compute_aes_cmac (keyslot cmac_size : Z) (data : list Z) (data_size config_high : Z)
    : M (list Z) :=
  if keyslot >=? KEYSLOT_AES_MAX then generic_panic else
  derived_key ← se_aes_ecb_encrypt_block keyslot 0x10 (zeros 0x10) 0x10 config_high;
  let derived_key := shift_left_xor_rb derived_key in
  let derived_key := if negb (data_size .& 0xF =? 0)
                     then shift_left_xor_rb derived_key else derived_key in
  se_write CONFIG_REG (u32 (ALG_AES_ENC .| DST_HASHREG .| (config_high <<. 16))) ;;
  se_write CRYPTO_REG (u32 ((keyslot <<. 24) .| 0x145)) ;;
  clear_aes_keyslot_iv keyslot ;;
  let num_blocks := u32 ((data_size + 0xF) >>. 4) in
  (if num_blocks >? 1
   then se_write BLOCK_COUNT_REG (u32 (num_blocks - 2)) ;;
        trigger_se_blocking_op OP_START None (Some (slice data 0 data_size)) ;;
        crypto ← se_read CRYPTO_REG;
        se_write CRYPTO_REG (crypto .| 0x80)
   else mret tt) ;;
  let last_block := xor_bytes (cmac_last_block data data_size) derived_key in
  se_write BLOCK_COUNT_REG 0 ;;
  trigger_se_blocking_op OP_START None (Some last_block) ;;
  gets (fun w => range (cmac_size >>. 2) ≫= fun i =>
    le_bytes 4 (se_regs (w_se w) (HASH_RESULT_REG + (i <<. 2)))).

Definition se_compute_aes_128_cmac (keyslot cmac_size : Z) (data : list Z) (data_size : Z)
    : M (list Z) := se_compute_aes_cmac keyslot cmac_size data data_size 0.
Definition se_compute_aes_256_cmac (keyslot cmac_size : Z) (data : list Z) (data_size : Z)
    : M (list Z) := se_compute_aes_cmac keyslot cmac_size data data_size 0x202.

Definition se_aes_256_cbc_encrypt (keyslot : Z) (dst : list Z) (dst_size : Z) (src : list Z)
    (src_size : Z) (iv : list Z) : M (list Z) :=
  if (keyslot >=? KEYSLOT_AES_MAX) || (src_size <? 0x10) then generic_panic else
  se_write CONFIG_REG (u32 (ALG_AES_ENC .| DST_MEMORY .| (0x202 <<. 16))) ;;
  se_write CRYPTO_REG (u32 ((keyslot <<. 24) .| 0x144)) ;;
  set_aes_keyslot_iv keyslot iv 0x10 ;;
  se_write BLOCK_COUNT_REG (u32 ((src_size >>. 4) - 1)) ;;
  trigger_se_blocking_op OP_START (Some (slice dst 0 dst_size)) (Some (slice src 0 src_size)).

(** ** SHA-256 *)

Definition se_calculate_sha256 (src : list Z) (src_size : Z) : M (list Z) :=
  se_write CONFIG_REG (ENCMODE_SHA256 .| ALG_SHA .| DST_HASHREG) ;;
  se_write SHA_CONFIG_REG 1 ;;
  se_write SHA_MSG_LENGTH_REG (u32 (src_size <<. 3)) ;;
  se_write 0x208 0 ;;
  se_write 0x20C 0 ;;
  se_write 0x210 0 ;;
  se_write SHA_MSG_LEFT_REG (u32 (src_size <<. 3)) ;;
  se_write 0x218 0 ;;
  se_write 0x21C 0 ;;
  se_write 0x220 0 ;;
  trigger_se_blocking_op OP_START None (Some (slice src 0 src_size)) ;;
  gets (fun w => range (0x20 >>. 2) ≫= fun i =>
    le_bytes 4 (bswap32 (se_regs (w_se w) (HASH_RESULT_REG + (i <<. 2))))).

(** ** RSA-PSS verification *)

(** The inline MGF1 loop: [ofs] runs over 0, 0x20, .. below [len]. *)
Fixpoint pss_unmask (blocks : nat) (seed : Z) (salt : list Z) (masked : list Z) : M (list Z) :=
  match blocks with
  | O => mret []
  | S n =>
      mgf1_buf ← se_calculate_sha256 (salt ++ [0; 0; 0; seed]) 0x24;
      rest ← pss_unmask n (u8 (seed + 1)) salt (drop 0x20 masked);
      mret (xor_bytes (take 0x20 masked) mgf1_buf ++ rest)
  end.

Definition se_rsa2048_pss_verify (signature : list Z) (signature_size : Z) (modulus : list Z)
    (modulus_size : Z) (data : list Z) (data_size : Z) : M bool :=
  let public_exponent := [0x00; 0x01; 0x00; 0x01] in
  set_rsa_keyslot 0 modulus modulus_size public_exponent 4 ;;
  message ← se_synchronous_exp_mod 0 RSA_2048_BYTES signature signature_size;
  if negb (byte_at message (RSA_2048_BYTES - 1) =? 0xBC) then mret false else
  let h_buf := slice message (RSA_2048_BYTES - 0x20 - 0x1) 0x20 in
  db ← pss_unmask 7 0 h_buf (slice message 0 (RSA_2048_BYTES - 0x20 - 1));
  let message := splice message 0 db in
  let message := splice message 0 [byte_at message 0 .& 0x7F] in
  if negb (forallb (Z.eqb 0) (slice message 0 (RSA_2048_BYTES - 0x20 - 0x20 - 1 - 1)))
  then mret false else
  if negb (byte_at message (RSA_2048_BYTES - 0x20 - 0x20 - 1 - 1) =? 1) then mret false else
  data_hash ← se_calculate_sha256 data data_size;
  let validate_buf :=
    zeros 8 ++ data_hash ++ slice message (RSA_2048_BYTES - 0x20 - 0x20 - 1) 0x20 in
  validate_hash ← se_calculate_sha256 validate_buf 0x48;
  mret (bool_decide (h_buf = validate_hash)).

(** ** RNG *)

Definition se_initialize_rng (keyslot : Z) : M unit :=
  if keyslot >=? KEYSLOT_AES_MAX then generic_panic else
  se_write RNG_SRC_CONFIG_REG 3 ;;
  se_write RNG_RESEED_INTERVAL_REG 70001 ;;
  se_write CONFIG_REG (ALG_RNG .| DST_MEMORY) ;;
  se_write CRYPTO_REG (u32 ((keyslot <<. 24) .| 0x108)) ;;
  se_write RNG_CONFIG_REG 5 ;;
  se_write BLOCK_COUNT_REG 0 ;;
  trigger_se_blocking_op OP_START (Some (zeros 0x10)) None ;;
  mret tt.

Definition se_generate_random (keyslot : Z) (dst : list Z) (size : Z) : M (list Z) :=
  if keyslot >=? KEYSLOT_AES_MAX then generic_panic else
  let num_blocks := u32 (size >>. 4) in
  let aligned_size := u32 (num_blocks <<. 4) in
  se_write CONFIG_REG (ALG_RNG .| DST_MEMORY) ;;
  se_write CRYPTO_REG (u32 ((keyslot <<. 24) .| 0x108)) ;;
  se_write RNG_CONFIG_REG 4 ;;
  dst ← (if num_blocks >=? 1
         then se_write BLOCK_COUNT_REG (u32 (num_blocks - 1)) ;;
              out ← trigger_se_blocking_op OP_START (Some (slice dst 0 aligned_size)) None;
              mret (splice dst 0 out)
         else mret dst);
  if size >? aligned_size
  then out ← se_perform_aes_block_operation (size - aligned_size) [] 0;
       mret (splice dst aligned_size out)
  else mret dst.

(** ** Context save *)

Definition se_set_in_context_save_mode (is_context_save_mode : bool) : M unit :=
  val ← se_read R_0x0;
  se_write R_0x0 (if is_context_save_mode then val .| 0x10000 else val .& 0xFFFEFFFF).

Definition se_generate_random_key (dst_keyslot rng_keyslot : Z) : M unit :=
  if (dst_keyslot >=? KEYSLOT_AES_MAX) || (rng_keyslot >=? KEYSLOT_AES_MAX)
  then generic_panic else
  se_write CONFIG_REG (ALG_RNG .| DST_KEYTAB) ;;
  se_write CRYPTO_REG (u32 ((rng_keyslot <<. 24) .| 0x108)) ;;
  se_write RNG_CONFIG_REG 4 ;;
  se_write BLOCK_COUNT_REG 0 ;;
  se_write CRYPTO_KEYTABLE_DST_REG (u32 (dst_keyslot <<. 8)) ;;
  trigger_se_blocking_op OP_START None None ;;
  se_write CRYPTO_KEYTABLE_DST_REG (u32 ((dst_keyslot <<. 8) .| 1)) ;;
  trigger_se_blocking_op OP_START None None ;;
  mret tt.

Definition se_generate_srk (srkgen_keyslot : Z) : M unit :=
  se_write CONFIG_REG (ALG_RNG .| DST_SRK) ;;
  se_write CRYPTO_REG (u32 ((srkgen_keyslot <<. 24) .| 0x108)) ;;
  se_write RNG_CONFIG_REG 6 ;;
  se_write BLOCK_COUNT_REG 0 ;;
  trigger_se_blocking_op OP_START None None ;;
  mret tt.

Definition se_encrypt_with_srk (dst_size : Z) (src : option (list Z)) : M (list Z) :=
  if dst_size >? 0x10 then generic_panic else
  trigger_se_blocking_op OP_CTX_SAVE (Some (zeros (Z.to_nat dst_size))) src.

(** One saved block: select the source, clear BLOCK_COUNT, store at [dst + ofs]. *)
Definition ctx_save_block (src_config : Z) (src : option (list Z)) (dst : list Z) (ofs : Z)
    : M (list Z) :=
  se_write CONTEXT_SAVE_CONFIG_REG (u32 src_config) ;;
  se_write BLOCK_COUNT_REG 0 ;;
  out ← se_encrypt_with_srk 0x10 src;
  mret (splice dst ofs out).

Definition se_save_context (srkgen_keyslot rng_keyslot : Z) (dst : list Z) : M (list Z) :=
  se_generate_random_key srkgen_keyslot rng_keyslot ;;
  se_generate_srk srkgen_keyslot ;;
  work_buf ← se_generate_random rng_keyslot (zeros 0x10) 0x10;
  se_write CONFIG_REG (ALG_AES_ENC .| DST_MEMORY) ;;
  dst ← ctx_save_block CTX_SAVE_SRC_MEM (Some work_buf) dst 0;
  dst ← fold_m (fun dst i =>
    ctx_save_block (CTX_SAVE_SRC_STICKY_BITS .| (i <<. 24)) None dst (0x10 + i * 0x10))
    dst (range 0x2);
  dst ← fold_m (fun dst i =>
    dst ← ctx_save_block (CTX_SAVE_SRC_KEYTABLE_AES .| (i <<. 8) .| CTX_SAVE_KEY_LOW_BITS)
            None dst (0x30 + i * 0x20);
    ctx_save_block (CTX_SAVE_SRC_KEYTABLE_AES .| (i <<. 8) .| CTX_SAVE_KEY_HIGH_BITS)
      None dst (0x40 + i * 0x20))
    dst (range KEYSLOT_AES_MAX);
  dst ← fold_m (fun dst i =>
    ctx_save_block (CTX_SAVE_SRC_KEYTABLE_AES .| (i <<. 8) .| CTX_SAVE_KEY_ORIGINAL_IV)
      None dst (0x230 + i * 0x10))
    dst (range KEYSLOT_AES_MAX);
  dst ← fold_m (fun dst i =>
    ctx_save_block (CTX_SAVE_SRC_KEYTABLE_AES .| (i <<. 8) .| CTX_SAVE_KEY_UPDATED_IV)
      None dst (0x330 + i * 0x10))
    dst (range KEYSLOT_AES_MAX);
  dst ← fold_m (fun dst rsa_key => fold_m (fun dst mod_exp => fold_m (fun dst sub_block =>
    ctx_save_block (CTX_SAVE_SRC_KEYTABLE_RSA .| ((2 * rsa_key + (1 - mod_exp)) <<. 16)
                      .| (sub_block <<. 12))
      None dst (0x430 + 0x10 * (0x20 * rsa_key + 0x10 * mod_exp + sub_block)))
    dst (range 0x10)) dst (range 2)) dst (range KEYSLOT_RSA_MAX);
  dst ← ctx_save_block CTX_SAVE_SRC_MEM
          (Some [0; 1; 2; 3; 4; 5; 6; 7; 8; 9; 0xa; 0xb; 0xc; 0xd; 0xe; 0xf]) dst 0x830;
  se_write CONTEXT_SAVE_CONFIG_REG CTX_SAVE_SRC_SRK ;;
  se_write BLOCK_COUNT_REG 0 ;;
  se_encrypt_with_srk 0 None ;;
  se_write CONFIG_REG 0 ;;
  se_encrypt_with_srk 0 None ;;
  mret dst.
End Driver.
(** ** Effect of register stores *)

Lemma hw_write_keytable off v h a :
  off <> AES_KEYTABLE_DATA -> aes_keytable (hw_write off v h) a = aes_keytable h a.
Proof.
  intros H. unfold hw_write. rewrite (proj2 (Z.eqb_neq _ _) H). by destruct (off =? RSA_KEYTABLE_DATA).
Qed.
Lemma hw_write_regs off v h r : se_regs (hw_write off v h) r = upd (se_regs h) off v r.
Proof. unfold hw_write. by destruct (off =? AES_KEYTABLE_DATA), (off =? RSA_KEYTABLE_DATA). Qed.

Lemma w_se_update f w : w_se (w <| w_se ::= f |>) = f (w_se w).
Proof. done. Qed.

(** A key table store: address port, then data port. *)
Definition hw_keytable_store (addr v : Z) (h : se_hw) : se_hw :=
  hw_write AES_KEYTABLE_DATA v (hw_write AES_KEYTABLE_ADDR addr h).

Lemma run_aes_keytable_store addr v w :
  aes_keytable_store addr v w = (Ret tt, w <| w_se ::= hw_keytable_store addr v |>).
Proof. done. Qed.
Lemma hw_keytable_store_aes addr v h a :
  aes_keytable (hw_keytable_store addr v h) a = upd (aes_keytable h) addr v a.
Proof.
  unfold hw_keytable_store. set (h1 := hw_write AES_KEYTABLE_ADDR addr h).
  change (upd (aes_keytable h1) (se_regs h1 AES_KEYTABLE_ADDR) v a = upd (aes_keytable h) addr v a).
  unfold h1. rewrite hw_write_regs, upd_eq. unfold upd. by rewrite hw_write_keytable.
Qed.
Lemma hw_keytable_store_regs addr v h r :
  r <> AES_KEYTABLE_ADDR -> r <> AES_KEYTABLE_DATA -> se_regs (hw_keytable_store addr v h) r = se_regs h r.
Proof.
  intros. unfold hw_keytable_store. rewrite hw_write_regs, upd_ne by done.
  by rewrite hw_write_regs, upd_ne.
Qed.
End SE.
