(* ===== verification/Engine.v ===== *)
(** What the monitor relies on of the Security Engine, and the driver's
    functions run against it.

    [EngineDone] says that operations finish without an error; [CryptoEngine]
    gives AES, SHA-256 and modular exponentiation, and says which of them the
    engine computes for the register settings the driver uses.  The block
    cipher, the hash and the exponentiation stay abstract. *)
From S2P Require Import Prelude State Utils Se.
Import SE.

(** The key in a slot: its first four words. *)
Definition slot_key (h : se_hw) (slot : Z) : list Z :=
  range 4 ≫= fun i => le_bytes 4 (aes_keytable h ((slot <<. 4) .| i)).

(** Values over 32-bit words, least significant first. *)
Definition words_value (f : Z -> Z) (n : Z) : Z :=
  foldr (fun i acc => f i + 2 ^ 32 * acc) 0 (range n).
Definition rsa_modulus (h : se_hw) (slot n : Z) : Z :=
  words_value (fun i => rsa_keytable h ((slot <<. 7) .| 0x40 .| i)) n.
Definition rsa_exponent (h : se_hw) (slot n : Z) : Z :=
  words_value (fun i => rsa_keytable h ((slot <<. 7) .| i)) n.

(** The engine's state when an operation starts: the pending status bits are
    acknowledged and OPERATION_REG is written. *)
Definition start_op (op : Z) (h : se_hw) : se_hw :=
  let h1 := hw_write ERR_STATUS_REG (se_regs h ERR_STATUS_REG) h in
  let h2 := hw_write INT_STATUS_REG (se_regs h1 INT_STATUS_REG) h1 in
  hw_write OPERATION_REG op h2.

Lemma start_op_regs op h r : r <> OPERATION_REG -> se_regs (start_op op h) r = se_regs h r.
Proof.
  intros Hr. unfold start_op. cbv zeta. rewrite hw_write_regs, upd_ne by done.
  rewrite hw_write_regs. unfold upd. destruct (Z.eqb_spec r INT_STATUS_REG) as [->|_].
  - by rewrite hw_write_regs, upd_ne.
  - rewrite hw_write_regs. unfold upd. by destruct (Z.eqb_spec r ERR_STATUS_REG) as [->|_].
Qed.
Lemma start_op_aes op h : aes_keytable (start_op op h) = aes_keytable h.
Proof. done. Qed.
Lemma start_op_rsa op h : rsa_keytable (start_op op h) = rsa_keytable h.
Proof. done. Qed.

(** Every operation finishes, and without an error. *)
Class EngineDone (soc : SoC) := {
  engine_int_status op i o h :
    let s := se_regs (fst (se_engine op i o h)) INT_STATUS_REG in
    s .& 0x10 <> 0 /\ s .& 2 <> 0 /\ s .& 0x10000 = 0;
  engine_flags op i o h : se_regs (fst (se_engine op i o h)) FLAGS_REG .& 3 = 0;
  engine_err op i o h : se_regs (fst (se_engine op i o h)) ERR_STATUS_REG = 0 }.

Section Done.
Context {soc : SoC} {HD : EngineDone soc}.

(** The result of a blocking operation started in [h]. *)
Definition run_op (op : Z) (dst src : option (list Z)) (h : se_hw) : se_hw * list Z :=
  se_engine op (ll_init src) (ll_init dst) (start_op op h).

Lemma trigger_blocking_run op dst src w :
  trigger_se_blocking_op op dst src w =
  (Ret (splice (default [] dst) 0 (snd (run_op op dst src (w_se w)))),
   w <| w_se := fst (run_op op dst src (w_se w)) |>).
Proof.
  unfold trigger_se_blocking_op, ack_reg, se_read, se_write. cbv zeta.
  rewrite bind_assoc, run_gets, run_modify, bind_assoc, run_gets, run_modify, run_modify.
  rewrite (run_bind _ _ _ (snd (run_op op dst src (w_se w))) (w <| w_se := fst (run_op op dst src (w_se w)) |>)) by done.
  set (w' := update _ _ w). set (h' := fst (run_op op dst src (w_se w))).
  assert (Hp : poll_int_status 0x10 w' = (Ret tt, w')).
  { unfold poll_int_status, se_read. rewrite run_gets. change (w_se w') with h'.
    destruct (engine_int_status op (ll_init src) (ll_init dst) (start_op op (w_se w))) as (H & _).
    unfold h', run_op. by rewrite (proj2 (Z.eqb_neq _ _) H). }
  rewrite (run_bind _ _ _ _ _ Hp).
  assert (Hc : se_check_for_error w' = (Ret tt, w')).
  { unfold se_check_for_error, se_read. rewrite !run_gets. change (w_se w') with h'. unfold h', run_op.
    destruct (engine_int_status op (ll_init src) (ll_init dst) (start_op op (w_se w))) as (_ & _ & ->).
    by rewrite engine_flags, engine_err. }
  by rewrite (run_bind _ _ _ _ _ Hc).
Qed.

Lemma run_se_write {B} off v (k : unit -> M B) w :
  (se_write off v ≫= k) w = k tt (w <| w_se ::= hw_write off v |>).
Proof. done. Qed.
End Done.

(** ** Word sequences *)

Lemma range_succ n : 0 <= n -> range (n + 1) = 0 :: map Z.succ (range n).
Proof.
  intros Hn. unfold range. rewrite Z.add_1_r, seqZ_cons, Z.pred_succ by lia. f_equal.
  rewrite <- (Z.add_0_r (Z.succ 0)), <- fmap_add_seqZ. apply map_ext. lia.
Qed.
Lemma words_value_succ f n :
  0 <= n -> words_value f (n + 1) = f 0 + 2 ^ 32 * words_value (fun i => f (Z.succ i)) n.
Proof.
  intros Hn. unfold words_value. rewrite range_succ by done. cbn [foldr]. do 2 f_equal.
  generalize (range n) as l. induction l as [|i l IH]; [done|]. cbn [map foldr]. by rewrite IH.
Qed.
Lemma words_value_ext f g n :
  (forall i, 0 <= i < n -> f i = g i) -> words_value f n = words_value g n.
Proof.
  intros H. unfold words_value. setoid_rewrite <- elem_of_range in H.
  induction (range n) as [|i l IH]; [done|]. cbn [foldr].
  rewrite H by left. f_equal. f_equal. apply IH. intros j Hj. apply H. by right.
Qed.

(** Induction over the words of a buffer. *)
Lemma words_value_slices l n :
  length l = (4 * n)%nat -> words_value (fun i => le_value (slice l (4 * i) 4)) (Z.of_nat n) = le_value l.
Proof.
  revert l. induction n as [|n IH]; intros l Hl; [by destruct l|].
  rewrite Nat2Z.inj_succ, <- Z.add_1_r, words_value_succ by lia.
  replace (le_value l) with (le_value (take 4 l ++ drop 4 l)) by (by rewrite take_drop).
  rewrite le_value_app, length_take.
  replace (Nat.min 4 (length l)) with 4%nat by lia. cbn [slice]. f_equal. f_equal.
  rewrite <- (IH (drop 4 l)) by (rewrite length_drop; lia).
  apply words_value_ext. intros i Hi. unfold slice. rewrite drop_drop. do 3 f_equal. lia.
Qed.

Lemma words_value_bytes f n :
  (forall i, 0 <= i < Z.of_nat n -> is_u32 (f i)) ->
  le_value (range (Z.of_nat n) ≫= fun i => le_bytes 4 (f i)) = words_value f (Z.of_nat n).
Proof.
  revert f. induction n as [|n IH]; intros f Hf; [done|].
  rewrite Nat2Z.inj_succ, <- Z.add_1_r, words_value_succ, range_succ by lia.
  cbn [mbind list_bind]. rewrite le_value_app, length_le_bytes, le_value_bytes by (apply (Hf 0); lia).
  do 2 f_equal. rewrite <- (IH (fun i => f (Z.succ i))) by (intros; apply Hf; lia).
  f_equal. generalize (range (Z.of_nat n)) as l. induction l as [|i l IHl]; [done|].
  cbn [map]. by rewrite !bind_cons, IHl.
Qed.

Definition be_value (bs : list Z) : Z := le_value (rev bs).

Lemma slice_rev l off : 0 <= off -> off + 4 <= Z.of_nat (length l) ->
  slice (rev l) off 4 = rev (slice l (Z.of_nat (length l) - off - 4) 4).
Proof.
  intros H0 H1. unfold slice. rewrite skipn_rev, firstn_rev, length_take. f_equal.
  rewrite skipn_firstn_comm. f_equal; [lia|f_equal; lia].
Qed.

(** A big-endian buffer, read from its last word on. *)
Lemma words_value_be l n :
  length l = (4 * n)%nat ->
  words_value (fun i => read32be l (4 * Z.of_nat n - 4 * i - 4)) (Z.of_nat n) = be_value l.
Proof.
  intros Hl. unfold be_value. rewrite <- (words_value_slices (rev l) n) by (by rewrite length_rev).
  apply words_value_ext. intros i Hi. unfold read32be. rewrite slice_rev by lia. do 3 f_equal. lia.
Qed.

Lemma le_bytes_bswap32 v : le_bytes 4 (bswap32 v) = rev (le_bytes 4 v).
Proof.
  unfold bswap32. change 4%nat with (length (rev (le_bytes 4 v))) at 1.
  apply le_bytes_value. apply Forall_rev, le_bytes_is_bytes.
Qed.
Lemma rev_bind {A B} (f : A -> list B) l : rev (l ≫= f) = rev l ≫= (fun x => rev (f x)).
Proof.
  induction l as [|x l IH]; [done|]. rewrite bind_cons, rev_app_distr, IH. cbn [rev].
  by rewrite bind_app, bind_singleton.
Qed.
Lemma bind_map {A B C} (g : A -> B) (f : B -> list C) l : map g l ≫= f = l ≫= (fun x => f (g x)).
Proof. induction l as [|x l IH]; [done|]. cbn [map]. by rewrite !bind_cons, IH. Qed.
Lemma bind_range_ext {A} (f g : Z -> list A) n :
  (forall i, 0 <= i < n -> f i = g i) -> range n ≫= f = range n ≫= g.
Proof. intros H. apply Forall_bind_ext, Forall_forall. intros i Hi. by apply H, elem_of_range. Qed.
Lemma bind_range_nth (f : Z -> list Z) l :
  (range (Z.of_nat (length l)) ≫= fun i => f (byte_at l i)) = l ≫= f.
Proof.
  induction l as [|x l IH]; [done|]. cbn [length]. rewrite Nat2Z.inj_succ, <- Z.add_1_r, range_succ by lia.
  rewrite !bind_cons, bind_map. f_equal. rewrite <- IH. apply bind_range_ext. intros i Hi.
  unfold byte_at. by rewrite Z2Nat.inj_succ by lia.
Qed.

Lemma length_words32 n l : length (words32 n l) = n.
Proof. revert l. induction n as [|n IH]; intros l; cbn [words32 length]; auto. Qed.
Lemma words32_at n l i : 0 <= i < Z.of_nat n -> byte_at (words32 n l) i = le_value (slice l (4 * i) 4).
Proof.
  revert l i. induction n as [|n IH]; intros l i Hi; [lia|]. unfold byte_at, slice. cbn [words32].
  destruct (decide (i = 0)) as [->|]; [done|].
  replace (Z.to_nat i) with (S (Z.to_nat (i - 1))) by lia. cbn [nth].
  fold (byte_at (words32 n (drop 4 l)) (i - 1)). rewrite IH by lia. unfold slice. rewrite drop_drop.
  do 3 f_equal. lia.
Qed.
Lemma words32_bytes n l : length l = (4 * n)%nat -> is_bytes l -> words32 n l ≫= le_bytes 4 = l.
Proof.
  revert l. induction n as [|n IH]; intros l Hl Hb; [by destruct l|]. cbn [words32].
  rewrite bind_cons, IH; [|rewrite length_drop; lia|by apply Forall_drop].
  rewrite <- (take_drop 4 l) at 3. f_equal.
  replace 4%nat with (length (take 4 l)) at 1 by (rewrite length_take; lia).
  by apply le_bytes_value, Forall_take.
Qed.

(** ** Cryptographic behaviour *)

Definition same_tables (h h' : se_hw) : Prop :=
  (forall a, aes_keytable h' a = aes_keytable h a) /\ (forall a, rsa_keytable h' a = rsa_keytable h a).
#[export] Instance same_tables_preorder : PreOrder same_tables.
Proof.
  split; [by split|]. intros x y z [H1 H2] [H3 H4]. split; intros a; [by rewrite H3|by rewrite H4].
Qed.
Lemma slot_key_ext h h' slot : (forall a, aes_keytable h' a = aes_keytable h a) -> slot_key h' slot = slot_key h slot.
Proof.
  intros H. unfold slot_key. induction (range 4) as [|i l IH]; [done|]. by rewrite !bind_cons, IH, H.
Qed.
Lemma same_tables_key h h' slot : same_tables h h' -> slot_key h' slot = slot_key h slot.
Proof. intros [H _]. by apply slot_key_ext. Qed.

Definition is_block (b : list Z) : Prop := length b = 16%nat /\ is_bytes b.

Class CryptoEngine (soc : SoC) := {
  crypto_done :: EngineDone soc;
  aes_encrypt : list Z -> list Z -> list Z;
  aes_decrypt : list Z -> list Z -> list Z;
  sha256 : list Z -> list Z;
  aes_encrypt_block k b : is_block k -> is_block b -> is_block (aes_encrypt k b);
  aes_decrypt_block k b : is_block k -> is_block b -> is_block (aes_decrypt k b);
  aes_decrypt_encrypt k b : is_block k -> is_block b -> aes_decrypt k (aes_encrypt k b) = b;
  sha256_digest m : is_bytes m -> length (sha256 m) = 32%nat /\ is_bytes (sha256 m);
  (* ECB on one block *)
  engine_ecb_decrypt h slot b o :
    0 <= slot < 16 -> se_regs h CONFIG_REG = ALG_AES_DEC .| DST_MEMORY ->
    se_regs h CRYPTO_REG = u32 (slot <<. 24) -> se_regs h BLOCK_COUNT_REG = 0 -> is_block b ->
    let r := se_engine OP_START (ll_buf b) (ll_buf o) h in
    snd r = aes_decrypt (slot_key h slot) b /\ same_tables h (fst r);
  engine_ecb_encrypt h slot b o :
    0 <= slot < 16 -> se_regs h CONFIG_REG = ALG_AES_ENC .| DST_MEMORY ->
    se_regs h CRYPTO_REG = u32 ((slot <<. 24) .| 0x100) -> se_regs h BLOCK_COUNT_REG = 0 -> is_block b ->
    let r := se_engine OP_START (ll_buf b) (ll_buf o) h in
    snd r = aes_encrypt (slot_key h slot) b /\ same_tables h (fst r);
  (* decryption of one block into a key slot *)
  engine_decrypt_keytab h slot dst b :
    0 <= slot < 16 -> 0 <= dst < 16 -> se_regs h CONFIG_REG = ALG_AES_DEC .| DST_KEYTAB ->
    se_regs h CRYPTO_REG = u32 (slot <<. 24) -> se_regs h BLOCK_COUNT_REG = 0 ->
    se_regs h CRYPTO_KEYTABLE_DST_REG = u32 (dst <<. 8) -> is_block b ->
    let h' := fst (se_engine OP_START (ll_buf b) ll_null h) in
    slot_key h' dst = aes_decrypt (slot_key h slot) b /\
    (forall s, 0 <= s < 16 -> s <> dst -> slot_key h' s = slot_key h s) /\
    (forall a, rsa_keytable h' a = rsa_keytable h a);
  (* SHA-256 of a message given in one piece *)
  engine_sha256 h m :
    is_bytes m -> se_regs h CONFIG_REG = ENCMODE_SHA256 .| ALG_SHA .| DST_HASHREG ->
    se_regs h SHA_MSG_LENGTH_REG = u32 (Z.of_nat (length m) <<. 3) ->
    let h' := fst (se_engine OP_START (ll_buf m) ll_null h) in
    (range 8 ≫= fun i => le_bytes 4 (bswap32 (se_regs h' (HASH_RESULT_REG + (i <<. 2))))) = sha256 m /\
    same_tables h h';
  (* modular exponentiation on [n] words, little-endian input *)
  engine_exp_mod h slot n en b :
    0 <= slot < 2 -> 1 <= n <= 4 -> 1 <= en <= 64 -> is_bytes b -> Z.of_nat (length b) = 64 * n ->
    se_regs h CONFIG_REG = ALG_RSA .| DST_RSAREG -> se_regs h RSA_CONFIG = u32 (slot <<. 24) ->
    se_regs h RSA_KEY_SIZE_REG = n - 1 -> se_regs h RSA_EXP_SIZE_REG = en ->
    0 < rsa_modulus h slot (16 * n) < 2 ^ (512 * n) ->
    let h' := fst (se_engine OP_START (ll_buf b) ll_null h) in
    (forall i, 0 <= i < 16 * n -> is_u32 (se_regs h' (RSA_OUTPUT + 4 * i))) /\
    words_value (fun i => se_regs h' (RSA_OUTPUT + 4 * i)) (16 * n)
      = le_value b ^ rsa_exponent h slot en mod rsa_modulus h slot (16 * n) }.

(** ECB on [n] blocks, for the sectors of the encrypted partitions. *)
Fixpoint ecb (f : list Z -> list Z) (n : nat) (data : list Z) : list Z :=
  match n with O => [] | S n' => f (take 16 data) ++ ecb f n' (drop 16 data) end.

Class BulkEngine (soc : SoC) {HC : CryptoEngine soc} := {
  engine_bulk_decrypt h slot n b o :
    0 <= slot < 16 -> se_regs h CONFIG_REG = ALG_AES_DEC .| DST_MEMORY ->
    se_regs h CRYPTO_REG = u32 (slot <<. 24) -> se_regs h BLOCK_COUNT_REG = u32 (Z.of_nat n - 1) ->
    length b = (16 * n)%nat -> is_bytes b ->
    let r := se_engine OP_START (ll_buf b) (ll_buf o) h in
    snd r = ecb (aes_decrypt (slot_key h slot)) n b /\ same_tables h (fst r);
  engine_bulk_encrypt h slot n b o :
    0 <= slot < 16 -> se_regs h CONFIG_REG = ALG_AES_ENC .| DST_MEMORY ->
    se_regs h CRYPTO_REG = u32 ((slot <<. 24) .| 0x100) -> se_regs h BLOCK_COUNT_REG = u32 (Z.of_nat n - 1) ->
    length b = (16 * n)%nat -> is_bytes b ->
    let r := se_engine OP_START (ll_buf b) (ll_buf o) h in
    snd r = ecb (aes_encrypt (slot_key h slot)) n b /\ same_tables h (fst r) }.

Lemma hw_write_tables off v h :
  off <> AES_KEYTABLE_DATA -> off <> RSA_KEYTABLE_DATA -> same_tables h (hw_write off v h).
Proof.
  intros H1 H2. unfold hw_write. rewrite (proj2 (Z.eqb_neq _ _) H1), (proj2 (Z.eqb_neq _ _) H2). by split.
Qed.
Lemma start_op_tables op h : same_tables h (start_op op h).
Proof. by split. Qed.

(** Looks a register up through the stores that lead to a state. *)
Ltac regs := rewrite ?start_op_regs by done;
  repeat (rewrite hw_write_regs; first [rewrite upd_eq | rewrite upd_ne by done]); try reflexivity.
Ltac tables := repeat first
  [ done | etransitivity; [|apply start_op_tables] | etransitivity; [|by apply hw_write_tables] ].

Lemma slice_all l n : Z.of_nat (length l) = n -> slice l 0 n = l.
Proof. intros <-. unfold slice. rewrite drop_0, Nat2Z.id. apply firstn_all. Qed.
Lemma splice_all old new : (length old <= length new)%nat -> splice old 0 new = take (length old) new.
Proof.
  intros H. unfold splice. cbn [Z.to_nat]. rewrite take_0, Nat.sub_0_r. cbn [app Nat.add].
  rewrite drop_ge by done. apply app_nil_r.
Qed.
Lemma splice_block old new : length old = length new -> splice old 0 new = new.
Proof. intros H. rewrite splice_all, H by lia. apply firstn_all. Qed.

Section Blocks.
Context {soc : SoC} {HD : EngineDone soc}.

(** The registers the one-block AES operations leave before they start. *)
Lemma block_operation_run w src out h1 :
  length src = 16%nat -> h1 = hw_write BLOCK_COUNT_REG 0 (w_se w) ->
  snd (run_op OP_START (Some src) (Some src) h1) = out -> length out = 16%nat ->
  se_perform_aes_block_operation 0x10 src 0x10 w =
  (Ret out, w <| w_se := fst (run_op OP_START (Some src) (Some src) h1) |>).
Proof.
  intros Hs -> Ho Hl. unfold se_perform_aes_block_operation.
  rewrite (eq_refl : ((0x10 >? 0x10) || (0x10 >? 0x10)) = false).
  rewrite (slice_all src) by lia. rewrite (splice_block (zeros 0x10) src) by done. cbv zeta.
  rewrite run_se_write, (run_bind _ _ _ _ _ (trigger_blocking_run _ _ _ _)). cbn [default from_option id].
  rewrite w_se_update, Ho, splice_block by lia. rewrite slice_all by lia. done.
Qed.
End Blocks.

Section Crypto.
Context {soc : SoC} {HC : CryptoEngine soc}.

Lemma slot_key_block h slot : is_block (slot_key h slot).
Proof.
  split; [done|]. unfold slot_key, is_bytes. induction (range 4) as [|i l IH]; [constructor|].
  rewrite bind_cons. apply Forall_app_2; [apply (le_bytes_is_bytes 4)|done].
Qed.

(** Each driver function: what it returns, and the key tables it leaves. *)
Lemma ecb_decrypt_run slot src w :
  0 <= slot < 16 -> is_block src ->
  exists h', se_aes_ecb_decrypt_block slot 0x10 src 0x10 w =
    (Ret (aes_decrypt (slot_key (w_se w) slot) src), w <| w_se := h' |>) /\ same_tables (w_se w) h'.
Proof.
  intros Hs Hb. unfold se_aes_ecb_decrypt_block, KEYSLOT_AES_MAX. zdec.
  rewrite !run_se_write. set (w2 := update w_se _ (update w_se _ w)).
  set (h := start_op OP_START (hw_write BLOCK_COUNT_REG 0 (w_se w2))).
  destruct (engine_ecb_decrypt h slot src src) as [Ho Ht];
    [done|unfold h, w2; rewrite !w_se_update; by regs..|done|].
  assert (Hk : same_tables (w_se w) h) by (unfold h, w2; rewrite !w_se_update; tables).
  rewrite (same_tables_key _ _ _ Hk) in Ho.
  eexists. split.
  - rewrite (block_operation_run w2 src _ _ (proj1 Hb) eq_refl Ho); [reflexivity|].
    by apply aes_decrypt_block; [apply slot_key_block|].
  - etransitivity; [apply Hk|apply Ht].
Qed.

Lemma ecb_encrypt_run slot src w :
  0 <= slot < 16 -> is_block src ->
  exists h', se_aes_128_ecb_encrypt_block slot 0x10 src 0x10 w =
    (Ret (aes_encrypt (slot_key (w_se w) slot) src), w <| w_se := h' |>) /\ same_tables (w_se w) h'.
Proof.
  intros Hs Hb. unfold se_aes_128_ecb_encrypt_block, se_aes_ecb_encrypt_block, KEYSLOT_AES_MAX. zdec.
  rewrite !run_se_write. set (w2 := update w_se _ (update w_se _ w)).
  set (h := start_op OP_START (hw_write BLOCK_COUNT_REG 0 (w_se w2))).
  destruct (engine_ecb_encrypt h slot src src) as [Ho Ht];
    [done|unfold h, w2; rewrite !w_se_update; by regs..|done|].
  assert (Hk : same_tables (w_se w) h) by (unfold h, w2; rewrite !w_se_update; tables).
  rewrite (same_tables_key _ _ _ Hk) in Ho.
  eexists. split.
  - rewrite (block_operation_run w2 src _ _ (proj1 Hb) eq_refl Ho); [reflexivity|].
    by apply aes_encrypt_block; [apply slot_key_block|].
  - etransitivity; [apply Hk|apply Ht].
Qed.

(** After [decrypt_data_into_keyslot dst src wrapped] only slot [dst] changed. *)
Definition key_loaded (h h' : se_hw) (dst : Z) (key : list Z) : Prop :=
  slot_key h' dst = key /\ (forall s, 0 <= s < 16 -> s <> dst -> slot_key h' s = slot_key h s).

Lemma decrypt_into_run dst src wrapped w :
  0 <= src < 16 -> 0 <= dst < 16 -> is_block wrapped ->
  exists h', decrypt_data_into_keyslot dst src wrapped 0x10 w = (Ret tt, w <| w_se := h' |>) /\
    key_loaded (w_se w) h' dst (aes_decrypt (slot_key (w_se w) src) wrapped).
Proof.
  intros Hs Hd Hb. unfold decrypt_data_into_keyslot, KEYSLOT_AES_MAX, KEYSIZE_AES_MAX. zdec.
  rewrite !run_se_write. rewrite (slice_all wrapped) by (rewrite (proj1 Hb); done).
  set (w2 := update w_se _ _). set (h := start_op OP_START (w_se w2)).
  assert (Hk : same_tables (w_se w) h) by (unfold h, w2; rewrite !w_se_update; tables).
  destruct (engine_decrypt_keytab h src dst wrapped) as (H1 & H2 & _);
    [done|done|unfold h, w2; rewrite !w_se_update; by regs..|done|].
  rewrite (run_bind _ _ _ _ _ (trigger_blocking_run _ _ _ _)). eexists. split; [reflexivity|].
  unfold run_op. cbn [ll_init]. fold h. split.
  - by rewrite H1, (same_tables_key _ _ _ Hk).
  - intros s H3 H4. by rewrite H2, (same_tables_key _ _ _ Hk).
Qed.

Lemma sha256_run m n w :
  is_bytes m -> 0 <= n <= Z.of_nat (length m) ->
  exists h', se_calculate_sha256 m n w = (Ret (sha256 (slice m 0 n)), w <| w_se := h' |>) /\
    same_tables (w_se w) h'.
Proof.
  intros Hm Hn. unfold se_calculate_sha256. rewrite !run_se_write. set (w2 := update w_se _ _).
  assert (Hl : Z.of_nat (length (slice m 0 n)) = n) by (rewrite length_slice; lia).
  destruct (engine_sha256 (start_op OP_START (w_se w2)) (slice m 0 n)) as [Ho Ht].
  - by apply slice_is_bytes.
  - unfold w2. rewrite !w_se_update. by regs.
  - unfold w2. rewrite !w_se_update, Hl. by regs.
  - rewrite (run_bind _ _ _ _ _ (trigger_blocking_run _ _ _ _)). eexists. split.
    + unfold gets. rewrite w_se_update. unfold run_op. cbn [ll_init]. rewrite <- Ho. reflexivity.
    + etransitivity; [|apply Ht]. unfold w2. rewrite !w_se_update. tables.
Qed.
End Crypto.
