(* ===== verification/Pages.v ===== *)
(** userpage.c and smc_ams.c: the windows through which the monitor reaches
    memory of the normal world. *)
From S2P Require Import Prelude State Utils.

Definition get_page_for_address (address : Z) : Z := address .& not64 0xFFF.

Module UserPage.

Definition USER_PAGE_SECURE_MONITOR_ADDR : Z := TZRAM_GET_SEGMENT_ADDRESS TZRAM_SEGMENT_ID_USERPAGE.

(** userpage.h: [upage_ref_t]. *)
Record upage_ref_t := mk_upage_ref {
  user_address : Z;
  secure_monitor_address : Z }.

Definition userpage_attributes : Z :=
  MMU_PTE_BLOCK_XN .| MMU_PTE_BLOCK_INNER_SHAREBLE .| MMU_PTE_BLOCK_NS .| ATTRIB_MEMTYPE_NORMAL.

Section Ops.
Context {soc : SoC}.

(** Returns the reference and the C function's boolean result. *)
Definition upage_init (addr : Z) : M (upage_ref_t * bool) :=
  let page := get_page_for_address addr in
  cur ← gets (fun w => g_user_page_user_address (w_upage w));
  sma ← (if negb (cur =? 0)
         then if negb (cur =? page) then generic_panic
              else mret USER_PAGE_SECURE_MONITOR_ADDR
         else if (u64 (page - 0x80000000) <? (6 <<. 30)) && (addr .& 0xFFF =? 0)
         then modify (fun w => w <| w_upage ::= fun s => s <| g_user_page_user_address := page |> |>) ;;
              mmu_map_page USER_PAGE_SECURE_MONITOR_ADDR page userpage_attributes ;;
              mret USER_PAGE_SECURE_MONITOR_ADDR
         else generic_panic);
  mret (mk_upage_ref page sma, negb (sma =? 0)).

(** [None] is the C result [false]; [Some bytes] is [true] with [bytes]
    copied to [secure_dst]. *)
Definition user_copy_to_secure (upage : upage_ref_t) (user_src size : Z) : M (option (list Z)) :=
  if negb (get_page_for_address user_src =? user_address upage) then mret None else
  if negb (size =? 0)
     && negb (get_page_for_address (u64 (user_src + size - 1)) =? user_address upage)
  then mret None else
  let secure_src := u64 (secure_monitor_address upage + (user_src - user_address upage)) in
  if negb (size =? 0)
  then bytes ← va_read_bytes secure_src size; mret (Some bytes)
  else mret (Some []).

Definition secure_copy_to_user (upage : upage_ref_t) (user_dst : Z) (secure_src : list Z) (size : Z)
    : M bool :=
  if negb (get_page_for_address user_dst =? user_address upage) then mret false else
  if negb (size =? 0)
     && negb (get_page_for_address (u64 (user_dst + size - 1)) =? user_address upage)
  then mret false else
  let secure_dst := u64 (secure_monitor_address upage + (user_dst - user_address upage)) in
  if negb (size =? 0)
  then va_write_bytes secure_dst (slice secure_src 0 size) ;; mret true
  else mret true.
End Ops.
End UserPage.

Module AMS.

Definition AMS_USER_PAGE_SECURE_MONITOR_ADDR : Z := MMIO_GET_DEVICE_ADDRESS MMIO_DEVID_AMS_USER_PAGE.
Definition AMS_IRAM_PAGE_SECURE_MONITOR_ADDR : Z := MMIO_GET_DEVICE_ADDRESS MMIO_DEVID_AMS_IRAM_PAGE.

Definition ams_is_user_addr_valid (user_address : Z) : bool :=
  let page_address := get_page_for_address user_address in
  u64 (page_address - 0x80000000) <? (6 <<. 30).
Definition ams_is_iram_addr_valid (iram_address : Z) : bool :=
  (0x40000000 <=? iram_address) && (iram_address <=? 0x4003FFFF).

Definition get_userpage_lock (w : World) : bool := g_ams_userpage_mapped (w_ams w).
Definition set_userpage_lock (b : bool) (w : World) : World :=
  w <| w_ams ::= fun s => s <| g_ams_userpage_mapped := b |> |>.
Definition get_irampage_lock (w : World) : bool := g_ams_iram_page_mapped (w_ams w).
Definition set_irampage_lock (b : bool) (w : World) : World :=
  w <| w_ams ::= fun s => s <| g_ams_iram_page_mapped := b |> |>.

Definition irampage_attributes : Z :=
  MMU_PTE_BLOCK_XN .| MMU_PTE_BLOCK_INNER_SHAREBLE .| ATTRIB_MEMTYPE_DEVICE.

Definition ams_map_userpage (user_address : Z) : M unit :=
  lock_acquire get_userpage_lock set_userpage_lock ;;
  mmu_map_page AMS_USER_PAGE_SECURE_MONITOR_ADDR (get_page_for_address user_address)
    UserPage.userpage_attributes.
Definition ams_unmap_userpage : M unit :=
  mmu_unmap_page AMS_USER_PAGE_SECURE_MONITOR_ADDR ;; lock_release set_userpage_lock.
Definition ams_map_irampage (iram_address : Z) : M unit :=
  lock_acquire get_irampage_lock set_irampage_lock ;;
  mmu_map_page AMS_IRAM_PAGE_SECURE_MONITOR_ADDR (get_page_for_address iram_address)
    irampage_attributes.
Definition ams_unmap_irampage : M unit :=
  mmu_unmap_page AMS_IRAM_PAGE_SECURE_MONITOR_ADDR ;; lock_release set_irampage_lock.

Section Ops.
Context {soc : SoC}.

Definition ams_iram_copy (args : smc_args_t) : M (Z * smc_args_t) :=
  let dram_address := X args 1 in
  let iram_address := X args 2 in
  let dram_page_offset := dram_address .& 0xFFF in
  let iram_page_offset := iram_address .& 0xFFF in
  let size := X args 3 in
  let option := u32 (X args 4) in
  if negb (ams_is_user_addr_valid dram_address) || negb (ams_is_iram_addr_valid iram_address)
  then mret (2, args) else
  if (size >? 0x1000) || (size + dram_page_offset >? 0x1000) || (size + iram_page_offset >? 0x1000)
  then mret (2, args) else
  if negb (size mod 4 =? 0) || negb (dram_page_offset mod 4 =? 0)
     || negb (iram_page_offset mod 4 =? 0)
  then mret (2, args) else
  if negb (option =? 0) && negb (option =? 1) then mret (2, args) else
  ams_map_userpage dram_address ;;
  ams_map_irampage iram_address ;;
  let dram_ptr := AMS_USER_PAGE_SECURE_MONITOR_ADDR + dram_page_offset in
  let iram_ptr := AMS_IRAM_PAGE_SECURE_MONITOR_ADDR + iram_page_offset in
  let num_dwords := size / 4 in
  let dst := if option =? 0 then dram_ptr else iram_ptr in
  let src := if option =? 0 then iram_ptr else dram_ptr in
  for_each (range num_dwords) (fun i =>
    v ← va_read_bytes (src + 4 * i) 4;
    va_write_bytes (dst + 4 * i) v) ;;
  ams_unmap_irampage ;;
  ams_unmap_userpage ;;
  mret (0, args).

Definition ams_write_address (args : smc_args_t) : M (Z * smc_args_t) :=
  let el0_virtual_address := X args 1 in
  dram_address ← get_physical_address_el0 el0_virtual_address;
  let dram_page_offset := dram_address .& 0xFFF in
  let size := X args 3 in
  if negb (ams_is_user_addr_valid dram_address) then mret (2, args) else
  if negb ((size =? 1) || (size =? 2) || (size =? 4) || (size =? 8)) then mret (2, args) else
  if size + dram_page_offset >? 0x1000 then mret (2, args) else
  if negb (dram_page_offset mod size =? 0) then mret (2, args) else
  ams_map_userpage dram_address ;;
  let dram_ptr := AMS_USER_PAGE_SECURE_MONITOR_ADDR + dram_page_offset in
  (if size =? 1 then va_write_bytes dram_ptr (le_bytes 1 (u8 (X args 2)))
   else if size =? 2 then va_write_bytes dram_ptr (le_bytes 2 (u16 (X args 2)))
   else if size =? 4 then va_write_bytes dram_ptr (le_bytes 4 (u32 (X args 2)))
   else if size =? 8 then va_write_bytes dram_ptr (le_bytes 8 (X args 2))
   else generic_panic) ;;
  ams_unmap_userpage ;;
  mret (0, args).

Definition EMUMMC_MMC_NAND := 0.
Definition EMUMMC_TYPE_NONE := 0.
Definition EMUMMC_TYPE_PARTITION := 1.
Definition EMUMMC_TYPE_FILES := 2.

(** [emummc_base_config_t] as bytes. *)
Definition base_cfg_bytes (c : exo_emummc_config_t) : list Z :=
  bytes_of_words32 [emummc_magic c; emummc_type c; emummc_id c; emummc_fs_version c].

Definition ams_get_emummc_config (args : smc_args_t) : M (Z * smc_args_t) :=
  let mmc_id := u32 (X args 1) in
  let dram_address := X args 2 in
  let dram_page_offset := dram_address .& 0xFFF in
  cfg ← exosphere_get_emummc_config;
  if negb (mmc_id =? EMUMMC_MMC_NAND) then mret (1, args) else
  if negb (ams_is_user_addr_valid dram_address) || (dram_page_offset >? 0x1000 - 0x100)
  then mret (2, args) else
  ams_map_userpage dram_address ;;
  let user_address := AMS_USER_PAGE_SECURE_MONITOR_ADDR + dram_page_offset in
  va_write_bytes (user_address + 0x80) (emu_dir_path cfg) ;;
  let zero_args := zeros 8 in
  if emummc_type cfg =? EMUMMC_TYPE_NONE
  then let args := copy_to_X zero_args 1 (base_cfg_bytes cfg) in
       ams_unmap_userpage ;; mret (0, args)
  else if emummc_type cfg =? EMUMMC_TYPE_PARTITION
  then let args := copy_to_X zero_args 1 (base_cfg_bytes cfg ++ slice (emummc_union cfg) 0 8) in
       ams_unmap_userpage ;; mret (0, args)
  else if emummc_type cfg =? EMUMMC_TYPE_FILES
  then va_write_bytes user_address (emummc_union cfg) ;;
       let args := copy_to_X zero_args 1 (base_cfg_bytes cfg) in
       ams_unmap_userpage ;; mret (0, args)
  else ams_unmap_userpage ;; mret (2, args).
End Ops.
End AMS.
