(* ===== verification/Config.v ===== *)
(** fuse.c, bootconfig.c and configitem.c. *)
From S2P Require Import Prelude State Utils Se Pages.

Module Fuse.

(** Offsets in [fuse_chip_registers_t] (fuse.h), as the struct lays them out:
    the struct declares no member for 0x1C0..0x1CC, so [FUSE_SPARE_BIT] falls
    at 0x270. *)
Definition FUSE_SKU_INFO := 0x10.
Definition FUSE_SOC_SPEEDO_1 := 0x38.
Definition FUSE_FIRST_BOOTROM_PATCH_SIZE := 0x9C.
Definition FUSE_RESERVED_SW := 0xC0.
Definition FUSE_RESERVED_ODM := 0xC8.
Definition FUSE_VENDOR_CODE := 0x100.
Definition FUSE_FAB_CODE := 0x104.
Definition FUSE_LOT_CODE_0 := 0x108.
Definition FUSE_LOT_CODE_1 := 0x10C.
Definition FUSE_WAFER_ID := 0x110.
Definition FUSE_X_COORDINATE := 0x114.
Definition FUSE_Y_COORDINATE := 0x118.
Definition FUSE_0x120 := 0x120.
Definition FUSE_SPARE_BIT := 0x270.

(** Offsets in [fuse_registers_t]. *)
Definition FUSE_CTRL := 0x0.
Definition FUSE_REG_ADDR := 0x4.
Definition FUSE_REG_READ := 0x8.
Definition FUSE_REG_WRITE := 0xC.
Definition FUSE_PRIVATEKEYDISABLE := 0x28.
Definition FUSE_PWR_GOOD_SW := 0x34.

Definition chip_read (off : Z) : M Z := reg_read (FUSE_CHIP_REGS + off).
Definition fuse_reg_read (off : Z) : M Z := reg_read (FUSE_REGS + off).
Definition fuse_reg_write (off v : Z) : M unit := reg_write (FUSE_REGS + off) v.

(** The device ID, from the raw shadow-cache words. *)
Definition derived_lot_code (lot_code : Z) : Z :=
  foldl (fun acc i => u64 (acc * 0x24 + ((lot_code >>. (24 - 6 * i)) .& 0x3F))) 0 (range 5)
  .& 0x03FFFFFF.

Definition device_id_of (y x wafer lot fab : Z) : Z :=
  (y .& 0x1FF) .| ((x .& 0x1FF) <<. 9) .| ((wafer .& 0x3F) <<. 18)
  .| (derived_lot_code lot <<. 24) .| ((fab .& 0x3F) <<. 50).

Section Ops.
Context {soc : SoC}.

Definition fuse_make_regs_visible : M unit :=
  v ← reg_read (CAR_BASE + 0x48); reg_write (CAR_BASE + 0x48) (v .| (1 <<. 28)).
Definition fuse_enable_power : M unit := fuse_reg_write FUSE_PWR_GOOD_SW 1 ;; wait 1.
Definition fuse_disable_power : M unit := fuse_reg_write FUSE_PWR_GOOD_SW 0 ;; wait 1.

(** The poll of FUSE_CTRL, one microsecond per turn. *)
Fixpoint fuse_wait_idle_loop (fuel : nat) : M unit :=
  match fuel with
  | O => spin
  | S n =>
      wait 1 ;;
      ctrl_val ← fuse_reg_read FUSE_CTRL;
      if ctrl_val .& 0xF0000 =? 0x40000 then mret tt else fuse_wait_idle_loop n
  end.
Definition fuse_wait_idle : M unit := fuse_wait_idle_loop soc_fuel.

(** The read-modify-write of FUSE_CTRL that starts a command. *)
Definition fuse_start_command (cmd : Z) : M unit :=
  ctrl_val ← fuse_reg_read FUSE_CTRL;
  fuse_reg_write FUSE_CTRL ((ctrl_val .& not32 0x3) .| cmd).

Definition fuse_hw_read (addr : Z) : M Z :=
  fuse_wait_idle ;;
  fuse_reg_write FUSE_REG_ADDR addr ;;
  fuse_start_command 0x1 ;;
  fuse_wait_idle ;;
  fuse_reg_read FUSE_REG_READ.

Definition fuse_hw_write (value addr : Z) : M unit :=
  fuse_wait_idle ;;
  fuse_reg_write FUSE_REG_ADDR addr ;;
  fuse_reg_write FUSE_REG_WRITE value ;;
  fuse_start_command 0x2 ;;
  fuse_wait_idle.

Definition fuse_hw_sense : M unit :=
  fuse_wait_idle ;;
  fuse_start_command 0x3 ;;
  fuse_wait_idle.

Definition fuse_secondary_private_key_disable : M unit :=
  fuse_reg_write FUSE_PRIVATEKEYDISABLE 0x10.

Definition fuse_get_sku_info : M Z := chip_read FUSE_SKU_INFO.
Definition fuse_get_bootrom_patch_version : M Z := chip_read FUSE_SOC_SPEEDO_1.
Definition fuse_get_spare_bit (idx : Z) : M Z :=
  if idx >=? 32 then mret 0 else chip_read (FUSE_SPARE_BIT + 4 * idx).
Definition fuse_get_reserved_odm (idx : Z) : M Z :=
  if idx >=? 8 then mret 0 else chip_read (FUSE_RESERVED_ODM + 4 * idx).

Definition fuse_get_5x_key_generation : M Z :=
  odm4 ← fuse_get_reserved_odm 4;
  odm0 ← fuse_get_reserved_odm 0;
  odm1 ← fuse_get_reserved_odm 1;
  if negb (odm4 .& 0x800 =? 0) && (odm0 =? 0x8E61ECAE) && (odm1 =? 0xF2BA3BB2)
  then odm2 ← fuse_get_reserved_odm 2; mret (odm2 .& 0x1F)
  else mret 0.

Definition fuse_get_device_id : M Z :=
  y ← chip_read FUSE_Y_COORDINATE;
  x ← chip_read FUSE_X_COORDINATE;
  wafer ← chip_read FUSE_WAFER_ID;
  lot ← chip_read FUSE_LOT_CODE_0;
  fab ← chip_read FUSE_FAB_CODE;
  mret (device_id_of y x wafer lot fab).

Definition fuse_get_dram_id : M Z :=
  odm4 ← chip_read (FUSE_RESERVED_ODM + 4 * 4); mret ((odm4 >>. 3) .& 0x7).

Definition fuse_get_hardware_type : M Z :=
  odm4 ← chip_read (FUSE_RESERVED_ODM + 4 * 4);
  let hardware_type := ((odm4 >>. 7) .& 2) .| ((odm4 >>. 2) .& 1) in
  fw ← exosphere_get_target_firmware;
  if fw >=? ATMOSPHERE_TARGET_FIRMWARE_400
  then let hardware_type := hardware_type .| ((odm4 >>. 14) .& 0x3C) in
       let hardware_type := u32 (hardware_type - 1) in
       mret (if hardware_type >? 3 then 4 else byte_at [0; 1; 4; 3] hardware_type)
  else if hardware_type >=? 1
  then mret (if hardware_type >? 2 then 3 else hardware_type - 1)
  else spare9 ← chip_read (FUSE_SPARE_BIT + 4 * 9);
       mret (if spare9 .& 1 =? 0 then 0 else 3).

Definition retail_type_of (odm4 : Z) : Z :=
  let retail_type := ((odm4 >>. 7) .& 4) .| (odm4 .& 3) in
  if retail_type =? 4 then 1 else if retail_type =? 3 then 0 else 2.
Definition fuse_get_retail_type : M Z :=
  odm4 ← chip_read (FUSE_RESERVED_ODM + 4 * 4); mret (retail_type_of odm4).

Definition fuse_get_hardware_info : M (list Z) :=
  unk ← chip_read FUSE_0x120;
  y ← chip_read FUSE_Y_COORDINATE;
  x ← chip_read FUSE_X_COORDINATE;
  wafer ← chip_read FUSE_WAFER_ID;
  lot_code_0 ← chip_read FUSE_LOT_CODE_0;
  lot1 ← chip_read FUSE_LOT_CODE_1;
  fab ← chip_read FUSE_FAB_CODE;
  vendor ← chip_read FUSE_VENDOR_CODE;
  let lot_code_1 := lot1 .& 0x0FFFFFFF in
  mret (bytes_of_words32
    [u32 ((lot_code_1 <<. 30) .| ((wafer .& 0x3F) <<. 24) .| ((x .& 0x1FF) <<. 15)
            .| ((y .& 0x1FF) <<. 6) .| (unk .& 0x3F));
     u32 ((lot_code_0 <<. 26) .| (lot_code_1 >>. 2));
     u32 (((fab .& 0x3F) <<. 26) .| (lot_code_0 >>. 6));
     vendor .& 0xF]).

Definition set_has_rcm_bug_patch : M unit :=
  modify (fun w => w <| w_fuse ::= fun s => s <| g_has_rcm_bug_patch := true |> |>).

(** The walk over the ipatch records; each turn moves to the next record. *)
Fixpoint ipatch_loop (fuel : nat) (word_count word_addr : Z) : M unit :=
  if word_count =? 0 then mret tt else
  match fuel with
  | O => spin
  | S n =>
      word0 ← fuse_hw_read word_addr;
      let ipatch_count := (word0 >>. 16) .& 0xf in
      for_each (range ipatch_count) (fun i =>
        word ← fuse_hw_read (u32 (word_addr - (i + 1)));
        if u32 ((word >>. 16) * 2) =? 0x769a then set_has_rcm_bug_patch else mret tt) ;;
      ipatch_loop n (word0 >>. 25) (u32 (word_addr - word_count))
  end.

Definition fuse_has_rcm_bug_patch : M bool :=
  checked ← gets (fun w => g_has_checked_for_rcm_bug_patch (w_fuse w));
  (if negb checked
   then reserved_sw ← chip_read FUSE_RESERVED_SW;
        (if negb (reserved_sw .& 0x80 =? 0) then set_has_rcm_bug_patch else mret tt) ;;
        size ← chip_read FUSE_FIRST_BOOTROM_PATCH_SIZE;
        ipatch_loop soc_fuel (size .& 0x7f) 191
   else mret tt) ;;
  modify (fun w => w <| w_fuse ::= fun s => s <| g_has_checked_for_rcm_bug_patch := true |> |>) ;;
  gets (fun w => g_has_rcm_bug_patch (w_fuse w)).

Definition fuse_init : M unit :=
  fuse_make_regs_visible ;;
  fuse_secondary_private_key_disable ;;
  fuse_disable_programming ;;
  checked ← gets (fun w => g_has_checked_for_rcm_bug_patch (w_fuse w));
  if negb checked then fuse_has_rcm_bug_patch ;; mret tt else mret tt.
End Ops.
End Fuse.

Module BootConfig.
Import Fuse.

Section Getters.
Context {soc : SoC}.

Definition unsigned_data (i : Z) : M Z :=
  gets (fun w => byte_at (unsigned_config (loaded_bootconfig (w_bc w))) i).
Definition signed_data (i : Z) : M Z :=
  gets (fun w => byte_at (signed_config (loaded_bootconfig (w_bc w))) i).

Definition bootconfig_matches_hardware_info : M bool :=
  hardware_info ← fuse_get_hardware_info;
  stored ← gets (fun w => slice (signed_config (loaded_bootconfig (w_bc w))) 0x10 0x10);
  mret (bool_decide (stored = hardware_info)).

Definition bootconfig_clear : M unit :=
  modify (fun w => w <| w_bc ::= fun s => s <| loaded_bootconfig :=
    mk_bootconfig (zeros 0x200) (zeros 0x100) (zeros 0x100) |> |>).

Definition bootconfig_is_package2_plaintext : M bool :=
  c ← signed_data 0x8; mret (negb (c .& 1 =? 0)).
Definition bootconfig_is_package2_unsigned : M bool :=
  c ← signed_data 0x8; mret (negb (c .& 2 =? 0)).
Definition bootconfig_set_package2_plaintext_and_unsigned : M unit :=
  modify (fun w => w <| w_bc ::= fun s => s <| loaded_bootconfig ::= fun b =>
    b <| signed_config ::= fun l => splice l 0x8 [byte_at l 0x8 .| 3] |> |> |>).
Definition bootconfig_disable_program_verification : M bool :=
  c ← signed_data 0x20; mret (negb (c =? 0)).
Definition bootconfig_is_debug_mode : M bool :=
  c ← unsigned_data 0x10; mret (negb (c .& 2 =? 0)).
Definition bootconfig_take_extabt_serror_to_el3 : M bool :=
  c ← unsigned_data 0x10; mret (negb (c .& 6 =? 6)).
Definition bootconfig_get_value_for_sysctr0 : M Z :=
  c ← unsigned_data 0x24;
  if negb (c .& 1 =? 0)
  then gets (fun w => read64le (unsigned_config (loaded_bootconfig (w_bc w))) 0x30)
  else mret 0.

Definition bootconfig_get_memory_arrangement : M Z :=
  debug ← bootconfig_is_debug_mode;
  if negb debug then mret 1 else
  dram_id ← fuse_get_dram_id;
  d23 ← unsigned_data 0x23;
  if dram_id =? 4
  then mret (if negb (d23 =? 0) then d23 else 0x11)
  else if negb (d23 =? 0)
  then if d23 .& 0x30 =? 0 then mret d23 else mret 1
  else mret 1.

Definition bootconfig_get_kernel_configuration : M Z :=
  debug ← bootconfig_is_debug_mode;
  if negb debug then mret 0 else
  dram_id ← fuse_get_dram_id;
  d23 ← unsigned_data 0x23;
  d21 ← unsigned_data 0x21;
  d11 ← unsigned_data 0x11;
  let high_val := if dram_id =? 4
                  then if negb (d23 =? 0) then (d23 >>. 4) .& 0x3 else 0x1
                  else 0 in
  mret ((high_val <<. 16) .| (d21 <<. 8) .| d11).

Definition bootconfig_load_boot_reason (boot_reason : boot_reason_t) : M unit :=
  modify (fun w => w <| w_bc ::= fun s => s <| g_boot_reason := boot_reason |> |>).

Definition bootconfig_set_package2_hash_for_recovery (package2 : list Z) (package2_size : Z)
    : M unit :=
  hash ← SE.se_calculate_sha256 package2 package2_size;
  modify (fun w => w <| w_bc ::= fun s => s <| g_package2_hash_for_recovery := words64 4 hash |> |>).

(** The four words stored through [out_hash]. *)
Definition bootconfig_get_package2_hash_for_recovery : M (list Z) :=
  gets (fun w => take 4 (g_package2_hash_for_recovery (w_bc w))).
Definition bootconfig_is_recovery_boot : M bool :=
  gets (fun w => negb (bootloader_attribute (g_boot_reason (w_bc w)) .& 0x01 =? 0)).
Definition bootconfig_get_boot_reason : M Z :=
  gets (fun w => u64 (boot_reason_state (g_boot_reason (w_bc w)) <<. 24)
                   .| (boot_reason_value (g_boot_reason (w_bc w)) .& 0xFFFFFF)).
End Getters.
End BootConfig.

(** masterkey.c: the one getter configitem.c needs. *)
Definition mkey_get_revision {soc : SoC} : M Z :=
  determined ← gets (fun w => g_determined_mkey_revision (w_mkey w));
  if negb determined then generic_panic else gets (fun w => g_mkey_revision (w_mkey w)).

Module ConfigItem.
Import Fuse BootConfig.

(** configitem.h: the enumerators. *)
Definition CONFIGITEM_DISABLEPROGRAMVERIFICATION := 1.
Definition CONFIGITEM_DRAMID := 2.
Definition CONFIGITEM_SECURITYENGINEIRQ := 3.
Definition CONFIGITEM_VERSION := 4.
Definition CONFIGITEM_HARDWARETYPE := 5.
Definition CONFIGITEM_ISRETAIL := 6.
Definition CONFIGITEM_ISRECOVERYBOOT := 7.
Definition CONFIGITEM_DEVICEID := 8.
Definition CONFIGITEM_BOOTREASON := 9.
Definition CONFIGITEM_MEMORYARRANGE := 10.
Definition CONFIGITEM_ISDEBUGMODE := 11.
Definition CONFIGITEM_KERNELCONFIGURATION := 12.
Definition CONFIGITEM_HIZMODE := 13.
Definition CONFIGITEM_ISQUESTUNIT := 14.
Definition CONFIGITEM_NEWHARDWARETYPE_5X := 15.
Definition CONFIGITEM_NEWKEYGENERATION_5X := 16.
Definition CONFIGITEM_PACKAGE2HASH_5X := 17.
Definition CONFIGITEM_EXOSPHERE_VERSION := 65000.
Definition CONFIGITEM_NEEDS_REBOOT := 65001.
Definition CONFIGITEM_NEEDS_SHUTDOWN := 65002.
Definition CONFIGITEM_EXOSPHERE_VERHASH := 65003.
Definition CONFIGITEM_HAS_RCM_BUG_PATCH := 65004.

Definition PACKAGE2_MAXVER_400_410 := 0x6.
Definition KERNELCONFIGFLAG_ENABLE_USER_EXCEPTION_HANDLERS := 1 <<. 1.

Section Ops.
Context {soc : SoC}.

Definition rtc_pmc_write (off v : Z) : M unit :=
  reg_write (MMIO_GET_DEVICE_ADDRESS MMIO_DEVID_RTC_PMC + off) v.

(** The register writes that make the boot ROM run the reboot stub. *)
Definition prepare_warmboot_stub : M unit :=
  rtc_pmc_write 0x450 0x1 ;;
  rtc_pmc_write 0x634 0x2E38DFFF ;;
  rtc_pmc_write 0x638 0x6001DC28 ;;
  rtc_pmc_write 0x520 0x4003F000 ;;
  rtc_pmc_write 0x53C 0x6000F208.

(** [for (i = 0; i < rebootstub_bin_size; i += 4)] into the IRAM page. *)
Definition copy_rebootstub : M unit :=
  for_each (range ((Z.of_nat (length rebootstub_bin) + 3) / 4)) (fun i =>
    va_write_bytes (AMS.AMS_IRAM_PAGE_SECURE_MONITOR_ADDR + 4 * i)
      (le_bytes 4 (read32le rebootstub_bin (4 * i)))).

Definition reboot_now {A} : M A := rtc_pmc_write 0x400 0x10 ;; spin.

Definition configitem_set (privileged : bool) (item value : Z) : M Z :=
  if item =? CONFIGITEM_HIZMODE then
    modify (fun w => w <| w_cfg ::= fun s => s <| g_hiz_mode_enabled := negb (value =? 0) |> |>) ;;
    mret 0
  else if item =? CONFIGITEM_NEEDS_REBOOT then
    if value =? 0 then mret 0
    else if value =? 1 then rtc_pmc_write 0x450 0x2 ;; reboot_now
    else if value =? 2 then
      prepare_warmboot_stub ;;
      AMS.ams_map_irampage 0x4003F000 ;;
      copy_rebootstub ;;
      AMS.ams_unmap_irampage ;;
      reboot_now
    else mret 2
  else if item =? CONFIGITEM_NEEDS_SHUTDOWN then
    if value =? 0 then mret 0 else
    prepare_warmboot_stub ;;
    AMS.ams_map_irampage 0x4003F000 ;;
    copy_rebootstub ;;
    va_write_bytes (AMS.AMS_IRAM_PAGE_SECURE_MONITOR_ADDR + 0x10) (le_bytes 4 0) ;;
    AMS.ams_unmap_irampage ;;
    reboot_now
  else mret 2.

(** The result code and the [uint64_t]s stored from [p_outvalue] on. *)
Definition configitem_get (privileged : bool) (item : Z) : M (Z * list Z) :=
  let ok1 (v : Z) : M (Z * list Z) := mret (0, [v]) in
  let fail : M (Z * list Z) := mret (2, []) in
  if item =? CONFIGITEM_DISABLEPROGRAMVERIFICATION then
    b ← bootconfig_disable_program_verification; ok1 (Z.b2z b)
  else if item =? CONFIGITEM_DRAMID then v ← fuse_get_dram_id; ok1 v
  else if item =? CONFIGITEM_SECURITYENGINEIRQ then ok1 SE.INTERRUPT_ID_USER_SECURITY_ENGINE
  else if item =? CONFIGITEM_VERSION then ok1 (PACKAGE2_MAXVER_400_410 - 1)
  else if item =? CONFIGITEM_HARDWARETYPE then v ← fuse_get_hardware_type; ok1 v
  else if item =? CONFIGITEM_ISRETAIL then v ← fuse_get_retail_type; ok1 v
  else if item =? CONFIGITEM_ISRECOVERYBOOT then
    b ← bootconfig_is_recovery_boot; ok1 (Z.b2z b)
  else if item =? CONFIGITEM_DEVICEID then v ← fuse_get_device_id; ok1 v
  else if item =? CONFIGITEM_BOOTREASON then
    fw ← exosphere_get_target_firmware;
    if fw <? ATMOSPHERE_TARGET_FIRMWARE_400
    then v ← bootconfig_get_boot_reason; ok1 v else fail
  else if item =? CONFIGITEM_MEMORYARRANGE then v ← bootconfig_get_memory_arrangement; ok1 v
  else if item =? CONFIGITEM_ISDEBUGMODE then
    priv ← gets (fun w => g_debugmode_override_priv (w_cfg w));
    user ← gets (fun w => g_debugmode_override_user (w_cfg w));
    if (privileged && priv) || (negb privileged && user) then ok1 1
    else b ← bootconfig_is_debug_mode; ok1 (Z.b2z b)
  else if item =? CONFIGITEM_KERNELCONFIGURATION then
    config ← bootconfig_get_kernel_configuration;
    enable ← gets (fun w => g_enable_usermode_exception_handlers (w_cfg w));
    ok1 (if (enable : bool) then config .| KERNELCONFIGFLAG_ENABLE_USER_EXCEPTION_HANDLERS
         else config)
  else if item =? CONFIGITEM_HIZMODE then
    b ← gets (fun w => g_hiz_mode_enabled (w_cfg w)); ok1 (Z.b2z b)
  else if item =? CONFIGITEM_ISQUESTUNIT then
    fw ← exosphere_get_target_firmware;
    if fw >=? ATMOSPHERE_TARGET_FIRMWARE_300
    then odm4 ← fuse_get_reserved_odm 4; ok1 ((odm4 >>. 10) .& 1) else fail
  else if item =? CONFIGITEM_NEWHARDWARETYPE_5X then
    fw ← exosphere_get_target_firmware;
    if fw >=? ATMOSPHERE_TARGET_FIRMWARE_500 then ok1 0 else fail
  else if item =? CONFIGITEM_NEWKEYGENERATION_5X then
    fw ← exosphere_get_target_firmware;
    if fw >=? ATMOSPHERE_TARGET_FIRMWARE_500
    then v ← fuse_get_5x_key_generation; ok1 v else fail
  else if item =? CONFIGITEM_PACKAGE2HASH_5X then
    fw ← exosphere_get_target_firmware;
    recovery ← bootconfig_is_recovery_boot;
    if (fw >=? ATMOSPHERE_TARGET_FIRMWARE_500) && recovery
    then hash ← bootconfig_get_package2_hash_for_recovery; mret (0, hash) else fail
  else if item =? CONFIGITEM_EXOSPHERE_VERSION then
    fw ← exosphere_get_target_firmware;
    rev ← mkey_get_revision;
    ok1 (((0 .& 0xFF) <<. 32) .| ((9 .& 0xFF) <<. 24) .| ((4 .& 0xFF) <<. 16)
           .| ((fw .& 0xFF) <<. 8) .| (rev .& 0xFF))
  else if item =? CONFIGITEM_NEEDS_REBOOT then ok1 0
  else if item =? CONFIGITEM_NEEDS_SHUTDOWN then ok1 0
  else if item =? CONFIGITEM_EXOSPHERE_VERHASH then ok1 ATMOSPHERE_RELEASE_VERSION_HASH
  else if item =? CONFIGITEM_HAS_RCM_BUG_PATCH then
    b ← fuse_has_rcm_bug_patch; ok1 (Z.b2z b)
  else fail.

(** [configitem_get(true, item, &v)] with a panic on failure. *)
Definition configitem_get_or_panic (item : Z) : M Z :=
  r ← configitem_get true item;
  if negb (fst r =? 0) then generic_panic else mret (hd 0 (snd r)).

Definition configitem_is_recovery_boot : M bool :=
  v ← configitem_get_or_panic CONFIGITEM_ISRECOVERYBOOT; mret (negb (v =? 0)).
Definition configitem_is_retail : M bool :=
  v ← configitem_get_or_panic CONFIGITEM_ISRETAIL; mret (negb (v =? 0)).
Definition configitem_is_hiz_mode_enabled : M bool :=
  gets (fun w => g_hiz_mode_enabled (w_cfg w)).
Definition configitem_set_hiz_mode_enabled (enabled : bool) : M unit :=
  modify (fun w => w <| w_cfg ::= fun s => s <| g_hiz_mode_enabled := enabled |> |>).
Definition configitem_is_debugmode_priv : M bool :=
  v ← configitem_get_or_panic CONFIGITEM_ISDEBUGMODE; mret (negb (v =? 0)).
Definition configitem_get_hardware_type : M Z := configitem_get_or_panic CONFIGITEM_HARDWARETYPE.
Definition configitem_set_debugmode_override (user priv : bool) : M unit :=
  modify (fun w => w <| w_cfg ::= fun s =>
    s <| g_debugmode_override_user := user |> <| g_debugmode_override_priv := priv |> |>).
Definition configitem_disable_usermode_exception_handlers : M unit :=
  modify (fun w => w <| w_cfg ::= fun s => s <| g_enable_usermode_exception_handlers := false |> |>).
End Ops.
End ConfigItem.

Module BootConfigLoad.
Import ConfigItem BootConfig.

Section Ops.
Context {soc : SoC}.

(** bootconfig.c: [bootconfig_modulus]. *)
Definition bootconfig_modulus : list Z :=
  [0xB5; 0x96; 0x87; 0x31; 0x39; 0xAA; 0xBB; 0x3C; 0x28; 0xF3; 0xF0; 0x65; 0xF1; 0x50; 0x70; 0x64;
   0xE6; 0x6C; 0x97; 0x50; 0xCD; 0xA6; 0xEE; 0xEA; 0xC3; 0x8F; 0xE6; 0xB5; 0x81; 0x54; 0x65; 0x33;
   0x1B; 0x88; 0x4B; 0xCE; 0x9F; 0x53; 0xDF; 0xE4; 0xF6; 0xAD; 0xC3; 0x78; 0xD7; 0x3C; 0xD1; 0xDB;
   0x27; 0x21; 0xA0; 0x24; 0x30; 0x2D; 0x98; 0x41; 0xA8; 0xDF; 0x50; 0x7D; 0xAB; 0xCE; 0x00; 0xD9;
   0xCB; 0xAC; 0x8F; 0x37; 0xF5; 0x53; 0xE4; 0x97; 0x1F; 0x13; 0x3C; 0x19; 0xFF; 0x05; 0xA7; 0x3B;
   0xF6; 0xF4; 0x01; 0xDE; 0xF0; 0xC3; 0x77; 0x7B; 0x83; 0xBA; 0xAF; 0x99; 0x30; 0x94; 0x87; 0x25;
   0x4E; 0x54; 0x42; 0x3F; 0xAC; 0x27; 0xF9; 0xCC; 0x87; 0xDD; 0xAE; 0xF2; 0x54; 0xF3; 0x97; 0x49;
   0xF4; 0xB0; 0xF8; 0x6D; 0xDA; 0x60; 0xE0; 0xFD; 0x57; 0xAE; 0x55; 0xA9; 0x76; 0xEA; 0x80; 0x24;
   0xA0; 0x04; 0x7D; 0xBE; 0xD1; 0x81; 0xD3; 0x0C; 0x95; 0xCF; 0xB7; 0xE0; 0x2D; 0x21; 0x21; 0xFF;
   0x97; 0x1E; 0xB3; 0xD7; 0x9F; 0xBB; 0x33; 0x0C; 0x23; 0xC5; 0x88; 0x4A; 0x33; 0xB9; 0xC9; 0x4E;
   0x1E; 0x65; 0x51; 0x45; 0xDE; 0xF9; 0x64; 0x7C; 0xF0; 0xBF; 0x11; 0xB4; 0x93; 0x8D; 0x5D; 0xC6;
   0xAB; 0x37; 0x9E; 0xE9; 0x39; 0xC1; 0xC8; 0xDB; 0xB9; 0xFE; 0x45; 0xCE; 0x7B; 0xDD; 0x72; 0xD9;
   0x6F; 0x68; 0x13; 0xC0; 0x4B; 0xBA; 0x00; 0xF4; 0x1E; 0x89; 0x71; 0x91; 0x26; 0xA6; 0x46; 0x12;
   0xDF; 0x29; 0x6B; 0xC2; 0x5A; 0x53; 0xAF; 0xB9; 0x5B; 0xFD; 0x13; 0x9F; 0xD1; 0x8A; 0x7C; 0xB5;
   0x04; 0xFD; 0x69; 0xEA; 0x23; 0xB4; 0x6D; 0x16; 0x21; 0x98; 0x54; 0xB4; 0xDF; 0xE6; 0xAB; 0x93;
   0x36; 0xB6; 0xD2; 0x43; 0xCF; 0x2B; 0x98; 0x1D; 0x45; 0xC9; 0xBB; 0x20; 0x42; 0xB1; 0x9D; 0x1D].

Definition bootconfig_load_and_verify (bootconfig : bootconfig_t) : M unit :=
  modify (fun w => w <| w_bc ::= fun s => s <| loaded_bootconfig := bootconfig |> |>) ;;
  retail ← configitem_is_retail;
  reject ← (if (retail : bool) then mret true else
            verified ← SE.se_rsa2048_pss_verify (bc_signature bootconfig) SE.RSA_2048_BYTES
              bootconfig_modulus SE.RSA_2048_BYTES (signed_config bootconfig) 0x100;
            if (verified : bool) then mret true else
            matches ← bootconfig_matches_hardware_info;
            mret (negb matches));
  if (reject : bool)
  then modify (fun w => w <| w_bc ::= fun s => s <| loaded_bootconfig ::= fun b =>
         b <| signed_config := zeros 0x100 |> |> |>)
  else mret tt.
End Ops.
End BootConfigLoad.
