(* ===== verification/Keys.v ===== *)
(** masterkey.c, sealedkeys.c, titlekey.c, gcm.c and randomcache.c. *)
From S2P Require Import Prelude State Utils Se Pages Config.
Import SE ConfigItem.

Definition MASTERKEY_REVISION_MAX := 0xA.
Definition MASTERKEY_REVISION_300 := 0x01.
Definition MASTERKEY_REVISION_400_410 := 0x03.
Definition MASTERKEY_NUM_NEW_DEVICE_KEYS := MASTERKEY_REVISION_MAX - MASTERKEY_REVISION_400_410.

Definition key_at (keys : list (list Z)) (i : Z) : list Z := nth (Z.to_nat i) keys [].

Module MasterKey.

Definition mkey_vectors_dev : list (list Z) :=
  [[0x46; 0x22; 0xB4; 0x51; 0x9A; 0x7E; 0xA7; 0x7F; 0x62; 0xA1; 0x1F; 0x8F; 0xC5; 0x3A; 0xDB; 0xFE];
   [0x39; 0x33; 0xF9; 0x31; 0xBA; 0xE4; 0xA7; 0x21; 0x2C; 0xDD; 0xB7; 0xD8; 0xB4; 0x4E; 0x37; 0x23];
   [0x97; 0x29; 0xB0; 0x32; 0x43; 0x14; 0x8C; 0xA6; 0x85; 0xE9; 0x5A; 0x94; 0x99; 0x39; 0xAC; 0x5D];
   [0x2C; 0xCA; 0x9C; 0x31; 0x1E; 0x07; 0xB0; 0x02; 0x97; 0x0A; 0xD8; 0x03; 0xA2; 0x76; 0x3F; 0xA3];
   [0x9B; 0x84; 0x76; 0x14; 0x72; 0x94; 0x52; 0xCB; 0x54; 0x92; 0x9B; 0xC4; 0x8C; 0x5B; 0x0F; 0xBA];
   [0x78; 0xD5; 0xF1; 0x20; 0x3D; 0x16; 0xE9; 0x30; 0x32; 0x27; 0x34; 0x6F; 0xCF; 0xE0; 0x27; 0xDC];
   [0x6F; 0xD2; 0x84; 0x1D; 0x05; 0xEC; 0x40; 0x94; 0x5F; 0x18; 0xB3; 0x81; 0x09; 0x98; 0x8D; 0x4E];
   [0x37; 0xAF; 0xAB; 0x35; 0x79; 0x09; 0xD9; 0x48; 0x29; 0xD2; 0xDB; 0xA5; 0xA5; 0xF5; 0x30; 0x19];
   zeros 16;
   zeros 16].

Definition mkey_vectors : list (list Z) :=
  [[0x0C; 0xF0; 0x59; 0xAC; 0x85; 0xF6; 0x26; 0x65; 0xE1; 0xE9; 0x19; 0x55; 0xE6; 0xF2; 0x67; 0x3D];
   [0x29; 0x4C; 0x04; 0xC8; 0xEB; 0x10; 0xED; 0x9D; 0x51; 0x64; 0x97; 0xFB; 0xF3; 0x4D; 0x50; 0xDD];
   [0xDE; 0xCF; 0xEB; 0xEB; 0x10; 0xAE; 0x74; 0xD8; 0xAD; 0x7C; 0xF4; 0x9E; 0x62; 0xE0; 0xE8; 0x72];
   [0x0A; 0x0D; 0xDF; 0x34; 0x22; 0x06; 0x6C; 0xA4; 0xE6; 0xB1; 0xEC; 0x71; 0x85; 0xCA; 0x4E; 0x07];
   [0x6E; 0x7D; 0x2D; 0xC3; 0x0F; 0x59; 0xC8; 0xFA; 0x87; 0xA8; 0x2E; 0xD5; 0x89; 0x5E; 0xF3; 0xE9];
   [0xEB; 0xF5; 0x6F; 0x83; 0x61; 0x9E; 0xF8; 0xFA; 0xE0; 0x87; 0xD7; 0xA1; 0x4E; 0x25; 0x36; 0xEE];
   [0x1E; 0x1E; 0x22; 0xC0; 0x5A; 0x33; 0x3C; 0xB9; 0x0B; 0xA9; 0x03; 0x04; 0xBA; 0xDB; 0x07; 0x57];
   [0xA4; 0xD4; 0x52; 0x6F; 0xD1; 0xE4; 0x36; 0xAA; 0x9F; 0xCB; 0x61; 0x27; 0x1C; 0x67; 0x65; 0x1F];
   [0xEA; 0x60; 0xB3; 0xEA; 0xCE; 0x8F; 0x24; 0x46; 0x7D; 0x33; 0x9C; 0xD1; 0xBC; 0x24; 0x98; 0x29];
   [0x4D; 0xD9; 0x98; 0x42; 0x45; 0x0D; 0xB1; 0x3C; 0x52; 0x0C; 0x9A; 0x44; 0xBB; 0xAD; 0xAF; 0x80]].

Section Ops.
Context {soc : SoC}.

Definition set_old_masterkey (i : Z) (key : list Z) : M unit :=
  modify (fun w => w <| w_mkey ::= fun s =>
    s <| g_old_masterkeys ::= fun l => <[Z.to_nat i := key]> l |> |>).

(** [for (i = revision; i > 0; i--)]; the accumulator is [check_keyslot]. *)
Definition check_mkey_revision (revision : Z) (is_retail : bool) : M bool :=
  check_keyslot ← fold_m (fun check_keyslot i =>
      key ← se_aes_ecb_decrypt_block check_keyslot 0x10
              (if is_retail then key_at mkey_vectors i else key_at mkey_vectors_dev i) 0x10;
      set_old_masterkey (i - 1) key ;;
      set_aes_keyslot KEYSLOT_SWITCH_TEMPKEY key 0x10 ;;
      mret KEYSLOT_SWITCH_TEMPKEY)
    KEYSLOT_SWITCH_MASTERKEY (rev (seqZ 1 revision));
  final_vector ← se_aes_ecb_decrypt_block check_keyslot 0x10 (key_at mkey_vectors 0) 0x10;
  mret (forallb (Z.eqb 0) final_vector).

(** The search loop, from [rev] up, with its [break]. *)
Fixpoint mkey_detect_loop (n : nat) (rev : Z) : M unit :=
  match n with
  | O => mret tt
  | S n' =>
      is_retail ← configitem_is_retail;
      ok ← check_mkey_revision rev is_retail;
      if (ok : bool)
      then modify (fun w => w <| w_mkey ::= fun s =>
             s <| g_determined_mkey_revision := true |> <| g_mkey_revision := rev |> |>)
      else mkey_detect_loop n' (rev + 1)
  end.

Definition mkey_detect_revision : M unit :=
  determined ← gets (fun w => g_determined_mkey_revision (w_mkey w));
  if (determined : bool) then generic_panic else
  mkey_detect_loop (Z.to_nat MASTERKEY_REVISION_MAX) 0 ;;
  determined ← gets (fun w => g_determined_mkey_revision (w_mkey w));
  if negb determined then panic 0x00F00060 else mret tt.

Definition mkey_get_keyslot (revision : Z) : M Z :=
  determined ← gets (fun w => g_determined_mkey_revision (w_mkey w));
  if negb determined || (revision >=? MASTERKEY_REVISION_MAX) then generic_panic else
  cur ← gets (fun w => g_mkey_revision (w_mkey w));
  if revision >? cur then generic_panic else
  if revision =? cur then mret KEYSLOT_SWITCH_MASTERKEY else
  key ← gets (fun w => key_at (g_old_masterkeys (w_mkey w)) revision);
  set_aes_keyslot KEYSLOT_SWITCH_TEMPKEY key 0x10 ;;
  mret KEYSLOT_SWITCH_TEMPKEY.

Definition set_old_devkey (revision : Z) (key : list Z) : M unit :=
  if (revision <? MASTERKEY_REVISION_400_410) || (MASTERKEY_REVISION_MAX <=? revision)
  then generic_panic else
  modify (fun w => w <| w_mkey ::= fun s => s <| g_old_devicekeys ::= fun l =>
    <[Z.to_nat (revision - MASTERKEY_REVISION_400_410) := slice key 0 0x10]> l |> |>).

Definition devkey_get_keyslot (revision : Z) : M Z :=
  determined ← gets (fun w => g_determined_mkey_revision (w_mkey w));
  cur ← gets (fun w => g_mkey_revision (w_mkey w));
  if negb determined || (revision >? cur) then generic_panic else
  if revision <? MASTERKEY_REVISION_400_410 then mret KEYSLOT_SWITCH_4XOLDDEVICEKEY else
  if revision <? cur
  then key ← gets (fun w => key_at (g_old_devicekeys (w_mkey w))
                              (revision - MASTERKEY_REVISION_400_410));
       set_aes_keyslot KEYSLOT_SWITCH_TEMPKEY key 0x10 ;;
       mret KEYSLOT_SWITCH_TEMPKEY
  else mret KEYSLOT_SWITCH_DEVICEKEY.
End Ops.
End MasterKey.

Module SealedKeys.

Definition CRYPTOUSECASE_AES := 0.
Definition CRYPTOUSECASE_RSAPRIVATE := 1.
Definition CRYPTOUSECASE_SECUREEXPMOD := 2.
Definition CRYPTOUSECASE_RSAOAEP := 3.
Definition CRYPTOUSECASE_RSAIMPORT := 4.
Definition CRYPTOUSECASE_UNK5 := 5.
Definition CRYPTOUSECASE_UNK6 := 6.
Definition CRYPTOUSECASE_MAX := 4.
Definition CRYPTOUSECASE_MAX_5X := 7.

Definition g_titlekey_seal_key_source : list Z :=
  [0xCB; 0xB7; 0x6E; 0x38; 0xA1; 0xCB; 0x77; 0x0F; 0xB2; 0xA5; 0xB2; 0x9D; 0xD8; 0x56; 0x9F; 0x76].

Definition g_seal_key_sources : list (list Z) :=
  [[0xF4; 0x0C; 0x16; 0x26; 0x0D; 0x46; 0x3B; 0xE0; 0x8C; 0x6A; 0x56; 0xE5; 0x82; 0xD4; 0x1B; 0xF6];
   [0x7F; 0x54; 0x2C; 0x98; 0x1E; 0x54; 0x18; 0x3B; 0xBA; 0x63; 0xBD; 0x4C; 0x13; 0x5B; 0xF1; 0x06];
   [0xC7; 0x3F; 0x73; 0x60; 0xB7; 0xB9; 0x9D; 0x74; 0x0A; 0xF8; 0x35; 0x60; 0x1A; 0x18; 0x74; 0x63];
   [0x0E; 0xE0; 0xC4; 0x33; 0x82; 0x66; 0xE8; 0x08; 0x39; 0x13; 0x41; 0x7D; 0x04; 0x64; 0x2B; 0x6D];
   [0xE1; 0xA8; 0xAA; 0x6A; 0x2D; 0x9C; 0xDE; 0x43; 0x0C; 0xDE; 0xC6; 0x17; 0xF6; 0xC7; 0xF1; 0xDE];
   [0x74; 0x20; 0xF6; 0x46; 0x77; 0xB0; 0x59; 0x2C; 0xE8; 0x1B; 0x58; 0x64; 0x47; 0x41; 0x37; 0xD9];
   [0xAA; 0x19; 0x0F; 0xFA; 0x4C; 0x30; 0x3B; 0x2E; 0xE6; 0xD8; 0x9A; 0xCF; 0xE5; 0x3F; 0xB3; 0x4B]].

Section Ops.
Context {soc : SoC}.

Definition usecase_is_invalid (usecase : Z) : M bool :=
  fw ← exosphere_get_target_firmware;
  mret (if fw >=? ATMOSPHERE_TARGET_FIRMWARE_500 then usecase >=? CRYPTOUSECASE_MAX_5X
        else usecase >=? CRYPTOUSECASE_MAX).

Definition seal_key_internal (src seal_key_source : list Z) : M (list Z) :=
  decrypt_data_into_keyslot KEYSLOT_SWITCH_TEMPKEY KEYSLOT_SWITCH_SESSIONKEY seal_key_source 0x10 ;;
  se_aes_128_ecb_encrypt_block KEYSLOT_SWITCH_TEMPKEY 0x10 src 0x10.

Definition unseal_key_internal (keyslot : Z) (src seal_key_source : list Z) : M unit :=
  decrypt_data_into_keyslot KEYSLOT_SWITCH_TEMPKEY KEYSLOT_SWITCH_SESSIONKEY seal_key_source 0x10 ;;
  decrypt_data_into_keyslot keyslot KEYSLOT_SWITCH_TEMPKEY src 0x10.

Definition seal_titlekey (dst_size : Z) (src : list Z) (src_size : Z) : M (list Z) :=
  if negb (dst_size =? 0x10) || negb (src_size =? 0x10) then generic_panic else
  seal_key_internal src g_titlekey_seal_key_source.

Definition unseal_titlekey (keyslot : Z) (src : list Z) (src_size : Z) : M unit :=
  if negb (src_size =? 0x10) then generic_panic else
  unseal_key_internal keyslot src g_titlekey_seal_key_source.

Definition seal_key (dst_size : Z) (src : list Z) (src_size usecase : Z) : M (list Z) :=
  invalid ← usecase_is_invalid usecase;
  if invalid || negb (dst_size =? 0x10) || negb (src_size =? 0x10) then generic_panic else
  seal_key_internal src (key_at g_seal_key_sources usecase).

Definition unseal_key (keyslot : Z) (src : list Z) (src_size usecase : Z) : M unit :=
  invalid ← usecase_is_invalid usecase;
  if invalid || negb (src_size =? 0x10) then generic_panic else
  unseal_key_internal keyslot src (key_at g_seal_key_sources usecase).
End Ops.
End SealedKeys.

Module TitleKey.

Definition TITLEKEY_TYPE_MAX := 1.

Definition titlekek_sources : list (list Z) :=
  [[0x1E; 0xDC; 0x7B; 0x3B; 0x60; 0xE6; 0xB4; 0xD8; 0x78; 0xB8; 0x17; 0x15; 0x98; 0x5E; 0x62; 0x9B];
   [0x3B; 0x78; 0xF2; 0x61; 0x0F; 0x9D; 0x5A; 0xE2; 0x7B; 0x4E; 0x45; 0xAF; 0xCB; 0x0B; 0x67; 0x4D]].

Section Ops.
Context {soc : SoC}.

Definition tkey_set_expected_label_hash (label_hash : list Z) : M unit :=
  modify (fun w => w <| w_tkey ::= fun s => s <| g_tkey_expected_label_hash := take 4 label_hash |> |>).

Definition tkey_set_master_key_rev (master_key_rev : Z) : M unit :=
  if master_key_rev >=? MASTERKEY_REVISION_MAX then generic_panic else
  modify (fun w => w <| w_tkey ::= fun s => s <| g_tkey_master_key_rev := master_key_rev |> |>).

Definition tkey_validate_type (type : Z) : M unit :=
  if type >? TITLEKEY_TYPE_MAX then generic_panic else
  if type >? 0
  then fw ← exosphere_get_target_firmware;
       if fw <? ATMOSPHERE_TARGET_FIRMWARE_600 then generic_panic else mret tt
  else mret tt.

Definition tkey_set_type (type : Z) : M unit :=
  tkey_validate_type type ;;
  modify (fun w => w <| w_tkey ::= fun s => s <| g_tkey_type := type |> |>).

(** The loop on [masked_size], one 0x20-byte round per turn. *)
Fixpoint mgf1_rounds (rounds : nat) (round_num : Z) (masked seed : list Z) : M (list Z) :=
  match rounds with
  | O => mret []
  | S n =>
      cur_hash ← se_calculate_sha256 (seed ++ rev (le_bytes 4 round_num))
                   (Z.of_nat (length seed) + 4);
      rest ← mgf1_rounds n (round_num + 1) (drop 0x20 masked) seed;
      mret (xor_bytes (take 0x20 masked) cur_hash ++ rest)
  end.

Definition calculate_mgf1_and_xor (masked : list Z) (masked_size : Z) (seed : list Z)
    (seed_size : Z) : M (list Z) :=
  if seed_size >=? 0xE0 then generic_panic else
  mgf1_rounds (Z.to_nat ((masked_size + 0x1F) / 0x20)) 0 (slice masked 0 masked_size)
    (slice seed 0 seed_size).

(** The loop that skips [00..00 01]: [Some off] when it stops with
    [wrapped_key_offset_in_db = off], [None] on the early [return 0]. *)
Fixpoint find_wrapped_key (n : nat) (db : list Z) (off : Z) : option Z :=
  match n with
  | O => Some off
  | S m =>
      if byte_at db off =? 0 then find_wrapped_key m db (off + 1)
      else if byte_at db off =? 1 then Some (off + 1)
      else None
  end.

(** Returns the C result and the bytes copied to [dst]. *)
Definition tkey_rsa_oaep_unwrap (dst_size : Z) (src : list Z) (src_size : Z) : M (Z * list Z) :=
  if negb (src_size =? 0x100) then generic_panic else
  if negb (byte_at src 0 =? 0) then mret (0, []) else
  expected ← gets (fun w => bytes_of_words64 (g_tkey_expected_label_hash (w_tkey w)));
  salt ← calculate_mgf1_and_xor (slice src 1 0x20) 0x20 (slice src 0x21 0xDF) 0xDF;
  db ← calculate_mgf1_and_xor (slice src 0x21 0xDF) 0xDF salt 0x20;
  if negb (bool_decide (take 0x20 expected = take 0x20 db)) then mret (0, []) else
  let db := drop 0x20 db in
  if negb (byte_at db 0 =? 0) then mret (0, []) else
  match find_wrapped_key 0xBF db 0 with
  | None => mret (0, [])
  | Some wrapped_key_offset_in_db =>
      let wrapped_titlekey_size := 0xBF - wrapped_key_offset_in_db in
      if (wrapped_titlekey_size >? dst_size) || (wrapped_titlekey_size =? 0)
      then mret (0, [])
      else mret (wrapped_titlekey_size, slice db wrapped_key_offset_in_db wrapped_titlekey_size)
  end.

Definition tkey_aes_unwrap (dst_size : Z) (src : list Z) (src_size : Z) : M (list Z) :=
  rev ← gets (fun w => g_tkey_master_key_rev (w_tkey w));
  if (rev >=? MASTERKEY_REVISION_MAX) || negb (dst_size =? 0x10) || negb (src_size =? 0x10)
  then generic_panic else
  master_keyslot ← MasterKey.mkey_get_keyslot rev;
  type ← gets (fun w => g_tkey_type (w_tkey w));
  decrypt_data_into_keyslot KEYSLOT_SWITCH_TEMPKEY master_keyslot (key_at titlekek_sources type) 0x10 ;;
  se_aes_ecb_decrypt_block KEYSLOT_SWITCH_TEMPKEY 0x10 src 0x10.
End Ops.
End TitleKey.

Module Gcm.
Import SealedKeys.

(** A little-endian 128-bit value [val[0]], [val[1]]. *)
Definition shr_128 (val : Z * Z) : Z * Z :=
  let v0 := val.1 >>. 1 in
  let v0 := v0 .| u64 ((val.2 .& 1) <<. 63) in
  (v0, val.2 >>. 1).

Definition shl_128 (val : Z * Z) : Z * Z :=
  let v1 := u64 (val.2 <<. 1) in
  let v1 := v1 .| ((val.1 .& (1 <<. 63)) >>. 63) in
  (u64 (val.1 <<. 1), v1).

(** One of the 0x80 rounds of [gf128_mul], on [dst_work], [x_work], [y_work]. *)
Definition gf128_round (st : (Z * Z) * (Z * Z) * (Z * Z)) : (Z * Z) * (Z * Z) * (Z * Z) :=
  let '(dst, x, y) := st in
  let bit := ((y.2 >>. 56) .& 0x80) >>. 7 in
  let dst := (dst.1 .^ u64 (x.1 * bit), dst.2 .^ u64 (x.2 * bit)) in
  let y := shl_128 y in
  let xval := u8 (0xE1 * (x.1 .& 1)) in
  let x := shr_128 x in
  let x := (x.1, x.2 .^ (xval <<. 56)) in
  (dst, x, y).

(** The two words of a byte-reversed 16-byte buffer, and back. *)
Definition load_be128 (b : list Z) : Z * Z := (read64le (rev b) 0, read64le (rev b) 8).
Definition store_be128 (v : Z * Z) : list Z := rev (le_bytes 8 v.1 ++ le_bytes 8 v.2).

Definition gf128_mul (x y : list Z) : list Z :=
  let '(dst, _, _) := Nat.iter 0x80 gf128_round ((0, 0), load_be128 x, load_be128 y) in
  store_be128 dst.

Section Ops.
Context {soc : SoC}.

(** The loop over the whole blocks of [data]. *)
Fixpoint ghash_blocks (n : nat) (x data h : list Z) : list Z :=
  match n with
  | O => x
  | S m => ghash_blocks m (gf128_mul (xor_bytes x (take 0x10 data)) h) (drop 0x10 data) h
  end.

(** [p_x[i] ^= v]. *)
Definition xor_qword (x : list Z) (i v : Z) : list Z :=
  splice x (8 * i) (le_bytes 8 (read64le x (8 * i) .^ v)).

Definition ghash (data : list Z) (data_size : Z) (j_block : list Z) (encrypt : bool) : M (list Z) :=
  h ← se_aes_128_ecb_encrypt_block KEYSLOT_SWITCH_TEMPKEY 0x10 (zeros 0x10) 0x10;
  let x := ghash_blocks (Z.to_nat (data_size / 0x10)) (zeros 0x10) data h in
  let x := if negb ((data_size mod 0x10) .& 0xF =? 0) then gf128_mul x h else x in
  let xor_size := bswap64 (u64 (data_size <<. 3)) in
  let x := if encrypt then xor_qword x 0 xor_size else xor_qword x 1 xor_size in
  let x := gf128_mul x h in
  if encrypt
  then h ← se_aes_128_ecb_encrypt_block KEYSLOT_SWITCH_TEMPKEY 0x10 j_block 0x10;
       mret (xor_bytes x h)
  else mret x.

(** Returns the C result, the new [dst] and [*out_deviceid_high] when stored. *)
Definition gcm_decrypt_key (dst : list Z) (dst_size : Z) (src : list Z) (src_size : Z)
    (sealed_kek : list Z) (kek_size : Z) (wrapped_key : list Z) (key_size usecase : Z)
    (is_personalized : bool) : M (Z * list Z * option Z) :=
  if (if negb is_personalized then (src_size <=? 0x10) || (src_size - 0x10 >? dst_size)
      else (src_size <=? 0x30) || (src_size - 0x20 >? dst_size))
  then generic_panic else
  unseal_key KEYSLOT_SWITCH_TEMPKEY sealed_kek kek_size usecase ;;
  decrypt_data_into_keyslot KEYSLOT_SWITCH_TEMPKEY KEYSLOT_SWITCH_TEMPKEY wrapped_key key_size ;;
  intermediate_buf ← se_aes_ctr_crypt KEYSLOT_SWITCH_TEMPKEY (zeros 0x400) dst_size
    (drop 0x10 src) (src_size - 0x10) src 0x10;
  if negb is_personalized
  then mret (src_size - 0x10, splice dst 0 (slice intermediate_buf 0 (src_size - 0x10)), None)
  else
  j_block ← ghash src 0x10 [] false;
  calc_mac ← ghash intermediate_buf (src_size - 0x20) j_block true;
  if negb (bool_decide (slice src (src_size - 0x10) 0x10 = calc_mac))
  then mret (0, dst, None) else
  device_id ← Fuse.fuse_get_device_id;
  if negb (read64be intermediate_buf (src_size - 0x28) .& 0x00FFFFFFFFFFFFFF =? device_id)
  then mret (0, dst, None) else
  mret (src_size - 0x30, splice dst 0 (slice intermediate_buf 0 (src_size - 0x30)),
        Some (byte_at intermediate_buf (src_size - 0x28))).

Definition gcm_encrypt_key (dst : list Z) (dst_size : Z) (src : list Z) (src_size : Z)
    (sealed_kek : list Z) (kek_size : Z) (wrapped_key : list Z) (key_size usecase : Z)
    (deviceid_high : Z) : M (list Z) :=
  let intermediate_buf := zeros 0x400 in
  if src_size + 0x30 >? dst_size then generic_panic else
  unseal_key KEYSLOT_SWITCH_TEMPKEY sealed_kek kek_size usecase ;;
  decrypt_data_into_keyslot KEYSLOT_SWITCH_TEMPKEY KEYSLOT_SWITCH_TEMPKEY wrapped_key key_size ;;
  ctr ← se_generate_random KEYSLOT_SWITCH_RNGKEY (slice intermediate_buf 0 0x10) 0x10;
  let intermediate_buf := splice intermediate_buf 0 ctr in
  device_id ← Fuse.fuse_get_device_id;
  let intermediate_buf := write64be intermediate_buf (src_size + 0x18)
                            (device_id .| u64 (deviceid_high <<. 56)) in
  j_block ← ghash intermediate_buf 0x10 [] false;
  mac ← ghash (drop 0x10 intermediate_buf) (src_size + 0x10) j_block true;
  let intermediate_buf := splice intermediate_buf (src_size + 0x20) mac in
  body ← se_aes_ctr_crypt KEYSLOT_SWITCH_TEMPKEY (slice intermediate_buf 0x10 (src_size + 0x10))
           (src_size + 0x10) (slice intermediate_buf 0x10 (src_size + 0x10)) (src_size + 0x10)
           intermediate_buf 0x10;
  let intermediate_buf := splice intermediate_buf 0x10 body in
  mret (splice dst 0 (slice intermediate_buf 0 (src_size + 0x30))).
End Ops.
End Gcm.

Module RandomCache.
Section Ops.
Context {soc : SoC}.

Definition set_low (v : Z) : M unit :=
  modify (fun w => w <| w_rand ::= fun s => s <| g_random_cache_low := v |> |>).
Definition set_high (v : Z) : M unit :=
  modify (fun w => w <| w_rand ::= fun s => s <| g_random_cache_high := v |> |>).

Definition randomcache_refill_segment (offset size : Z) : M unit :=
  let size := if u32 (offset + size) >=? 0x400 then u32 (0x400 - offset) else size in
  old ← gets (fun w => slice (g_random_cache (w_rand w)) offset size);
  bytes ← se_generate_random KEYSLOT_SWITCH_RNGKEY old size;
  modify (fun w => w <| w_rand ::= fun s =>
    s <| g_random_cache ::= fun c => splice c offset bytes |> |>).

Definition randomcache_init : M unit :=
  randomcache_refill_segment 0 0x400 ;; set_low 0 ;; set_high 0x3FF.

Definition randomcache_refill : M unit :=
  high ← gets (fun w => g_random_cache_high (w_rand w));
  low ← gets (fun w => g_random_cache_low (w_rand w));
  let high_plus_one := u32 (high + 1) .& 0x3FF in
  if low =? high_plus_one then mret tt else
  if low <? high_plus_one then
    (if negb (high =? 0x3FF)
     then randomcache_refill_segment high_plus_one (0x400 - high_plus_one) ;;
          set_high (u32 (high + 0x400 - high_plus_one) .& 0x3FF)
     else mret tt) ;;
    (if low >? 0
     then randomcache_refill_segment 0 low ;;
          high' ← gets (fun w => g_random_cache_high (w_rand w));
          set_high (u32 (high' + low) .& 0x3FF)
     else mret tt)
  else
    randomcache_refill_segment high_plus_one (low - high_plus_one) ;;
    set_high (low - 1).

Definition randomcache_getbytes (num_bytes : Z) : M (list Z) :=
  low ← gets (fun w => g_random_cache_low (w_rand w));
  if num_bytes =? 0 then mret [] else
  bytes ← gets (fun w => slice (g_random_cache (w_rand w)) low num_bytes);
  let new_low := u32 (low + num_bytes) in
  set_low (if u32 (new_low + 0x38) >? 0x3FF then 0 else new_low) ;;
  mret bytes.
End Ops.
End RandomCache.
