(* ===== verification/Power.v ===== *)
(** mc.c, car.c, i2c.c, uart.c, cpu_context.c, interrupt.c, actmon.c and sc7.c:
    memory carveouts, the clock and bus drivers, core power states, interrupt
    dispatch and the entry to deep sleep. *)
From S2P Require Import Prelude Sync State Utils Se Pages Config.

Definition BIT (n : Z) : Z := u32 (1 <<. n).
Definition BITS (l : list Z) : Z := foldr (fun n acc => BIT n .| acc) 0 l.

Module Mc.

Definition CARVEOUT_ID_MIN := 1.
Definition CARVEOUT_ID_MAX := 5.
Definition KERNEL_CARVEOUT_SIZE_MAX := 0x1FFE0000.

(** mc.h: the members of [security_carveout_t] a carveout is programmed with. *)
Record carveout_regs := mk_carveout_regs {
  cv_config : Z;
  cv_paddr_low : Z;
  cv_paddr_high : Z;
  cv_size_big_pages : Z;
  cv_client_access : list Z;
  cv_force_internal : list Z }.

Definition no_access : list Z := [0; 0; 0; 0; 0].

(** Client bits of mc.h, within their access register. *)
Definition CSR_GPUSRD := 24.
Definition CSW_GPUSWR := 25.
Definition CSR_GPUSRD2 := 8.
Definition CSW_GPUSWR2 := 9.
Definition CSR_TSECSRD := 20.
Definition CSW_TSECSWR := 21.
Definition CSR_AVPCARM7R := 15.
Definition CSW_AVPCARM7W := 18.

(** PTCR, DISPLAY0A/AB/B/BB/C/CB, AFIR, DISPLAYHC/HCB, HDAR, HOST1XDMAR, HOST1XR,
    NVENCSRD, PPCSAHBDMAR, PPCSAHBSLVR. *)
Definition kernel_clients_0 : list Z := [0; 1; 2; 3; 4; 5; 6; 14; 16; 17; 21; 22; 23; 28; 29; 30].
(** MPCORER, NVENCSWR, AFIW, HDAW, HOST1XW, MPCOREW, PPCSAHBDMAW, PPCSAHBSLVW. *)
Definition kernel_clients_1 : list Z := [7; 11; 17; 21; 22; 25; 27; 28].
(** XUSB_HOSTR, XUSB_HOSTW, XUSB_DEVR, XUSB_DEVW. *)
Definition kernel_clients_2 : list Z := [10; 11; 12; 13].
(** SDMMCRA/RAA/RAB, SDMMCWA/WAA/WAB, VICSRD, VICSWR, DISPLAYD. *)
Definition kernel_clients_3_head : list Z := [0; 1; 3; 4; 5; 7; 12; 13; 19].
(** NVDECSRD, NVDECSWR. *)
Definition kernel_clients_3_nvdec : list Z := [24; 25].
(** APER, APEW, NVJPGSRD, NVJPGSWR. *)
Definition kernel_clients_3_tail : list Z := [26; 27; 30; 31].
(** SESRD, SESWR; TSECSRDB, TSECSWRB. *)
Definition kernel_clients_4 : list Z := [0; 1].
Definition kernel_clients_4_tsecb : list Z := [6; 7].

Definition unused_carveout : carveout_regs := mk_carveout_regs 0x4000006 0 0 0 no_access no_access.

Definition gpu_ucode_carveout (fw : Z) : carveout_regs :=
  mk_carveout_regs 0x440167E 0x80020000 0 2
    [0; 0; (if fw >=? ATMOSPHERE_TARGET_FIRMWARE_600
            then BITS [CSR_GPUSRD; CSW_GPUSWR; CSR_TSECSRD] else BITS [CSR_GPUSRD; CSW_GPUSWR]);
     0; BITS [CSR_GPUSRD2; CSW_GPUSWR2]] no_access.

Definition unused_gpu_carveout : carveout_regs :=
  mk_carveout_regs 0x4401E7E 0 0 0
    [0; 0; BITS [CSR_GPUSRD; CSW_GPUSWR]; 0; BITS [CSR_GPUSRD2; CSW_GPUSWR2]] no_access.

Definition kernel_carveout (fw carveout_id address size : Z) : carveout_regs :=
  let acc2 := if fw >=? ATMOSPHERE_TARGET_FIRMWARE_800 then BITS kernel_clients_2
              else BITS (kernel_clients_2 ++ [CSR_TSECSRD; CSW_TSECSWR]) in
  let acc3 := if fw >=? ATMOSPHERE_TARGET_FIRMWARE_810
              then BITS (kernel_clients_3_head ++ kernel_clients_3_tail)
              else BITS (kernel_clients_3_head ++ kernel_clients_3_nvdec ++ kernel_clients_3_tail) in
  let acc4 := if fw >=? ATMOSPHERE_TARGET_FIRMWARE_810 then BITS kernel_clients_4
              else if fw >=? ATMOSPHERE_TARGET_FIRMWARE_800
              then BITS (kernel_clients_4 ++ kernel_clients_4_tsecb)
              else BITS kernel_clients_4 in
  let force := (fw >=? ATMOSPHERE_TARGET_FIRMWARE_400) && (carveout_id =? 4) in
  mk_carveout_regs (if fw >=? ATMOSPHERE_TARGET_FIRMWARE_800 then 0x4CB else 0x8B)
    (u32 (address .& 0xFFFFFFFF)) (u32 (address >>. 32)) (u32 (size >>. 17))
    [BITS kernel_clients_0; BITS kernel_clients_1; acc2; acc3; acc4]
    [(if force then BIT CSR_AVPCARM7R else 0); (if force then BIT CSW_AVPCARM7W else 0); 0; 0; 0].

Section Ops.
Context {soc : SoC}.

Definition get_carveout_by_id (carveout : Z) : M Z :=
  if (CARVEOUT_ID_MIN <=? carveout) && (carveout <=? CARVEOUT_ID_MAX)
  then mret (MC_BASE + 0xC08 + 0x50 * (carveout - CARVEOUT_ID_MIN))
  else generic_panic.

(** The stores of one carveout, in the order of the source: [config] is last. *)
Definition write_carveout (carveout : Z) (r : carveout_regs) : M unit :=
  reg_write (carveout + 0x4) (cv_paddr_low r) ;;
  reg_write (carveout + 0x8) (cv_paddr_high r) ;;
  reg_write (carveout + 0xC) (cv_size_big_pages r) ;;
  for_each (range 5) (fun i => reg_write (carveout + 0x10 + 4 * i) (byte_at (cv_client_access r) i)) ;;
  for_each (range 5) (fun i => reg_write (carveout + 0x24 + 4 * i) (byte_at (cv_force_internal r) i)) ;;
  reg_write carveout (cv_config r).

Definition configure_gpu_ucode_carveout : M unit :=
  carveout ← get_carveout_by_id 2;
  fw ← exosphere_get_target_firmware;
  write_carveout carveout (gpu_ucode_carveout fw).

Definition set_saved_carveout (i address size : Z) : M unit :=
  modify (fun w => w <| w_mc ::= fun s =>
    s <| g_saved_carveouts ::= fun l => <[Z.to_nat i := (address, size)]> l |> |>).

Definition configure_kernel_carveout (carveout_id address size : Z) : M unit :=
  if negb (carveout_id =? 4) && negb (carveout_id =? 5) then generic_panic else
  set_saved_carveout (carveout_id - 4) address size ;;
  carveout ← get_carveout_by_id carveout_id;
  fw ← exosphere_get_target_firmware;
  write_carveout carveout (kernel_carveout fw carveout_id address size).

Definition saved_carveout (i : Z) : M (Z * Z) :=
  gets (fun w => nth (Z.to_nat i) (g_saved_carveouts (w_mc w)) (0, 0)).

Definition configure_default_carveouts : M unit :=
  carveout ← get_carveout_by_id 1;
  write_carveout carveout unused_carveout ;;
  fw ← exosphere_get_target_firmware;
  (if fw <? ATMOSPHERE_TARGET_FIRMWARE_600 then configure_gpu_ucode_carveout else mret tt) ;;
  carveout ← get_carveout_by_id 3;
  write_carveout carveout unused_gpu_carveout ;;
  if fw >=? ATMOSPHERE_TARGET_FIRMWARE_200
  then s0 ← saved_carveout 0;
       configure_kernel_carveout 4 s0.1 s0.2 ;;
       s1 ← saved_carveout 1;
       configure_kernel_carveout 5 s1.1 s1.2
  else for_each [4; 5] (fun i =>
         carveout ← get_carveout_by_id i; write_carveout carveout unused_carveout).
End Ops.
End Mc.

Module Car.
Section Ops.
Context {soc : SoC}.

Definition CARDEVICE_UARTA := 6.
Definition CARDEVICE_UARTB := 7.
Definition CARDEVICE_I2C1 := 12.
Definition CARDEVICE_I2C5 := 47.
Definition CARDEVICE_ACTMON := 119.
Definition CARDEVICE_BPMP := 1.

Definition get_special_clk_reg (dev : Z) : M Z :=
  if dev =? CARDEVICE_UARTA then mret 0x178
  else if dev =? CARDEVICE_UARTB then mret 0x17C
  else if dev =? CARDEVICE_I2C1 then mret 0x124
  else if dev =? CARDEVICE_I2C5 then mret 0x128
  else if dev =? CARDEVICE_ACTMON then mret 0x3E8
  else if dev =? CARDEVICE_BPMP then mret 0
  else generic_panic.

Definition get_special_clk_val (dev : Z) : M Z :=
  if dev =? CARDEVICE_UARTA then mret 0
  else if dev =? CARDEVICE_UARTB then mret 0
  else if dev =? CARDEVICE_I2C1 then mret (u32 (6 <<. 29))
  else if dev =? CARDEVICE_I2C5 then mret (u32 (6 <<. 29))
  else if dev =? CARDEVICE_ACTMON then mret (u32 (6 <<. 29))
  else if dev =? CARDEVICE_BPMP then mret 0
  else generic_panic.

Definition g_clk_reg_offsets : list Z := [0x010; 0x014; 0x018; 0x360; 0x364; 0x280; 0x298].
Definition g_rst_reg_offsets : list Z := [0x004; 0x008; 0x00C; 0x358; 0x35C; 0x28C; 0x2A4].

Definition clk_enable (dev : Z) : M unit :=
  special_reg ← get_special_clk_reg dev;
  (if negb (special_reg =? 0)
   then val ← get_special_clk_val dev; reg_write (CAR_BASE + special_reg) val else mret tt) ;;
  reg_update (CAR_BASE + byte_at g_clk_reg_offsets (dev >>. 5)) (fun v => v .| BIT (dev .& 0x1F)).
Definition clk_disable (dev : Z) : M unit :=
  reg_update (CAR_BASE + byte_at g_clk_reg_offsets (dev >>. 5)) (fun v => v .& not32 (BIT (dev .& 0x1F))).
Definition rst_enable (dev : Z) : M unit :=
  reg_update (CAR_BASE + byte_at g_rst_reg_offsets (dev >>. 5)) (fun v => v .| BIT (dev .& 0x1F)).
Definition rst_disable (dev : Z) : M unit :=
  reg_update (CAR_BASE + byte_at g_rst_reg_offsets (dev >>. 5)) (fun v => v .& not32 (BIT (dev .& 0x1F))).

Definition clkrst_enable (dev : Z) : M unit := clk_enable dev ;; rst_disable dev.
Definition clkrst_disable (dev : Z) : M unit := rst_enable dev ;; clk_disable dev.
Definition clkrst_reboot (dev : Z) : M unit := clkrst_disable dev ;; clkrst_enable dev.
End Ops.
End Car.

Module I2c.
Section Ops.
Context {soc : SoC}.

Definition I2C_1 := 0.
Definition I2C_5 := 4.
Definition MAX77620_PWR_I2C_ADDR := 0x3C.
Definition BQ24193_I2C_ADDR := 0x6B.

(** Offsets in [tegra_i2c_t]. *)
Definition I2C_CNFG := 0x0.
Definition I2C_CMD_ADDR0 := 0x4.
Definition I2C_CMD_DATA1 := 0xC.
Definition I2C_STATUS := 0x1C.
Definition I2C_INTERRUPT_STATUS := 0x68.
Definition I2C_CLK_DIVISOR := 0x6C.
Definition I2C_BUS_CLEAR_CONFIG := 0x84.
Definition I2C_CONFIG_LOAD := 0x8C.

Definition i2c_get_registers_from_id (id : Z) : M Z :=
  let dtv := MMIO_GET_DEVICE_ADDRESS MMIO_DEVID_DTV_I2C234 in
  let i56 := MMIO_GET_DEVICE_ADDRESS MMIO_DEVID_I2C56_SPI2B in
  if id =? 0 then mret (dtv + 0x000)
  else if id =? 1 then mret (dtv + 0x400)
  else if id =? 2 then mret (dtv + 0x500)
  else if id =? 3 then mret (dtv + 0x700)
  else if id =? 4 then mret (i56 + 0x000)
  else if id =? 5 then mret (i56 + 0x100)
  else generic_panic.

(** pinmux.h: a write to a pad, by its offset in [tegra_pinmux_t]. *)
Definition PINMUX_BASE : Z := MISC_BASE + 0x3000.
Definition PINMUX_INPUT := 1 <<. 6.
Definition PINMUX_PULL_DOWN := 1 <<. 2.
Definition PINMUX_PULL_UP := 2 <<. 2.
Definition pinmux_write (ofs v : Z) : M unit := reg_write (PINMUX_BASE + ofs) v.

(** The clock and data pads of an id; I2C_6 has none. *)
Definition i2c_config (id : Z) : M unit :=
  if id =? 0 then pinmux_write 0xBC PINMUX_INPUT ;; pinmux_write 0xC0 PINMUX_INPUT
  else if id =? 1 then pinmux_write 0xC4 PINMUX_INPUT ;; pinmux_write 0xC8 PINMUX_INPUT
  else if id =? 2 then pinmux_write 0xCC PINMUX_INPUT ;; pinmux_write 0xD0 PINMUX_INPUT
  else if id =? 3 then pinmux_write 0xD4 PINMUX_INPUT ;; pinmux_write 0xD8 PINMUX_INPUT
  else if id =? 4 then pinmux_write 0xDC PINMUX_INPUT ;; pinmux_write 0xE0 PINMUX_INPUT
  else mret tt.

(** [for (n) { wait(us); if (cond(reg)) break; }]. *)
Fixpoint wait_until (n : nat) (us a : Z) (cond : Z -> bool) : M unit :=
  match n with
  | O => mret tt
  | S m => wait us ;; v ← reg_read a; if cond v then mret tt else wait_until m us a cond
  end.

Definition i2c_load_config (regs : Z) : M unit :=
  reg_write (regs + I2C_CONFIG_LOAD) 0x25 ;;
  wait_until 20 1 (regs + I2C_CONFIG_LOAD) (fun v => v .& 1 =? 0).

Definition i2c_init (id : Z) : M unit :=
  regs ← i2c_get_registers_from_id id;
  reg_write (regs + I2C_CLK_DIVISOR) 0x50001 ;;
  reg_write (regs + I2C_BUS_CLEAR_CONFIG) 0x90003 ;;
  i2c_load_config regs ;;
  wait_until 10 25 (regs + I2C_INTERRUPT_STATUS) (fun v => negb (v .& 0x800 =? 0)) ;;
  reg_update (regs + I2C_INTERRUPT_STATUS) (fun int_status => int_status).

(** Sends, then polls the bus until it is not busy. *)
Definition i2c_transfer (regs : Z) : M unit :=
  i2c_load_config regs ;;
  reg_update (regs + I2C_CNFG) (fun v => (v .& 0xFFFFFDFF) .| 0x200) ;;
  poll_reg (regs + I2C_STATUS) (fun v => v .& 0x100 =? 0).

Definition i2c_write (regs device : Z) (src : list Z) (src_size : Z) : M bool :=
  if src_size >? 4 then mret false else
  if src_size =? 0 then mret true else
  reg_write (regs + I2C_CMD_ADDR0) (device <<. 1) ;;
  reg_write (regs + I2C_CMD_DATA1) (read32le src 0) ;;
  reg_write (regs + I2C_CNFG) (((src_size <<. 1) - 2) .| 0x2800) ;;
  i2c_transfer regs ;;
  st ← reg_read (regs + I2C_STATUS); mret (st .& 0xF =? 0).

(** [None] is the C result [false], with nothing stored at [dst]. *)
Definition i2c_read (regs device dst_size : Z) : M (option (list Z)) :=
  if dst_size >? 4 then mret None else
  if dst_size =? 0 then mret (Some []) else
  reg_write (regs + I2C_CMD_ADDR0) ((device <<. 1) .| 1) ;;
  reg_write (regs + I2C_CNFG) (((dst_size <<. 1) - 2) .| 0x2840) ;;
  i2c_transfer regs ;;
  st ← reg_read (regs + I2C_STATUS);
  if negb (st .& 0xF =? 0) then mret None else
  val ← reg_read (regs + I2C_CMD_DATA1);
  mret (Some (take (Z.to_nat dst_size) (le_bytes 4 val))).

Definition i2c_query (id device r dst_size : Z) : M (option (list Z)) :=
  regs ← i2c_get_registers_from_id id;
  ok ← i2c_write regs device (le_bytes 4 r) 1;
  if negb ok then mret None else
  if dst_size >? 4 then mret None else
  i2c_read regs device dst_size.

Definition i2c_send (id device r : Z) (src : list Z) (src_size : Z) : M bool :=
  if src_size =? 0 then mret true
  else if src_size <=? 3
  then regs ← i2c_get_registers_from_id id;
       i2c_write regs device (splice (le_bytes 4 r) 1 (slice src 0 src_size)) (src_size + 1)
  else mret false.

(** [uint32_t val = 0; i2c_query(.., &val, 1);] *)
Definition i2c_query_u32 (id device r : Z) : M Z :=
  o ← i2c_query id device r 1; mret (le_value (default [] o)).

Definition i2c_send_pmic_cpu_shutdown_cmd : M unit :=
  val ← i2c_query_u32 I2C_5 MAX77620_PWR_I2C_ADDR 0x41;
  i2c_send I2C_5 MAX77620_PWR_I2C_ADDR 0x41 (le_bytes 4 (val .| 4)) 1 ;; mret tt.
Definition i2c_query_ti_charger_bit_7 : M bool :=
  val ← i2c_query_u32 I2C_1 BQ24193_I2C_ADDR 0; mret (negb (val .& 0x80 =? 0)).
Definition i2c_clear_ti_charger_bit_7 : M unit :=
  val ← i2c_query_u32 I2C_1 BQ24193_I2C_ADDR 0;
  i2c_send I2C_1 BQ24193_I2C_ADDR 0 (le_bytes 4 (val .& 0x7F)) 1 ;; mret tt.
Definition i2c_set_ti_charger_bit_7 : M unit :=
  val ← i2c_query_u32 I2C_1 BQ24193_I2C_ADDR 0;
  i2c_send I2C_1 BQ24193_I2C_ADDR 0 (le_bytes 4 (val .| 0x80)) 1 ;; mret tt.
End Ops.
End I2c.

Module Uart.
Section Ops.
Context {soc : SoC}.

Definition UART_A := 0.
Definition UART_LSR_RDR := 1 <<. 0.
Definition UART_LSR_THRE := 1 <<. 5.
Definition UART_LSR_TMTY := 1 <<. 6.
Definition UART_VENDOR_STATE_TX_IDLE := 1 <<. 0.
Definition UART_VENDOR_STATE_RX_IDLE := 1 <<. 1.

Definition uart_get_regs (dev : Z) : Z := UART_BASE + byte_at [0; 0x40; 0x200; 0x300; 0x400] dev.

(** The pads tx, rx, rts and cts of the first four devices lie one after the
    other. *)
Definition uart_config (dev : Z) : M unit :=
  if (0 <=? dev) && (dev <=? 3)
  then let pads := 0xE4 + 0x10 * dev in
       I2c.pinmux_write pads 0 ;;
       I2c.pinmux_write (pads + 0x4) (I2c.PINMUX_INPUT .| I2c.PINMUX_PULL_UP) ;;
       I2c.pinmux_write (pads + 0x8) 0 ;;
       I2c.pinmux_write (pads + 0xC) (I2c.PINMUX_INPUT .| I2c.PINMUX_PULL_DOWN)
  else mret tt.

Definition uart_wait_cycles (baud num : Z) : M unit :=
  wait (u32 (num * 1000000 + 16 * baud - 1) / u32 (16 * baud)).
Definition uart_wait_syms (baud num : Z) : M unit :=
  wait (u32 (num * 1000000 + baud - 1) / baud).

Definition uart_wait_idle (dev status : Z) : M unit :=
  let uart := uart_get_regs dev in
  (if negb (status .& UART_VENDOR_STATE_TX_IDLE =? 0)
   then poll_reg (uart + 0x14) (fun v => negb (v .& UART_LSR_TMTY =? 0)) else mret tt) ;;
  (if negb (status .& UART_VENDOR_STATE_RX_IDLE =? 0)
   then poll_reg (uart + 0x14) (fun v => v .& UART_LSR_RDR =? 0) else mret tt).

Definition uart_init (dev baud : Z) : M unit :=
  let uart := uart_get_regs dev in
  uart_wait_idle dev UART_VENDOR_STATE_TX_IDLE ;;
  let rate := u32 (8 * baud + 408000000) / u32 (16 * baud) in
  reg_write (uart + 0x4) 0 ;;
  reg_write (uart + 0x10) 0 ;;
  reg_write (uart + 0xC) 0x83 ;;
  reg_write uart (u8 rate) ;;
  reg_write (uart + 0x4) (u8 (rate >>. 8)) ;;
  reg_update (uart + 0xC) (fun v => v .& not32 0x80) ;;
  uart_wait_syms baud 3 ;;
  reg_write (uart + 0x8) 1 ;;
  uart_wait_cycles baud 3 ;;
  uart_wait_idle dev UART_VENDOR_STATE_TX_IDLE ;;
  reg_update (uart + 0x8) (fun v => v .| 6) ;;
  uart_wait_cycles baud 32 ;;
  uart_wait_idle dev (UART_VENDOR_STATE_TX_IDLE .| UART_VENDOR_STATE_RX_IDLE).

Definition uart_send (dev : Z) (buf : list Z) (len : Z) : M unit :=
  let uart := uart_get_regs dev in
  for_each (range len) (fun i =>
    poll_reg (uart + 0x14) (fun v => negb (v .& UART_LSR_THRE =? 0)) ;;
    reg_write uart (byte_at buf i)).

Definition uart_recv (dev len : Z) : M (list Z) :=
  let uart := uart_get_regs dev in
  fold_m (fun acc _ =>
    poll_reg (uart + 0x14) (fun v => negb (v .& UART_LSR_RDR =? 0)) ;;
    v ← reg_read uart; mret (acc ++ [u8 v])) [] (range len).
End Ops.
End Uart.

Module Interrupt.

Definition MAX_REGISTERED_INTERRUPTS := 4.
Definition GICC_IAR : Z := GICC_BASE + 0xC.
Definition GICC_EOIR : Z := GICC_BASE + 0x10.

Section Ops.
Context {soc : SoC}.

Definition intr_initialize_gic : M unit :=
  reg_write (GICD_BASE + 0x80) 0xFFFFFFFF ;;
  for_each (range 0x20) (fun i => reg_write (GICD_BASE + 0x400 + i) 0x80) ;;
  reg_write (GICC_BASE + 0x0) 0x1D9 ;;
  reg_write (GICC_BASE + 0x4) 0x80 ;;
  reg_write (GICC_BASE + 0x8) 7.

Definition intr_initialize_gic_nonsecure : M unit :=
  for_each (seqZ 1 7) (fun i => reg_write (GICD_BASE + 0x80 + 4 * i) 0xFFFFFFFF) ;;
  for_each (seqZ 0x20 0xC0) (fun i => reg_write (GICD_BASE + 0x400 + i) 0x80) ;;
  reg_write (GICD_BASE + 0x0) 1.

Definition intr_prepare_gicc_for_sleep : M unit := reg_write (GICC_BASE + 0x0) 0x1E0.

Definition intr_set_group (id group : Z) : M unit :=
  reg_update (GICD_BASE + 0x80 + 4 * (id >>. 5)) (fun v =>
    (v .& not32 (1 <<. (id .& 0x1F))) .| u32 ((group .& 1) <<. (id .& 0x1F))).

Definition intr_set_priority (id priority : Z) : M unit := reg_write (GICD_BASE + 0x400 + id) priority.
Definition intr_set_cpu_mask (id mask : Z) : M unit := reg_write (GICD_BASE + 0x800 + id) mask.

(** The [&] binds the old value to the whole bracket, as in the source. *)
Definition intr_set_edge_level (id edge_level : Z) : M unit :=
  let sh := (id .& 0xF) <<. 1 in
  reg_update (GICD_BASE + 0xC00 + 4 * (id >>. 4)) (fun v =>
    v .& (not32 (3 <<. sh) .| u32 (((edge_level .& 1) <<. 1) <<. sh))).

Definition intr_set_enabled (id enabled : Z) : M unit :=
  reg_write (GICD_BASE + 0x100 + 4 * (id >>. 5)) (u32 ((enabled .& 1) <<. (id .& 0x1F))).

(** actmon.c *)
Definition actmon_set_callback (callback : option actmon_callback) : M unit :=
  modify (fun w => w <| w_intr ::= fun s => s <| g_actmon_callback := callback |> |>).
Definition actmon_on_bpmp_wakeup : M unit := panic 0xF0A00036.

Definition actmon_interrupt_handler : M unit :=
  reg_write (ACTMON_BASE + 0xC0) 0 ;;
  reg_update (ACTMON_BASE + 0xE4) (fun v => v) ;;
  cb ← gets (fun w => g_actmon_callback (w_intr w));
  match cb with
  | Some actmon_on_bpmp_wakeup_cb => actmon_on_bpmp_wakeup ;; actmon_set_callback None
  | None => mret tt
  end.

(** The first entry of the table with a given id, and its index. *)
Fixpoint find_interrupt (l : list (Z * option intr_handler)) (id : Z)
    : option (nat * option intr_handler) :=
  match l with
  | [] => None
  | (i, h) :: r =>
      if i =? id then Some (O, h)
      else match find_interrupt r id with Some (n, h') => Some (S n, h') | None => None end
  end.

Definition intr_register_handler (id : Z) (handler : intr_handler) : M unit :=
  l ← gets (fun w => g_registered_interrupts (w_intr w));
  match find_interrupt l 0 with
  | Some (n, _) => modify (fun w => w <| w_intr ::= fun s =>
      s <| g_registered_interrupts ::= fun l => <[n := (id, Some handler)]> l |> |>)
  | None => generic_panic
  end.

(** [run] is the Security Engine callback; a NULL handler is a fault. *)
Definition handle_registered_interrupt (run : se_callback -> M Z) : M unit :=
  interrupt_id ← reg_read GICC_IAR;
  if interrupt_id <=? 0xDF
  then l ← gets (fun w => g_registered_interrupts (w_intr w));
       match find_interrupt l interrupt_id with
       | Some (_, Some h) =>
           match h with
           | se_operation_completed_ih => SE.se_operation_completed run
           | actmon_interrupt_handler_ih => actmon_interrupt_handler
           end ;;
           reg_write GICC_EOIR interrupt_id
       | Some (_, None) => fault
       | None => generic_panic
       end
  else mret tt.
End Ops.
End Interrupt.

Module Cpu.

Definition NUM_CPU_CORES := 4.

(** flow.h: [g_flow_core_offsets]. *)
Definition CPUN_CSR_OFS : list Z := [0x008; 0x018; 0x020; 0x028].
Definition HALT_CPUN_EVENTS_OFS : list Z := [0x000; 0x014; 0x01C; 0x024].
Definition CC4_COREN_CTRL_OFS : list Z := [0x06C; 0x070; 0x074; 0x078].

Definition flow_set_cc4_ctrl (core cc4_ctrl : Z) : M unit :=
  reg_write (FLOW_BASE + byte_at CC4_COREN_CTRL_OFS core) cc4_ctrl.
Definition flow_set_halt_events (core : Z) (halt_events : bool) : M unit :=
  reg_write (FLOW_BASE + byte_at HALT_CPUN_EVENTS_OFS core)
    (if halt_events then 0x40000F00 else 0x40000000).
Definition flow_set_csr (core csr : Z) : M unit :=
  reg_write (FLOW_BASE + byte_at CPUN_CSR_OFS core)
    (u32 ((0x100 <<. core) .| (csr <<. 12) .| 0xC001)).

Definition flow_clear_csr0_and_events (core : Z) : M unit :=
  reg_write (FLOW_BASE + byte_at CPUN_CSR_OFS core) 0 ;;
  reg_write (FLOW_BASE + byte_at HALT_CPUN_EVENTS_OFS core) 0.

Definition empty_context : saved_cpu_context_t := mk_cpu_context 0 0 false false [].
Definition context_of (core : Z) (w : World) : saved_cpu_context_t :=
  nth (Z.to_nat core) (g_cpu_contexts (w_cpu w)) empty_context.
Definition update_context (core : Z) (f : saved_cpu_context_t -> saved_cpu_context_t) : M unit :=
  modify (fun w => w <| w_cpu ::= fun s =>
    s <| g_cpu_contexts ::= fun l => alter f (Z.to_nat core) l |> |>).

(** The 11 registers saved with SAVE_SYSREG32 come first and are truncated. *)
Definition save_sysregs (regs : list Z) : list Z := map u32 (take 11 regs) ++ drop 11 regs.

Section Ops.
Context {soc : SoC}.

(** Returns [*entrypoint_addr] and [*argument]. *)
Definition use_core_entrypoint_and_argument (core : Z) : M (Z * Z) :=
  ctx ← gets (context_of core);
  if (ctx_ELR_EL3 ctx =? 0) || ctx_is_active ctx then panic 0xF7F00007 else
  update_context core (fun c =>
    c <| ctx_ELR_EL3 := 0 |> <| ctx_argument := 0 |> <| ctx_is_active := true |>) ;;
  mret (ctx_ELR_EL3 ctx, ctx_argument ctx).

Definition set_core_entrypoint_and_argument (core entrypoint_addr argument : Z) : M unit :=
  update_context core (fun c => c <| ctx_ELR_EL3 := entrypoint_addr |> <| ctx_argument := argument |>).

(** synchronization.h: [critical_section_leave] on the boot critical section. *)
Definition critical_section_leave : M unit :=
  id ← get_core_id;
  modify (fun w => w <| w_cpu ::= fun s =>
    s <| g_boot_critical_section ::= CriticalSection.set_ticket_number 0 (Z.to_nat id) |> |>).

(** The arguments of [__jump_to_lower_el]: argument, entry point and SPSR. *)
Definition core_jump_to_lower_el : M (Z * Z * Z) :=
  core_id ← get_core_id;
  spsr ← gets (fun w => u32 (byte_at (cpu_sysregs (w_cpu w)) 10));
  r ← use_core_entrypoint_and_argument core_id;
  critical_section_leave ;;
  mret (snd r, fst r, (0xF <<. 6) .| (spsr .& 0xD)).

Definition PWRGATE_TOGGLE : Z := PMC_BASE + 0x30.
Definition PWRGATE_STATUS : Z := PMC_BASE + 0x38.
Definition status_masks : list Z := [0x4000; 0x200; 0x400; 0x800].
Definition toggle_vals : list Z := [0xE; 0x9; 0xA; 0xB].

(** [while (TOGGLE & 0x100) { wait(1); if (--counter < 1) goto ..; }]: [false]
    when the counter ran out. *)
Fixpoint poll_toggle (counter : nat) : M bool :=
  match counter with
  | O => mret false
  | S n =>
      v ← reg_read PWRGATE_TOGGLE;
      if v .& 0x100 =? 0 then mret true
      else wait 1 ;; match n with O => mret false | S _ => poll_toggle n end
  end.

(** [while (counter > 0) { if (status ok) break; wait(1); counter--; }]. *)
Fixpoint poll_status (counter : nat) (mask : Z) : M unit :=
  match counter with
  | O => mret tt
  | S n =>
      v ← reg_read PWRGATE_STATUS;
      if v .& mask =? mask then mret tt else wait 1 ;; poll_status n mask
  end.

Definition cpu_on (core entrypoint_addr argument : Z) : M Z :=
  if core >=? NUM_CPU_CORES then mret 0xFFFFFFFE else
  active ← gets (fun w => ctx_is_active (context_of core w));
  if (active : bool) then mret 0xFFFFFFFC else
  set_core_entrypoint_and_argument core entrypoint_addr argument ;;
  let status_mask := byte_at status_masks core in
  let cores := u32 (1 <<. (core + 0x10)) .| u32 (1 <<. core) in
  fw ← exosphere_get_target_firmware;
  (if fw >=? ATMOSPHERE_TARGET_FIRMWARE_400 then reg_write (CAR_BASE + 0x450) cores else mret tt) ;;
  status ← reg_read PWRGATE_STATUS;
  (if negb (status .& status_mask =? status_mask)
   then ready ← poll_toggle (Z.to_nat 5001);
        if (ready : bool)
        then reg_write PWRGATE_TOGGLE (byte_at toggle_vals core .| 0x100) ;;
             poll_status (Z.to_nat 5001) status_mask
        else mret tt
   else mret tt) ;;
  (if fw >=? ATMOSPHERE_TARGET_FIRMWARE_400 then reg_write (CAR_BASE + 0x454) cores else mret tt) ;;
  mret 0.

Definition save_current_core_context : M unit :=
  current_core ← get_core_id;
  modify (fun w => w <| w_cpu ::= fun s => s <| oslar_el1 := 1 |> |>) ;;
  regs ← gets (fun w => cpu_sysregs (w_cpu w));
  update_context current_core (fun c =>
    c <| saved_regs := save_sysregs regs |> <| ctx_is_saved := true |>).

Definition restore_current_core_context : M unit :=
  current_core ← get_core_id;
  ctx ← gets (context_of current_core);
  if ctx_is_saved ctx
  then modify (fun w => w <| w_cpu ::= fun s => s <| cpu_sysregs := saved_regs ctx |> |>) ;;
       update_context current_core (fun c => c <| ctx_is_saved := false |>)
  else mret tt.

Definition is_core_active (core : Z) : M bool := gets (fun w => ctx_is_active (context_of core w)).
Definition set_core_is_active (core : Z) (is_active : bool) : M unit :=
  update_context core (fun c => c <| ctx_is_active := is_active |>).
Definition set_current_core_active : M unit := id ← get_core_id; set_core_is_active id true.
Definition set_current_core_inactive : M unit := id ← get_core_id; set_core_is_active id false.

(** arm.s: past its system registers, [finalize_powerdown] quiets the interrupt
    interface and waits for the power to go; nothing after the call runs. *)
Definition finalize_powerdown {A} : M A := Interrupt.intr_prepare_gicc_for_sleep ;; spin.

Definition power_down_current_core {A} : M A :=
  current_core ← get_core_id;
  flow_set_csr current_core 0 ;;
  flow_set_halt_events current_core false ;;
  flow_set_cc4_ctrl current_core 0 ;;
  save_current_core_context ;;
  update_context current_core (fun c => c <| ctx_is_active := false |>) ;;
  finalize_powerdown.

(** smc_api.c: [clear_priv_smc_in_progress]. *)
Definition clear_priv_smc_in_progress : M unit :=
  lock_release (fun b w => w <| w_smc ::= fun s => s <| g_is_priv_smc_in_progress := b |> |>).

Definition cpu_off : M Z :=
  current_core ← get_core_id;
  if current_core =? 3 then power_down_current_core
  else clear_priv_smc_in_progress ;; power_down_current_core.
End Ops.
End Cpu.

Module Sc7.
Import Car I2c Uart Cpu ConfigItem.

Definition LP0_TZRAM_SAVE_SIZE := 0xE000.
Definition KEYSLOT_SWITCH_LP0TZRAMKEY := 0x2.

(** memory_map.h: the physical addresses behind the LP0 and warmboot segments. *)
Definition LP0_ENCRYPTED_TZRAM_PA := 0x40020000.
Definition LP0_ENTRY_CODE_PA := 0x40003000.
Definition LP0_CURRENT_TZRAM_PA := 0x7C010000.
Definition WARMBOOT_SE_STATE_PA := 0x8000F000.
Definition WARMBOOT_TZRAM_PA := 0x80010000.

Definition HALT_COP_EVENTS : Z := FLOW_BASE + 0x4.
Definition RST_DEVICES_H : Z := CAR_BASE + 0x8.

Section Ops.
Context {soc : SoC}.

Fixpoint hiz_wait_loop (fuel : nat) (start_time : Z) : M bool :=
  match fuel with
  | O => spin
  | S n =>
      gpio ← reg_read (MMIO_GET_DEVICE_ADDRESS MMIO_DEVID_GPIO + 0x634);
      if gpio .& 1 =? 0 then mret true else
      now ← get_time;
      if u32 (now - start_time) >? 50000 then mret false else
      wait 0 ;; hiz_wait_loop n start_time
  end.

Definition configure_battery_hiz_mode : M unit :=
  clkrst_reboot CARDEVICE_I2C1 ;;
  hiz ← configitem_is_hiz_mode_enabled;
  (if (hiz : bool)
   then bit7 ← i2c_query_ti_charger_bit_7;
        if (bit7 : bool) then mret tt
        else i2c_set_ti_charger_bit_7 ;;
             start_time ← get_time;
             should_wait ← hiz_wait_loop soc_fuel start_time;
             if (should_wait : bool) then wait 0x100 else mret tt
   else mret tt) ;;
  clkrst_disable CARDEVICE_I2C1.

Definition enable_lp0_wake_events : M unit :=
  wait 75 ;;
  reg_update (PMC_BASE + 0x440) (fun v => v .| 0x200) ;;
  wait 75 ;;
  reg_write (PMC_BASE + 0x14) 0xFFFFFFFF ;;
  reg_write (PMC_BASE + 0x168) 0xFFFFFFFF ;;
  wait 75.

Definition notify_pmic_shutdown : M unit :=
  clkrst_reboot CARDEVICE_I2C5 ;;
  i2c_init I2C_5 ;;
  v ← Fuse.fuse_get_bootrom_patch_version;
  if v >=? 0x7F then i2c_send_pmic_cpu_shutdown_cmd else mret tt.

Definition mitigate_jamais_vu : M unit :=
  status ← reg_read PWRGATE_STATUS;
  if negb (status .& 0xE00 =? 0) then generic_panic else
  fw ← exosphere_get_target_firmware;
  auth ← gets (fun w => dbgauthstatus_el1 (w_cpu w));
  let debug := (fw <? ATMOSPHERE_TARGET_FIRMWARE_400) || (auth .& 3 =? 3) in
  let halt := if debug then 0x50000000 else 0x40000000 in
  reg_write HALT_COP_EVENTS halt ;;
  cop ← reg_read HALT_COP_EVENTS;
  if negb (cop =? halt) then generic_panic else
  rst ← reg_read RST_DEVICES_H;
  if negb (rst .& 0x4000006 =? 0x4000006) then generic_panic else mret tt.

Definition configure_pmc_for_deep_powerdown : M unit :=
  reg_write (PMC_BASE + 0x50) 1 ;;
  reg_update (PMC_BASE + 0x24) (fun v => v .| 2).

Definition setup_bpmp_sc7_firmware : M unit :=
  reg_update (MISC_BASE + 0xC00) (fun v => v .& 0xFFFFDFFF) ;;
  reg_write (BPMP_VECTOR_BASE + 0x200) 0x40003000 ;;
  for_each (seqZ 1 7) (fun i => reg_write (BPMP_VECTOR_BASE + 0x200 + 4 * i) 0x40003004) ;;
  reg_write (CAR_BASE + 0x300) 2 ;;
  for_each (range ((Z.of_nat (length sc7fw_bin) + 3) / 4)) (fun i =>
    phys_store (LP0_ENTRY_CODE_PA + 4 * i) (le_bytes 4 (read32le sc7fw_bin (4 * i)))) ;;
  reg_write (CAR_BASE + 0x304) 2 ;;
  reg_write HALT_COP_EVENTS 0.

Definition configure_flow_regs_for_sleep : M unit :=
  current_core ← get_core_id;
  flow_set_cc4_ctrl current_core 0 ;;
  flow_set_halt_events current_core false ;;
  reg_write (FLOW_BASE + 0x94) 0 ;;
  flow_set_csr current_core 2.

(** smc_api.c: [set_suspend_for_debug]. *)
Definition set_suspend_for_debug : M unit :=
  modify (fun w => w <| w_smc ::= fun s => s <| g_has_suspended := true |> |>).

Definition save_tzram_state : M unit :=
  set_suspend_for_debug ;;
  fw ← exosphere_get_target_firmware;
  let src_pa := if fw >=? ATMOSPHERE_TARGET_FIRMWARE_500
                then LP0_CURRENT_TZRAM_PA + 0x2000 else LP0_CURRENT_TZRAM_PA in
  clear_priv_smc_in_progress ;;
  SE.se_generate_random_key KEYSLOT_SWITCH_LP0TZRAMKEY SE.KEYSLOT_SWITCH_RNGKEY ;;
  src ← phys_load src_pa LP0_TZRAM_SAVE_SIZE;
  dst ← phys_load LP0_ENCRYPTED_TZRAM_PA LP0_TZRAM_SAVE_SIZE;
  enc ← SE.se_aes_256_cbc_encrypt KEYSLOT_SWITCH_LP0TZRAMKEY dst LP0_TZRAM_SAVE_SIZE
          src LP0_TZRAM_SAVE_SIZE (zeros 0x10);
  phys_store LP0_ENCRYPTED_TZRAM_PA enc ;;
  enc ← phys_load LP0_ENCRYPTED_TZRAM_PA LP0_TZRAM_SAVE_SIZE;
  phys_store WARMBOOT_TZRAM_PA enc ;;
  tzram_cmac ← SE.se_compute_aes_256_cmac KEYSLOT_SWITCH_LP0TZRAMKEY 0x10 src LP0_TZRAM_SAVE_SIZE;
  reg_write (PMC_BASE + 0xB18) (read32le tzram_cmac 0) ;;
  reg_write (PMC_BASE + 0xB1C) (read32le tzram_cmac 4) ;;
  reg_write (PMC_BASE + 0xB20) (read32le tzram_cmac 8) ;;
  reg_write (PMC_BASE + 0xB24) (read32le tzram_cmac 12) ;;
  reg_write (PMC_BASE + 0x5C0) 0x550000 ;;
  if fw <? ATMOSPHERE_TARGET_FIRMWARE_200
  then reg_write (PMC_BASE + 0x360) WARMBOOT_TZRAM_PA ;;
       reg_write (PMC_BASE + 0x2D8) 0x10000 ;;
       reg_write (PMC_BASE + 0x340) LP0_CURRENT_TZRAM_PA ;;
       reg_write (PMC_BASE + 0x344) 0 ;;
       reg_write (PMC_BASE + 0x348) LP0_CURRENT_TZRAM_PA ;;
       reg_write (PMC_BASE + 0x34C) 0 ;;
       reg_write (PMC_BASE + 0x350) LP0_CURRENT_TZRAM_PA ;;
       reg_write (PMC_BASE + 0x354) LP0_TZRAM_SAVE_SIZE ;;
       reg_write (PMC_BASE + 0x2D8) 0x555
  else mret tt.

Definition save_se_state : M unit :=
  SE.se_check_error_status_reg ;;
  SE.se_set_in_context_save_mode true ;;
  old ← phys_load WARMBOOT_SE_STATE_PA 0x840;
  se_state ← SE.se_save_context SE.KEYSLOT_SWITCH_SRKGENKEY SE.KEYSLOT_SWITCH_RNGKEY old;
  phys_store WARMBOOT_SE_STATE_PA se_state ;;
  reg_write (PMC_BASE + 0x22C) WARMBOOT_SE_STATE_PA ;;
  SE.se_set_in_context_save_mode false ;;
  SE.se_check_error_status_reg.

(** ['O'; 'Y'; 'A'; 'S'; 'U'; 'M'; 'I'; 0] *)
Definition oyasumi : list Z := [0x4F; 0x59; 0x41; 0x53; 0x55; 0x4D; 0x49; 0].

Definition save_se_and_power_down_cpu {A} : M A :=
  save_tzram_state ;;
  save_se_state ;;
  reg_write (PMC_BASE + 0x118) 0x2202E012 ;;
  reg_write (PMC_BASE + 0x11C) 0x6001DC28 ;;
  retail ← configitem_is_retail;
  (if negb retail then uart_send UART_A oyasumi 8 else mret tt) ;;
  finalize_powerdown.

Definition cpu_suspend (power_state entrypoint argument : Z) : M Z :=
  if negb (power_state .& 0x17FFF =? 0x1001B) then mret 0xFFFFFFFD else
  configure_battery_hiz_mode ;;
  enable_lp0_wake_events ;;
  notify_pmic_shutdown ;;
  fw ← exosphere_get_target_firmware;
  (if fw >=? ATMOSPHERE_TARGET_FIRMWARE_200 then mitigate_jamais_vu else mret tt) ;;
  configure_pmc_for_deep_powerdown ;;
  (if fw >=? ATMOSPHERE_TARGET_FIRMWARE_200 then setup_bpmp_sc7_firmware else mret tt) ;;
  configure_flow_regs_for_sleep ;;
  core ← get_core_id;
  set_core_entrypoint_and_argument core entrypoint argument ;;
  save_current_core_context ;;
  set_current_core_inactive ;;
  status ← reg_read PWRGATE_STATUS;
  if status .& 0xE00 =? 0 then save_se_and_power_down_cpu else generic_panic.
End Ops.
End Sc7.
