(* ===== verification/SmcUser.v ===== *)
(** smc_user.c: the implementations of the user SMCs.

    A handler maps the argument registers to its result code and the registers
    it leaves.  [2] is the code of an invalid argument. *)
From S2P Require Import Prelude State Utils Se Pages Config Keys.
Import SE UserPage ConfigItem MasterKey SealedKeys TitleKey Gcm.

Module SmcUser.

Definition kek_seeds : list (list Z) :=
  [zeros 16;
   [0xA2; 0xAB; 0xBF; 0x9C; 0x92; 0x2F; 0xBB; 0xE3; 0x78; 0x79; 0x9B; 0xC0; 0xCC; 0xEA; 0xA5; 0x74];
   [0x57; 0xE2; 0xD9; 0x45; 0xE4; 0x92; 0xF4; 0xFD; 0xC3; 0xF9; 0x86; 0x38; 0x89; 0x78; 0x9F; 0x3C];
   [0xE5; 0x4D; 0x9A; 0x02; 0xF0; 0x4F; 0x5F; 0xA8; 0xAD; 0x76; 0x0A; 0xF6; 0x32; 0x95; 0x59; 0xBB];
   [0x59; 0xD9; 0x31; 0xF4; 0xA7; 0x97; 0xB8; 0x14; 0x40; 0xD6; 0xA2; 0x60; 0x2B; 0xED; 0x15; 0x31];
   [0xFD; 0x6A; 0x25; 0xE5; 0xD8; 0x38; 0x7F; 0x91; 0x49; 0xDA; 0xF8; 0x59; 0xA8; 0x28; 0xE6; 0x75];
   [0x89; 0x96; 0x43; 0x9A; 0x7C; 0xD5; 0x59; 0x55; 0x24; 0xD5; 0x24; 0x18; 0xAB; 0x6C; 0x04; 0x61]].

Definition kek_masks : list (list Z) :=
  [[0x4D; 0x87; 0x09; 0x86; 0xC4; 0x5D; 0x20; 0x72; 0x2F; 0xBA; 0x10; 0x53; 0xDA; 0x92; 0xE8; 0xA9];
   [0x25; 0x03; 0x31; 0xFB; 0x25; 0x26; 0x0B; 0x79; 0x8C; 0x80; 0xD2; 0x69; 0x98; 0xE2; 0x22; 0x77];
   [0x76; 0x14; 0x1D; 0x34; 0x93; 0x2D; 0xE1; 0x84; 0x24; 0x7B; 0x66; 0x65; 0x55; 0x04; 0x65; 0x81];
   [0xAF; 0x3D; 0xB7; 0xF3; 0x08; 0xA2; 0xD8; 0xA2; 0x08; 0xCA; 0x18; 0xA8; 0x69; 0x46; 0xC9; 0x0B]].

Definition g_rsausecase_to_cryptousecase : list Z := [1; 2; 3; 5; 6].

Definition dev_specific_aes_key_source : list Z := zeros 0x10.
Definition dev_specific_aes_key_ctr : list Z :=
  [0x3C; 0xD5; 0x92; 0xEC; 0x68; 0x31; 0x4A; 0x06; 0xD4; 0x1B; 0x0C; 0xD9; 0xF6; 0x2E; 0xD9; 0xE9].
Definition dev_specific_aes_key_mask : list Z :=
  [0xAC; 0xCA; 0x9A; 0xCA; 0xFF; 0x2E; 0xB9; 0x22; 0xCC; 0x1F; 0x4F; 0xAD; 0xDD; 0x77; 0x21; 0x1E].
Definition retail_specific_aes_key_source : list Z :=
  [0xE2; 0xD6; 0xB8; 0x7A; 0x11; 0x9C; 0xB8; 0x80; 0xE8; 0x22; 0x88; 0x8A; 0x46; 0xFB; 0xA1; 0x95].

Section Ops.
Context {soc : SoC}.

Definition handler_result : Type := (Z * smc_args_t)%type.

(** [if (copy(..) == 0) return 2;] *)
Definition or_fail {A} (args : smc_args_t) (m : M (option A)) (k : A -> M handler_result)
    : M handler_result :=
  o ← m; match o with Some a => k a | None => mret (2, args) end.

(** [if (upage_init(&page_ref, addr) == 0) return 2;] *)
Definition with_upage (args : smc_args_t) (addr : Z) (k : upage_ref_t -> M handler_result)
    : M handler_result :=
  r ← upage_init addr;
  let '(page_ref, ok) := r : upage_ref_t * bool in if ok then k page_ref else mret (2, args).

(** [if (master_key_rev > 0) master_key_rev -= 1;] *)
Definition offset_rev (master_key_rev : Z) : Z :=
  if master_key_rev >? 0 then master_key_rev - 1 else master_key_rev.

Definition is_user_keyslot_valid (keyslot : Z) : M bool :=
  fw ← exosphere_get_target_firmware;
  mret (if (ATMOSPHERE_TARGET_FIRMWARE_100 <=? fw) && (fw <=? ATMOSPHERE_TARGET_FIRMWARE_500)
        then keyslot <=? 3 else keyslot <=? 5).

Definition set_exp_mod_done (done_ : bool) : M unit :=
  modify (fun w => w <| w_user ::= fun s => s <| g_exp_mod_done := done_ |> |>).
Definition get_exp_mod_done : M bool := gets (fun w => g_exp_mod_done (w_user w)).
Definition exp_mod_done_handler : M Z := set_exp_mod_done true ;; se_trigger_interrupt ;; mret 0.

Definition set_crypt_aes_done (done_ : bool) : M unit :=
  modify (fun w => w <| w_user ::= fun s => s <| g_crypt_aes_done := done_ |> |>).
Definition get_crypt_aes_done : M bool := gets (fun w => g_crypt_aes_done (w_user w)).
Definition crypt_aes_done_handler : M Z :=
  se_check_for_error ;; set_crypt_aes_done true ;; se_trigger_interrupt ;; mret 0.

(** The call through [g_se_callback]. *)
Definition run_se_callback (cb : se_callback) : M Z :=
  match cb with
  | exp_mod_done_handler_cb => exp_mod_done_handler
  | crypt_aes_done_handler_cb => crypt_aes_done_handler
  end.

Definition imported_exponent (i : Z) : M (list Z) :=
  gets (fun w => key_at (g_imported_exponents (w_user w)) i).
(** [memcpy(g_imported_exponents[i], data, |data|)]. *)
Definition store_exponent (i : Z) (data : list Z) : M unit :=
  modify (fun w => w <| w_user ::= fun s => s <| g_imported_exponents ::= fun l =>
    alter (fun e => splice e 0 data) (Z.to_nat i) l |> |>).

Definition user_exp_mod (args : smc_args_t) : M handler_result :=
  if (X args 4 =? 0) || (X args 4 >? 0x100) || negb (X args 4 .& 3 =? 0) then mret (2, args) else
  let exponent_size := X args 4 in
  let user_input := X args 1 in
  let user_exponent := X args 2 in
  let user_modulus := X args 3 in
  with_upage args user_input (fun page_ref =>
  or_fail args (user_copy_to_secure page_ref user_input 0x100) (fun input =>
  or_fail args (user_copy_to_secure page_ref user_exponent exponent_size) (fun exponent =>
  or_fail args (user_copy_to_secure page_ref user_modulus 0x100) (fun modulus =>
    set_exp_mod_done false ;;
    set_rsa_keyslot 0 modulus 0x100 exponent exponent_size ;;
    se_exp_mod 0 input 0x100 (Some exp_mod_done_handler_cb) ;;
    mret (0, args))))).

Definition user_get_random_bytes (args : smc_args_t) : M handler_result :=
  if X args 1 >? 0x38 then mret (2, args) else
  let size := X args 1 in
  random_bytes ← se_generate_random KEYSLOT_SWITCH_RNGKEY (zeros 0x40) size;
  mret (0, if negb (size =? 0) then copy_to_X args 1 (slice random_bytes 0 size) else args).

(** The 5.0.0+ bounds check of GenerateAesKek: [true] is [return 2]. *)
Definition kek_bounds_fail (is_personalized : bool) (master_key_rev mask_id usecase : Z) : bool :=
  if is_personalized then
    (master_key_rev >=? MASTERKEY_REVISION_MAX)
    || ((MASTERKEY_REVISION_300 <=? master_key_rev) && (master_key_rev <? MASTERKEY_REVISION_400_410))
    || (mask_id >? 3) || (usecase >=? CRYPTOUSECASE_MAX_5X)
  else (usecase >=? CRYPTOUSECASE_UNK6) || ((usecase =? CRYPTOUSECASE_UNK5) && (mask_id >=? 4)).

(** The device key slot choice GenerateAesKek and GenerateSpecificAesKey share. *)
Definition device_keyslot (fw master_key_rev : Z) : M Z :=
  if fw >=? ATMOSPHERE_TARGET_FIRMWARE_500 then devkey_get_keyslot master_key_rev
  else if fw =? ATMOSPHERE_TARGET_FIRMWARE_400
  then mret (if master_key_rev >=? 1 then KEYSLOT_SWITCH_DEVICEKEY else KEYSLOT_SWITCH_4XOLDDEVICEKEY)
  else mret KEYSLOT_SWITCH_DEVICEKEY.

Definition user_generate_aes_kek (args : smc_args_t) : M handler_result :=
  let wrapped_kek := bytes_of_pair (X args 1) (X args 2) in
  let master_key_rev := offset_rev (u32 (X args 3)) in
  too_new ← (if master_key_rev >=? MASTERKEY_REVISION_MAX then mret true
             else cur ← mkey_get_revision; mret (master_key_rev >? cur));
  if (too_new : bool) then mret (2, args) else
  let packed_options := X args 4 in
  if packed_options >? 0xFF then mret (2, args) else
  let mask_id := (packed_options >>. 1) .& 3 in
  fw ← exosphere_get_target_firmware;
  let usecase := (packed_options >>. 5)
                   .& (if fw >=? ATMOSPHERE_TARGET_FIRMWARE_500 then 7 else 3) in
  let is_personalized := negb (packed_options .& 1 =? 0) in
  is_recovery_boot ← configitem_is_recovery_boot;
  if (fw >=? ATMOSPHERE_TARGET_FIRMWARE_500)
     && kek_bounds_fail is_personalized master_key_rev mask_id usecase then mret (2, args) else
  if (mask_id =? 2) && negb is_recovery_boot then mret (2, args) else
  if (mask_id =? 1) && is_recovery_boot then mret (2, args) else
  let kek_source := xor_bytes (key_at kek_seeds usecase) (key_at kek_masks mask_id) in
  keyslot ← (if is_personalized then device_keyslot fw master_key_rev
             else mkey_get_keyslot master_key_rev);
  decrypt_data_into_keyslot KEYSLOT_SWITCH_TEMPKEY keyslot kek_source 0x10 ;;
  kek ← se_aes_ecb_decrypt_block KEYSLOT_SWITCH_TEMPKEY 0x10 wrapped_kek 0x10;
  sealed_kek ← seal_key 0x10 kek 0x10 usecase;
  mret (0, set_X (set_X args 1 (read64le sealed_kek 0)) 2 (read64le sealed_kek 8)).

Definition user_load_aes_key (args : smc_args_t) : M handler_result :=
  let keyslot := u32 (X args 1) in
  valid ← is_user_keyslot_valid keyslot;
  if negb valid then mret (2, args) else
  let sealed_kek := bytes_of_pair (X args 2) (X args 3) in
  let wrapped_key := bytes_of_pair (X args 4) (X args 5) in
  unseal_key KEYSLOT_SWITCH_TEMPKEY sealed_kek 0x10 CRYPTOUSECASE_AES ;;
  decrypt_data_into_keyslot keyslot KEYSLOT_SWITCH_TEMPKEY wrapped_key 0x10 ;;
  mret (0, args).

Definition dma_list_fail (paddr : Z) : bool := u32 (paddr - 0x80000000) >=? 0x3FF7F5.

Definition user_crypt_aes (args : smc_args_t) : M handler_result :=
  let mode := (X args 1 >>. 4) .& 3 in
  fw ← exosphere_get_target_firmware;
  let keyslot := if fw >=? ATMOSPHERE_TARGET_FIRMWARE_600 then X args 1 .& 7 else X args 1 .& 3 in
  let iv_ctr := bytes_of_pair (X args 2) (X args 3) in
  let in_ll_paddr := u32 (X args 4) in
  let out_ll_paddr := u32 (X args 5) in
  let size := X args 6 in
  valid ← is_user_keyslot_valid keyslot;
  if negb valid || negb (size .& 0xF =? 0) then mret (2, args) else
  if (fw >=? ATMOSPHERE_TARGET_FIRMWARE_500)
     && (dma_list_fail in_ll_paddr || dma_list_fail out_ll_paddr) then mret (2, args) else
  set_crypt_aes_done false ;;
  let callback := Some crypt_aes_done_handler_cb in
  if mode =? 0
  then se_aes_cbc_encrypt_insecure keyslot out_ll_paddr in_ll_paddr size iv_ctr callback ;; mret (0, args)
  else if mode =? 1
  then se_aes_cbc_decrypt_insecure keyslot out_ll_paddr in_ll_paddr size iv_ctr callback ;; mret (0, args)
  else if mode =? 2
  then se_aes_ctr_crypt_insecure keyslot out_ll_paddr in_ll_paddr size iv_ctr callback ;; mret (0, args)
  else mret (1, args).

Definition user_generate_specific_aes_key (args : smc_args_t) : M handler_result :=
  let wrapped_key := bytes_of_pair (X args 1) (X args 2) in
  fw ← exosphere_get_target_firmware;
  let master_key_rev := if fw <? ATMOSPHERE_TARGET_FIRMWARE_400 then 0
                        else offset_rev (u32 (X args 3)) in
  if master_key_rev >=? MASTERKEY_REVISION_MAX then mret (2, args) else
  if X args 4 >? 1 then mret (2, args) else
  let should_mask := negb (X args 4 =? 0) in
  keyslot ← device_keyslot fw master_key_rev;
  patch ← Fuse.fuse_get_bootrom_patch_version;
  key ← (if patch <? 0x7F
         then key ← se_aes_ctr_crypt keyslot (zeros 0x10) 0x10 dev_specific_aes_key_source 0x10
                      dev_specific_aes_key_ctr 0x10;
              mret (if should_mask then xor_bytes key dev_specific_aes_key_mask else key)
         else decrypt_data_into_keyslot KEYSLOT_SWITCH_TEMPKEY keyslot
                retail_specific_aes_key_source 0x10 ;;
              se_aes_ecb_decrypt_block KEYSLOT_SWITCH_TEMPKEY 0x10 wrapped_key 0x10);
  mret (0, set_X (set_X args 1 (read64le key 0)) 2 (read64le key 8)).

Definition user_compute_cmac (args : smc_args_t) : M handler_result :=
  let keyslot := u32 (X args 1) in
  let user_address := X args 2 in
  let size := X args 3 in
  valid ← is_user_keyslot_valid keyslot;
  if negb valid || (X args 3 >? 0x400) then mret (2, args) else
  with_upage args user_address (fun page_ref =>
  or_fail args (user_copy_to_secure page_ref user_address size) (fun user_data =>
    result_cmac ← se_compute_aes_128_cmac keyslot 0x10 user_data size;
    mret (0, set_X (set_X args 1 (read64le result_cmac 0)) 2 (read64le result_cmac 8)))).

(** The arguments the three pre-5.0.0 RSA key SMCs decode alike; [None] is
    [return 2] for a personalization flag above 1. *)
Definition rsa_key_args (args : smc_args_t) : option (list Z * list Z * bool * Z * Z) :=
  if X args 3 >? 1 then None
  else Some (bytes_of_pair (X args 1) (X args 2), bytes_of_pair (X args 6) (X args 7),
             negb (X args 3 =? 0), X args 4, X args 5).

(** The common prefix: no such SMC from 5.0.0 on; decode; check the sizes;
    fetch the wrapped key from the user page. *)
Definition with_rsa_key_data (args : smc_args_t) (bad_size : bool -> Z -> Z -> bool)
    (k : upage_ref_t -> list Z -> list Z -> bool -> Z -> Z -> list Z -> M handler_result)
    : M handler_result :=
  fw ← exosphere_get_target_firmware;
  if fw >=? ATMOSPHERE_TARGET_FIRMWARE_500 then generic_panic else
  match rsa_key_args args with
  | None => mret (2, args)
  | Some (sealed_kek, wrapped_key, is_personalized, user_address, size) =>
      patch ← Fuse.fuse_get_bootrom_patch_version;
      if bad_size is_personalized size patch then mret (2, args) else
      with_upage args user_address (fun page_ref =>
      or_fail args (user_copy_to_secure page_ref user_address size) (fun user_data =>
        k page_ref sealed_kek wrapped_key is_personalized user_address size user_data))
  end.

Definition user_load_rsa_oaep_key (args : smc_args_t) : M handler_result :=
  with_rsa_key_data args (fun is_personalized size patch =>
      (is_personalized && negb (size =? 0x240))
      || (negb is_personalized && (negb (size =? 0x220) || (patch >=? 0x7F))))
    (fun page_ref sealed_kek wrapped_key is_personalized user_address size user_data =>
      r ← gcm_decrypt_key user_data size user_data size sealed_kek 0x10 wrapped_key 0x10
            CRYPTOUSECASE_RSAOAEP is_personalized;
      let '(out_size, user_data, _) := r in
      if out_size <? 0x100 then mret (2, args) else
      store_exponent 0 (slice user_data 0 0x100) ;;
      mret (0, args)).

Definition user_decrypt_rsa_private_key (args : smc_args_t) : M handler_result :=
  with_rsa_key_data args (fun is_personalized size patch =>
      (size >? 0x240) || (is_personalized && (size <? 0x31))
      || (negb is_personalized && ((size <? 0x11) || (patch >=? 0x7F))))
    (fun page_ref sealed_kek wrapped_key is_personalized user_address size user_data =>
      r ← gcm_decrypt_key user_data size user_data size sealed_kek 0x10 wrapped_key 0x10
            CRYPTOUSECASE_RSAPRIVATE is_personalized;
      let '(out_size, user_data, _) := r in
      if out_size =? 0 then mret (2, args) else
      ok ← secure_copy_to_user page_ref user_address user_data size;
      if negb ok then mret (2, args) else
      mret (0, set_X args 1 out_size)).

Definition user_load_secure_exp_mod_key (args : smc_args_t) : M handler_result :=
  with_rsa_key_data args (fun is_personalized size patch =>
      (is_personalized && negb (size =? 0x130))
      || (negb is_personalized && (negb (size =? 0x110) || (patch >=? 0x7F))))
    (fun page_ref sealed_kek wrapped_key is_personalized user_address size user_data =>
      r ← gcm_decrypt_key user_data size user_data size sealed_kek 0x10 wrapped_key 0x10
            CRYPTOUSECASE_SECUREEXPMOD is_personalized;
      let '(out_size, user_data, _) := r in
      if out_size =? 0 then mret (2, args) else
      (if out_size <=? 0x100 then store_exponent 1 (slice user_data 0 out_size)
       else store_exponent 1 (slice user_data 0 0x100)) ;;
      mret (0, args)).

Definition user_secure_exp_mod (args : smc_args_t) : M handler_result :=
  let user_input := X args 1 in
  let user_modulus := X args 2 in
  fw ← exosphere_get_target_firmware;
  if (fw >=? ATMOSPHERE_TARGET_FIRMWARE_500) && (X args 3 >? 2) then mret (2, args) else
  let exponent_id := if fw >=? ATMOSPHERE_TARGET_FIRMWARE_500 then X args 3 + 1 else 1 in
  with_upage args user_input (fun page_ref =>
  or_fail args (user_copy_to_secure page_ref user_input 0x100) (fun input =>
  or_fail args (user_copy_to_secure page_ref user_modulus 0x100) (fun modulus =>
    set_exp_mod_done false ;;
    exponent ← imported_exponent exponent_id;
    set_rsa_keyslot 0 modulus 0x100 exponent 0x100 ;;
    se_exp_mod 0 input 0x100 (Some exp_mod_done_handler_cb) ;;
    mret (0, args)))).

Definition user_unwrap_rsa_oaep_wrapped_titlekey (args : smc_args_t) : M handler_result :=
  let user_wrapped_key := X args 1 in
  let user_modulus := X args 2 in
  let option := u32 (X args 7) in
  fw ← exosphere_get_target_firmware;
  let master_key_rev := if fw >=? ATMOSPHERE_TARGET_FIRMWARE_600 then option .& 0x3F else option in
  let titlekey_type := if fw >=? ATMOSPHERE_TARGET_FIRMWARE_600 then (option >>. 6) .& 1 else 0 in
  let master_key_rev := offset_rev master_key_rev in
  if (fw >=? ATMOSPHERE_TARGET_FIRMWARE_300) && (master_key_rev >=? MASTERKEY_REVISION_MAX)
  then mret (2, args) else
  let master_key_rev := if fw >=? ATMOSPHERE_TARGET_FIRMWARE_300 then master_key_rev else 0 in
  with_upage args user_wrapped_key (fun page_ref =>
  or_fail args (user_copy_to_secure page_ref user_wrapped_key 0x100) (fun wrapped_key =>
  or_fail args (user_copy_to_secure page_ref user_modulus 0x100) (fun modulus =>
    set_exp_mod_done false ;;
    tkey_set_expected_label_hash (drop 3 args) ;;
    tkey_set_master_key_rev master_key_rev ;;
    tkey_set_type titlekey_type ;;
    exponent ← imported_exponent 0;
    set_rsa_keyslot 0 modulus 0x100 exponent 0x100 ;;
    se_exp_mod 0 wrapped_key 0x100 (Some exp_mod_done_handler_cb) ;;
    mret (0, args)))).

Definition user_load_titlekey (args : smc_args_t) : M handler_result :=
  let keyslot := u32 (X args 1) in
  valid ← is_user_keyslot_valid keyslot;
  if negb valid then mret (2, args) else
  unseal_titlekey keyslot (bytes_of_pair (X args 2) (X args 3)) 0x10 ;;
  mret (0, args).

Definition user_unwrap_aes_wrapped_titlekey (args : smc_args_t) : M handler_result :=
  let aes_wrapped_titlekey := bytes_of_pair (X args 1) (X args 2) in
  let master_key_rev := offset_rev (u32 (X args 3)) in
  fw ← exosphere_get_target_firmware;
  if (fw >=? ATMOSPHERE_TARGET_FIRMWARE_300) && (master_key_rev >=? MASTERKEY_REVISION_MAX)
  then mret (2, args) else
  let master_key_rev := if fw >=? ATMOSPHERE_TARGET_FIRMWARE_300 then master_key_rev else 0 in
  tkey_set_master_key_rev master_key_rev ;;
  tkey_set_type 0 ;;
  titlekey ← tkey_aes_unwrap 0x10 aes_wrapped_titlekey 0x10;
  sealed_titlekey ← seal_titlekey 0x10 titlekey 0x10;
  mret (0, set_X (set_X args 1 (read64le sealed_titlekey 0)) 2 (read64le sealed_titlekey 8)).

(** The use case and size checks of the two 5.0.0+ RSA key SMCs. *)
Definition rsa_import_args_fail (usecase size : Z) : bool :=
  (usecase >? CRYPTOUSECASE_RSAIMPORT)
  || (if usecase =? 0 then (size <? 0x31) || (size >? 0x240) else (size <? 0x130) || (size >? 0x240)).

Definition user_encrypt_rsa_key_for_import (args : smc_args_t) : M handler_result :=
  let user_in_kek := X args 1 in
  let user_out_kek := X args 2 in
  let usecase := X args 3 .& 7 in
  let user_address := X args 4 in
  let size := X args 5 in
  let user_in_key := X args 6 in
  let user_out_key := X args 7 in
  if rsa_import_args_fail usecase size then mret (2, args) else
  with_upage args user_address (fun page_ref =>
  or_fail args (user_copy_to_secure page_ref user_address size) (fun user_data =>
  or_fail args (user_copy_to_secure page_ref user_in_kek 0x10) (fun in_sealed_kek =>
  or_fail args (user_copy_to_secure page_ref user_out_kek 0x10) (fun out_sealed_kek =>
  or_fail args (user_copy_to_secure page_ref user_in_key 0x10) (fun in_wrapped_key =>
  or_fail args (user_copy_to_secure page_ref user_out_key 0x10) (fun out_wrapped_key =>
    r ← gcm_decrypt_key user_data size user_data size in_sealed_kek 0x10 in_wrapped_key 0x10
          CRYPTOUSECASE_RSAIMPORT true;
    let '(out_size, user_data, device_id_high) := r in
    if out_size =? 0 then mret (2, args) else
    user_data ← gcm_encrypt_key user_data size user_data (size - 0x30) out_sealed_kek 0x10
      out_wrapped_key 0x10 (byte_at g_rsausecase_to_cryptousecase usecase) (default 0 device_id_high);
    ok ← secure_copy_to_user page_ref user_address user_data size;
    if negb ok then mret (2, args) else
    mret (0, args))))))).

Definition user_decrypt_or_import_rsa_key (args : smc_args_t) : M handler_result :=
  fw ← exosphere_get_target_firmware;
  if fw <? ATMOSPHERE_TARGET_FIRMWARE_500 then generic_panic else
  let sealed_kek := bytes_of_pair (X args 1) (X args 2) in
  let usecase := X args 3 .& 7 in
  let user_address := X args 4 in
  let size := X args 5 in
  let wrapped_key := bytes_of_pair (X args 6) (X args 7) in
  if rsa_import_args_fail usecase size then mret (2, args) else
  with_upage args user_address (fun page_ref =>
  or_fail args (user_copy_to_secure page_ref user_address size) (fun user_data =>
    r ← gcm_decrypt_key user_data size user_data size sealed_kek 0x10 wrapped_key 0x10
          (byte_at g_rsausecase_to_cryptousecase usecase) true;
    let '(out_size, user_data, _) := r in
    if out_size =? 0 then mret (2, args) else
    if usecase =? 0
    then ok ← secure_copy_to_user page_ref user_address user_data size;
         if negb ok then mret (2, args) else mret (0, args)
    else
    exponent_id ← (if usecase =? 1 then mret 1
                   else if usecase =? 2 then mret 0
                   else if usecase =? 3 then mret 2
                   else if usecase =? 4 then mret 3
                   else generic_panic);
    store_exponent exponent_id (slice user_data 0 0x100) ;;
    mret (0, args))).
End Ops.
End SmcUser.
