(* ===== verification/SmcApi.v ===== *)
(** smc_api.c: the SMC tables, the dispatcher, the user SMC lock with its
    asynchronous callback, and the handlers. *)
From S2P Require Import Prelude State Utils Se Pages Config Keys Power SmcUser.
Import SE UserPage ConfigItem SealedKeys TitleKey RandomCache SmcUser.

Module SmcApi.

Definition SMC_HANDLER_USER := 0.
Definition SMC_HANDLER_PRIV := 1.
Definition SMC_HANDLER_COUNT := 2.
Definition SMC_HANDLER_AMS := SMC_HANDLER_COUNT.
Definition SMC_CALL_RANGE_TRUSTED_APP := 0x30.

(** The tables as they are at start. *)
Definition initial_smc_user_table : list smc_table_entry_t :=
  [mk_smc_entry 0 4 None;
   mk_smc_entry 0xC3000401 4 (Some smc_set_config_user_h);
   mk_smc_entry 0xC3000002 1 (Some smc_get_config_user_h);
   mk_smc_entry 0xC3000003 1 (Some smc_check_status_h);
   mk_smc_entry 0xC3000404 1 (Some smc_get_result_h);
   mk_smc_entry 0xC3000E05 4 (Some smc_exp_mod_h);
   mk_smc_entry 0xC3000006 1 (Some smc_get_random_bytes_for_user_h);
   mk_smc_entry 0xC3000007 1 (Some smc_generate_aes_kek_h);
   mk_smc_entry 0xC3000008 1 (Some smc_load_aes_key_h);
   mk_smc_entry 0xC3000009 1 (Some smc_crypt_aes_h);
   mk_smc_entry 0xC300000A 1 (Some smc_generate_specific_aes_key_h);
   mk_smc_entry 0xC300040B 1 (Some smc_compute_cmac_h);
   mk_smc_entry 0xC300100C 1 (Some smc_load_rsa_oaep_key_h);
   mk_smc_entry 0xC300100D 2 (Some smc_decrypt_rsa_private_key_h);
   mk_smc_entry 0xC300100E 4 (Some smc_load_secure_exp_mod_key_h);
   mk_smc_entry 0xC300060F 2 (Some smc_secure_exp_mod_h);
   mk_smc_entry 0xC3000610 4 (Some smc_unwrap_rsa_oaep_wrapped_titlekey_h);
   mk_smc_entry 0xC3000011 4 (Some smc_load_titlekey_h);
   mk_smc_entry 0xC3000012 4 (Some smc_unwrap_aes_wrapped_titlekey_h)].

Definition initial_smc_priv_table : list smc_table_entry_t :=
  [mk_smc_entry 0 4 None;
   mk_smc_entry 0xC4000001 4 (Some smc_cpu_suspend_h);
   mk_smc_entry 0x84000002 4 (Some smc_cpu_off_h);
   mk_smc_entry 0xC4000003 1 (Some smc_cpu_on_h);
   mk_smc_entry 0xC3000004 1 (Some smc_get_config_priv_h);
   mk_smc_entry 0xC3000005 1 (Some smc_get_random_bytes_for_priv_h);
   mk_smc_entry 0xC3000006 1 (Some smc_panic_h);
   mk_smc_entry 0xC3000007 1 (Some smc_configure_carveout_h);
   mk_smc_entry 0xC3000008 1 (Some smc_read_write_register_h)].

Definition initial_smc_ams_table : list smc_table_entry_t :=
  [mk_smc_entry 0 4 None;
   mk_smc_entry 0xF0000201 0 (Some smc_ams_iram_copy_h);
   mk_smc_entry 0xF0000002 0 (Some smc_read_write_register_h);
   mk_smc_entry 0xF0000003 0 (Some smc_ams_write_address_h);
   mk_smc_entry 0xF0000404 0 (Some smc_ams_get_emummc_config_h)].

Definition initial_smc_api_state : smc_api_state :=
  mk_smc_api initial_smc_user_table initial_smc_priv_table initial_smc_ams_table 0
    false false [false; false] false None 0.

(** [g_smc_tables[handler_id]]. *)
Definition smc_table (handler_id : Z) (s : smc_api_state) : list smc_table_entry_t :=
  if handler_id =? SMC_HANDLER_USER then g_smc_user_table s
  else if handler_id =? SMC_HANDLER_PRIV then g_smc_priv_table s
  else g_smc_ams_table s.

Definition set_handler (h : option smc_handler) (e : smc_table_entry_t) : smc_table_entry_t :=
  e <| entry_handler := h |>.
Definition set_id (i : Z) (e : smc_table_entry_t) : smc_table_entry_t := e <| entry_id := i |>.

Definition get_user_lock (w : World) : bool := g_is_user_smc_in_progress (w_smc w).
Definition set_user_lock (b : bool) (w : World) : World :=
  w <| w_smc ::= fun s => s <| g_is_user_smc_in_progress := b |> |>.
Definition get_priv_lock (w : World) : bool := g_is_priv_smc_in_progress (w_smc w).
Definition set_priv_lock (b : bool) (w : World) : World :=
  w <| w_smc ::= fun s => s <| g_is_priv_smc_in_progress := b |> |>.

Definition pmc_whitelist : list Z :=
  [0xB9; 0xF9; 0x07; 0x00; 0x00; 0x00; 0x80; 0x03;
   0x00; 0x00; 0x00; 0x17; 0x00; 0xC4; 0x07; 0;
   0; 0; 0; 0; 0; 0x20; 0x20; 0;
   0; 0; 0; 0; 0; 0; 0; 0;
   0; 0; 0x01; 0x00; 0x00; 0x00; 0x40; 0x00].

Definition mc_whitelist : list Z :=
  [0x9F; 0x31; 0x30; 0x00; 0xF0; 0xFF; 0xF7; 0x01;
   0xCD; 0xFE; 0xC0; 0xFE; 0x00; 0x00; 0x00; 0x00;
   0x03; 0x40; 0x73; 0x3E; 0x2F; 0x00; 0x00; 0x6E;
   0x30; 0x05; 0x06; 0xB0; 0x71; 0xC8; 0x43; 0x04;
   0x80; 0x1F; 0x08; 0x80; 0x03; 0x00; 0x0E; 0x00;
   0x08; 0x00; 0xE0; 0x00; 0x0E; 0; 0; 0;
   0; 0; 0; 0x30; 0xF0; 0x03; 0x03; 0x30;
   0; 0; 0; 0; 0; 0; 0; 0;
   0; 0; 0; 0; 0; 0; 0; 0;
   0; 0; 0; 0x31; 0x00; 0x40; 0x00; 0x00;
   0x00; 0x03; 0x00; 0x00; 0xE4; 0xFF; 0xFF; 0x01;
   0x00; 0x00; 0x00; 0x00; 0x0C; 0x00; 0xFE; 0x0F;
   0x01; 0x00; 0x80; 0x00; 0x00; 0x08; 0x00; 0x00].

(** [wl_ind < sizeof(wl) && (wl[wl_ind] & (1 << ((offset >> 2) & 7)))]. *)
Definition whitelisted (wl : list Z) (offset : Z) : bool :=
  (offset >>. 5 <? Z.of_nat (length wl))
  && negb (byte_at wl (offset >>. 5) .& (1 <<. ((offset >>. 2) .& 0x7)) =? 0).

(** memory_map.h: [MMIO_GET_DEVICE_PA(MMIO_DEVID_MC)] and its size. *)
Definition MC_PA := 0x70019000.
Definition MC_SIZE := 0x1000.

(** What ReadWriteRegister decides for an aligned address: the register's
    virtual address, or the code it returns without an access. *)
Definition is_pmc_address (address : Z) : bool := (0x7000E400 <=? address) && (address <=? 0x7000EFFF).

Definition pmc_target (address : Z) : Z + Z :=
  let offset := u32 (address - 0x7000E400) in
  if whitelisted pmc_whitelist offset then inl (PMC_BASE + offset) else inr 2.

Definition mc_target (fw address : Z) : Z + Z :=
  if (fw >=? ATMOSPHERE_TARGET_FIRMWARE_400) && (MC_PA <=? address) && (address <? MC_PA + MC_SIZE)
  then let offset := u32 (address - 0x70019000) in
       if whitelisted mc_whitelist offset then inl (MC_BASE + offset)
       else if (address =? 0x7001923C) || (address =? 0x70019298) then inr 0 else inr 2
  else inr 2.

Section Ops.
Context {soc : SoC}.

Definition set_version_specific_smcs : M unit :=
  fw ← exosphere_get_target_firmware;
  if fw =? ATMOSPHERE_TARGET_FIRMWARE_100 then
    modify (fun w => w <| w_smc ::= fun s =>
      s <| g_smc_priv_table ::= fun l => alter (set_handler None) 8%nat (alter (set_handler None) 7%nat l) |>
        <| g_smc_user_table ::= alter (set_handler None) 0x12%nat |> |>)
  else if (ATMOSPHERE_TARGET_FIRMWARE_200 <=? fw) && (fw <=? ATMOSPHERE_TARGET_FIRMWARE_400) then mret tt
  else if (ATMOSPHERE_TARGET_FIRMWARE_500 <=? fw) && (fw <=? ATMOSPHERE_TARGET_FIRMWARE_900) then
    modify (fun w => w <| w_smc ::= fun s => s <| g_smc_user_table ::= fun l =>
      alter (set_handler (Some smc_decrypt_or_import_rsa_key_h)) 0xD%nat
        (alter (set_handler (Some smc_encrypt_rsa_key_for_import_h)) 0xC%nat
          (alter (set_id 0xC300D60C) 0xC%nat
            (alter (set_handler None) 0xE%nat l))) |> |>)
  else panic_predefined 0xA.

Definition get_smc_core012_stack_address : Z := TZRAM_GET_SEGMENT_ADDRESS 3 + 0x1000.
Definition get_exception_entry_stack_address (core_id : Z) : Z :=
  if core_id =? 3 then TZRAM_GET_SEGMENT_ADDRESS 4 + 0x1000
  else TZRAM_GET_SEGMENT_ADDRESS 5 + 0x80 * (core_id + 1).

Definition try_set_user_smc_in_progress : M bool := lock_try_acquire get_user_lock set_user_lock.
Definition set_user_smc_in_progress : M unit := lock_acquire get_user_lock set_user_lock.
Definition clear_user_smc_in_progress : M unit := lock_release set_user_lock.
Definition set_priv_smc_in_progress : M unit := lock_acquire get_priv_lock set_priv_lock.

Definition smc_callback_key : M Z := gets (fun w => g_smc_callback_key (w_smc w)).
Definition set_smc_callback_key (key : Z) : M unit :=
  modify (fun w => w <| w_smc ::= fun s => s <| g_smc_callback_key := key |> |>).
Definition set_smc_callback (callback : smc_callback) : M unit :=
  modify (fun w => w <| w_smc ::= fun s => s <| g_smc_callback := Some callback |> |>).

Definition try_set_smc_callback (callback : smc_callback) : M Z :=
  cur ← smc_callback_key;
  if negb (cur =? 0) then mret 0 else
  bytes ← se_generate_random KEYSLOT_SWITCH_RNGKEY (zeros 8) 8;
  let key := le_value bytes in
  set_smc_callback_key key ;;
  set_smc_callback callback ;;
  mret key.

Definition clear_smc_callback (key : Z) : M unit :=
  cur ← smc_callback_key;
  if cur =? key then set_smc_callback_key 0 else mret tt.

(** ** Wrappers *)

Definition smc_wrapper_sync (args : smc_args_t) (handler : smc_args_t -> M handler_result)
    : M handler_result :=
  acquired ← try_set_user_smc_in_progress;
  if negb acquired then mret (3, args) else
  r ← handler args;
  clear_user_smc_in_progress ;;
  mret r.

Definition smc_wrapper_async (args : smc_args_t) (handler : smc_args_t -> M handler_result)
    (callback : smc_callback) : M handler_result :=
  acquired ← try_set_user_smc_in_progress;
  if negb acquired then mret (3, args) else
  key ← try_set_smc_callback callback;
  if negb (key =? 0)
  then r ← handler args;
       let '(result, args) := r : handler_result in
       if result =? 0 then mret (result, set_X args 1 key)
       else clear_smc_callback key ;;
            clear_user_smc_in_progress ;;
            mret (result, args)
  else clear_user_smc_in_progress ;; mret (3, args).

(** ** Callbacks: the result code and the result buffer *)

Definition smc_exp_mod_get_result (buf : list Z) (size : Z) : M (Z * list Z) :=
  finished ← get_exp_mod_done;
  if negb finished then mret (3, buf) else
  if negb (size =? 0x100) then mret (2, buf) else
  out ← se_get_exp_mod_output 0x100;
  clear_user_smc_in_progress ;;
  mret (0, splice buf 0 out).

Definition smc_crypt_aes_status_check (buf : list Z) (size : Z) : M (Z * list Z) :=
  finished ← get_crypt_aes_done;
  if negb finished then mret (3, buf) else
  clear_user_smc_in_progress ;;
  mret (0, buf).

Definition smc_unwrap_rsa_oaep_wrapped_titlekey_get_result (buf : list Z) (size : Z)
    : M (Z * list Z) :=
  finished ← get_exp_mod_done;
  if negb finished then mret (3, buf) else
  if negb (size =? 0x10) then mret (2, buf) else
  rsa_wrapped_titlekey ← se_get_exp_mod_output 0x100;
  r ← tkey_rsa_oaep_unwrap 0x10 rsa_wrapped_titlekey 0x100;
  let '(n, aes_wrapped_titlekey) := r : Z * list Z in
  if negb (n =? 0x10) then clear_user_smc_in_progress ;; mret (2, buf) else
  titlekey ← tkey_aes_unwrap 0x10 aes_wrapped_titlekey 0x10;
  sealed_titlekey ← seal_titlekey 0x10 titlekey 0x10;
  clear_user_smc_in_progress ;;
  mret (0, splice buf 0 sealed_titlekey).

(** The call through [g_smc_callback]. *)
Definition run_smc_callback (buf : list Z) (size : Z) : M (Z * list Z) :=
  cb ← gets (fun w => g_smc_callback (w_smc w));
  match cb with
  | Some smc_exp_mod_get_result_cb => smc_exp_mod_get_result buf size
  | Some smc_crypt_aes_status_check_cb => smc_crypt_aes_status_check buf size
  | Some smc_unwrap_rsa_oaep_wrapped_titlekey_get_result_cb =>
      smc_unwrap_rsa_oaep_wrapped_titlekey_get_result buf size
  | None => fault
  end.

(** ** Handlers *)

(** [(ConfigItem)X[1]] keeps the low 32 bits. *)
Definition smc_set_config_user (args : smc_args_t) : M handler_result :=
  r ← configitem_set false (u32 (X args 1)) (X args 3); mret (r, args).

(** [out_item] is the first word stored through [p_outvalue], 0 when none is. *)
Definition smc_get_config (privileged : bool) (args : smc_args_t) : M handler_result :=
  r ← configitem_get privileged (u32 (X args 1));
  mret (fst r, set_X args 1 (hd 0 (snd r))).
Definition smc_get_config_user (args : smc_args_t) : M handler_result := smc_get_config false args.
Definition smc_get_config_priv (args : smc_args_t) : M handler_result := smc_get_config true args.

Definition smc_check_status (args : smc_args_t) : M handler_result :=
  key ← smc_callback_key;
  if key =? 0 then mret (4, args) else
  if negb (X args 1 =? key) then mret (5, args) else
  r ← run_smc_callback [] 0;
  set_smc_callback_key 0 ;;
  mret (0, set_X args 1 (fst r)).

Definition smc_get_result (args : smc_args_t) : M handler_result :=
  let user_address := X args 2 in
  key ← smc_callback_key;
  if key =? 0 then mret (4, args) else
  if negb (X args 1 =? key) then mret (5, args) else
  if X args 3 >? 0x400 then mret (2, args) else
  r ← run_smc_callback (uninit_buf 0x400) (X args 3);
  let '(status, result_buf) := r : Z * list Z in
  let args := set_X args 1 status in
  set_smc_callback_key 0 ;;
  with_upage args user_address (fun page_ref =>
    ok ← secure_copy_to_user page_ref user_address result_buf (X args 3);
    if negb ok then mret (2, args) else mret (0, args)).

Definition smc_cpu_on (args : smc_args_t) : M handler_result :=
  r ← Cpu.cpu_on (u32 (X args 1)) (X args 2) (X args 3); mret (r, args).
Definition smc_cpu_off (args : smc_args_t) : M handler_result := r ← Cpu.cpu_off; mret (r, args).
Definition cpu_suspend_wrapper (args : smc_args_t) : M handler_result :=
  r ← Sc7.cpu_suspend (X args 1) (X args 2) (X args 3); mret (r, args).
Definition smc_cpu_suspend (args : smc_args_t) : M handler_result :=
  smc_wrapper_sync args cpu_suspend_wrapper.

Definition smc_get_random_bytes_for_priv (args : smc_args_t) : M handler_result :=
  acquired ← try_set_user_smc_in_progress;
  if negb acquired
  then if X args 1 >? 0x38 then mret (2, args)
       else bytes ← randomcache_getbytes (X args 1);
            mret (0, copy_to_X args 1 bytes)
  else r ← user_get_random_bytes args;
       randomcache_refill ;;
       clear_user_smc_in_progress ;;
       mret r.

Definition smc_read_write_register (args : smc_args_t) : M handler_result :=
  let address := X args 1 in
  let mask := u32 (X args 2) in
  let value := u32 (X args 3) in
  if negb (address .& 3 =? 0) then mret (2, args) else
  target ← (if is_pmc_address address then mret (pmc_target address)
            else fw ← exosphere_get_target_firmware; mret (mc_target fw address));
  match target : Z + Z with
  | inr code => mret (code, args)
  | inl p_mmio =>
      old_value ← (if mask =? 0xFFFFFFFF then mret 0 else reg_read p_mmio);
      (if negb (mask =? 0)
       then reg_write p_mmio ((old_value .& not32 mask) .| (value .& mask)) else mret tt) ;;
      mret (0, set_X args 1 old_value)
  end.

Definition configured_carveout (i : Z) : M bool :=
  gets (fun w => nth (Z.to_nat i) (g_configured_carveouts (w_smc w)) false).

Definition smc_configure_carveout (args : smc_args_t) : M handler_result :=
  let carveout_id := u32 (X args 1) in
  let address := X args 2 in
  let size := X args 3 in
  if size >? Mc.KERNEL_CARVEOUT_SIZE_MAX then mret (2, args) else
  if carveout_id >? 1 then mret (2, args) else
  fw ← exosphere_get_target_firmware;
  configured ← configured_carveout carveout_id;
  if (fw <? ATMOSPHERE_TARGET_FIRMWARE_300) && configured then mret (2, args) else
  Mc.configure_kernel_carveout (carveout_id + 4) address size ;;
  modify (fun w => w <| w_smc ::= fun s => s <| g_configured_carveouts ::= fun l =>
    <[Z.to_nat carveout_id := true]> l |> |>) ;;
  mret (0, args).

Definition smc_panic (args : smc_args_t) : M handler_result :=
  let color := ((X args 1 .& 0xF) <<. 8) .| (X args 1 .& 0xF0) .| ((X args 1 .& 0xF00) >>. 8) in
  panic (u32 (color <<. 20) .| 0x40).

(** The call through an entry's handler pointer. *)
Definition run_handler (h : smc_handler) (args : smc_args_t) : M handler_result :=
  match h with
  | smc_set_config_user_h => smc_set_config_user args
  | smc_get_config_user_h => smc_get_config_user args
  | smc_check_status_h => smc_check_status args
  | smc_get_result_h => smc_get_result args
  | smc_exp_mod_h => smc_wrapper_async args user_exp_mod smc_exp_mod_get_result_cb
  | smc_get_random_bytes_for_user_h => smc_wrapper_sync args user_get_random_bytes
  | smc_generate_aes_kek_h => smc_wrapper_sync args user_generate_aes_kek
  | smc_load_aes_key_h => smc_wrapper_sync args user_load_aes_key
  | smc_crypt_aes_h => smc_wrapper_async args user_crypt_aes smc_crypt_aes_status_check_cb
  | smc_generate_specific_aes_key_h => smc_wrapper_sync args user_generate_specific_aes_key
  | smc_compute_cmac_h => smc_wrapper_sync args user_compute_cmac
  | smc_load_rsa_oaep_key_h => smc_wrapper_sync args user_load_rsa_oaep_key
  | smc_decrypt_rsa_private_key_h => smc_wrapper_sync args user_decrypt_rsa_private_key
  | smc_load_secure_exp_mod_key_h => smc_wrapper_sync args user_load_secure_exp_mod_key
  | smc_secure_exp_mod_h => smc_wrapper_async args user_secure_exp_mod smc_exp_mod_get_result_cb
  | smc_unwrap_rsa_oaep_wrapped_titlekey_h =>
      smc_wrapper_async args user_unwrap_rsa_oaep_wrapped_titlekey
        smc_unwrap_rsa_oaep_wrapped_titlekey_get_result_cb
  | smc_load_titlekey_h => smc_wrapper_sync args user_load_titlekey
  | smc_unwrap_aes_wrapped_titlekey_h => smc_wrapper_sync args user_unwrap_aes_wrapped_titlekey
  | smc_encrypt_rsa_key_for_import_h => smc_wrapper_sync args user_encrypt_rsa_key_for_import
  | smc_decrypt_or_import_rsa_key_h => smc_wrapper_sync args user_decrypt_or_import_rsa_key
  | smc_cpu_suspend_h => smc_cpu_suspend args
  | smc_cpu_off_h => smc_cpu_off args
  | smc_cpu_on_h => smc_cpu_on args
  | smc_get_config_priv_h => smc_get_config_priv args
  | smc_get_random_bytes_for_priv_h => smc_get_random_bytes_for_priv args
  | smc_panic_h => smc_panic args
  | smc_configure_carveout_h => smc_configure_carveout args
  | smc_read_write_register_h => smc_read_write_register args
  | smc_ams_iram_copy_h => smc_wrapper_sync args AMS.ams_iram_copy
  | smc_ams_write_address_h => smc_wrapper_sync args AMS.ams_write_address
  | smc_ams_get_emummc_config_h => smc_wrapper_sync args AMS.ams_get_emummc_config
  end.

(** ** The dispatcher: the registers the caller sees *)

Definition call_smc_handler (handler_id : Z) (args : smc_args_t) : M smc_args_t :=
  if handler_id >=? SMC_HANDLER_COUNT then generic_panic else
  core ← get_core_id;
  let call_range := u8 ((X args 0 >>. 24) .& 0x3F) in
  let to_ams := (handler_id =? SMC_HANDLER_USER) && (call_range =? SMC_CALL_RANGE_TRUSTED_APP) in
  if (handler_id =? SMC_HANDLER_USER) && negb to_ams && negb (core =? 3) then generic_panic else
  let handler_id := if to_ams then SMC_HANDLER_AMS else handler_id in
  table ← gets (fun w => smc_table handler_id (w_smc w));
  let smc_id := u8 (X args 0) in
  match nth_error table (Z.to_nat smc_id) with
  | None => generic_panic
  | Some entry =>
      if negb (entry_id entry =? X args 0) then generic_panic else
      match entry_handler entry with
      | None => generic_panic
      | Some handler =>
          fw ← exosphere_get_target_firmware;
          blacklist ← gets (fun w => g_smc_blacklist_mask (w_smc w));
          if (fw <? ATMOSPHERE_TARGET_FIRMWARE_800) || (blacklist_mask entry .& blacklist =? 0)
          then r ← run_handler handler args;
               let '(result, args) := r : handler_result in
               mret (set_X args 0 result)
          else mret (set_X args 0 6)
      end
  end.

(** exceptions.s, FIQ: the Security Engine interrupt runs the driver's callback. *)
Definition fiq : M unit := Interrupt.handle_registered_interrupt run_se_callback.
End Ops.
End SmcApi.
