(* ===== verification/Package2.v ===== *)
(** package2.c: Security Engine setup at boot, and the validation and loading of
    package2.  DRAM is identity-mapped while this code runs. *)
From S2P Require Import Prelude State Utils Se Pages Config Keys Power.
Import SE ConfigItem BootConfig MasterKey.

Module Package2.

(** exocfg.h: the restrictions are loosened in this configuration. *)
Definition EXOSPHERE_LOOSEN_PACKAGE2_RESTRICTIONS_FOR_DEBUG : bool := true.

Definition NX_BOOTLOADER_PACKAGE2_LOAD_ADDRESS := 0xA9800000.
Definition DRAM_BASE_PHYSICAL := 0x80000000.
Definition MAGIC_PK21 := 0x31324B50.
Definition PACKAGE2_SIZE_MAX := 0x7FC000.
Definition PACKAGE2_SECTION_MAX := 3.
Definition PACKAGE2_MINVER_THEORETICAL := 0.
Definition PACKAGE2_MAXVER_900_CURRENT := 0xC.
Definition package2_header_size := 0x200.

Definition new_device_key_sources : list (list Z) :=
  [[0x8B; 0x4E; 0x1C; 0x22; 0x42; 0x07; 0xC8; 0x73; 0x56; 0x94; 0x08; 0x8B; 0xCC; 0x47; 0x0F; 0x5D];
   [0x6C; 0xEF; 0xC6; 0x27; 0x8B; 0xEC; 0x8A; 0x91; 0x99; 0xAB; 0x24; 0xAC; 0x4F; 0x1C; 0x8F; 0x1C];
   [0x70; 0x08; 0x1B; 0x97; 0x44; 0x64; 0xF8; 0x91; 0x54; 0x9D; 0xC6; 0x84; 0x8F; 0x1A; 0xB2; 0xE4];
   [0x8E; 0x09; 0x1F; 0x7A; 0xBB; 0xCA; 0x6A; 0xFB; 0xB8; 0x9B; 0xD5; 0xC1; 0x25; 0x9C; 0xA9; 0x17];
   [0x8F; 0x77; 0x5A; 0x96; 0xB0; 0x94; 0xFD; 0x8D; 0x28; 0xE4; 0x19; 0xC8; 0x16; 0x1C; 0xDB; 0x3D];
   [0x67; 0x62; 0xD4; 0x8E; 0x55; 0xCF; 0xFF; 0x41; 0x31; 0x15; 0x3B; 0x24; 0x0C; 0x7C; 0x07; 0xAE];
   [0x4A; 0xC3; 0x4E; 0x14; 0x8B; 0x96; 0x4A; 0xD5; 0xD4; 0x99; 0x73; 0xC4; 0x45; 0xAB; 0x8B; 0x49]].

Definition new_device_keygen_sources : list (list Z) :=
  [[0x88; 0x62; 0x34; 0x6E; 0xFA; 0xF7; 0xD8; 0x3F; 0xE1; 0x30; 0x39; 0x50; 0xF0; 0xB7; 0x5D; 0x5D];
   [0x06; 0x1E; 0x7B; 0xE9; 0x6D; 0x47; 0x8C; 0x77; 0xC5; 0xC8; 0xE7; 0x94; 0x9A; 0xA8; 0x5F; 0x2E];
   [0x99; 0xFA; 0x98; 0xBD; 0x15; 0x1C; 0x72; 0xFD; 0x7D; 0x9A; 0xD5; 0x41; 0x00; 0xFD; 0xB2; 0xEF];
   [0x81; 0x3C; 0x6C; 0xBF; 0x5D; 0x21; 0xDE; 0x77; 0x20; 0xD9; 0x6C; 0xE3; 0x22; 0x06; 0xAE; 0xBB];
   [0x86; 0x61; 0xB0; 0x16; 0xFA; 0x7A; 0x9A; 0xEA; 0xF6; 0xF5; 0xBE; 0x1A; 0x13; 0x5B; 0x6D; 0x9E];
   [0xA6; 0x81; 0x71; 0xE7; 0xB5; 0x23; 0x74; 0xB0; 0x39; 0x8C; 0xB7; 0xFF; 0xA0; 0x62; 0x9F; 0x8D];
   zeros 16].

Definition new_device_keygen_sources_dev : list (list Z) :=
  [[0xD6; 0xBD; 0x9F; 0xC6; 0x18; 0x09; 0xE1; 0x96; 0x20; 0x39; 0x60; 0xD2; 0x89; 0x83; 0x31; 0x34];
   [0x59; 0x2D; 0x20; 0x69; 0x33; 0xB5; 0x17; 0xBA; 0xCF; 0xB1; 0x4E; 0xFD; 0xE4; 0xC2; 0x7B; 0xA8];
   [0xF6; 0xD8; 0x59; 0x63; 0x8F; 0x47; 0xCB; 0x4A; 0xD8; 0x74; 0x05; 0x7F; 0x88; 0x92; 0x33; 0xA5];
   [0x20; 0xAB; 0xF2; 0x0F; 0x05; 0xE3; 0xDE; 0x2E; 0xA1; 0xFB; 0x37; 0x5E; 0x8B; 0x22; 0x1A; 0x38];
   [0x60; 0xAE; 0x56; 0x68; 0x11; 0xE2; 0x0C; 0x99; 0xDE; 0x05; 0xAE; 0x68; 0x78; 0x85; 0x04; 0xAE];
   [0x94; 0xD6; 0xA8; 0xC0; 0x95; 0xAF; 0xD0; 0xA6; 0x27; 0x53; 0x5E; 0xE5; 0x8E; 0x70; 0x1F; 0x87];
   zeros 16].

Definition package2_key_source : list Z :=
  [0xFB; 0x8B; 0x6A; 0x9C; 0x79; 0x00; 0xC8; 0x49; 0xEF; 0xD2; 0x4D; 0x85; 0x4D; 0x30; 0xA0; 0xC7].

Definition package2_modulus_retail : list Z :=
  [0x8D; 0x13; 0xA7; 0x77; 0x6A; 0xE5; 0xDC; 0xC0; 0x3B; 0x25; 0xD0; 0x58; 0xE4; 0x20; 0x69; 0x59;
   0x55; 0x4B; 0xAB; 0x70; 0x40; 0x08; 0x28; 0x07; 0xA8; 0xA7; 0xFD; 0x0F; 0x31; 0x2E; 0x11; 0xFE;
   0x47; 0xA0; 0xF9; 0x9D; 0xDF; 0x80; 0xDB; 0x86; 0x5A; 0x27; 0x89; 0xCD; 0x97; 0x6C; 0x85; 0xC5;
   0x6C; 0x39; 0x7F; 0x41; 0xF2; 0xFF; 0x24; 0x20; 0xC3; 0x95; 0xA6; 0xF7; 0x9D; 0x4A; 0x45; 0x74;
   0x8B; 0x5D; 0x28; 0x8A; 0xC6; 0x99; 0x35; 0x68; 0x85; 0xA5; 0x64; 0x32; 0x80; 0x9F; 0xD3; 0x48;
   0x39; 0xA2; 0x1D; 0x24; 0x67; 0x69; 0xDF; 0x75; 0xAC; 0x12; 0xB5; 0xBD; 0xC3; 0x29; 0x90; 0xBE;
   0x37; 0xE4; 0xA0; 0x80; 0x9A; 0xBE; 0x36; 0xBF; 0x1F; 0x2C; 0xAB; 0x2B; 0xAD; 0xF5; 0x97; 0x32;
   0x9A; 0x42; 0x9D; 0x09; 0x8B; 0x08; 0xF0; 0x63; 0x47; 0xA3; 0xE9; 0x1B; 0x36; 0xD8; 0x2D; 0x8A;
   0xD7; 0xE1; 0x54; 0x11; 0x95; 0xE4; 0x45; 0x88; 0x69; 0x8A; 0x2B; 0x35; 0xCE; 0xD0; 0xA5; 0x0B;
   0xD5; 0x5D; 0xAC; 0xDB; 0xAF; 0x11; 0x4D; 0xCA; 0xB8; 0x1E; 0xE7; 0x01; 0x9E; 0xF4; 0x46; 0xA3;
   0x8A; 0x94; 0x6D; 0x76; 0xBD; 0x8A; 0xC8; 0x3B; 0xD2; 0x31; 0x58; 0x0C; 0x79; 0xA8; 0x26; 0xE9;
   0xD1; 0x79; 0x9C; 0xCB; 0xD4; 0x2B; 0x6A; 0x4F; 0xC6; 0xCC; 0xCF; 0x90; 0xA7; 0xB9; 0x98; 0x47;
   0xFD; 0xFA; 0x4C; 0x6C; 0x6F; 0x81; 0x87; 0x3B; 0xCA; 0xB8; 0x50; 0xF6; 0x3E; 0x39; 0x5D; 0x4D;
   0x97; 0x3F; 0x0F; 0x35; 0x39; 0x53; 0xFB; 0xFA; 0xCD; 0xAB; 0xA8; 0x7A; 0x62; 0x9A; 0x3F; 0xF2;
   0x09; 0x27; 0x96; 0x3F; 0x07; 0x9A; 0x91; 0xF7; 0x16; 0xBF; 0xC6; 0x3A; 0x82; 0x5A; 0x4B; 0xCF;
   0x49; 0x50; 0x95; 0x8C; 0x55; 0x80; 0x7E; 0x39; 0xB1; 0x48; 0x05; 0x1E; 0x21; 0xC7; 0x24; 0x4F].

Definition package2_modulus_dev : list Z :=
  [0xB3; 0x65; 0x54; 0xFB; 0x0A; 0xB0; 0x1E; 0x85; 0xA7; 0xF6; 0xCF; 0x91; 0x8E; 0xBA; 0x96; 0x99;
   0x0D; 0x8B; 0x91; 0x69; 0x2A; 0xEE; 0x01; 0x20; 0x4F; 0x34; 0x5C; 0x2C; 0x4F; 0x4E; 0x37; 0xC7;
   0xF1; 0x0B; 0xD4; 0xCD; 0xA1; 0x7F; 0x93; 0xF1; 0x33; 0x59; 0xCE; 0xB1; 0xE9; 0xDD; 0x26; 0xE6;
   0xF3; 0xBB; 0x77; 0x87; 0x46; 0x7A; 0xD6; 0x4E; 0x47; 0x4A; 0xD1; 0x41; 0xB7; 0x79; 0x4A; 0x38;
   0x06; 0x6E; 0xCF; 0x61; 0x8F; 0xCD; 0xC1; 0x40; 0x0B; 0xFA; 0x26; 0xDC; 0xC0; 0x34; 0x51; 0x83;
   0xD9; 0x3B; 0x11; 0x54; 0x3B; 0x96; 0x27; 0x32; 0x9A; 0x95; 0xBE; 0x1E; 0x68; 0x11; 0x50; 0xA0;
   0x6B; 0x10; 0xA8; 0x83; 0x8B; 0xF5; 0xFC; 0xBC; 0x90; 0x84; 0x7A; 0x5A; 0x5C; 0x43; 0x52; 0xE6;
   0xC8; 0x26; 0xE9; 0xFE; 0x06; 0xA0; 0x8B; 0x53; 0x0F; 0xAF; 0x1E; 0xC4; 0x1C; 0x0B; 0xCF; 0x50;
   0x1A; 0xA4; 0xF3; 0x5C; 0xFB; 0xF0; 0x97; 0xE4; 0xDE; 0x32; 0x0A; 0x9F; 0xE3; 0x5A; 0xAA; 0xB7;
   0x44; 0x7F; 0x5C; 0x33; 0x60; 0xB9; 0x0F; 0x22; 0x2D; 0x33; 0x2A; 0xE9; 0x69; 0x79; 0x31; 0x42;
   0x8F; 0xE4; 0x3A; 0x13; 0x8B; 0xE7; 0x26; 0xBD; 0x08; 0x87; 0x6C; 0xA6; 0xF2; 0x73; 0xF6; 0x8E;
   0xA7; 0xF2; 0xFE; 0xFB; 0x6C; 0x28; 0x66; 0x0D; 0xBD; 0xD7; 0xEB; 0x42; 0xA8; 0x78; 0xE6; 0xB8;
   0x6B; 0xAE; 0xC7; 0xA9; 0xE2; 0x40; 0x6E; 0x89; 0x20; 0x82; 0x25; 0x8E; 0x3C; 0x6A; 0x60; 0xD7;
   0xF3; 0x56; 0x8E; 0xEC; 0x8D; 0x51; 0x8A; 0x63; 0x3C; 0x04; 0x78; 0x23; 0x0E; 0x90; 0x0C; 0xB4;
   0xE7; 0x86; 0x3B; 0x4F; 0x8E; 0x13; 0x09; 0x47; 0x32; 0x0E; 0x04; 0xB8; 0x4D; 0x5B; 0xB0; 0x46;
   0x71; 0xB0; 0x5C; 0xF4; 0xAD; 0x63; 0x4F; 0xC5; 0xE2; 0xAC; 0x1E; 0xC4; 0x33; 0x96; 0x09; 0x7B].

(** [package2_meta_t], as its 0x100 bytes. *)
Definition meta_ctr (md : list Z) : list Z := slice md 0 0x10.
Definition meta_ctr_dword (md : list Z) (i : Z) : Z := read32le md (4 * i).
Definition meta_section_ctr (md : list Z) (section : Z) : list Z := slice md (0x10 + 0x10 * section) 0x10.
Definition meta_magic (md : list Z) : Z := read32le md 0x50.
Definition meta_entrypoint (md : list Z) : Z := read32le md 0x54.
Definition meta_version_max (md : list Z) : Z := byte_at md 0x5C.
Definition meta_version_min (md : list Z) : Z := byte_at md 0x5D.
Definition meta_section_size (md : list Z) (section : Z) : Z := read32le md (0x60 + 4 * section).
Definition meta_section_offset (md : list Z) (section : Z) : Z := read32le md (0x70 + 4 * section).
Definition meta_section_hash (md : list Z) (section : Z) : list Z := slice md (0x80 + 0x20 * section) 0x20.

Definition get_package2_size (md : list Z) : Z :=
  meta_ctr_dword md 0 .^ meta_ctr_dword md 2 .^ meta_ctr_dword md 3.
Definition header_version (md : list Z) : Z :=
  (meta_ctr_dword md 1 .^ (meta_ctr_dword md 1 >>. 16) .^ (meta_ctr_dword md 1 >>. 24)) .& 0xFF.

(** utils.h: [check_32bit_additive_overflow]. *)
Definition check_32bit_additive_overflow (a b : Z) : bool := negb (u32 (a + b) =? a + b).

Definition section_end (md : list Z) (section : Z) : Z :=
  u32 (meta_section_offset md section + meta_section_size md section).

(** The checks before the section loop; [true] when none fails.  The three
    sizes are added at 32 bits, the header's size at 64. *)
Definition header_checks (md : list Z) : bool :=
  (meta_magic md =? MAGIC_PK21)
  && negb ((get_package2_size md <=? package2_header_size)
           || (get_package2_size md >? PACKAGE2_SIZE_MAX))
  && negb (header_version md >? MASTERKEY_REVISION_MAX)
  && (meta_entrypoint md .& 3 =? 0)
  && (u32 (meta_section_size md 0 + meta_section_size md 1 + meta_section_size md 2)
        + package2_header_size =? get_package2_size md).

(** [true] when [section] overlaps a later section. *)
Definition overlaps_later (md : list Z) (section : Z) : bool :=
  negb (meta_section_size md section =? 0)
  && existsb (fun later =>
       negb (meta_section_size md later =? 0)
       && overlaps (meta_section_offset md section) (section_end md section)
            (meta_section_offset md later) (section_end md later))
     (seqZ (section + 1) (PACKAGE2_SECTION_MAX - (section + 1))).

(** The checks of one section other than its hash. *)
Definition section_checks (md : list Z) (section : Z) : bool :=
  (meta_section_size md section .& 3 =? 0)
  && negb (check_32bit_additive_overflow (meta_section_offset md section) (meta_section_size md section))
  && negb (overlaps_later md section).

Definition section_has_entrypoint (md : list Z) (section : Z) : bool :=
  (meta_section_offset md section <=? meta_entrypoint md) && (meta_entrypoint md <? section_end md section).

Section Ops.
Context {soc : SoC}.

(** ** Key derivation *)

(** The loop of [derive_new_device_keys], with its [break]. *)
Fixpoint derive_loop (n : nat) (revision keygen_keyslot : Z) (is_retail : bool) : M unit :=
  match n with
  | O => mret tt
  | S n' =>
      let relative_revision := revision + MASTERKEY_REVISION_400_410 in
      work_buffer ← se_aes_ecb_decrypt_block keygen_keyslot 0x10
                      (key_at new_device_key_sources revision) 0x10;
      mkey0 ← mkey_get_keyslot 0;
      decrypt_data_into_keyslot KEYSLOT_SWITCH_TEMPKEY mkey0
        (if is_retail then key_at new_device_keygen_sources revision
         else key_at new_device_keygen_sources_dev revision) 0x10 ;;
      cur ← mkey_get_revision;
      if relative_revision >? cur then mret tt
      else
      (if relative_revision =? cur
       then fw ← exosphere_get_target_firmware;
            if fw <? ATMOSPHERE_TARGET_FIRMWARE_700
            then decrypt_data_into_keyslot KEYSLOT_SWITCH_DEVICEKEY KEYSLOT_SWITCH_TEMPKEY work_buffer 0x10
            else mret tt
       else work_buffer ← se_aes_ecb_decrypt_block KEYSLOT_SWITCH_TEMPKEY 0x10 work_buffer 0x10;
            set_old_devkey relative_revision work_buffer) ;;
      derive_loop n' (revision + 1) keygen_keyslot is_retail
  end.

Definition derive_new_device_keys (keygen_keyslot : Z) : M unit :=
  is_retail ← configitem_is_retail;
  derive_loop (Z.to_nat MASTERKEY_NUM_NEW_DEVICE_KEYS) 0 keygen_keyslot is_retail ;;
  set_aes_keyslot_flags KEYSLOT_SWITCH_DEVICEKEY 0xFF ;;
  clear_aes_keyslot keygen_keyslot.

(** A random block, decrypted with the device key into [keyslot], which is
    then locked. *)
Definition setup_random_key (keyslot : Z) : M unit :=
  work_buffer ← se_generate_random KEYSLOT_SWITCH_DEVICEKEY (zeros 0x10) 0x10;
  decrypt_data_into_keyslot keyslot KEYSLOT_SWITCH_DEVICEKEY work_buffer 0x10 ;;
  set_aes_keyslot_flags keyslot 0xFF.

Definition setup_se : M unit :=
  se_verify_flags_cleared ;;
  Interrupt.intr_initialize_gic_nonsecure ;;
  (v ← se_read R_0x0; se_write R_0x0 (v .& 0xFFFEFFFF)) ;;
  se_write 0x4 0 ;;
  se_write AES_KEY_READ_DISABLE_REG 0 ;;
  se_write RSA_KEY_READ_DISABLE_REG 0 ;;
  (v ← se_read R_0x0; se_write R_0x0 (v .& 0xFFFFFFFB)) ;;
  for_each (range KEYSLOT_AES_MAX) (fun i => set_aes_keyslot_flags i 0x15) ;;
  for_each (seqZ 4 (KEYSLOT_AES_MAX - 4)) (fun i => set_aes_keyslot_flags i 0x40) ;;
  for_each (range KEYSLOT_RSA_MAX) (fun i => set_rsa_keyslot_flags i 0x41) ;;
  mkey_detect_revision ;;
  fw ← exosphere_get_target_firmware;
  (if fw =? ATMOSPHERE_TARGET_FIRMWARE_400
   then derive_new_device_keys KEYSLOT_SWITCH_4XNEWDEVICEKEYGENKEY
   else if (ATMOSPHERE_TARGET_FIRMWARE_500 <=? fw) && (fw <=? ATMOSPHERE_TARGET_FIRMWARE_900)
   then derive_new_device_keys KEYSLOT_SWITCH_5XNEWDEVICEKEYGENKEY
   else mret tt) ;;
  se_initialize_rng KEYSLOT_SWITCH_DEVICEKEY ;;
  setup_random_key KEYSLOT_SWITCH_RNGKEY ;;
  setup_random_key KEYSLOT_SWITCH_SESSIONKEY ;;
  se_generate_stored_vector.

(** [bootconfig_ptr] is in IRAM: the three parts of [bootconfig_t] in order. *)
Definition load_bootconfig_t (pa : Z) : M bootconfig_t :=
  a ← phys_load pa 0x200;
  b ← phys_load (pa + 0x200) 0x100;
  c ← phys_load (pa + 0x300) 0x100;
  mret (mk_bootconfig a b c).

Definition setup_boot_config : M unit :=
  retail ← configitem_is_retail;
  if (retail : bool) then bootconfig_clear else
  fw ← exosphere_get_target_firmware;
  bc ← load_bootconfig_t (if fw >=? ATMOSPHERE_TARGET_FIRMWARE_600 then 0x4003F800 else 0x4003D000);
  BootConfigLoad.bootconfig_load_and_verify bc.

(** ** Validation *)

Definition package2_crypt_ctr (master_key_rev : Z) (dst : list Z) (dst_size : Z) (src : list Z)
    (src_size : Z) (ctr : list Z) (ctr_size : Z) : M (list Z) :=
  keyslot ← mkey_get_keyslot master_key_rev;
  decrypt_data_into_keyslot KEYSLOT_SWITCH_PACKAGE2KEY keyslot package2_key_source 0x10 ;;
  se_aes_ctr_crypt KEYSLOT_SWITCH_PACKAGE2KEY dst dst_size src src_size ctr ctr_size.

Definition verify_header_signature (signature encrypted_header : list Z) : M unit :=
  retail ← configitem_is_retail;
  let modulus := if (retail : bool) then package2_modulus_retail else package2_modulus_dev in
  is_unsigned ← (if EXOSPHERE_LOOSEN_PACKAGE2_RESTRICTIONS_FOR_DEBUG then mret true
                 else bootconfig_is_package2_unsigned);
  if (is_unsigned : bool) then mret tt else
  ok ← se_rsa2048_pss_verify signature 0x100 modulus 0x100 encrypted_header 0x100;
  if negb ok then panic 0xF0000001 else mret tt.

(** The section loop from [section] on, with [entrypoint_found] and
    [cur_section_offset]; [None] is [return false]. *)
Fixpoint section_loop (n : nat) (md : list Z) (section : Z) (found : bool) (cur_off : Z)
    : M (option bool) :=
  match n with
  | O => mret (Some found)
  | S n' =>
      if negb (section_checks md section) then mret None else
      let found := found || section_has_entrypoint md section in
      let size := meta_section_size md section in
      if negb (size =? 0)
      then section_data ← phys_load (NX_BOOTLOADER_PACKAGE2_LOAD_ADDRESS + package2_header_size + cur_off) size;
           calculated_hash ← se_calculate_sha256 section_data size;
           if negb EXOSPHERE_LOOSEN_PACKAGE2_RESTRICTIONS_FOR_DEBUG
              && negb (bool_decide (calculated_hash = meta_section_hash md section))
           then mret None
           else section_loop n' md (section + 1) found (cur_off + size)
      else section_loop n' md (section + 1) found cur_off
  end.

Definition validate_package2_metadata (md : list Z) : M bool :=
  if negb (header_checks md) then mret false else
  r ← section_loop (Z.to_nat PACKAGE2_SECTION_MAX) md 0 false 0;
  match r : option bool with
  | None => mret false
  | Some entrypoint_found =>
      if negb entrypoint_found then mret false
      else mret ((meta_version_max md >=? PACKAGE2_MINVER_THEORETICAL)
                 && (meta_version_min md <? PACKAGE2_MAXVER_900_CURRENT))
  end.

(** The search for a master key that decrypts the header: the revision and the
    decrypted metadata. *)
Fixpoint decrypt_header_loop (n : nat) (mkey_rev : Z) (md : list Z) : M (option (Z * list Z)) :=
  match n with
  | O => mret None
  | S n' =>
      dec ← package2_crypt_ctr mkey_rev (zeros 0x100) 0x100 md 0x100 (meta_ctr md) 0x10;
      let dec := splice dec 0 (meta_ctr md) in
      ok ← validate_package2_metadata dec;
      if (ok : bool) then mret (Some (mkey_rev, dec)) else decrypt_header_loop n' (mkey_rev + 1) md
  end.

(** The C result and the header's metadata after the call. *)
Definition decrypt_and_validate_header (md : list Z) : M (Z * list Z) :=
  plaintext ← bootconfig_is_package2_plaintext;
  if negb plaintext
  then cur ← mkey_get_revision;
       r ← decrypt_header_loop (Z.to_nat (cur + 1)) 0 md;
       match r : option (Z * list Z) with
       | Some (rev, dec) => mret (rev, dec)
       | None => panic 0xFAF00003
       end
  else ok ← validate_package2_metadata md;
       if negb ok then panic 0xFAF0003 else mret (0, md).

(** ** Loading *)

(** Whether a section meets [lo, hi) in DRAM. *)
Definition any_section_overlaps (md : list Z) (lo hi : Z) : bool :=
  existsb (fun section =>
    let section_start := DRAM_BASE_PHYSICAL + meta_section_offset md section in
    overlaps section_start (section_start + meta_section_size md section) lo hi)
  (range PACKAGE2_SECTION_MAX).

(** The search of at most [n] candidate windows for a safe one. *)
Fixpoint find_safe_carveout (n : nat) (md : list Z) (potential_base_start : Z) : option Z :=
  match n with
  | O => None
  | S n' =>
      if any_section_overlaps md potential_base_start (potential_base_start + PACKAGE2_SIZE_MAX)
      then find_safe_carveout n' md (potential_base_start + PACKAGE2_SIZE_MAX)
      else Some potential_base_start
  end.

Definition load_one_section (md : list Z) (master_key_rev load_buf : Z) (cur_section_offset section : Z)
    : M Z :=
  let size := meta_section_size md section in
  if size =? 0 then mret cur_section_offset else
  let dst_start := DRAM_BASE_PHYSICAL + meta_section_offset md section in
  let src_start := load_buf + package2_header_size + cur_section_offset in
  plaintext ← bootconfig_is_package2_plaintext;
  (if (plaintext : bool) then phys_memcpy dst_start src_start size
   else dst ← phys_load dst_start size;
        src ← phys_load src_start size;
        out ← package2_crypt_ctr master_key_rev dst size src size (meta_section_ctr md section) 0x10;
        phys_store dst_start out) ;;
  mret (cur_section_offset + size).

Definition load_package2_sections (md : list Z) (master_key_rev : Z) : M unit :=
  load_buf ← (if any_section_overlaps md NX_BOOTLOADER_PACKAGE2_LOAD_ADDRESS
                   (NX_BOOTLOADER_PACKAGE2_LOAD_ADDRESS + PACKAGE2_SIZE_MAX)
              then match find_safe_carveout 8 md DRAM_BASE_PHYSICAL with
                   | None => generic_panic
                   | Some base =>
                       phys_memcpy base NX_BOOTLOADER_PACKAGE2_LOAD_ADDRESS PACKAGE2_SIZE_MAX ;;
                       phys_memset NX_BOOTLOADER_PACKAGE2_LOAD_ADDRESS 0 PACKAGE2_SIZE_MAX ;;
                       mret base
                   end
              else mret NX_BOOTLOADER_PACKAGE2_LOAD_ADDRESS);
  fold_m (load_one_section md master_key_rev load_buf) 0 (range PACKAGE2_SECTION_MAX) ;;
  phys_memset load_buf 0 PACKAGE2_SIZE_MAX.

Definition copy_warmboot_bin_to_dram : M unit :=
  fw ← exosphere_get_target_firmware;
  warmboot_src ← (if (fw =? ATMOSPHERE_TARGET_FIRMWARE_400) || (fw =? ATMOSPHERE_TARGET_FIRMWARE_500)
                  then mret 0x4003B000
                  else if (fw =? ATMOSPHERE_TARGET_FIRMWARE_600) || (fw =? ATMOSPHERE_TARGET_FIRMWARE_620)
                  then mret 0x4003D800
                  else if (ATMOSPHERE_TARGET_FIRMWARE_700 <=? fw) && (fw <=? ATMOSPHERE_TARGET_FIRMWARE_900)
                  then mret 0x4003E000
                  else generic_panic);
  phys_memcpy 0x8000D000 warmboot_src 0x2000.

Definition MAILBOX_NX_BOOTLOADER_BASE (fw : Z) : Z :=
  MMIO_GET_DEVICE_ADDRESS 13 + (if fw >=? ATMOSPHERE_TARGET_FIRMWARE_700 then 0 else 0xE00).

(** The mailbox word is unsigned, and so is the comparison. *)
Fixpoint sync_loop (fuel : nat) (a state : Z) : M unit :=
  match fuel with
  | O => spin
  | S n => v ← reg_read a; if v <? state then wait 100 ;; sync_loop n a state else mret tt
  end.
Definition sync_with_nx_bootloader (state : Z) : M unit :=
  fw ← exosphere_get_target_firmware;
  sync_loop soc_fuel (MAILBOX_NX_BOOTLOADER_BASE fw + 0xF8) state.

Definition get_pk2ldr_stack_address : Z := TZRAM_GET_SEGMENT_ADDRESS 1 + 0x2000.

(** [load_package2] from the read of the header to the entry point. *)
Definition load_package2_image : M unit :=
  signature ← phys_load NX_BOOTLOADER_PACKAGE2_LOAD_ADDRESS 0x100;
  metadata ← phys_load (NX_BOOTLOADER_PACKAGE2_LOAD_ADDRESS + 0x100) 0x100;
  (if forallb (Z.eqb 0) signature && (meta_magic metadata =? MAGIC_PK21)
   then bootconfig_set_package2_plaintext_and_unsigned else mret tt) ;;
  verify_header_signature signature metadata ;;
  r ← decrypt_and_validate_header metadata;
  let '(package2_mkey_rev, metadata) := r : Z * list Z in
  recovery ← bootconfig_is_recovery_boot;
  (if (recovery : bool)
   then package2 ← phys_load NX_BOOTLOADER_PACKAGE2_LOAD_ADDRESS (get_package2_size metadata);
        bootconfig_set_package2_hash_for_recovery package2 (get_package2_size metadata)
   else mret tt) ;;
  load_package2_sections metadata package2_mkey_rev ;;
  Cpu.set_core_entrypoint_and_argument 0 (DRAM_BASE_PHYSICAL + meta_entrypoint metadata) 0.
End Ops.
End Package2.
