(* ===== verification/Bootup.v ===== *)
(** The boot paths of the monitor: bootup.c, warmboot_init.c, warmboot_main.c,
    coldboot_main.c and [load_package2] of package2.c as a whole. *)
From S2P Require Import Prelude State Utils Se PageTables Pages Config Keys Power SmcUser SmcApi Package2.
Import SE PageTables.

Module Bootup.
Import Mc Car I2c Uart Interrupt Cpu ConfigItem.

(** ** Registers *)

(** bootup.h: the slaves of the APB security registers. *)
Definition APB_SSER0_SATA_AUX := BIT 2.
Definition APB_SSER0_DTV := BIT 6.
Definition APB_SSER0_QSPI := BIT 9.
Definition APB_SSER0_PMC := BIT 13.
Definition APB_SSER0_SE := BIT 14.
Definition APB_SSER0_SATA := BIT 20.
Definition APB_SSER0_LA := BIT 22.
Definition APB_SSER1_MC0 := BIT 4.
Definition APB_SSER1_MC1 := BIT 8.
Definition APB_SSER1_MCB := BIT 10.
Definition APB_SSER1_UART_B := BIT 13.
Definition APB_SSER1_UART_C := BIT 14.
Definition APB_SSER1_SPI1 := BIT 20.
Definition APB_SSER1_SPI2 := BIT 21.
Definition APB_SSER1_SPI3 := BIT 22.
Definition APB_SSER1_SPI4 := BIT 23.
Definition APB_SSER1_SPI5 := BIT 24.
Definition APB_SSER1_SPI6 := BIT 25.
Definition APB_SSER1_I2C3 := BIT 28.
Definition APB_SSER1_I2C4 := BIT 29.
Definition APB_SSER1_I2C6 := BIT 31.
Definition APB_SSER2_SDMMC1 := BIT 0.
Definition APB_SSER2_SDMMC3 := BIT 2.
Definition APB_SSER2_DDS := BIT 8.
Definition APB_SSER2_DP2 := BIT 9.

(** misc.h, mc.h, sysreg.h, sysctr0.h, timers.h, bpmp.h, pmc.h and car.h. *)
Definition APB_MISC_SECURE_REGS_APB_SLAVE_SECURITY_ENABLE_REG0_0 : Z := MISC_BASE + 0xC00.
Definition APB_MISC_SECURE_REGS_APB_SLAVE_SECURITY_ENABLE_REG1_0 : Z := MISC_BASE + 0xC04.
Definition APB_MISC_SECURE_REGS_APB_SLAVE_SECURITY_ENABLE_REG2_0 : Z := MISC_BASE + 0xC08.
Definition mc_write (n v : Z) : M unit := reg_write (MC_BASE + n) v.
Definition MC_SECURITY_CFG3 := 0x9BC.
Definition MC_IRAM_BOM := 0x65C.
Definition MC_IRAM_TOM := 0x660.
Definition MC_IRAM_REG_CTRL := 0x964.
Definition SYSREG_BASE : Z := MMIO_GET_DEVICE_ADDRESS MMIO_DEVID_SYSREGS.
Definition SB_CSR_0 : Z := SYSREG_BASE + 0x200.
Definition SB_AA64_RESET_LOW_0 : Z := SYSREG_BASE + 0x230.
Definition SB_AA64_RESET_HIGH_0 : Z := SYSREG_BASE + 0x234.
Definition SYSCTR0_BASE : Z := MMIO_GET_DEVICE_ADDRESS 8.
Definition SHARED_TIMER_SECURE_CFG_0 : Z := TIMERS_BASE + 0x1A4.
Definition EVP_CPU_RESET_VECTOR_0 : Z := BPMP_VECTOR_BASE + 0x100.
Definition BPMP_MITIGATION_RESET_VAL := 0x7D000000.
Definition APBDEV_PMC_SECURE_SCRATCH34_0 : Z := PMC_BASE + 0x368.
Definition APBDEV_PMC_SECURE_SCRATCH35_0 : Z := PMC_BASE + 0x36C.
Definition APBDEV_PMC_SEC_DISABLE3_0 : Z := PMC_BASE + 0x2D8.
Definition CLK_RST_CONTROLLER_LVL2_CLK_GATE_OVRD_0 : Z := CAR_BASE + 0x3A4.
Definition INTERRUPT_ID_SECURITY_ENGINE := 0x5A.
Definition INTERRUPT_ID_ACTIVITY_MONITOR_4X := 0x4D.
Definition INTERRUPT_ID_1C := 0x1C.

(** [SET_SYSREG]; SPSR_EL3 is among the registers a core context saves. *)
Definition set_sysreg (r : sysreg) (v : Z) : M unit :=
  modify (fun w => w <| w_boot ::= fun b =>
    b <| boot_sysregs ::= fun f r' => if decide (r' = r) then v else f r' |> |>).
Definition set_spsr_el3 (v : Z) : M unit :=
  modify (fun w => w <| w_cpu ::= fun s => s <| cpu_sysregs ::= fun l => <[10%nat := v]> l |> |>).

Section Ops.
Context {soc : SoC}.

(** ** bootup.c *)

(** The caches are coherent: a DRAM write is a write of its bytes. *)
Definition dram_write32 (a v : Z) : M unit := phys_store a (le_bytes 4 v).

Definition setup_dram_magic_numbers : M unit :=
  target_fw ← exosphere_get_target_firmware;
  dram_write32 0x8005FFFC 0xC0EDBBCC ;;
  if ATMOSPHERE_TARGET_FIRMWARE_600 <=? target_fw
  then dram_write32 0x8005FF00 0x00000083 ;;
       dram_write32 0x8005FF04 0x00000002 ;;
       dram_write32 0x8005FF08 0x00000210
  else mret tt.

(** [bootup_misc_mmio] from the start to the writes of the random keys. *)
Definition bootup_security_engine : M unit :=
  Fuse.fuse_init ;;
  se_set_in_context_save_mode false ;;
  se_validate_stored_vector ;;
  for_each (range KEYSLOT_SWITCH_SESSIONKEY) clear_aes_keyslot ;;
  for_each (range KEYSLOT_RSA_MAX) clear_rsa_keyslot ;;
  se_initialize_rng KEYSLOT_SWITCH_RNGKEY ;;
  se_generate_random_key KEYSLOT_SWITCH_SRKGENKEY KEYSLOT_SWITCH_RNGKEY ;;
  se_generate_srk KEYSLOT_SWITCH_SRKGENKEY.

(** The carveouts of the memory controller. *)
Definition bootup_carveouts : M unit :=
  mc_write 0x984 1 ;;
  mc_write 0x988 0 ;;
  mc_write 0x648 0 ;;
  mc_write 0x64C 0 ;;
  mc_write 0x650 1 ;;
  mc_write 0x670 0 ;;
  mc_write 0x674 0 ;;
  mc_write 0x678 1 ;;
  mc_write 0x9A0 0 ;;
  mc_write 0x9A4 0 ;;
  mc_write 0x9A8 0 ;;
  mc_write 0x9AC 1 ;;
  mc_write 0x70 0 ;;
  mc_write 0x74 0 ;;
  mc_write MC_SECURITY_CFG3 3 ;;
  configure_default_carveouts.

(** The registers marked secure world only. *)
Definition bootup_secure_registers : M unit :=
  fw ← exosphere_get_target_firmware;
  if fw =? ATMOSPHERE_TARGET_FIRMWARE_100
  then reg_write APB_MISC_SECURE_REGS_APB_SLAVE_SECURITY_ENABLE_REG0_0
         (APB_SSER0_SATA_AUX .| APB_SSER0_DTV .| APB_SSER0_QSPI .| APB_SSER0_SATA .| APB_SSER0_LA) ;;
       reg_write APB_MISC_SECURE_REGS_APB_SLAVE_SECURITY_ENABLE_REG1_0
         (APB_SSER1_SPI1 .| APB_SSER1_SPI2 .| APB_SSER1_SPI3 .| APB_SSER1_SPI5 .| APB_SSER1_SPI6 .| APB_SSER1_I2C4 .| APB_SSER1_I2C6) ;;
       reg_write APB_MISC_SECURE_REGS_APB_SLAVE_SECURITY_ENABLE_REG2_0 (BIT 4 .| BIT 5 .| APB_SSER2_DDS)
  else reg_write APB_MISC_SECURE_REGS_APB_SLAVE_SECURITY_ENABLE_REG0_0
         (APB_SSER0_SATA_AUX .| APB_SSER0_DTV .| APB_SSER0_QSPI .| APB_SSER0_SE .| APB_SSER0_SATA .| APB_SSER0_LA) ;;
       let sec_disable_1 := APB_SSER1_SPI1 .| APB_SSER1_SPI2 .| APB_SSER1_SPI3 .| APB_SSER1_SPI5 .| APB_SSER1_SPI6 .| APB_SSER1_I2C6 in
       let sec_disable_2 := APB_SSER2_SDMMC3 .| APB_SSER2_DDS .| APB_SSER2_DP2 in
       hardware_type ← configitem_get_hardware_type;
       let sec_disable_1 := if negb (hardware_type =? 1) then sec_disable_1 .| APB_SSER1_I2C4 else sec_disable_1 in
       let more := negb (hardware_type =? 0) && (fw >=? ATMOSPHERE_TARGET_FIRMWARE_400) in
       let sec_disable_1 := if more then sec_disable_1 .| (APB_SSER1_UART_B .| APB_SSER1_UART_C .| APB_SSER1_SPI4 .| APB_SSER1_I2C3)
                            else sec_disable_1 in
       let sec_disable_2 := if more then sec_disable_2 .| APB_SSER2_SDMMC1 else sec_disable_2 in
       reg_write APB_MISC_SECURE_REGS_APB_SLAVE_SECURITY_ENABLE_REG1_0 sec_disable_1 ;;
       reg_write APB_MISC_SECURE_REGS_APB_SLAVE_SECURITY_ENABLE_REG2_0 sec_disable_2.

(** The SMMU: translation for every client, no secure ASID before 4.0.0. *)
Definition bootup_smmu : M unit :=
  fw ← exosphere_get_target_firmware;
  mc_write 0x228 0xFFFFFFFF ;;
  mc_write 0x22C 0xFFFFFFFF ;;
  mc_write 0x230 0xFFFFFFFF ;;
  mc_write 0x234 0xFFFFFFFF ;;
  mc_write 0xB98 0xFFFFFFFF ;;
  (if fw >=? ATMOSPHERE_TARGET_FIRMWARE_400 then mc_write 0x38 0xE else mc_write 0x38 0x0) ;;
  mc_write 0x3C 0 ;;
  mc_write 0x9E0 0 ;;
  mc_write 0x9E4 0 ;;
  mc_write 0x9E8 0 ;;
  mc_write 0x9EC 0 ;;
  mc_write 0x9F0 0 ;;
  mc_write 0x9F4 0 ;;
  (if fw >=? ATMOSPHERE_TARGET_FIRMWARE_400 then mc_write 0x1C 0 else mret tt) ;;
  mc_write 0x20 0 ;;
  mc_write 0x14 0x30000030 ;;
  mc_write 0x18 0x2800003F ;;
  mc_write 0x34 0 ;;
  mc_write 0x30 0 ;;
  mc_write 0x10 1.

(** Where a core starts after a reset or a warm boot, and the lock. *)
Definition reset_vector (fw : Z) : Z :=
  if fw >=? ATMOSPHERE_TARGET_FIRMWARE_500 then TZRAM_GET_SEGMENT_5X_PA TZRAM_SEGMENT_ID_WARMBOOT_CRT0_AND_MAIN
  else TZRAM_GET_SEGMENT_PA TZRAM_SEGMENT_ID_WARMBOOT_CRT0_AND_MAIN.
Definition bootup_reset_vector : M unit :=
  fw ← exosphere_get_target_firmware;
  let reset_vec := u32 (reset_vector fw) in
  reg_write EVP_CPU_RESET_VECTOR_0 0 ;;
  reg_write SB_AA64_RESET_LOW_0 (reset_vec .| 1) ;;
  reg_write SB_AA64_RESET_HIGH_0 0 ;;
  reg_write SB_CSR_0 2 ;;
  reg_write APBDEV_PMC_SECURE_SCRATCH34_0 reset_vec ;;
  reg_write APBDEV_PMC_SECURE_SCRATCH35_0 0 ;;
  reg_write APBDEV_PMC_SEC_DISABLE3_0 0x500000.

Definition setup_fiq (id : Z) : M unit :=
  intr_set_priority id 0 ;;
  intr_set_group id 0 ;;
  intr_set_enabled id 1 ;;
  intr_set_cpu_mask id 8 ;;
  intr_set_edge_level id 0.

Definition disable_ahb_redirect : M unit :=
  mc_write MC_IRAM_BOM 0xFFFFF000 ;;
  mc_write MC_IRAM_TOM 0 ;;
  reg_update (MC_BASE + MC_IRAM_REG_CTRL) (fun v => v .| 1) ;;
  reg_update CLK_RST_CONTROLLER_LVL2_CLK_GATE_OVRD_0 (fun v => v .& 0xFFF7FFFF).

Definition bootup_misc_mmio : M unit :=
  bootup_security_engine ;;
  booted ← gets (fun w => g_has_booted_up (w_boot w));
  fw ← exosphere_get_target_firmware;
  (if negb booted && (ATMOSPHERE_TARGET_FIRMWARE_600 >? fw) then setup_dram_magic_numbers else mret tt) ;;
  reg_write SHARED_TIMER_SECURE_CFG_0 0xF1E0 ;;
  reg_write (FLOW_BASE + 0x98) 4 ;;
  reg_write (FLOW_BASE + 0x50) 0x10000000 ;;
  reg_write (PMC_BASE + 0x24) 0 ;;
  bootup_carveouts ;;
  bootup_secure_registers ;;
  bootup_smmu ;;
  bootup_reset_vector ;;
  setup_fiq INTERRUPT_ID_SECURITY_ENGINE ;;
  (if fw >=? ATMOSPHERE_TARGET_FIRMWARE_400 then setup_fiq INTERRUPT_ID_ACTIVITY_MONITOR_4X else mret tt) ;;
  if negb booted
  then uart_config UART_A ;;
       clkrst_reboot CARDEVICE_UARTA ;;
       uart_init UART_A 115200 ;;
       intr_register_handler INTERRUPT_ID_SECURITY_ENGINE se_operation_completed_ih ;;
       (if fw >=? ATMOSPHERE_TARGET_FIRMWARE_400
        then intr_register_handler INTERRUPT_ID_ACTIVITY_MONITOR_4X actmon_interrupt_handler_ih else mret tt) ;;
       for_each (seqZ 1 (NUM_CPU_CORES - 1)) (fun core => set_core_is_active core false) ;;
       modify (fun w => w <| w_boot ::= fun b => b <| g_has_booted_up := true |> |>)
  else if fw <? ATMOSPHERE_TARGET_FIRMWARE_400 then disable_ahb_redirect
  else mret tt.

(** [while ((FLOW_CTLR_HALT_COP_EVENTS_0 >> 29) != 2) wait(1);] *)
Fixpoint wait_bpmp_halted (fuel : nat) : M unit :=
  match fuel with
  | O => spin
  | S n => v ← reg_read (FLOW_BASE + 0x4); if v >>. 29 =? 2 then mret tt else wait 1 ;; wait_bpmp_halted n
  end.

Definition setup_4x_mmio : M unit :=
  fw ← exosphere_get_target_firmware;
  (if fw >=? ATMOSPHERE_TARGET_FIRMWARE_600 then configure_gpu_ucode_carveout else mret tt) ;;
  disable_ahb_redirect ;;
  reg_update (PMC_BASE + 0x3AC) (fun v => (v .& 0xFFFF8000) .| 0x4000) ;;
  reg_update (PMC_BASE + 0x320) (fun v => v .& 0x3FFFFFFF) ;;
  reg_update (PMC_BASE + 0x3BC) (fun v => (v .& 0xFF000FFF) .| 0x1000) ;;
  reg_write (PMC_BASE + 0x408) 0x40008000 ;;
  reg_write (PMC_BASE + 0x40C) 0x40000 ;;
  reg_write (PMC_BASE + 0x410) 0x0 ;;
  reg_write (PMC_BASE + 0x414) 0x0 ;;
  reg_write (PMC_BASE + 0x418) 0x0 ;;
  reg_write (PMC_BASE + 0xAE4) 0x40008000 ;;
  reg_write (PMC_BASE + 0xAE8) 0x40000 ;;
  reg_write (PMC_BASE + 0xAEC) 0x0 ;;
  reg_write (PMC_BASE + 0xAF0) 0x0 ;;
  reg_write (PMC_BASE + 0xAF4) 0x0 ;;
  reg_update (PMC_BASE + 0x37C) (fun v => (v .& 0xF8000000) .| 0x88) ;;
  for_each (range 8) (fun i => reg_write (BPMP_VECTOR_BASE + 0x200 + 4 * i) BPMP_MITIGATION_RESET_VAL) ;;
  reg_update (SYSREG_BASE + 0x4) (fun v => v .| 2) ;;
  mc_write 0x1C 1 ;;
  mc_write 0x20 0x70012 ;;
  mc_write 0x23C 0x80000001 ;;
  mc_write 0x298 0x80000001 ;;
  mc_write 0x34 0 ;;
  mc_write 0x30 0 ;;
  wait_bpmp_halted soc_fuel ;;
  auth ← gets (fun w => dbgauthstatus_el1 (w_cpu w));
  if negb (auth .& 3 =? 3)
  then reg_write (FLOW_BASE + 0x4) 0x40000000 ;;
       clkrst_reboot CARDEVICE_ACTMON ;;
       reg_write (ACTMON_BASE + 0x4) 0x100 ;;
       reg_write (ACTMON_BASE + 0xC4) 0 ;;
       actmon_set_callback (Some actmon_on_bpmp_wakeup_cb) ;;
       reg_write (ACTMON_BASE + 0xC0) 0xC0040000
  else mret tt.

Definition setup_current_core_state : M unit :=
  set_spsr_el3 ((0xF <<. 6) .| 0x5) ;;
  set_sysreg actlr_el3 0x73 ;;
  set_sysreg actlr_el2 0x73 ;;
  set_sysreg hcr_el2 0x80000000 ;;
  set_sysreg dacr32_el2 0xFFFFFFFF ;;
  set_sysreg sctlr_el1 0xC50838 ;;
  set_sysreg sctlr_el2 0x30C50838 ;;
  frq ← reg_read (SYSCTR0_BASE + 0x20);
  set_sysreg cntfrq_el0 frq ;;
  set_sysreg cnthctl_el2 3 ;;
  core ← get_core_id;
  flow_clear_csr0_and_events core ;;
  intr_initialize_gic ;;
  intr_set_priority INTERRUPT_ID_1C 0 ;;
  intr_set_group INTERRUPT_ID_1C 0 ;;
  intr_set_enabled INTERRUPT_ID_1C 1 ;;
  restore_current_core_context.

(** mmu.h: [mmu_unmap_range] on the L3 table. *)
Definition mmu_unmap_range (base_addr size : Z) : M unit :=
  for_each (range_offsets 3 size) (fun offset => mmu_unmap_page (u64 (base_addr + offset))).

Definition identity_mapping (id : nat) : Z * Z := match nth id _MMAPID (0, 0, 0, false) with (addr, size, _, _) => (addr, size) end.
Definition identity_unmap_iram_cd_tzram : M unit :=
  mmu_unmap_range (identity_mapping 0).1 (identity_mapping 0).2 ;;
  mmu_unmap_range (identity_mapping 1).1 (identity_mapping 1).2.

Definition secure_additional_devices : M unit :=
  fw ← exosphere_get_target_firmware;
  if fw >=? ATMOSPHERE_TARGET_FIRMWARE_200
  then reg_update APB_MISC_SECURE_REGS_APB_SLAVE_SECURITY_ENABLE_REG0_0 (fun v => v .| APB_SSER0_PMC) ;;
       if fw >=? ATMOSPHERE_TARGET_FIRMWARE_400
       then reg_update APB_MISC_SECURE_REGS_APB_SLAVE_SECURITY_ENABLE_REG1_0
              (fun v => v .| (APB_SSER1_MC0 .| APB_SSER1_MC1 .| APB_SSER1_MCB))
       else mret tt
  else mret tt.

Definition set_extabt_serror_taken_to_el3 (taken_to_el3 : bool) : M unit :=
  temp_scr_el3 ← gets (fun w => boot_sysregs (w_boot w) scr_el3);
  set_sysreg scr_el3 ((temp_scr_el3 .& 0xFFFFFFF7) .| (if taken_to_el3 then 8 else 0)).

(** ** warmboot_init.c *)

(** With the MMU off a register is named by its physical address. *)
Definition init_dma_controllers (target_firmware : Z) : M unit :=
  if target_firmware >=? ATMOSPHERE_TARGET_FIRMWARE_400
  then reg_update 0x500038F8 (fun v => v .& 0xFFFFFFFE) ;;
       reg_write 0x50003300 0 ;;
       reg_write 0x6000C018 0xFFFFFFFF ;;
       reg_write 0x6000C038 0x0 ;;
       reg_update 0x50060000 (fun v => v .| 0x38000000) ;;
       reg_write 0x6000C004 0x40060 ;;
       reg_write 0x6000C008 0xE0000001 ;;
       reg_write 0x6000C054 0x80
  else reg_write 0x700F0000 3 ;;
       reg_update 0x500038F8 (fun v => v .& 0xFFFFFFFE) ;;
       reg_write 0x50003300 0 ;;
       reg_write 0x6000C018 0 ;;
       reg_write 0x6000C038 0x40040 ;;
       reg_write 0x6002003C 0xFFFFFFFF ;;
       reg_write 0x60020054 0 ;;
       reg_write 0x60020038 0 ;;
       reg_update 0x50060000 (fun v => v .| 0x38000000) ;;
       reg_write 0x6000C008 0xE0000001 ;;
       reg_write 0x6000C054 0x80.

(** [TCR_EL3_RSVD | TCR_PS(1) | TCR_TG0_4K | TCR_SHARED_INNER | TCR_ORGN_WBWA |
    TCR_IRGN_WBWA | TCR_T0SZ(33)] *)
Definition boot_tcr : Z :=
  BIT 31 .| BIT 23 .| (1 <<. 16) .| (0 <<. 14) .| (3 <<. 12) .| (1 <<. 10) .| (1 <<. 8) .| (64 - 33).
Definition _set_memory_registers_enable_mmu (ttbr0 : Z) : M unit :=
  set_sysreg cpuectlr_el1 0x1B00000040 ;;
  set_sysreg scr_el3 0x63D ;;
  set_sysreg ttbr0_el3 ttbr0 ;;
  set_sysreg tcr_el3 boot_tcr ;;
  set_sysreg cptr_el3 0 ;;
  set_sysreg mair_el3 0x4FF ;;
  set_sysreg vbar_el3 (TZRAM_GET_SEGMENT_ADDRESS TZRAM_SEGEMENT_ID_SECMON_EVT + 0x800) ;;
  set_sysreg sctlr_el3 0x30C51835.
Definition set_memory_registers_enable_mmu_1x_ttbr0 : M unit :=
  _set_memory_registers_enable_mmu (TZRAM_GET_SEGMENT_PA TZRAM_SEGEMENT_ID_SECMON_EVT + 0x800 - 64).
Definition set_memory_registers_enable_mmu_5x_ttbr0 : M unit :=
  _set_memory_registers_enable_mmu (TZRAM_GET_SEGMENT_5X_PA TZRAM_SEGEMENT_ID_SECMON_EVT + 0x800 - 64).

(** [VIRT_MC_SECURITY_CFG3], here at its physical address as well. *)
Definition warmboot_init : M unit :=
  cfg3 ← reg_read (0x70019000 + MC_SECURITY_CFG3);
  fw ← gets (fun w => g_exosphere_target_firmware_for_init (w_boot w));
  (if cfg3 =? 0 then init_dma_controllers fw else mret tt) ;;
  if fw <? ATMOSPHERE_TARGET_FIRMWARE_500 then set_memory_registers_enable_mmu_1x_ttbr0
  else set_memory_registers_enable_mmu_5x_ttbr0.

(** ** warmboot_main.c *)

Definition warmboot_configure_hiz_mode : M unit :=
  i2c_config I2C_1 ;;
  clkrst_reboot CARDEVICE_I2C1 ;;
  i2c_init 0 ;;
  i2c_clear_ti_charger_bit_7 ;;
  clkrst_disable CARDEVICE_I2C1.

(** ['O'; 'H'; 'A'; 'Y'; 'O'; 0] *)
Definition ohayo : list Z := [0x4F; 0x48; 0x41; 0x59; 0x4F; 0].

(** The part that only a warm boot runs. *)
Definition warmboot_setup : M unit :=
  uart_config UART_A ;;
  clkrst_reboot CARDEVICE_UARTA ;;
  uart_init UART_A 115200 ;;
  retail ← configitem_is_retail;
  (if negb retail
   then uart_send UART_A ohayo 6 ;; uart_wait_idle UART_A UART_VENDOR_STATE_TX_IDLE else mret tt) ;;
  se_verify_flags_cleared ;;
  intr_initialize_gic_nonsecure ;;
  bootup_misc_mmio ;;
  secure_additional_devices ;;
  fw ← exosphere_get_target_firmware;
  hiz ← (if fw <? ATMOSPHERE_TARGET_FIRMWARE_400 then mret true
         else icosa ← (if fw <? ATMOSPHERE_TARGET_FIRMWARE_800
                       then t ← configitem_get_hardware_type; mret (t =? 0) else mret false);
              if (icosa : bool) then mret true else configitem_is_hiz_mode_enabled);
  (if (hiz : bool) then warmboot_configure_hiz_mode else mret tt) ;;
  SmcApi.clear_user_smc_in_progress ;;
  if fw >=? ATMOSPHERE_TARGET_FIRMWARE_400 then setup_4x_mmio else mret tt.

(** The arguments of the final jump. *)
Definition warmboot_main : M (Z * Z * Z) :=
  core ← get_core_id;
  active ← is_core_active core;
  if (active : bool) then panic 0xF7F00009 else
  identity_unmap_iram_cd_tzram ;;
  cfg3 ← reg_read (MC_BASE + MC_SECURITY_CFG3);
  (if cfg3 =? 0 then warmboot_setup else mret tt) ;;
  setup_current_core_state ;;
  taken ← BootConfig.bootconfig_take_extabt_serror_to_el3;
  set_extabt_serror_taken_to_el3 taken ;;
  core_jump_to_lower_el.

(** ** coldboot_init.c *)

Definition exosphere_get_target_firmware_for_init : M Z :=
  cfg ← gets (fun w => mailbox_exosphere_config (w_exo w));
  mret (if (cfg_magic cfg =? MAGIC_EXOSPHERE_CONFIG) then target_firmware cfg else ATMOSPHERE_TARGET_FIRMWARE_900).

(** [coldboot_init] between the two groups of relocations: the tables are built
    in the memory [m] and the MMU is turned on; the result is that memory. *)
Definition coldboot_enable_mmu (m : table_memory) : M table_memory :=
  fw ← exosphere_get_target_firmware_for_init;
  modify (fun w => w <| w_boot ::= fun b => b <| g_exosphere_target_firmware_for_init := fw |> |>) ;;
  init_dma_controllers fw ;;
  let m := configure_ttbls fw m in
  modify (fun w => w <| w_l3 := fun i => m (mmu_l3_tbl fw + 8 * i) |>) ;;
  (if fw <? ATMOSPHERE_TARGET_FIRMWARE_500 then set_memory_registers_enable_mmu_1x_ttbr0
   else set_memory_registers_enable_mmu_5x_ttbr0) ;;
  mret m.

(** ** package2.c *)

Definition NX_BOOTLOADER_STATE_MOVED_BOOTCONFIG := 1.
Definition NX_BOOTLOADER_STATE_LOADED_PACKAGE2 := 2.
Definition NX_BOOTLOADER_STATE_FINISHED := 3.
Definition NX_BOOTLOADER_STATE_DRAM_INITIALIZED_4X := 2.
Definition NX_BOOTLOADER_STATE_LOADED_PACKAGE2_4X := 3.
Definition NX_BOOTLOADER_STATE_FINISHED_4X := 4.

(** The value the warm boot firmware checks; an unknown firmware writes none. *)
Definition warmboot_version (fw : Z) : option Z :=
  if fw =? ATMOSPHERE_TARGET_FIRMWARE_400 then Some 0x105
  else if fw =? ATMOSPHERE_TARGET_FIRMWARE_500 then Some 6
  else if fw =? ATMOSPHERE_TARGET_FIRMWARE_600 then Some 0x87
  else if fw =? ATMOSPHERE_TARGET_FIRMWARE_620 then Some 0xA8
  else if (fw =? ATMOSPHERE_TARGET_FIRMWARE_700) || (fw =? ATMOSPHERE_TARGET_FIRMWARE_800) then Some 0x129
  else if fw =? ATMOSPHERE_TARGET_FIRMWARE_810 then Some 0x14A
  else if fw =? ATMOSPHERE_TARGET_FIRMWARE_900 then Some 0x16B
  else None.
Definition initial_pmc_writes : M unit :=
  fw ← exosphere_get_target_firmware;
  if fw >=? ATMOSPHERE_TARGET_FIRMWARE_400
  then reg_write (PMC_BASE + 0x054) 0x8000D000 ;;
       reg_update (PMC_BASE + 0x0A0) (fun v => v .& 0xFFF3FFFF) ;;
       reg_update (PMC_BASE + 0x818) (fun v => v .& 0xFFFFFFFE) ;;
       reg_update (PMC_BASE + 0x334) (fun v => v .| 0x10) ;;
       match warmboot_version fw with Some v => reg_write (PMC_BASE + 0x360) v | None => mret tt end
  else mret tt.

(** The [boot_reason_t] of the mailbox. *)
Definition read_boot_reason (a : Z) : M boot_reason_t :=
  v0 ← reg_read a; v1 ← reg_read (a + 0x4); v2 ← reg_read (a + 0x8);
  v3 ← reg_read (a + 0xC); v4 ← reg_read (a + 0x10); v5 ← reg_read (a + 0x14);
  mret (mk_boot_reason v0 v1 v2 v3 v4 v5).

(** Set the sysctr0 registers from the boot configuration, on 4.0.0 and later. *)
Definition setup_sysctr0 : M unit :=
  sysctr0_val ← BootConfig.bootconfig_get_value_for_sysctr0;
  reg_write (SYSCTR0_BASE + 0x8) (sysctr0_val .& 0xFFFFFFFF) ;;
  reg_write (SYSCTR0_BASE + 0xC) ((sysctr0_val >>. 32) .& 0xFFFFFFFF) ;;
  reg_write (SYSCTR0_BASE + 0x0) 3.

(** [load_package2] up to the read of the header. *)
Definition load_package2_setup : M unit :=
  exosphere_load_config ;;
  user ← exosphere_should_override_debugmode_user;
  priv ← exosphere_should_override_debugmode_priv;
  configitem_set_debugmode_override user priv ;;
  disable ← exosphere_should_disable_usermode_exception_handlers;
  (if (disable : bool) then configitem_disable_usermode_exception_handlers else mret tt) ;;
  Package2.setup_se ;;
  initial_pmc_writes ;;
  wait 1000 ;;
  bootup_misc_mmio ;;
  setup_current_core_state ;;
  fw ← exosphere_get_target_firmware;
  boot_reason ← read_boot_reason (Package2.MAILBOX_NX_BOOTLOADER_BASE fw + 0x10);
  BootConfig.bootconfig_load_boot_reason boot_reason ;;
  RandomCache.randomcache_init ;;
  reg_write (Package2.MAILBOX_NX_BOOTLOADER_BASE fw + 0xFC) 1 ;;
  Package2.sync_with_nx_bootloader NX_BOOTLOADER_STATE_MOVED_BOOTCONFIG ;;
  Package2.setup_boot_config ;;
  (if fw >=? ATMOSPHERE_TARGET_FIRMWARE_400 then setup_sysctr0 else mret tt) ;;
  (if fw >=? ATMOSPHERE_TARGET_FIRMWARE_400
   then Package2.sync_with_nx_bootloader NX_BOOTLOADER_STATE_DRAM_INITIALIZED_4X ;;
        Package2.copy_warmboot_bin_to_dram ;;
        (if fw >=? ATMOSPHERE_TARGET_FIRMWARE_600 then setup_dram_magic_numbers else mret tt) ;;
        Package2.sync_with_nx_bootloader NX_BOOTLOADER_STATE_LOADED_PACKAGE2_4X
   else Package2.sync_with_nx_bootloader NX_BOOTLOADER_STATE_LOADED_PACKAGE2) ;;
  secure_additional_devices ;;
  identity_unmap_iram_cd_tzram.

(** The rest of it, after the entry point of core 0 is set. *)
Definition load_package2_finish : M unit :=
  fw ← exosphere_get_target_firmware;
  (if fw >=? ATMOSPHERE_TARGET_FIRMWARE_400
   then Package2.sync_with_nx_bootloader NX_BOOTLOADER_STATE_FINISHED_4X ;; setup_4x_mmio
   else Package2.sync_with_nx_bootloader NX_BOOTLOADER_STATE_FINISHED) ;;
  SmcApi.set_version_specific_smcs ;;
  taken ← BootConfig.bootconfig_take_extabt_serror_to_el3;
  set_extabt_serror_taken_to_el3 taken.

Definition load_package2 : M unit :=
  load_package2_setup ;;
  Package2.load_package2_image ;;
  load_package2_finish.

(** ** coldboot_main.c *)

(** [memset(va, 0, n)], byte by byte through the L3 table. *)
Definition va_memclear (va n : Z) : M unit := for_each (range n) (fun i => va_write_bytes (va + i) [0]).

(** [pk2ldr_size] is [__pk2ldr_end__ - __pk2ldr_start__], of the linker script. *)
Definition coldboot_main (pk2ldr_size : Z) : M (Z * Z * Z) :=
  let pk2ldr := TZRAM_GET_SEGMENT_ADDRESS TZRAM_SEGMENT_ID_PK2LDR in
  va_memclear pk2ldr pk2ldr_size ;;
  mmu_unmap_range pk2ldr pk2ldr_size ;;
  core_jump_to_lower_el.
End Ops.
End Bootup.
