(* ===== verification/Platform.v ===== *)
(** A small concrete platform and boot state, on which the properties'
    hypotheses are shown to hold.  Its cipher is XOR with the key, its digest
    is the message's first bytes; modular exponentiation is the real one. *)
From S2P Require Import Prelude State Utils Se Engine Pages Config Keys Power SmcUser SmcApi.
Import SE.

Module Toy.

Definition toy_cipher (key block : list Z) : list Z := xor_bytes block key.
Definition toy_digest (m : list Z) : list Z := take 32 (m ++ zeros 32).

Definition crypto_slot (h : se_hw) : Z := (se_regs h CRYPTO_REG >>. 24) .& 0xF.

Fixpoint powmod_pos (b : Z) (e : positive) (m : Z) : Z :=
  match e with
  | xH => b mod m
  | xO e' => let r := powmod_pos b e' m in (r * r) mod m
  | xI e' => let r := powmod_pos b e' m in (r * r * b) mod m
  end.
Definition powmod (b e m : Z) : Z :=
  match e with Zpos p => powmod_pos b p m | Z0 => 1 mod m | Zneg _ => 0 mod m end.

Definition ll_bytes (l : se_ll) : list Z := match l with ll_buf b => b | _ => [] end.

Definition done_status (r : Z -> Z) : Z -> Z :=
  upd (upd (upd r INT_STATUS_REG 0x12) FLAGS_REG 0) ERR_STATUS_REG 0.

Definition put_words (r : Z -> Z) (base : Z) (ws : list Z) : Z -> Z :=
  fun a => if (base <=? a) && (a <? base + 4 * Z.of_nat (length ws)) && (a mod 4 =? base mod 4)
           then byte_at ws ((a - base) / 4) else r a.

Definition toy_engine (op : Z) (input output : se_ll) (h : se_hw) : se_hw * list Z :=
  let cfg := se_regs h CONFIG_REG in
  let slot := crypto_slot h in
  let h1 := h <| se_regs ::= done_status |> in
  if cfg =? (ALG_AES_DEC .| DST_KEYTAB) then
    let dst := (se_regs h CRYPTO_KEYTABLE_DST_REG >>. 8) .& 0xF in
    let out := toy_cipher (slot_key h slot) (ll_bytes input) in
    (h1 <| aes_keytable ::= fun t a => if (16 * dst <=? a) && (a <? 16 * dst + 4)
                                       then read32le out (4 * (a - 16 * dst)) else t a |>, [])
  else if (cfg =? (ALG_AES_DEC .| DST_MEMORY)) || (cfg =? (ALG_AES_ENC .| DST_MEMORY)) then
    (h1, ecb (toy_cipher (slot_key h slot)) (length (ll_bytes input) / 16) (ll_bytes input))
  else if cfg =? (ENCMODE_SHA256 .| ALG_SHA .| DST_HASHREG) then
    (h1 <| se_regs ::= fun r => put_words r HASH_RESULT_REG
             (map bswap32 (words32 8 (toy_digest (ll_bytes input)))) |>, [])
  else if cfg =? (ALG_RSA .| DST_RSAREG) then
    let k := (se_regs h RSA_CONFIG >>. 24) .& 1 in
    let n := Z.min 4 (se_regs h RSA_KEY_SIZE_REG + 1) in
    let m := rsa_modulus h k (16 * n) in
    let e := rsa_exponent h k (se_regs h RSA_EXP_SIZE_REG) in
    (h1 <| se_regs ::= fun r => put_words r RSA_OUTPUT
             (words32 (Z.to_nat (16 * n)) (le_bytes (Z.to_nat (64 * n)) (powmod (le_value (ll_bytes input)) e m))) |>, [])
  else if cfg =? (ALG_RNG .| DST_MEMORY) then
    (h1, replicate (length (ll_bytes output)) 0x5A)
  else (h1, []).

#[export] Instance toy_soc : SoC := {|
  se_engine := toy_engine;
  soc_wait := fun _ m => m;
  soc_fuel := 100%nat;
  uninit_buf := fun n => replicate (Z.to_nat n) 0xAA;
  rebootstub_bin := [1; 2; 3; 4];
  sc7fw_bin := [5; 6; 7; 8];
  ATMOSPHERE_RELEASE_VERSION_HASH := 0xABCD |}.

(** ** The toy engine keeps the engine's laws *)

Lemma powmod_pos_spec b e m : 0 < m -> powmod_pos b e m = b ^ Zpos e mod m.
Proof.
  intros Hm. induction e as [e IH|e IH|]; cbn [powmod_pos].
  - rewrite IH, Pos2Z.inj_xI, Z.pow_add_r, Z.pow_twice_r, Z.pow_1_r by lia.
    rewrite <- (Z.mul_mod_idemp_l (_ * _) b), <- Z.mul_mod by lia. by rewrite Z.mul_mod_idemp_l by lia.
  - rewrite IH, Pos2Z.inj_xO, Z.pow_twice_r. by rewrite <- Z.mul_mod by lia.
  - by rewrite Z.pow_1_r.
Qed.
Lemma powmod_spec b e m : 0 < m -> powmod b e m = b ^ e mod m.
Proof. intros Hm. destruct e; [done|by apply powmod_pos_spec|done]. Qed.

Lemma toy_cipher_block k b : is_block k -> is_block b -> is_block (toy_cipher k b).
Proof.
  intros [Hk1 Hk2] [Hb1 Hb2]. unfold toy_cipher, xor_bytes. split.
  - rewrite length_zip_with. lia.
  - apply (Forall_zip_with_fst _ is_u8); [done|]. eapply Forall_impl; [done|].
    intros y Hy x Hx. by apply lxor_u8.
Qed.

Lemma put_words_at r base ws i :
  0 <= i < Z.of_nat (length ws) -> put_words r base ws (base + 4 * i) = byte_at ws i.
Proof.
  intros Hi. unfold put_words. zdec. replace (base + 4 * i) with (base + i * 4) by lia.
  rewrite Z.mod_add, Z.eqb_refl by lia. f_equal. replace (base + i * 4 - base) with (i * 4) by lia.
  by rewrite Z.div_mul.
Qed.
Lemma toy_digest_digest m : is_bytes m -> length (toy_digest m) = 32%nat /\ is_bytes (toy_digest m).
Proof.
  intros Hm. unfold toy_digest, zeros. split; [rewrite length_take, length_app, length_replicate; lia|].
  apply Forall_take, Forall_app_2; [done|]. by repeat constructor.
Qed.

(** A slot number in a register field comes back. *)
Lemma field_back slot n : 0 <= slot < 16 -> 0 <= n <= 24 -> (u32 (slot <<. n) >>. n) .& 0xF = slot.
Proof.
  intros Hs Hn. rewrite u32_id.
  - rewrite Z.shiftr_shiftl_l, Z.sub_diag, Z.shiftl_0_r by lia.
    change 0xF with (Z.ones 4). rewrite Z.land_ones by lia. by apply Z.mod_small.
  - unfold is_u32. rewrite Z.shiftl_mul_pow2 by lia.
    pose proof (Z.pow_le_mono_r 2 n 24). pose proof (Z.pow_pos_nonneg 2 n). nia.
Qed.

Lemma toy_ecb cfg crypto h slot n b o :
  length b = (16 * n)%nat -> 0 <= slot < 16 -> (cfg = ALG_AES_DEC .| DST_MEMORY \/ cfg = ALG_AES_ENC .| DST_MEMORY) ->
  se_regs h CONFIG_REG = cfg -> se_regs h CRYPTO_REG = crypto -> (crypto >>. 24) .& 0xF = slot ->
  let r := toy_engine OP_START (ll_buf b) (ll_buf o) h in
  snd r = ecb (toy_cipher (slot_key h slot)) n b /\ same_tables h (fst r).
Proof.
  intros Hb Hs Hcfg E1 E2 E3. unfold toy_engine, crypto_slot. rewrite E1, E2, E3. cbn [ll_bytes].
  rewrite Hb, Nat.mul_comm, Nat.div_mul by done. destruct Hcfg as [-> | ->]; by repeat split.
Qed.
Lemma ecb_block f b : length b = 16%nat -> ecb f 1 b = f b.
Proof. intros H. cbn [ecb]. by rewrite take_ge, app_nil_r by lia. Qed.
Lemma toy_ecb_block cfg crypto h slot b o :
  is_block b -> 0 <= slot < 16 -> (cfg = ALG_AES_DEC .| DST_MEMORY \/ cfg = ALG_AES_ENC .| DST_MEMORY) ->
  se_regs h CONFIG_REG = cfg -> se_regs h CRYPTO_REG = crypto -> (crypto >>. 24) .& 0xF = slot ->
  let r := toy_engine OP_START (ll_buf b) (ll_buf o) h in
  snd r = toy_cipher (slot_key h slot) b /\ same_tables h (fst r).
Proof. intros [Hb _]. rewrite <- (ecb_block (toy_cipher (slot_key h slot)) b) by done. by apply toy_ecb. Qed.
Lemma encrypt_field_back slot : 0 <= slot < 16 -> (u32 ((slot <<. 24) .| 0x100) >>. 24) .& 0xF = slot.
Proof.
  intros Hs. assert (slot ∈ range 16) as He by (by apply elem_of_range). vm_compute in He.
  repeat (apply elem_of_cons in He as [->|He]; [reflexivity|]). by apply elem_of_nil in He.
Qed.

Lemma toy_keytab h slot dst b :
  0 <= slot < 16 -> 0 <= dst < 16 -> se_regs h CONFIG_REG = ALG_AES_DEC .| DST_KEYTAB ->
  se_regs h CRYPTO_REG = u32 (slot <<. 24) -> se_regs h CRYPTO_KEYTABLE_DST_REG = u32 (dst <<. 8) ->
  is_block b ->
  let h' := fst (toy_engine OP_START (ll_buf b) ll_null h) in
  slot_key h' dst = toy_cipher (slot_key h slot) b /\
  (forall s, 0 <= s < 16 -> s <> dst -> slot_key h' s = slot_key h s) /\
  (forall a, rsa_keytable h' a = rsa_keytable h a).
Proof.
  intros Hs Hd E1 E2 E3 Hl. unfold toy_engine, crypto_slot. rewrite E1, E2, E3, !field_back by lia.
  change (ALG_AES_DEC .| DST_KEYTAB =? ALG_AES_DEC .| DST_KEYTAB) with true. cbn [fst ll_bytes].
  assert (Ho : is_block (toy_cipher (slot_key h slot) b)) by (apply toy_cipher_block; [apply slot_key_block|done]).
  set (out := toy_cipher _ b) in *. split; [|split; [|done]].
  - transitivity (words32 4 out ≫= le_bytes 4); [|by apply words32_bytes; apply Ho].
    rewrite <- (bind_range_nth (le_bytes 4) (words32 _ _)), length_words32. apply bind_range_ext. intros i Hi. f_equal.
    rewrite words32_at by lia. cbn. rewrite lor_shiftl_add by lia. change (2 ^ 4) with 16.
    zdec. unfold read32le. do 2 f_equal. lia.
  - intros s H1 H2. apply bind_range_ext. intros i Hi. f_equal. cbn. rewrite lor_shiftl_add by lia.
    change (2 ^ 4) with 16. destruct (decide (s < dst)); zdec; done.
Qed.

Lemma toy_sha256 h m :
  is_bytes m -> se_regs h CONFIG_REG = ENCMODE_SHA256 .| ALG_SHA .| DST_HASHREG ->
  let h' := fst (toy_engine OP_START (ll_buf m) ll_null h) in
  (range 8 ≫= fun i => le_bytes 4 (bswap32 (se_regs h' (HASH_RESULT_REG + (i <<. 2))))) = toy_digest m /\
  same_tables h h'.
Proof.
  intros Hm E1. unfold toy_engine. rewrite E1.
  destruct (toy_digest_digest m Hm) as [Hl Hb]. split; [|by split].
  transitivity (words32 8 (toy_digest m) ≫= le_bytes 4); [|by apply words32_bytes].
  rewrite <- (bind_range_nth (le_bytes 4) (words32 _ _)), length_words32. apply bind_range_ext. intros i Hi.
  rewrite (Z.shiftl_mul_pow2 i 2), (Z.mul_comm i) by lia. change (2 ^ 2) with 4.
  change (se_regs _ ?a) with (put_words (done_status (se_regs h)) HASH_RESULT_REG
    (map bswap32 (words32 8 (toy_digest m))) a).
  rewrite put_words_at by (rewrite length_map, length_words32; lia).
  unfold byte_at. rewrite (nth_indep _ 0 (bswap32 0)) by (rewrite length_map, length_words32; lia).
  by rewrite map_nth, le_bytes_bswap32, le_bytes_bswap32, rev_involutive.
Qed.

Lemma toy_exp_mod h slot n en b :
  0 <= slot < 2 -> 1 <= n <= 4 -> Z.of_nat (length b) = 64 * n ->
  se_regs h CONFIG_REG = ALG_RSA .| DST_RSAREG -> se_regs h RSA_CONFIG = u32 (slot <<. 24) ->
  se_regs h RSA_KEY_SIZE_REG = n - 1 -> se_regs h RSA_EXP_SIZE_REG = en ->
  0 < rsa_modulus h slot (16 * n) < 2 ^ (512 * n) ->
  let h' := fst (toy_engine OP_START (ll_buf b) ll_null h) in
  (forall i, 0 <= i < 16 * n -> is_u32 (se_regs h' (RSA_OUTPUT + 4 * i))) /\
  words_value (fun i => se_regs h' (RSA_OUTPUT + 4 * i)) (16 * n)
    = le_value b ^ rsa_exponent h slot en mod rsa_modulus h slot (16 * n).
Proof.
  intros Hs Hn Hl E1 E2 E3 E4 Hm. unfold toy_engine. rewrite E1, E2, E3, E4.
  assert (Hk : (u32 (slot <<. 24) >>. 24) .& 1 = slot)
    by (assert (slot = 0 \/ slot = 1) as [-> | ->] by lia; reflexivity).
  rewrite Hk, Z.sub_add, Z.min_r by lia. rewrite powmod_spec by lia. cbn [fst ll_bytes].
  set (v := _ ^ _ mod _). assert (Hv : 0 <= v < 2 ^ (512 * n)) by (pose proof (Z.mod_pos_bound (le_value b ^ rsa_exponent h slot en) (rsa_modulus h slot (16 * n))); lia).
  set (l := le_bytes (Z.to_nat (64 * n)) v).
  assert (Hw : forall i, 0 <= i < 16 * n -> put_words (done_status (se_regs h)) RSA_OUTPUT
     (words32 (Z.to_nat (16 * n)) l) (RSA_OUTPUT + 4 * i) = le_value (slice l (4 * i) 4)).
  { intros i Hi. rewrite put_words_at, words32_at by (rewrite ?length_words32; lia). done. }
  split.
  - intros i Hi. change (is_u32 (put_words (done_status (se_regs h)) RSA_OUTPUT
      (words32 (Z.to_nat (16 * n)) l) (RSA_OUTPUT + 4 * i))). rewrite Hw by done.
    pose proof (le_value_bound (slice l (4 * i) 4)) as Hb.
    rewrite length_slice in Hb by (unfold l; rewrite ?length_le_bytes; lia).
    apply Hb. apply slice_is_bytes, le_bytes_is_bytes.
  - transitivity (words_value (fun i => le_value (slice l (4 * i) 4)) (Z.of_nat (Z.to_nat (16 * n)))).
    + rewrite Z2Nat.id by lia. apply words_value_ext. apply Hw.
    + rewrite words_value_slices by (unfold l; rewrite length_le_bytes; lia).
      apply le_value_bytes. replace (8 * Z.of_nat (Z.to_nat (64 * n))) with (512 * n) by lia. done.
Qed.

Lemma put_words_out r base ws a :
  a < base \/ base + 4 * Z.of_nat (length ws) <= a -> put_words r base ws a = r a.
Proof. intros [H|H]; unfold put_words; zdec; done. Qed.
Lemma toy_status op i o h :
  let r := se_regs (fst (toy_engine op i o h)) in
  r INT_STATUS_REG = 0x12 /\ r FLAGS_REG = 0 /\ r ERR_STATUS_REG = 0.
Proof.
  unfold toy_engine. repeat case_match; [by repeat split..|idtac|idtac|by repeat split|by repeat split];
    cbn [fst]; repeat split;
    change (se_regs (update se_regs ?f _) ?a) with (f (done_status (se_regs h)) a); cbv beta;
    rewrite put_words_out; try reflexivity; rewrite ?length_map, length_words32;
    unfold HASH_RESULT_REG, RSA_OUTPUT, INT_STATUS_REG, FLAGS_REG, ERR_STATUS_REG; lia.
Qed.

#[export] Instance toy_engine_done : EngineDone toy_soc.
Proof.
  split; intros op i o h; destruct (toy_status op i o h) as (H1 & H2 & H3); cbn [se_engine toy_soc].
  - by rewrite H1.
  - by rewrite H2.
  - done.
Qed.

#[export] Instance toy_crypto : CryptoEngine toy_soc.
Proof.
  unshelve refine {| aes_encrypt := toy_cipher; aes_decrypt := toy_cipher; sha256 := toy_digest |}.
  all: try exact toy_engine_done.
  - apply toy_cipher_block.
  - apply toy_cipher_block.
  - intros k b [Hk _] [Hb _]. apply xor_bytes_involutive. lia.
  - apply toy_digest_digest.
  - intros h slot b o Hs E1 E2 _ Hb. eapply (toy_ecb_block _ _ h slot b o Hb Hs); [by left|done..|]. by apply field_back.
  - intros h slot b o Hs E1 E2 _ Hb. eapply (toy_ecb_block _ _ h slot b o Hb Hs); [by right|done..|]. by apply encrypt_field_back.
  - intros h slot dst b Hs Hd E1 E2 _ E3 Hb. by apply toy_keytab.
  - intros h m Hm E1 _. by apply toy_sha256.
  - intros h slot n en b Hs Hn _ _ Hl E1 E2 E3 E4 Hm. by apply toy_exp_mod.
Defined.

#[export] Instance toy_bulk : BulkEngine toy_soc.
Proof.
  split.
  - intros h slot n b o Hs E1 E2 _ Hb _. eapply (toy_ecb _ _ h slot n b o Hb Hs); [by left|done..|]. by apply field_back.
  - intros h slot n b o Hs E1 E2 _ Hb _. eapply (toy_ecb _ _ h slot n b o Hb Hs); [by right|done..|]. by apply encrypt_field_back.
Qed.

Definition toy_emummc : exo_emummc_config_t := mk_emummc_config 0x30534645 0 0 0 (zeros 0x80) (zeros 0x80).
Definition toy_config (fw : Z) : exosphere_config_t := mk_exosphere_config 0x304F5845 fw 2 toy_emummc.

(** A running monitor for target firmware [fw], on core 3, with master key
    revision 9 and distinct keys in the slots. *)
Definition toy_world (fw : Z) : World :=
  mk_world 3 (mk_se_hw (fun _ => 0) (fun a => 0x01010101 * (a / 16 + 1)) (fun _ => 0))
    (fun _ => 0) (fun _ => 0) (fun _ => 0) (fun va => va .& 0xFFFFFFF000)
    (mk_se_driver None [0; 0] [0; 0] false [])
    (mk_exocfg (toy_config fw) true (toy_config fw))
    (mk_configitem false false true true)
    (mk_fuse false false)
    (mk_bootconfig_state (mk_bootconfig (zeros 0x200) (zeros 0x100) (zeros 0x100))
       (mk_boot_reason 0 0 0 0 0 0) [0; 0; 0; 0])
    (mk_masterkey 9 true (map (fun i => replicate 16 i) (range 10)) (map (fun i => replicate 16 (16 + i)) (range 7)))
    (mk_titlekey [0; 0; 0; 0] 0 0)
    (mk_randomcache (map (fun i => i mod 256) (range 0x400)) 0 0x3FF)
    (mk_mc [(0x80060000, 0x1FFE0000); (0, 0)])
    (mk_cpu (replicate 4 (mk_cpu_context 0 0 false false (zeros 31))) (replicate 4 (0, false)) (zeros 31) 0 0)
    (mk_intr [(0x5A, Some se_operation_completed_ih); (0, None); (0, None); (0, None)] None)
    (mk_userpage 0) (mk_ams false false)
    (mk_smc_user false false (replicate 4 (zeros 0x100)))
    SmcApi.initial_smc_api_state
    (mk_boot true fw (fun _ => 0)).
End Toy.
