(* ===== verification/Frame.v ===== *)
(** Frame conditions of the monitor's code.

    [Frame R] says that the relation [R] between states does not look at the
    components a user SMC handler may change outside the Security Engine and
    the SMC state; [SeFrame R slot_ok] is what the Security Engine driver
    promises its clients about [R] when they load only key slots that satisfy
    [slot_ok].  The lemmas of this file are proved against these two
    interfaces, once for every relation that implements them. *)
From S2P Require Import Prelude State Utils Se Pages Config Keys Power SmcUser.
Import SE UserPage ConfigItem MasterKey SealedKeys TitleKey Gcm RandomCache SmcUser.

Class Frame (R : World -> World -> Prop) := {
  frame_preorder :: PreOrder R;
  frame_mmio : forall w f, R w (w <| w_mmio ::= f |>);
  frame_phys : forall w f, R w (w <| w_phys ::= f |>);
  frame_l3 : forall w f, R w (w <| w_l3 ::= f |>);
  frame_drv : forall w f, R w (w <| w_drv ::= f |>);
  frame_cfg : forall w f, R w (w <| w_cfg ::= f |>);
  frame_fuse : forall w f, R w (w <| w_fuse ::= f |>);
  frame_mkey : forall w f, R w (w <| w_mkey ::= f |>);
  frame_tkey : forall w f, R w (w <| w_tkey ::= f |>);
  frame_rand : forall w f, R w (w <| w_rand ::= f |>);
  frame_mc : forall w f, R w (w <| w_mc ::= f |>);
  frame_cpu : forall w f, R w (w <| w_cpu ::= f |>);
  frame_intr : forall w f, R w (w <| w_intr ::= f |>);
  frame_upage : forall w f, R w (w <| w_upage ::= f |>);
  frame_ams : forall w f, R w (w <| w_ams ::= f |>);
  frame_user : forall w f, R w (w <| w_user ::= f |>) }.

(** A [modify] of one framed component. *)
Ltac frame_modify :=
  apply keeps_modify; intros;
  first [apply frame_mmio | apply frame_phys | apply frame_l3 | apply frame_drv | apply frame_cfg
        | apply frame_fuse | apply frame_mkey | apply frame_tkey | apply frame_rand | apply frame_mc
        | apply frame_cpu | apply frame_intr | apply frame_upage | apply frame_ams | apply frame_user].
#[export] Hint Extern 1 (keeps _ (modify _)) => frame_modify : keeps.

(** Unfolds the named function at the head of a [keeps] goal. *)
Ltac keeps_unfold :=
  match goal with
  | |- keeps _ ?m =>
      let rec head t := match t with ?f _ => head f | _ => t end in
      let h := head m in
      unfold h; cbn beta
  end.
Ltac frame_step :=
  match goal with
  | |- keeps _ (mbind _ _) => apply keeps_bind; [typeclasses eauto| |intros]
  | |- keeps _ (mret _) => apply keeps_ret; typeclasses eauto
  | |- keeps _ (gets _) => apply keeps_gets; typeclasses eauto
  | |- keeps _ spin => apply keeps_spin; typeclasses eauto
  | |- keeps _ fault => apply keeps_fault; typeclasses eauto
  | |- keeps _ (raise_panic _) => apply keeps_raise_panic; typeclasses eauto
  | |- keeps _ (modify _) => frame_modify
  | |- keeps _ (for_each _ _) => apply keeps_for_each; [typeclasses eauto|intros]
  | |- keeps _ (fold_m _ _ _) => apply keeps_fold_m; [typeclasses eauto|intros]
  | |- keeps _ (if ?b then _ else _) => destruct b
  | |- keeps _ (match ?x with _ => _ end) => destruct x
  | |- keeps _ (let _ := _ in _) => cbv zeta
  end.
Ltac frame := intros; repeat first
  [ solve [eauto 3 with keeps nocore typeclass_instances] | frame_step | keeps_unfold ].

Section Base.
Context {soc : SoC} (R : World -> World -> Prop) {HF : Frame R}.

Lemma keeps_reg_read a : keeps R (reg_read a).
Proof. frame. Qed.
Lemma keeps_reg_write a v : keeps R (reg_write a v).
Proof. frame. Qed.
Lemma keeps_get_core_id : keeps R get_core_id.
Proof. frame. Qed.
Hint Resolve keeps_reg_read keeps_reg_write keeps_get_core_id : keeps.

Lemma keeps_reg_update a f : keeps R (reg_update a f).
Proof. frame. Qed.
Lemma keeps_wait us : keeps R (wait us).
Proof. frame. Qed.
Lemma keeps_panic {A} c : keeps R (panic c : M A).
Proof. frame. Qed.
Hint Resolve keeps_reg_update keeps_wait keeps_panic : keeps.

Lemma keeps_generic_panic {A} : keeps R (generic_panic : M A).
Proof. frame. Qed.
Lemma keeps_target_firmware : keeps R exosphere_get_target_firmware.
Proof. frame. Qed.
Lemma keeps_set_se_callback cb : keeps R (set_security_engine_callback cb).
Proof. destruct cb; frame. Qed.
End Base.
#[export] Hint Resolve keeps_set_se_callback keeps_reg_read keeps_reg_write keeps_get_core_id keeps_reg_update keeps_wait
  keeps_panic keeps_generic_panic keeps_target_firmware : keeps.

(** What the driver promises: the only key slots it loads are the ones it is
    asked to load. *)
Class SeFrame {soc : SoC} (R : World -> World -> Prop) (slot_ok : Z -> Prop) := {
  se_frame :: Frame R;
  sf_set_aes_keyslot slot key n : slot_ok slot -> keeps R (set_aes_keyslot slot key n);
  sf_decrypt_into dst src key n : slot_ok dst -> keeps R (decrypt_data_into_keyslot dst src key n);
  sf_set_rsa_keyslot slot m mn e en : keeps R (set_rsa_keyslot slot m mn e en);
  sf_exp_mod slot buf n cb : keeps R (se_exp_mod slot buf n cb);
  sf_random slot dst n : keeps R (se_generate_random slot dst n);
  sf_sha256 src n : keeps R (se_calculate_sha256 src n);
  sf_ecb_decrypt slot dn src n : keeps R (se_aes_ecb_decrypt_block slot dn src n);
  sf_ecb_encrypt slot dn src n : keeps R (se_aes_128_ecb_encrypt_block slot dn src n);
  sf_ctr slot dst dn src n ctr cn : keeps R (se_aes_ctr_crypt slot dst dn src n ctr cn);
  sf_cmac slot cn data n : keeps R (se_compute_aes_128_cmac slot cn data n);
  sf_cbc_encrypt_insecure slot o i n iv cb : keeps R (se_aes_cbc_encrypt_insecure slot o i n iv cb);
  sf_cbc_decrypt_insecure slot o i n iv cb : keeps R (se_aes_cbc_decrypt_insecure slot o i n iv cb);
  sf_ctr_insecure slot o i n ctr cb : keeps R (se_aes_ctr_crypt_insecure slot o i n ctr cb);
  sf_check_for_error : keeps R se_check_for_error;
  sf_int_enable v : keeps R (se_write INT_ENABLE_REG v) }.
#[export] Hint Resolve sf_set_rsa_keyslot sf_exp_mod sf_random sf_sha256 sf_ecb_decrypt sf_ecb_encrypt
  sf_ctr sf_cmac sf_cbc_encrypt_insecure sf_cbc_decrypt_insecure sf_ctr_insecure
  sf_check_for_error sf_int_enable : keeps.

Section Clients.
Context {soc : SoC} (R : World -> World -> Prop) (slot_ok : Z -> Prop) {HS : SeFrame R slot_ok}.
Hypothesis slot_temp : slot_ok KEYSLOT_SWITCH_TEMPKEY.
Hypothesis slot_user : forall s, 0 <= s <= 5 -> slot_ok s.

Hint Resolve slot_temp sf_set_aes_keyslot sf_decrypt_into : keeps.

Lemma keeps_mkey_get_keyslot r : keeps R (mkey_get_keyslot r).
Proof. frame. Qed.
Lemma keeps_devkey_get_keyslot r : keeps R (devkey_get_keyslot r).
Proof. frame. Qed.
Hint Resolve keeps_mkey_get_keyslot keeps_devkey_get_keyslot : keeps.

Lemma keeps_seal_titlekey dn src n : keeps R (seal_titlekey dn src n).
Proof. frame. Qed.
Lemma keeps_unseal_titlekey slot src n : slot_ok slot -> keeps R (unseal_titlekey slot src n).
Proof. frame. Qed.
Lemma keeps_seal_key dn src n u : keeps R (seal_key dn src n u).
Proof. frame. Qed.
Lemma keeps_unseal_key slot src n u : slot_ok slot -> keeps R (unseal_key slot src n u).
Proof. frame. Qed.
Hint Resolve keeps_seal_titlekey keeps_unseal_titlekey keeps_seal_key keeps_unseal_key : keeps.

Lemma keeps_mgf1_rounds n r m s : keeps R (mgf1_rounds n r m s).
Proof. revert r m. induction n; frame. Qed.
Hint Resolve keeps_mgf1_rounds : keeps.
Lemma keeps_oaep_unwrap dn src n : keeps R (tkey_rsa_oaep_unwrap dn src n).
Proof. frame. Qed.
Lemma keeps_tkey_aes_unwrap dn src n : keeps R (tkey_aes_unwrap dn src n).
Proof. frame. Qed.
Hint Resolve keeps_oaep_unwrap keeps_tkey_aes_unwrap : keeps.

Lemma keeps_gcm_decrypt dst dn src n k kn w wn u p : keeps R (gcm_decrypt_key dst dn src n k kn w wn u p).
Proof. frame. Qed.
Lemma keeps_gcm_encrypt dst dn src n k kn w wn u p : keeps R (gcm_encrypt_key dst dn src n k kn w wn u p).
Proof. frame. Qed.
Lemma keeps_refill : keeps R randomcache_refill.
Proof. frame. Qed.
Lemma keeps_getbytes n : keeps R (randomcache_getbytes n).
Proof. frame. Qed.
Hint Resolve keeps_gcm_decrypt keeps_gcm_encrypt keeps_refill keeps_getbytes : keeps.

Lemma keeps_upage_init a : keeps R (upage_init a).
Proof. frame. Qed.
Lemma keeps_user_copy p a n : keeps R (user_copy_to_secure p a n).
Proof. frame. Qed.
Lemma keeps_secure_copy p a b n : keeps R (secure_copy_to_user p a b n).
Proof. frame. Qed.
Hint Resolve keeps_upage_init keeps_user_copy keeps_secure_copy : keeps.

Lemma keeps_fuse_wait_idle_loop n : keeps R (Fuse.fuse_wait_idle_loop n).
Proof. induction n; frame. Qed.
Hint Resolve keeps_fuse_wait_idle_loop : keeps.
Lemma keeps_fuse_hw_read a : keeps R (Fuse.fuse_hw_read a).
Proof. frame. Qed.
Hint Resolve keeps_fuse_hw_read : keeps.
Lemma keeps_ipatch_loop n a b : keeps R (Fuse.ipatch_loop n a b).
Proof. revert a b. induction n; intros; cbn [Fuse.ipatch_loop]; frame. Qed.
Hint Resolve keeps_ipatch_loop : keeps.
Lemma keeps_configitem_get p i : keeps R (configitem_get p i).
Proof. frame. Qed.
Lemma keeps_configitem_set p i v : keeps R (configitem_set p i v).
Proof. frame. Qed.
Hint Resolve keeps_configitem_get keeps_configitem_set : keeps.

(** ** The user SMC handlers *)

Lemma user_keyslot_valid_range keyslot w v w' :
  is_user_keyslot_valid keyslot w = (Ret v, w') -> v = true -> keyslot <= 5.
Proof.
  unfold is_user_keyslot_valid. intros H ->. apply bind_ret_inv in H as (fw & w1 & _ & H).
  injection H as H _. destruct (_ && _); lia.
Qed.

(** A handler that runs [k] only on a valid key slot. *)
Lemma keeps_if_valid_slot {A} keyslot (b : bool -> bool) (m k : M A) :
  0 <= keyslot -> (forall v, v = false -> b v = true) ->
  keeps R m -> (0 <= keyslot <= 5 -> keeps R k) ->
  keeps R (v ← is_user_keyslot_valid keyslot; if b v then m else k).
Proof.
  intros H0 Hb Hm Hk.
  apply (keeps_bind_ret R (fun v : bool => v = true -> keyslot <= 5)); [frame| |].
  - intros w v w' E. eauto using user_keyslot_valid_range.
  - intros v Hv. destruct (b v) eqn:E; [done|]. apply Hk.
    destruct v; [auto|]. rewrite Hb in E; done.
Qed.

Lemma u32_nonneg x : 0 <= u32 x.
Proof. apply (u32_range x). Qed.
Lemma land_nonneg a b : 0 <= b -> 0 <= a .& b.
Proof. intros. apply Z.land_nonneg. auto. Qed.

Lemma keeps_user_load_aes_key args : keeps R (user_load_aes_key args).
Proof.
  apply (keeps_if_valid_slot _ negb); [apply u32_nonneg|by intros ? ->|frame|].
  intros Hs. pose proof (slot_user _ Hs). frame.
Qed.
Lemma keeps_user_load_titlekey args : keeps R (user_load_titlekey args).
Proof.
  apply (keeps_if_valid_slot _ negb); [apply u32_nonneg|by intros ? ->|frame|].
  intros Hs. pose proof (slot_user _ Hs). frame.
Qed.
Lemma keeps_user_exp_mod args : keeps R (user_exp_mod args).
Proof. frame. Qed.
Lemma keeps_user_get_random_bytes args : keeps R (user_get_random_bytes args).
Proof. frame. Qed.
Lemma keeps_user_generate_aes_kek args : keeps R (user_generate_aes_kek args).
Proof. frame. Qed.
Lemma keeps_user_crypt_aes args : keeps R (user_crypt_aes args).
Proof. frame. Qed.
Lemma keeps_user_generate_specific_aes_key args : keeps R (user_generate_specific_aes_key args).
Proof. frame. Qed.
Lemma keeps_user_compute_cmac args : keeps R (user_compute_cmac args).
Proof. frame. Qed.
Lemma keeps_user_load_rsa_oaep_key args : keeps R (user_load_rsa_oaep_key args).
Proof. frame. Qed.
Lemma keeps_user_decrypt_rsa_private_key args : keeps R (user_decrypt_rsa_private_key args).
Proof. frame. Qed.
Lemma keeps_user_load_secure_exp_mod_key args : keeps R (user_load_secure_exp_mod_key args).
Proof. frame. Qed.
Lemma keeps_user_secure_exp_mod args : keeps R (user_secure_exp_mod args).
Proof. frame. Qed.
Lemma keeps_user_unwrap_rsa_oaep args : keeps R (user_unwrap_rsa_oaep_wrapped_titlekey args).
Proof. frame. Qed.
Lemma keeps_user_unwrap_aes_wrapped args : keeps R (user_unwrap_aes_wrapped_titlekey args).
Proof. frame. Qed.
Lemma keeps_user_encrypt_rsa_key args : keeps R (user_encrypt_rsa_key_for_import args).
Proof. frame. Qed.
Lemma keeps_user_decrypt_or_import args : keeps R (user_decrypt_or_import_rsa_key args).
Proof. frame. Qed.
Lemma keeps_ams_iram_copy args : keeps R (AMS.ams_iram_copy args).
Proof. frame. Qed.
Lemma keeps_ams_write_address args : keeps R (AMS.ams_write_address args).
Proof. frame. Qed.
Lemma keeps_ams_get_emummc_config args : keeps R (AMS.ams_get_emummc_config args).
Proof. frame. Qed.
Lemma keeps_se_operation_completed : keeps R (se_operation_completed run_se_callback).
Proof. frame. Qed.
Lemma keeps_get_exp_mod_output n : keeps R (se_get_exp_mod_output n).
Proof. frame. Qed.
End Clients.

(** ** First implementation: the SMC state, the configuration and the core number
    are not touched, whatever the engine does *)

Definition same_smc (w w' : World) : Prop :=
  w_smc w' = w_smc w /\ w_exo w' = w_exo w /\ w_core w' = w_core w.

#[export] Instance same_smc_preorder : PreOrder same_smc.
Proof.
  split; [done|]. intros a b c (?&?&?) (?&?&?). unfold same_smc. repeat split; congruence.
Qed.
#[export] Instance same_smc_frame : Frame same_smc.
Proof. split; [apply _|intros; done..]. Qed.

Section SameSmc.
Context {soc : SoC}.

Lemma same_se_write off v : keeps same_smc (se_write off v).
Proof. apply keeps_modify. done. Qed.
Lemma same_se_run op i o : keeps same_smc (se_run op i o).
Proof. intros w. done. Qed.
Hint Resolve same_se_write same_se_run : keeps.
Lemma same_trigger_blocking op d s : keeps same_smc (trigger_se_blocking_op op d s).
Proof. frame. Qed.
Hint Resolve same_trigger_blocking : keeps.

#[export] Instance same_smc_se_frame : SeFrame same_smc (fun _ => True).
Proof. split; [apply _|frame..]. Qed.
End SameSmc.

(** ** Second implementation: the key words of slots 0xA..0xF are not written *)

(** Key table addresses of the key words (not the IV words) of the session,
    RNG, master and device key slots. *)
Definition protected_word (a : Z) : Prop := 0xA0 <= a < 0x100 /\ a mod 16 < 8.

(** The slot the engine's output goes to is not one of them. *)
Definition dst_is_keytab (config : Z) : Prop := (config >>. 2) .& 7 = 2.
Definition dst_slot_safe (h : se_hw) : Prop :=
  dst_is_keytab (se_regs h CONFIG_REG) ->
  0 <= (se_regs h CRYPTO_KEYTABLE_DST_REG >>. 8) .& 0xF <= 9.

(** Documented behaviour of the engine: it writes key words only in the slot of
    CRYPTO_KEYTABLE_DST, when CONFIG selects the key table as destination; it
    does not write the two registers itself. *)
Class EngineKeyFrame (soc : SoC) := {
  engine_key_words op i o h a :
    a mod 16 < 8 ->
    (dst_is_keytab (se_regs h CONFIG_REG) ->
     a / 16 <> (se_regs h CRYPTO_KEYTABLE_DST_REG >>. 8) .& 0xF) ->
    aes_keytable (fst (se_engine op i o h)) a = aes_keytable h a;
  engine_config op i o h :
    se_regs (fst (se_engine op i o h)) CONFIG_REG = se_regs h CONFIG_REG;
  engine_keytable_dst op i o h :
    se_regs (fst (se_engine op i o h)) CRYPTO_KEYTABLE_DST_REG = se_regs h CRYPTO_KEYTABLE_DST_REG }.

Definition same_keys (w w' : World) : Prop :=
  forall a, protected_word a -> aes_keytable (w_se w') a = aes_keytable (w_se w) a.
(** The same, for code that runs with a safe destination and leaves one. *)
Definition same_keys_safe (w w' : World) : Prop :=
  dst_slot_safe (w_se w) -> same_keys w w' /\ dst_slot_safe (w_se w').

#[export] Instance same_keys_preorder : PreOrder same_keys.
Proof. split; [done|]. intros x y z H1 H2 a Ha. by rewrite H2, H1. Qed.
#[export] Instance same_keys_frame : Frame same_keys.
Proof. split; [apply _|intros; done..]. Qed.
#[export] Instance same_keys_safe_preorder : PreOrder same_keys_safe.
Proof.
  split; [done|]. intros x y z H1 H2 Hx. destruct (H1 Hx) as [K1 Hy]. destruct (H2 Hy) as [K2 Hz].
  split; [|done]. by transitivity y.
Qed.
#[export] Instance same_keys_safe_frame : Frame same_keys_safe.
Proof. split; [apply _|intros; done..]. Qed.

Section SameKeys.
Context {soc : SoC} {HE : EngineKeyFrame soc}.

(** Registers whose stores neither reach the key table nor select a destination. *)
Definition plain_reg (off : Z) : Prop :=
  off <> AES_KEYTABLE_DATA /\ off <> CONFIG_REG /\ off <> CRYPTO_KEYTABLE_DST_REG.

Lemma keys_se_write off v : off <> AES_KEYTABLE_DATA -> keeps same_keys (se_write off v).
Proof. intros H. apply keeps_modify. intros w a _. by apply hw_write_keytable. Qed.
Lemma safe_se_write off v : plain_reg off -> keeps same_keys_safe (se_write off v).
Proof.
  intros (H1 & H2 & H3). apply keeps_modify. intros w Hw. split.
  - intros a _. by apply hw_write_keytable.
  - revert Hw. unfold dst_slot_safe. rewrite w_se_update, !hw_write_regs, !upd_ne; auto.
Qed.
Lemma config_written_safe v w :
  ~ dst_is_keytab v -> dst_slot_safe (w_se (w <| w_se ::= hw_write CONFIG_REG v |>)).
Proof. intros H Hd. by rewrite w_se_update, hw_write_regs, upd_eq in Hd. Qed.
Lemma safe_se_write_config v : ~ dst_is_keytab v -> keeps same_keys_safe (se_write CONFIG_REG v).
Proof.
  intros H. apply keeps_modify. intros w _. split.
  - intros a _. by apply hw_write_keytable.
  - by apply config_written_safe.
Qed.

(** Once CONFIG selects another destination the rest runs safely. *)
Lemma keys_config {A} v (k : M A) :
  ~ dst_is_keytab v -> keeps same_keys_safe k -> keeps same_keys (se_write CONFIG_REG v ;; k).
Proof.
  intros Hv Hk w. unfold mbind, M_bind, se_write, modify.
  set (w1 := w <| w_se ::= hw_write CONFIG_REG v |>). transitivity w1.
  - intros a _. by apply hw_write_keytable.
  - apply (Hk w1). by apply config_written_safe.
Qed.

Lemma safe_se_run op i o : keeps same_keys_safe (se_run op i o).
Proof.
  intros w Hw. split.
  - intros a [Ha Hm]. cbn. apply engine_key_words; [done|]. intros Hd Hs. specialize (Hw Hd).
    assert (10 <= a / 16) by (apply Z.div_le_lower_bound; lia). lia.
  - unfold dst_slot_safe. cbn [se_run snd]. change (w_se _) with (fst (se_engine op i o (w_se w))).
    by rewrite engine_config, engine_keytable_dst.
Qed.
Lemma safe_keys_store addr v : ~ protected_word addr -> keeps same_keys_safe (aes_keytable_store addr v).
Proof.
  intros Ha w Hw. rewrite run_aes_keytable_store. split.
  - intros a Hp. cbn [snd]. rewrite w_se_update, hw_keytable_store_aes, upd_ne; [done|]. by intros ->.
  - revert Hw. unfold dst_slot_safe. cbn [snd]. rewrite w_se_update, !hw_keytable_store_regs; done.
Qed.
Lemma keys_store addr v : ~ protected_word addr -> keeps same_keys (aes_keytable_store addr v).
Proof.
  intros Ha w a Hp. rewrite run_aes_keytable_store. cbn [snd].
  rewrite w_se_update, hw_keytable_store_aes, upd_ne; [done|]. by intros ->.
Qed.

Lemma key_word_unprotected slot i : 0 <= slot <= 9 -> 0 <= i < 16 -> ~ protected_word ((slot <<. 4) .| i).
Proof. intros ? ? [H _]. rewrite lor_shiftl_add in H by lia. lia. Qed.
Lemma iv_word_unprotected slot i : 0 <= i < 4 -> ~ protected_word ((slot <<. 4) .| 8 .| i).
Proof.
  intros Hi [_ H]. assert (E : 8 .| i = 8 + i).
  { assert (i = 0 \/ i = 1 \/ i = 2 \/ i = 3) as [->|[->|[->| ->]]] by lia; reflexivity. }
  rewrite <- Z.lor_assoc, E, lor_shiftl_add in H by lia.
  rewrite Z.add_comm, Z.mod_add, Z.mod_small in H; lia.
Qed.

(** A guard with a panic, then stores. *)
Ltac plain := unfold plain_reg; repeat split; intros ?; discriminate || lia.

Lemma keys_set_aes_keyslot_iv slot iv n : keeps same_keys (set_aes_keyslot_iv slot iv n).
Proof.
  unfold set_aes_keyslot_iv. destruct (_ || _) eqn:E; [frame|]. apply orb_false_elim in E as [_ E].
  apply keeps_for_each_in; [apply _|]. intros i Hi%elem_of_range.
  apply keys_store, iv_word_unprotected. rewrite Z.shiftr_div_pow2 in Hi by lia.
  assert (n / 2 ^ 2 <= 4) by (apply Z.div_le_upper_bound; lia). lia.
Qed.
Lemma safe_clear_aes_keyslot_iv slot : keeps same_keys_safe (clear_aes_keyslot_iv slot).
Proof.
  unfold clear_aes_keyslot_iv. destruct (_ >=? _); [frame|].
  apply keeps_for_each_in; [apply _|]. intros i Hi%elem_of_range.
  by apply safe_keys_store, iv_word_unprotected.
Qed.
Lemma keys_set_se_ctr ctr : keeps same_keys (set_se_ctr ctr).
Proof.
  apply keeps_for_each_in; [apply _|]. intros i Hi%elem_of_range.
  apply keys_se_write. intros ?. unfold CRYPTO_CTR_REG, AES_KEYTABLE_DATA in *. lia.
Qed.
Lemma safe_set_se_ctr ctr : keeps same_keys_safe (set_se_ctr ctr).
Proof.
  apply keeps_for_each_in; [apply _|]. intros i Hi%elem_of_range.
  apply safe_se_write. unfold plain_reg, CRYPTO_CTR_REG, AES_KEYTABLE_DATA, CONFIG_REG, CRYPTO_KEYTABLE_DST_REG.
  lia.
Qed.

Hint Resolve safe_clear_aes_keyslot_iv safe_set_se_ctr keys_set_se_ctr keys_set_aes_keyslot_iv
  safe_se_run : keeps.
Hint Extern 1 (keeps same_keys_safe (se_write CONFIG_REG _)) =>
  apply safe_se_write_config; intros ?; discriminate : keeps.
Hint Extern 2 (keeps same_keys_safe (se_write _ _)) => apply safe_se_write; plain : keeps.
Hint Extern 1 (keeps same_keys (se_write CONFIG_REG _ ;; _)) => fail : keeps.
Hint Extern 2 (keeps same_keys (se_write _ _)) => apply keys_se_write; discriminate : keeps.

Lemma safe_trigger_blocking op d s : keeps same_keys_safe (trigger_se_blocking_op op d s).
Proof. frame. Qed.
Hint Resolve safe_trigger_blocking : keeps.

Ltac keys_frame := intros; repeat first
  [ match goal with
    | |- keeps same_keys (mbind _ (se_write CONFIG_REG _)) => apply keys_config; [discriminate|]
    end
  | solve [eauto 3 with keeps nocore typeclass_instances] | frame_step | keeps_unfold ].

Lemma keys_set_aes_keyslot slot key n : 0 <= slot <= 9 -> keeps same_keys (set_aes_keyslot slot key n).
Proof.
  intros Hs. unfold set_aes_keyslot. destruct (_ || _) eqn:E; [frame|].
  apply orb_false_elim in E as [_ E]. apply keeps_for_each_in; [apply _|]. intros i Hi%elem_of_range.
  apply keys_store, key_word_unprotected; [done|]. rewrite Z.shiftr_div_pow2 in Hi by lia.
  assert (n / 2 ^ 2 <= 8) by (apply Z.div_le_upper_bound; unfold KEYSIZE_AES_MAX in E; lia). lia.
Qed.

(** The destination slot is selected before the engine starts. *)
Lemma keys_keytable_dst {A} dst (k : M A) :
  0 <= dst <= 9 -> keeps same_keys_safe k ->
  keeps same_keys (se_write CRYPTO_KEYTABLE_DST_REG (u32 (dst <<. 8)) ;; k).
Proof.
  intros Hd Hk w. unfold mbind, M_bind, se_write, modify.
  set (w1 := w <| w_se ::= _ |>). transitivity w1.
  - intros a _. by apply hw_write_keytable.
  - apply (Hk w1). intros _. unfold w1. rewrite w_se_update, hw_write_regs, upd_eq.
    assert (E : dst = 0 \/ dst = 1 \/ dst = 2 \/ dst = 3 \/ dst = 4 \/ dst = 5 \/ dst = 6 \/ dst = 7
                \/ dst = 8 \/ dst = 9) by lia.
    by repeat destruct E as [->|E]; [..|subst].
Qed.
Lemma keys_decrypt_into dst src key n :
  0 <= dst <= 9 -> keeps same_keys (decrypt_data_into_keyslot dst src key n).
Proof.
  intros Hd. unfold decrypt_data_into_keyslot. destruct (_ || _); [frame|].
  do 3 (apply keeps_bind; [apply _|by apply keys_se_write|intros _]).
  apply keys_keytable_dst; [done|]. frame.
Qed.
Hint Resolve keys_set_aes_keyslot keys_decrypt_into : keeps.

Lemma keys_exp_mod slot buf n cb : keeps same_keys (se_exp_mod slot buf n cb).
Proof.
  unfold se_exp_mod, rsa_op_setup. destruct (_ || _); [frame|].
  apply keeps_bind_assoc, keys_config; [discriminate|]. frame.
Qed.
Hint Resolve keys_exp_mod : keeps.

#[export] Instance same_keys_se_frame : SeFrame same_keys (fun s => 0 <= s <= 9).
Proof. split; [apply _|keys_frame..]. Qed.
End SameKeys.
