(* ===== verification/SmcProps.v ===== *)
(** The SMC dispatcher and the lock of the user SMCs (smc_api.c). *)
From S2P Require Import Prelude State Utils Se Pages Config Keys Power SmcUser SmcApi Platform Frame.
Import SE UserPage ConfigItem SealedKeys TitleKey RandomCache SmcUser SmcApi.

(** ** Calls that never return *)

Section Never.
Context {soc : SoC}.
Lemma never_panic {A} c : never_returns (panic c : M A).
Proof. never. Qed.
Lemma never_generic_panic {A} : never_returns (generic_panic : M A).
Proof. never. Qed.
Lemma never_smc_panic args : never_returns (smc_panic args).
Proof. never. Qed.
Lemma never_smc_cpu_off args : never_returns (smc_cpu_off args).
Proof.
  intros w a w' E. apply bind_ret_inv in E as (r & w1 & E & _). revert E.
  assert (H : never_returns Cpu.cpu_off) by never. apply H.
Qed.

(** CPU_SUSPEND returns only to refuse a power state. *)
Lemma cpu_suspend_returns p e a w r w' :
  Sc7.cpu_suspend p e a w = (Ret r, w') -> w' = w /\ r = 0xFFFFFFFD.
Proof.
  unfold Sc7.cpu_suspend. destruct (negb _).
  - by intros [= <- <-].
  - intros E. exfalso. revert E. match goal with |- ?m w = _ -> _ => assert (H : never_returns m) by never end.
    apply H.
Qed.
End Never.

(** ** Handlers that leave the SMC state alone *)

Section Same.
Context {soc : SoC}.

Hint Resolve keeps_configitem_get keeps_configitem_set keeps_upage_init keeps_secure_copy
  keeps_getbytes keeps_refill keeps_user_get_random_bytes keeps_get_exp_mod_output : keeps.

Lemma same_poll_toggle n : keeps same_smc (Cpu.poll_toggle n).
Proof. induction n; frame. Qed.
Lemma same_poll_status n m : keeps same_smc (Cpu.poll_status n m).
Proof. induction n; frame. Qed.
Hint Resolve same_poll_toggle same_poll_status : keeps.
Lemma same_cpu_on c e a : keeps same_smc (Cpu.cpu_on c e a).
Proof. frame. Qed.
Hint Resolve same_cpu_on : keeps.

Lemma same_set_config args : keeps same_smc (smc_set_config_user args).
Proof. frame. Qed.
Lemma same_get_config p args : keeps same_smc (smc_get_config p args).
Proof. frame. Qed.
Lemma same_smc_cpu_on args : keeps same_smc (smc_cpu_on args).
Proof. frame. Qed.
Lemma same_read_write_register args : keeps same_smc (smc_read_write_register args).
Proof. frame. Qed.
Lemma same_fiq : keeps same_smc fiq.
Proof.
  pose proof (keeps_se_operation_completed same_smc _).
  frame.
Qed.
End Same.

(** ** The protocol of the user SMC lock *)

Module Protocol.

(** What a returning SMC may do to the lock, the callback and its key. *)
Inductive proto_step (s : smc_api_state) : smc_api_state -> Prop :=
| p_none : proto_step s s
| p_begin cb key :
    g_is_user_smc_in_progress s = false -> g_smc_callback_key s = 0 -> key <> 0 ->
    proto_step s (s <| g_is_user_smc_in_progress := true |> <| g_smc_callback_key := key |>
                    <| g_smc_callback := Some cb |>)
| p_refuse cb :
    g_is_user_smc_in_progress s = false -> g_smc_callback_key s = 0 ->
    proto_step s (s <| g_smc_callback := Some cb |>)
| p_poll :
    g_smc_callback_key s <> 0 -> proto_step s (s <| g_smc_callback_key := 0 |>)
| p_complete :
    g_smc_callback_key s <> 0 ->
    proto_step s (s <| g_smc_callback_key := 0 |> <| g_is_user_smc_in_progress := false |>)
| p_carveouts l : proto_step s (s <| g_configured_carveouts := l |>).

(** A key is outstanding only while the lock is held and a callback is set. *)
Definition key_inv (s : smc_api_state) : Prop :=
  g_smc_callback_key s <> 0 -> g_is_user_smc_in_progress s = true /\ g_smc_callback s <> None.
(** The lock is held and nobody holds a key to release it. *)
Definition stuck (s : smc_api_state) : Prop :=
  g_is_user_smc_in_progress s = true /\ g_smc_callback_key s = 0.

Lemma key_inv_step s s' : proto_step s s' -> key_inv s -> key_inv s'.
Proof. intros Hs Hi. destruct Hs; unfold key_inv in *; cbn in *; auto; congruence. Qed.
Lemma stuck_step s s' : proto_step s s' -> stuck s -> stuck s'.
Proof. intros Hs [H1 H2]. destruct Hs; split; cbn in *; congruence. Qed.
End Protocol.
Import Protocol.

Section Effects.
Context {soc : SoC}.

Lemma set_lock_twice s b : g_is_user_smc_in_progress s = b ->
  s <| g_is_user_smc_in_progress := negb b |> <| g_is_user_smc_in_progress := b |> = s.
Proof. by destruct s; intros <-. Qed.
Lemma set_lock_same s b : g_is_user_smc_in_progress s = b -> s <| g_is_user_smc_in_progress := b |> = s.
Proof. by destruct s; intros <-. Qed.

Lemma try_lock_run w :
  try_set_user_smc_in_progress w = (Ret (negb (get_user_lock w)), set_user_lock true w).
Proof. done. Qed.

(** A synchronous SMC holds the lock only while it runs. *)
Lemma sync_effect args h w r w' :
  keeps same_smc (h args) -> smc_wrapper_sync args h w = (Ret r, w') ->
  w_smc w' = w_smc w /\ (get_user_lock w = true -> r = (3, args)).
Proof.
  intros Hh E. unfold smc_wrapper_sync in E. rewrite (run_bind _ _ _ _ _ (try_lock_run w)) in E.
  destruct (get_user_lock w) eqn:L; cbn [negb] in E.
  - injection E as <- <-. split; [by apply set_lock_same|done].
  - split; [|done]. apply bind_ret_inv in E as (x & w1 & E1 & E).
    apply bind_ret_inv in E as (? & w2 & [= _ <-] & [= _ <-]).
    specialize (Hh (set_user_lock true w)). rewrite E1 in Hh. destruct Hh as [Hs _].
    cbn [snd] in Hs. cbn. rewrite Hs. by apply (set_lock_twice _ false).
Qed.

Lemma cpu_suspend_effect args w r w' :
  smc_cpu_suspend args w = (Ret r, w') ->
  w_smc w' = w_smc w /\ (get_user_lock w = true -> r = (3, args)).
Proof.
  intros E. unfold smc_cpu_suspend, smc_wrapper_sync in E.
  rewrite (run_bind _ _ _ _ _ (try_lock_run w)) in E.
  destruct (get_user_lock w) eqn:L; cbn [negb] in E.
  - injection E as <- <-. split; [by apply set_lock_same|done].
  - split; [|done]. apply bind_ret_inv in E as (x & w1 & E1 & E).
    apply bind_ret_inv in E as (? & w2 & [= _ <-] & [= _ <-]).
    apply bind_ret_inv in E1 as (c & w3 & E1 & [= _ <-]).
    apply cpu_suspend_returns in E1 as [-> _]. cbn. by apply (set_lock_twice _ false).
Qed.

Lemma try_set_callback_effect cb w key w' :
  try_set_smc_callback cb w = (Ret key, w') ->
  w_exo w' = w_exo w /\
  (g_smc_callback_key (w_smc w) <> 0 /\ key = 0 /\ w_smc w' = w_smc w \/
   g_smc_callback_key (w_smc w) = 0 /\
   w_smc w' = (w_smc w) <| g_smc_callback_key := key |> <| g_smc_callback := Some cb |>).
Proof.
  intros E. unfold try_set_smc_callback in E. apply bind_ret_inv in E as (cur & w1 & [= <- <-] & E).
  destruct (Z.eqb_spec (g_smc_callback_key (w_smc w)) 0) as [Hz|Hz]; cbn [negb] in E.
  - apply bind_ret_inv in E as (bytes & w2 & E2 & E). injection E as <- <-.
    pose proof (sf_random KEYSLOT_SWITCH_RNGKEY (zeros 8) 8 w) as Hk. rewrite E2 in Hk.
    destruct Hk as (Hs & He & _). cbn [snd] in Hs, He. cbn. rewrite Hs. auto.
  - injection E as <- <-. auto.
Qed.

Lemma clear_key_effect key w : g_smc_callback_key (w_smc w) = key ->
  clear_smc_callback key w = (Ret tt, w <| w_smc ::= fun s => s <| g_smc_callback_key := 0 |> |>).
Proof. intros <-. unfold clear_smc_callback, mbind, M_bind, smc_callback_key, gets. by rewrite Z.eqb_refl. Qed.

(** Rewrites the final SMC state of a [proto_step] goal to [s']. *)
Ltac same_step s' :=
  lazymatch goal with
  | |- proto_step (w_smc ?w0) ?s =>
      let E := fresh in
      assert (E : s = s') by (cbn in *;
        repeat match goal with H : w_smc _ = _ |- _ => rewrite H; clear H end;
        destruct (w_smc w0); cbn in *; subst; reflexivity);
      rewrite E; clear E
  end.

Lemma async_effect args h cb w r w' :
  (forall a, keeps same_smc (h a)) -> smc_wrapper_async args h cb w = (Ret r, w') ->
  proto_step (w_smc w) (w_smc w') /\ (get_user_lock w = true -> r = (3, args)).
Proof.
  intros Hh E. unfold smc_wrapper_async in E. rewrite (run_bind _ _ _ _ _ (try_lock_run w)) in E.
  destruct (get_user_lock w) eqn:L; cbn [negb] in E.
  { injection E as <- <-. split; [|done]. cbn. rewrite set_lock_same by done. constructor. }
  split; [|done]. apply bind_ret_inv in E as (key & w1 & E1 & E).
  apply try_set_callback_effect in E1 as [_ E1]. cbn in E1. unfold get_user_lock in L.
  destruct (Z.eqb_spec key 0) as [->|Hkey]; cbn [negb] in E.
  - injection E as <- <-. destruct E1 as [(_ & _ & E1)|(Hz & E1)].
    + same_step (w_smc w). constructor.
    + same_step ((w_smc w) <| g_smc_callback := Some cb |>). by constructor.
  - destruct E1 as [(_ & ? & _)|(Hz & E1)]; [done|].
    apply bind_ret_inv in E as ([res args'] & w2 & E2 & E).
    pose proof (Hh args w1) as Hk. rewrite E2 in Hk. destruct Hk as [Hk _]. cbn [snd] in Hk.
    rewrite E1 in Hk. destruct (res =? 0).
    + injection E as <- <-.
      same_step ((w_smc w) <| g_is_user_smc_in_progress := true |>
        <| g_smc_callback_key := key |> <| g_smc_callback := Some cb |>).
      by constructor.
    + rewrite (run_bind _ _ _ _ _ (clear_key_effect key w2 ltac:(by rewrite Hk))) in E.
      injection E as <- <-. same_step ((w_smc w) <| g_smc_callback := Some cb |>). by constructor.
Qed.

(** Callbacks at most release the lock. *)
Definition releases (w w' : World) : Prop :=
  w_smc w' = w_smc w \/ w_smc w' = (w_smc w) <| g_is_user_smc_in_progress := false |>.
#[local] Instance releases_preorder : PreOrder releases.
Proof.
  split; [by left|]. intros x y z [H1|H1] [H2|H2]; unfold releases; rewrite H2, H1; auto.
Qed.
Lemma keeps_releases {A} (m : M A) : keeps same_smc m -> keeps releases m.
Proof. intros H w. left. apply H. Qed.

Lemma callback_effect buf size : keeps releases (run_smc_callback buf size).
Proof.
  assert (Hc : keeps releases clear_user_smc_in_progress) by (apply keeps_modify; by right).
  pose proof (fun n => keeps_releases _ (keeps_get_exp_mod_output same_smc _ n)).
  pose proof (fun a b c => keeps_releases _ (keeps_oaep_unwrap same_smc _ a b c)).
  pose proof (fun a b c => keeps_releases _ (keeps_tkey_aes_unwrap same_smc _ I a b c)).
  pose proof (fun a b c => keeps_releases _ (keeps_seal_titlekey same_smc _ I a b c)).
  frame.
Qed.

Lemma keeps_run {A} (m : M A) w o w' : keeps same_smc m -> m w = (o, w') -> same_smc w w'.
Proof. intros H E. specialize (H w). by rewrite E in H. Qed.

Lemma key_consumed w0 w1 :
  g_smc_callback_key (w_smc w0) <> 0 -> releases w0 w1 ->
  proto_step (w_smc w0) ((w_smc w1) <| g_smc_callback_key := 0 |>).
Proof.
  intros Hk [E|E]; rewrite E.
  - by constructor.
  - replace (update _ _ _) with ((w_smc w0) <| g_smc_callback_key := 0 |> <| g_is_user_smc_in_progress := false |>)
      by done.
    by constructor.
Qed.

(** Both polling SMCs: nothing without a key; the callback's key is consumed. *)
Lemma check_status_effect args w r w' :
  smc_check_status args w = (Ret r, w') -> proto_step (w_smc w) (w_smc w').
Proof.
  intros E. unfold smc_check_status in E. apply bind_ret_inv in E as (key & w1 & [= <- <-] & E).
  destruct (Z.eqb_spec (g_smc_callback_key (w_smc w)) 0) as [|Hk]; [injection E as _ <-; constructor|].
  destruct (negb _); [injection E as _ <-; constructor|].
  apply bind_ret_inv in E as (x & w1 & E1 & [= _ <-]).
  pose proof (callback_effect [] 0 w) as Hr. rewrite E1 in Hr. by apply (key_consumed w w1).
Qed.

Lemma get_result_effect args w r w' :
  smc_get_result args w = (Ret r, w') -> proto_step (w_smc w) (w_smc w').
Proof.
  intros E. unfold smc_get_result in E. apply bind_ret_inv in E as (key & w1 & [= <- <-] & E).
  destruct (Z.eqb_spec (g_smc_callback_key (w_smc w)) 0) as [|Hk]; [injection E as _ <-; constructor|].
  destruct (negb _); [injection E as _ <-; constructor|].
  destruct (_ >? _); [injection E as _ <-; constructor|].
  apply bind_ret_inv in E as ([st buf] & w1 & E1 & E).
  apply bind_ret_inv in E as (? & w2 & [= _ <-] & E).
  pose proof (callback_effect (uninit_buf 0x400) (X args 3) w) as Hr. rewrite E1 in Hr.
  set (args' := set_X _ _ _) in E.
  assert (Hs : keeps same_smc (with_upage args' (X args 2) (fun page_ref =>
    ok ← secure_copy_to_user page_ref (X args 2) buf (X args' 3);
    if negb ok then mret (2, args') else mret (0, args')))) by frame.
  apply (keeps_run _ _ _ _ Hs) in E as [-> _]. by apply (key_consumed w w1).
Qed.

Lemma random_priv_effect args w r w' :
  smc_get_random_bytes_for_priv args w = (Ret r, w') -> w_smc w' = w_smc w.
Proof.
  intros E. unfold smc_get_random_bytes_for_priv in E. rewrite (run_bind _ _ _ _ _ (try_lock_run w)) in E.
  destruct (get_user_lock w) eqn:L; cbn [negb] in E.
  - assert (Hk : keeps same_smc (if X args 1 >? 0x38 then mret (2, args)
       else bytes ← randomcache_getbytes (X args 1); mret (0, copy_to_X args 1 bytes))) by frame.
    apply (keeps_run _ _ _ _ Hk) in E as [-> _]. by apply set_lock_same.
  - apply bind_ret_inv in E as (x & w1 & E1 & E). apply bind_ret_inv in E as (y & w2 & E2 & [= _ <-]).
    apply (keeps_run _ _ _ _ (keeps_user_get_random_bytes same_smc _ args)) in E1 as [E1 _].
    apply (keeps_run _ _ _ _ (keeps_refill same_smc _)) in E2 as [E2 _].
    cbn in *. rewrite E2, E1. by apply (set_lock_twice _ false).
Qed.

Lemma configure_carveout_effect args w r w' :
  smc_configure_carveout args w = (Ret r, w') -> proto_step (w_smc w) (w_smc w').
Proof.
  intros E. unfold smc_configure_carveout in E. destruct (_ >? _); [injection E as _ <-; constructor|].
  destruct (_ >? _); [injection E as _ <-; constructor|].
  apply bind_ret_inv in E as (fw & w1 & E1 & E).
  apply (keeps_run _ _ _ _ (keeps_target_firmware same_smc)) in E1 as [E1 _].
  apply bind_ret_inv in E as (c & w2 & [= _ <-] & E). rewrite <- E1.
  destruct (_ && _); [injection E as _ <-; constructor|].
  apply bind_ret_inv in E as (x & w3 & E3 & [= _ <-]).
  assert (Hk : forall i a n, keeps same_smc (Mc.configure_kernel_carveout i a n)) by frame.
  apply (keeps_run _ _ _ _ (Hk _ _ _)) in E3 as [<- _].
  apply (p_carveouts (w_smc w3)).
Qed.

Create HintDb same.
Hint Resolve keeps_user_load_aes_key keeps_user_load_titlekey keeps_user_exp_mod
  keeps_user_get_random_bytes keeps_user_generate_aes_kek keeps_user_crypt_aes
  keeps_user_generate_specific_aes_key keeps_user_compute_cmac keeps_user_load_rsa_oaep_key
  keeps_user_decrypt_rsa_private_key keeps_user_load_secure_exp_mod_key keeps_user_secure_exp_mod
  keeps_user_unwrap_rsa_oaep keeps_user_unwrap_aes_wrapped keeps_user_encrypt_rsa_key
  keeps_user_decrypt_or_import keeps_ams_iram_copy keeps_ams_write_address
  keeps_ams_get_emummc_config same_smc_se_frame : same.
Hint Extern 1 => exact I : same.
Hint Extern 1 => exact (fun _ _ => I) : same.

(** Every handler that returns refines the protocol. *)
Lemma run_handler_effect h args w r w' :
  run_handler h args w = (Ret r, w') -> proto_step (w_smc w) (w_smc w').
Proof.
  destruct h; cbn [run_handler]; intros E;
    try (apply sync_effect in E as [-> _]; [constructor|by eauto with same]);
    try (apply async_effect in E as [E _]; [done|by eauto with same]);
    try (apply never_smc_panic in E; done); try (apply never_smc_cpu_off in E; done).
  all: try (apply (keeps_run _ _ _ _ (same_set_config args)) in E as [-> _]; constructor).
  all: try (apply (keeps_run _ _ _ _ (same_get_config _ args)) in E as [-> _]; constructor).
  all: try (apply (keeps_run _ _ _ _ (same_smc_cpu_on args)) in E as [-> _]; constructor).
  all: try (apply (keeps_run _ _ _ _ (same_read_write_register args)) in E as [-> _]; constructor).
  - by eapply check_status_effect.
  - by eapply get_result_effect.
  - apply cpu_suspend_effect in E as [-> _]. constructor.
  - apply random_priv_effect in E as ->. constructor.
  - by eapply configure_carveout_effect.
Qed.

Lemma call_ret_inv id args w r w' :
  call_smc_handler id args w = (Ret r, w') ->
  exists w1, same_smc w w1 /\
    (w' = w1 \/ exists h x, run_handler h args w1 = (Ret x, w') /\ r = set_X (snd x) 0 (fst x)).
Proof.
  intros E. unfold call_smc_handler in E.
  destruct (id >=? _); [exfalso; exact (never_generic_panic _ _ _ E)|].
  unfold get_core_id in E. rewrite run_gets in E.
  destruct (_ && _ && _); [exfalso; exact (never_generic_panic _ _ _ E)|].
  rewrite run_gets in E.
  destruct (nth_error _ _) as [entry|]; [|exfalso; exact (never_generic_panic _ _ _ E)].
  destruct (negb _); [exfalso; exact (never_generic_panic _ _ _ E)|].
  destruct (entry_handler entry) as [h|]; [|exfalso; exact (never_generic_panic _ _ _ E)].
  apply bind_ret_inv in E as (fw & w1 & E1 & E).
  apply (keeps_run _ _ _ _ (keeps_target_firmware same_smc)) in E1. exists w1. split; [done|].
  rewrite run_gets in E. destruct (_ || _).
  - right. apply bind_ret_inv in E as ([res a] & w2 & E2 & [= <- <-]). by exists h, (res, a).
  - left. by injection E as _ <-.
Qed.
End Effects.

(** ** The monitor as a transition system *)

Module Monitor.
Section Steps.
Context {soc : SoC}.

(** An SMC that returns, a FIQ, or anything the normal world and the devices do
    to memory and device registers between two entries, on any core. *)
Inductive monitor_step : World -> World -> Prop :=
| ms_call id args r w w' : call_smc_handler id args w = (Ret r, w') -> monitor_step w w'
| ms_fiq w w' : fiq w = (Ret tt, w') -> monitor_step w w'
| ms_outside core mmio phys par w :
    monitor_step w (w <| w_core := core |> <| w_mmio := mmio |> <| w_phys := phys |> <| w_par_el1 := par |>).

(** The handlers that take the user SMC lock. *)
Definition uses_lock (h : smc_handler) : bool :=
  match h with
  | smc_set_config_user_h | smc_get_config_user_h | smc_check_status_h | smc_get_result_h
  | smc_cpu_off_h | smc_cpu_on_h | smc_get_config_priv_h | smc_get_random_bytes_for_priv_h
  | smc_panic_h | smc_configure_carveout_h | smc_read_write_register_h => false
  | _ => true
  end.

Lemma locked_out h args w r w' :
  uses_lock h = true -> get_user_lock w = true -> run_handler h args w = (Ret r, w') -> r = (3, args).
Proof.
  intros Hu Hl. destruct h; try discriminate; cbn [run_handler]; intros E;
    unfold smc_cpu_suspend, smc_wrapper_sync, smc_wrapper_async in E;
    rewrite (run_bind _ _ _ _ _ (try_lock_run w)), Hl in E; by injection E as <- _.
Qed.

Lemma monitor_simulates w w' :
  monitor_step w w' -> proto_step (w_smc w) (w_smc w').
Proof.
  intros [id args r w1 w2 E|w1 w2 E|]; [| |constructor].
  - apply call_ret_inv in E as (w3 & [<- _] & [->|(h & x & E & _)]); [constructor|].
    by eapply run_handler_effect.
  - apply (keeps_run _ _ _ _ same_fiq) in E as [-> _]. constructor.
Qed.

Lemma reachable_inv (P : smc_api_state -> Prop) w w' :
  (forall s s', proto_step s s' -> P s -> P s') -> rtc monitor_step w w' -> P (w_smc w) -> P (w_smc w').
Proof. intros HP. induction 1; eauto using monitor_simulates. Qed.
(** C1: every returning SMC, FIQ and outside step refines one transition of the
    lock protocol: synchronous SMCs leave lock, callback and key as they were,
    an asynchronous one either hands out a key with the lock held or leaves it
    free, and a poll consumes the key. *)
Theorem monitor_refines_protocol w w' :
  monitor_step w w' -> proto_step (w_smc w) (w_smc w').
Proof. apply monitor_simulates. Qed.

(** C35: in every state reachable from one without an outstanding key, a callback
    key is outstanding only while the user SMC lock is held and a callback is
    registered: CheckStatus and GetResult never call a NULL callback. *)
Theorem outstanding_key_has_callback w w' :
  g_smc_callback_key (w_smc w) = 0 -> rtc monitor_step w w' ->
  g_smc_callback_key (w_smc w') <> 0 ->
  get_user_lock w' = true /\ exists cb, g_smc_callback (w_smc w') = Some cb.
Proof.
  intros H0 Hr Hk. assert (Hi : key_inv (w_smc w')).
  { eapply reachable_inv; [apply key_inv_step|done|]. by intros ?. }
  destruct (Hi Hk) as [? Hcb]. split; [done|]. destruct (g_smc_callback _); [by eexists|done].
Qed.

(** Polling an exponentiation before it is done loses the lock for good: the
    poll reports "busy" but consumes the key without releasing the lock, and in
    every state reachable from there every SMC that takes the lock returns 3. *)
Theorem early_poll_locks_out_user_smcs args w :
  get_user_lock w = true -> g_smc_callback_key (w_smc w) <> 0 ->
  X args 1 = g_smc_callback_key (w_smc w) ->
  g_smc_callback (w_smc w) = Some smc_exp_mod_get_result_cb -> g_exp_mod_done (w_user w) = false ->
  exists w1, smc_check_status args w = (Ret (0, set_X args 1 3), w1) /\
    forall w2, rtc monitor_step w1 w2 ->
    forall h a r w3, uses_lock h = true -> run_handler h a w2 = (Ret r, w3) -> r = (3, a).
Proof.
  intros Hl Hk Hx Hcb Hd.
  exists (w <| w_smc ::= fun s => s <| g_smc_callback_key := 0 |> |>). split.
  - unfold smc_check_status, smc_callback_key. rewrite run_gets, Hx, (proj2 (Z.eqb_neq _ _) Hk), Z.eqb_refl.
    cbn [negb]. rewrite (run_bind _ _ w (3, []) w); [done|]. unfold run_smc_callback. rewrite run_gets, Hcb.
    unfold smc_exp_mod_get_result, get_exp_mod_done. by rewrite run_gets, Hd.
  - intros w2 Hr h a r w3 Hu E. eapply locked_out; [done| |done].
    assert (Hs : stuck (w_smc w2)); [|apply Hs].
    eapply reachable_inv; [apply stuck_step|done|]. by split.
Qed.
End Steps.
End Monitor.

(** ** Witnesses *)

Module MonitorWitness.
Import Toy Monitor.

(** A pending exponentiation: the lock is held and key 0x77 is outstanding. *)
Definition pending_world : World :=
  (toy_world 11) <| w_smc ::= fun s =>
    s <| g_is_user_smc_in_progress := true |> <| g_smc_callback_key := 0x77 |>
      <| g_smc_callback := Some smc_exp_mod_get_result_cb |> |>.

Lemma monitor_refines_protocol_witness :
  exists w', proto_step (w_smc (toy_world 11)) (w_smc w') /\
             X (match call_smc_handler 0 [0xC3000002; 2; 0; 0; 0; 0; 0; 0] (toy_world 11) with
                | (Ret r, _) => r | _ => [] end) 0 = 0.
Proof.
  eexists (snd (call_smc_handler 0 [0xC3000002; 2; 0; 0; 0; 0; 0; 0] (toy_world 11))). split.
  - apply (monitor_refines_protocol (toy_world 11)).
    apply (ms_call 0 [0xC3000002; 2; 0; 0; 0; 0; 0; 0] [0; 0; 0; 0; 0; 0; 0; 0]).
    apply ret_fst. vm_compute. reflexivity.
  - vm_compute. reflexivity.
Defined.

Lemma outstanding_key_has_callback_witness :
  let w' := snd (call_smc_handler 0 [0xC3000009; 0; 0; 0; 0x80000000; 0x80000000; 16; 0] (toy_world 11)) in
  get_user_lock w' = true /\ exists cb, g_smc_callback (w_smc w') = Some cb.
Proof.
  apply (outstanding_key_has_callback (toy_world 11)).
  - reflexivity.
  - apply rtc_once.
    apply (ms_call 0 [0xC3000009; 0; 0; 0; 0x80000000; 0x80000000; 16; 0]
             [0; 0x5A5A5A5A5A5A5A5A; 0; 0; 0x80000000; 0x80000000; 16; 0]).
    apply ret_fst. vm_compute. reflexivity.
  - vm_compute. discriminate.
Defined.

Lemma early_poll_locks_out_user_smcs_witness :
  exists w1, smc_check_status [0xC3000003; 0x77; 0; 0; 0; 0; 0; 0] pending_world
             = (Ret (0, [0xC3000003; 3; 0; 0; 0; 0; 0; 0]), w1) /\
    forall w2, rtc monitor_step w1 w2 ->
    forall h a r w3, uses_lock h = true -> run_handler h a w2 = (Ret r, w3) -> r = (3, a).
Proof.
  apply (early_poll_locks_out_user_smcs [0xC3000003; 0x77; 0; 0; 0; 0; 0; 0] pending_world);
    [reflexivity|discriminate|reflexivity..].
Defined.
End MonitorWitness.
