(* ===== verification/SmcSafety.v ===== *)
(** What the SMCs protect: the monitor's keys, the device registers, the
    carveouts, the random cache; and that every SMC is reachable by its id. *)
From S2P Require Import Prelude State Utils Se Pages Config Keys Power SmcUser SmcApi Platform Frame SmcProps.
Import SE UserPage ConfigItem SealedKeys TitleKey RandomCache SmcUser SmcApi.

(** ** Key slots *)

(** CPU_SUSPEND, which rewrites key slots to save the engine, has one id. *)
Definition suspend_ok (e : smc_table_entry_t) : bool :=
  match entry_handler e with
  | Some smc_cpu_suspend_h => entry_id e =? 0xC4000001
  | _ => true
  end.
Definition tables_wf (s : smc_api_state) : bool :=
  forallb suspend_ok (g_smc_user_table s) && forallb suspend_ok (g_smc_priv_table s)
  && forallb suspend_ok (g_smc_ams_table s).

Section KeySafety.
Context {soc : SoC} {HE : EngineKeyFrame soc}.

Lemma keys_smc f : keeps same_keys (modify (fun w => w <| w_smc ::= f |>)).
Proof. apply keeps_modify. done. Qed.
Lemma keys_set_user_lock b : keeps same_keys (modify (set_user_lock b)).
Proof. apply keeps_modify. done. Qed.
Hint Resolve keys_smc keys_set_user_lock : keeps.

Let temp_ok : 0 <= KEYSLOT_SWITCH_TEMPKEY <= 9.
Proof. unfold KEYSLOT_SWITCH_TEMPKEY. lia. Qed.
Let user_ok s : 0 <= s <= 5 -> 0 <= s <= 9.
Proof. lia. Qed.

Hint Resolve keeps_configitem_get keeps_configitem_set keeps_upage_init keeps_secure_copy
  keeps_getbytes keeps_refill keeps_user_get_random_bytes keeps_get_exp_mod_output
  keeps_oaep_unwrap keeps_tkey_aes_unwrap keeps_seal_titlekey
  keeps_user_load_aes_key keeps_user_load_titlekey keeps_user_exp_mod
  keeps_user_generate_aes_kek keeps_user_crypt_aes
  keeps_user_generate_specific_aes_key keeps_user_compute_cmac keeps_user_load_rsa_oaep_key
  keeps_user_decrypt_rsa_private_key keeps_user_load_secure_exp_mod_key keeps_user_secure_exp_mod
  keeps_user_unwrap_rsa_oaep keeps_user_unwrap_aes_wrapped keeps_user_encrypt_rsa_key
  keeps_user_decrypt_or_import keeps_ams_iram_copy keeps_ams_write_address
  keeps_ams_get_emummc_config temp_ok user_ok : keeps.

Lemma keys_poll_toggle n : keeps same_keys (Cpu.poll_toggle n).
Proof. induction n; frame. Qed.
Lemma keys_poll_status n m : keeps same_keys (Cpu.poll_status n m).
Proof. induction n; frame. Qed.
Hint Resolve keys_poll_toggle keys_poll_status : keeps.

Lemma keys_run_handler h args : h <> smc_cpu_suspend_h -> keeps same_keys (run_handler h args).
Proof.
  intros Hh. destruct h; try done; cbn [run_handler]; frame.
Qed.

Lemma table_suspend_ok id s e : tables_wf s = true -> e ∈ smc_table id s -> suspend_ok e = true.
Proof.
  unfold tables_wf, smc_table. rewrite !andb_true_iff, !forallb_forall.
  intros [[H1 H2] H3] He%list_elem_of_In. destruct (id =? _); [auto|]. destruct (id =? _); auto.
Qed.

(** C2: no SMC other than CPU_SUSPEND, whatever its arguments and however it ends,
    changes a key word of the session, RNG, master and device key slots
    (0xA..0xF): the user SMCs load only slots 0..5 and the temporary slot 9. *)
Theorem smcs_preserve_secret_keys id args w :
  tables_wf (w_smc w) = true -> X args 0 <> 0xC4000001 ->
  same_keys w (snd (call_smc_handler id args w)).
Proof.
  intros Hwf Hid. unfold call_smc_handler. destruct (id >=? _); [by apply keeps_generic_panic; apply _|].
  unfold get_core_id. rewrite run_gets. destruct (_ && _ && _); [by apply keeps_generic_panic; apply _|].
  set (id' := if _ && _ then _ else _). rewrite run_gets.
  destruct (nth_error _ _) as [e|] eqn:En; [|by apply keeps_generic_panic; apply _].
  apply nth_error_In, list_elem_of_In, (table_suspend_ok _ _ _ Hwf) in En.
  destruct (Z.eqb_spec (entry_id e) (X args 0)) as [Ei|_]; cbn [negb];
    [|by apply keeps_generic_panic; apply _].
  unfold suspend_ok in En. destruct (entry_handler e) as [h|]; [|by apply keeps_generic_panic; apply _].
  assert (Hh : h <> smc_cpu_suspend_h) by (intros ->; apply Z.eqb_eq in En; congruence).
  pose proof (keys_run_handler h args Hh).
  match goal with |- same_keys w (snd (?m w)) => assert (K : keeps same_keys m) by frame end. apply K.
Qed.
End KeySafety.

Module KeyWitness.
Import Toy.

Lemma put_words_outside r base ws a : ~ base <= a < base + 4 * Z.of_nat (length ws) -> put_words r base ws a = r a.
Proof.
  intros H. unfold put_words. destruct (Z.leb_spec base a), (Z.ltb_spec a (base + 4 * Z.of_nat (length ws))); cbn; auto.
  lia.
Qed.

Lemma toy_engine_regs op i o h r :
  r = CONFIG_REG \/ r = CRYPTO_KEYTABLE_DST_REG -> se_regs (fst (toy_engine op i o h)) r = se_regs h r.
Proof.
  intros Hr. unfold toy_engine.
  destruct (_ =? _); [by destruct Hr as [->| ->]|].
  destruct (_ || _); [by destruct Hr as [->| ->]|].
  destruct (_ =? _).
  { cbn [fst]. change (put_words (done_status (se_regs h)) HASH_RESULT_REG
      (map bswap32 (words32 8 (toy_digest (ll_bytes i)))) r = se_regs h r).
    rewrite put_words_outside; [by destruct Hr as [->| ->]|].
    cbn [words32 map length]. unfold HASH_RESULT_REG. destruct Hr as [->| ->]; vm_compute; intros [? ?]; congruence. }
  destruct (_ =? _).
  { cbn [fst]. match goal with |- se_regs (update _ (fun r => put_words r ?b ?ws) ?h1) _ = _ =>
      change (put_words (se_regs h1) b ws r = se_regs h r) end.
    rewrite put_words_outside; [by destruct Hr as [->| ->]|].
    cbn [words32 length]. unfold RSA_OUTPUT. destruct Hr as [->| ->]; vm_compute; intros [? ?]; congruence. }
  destruct (_ =? _); by destruct Hr as [->| ->].
Qed.

#[export] Instance toy_key_frame : EngineKeyFrame toy_soc.
Proof.
  split.
  - intros op i o h a Ha Hd. cbn [se_engine toy_soc]. unfold toy_engine.
    destruct (Z.eqb_spec (se_regs h CONFIG_REG) (ALG_AES_DEC .| DST_KEYTAB)) as [E|_].
    + set (d := _ .& 0xF) in *. assert (Hne : a / 16 <> d) by (apply Hd; rewrite E; reflexivity).
      cbn. destruct (Z.leb_spec (16 * d) a), (Z.ltb_spec a (16 * d + 4)); cbn; try done.
      exfalso. apply Hne. symmetry. apply Z.div_unique with (r := a - 16 * d); lia.
    + by repeat destruct (_ || _) || destruct (_ =? _).
  - intros. apply toy_engine_regs. auto.
  - intros. apply toy_engine_regs. auto.
Qed.

Lemma smcs_preserve_secret_keys_witness :
  same_keys (toy_world 11)
    (snd (call_smc_handler 0 [0xC3000008; 3; 0; 0; 0; 0; 0; 0] (toy_world 11))).
Proof. apply smcs_preserve_secret_keys; [reflexivity|discriminate]. Defined.
End KeyWitness.

(** ** Dispatch *)

Section Dispatch.
Context {soc : SoC}.

(** The table a call is looked up in. *)
Definition effective_table (id : Z) (args : smc_args_t) : Z :=
  if (id =? SMC_HANDLER_USER) && (u8 ((X args 0 >>. 24) .& 0x3F) =? SMC_CALL_RANGE_TRUSTED_APP)
  then SMC_HANDLER_AMS else id.

(** Every live entry of a table stands at the index its id selects; AMS ids
    and no others are in the trusted-application range. *)
Definition entry_indexed (ams : option bool) (i : nat) (e : smc_table_entry_t) : bool :=
  match entry_handler e with
  | None => true
  | Some _ => (u8 (entry_id e) =? Z.of_nat i)
              && match ams with
                 | Some b => Bool.eqb (u8 ((entry_id e >>. 24) .& 0x3F) =? SMC_CALL_RANGE_TRUSTED_APP) b
                 | None => true
                 end
  end.
Definition table_indexed (ams : option bool) (t : list smc_table_entry_t) : bool :=
  forallb (fun i => match nth_error t i with Some e => entry_indexed ams i e | None => true end)
    (seq 0 (length t)).

Lemma table_indexed_nth ams t e h :
  table_indexed ams t = true -> e ∈ t -> entry_handler e = Some h ->
  nth_error t (Z.to_nat (u8 (entry_id e))) = Some e /\
  (forall b, ams = Some b -> (u8 ((entry_id e >>. 24) .& 0x3F) =? SMC_CALL_RANGE_TRUSTED_APP) = b).
Proof.
  intros Ht He Hh. apply list_elem_of_In, In_nth_error in He as [i Hi].
  assert (Hl : (i < length t)%nat) by (apply nth_error_Some; congruence).
  pose proof (proj1 (forallb_forall _ _) Ht i) as H. cbv beta in H.
  rewrite Hi in H. unfold entry_indexed in H.
  rewrite Hh, andb_true_iff in H. destruct H as [H1 H2]; [apply in_seq; lia|].
  apply Z.eqb_eq in H1. rewrite H1, Nat2Z.id. split; [done|]. intros b ->. by apply eqb_prop.
Qed.

Lemma dispatch_run id args w e h :
  id = SMC_HANDLER_USER \/ id = SMC_HANDLER_PRIV ->
  w_core w = 3 -> g_has_loaded_config (w_exo w) = true -> g_smc_blacklist_mask (w_smc w) = 0 ->
  nth_error (smc_table (effective_table id args) (w_smc w)) (Z.to_nat (u8 (X args 0))) = Some e ->
  entry_id e = X args 0 -> entry_handler e = Some h ->
  call_smc_handler id args w = (r ← run_handler h args; mret (set_X (snd r) 0 (fst r))) w.
Proof.
  intros Hid Hc Hl Hb Hn Hi Hh. unfold call_smc_handler, get_core_id.
  assert ((id >=? SMC_HANDLER_COUNT) = false) as -> by (destruct Hid as [->| ->]; done).
  rewrite run_gets, Hc, !andb_false_r, run_gets. unfold effective_table in Hn. rewrite Hn, Hi, Z.eqb_refl, Hh.
  cbn [negb]. rewrite (run_bind _ _ _ _ _ (target_firmware_run w Hl)), run_gets, Hb, Z.land_0_r, orb_true_r.
  unfold mbind, M_bind. by destruct (run_handler h args w) as [[[]| | |] ?].
Qed.

(** A call whose id is not that of a live entry of the table it is looked up
    in panics with the generic code, whatever the arguments. *)
Theorem unknown_smc_panics id args w :
  (forall e, e ∈ smc_table (effective_table id args) (w_smc w) ->
             entry_id e = X args 0 -> entry_handler e = None) ->
  fst (call_smc_handler id args w) = Panic 0xFF000006.
Proof.
  intros H. unfold call_smc_handler. destruct (id >=? _); [apply generic_panic_fst|].
  unfold get_core_id. rewrite run_gets. destruct (_ && _ && _); [apply generic_panic_fst|].
  fold (effective_table id args). rewrite run_gets.
  destruct (nth_error _ _) as [e|] eqn:En; [|apply generic_panic_fst].
  apply nth_error_In, list_elem_of_In in En.
  destruct (Z.eqb_spec (entry_id e) (X args 0)) as [Ei|_]; cbn [negb]; [|apply generic_panic_fst].
  rewrite (H e En Ei). apply generic_panic_fst.
Qed.

(** The state at the end of boot for target firmware [fw]. *)
Definition booted (fw : Z) (w : World) : Prop :=
  w_smc w = initial_smc_api_state /\ g_has_loaded_config (w_exo w) = true /\
  target_firmware (g_exosphere_cfg (w_exo w)) = fw /\ w_core w = 3.

Definition tables_indexed (s : smc_api_state) : bool :=
  table_indexed (Some false) (g_smc_user_table s) && table_indexed None (g_smc_priv_table s)
  && table_indexed (Some true) (g_smc_ams_table s).

(** The caller's level for a table: AMS calls come in as user calls. *)
Definition caller_of (table : Z) : Z := if table =? SMC_HANDLER_AMS then SMC_HANDLER_USER else table.

Lemma indexed_reachable table args w e h :
  tables_indexed (w_smc w) = true -> 0 <= table <= 2 ->
  w_core w = 3 -> g_has_loaded_config (w_exo w) = true -> g_smc_blacklist_mask (w_smc w) = 0 ->
  e ∈ smc_table table (w_smc w) -> entry_id e = X args 0 -> entry_handler e = Some h ->
  call_smc_handler (caller_of table) args w = (r ← run_handler h args; mret (set_X (snd r) 0 (fst r))) w.
Proof.
  unfold tables_indexed. rewrite !andb_true_iff. intros [[H1 H2] H3] Ht Hc Hl Hb He Hi Hh.
  apply (dispatch_run _ _ _ e); try done.
  - assert (table = 0 \/ table = 1 \/ table = 2) as [->|[->| ->]] by lia; auto.
  - unfold effective_table. rewrite <- Hi.
    assert (table = 0 \/ table = 1 \/ table = 2) as [->|[->| ->]] by lia; cbn in He |- *.
    + destruct (table_indexed_nth _ _ _ _ H1 He Hh) as [Hn Hr]. by rewrite (Hr false).
    + by destruct (table_indexed_nth _ _ _ _ H2 He Hh) as [Hn _].
    + destruct (table_indexed_nth _ _ _ _ H3 He Hh) as [Hn Hr]. by rewrite (Hr true).
Qed.

Lemma booted_tables fw w :
  booted fw w -> 1 <= fw <= 11 ->
  exists w', set_version_specific_smcs w = (Ret tt, w') /\ w_core w' = 3 /\ w_exo w' = w_exo w /\
    g_smc_blacklist_mask (w_smc w') = 0 /\ tables_indexed (w_smc w') = true.
Proof.
  intros (Hs & Hl & Hf & Hc) Hfw. unfold set_version_specific_smcs.
  rewrite (run_bind _ _ _ _ _ (target_firmware_run w Hl)), Hf.
  assert (fw = 1 \/ 2 <= fw <= 4 \/ 5 <= fw <= 11) as [->|[H|H]] by lia.
  - cbn [Z.eqb]. eexists. split; [reflexivity|]. repeat split; try done; cbn; by rewrite Hs.
  - fw_consts. zdec. eexists. split; [reflexivity|]. repeat split; try done; by rewrite Hs.
  - fw_consts. zdec. eexists. split; [reflexivity|]. repeat split; try done; cbn; by rewrite Hs.
Qed.

(** For every target firmware the version-specific tables are consistent: each
    live entry of the user, privileged and Atmosphere tables is reached by a call
    with exactly its id, and runs its own handler. *)
Theorem every_smc_is_reachable fw w :
  booted fw w -> 1 <= fw <= 11 ->
  exists w', set_version_specific_smcs w = (Ret tt, w') /\
    forall table args e h, 0 <= table <= 2 -> e ∈ smc_table table (w_smc w') ->
      entry_handler e = Some h -> X args 0 = entry_id e ->
      call_smc_handler (caller_of table) args w' =
        (r ← run_handler h args; mret (set_X (snd r) 0 (fst r))) w'.
Proof.
  intros Hb Hfw. destruct (booted_tables fw w Hb Hfw) as (w' & E & Hc & He & Hm & Ht).
  exists w'. split; [done|]. intros table args e h Htab Hin Hh Hx. apply (indexed_reachable _ _ _ e); try done.
  rewrite He. by destruct Hb as (_ & ? & _).
Qed.
End Dispatch.

(** ** ReadWriteRegister *)

Section Register.
Context {soc : SoC}.

(** The device registers ReadWriteRegister may touch, by virtual address. *)
Definition register_allowed_if (has_mc : bool) (a : Z) : bool :=
  ((PMC_BASE <=? a) && (a <=? PMC_BASE + 0xBFF) && whitelisted pmc_whitelist (a - PMC_BASE))
  || (has_mc && (MC_BASE <=? a) && (a <? MC_BASE + MC_SIZE)
      && whitelisted mc_whitelist (a - MC_BASE)).
Definition register_allowed (fw a : Z) : bool := register_allowed_if (fw >=? ATMOSPHERE_TARGET_FIRMWARE_400) a.

Definition rw_target (fw address : Z) : Z + Z :=
  if is_pmc_address address then pmc_target address else mc_target fw address.

Lemma rw_target_allowed fw address a : rw_target fw address = inl a -> register_allowed fw a = true.
Proof.
  unfold rw_target, is_pmc_address, register_allowed, register_allowed_if.
  destruct (Z.leb_spec 0x7000E400 address), (Z.leb_spec address 0x7000EFFF); cbn [andb].
  1: { unfold pmc_target. rewrite u32_id by (unfold is_u32; lia). destruct (whitelisted _ _) eqn:E; [|discriminate].
       intros [= <-]. apply orb_true_iff. left. replace (PMC_BASE + (address - 0x7000E400) - PMC_BASE) with (address - 0x7000E400) by lia.
       rewrite E. zdec. done. }
  all: unfold mc_target, MC_PA, MC_SIZE; destruct (fw >=? _) eqn:Ef; cbn [andb]; [|discriminate];
    destruct (Z.leb_spec 0x70019000 address), (Z.ltb_spec address (0x70019000 + 0x1000)); cbn [andb]; try discriminate;
    rewrite u32_id by (unfold is_u32; lia); (destruct (whitelisted _ _) eqn:E; [|destruct (_ || _); discriminate]);
    intros [= <-]; apply orb_true_iff; right;
    replace (MC_BASE + (address - 0x70019000) - MC_BASE) with (address - 0x70019000) by lia; rewrite E; zdec; done.
Qed.

Lemma masked_bits old mask value k :
  0 <= k < 32 ->
  Z.testbit ((old .& not32 mask) .| (value .& mask)) k = if Z.testbit mask k then Z.testbit value k else Z.testbit old k.
Proof.
  intros Hk. rewrite Z.lor_spec, !Z.land_spec. unfold not32, u32. rewrite Z.mod_pow2_bits_low, Z.lnot_spec by lia.
  destruct (Z.testbit mask k), (Z.testbit value k), (Z.testbit old k); done.
Qed.

Lemma rw_register_run args w :
  g_has_loaded_config (w_exo w) = true ->
  exists code args' w', smc_read_write_register args w = (Ret (code, args'), w') /\
    (w' = w \/ exists a, rw_target (target_firmware (g_exosphere_cfg (w_exo w))) (X args 1) = inl a /\
       w' = w <| w_mmio := upd (w_mmio w) a ((w_mmio w a .& not32 (u32 (X args 2))) .| (u32 (X args 3) .& u32 (X args 2))) |>).
Proof.
  intros Hl. unfold smc_read_write_register. cbv zeta. destruct (negb (X args 1 .& 3 =? 0)); [by eexists 2, args, w; auto|].
  assert (E : (if is_pmc_address (X args 1) then mret (pmc_target (X args 1))
    else fw ← exosphere_get_target_firmware; mret (mc_target fw (X args 1))) w =
    (Ret (rw_target (target_firmware (g_exosphere_cfg (w_exo w))) (X args 1)), w)).
  { unfold rw_target. destruct (is_pmc_address _); [done|]. by rewrite (run_bind _ _ _ _ _ (target_firmware_run w Hl)). }
  rewrite (run_bind _ _ _ _ _ E). destruct (rw_target _ _) as [a|code] eqn:Et; [|by eexists code, args, w; auto].
  set (mask := u32 (X args 2)). set (value := u32 (X args 3)).
  assert (E2 : (if mask =? 0xFFFFFFFF then mret 0 else reg_read a) w =
    (Ret (if mask =? 0xFFFFFFFF then 0 else w_mmio w a), w)) by (by destruct (mask =? 0xFFFFFFFF)).
  rewrite (run_bind _ _ _ _ _ E2).
  replace (((if mask =? 0xFFFFFFFF then 0 else w_mmio w a) .& not32 mask) .| (value .& mask))
    with ((w_mmio w a .& not32 mask) .| (value .& mask)).
  2: { destruct (Z.eqb_spec mask 0xFFFFFFFF) as [->|]; [|done]. change (not32 0xFFFFFFFF) with 0. by rewrite !Z.land_0_r. }
  destruct (mask =? 0); cbn [negb].
  - rewrite run_ret. by eexists _, _, w; auto.
  - unfold reg_write. rewrite run_modify. eexists _, _, _. split; [reflexivity|]. right. by exists a.
Qed.

Lemma kernel_carveouts_protected fw i : 0 <= i < 0xA0 -> register_allowed fw (MC_BASE + 0xCF8 + i) = false.
Proof.
  assert (H : forall b, forallb (fun i => negb (register_allowed_if b (MC_BASE + 0xCF8 + i))) (range 0xA0) = true)
    by (intros []; vm_compute; reflexivity).
  intros Hi%elem_of_range%list_elem_of_In. apply negb_true_iff.
  exact (proj1 (forallb_forall _ _) (H (fw >=? ATMOSPHERE_TARGET_FIRMWARE_400)) i Hi).
Qed.

End Register.

Module RegisterWitness.
Import Toy.

Lemma unknown_smc_panics_witness :
  fst (call_smc_handler 0 [0xC30000FF; 0; 0; 0; 0; 0; 0; 0] (toy_world 11)) = Panic 0xFF000006.
Proof.
  apply (unknown_smc_panics 0 [0xC30000FF; 0; 0; 0; 0; 0; 0; 0] (toy_world 11)).
  intros e He. change (smc_table _ _) with initial_smc_user_table in He. unfold initial_smc_user_table in He.
  repeat (apply elem_of_cons in He as [->|He]; [discriminate|]). by apply elem_of_nil in He.
Defined.

(** GenerateSpecificAesKey under firmware 5.0.0. *)
Lemma every_smc_is_reachable_witness :
  exists w', set_version_specific_smcs (toy_world 5) = (Ret tt, w') /\
    forall args e, e ∈ smc_table 0 (w_smc w') -> entry_handler e = Some smc_load_aes_key_h -> X args 0 = entry_id e ->
      call_smc_handler 0 args w' = (r ← run_handler smc_load_aes_key_h args; mret (set_X (snd r) 0 (fst r))) w'.
Proof.
  destruct (every_smc_is_reachable 5 (toy_world 5)) as (w' & E & H); [done|lia|].
  exists w'. split; [done|]. intros args e H1 H2 H3. by apply (H 0 args e).
Defined.

End RegisterWitness.
