(* ===== verification/SeProps.v ===== *)
(** The Security Engine driver is correct: key slots hold what is stored in
    them, RSA is modular exponentiation on big-endian integers, PSS
    verification is RFC 8017's, and the CMAC subkey step is doubling in
    GF(2^128). *)
From Stdlib Require Import Zpow_facts.
From S2P Require Import Prelude State Utils Se Engine Pages Config Keys Power SmcUser SmcApi Platform.
Import SE.

(** ** Runs of key table stores *)

(** The table after the stores [f i := v i], in the order of [l]. *)
Definition stores (f v : Z -> Z) (l : list Z) (t : Z -> Z) : Z -> Z :=
  foldl (fun t i => upd t (f i) (v i)) t l.

Lemma stores_other f v l t a : (forall i, i ∈ l -> f i <> a) -> stores f v l t a = t a.
Proof.
  revert t. induction l as [|i l IH]; intros t H; [done|]. unfold stores. cbn [foldl].
  fold (stores f v l (upd t (f i) (v i))). rewrite IH by (intros j Hj; apply H; by right).
  apply upd_ne. intros ->. by eapply H; [left|].
Qed.
Lemma stores_at f v l t i :
  i ∈ l -> (forall j, j ∈ l -> f j = f i -> j = i) -> stores f v l t (f i) = v i.
Proof.
  revert t. induction l as [|j l IH]; intros t Hi Hf; [by apply elem_of_nil in Hi|].
  unfold stores. cbn [foldl]. fold (stores f v l (upd t (f j) (v j))).
  destruct (decide (i ∈ l)) as [Hl|Hl].
  - apply IH; [done|]. intros k Hk. apply Hf. by right.
  - apply elem_of_cons in Hi as [->|]; [|done]. rewrite stores_other; [apply upd_eq|].
    intros k Hk E. apply Hf in E as ->; [done|by right].
Qed.

(** What a loop of stores through one of the two ports changes. *)
Record aes_stored (t : Z -> Z) (h h' : se_hw) : Prop := {
  as_aes a : aes_keytable h' a = t a;
  as_rsa a : rsa_keytable h' a = rsa_keytable h a;
  as_regs r : r <> AES_KEYTABLE_ADDR -> r <> AES_KEYTABLE_DATA -> se_regs h' r = se_regs h r }.
Record rsa_stored (t : Z -> Z) (h h' : se_hw) : Prop := {
  rs_rsa a : rsa_keytable h' a = t a;
  rs_aes a : aes_keytable h' a = aes_keytable h a;
  rs_regs r : r <> RSA_KEYTABLE_ADDR -> r <> RSA_KEYTABLE_DATA -> se_regs h' r = se_regs h r }.

Lemma stores_ext f v l t t' a : (forall b, t b = t' b) -> stores f v l t a = stores f v l t' a.
Proof.
  revert t t'. induction l as [|i l IH]; intros t t' H; [apply H|].
  apply (IH (upd t (f i) (v i)) (upd t' (f i) (v i))). intros b. unfold upd. by rewrite H.
Qed.

Lemma aes_store_loop f v l w :
  exists h', for_each l (fun i => aes_keytable_store (f i) (v i)) w = (Ret tt, w <| w_se := h' |>) /\
    aes_stored (stores f v l (aes_keytable (w_se w))) (w_se w) h'.
Proof.
  revert w. induction l as [|i l IH]; intros w; [by exists (w_se w); destruct w|].
  cbn [for_each]. destruct (IH (w <| w_se ::= hw_keytable_store (f i) (v i) |>)) as (h' & E & [H1 H2 H3]).
  exists h'. split.
  - erewrite run_bind by apply run_aes_keytable_store. by rewrite E.
  - split; intros.
    + rewrite H1. change (stores f v (i :: l) ?t a) with (stores f v l (upd t (f i) (v i)) a).
      apply stores_ext. intros b. by rewrite w_se_update, hw_keytable_store_aes.
    + by rewrite H2.
    + rewrite H3, w_se_update, hw_keytable_store_regs by done. done.
Qed.

Definition hw_rsa_store (addr v : Z) (h : se_hw) : se_hw :=
  hw_write RSA_KEYTABLE_DATA v (hw_write RSA_KEYTABLE_ADDR addr h).
Lemma hw_rsa_store_rsa addr v h a : rsa_keytable (hw_rsa_store addr v h) a = upd (rsa_keytable h) addr v a.
Proof. done. Qed.
Lemma hw_rsa_store_regs addr v h r :
  r <> RSA_KEYTABLE_ADDR -> r <> RSA_KEYTABLE_DATA -> se_regs (hw_rsa_store addr v h) r = se_regs h r.
Proof. intros. unfold hw_rsa_store. rewrite hw_write_regs, upd_ne by done. by rewrite hw_write_regs, upd_ne. Qed.

Lemma rsa_store_loop f v l w :
  exists h', for_each l (fun i => rsa_keytable_store (f i) (v i)) w = (Ret tt, w <| w_se := h' |>) /\
    rsa_stored (stores f v l (rsa_keytable (w_se w))) (w_se w) h'.
Proof.
  revert w. induction l as [|i l IH]; intros w; [by exists (w_se w); destruct w|].
  cbn [for_each]. destruct (IH (w <| w_se ::= hw_rsa_store (f i) (v i) |>)) as (h' & E & [H1 H2 H3]).
  exists h'. split; [exact E|]. split; intros.
  - rewrite H1. change (stores f v (i :: l) ?t a) with (stores f v l (upd t (f i) (v i)) a).
      apply stores_ext. intros b. by rewrite w_se_update, hw_rsa_store_rsa.
  - by rewrite H2.
  - by rewrite H3, w_se_update, hw_rsa_store_regs.
Qed.

(** ** AES key slots *)

Lemma aes_word_addr slot i : 0 <= i < 16 -> (slot <<. 4) .| i = slot * 16 + i.
Proof. intros. rewrite lor_shiftl_add by lia. lia. Qed.

(** A 16-byte key is stored whole, and only its slot changes. *)
Lemma set_aes_keyslot_run slot key w :
  0 <= slot < 16 -> is_block key ->
  exists h', set_aes_keyslot slot key 0x10 w = (Ret tt, w <| w_se := h' |>) /\
    key_loaded (w_se w) h' slot key /\ (forall a, rsa_keytable h' a = rsa_keytable (w_se w) a).
Proof.
  intros Hs [Hl Hb]. unfold set_aes_keyslot, KEYSLOT_AES_MAX, KEYSIZE_AES_MAX. zdec.
  destruct (aes_store_loop (fun i => (slot <<. 4) .| i) (fun i => read32le key (4 * i)) (range 4) w)
    as (h' & E & [H1 H2 _]).
  exists h'. split; [exact E|]. split; [|exact H2]. split.
  - transitivity (words32 4 key ≫= le_bytes 4); [|by apply words32_bytes].
    rewrite <- (bind_range_nth (le_bytes 4) (words32 _ _)), length_words32.
    apply bind_range_ext. intros i Hi. f_equal. rewrite words32_at, H1 by lia.
    apply (stores_at (fun i => (slot <<. 4) .| i) (fun i => read32le key (4 * i))).
    + by apply elem_of_range.
    + intros j Hj%elem_of_range. rewrite !aes_word_addr by lia. lia.
  - intros s Hs' Hne. apply bind_range_ext. intros i Hi. rewrite H1. f_equal. apply stores_other.
    intros j Hj%elem_of_range. rewrite !aes_word_addr by lia. lia.
Qed.

(** ** RSA *)

Lemma rsa_exp_addr slot i : 0 <= i < 64 -> (slot <<. 7) .| i = slot * 128 + i.
Proof. intros. rewrite lor_shiftl_add by lia. lia. Qed.
Lemma rsa_mod_addr slot i : 0 <= i < 64 -> (slot <<. 7) .| 0x40 .| i = slot * 128 + 64 + i.
Proof.
  intros. rewrite <- Z.lor_assoc. replace (0x40 .| i) with (64 + i) by (symmetry; by apply (lor_shiftl_add 1 i 6)).
  rewrite lor_shiftl_add by lia. lia.
Qed.

Lemma shiftr2_bound x n : 0 <= x <= 4 * n -> 0 <= x >>. 2 <= n.
Proof.
  intros. rewrite Z.shiftr_div_pow2 by lia. split; [apply Z.div_pos; lia|]. apply Z.div_le_upper_bound; lia.
Qed.

(** Reads of the RSA addresses through [stores]. *)
Ltac rsa_addr := rewrite ?rsa_exp_addr, ?rsa_mod_addr by lia; lia.

Record rsa_key_set (slot : Z) (m : list Z) (mw : Z) (e : list Z) (ew : Z) (h h' : se_hw) : Prop := {
  rk_mod i : 0 <= i < mw -> rsa_keytable h' ((slot <<. 7) .| 0x40 .| i) = read32be m (4 * mw - 4 * i - 4);
  rk_exp i : 0 <= i < ew -> rsa_keytable h' ((slot <<. 7) .| i) = read32be e (4 * ew - 4 * i - 4);
  rk_other s i : 0 <= s < 2 -> 0 <= i < 128 -> s <> slot ->
    rsa_keytable h' (s * 128 + i) = rsa_keytable h (s * 128 + i);
  rk_aes a : aes_keytable h' a = aes_keytable h a }.

Definition sizes_set (slot msz esz : Z) (w : World) : World :=
  w <| w_drv ::= fun s =>
    s <| g_se_modulus_sizes ::= fun l => <[Z.to_nat slot := msz]> l |>
      <| g_se_exp_sizes ::= fun l => <[Z.to_nat slot := esz]> l |> |>.

Lemma set_rsa_keyslot_run slot m msz e esz w :
  0 <= slot < 2 -> 0 <= msz <= 0x100 -> 0 <= esz <= 0x100 ->
  exists h', set_rsa_keyslot slot m msz e esz w = (Ret tt, sizes_set slot msz esz (w <| w_se := h' |>)) /\
    rsa_key_set slot m (msz >>. 2) e (esz >>. 2) (w_se w) h'.
Proof.
  intros Hs Hm He. unfold set_rsa_keyslot, KEYSLOT_RSA_MAX, KEYSIZE_RSA_MAX. zdec.
  assert (Hm2 : 0 <= msz >>. 2 <= 64) by (apply shiftr2_bound; lia).
  assert (He2 : 0 <= esz >>. 2 <= 64) by (apply shiftr2_bound; lia).
  destruct (rsa_store_loop (fun i => (slot <<. 7) .| 0x40 .| i)
    (fun i => read32be m (4 * (msz >>. 2) - 4 * i - 4)) (range (msz >>. 2)) w) as (h1 & E1 & [H1 H2 _]).
  destruct (rsa_store_loop (fun i => (slot <<. 7) .| i)
    (fun i => read32be e (4 * (esz >>. 2) - 4 * i - 4)) (range (esz >>. 2)) (w <| w_se := h1 |>))
    as (h2 & E2 & [H3 H4 _]).
  exists h2. split; [by rewrite (run_bind _ _ _ _ _ E1), (run_bind _ _ _ _ _ E2)|].
  split.
  - intros i Hi. rewrite H3, stores_other by (intros j Hj%elem_of_range; rsa_addr).
    rewrite w_se_update, H1.
    apply (stores_at (fun i => (slot <<. 7) .| 0x40 .| i)
      (fun i => read32be m (4 * (msz >>. 2) - 4 * i - 4))); [by apply elem_of_range|].
    intros j Hj%elem_of_range. rsa_addr.
  - intros i Hi. rewrite H3. apply (stores_at (fun i => (slot <<. 7) .| i)
      (fun i => read32be e (4 * (esz >>. 2) - 4 * i - 4))); [by apply elem_of_range|].
    intros j Hj%elem_of_range. rsa_addr.
  - intros s i H5 H6 H7. rewrite H3, stores_other by (intros j Hj%elem_of_range; rsa_addr).
    rewrite w_se_update, H1, stores_other by (intros j Hj%elem_of_range; rsa_addr). done.
  - intros a. by rewrite H4, w_se_update, H2.
Qed.

(** ** The CMAC subkeys *)

(** Doubling in GF(2^128) with the polynomial x^128 + x^7 + x^2 + x + 1. *)
Definition gf128_double (v : Z) : Z :=
  if 2 * v <? 2 ^ 128 then 2 * v else (2 * v - 2 ^ 128) .^ 0x87.

Lemma be_value_bound bs : is_bytes bs -> 0 <= be_value bs < 2 ^ (8 * Z.of_nat (length bs)).
Proof. intros H. unfold be_value. rewrite <- length_rev. by apply le_value_bound, Forall_rev. Qed.

Lemma be_value_cons b l : be_value (b :: l) = b * 2 ^ (8 * Z.of_nat (length l)) + be_value l.
Proof. unfold be_value. cbn [rev]. rewrite le_value_app, length_rev. cbn [le_value]. lia. Qed.

Lemma shift_byte b c : is_u8 b -> 0 <= c <= 1 ->
  let r := u8 (b <<. 1) .| c in
  is_u8 r /\ r + 2 ^ 8 * (b >>. 7) = 2 * b + c /\ 0 <= b >>. 7 <= 1.
Proof.
  intros [H0 H1] Hc. assert (E : u8 (b <<. 1) = (b mod 128) <<. 1).
  { unfold u8. rewrite !Z.shiftl_mul_pow2 by lia. apply (Z.mul_mod_distr_r b 128 2); lia. }
  cbv zeta. rewrite E, lor_shiftl_add, Z.shiftr_div_pow2 by lia.
  change (2 ^ 7) with 128. change (2 ^ 1) with 2. unfold is_u8. change (2 ^ 8) with 256 in *.
  pose proof (Z.mod_pos_bound b 128). pose proof (Z.div_mod b 128).
  assert (0 <= b / 128 <= 1) by (split; [apply Z.div_pos; lia|]; apply Z.lt_succ_r, Z.div_lt_upper_bound; lia).
  lia.
Qed.

Lemma shift_left_bytes_value key :
  is_bytes key -> let '(k, c) := shift_left_bytes key in
  length k = length key /\ is_bytes k /\ 0 <= c <= 1 /\
  be_value k + 2 ^ (8 * Z.of_nat (length key)) * c = 2 * be_value key.
Proof.
  induction 1 as [|b l Hb Hl IH]; [repeat split; try done; constructor|]. cbn [shift_left_bytes].
  destruct (shift_left_bytes l) as [k c]. destruct IH as (L & Bk & Hc & V).
  destruct (shift_byte b c Hb Hc) as (H1 & H2 & H3). cbv zeta in *.
  split; [cbn; lia|]. split; [by constructor|]. split; [done|].
  rewrite !be_value_cons, L. set (r := u8 _ .| c) in *. cbn [length].
  replace (8 * Z.of_nat (S (length l))) with (8 + 8 * Z.of_nat (length l)) by lia.
  rewrite Z.pow_add_r by lia. set (p := 2 ^ (8 * Z.of_nat (length l))) in *.
  nia.
Qed.

Lemma be_value_xor_last k y : length k = 16%nat -> is_bytes k -> is_u8 y ->
  is_bytes (splice k 0xF [byte_at k 0xF .^ y]) /\ be_value (splice k 0xF [byte_at k 0xF .^ y]) = be_value k .^ y.
Proof.
  intros L Hk Hy. destruct (exists_last (l := k)) as (i & x & ->); [by destruct k|].
  rewrite length_app in L. cbn in L. assert (Li : length i = 15%nat) by lia.
  unfold is_bytes in Hk. rewrite Forall_app, Forall_singleton in Hk. destruct Hk as [Hi Hx].
  assert (Ex : byte_at (i ++ [x]) 0xF = x).
  { unfold byte_at. rewrite app_nth2 by (rewrite Li; lia). rewrite Li. done. }
  assert (Es : forall z, splice (i ++ [x]) 0xF [z] = i ++ [z]).
  { intros z. unfold splice. rewrite <- (eq_refl : 15%nat = Z.to_nat 0xF), <- Li, take_app_length, length_app, Li.
    cbn [Nat.sub Nat.add take length app]. by rewrite drop_ge by (rewrite length_app, Li; done). }
  rewrite Ex, Es. split; [apply Forall_app_2; [done|]; constructor; [by apply lxor_u8|constructor]|].
  assert (V : forall z, be_value (i ++ [z]) = be_value i * 2 ^ 8 + z).
  { intros z. unfold be_value. rewrite rev_app_distr. cbn [rev app le_value]. lia. }
  by rewrite !V, lxor_low.
Qed.

(** The subkey step of AES-CMAC is doubling in GF(2^128): on a 16-byte
    big-endian block, [shift_left_xor_rb] shifts left by one and, when the top
    bit falls out, XORs 0x87 into the last byte. *)
Theorem shift_left_xor_rb_doubles key :
  is_block key -> is_block (shift_left_xor_rb key) /\
                  be_value (shift_left_xor_rb key) = gf128_double (be_value key).
Proof.
  intros [L Hb]. unfold shift_left_xor_rb. pose proof (shift_left_bytes_value key Hb) as H.
  destruct (shift_left_bytes key) as [k c]. destruct H as (Lk & Hk & Hc & V). rewrite L in *.
  pose proof (be_value_bound k Hk) as Bk. rewrite Lk in Bk. change (8 * Z.of_nat 16) with 128 in *.
  unfold gf128_double. assert (c = 0 \/ c = 1) as [-> | ->] by lia; cbn [Z.eqb negb].
  - rewrite (proj2 (Z.ltb_lt _ _)) by lia. split; [done|]. lia.
  - rewrite (proj2 (Z.ltb_ge _ _)) by lia. destruct (be_value_xor_last k 0x87) as [H1 ->]; [done..|].
    split; [split; [|done]|f_equal; lia]. by rewrite length_splice by (cbn; lia).
Qed.

Section Rsa.
Context {soc : SoC} {HC : CryptoEngine soc}.

Lemma rev_words_be f n :
  (forall i, 0 <= i < Z.of_nat n -> is_u32 (f i)) ->
  be_value (rev (range (Z.of_nat n)) ≫= fun i => le_bytes 4 (bswap32 (f i))) = words_value f (Z.of_nat n).
Proof.
  intros Hf. unfold be_value. rewrite rev_bind, rev_involutive. rewrite <- words_value_bytes by done.
  f_equal. apply bind_range_ext. intros i _. by rewrite le_bytes_bswap32, rev_involutive.
Qed.
Lemma length_bind_words {A} (f : A -> list Z) l k : (forall x, length (f x) = k) -> length (l ≫= f) = (length l * k)%nat.
Proof. intros H. induction l as [|x l IH]; [done|]. rewrite bind_cons, length_app, H, IH. cbn. lia. Qed.

(** The registers both exponentiations program. *)
Definition rsa_setup_hw (slot msz esz : Z) (h : se_hw) : se_hw :=
  hw_write RSA_EXP_SIZE_REG (esz >>. 2) (hw_write RSA_KEY_SIZE_REG (u32 ((msz >>. 6) - 1))
    (hw_write RSA_CONFIG (u32 (slot <<. 24)) (hw_write CONFIG_REG (ALG_RSA .| DST_RSAREG) h))).
Lemma rsa_op_setup_run slot w :
  rsa_op_setup slot w = (Ret tt, w <| w_se ::= rsa_setup_hw slot (byte_at (g_se_modulus_sizes (w_drv w)) slot)
                                                 (byte_at (g_se_exp_sizes (w_drv w)) slot) |>).
Proof. reflexivity. Qed.

Lemma shiftr_times a k n : 0 <= n -> 2 ^ n = k -> (k * a) >>. n = a.
Proof. intros Hn <-. rewrite Z.shiftr_div_pow2, Z.mul_comm, Z.div_mul by lia. done. Qed.

(** The exponentiation on a slot that holds a key of [64 * n] bytes. *)
Lemma exp_mod_run slot n en buf w m e :
  0 <= slot < 2 -> 1 <= n <= 4 -> 1 <= en <= 64 -> is_bytes buf -> Z.of_nat (length buf) = 64 * n ->
  byte_at (g_se_modulus_sizes (w_drv w)) slot = 64 * n -> byte_at (g_se_exp_sizes (w_drv w)) slot = 4 * en ->
  rsa_modulus (w_se w) slot (16 * n) = m -> rsa_exponent (w_se w) slot en = e -> 0 < m < 2 ^ (512 * n) ->
  exists out h', se_synchronous_exp_mod slot (64 * n) buf (64 * n) w = (Ret out, w <| w_se := h' |>) /\
    Z.of_nat (length out) = 64 * n /\ is_bytes out /\ be_value out = be_value buf ^ e mod m.
Proof.
  intros Hs Hn Hen Hb Hl Hms Hes <- <- Hm. unfold se_synchronous_exp_mod, KEYSLOT_RSA_MAX, KEYSIZE_RSA_MAX. zdec.
  rewrite slice_all by done. cbv zeta. rewrite (run_bind _ _ _ _ _ (rsa_op_setup_run slot w)), Hms, Hes.
  rewrite (run_bind _ _ _ _ _ (trigger_blocking_run _ _ _ _)).
  set (h := start_op OP_START (rsa_setup_hw slot (64 * n) (4 * en) (w_se w))).
  destruct (engine_exp_mod h slot n en (rev buf)) as [Hu Hv];
    [done|done|done|by apply Forall_rev|by rewrite length_rev|unfold h, rsa_setup_hw; regs..|exact Hm|].
  { rewrite (shiftr_times n 64 6) by done. apply u32_id. unfold is_u32. lia. }
  { by rewrite (shiftr_times en 4 2). }
  unfold se_get_exp_mod_output.
  assert (Ew : (64 * n) >>. 2 = 16 * n) by (rewrite <- (shiftr_times (16 * n) 4 2) by done; f_equal; lia).
  rewrite Ew.
  eexists _, (fst (run_op OP_START None (Some (rev buf)) (rsa_setup_hw slot (64 * n) (4 * en) (w_se w)))).
  split; [reflexivity|]. unfold run_op. cbn [ll_init]. fold h.
  replace (16 * n) with (Z.of_nat (Z.to_nat (16 * n))) in * by lia. repeat split.
  - rewrite (length_bind_words _ _ 4) by (intros; apply length_le_bytes).
    rewrite length_rev. unfold range. rewrite length_seqZ. lia.
  - apply Forall_bind, Forall_forall. intros. apply le_bytes_is_bytes.
  - etransitivity; [|exact Hv]. by apply rev_words_be.
Qed.

Lemma rsa_key_values slot m mw e ew h h' :
  rsa_key_set slot m mw e ew h h' -> 0 <= mw -> 0 <= ew ->
  Z.of_nat (length m) = 4 * mw -> Z.of_nat (length e) = 4 * ew ->
  rsa_modulus h' slot mw = be_value m /\ rsa_exponent h' slot ew = be_value e.
Proof.
  intros [H1 H2 _ _] Hm He Lm Le. unfold rsa_modulus, rsa_exponent. split.
  - rewrite <- (words_value_be m (Z.to_nat mw)) by lia. rewrite Z2Nat.id by lia.
    by apply words_value_ext.
  - rewrite <- (words_value_be e (Z.to_nat ew)) by lia. rewrite Z2Nat.id by lia.
    by apply words_value_ext.
Qed.

Lemma sizes_set_at slot msz esz w :
  0 <= slot -> (Z.to_nat slot < length (g_se_modulus_sizes (w_drv w)))%nat ->
  (Z.to_nat slot < length (g_se_exp_sizes (w_drv w)))%nat ->
  byte_at (g_se_modulus_sizes (w_drv (sizes_set slot msz esz w))) slot = msz /\
  byte_at (g_se_exp_sizes (w_drv (sizes_set slot msz esz w))) slot = esz.
Proof.
  intros H0 H1 H2. unfold byte_at. cbn. rewrite !nth_lookup, !list_lookup_insert_eq by done. done.
Qed.

(** The state is the old one up to the engine and its driver. *)
Definition driver_only (w w' : World) : Prop := w' = w <| w_se := w_se w' |> <| w_drv := w_drv w' |>.
#[export] Instance driver_only_preorder : PreOrder driver_only.
Proof.
  split; [by intros []|]. unfold driver_only. intros x y z H1 H2. rewrite H2, H1. done.
Qed.
Lemma driver_only_se w h : driver_only w (w <| w_se := h |>).
Proof. by destruct w. Qed.

(** A key set in a slot, then used: both steps as one. *)
Lemma rsa_set_and_run slot n en modulus exponent buf w :
  0 <= slot < 2 -> 1 <= n <= 4 -> 1 <= en <= 64 ->
  is_bytes modulus -> is_bytes buf ->
  Z.of_nat (length modulus) = 64 * n -> Z.of_nat (length exponent) = 4 * en -> Z.of_nat (length buf) = 64 * n ->
  0 < be_value modulus ->
  length (g_se_modulus_sizes (w_drv w)) = 2%nat -> length (g_se_exp_sizes (w_drv w)) = 2%nat ->
  exists w1 out w2,
    set_rsa_keyslot slot modulus (64 * n) exponent (4 * en) w = (Ret tt, w1) /\
    se_synchronous_exp_mod slot (64 * n) buf (64 * n) w1 = (Ret out, w2) /\
    (Z.of_nat (length out) = 64 * n /\ is_bytes out /\
     be_value out = be_value buf ^ be_value exponent mod be_value modulus) /\
    driver_only w w2.
Proof.
  intros Hs Hn Hen Hbm Hbb Lm Le Lb Hpos L1 L2.
  destruct (set_rsa_keyslot_run slot modulus (64 * n) exponent (4 * en) w) as (h1 & E1 & Hk); [lia..|].
  assert (Ew : (64 * n) >>. 2 = 16 * n) by (rewrite <- (shiftr_times (16 * n) 4 2) by done; f_equal; lia).
  rewrite Ew, (shiftr_times en 4 2) in Hk by done.
  destruct (rsa_key_values _ _ _ _ _ _ _ Hk) as [Vm Ve]; [lia..|].
  destruct (sizes_set_at slot (64 * n) (4 * en) (w <| w_se := h1 |>)) as [S1 S2]; [lia|cbn; lia|cbn; lia|].
  pose proof (be_value_bound modulus Hbm) as Hbd. rewrite Lm in Hbd.
  replace (8 * (64 * n)) with (512 * n) in Hbd by lia.
  destruct (exp_mod_run slot n en buf (sizes_set slot (64 * n) (4 * en) (w <| w_se := h1 |>))
    (be_value modulus) (be_value exponent)) as (out & h' & E2 & H); [done..|lia|].
  eexists _, out, _. split; [exact E1|]. split; [exact E2|]. by split.
Qed.

(** RSA through the Security Engine is modular exponentiation.  A key set
    with [set_rsa_keyslot] in either slot (modulus of 64 to 256 bytes, exponent
    of 4 to 256 bytes, both big-endian) and used by [se_synchronous_exp_mod] on
    a big-endian input of the modulus' length gives the big-endian bytes of
    [input ^ exponent mod modulus]; neither call panics or hangs. *)
Theorem rsa_exp_mod_correct slot n en modulus exponent buf w :
  0 <= slot < 2 -> 1 <= n <= 4 -> 1 <= en <= 64 ->
  is_bytes modulus -> is_bytes buf ->
  Z.of_nat (length modulus) = 64 * n -> Z.of_nat (length exponent) = 4 * en -> Z.of_nat (length buf) = 64 * n ->
  0 < be_value modulus ->
  length (g_se_modulus_sizes (w_drv w)) = 2%nat -> length (g_se_exp_sizes (w_drv w)) = 2%nat ->
  exists out w', (set_rsa_keyslot slot modulus (64 * n) exponent (4 * en) ;;
                  se_synchronous_exp_mod slot (64 * n) buf (64 * n)) w = (Ret out, w') /\
    Z.of_nat (length out) = 64 * n /\ be_value out = be_value buf ^ be_value exponent mod be_value modulus.
Proof.
  intros. destruct (rsa_set_and_run slot n en modulus exponent buf w) as (w1 & out & w2 & E1 & E2 & (H10 & _ & H11) & _);
    [done..|]. exists out, w2. by rewrite (run_bind _ _ _ _ _ E1).
Qed.
End Rsa.

(** ** AES keys in use *)

Section Aes.
Context {soc : SoC} {HC : CryptoEngine soc}.

(** A key stored in an AES slot is the key the engine uses, and no other
    slot is disturbed: after [set_aes_keyslot], encrypting a block and
    decrypting the result gives the block back, the ciphertext is AES under the
    stored key, and every other slot holds the key it held before. *)
Theorem aes_keyslot_roundtrip slot key block w :
  0 <= slot < 16 -> is_block key -> is_block block ->
  exists w', (set_aes_keyslot slot key 0x10 ;;
              c ← se_aes_128_ecb_encrypt_block slot 0x10 block 0x10;
              p ← se_aes_ecb_decrypt_block slot 0x10 c 0x10;
              mret (c, p)) w = (Ret (aes_encrypt key block, block), w') /\
    key_loaded (w_se w) (w_se w') slot key.
Proof.
  intros Hs Hk Hb. destruct (set_aes_keyslot_run slot key w Hs Hk) as (h1 & E1 & [K1 K2] & _).
  rewrite (run_bind _ _ _ _ _ E1).
  destruct (ecb_encrypt_run slot block (w <| w_se := h1 |>) Hs Hb) as (h2 & E2 & T2).
  rewrite (run_bind _ _ _ _ _ E2). rewrite w_se_update, K1 in *.
  assert (Hc : is_block (aes_encrypt key block)) by (by apply aes_encrypt_block).
  destruct (ecb_decrypt_run slot _ (w <| w_se := h1 |> <| w_se := h2 |>) Hs Hc) as (h3 & E3 & T3).
  rewrite w_se_update, (same_tables_key _ _ _ T2), K1, aes_decrypt_encrypt in E3 by done.
  rewrite (run_bind _ _ _ _ _ E3). eexists. split; [reflexivity|].
  rewrite w_se_update in *. split.
  - by rewrite (same_tables_key _ _ _ T3), (same_tables_key _ _ _ T2), K1.
  - intros s H1 H2. by rewrite (same_tables_key _ _ _ T3), (same_tables_key _ _ _ T2), K2.
Qed.
End Aes.

Section Guard.
Context {soc : SoC} {HD : EngineDone soc}.

(** The source check of [decrypt_data_into_keyslot] compares the slot
    number with the maximal key size (0x20) and not with the number of slots
    (0x10): source slots 0x10 to 0x1F, which do not exist, are accepted and
    programmed into CRYPTO_REG; a destination above 0xF or a source above 0x1F
    panics. *)
Theorem decrypt_into_keyslot_guard dst src key w :
  (0 <= dst < 16 -> 0 <= src < 32 ->
   exists w', decrypt_data_into_keyslot dst src key 0x10 w = (Ret tt, w')) /\
  (16 <= dst \/ 32 <= src ->
   fst (decrypt_data_into_keyslot dst src key 0x10 w) = Panic 0xFF000006).
Proof.
  unfold decrypt_data_into_keyslot, KEYSLOT_AES_MAX, KEYSIZE_AES_MAX. split.
  - intros Hd Hs. zdec. rewrite !run_se_write.
    rewrite (run_bind _ _ _ _ _ (trigger_blocking_run _ _ _ _)). by eexists.
  - intros H. replace (_ || _ || _) with true by (destruct H; zdec; rewrite ?orb_true_r; done).
    apply generic_panic_fst.
Qed.
End Guard.

(** ** RSA-PSS *)

(** RSASSA-PSS verification with SHA-256, a 32-byte salt and a 2048-bit
    modulus, over a hash function: the recovered message has the 0xBC trailer,
    the unmasked data block is zeros, a one and the salt, and the hash matches.
    The top bit of the data block is dropped, not checked. *)
Definition be_bytes (n : nat) (v : Z) : list Z := rev (le_bytes n v).
Definition mgf1 (hash : list Z -> list Z) (seed : list Z) (blocks first : Z) : list Z :=
  range blocks ≫= fun i => hash (seed ++ be_bytes 4 (first + i)).
Definition clear_top_bit (db : list Z) : list Z :=
  match db with [] => [] | b :: r => b .& 0x7F :: r end.
Definition pss_accepts (hash : list Z -> list Z) (n signature : Z) (data : list Z) : bool :=
  let em := be_bytes 256 (signature ^ 65537 mod n) in
  let h := slice em 223 32 in
  let db := clear_top_bit (xor_bytes (take 223 em) (mgf1 hash h 7 0)) in
  (byte_at em 255 =? 0xBC) && forallb (Z.eqb 0) (take 190 db) && (byte_at db 190 =? 1)
  && bool_decide (h = hash (zeros 8 ++ hash data ++ drop 191 db)).

Lemma xor_bytes_app_r m d r :
  xor_bytes m (d ++ r) = xor_bytes (take (length d) m) d ++ xor_bytes (drop (length d) m) r.
Proof.
  unfold xor_bytes. revert m. induction d as [|x d IH]; intros m; [by destruct m|].
  destruct m as [|y m]; [done|]. cbn. by rewrite IH.
Qed.
Lemma splice_0 m d : (length d <= length m)%nat -> splice m 0 d = d ++ drop (length d) m.
Proof. intros H. unfold splice. cbn [Z.to_nat]. rewrite take_0, Nat.sub_0_r, (firstn_all2 d) by lia. done. Qed.

Section Pss.
Context {soc : SoC} {HC : CryptoEngine soc}.

Lemma mgf1_succ seed n first : 0 <= n ->
  mgf1 sha256 seed (n + 1) first = sha256 (seed ++ be_bytes 4 first) ++ mgf1 sha256 seed n (first + 1).
Proof.
  intros Hn. unfold mgf1. rewrite range_succ, bind_cons, Z.add_0_r, bind_map by done. f_equal.
  apply bind_range_ext. intros i _. do 3 f_equal. lia.
Qed.

Lemma be_bytes_byte x : is_u8 x -> be_bytes 4 x = [0; 0; 0; x].
Proof.
  intros Hx. unfold be_bytes. cbn [le_bytes rev app]. unfold is_u8 in Hx.
  rewrite (Z.div_small x), (Z.mod_small x) by lia. done.
Qed.

Lemma pss_unmask_run n seed salt masked w :
  is_bytes salt -> length salt = 32%nat -> 0 <= seed -> seed + Z.of_nat n <= 256 ->
  (length masked <= 32 * n)%nat ->
  exists h', pss_unmask n seed salt masked w =
    (Ret (xor_bytes masked (mgf1 sha256 salt (Z.of_nat n) seed)), w <| w_se := h' |>).
Proof.
  intros Hb Hl. revert seed masked w. induction n as [|n IH]; intros seed masked w Hs Hsn Hm.
  - exists (w_se w). destruct masked; [by destruct w|cbn in Hm; lia].
  - cbn [pss_unmask]. assert (Hu : is_u8 seed) by (unfold is_u8; lia).
    assert (Hmsg : is_bytes (salt ++ [0; 0; 0; seed])) 
      by (rewrite <- be_bytes_byte by done; apply Forall_app_2; [done|apply Forall_rev, le_bytes_is_bytes]).
    destruct (sha256_run (salt ++ [0; 0; 0; seed]) 0x24 w) as (h1 & E1 & _); [done|rewrite length_app, Hl; done|].
    rewrite slice_all in E1 by (rewrite length_app, Hl; done).
    rewrite (run_bind _ _ _ _ _ E1).
    rewrite Nat2Z.inj_succ, <- Z.add_1_r, mgf1_succ, (be_bytes_byte seed) by (done || lia).
    destruct (sha256_digest _ Hmsg) as [Ld _].
    rewrite xor_bytes_app_r, Ld. destruct n as [|n].
    + exists h1. cbn [pss_unmask]. rewrite (drop_ge masked) by lia. done.
    + destruct (IH (seed + 1) (drop 0x20 masked) (w <| w_se := h1 |>)) as (h2 & E2); [lia|lia|rewrite length_drop; lia|].
      exists h2. rewrite u8_id by (unfold is_u8; lia). by rewrite (run_bind _ _ _ _ _ E2).
Qed.

Lemma splice_clear_top db rest :
  db <> [] -> splice (db ++ rest) 0 [byte_at (db ++ rest) 0 .& 0x7F] = clear_top_bit db ++ rest.
Proof. intros H. destruct db as [|b db]; [done|]. rewrite splice_0 by (cbn; lia). done. Qed.
Lemma length_clear_top db : length (clear_top_bit db) = length db.
Proof. by destruct db. Qed.
Lemma clear_top_bytes db : is_bytes db -> is_bytes (clear_top_bit db).
Proof.
  intros [|b l Hb Hl]; [constructor|]. constructor; [|done]. unfold is_u8 in *.
  change 0x7F with (Z.ones 7). rewrite Z.land_ones by lia. pose proof (Z.mod_pos_bound b (2 ^ 7)). lia.
Qed.
Lemma mgf1_digest h n first : is_bytes h -> 0 <= n ->
  is_bytes (mgf1 sha256 h n first) /\ length (mgf1 sha256 h n first) = (32 * Z.to_nat n)%nat.
Proof.
  intros Hh Hn. assert (Hd : forall i, length (sha256 (h ++ be_bytes 4 i)) = 32%nat /\ is_bytes (sha256 (h ++ be_bytes 4 i))).
  { intros i. apply sha256_digest, Forall_app_2; [done|apply Forall_rev, le_bytes_is_bytes]. }
  split.
  - apply Forall_bind, Forall_forall. intros i _. apply Hd.
  - unfold mgf1. rewrite (length_bind_words _ _ 32) by (intros; apply Hd). unfold range. rewrite length_seqZ. lia.
Qed.
Lemma xor_bytes_bytes a b : is_bytes a -> is_bytes b -> is_bytes (xor_bytes a b).
Proof.
  intros Ha Hb. apply (Forall_zip_with_fst _ is_u8); [done|]. eapply Forall_impl; [done|].
  intros y Hy x Hx. by apply lxor_u8.
Qed.

(** The data block of a recovered message, and its length. *)
Definition pss_db (em : list Z) : list Z :=
  clear_top_bit (xor_bytes (take 223 em) (mgf1 sha256 (slice em 223 32) 7 0)).
Lemma pss_db_shape em : length em = 256%nat -> is_bytes em -> length (pss_db em) = 223%nat /\ is_bytes (pss_db em).
Proof.
  intros L H. unfold pss_db. destruct (mgf1_digest (slice em 223 32) 7 0) as [Hb Hl]; [by apply slice_is_bytes|done|].
  rewrite length_clear_top, length_xor_bytes, Hl, length_take, L. split; [done|].
  by apply clear_top_bytes, xor_bytes_bytes; [apply Forall_take|].
Qed.

Lemma slice_app_l a b n : 0 <= n <= Z.of_nat (length a) -> slice (a ++ b) 0 n = take (Z.to_nat n) a.
Proof. intros H. unfold slice. cbn [Z.to_nat]. rewrite drop_0. rewrite take_app_le by lia. done. Qed.
Lemma slice_app_end a b off n :
  0 <= off -> 0 <= n -> off + n = Z.of_nat (length a) -> slice (a ++ b) off n = drop (Z.to_nat off) a.
Proof.
  intros H0 H2 H1. unfold slice. rewrite drop_app_le by lia. rewrite take_app_le by (rewrite length_drop; lia).
  apply firstn_all2. rewrite length_drop. lia.
Qed.
Lemma byte_at_app a b i : 0 <= i < Z.of_nat (length a) -> byte_at (a ++ b) i = byte_at a i.
Proof. intros. unfold byte_at. apply app_nth1. lia. Qed.

(** The two hashes that end the verification. *)
Lemma pss_hash_check_run h data salt w :
  is_bytes data -> is_bytes salt -> length salt = 32%nat ->
  exists w', (data_hash ← se_calculate_sha256 data (Z.of_nat (length data));
              validate_hash ← se_calculate_sha256 (zeros 8 ++ data_hash ++ salt) 0x48;
              mret (bool_decide (h = validate_hash))) w =
    (Ret (bool_decide (h = sha256 (zeros 8 ++ sha256 data ++ salt))), w') /\ driver_only w w'.
Proof.
  intros Hd Hs Ls. destruct (sha256_run data (Z.of_nat (length data)) w) as (h4 & E4 & _); [done|lia|].
  rewrite (run_bind _ _ _ _ _ E4), slice_all by done. destruct (sha256_digest data Hd) as [Ld Bd].
  set (v := zeros 8 ++ sha256 data ++ salt).
  assert (Lv : length v = 72%nat) by (unfold v; rewrite !length_app, Ld, Ls; done).
  destruct (sha256_run v 0x48 (w <| w_se := h4 |>)) as (h5 & E5 & _); [|lia|].
  { apply Forall_app_2; [by repeat constructor|]. by apply Forall_app_2. }
  rewrite (run_bind _ _ _ _ _ E5), slice_all by lia. eexists. split; [reflexivity|].
  etransitivity; apply driver_only_se.
Qed.

(** The verification, with what it leaves alone. *)
Lemma pss_verify_run signature modulus data w :
  is_bytes signature -> is_bytes modulus -> is_bytes data ->
  length signature = 256%nat -> length modulus = 256%nat -> 0 < be_value modulus ->
  length (g_se_modulus_sizes (w_drv w)) = 2%nat -> length (g_se_exp_sizes (w_drv w)) = 2%nat ->
  exists w', se_rsa2048_pss_verify signature 256 modulus 256 data (Z.of_nat (length data)) w =
    (Ret (pss_accepts sha256 (be_value modulus) (be_value signature) data), w') /\ driver_only w w'.
Proof.
  intros Hsb Hmb Hdb Ls Lm Hpos L1 L2. unfold se_rsa2048_pss_verify, RSA_2048_BYTES. cbv zeta.
  destruct (rsa_set_and_run 0 4 1 modulus [0; 1; 0; 1] signature w) as (w1 & em & w2 & E1 & E2 & (Le & Be & Ve) & D2);
    [lia|lia|lia|done|done|lia|done|lia|done|done|done|].
  rewrite (run_bind _ _ _ _ _ E1), (run_bind _ _ _ _ _ E2).
  change (be_value [0; 1; 0; 1]) with 65537 in Ve.
  assert (Eem : be_bytes 256 (be_value signature ^ 65537 mod be_value modulus) = em).
  { rewrite <- Ve. unfold be_bytes, be_value. replace 256%nat with (length (rev em)) by (rewrite length_rev; lia).
    rewrite le_bytes_value by (by apply Forall_rev). apply rev_involutive. }
  assert (L256 : length em = 256%nat) by lia.
  unfold pss_accepts. rewrite Eem. fold (pss_db em). clear Eem Ve E1 E2.
  change (256 - 1) with 255. change (256 - 32 - 1) with 223. change (256 - 32 - 32 - 1) with 191.
  change (191 - 1) with 190.
  destruct (byte_at em 255 =? 0xBC); cbn [negb andb]; [|by exists w2].
  assert (Hh : is_bytes (slice em 223 32)) by (by apply slice_is_bytes).
  destruct (pss_unmask_run 7 0 (slice em 223 32) (slice em 0 223) w2) as (h3 & E3);
    [done|by rewrite length_slice by lia|done|done|rewrite length_slice by lia; cbn; lia|].
  change (Z.of_nat 7) with 7 in E3. rewrite (run_bind _ _ _ _ _ E3).
  assert (D3 : driver_only w (w2 <| w_se := h3 |>)) by (etransitivity; [exact D2|apply driver_only_se]).
  change (slice em 0 223) with (take 223 em).
  destruct (pss_db_shape em L256 Be) as [Ldb Bdb].
  assert (Lx : length (xor_bytes (take 223 em) (mgf1 sha256 (slice em 223 32) 7 0)) = 223%nat)
    by (by unfold pss_db in Ldb; rewrite length_clear_top in Ldb).
  rewrite (splice_0 em) by lia.
  rewrite splice_clear_top by (intros E; by rewrite E in Lx). fold (pss_db em).
  rewrite slice_app_l, (slice_app_end _ _ 191 32), byte_at_app by lia.
  change (Z.to_nat 190) with 190%nat. change (Z.to_nat 191) with 191%nat.
  destruct (forallb (Z.eqb 0) (take 190 (pss_db em))); cbn [negb andb]; [|by eexists; split; [|exact D3]].
  destruct (byte_at (pss_db em) 190 =? 1); cbn [negb andb]; [|by eexists; split; [|exact D3]].
  destruct (pss_hash_check_run (slice em 223 32) data (drop 191 (pss_db em)) (w2 <| w_se := h3 |>))
    as (w4 & E4 & D4); [done|by apply Forall_drop|rewrite length_drop; lia|].
  exists w4. split; [exact E4|]. by etransitivity.
Qed.

End Pss.

Import Toy.

(** 3 ^ 5 mod 1000, in the second slot. *)
Lemma rsa_exp_mod_correct_witness :
  exists out w', (set_rsa_keyslot 1 (zeros 62 ++ [3; 0xE8]) 64 [0; 0; 0; 5] 4 ;;
                  se_synchronous_exp_mod 1 64 (zeros 63 ++ [3]) 64) (toy_world 11) = (Ret out, w') /\
    Z.of_nat (length out) = 64 /\ be_value out = 243.
Proof.
  apply (rsa_exp_mod_correct 1 1 1 (zeros 62 ++ [3; 0xE8]) [0; 0; 0; 5] (zeros 63 ++ [3]));
    first [lia | reflexivity | by repeat constructor].
Defined.

Lemma shift_left_xor_rb_doubles_witness :
  is_block (shift_left_xor_rb (0x80 :: zeros 14 ++ [1])) /\
  be_value (shift_left_xor_rb (0x80 :: zeros 14 ++ [1])) = 0x85.
Proof.
  apply (shift_left_xor_rb_doubles (0x80 :: zeros 14 ++ [1])). by split; [|repeat constructor].
Defined.

(** An encoded message for [[1; 2; 3]] under the toy digest, which is its own
    signature for three times itself as the modulus. *)
Definition sample_em : list Z :=
  let h := zeros 8 ++ [1; 2; 3] ++ zeros 21 in
  xor_bytes (zeros 190 ++ [1] ++ replicate 32 6) (range 7 ≫= fun _ => h) ++ h ++ [0xBC].
Lemma own_signature a : 0 < a -> a mod 3 = 1 -> a ^ 65537 mod (3 * a) = a.
Proof.
  intros Ha H3. change 65537 with (Z.succ 65536). rewrite Z.pow_succ_r, (Z.mul_comm 3 a) by lia.
  rewrite Z.mul_mod_distr_l by lia. rewrite (Zpower_mod a), H3, Z.pow_1_l by lia. by rewrite Z.mul_1_r.
Qed.

Lemma sample_modulus : be_value (be_bytes 256 (3 * be_value sample_em)) = 3 * be_value sample_em.
Proof. vm_compute. reflexivity. Qed.
Lemma sample_em_accepted :
  pss_accepts toy_digest (be_value (be_bytes 256 (3 * be_value sample_em))) (be_value sample_em) [1; 2; 3] = true.
Proof.
  unfold pss_accepts. rewrite sample_modulus, own_signature by (vm_compute; reflexivity). vm_compute. reflexivity.
Qed.


Lemma aes_keyslot_roundtrip_witness :
  let key := map Z.succ (range 16) in let block := range 16 in
  exists w', (set_aes_keyslot 5 key 0x10 ;;
              c ← se_aes_128_ecb_encrypt_block 5 0x10 block 0x10;
              p ← se_aes_ecb_decrypt_block 5 0x10 c 0x10;
              mret (c, p)) (toy_world 11) = (Ret (aes_encrypt key block, block), w') /\
    key_loaded (w_se (toy_world 11)) (w_se w') 5 key.
Proof.
  apply (aes_keyslot_roundtrip 5 (map Z.succ (range 16)) (range 16) (toy_world 11));
    first [lia | split; [done | by repeat constructor]].
Defined.

Lemma decrypt_into_keyslot_guard_witness :
  (exists w', decrypt_data_into_keyslot 9 0x1C (zeros 16) 0x10 (toy_world 11) = (Ret tt, w')) /\
  fst (decrypt_data_into_keyslot 9 0x20 (zeros 16) 0x10 (toy_world 11)) = Panic 0xFF000006.
Proof.
  split; [apply (decrypt_into_keyslot_guard 9 0x1C); lia|apply (decrypt_into_keyslot_guard 9 0x20); lia].
Defined.
