(* ===== verification/KeyProps.v ===== *)
(** Keys: sealing and unsealing, the key hierarchy behind GenerateAesKek and
    LoadAesKey, master key detection (sealedkeys.c, masterkey.c, smc_user.c). *)
From S2P Require Import Prelude State Utils Se Engine Pages Config Keys Power SmcUser SmcApi Platform SeProps.
Import SE MasterKey SealedKeys TitleKey SmcUser ConfigItem.

(** The state is the old one up to the engine. *)
Definition se_only (w w' : World) : Prop := w' = w <| w_se := w_se w' |>.
Lemma se_only_set w h : se_only w (w <| w_se := h |>).
Proof. done. Qed.
#[export] Instance se_only_preorder : PreOrder se_only.
Proof.
  split; [by intros []|]. unfold se_only. intros x y z H1 H2. rewrite H2, H1. done.
Qed.

(** Keys are the same except in the slots of [l]. *)
Definition slots_same (l : list Z) (h h' : se_hw) : Prop :=
  forall s, 0 <= s < 16 -> s ∉ l -> slot_key h' s = slot_key h s.
Lemma slots_same_refl l h : slots_same l h h.
Proof. by intros s. Qed.
Lemma slots_same_trans l h1 h2 h3 : slots_same l h1 h2 -> slots_same l h2 h3 -> slots_same l h1 h3.
Proof. intros H1 H2 s Hs Hn. by rewrite (H2 s), (H1 s). Qed.
Lemma slots_same_loaded l h h' dst key : dst ∈ l -> key_loaded h h' dst key -> slots_same l h h'.
Proof. intros Hd [_ H] s Hs Hn. apply H; [done|]. by intros ->. Qed.
Lemma slots_same_tables l h h' : same_tables h h' -> slots_same l h h'.
Proof. intros H s _ _. by apply same_tables_key. Qed.

Create HintDb slots.
#[export] Hint Resolve slots_same_refl slots_same_trans slots_same_loaded slots_same_tables : slots.

(** The seal key a use case derives from the session key. *)
Definition seal_kek {soc : SoC} {HC : CryptoEngine soc} (h : se_hw) (source : list Z) : list Z :=
  aes_decrypt (slot_key h KEYSLOT_SWITCH_SESSIONKEY) source.

Section Seal.
Context {soc : SoC} {HC : CryptoEngine soc}.

Lemma seal_internal_run src source w :
  is_block src -> is_block source ->
  exists w', seal_key_internal src source w = (Ret (aes_encrypt (seal_kek (w_se w) source) src), w') /\
    se_only w w' /\ slots_same [KEYSLOT_SWITCH_TEMPKEY] (w_se w) (w_se w').
Proof.
  intros Hs Hk. unfold seal_key_internal.
  destruct (decrypt_into_run KEYSLOT_SWITCH_TEMPKEY KEYSLOT_SWITCH_SESSIONKEY source w) as (h1 & E1 & K1); [done..|].
  rewrite (run_bind _ _ _ _ _ E1).
  destruct (ecb_encrypt_run KEYSLOT_SWITCH_TEMPKEY src (w <| w_se := h1 |>)) as (h2 & E2 & T2); [done..|].
  rewrite w_se_update, (proj1 K1) in E2. rewrite E2. eexists. split; [reflexivity|]. split; [done|].
  eapply slots_same_trans; [eapply slots_same_loaded, K1; left|by apply slots_same_tables].
Qed.

Lemma unseal_internal_run slot sealed source w :
  0 <= slot < 16 -> is_block sealed -> is_block source ->
  exists w', unseal_key_internal slot sealed source w = (Ret tt, w') /\ se_only w w' /\
    slot_key (w_se w') slot = aes_decrypt (seal_kek (w_se w) source) sealed /\
    slots_same [slot; KEYSLOT_SWITCH_TEMPKEY] (w_se w) (w_se w').
Proof.
  intros Hs Hb Hk. unfold unseal_key_internal.
  destruct (decrypt_into_run KEYSLOT_SWITCH_TEMPKEY KEYSLOT_SWITCH_SESSIONKEY source w) as (h1 & E1 & K1); [done..|].
  rewrite (run_bind _ _ _ _ _ E1).
  destruct (decrypt_into_run slot KEYSLOT_SWITCH_TEMPKEY sealed (w <| w_se := h1 |>)) as (h2 & E2 & K2); [done..|].
  rewrite w_se_update, (proj1 K1) in K2. rewrite E2. eexists. split; [reflexivity|]. split; [done|]. split.
  - apply K2.
  - eapply slots_same_trans; [eapply slots_same_loaded, K1; by right; left|eapply slots_same_loaded, K2; left].
Qed.

(** The use cases that may be sealed under the running firmware. *)
Definition usecase_ok (w : World) (usecase : Z) : Prop :=
  g_has_loaded_config (w_exo w) = true /\
  0 <= usecase < if target_firmware (g_exosphere_cfg (w_exo w)) >=? ATMOSPHERE_TARGET_FIRMWARE_500
                 then CRYPTOUSECASE_MAX_5X else CRYPTOUSECASE_MAX.

Lemma usecase_run w usecase : usecase_ok w usecase -> usecase_is_invalid usecase w = (Ret false, w).
Proof.
  intros [Hl Hu]. unfold usecase_is_invalid. rewrite (run_bind _ _ _ _ _ (target_firmware_run w Hl)).
  unfold CRYPTOUSECASE_MAX_5X, CRYPTOUSECASE_MAX in *. destruct (_ >=? ATMOSPHERE_TARGET_FIRMWARE_500); zdec; done.
Qed.
Lemma usecase_source usecase w : usecase_ok w usecase -> is_block (key_at g_seal_key_sources usecase).
Proof.
  intros [_ Hu]. assert (Hr : usecase ∈ range 7).
  { apply elem_of_range. unfold CRYPTOUSECASE_MAX_5X, CRYPTOUSECASE_MAX in Hu. destruct (_ >=? _); lia. }
  clear Hu. revert usecase Hr. apply Forall_forall. vm_compute range.
  repeat (constructor; [split; [done|by repeat constructor]|]). constructor.
Qed.

Lemma seal_key_run src usecase w :
  is_block src -> usecase_ok w usecase ->
  exists w', seal_key 0x10 src 0x10 usecase w =
      (Ret (aes_encrypt (seal_kek (w_se w) (key_at g_seal_key_sources usecase)) src), w') /\
    se_only w w' /\ slots_same [KEYSLOT_SWITCH_TEMPKEY] (w_se w) (w_se w').
Proof.
  intros Hs Hu. unfold seal_key. rewrite (run_bind _ _ _ _ _ (usecase_run w usecase Hu)).
  apply seal_internal_run; [done|by eapply usecase_source].
Qed.
Lemma unseal_key_run slot sealed usecase w :
  0 <= slot < 16 -> is_block sealed -> usecase_ok w usecase ->
  exists w', unseal_key slot sealed 0x10 usecase w = (Ret tt, w') /\ se_only w w' /\
    slot_key (w_se w') slot = aes_decrypt (seal_kek (w_se w) (key_at g_seal_key_sources usecase)) sealed /\
    slots_same [slot; KEYSLOT_SWITCH_TEMPKEY] (w_se w) (w_se w').
Proof.
  intros Hs Hb Hu. unfold unseal_key. rewrite (run_bind _ _ _ _ _ (usecase_run w usecase Hu)).
  apply unseal_internal_run; [done..|by eapply usecase_source].
Qed.

Lemma se_only_exo w w' : se_only w w' -> w_exo w' = w_exo w.
Proof. by intros ->. Qed.
Lemma usecase_ok_se_only w w' u : se_only w w' -> usecase_ok w u -> usecase_ok w' u.
Proof. intros H. unfold usecase_ok. by rewrite (se_only_exo _ _ H). Qed.

(** Sealing and unsealing are inverse.  For every use case the running
    firmware knows, [seal_key] gives a sealed key that [unseal_key] with the
    same use case turns back into the key, in any slot; besides that slot and
    the temporary slot no AES key changes, and the key itself is never returned
    (the sealed key is AES under the use case's seal key). *)
Theorem seal_unseal_roundtrip key usecase slot w :
  is_block key -> 0 <= slot < 16 -> usecase_ok w usecase ->
  exists w1 w2,
    seal_key 0x10 key 0x10 usecase w =
      (Ret (aes_encrypt (seal_kek (w_se w) (key_at g_seal_key_sources usecase)) key), w1) /\
    unseal_key slot (aes_encrypt (seal_kek (w_se w) (key_at g_seal_key_sources usecase)) key) 0x10 usecase w1
      = (Ret tt, w2) /\
    slot_key (w_se w2) slot = key /\ slots_same [slot; KEYSLOT_SWITCH_TEMPKEY] (w_se w) (w_se w2).
Proof.
  intros Hk Hs Hu. destruct (seal_key_run key usecase w Hk Hu) as (w1 & E1 & S1 & D1).
  set (seal := seal_kek _ _). assert (Hb : is_block seal).
  { apply aes_decrypt_block; [apply slot_key_block|by eapply usecase_source]. }
  destruct (unseal_key_run slot (aes_encrypt seal key) usecase w1) as (w2 & E2 & S2 & K2 & D2);
    [done|by apply aes_encrypt_block|by eapply usecase_ok_se_only|].
  exists w1, w2. repeat split; [done..| |].
  - rewrite K2. unfold seal_kek. rewrite (D1 KEYSLOT_SWITCH_SESSIONKEY) by (done || by rewrite list_elem_of_singleton).
    by apply aes_decrypt_encrypt.
  - intros s H1 H2. rewrite (D2 s), (D1 s); [done|done|..|done|done].
    intros H. apply H2. right. done.
Qed.
End Seal.

(** ** The master key of a revision *)

Definition master_key (w : World) (revision : Z) : list Z :=
  if revision =? g_mkey_revision (w_mkey w) then slot_key (w_se w) KEYSLOT_SWITCH_MASTERKEY
  else key_at (g_old_masterkeys (w_mkey w)) revision.

(** The revision is known and the older keys were recovered. *)
Definition mkey_known (w : World) : Prop :=
  g_determined_mkey_revision (w_mkey w) = true /\
  0 <= g_mkey_revision (w_mkey w) < MASTERKEY_REVISION_MAX /\
  forall r, 0 <= r < g_mkey_revision (w_mkey w) -> is_block (key_at (g_old_masterkeys (w_mkey w)) r).

Lemma read64le_back s : is_block s -> bytes_of_pair (read64le s 0) (read64le s 8) = s.
Proof.
  intros [L H]. unfold bytes_of_pair, read64le.
  assert (E : forall o, 0 <= o -> o + 8 <= 16 -> le_bytes 8 (le_value (slice s o 8)) = slice s o 8).
  { intros o H0 H1. replace 8%nat with (length (slice s o 8)) at 1 by (rewrite length_slice; lia).
    by apply le_bytes_value, slice_is_bytes. }
  rewrite !E by lia. unfold slice. change (Z.to_nat 0) with 0%nat. rewrite drop_0.
  rewrite (firstn_all2 (drop _ s)) by (rewrite length_drop; lia). apply take_drop.
Qed.
Lemma pair_block a b : is_block (bytes_of_pair a b).
Proof. split; [done|]. apply Forall_app_2; apply le_bytes_is_bytes. Qed.

Section Derive.
Context {soc : SoC} {HC : CryptoEngine soc}.

Lemma mkey_get_keyslot_run r w :
  mkey_known w -> 0 <= r <= g_mkey_revision (w_mkey w) ->
  exists slot w', mkey_get_keyslot r w = (Ret slot, w') /\ 0 <= slot < 16 /\ se_only w w' /\
    slot_key (w_se w') slot = master_key w r /\ slots_same [KEYSLOT_SWITCH_TEMPKEY] (w_se w) (w_se w').
Proof.
  intros (Hd & Hc & Ho) Hr. unfold MASTERKEY_REVISION_MAX in Hc. unfold mkey_get_keyslot, master_key.
  rewrite run_gets, Hd. unfold MASTERKEY_REVISION_MAX. zdec. rewrite run_gets. zdec.
  destruct (Z.eqb_spec r (g_mkey_revision (w_mkey w))) as [->|Hne].
  - exists KEYSLOT_SWITCH_MASTERKEY, w. split; [done|]. split; [done|]. split; [reflexivity|]. split; [done|apply slots_same_refl].
  - rewrite run_gets.
    destruct (set_aes_keyslot_run KEYSLOT_SWITCH_TEMPKEY (key_at (g_old_masterkeys (w_mkey w)) r) w)
      as (h & E & K & _); [done|apply Ho; lia|].
    rewrite (run_bind _ _ _ _ _ E). exists KEYSLOT_SWITCH_TEMPKEY, (w <| w_se := h |>).
    split; [done|]. split; [done|]. split; [done|]. split; [apply K|]. eapply slots_same_loaded, K. left.
Qed.

Definition is_recovery (w : World) : bool :=
  negb (bootloader_attribute (g_boot_reason (w_bc w)) .& 0x01 =? 0).
Lemma is_recovery_boot_run w : configitem_is_recovery_boot w = (Ret (is_recovery w), w).
Proof.
  unfold is_recovery, configitem_is_recovery_boot, configitem_get_or_panic, configitem_get.
  cbn -[Z.land]. unfold mbind, M_bind, mret, M_ret, BootConfig.bootconfig_is_recovery_boot, gets. cbn -[Z.land].
  by destruct (negb (_ .& 1 =? 0)).
Qed.
Lemma mkey_get_revision_run w :
  g_determined_mkey_revision (w_mkey w) = true -> mkey_get_revision w = (Ret (g_mkey_revision (w_mkey w)), w).
Proof. intros H. unfold mkey_get_revision. by rewrite run_gets, H. Qed.

Definition kek_source (usecase mask_id : Z) : list Z :=
  xor_bytes (key_at kek_seeds usecase) (key_at kek_masks mask_id).
Lemma kek_source_block mask : 0 <= mask < 4 -> is_block (kek_source 0 mask).
Proof.
  intros Hm%elem_of_range. revert mask Hm. apply Forall_forall. vm_compute range.
  repeat (constructor; [split; [done|by repeat constructor]|]). constructor.
Qed.

(** The key hierarchy a user key goes through: the master key decrypts the
    (masked) kek source, the result the wrapped kek, that the wrapped key. *)
Definition derived_kek (mk : list Z) (mask : Z) (wrapped_kek : list Z) : list Z :=
  aes_decrypt (aes_decrypt mk (kek_source 0 mask)) wrapped_kek.
Definition derived_key (mk : list Z) (mask : Z) (wrapped_kek wrapped_key : list Z) : list Z :=
  aes_decrypt (derived_kek mk mask wrapped_kek) wrapped_key.

(** An AES kek request for mask [mask], and what it needs of the state. *)
Definition kek_request (w : World) (args : smc_args_t) (mask : Z) : Prop :=
  g_has_loaded_config (w_exo w) = true /\ mkey_known w /\ length args = 8%nat /\
  offset_rev (u32 (X args 3)) <= g_mkey_revision (w_mkey w) /\
  X args 4 = 2 * mask /\ 0 <= mask < 4 /\ (mask = 2 -> is_recovery w = true) /\ (mask = 1 -> is_recovery w = false).

Lemma offset_rev_nonneg x : 0 <= offset_rev (u32 x).
Proof. unfold offset_rev. pose proof (u32_range x) as H. unfold is_u32 in H. destruct (Z.gtb_spec (u32 x) 0); lia. Qed.

(** Derivation through two slots: [key] decrypts [source] into the temporary
    slot, which decrypts [data]. *)
Lemma derive_run slot source data w :
  0 <= slot < 16 -> is_block source -> is_block data ->
  exists w', (decrypt_data_into_keyslot KEYSLOT_SWITCH_TEMPKEY slot source 0x10 ;;
              se_aes_ecb_decrypt_block KEYSLOT_SWITCH_TEMPKEY 0x10 data 0x10) w =
    (Ret (aes_decrypt (aes_decrypt (slot_key (w_se w) slot) source) data), w') /\
    se_only w w' /\ slots_same [KEYSLOT_SWITCH_TEMPKEY] (w_se w) (w_se w').
Proof.
  intros Hs Hk Hd.
  destruct (decrypt_into_run KEYSLOT_SWITCH_TEMPKEY slot source w) as (h1 & E1 & K1); [done..|].
  rewrite (run_bind _ _ _ _ _ E1).
  destruct (ecb_decrypt_run KEYSLOT_SWITCH_TEMPKEY data (w <| w_se := h1 |>)) as (h2 & E2 & T2); [done..|].
  rewrite w_se_update, (proj1 K1) in E2. rewrite E2. eexists. split; [reflexivity|]. split; [done|].
  eapply slots_same_trans; [eapply slots_same_loaded, K1; left|by apply slots_same_tables].
Qed.

Lemma mask_fields mask : 0 <= mask < 4 ->
  ((2 * mask) >>. 1) .& 3 = mask /\ ((2 * mask) >>. 5) .& 7 = 0 /\ ((2 * mask) >>. 5) .& 3 = 0 /\ (2 * mask) .& 1 = 0.
Proof.
  intros Hm%elem_of_range. revert mask Hm. apply Forall_forall. vm_compute range.
  repeat (constructor; [by vm_compute|]). constructor.
Qed.

Lemma generate_kek_run args mask w :
  kek_request w args mask ->
  let kek := derived_kek (master_key w (offset_rev (u32 (X args 3)))) mask (bytes_of_pair (X args 1) (X args 2)) in
  let sealed := aes_encrypt (seal_kek (w_se w) (key_at g_seal_key_sources 0)) kek in
  exists w', user_generate_aes_kek args w =
    (Ret (0, set_X (set_X args 1 (read64le sealed 0)) 2 (read64le sealed 8)), w') /\
    se_only w w' /\ slots_same [KEYSLOT_SWITCH_TEMPKEY] (w_se w) (w_se w').
Proof.
  intros (Hl & Hk & Hlen & Hr & H4 & Hm & Hm2 & Hm1) kek sealed.
  pose proof (offset_rev_nonneg (X args 3)) as Hr0. unfold user_generate_aes_kek. rewrite H4. cbv zeta.
  destruct (mask_fields mask Hm) as (-> & F2 & F3 & ->).
  set (rv := offset_rev (u32 (X args 3))) in *. destruct Hk as (Hd & Hc & Ho).
  assert (Ht : (if rv >=? MASTERKEY_REVISION_MAX then mret true
                else cur ← mkey_get_revision; mret (rv >? cur)) w = (Ret false, w)).
  { unfold MASTERKEY_REVISION_MAX in *. zdec. rewrite (run_bind _ _ _ _ _ (mkey_get_revision_run w Hd)). zdec. done. }
  rewrite (run_bind _ _ _ _ _ Ht). clear Ht. zdec.
  rewrite (run_bind _ _ _ _ _ (target_firmware_run w Hl)). set (fw := target_firmware _).
  replace (_ .& (if fw >=? ATMOSPHERE_TARGET_FIRMWARE_500 then 7 else 3)) with 0 by (by destruct (fw >=? _)).
  rewrite (run_bind _ _ _ _ _ (is_recovery_boot_run w)).
  change (kek_bounds_fail _ rv mask 0) with false. rewrite andb_false_r.
  replace ((mask =? 2) && negb (is_recovery w)) with false
    by (destruct (Z.eqb_spec mask 2) as [E|]; [by rewrite Hm2|done]).
  replace ((mask =? 1) && is_recovery w) with false
    by (destruct (Z.eqb_spec mask 1) as [E|]; [by rewrite Hm1|done]).
  cbn [Z.eqb negb].
  destruct (mkey_get_keyslot_run rv w) as (slot & w1 & E1 & Hs & O1 & K1 & D1); [done|lia|].
  rewrite (run_bind _ _ _ _ _ E1), <- (bind_assoc _ (fun _ => se_aes_ecb_decrypt_block _ _ _ _)).
  destruct (derive_run slot (kek_source 0 mask) (bytes_of_pair (X args 1) (X args 2)) w1) as (w2 & E2 & O2 & D2);
    [done|by apply kek_source_block|apply pair_block|].
  unfold kek_source in E2 at 1. rewrite (run_bind _ _ _ _ _ E2), K1. fold (kek_source 0 mask). fold kek.
  assert (Hkb : is_block kek).
  { repeat apply aes_decrypt_block; [|by apply kek_source_block|apply pair_block]. rewrite <- K1. apply slot_key_block. }
  assert (O12 : se_only w w2) by (etransitivity; done).
  assert (Hu : usecase_ok w2 0).
  { apply (usecase_ok_se_only w); [done|]. split; [done|]. by destruct (_ >=? _). }
  destruct (seal_key_run kek 0 w2 Hkb Hu) as (w3 & E3 & O3 & D3).
  rewrite (run_bind _ _ _ _ _ E3).
  assert (D12 : slots_same [KEYSLOT_SWITCH_TEMPKEY] (w_se w) (w_se w2)) by (eapply slots_same_trans; done).
  exists w3. split; [|split; [etransitivity; done|eapply slots_same_trans; done]].
  replace (seal_kek (w_se w2) _) with (seal_kek (w_se w) (key_at g_seal_key_sources 0)); [done|].
  unfold seal_kek. by rewrite (D12 KEYSLOT_SWITCH_SESSIONKEY) by (done || by rewrite list_elem_of_singleton).
Qed.

Lemma user_slot_ok_run slot w :
  g_has_loaded_config (w_exo w) = true -> slot <= 3 -> is_user_keyslot_valid slot w = (Ret true, w).
Proof.
  intros Hl Hs. unfold is_user_keyslot_valid. rewrite (run_bind _ _ _ _ _ (target_firmware_run w Hl)).
  by destruct (_ && _); zdec.
Qed.

Lemma load_aes_key_run args w :
  g_has_loaded_config (w_exo w) = true -> u32 (X args 1) <= 3 ->
  exists w', user_load_aes_key args w = (Ret (0, args), w') /\ se_only w w' /\
    slot_key (w_se w') (u32 (X args 1)) =
      aes_decrypt (aes_decrypt (seal_kek (w_se w) (key_at g_seal_key_sources 0)) (bytes_of_pair (X args 2) (X args 3)))
        (bytes_of_pair (X args 4) (X args 5)) /\
    slots_same [u32 (X args 1); KEYSLOT_SWITCH_TEMPKEY] (w_se w) (w_se w').
Proof.
  intros Hl Hs. pose proof (u32_range (X args 1)) as Hu. unfold is_u32 in Hu. unfold user_load_aes_key. cbv zeta.
  rewrite (run_bind _ _ _ _ _ (user_slot_ok_run _ w Hl Hs)). cbn [negb].
  destruct (unseal_key_run KEYSLOT_SWITCH_TEMPKEY (bytes_of_pair (X args 2) (X args 3)) CRYPTOUSECASE_AES w)
    as (w1 & E1 & O1 & K1 & D1); [done|apply pair_block|split; [done|by destruct (_ >=? _)]|].
  rewrite (run_bind _ _ _ _ _ E1).
  destruct (decrypt_into_run (u32 (X args 1)) KEYSLOT_SWITCH_TEMPKEY (bytes_of_pair (X args 4) (X args 5)) w1)
    as (h2 & E2 & K2); [done|lia|apply pair_block|].
  rewrite (run_bind _ _ _ _ _ E2). eexists. split; [reflexivity|]. split; [etransitivity; [exact O1|done]|].
  rewrite w_se_update. split; [by rewrite (proj1 K2), K1|].
  eapply slots_same_trans; [|eapply slots_same_loaded, K2; left].
  intros s H1 H2. apply D1; [done|]. intros H. apply H2. apply elem_of_cons in H as [->|H]; [right; left|by right].
Qed.

End Derive.

(** ** Master key detection *)

Section Detect.
Context {soc : SoC} {HC : CryptoEngine soc}.

Definition mkey_vector (retail : bool) (i : Z) : list Z :=
  if retail then key_at mkey_vectors i else key_at mkey_vectors_dev i.

(** The key of revision [i] when [mk] is the key of revision [r]: each older
    key is the decryption of its vector under the next one. *)
Fixpoint older_key (retail : bool) (mk : list Z) (r : nat) (i : Z) : list Z :=
  match r with
  | O => mk
  | S r' => if i =? Z.of_nat r then mk
            else older_key retail (aes_decrypt mk (mkey_vector retail (Z.of_nat r))) r' i
  end.
(** The check that [mk] is of revision [r]: the key of revision 0 decrypts the
    first (retail) vector to zeros. *)
Definition is_revision (retail : bool) (mk : list Z) (r : nat) : bool :=
  forallb (Z.eqb 0) (aes_decrypt (older_key retail mk r 0) (key_at mkey_vectors 0)).

Definition is_retail (w : World) : bool :=
  negb (Fuse.retail_type_of (w_mmio w (FUSE_CHIP_REGS + (Fuse.FUSE_RESERVED_ODM + 4 * 4))) =? 0).
Lemma is_retail_run w : configitem_is_retail w = (Ret (is_retail w), w).
Proof. reflexivity. Qed.

(** What a check of one revision leaves alone. *)
Record detect_frame (w w' : World) : Prop := {
  df_mmio : w_mmio w' = w_mmio w;
  df_determined : g_determined_mkey_revision (w_mkey w') = g_determined_mkey_revision (w_mkey w);
  df_length : length (g_old_masterkeys (w_mkey w')) = length (g_old_masterkeys (w_mkey w));
  df_slots : slots_same [KEYSLOT_SWITCH_TEMPKEY] (w_se w) (w_se w') }.
#[local] Instance detect_frame_preorder : PreOrder detect_frame.
Proof.
  split; [split; auto with slots|]. intros x y z [H1 H2 H3 H4] [H5 H6 H7 H8]. split; try congruence.
  by eapply slots_same_trans.
Qed.

Lemma vector_block retail i : 0 <= i < 10 -> is_block (mkey_vector retail i).
Proof.
  intros Hi%elem_of_range. revert i Hi. apply Forall_forall. vm_compute range.
  repeat (constructor; [destruct retail; split; first [done | by repeat constructor]|]). constructor.
Qed.

Lemma older_key_block retail mk r i : (r < 10)%nat -> is_block mk -> is_block (older_key retail mk r i).
Proof.
  revert mk. induction r as [|r IH]; intros mk Hr Hm; [done|]. cbn [older_key].
  destruct (_ =? _); [done|]. apply IH; [lia|]. apply aes_decrypt_block; [done|]. apply vector_block. lia.
Qed.

(** One turn of the loop of [check_mkey_revision]. *)
Definition chain_step (retail : bool) (check_keyslot i : Z) : M Z :=
  key ← se_aes_ecb_decrypt_block check_keyslot 0x10
          (if retail then key_at mkey_vectors i else key_at mkey_vectors_dev i) 0x10;
  set_old_masterkey (i - 1) key ;;
  set_aes_keyslot KEYSLOT_SWITCH_TEMPKEY key 0x10 ;;
  mret KEYSLOT_SWITCH_TEMPKEY.

Lemma chain_step_run retail slot i mk w :
  0 <= slot < 16 -> 1 <= i < 10 -> slot_key (w_se w) slot = mk ->
  length (g_old_masterkeys (w_mkey w)) = 10%nat ->
  let key := aes_decrypt mk (mkey_vector retail i) in
  exists w', chain_step retail slot i w = (Ret KEYSLOT_SWITCH_TEMPKEY, w') /\ detect_frame w w' /\
    slot_key (w_se w') KEYSLOT_SWITCH_TEMPKEY = key /\
    g_old_masterkeys (w_mkey w') = <[Z.to_nat (i - 1) := key]> (g_old_masterkeys (w_mkey w)).
Proof.
  intros Hs Hi Hm Hl key. unfold chain_step. fold (mkey_vector retail i).
  assert (Hv : is_block (mkey_vector retail i)) by (apply vector_block; lia).
  destruct (ecb_decrypt_run slot (mkey_vector retail i) w) as (h1 & E1 & T1); [done..|].
  rewrite Hm in E1. fold key in E1. rewrite (run_bind _ _ _ _ _ E1). unfold set_old_masterkey. rewrite run_modify.
  set (w1 := update w_mkey _ _).
  assert (Hk : is_block key) by (subst key mk; apply aes_decrypt_block; [apply slot_key_block|done]).
  destruct (set_aes_keyslot_run KEYSLOT_SWITCH_TEMPKEY key w1) as (h2 & E2 & K2 & _); [done..|].
  rewrite (run_bind _ _ _ _ _ E2). eexists. split; [reflexivity|]. split; [|split; [apply K2|done]].
  split; try done.
  - cbn. apply length_insert.
  - eapply slots_same_trans; [apply slots_same_tables, T1|]. eapply slots_same_loaded, K2. left.
Qed.

Lemma chain_run retail r slot mk w :
  (r < 10)%nat -> 0 <= slot < 16 -> slot_key (w_se w) slot = mk -> is_block mk ->
  length (g_old_masterkeys (w_mkey w)) = 10%nat ->
  exists slot' w', fold_m (chain_step retail) slot (rev (seqZ 1 (Z.of_nat r))) w = (Ret slot', w') /\
    detect_frame w w' /\ 0 <= slot' < 16 /\ slot_key (w_se w') slot' = older_key retail mk r 0 /\
    (forall i, 0 <= i < Z.of_nat r -> key_at (g_old_masterkeys (w_mkey w')) i = older_key retail mk r i) /\
    (forall i, Z.of_nat r <= i -> key_at (g_old_masterkeys (w_mkey w')) i = key_at (g_old_masterkeys (w_mkey w)) i).
Proof.
  revert slot mk w. induction r as [|r IH]; intros slot mk w Hr Hs Hm Hb Hl.
  - exists slot, w. split; [done|]. split; [reflexivity|]. split; [done|]. split; [done|]. split; [lia|done].
  - rewrite seqZ_S, rev_app_distr. cbn [rev app fold_m].
    replace (1 + Z.of_nat r) with (Z.of_nat (S r)) by lia.
    destruct (chain_step_run retail slot (Z.of_nat (S r)) mk w) as (w1 & E1 & F1 & K1 & O1); [done|lia|done..|].
    rewrite (run_bind _ _ _ _ _ E1).
    set (key := aes_decrypt mk (mkey_vector retail (Z.of_nat (S r)))) in *.
    assert (Hkb : is_block key) by (apply aes_decrypt_block; [done|apply vector_block; lia]).
    destruct (IH KEYSLOT_SWITCH_TEMPKEY key w1) as (slot' & w2 & E2 & F2 & S2 & K2 & L2 & U2);
      [lia|done|done|done|by rewrite (df_length _ _ F1)|].
    exists slot', w2. split; [exact E2|]. split; [by etransitivity|]. split; [done|].
    split; [rewrite K2; cbn [older_key]; zdec; done|]. split.
    + intros i Hi. cbn [older_key]. zdec. fold key. destruct (decide (i < Z.of_nat r)); [by rewrite L2 by lia|].
      rewrite U2, O1 by lia. unfold key_at. replace (Z.to_nat (Z.of_nat (S r) - 1)) with (Z.to_nat i) by lia.
      rewrite nth_lookup, list_lookup_insert_eq by lia. replace i with (Z.of_nat r) by lia.
      destruct r; [done|]. cbn [older_key default from_option]. zdec. done.
    + intros i Hi. rewrite U2, O1 by lia. unfold key_at. rewrite !nth_lookup, list_lookup_insert_ne by lia. done.
Qed.

Lemma check_revision_run retail r w :
  (r < 10)%nat -> length (g_old_masterkeys (w_mkey w)) = 10%nat ->
  let mk := slot_key (w_se w) KEYSLOT_SWITCH_MASTERKEY in
  exists w', check_mkey_revision (Z.of_nat r) retail w = (Ret (is_revision retail mk r), w') /\
    detect_frame w w' /\
    (forall i, 0 <= i < Z.of_nat r -> key_at (g_old_masterkeys (w_mkey w')) i = older_key retail mk r i).
Proof.
  intros Hr Hl mk. unfold check_mkey_revision. fold (chain_step retail).
  destruct (chain_run retail r KEYSLOT_SWITCH_MASTERKEY mk w) as (slot & w1 & E1 & F1 & S1 & K1 & L1 & _);
    [done|done|done|apply slot_key_block|done|].
  rewrite (run_bind _ _ _ _ _ E1).
  destruct (ecb_decrypt_run slot (key_at mkey_vectors 0) w1) as (h2 & E2 & T2);
    [done|by apply (vector_block true 0)|].
  rewrite K1 in E2. rewrite (run_bind _ _ _ _ _ E2). eexists. split; [reflexivity|]. split; [|done].
  etransitivity; [exact F1|]. split; try done. by apply slots_same_tables.
Qed.

(** The search, from revision [rev] with [n] revisions left. *)
Lemma detect_loop_run n rev mk retail w :
  (rev + n = 10)%nat -> length (g_old_masterkeys (w_mkey w)) = 10%nat ->
  slot_key (w_se w) KEYSLOT_SWITCH_MASTERKEY = mk -> is_retail w = retail ->
  exists w', mkey_detect_loop n (Z.of_nat rev) w = (Ret tt, w') /\
    (forall r, (rev <= r < 10)%nat -> is_revision retail mk r = true ->
       (forall j, (rev <= j < r)%nat -> is_revision retail mk j = false) ->
       g_determined_mkey_revision (w_mkey w') = true /\ g_mkey_revision (w_mkey w') = Z.of_nat r /\
       forall i, 0 <= i <= Z.of_nat r -> master_key w' i = older_key retail mk r i) /\
    ((forall r, (rev <= r < 10)%nat -> is_revision retail mk r = false) ->
       g_determined_mkey_revision (w_mkey w') = g_determined_mkey_revision (w_mkey w)).
Proof.
  revert rev w. induction n as [|n IH]; intros rev w Hn Hl Hk Hre.
  { exists w. split; [done|]. split; [lia|done]. }
  cbn [mkey_detect_loop]. rewrite (run_bind _ _ _ _ _ (is_retail_run w)), Hre.
  destruct (check_revision_run retail rev w) as (w1 & E1 & F1 & L1); [lia|done|].
  rewrite (run_bind _ _ _ _ _ E1). rewrite Hk in *.
  destruct (is_revision retail mk rev) eqn:Eok.
  - eexists. split; [reflexivity|]. split; [|intros Hno; rewrite (Hno rev) in Eok by lia; done].
    intros r Hr Hok Hbefore. destruct (decide (r = rev)) as [->|]; [|rewrite (Hbefore rev) in Eok by lia; done].
    split; [done|]. split; [done|]. intros i Hi. unfold master_key. cbn.
    destruct (Z.eqb_spec i (Z.of_nat rev)) as [->|].
    + rewrite (df_slots _ _ F1) by (done || by rewrite list_elem_of_singleton). rewrite Hk.
      destruct rev; [done|]. cbn [older_key]. by rewrite Z.eqb_refl.
    + apply L1. lia.
  - destruct (IH (S rev) w1) as (w2 & E2 & A2 & B2); [lia|by rewrite (df_length _ _ F1)|..].
    { by rewrite (df_slots _ _ F1) by (done || by rewrite list_elem_of_singleton). }
    { unfold is_retail. by rewrite (df_mmio _ _ F1). }
    exists w2. replace (Z.of_nat rev + 1) with (Z.of_nat (S rev)) by lia. split; [exact E2|]. split.
    + intros r Hr Hok Hbefore. destruct (decide (r = rev)) as [->|]; [congruence|].
      apply A2; [lia|done|]. intros j Hj. apply Hbefore. lia.
    + intros Hno. rewrite B2 by (intros; apply Hno; lia). apply F1.
Qed.

Lemma panic_fst {A} c w : fst ((panic c : M A) w) = Panic c.
Proof. unfold panic, reg_read. rewrite run_gets. by destruct (_ =? 0). Qed.

(** [mkey_detect_revision] finds the master key revision.  If some
    revision below 0xA checks, the least such one is recorded and from then on
    [master_key] gives, for every revision up to it, the key the chain of
    vectors leads to; if none checks, the monitor panics with 0x00F00060.  A
    second call panics. *)
Theorem mkey_detect_correct w :
  length (g_old_masterkeys (w_mkey w)) = 10%nat ->
  let mk := slot_key (w_se w) KEYSLOT_SWITCH_MASTERKEY in
  (g_determined_mkey_revision (w_mkey w) = true -> fst (mkey_detect_revision w) = Panic 0xFF000006) /\
  (g_determined_mkey_revision (w_mkey w) = false ->
   (forall r, (r < 10)%nat -> is_revision (is_retail w) mk r = true ->
      (forall j, (j < r)%nat -> is_revision (is_retail w) mk j = false) ->
      exists w', mkey_detect_revision w = (Ret tt, w') /\
        g_determined_mkey_revision (w_mkey w') = true /\ g_mkey_revision (w_mkey w') = Z.of_nat r /\
        forall i, 0 <= i <= Z.of_nat r -> master_key w' i = older_key (is_retail w) mk r i) /\
   ((forall r, (r < 10)%nat -> is_revision (is_retail w) mk r = false) ->
      fst (mkey_detect_revision w) = Panic 0x00F00060)).
Proof.
  intros Hl mk. unfold mkey_detect_revision. rewrite run_gets. split; intros Hd; rewrite Hd.
  { apply generic_panic_fst. }
  destruct (detect_loop_run 10 0 mk (is_retail w) w) as (w' & E & A & B); [done..|].
  change (Z.to_nat MASTERKEY_REVISION_MAX) with 10%nat. change (Z.of_nat 0) with 0 in E.
  rewrite (run_bind _ _ _ _ _ E), run_gets. split.
  - intros r Hr Hok Hb. destruct (A r) as (A1 & A2 & A3); [lia|done|intros; apply Hb; lia|].
    rewrite A1. by exists w'.
  - intros Hno. rewrite B, Hd by (intros; apply Hno; lia). apply panic_fst.
Qed.
End Detect.

Import Toy.

Lemma seal_unseal_roundtrip_witness :
  exists w1 w2,
    seal_key 0x10 (range 16) 0x10 0 (toy_world 11) =
      (Ret (aes_encrypt (seal_kek (w_se (toy_world 11)) (key_at g_seal_key_sources 0)) (range 16)), w1) /\
    unseal_key 4 (aes_encrypt (seal_kek (w_se (toy_world 11)) (key_at g_seal_key_sources 0)) (range 16)) 0x10 0 w1
      = (Ret tt, w2) /\
    slot_key (w_se w2) 4 = range 16 /\ slots_same [4; KEYSLOT_SWITCH_TEMPKEY] (w_se (toy_world 11)) (w_se w2).
Proof.
  apply (seal_unseal_roundtrip (range 16) 0 4 (toy_world 11)); [|lia|by split].
  split; [done|by repeat constructor].
Defined.

(** Revision 3 of the toy world's ten master keys. *)
Definition toy_kek_args : smc_args_t := [0xC3000004; 0x1111; 0x2222; 4; 0; 0; 0; 0].
Definition toy_load_args (args1 : smc_args_t) : smc_args_t :=
  [0xC3000005; 2; X args1 1; X args1 2; 0x3333; 0x4444; 0; 0].

(** The toy cipher is XOR: choose the key so that revision 0 checks. *)
Definition toy_detect_world : World :=
  (toy_world 11) <| w_se ::= fun h => h <| aes_keytable := fun a => read32le (key_at mkey_vectors 0) (4 * (a mod 16)) |> |>
                 <| w_mkey ::= fun s => s <| g_determined_mkey_revision := false |> |>.
Lemma mkey_detect_correct_witness :
  exists w', mkey_detect_revision toy_detect_world = (Ret tt, w') /\ g_mkey_revision (w_mkey w') = 0.
Proof.
  destruct (proj1 (proj2 (mkey_detect_correct toy_detect_world eq_refl) eq_refl) 0%nat)
    as (w' & E & _ & H & _); [lia|by vm_compute|lia|]. by exists w'.
Defined.
