(* ===== verification/ConfigProps.v ===== *)
(** Configuration: what [bootconfig_load_and_verify] keeps of a boot
    configuration, the answers and effects of the configuration items, and the
    fields of the device ID (bootconfig.c, configitem.c, fuse.c). *)
From S2P Require Import Prelude State Utils Se Engine Pages Config Keys Power SmcUser SmcApi Platform SeProps KeyProps.
Import SE Fuse BootConfig ConfigItem BootConfigLoad.

(** ** The boot configuration *)

(** The hardware information the fuses give, and whether a configuration is
    bound to it. *)
Definition hardware_info (w : World) : list Z :=
  match fst (fuse_get_hardware_info w) with Ret info => info | _ => [] end.
Definition bound_to_hardware (bc : bootconfig_t) (w : World) : bool :=
  bool_decide (slice (signed_config bc) 0x10 0x10 = hardware_info w).
Definition set_loaded (bc : bootconfig_t) (w : World) : World :=
  w <| w_bc ::= fun s => s <| loaded_bootconfig := bc |> |>.

Lemma hardware_info_run w : fuse_get_hardware_info w = (Ret (hardware_info w), w).
Proof. reflexivity. Qed.
Lemma hardware_info_mmio w w' : w_mmio w' = w_mmio w -> hardware_info w' = hardware_info w.
Proof. destruct w, w'. cbn. by intros ->. Qed.
Lemma matches_hardware_run w :
  bootconfig_matches_hardware_info w = (Ret (bound_to_hardware (loaded_bootconfig (w_bc w)) w), w).
Proof.
  unfold bootconfig_matches_hardware_info. rewrite (run_bind _ _ _ _ _ (hardware_info_run w)). reflexivity.
Qed.
Lemma bootconfig_modulus_ok :
  is_bytes bootconfig_modulus /\ length bootconfig_modulus = 256%nat /\ 0 < be_value bootconfig_modulus.
Proof. split; [by repeat constructor|]. split; vm_compute; reflexivity. Qed.

Section Load.
Context {soc : SoC} {HC : CryptoEngine soc}.

(** The signature check in the place it has in the function. *)
Lemma bootconfig_signature_run bc w :
  is_bytes (bc_signature bc) -> is_bytes (signed_config bc) ->
  length (bc_signature bc) = 256%nat -> length (signed_config bc) = 256%nat ->
  length (g_se_modulus_sizes (w_drv w)) = 2%nat -> length (g_se_exp_sizes (w_drv w)) = 2%nat ->
  exists w', se_rsa2048_pss_verify (bc_signature bc) RSA_2048_BYTES bootconfig_modulus RSA_2048_BYTES
      (signed_config bc) 0x100 w
    = (Ret (pss_accepts sha256 (be_value bootconfig_modulus) (be_value (bc_signature bc)) (signed_config bc)), w')
    /\ driver_only w w'.
Proof.
  intros Hb1 Hb2 L1 L2 L3 L4. destruct bootconfig_modulus_ok as (M1 & M2 & M3).
  pose proof (pss_verify_run (bc_signature bc) bootconfig_modulus (signed_config bc) w
    Hb1 M1 Hb2 L1 M2 M3 L3 L4) as H. rewrite L2 in H. exact H.
Qed.

(** [bootconfig_load_and_verify] always returns; the unsigned part and the
    signature are loaded as given, and the signed part survives exactly when
    the unit is not a retail one, the signature is NOT accepted by
    RSA-2048-PSS verification and the configuration is bound to the unit's
    hardware information (the [!= 0] test on the boolean result rejects the
    good signatures); otherwise it is zeroed. *)
Theorem bootconfig_load_outcome bc w :
  is_bytes (bc_signature bc) -> is_bytes (signed_config bc) ->
  length (bc_signature bc) = 256%nat -> length (signed_config bc) = 256%nat ->
  length (g_se_modulus_sizes (w_drv w)) = 2%nat -> length (g_se_exp_sizes (w_drv w)) = 2%nat ->
  exists w', bootconfig_load_and_verify bc w = (Ret tt, w') /\
    loaded_bootconfig (w_bc w') =
      if negb (is_retail w)
         && negb (pss_accepts sha256 (be_value bootconfig_modulus) (be_value (bc_signature bc)) (signed_config bc))
         && bound_to_hardware bc w
      then bc else bc <| signed_config := zeros 0x100 |>.
Proof.
  intros Hb1 Hb2 L1 L2 L3 L4. unfold bootconfig_load_and_verify. rewrite run_modify.
  fold (set_loaded bc w). rewrite (run_bind _ _ _ _ _ (is_retail_run (set_loaded bc w))).
  change (is_retail (set_loaded bc w)) with (is_retail w).
  destruct (is_retail w); cbn [negb andb]; [by eexists; split; [reflexivity|]|].
  rewrite bind_assoc. destruct (bootconfig_signature_run bc (set_loaded bc w)) as (w1 & E & D); [done..|].
  rewrite (run_bind _ _ _ _ _ E).
  destruct (pss_accepts _ _ _ _); cbn [negb andb];
    [by eexists; split; [reflexivity|]; rewrite D|].
  rewrite bind_assoc, (run_bind _ _ _ _ _ (matches_hardware_run w1)), run_ret.
  assert (B : bound_to_hardware (loaded_bootconfig (w_bc w1)) w1 = bound_to_hardware bc w).
  { unfold bound_to_hardware. rewrite (hardware_info_mmio w w1) by (by rewrite D). by rewrite D. }
  rewrite B. destruct (bound_to_hardware bc w); cbn [negb]; eexists; (split; [reflexivity|]); by rewrite D.
Qed.
End Load.

(** ** Configuration items *)

(** The items the monitor answers, under the running firmware. *)
Definition item_supported (w : World) (item : Z) : bool :=
  let fw := target_firmware (g_exosphere_cfg (w_exo w)) in
  if item =? CONFIGITEM_BOOTREASON then fw <? ATMOSPHERE_TARGET_FIRMWARE_400
  else if item =? CONFIGITEM_ISQUESTUNIT then fw >=? ATMOSPHERE_TARGET_FIRMWARE_300
  else if (item =? CONFIGITEM_NEWHARDWARETYPE_5X) || (item =? CONFIGITEM_NEWKEYGENERATION_5X)
  then fw >=? ATMOSPHERE_TARGET_FIRMWARE_500
  else if item =? CONFIGITEM_PACKAGE2HASH_5X
  then (fw >=? ATMOSPHERE_TARGET_FIRMWARE_500) && negb (bootloader_attribute (g_boot_reason (w_bc w)) .& 1 =? 0)
  else ((1 <=? item) && (item <=? 17)) || ((65000 <=? item) && (item <=? 65004)).

(** How many [uint64_t]s an answer stores through [p_outvalue]. *)
Definition answer_words (item : Z) : nat := if item =? CONFIGITEM_PACKAGE2HASH_5X then 4 else 1.

(** [m] reads the state and returns. *)
Definition reads {A} (m : M A) (w : World) : Prop := exists a, m w = (Ret a, w).
Lemma reads_ret {A} (a : A) w : reads (mret a) w.
Proof. by eexists. Qed.
Lemma reads_gets {A} (f : World -> A) w : reads (gets f) w.
Proof. by eexists. Qed.
Lemma reads_bind {A B} (m : M A) (f : A -> M B) w : reads m w -> (forall a, reads (f a) w) -> reads (m ≫= f) w.
Proof. intros [a Ha] H. destruct (H a) as [b Hb]. exists b. by rewrite (run_bind _ _ _ _ _ Ha). Qed.
Ltac reads_step := match goal with
  | |- reads (mbind _ _) _ => apply reads_bind; [|intros]
  | |- reads (mret _) _ => apply reads_ret
  | |- reads (gets _) _ => apply reads_gets
  | |- reads (if ?b then _ else _) _ => destruct b
  end.

(** [m] returns code [r] and [n] words, and changes nothing. *)
Definition answers (r : Z) (n : nat) (m : M (Z * list Z)) (w : World) : Prop :=
  exists vs, m w = (Ret (r, vs), w) /\ length vs = n.
Lemma answers_ret r vs w : answers r (length vs) (mret (r, vs)) w.
Proof. by eexists. Qed.
Lemma answers_bind {A} r n (m : M A) f w :
  reads m w -> (forall a, answers r n (f a) w) -> answers r n (m ≫= f) w.
Proof. intros [a Ha] H. destruct (H a) as [vs Hv]. exists vs. by rewrite (run_bind _ _ _ _ _ Ha). Qed.
Ltac answers_step := match goal with
  | |- answers _ _ (mbind _ _) _ => apply answers_bind; [|intros]
  | |- answers _ _ (mret _) _ => apply answers_ret
  | |- answers _ _ (if ?b then _ else _) _ => destruct b
  end.
Ltac solve_answers := repeat first [progress intros | reads_step | answers_step].

Section Items.
Context {soc : SoC}.

Lemma reads_kernel_configuration w : reads bootconfig_get_kernel_configuration w.
Proof. unfold bootconfig_get_kernel_configuration. solve_answers; by eexists. Qed.
Lemma reads_memory_arrangement w : reads bootconfig_get_memory_arrangement w.
Proof. unfold bootconfig_get_memory_arrangement. solve_answers; by eexists. Qed.
Lemma reads_target_firmware w : g_has_loaded_config (w_exo w) = true -> reads exosphere_get_target_firmware w.
Proof. intros H. eexists. by apply target_firmware_run. Qed.
Lemma reads_mkey_revision w : g_determined_mkey_revision (w_mkey w) = true -> reads mkey_get_revision w.
Proof. intros H. eexists. unfold mkey_get_revision. by rewrite run_gets, H. Qed.
Lemma reads_hardware_type w : g_has_loaded_config (w_exo w) = true -> reads fuse_get_hardware_type w.
Proof.
  intros H. unfold fuse_get_hardware_type. cbv zeta. apply reads_bind; [by eexists|intros].
  apply reads_bind; [by apply reads_target_firmware|intros]. solve_answers. by eexists.
Qed.
Lemma reads_key_generation w : reads fuse_get_5x_key_generation w.
Proof. unfold fuse_get_5x_key_generation. solve_answers; by eexists. Qed.

(** The branch of an item that one firmware comparison guards. *)
Lemma answers_guarded (g : Z -> bool) n (m : M (Z * list Z)) w :
  g_has_loaded_config (w_exo w) = true ->
  answers 0 n m w ->
  let b := g (target_firmware (g_exosphere_cfg (w_exo w))) in
  answers (if b then 0 else 2) (if b then n else 0)
    (fw ← exosphere_get_target_firmware; if g fw then m else mret (2, [])) w.
Proof.
  intros Hl Hm b. destruct Hm as (vs & E & L). unfold answers.
  rewrite (run_bind _ _ _ _ _ (target_firmware_run w Hl)). fold b.
  destruct b; [by exists vs|by exists []].
Qed.

(** The package2 hash, guarded by the firmware and the boot reason. *)
Lemma answers_package2_hash w :
  g_has_loaded_config (w_exo w) = true -> length (g_package2_hash_for_recovery (w_bc w)) = 4%nat ->
  let b := item_supported w CONFIGITEM_PACKAGE2HASH_5X in
  answers (if b then 0 else 2) (if b then 4 else 0)
    (fw ← exosphere_get_target_firmware;
     recovery ← bootconfig_is_recovery_boot;
     if (fw >=? ATMOSPHERE_TARGET_FIRMWARE_500) && recovery
     then hash ← bootconfig_get_package2_hash_for_recovery; mret (0, hash) else mret (2, [])) w.
Proof.
  intros Hl Hh b. unfold answers. rewrite (run_bind _ _ _ _ _ (target_firmware_run w Hl)).
  unfold bootconfig_is_recovery_boot, bootconfig_get_package2_hash_for_recovery. rewrite run_gets.
  change (_ && _) with b. destruct b; [|by exists []]. rewrite run_gets. eexists. split; [reflexivity|].
  rewrite length_take. lia.
Qed.

Lemma not_in_range item lo n : Forall (fun i => item <> lo + i) (range n) -> ~ lo <= item < lo + n.
Proof. rewrite Forall_forall. intros H Hi. apply (H (item - lo)); [apply elem_of_range|]; lia. Qed.
Lemma unsupported_item w item :
  Forall (fun i => item <> 1 + i) (range 17) -> Forall (fun i => item <> 65000 + i) (range 5) ->
  item_supported w item = false.
Proof.
  intros N1%not_in_range N2%not_in_range. unfold item_supported.
  unfold CONFIGITEM_BOOTREASON, CONFIGITEM_ISQUESTUNIT, CONFIGITEM_NEWHARDWARETYPE_5X,
    CONFIGITEM_NEWKEYGENERATION_5X, CONFIGITEM_PACKAGE2HASH_5X.
  zdec. apply orb_false_iff. split; apply andb_false_iff; lia.
Qed.

(** One branch of [configitem_get]. *)
Ltac answer_reads := first [by apply reads_target_firmware | by apply reads_mkey_revision | by apply reads_hardware_type
  | apply reads_kernel_configuration | apply reads_memory_arrangement | apply reads_key_generation | by eexists].
Ltac answer_branch :=
  first [ match goal with |- answers (if ?b then _ else _) _ _ _ => change b with true; cbv iota end
        | match goal with |- context [exosphere_get_target_firmware] => eapply answers_guarded; [done|] end ];
  repeat first [answer_reads | answers_step | progress intros].

(** Every [configitem_get] but the RCM-patch query (which polls the fuse
    controller) returns without changing anything once the configuration is
    loaded and the master key revision determined: code 0 exactly for the items
    the running firmware supports and 2 for all others, with one [uint64_t]
    stored through [p_outvalue] for each supported item but the package2 hash,
    which stores four. *)
Theorem configitem_get_answers privileged item w :
  g_has_loaded_config (w_exo w) = true -> g_determined_mkey_revision (w_mkey w) = true ->
  length (g_package2_hash_for_recovery (w_bc w)) = 4%nat -> item <> CONFIGITEM_HAS_RCM_BUG_PATCH ->
  exists r vs, configitem_get privileged item w = (Ret (r, vs), w) /\
    r = (if item_supported w item then 0 else 2) /\
    length vs = if item_supported w item then answer_words item else 0%nat.
Proof.
  intros Hl Hd Hh Hi.
  enough (H : answers (if item_supported w item then 0 else 2)
            (if item_supported w item then answer_words item else 0%nat) (configitem_get privileged item) w)
    by (destruct H as (vs & E & L); by eexists _, vs).
  unfold configitem_get. cbv zeta.
  assert (Hn : (item =? CONFIGITEM_HAS_RCM_BUG_PATCH) = false) by (by apply Z.eqb_neq). rewrite Hn.
  repeat match goal with
  | |- answers _ _ (if item =? ?c then _ else _) _ => destruct (Z.eqb_spec item c) as [->|?]; [try solve [answer_branch]|]
  end.
  - by apply answers_package2_hash.
  - replace (item_supported w item) with false; [apply (answers_ret 2 [])|].
    symmetry. apply unsupported_item; by repeat constructor.
Qed.

Lemma returns_never {A} (m : M A) w a w' (P : Prop) : never_returns m -> m w = (Ret a, w') -> P.
Proof. intros H E. by apply H in E. Qed.

(** What setting a configuration item does.  HIZMODE is stored and the next
    query of it answers whether the value was nonzero; a reboot request with
    value 1 writes the reset register last and never returns; a reboot or
    shutdown request that returns was made with value 0 (or, for a reboot, with
    an unknown value and code 2); every other item gives code 2; and whenever
    the call returns, nothing but the HIZMODE flag has changed. *)
Theorem configitem_set_effect privileged item value w :
  (item = CONFIGITEM_HIZMODE ->
     exists w', configitem_set privileged item value w = (Ret 0, w') /\
       configitem_get privileged item w' = (Ret (0, [Z.b2z (negb (value =? 0))]), w')) /\
  (item = CONFIGITEM_NEEDS_REBOOT -> value = 1 ->
     fst (configitem_set privileged item value w) = Spin /\
     w_mmio (snd (configitem_set privileged item value w)) (MMIO_GET_DEVICE_ADDRESS MMIO_DEVID_RTC_PMC + 0x400) = 0x10) /\
  (forall r w', configitem_set privileged item value w = (Ret r, w') ->
     (r = if (item =? CONFIGITEM_HIZMODE)
             || (((item =? CONFIGITEM_NEEDS_REBOOT) || (item =? CONFIGITEM_NEEDS_SHUTDOWN)) && (value =? 0))
          then 0 else 2) /\
     exists hiz, w' = w <| w_cfg ::= fun s => s <| g_hiz_mode_enabled := hiz |> |> /\
       (item <> CONFIGITEM_HIZMODE -> hiz = g_hiz_mode_enabled (w_cfg w))).
Proof.
  split; [|split].
  - intros ->. eexists. by split.
  - intros -> ->. by split.
  - intros r w' H. destruct (Z.eqb_spec item CONFIGITEM_HIZMODE) as [->|Hne]; cbn [orb].
    { injection H as <- <-. split; [done|]. by eexists. }
    enough (w' = w /\ r = if ((item =? CONFIGITEM_NEEDS_REBOOT) || (item =? CONFIGITEM_NEEDS_SHUTDOWN)) && (value =? 0)
      then 0 else 2) as [-> ->]
      by (split; [done|]; exists (g_hiz_mode_enabled (w_cfg w)); split; [by destruct w as [? ? ? ? ? ? ? ? [] ? ? ? ? ? ? ? ? ? ? ? ?]|done]).
    revert H. unfold configitem_set. rewrite (proj2 (Z.eqb_neq _ _) Hne).
    destruct (item =? CONFIGITEM_NEEDS_REBOOT); cbn [orb andb].
    + destruct (value =? 0); [by intros [=]|]. destruct (value =? 1); [by intros [=]|].
      destruct (value =? 2); [|by intros [=]]. by apply returns_never; never.
    + destruct (item =? CONFIGITEM_NEEDS_SHUTDOWN); cbn [andb]; [|by intros [=]].
      destruct (value =? 0); [by intros [=]|]. by apply returns_never; never.
Qed.
End Items.

(** ** The device ID *)

Lemma land_ones_range x n : 0 <= n -> 0 <= x .& Z.ones n < 2 ^ n.
Proof. intros H. rewrite Z.land_ones by done. apply Z.mod_pos_bound. by apply Z.pow_pos_nonneg. Qed.

(** The five fields as the digits of one number. *)
Lemma device_id_sum y x wafer lot fab :
  device_id_of y x wafer lot fab =
    (y .& 0x1FF) + 2 ^ 9 * ((x .& 0x1FF) + 2 ^ 9 * ((wafer .& 0x3F)
      + 2 ^ 6 * (derived_lot_code lot + 2 ^ 26 * (fab .& 0x3F)))).
Proof.
  pose proof (land_ones_range y 9 ltac:(done)). pose proof (land_ones_range x 9 ltac:(done)).
  pose proof (land_ones_range wafer 6 ltac:(done)). pose proof (land_ones_range fab 6 ltac:(done)).
  assert (0 <= derived_lot_code lot < 2 ^ 26) by exact (land_ones_range _ 26 ltac:(done)).
  change (Z.ones 9) with 0x1FF in *. change (Z.ones 6) with 0x3F in *.
  unfold device_id_of. set (l := derived_lot_code lot) in *. clearbody l.
  rewrite (Z.lor_comm (_ .& 0x1FF) ((_ .& 0x1FF) <<. 9)), lor_shiftl_add by lia.
  rewrite (Z.lor_comm _ (_ <<. 18)), lor_shiftl_add by lia.
  rewrite (Z.lor_comm _ (_ <<. 24)), lor_shiftl_add by lia.
  rewrite (Z.lor_comm _ (_ <<. 50)), lor_shiftl_add by lia. lia.
Qed.

(** The device ID is a 56-bit number from which every coordinate comes
    back: the die's Y and X position (9 bits each), the wafer (6), the base-36
    lot code reduced to 26 bits and the fab code (6) do not overlap, and
    reading it changes nothing. *)
Theorem device_id_fields w :
  exists y x wafer lot fab id, fuse_get_device_id w = (Ret id, w) /\
    [y; x; wafer; lot; fab] = map (fun off => w_mmio w (FUSE_CHIP_REGS + off))
      [FUSE_Y_COORDINATE; FUSE_X_COORDINATE; FUSE_WAFER_ID; FUSE_LOT_CODE_0; FUSE_FAB_CODE] /\
    0 <= id < 2 ^ 56 /\
    id .& 0x1FF = y .& 0x1FF /\ (id >>. 9) .& 0x1FF = x .& 0x1FF /\ (id >>. 18) .& 0x3F = wafer .& 0x3F /\
    (id >>. 24) .& 0x03FFFFFF = derived_lot_code lot /\ id >>. 50 = fab .& 0x3F.
Proof.
  do 6 eexists. split; [reflexivity|]. split; [reflexivity|]. rewrite device_id_sum.
  set (y := w_mmio w _). set (x := w_mmio w (_ + FUSE_X_COORDINATE)). set (wf := w_mmio w (_ + FUSE_WAFER_ID)).
  set (lot := w_mmio w (_ + FUSE_LOT_CODE_0)). set (fab := w_mmio w (_ + FUSE_FAB_CODE)).
  pose proof (land_ones_range y 9 ltac:(done)) as Hy. pose proof (land_ones_range x 9 ltac:(done)) as Hx.
  pose proof (land_ones_range wf 6 ltac:(done)) as Hw. pose proof (land_ones_range fab 6 ltac:(done)) as Hf.
  assert (Hl : 0 <= derived_lot_code lot < 2 ^ 26) by exact (land_ones_range _ 26 ltac:(done)).
  change (y .& 0x1FF) with (y .& Z.ones 9). change (x .& 0x1FF) with (x .& Z.ones 9).
  change (wf .& 0x3F) with (wf .& Z.ones 6). change (fab .& 0x3F) with (fab .& Z.ones 6).
  generalize dependent (y .& Z.ones 9). generalize dependent (x .& Z.ones 9).
  generalize dependent (wf .& Z.ones 6). generalize dependent (fab .& Z.ones 6).
  generalize dependent (derived_lot_code lot). intros l Hl f Hf v Hv a Ha b Hb.
  rewrite !Z.shiftr_div_pow2 by done.
  change 0x1FF with (Z.ones 9). change 0x3F with (Z.ones 6). change 0x03FFFFFF with (Z.ones 26).
  rewrite !Z.land_ones by done. repeat split; Z.div_mod_to_equations; lia.
Qed.

(** ** On the concrete platform *)

Import Toy.

(** A development unit: the fuses say retail type 0. *)
Definition dev_world : World :=
  (toy_world 11) <| w_mmio := upd (fun _ => 0) (FUSE_CHIP_REGS + (FUSE_RESERVED_ODM + 16)) 3 |>.
Definition sample_bootconfig : bootconfig_t :=
  mk_bootconfig (zeros 0x200) (zeros 255 ++ [1]) (zeros 0x100).

(** With a signature that recovers message 1 the signed part, bound to this
    unit, is kept on a development unit. *)
Lemma bootconfig_load_outcome_witness :
  exists w', bootconfig_load_and_verify sample_bootconfig dev_world = (Ret tt, w') /\
    loaded_bootconfig (w_bc w') = sample_bootconfig.
Proof.
  destruct (bootconfig_load_outcome sample_bootconfig dev_world) as (w' & E & L);
    [first [by vm_compute | by repeat constructor]..|].
  exists w'. split; [exact E|]. rewrite L. vm_compute. reflexivity.
Defined.

Lemma configitem_get_answers_witness :
  exists r vs, configitem_get true CONFIGITEM_DEVICEID dev_world = (Ret (r, vs), dev_world) /\ r = 0 /\ length vs = 1%nat.
Proof. apply (configitem_get_answers true CONFIGITEM_DEVICEID dev_world); first [done | by vm_compute]. Defined.

Lemma configitem_set_effect_witness :
  (exists w', configitem_set false CONFIGITEM_HIZMODE 7 dev_world = (Ret 0, w') /\
     configitem_get false CONFIGITEM_HIZMODE w' = (Ret (0, [1]), w')) /\
  fst (configitem_set false CONFIGITEM_NEEDS_REBOOT 1 dev_world) = Spin.
Proof.
  split; [by apply (configitem_set_effect false CONFIGITEM_HIZMODE 7 dev_world)|].
  by apply (configitem_set_effect false CONFIGITEM_NEEDS_REBOOT 1 dev_world).
Defined.
