(* ===== verification/CryptoProps.v ===== *)
(** Title key unwrapping, GCM arithmetic and the random cache (titlekey.c,
    gcm.c, randomcache.c). *)
From S2P Require Import Prelude State Utils Se Engine Pages Config Keys Power SmcUser SmcApi Platform SeProps KeyProps.
Import SE TitleKey Gcm RandomCache.

(** ** RSA-OAEP *)

(** EME-OAEP encoding of RFC 8017 for a 256-byte message: hash of the label,
    padding, 0x01 and the message, masked with MGF1 of the seed; the seed masked
    with MGF1 of that. *)
Definition oaep_db (lhash m : list Z) : list Z :=
  lhash ++ zeros (190 - length m) ++ [1] ++ m.
Definition oaep_encode (hash : list Z -> list Z) (lhash seed m : list Z) : list Z :=
  let masked_db := xor_bytes (oaep_db lhash m) (mgf1 hash seed 7 0) in
  0 :: xor_bytes seed (mgf1 hash masked_db 1 0) ++ masked_db.

Section Oaep.
Context {soc : SoC} {HC : CryptoEngine soc}.

Lemma mgf1_rounds_run n rn masked seed w :
  is_bytes seed -> (length masked <= 32 * n)%nat ->
  exists w', mgf1_rounds n rn masked seed w =
    (Ret (xor_bytes masked (mgf1 sha256 seed (Z.of_nat n) rn)), w') /\ se_only w w'.
Proof.
  intros Hs. revert rn masked w. induction n as [|n IH]; intros rn masked w Hm.
  { exists w. destruct masked; [|cbn in Hm; lia]. by split; [|reflexivity]. }
  cbn [mgf1_rounds]. assert (Hb : is_bytes (seed ++ be_bytes 4 rn))
    by (apply Forall_app_2; [done|apply Forall_rev, le_bytes_is_bytes]).
  fold (be_bytes 4 rn).
  assert (Hl : Z.of_nat (length (seed ++ be_bytes 4 rn)) = Z.of_nat (length seed) + 4)
    by (rewrite length_app; unfold be_bytes; rewrite length_rev, length_le_bytes; lia).
  destruct (sha256_run (seed ++ be_bytes 4 rn) (Z.of_nat (length seed) + 4) w) as (h1 & E1 & _); [done|lia|].
  rewrite slice_all in E1 by done. rewrite (run_bind _ _ _ _ _ E1).
  rewrite Nat2Z.inj_succ, <- Z.add_1_r, mgf1_succ by lia. destruct (sha256_digest _ Hb) as [Ld _].
  rewrite xor_bytes_app_r, Ld.
  destruct (IH (rn + 1) (drop 0x20 masked) (w <| w_se := h1 |>)) as (w2 & E2 & O2); [rewrite length_drop; lia|].
  rewrite (run_bind _ _ _ _ _ E2). exists w2. split; [done|]. by etransitivity.
Qed.

Lemma mgf1_xor_run masked seed w :
  is_bytes seed -> (length seed < 224)%nat ->
  exists w', calculate_mgf1_and_xor masked (Z.of_nat (length masked)) seed (Z.of_nat (length seed)) w =
    (Ret (xor_bytes masked (mgf1 sha256 seed ((Z.of_nat (length masked) + 31) / 32) 0)), w') /\ se_only w w'.
Proof.
  intros Hs Hl. unfold calculate_mgf1_and_xor. zdec. rewrite !slice_all by done.
  pose proof (Z.div_mod (Z.of_nat (length masked) + 31) 32).
  pose proof (Z.mod_pos_bound (Z.of_nat (length masked) + 31) 32).
  assert (0 <= (Z.of_nat (length masked) + 31) / 32) by (apply Z.div_pos; lia).
  destruct (mgf1_rounds_run (Z.to_nat ((Z.of_nat (length masked) + 31) / 32)) 0 masked seed w) as (w' & E & O);
    [done|lia|]. rewrite Z2Nat.id in E by lia. by exists w'.
Qed.

(** The scan over [00..00 01]. *)
Lemma find_wrapped_key_pad n k off m :
  (k < n)%nat -> 0 <= off ->
  find_wrapped_key n (zeros (Z.to_nat off) ++ zeros k ++ [1] ++ m) off = Some (off + Z.of_nat k + 1).
Proof.
  revert k off. induction n as [|n IH]; intros k off Hk Ho; [lia|]. cbn [find_wrapped_key].
  assert (Hb : byte_at (zeros (Z.to_nat off) ++ zeros k ++ [1] ++ m) off = match k with O => 1 | S _ => 0 end).
  { unfold byte_at. rewrite app_nth2; unfold zeros; rewrite length_replicate; [|lia].
    rewrite Nat.sub_diag. by destruct k. }
  rewrite Hb. destruct k as [|k]; cbn [Z.eqb]; [f_equal; lia|].
  specialize (IH k (off + 1)). replace (Z.to_nat (off + 1)) with (Z.to_nat off + 1)%nat in IH by lia.
  unfold zeros in *. rewrite replicate_add, <- app_assoc in IH. cbn in IH. cbn. rewrite IH by lia. f_equal. lia.
Qed.

Lemma slice_cons_app x a b n : Z.of_nat (length a) = n -> slice (x :: a ++ b) 1 n = a.
Proof. intros <-. unfold slice. rewrite Nat2Z.id. cbn [Z.to_nat Pos.to_nat Pos.iter_op Nat.add drop]. apply take_app_length. Qed.
Lemma slice_cons_app2 x a b o n :
  Z.of_nat (length a) + 1 = o -> Z.of_nat (length b) = n -> slice (x :: a ++ b) o n = b.
Proof.
  intros <- <-. unfold slice. replace (Z.to_nat (Z.of_nat (length a) + 1)) with (S (length a)) by lia.
  cbn [drop]. rewrite drop_app_length, Nat2Z.id. apply firstn_all.
Qed.

Lemma oaep_db_shape lhash m : length lhash = 32%nat -> (length m <= 190)%nat -> length (oaep_db lhash m) = 223%nat.
Proof. intros H1 H2. unfold oaep_db, zeros. rewrite !length_app, length_replicate. cbn. lia. Qed.
Lemma oaep_db_bytes lhash m : is_bytes lhash -> is_bytes m -> is_bytes (oaep_db lhash m).
Proof.
  intros H1 H2. repeat apply Forall_app_2; try done; [by apply Forall_replicate|by repeat constructor].
Qed.

(** Both masks come off an encoded message. *)
Lemma oaep_unmask lhash seed m w :
  is_bytes lhash -> is_bytes seed -> is_bytes m -> length lhash = 32%nat -> length seed = 32%nat ->
  (length m <= 190)%nat ->
  let src := oaep_encode sha256 lhash seed m in
  exists w1 w2,
    calculate_mgf1_and_xor (slice src 1 0x20) 0x20 (slice src 0x21 0xDF) 0xDF w = (Ret seed, w1) /\
    calculate_mgf1_and_xor (slice src 0x21 0xDF) 0xDF seed 0x20 w1 = (Ret (oaep_db lhash m), w2).
Proof.
  intros Bl Bs Bm Ll Ls Lm. unfold oaep_encode.
  assert (Ldb : length (oaep_db lhash m) = 223%nat) by (by apply oaep_db_shape).
  assert (Bdb : is_bytes (oaep_db lhash m)) by (by apply oaep_db_bytes).
  destruct (mgf1_digest seed 7 0 Bs) as [B7 L7]; [done|]. set (mdb := xor_bytes _ (mgf1 sha256 seed 7 0)).
  assert (Lmdb : length mdb = 223%nat) by (unfold mdb; rewrite length_xor_bytes, Ldb, L7; done).
  assert (Bmdb : is_bytes mdb) by (by apply xor_bytes_bytes).
  destruct (mgf1_digest mdb 1 0 Bmdb) as [B1 L1]; [done|]. set (ms := xor_bytes seed _).
  assert (Lms : length ms = 32%nat) by (unfold ms; rewrite length_xor_bytes, Ls, L1; done).
  cbv zeta. rewrite slice_cons_app, slice_cons_app2 by lia.
  destruct (mgf1_xor_run ms mdb w Bmdb) as (w1 & E1 & _); [lia|]. rewrite Lms, Lmdb in E1.
  change ((Z.of_nat 32 + 31) / 32) with 1 in E1.
  destruct (mgf1_xor_run mdb seed w1 Bs) as (w2 & E2 & _); [lia|]. rewrite Lmdb, Ls in E2.
  change ((Z.of_nat 223 + 31) / 32) with 7 in E2.
  exists w1, w2. split; [etransitivity; [exact E1|]|etransitivity; [exact E2|]]; do 2 f_equal;
    apply xor_bytes_involutive; [rewrite Ls, L1|rewrite Ldb, L7]; cbn; lia.
Qed.

(** C34: [tkey_rsa_oaep_unwrap] inverts OAEP encoding.  For every seed, every
    label hash and every message of 1 to 189 bytes that fits the destination,
    the unwrap of the encoded message gives the message back when the label hash
    is the expected one, and fails (result 0) when it is not. *)
Theorem oaep_unwrap_roundtrip lhash seed m dst_size w :
  is_bytes lhash -> is_bytes seed -> is_bytes m -> length lhash = 32%nat -> length seed = 32%nat ->
  (1 <= length m <= 189)%nat -> Z.of_nat (length m) <= dst_size ->
  let expected := take 32 (bytes_of_words64 (g_tkey_expected_label_hash (w_tkey w))) in
  (expected = lhash -> exists w', tkey_rsa_oaep_unwrap dst_size (oaep_encode sha256 lhash seed m) 0x100 w =
      (Ret (Z.of_nat (length m), m), w')) /\
  (expected <> lhash -> exists w', tkey_rsa_oaep_unwrap dst_size (oaep_encode sha256 lhash seed m) 0x100 w =
      (Ret (0, []), w')).
Proof.
  intros Bl Bs Bm Ll Ls Lm Hd expected.
  destruct (oaep_unmask lhash seed m w) as (w1 & w2 & E1 & E2); [done..|lia|].
  unfold tkey_rsa_oaep_unwrap. change (negb (0x100 =? 0x100)) with false. cbv iota.
  set (src := oaep_encode _ _ _ _) in *. change (byte_at src 0) with 0. cbn [Z.eqb negb].
  rewrite run_gets, (run_bind _ _ _ _ _ E1), (run_bind _ _ _ _ _ E2). fold expected.
  assert (Et : take 0x20 (oaep_db lhash m) = lhash) by (unfold oaep_db; rewrite <- Ll; apply take_app_length).
  assert (Ed : drop 0x20 (oaep_db lhash m) = zeros (190 - length m) ++ [1] ++ m)
    by (unfold oaep_db; rewrite <- Ll; apply drop_app_length).
  rewrite Et, Ed. split; intros He.
  - rewrite bool_decide_true by done. cbn [negb].
    pose proof (find_wrapped_key_pad 0xBF (190 - length m) 0 m) as Hf.
    change (zeros (Z.to_nat 0) ++ ?l) with l in Hf. rewrite Hf by lia. replace (byte_at _ 0) with 0.
    2: { destruct (190 - length m)%nat eqn:E; [lia|done]. }
    cbn [Z.eqb negb]. replace (0xBF - (0 + Z.of_nat (190 - length m) + 1)) with (Z.of_nat (length m)) by lia.
    zdec. exists w2. unfold mret, M_ret. do 3 f_equal. unfold slice.
    replace (Z.to_nat (0 + Z.of_nat (190 - length m) + 1)) with (length (zeros (190 - length m) ++ [1])).
    2: { unfold zeros. rewrite length_app, length_replicate. cbn. lia. }
    change (zeros (190 - length m) ++ 1 :: m) with (zeros (190 - length m) ++ [1] ++ m).
    by rewrite app_assoc, drop_app_length, Nat2Z.id, firstn_all.
  - rewrite bool_decide_false by done. by exists w2.
Qed.
End Oaep.

(** ** GCM: multiplication in GF(2^128) *)

(** Elements are 128-bit integers, the coefficient of x^i in bit 127 - i
    (NIST SP 800-38D).  [mulx] multiplies by x, reducing with R. *)
Definition gcm_R : Z := 0xE1 <<. 120.
Definition mulx (v : Z) : Z := (v >>. 1) .^ (if Z.odd v then gcm_R else 0).
(** The sum of x * x^i over the coefficients i < n of [y]. *)
Fixpoint gcm_mul_upto (n : nat) (x y : Z) : Z :=
  match n with
  | O => 0
  | S i => gcm_mul_upto i x y .^ (if Z.testbit y (127 - Z.of_nat i) then Nat.iter i mulx x else 0)
  end.
Definition gcm_mul (x y : Z) : Z := gcm_mul_upto 128 x y.

(** The value of a pair of 64-bit words. *)
Definition val128 (p : Z * Z) : Z := p.1 + 2 ^ 64 * p.2.
Definition is_pair64 (p : Z * Z) : Prop := is_u64 p.1 /\ is_u64 p.2.

Lemma testbit_u64 x k : is_u64 x -> 64 <= k -> Z.testbit x k = false.
Proof. intros Hx Hk. rewrite <- (u64_id x Hx). by apply Z.mod_pow2_bits_high. Qed.
Lemma is_u64_bits x : 0 <= x -> (forall k, 64 <= k -> Z.testbit x k = false) -> is_u64 x.
Proof.
  intros H0 H. replace x with (u64 x); [apply u64_range|]. apply Z.bits_inj'. intros k Hk.
  unfold u64. rewrite Z.testbit_mod_pow2 by lia. destruct (Z.ltb_spec k 64); [done|]. by rewrite H.
Qed.
Lemma val128_bits p k : is_pair64 p -> 0 <= k ->
  Z.testbit (val128 p) k = if k <? 64 then Z.testbit p.1 k else Z.testbit p.2 (k - 64).
Proof.
  intros [H1 H2] Hk. unfold val128. replace (p.1 + 2 ^ 64 * p.2) with ((p.2 <<. 64) .| p.1).
  2: { rewrite lor_shiftl_add by (done || lia). lia. }
  rewrite Z.lor_spec, Z.shiftl_spec by done. destruct (Z.ltb_spec k 64).
  - by rewrite (Z.testbit_neg_r p.2) by lia.
  - by rewrite (testbit_u64 p.1), orb_false_r.
Qed.

Lemma u64_lxor a b : is_u64 a -> is_u64 b -> is_u64 (a .^ b).
Proof.
  intros Ha Hb. apply is_u64_bits; [apply Z.lxor_nonneg; unfold is_u64 in *; lia|].
  intros k Hk. by rewrite Z.lxor_spec, !testbit_u64.
Qed.
Lemma u64_lor a b : is_u64 a -> is_u64 b -> is_u64 (a .| b).
Proof.
  intros Ha Hb. apply is_u64_bits; [apply Z.lor_nonneg; unfold is_u64 in *; lia|].
  intros k Hk. by rewrite Z.lor_spec, !testbit_u64.
Qed.
Lemma u64_shiftr a n : 0 <= n -> is_u64 a -> is_u64 (a >>. n).
Proof.
  intros Hn Ha. apply is_u64_bits; [apply Z.shiftr_nonneg; unfold is_u64 in *; lia|].
  intros k Hk. rewrite Z.shiftr_spec by lia. by rewrite testbit_u64 by (done || lia).
Qed.

Lemma val128_lxor p q : is_pair64 p -> is_pair64 q ->
  is_pair64 (p.1 .^ q.1, p.2 .^ q.2) /\ val128 (p.1 .^ q.1, p.2 .^ q.2) = val128 p .^ val128 q.
Proof.
  intros Hp Hq. assert (H : is_pair64 (p.1 .^ q.1, p.2 .^ q.2)) by (split; apply u64_lxor; (apply Hp || apply Hq)).
  split; [done|]. apply Z.bits_inj'. intros k Hk.
  rewrite Z.lxor_spec, !val128_bits by done. cbn [fst snd]. by destruct (k <? 64); rewrite Z.lxor_spec.
Qed.

Lemma land_1 a : a .& 1 = a mod 2.
Proof. change 1 with (Z.ones 1) at 1. by rewrite Z.land_ones by lia. Qed.
Lemma b2z_land_1 a : a .& 1 = Z.b2z (Z.odd a).
Proof. rewrite land_1, Zmod_odd. by destruct (Z.odd a). Qed.

Lemma shr_128_val p : is_pair64 p -> is_pair64 (shr_128 p) /\ val128 (shr_128 p) = val128 p >>. 1.
Proof.
  destruct p as [a b]. intros [Ha Hb]. unfold shr_128. cbn [fst snd] in *. split.
  - split; cbn [fst snd]; [apply u64_lor; [by apply u64_shiftr|apply u64_range]|by apply u64_shiftr].
  - unfold val128, is_u64 in *. cbn [fst snd].
    pose proof (Z.mod_pos_bound b 2). pose proof (Z.div_mod b 2). change (2 ^ 1) with 2.
    assert (0 <= a / 2 < 2 ^ 63) by (split; [apply Z.div_pos; lia|apply Z.div_lt_upper_bound; lia]).
    rewrite land_1, u64_id by (unfold is_u64; rewrite Z.shiftl_mul_pow2 by lia; lia).
    rewrite (Z.lor_comm (a >>. 1)), !Z.shiftr_div_pow2 by lia. change (2 ^ 1) with 2.
    rewrite lor_shiftl_add by lia. replace (a + 2 ^ 64 * b) with (a + (2 ^ 63 * b) * 2) by lia.
    rewrite Z.div_add by lia. lia.
Qed.

Lemma shl_128_val p : is_pair64 p ->
  is_pair64 (shl_128 p) /\ val128 (shl_128 p) = (2 * val128 p) mod 2 ^ 128.
Proof.
  destruct p as [a b]. intros [Ha Hb]. unfold shl_128. cbn [fst snd] in *.
  assert (E : (a .& (1 <<. 63)) >>. 63 = a / 2 ^ 63).
  { rewrite Z.shiftr_land, Z.shiftr_shiftl_l, land_1, Z.shiftr_div_pow2 by lia. unfold is_u64 in Ha.
    apply Z.mod_small. split; [apply Z.div_pos; lia|apply Z.div_lt_upper_bound; lia]. }
  rewrite E. assert (Hc : 0 <= a / 2 ^ 63 < 2 ^ 1)
    by (unfold is_u64 in *; split; [apply Z.div_pos; lia|apply Z.div_lt_upper_bound; lia]).
  assert (E2 : forall x, u64 (x <<. 1) = (x mod 2 ^ 63) <<. 1).
  { intros x. unfold u64. rewrite !Z.shiftl_mul_pow2 by lia. apply (Z.mul_mod_distr_r x (2 ^ 63) 2); lia. }
  split.
  - split; cbn [fst snd]; [apply u64_range|]. apply u64_lor; [apply u64_range|]. unfold is_u64. lia.
  - unfold val128. cbn [fst snd]. rewrite !E2, lor_shiftl_add, Z.shiftl_mul_pow2 by lia.
    pose proof (Z.div_mod a (2 ^ 63)). pose proof (Z.div_mod b (2 ^ 63)).
    pose proof (Z.mod_pos_bound a (2 ^ 63)). pose proof (Z.mod_pos_bound b (2 ^ 63)).
    apply (Z.mod_unique_pos _ _ (b / 2 ^ 63)); lia.
Qed.

Definition reduce_hi (x1 : Z) : Z := u8 (0xE1 * (x1 .& 1)) <<. 56.
Lemma reduce_val a : is_u64 a -> is_pair64 (0, reduce_hi a) /\ val128 (0, reduce_hi a) = if Z.odd a then gcm_R else 0.
Proof. intros _. unfold reduce_hi. rewrite b2z_land_1. by destruct (Z.odd a). Qed.

(** A state of the multiplication loop, as 128-bit integers. *)
Definition gf_state (st : (Z * Z) * (Z * Z) * (Z * Z)) (d x y : Z) : Prop :=
  let '(dst, px, py) := st in
  is_pair64 dst /\ is_pair64 px /\ is_pair64 py /\ val128 dst = d /\ val128 px = x /\ val128 py = y.

Lemma top_bit b : is_u64 b -> ((b >>. 56) .& 0x80) >>. 7 = Z.b2z (Z.testbit b 63).
Proof.
  intros Hb. change 0x80 with (1 <<. 7). rewrite Z.shiftr_land, Z.shiftr_shiftl_l, b2z_land_1 by lia.
  rewrite Z.shiftr_shiftr, <- Z.bit0_odd, Z.shiftr_spec by lia. done.
Qed.
Lemma times_bit p (c : bool) : is_pair64 p ->
  let q := (u64 (p.1 * Z.b2z c), u64 (p.2 * Z.b2z c)) in
  is_pair64 q /\ val128 q = if c then val128 p else 0.
Proof.
  intros [H1 H2]. split; [split; apply u64_range|]. unfold val128. cbn [fst snd].
  destruct c; cbn [Z.b2z]; rewrite ?Z.mul_1_r, ?Z.mul_0_r; [by rewrite !u64_id|done].
Qed.
Lemma odd_val128 p : Z.odd (val128 p) = Z.odd p.1.
Proof. unfold val128. rewrite Z.odd_add, Z.odd_mul. cbn [Z.odd Z.pow]. by rewrite xorb_false_r. Qed.

Lemma gf128_round_val st d x y :
  gf_state st d x y ->
  gf_state (gf128_round st) (d .^ (if Z.testbit y 127 then x else 0)) (mulx x) ((2 * y) mod 2 ^ 128).
Proof.
  destruct st as [[dst px] py]. intros (Hd & Hx & Hy & <- & <- & <-). unfold gf128_round.
  rewrite top_bit by apply Hy.
  replace (Z.testbit (val128 py) 127) with (Z.testbit py.2 63) by (by rewrite val128_bits by (done || lia)).
  destruct (times_bit px (Z.testbit py.2 63) Hx) as [T1 T2].
  destruct (val128_lxor dst _ Hd T1) as [D1 D2]. cbn [fst snd] in *.
  destruct (shr_128_val px Hx) as [S1 S2]. destruct (reduce_val px.1 (proj1 Hx)) as [R1 R2].
  destruct (val128_lxor _ _ S1 R1) as [X1 X2]. cbn [fst snd] in *. rewrite Z.lxor_0_r in X1, X2.
  destruct (shl_128_val py Hy) as [L1 L2].
  split; [done|]. split; [done|]. split; [done|]. split; [by rewrite D2, T2|].
  split; [|done]. unfold reduce_hi in X2. rewrite X2, S2. fold (reduce_hi px.1). rewrite R2.
  unfold mulx. by rewrite odd_val128.
Qed.

Lemma gf128_loop n st x y :
  (n <= 128)%nat -> gf_state st 0 x y ->
  gf_state (Nat.iter n gf128_round st) (gcm_mul_upto n x y) (Nat.iter n mulx x) ((2 ^ Z.of_nat n * y) mod 2 ^ 128).
Proof.
  intros Hn H0. induction n as [|n IH].
  - destruct st as [[dst px] py]. destruct H0 as (Hd & Hx & Hy & V1 & V2 & V3).
    split; [done|]. split; [done|]. split; [done|]. split; [done|]. split; [done|].
    rewrite Z.mul_1_l, Z.mod_small; [done|]. rewrite <- V3. destruct Hy. unfold val128, is_u64 in *. lia.
  - cbn [Nat.iter gcm_mul_upto]. specialize (IH ltac:(lia)). apply gf128_round_val in IH.
    replace (Z.testbit y (127 - Z.of_nat n)) with (Z.testbit ((2 ^ Z.of_nat n * y) mod 2 ^ 128) 127).
    + replace ((2 ^ Z.of_nat (S n) * y) mod 2 ^ 128) with ((2 * ((2 ^ Z.of_nat n * y) mod 2 ^ 128)) mod 2 ^ 128);
        [exact IH|]. rewrite Z.mul_mod_idemp_r, Nat2Z.inj_succ, Z.pow_succ_r by lia. f_equal. lia.
    + rewrite Z.mod_pow2_bits_low, (Z.mul_comm (2 ^ _)), Z.mul_pow2_bits by lia. done.
Qed.

Lemma load_be128_val b : is_block b -> is_pair64 (load_be128 b) /\ val128 (load_be128 b) = be_value b.
Proof.
  intros [L H]. unfold load_be128, read64le, be_value. assert (Hr : is_bytes (rev b)) by (by apply Forall_rev).
  assert (E : rev b = slice (rev b) 0 8 ++ slice (rev b) 8 8).
  { unfold slice. change (Z.to_nat 0) with 0%nat. rewrite drop_0.
    rewrite (firstn_all2 (drop _ _)) by (rewrite length_drop, length_rev, L; done). by rewrite take_drop. }
  assert (Hw : forall o, 0 <= o -> o + 8 <= 16 -> length (slice (rev b) o 8) = 8%nat)
    by (intros; rewrite length_slice by (rewrite ?length_rev; lia); done).
  assert (Hv : forall o, 0 <= o -> o + 8 <= 16 -> is_u64 (le_value (slice (rev b) o 8))).
  { intros o H0 H1. pose proof (le_value_bound (slice (rev b) o 8) (slice_is_bytes _ _ _ Hr)) as Hb.
    by rewrite Hw in Hb by lia. }
  split; [split; apply Hv; lia|]. unfold val128. cbn [fst snd]. rewrite E at 3. rewrite le_value_app, Hw by lia. done.
Qed.
Lemma store_be128_val p : is_pair64 p -> store_be128 p = be_bytes 16 (val128 p).
Proof.
  intros [H1 H2]. unfold store_be128, be_bytes. f_equal. unfold val128.
  rewrite <- (le_bytes_value (le_bytes 8 p.1 ++ le_bytes 8 p.2)) by (apply Forall_app_2; apply le_bytes_is_bytes).
  rewrite length_app, !length_le_bytes, le_value_app, length_le_bytes, !le_value_bytes by done. done.
Qed.

(** C37: [gf128_mul] multiplies in GF(2^128): on two 16-byte blocks, read
    big-endian, the word-wise loop gives the sum over the set coefficients i of
    its second argument of the first one times x^i, reduced with R = 0xE1 << 120. *)
Theorem gf128_mul_correct x y :
  is_block x -> is_block y -> gf128_mul x y = be_bytes 16 (gcm_mul (be_value x) (be_value y)).
Proof.
  intros Hx Hy. destruct (load_be128_val x Hx) as [X1 X2]. destruct (load_be128_val y Hy) as [Y1 Y2].
  assert (H : gf_state (Nat.iter 128 gf128_round ((0, 0), load_be128 x, load_be128 y))
    (gcm_mul (be_value x) (be_value y)) (Nat.iter 128 mulx (be_value x)) ((2 ^ Z.of_nat 128 * be_value y) mod 2 ^ 128)).
  { apply gf128_loop; [lia|]. split; [done|]. by repeat split; try apply X1; try apply Y1. }
  unfold gf128_mul. revert H. generalize (Nat.iter 128 gf128_round ((0, 0), load_be128 x, load_be128 y)).
  intros [[dst px] py] (Hd & _ & _ & V & _). rewrite store_be128_val by exact Hd. by rewrite V.
Qed.

(** ** The random cache *)

Section Random.
Context {soc : SoC} {HD : EngineDone soc}.

(** A [run] that returns, and changes only the engine. *)
Lemma block_operation_total dst_size src src_size w :
  src_size <= 16 -> dst_size <= 16 ->
  exists out w', se_perform_aes_block_operation dst_size src src_size w = (Ret out, w') /\ se_only w w'.
Proof.
  intros H1 H2. unfold se_perform_aes_block_operation. zdec. rewrite run_se_write.
  rewrite (run_bind _ _ _ _ _ (trigger_blocking_run _ _ _ _)). by eexists _, _.
Qed.

Lemma aligned_rest size : 0 <= size < 2 ^ 32 ->
  let aligned := u32 (u32 (size >>. 4) <<. 4) in 0 <= aligned <= size /\ size - aligned < 16.
Proof.
  intros Hs. cbv zeta. rewrite Z.shiftr_div_pow2, Z.shiftl_mul_pow2 by lia. change (2 ^ 4) with 16.
  pose proof (Z.div_mod size 16). pose proof (Z.mod_pos_bound size 16).
  assert (0 <= size / 16) by (apply Z.div_pos; lia).
  rewrite (u32_id (size / 16)) by (unfold is_u32; lia). rewrite u32_id by (unfold is_u32; lia). lia.
Qed.

Lemma generate_random_total keyslot dst size w :
  keyslot < 16 -> 0 <= size < 2 ^ 32 -> size <= Z.of_nat (length dst) ->
  exists out w', se_generate_random keyslot dst size w = (Ret out, w') /\
    length out = length dst /\ se_only w w'.
Proof.
  intros Hk Hs Hl. pose proof (aligned_rest size Hs) as Ha. cbv zeta in Ha.
  unfold se_generate_random, KEYSLOT_AES_MAX.
  replace (keyslot >=? 0x10) with false by (zdec; done). cbv zeta. rewrite !run_se_write.
  set (aligned := u32 (u32 (size >>. 4) <<. 4)) in *. set (w1 := update w_se _ _).
  assert (H1 : exists d w2, (if u32 (size >>. 4) >=? 1
      then se_write BLOCK_COUNT_REG (u32 (u32 (size >>. 4) - 1)) ;;
           out ← trigger_se_blocking_op OP_START (Some (slice dst 0 aligned)) None;
           mret (splice dst 0 out) else mret dst) w1 = (Ret d, w2) /\ length d = length dst /\ se_only w w2).
  { destruct (_ >=? 1); [|by exists dst, w1].
    rewrite run_se_write, (run_bind _ _ _ _ _ (trigger_blocking_run _ _ _ _)).
    eexists _, _. split; [reflexivity|]. split; [apply length_splice; lia|done]. }
  destruct H1 as (d & w2 & E & Ld & O2). rewrite (run_bind _ _ _ _ _ E).
  destruct (Z.gtb_spec size aligned); [|by exists d, w2].
  destruct (block_operation_total (size - aligned) [] 0 w2) as (out & w3 & E3 & O3); [lia|lia|].
  rewrite (run_bind _ _ _ _ _ E3). eexists _, w3. split; [reflexivity|].
  split; [rewrite length_splice by lia; done|by etransitivity].
Qed.

(** The cache's shape: 0x400 bytes, with the 0x38 bytes of the next request
    always inside. *)
Definition rand_ok (w : World) : Prop :=
  length (g_random_cache (w_rand w)) = 0x400%nat /\
  0 <= g_random_cache_low (w_rand w) <= 0x3C7 /\ 0 <= g_random_cache_high (w_rand w) <= 0x3FF.

(** What the cache's own operations leave alone. *)
Definition rand_only (w w' : World) : Prop := w' = w <| w_se := w_se w' |> <| w_rand := w_rand w' |>.
#[local] Instance rand_only_preorder : PreOrder rand_only.
Proof. split; [by intros []|]. unfold rand_only. intros x y z H1 H2. rewrite H2, H1. done. Qed.

Lemma refill_segment_run offset size w :
  0 <= offset < 0x400 -> 0 <= size <= 0x400 -> offset + size <= 0x400 -> rand_ok w ->
  exists w', randomcache_refill_segment offset size w = (Ret tt, w') /\ rand_only w w' /\ rand_ok w' /\
    g_random_cache_low (w_rand w') = g_random_cache_low (w_rand w) /\
    g_random_cache_high (w_rand w') = g_random_cache_high (w_rand w).
Proof.
  intros Ho Hs Hos Hok. unfold randomcache_refill_segment.
  replace (if _ >=? 0x400 then u32 (0x400 - offset) else size) with size.
  2: { rewrite u32_id by (unfold is_u32; lia). destruct (Z.geb_spec (offset + size) 0x400); [|done].
       rewrite u32_id by (unfold is_u32; lia). lia. }
  cbv zeta. rewrite run_gets.
  destruct (generate_random_total KEYSLOT_SWITCH_RNGKEY (slice (g_random_cache (w_rand w)) offset size) size w)
    as (out & w1 & E1 & L1 & O1); [done|lia|rewrite length_slice by (rewrite ?(proj1 Hok); lia); lia|].
  rewrite (run_bind _ _ _ _ _ E1). eexists. split; [reflexivity|]. rewrite O1. split; [done|].
  split; [|done]. split; [|exact (proj2 Hok)]. cbn. rewrite length_splice; rewrite (proj1 Hok); lia.
Qed.

Lemma set_high_run v w : 0 <= v <= 0x3FF -> rand_ok w ->
  exists w', set_high v w = (Ret tt, w') /\ rand_only w w' /\ rand_ok w' /\
    g_random_cache_low (w_rand w') = g_random_cache_low (w_rand w) /\ g_random_cache_high (w_rand w') = v.
Proof. intros Hv (H1 & H2 & H3). by eexists. Qed.

Lemma land_3ff x : 0 <= x .& 0x3FF <= 0x3FF.
Proof. change 0x3FF with (Z.ones 10) at 1 2. rewrite Z.land_ones by lia. pose proof (Z.mod_pos_bound x (2 ^ 10)). lia. Qed.

Lemma refill_run w : rand_ok w ->
  exists w', randomcache_refill w = (Ret tt, w') /\ rand_only w w' /\ rand_ok w' /\
    g_random_cache_low (w_rand w') = g_random_cache_low (w_rand w).
Proof.
  intros Hok. destruct Hok as (Hl & Hlo & Hhi). assert (Hok : rand_ok w) by done.
  unfold randomcache_refill. rewrite !run_gets. cbv zeta.
  set (low := g_random_cache_low (w_rand w)) in *. set (high := g_random_cache_high (w_rand w)) in *.
  pose proof (land_3ff (u32 (high + 1))) as Hp. set (hp1 := u32 (high + 1) .& 0x3FF) in *.
  destruct (Z.eqb_spec low hp1); [by exists w|].
  destruct (Z.ltb_spec low hp1).
  - assert (H1 : exists w1, (if negb (high =? 0x3FF)
       then randomcache_refill_segment hp1 (0x400 - hp1) ;; set_high (u32 (high + 0x400 - hp1) .& 0x3FF)
       else mret tt) w = (Ret tt, w1) /\ rand_only w w1 /\ rand_ok w1 /\ g_random_cache_low (w_rand w1) = low).
    { destruct (negb _); [|by exists w].
      destruct (refill_segment_run hp1 (0x400 - hp1) w) as (w1 & E1 & O1 & K1 & L1 & _); [lia..|done|].
      destruct (set_high_run (u32 (high + 0x400 - hp1) .& 0x3FF) w1) as (w2 & E2 & O2 & K2 & L2 & _); [apply land_3ff|done|].
      exists w2. rewrite (run_bind _ _ _ _ _ E1). split; [done|]. split; [by etransitivity|]. split; [done|by rewrite L2, L1]. }
    destruct H1 as (w1 & E1 & O1 & K1 & L1). rewrite (run_bind _ _ _ _ _ E1).
    destruct (Z.gtb_spec low 0); [|by exists w1].
    destruct (refill_segment_run 0 low w1) as (w2 & E2 & O2 & K2 & L2 & _); [lia..|done|].
    rewrite (run_bind _ _ _ _ _ E2), run_gets.
    destruct (set_high_run (u32 (g_random_cache_high (w_rand w2) + low) .& 0x3FF) w2) as (w3 & E3 & O3 & K3 & L3 & _);
      [apply land_3ff|done|].
    exists w3. split; [done|]. split; [etransitivity; [exact O1|]; by etransitivity|]. split; [done|by rewrite L3, L2, L1].
  - destruct (refill_segment_run hp1 (low - hp1) w) as (w1 & E1 & O1 & K1 & L1 & _); [lia..|done|].
    rewrite (run_bind _ _ _ _ _ E1).
    destruct (set_high_run (low - 1) w1) as (w2 & E2 & O2 & K2 & L2 & _); [lia|done|].
    exists w2. split; [done|]. split; [by etransitivity|]. split; [done|by rewrite L2, L1].
Qed.

(** A request within the limit: the bytes come from inside the cache, are not
    served twice in a row, and the next request still fits. *)
Lemma getbytes_run n w :
  0 <= n <= 0x38 -> rand_ok w ->
  exists w', randomcache_getbytes n w =
      (Ret (slice (g_random_cache (w_rand w)) (g_random_cache_low (w_rand w)) n), w') /\
    rand_only w w' /\ rand_ok w' /\
    (n <> 0 -> g_random_cache_low (w_rand w') = 0 \/
               g_random_cache_low (w_rand w') = g_random_cache_low (w_rand w) + n).
Proof.
  intros Hn (Hl & Hlo & Hhi). unfold randomcache_getbytes. rewrite run_gets.
  destruct (Z.eqb_spec n 0) as [->|Hne]; [by exists w|]. rewrite run_gets. cbv zeta. unfold set_low. rewrite run_modify.
  set (low := g_random_cache_low (w_rand w)) in *. rewrite (u32_id (low + n)), (u32_id (low + n + 0x38)) by (unfold is_u32; lia).
  eexists. split; [reflexivity|]. split; [done|]. unfold rand_ok. cbn [w_rand].
  destruct (Z.gtb_spec (low + n + 0x38) 0x3FF); (split; [split; [done|cbn; lia]|]); intros _; [by left|by right].
Qed.

Lemma user_random_run args w : 0 <= X args 1 ->
  exists args' w', SmcUser.user_get_random_bytes args w = (Ret (if X args 1 >? 0x38 then 2 else 0, args'), w') /\ se_only w w'.
Proof.
  intros H0. unfold SmcUser.user_get_random_bytes. destruct (Z.gtb_spec (X args 1) 0x38); [by eexists _, w|].
  destruct (generate_random_total KEYSLOT_SWITCH_RNGKEY (zeros 0x40) (X args 1) w) as (out & w1 & E1 & _ & O1);
    [done|lia|change (length (zeros 0x40)) with 64%nat; lia|].
  rewrite (run_bind _ _ _ _ _ E1). by eexists _, w1.
Qed.

(** The kernel can always get random bytes.  [smc_get_random_bytes_for_priv]
    never panics, hangs or says "busy", also while a user SMC is in progress: it
    returns 0 for up to 0x38 bytes and 2 above.  With a user SMC in progress the
    bytes are the next unread ones of the cache; the read stays inside the
    0x400-byte cache now and for every later request ([rand_ok] is kept), and
    the user SMC lock is left as it was. *)
Theorem priv_random_total args w :
  rand_ok w -> 0 <= X args 1 ->
  exists args' w', SmcApi.smc_get_random_bytes_for_priv args w =
      (Ret (if X args 1 >? 0x38 then 2 else 0, args'), w') /\
    rand_ok w' /\ SmcApi.get_user_lock w' = SmcApi.get_user_lock w /\
    (SmcApi.get_user_lock w = true -> X args 1 <= 0x38 ->
     args' = copy_to_X args 1 (slice (g_random_cache (w_rand w)) (g_random_cache_low (w_rand w)) (X args 1))).
Proof.
  intros Hok H0. unfold SmcApi.smc_get_random_bytes_for_priv, SmcApi.try_set_user_smc_in_progress, lock_try_acquire.
  rewrite bind_assoc, run_gets, bind_assoc, run_modify. set (w1 := SmcApi.set_user_lock true w).
  assert (Hok1 : rand_ok w1) by exact Hok. rewrite run_ret.
  destruct (SmcApi.get_user_lock w) eqn:Elock; cbn [negb].
  - destruct (Z.gtb_spec (X args 1) 0x38);
      [exists args, w1; split; [done|]; split; [done|]; split; [done|intros; lia]|].
    destruct (getbytes_run (X args 1) w1) as (w2 & E2 & O2 & K2 & _); [lia|done|].
    rewrite (run_bind _ _ _ _ _ E2). eexists _, w2. split; [reflexivity|]. split; [done|]. by rewrite O2.
  - destruct (user_random_run args w1 H0) as (args' & w2 & E2 & O2). rewrite (run_bind _ _ _ _ _ E2).
    destruct (refill_run w2) as (w3 & E3 & O3 & K3 & _); [by rewrite O2|]. rewrite (run_bind _ _ _ _ _ E3).
    by eexists args', _.
Qed.
End Random.

Import Toy.

Lemma oaep_unwrap_roundtrip_witness :
  let lhash := bytes_of_words64 [1; 2; 3; 4] in
  let w := (toy_world 11) <| w_tkey ::= fun s => s <| g_tkey_expected_label_hash := [1; 2; 3; 4] |> |> in
  exists w', tkey_rsa_oaep_unwrap 0x10 (oaep_encode sha256 lhash (range 32) (range 16)) 0x100 w = (Ret (16, range 16), w').
Proof.
  intros lhash w.
  refine (proj1 (oaep_unwrap_roundtrip lhash (range 32) (range 16) 0x10 w _ _ _ _ _ _ _) _);
    first [reflexivity | cbn; lia | by repeat constructor].
Defined.

(** The block 0x80 00 .. 00 is the field's one. *)
Lemma gf128_mul_correct_witness :
  gf128_mul (range 16) (0x80 :: zeros 15) = be_bytes 16 (gcm_mul (be_value (range 16)) (be_value (0x80 :: zeros 15))) /\
  gf128_mul (range 16) (0x80 :: zeros 15) = range 16.
Proof.
  split; [|by vm_compute]. apply (gf128_mul_correct (range 16)); split; first [done | by repeat constructor].
Defined.

Lemma priv_random_total_witness :
  exists args' w', SmcApi.smc_get_random_bytes_for_priv [0; 4; 0; 0; 0; 0; 0; 0] (SmcApi.set_user_lock true (toy_world 11)) =
    (Ret (0, args'), w') /\ args' = [0; 0x03020100; 0; 0; 0; 0; 0; 0].
Proof.
  destruct (priv_random_total [0; 4; 0; 0; 0; 0; 0; 0] (SmcApi.set_user_lock true (toy_world 11)))
    as (args' & w' & E & _ & _ & H); [by vm_compute|done|].
  exists args', w'. split; [exact E|]. rewrite H by done. by vm_compute.
Defined.
