(* ===== verification/PageProps.v ===== *)
(** The windows onto the normal world's memory: one user page, and the pages of
    the Atmosphere SMCs (userpage.c, smc_ams.c). *)
From S2P Require Import Prelude State Utils Se Engine Pages Config Keys Power SmcUser SmcApi Platform.
Import UserPage AMS.

(** ** Pages and translation *)

Lemma page_of a : is_u64 a -> get_page_for_address a = a - a mod 0x1000.
Proof.
  intros Ha. unfold get_page_for_address, is_u64 in *.
  replace (not64 0xFFF) with (Z.ldiff (Z.ones 64) (Z.ones 12)) by done.
  rewrite Z.ldiff_land, Z.land_assoc, (Z.land_ones a 64), (Z.mod_small a) by lia.
  rewrite <- Z.ldiff_land, Z.ldiff_ones_r, Z.shiftl_mul_pow2, Z.shiftr_div_pow2 by lia.
  change (2 ^ 12) with 0x1000. pose proof (Z.div_mod a 0x1000). lia.
Qed.

Definition page_aligned (page : Z) : Prop := page mod 0x1000 = 0 /\ 0 <= page < 2 ^ 48.

Lemma land_page x : x .& 0xFFF = x mod 0x1000.
Proof. change 0xFFF with (Z.ones 12). by rewrite Z.land_ones by lia. Qed.

Lemma page_mask page : page_aligned page -> page .& 0xFFFFFFFFF000 = page.
Proof.
  intros [Hp Hr]. apply Z.bits_inj'. intros k Hk. rewrite Z.land_spec.
  replace (Z.testbit 0xFFFFFFFFF000 k) with ((12 <=? k) && (k <? 48)).
  2: { replace 0xFFFFFFFFF000 with (Z.ones 36 <<. 12) by done. rewrite Z.shiftl_spec, Z.testbit_ones by lia.
       destruct (Z.leb_spec 12 k), (Z.ltb_spec k 48), (Z.leb_spec 0 (k - 12)), (Z.ltb_spec (k - 12) 36); lia || done. }
  destruct (Z.leb_spec 12 k) as [H12|H12]; cbn [andb].
  - destruct (Z.ltb_spec k 48) as [H48|H48]; [by rewrite andb_true_r|]. rewrite andb_false_r.
    rewrite <- (Z.mod_small page (2 ^ 48)) by done. by rewrite Z.mod_pow2_bits_high by lia.
  - rewrite andb_false_r. symmetry. change 0x1000 with (2 ^ 12) in Hp.
    rewrite <- (Z.mod_pow2_bits_low page 12) by lia. by rewrite Hp, Z.bits_0.
Qed.

Lemma page_low page m : page_aligned page -> 0 <= m < 0x1000 -> page .& m = 0.
Proof.
  intros [Hp Hr] Hm. apply Z.bits_inj'. intros k Hk. rewrite Z.land_spec, Z.bits_0.
  destruct (decide (k < 12)).
  - rewrite <- (Z.mod_pow2_bits_low page 12) by lia. change (2 ^ 12) with 0x1000. by rewrite Hp, Z.bits_0.
  - rewrite <- (Z.mod_small m (2 ^ 12)) by done. by rewrite Z.mod_pow2_bits_high, andb_false_r by lia.
Qed.

(** A descriptor written by [mmu_map_page] translates to its page. *)
Lemma translate_mapped t va page attrs off :
  page_aligned page -> va mod 0x1000 = 0 -> 0 <= off < 0x1000 ->
  attrs .& 0xFFFFFFFFF000 = 0 -> attrs .& 3 = 0 ->
  t (mmu_compute_index 3 va) = page .| attrs .| MMU_PTE_BLOCK_AF .| MMU_PTE_TYPE_PAGE ->
  mmu_translate t (va + off) = Some (page + off).
Proof.
  intros Hp Hv Ho Ha Ha3 Ht. unfold mmu_translate.
  replace (mmu_compute_index 3 (va + off)) with (mmu_compute_index 3 va).
  2: { unfold mmu_compute_index. cbn [Z.sub Z.mul Z.add]. rewrite !Z.shiftr_div_pow2 by lia. f_equal.
       change (2 ^ (12 + 9 * (3 - 3))) with 0x1000. rewrite (Z.div_mod va 0x1000), Hv, Z.add_0_r by lia.
       rewrite (Z.mul_comm 0x1000), Z.div_add_l, Z.div_mul, (Z.div_small off) by lia. lia. }
  rewrite Ht. rewrite !Z.land_lor_distr_l, Ha, Ha3, page_mask by done.
  rewrite (page_low page 3) by (done || lia). rewrite land_page, Z.add_mod, Hv by lia.
  rewrite Z.add_0_l, Z.mod_mod, (Z.mod_small off) by lia.
  change (MMU_PTE_BLOCK_AF .& 0xFFFFFFFFF000) with 0. change (MMU_PTE_TYPE_PAGE .& 0xFFFFFFFFF000) with 0.
  rewrite !Z.lor_0_r. done.
Qed.

(** Byte ranges of physical memory. *)
Lemma phys_read_at mem pa n : phys_read_bytes mem pa n = map (fun i => mem (pa + i)) (range (Z.of_nat n)).
Proof.
  revert pa. induction n as [|n IH]; intros pa; [done|]. cbn [phys_read_bytes].
  rewrite Nat2Z.inj_succ, <- Z.add_1_r, range_succ by lia. cbn [map]. rewrite Z.add_0_r. f_equal.
  rewrite IH, map_map. apply map_ext. intros i. f_equal. lia.
Qed.
Lemma phys_read_write mem pa bs : phys_read_bytes (phys_write_bytes mem pa bs) pa (length bs) = bs.
Proof.
  rewrite phys_read_at. apply list_eq_Forall2, Forall2_same_length_lookup. split.
  - rewrite length_map. unfold range. rewrite length_seqZ. lia.
  - intros i x y Hx Hy. change (map ?f ?l) with (f <$> l) in Hx. rewrite list_lookup_fmap in Hx.
    apply fmap_Some in Hx as (z & Hz & ->). unfold range in Hz. apply lookup_seqZ in Hz as [-> Hi].
    unfold phys_write_bytes, byte_at. zdec. replace (Z.to_nat (pa + (0 + Z.of_nat i) - pa)) with i by lia.
    by apply nth_lookup_Some.
Qed.

(** A page window: the page [va] of the monitor shows the page [page]. *)
Definition window (w : World) (va page : Z) : Prop :=
  forall off, 0 <= off < 0x1000 -> mmu_translate (w_l3 w) (va + off) = Some (page + off).

Lemma map_window w va page attrs :
  page_aligned page -> va mod 0x1000 = 0 -> attrs .& 0xFFFFFFFFF000 = 0 -> attrs .& 3 = 0 ->
  exists w', mmu_map_page va page attrs w = (Ret tt, w') /\ window w' va page /\ w_phys w' = w_phys w.
Proof.
  intros Hp Hv Ha H3. eexists. split; [reflexivity|]. split; [|done].
  intros off Ho. by apply (translate_mapped _ _ _ attrs); [..|cbn; rewrite upd_eq].
Qed.

Lemma window_read w va page off n :
  window w va page -> 0 <= off < 0x1000 ->
  va_read_bytes (va + off) n w = (Ret (phys_read_bytes (w_phys w) (page + off) (Z.to_nat n)), w).
Proof. intros Hw Ho. unfold va_read_bytes. by rewrite run_gets, Hw. Qed.
Lemma window_write w va page off bs :
  window w va page -> 0 <= off < 0x1000 ->
  va_write_bytes (va + off) bs w = (Ret tt, w <| w_phys ::= fun m => phys_write_bytes m (page + off) bs |>).
Proof. intros Hw Ho. unfold va_write_bytes. by rewrite run_gets, Hw. Qed.

(** ** The user page *)

Lemma page_eq a page : is_u64 a -> page_aligned page -> (get_page_for_address a = page <-> page <= a < page + 0x1000).
Proof.
  intros Ha [Hp Hr]. rewrite page_of by done. pose proof (Z.mod_pos_bound a 0x1000).
  split; [lia|]. intros H1. apply Z.mod_divide in Hp as [k ->]; [|lia].
  replace a with (a - k * 0x1000 + k * 0x1000) at 2 by lia. rewrite Z.mod_add, Z.mod_small by lia. lia.
Qed.

Definition in_page (page a n : Z) : bool := (page <=? a) && (a + n <=? page + 0x1000).

(** The two page checks of the copies accept exactly the ranges in the page,
    unless the size is so close to 2^64 that the end wraps around to the page. *)
Lemma range_check page a n :
  page_aligned page -> is_u64 a -> 0 < n <= 2 ^ 64 - 0x1000 ->
  negb (get_page_for_address a =? page)
  || (negb (n =? 0) && negb (get_page_for_address (u64 (a + n - 1)) =? page)) = negb (in_page page a n).
Proof.
  intros Hp Ha Hn. unfold in_page. pose proof (page_eq a page Ha Hp) as E1.
  pose proof (page_eq (u64 (a + n - 1)) page (u64_range _) Hp) as E2. destruct Hp as [_ Hp].
  pose proof (u64_range (a + n - 1)) as Hr. unfold is_u64 in Ha, Hr.
  assert (Hu : u64 (a + n - 1) = a + n - 1 \/ u64 (a + n - 1) = a + n - 1 - 2 ^ 64).
  { destruct (decide (a + n - 1 < 2 ^ 64)); [left; apply u64_id; unfold is_u64; lia|right].
    unfold u64. symmetry. apply (Z.mod_unique_pos _ _ 1); lia. }
  destruct (Z.eqb_spec (get_page_for_address a) page), (Z.eqb_spec n 0),
    (Z.eqb_spec (get_page_for_address (u64 (a + n - 1))) page), (Z.leb_spec page a), (Z.leb_spec (a + n) (page + 0x1000));
    cbn; try done; lia.
Qed.

Section User.
Context {soc : SoC}.

Lemma user_va_aligned : USER_PAGE_SECURE_MONITOR_ADDR mod 0x1000 = 0.
Proof. done. Qed.

Definition dram_page (page : Z) : Prop := 0x80000000 <= page < 0x80000000 + (6 <<. 30) /\ page mod 0x1000 = 0.
Lemma dram_page_aligned page : dram_page page -> page_aligned page.
Proof. intros [H1 H2]. split; [done|]. change (6 <<. 30) with 0x180000000 in H1. lia. Qed.

(** The reference [upage_init] gives out for the mapped page. *)
Definition page_ref (page : Z) : upage_ref_t := mk_upage_ref page USER_PAGE_SECURE_MONITOR_ADDR.

Lemma window_addr page a n : page_aligned page -> in_page page a n = true -> 0 < n ->
  u64 (USER_PAGE_SECURE_MONITOR_ADDR + (a - page)) = USER_PAGE_SECURE_MONITOR_ADDR + (a - page) /\ 0 <= a - page < 0x1000.
Proof.
  intros Hp Hi Hn. unfold in_page in Hi. apply andb_true_iff in Hi as [H1%Z.leb_le H2%Z.leb_le].
  assert (0 <= USER_PAGE_SECURE_MONITOR_ADDR < 2 ^ 33) by (by vm_compute).
  split; [|lia]. apply u64_id. unfold is_u64. lia.
Qed.

Lemma secure_copy_run page a src n w :
  window w USER_PAGE_SECURE_MONITOR_ADDR page -> page_aligned page -> is_u64 a -> 0 < n <= 2 ^ 64 - 0x1000 ->
  secure_copy_to_user (page_ref page) a src n w =
  (Ret (in_page page a n),
   if in_page page a n then w <| w_phys ::= fun m => phys_write_bytes m a (slice src 0 n) |> else w).
Proof.
  intros Hw Hp Ha Hn. pose proof (range_check page a n Hp Ha Hn) as Hc.
  unfold secure_copy_to_user. cbn [page_ref user_address secure_monitor_address].
  destruct (negb (get_page_for_address a =? page)); cbn [orb] in Hc.
  { by destruct (in_page page a n). }
  rewrite Hc. destruct (in_page page a n) eqn:Ei; [|done]. cbn [negb].
  rewrite (proj2 (Z.eqb_neq n 0)) by lia. cbn [negb].
  destruct (window_addr page a n Hp Ei) as [-> Ho]; [lia|].
  rewrite (run_bind _ _ _ _ _ (window_write w _ page (a - page) _ Hw Ho)).
  by replace (page + (a - page)) with a by lia.
Qed.
Lemma user_copy_run page a n w :
  window w USER_PAGE_SECURE_MONITOR_ADDR page -> page_aligned page -> is_u64 a -> 0 < n <= 2 ^ 64 - 0x1000 ->
  user_copy_to_secure (page_ref page) a n w =
  (Ret (if in_page page a n then Some (phys_read_bytes (w_phys w) a (Z.to_nat n)) else None), w).
Proof.
  intros Hw Hp Ha Hn. pose proof (range_check page a n Hp Ha Hn) as Hc.
  unfold user_copy_to_secure. cbn [page_ref user_address secure_monitor_address].
  destruct (negb (get_page_for_address a =? page)); cbn [orb] in Hc.
  { by destruct (in_page page a n). }
  rewrite Hc. destruct (in_page page a n) eqn:Ei; [|done]. cbn [negb].
  rewrite (proj2 (Z.eqb_neq n 0)) by lia. cbn [negb].
  destruct (window_addr page a n Hp Ei) as [-> Ho]; [lia|].
  rewrite (run_bind _ _ _ _ _ (window_read w _ page (a - page) _ Hw Ho)).
  by replace (page + (a - page)) with a by lia.
Qed.

(** The first [upage_init] of a DRAM page maps it. *)
Lemma upage_init_run addr w :
  g_user_page_user_address (w_upage w) = 0 -> dram_page addr ->
  exists w', upage_init addr w = (Ret (page_ref addr, true), w') /\
    window w' USER_PAGE_SECURE_MONITOR_ADDR addr /\ w_phys w' = w_phys w /\
    g_user_page_user_address (w_upage w') = addr.
Proof.
  intros H0 Hd. pose proof (dram_page_aligned _ Hd) as Hp. destruct Hd as [Hd1 Hd2].
  unfold upage_init. rewrite run_gets, H0. change (6 <<. 30) with 0x180000000 in *.
  replace (get_page_for_address addr) with addr by (rewrite page_of, Hd2 by (unfold is_u64; lia); lia).
  rewrite land_page, Hd2, u64_id by (unfold is_u64; lia). change (negb (0 =? 0)) with false. zdec.
  rewrite bind_assoc, run_modify, bind_assoc.
  destruct (map_window (w <| w_upage ::= fun s => s <| g_user_page_user_address := addr |> |>)
    USER_PAGE_SECURE_MONITOR_ADDR addr userpage_attributes) as (w' & E & Hw & Hm); [done..|].
  rewrite (run_bind _ _ _ _ _ E), run_ret. exists w'. split; [done|]. split; [done|]. split; [done|].
  injection E as <-. done.
Qed.

(** Only one page of normal-world DRAM is ever shared with the user SMCs:
    [upage_init] accepts, while no page is mapped, exactly the page-aligned
    addresses of the 6 GB after 0x80000000, and once a page is mapped only
    addresses in that page; every other call panics. *)
Theorem upage_init_one_page addr w :
  is_u64 addr ->
  let cur := g_user_page_user_address (w_upage w) in
  (cur = 0 -> dram_page addr ->
     exists w', upage_init addr w = (Ret (page_ref addr, true), w') /\
       window w' USER_PAGE_SECURE_MONITOR_ADDR addr /\ g_user_page_user_address (w_upage w') = addr) /\
  (cur = 0 -> ~ dram_page addr -> fst (upage_init addr w) = Panic 0xFF000006) /\
  (cur <> 0 -> get_page_for_address addr = cur -> upage_init addr w = (Ret (page_ref cur, true), w)) /\
  (cur <> 0 -> get_page_for_address addr <> cur -> fst (upage_init addr w) = Panic 0xFF000006).
Proof.
  intros Ha cur. split; [|split; [|split]].
  - intros H0 Hd. destruct (upage_init_run addr w H0 Hd) as (w' & E & Hw & _ & Hu). by exists w'.
  - intros H0 Hd. unfold upage_init. rewrite run_gets. fold cur. rewrite H0. change (negb (0 =? 0)) with false. cbv iota.
    replace (_ && _) with false; [apply bind_fst_panic, generic_panic_fst|]. symmetry. apply andb_false_iff.
    rewrite land_page, page_of by done. unfold dram_page in Hd. change (6 <<. 30) with 0x180000000 in *.
    destruct (decide (addr mod 0x1000 = 0)) as [Hm|Hm]; [left|right; by apply Z.eqb_neq].
    rewrite Hm, Z.sub_0_r. apply Z.ltb_ge. unfold is_u64 in Ha.
    destruct (decide (0x80000000 <= addr)); [rewrite u64_id by (unfold is_u64; lia); lia|].
    replace (u64 (addr - 0x80000000)) with (addr - 0x80000000 + 2 ^ 64); [lia|].
    unfold u64. apply (Z.mod_unique_pos _ _ (-1)); lia.
  - intros H0 He. unfold upage_init. rewrite run_gets. fold cur.
    by rewrite (proj2 (Z.eqb_neq _ _) H0), He, Z.eqb_refl.
  - intros H0 He. unfold upage_init. rewrite run_gets. fold cur.
    rewrite (proj2 (Z.eqb_neq _ _) H0), (proj2 (Z.eqb_neq cur _)) by congruence.
    apply bind_fst_panic, generic_panic_fst.
Qed.

(** Copies between the monitor and the user page stay in the page.  After
    the page at [addr] is mapped, a copy of [n] bytes at [a] is refused, with no
    effect, unless [a .. a + n) lies in that page; an accepted copy out stores
    exactly those bytes, changes no other byte of memory, and a copy in of the
    same range gives them back. *)
Theorem user_page_copy_roundtrip addr a n src w :
  g_user_page_user_address (w_upage w) = 0 -> dram_page addr -> is_u64 a ->
  0 < n <= 2 ^ 64 - 0x1000 -> Z.of_nat (length src) = n ->
  exists w1, upage_init addr w = (Ret (page_ref addr, true), w1) /\
    (in_page addr a n = true -> exists w2,
       secure_copy_to_user (page_ref addr) a src n w1 = (Ret true, w2) /\
       user_copy_to_secure (page_ref addr) a n w2 = (Ret (Some src), w2) /\
       forall b, ~ (a <= b < a + n) -> w_phys w2 b = w_phys w b) /\
    (in_page addr a n = false ->
       secure_copy_to_user (page_ref addr) a src n w1 = (Ret false, w1) /\
       user_copy_to_secure (page_ref addr) a n w1 = (Ret None, w1)).
Proof.
  intros H0 Hd Ha Hn Hl. pose proof (dram_page_aligned _ Hd) as Hp.
  destruct (upage_init_run addr w H0 Hd) as (w1 & E1 & Hw & Hm & _). exists w1. split; [done|].
  rewrite (secure_copy_run addr a src n w1), (user_copy_run addr a n w1), slice_all by done.
  split; intros Ei; rewrite Ei; [|done]. eexists. split; [reflexivity|]. split.
  - rewrite (user_copy_run addr a n), Ei by done. do 3 f_equal. cbn. rewrite <- Hl, Nat2Z.id. apply phys_read_write.
  - intros b Hb. cbn. unfold phys_write_bytes. rewrite Hl, Hm.
    destruct (Z.leb_spec a b), (Z.ltb_spec b (a + n)); cbn [andb]; [lia|done..].
Qed.
End User.

(** ** The pages of the Atmosphere SMCs *)

Lemma lock_free get set w : get w = false -> lock_acquire get set w = (Ret tt, set true w).
Proof. intros H. unfold lock_acquire. by rewrite run_gets, H. Qed.

Lemma page_start a : 0 <= a < 2 ^ 48 -> page_aligned (a - a mod 0x1000).
Proof.
  intros Ha. pose proof (Z.mod_pos_bound a 0x1000). pose proof (Z.div_mod a 0x1000).
  assert (0 <= a / 0x1000) by (apply Z.div_pos; lia). split; [|lia].
  replace (a - a mod 0x1000) with (a / 0x1000 * 0x1000) by lia. by apply Z.mod_mul.
Qed.

(** Two descriptors of different pages of the window area. *)
Lemma ams_pages_differ : mmu_compute_index 3 AMS_USER_PAGE_SECURE_MONITOR_ADDR <> mmu_compute_index 3 AMS_IRAM_PAGE_SECURE_MONITOR_ADDR.
Proof. by vm_compute. Qed.

(** Maps as both windows are set up in [ams_iram_copy]. *)
Definition both_mapped (dram_page iram_page : Z) (w : World) : World :=
  let l3 := upd (upd (w_l3 w) (mmu_compute_index 3 AMS_USER_PAGE_SECURE_MONITOR_ADDR)
                  (dram_page .| userpage_attributes .| MMU_PTE_BLOCK_AF .| MMU_PTE_TYPE_PAGE))
             (mmu_compute_index 3 AMS_IRAM_PAGE_SECURE_MONITOR_ADDR)
             (iram_page .| irampage_attributes .| MMU_PTE_BLOCK_AF .| MMU_PTE_TYPE_PAGE) in
  w <| w_l3 := l3 |> <| w_ams := mk_ams true true |>.

Lemma both_mapped_user d i w : page_aligned d -> window (both_mapped d i w) AMS_USER_PAGE_SECURE_MONITOR_ADDR d.
Proof.
  intros Hp off Ho. apply (translate_mapped _ _ _ userpage_attributes); [done..|].
  cbn [both_mapped w_l3]. change (w_l3 (both_mapped d i w)) with
    (upd (upd (w_l3 w) (mmu_compute_index 3 AMS_USER_PAGE_SECURE_MONITOR_ADDR)
       (d .| userpage_attributes .| MMU_PTE_BLOCK_AF .| MMU_PTE_TYPE_PAGE))
      (mmu_compute_index 3 AMS_IRAM_PAGE_SECURE_MONITOR_ADDR)
      (i .| irampage_attributes .| MMU_PTE_BLOCK_AF .| MMU_PTE_TYPE_PAGE)).
  by rewrite (upd_ne _ _ _ _ ams_pages_differ), upd_eq.
Qed.
Lemma both_mapped_iram d i w : page_aligned i -> window (both_mapped d i w) AMS_IRAM_PAGE_SECURE_MONITOR_ADDR i.
Proof. intros Hp off Ho. apply (translate_mapped _ _ _ irampage_attributes); [done..|]. apply upd_eq. Qed.

(** Word copies one after the other are one copy. *)
Definition copy_words (pdst psrc : Z) (l : list Z) (m : Z -> Z) : Z -> Z :=
  foldl (fun m i => phys_write_bytes m (pdst + 4 * i) (phys_read_bytes m (psrc + 4 * i) 4)) m l.
Lemma copy_words_mem n pdst psrc m a :
  psrc + 4 * Z.of_nat n <= pdst \/ pdst + 4 * Z.of_nat n <= psrc ->
  copy_words pdst psrc (range (Z.of_nat n)) m a = mem_copy m pdst psrc (4 * Z.of_nat n) a.
Proof.
  revert a. induction n as [|n IH]; intros a Hdis.
  { unfold copy_words, mem_copy. cbn [foldl range seqZ]. destruct (Z.leb_spec pdst a), (Z.ltb_spec a (pdst + 4 * Z.of_nat 0)); (lia || done). }
  unfold range, copy_words. rewrite seqZ_S, foldl_app. cbn [foldl]. fold (range (Z.of_nat n)). fold (copy_words pdst psrc (range (Z.of_nat n)) m).
  rewrite Z.add_0_l. rewrite phys_read_at. change (range (Z.of_nat 4)) with [0; 1; 2; 3]. cbn [map].
  assert (Hsrc : forall j, 0 <= j < 4 -> mem_copy m pdst psrc (4 * Z.of_nat n) (psrc + 4 * Z.of_nat n + j) = m (psrc + 4 * Z.of_nat n + j)).
  { intros j Hj. unfold mem_copy. destruct (Z.leb_spec pdst (psrc + 4 * Z.of_nat n + j)), (Z.ltb_spec (psrc + 4 * Z.of_nat n + j) (pdst + 4 * Z.of_nat n)); (lia || done). }
  rewrite !IH, !Hsrc by lia. unfold phys_write_bytes. change (Z.of_nat (length _)) with 4. rewrite IH by lia. unfold mem_copy.
  destruct (Z.leb_spec (pdst + 4 * Z.of_nat n) a), (Z.ltb_spec a (pdst + 4 * Z.of_nat n + 4)); cbn [andb].
  - assert (E : a - (pdst + 4 * Z.of_nat n) = 0 \/ a - (pdst + 4 * Z.of_nat n) = 1 \/ a - (pdst + 4 * Z.of_nat n) = 2
      \/ a - (pdst + 4 * Z.of_nat n) = 3) by lia.
    destruct E as [E|[E|[E|E]]]; rewrite E; unfold byte_at; cbn [nth Z.to_nat Pos.to_nat Pos.iter_op Nat.add];
      zdec; f_equal; lia.
  - zdec. destruct (Z.leb_spec pdst a); done.
  - destruct (Z.leb_spec pdst a); zdec; done.
  - lia.
Qed.

(** The copy loop moves word by word; source and destination are disjoint. *)
Lemma copy_words_run n src dst psrc pdst w :
  0 <= n ->
  (forall i, 0 <= i < 4 * n -> mmu_translate (w_l3 w) (src + i) = Some (psrc + i)) ->
  (forall i, 0 <= i < 4 * n -> mmu_translate (w_l3 w) (dst + i) = Some (pdst + i)) ->
  psrc + 4 * n <= pdst \/ pdst + 4 * n <= psrc ->
  exists mem, for_each (range n) (fun i => v ← va_read_bytes (src + 4 * i) 4; va_write_bytes (dst + 4 * i) v) w =
    (Ret tt, w <| w_phys := mem |>) /\ forall a, mem a = mem_copy (w_phys w) pdst psrc (4 * n) a.
Proof.
  intros Hn Hs Hd Hdis.
  assert (H : forall l w0, w_l3 w0 = w_l3 w -> (forall i, i ∈ l -> 0 <= i < n) ->
    for_each l (fun i => v ← va_read_bytes (src + 4 * i) 4; va_write_bytes (dst + 4 * i) v) w0 =
    (Ret tt, w0 <| w_phys := copy_words pdst psrc l (w_phys w0) |>)).
  { induction l as [|i l IH]; intros w0 H3 Hl; [by destruct w0|]. cbn [for_each].
    assert (Hi : 0 <= i < n) by (apply Hl; left).
    rewrite bind_assoc. unfold va_read_bytes. rewrite bind_assoc, run_gets, H3, (Hs (4 * i)) by lia. rewrite run_gets.
    unfold va_write_bytes. rewrite bind_assoc, run_gets, H3, (Hd (4 * i)) by lia. rewrite run_modify.
    rewrite IH; [done|done|]. intros j Hj. apply Hl. by right. }
  eexists. split; [apply H; [done|]; intros i; apply elem_of_range|]. intros a.
  rewrite <- (Z2Nat.id n) in * by lia. by apply copy_words_mem.
Qed.

Lemma user_addr_valid a : is_u64 a ->
  ams_is_user_addr_valid a = bool_decide (0x80000000 <= a < 0x80000000 + (6 <<. 30)).
Proof.
  intros Ha. unfold ams_is_user_addr_valid. rewrite page_of by done. change (6 <<. 30) with 0x180000000.
  pose proof (Z.mod_pos_bound a 0x1000). pose proof (Z.div_mod a 0x1000). unfold is_u64 in Ha.
  destruct (decide (0x80000000 <= a)) as [H1|H1].
  - rewrite u64_id by (unfold is_u64; lia). destruct (Z.ltb_spec (a - a mod 0x1000 - 0x80000000) 0x180000000);
      [rewrite bool_decide_true|rewrite bool_decide_false]; (lia || done).
  - rewrite bool_decide_false by lia. apply Z.ltb_ge.
    replace (u64 (a - a mod 0x1000 - 0x80000000)) with (a - a mod 0x1000 - 0x80000000 + 2 ^ 64);
      [lia|]. unfold u64. apply (Z.mod_unique_pos _ _ (-1)); lia.
Qed.

Section Ams.
Context {soc : SoC}.

(** The requests [ams_iram_copy] serves. *)
Definition iram_copy_valid (dram iram size option : Z) : Prop :=
  0x80000000 <= dram < 0x80000000 + (6 <<. 30) /\ 0x40000000 <= iram <= 0x4003FFFF /\
  size + dram mod 0x1000 <= 0x1000 /\ size + iram mod 0x1000 <= 0x1000 /\
  size mod 4 = 0 /\ dram mod 0x1000 mod 4 = 0 /\ iram mod 0x1000 mod 4 = 0 /\ (option = 0 \/ option = 1).
#[export] Instance iram_copy_valid_dec dram iram size option : Decision (iram_copy_valid dram iram size option).
Proof. apply _. Defined.

(** Both windows are gone and both locks are free. *)
Definition ams_unmapped (w w' : World) : Prop :=
  w_ams w' = mk_ams false false /\
  (forall i, w_l3 w' i = if (i =? mmu_compute_index 3 AMS_USER_PAGE_SECURE_MONITOR_ADDR)
                            || (i =? mmu_compute_index 3 AMS_IRAM_PAGE_SECURE_MONITOR_ADDR)
                         then MMU_PTE_TYPE_FAULT else w_l3 w i).

(** The checks, in the code's order, are [iram_copy_valid]. *)
Lemma iram_copy_checks args w :
  is_u64 (X args 1) -> 0 <= X args 3 ->
  ~ iram_copy_valid (X args 1) (X args 2) (X args 3) (u32 (X args 4)) -> ams_iram_copy args w = (Ret (2, args), w).
Proof.
  intros H1 H3 Hn. unfold ams_iram_copy. cbv zeta. rewrite user_addr_valid by done. unfold ams_is_iram_addr_valid.
  rewrite !land_page. pose proof (Z.mod_pos_bound (X args 1) 0x1000). pose proof (Z.mod_pos_bound (X args 2) 0x1000).
  case_bool_decide as Ed; cbn [negb orb]; [|done].
  destruct (Z.leb_spec 0x40000000 (X args 2)), (Z.leb_spec (X args 2) 0x4003FFFF); cbn [andb negb]; try done.
  destruct (Z.gtb_spec (X args 3) 0x1000), (Z.gtb_spec (X args 3 + X args 1 mod 0x1000) 0x1000),
    (Z.gtb_spec (X args 3 + X args 2 mod 0x1000) 0x1000); cbn [orb]; try done.
  destruct (Z.eqb_spec (X args 3 mod 4) 0), (Z.eqb_spec (X args 1 mod 0x1000 mod 4) 0),
    (Z.eqb_spec (X args 2 mod 0x1000 mod 4) 0); cbn [negb orb]; try done.
  destruct (Z.eqb_spec (u32 (X args 4)) 0), (Z.eqb_spec (u32 (X args 4)) 1); cbn [negb andb]; try done;
    exfalso; apply Hn; unfold iram_copy_valid; repeat split; (done || lia || tauto).
Qed.

(** The copy between two windows, then both unmapped. *)
Lemma window_part w va page off n :
  window w va page -> 0 <= off -> off + n <= 0x1000 ->
  forall i, 0 <= i < n -> mmu_translate (w_l3 w) (va + off + i) = Some (page + off + i).
Proof.
  intros Hw H0 H1 i Hi. replace (va + off + i) with (va + (off + i)) by lia.
  replace (page + off + i) with (page + (off + i)) by lia. apply Hw. lia.
Qed.

Lemma map_both dram iram w :
  w_ams w = mk_ams false false ->
  exists w1, ams_map_userpage dram w = (Ret tt, w1) /\
    ams_map_irampage iram w1 = (Ret tt, both_mapped (get_page_for_address dram) (get_page_for_address iram) w).
Proof.
  intros Hl. destruct w. cbn in Hl. subst. eexists. split; [reflexivity|]. reflexivity.
Qed.

Definition both_unmapped (d i : Z) (mem : Z -> Z) (w : World) : World :=
  snd (ams_unmap_userpage (snd (ams_unmap_irampage ((both_mapped d i w) <| w_phys := mem |>)))).
Lemma both_unmapped_ok d i mem w : ams_unmapped w (both_unmapped d i mem w) /\ w_phys (both_unmapped d i mem w) = mem.
Proof.
  split; [|done]. split; [done|]. intros j.
  change (w_l3 (both_unmapped d i mem w)) with
    (upd (upd (w_l3 (both_mapped d i w)) (mmu_compute_index 3 AMS_IRAM_PAGE_SECURE_MONITOR_ADDR) MMU_PTE_TYPE_FAULT)
       (mmu_compute_index 3 AMS_USER_PAGE_SECURE_MONITOR_ADDR) MMU_PTE_TYPE_FAULT).
  unfold both_mapped, upd. cbn -[mmu_compute_index Z.eqb].
  by destruct (j =? mmu_compute_index 3 AMS_USER_PAGE_SECURE_MONITOR_ADDR),
    (j =? mmu_compute_index 3 AMS_IRAM_PAGE_SECURE_MONITOR_ADDR).
Qed.

(** The loop, in either direction, over the windows [both_mapped] sets up. *)
Lemma copy_between w va1 page1 off1 va2 page2 off2 size :
  window w va1 page1 -> window w va2 page2 -> 0 <= off1 -> 0 <= off2 -> 0 <= size ->
  off1 + size <= 0x1000 -> off2 + size <= 0x1000 -> size mod 4 = 0 ->
  page2 + off2 + size <= page1 + off1 \/ page1 + off1 + size <= page2 + off2 ->
  exists mem, for_each (range (size / 4)) (fun i =>
      v ← va_read_bytes (va2 + off2 + 4 * i) 4; va_write_bytes (va1 + off1 + 4 * i) v) w = (Ret tt, w <| w_phys := mem |>) /\
    forall a, mem a = mem_copy (w_phys w) (page1 + off1) (page2 + off2) size a.
Proof.
  intros W1 W2 H1 H2 H0 L1 L2 Hm Hdis. assert (E : 4 * (size / 4) = size) by (pose proof (Z.div_mod size 4); lia).
  rewrite <- E. rewrite (Z.mul_comm 4), Z.div_mul, (Z.mul_comm _ 4) by lia.
  apply copy_words_run; rewrite ?E; [apply Z.div_pos; lia|by eapply window_part|by eapply window_part|done].
Qed.

(** [ams_iram_copy] copies exactly what was asked, between exactly one DRAM
    page and one IRAM page, and leaves nothing mapped.  Requests that name other
    memory, cross a page, are misaligned or have an unknown direction are
    refused with 2 and no effect; a valid request (the page locks being free)
    returns 0, memory is the old one with [size] bytes copied in the direction
    asked for, both windows are unmapped and both locks released. *)
Theorem ams_iram_copy_correct args w :
  is_u64 (X args 1) -> 0 <= X args 3 -> w_ams w = mk_ams false false ->
  let dram := X args 1 in let iram := X args 2 in let size := X args 3 in let option := u32 (X args 4) in
  (~ iram_copy_valid dram iram size option -> ams_iram_copy args w = (Ret (2, args), w)) /\
  (iram_copy_valid dram iram size option ->
   exists w', ams_iram_copy args w = (Ret (0, args), w') /\ ams_unmapped w w' /\
     forall a, w_phys w' a = if option =? 0 then mem_copy (w_phys w) dram iram size a
                             else mem_copy (w_phys w) iram dram size a).
Proof.
  intros Hd Hs Hl dram iram size option. split; [by apply iram_copy_checks|].
  intros (V1 & V2 & V3 & V4 & V5 & V6 & V7 & V8). unfold ams_iram_copy. cbv zeta. fold dram iram size option.
  change (6 <<. 30) with 0x180000000 in V1.
  pose proof (Z.mod_pos_bound dram 0x1000). pose proof (Z.mod_pos_bound iram 0x1000).
  rewrite user_addr_valid, bool_decide_true by done. unfold ams_is_iram_addr_valid. rewrite !land_page, V5, V6, V7. zdec.
  replace (negb (option =? 0) && negb (option =? 1)) with false by (by destruct V8 as [-> | ->]).
  destruct (map_both dram iram w Hl) as (w1 & E1 & E2). rewrite (run_bind _ _ _ _ _ E1), (run_bind _ _ _ _ _ E2).
  rewrite !page_of by (done || unfold is_u64; lia).
  assert (Pd : page_aligned (dram - dram mod 0x1000)) by (apply page_start; lia).
  assert (Pi : page_aligned (iram - iram mod 0x1000)) by (apply page_start; lia).
  set (dp := dram - dram mod 0x1000) in *. set (ip := iram - iram mod 0x1000) in *.
  pose proof (both_mapped_user dp ip w Pd) as Wd. pose proof (both_mapped_iram dp ip w Pi) as Wi.
  replace (mem_copy (w_phys w) dram iram size) with (mem_copy (w_phys w) (dp + dram mod 0x1000) (ip + iram mod 0x1000) size)
    by (f_equal; unfold dp, ip; lia).
  replace (mem_copy (w_phys w) iram dram size) with (mem_copy (w_phys w) (ip + iram mod 0x1000) (dp + dram mod 0x1000) size)
    by (f_equal; unfold dp, ip; lia).
  destruct V8 as [-> | ->]; cbn [Z.eqb Pos.eqb].
  - destruct (copy_between _ _ dp (dram mod 0x1000) _ ip (iram mod 0x1000) size Wd Wi) as (mem & E3 & Hmem); [lia..|].
    rewrite (run_bind _ _ _ _ _ E3). exists (both_unmapped dp ip mem w). split; [done|].
    destruct (both_unmapped_ok dp ip mem w) as [U ->]. split; [done|exact Hmem].
  - destruct (copy_between _ _ ip (iram mod 0x1000) _ dp (dram mod 0x1000) size Wi Wd) as (mem & E3 & Hmem); [lia..|].
    rewrite (run_bind _ _ _ _ _ E3). exists (both_unmapped dp ip mem w). split; [done|].
    destruct (both_unmapped_ok dp ip mem w) as [U ->]. split; [done|exact Hmem].
Qed.

Lemma le_bytes_mod n v : le_bytes n (v mod 2 ^ (8 * Z.of_nat n)) = le_bytes n v.
Proof.
  revert v. induction n as [|n IH]; intros v; [done|]. cbn [le_bytes].
  replace (8 * Z.of_nat (S n)) with (8 + 8 * Z.of_nat n) by lia. rewrite Z.pow_add_r by lia.
  rewrite Z.rem_mul_r by lia. rewrite (Z.mul_comm (2 ^ 8)), Z.mod_add, Z.mod_mod, Z.div_add by lia.
  rewrite (Z.div_small (v mod 2 ^ 8)) by (apply Z.mod_pos_bound; lia). by rewrite Z.add_0_l, IH.
Qed.

(** Memory with the user window on the page of [pa]. *)
Definition user_mapped (pa : Z) (w : World) : World :=
  (set_userpage_lock true w) <| w_l3 ::= fun t => upd t (mmu_compute_index 3 AMS_USER_PAGE_SECURE_MONITOR_ADDR)
    ((pa - pa mod 0x1000) .| userpage_attributes .| MMU_PTE_BLOCK_AF .| MMU_PTE_TYPE_PAGE) |>.
Lemma user_mapped_run pa w : is_u64 pa -> pa < 2 ^ 48 -> w_ams w = mk_ams false false ->
  ams_map_userpage pa w = (Ret tt, user_mapped pa w) /\
  window (user_mapped pa w) AMS_USER_PAGE_SECURE_MONITOR_ADDR (pa - pa mod 0x1000).
Proof.
  intros Hpa Hb Hl. assert (Hp : page_aligned (pa - pa mod 0x1000)) by (apply page_start; unfold is_u64 in Hpa; lia). split.
  - unfold ams_map_userpage. rewrite page_of by done.
    by rewrite (run_bind _ _ _ _ _ (lock_free get_userpage_lock set_userpage_lock w ltac:(by unfold get_userpage_lock; rewrite Hl))).
  - intros off Ho. apply (translate_mapped _ _ _ userpage_attributes); [done..|]. apply upd_eq.
Qed.

(** The stores [ams_write_address] performs. *)
Definition write_valid (pa size : Z) : Prop :=
  0x80000000 <= pa < 0x80000000 + (6 <<. 30) /\ (size = 1 \/ size = 2 \/ size = 4 \/ size = 8) /\
  pa mod 0x1000 mod size = 0.
#[export] Instance write_valid_dec pa size : Decision (write_valid pa size).
Proof. apply _. Defined.

Definition el0_physical (w : World) (va : Z) : Z :=
  let par := w_par_el1 w va in if par .& 1 =? 1 then 0 else (par .& 0xFFFFFFF000) .| (va .& 0xFFF).

Lemma aligned_fits pa size : (size = 1 \/ size = 2 \/ size = 4 \/ size = 8) -> pa mod 0x1000 mod size = 0 ->
  size + pa mod 0x1000 <= 0x1000.
Proof.
  intros Hs Hm. pose proof (Z.mod_pos_bound pa 0x1000). pose proof (Z.div_mod (pa mod 0x1000) size).
  destruct Hs as [-> |[-> |[-> | ->]]]; lia.
Qed.

(** [ams_write_address] writes 1, 2, 4 or 8 bytes to the DRAM address an EL0
    address translates to, and nothing else: a translation that faults or leads
    outside DRAM, another size or a misaligned address is refused with 2 and no
    effect; otherwise the low bytes of X2 are stored there, and the window is
    unmapped and its lock released again. *)
Theorem ams_write_address_correct args w :
  let pa := el0_physical w (X args 1) in
  is_u64 pa -> w_ams w = mk_ams false false ->
  (~ write_valid pa (X args 3) -> ams_write_address args w = (Ret (2, args), w)) /\
  (write_valid pa (X args 3) ->
   exists w', ams_write_address args w = (Ret (0, args), w') /\ w_ams w' = mk_ams false false /\
     w_l3 w' (mmu_compute_index 3 AMS_USER_PAGE_SECURE_MONITOR_ADDR) = MMU_PTE_TYPE_FAULT /\
     w_phys w' = phys_write_bytes (w_phys w) pa (le_bytes (Z.to_nat (X args 3)) (X args 2))).
Proof.
  intros pa Hpa Hl. unfold ams_write_address. cbv zeta.
  assert (Et : get_physical_address_el0 (X args 1) w = (Ret pa, w)) by done.
  rewrite (run_bind _ _ _ _ _ Et). rewrite user_addr_valid, land_page by done. clear Et.
  pose proof (Z.mod_pos_bound pa 0x1000). set (size := X args 3). split.
  - intros Hn. unfold write_valid in Hn. case_bool_decide as Hd; cbn [negb]; [|done].
    destruct (negb _) eqn:Es; [done|]. destruct (_ >? 0x1000); [done|].
    destruct (Z.eqb_spec (pa mod 0x1000 mod size) 0) as [Hm|]; [|done]. exfalso. apply Hn. split; [done|]. split; [|done].
    apply negb_false_iff in Es. rewrite !orb_true_iff, !Z.eqb_eq in Es. tauto.
  - intros (Hd & Hs & Hm). pose proof (aligned_fits pa size Hs Hm) as Hf. rewrite bool_decide_true by done. cbn [negb].
    replace (negb _) with false by (by destruct Hs as [-> |[-> |[-> | ->]]]). zdec.
    change (6 <<. 30) with 0x180000000 in Hd.
    destruct (user_mapped_run pa w Hpa ltac:(lia) Hl) as [E1 Hw]. set (w1 := user_mapped pa w) in *.
    rewrite (run_bind _ _ _ _ _ E1).
    assert (E2 : forall bs, va_write_bytes (AMS_USER_PAGE_SECURE_MONITOR_ADDR + pa mod 0x1000) bs w1 =
      (Ret tt, w1 <| w_phys ::= fun m => phys_write_bytes m pa bs |>)).
    { intros bs. rewrite (window_write w1 _ _ _ bs Hw) by lia. by rewrite Z.sub_add. }
    pose proof (le_bytes_mod (Z.to_nat size) (X args 2)) as Hmod.
    assert (E3 : (if size =? 1 then va_write_bytes (AMS_USER_PAGE_SECURE_MONITOR_ADDR + pa mod 0x1000) (le_bytes 1 (u8 (X args 2)))
       else if size =? 2 then va_write_bytes (AMS_USER_PAGE_SECURE_MONITOR_ADDR + pa mod 0x1000) (le_bytes 2 (u16 (X args 2)))
       else if size =? 4 then va_write_bytes (AMS_USER_PAGE_SECURE_MONITOR_ADDR + pa mod 0x1000) (le_bytes 4 (u32 (X args 2)))
       else if size =? 8 then va_write_bytes (AMS_USER_PAGE_SECURE_MONITOR_ADDR + pa mod 0x1000) (le_bytes 8 (X args 2))
       else generic_panic) w1 = (Ret tt, w1 <| w_phys ::= fun m => phys_write_bytes m pa (le_bytes (Z.to_nat size) (X args 2)) |>)).
    { rewrite <- Hmod. destruct Hs as [-> |[-> |[-> | ->]]]; [apply E2..|]. rewrite Hmod. apply E2. }
    rewrite (run_bind _ _ _ _ _ E3). eexists. split; [reflexivity|]. destruct w. cbn in Hl. subst.
    split; [done|]. split; [apply upd_eq|done].
Qed.

(** The registers with which [ams_get_emummc_config] answers, and the page. *)
Definition emummc_answer (cfg : exo_emummc_config_t) : smc_args_t :=
  copy_to_X (zeros 8) 1
    (base_cfg_bytes cfg ++ if emummc_type cfg =? EMUMMC_TYPE_PARTITION then slice (emummc_union cfg) 0 8 else []).
Definition emummc_paths (cfg : exo_emummc_config_t) (mem : Z -> Z) (pa : Z) : Z -> Z :=
  let mem := phys_write_bytes mem (pa + 0x80) (emu_dir_path cfg) in
  if emummc_type cfg =? EMUMMC_TYPE_FILES then phys_write_bytes mem pa (emummc_union cfg) else mem.

Lemma ams_get_emummc_config_run args w :
  let pa := X args 2 in let cfg := emummc_cfg (g_exosphere_cfg (w_exo w)) in
  X args 1 = EMUMMC_MMC_NAND -> 0x80000000 <= pa < 0x80000000 + (6 <<. 30) -> pa mod 0x1000 <= 0xF00 ->
  g_has_loaded_config (w_exo w) = true -> w_ams w = mk_ams false false ->
  In (emummc_type cfg) [EMUMMC_TYPE_NONE; EMUMMC_TYPE_PARTITION; EMUMMC_TYPE_FILES] ->
  exists w', ams_get_emummc_config args w = (Ret (0, emummc_answer cfg), w') /\
    w_ams w' = mk_ams false false /\ w_phys w' = emummc_paths cfg (w_phys w) pa.
Proof.
  intros pa cfg H1 Hd Ho Hc Hl Ht. change (6 <<. 30) with 0x180000000 in Hd. assert (Hpa : is_u64 pa) by (unfold is_u64; lia).
  unfold ams_get_emummc_config. cbv zeta. fold pa. rewrite H1.
  assert (Ec : exosphere_get_emummc_config w = (Ret cfg, w)).
  { unfold exosphere_get_emummc_config, require_loaded_config, mbind, M_bind, gets. by rewrite Hc. }
  rewrite (run_bind _ _ _ _ _ Ec). rewrite user_addr_valid, land_page by done. rewrite bool_decide_true by (change (6 <<. 30) with 0x180000000; lia).
  change (negb (u32 EMUMMC_MMC_NAND =? EMUMMC_MMC_NAND)) with false. cbv iota. pose proof (Z.mod_pos_bound pa 0x1000). zdec.
  destruct (user_mapped_run pa w Hpa ltac:(lia) Hl) as [E1 Hw]. rewrite (run_bind _ _ _ _ _ E1).
  replace (AMS_USER_PAGE_SECURE_MONITOR_ADDR + pa mod 0x1000 + 0x80) with (AMS_USER_PAGE_SECURE_MONITOR_ADDR + (pa mod 0x1000 + 0x80)) by lia.
  rewrite (run_bind _ _ _ _ _ (window_write _ _ _ (pa mod 0x1000 + 0x80) (emu_dir_path cfg) Hw ltac:(lia))).
  set (w2 := (user_mapped pa w) <| w_phys ::= _ |>).
  assert (Hw2 : window w2 AMS_USER_PAGE_SECURE_MONITOR_ADDR (pa - pa mod 0x1000)) by exact Hw.
  assert (P2 : w_phys w2 = phys_write_bytes (w_phys w) (pa + 0x80) (emu_dir_path cfg)).
  { subst w2. cbn. f_equal. lia. }
  unfold emummc_answer, emummc_paths. rewrite <- P2.
  assert (R : forall (r : smc_args_t) w3, w_ams w3 = w_ams w2 -> exists w', (ams_unmap_userpage ;; mret (0, r)) w3 = (Ret (0, r), w') /\
    w_ams w' = mk_ams false false /\ w_phys w' = w_phys w3).
  { intros r w3 H3. eexists. split; [reflexivity|]. split; [|done]. cbn. rewrite H3. subst w2. cbn. by rewrite Hl. }
  assert (emummc_type cfg = 0 \/ emummc_type cfg = 1 \/ emummc_type cfg = 2) as [->|[->| ->]]
    by (destruct Ht as [<-|[<-|[<-|[]]]]; auto).
  - rewrite app_nil_r. by apply R.
  - by apply R.
  - rewrite app_nil_r. cbn [Z.eqb Pos.eqb EMUMMC_TYPE_NONE EMUMMC_TYPE_PARTITION EMUMMC_TYPE_FILES].
    rewrite (run_bind _ _ _ _ _ (window_write w2 _ _ (pa mod 0x1000) (emummc_union cfg) Hw2 ltac:(lia))), Z.sub_add.
    by apply R.
Qed.
End Ams.

(** ** Concrete instances *)

Import Toy.

Lemma upage_init_one_page_witness :
  exists w', upage_init 0x80001000 (toy_world 11) = (Ret (page_ref 0x80001000, true), w') /\
    window w' USER_PAGE_SECURE_MONITOR_ADDR 0x80001000.
Proof.
  destruct (proj1 (upage_init_one_page 0x80001000 (toy_world 11) ltac:(by vm_compute)) eq_refl ltac:(by vm_compute))
    as (w' & E & H & _). by exists w'.
Defined.

Lemma user_page_copy_roundtrip_witness :
  exists w1 w2, secure_copy_to_user (page_ref 0x80001000) 0x80001FFC [1; 2; 3; 4] 4 w1 = (Ret true, w2) /\
    user_copy_to_secure (page_ref 0x80001000) 0x80001FFC 4 w2 = (Ret (Some [1; 2; 3; 4]), w2) /\
    in_page 0x80001000 0x80001FFD 4 = false.
Proof.
  destruct (user_page_copy_roundtrip 0x80001000 0x80001FFC 4 [1; 2; 3; 4] (toy_world 11))
    as (w1 & _ & H & _); [by vm_compute..|lia|done|].
  destruct (H eq_refl) as (w2 & E1 & E2 & _). by exists w1, w2.
Defined.

(** 16 bytes from IRAM to DRAM. *)
Definition toy_copy_args : smc_args_t := [0xF0000201; 0x80002010; 0x40010020; 0x10; 0; 0; 0; 0].
Lemma ams_iram_copy_correct_witness :
  exists w', ams_iram_copy toy_copy_args (toy_world 11) = (Ret (0, toy_copy_args), w') /\
    ams_unmapped (toy_world 11) w' /\
    forall a, w_phys w' a = mem_copy (w_phys (toy_world 11)) 0x80002010 0x40010020 0x10 a.
Proof.
  apply (ams_iram_copy_correct toy_copy_args (toy_world 11)); try by vm_compute.
  unfold iram_copy_valid. vm_compute. repeat split; (done || by left).
Defined.

Definition toy_write_args : smc_args_t := [0xF0000003; 0x80003008; 0x1122334455667788; 4; 0; 0; 0; 0].
Lemma ams_write_address_correct_witness :
  exists w', ams_write_address toy_write_args (toy_world 11) = (Ret (0, toy_write_args), w') /\
    w_phys w' = phys_write_bytes (w_phys (toy_world 11)) 0x80003008 [0x88; 0x77; 0x66; 0x55].
Proof.
  destruct (proj2 (ams_write_address_correct toy_write_args (toy_world 11) ltac:(by vm_compute) eq_refl))
    as (w' & E & _ & _ & H); [|by exists w'].
  split; [by vm_compute|]. split; [right; right; by left|by vm_compute].
Defined.
