(* ===== verification/Package2Props.v ===== *)
(** Package2 (package2.c): validated metadata describes disjoint sections whose
    sizes add up without wrap-around; a relocation window is always found; the
    sections of a plaintext package2 land where the header says. *)
From S2P Require Import Prelude State Utils Se Engine Pages Config Keys Power SmcUser SmcApi Package2 Platform SeProps.
Import SE BootConfig Package2.

(** ** Validated metadata *)

(** The result of [validate_package2_metadata], as a predicate: the section
    hashes are computed but not compared in this configuration. *)
Definition metadata_ok (md : list Z) : bool :=
  header_checks md && forallb (section_checks md) (range 3) && existsb (section_has_entrypoint md) (range 3)
  && (meta_version_max md >=? PACKAGE2_MINVER_THEORETICAL) && (meta_version_min md <? PACKAGE2_MAXVER_900_CURRENT).

Section Validate.
Context {soc : SoC} {HD : EngineDone soc}.

Lemma sha256_total src n w : exists d h, se_calculate_sha256 src n w = (Ret d, w <| w_se := h |>).
Proof.
  unfold se_calculate_sha256. rewrite !run_se_write. rewrite (run_bind _ _ _ _ _ (trigger_blocking_run _ _ _ _)).
  eexists _, _. reflexivity.
Qed.

Lemma section_loop_run n md s found off w :
  exists h, section_loop n md s found off w =
    (Ret (if forallb (section_checks md) (seqZ s (Z.of_nat n))
          then Some (found || existsb (section_has_entrypoint md) (seqZ s (Z.of_nat n))) else None), w <| w_se := h |>).
Proof.
  revert s found off w. induction n as [|n IH]; intros s found off w.
  { exists (w_se w). cbn. rewrite orb_false_r. by destruct w. }
  cbn [section_loop]. rewrite seqZ_cons, Nat2Z.inj_succ, Z.pred_succ by lia. cbn [forallb existsb].
  destruct (section_checks md s); cbn [negb andb]; [|by exists (w_se w); destruct w].
  rewrite orb_assoc, <- Z.add_1_r. destruct (negb (meta_section_size md s =? 0)); [|apply IH].
  unfold phys_load. rewrite run_gets.
  destruct (sha256_total (phys_read_bytes (w_phys w) (NX_BOOTLOADER_PACKAGE2_LOAD_ADDRESS + package2_header_size + off)
    (Z.to_nat (meta_section_size md s))) (meta_section_size md s) w) as (d & h & E).
  rewrite (run_bind _ _ _ _ _ E). change (negb EXOSPHERE_LOOSEN_PACKAGE2_RESTRICTIONS_FOR_DEBUG) with false. cbn [andb].
  destruct (IH (s + 1) (found || section_has_entrypoint md s) (off + meta_section_size md s) (w <| w_se := h |>)) as (h' & E').
  by exists h'.
Qed.

Lemma validate_run md w :
  exists h, validate_package2_metadata md w = (Ret (metadata_ok md), w <| w_se := h |>).
Proof.
  unfold validate_package2_metadata, metadata_ok. destruct (header_checks md); cbn [negb andb]; [|by exists (w_se w); destruct w].
  destruct (section_loop_run 3 md 0 false 0 w) as (h & E). change (Z.to_nat PACKAGE2_SECTION_MAX) with 3%nat.
  rewrite (run_bind _ _ _ _ _ E). exists h. change (seqZ 0 (Z.of_nat 3)) with (range 3).
  destruct (forallb _ _); [|done]. cbn [orb andb]. by destruct (existsb _ _).
Qed.
End Validate.

(** What validated metadata guarantees. *)
Record sections_fit (md : list Z) : Prop := {
  sf_sum : meta_section_size md 0 + meta_section_size md 1 + meta_section_size md 2 + package2_header_size
             = get_package2_size md;
  sf_max : package2_header_size < get_package2_size md <= PACKAGE2_SIZE_MAX;
  sf_range i : 0 <= i < 3 -> 0 <= meta_section_offset md i /\ 0 <= meta_section_size md i /\
                 meta_section_offset md i + meta_section_size md i < 2 ^ 32;
  sf_disjoint i j : 0 <= i < 3 -> 0 <= j < 3 -> i <> j ->
    meta_section_size md i = 0 \/ meta_section_size md j = 0 \/
    meta_section_offset md i + meta_section_size md i <= meta_section_offset md j \/
    meta_section_offset md j + meta_section_size md j <= meta_section_offset md i;
  sf_aligned i : 0 <= i < 3 -> meta_section_size md i mod 4 = 0;
  sf_entry : meta_entrypoint md mod 4 = 0 /\ exists i, 0 <= i < 3 /\
    meta_section_offset md i <= meta_entrypoint md < meta_section_offset md i + meta_section_size md i }.

Lemma read32le_u32 md off : is_bytes md -> is_u32 (read32le md off).
Proof.
  intros Hb. unfold read32le. pose proof (le_value_bound (slice md off 4) (slice_is_bytes _ _ _ Hb)) as H.
  assert (Hl : (length (slice md off 4) <= 4)%nat) by (unfold slice; rewrite length_take; lia).
  pose proof (Z.pow_le_mono_r 2 (8 * Z.of_nat (length (slice md off 4))) 32). unfold is_u32. lia.
Qed.

Lemma overlaps_false a ae b be : a < ae -> b < be -> overlaps a ae b be = false -> ae <= b \/ be <= a.
Proof.
  intros Ha Hb. unfold overlaps. destruct (Z.leb_spec a b), (Z.ltb_spec b ae), (Z.leb_spec b a), (Z.ltb_spec a be); cbn;
    intros; first [discriminate | lia].
Qed.
Lemma land_3_mod a : a .& 3 = a mod 4.
Proof. change 3 with (Z.ones 2). by rewrite Z.land_ones by lia. Qed.

(** The facts the three checks of one section give. *)
Lemma section_checks_range md s :
  is_bytes md -> section_checks md s = true ->
  meta_section_size md s mod 4 = 0 /\ 0 <= meta_section_offset md s /\ 0 <= meta_section_size md s /\
  meta_section_offset md s + meta_section_size md s < 2 ^ 32 /\
  section_end md s = meta_section_offset md s + meta_section_size md s.
Proof.
  intros Hb H. unfold section_checks in H. apply andb_true_iff in H as [[H1 H2]%andb_true_iff _].
  apply Z.eqb_eq in H1. rewrite land_3_mod in H1. apply negb_true_iff in H2. unfold check_32bit_additive_overflow in H2.
  apply negb_false_iff, Z.eqb_eq in H2.
  pose proof (read32le_u32 md (0x60 + 4 * s) Hb) as Hs. pose proof (read32le_u32 md (0x70 + 4 * s) Hb) as Ho.
  pose proof (u32_range (meta_section_offset md s + meta_section_size md s)) as Hu.
  unfold section_end. rewrite H2 in *. unfold is_u32 in *. fold (meta_section_size md s) in Hs. fold (meta_section_offset md s) in Ho. lia.
Qed.

Lemma section_checks_later md s l :
  section_checks md s = true -> l ∈ seqZ (s + 1) (2 - s) ->
  meta_section_size md s = 0 \/ meta_section_size md l = 0 \/
  overlaps (meta_section_offset md s) (section_end md s) (meta_section_offset md l) (section_end md l) = false.
Proof.
  intros H Hl. unfold section_checks in H. apply andb_true_iff in H as [_ H]. apply negb_true_iff in H.
  unfold overlaps_later in H. change PACKAGE2_SECTION_MAX with 3 in H. replace (3 - (s + 1)) with (2 - s) in H by lia.
  destruct (Z.eqb_spec (meta_section_size md s) 0); [by left|]. cbn [negb andb] in H. right.
  destruct (Z.eqb_spec (meta_section_size md l) 0) as [|Hn]; [by left|right].
  destruct (overlaps _ _ _ _) eqn:E; [|done]. rewrite <- not_true_iff_false in H. exfalso. apply H, existsb_exists.
  exists l. split; [by apply list_elem_of_In|]. rewrite (proj2 (Z.eqb_neq _ _) Hn), E. done.
Qed.

Lemma sections_disjoint md s l :
  is_bytes md -> section_checks md s = true -> section_checks md l = true -> 0 <= s < l -> l < 3 ->
  meta_section_size md s = 0 \/ meta_section_size md l = 0 \/
  meta_section_offset md s + meta_section_size md s <= meta_section_offset md l \/
  meta_section_offset md l + meta_section_size md l <= meta_section_offset md s.
Proof.
  intros Hb Hs Hl H0 H3. destruct (section_checks_range md s Hb Hs) as (_ & _ & Ps & _ & Es).
  destruct (section_checks_range md l Hb Hl) as (_ & _ & Pl & _ & El).
  assert (Hin : l ∈ seqZ (s + 1) (2 - s)) by (apply elem_of_seqZ; lia).
  destruct (section_checks_later md s l Hs Hin) as [H|[H|H]]; [by left|by right; left|].
  destruct (decide (meta_section_size md s = 0)); [by left|]. destruct (decide (meta_section_size md l = 0)); [by right; left|].
  rewrite Es, El in H. apply overlaps_false in H; [|lia|lia]. right. right. lia.
Qed.

Lemma metadata_ok_fits md : is_bytes md -> metadata_ok md = true -> sections_fit md.
Proof.
  intros Hb H. unfold metadata_ok in H. rewrite !andb_true_iff in H. destruct H as ((((Hh & Hc) & He) & _) & _).
  rewrite forallb_forall in Hc. assert (Hck : forall i, 0 <= i < 3 -> section_checks md i = true).
  { intros i Hi. apply Hc, list_elem_of_In, elem_of_range. done. }
  assert (Hr := fun i Hi => section_checks_range md i Hb (Hck i Hi)).
  assert (Hd : forall s l, 0 <= s < l -> l < 3 -> meta_section_size md s = 0 \/ meta_section_size md l = 0 \/
    meta_section_offset md s + meta_section_size md s <= meta_section_offset md l \/
    meta_section_offset md l + meta_section_size md l <= meta_section_offset md s).
  { intros s l H0 H3. apply sections_disjoint; try done; apply Hck; lia. }
  unfold header_checks in Hh. rewrite !andb_true_iff in Hh. destruct Hh as ((((_ & H1) & _) & H2) & H3).
  apply negb_true_iff, orb_false_iff in H1 as [H1a%Z.leb_gt H1b]. rewrite Z.gtb_ltb in H1b. apply Z.ltb_ge in H1b.
  apply Z.eqb_eq in H2, H3. rewrite land_3_mod in H2.
  destruct (Hr 0) as (_ & O0 & S0 & R0 & _); [lia|]. destruct (Hr 1) as (_ & O1 & S1 & R1 & _); [lia|].
  destruct (Hr 2) as (_ & O2 & S2 & R2 & _); [lia|].
  pose proof (Hd 0 1 ltac:(lia) ltac:(lia)) as D01. pose proof (Hd 0 2 ltac:(lia) ltac:(lia)) as D02.
  pose proof (Hd 1 2 ltac:(lia) ltac:(lia)) as D12. rewrite u32_id in H3 by (unfold is_u32; lia).
  split; [done|lia|..].
  - intros i Hi. destruct (Hr i Hi) as (_ & A & B & C & _). done.
  - intros i j Hi Hj Hn. assert (i < j \/ j < i) as [L|L] by lia; [apply Hd; lia|].
    pose proof (Hd j i ltac:(lia) ltac:(lia)). tauto.
  - intros i Hi. apply (Hr i Hi).
  - split; [done|]. apply existsb_exists in He as (i & Hi%list_elem_of_In%elem_of_range & E).
    exists i. split; [done|]. unfold section_has_entrypoint in E. apply andb_true_iff in E as [E1%Z.leb_le E2%Z.ltb_lt].
    destruct (Hr i Hi) as (_ & _ & _ & _ & E3). lia.
Qed.

(** ** The relocation window *)

Definition window_start (k : Z) : Z := DRAM_BASE_PHYSICAL + k * PACKAGE2_SIZE_MAX.
Definition window_free (md : list Z) (k : Z) : bool :=
  negb (any_section_overlaps md (window_start k) (window_start k + PACKAGE2_SIZE_MAX)).

Lemma find_safe_carveout_run n md j k :
  0 <= j -> j <= k < j + Z.of_nat n -> window_free md k = true ->
  exists k', j <= k' <= k /\ window_free md k' = true /\ find_safe_carveout n md (window_start j) = Some (window_start k').
Proof.
  revert j. induction n as [|n IH]; intros j Hj Hk Hf; [lia|]. cbn [find_safe_carveout].
  destruct (any_section_overlaps _ _ _) eqn:E.
  - assert (k <> j) by (intros ->; unfold window_free in Hf; by rewrite E in Hf).
    destruct (IH (j + 1)) as (k' & H1 & H2 & H3); [lia|lia|done|]. exists k'. split; [lia|]. split; [done|].
    rewrite <- H3. f_equal. unfold window_start. lia.
  - exists j. split; [lia|]. split; [unfold window_free; by rewrite E|done].
Qed.

(** A section smaller than a window meets at most two of the windows. *)
Lemma section_meets_two off size k :
  0 <= off -> 0 <= size <= PACKAGE2_SIZE_MAX ->
  overlaps (DRAM_BASE_PHYSICAL + off) (DRAM_BASE_PHYSICAL + off + size) (window_start k) (window_start k + PACKAGE2_SIZE_MAX) = true ->
  k = off / PACKAGE2_SIZE_MAX \/ k = off / PACKAGE2_SIZE_MAX + 1.
Proof.
  intros Ho Hs H. unfold window_start in H. pose proof (Z.div_mod off PACKAGE2_SIZE_MAX).
  pose proof (Z.mod_pos_bound off PACKAGE2_SIZE_MAX). unfold overlaps, PACKAGE2_SIZE_MAX in *.
  set (q := off / 0x7FC000) in *. set (r := off mod 0x7FC000) in *.
  destruct (Z.leb_spec (DRAM_BASE_PHYSICAL + off) (DRAM_BASE_PHYSICAL + k * 0x7FC000)),
    (Z.ltb_spec (DRAM_BASE_PHYSICAL + k * 0x7FC000) (DRAM_BASE_PHYSICAL + off + size)),
    (Z.leb_spec (DRAM_BASE_PHYSICAL + k * 0x7FC000) (DRAM_BASE_PHYSICAL + off)),
    (Z.ltb_spec (DRAM_BASE_PHYSICAL + off) (DRAM_BASE_PHYSICAL + k * 0x7FC000 + 0x7FC000)); cbn in H; try done; lia.
Qed.

Lemma sections_size_max md i : sections_fit md -> 0 <= i < 3 -> 0 <= meta_section_size md i <= PACKAGE2_SIZE_MAX - package2_header_size.
Proof.
  intros [H1 H2 H3 _ _ _] Hi. destruct (H3 0) as (_ & S0 & _); [lia|]. destruct (H3 1) as (_ & S1 & _); [lia|].
  destruct (H3 2) as (_ & S2 & _); [lia|]. assert (i = 0 \/ i = 1 \/ i = 2) as [-> |[-> | ->]] by lia; lia.
Qed.

(** Three sections block at most six of seven windows. *)
Lemma some_window_free md : sections_fit md -> exists k, 0 <= k < 7 /\ window_free md k = true.
Proof.
  intros Hf. set (q i := meta_section_offset md i / PACKAGE2_SIZE_MAX).
  set (bad := [q 0; q 0 + 1; q 1; q 1 + 1; q 2; q 2 + 1]).
  destruct (decide (Exists (fun k => window_free md k = true) (range 7))) as [He|Hn].
  { apply Exists_exists in He as (k & Hk%elem_of_range & H). by exists k. }
  exfalso. assert (Hin : incl (range 7) bad).
  { intros k Hk. apply list_elem_of_In in Hk. rewrite Exists_exists in Hn.
    assert (Hb : any_section_overlaps md (window_start k) (window_start k + PACKAGE2_SIZE_MAX) = true).
    { apply not_false_iff_true. intros E. apply Hn. exists k. split; [done|]. unfold window_free. by rewrite E. }
    apply existsb_exists in Hb as (i & Hi%list_elem_of_In%elem_of_range & Ho). change PACKAGE2_SECTION_MAX with 3 in Hi.
    apply section_meets_two in Ho; [|apply (sf_range md Hf i Hi)|pose proof (sections_size_max md i Hf Hi); unfold package2_header_size in *; lia].
    fold (q i) in Ho. assert (i = 0 \/ i = 1 \/ i = 2) as [-> |[-> | ->]] by lia;
      destruct Ho as [-> | ->]; cbn; tauto. }
  apply NoDup_incl_length in Hin.
  { change (length (range 7)) with 7%nat in Hin. change (length bad) with 6%nat in Hin. lia. }
  apply NoDup_ListNoDup. apply NoDup_seqZ.
Qed.

(** ** Loading a plaintext package2 *)

Definition section_start (md : list Z) (i : Z) : Z := DRAM_BASE_PHYSICAL + meta_section_offset md i.
Definition in_section (md : list Z) (i a : Z) : Prop := section_start md i <= a < section_start md i + meta_section_size md i.

Lemma mem_copy_in m dst src n a : dst <= a < dst + n -> mem_copy m dst src n a = m (src + (a - dst)).
Proof. intros H. unfold mem_copy. zdec. done. Qed.
Lemma mem_copy_out m dst src n a : ~ (dst <= a < dst + n) -> mem_copy m dst src n a = m a.
Proof. intros H. unfold mem_copy. destruct (Z.leb_spec dst a), (Z.ltb_spec a (dst + n)); (lia || done). Qed.
Lemma mem_set_out m dst v n a : ~ (dst <= a < dst + n) -> mem_set m dst v n a = m a.
Proof. intros H. unfold mem_set. destruct (Z.leb_spec dst a), (Z.ltb_spec a (dst + n)); (lia || done). Qed.

(** A window no section overlaps contains no byte of a section. *)
Lemma free_window_outside md lo i a :
  any_section_overlaps md lo (lo + PACKAGE2_SIZE_MAX) = false -> 0 <= i < 3 ->
  lo <= a < lo + PACKAGE2_SIZE_MAX -> ~ in_section md i a.
Proof.
  intros Hf Hi Ha [H1 H2]. unfold any_section_overlaps in Hf. rewrite <- not_true_iff_false in Hf. apply Hf, existsb_exists.
  exists i. split; [by apply list_elem_of_In, elem_of_range|]. cbv zeta. fold (section_start md i). unfold overlaps.
  destruct (Z.leb_spec (section_start md i) lo), (Z.ltb_spec lo (section_start md i + meta_section_size md i)),
    (Z.leb_spec lo (section_start md i)), (Z.ltb_spec (section_start md i) (lo + PACKAGE2_SIZE_MAX)); cbn; (done || lia).
Qed.

Section Load.
Context {soc : SoC}.

Definition is_plaintext (w : World) : bool :=
  negb (byte_at (signed_config (loaded_bootconfig (w_bc w))) 8 .& 1 =? 0).
Lemma plaintext_run w : bootconfig_is_package2_plaintext w = (Ret (is_plaintext w), w).
Proof. reflexivity. Qed.

(** The image [load_buf] points to holds the package2 the bootloader left. *)
Definition image_at (md : list Z) (w w1 : World) (base : Z) : Prop :=
  any_section_overlaps md base (base + PACKAGE2_SIZE_MAX) = false /\
  (forall k, 0 <= k < PACKAGE2_SIZE_MAX -> w_phys w1 (base + k) = w_phys w (NX_BOOTLOADER_PACKAGE2_LOAD_ADDRESS + k)) /\
  is_plaintext w1 = is_plaintext w /\ w_cpu w1 = w_cpu w.

Definition relocate (md : list Z) : M Z :=
  if any_section_overlaps md NX_BOOTLOADER_PACKAGE2_LOAD_ADDRESS (NX_BOOTLOADER_PACKAGE2_LOAD_ADDRESS + PACKAGE2_SIZE_MAX)
  then match find_safe_carveout 8 md DRAM_BASE_PHYSICAL with
       | None => generic_panic
       | Some base =>
           phys_memcpy base NX_BOOTLOADER_PACKAGE2_LOAD_ADDRESS PACKAGE2_SIZE_MAX ;;
           phys_memset NX_BOOTLOADER_PACKAGE2_LOAD_ADDRESS 0 PACKAGE2_SIZE_MAX ;;
           mret base
       end
  else mret NX_BOOTLOADER_PACKAGE2_LOAD_ADDRESS.

Lemma relocate_run md w : sections_fit md ->
  exists base w1, relocate md w = (Ret base, w1) /\ image_at md w w1 base.
Proof.
  intros Hf. unfold relocate. destruct (any_section_overlaps _ _ _) eqn:E; [|by eexists _, w].
  destruct (some_window_free md Hf) as (k & Hk & Hfree).
  destruct (find_safe_carveout_run 8 md 0 k) as (k' & Hk' & Hf' & Ec); [lia|lia|done|].
  change (window_start 0) with DRAM_BASE_PHYSICAL in Ec. rewrite Ec. unfold phys_memcpy, phys_memset. rewrite !run_modify.
  eexists _, _. split; [reflexivity|]. split; [by apply negb_true_iff in Hf'|]. split; [|done].
  intros j Hj. cbn. unfold window_start, DRAM_BASE_PHYSICAL, NX_BOOTLOADER_PACKAGE2_LOAD_ADDRESS, PACKAGE2_SIZE_MAX in *.
  rewrite mem_set_out, mem_copy_in by lia. f_equal. lia.
Qed.

Lemma load_one_run md rev base cur i w : is_plaintext w = true -> 0 <= meta_section_size md i ->
  exists w', load_one_section md rev base cur i w = (Ret (cur + meta_section_size md i), w') /\
    is_plaintext w' = true /\ w_cpu w' = w_cpu w /\
    forall a, w_phys w' a = mem_copy (w_phys w) (section_start md i) (base + package2_header_size + cur) (meta_section_size md i) a.
Proof.
  intros Hp Hs. unfold load_one_section. fold (section_start md i). cbv zeta.
  destruct (Z.eqb_spec (meta_section_size md i) 0) as [->|Hn].
  - exists w. rewrite Z.add_0_r. split; [done|]. split; [done|]. split; [done|]. intros a. rewrite mem_copy_out by lia. done.
  - rewrite (run_bind _ _ _ _ _ (plaintext_run w)), Hp. by eexists.
Qed.

(** Where a section's bytes start in the image. *)
Definition section_source (md : list Z) (i : Z) : Z := sum_Z (map (meta_section_size md) (range i)).

Lemma section_source_at md : section_source md 0 = 0 /\ section_source md 1 = 0 + meta_section_size md 0 /\
  section_source md 2 = 0 + meta_section_size md 0 + meta_section_size md 1.
Proof.
  unfold section_source, sum_Z. change (range 0) with (@nil Z). change (range 1) with [0]. change (range 2) with [0; 1].
  cbn [map foldr]. lia.
Qed.

Lemma sections_apart md i j a : sections_fit md -> 0 <= i < 3 -> 0 <= j < 3 -> i <> j -> in_section md i a -> ~ in_section md j a.
Proof.
  intros Hf Hi Hj Hn [H1 H2] [H3 H4]. destruct (sf_disjoint md Hf i j Hi Hj Hn) as [H|[H|[H|H]]]; unfold section_start in *; lia.
Qed.

Lemma section_source_bound md i : sections_fit md -> 0 <= i < 3 ->
  0 <= section_source md i /\ package2_header_size + section_source md i + meta_section_size md i <= PACKAGE2_SIZE_MAX.
Proof.
  intros Hf Hi. destruct Hf as [H1 H2 H3 _ _ _]. destruct (H3 0) as (_ & S0 & _); [lia|]. destruct (H3 1) as (_ & S1 & _); [lia|].
  destruct (H3 2) as (_ & S2 & _); [lia|]. destruct (section_source_at md) as (A0 & A1 & A2).
  assert (i = 0 \/ i = 1 \/ i = 2) as [-> |[-> | ->]] by lia; lia.
Qed.

(** The three copies, as memory. *)
Lemma copies_correct md base m m1 m2 m3 i a :
  sections_fit md -> any_section_overlaps md base (base + PACKAGE2_SIZE_MAX) = false ->
  (forall a, m1 a = mem_copy m (section_start md 0) (base + package2_header_size + section_source md 0) (meta_section_size md 0) a) ->
  (forall a, m2 a = mem_copy m1 (section_start md 1) (base + package2_header_size + section_source md 1) (meta_section_size md 1) a) ->
  (forall a, m3 a = mem_copy m2 (section_start md 2) (base + package2_header_size + section_source md 2) (meta_section_size md 2) a) ->
  0 <= i < 3 -> in_section md i a ->
  m3 a = m (base + (package2_header_size + section_source md i + (a - section_start md i))).
Proof.
  intros Hf Hw E1 E2 E3 Hi Ha.
  assert (Hout : forall j k, 0 <= j < 3 -> 0 <= k < PACKAGE2_SIZE_MAX -> ~ in_section md j (base + k)).
  { intros j k Hj Hk. apply (free_window_outside md base); [done|done|lia]. }
  destruct (section_source_bound md i Hf Hi) as [B0 B1]. pose proof Ha as [Ha1 Ha2]. unfold package2_header_size in *.
  assert (Hk : 0 <= 0x200 + section_source md i + (a - section_start md i) < PACKAGE2_SIZE_MAX) by lia.
  replace (base + (0x200 + section_source md i + (a - section_start md i)))
    with (base + 0x200 + section_source md i + (a - section_start md i)) in * by lia.
  assert (Hs : forall j, 0 <= j < 3 -> ~ in_section md j (base + 0x200 + section_source md i + (a - section_start md i))).
  { intros j Hj. replace (base + 0x200 + _ + _) with (base + (0x200 + section_source md i + (a - section_start md i))) by lia.
    by apply Hout. }
  assert (i = 0 \/ i = 1 \/ i = 2) as [-> |[-> | ->]] by lia.
  - rewrite E3, mem_copy_out by (apply (sections_apart md 0 2); done).
    rewrite E2, mem_copy_out by (apply (sections_apart md 0 1); done). by rewrite E1, mem_copy_in.
  - rewrite E3, mem_copy_out by (apply (sections_apart md 1 2); done). rewrite E2, mem_copy_in by done.
    by rewrite E1, mem_copy_out by (by apply (Hs 0)).
  - rewrite E3, mem_copy_in by done. rewrite E2, mem_copy_out by (by apply (Hs 1)).
    by rewrite E1, mem_copy_out by (by apply (Hs 0)).
Qed.

Lemma load_sections_run md rev w :
  sections_fit md -> is_plaintext w = true ->
  exists w', load_package2_sections md rev w = (Ret tt, w') /\ w_cpu w' = w_cpu w /\
    forall i a, 0 <= i < 3 -> in_section md i a ->
      w_phys w' a = w_phys w (NX_BOOTLOADER_PACKAGE2_LOAD_ADDRESS + (package2_header_size + section_source md i + (a - section_start md i))).
Proof.
  intros Hf Hp. unfold load_package2_sections. fold (relocate md).
  destruct (relocate_run md w Hf) as (base & w1 & E1 & Hfree & Himg & Hpl & C1). rewrite (run_bind _ _ _ _ _ E1).
  change (range PACKAGE2_SECTION_MAX) with [0; 1; 2]. cbn [fold_m].
  destruct (load_one_run md rev base 0 0 w1) as (w2 & E2 & P2 & C2 & M2); [congruence|apply (sf_range md Hf); lia|].
  destruct (load_one_run md rev base (0 + meta_section_size md 0) 1 w2) as (w3 & E3 & P3 & C3 & M3); [done|apply (sf_range md Hf); lia|].
  destruct (load_one_run md rev base (0 + meta_section_size md 0 + meta_section_size md 1) 2 w3) as (w4 & E4 & P4 & C4 & M4);
    [done|apply (sf_range md Hf); lia|].
  rewrite bind_assoc, (run_bind _ _ _ _ _ E2), bind_assoc, (run_bind _ _ _ _ _ E3), bind_assoc, (run_bind _ _ _ _ _ E4), run_ret.
  eexists. split; [reflexivity|]. split; [cbn; congruence|]. intros i a Hi Ha. cbn.
  rewrite mem_set_out by (intros H; by apply (free_window_outside md base i a)).
  rewrite (copies_correct md base (w_phys w1) (w_phys w2) (w_phys w3) (w_phys w4) i a Hf Hfree); [|done|..|done|done].
  - apply Himg. destruct (section_source_bound md i Hf Hi). destruct Ha. unfold package2_header_size in *. lia.
  - intros b. rewrite M3. by rewrite (proj1 (proj2 (section_source_at md))).
  - intros b. rewrite M4. by rewrite (proj2 (proj2 (section_source_at md))).
Qed.

Lemma byte_at_splice l i x : 0 <= i < Z.of_nat (length l) -> byte_at (splice l i [x]) i = x.
Proof.
  intros Hi. unfold byte_at, splice. rewrite app_nth2; rewrite length_take; [|lia].
  replace (Z.to_nat i - Nat.min (Z.to_nat i) (length l))%nat with 0%nat by lia.
  destruct (length l - Z.to_nat i)%nat eqn:E; [lia|]. done.
Qed.
Lemma odd_lor_3 x : negb ((x .| 3) .& 1 =? 0) = true.
Proof.
  rewrite Z.land_lor_distr_l. change (3 .& 1) with 1. apply negb_true_iff, Z.eqb_neq. intros H.
  apply Z.lor_eq_0_iff in H as [_ H]. done.
Qed.
Lemma set_plaintext_run w : length (signed_config (loaded_bootconfig (w_bc w))) = 256%nat ->
  exists w', bootconfig_set_package2_plaintext_and_unsigned w = (Ret tt, w') /\ is_plaintext w' = true /\
    w_phys w' = w_phys w /\ w_cpu w' = w_cpu w.
Proof.
  intros Hl. eexists. split; [reflexivity|]. split; [|done]. set (l := signed_config _) in *.
  change (negb (byte_at (splice l 8 [byte_at l 8 .| 3]) 8 .& 1 =? 0) = true).
  rewrite byte_at_splice by (rewrite Hl; lia). apply odd_lor_3.
Qed.
End Load.

Section Image.
Context {soc : SoC} {HD : EngineDone soc}.

(** C23: [validate_package2_metadata] always returns, and it accepts only
    headers that describe a loadable package2 ([sections_fit]): although the
    section sizes are added at 32 bits, accepted sizes add up without
    wrap-around to the package size minus the header, that size is at most
    PACKAGE2_SIZE_MAX, the non-empty sections are pairwise disjoint and end
    below 4 GB, all sizes are multiples of 4, and the aligned entry point lies
    in a section. *)
Theorem package2_metadata_validated md w :
  is_bytes md ->
  exists w', validate_package2_metadata md w = (Ret (metadata_ok md), w') /\ (metadata_ok md = true -> sections_fit md).
Proof.
  intros Hb. destruct (validate_run md w) as (h & E). eexists. split; [exact E|]. by apply metadata_ok_fits.
Qed.

(** C36: when package2 must be moved out of the way of its own sections, a free
    window is found: for accepted metadata, one of the first seven windows of
    PACKAGE2_SIZE_MAX bytes from the start of DRAM meets no section (so the
    panic after the eighth is dead code), and the search returns such a window. *)
Theorem package2_relocation_found md :
  is_bytes md -> metadata_ok md = true ->
  exists k, 0 <= k < 7 /\ find_safe_carveout 7 md DRAM_BASE_PHYSICAL = Some (window_start k) /\
    any_section_overlaps md (window_start k) (window_start k + PACKAGE2_SIZE_MAX) = false.
Proof.
  intros Hb Hok. destruct (some_window_free md (metadata_ok_fits md Hb Hok)) as (k & Hk & Hf).
  destruct (find_safe_carveout_run 7 md 0 k) as (k' & H1 & H2 & H3); [lia|lia|done|].
  exists k'. split; [lia|]. split; [done|by apply negb_true_iff in H2].
Qed.

Lemma signature_skipped sig md w : verify_header_signature sig md w = (Ret tt, w).
Proof. reflexivity. Qed.

Lemma recovery_hash_run {A} w size (k : M A) :
  exists w', (recovery ← bootconfig_is_recovery_boot;
    (if (recovery : bool)
     then package2 ← phys_load NX_BOOTLOADER_PACKAGE2_LOAD_ADDRESS size; bootconfig_set_package2_hash_for_recovery package2 size
     else mret tt) ;; k) w = k w' /\ w_phys w' = w_phys w /\ w_cpu w' = w_cpu w /\ is_plaintext w' = is_plaintext w.
Proof.
  unfold bootconfig_is_recovery_boot. rewrite run_gets. destruct (negb _); [|by exists w].
  unfold phys_load. rewrite bind_assoc, run_gets. unfold bootconfig_set_package2_hash_for_recovery. rewrite bind_assoc.
  destruct (sha256_total (phys_read_bytes (w_phys w) NX_BOOTLOADER_PACKAGE2_LOAD_ADDRESS (Z.to_nat size)) size w) as (d & h & E).
  rewrite (run_bind _ _ _ _ _ E). by eexists.
Qed.

(** An unsigned plaintext package2 as the bootloader left it in memory. *)
Definition plaintext_package2 (w : World) (md : list Z) : Prop :=
  phys_read_bytes (w_phys w) NX_BOOTLOADER_PACKAGE2_LOAD_ADDRESS 256 = zeros 256 /\
  phys_read_bytes (w_phys w) (NX_BOOTLOADER_PACKAGE2_LOAD_ADDRESS + 0x100) 256 = md /\
  is_bytes md /\ length (signed_config (loaded_bootconfig (w_bc w))) = 256%nat.

Lemma decrypt_plaintext_run md w : is_plaintext w = true -> metadata_ok md = true ->
  exists h, decrypt_and_validate_header md w = (Ret (0, md), w <| w_se := h |>).
Proof.
  intros Hp Hok. unfold decrypt_and_validate_header. rewrite (run_bind _ _ _ _ _ (plaintext_run w)), Hp. cbn [negb].
  destruct (validate_run md w) as (h & E). rewrite Hok in E. rewrite (run_bind _ _ _ _ _ E). by exists h.
Qed.

Lemma load_plaintext_run md w :
  plaintext_package2 w md -> metadata_ok md = true -> (0 < length (g_cpu_contexts (w_cpu w)))%nat ->
  exists w', load_package2_image w = (Ret tt, w') /\
    (forall i a, 0 <= i < 3 -> in_section md i a ->
       w_phys w' a = w_phys w (NX_BOOTLOADER_PACKAGE2_LOAD_ADDRESS + (package2_header_size + section_source md i + (a - section_start md i)))) /\
    ctx_ELR_EL3 (Cpu.context_of 0 w') = DRAM_BASE_PHYSICAL + meta_entrypoint md /\
    exists i, 0 <= i < 3 /\ in_section md i (DRAM_BASE_PHYSICAL + meta_entrypoint md).
Proof.
  intros (Hsig & Hmd & Hb & Hl) Hok Hc. pose proof (metadata_ok_fits md Hb Hok) as Hf.
  assert (Hld : forall pa n w0, phys_load pa n w0 = (Ret (phys_read_bytes (w_phys w0) pa (Z.to_nat n)), w0)) by done.
  unfold load_package2_image. rewrite (run_bind _ _ _ _ _ (Hld _ _ _)), (run_bind _ _ _ _ _ (Hld _ _ _)).
  change (Z.to_nat 0x100) with 256%nat. rewrite Hsig, Hmd.
  assert (Hmag : (meta_magic md =? MAGIC_PK21) = true).
  { unfold metadata_ok, header_checks in Hok. rewrite !andb_true_iff in Hok. tauto. }
  rewrite Hmag. change (forallb (Z.eqb 0) (zeros 256) && true) with true. cbv iota.
  destruct (set_plaintext_run w Hl) as (w1 & E1 & P1 & M1 & C1).
  rewrite (run_bind _ _ _ _ _ E1), (run_bind _ _ _ _ _ (signature_skipped _ _ _)).
  destruct (decrypt_plaintext_run md w1 P1 Hok) as (h & E2). rewrite (run_bind _ _ _ _ _ E2).
  destruct (recovery_hash_run (w1 <| w_se := h |>) (get_package2_size md)
    (load_package2_sections md 0 ;; Cpu.set_core_entrypoint_and_argument 0 (DRAM_BASE_PHYSICAL + meta_entrypoint md) 0))
    as (w2 & E3 & M3 & C3 & P3). rewrite E3. change (is_plaintext (w1 <| w_se := h |>)) with (is_plaintext w1) in P3.
  destruct (load_sections_run md 0 w2 Hf) as (w4 & E4 & C4 & L4); [congruence|]. rewrite (run_bind _ _ _ _ _ E4).
  eexists. split; [reflexivity|]. split; [|split].
  - intros i a Hi Ha. cbn. rewrite (L4 i a Hi Ha), M3. cbn. by rewrite M1.
  - unfold Cpu.context_of. cbn. rewrite C4, C3. cbn. rewrite C1. by destruct (g_cpu_contexts (w_cpu w)); [cbn in Hc; lia|].
  - destruct (sf_entry md Hf) as (_ & i & Hi & He). exists i. split; [done|]. unfold in_section, section_start. lia.
Qed.

(** C3: loading an unsigned plaintext package2 end to end.  In this
    configuration (the package2 restrictions are loosened, the signature is not
    checked) an image with a zero signature and acceptable metadata is loaded:
    the loader returns, every byte of every section is where the header says, the
    relocated or cleared load buffer notwithstanding, and core 0's entry point is
    DRAM plus the header's entry point, which lies in a loaded section. *)
Theorem load_package2_image_plaintext md w :
  plaintext_package2 w md -> metadata_ok md = true -> (0 < length (g_cpu_contexts (w_cpu w)))%nat ->
  exists w', load_package2_image w = (Ret tt, w') /\
    (forall i a, 0 <= i < 3 -> in_section md i a ->
       w_phys w' a = w_phys w (NX_BOOTLOADER_PACKAGE2_LOAD_ADDRESS + (package2_header_size + section_source md i + (a - section_start md i)))) /\
    ctx_ELR_EL3 (Cpu.context_of 0 w') = DRAM_BASE_PHYSICAL + meta_entrypoint md /\
    exists i, 0 <= i < 3 /\ in_section md i (DRAM_BASE_PHYSICAL + meta_entrypoint md).
Proof. apply load_plaintext_run. Qed.
End Image.

(** ** A concrete package2 *)

Import Toy.

(** Two sections, 0x10 bytes at offset 0x1000 and 0x20 bytes at 0x2000. *)
Definition toy_metadata : list Z :=
  bytes_of_words32 [0x230; 0; 0; 0] ++ zeros 0x40 ++ bytes_of_words32 [MAGIC_PK21; 0x1004; 0] ++ [0xC; 0; 0; 0]
  ++ bytes_of_words32 [0x10; 0x20; 0; 0] ++ bytes_of_words32 [0x1000; 0x2000; 0; 0] ++ zeros 0x80.
Definition toy_package2_world : World :=
  (toy_world 11) <| w_phys := fun a =>
    if (NX_BOOTLOADER_PACKAGE2_LOAD_ADDRESS + 0x100 <=? a) && (a <? NX_BOOTLOADER_PACKAGE2_LOAD_ADDRESS + 0x200)
    then byte_at toy_metadata (a - (NX_BOOTLOADER_PACKAGE2_LOAD_ADDRESS + 0x100))
    else if a <? NX_BOOTLOADER_PACKAGE2_LOAD_ADDRESS + 0x100 then 0 else a mod 256 |>.

Lemma package2_metadata_validated_witness :
  exists w', validate_package2_metadata toy_metadata toy_package2_world = (Ret true, w') /\ sections_fit toy_metadata.
Proof.
  destruct (package2_metadata_validated toy_metadata toy_package2_world) as (w' & E & H); [by repeat constructor|].
  exists w'. split; [exact E|]. by apply H.
Defined.

Lemma package2_relocation_found_witness :
  exists k, 0 <= k < 7 /\ find_safe_carveout 7 toy_metadata DRAM_BASE_PHYSICAL = Some (window_start k) /\
    any_section_overlaps toy_metadata (window_start k) (window_start k + PACKAGE2_SIZE_MAX) = false.
Proof. apply (package2_relocation_found toy_metadata); [by repeat constructor|by vm_compute]. Defined.

Lemma load_package2_image_plaintext_witness :
  exists w', load_package2_image toy_package2_world = (Ret tt, w') /\
    ctx_ELR_EL3 (Cpu.context_of 0 w') = 0x80001004.
Proof.
  destruct (load_package2_image_plaintext toy_metadata toy_package2_world) as (w' & E & _ & H & _).
  - split; [by vm_compute|]. split; [by vm_compute|]. split; [by repeat constructor|done].
  - by vm_compute.
  - cbn. lia.
  - by exists w'.
Defined.
