(* ===== verification/PowerProps.v ===== *)
(** Cores, carveouts and registers kept over deep sleep (cpu_context.c, mc.c and
    the SMCs on top of them). *)
From S2P Require Import Prelude State Utils Se Engine Pages Config Keys Power SmcUser SmcApi Platform SeProps.
Import Mc Cpu SmcApi.

Section Cores.
Context {soc : SoC}.

(** ** CPU_ON *)

(** A run that may only change device registers. *)
Definition mmio_only (w w' : World) : Prop := w' = w <| w_mmio := w_mmio w' |>.
#[local] Instance mmio_only_preorder : PreOrder mmio_only.
Proof. split; [by intros []|]. unfold mmio_only. intros x y z H1 H2. rewrite H2, H1. done. Qed.

Definition returns_mmio {A} (m : M A) : Prop := forall w, exists a w', m w = (Ret a, w') /\ mmio_only w w'.

Lemma rm_ret {A} (a : A) : returns_mmio (mret a).
Proof. intros w. exists a, w. by split; [|reflexivity]. Qed.
Lemma rm_read a : returns_mmio (reg_read a).
Proof. intros w. eexists _, w. by split; [|reflexivity]. Qed.
Lemma rm_write a v : returns_mmio (reg_write a v).
Proof. intros w. by eexists _, _. Qed.
Lemma rm_wait us : returns_mmio (wait us).
Proof. intros w. by eexists _, _. Qed.
Lemma rm_bind {A B} (m : M A) (f : A -> M B) : returns_mmio m -> (forall a, returns_mmio (f a)) -> returns_mmio (m ≫= f).
Proof.
  intros Hm Hf w. destruct (Hm w) as (a & w1 & E1 & H1). destruct (Hf a w1) as (b & w2 & E2 & H2).
  exists b, w2. rewrite (run_bind _ _ _ _ _ E1). split; [done|]. by etransitivity.
Qed.
Lemma rm_if {A} (b : bool) (m k : M A) : returns_mmio m -> returns_mmio k -> returns_mmio (if b then m else k).
Proof. by destruct b. Qed.

(** The power gate polls end, by their counters. *)
Lemma rm_poll_toggle n : returns_mmio (poll_toggle n).
Proof.
  induction n as [|n IH]; cbn [poll_toggle]; [apply rm_ret|]. apply rm_bind; [apply rm_read|]. intros v.
  apply rm_if; [apply rm_ret|]. apply rm_bind; [apply rm_wait|]. intros _. destruct n; [apply rm_ret|exact IH].
Qed.
Lemma rm_poll_status n mask : returns_mmio (poll_status n mask).
Proof.
  induction n as [|n IH]; cbn [poll_status]; [apply rm_ret|]. apply rm_bind; [apply rm_read|]. intros v.
  apply rm_if; [apply rm_ret|]. apply rm_bind; [apply rm_wait|]. intros _. exact IH.
Qed.

Ltac rm_step := match goal with
  | |- returns_mmio (mbind _ _) => apply rm_bind; [|intros]
  | |- returns_mmio (if _ then _ else _) => apply rm_if
  | |- returns_mmio (mret _) => apply rm_ret
  | |- returns_mmio (reg_read _) => apply rm_read
  | |- returns_mmio (reg_write _ _) => apply rm_write
  | |- returns_mmio (poll_toggle _) => apply rm_poll_toggle
  | |- returns_mmio (poll_status _ _) => apply rm_poll_status
  end.

Definition context_set (core e a : Z) (w : World) : World :=
  w <| w_cpu ::= fun s => s <| g_cpu_contexts ::= fun l =>
    alter (fun c => c <| ctx_ELR_EL3 := e |> <| ctx_argument := a |>) (Z.to_nat core) l |> |>.

Lemma cpu_on_run core e a w :
  0 <= core < 4 -> ctx_is_active (context_of core w) = false -> g_has_loaded_config (w_exo w) = true ->
  exists w', cpu_on core e a w = (Ret 0, w') /\ mmio_only (context_set core e a w) w'.
Proof.
  intros Hc Ha Hl. unfold cpu_on, NUM_CPU_CORES. replace (core >=? 4) with false by (by zdec). rewrite run_gets, Ha.
  unfold set_core_entrypoint_and_argument, update_context. rewrite run_modify. fold (context_set core e a w).
  set (w1 := context_set core e a w). assert (Hl1 : g_has_loaded_config (w_exo w1) = true) by done. cbv zeta.
  rewrite (run_bind _ _ _ _ _ (target_firmware_run w1 Hl1)). set (fw := target_firmware _).
  match goal with |- exists w', ?m w1 = _ /\ _ => assert (Hm : returns_mmio m /\ forall w0 x w', m w0 = (Ret x, w') -> x = 0) end.
  { split.
    - repeat rm_step.
    - intros w0 x w' E. repeat (apply bind_ret_inv in E as (? & ? & _ & E)). by injection E. }
  destruct Hm as [Hm Hx]. destruct (Hm w1) as (x & w' & E & H). exists w'. rewrite E, (Hx _ _ _ E). done.
Qed.

Lemma context_alter core f w l :
  (Z.to_nat core < length l)%nat -> g_cpu_contexts (w_cpu w) = alter f (Z.to_nat core) l ->
  context_of core w = f (nth (Z.to_nat core) l empty_context).
Proof.
  intros Hl Hw. unfold context_of. rewrite Hw, !nth_lookup, list_lookup_alter_eq.
  destruct (lookup_lt_is_Some_2 l (Z.to_nat core) Hl) as [x ->]. done.
Qed.

(** The jump of a core that was given an entry point. *)
Lemma core_jump_run w e a :
  0 <= w_core w -> (Z.to_nat (w_core w) < length (g_cpu_contexts (w_cpu w)))%nat ->
  ctx_ELR_EL3 (context_of (w_core w) w) = e -> ctx_argument (context_of (w_core w) w) = a -> e <> 0 ->
  ctx_is_active (context_of (w_core w) w) = false ->
  exists spsr w', core_jump_to_lower_el w = (Ret (a, e, spsr), w') /\ w_core w' = w_core w /\
    ctx_is_active (context_of (w_core w) w') = true.
Proof.
  intros H0 Hl He Ha Hne Hact. unfold core_jump_to_lower_el, get_core_id. rewrite !run_gets.
  unfold use_core_entrypoint_and_argument. rewrite bind_assoc, run_gets, He, Hact, (proj2 (Z.eqb_neq _ _) Hne). cbn [orb].
  unfold update_context. rewrite bind_assoc, run_modify, run_ret. rewrite Ha.
  eexists _, _. split; [reflexivity|]. split; [done|].
  rewrite (context_alter _ (fun c => c <| ctx_ELR_EL3 := 0 |> <| ctx_argument := 0 |> <| ctx_is_active := true |>) _
    (g_cpu_contexts (w_cpu w))); done.
Qed.

(** CPU_ON.  A core number of 4 or more gives INVALID_PARAMETERS and a
    running core ALREADY_ON, with no effect.  Otherwise CPU_ON returns 0 whatever
    the power gate registers do (its polls are bounded), and the core, when it
    comes up, jumps to exactly the entry point with the argument given, is
    marked active, and from then on CPU_ON on it gives ALREADY_ON. *)
Theorem cpu_on_then_jump core e a w :
  g_has_loaded_config (w_exo w) = true -> length (g_cpu_contexts (w_cpu w)) = 4%nat ->
  (4 <= core -> cpu_on core e a w = (Ret 0xFFFFFFFE, w)) /\
  (0 <= core < 4 -> ctx_is_active (context_of core w) = true -> cpu_on core e a w = (Ret 0xFFFFFFFC, w)) /\
  (0 <= core < 4 -> ctx_is_active (context_of core w) = false -> e <> 0 ->
   exists w1, cpu_on core e a w = (Ret 0, w1) /\
     exists spsr w2, core_jump_to_lower_el (w1 <| w_core := core |>) = (Ret (a, e, spsr), w2) /\
       forall e' a', cpu_on core e' a' w2 = (Ret 0xFFFFFFFC, w2)).
Proof.
  intros Hl Hlen. split; [|split].
  - intros Hc. unfold cpu_on, NUM_CPU_CORES. by replace (core >=? 4) with true by (by zdec).
  - intros Hc Ha. unfold cpu_on, NUM_CPU_CORES. replace (core >=? 4) with false by (by zdec). by rewrite run_gets, Ha.
  - intros Hc Ha He. destruct (cpu_on_run core e a w Hc Ha Hl) as (w1 & E & Hm). exists w1. split; [done|].
    assert (Hx : context_of core w1 = (context_of core w) <| ctx_ELR_EL3 := e |> <| ctx_argument := a |>).
    { rewrite Hm. apply (context_alter _ (fun c => c <| ctx_ELR_EL3 := e |> <| ctx_argument := a |>)); [lia|done]. }
    destruct (core_jump_run (w1 <| w_core := core |>) e a) as (spsr & w2 & E2 & Hc2 & Ha2).
    + cbn. lia.
    + rewrite Hm. cbn. rewrite length_alter. lia.
    + change (ctx_ELR_EL3 (context_of core w1) = e). by rewrite Hx.
    + change (ctx_argument (context_of core w1) = a). by rewrite Hx.
    + done.
    + change (ctx_is_active (context_of core w1) = false). by rewrite Hx.
    + exists spsr, w2. split; [done|]. intros e' a'. unfold cpu_on, NUM_CPU_CORES.
      replace (core >=? 4) with false by (by zdec). cbn in Ha2. by rewrite run_gets, Ha2.
Qed.

(** A core's debug registers survive losing power: saving the context,
    losing every register, and restoring gives back the 32-bit ones truncated to
    32 bits and the others as they were; a second restore changes nothing. *)
Theorem core_context_roundtrip regs lost w :
  0 <= w_core w < 4 -> length (g_cpu_contexts (w_cpu w)) = 4%nat -> cpu_sysregs (w_cpu w) = regs ->
  exists w1 w2, save_current_core_context w = (Ret tt, w1) /\
    restore_current_core_context (w1 <| w_cpu ::= fun s => s <| cpu_sysregs := lost |> |>) = (Ret tt, w2) /\
    cpu_sysregs (w_cpu w2) = save_sysregs regs /\
    (Forall is_u32 (take 11 regs) -> cpu_sysregs (w_cpu w2) = regs) /\
    restore_current_core_context w2 = (Ret tt, w2).
Proof.
  intros Hc Hl Hr. eexists. set (f c := c <| saved_regs := save_sysregs regs |> <| ctx_is_saved := true |>).
  assert (Hsave : save_current_core_context w = (Ret tt, w <| w_cpu ::= fun s => s <| oslar_el1 := 1 |> |>
    <| w_cpu ::= fun s => s <| g_cpu_contexts ::= alter f (Z.to_nat (w_core w)) |> |>)) by (subst regs f; done).
  set (w1 := update w_cpu _ (update w_cpu _ w)) in Hsave.
  assert (Hx : context_of (w_core w) (w1 <| w_cpu ::= fun s => s <| cpu_sysregs := lost |> |>) = f (context_of (w_core w) w))
    by (apply (context_alter _ f _ (g_cpu_contexts (w_cpu w))); [lia|done]).
  set (w1' := update w_cpu _ w1) in Hx. set (g c := c <| ctx_is_saved := false |> : saved_cpu_context_t).
  assert (Hrest : restore_current_core_context w1' = (Ret tt, w1' <| w_cpu ::= fun s => s <| cpu_sysregs := save_sysregs regs |> |>
    <| w_cpu ::= fun s => s <| g_cpu_contexts ::= alter g (Z.to_nat (w_core w)) |> |>)).
  { unfold restore_current_core_context, get_core_id. rewrite !run_gets. change (w_core w1') with (w_core w). rewrite Hx. done. }
  set (w2 := update w_cpu _ (update w_cpu _ w1')) in Hrest. exists w2. split; [exact Hsave|]. split; [exact Hrest|].
  split; [done|]. split.
  - intros Hu. change (save_sysregs regs = regs). unfold save_sysregs.
    replace (map u32 (take 11 regs)) with (take 11 regs); [apply take_drop|]. rewrite <- (map_id (take 11 regs)) at 1.
    apply map_ext_Forall. eapply Forall_impl; [exact Hu|]. intros x Hx'. by rewrite u32_id.
  - assert (Hx2 : context_of (w_core w) w2 = g (context_of (w_core w) w1')).
    { apply (context_alter _ g _ (g_cpu_contexts (w_cpu w1'))); [|done]. cbn. rewrite length_alter. lia. }
    unfold restore_current_core_context, get_core_id. rewrite !run_gets. change (w_core w2) with (w_core w). by rewrite Hx2.
Qed.
End Cores.

(** ** Kernel carveouts *)

(** The registers of the carveout at [base] hold [r]. *)
Definition carveout_holds (m : Z -> Z) (base : Z) (r : carveout_regs) : Prop :=
  m base = cv_config r /\ m (base + 0x4) = cv_paddr_low r /\ m (base + 0x8) = cv_paddr_high r /\
  m (base + 0xC) = cv_size_big_pages r /\
  (forall i, 0 <= i < 5 -> m (base + 0x10 + 4 * i) = byte_at (cv_client_access r) i) /\
  (forall i, 0 <= i < 5 -> m (base + 0x24 + 4 * i) = byte_at (cv_force_internal r) i).

Definition carveout_stores (base : Z) (r : carveout_regs) : list (Z * Z) :=
  [(base + 0x4, cv_paddr_low r); (base + 0x8, cv_paddr_high r); (base + 0xC, cv_size_big_pages r)]
  ++ map (fun i => (base + 0x10 + 4 * i, byte_at (cv_client_access r) i)) (range 5)
  ++ map (fun i => (base + 0x24 + 4 * i, byte_at (cv_force_internal r) i)) (range 5) ++ [(base, cv_config r)].
Definition do_stores (l : list (Z * Z)) (m : Z -> Z) : Z -> Z := foldl (fun m p => upd m p.1 p.2) m l.

Lemma do_stores_other l m a : a ∉ l.*1 -> do_stores l m a = m a.
Proof.
  revert m. induction l as [|p l IH]; intros m H; [done|]. cbn in H. apply not_elem_of_cons in H as [H1 H2].
  unfold do_stores. cbn [foldl]. fold (do_stores l (upd m p.1 p.2)). rewrite IH by done. by apply upd_ne.
Qed.
Lemma do_stores_at l m a v : NoDup l.*1 -> (a, v) ∈ l -> do_stores l m a = v.
Proof.
  revert m. induction l as [|p l IH]; intros m Hn Hin; [by apply elem_of_nil in Hin|].
  cbn in Hn. apply NoDup_cons in Hn as [Hn1 Hn2]. unfold do_stores. cbn [foldl]. fold (do_stores l (upd m p.1 p.2)).
  apply elem_of_cons in Hin as [<-|Hin]; [|by apply IH]. rewrite do_stores_other by done. apply upd_eq.
Qed.

Lemma carveout_stores_nodup base r : NoDup (carveout_stores base r).*1.
Proof.
  replace ((carveout_stores base r).*1) with ((fun o => base + o) <$> [4; 8; 0xC; 0x10; 0x14; 0x18; 0x1C; 0x20; 0x24; 0x28; 0x2C; 0x30; 0x34; 0]).
  - apply NoDup_fmap_2; [intros x y; lia|]. apply (bool_decide_unpack _). by vm_compute.
  - unfold carveout_stores. change (range 5) with [0; 1; 2; 3; 4]. cbn [map app fmap list_fmap fst].
    repeat (apply (f_equal2 cons); [lia|]). done.
Qed.
Lemma carveout_stores_holds base r m : carveout_holds (do_stores (carveout_stores base r) m) base r.
Proof.
  pose proof (carveout_stores_nodup base r) as Hn. unfold carveout_holds.
  assert (H : forall a v, (a, v) ∈ carveout_stores base r -> do_stores (carveout_stores base r) m a = v) by (intros; by apply do_stores_at).
  unfold carveout_stores in H |- *. repeat split; try (apply H; repeat (first [left|right])); intros i Hi; apply H.
  - apply elem_of_app. right. apply elem_of_app. left. apply list_elem_of_In, in_map_iff. exists i. split; [done|].
    by apply list_elem_of_In, elem_of_range.
  - apply elem_of_app. right. apply elem_of_app. right. apply elem_of_app. left. apply list_elem_of_In, in_map_iff. exists i.
    split; [done|]. by apply list_elem_of_In, elem_of_range.
Qed.
Lemma carveout_stores_range base r a : a ∈ (carveout_stores base r).*1 -> base <= a < base + 0x38.
Proof.
  unfold carveout_stores. change (range 5) with [0; 1; 2; 3; 4]. cbn [map app fmap list_fmap fst].
  intros H. repeat (apply elem_of_cons in H as [->|H]; [lia|]). by apply elem_of_nil in H.
Qed.
Lemma carveout_holds_other base base' r r' m :
  base + 0x38 <= base' \/ base' + 0x38 <= base -> carveout_holds m base r ->
  carveout_holds (do_stores (carveout_stores base' r') m) base r.
Proof.
  intros Hd (H1 & H2 & H3 & H4 & H5 & H6).
  assert (Ho : forall a, base <= a < base + 0x38 -> do_stores (carveout_stores base' r') m a = m a).
  { intros a Ha. apply do_stores_other. intros Hin%carveout_stores_range. lia. }
  unfold carveout_holds. rewrite !Ho by lia. repeat split; try done; intros i Hi; rewrite Ho by lia; auto.
Qed.

Section Carveouts.
Context {soc : SoC}.

Definition carveout_base (id : Z) : Z := MC_BASE + 0xC08 + 0x50 * (id - 1).

Lemma get_carveout_run id w : 1 <= id <= 5 -> get_carveout_by_id id w = (Ret (carveout_base id), w).
Proof. intros H. unfold get_carveout_by_id, CARVEOUT_ID_MIN, CARVEOUT_ID_MAX. zdec. done. Qed.
Lemma write_carveout_run base r w :
  write_carveout base r w = (Ret tt, w <| w_mmio ::= do_stores (carveout_stores base r) |>).
Proof. reflexivity. Qed.

Definition saved_at (w : World) (i : Z) : Z * Z := nth (Z.to_nat i) (g_saved_carveouts (w_mc w)) (0, 0).

(** Only device registers and the saved carveouts change. *)
Definition mc_only (w w' : World) : Prop := w' = w <| w_mmio := w_mmio w' |> <| w_mc := w_mc w' |>.
#[local] Instance mc_only_preorder : PreOrder mc_only.
Proof. split; [by intros []|]. unfold mc_only. intros x y z H1 H2. rewrite H2, H1. done. Qed.

Lemma kernel_carveout_run id address size w :
  id = 4 \/ id = 5 -> g_has_loaded_config (w_exo w) = true -> length (g_saved_carveouts (w_mc w)) = 2%nat ->
  let r := kernel_carveout (target_firmware (g_exosphere_cfg (w_exo w))) id address size in
  exists w', configure_kernel_carveout id address size w = (Ret tt, w') /\ mc_only w w' /\
    w_mmio w' = do_stores (carveout_stores (carveout_base id) r) (w_mmio w) /\
    g_saved_carveouts (w_mc w') = <[Z.to_nat (id - 4) := (address, size)]> (g_saved_carveouts (w_mc w)).
Proof.
  intros Hid Hl Hlen r. unfold configure_kernel_carveout, set_saved_carveout.
  replace (negb (id =? 4) && negb (id =? 5)) with false by (by destruct Hid as [-> | ->]). rewrite run_modify.
  set (w1 := update w_mc _ w). rewrite (run_bind _ _ _ _ _ (get_carveout_run id w1 ltac:(lia))).
  assert (Hl1 : g_has_loaded_config (w_exo w1) = true) by done. rewrite (run_bind _ _ _ _ _ (target_firmware_run w1 Hl1)).
  rewrite write_carveout_run. eexists. split; [reflexivity|]. done.
Qed.

(** Re-programming after deep sleep, from 2.0.0 on. *)
Lemma default_carveouts_run w :
  g_has_loaded_config (w_exo w) = true -> length (g_saved_carveouts (w_mc w)) = 2%nat ->
  let fw := target_firmware (g_exosphere_cfg (w_exo w)) in
  ATMOSPHERE_TARGET_FIRMWARE_200 <= fw ->
  exists w', configure_default_carveouts w = (Ret tt, w') /\
    forall id, id = 4 \/ id = 5 -> carveout_holds (w_mmio w') (carveout_base id)
      (kernel_carveout fw id (saved_at w (id - 4)).1 (saved_at w (id - 4)).2).
Proof.
  intros Hl Hlen fw Hfw. unfold configure_default_carveouts. rewrite (run_bind _ _ _ _ _ (get_carveout_run 1 w ltac:(lia))).
  rewrite (run_bind _ _ _ _ _ (write_carveout_run _ _ _)). set (w1 := update w_mmio _ w).
  assert (Hl1 : g_has_loaded_config (w_exo w1) = true) by done. rewrite (run_bind _ _ _ _ _ (target_firmware_run w1 Hl1)).
  change (target_firmware (g_exosphere_cfg (w_exo w1))) with fw.
  assert (H2 : exists w2, (if fw <? ATMOSPHERE_TARGET_FIRMWARE_600 then configure_gpu_ucode_carveout else mret tt) w1 = (Ret tt, w2) /\
    w2 = w1 <| w_mmio := w_mmio w2 |>).
  { destruct (fw <? _); [|exists w1; by destruct w1]. unfold configure_gpu_ucode_carveout.
    rewrite (run_bind _ _ _ _ _ (get_carveout_run 2 w1 ltac:(lia))), (run_bind _ _ _ _ _ (target_firmware_run w1 Hl1)), write_carveout_run.
    by eexists. }
  destruct H2 as (w2 & E2 & O2). rewrite (run_bind _ _ _ _ _ E2), (run_bind _ _ _ _ _ (get_carveout_run 3 w2 ltac:(lia))).
  rewrite (run_bind _ _ _ _ _ (write_carveout_run _ _ _)). set (w3 := update w_mmio _ w2).
  assert (O3 : w3 = w <| w_mmio := w_mmio w3 |>) by (unfold w3; rewrite O2; done). clearbody w3.
  replace (fw >=? ATMOSPHERE_TARGET_FIRMWARE_200) with true by (by zdec). unfold saved_carveout. rewrite run_gets.
  fold (saved_at w3 0). replace (saved_at w3 0) with (saved_at w 0) by (by rewrite O3).
  destruct (kernel_carveout_run 4 (saved_at w 0).1 (saved_at w 0).2 w3) as (w4 & E4 & O4 & M4 & S4); [by left|by rewrite O3|by rewrite O3|].
  rewrite (run_bind _ _ _ _ _ E4), run_gets. fold (saved_at w4 1).
  replace (saved_at w4 1) with (saved_at w 1).
  2: { unfold saved_at. rewrite S4, !nth_lookup, list_lookup_insert_ne by done. by rewrite O3. }
  destruct (kernel_carveout_run 5 (saved_at w 1).1 (saved_at w 1).2 w4) as (w5 & E5 & O5 & M5 & S5); [by right|rewrite O4, O3; done|..].
  { rewrite S4, length_insert. by rewrite O3. }
  exists w5. split; [done|]. assert (F3 : target_firmware (g_exosphere_cfg (w_exo w3)) = fw) by (by rewrite O3).
  assert (F4 : target_firmware (g_exosphere_cfg (w_exo w4)) = fw) by (by rewrite O4, O3).
  rewrite F3 in M4. rewrite F4 in M5. intros id [-> | ->].
  - rewrite M5. apply carveout_holds_other; [unfold carveout_base; lia|]. rewrite M4. apply carveout_stores_holds.
  - rewrite M5. apply carveout_stores_holds.
Qed.

(** A request ConfigureCarveout grants. *)
Definition carveout_request (w : World) (args : smc_args_t) : Prop :=
  g_has_loaded_config (w_exo w) = true /\ length (g_saved_carveouts (w_mc w)) = 2%nat /\
  length (g_configured_carveouts (w_smc w)) = 2%nat /\ u32 (X args 1) <= 1 /\ X args 3 <= KERNEL_CARVEOUT_SIZE_MAX /\
  (target_firmware (g_exosphere_cfg (w_exo w)) < ATMOSPHERE_TARGET_FIRMWARE_300 ->
   nth (Z.to_nat (u32 (X args 1))) (g_configured_carveouts (w_smc w)) false = false).

Lemma configure_carveout_run args w : carveout_request w args ->
  let id := u32 (X args 1) in let fw := target_firmware (g_exosphere_cfg (w_exo w)) in
  exists w', smc_configure_carveout args w = (Ret (0, args), w') /\ w_exo w' = w_exo w /\
    w_mmio w' = do_stores (carveout_stores (carveout_base (id + 4)) (kernel_carveout fw (id + 4) (X args 2) (X args 3))) (w_mmio w) /\
    g_saved_carveouts (w_mc w') = <[Z.to_nat id := (X args 2, X args 3)]> (g_saved_carveouts (w_mc w)) /\
    g_configured_carveouts (w_smc w') = <[Z.to_nat id := true]> (g_configured_carveouts (w_smc w)).
Proof.
  intros (Hl & Hs & Hc & Hid & Hsz & Hcf) id fw. fold id fw in Hid, Hcf. pose proof (u32_range (X args 1)) as Hu. fold id in Hu. unfold is_u32 in Hu.
  unfold smc_configure_carveout. cbv zeta. fold id. replace (X args 3 >? KERNEL_CARVEOUT_SIZE_MAX) with false by (by zdec).
  replace (id >? 1) with false by (by zdec). rewrite (run_bind _ _ _ _ _ (target_firmware_run w Hl)). fold fw.
  unfold configured_carveout. rewrite run_gets.
  replace ((fw <? ATMOSPHERE_TARGET_FIRMWARE_300) && _) with false
    by (destruct (Z.ltb_spec fw ATMOSPHERE_TARGET_FIRMWARE_300); [by rewrite Hcf|done]).
  destruct (kernel_carveout_run (id + 4) (X args 2) (X args 3) w) as (w1 & E1 & O1 & M1 & S1); [lia|done|done|].
  rewrite (run_bind _ _ _ _ _ E1), run_modify. eexists. split; [reflexivity|]. cbn.
  rewrite M1, S1. replace (id + 4 - 4) with id by lia. rewrite O1. done.
Qed.

(** The kernel's carveouts hold and persist.  A granted ConfigureCarveout
    programs the carveout's registers with the address, the size in 128 KB pages
    and the firmware's client lists; from 2.0.0 on, re-programming the default
    carveouts after deep sleep, with every device register lost, gives the same
    registers again; before 3.0.0 the carveout cannot be configured a second
    time. *)
Theorem kernel_carveout_persists args w :
  carveout_request w args ->
  let id := u32 (X args 1) in let fw := target_firmware (g_exosphere_cfg (w_exo w)) in
  let regs := kernel_carveout fw (id + 4) (X args 2) (X args 3) in
  exists w1, smc_configure_carveout args w = (Ret (0, args), w1) /\
    carveout_holds (w_mmio w1) (carveout_base (id + 4)) regs /\
    (ATMOSPHERE_TARGET_FIRMWARE_200 <= fw -> forall lost,
       exists w2, configure_default_carveouts (w1 <| w_mmio := lost |>) = (Ret tt, w2) /\
         carveout_holds (w_mmio w2) (carveout_base (id + 4)) regs) /\
    (fw < ATMOSPHERE_TARGET_FIRMWARE_300 -> forall args2, u32 (X args2 1) = id ->
       smc_configure_carveout args2 w1 = (Ret (2, args2), w1)).
Proof.
  intros Hr id fw regs. destruct (configure_carveout_run args w Hr) as (w1 & E1 & X1 & M1 & S1 & C1).
  destruct Hr as (Hl & Hs & Hc & Hid & Hsz & Hcf). fold id fw in Hid, Hcf, M1, S1, C1. fold regs in M1.
  pose proof (u32_range (X args 1)) as Hu. fold id in Hu. unfold is_u32 in Hu.
  exists w1. split; [done|]. split; [rewrite M1; apply carveout_stores_holds|]. split.
  - intros Hfw lost. destruct (default_carveouts_run (w1 <| w_mmio := lost |>)) as (w2 & E2 & H2).
    + cbn. by rewrite X1.
    + cbn. by rewrite S1, length_insert.
    + cbn. by rewrite X1.
    + exists w2. split; [done|]. specialize (H2 (id + 4) ltac:(lia)). cbn in H2. rewrite X1 in H2.
      replace (id + 4 - 4) with id in H2 by lia. unfold saved_at in H2. cbn in H2.
      rewrite S1, nth_lookup, list_lookup_insert_eq in H2 by lia. exact H2.
  - intros Hfw args2 Hid2. unfold smc_configure_carveout. cbv zeta. rewrite Hid2.
    destruct (X args2 3 >? KERNEL_CARVEOUT_SIZE_MAX); [done|]. replace (id >? 1) with false by (by zdec).
    assert (Hl1 : g_has_loaded_config (w_exo w1) = true) by (by rewrite X1).
    rewrite (run_bind _ _ _ _ _ (target_firmware_run w1 Hl1)), X1. fold fw. unfold configured_carveout. rewrite run_gets, C1.
    rewrite nth_lookup, list_lookup_insert_eq by lia. zdec. done.
Qed.
End Carveouts.

Import Toy.

Lemma cpu_on_then_jump_witness :
  exists w1, cpu_on 2 0x80001000 7 (toy_world 11) = (Ret 0, w1) /\
    exists spsr w2, core_jump_to_lower_el (w1 <| w_core := 2 |>) = (Ret (7, 0x80001000, spsr), w2).
Proof.
  destruct (proj2 (proj2 (cpu_on_then_jump 2 0x80001000 7 (toy_world 11) eq_refl eq_refl)) ltac:(lia) eq_refl ltac:(done))
    as (w1 & E1 & spsr & w2 & E2 & _). exists w1. split; [done|]. by exists spsr, w2.
Defined.

Lemma core_context_roundtrip_witness :
  exists w1 w2, save_current_core_context (toy_world 11) = (Ret tt, w1) /\
    restore_current_core_context (w1 <| w_cpu ::= fun s => s <| cpu_sysregs := [] |> |>) = (Ret tt, w2) /\
    cpu_sysregs (w_cpu w2) = zeros 31.
Proof.
  destruct (core_context_roundtrip (zeros 31) [] (toy_world 11)) as (w1 & w2 & E1 & E2 & _ & H & _); [by vm_compute|done|done|].
  exists w1, w2. split; [done|]. split; [done|]. apply H. by repeat constructor.
Defined.

Definition toy_carveout_args : smc_args_t := [0xC3000007; 0; 0x80060000; 0x10000000; 0; 0; 0; 0].
Lemma kernel_carveout_persists_witness :
  exists w1, smc_configure_carveout toy_carveout_args (toy_world 2) = (Ret (0, toy_carveout_args), w1) /\
    carveout_holds (w_mmio w1) (carveout_base 4) (kernel_carveout 2 4 0x80060000 0x10000000) /\
    smc_configure_carveout toy_carveout_args w1 = (Ret (2, toy_carveout_args), w1).
Proof.
  destruct (kernel_carveout_persists toy_carveout_args (toy_world 2)) as (w1 & E & H & _ & H2).
  - by split; [|repeat split; vm_compute].
  - exists w1. split; [done|]. split; [exact H|]. by apply H2.
Defined.
