(* ===== verification/PageTableProps.v ===== *)
(** Theorems on the boot page tables: every address of the memory map translates
    to its place, and after the boot only the monitor's own RAM is executable. *)
From S2P Require Import Prelude State Utils PageTables Power SmcUser SmcApi Package2 Bootup.
Import PageTables.

(** ** Walks and offsets *)

Lemma index_offset sh b o : 0 <= sh -> b mod 2 ^ sh = 0 -> 0 <= o < 2 ^ sh -> forall s, sh <= s ->
  (b + o) >>. s = b >>. s.
Proof.
  intros H0 Hb Ho s Hs. rewrite !Z.shiftr_div_pow2 by lia.
  replace (2 ^ s) with (2 ^ sh * 2 ^ (s - sh)) by (rewrite <- Z.pow_add_r by lia; f_equal; lia).
  pose proof (Z.pow_pos_nonneg 2 sh ltac:(lia) H0). pose proof (Z.pow_pos_nonneg 2 (s - sh) ltac:(lia) ltac:(lia)).
  rewrite <- !Z.div_div by lia. f_equal. rewrite (Z.div_mod b (2 ^ sh)), Hb by lia.
  rewrite Z.add_0_r, Z.mul_comm, Z.div_add_l by lia. rewrite (Z.div_small o), Z.div_mul by lia. lia.
Qed.

(** A walk that ends at a level gives the same descriptor for every address of
    the block. *)
Lemma walk_from_offset m n : forall lv tbl b level d, walk_from n m lv tbl b = Some (level, d) -> 0 <= lv <= 3 ->
  lv <= level <= 3 /\
  forall o, b mod 2 ^ MMU_Lx_SHIFT level = 0 -> 0 <= o < 2 ^ MMU_Lx_SHIFT level -> walk_from n m lv tbl (b + o) = Some (level, d).
Proof.
  induction n as [|n IH]; intros lv tbl b level d H Hlv; [done|]. cbn [walk_from] in H.
  assert (Hidx : forall o, lv <= level <= 3 -> b mod 2 ^ MMU_Lx_SHIFT level = 0 -> 0 <= o < 2 ^ MMU_Lx_SHIFT level ->
                 mmu_compute_index lv (b + o) = mmu_compute_index lv b).
  { intros o Hl Hb Ho. unfold mmu_compute_index. rewrite (index_offset (MMU_Lx_SHIFT level)); unfold MMU_Lx_SHIFT in *; auto; lia. }
  cbn [walk_from]. destruct (Z.eqb_spec lv 3) as [->|Hne].
  - destruct (_ =? MMU_PTE_TYPE_PAGE) eqn:E; [|done]. injection H as <- <-. split; [lia|]. intros o Hb Ho.
    rewrite (Hidx o) by (try lia; done). by rewrite E.
  - destruct (_ =? MMU_PTE_TYPE_BLOCK) eqn:E.
    + injection H as <- <-. split; [lia|]. intros o Hb Ho. rewrite (Hidx o) by (try lia; done). by rewrite E.
    + destruct (_ =? MMU_PTE_TYPE_TABLE) eqn:E2; [|done]. apply IH in H as [Hl Hw]; [|lia]. split; [lia|].
      intros o Hb Ho. rewrite (Hidx o), E, E2 by (try lia; done). by apply Hw.
Qed.

Lemma translate_offset m ttbr0 b o level d : walk m ttbr0 b = Some (level, d) -> b mod 2 ^ MMU_Lx_SHIFT level = 0 ->
  0 <= o < 2 ^ MMU_Lx_SHIFT level -> b + o < 2 ^ 33 ->
  translate m ttbr0 (b + o) = Some (output_address level d b + o, attributes d).
Proof.
  intros H Hb Ho Hlt. unfold walk in H. destruct ((0 <=? b) && (b <? 2 ^ 33)) eqn:Eb; [|done].
  apply walk_from_offset in H as [Hl Hw]; [|lia]. unfold translate, walk.
  rewrite (proj2 (Z.leb_le 0 (b + o))), (proj2 (Z.ltb_lt _ _) Hlt) by lia. cbn [andb]. rewrite Hw by done.
  unfold output_address. do 2 f_equal. rewrite (Z.add_mod b o), Hb, Z.add_0_l, Z.mod_mod, (Z.mod_small o) by lia. lia.
Qed.

(** ** The memory map *)

(** What the monitor's code expects of an address range: its first address, the
    physical address behind it, its size, its attributes, and the level of its
    descriptors. *)
Record mapping := mk_mapping { map_va : Z; map_pa : Z; map_size : Z; map_attr : Z; map_level : Z }.

Definition normal_memory : Z := MMU_PTE_BLOCK_AF .| MMU_PTE_BLOCK_INNER_SHAREBLE .| ATTRIB_MEMTYPE_NORMAL.
Definition device_memory : Z := MMU_PTE_BLOCK_AF .| MMU_PTE_BLOCK_INNER_SHAREBLE .| ATTRIB_MEMTYPE_DEVICE .| MMU_PTE_BLOCK_XN.

Definition identity_mappings : list mapping :=
  [mk_mapping 0x40006000 0x40006000 0x1000 normal_memory 3;
   mk_mapping 0x40020000 0x40020000 0x20000 normal_memory 3;
   mk_mapping 0x7C010000 0x7C010000 0x10000 normal_memory 3;
   mk_mapping 0x80000000 0x80000000 0x100000000 (normal_memory .| MMU_PTE_BLOCK_XN .| MMU_PTE_BLOCK_NS) 1].

(** A device, at the address [MMIO_GET_DEVICE_ADDRESS] gives. *)
Definition device_mapping (fw id : Z) : mapping :=
  let '(pa, size, is_secure) := nth (Z.to_nat id) _MMAPDEV (0, 0, false) in
  mk_mapping (MMIO_GET_DEVICE_ADDRESS id)
    (if fw <? ATMOSPHERE_TARGET_FIRMWARE_700 then pa else nth (Z.to_nat id) _MMAPDEV7X 0) size
    (if is_secure : bool then device_memory else device_memory .| MMU_PTE_BLOCK_NS) 3.

Definition ram_mapping (va : Z) (e : Z * Z * Z) : mapping :=
  let '(pa, size, attribs) := e in
  mk_mapping va pa size (MMU_PTE_BLOCK_AF .| MMU_PTE_BLOCK_INNER_SHAREBLE .| MMU_PTE_BLOCK_XN .| attribs) 3.

(** A TZRAM segment, at the address [TZRAM_GET_SEGMENT_ADDRESS] gives. *)
Definition tzram_mapping (fw id : Z) : mapping :=
  let '(_, size, _, is_executable) := nth (Z.to_nat id) _MMAPTZS (0, 0, 0, false) in
  mk_mapping (TZRAM_GET_SEGMENT_ADDRESS id) (segment_pa fw id) size
    (if is_executable : bool then normal_memory else normal_memory .| MMU_PTE_BLOCK_XN) 3.

Definition memory_map (fw : Z) : list mapping :=
  identity_mappings ++ map (device_mapping fw) (range 21)
  ++ map (fun id => ram_mapping (LP0_ENTRY_RAM_SEGMENT_BASE + 0x10000 * id) (nth (Z.to_nat id) _MMAPLP0ES (0, 0, 0))) (range 3)
  ++ [ram_mapping WARMBOOT_RAM_SEGMENT_BASE (nth 0 _MMAPWBS (0, 0, 0));
      ram_mapping (WARMBOOT_RAM_SEGMENT_BASE + 0x1000) (nth 1 _MMAPWBS (0, 0, 0))]
  ++ map (tzram_mapping fw) (range 8).

(** ** One firmware of each kind *)

Definition fw_class (fw : Z) : Z :=
  if fw <? ATMOSPHERE_TARGET_FIRMWARE_500 then ATMOSPHERE_TARGET_FIRMWARE_100
  else if fw <? ATMOSPHERE_TARGET_FIRMWARE_700 then ATMOSPHERE_TARGET_FIRMWARE_500 else ATMOSPHERE_TARGET_FIRMWARE_700.

Lemma fw_class_tests fw :
  (fw <? ATMOSPHERE_TARGET_FIRMWARE_500) = (fw_class fw <? ATMOSPHERE_TARGET_FIRMWARE_500) /\
  (fw <? ATMOSPHERE_TARGET_FIRMWARE_700) = (fw_class fw <? ATMOSPHERE_TARGET_FIRMWARE_700).
Proof.
  unfold fw_class, ATMOSPHERE_TARGET_FIRMWARE_500, ATMOSPHERE_TARGET_FIRMWARE_700.
  destruct (Z.ltb_spec fw 5), (Z.ltb_spec fw 8); try lia; done.
Qed.

Lemma configure_ttbls_class fw m : configure_ttbls fw m = configure_ttbls (fw_class fw) m.
Proof.
  destruct (fw_class_tests fw) as [H5 H7].
  unfold configure_ttbls, mmu_l1_tbl, mmu_l2_tbl, mmu_l3_tbl, segment_pa, mmio_map_all_devices, tzram_map_all_segments.
  by rewrite H5, H7.
Qed.
Lemma mmu_l1_tbl_class fw : mmu_l1_tbl fw = mmu_l1_tbl (fw_class fw).
Proof. destruct (fw_class_tests fw) as [H5 _]. unfold mmu_l1_tbl, segment_pa. by rewrite H5. Qed.
Lemma mmu_l3_tbl_class fw : mmu_l3_tbl fw = mmu_l3_tbl (fw_class fw).
Proof. destruct (fw_class_tests fw) as [H5 _]. unfold mmu_l3_tbl, segment_pa. by rewrite H5. Qed.
Lemma memory_map_class fw : memory_map fw = memory_map (fw_class fw).
Proof.
  destruct (fw_class_tests fw) as [H5 H7]. unfold memory_map, device_mapping, tzram_mapping, segment_pa. by rewrite H5, H7.
Qed.

Definition descriptor_ok (m : table_memory) (ttbr0 : Z) (mp : mapping) (off : Z) : bool :=
  let va := map_va mp + off in
  match walk m ttbr0 va with
  | Some (level, d) =>
      (level =? map_level mp) && (output_address level d va =? map_pa mp + off) && (attributes d =? map_attr mp)
      && (va mod 2 ^ MMU_Lx_SHIFT level =? 0)
  | None => false
  end.
Definition mapping_ok (m : table_memory) (ttbr0 : Z) (mp : mapping) : bool :=
  (1 <=? map_level mp) && (map_level mp <=? 3) && (0 <=? map_size mp) && (map_va mp + map_size mp <=? 2 ^ 33) && (0 <=? map_va mp)
  && (map_size mp mod 2 ^ MMU_Lx_SHIFT (map_level mp) =? 0)
  && forallb (descriptor_ok m ttbr0 mp) (range_offsets (map_level mp) (map_size mp)).

Lemma memory_map_checked m : forallb (fun fw => forallb (mapping_ok (configure_ttbls fw m) (mmu_l1_tbl fw)) (memory_map fw))
  [ATMOSPHERE_TARGET_FIRMWARE_100; ATMOSPHERE_TARGET_FIRMWARE_500; ATMOSPHERE_TARGET_FIRMWARE_700] = true.
Proof. vm_compute. reflexivity. Qed.

Lemma mapping_checked fw m mp : mp ∈ memory_map fw -> mapping_ok (configure_ttbls fw m) (mmu_l1_tbl fw) mp = true.
Proof.
  rewrite configure_ttbls_class, mmu_l1_tbl_class, memory_map_class. intros Hmp.
  pose proof (memory_map_checked m) as H. rewrite forallb_forall in H.
  assert (Hc : In (fw_class fw) [ATMOSPHERE_TARGET_FIRMWARE_100; ATMOSPHERE_TARGET_FIRMWARE_500; ATMOSPHERE_TARGET_FIRMWARE_700]).
  { unfold fw_class. repeat destruct (fw <? _); [left|right; left|right; right; left]; done. }
  specialize (H _ Hc). rewrite forallb_forall in H. by apply H, list_elem_of_In.
Qed.

Lemma range_offset_of level size x : 1 <= level <= 3 -> 0 <= x < size -> size <= 2 ^ 33 -> size mod 2 ^ MMU_Lx_SHIFT level = 0 ->
  exists off, off ∈ range_offsets level size /\ 0 <= x - off < 2 ^ MMU_Lx_SHIFT level.
Proof.
  intros Hl Hx Hs Hm. set (sh := MMU_Lx_SHIFT level) in *.
  assert (Hsh : 12 <= sh <= 30) by (unfold sh, MMU_Lx_SHIFT; lia).
  assert (Hp : 0 < 2 ^ sh <= 2 ^ 30) by (split; [lia|apply Z.pow_le_mono_r; lia]).
  exists ((x >>. sh) <<. sh). rewrite Z.shiftl_mul_pow2, Z.shiftr_div_pow2 by lia.
  pose proof (Z.div_mod x (2 ^ sh) ltac:(lia)). pose proof (Z.mod_pos_bound x (2 ^ sh) ltac:(lia)). split; [|lia].
  unfold range_offsets. fold sh. apply list_elem_of_fmap. exists (x / 2 ^ sh). rewrite Z.shiftl_mul_pow2 by lia. split; [done|].
  apply elem_of_range. rewrite u64_id by (unfold is_u64; rewrite Z.shiftl_1_l; lia).
  rewrite Z.shiftl_1_l, Z.shiftr_div_pow2 by lia. split; [apply Z.div_pos; lia|].
  pose proof (Z.div_mod size (2 ^ sh) ltac:(lia)) as E. rewrite Hm, Z.add_0_r in E.
  apply Z.div_lt_upper_bound; [lia|]. rewrite E at 1.
  replace (2 ^ sh * (size / 2 ^ sh) + (2 ^ sh - 1)) with (size / 2 ^ sh * 2 ^ sh + (2 ^ sh - 1)) by lia.
  rewrite Z.div_add_l, (Z.div_small (2 ^ sh - 1)) by lia. lia.
Qed.

(** C26: the boot page tables map what memory_map.h promises.  Whatever the table
    memory held before, after [configure_ttbls] every address of every range of
    the memory map (the identity mappings, each device at the address
    [MMIO_GET_DEVICE_ADDRESS] gives for it, the LP0 and warm boot segments, the
    TZRAM segments at [TZRAM_GET_SEGMENT_ADDRESS]) translates to its physical
    address with its attributes, for every target firmware: although the six
    groups share one L3 table, no entry overwrites another. *)
Theorem boot_tables_map_memory fw m mp va :
  mp ∈ memory_map fw -> map_va mp <= va < map_va mp + map_size mp ->
  translate (configure_ttbls fw m) (mmu_l1_tbl fw) va = Some (map_pa mp + (va - map_va mp), map_attr mp).
Proof.
  intros Hmp Hva. pose proof (mapping_checked fw m mp Hmp) as H. unfold mapping_ok in H.
  rewrite !andb_true_iff, !Z.leb_le, Z.eqb_eq, forallb_forall in H. destruct H as ((((((L1 & L2) & S0) & S1) & V0) & Sm) & H).
  destruct (range_offset_of (map_level mp) (map_size mp) (va - map_va mp)) as (off & Hoff & Ho); [lia|lia|lia|done|].
  apply list_elem_of_In, H in Hoff. unfold descriptor_ok in Hoff.
  destruct (walk _ _ _) as [[level d]|] eqn:E; [|done]. rewrite !andb_true_iff, !Z.eqb_eq in Hoff.
  destruct Hoff as (((-> & Hpa) & Ha) & Hal).
  replace va with (map_va mp + off + (va - map_va mp - off)) by lia.
  rewrite (translate_offset _ _ _ _ _ _ E) by (try done; lia). rewrite Hpa, Ha. f_equal. f_equal. lia.
Qed.
Lemma boot_tables_map_memory_witness :
  translate (configure_ttbls ATMOSPHERE_TARGET_FIRMWARE_900 (fun _ => 0xFFFFFFFFFFFFFFFF)) (mmu_l1_tbl ATMOSPHERE_TARGET_FIRMWARE_900)
    (MMIO_GET_DEVICE_ADDRESS MMIO_DEVID_RTC_PMC + 0x400) = Some (0x7000E400, device_memory).
Proof.
  apply (boot_tables_map_memory ATMOSPHERE_TARGET_FIRMWARE_900 (fun _ => 0xFFFFFFFFFFFFFFFF)
           (device_mapping ATMOSPHERE_TARGET_FIRMWARE_900 MMIO_DEVID_RTC_PMC)).
  - unfold memory_map. rewrite !elem_of_app. right. left. apply list_elem_of_fmap. exists MMIO_DEVID_RTC_PMC.
    split; [done|]. apply elem_of_range. unfold MMIO_DEVID_RTC_PMC. lia.
  - vm_compute. done.
Defined.

(** ** Executable memory *)

(** The table memory with the L3 table the monitor now has. *)
Definition with_l3 (fw : Z) (m : table_memory) (l3 : Z -> Z) : table_memory := fun a =>
  if (mmu_l3_tbl fw <=? a) && (a <? mmu_l3_tbl fw + 4096) then l3 ((a - mmu_l3_tbl fw) / 8) else m a.

(** The descriptors a walk of [m] from [ttbr0] can meet: blocks of the first
    level are not executable, the tables are those of [fw], and an executable
    page is a secure page of TZRAM. *)
Definition l1_safe (fw : Z) (d : Z) : bool :=
  if d .& 3 =? MMU_PTE_TYPE_BLOCK then negb (attributes d .& MMU_PTE_BLOCK_XN =? 0)
  else if d .& 3 =? MMU_PTE_TYPE_TABLE then next_table d =? mmu_l2_tbl fw else true.
Definition l2_safe (fw : Z) (d : Z) : bool :=
  if d .& 3 =? MMU_PTE_TYPE_BLOCK then false
  else if d .& 3 =? MMU_PTE_TYPE_TABLE then next_table d =? mmu_l3_tbl fw else true.
Definition l3_safe (d : Z) : bool :=
  if d .& 3 =? MMU_PTE_TYPE_PAGE
  then negb (attributes d .& MMU_PTE_BLOCK_XN =? 0)
       || ((0x7C010000 <=? output_address 3 d 0) && (output_address 3 d 0 + 0x1000 <=? 0x7C020000) && (attributes d .& MMU_PTE_BLOCK_NS =? 0))
  else true.
Definition tables_safe (fw : Z) (m : table_memory) : bool :=
  forallb (fun i => l1_safe fw (m (mmu_l1_tbl fw + 8 * i))) (range 8)
  && forallb (fun i => l2_safe fw (m (mmu_l2_tbl fw + 8 * i))) (range 512)
  && forallb (fun i => l3_safe (m (mmu_l3_tbl fw + 8 * i))) (range 512).

Lemma index_range level va : 0 <= mmu_compute_index level va < 512.
Proof.
  unfold mmu_compute_index. change 0x1FF with (Z.ones 9). rewrite Z.land_ones by lia. apply Z.mod_pos_bound. lia.
Qed.
Lemma index_1_range va : 0 <= va < 2 ^ 33 -> 0 <= mmu_compute_index 1 va < 8.
Proof.
  intros H. split; [apply index_range|]. unfold mmu_compute_index. change 0x1FF with (Z.ones 9). rewrite Z.land_ones by lia.
  change (12 + 9 * (3 - 1)) with 30. rewrite Z.shiftr_div_pow2 by lia.
  assert (0 <= va / 2 ^ 30 < 8). { split; [apply Z.div_pos; lia|]. apply Z.div_lt_upper_bound; lia. }
  rewrite Z.mod_small; lia.
Qed.

(** A walk of safe tables reaches an executable page only in TZRAM. *)
Lemma safe_walk fw m va pa a : tables_safe fw m = true -> translate m (mmu_l1_tbl fw) va = Some (pa, a) ->
  a .& MMU_PTE_BLOCK_XN = 0 -> 0x7C010000 <= pa < 0x7C020000 /\ a .& MMU_PTE_BLOCK_NS = 0.
Proof.
  unfold tables_safe. rewrite !andb_true_iff, !forallb_forall. intros [[S1 S2] S3] H Hx.
  assert (In1 : forall i n, 0 <= i < n -> In i (range n)) by (intros; by apply list_elem_of_In, elem_of_range).
  unfold translate, walk in H. destruct ((0 <=? va) && (va <? 2 ^ 33)) eqn:Ev; [|done].
  assert (Hva : 0 <= va < 2 ^ 33) by lia. cbn [walk_from] in H. change (1 =? 3) with false in H. cbv iota in H.
  specialize (S1 _ (In1 _ _ (index_1_range va Hva))). unfold l1_safe in S1.
  set (d1 := m (mmu_l1_tbl fw + 8 * mmu_compute_index 1 va)) in *.
  destruct (d1 .& 3 =? MMU_PTE_TYPE_BLOCK); [injection H as <- <-; by rewrite Hx in S1|].
  destruct (d1 .& 3 =? MMU_PTE_TYPE_TABLE); [|done]. apply Z.eqb_eq in S1. rewrite S1 in H.
  change (1 + 1 =? 3) with false in H. cbv iota in H. change (1 + 1) with 2 in H.
  specialize (S2 _ (In1 _ _ (index_range 2 va))). unfold l2_safe in S2.
  set (d2 := m (mmu_l2_tbl fw + 8 * mmu_compute_index 2 va)) in *.
  destruct (d2 .& 3 =? MMU_PTE_TYPE_BLOCK); [done|].
  destruct (d2 .& 3 =? MMU_PTE_TYPE_TABLE); [|done]. apply Z.eqb_eq in S2. rewrite S2 in H.
  change (2 + 1 =? 3) with true in H. cbv iota in H. change (2 + 1) with 3 in H.
  specialize (S3 _ (In1 _ _ (index_range 3 va))). unfold l3_safe in S3.
  set (d3 := m (mmu_l3_tbl fw + 8 * mmu_compute_index 3 va)) in *.
  destruct (d3 .& 3 =? MMU_PTE_TYPE_PAGE); [|done]. injection H as <- <-. rewrite Hx in S3. cbn [Z.eqb negb orb] in S3.
  rewrite !andb_true_iff, !Z.leb_le, Z.eqb_eq in S3. destruct S3 as [[Hlo Hhi] Hns]. split; [|done].
  assert (E : output_address 3 d3 va = output_address 3 d3 0 + va mod 2 ^ 12) 
    by (unfold output_address; change (MMU_Lx_SHIFT 3) with 12; cbv zeta; rewrite Zmod_0_l; lia).
  rewrite E. pose proof (Z.mod_pos_bound va (2 ^ 12) ltac:(lia)). lia.
Qed.

(** The L3 table after the unmapping. *)
Definition unmap_pages (base size : Z) (l3 : Z -> Z) : Z -> Z :=
  foldl (fun t off => upd t (mmu_compute_index 3 (u64 (base + off))) MMU_PTE_TYPE_FAULT) l3 (range_offsets 3 size).
Definition unmapped_l3 (l3 : Z -> Z) : Z -> Z :=
  unmap_pages (Bootup.identity_mapping 1).1 (Bootup.identity_mapping 1).2
    (unmap_pages (Bootup.identity_mapping 0).1 (Bootup.identity_mapping 0).2 l3).

Lemma set_l3_same (w : World) : w <| w_l3 := w_l3 w |> = w.
Proof. by destruct w. Qed.
Lemma unmap_range_run base size w :
  Bootup.mmu_unmap_range base size w = (Ret tt, w <| w_l3 := unmap_pages base size (w_l3 w) |>).
Proof.
  unfold Bootup.mmu_unmap_range, unmap_pages. generalize (range_offsets 3 size) as l. intros l. revert w.
  induction l as [|off l IH]; intros w; cbn [for_each foldl]; [by rewrite set_l3_same|].
  erewrite run_bind by reflexivity. by rewrite IH.
Qed.
Lemma unmap_ranges_run b0 s0 b1 s1 w : (Bootup.mmu_unmap_range b0 s0 ;; Bootup.mmu_unmap_range b1 s1) w =
  (Ret tt, w <| w_l3 := unmap_pages b1 s1 (unmap_pages b0 s0 (w_l3 w)) |>).
Proof. by rewrite (run_bind _ _ _ _ _ (unmap_range_run _ _ _)), unmap_range_run. Qed.
Lemma identity_unmap_run w :
  Bootup.identity_unmap_iram_cd_tzram w = (Ret tt, w <| w_l3 := unmapped_l3 (w_l3 w) |>).
Proof. unfold Bootup.identity_unmap_iram_cd_tzram, unmapped_l3. exact (unmap_ranges_run _ _ _ _ w). Qed.

Definition l3_of (fw : Z) (t : table_memory) : Z -> Z := fun i => t (mmu_l3_tbl fw + 8 * i).
Definition unmapped_tables (fw : Z) (t : table_memory) : table_memory := with_l3 fw t (unmapped_l3 (l3_of fw t)).
Lemma unmapped_checked m : forallb (fun fw => tables_safe fw (unmapped_tables fw (configure_ttbls fw m)))
  [ATMOSPHERE_TARGET_FIRMWARE_100; ATMOSPHERE_TARGET_FIRMWARE_500; ATMOSPHERE_TARGET_FIRMWARE_700] = true.
Proof. vm_compute. reflexivity. Qed.

Lemma unmapped_safe fw m : tables_safe fw (unmapped_tables fw (configure_ttbls fw m)) = true.
Proof.
  assert (E : forall t, tables_safe fw t = tables_safe (fw_class fw) t).
  { intros t. destruct (fw_class_tests fw) as [H5 _]. unfold tables_safe, l1_safe, l2_safe, mmu_l1_tbl, mmu_l2_tbl, mmu_l3_tbl, segment_pa.
    by rewrite H5. }
  rewrite E, configure_ttbls_class. unfold unmapped_tables, with_l3, l3_of. rewrite mmu_l3_tbl_class.
  set (t := configure_ttbls _ m). change (tables_safe (fw_class fw) (unmapped_tables (fw_class fw) t) = true). subst t.
  pose proof (unmapped_checked m) as H. rewrite forallb_forall in H. apply H.
  unfold fw_class. repeat destruct (fw <? _); [left|right; left|right; right; left]; done.
Qed.

Section Boot.
Context {soc : SoC}.

Definition init_firmware (w : World) : Z :=
  let cfg := mailbox_exosphere_config (w_exo w) in
  if cfg_magic cfg =? MAGIC_EXOSPHERE_CONFIG then target_firmware cfg else ATMOSPHERE_TARGET_FIRMWARE_900.

Lemma coldboot_enable_mmu_run m w : exists w1, Bootup.coldboot_enable_mmu m w = (Ret (configure_ttbls (init_firmware w) m), w1) /\
  w_l3 w1 = l3_of (init_firmware w) (configure_ttbls (init_firmware w) m) /\ boot_sysregs (w_boot w1) ttbr0_el3 = mmu_l1_tbl (init_firmware w).
Proof.
  unfold Bootup.coldboot_enable_mmu, Bootup.exosphere_get_target_firmware_for_init. rewrite bind_assoc, run_gets, run_ret.
  fold (init_firmware w). set (fw := init_firmware w). rewrite run_modify.
  assert (Hd : forall w, exists w', Bootup.init_dma_controllers fw w = (Ret tt, w')).
  { intros w0. unfold Bootup.init_dma_controllers. destruct (_ >=? _); eexists; reflexivity. }
  set (w0 := update w_boot _ w). destruct (Hd w0) as [w' E]. rewrite (run_bind _ _ _ _ _ E), run_modify.
  unfold mmu_l1_tbl, segment_pa. destruct (fw <? _); eexists; (split; [reflexivity|]); split; reflexivity.
Qed.

(** C27: after the boot the monitor executes only from its own RAM.  The cold boot
    turns the MMU on with the tables it built; once
    [identity_unmap_iram_cd_tzram] has run on a state with that L3 table, every
    virtual address that translates to executable memory is a secure mapping of
    the 64 KB of TZRAM: neither IRAM, DRAM nor a device can be executed, also
    not through an alias of the shared L3 table. *)
Theorem boot_executes_from_tzram m w :
  exists tables w1, Bootup.coldboot_enable_mmu m w = (Ret tables, w1) /\
    forall w2, w_l3 w2 = w_l3 w1 -> exists w3, Bootup.identity_unmap_iram_cd_tzram w2 = (Ret tt, w3) /\
      forall va pa a,
        translate (with_l3 (init_firmware w) tables (w_l3 w3)) (boot_sysregs (w_boot w1) ttbr0_el3) va = Some (pa, a) ->
        a .& MMU_PTE_BLOCK_XN = 0 -> 0x7C010000 <= pa < 0x7C020000 /\ a .& MMU_PTE_BLOCK_NS = 0.
Proof.
  destruct (coldboot_enable_mmu_run m w) as (w1 & E & L & T). exists (configure_ttbls (init_firmware w) m), w1.
  split; [done|]. intros w2 H2. eexists. split; [apply identity_unmap_run|]. intros va pa a. rewrite T.
  apply safe_walk. rewrite <- (unmapped_safe (init_firmware w) m). unfold unmapped_tables. by rewrite <- L, <- H2.
Qed.

(** Before the unmapping the two windows of the Atmosphere SMCs are mapped, to
    physical address 0, although memory_map.h says that they are not. *)
Theorem ams_windows_mapped_at_startup fw m id : id = MMIO_DEVID_AMS_IRAM_PAGE \/ id = MMIO_DEVID_AMS_USER_PAGE ->
  translate (configure_ttbls fw m) (mmu_l1_tbl fw) (MMIO_GET_DEVICE_ADDRESS id) = Some (0, device_memory).
Proof.
  intros Hid. rewrite configure_ttbls_class, mmu_l1_tbl_class.
  destruct Hid as [-> | ->]; unfold fw_class; repeat destruct (fw <? _); vm_compute; reflexivity.
Qed.
End Boot.
