(* ===== verification/BootProps.v ===== *)
(** Theorems on the boot paths: how a core that CPU_ON started reaches the
    kernel, and what the boot leaves in the security registers. *)
From S2P Require Import Prelude State Utils Se PageTables Pages Config Keys Power SmcUser SmcApi Package2 Bootup Platform.
From S2P Require Import PowerProps PageTableProps.
Import PageTables Mc Cpu Bootup.

(** ** A core that CPU_ON started *)

Section Cores.
Context {soc : SoC}.

(** The parts of the state the way of a core to the kernel does not touch, and
    its entry in the context table. *)
Definition same_core (w w' : World) : Prop :=
  w_core w' = w_core w /\ w_exo w' = w_exo w /\
  length (g_cpu_contexts (w_cpu w')) = length (g_cpu_contexts (w_cpu w)) /\
  ctx_ELR_EL3 (context_of (w_core w) w') = ctx_ELR_EL3 (context_of (w_core w) w) /\
  ctx_argument (context_of (w_core w) w') = ctx_argument (context_of (w_core w) w) /\
  ctx_is_active (context_of (w_core w) w') = ctx_is_active (context_of (w_core w) w).

Lemma restore_context_run w : 0 <= w_core w -> (Z.to_nat (w_core w) < length (g_cpu_contexts (w_cpu w)))%nat ->
  exists w', restore_current_core_context w = (Ret tt, w') /\ same_core w w' /\ w_boot w' = w_boot w /\ w_l3 w' = w_l3 w.
Proof.
  intros H0 Hl. unfold restore_current_core_context, get_core_id. rewrite !run_gets.
  destruct (ctx_is_saved (context_of (w_core w) w)); [|by exists w].
  eexists. split; [reflexivity|]. split; [|done]. unfold same_core.
  match goal with |- context [context_of (w_core w) ?x] => tryif constr_eq x w then fail else set (w1 := x) end.
  assert (E : context_of (w_core w) w1 = (context_of (w_core w) w) <| ctx_is_saved := false |>)
    by exact (context_alter (w_core w) (fun c => c <| ctx_is_saved := false |>) w1 (g_cpu_contexts (w_cpu w)) Hl eq_refl).
  rewrite E. repeat split. cbn. by rewrite length_alter.
Qed.

Lemma core_state_run w : 0 <= w_core w -> (Z.to_nat (w_core w) < length (g_cpu_contexts (w_cpu w)))%nat ->
  exists w', setup_current_core_state w = (Ret tt, w') /\ same_core w w' /\
    boot_sysregs (w_boot w') ttbr0_el3 = boot_sysregs (w_boot w) ttbr0_el3 /\ w_l3 w' = w_l3 w.
Proof.
  intros H0 Hl. unfold setup_current_core_state. repeat (erewrite run_bind by reflexivity).
  match goal with |- exists w', restore_current_core_context ?x = _ /\ _ => set (w1 := x) end.
  destruct (restore_context_run w1) as (w2 & E & S & B & L); [done|done|]. exists w2. split; [done|]. split; [exact S|].
  by rewrite B, L.
Qed.

Lemma warmboot_init_run w : w_mmio w (0x70019000 + MC_SECURITY_CFG3) <> 0 ->
  exists w', warmboot_init w = (Ret tt, w') /\
    w' = w <| w_boot := w_boot w' |> /\
    boot_sysregs (w_boot w') ttbr0_el3 = mmu_l1_tbl (g_exosphere_target_firmware_for_init (w_boot w)).
Proof.
  intros H. unfold warmboot_init, reg_read. rewrite !run_gets, (proj2 (Z.eqb_neq _ _) H), run_ret.
  unfold mmu_l1_tbl, segment_pa. destruct (_ <? _); eexists; (split; [reflexivity|]); done.
Qed.

Lemma warmboot_main_run w e a :
  0 <= w_core w -> (Z.to_nat (w_core w) < length (g_cpu_contexts (w_cpu w)))%nat ->
  w_mmio w (MC_BASE + MC_SECURITY_CFG3) <> 0 ->
  ctx_ELR_EL3 (context_of (w_core w) w) = e -> ctx_argument (context_of (w_core w) w) = a -> e <> 0 ->
  ctx_is_active (context_of (w_core w) w) = false ->
  exists spsr w', warmboot_main w = (Ret (a, e, spsr), w') /\ ctx_is_active (context_of (w_core w) w') = true.
Proof.
  intros H0 Hl Hm He Ha Hne Hact. unfold warmboot_main, get_core_id, is_core_active. rewrite !run_gets, Hact.
  rewrite (run_bind _ _ _ _ _ (identity_unmap_run w)). unfold reg_read. rewrite run_gets.
  change (w_mmio (w <| w_l3 := unmapped_l3 (w_l3 w) |>)) with (w_mmio w).
  rewrite (proj2 (Z.eqb_neq _ _) Hm), run_ret. set (w1 := update w_l3 _ w).
  destruct (core_state_run w1) as (w2 & E2 & (S1 & S2 & S3 & S4 & S5 & S6) & _ & _); [done|done|].
  rewrite (run_bind _ _ _ _ _ E2). erewrite run_bind by reflexivity. erewrite run_bind by reflexivity.
  match goal with |- exists spsr w', core_jump_to_lower_el ?x = _ /\ _ => set (w3 := x) end.
  change (w_core w1) with (w_core w) in *. assert (Hw3 : w_core w3 = w_core w) by done.
  destruct (core_jump_run w3 e a) as (spsr & w4 & E4 & _ & A4).
  - by rewrite Hw3.
  - rewrite Hw3. change (g_cpu_contexts (w_cpu w3)) with (g_cpu_contexts (w_cpu w2)). by rewrite S3.
  - rewrite Hw3. change (context_of (w_core w) w3) with (context_of (w_core w) w2). by rewrite S4.
  - rewrite Hw3. change (context_of (w_core w) w3) with (context_of (w_core w) w2). by rewrite S5.
  - done.
  - rewrite Hw3. change (context_of (w_core w) w3) with (context_of (w_core w) w2). by rewrite S6.
  - exists spsr, w4. split; [done|]. by rewrite <- Hw3.
Qed.

Lemma active_core_panics w : ctx_is_active (context_of (w_core w) w) = true ->
  exists w', warmboot_main w = (Panic 0xF7F00009, w').
Proof.
  intros H. unfold warmboot_main, get_core_id, is_core_active. rewrite !run_gets, H.
  unfold panic, reg_read. rewrite run_gets. destruct (_ =? 0); eexists; reflexivity.
Qed.

(** C28: a core the kernel starts reaches the kernel.  CPU_ON of a core that is not
    running returns 0; when the core comes out of reset, whatever the device
    registers then hold as long as the memory controller is already secured (so
    this is not a warm boot), [warmboot_init] turns its MMU on with the tables of
    the cold boot and [warmboot_main] returns the jump to exactly the entry point
    with the argument given.  The core is then active: another CPU_ON gives
    ALREADY_ON, and a core that enters the warm boot path once more panics. *)
Theorem cpu_on_boots_core core e a w :
  g_has_loaded_config (w_exo w) = true -> length (g_cpu_contexts (w_cpu w)) = 4%nat ->
  0 <= core < 4 -> ctx_is_active (context_of core w) = false -> e <> 0 ->
  exists w1, cpu_on core e a w = (Ret 0, w1) /\
    forall mmio, mmio (0x70019000 + MC_SECURITY_CFG3) <> 0 -> mmio (MC_BASE + MC_SECURITY_CFG3) <> 0 ->
    exists w2, warmboot_init (w1 <| w_core := core |> <| w_mmio := mmio |>) = (Ret tt, w2) /\
      boot_sysregs (w_boot w2) ttbr0_el3 = mmu_l1_tbl (g_exosphere_target_firmware_for_init (w_boot w)) /\
      exists spsr w3, warmboot_main w2 = (Ret (a, e, spsr), w3) /\
        (forall e' a', cpu_on core e' a' w3 = (Ret 0xFFFFFFFC, w3)) /\
        (exists w4, warmboot_main (w3 <| w_core := core |>) = (Panic 0xF7F00009, w4)).
Proof.
  intros Hl Hlen Hc Ha He. destruct (cpu_on_run core e a w Hc Ha Hl) as (w1 & E & Hm). exists w1. split; [done|].
  assert (Hx : context_of core w1 = (context_of core w) <| ctx_ELR_EL3 := e |> <| ctx_argument := a |>).
  { rewrite Hm. apply (context_alter _ (fun c => c <| ctx_ELR_EL3 := e |> <| ctx_argument := a |>)); [lia|done]. }
  assert (Hlen1 : length (g_cpu_contexts (w_cpu w1)) = 4%nat) by (rewrite Hm; cbn; by rewrite length_alter).
  intros mmio M1 M2. set (w1' := update w_mmio _ _). destruct (warmboot_init_run w1') as (w2 & E2 & O2 & T2); [done|].
  exists w2. split; [done|]. split; [rewrite T2; unfold w1'; rewrite Hm; done|].
  assert (Hc2 : w_core w2 = core) by (by rewrite O2). assert (Hx2 : context_of core w2 = context_of core w1) by (by rewrite O2).
  destruct (warmboot_main_run w2 e a) as (spsr & w3 & E3 & A3).
  - lia.
  - rewrite Hc2, O2. cbn. rewrite Hlen1. lia.
  - by rewrite O2.
  - by rewrite Hc2, Hx2, Hx.
  - by rewrite Hc2, Hx2, Hx.
  - done.
  - by rewrite Hc2, Hx2, Hx.
  - exists spsr, w3. rewrite Hc2 in A3. split; [done|]. split.
    + intros e' a'. unfold cpu_on, NUM_CPU_CORES. replace (core >=? 4) with false by (by zdec). by rewrite run_gets, A3.
    + by apply active_core_panics.
Qed.
End Cores.

Module CoreWitness.
#[local] Existing Instance Toy.toy_soc.
Definition secured : Z -> Z := fun _ => 3.
Lemma cpu_on_boots_core_witness :
  exists w1, cpu_on 1 0x80060000 7 (Toy.toy_world ATMOSPHERE_TARGET_FIRMWARE_500) = (Ret 0, w1) /\
    exists w2, warmboot_init (w1 <| w_core := 1 |> <| w_mmio := secured |>) = (Ret tt, w2) /\
      boot_sysregs (w_boot w2) ttbr0_el3 = 0x7C0127C0 /\
      exists spsr w3, warmboot_main w2 = (Ret (7, 0x80060000, spsr), w3).
Proof.
  destruct (cpu_on_boots_core 1 0x80060000 7 (Toy.toy_world ATMOSPHERE_TARGET_FIRMWARE_500)) as (w1 & E1 & H); try done.
  exists w1. split; [exact E1|]. destruct (H secured) as (w2 & E2 & T2 & spsr & w3 & E3 & _); [done|done|].
  exists w2. split; [exact E2|]. split; [rewrite T2; reflexivity|]. exists spsr, w3. exact E3.
Defined.
End CoreWitness.
