(* ===== verification/Devices.v ===== *)
(** The storage devices of fusee-secondary: the data of device_partition.h,
    raw_dev.c, emu_dev.c, fs_dev.c and nxfs.c, and the state those files keep.

    A block of heap memory is the list of its bytes.  The four function pointers
    of a partition that do the work (initializer, finalizer, reader, writer)
    always come together from one of the two templates of nxfs.c, so they are one
    field, [driver]. *)
From S2P Require Import Prelude State.
#[global] Open Scope Z_scope.

(** ** device_partition.h *)

Inductive DevicePartitionCryptoMode :=
  DevicePartitionCryptoMode_None | DevicePartitionCryptoMode_Ctr | DevicePartitionCryptoMode_Xts.
Inductive device_partition_cipher_t := nxfs_bis_crypto_decrypt_fn | nxfs_bis_crypto_encrypt_fn.
Inductive device_partition_driver := mmc_partition | emummc_partition.

(** The two card structures a partition can belong to, and its [device_struct]. *)
Inductive sdmmc_device := g_sd_device | g_emmc_device.
#[export] Instance sdmmc_device_eq : EqDecision sdmmc_device.
Proof. solve_decision. Defined.
Record mmc_partition_info_t := mk_mmcpart { mmcpart_device : sdmmc_device; mmcpart_controller : Z; mmcpart_partition : Z }.

Record device_partition_t := mk_devpart {
  sector_size : Z;
  start_sector : Z;
  num_sectors : Z;
  read_cipher : option device_partition_cipher_t;
  write_cipher : option device_partition_cipher_t;
  crypto_mode : DevicePartitionCryptoMode;
  driver : device_partition_driver;
  device_struct : option mmc_partition_info_t;
  crypto_work_buffer : option (list Z);
  crypto_work_buffer_num_sectors : Z;
  devpart_keys : list (list Z);
  devpart_iv : list Z;
  initialized : bool;
  emu_file_path : option (list Z);
  emu_use_file : bool }.
#[export] Instance eta_devpart : Eta device_partition_t := fun x =>
  mk_devpart (sector_size x) (start_sector x) (num_sectors x) (read_cipher x) (write_cipher x) (crypto_mode x)
    (driver x) (device_struct x) (crypto_work_buffer x) (crypto_work_buffer_num_sectors x) (devpart_keys x)
    (devpart_iv x) (initialized x) (emu_file_path x) (emu_use_file x).

(** ** raw_dev.c, emu_dev.c, fs_dev.c *)

(** The [devoptab] of a device is the fixed table of its kind. *)
Record rawdev_device_t := mk_rawdev {
  tmp_sector : list Z;
  devpart : device_partition_t;
  dev_name : list Z;
  root_path : list Z;
  setup : bool;
  registered : bool }.
#[export] Instance eta_rawdev : Eta rawdev_device_t := fun x =>
  mk_rawdev (tmp_sector x) (devpart x) (dev_name x) (root_path x) (setup x) (registered x).

(** [emudev_device_t] has three more members. *)
Record emudev_device_t := mk_emudev {
  emu_base : rawdev_device_t;
  origin_path : list Z;
  num_parts : Z;
  part_limit : Z }.
#[export] Instance eta_emudev : Eta emudev_device_t := fun x =>
  mk_emudev (emu_base x) (origin_path x) (num_parts x) (part_limit x).

(** [rawdev_file_t] and [emudev_file_t]; the device is the caller's. *)
Record devfile := mk_devfile { open_flags : Z; offset : Z }.
#[export] Instance eta_devfile : Eta devfile := fun x => mk_devfile (open_flags x) (offset x).

(** [memset(device, 0, sizeof(..))]. *)
Definition no_devpart : device_partition_t :=
  mk_devpart 0 0 0 None None DevicePartitionCryptoMode_None mmc_partition None None 0 [zeros 16; zeros 16] (zeros 16) false None false.
Definition no_rawdev : rawdev_device_t := mk_rawdev [] no_devpart [] [] false false.
Definition no_emudev : emudev_device_t := mk_emudev no_rawdev [] 0 0.

(** ** The state *)

(** What the cards hold, byte by byte, and which part of the eMMC it shows; the
    globals of nxfs.c; the device tables; the names in newlib's table of
    devices; the files of the SD card written since the start, newest first. *)
Record storage_state := mk_storage {
  sd_bytes : Z -> Z;
  emmc_bytes : Z -> Z -> Z;
  emmc_selected : Z;
  g_ahb_redirect_enabled : bool;
  g_sd_device_initialized : bool;
  g_emmc_device_initialized : bool;
  g_fsdev_ready : bool;
  g_rawdev_ready : bool;
  g_emudev_ready : bool;
  g_is_emummc : bool;
  g_current_emmc_partition : Z;
  g_rawdev_devices : list rawdev_device_t;
  g_emudev_devices : list emudev_device_t;
  g_fsdev_devices : list rawdev_device_t;
  devoptab_names : list (list Z);
  default_device : list Z;
  written_files : list (list Z * list Z);
  errno : Z }.
#[export] Instance eta_storage : Eta storage_state := fun x =>
  mk_storage (sd_bytes x) (emmc_bytes x) (emmc_selected x) (g_ahb_redirect_enabled x) (g_sd_device_initialized x)
    (g_emmc_device_initialized x) (g_fsdev_ready x) (g_rawdev_ready x) (g_emudev_ready x) (g_is_emummc x)
    (g_current_emmc_partition x) (g_rawdev_devices x) (g_emudev_devices x) (g_fsdev_devices x) (devoptab_names x)
    (default_device x) (written_files x) (errno x).
