(* ===== verification/Fusee.v ===== *)
(** The base of the boot loader fusee-secondary (src/fusee/fusee-secondary/src):
    its state, the monad its code runs in, the SD card, and the functions of
    utils.c, utils.h and fs_utils.c that the other files use.

    The boot loader runs on the BPMP, a 32-bit core, before the monitor:
    [size_t] and pointers are 32 bits wide.  It drives the same Security Engine
    with the same driver (its se.c repeats exosphere's, less the cache
    maintenance), so [hw] runs the driver of Se.v on the shared hardware.  A
    heap block is the list of its bytes; an access outside a block stops the
    run with [BadAccess], so that the theorems say when it cannot happen. *)
From stdpp Require Export strings.
From S2P Require Import Prelude State Utils Se Devices.
#[global] Open Scope Z_scope.
#[global] Open Scope c_scope.

(** ** Results *)

(** Why a run ends before it returns: [fatal_error], which prints its message
    and waits for the reboot; [panic]; an endless loop; an access outside the
    block a pointer belongs to. *)
Inductive stop := Fatal | Panicked (code : Z) | Hangs | BadAccess.

Inductive res (A : Type) := Ok (a : A) | Stop (s : stop).
Arguments Ok {A} a.
Arguments Stop {A} s.

#[export] Instance res_ret : MRet res := fun A a => Ok a.
#[export] Instance res_bind : MBind res := fun A B f m =>
  match m with Ok a => f a | Stop s => Stop s end.

Lemma res_bind_ok {A B} (m : res A) (f : A -> res B) a : m = Ok a -> (m ≫= f) = f a.
Proof. by intros ->. Qed.

(** ** State *)

Record ips_state := mk_ips_state { g_enable_nogc_patches : bool }.
#[export] Instance eta_ips : Eta ips_state := fun x => mk_ips_state (g_enable_nogc_patches x).

Record stratosphere_state := mk_stratosphere_state {
  g_stratosphere_ini1 : option (list Z);
  g_sd_files_ini1 : option (list Z);
  g_stratosphere_loader_enabled : bool;
  g_stratosphere_sm_enabled : bool;
  g_stratosphere_pm_enabled : bool;
  g_stratosphere_ams_mitm_enabled : bool;
  g_stratosphere_spl_enabled : bool;
  g_stratosphere_boot_enabled : bool;
  g_fs_ver : Z }.
#[export] Instance eta_stratosphere : Eta stratosphere_state := fun x =>
  mk_stratosphere_state (g_stratosphere_ini1 x) (g_sd_files_ini1 x) (g_stratosphere_loader_enabled x)
    (g_stratosphere_sm_enabled x) (g_stratosphere_pm_enabled x) (g_stratosphere_ams_mitm_enabled x)
    (g_stratosphere_spl_enabled x) (g_stratosphere_boot_enabled x) (g_fs_ver x).

(** The masterkey.c and key_derivation.c of the boot loader. *)
Record fusee_key_state := mk_fusee_keys {
  f_mkey_revision : Z;
  f_determined_mkey_revision : bool;
  f_old_masterkeys : list (list Z);
  g_dec_keyblobs : list (list Z) }.
#[export] Instance eta_fusee_keys : Eta fusee_key_state := fun x =>
  mk_fusee_keys (f_mkey_revision x) (f_determined_mkey_revision x) (f_old_masterkeys x) (g_dec_keyblobs x).

Record FWorld := mk_fworld {
  f_hw : World;                    (* the machine the monitor finds later *)
  f_ips : ips_state;               (* ips.c *)
  f_strat : stratosphere_state;    (* stratosphere.c *)
  f_keys : fusee_key_state;        (* masterkey.c, key_derivation.c *)
  f_dev : storage_state }.         (* nxfs.c and the device files *)
#[export] Instance eta_fworld : Eta FWorld := fun x => mk_fworld (f_hw x) (f_ips x) (f_strat x) (f_keys x) (f_dev x).

(** ** The monad *)

Definition F (A : Type) : Type := FWorld -> res A * FWorld.

#[export] Instance F_ret : MRet F := fun A a w => (Ok a, w).
#[export] Instance F_bind : MBind F := fun A B f m w =>
  match m w with (Ok a, w') => f a w' | (Stop s, w') => (Stop s, w') end.

Definition fgets {A} (f : FWorld -> A) : F A := fun w => (Ok (f w), w).
Definition fmodify (f : FWorld -> FWorld) : F unit := fun w => (Ok tt, f w).
Definition stopped {A} (s : stop) : F A := fun w => (Stop s, w).
Definition fatal_error {A} : F A := stopped Fatal.

(** A computation on heap blocks alone. *)
Definition heap {A} (r : res A) : F A := fun w => (r, w).

(** A driver call on the hardware. *)
Definition hw {A} (m : M A) : F A := fun w =>
  match m (f_hw w) with
  | (Ret a, h) => (Ok a, w <| f_hw := h |>)
  | (Panic c, h) => (Stop (Panicked c), w <| f_hw := h |>)
  | (Spin, h) => (Stop Hangs, w <| f_hw := h |>)
  | (Fault, h) => (Stop BadAccess, w <| f_hw := h |>)
  end.

Fixpoint ffold {A B} (f : B -> A -> F B) (acc : B) (l : list A) : F B :=
  match l with [] => mret acc | x :: r => acc' ← f acc x; ffold f acc' r end.

Section Run.
Lemma frun_bind {A B} (m : F A) (f : A -> F B) w a w' : m w = (Ok a, w') -> (m ≫= f) w = f a w'.
Proof. unfold mbind, F_bind. by intros ->. Qed.
Lemma frun_gets {A B} (g : FWorld -> A) (f : A -> F B) w : (fgets g ≫= f) w = f (g w) w.
Proof. done. Qed.
Lemma frun_heap {A B} (a : A) (f : A -> F B) w : (heap (Ok a) ≫= f) w = f a w.
Proof. done. Qed.
Lemma frun_ret {A B} (a : A) (f : A -> F B) w : (mret a ≫= f) w = f a w.
Proof. done. Qed.
Lemma frun_assoc {A B C} (m : F A) (f : A -> F B) (g : B -> F C) w :
  ((m ≫= f) ≫= g) w = (m ≫= fun a => f a ≫= g) w.
Proof. unfold mbind, F_bind. by destruct (m w) as [[] ?]. Qed.
Lemma frun_inv {A B} (m : F A) (f : A -> F B) w b w' : (m ≫= f) w = (Ok b, w') ->
  exists a w1, m w = (Ok a, w1) /\ f a w1 = (Ok b, w').
Proof. unfold mbind, F_bind. destruct (m w) as [[a|] w1]; [by exists a, w1|done]. Qed.
Lemma ffold_inv {A B} (P : B -> Prop) (f : B -> A -> F B) l acc w b w' :
  (forall acc x w b w', P acc -> f acc x w = (Ok b, w') -> P b) -> P acc -> ffold f acc l w = (Ok b, w') -> P b.
Proof.
  intros Hf. revert acc w. induction l as [|x l IH]; intros acc w Hp; cbn [ffold]; [by intros [= <- _]|].
  intros (a & w1 & E1 & E2)%frun_inv. eapply IH; [|exact E2]. by eapply Hf.
Qed.
Lemma frun_hw {A} (m : M A) w a h : m (f_hw w) = (Ret a, h) -> hw m w = (Ok a, w <| f_hw := h |>).
Proof. unfold hw. by intros ->. Qed.
End Run.

(** ** Heap blocks *)

(** [memcpy(block + off, src, |src|)] and reads, refused outside the block.
    Offsets are reduced to 32 bits, as the pointers are. *)
Definition store_at (block : list Z) (off : Z) (src : list Z) : res (list Z) :=
  match src with
  | [] => Ok block
  | _ => if (u32 off + Z.of_nat (length src) <=? Z.of_nat (length block))
         then Ok (splice block (u32 off) src) else Stop BadAccess
  end.

Definition load_at (block : list Z) (off size : Z) : res (list Z) :=
  if size =? 0 then Ok []
  else if (u32 off + size <=? Z.of_nat (length block)) then Ok (slice block (u32 off) size)
  else Stop BadAccess.

(** ** The SD card and the build *)

(** C strings are the lists of their characters, without the final NUL. *)
Definition str (s : string) : list Z :=
  map (fun c => Z.of_N (Ascii.N_of_ascii c)) (String.list_ascii_of_string s).

(** [sd_file path] is the content of a regular file, [sd_dir path] the names
    [readdir] gives for a directory, in its order.  [heap_has n] says whether an
    allocation of [n] bytes succeeds.  The KIPs are linked into the binary. *)
Class Card := {
  sd_file : list Z -> option (list Z);
  sd_dir : list Z -> option (list (list Z));
  heap_has : Z -> bool;
  loader_kip : list Z;
  pm_kip : list Z;
  sm_kip : list Z;
  spl_kip : list Z;
  ams_mitm_kip : list Z;
  boot_kip : list Z }.

(** [snprintf(buf, n, ..)] of the formatted string [s]. *)
Definition snprintf (n : Z) (s : list Z) : list Z := take (Z.to_nat (n - 1)) s.

(** [fread(buf, n, 1, f)] on the rest [f] of a file: the element and what is
    left, or nothing when [n] is 0 or the file is too short. *)
Definition fread (f : list Z) (n : Z) : option (list Z * list Z) :=
  if (n =? 0) || (Z.of_nat (length f) <? n) then None
  else Some (take (Z.to_nat n) f, drop (Z.to_nat n) f).

Section FsUtils.
Context {card : Card}.

(** The size is a [size_t]. *)
Definition get_file_size (filename : list Z) : Z :=
  match sd_file filename with
  | Some content => u32 (Z.of_nat (length content))
  | None => 0
  end.

(** [fread(dst, 1, dst_size, file)]: the bytes read, fewer at the end of the
    file; their number is the result of the C function. *)
Definition read_from_file (dst_size : Z) (filename : list Z) : list Z :=
  match sd_file filename with
  | None => []
  | Some content => take (Z.to_nat dst_size) content
  end.
End FsUtils.
