(* ===== verification/FuseeToy.v ===== *)
(** A concrete card for the boot loader's witnesses: no file, no directory, a
    heap that never runs out, and empty built-in KIPs. *)
From S2P Require Import Prelude State Utils Se Devices Fusee.

#[export] Instance empty_card : Card := {
  sd_file _ := None;
  sd_dir _ := None;
  heap_has _ := true;
  loader_kip := [];
  pm_kip := [];
  sm_kip := [];
  spl_kip := [];
  ams_mitm_kip := [];
  boot_kip := [] }.

(** Blank cards and no device. *)
Definition empty_storage : storage_state :=
  mk_storage (fun _ => 0) (fun _ _ => 0) 0 false false false false false false false (-1)
    (replicate 16 no_rawdev) (replicate 16 no_emudev) (replicate 10 no_rawdev) [] [] [] 0.
