(* ===== verification/Ips.v ===== *)
(** kip.h and ips.c: kernel initial processes (KIPs), their decompression, and
    the IPS patches applied to them and to the kernel. *)
From S2P Require Import Prelude State Utils Se Fusee.
Import SE.

Module Kip.

Definition MAGIC_INI1 := 0x31494E49.
Definition MAGIC_KIP1 := 0x3150494B.
Definition INI1_MAX_KIPS := 0x50.

(** [kip1_header_t], as its 0x100 bytes. *)
Definition kip1_header_size := 0x100.
Definition kip_magic (h : list Z) : Z := read32le h 0.
Definition kip_title_id (h : list Z) : Z := read64le h 0x10.
Definition kip_flags (h : list Z) : Z := byte_at h 0x1F.
Definition kip_out_offset (h : list Z) (i : Z) : Z := read32le h (0x20 + 0x10 * i).
Definition kip_out_size (h : list Z) (i : Z) : Z := read32le h (0x20 + 0x10 * i + 4).
Definition kip_compressed_size (h : list Z) (i : Z) : Z := read32le h (0x20 + 0x10 * i + 8).
Definition kip_capability (h : list Z) (i : Z) : Z := read32le h (0x80 + 4 * i).

Definition write32le (buf : list Z) (off v : Z) : list Z := splice buf off (le_bytes 4 v).

Definition kip1_get_size_from_header (h : list Z) : Z :=
  u32 (0x100 + kip_compressed_size h 0 + kip_compressed_size h 1 + kip_compressed_size h 2).

(** [ini1_header_t]: 0x10 bytes, then the KIPs. *)
Definition ini1_header_size := 0x10.
Definition ini1_magic (h : list Z) : Z := read32le h 0.
Definition ini1_size (h : list Z) : Z := read32le h 4.
Definition ini1_num_processes (h : list Z) : Z := read32le h 8.
Definition ini1_header (size num_processes : Z) : list Z :=
  le_bytes 4 MAGIC_INI1 ++ le_bytes 4 size ++ le_bytes 4 num_processes ++ le_bytes 4 0.
End Kip.

Module Ips.
Import Kip.

Definition IPS_MAGIC := str "PATCH".
Definition IPS_TAIL := str "EOF".
Definition IPS32_MAGIC := str "IPS32".
Definition IPS32_TAIL := str "EEOF".
Definition NOGC_PATCH_DIR := str "default_nogc".
Definition FS_TITLE_ID := 0x0100000000000000.

(** ** One patch *)

Definition is_ips_tail (is_ips32 : bool) (buffer : list Z) : bool :=
  if is_ips32 then bool_decide (buffer = IPS32_TAIL) else bool_decide (buffer = IPS_TAIL).

(** Big-endian fields. *)
Definition be_field (buffer : list Z) : Z := le_value (rev buffer).

(** [memset] of an RLE record whose offset is past the protected bytes. *)
Definition rle_fill (mem : list Z) (mem_size patch_offset rle_size value : Z) : res (list Z) :=
  let rle_size := if u32 (patch_offset + rle_size) >? mem_size then u32 (mem_size - patch_offset)
                  else rle_size in
  store_at mem patch_offset (replicate (Z.to_nat rle_size) value).

Definition apply_rle (mem : list Z) (mem_size prot_size patch_offset rle_size value : Z) : res (list Z) :=
  if patch_offset <? prot_size then
    if u32 (patch_offset + rle_size) >? prot_size then
      let diff := u32 (prot_size - patch_offset) in
      rle_fill mem mem_size (u32 (patch_offset + diff)) (u32 (rle_size - diff)) value
    else Ok mem
  else rle_fill mem mem_size patch_offset rle_size value.

(** The data of a record whose offset is past the protected bytes, read from
    [f]; [None] for the rest of the file is the [break].  A short read stores
    the bytes up to the end of the file. *)
Definition data_copy (mem : list Z) (mem_size patch_offset patch_size : Z) (f : list Z)
    : res (list Z * option (list Z)) :=
  let read_size := if u32 (patch_offset + patch_size) >? mem_size then u32 (mem_size - patch_offset)
                   else patch_size in
  match fread f read_size with
  | None => mem' ← store_at mem patch_offset (take (Z.to_nat read_size) f); Ok (mem', None)
  | Some (data, f) =>
      mem' ← store_at mem patch_offset data;
      Ok (mem', Some (if patch_size >? read_size then drop (Z.to_nat (patch_size - read_size)) f else f))
  end.

Definition apply_data (mem : list Z) (mem_size prot_size patch_offset patch_size : Z) (f : list Z)
    : res (list Z * option (list Z)) :=
  if patch_offset <? prot_size then
    if u32 (patch_offset + patch_size) >? prot_size then
      let diff := u32 (prot_size - patch_offset) in
      data_copy mem mem_size (u32 (patch_offset + diff)) (u32 (patch_size - diff)) (drop (Z.to_nat diff) f)
    else Ok (mem, Some (drop (Z.to_nat patch_size) f))
  else data_copy mem mem_size patch_offset patch_size f.

(** One round of the loop: the memory, and the rest of the file or, after a
    [break], nothing. *)
Definition ips_record_step (is_ips32 : bool) (mem_size prot_size : Z) (mem f : list Z)
    : res (list Z * option (list Z)) :=
  match fread f (if is_ips32 then 4 else 3) with
  | None => Ok (mem, None)
  | Some (buffer, f) =>
      if is_ips_tail is_ips32 buffer then Ok (mem, None) else
      let patch_offset := be_field buffer in
      match fread f 2 with
      | None => Ok (mem, None)
      | Some (buffer, f) =>
          let patch_size := be_field buffer in
          if patch_size =? 0 then
            match fread f 2 with
            | None => Ok (mem, None)
            | Some (buffer, f) =>
                let rle_size := be_field buffer in
                match fread f 1 with
                | None => Ok (mem, None)
                | Some (buffer, f) =>
                    mem' ← apply_rle mem mem_size prot_size patch_offset rle_size (byte_at buffer 0);
                    Ok (mem', Some f)
                end
            end
          else apply_data mem mem_size prot_size patch_offset patch_size f
      end
  end.

Fixpoint ips_loop (fuel : nat) (is_ips32 : bool) (mem_size prot_size : Z) (mem f : list Z)
    : res (list Z) :=
  match fuel with
  | O => Stop Hangs
  | S n =>
      r ← ips_record_step is_ips32 mem_size prot_size mem f;
      match r : list Z * option (list Z) with
      | (mem, None) => Ok mem
      | (mem, Some f) => ips_loop n is_ips32 mem_size prot_size mem f
      end
  end.

(** Every round that goes on has read at least three bytes. *)
Definition apply_ips_patch (mem : list Z) (mem_size prot_size : Z) (is_ips32 : bool) (f_ips : list Z)
    : res (list Z) :=
  ips_loop (S (length f_ips)) is_ips32 mem_size prot_size mem f_ips.

(** ** Finding patches *)

Definition hex_nybble_to_u8 (nybble : Z) : Z :=
  if (0x30 <=? nybble) && (nybble <=? 0x39) then nybble - 0x30
  else if (0x61 <=? nybble) && (nybble <=? 0x66) then nybble - 0x61 + 0xA
  else u8 (nybble - 0x41 + 0xA).

Definition isxdigit (c : Z) : bool :=
  ((0x30 <=? c) && (c <=? 0x39)) || ((0x61 <=? c) && (c <=? 0x66)) || ((0x41 <=? c) && (c <=? 0x46)).

(** The bytes of the digits, two by two. *)
Fixpoint bytes_of_hex (name : list Z) : list Z :=
  match name with
  | a :: b :: r => u8 (hex_nybble_to_u8 a <<. 4) .| hex_nybble_to_u8 b :: bytes_of_hex r
  | _ => []
  end.

Definition name_matches_hash (name hash : list Z) : bool :=
  let digits := take (length name - 4) name in
  if negb (forallb isxdigit digits) then false
  else bool_decide (hash = splice (zeros 0x20) 0 (bytes_of_hex digits)).

Definition is_dot (name : list Z) : bool := bool_decide (name = str ".") || bool_decide (name = str "..").

Definition is_patch_name (name hash : list Z) : bool :=
  let name_len := Z.of_nat (length name) in
  (4 <? name_len) && (name_len <=? 0x44) && (name_len .& 1 =? 0)
  && bool_decide (drop (length name - 4) name = str ".ips") && name_matches_hash name hash.

Definition hex_digit (n : Z) : Z := if n <? 10 then n + 0x30 else n - 10 + 0x41.
(** ["%02X"] of each byte. *)
Definition hex_upper (bs : list Z) : list Z := bs ≫= fun b => [hex_digit (b >>. 4); hex_digit (b .& 0xF)].

Definition should_ignore_default_patch (enable_nogc : bool) (patch_dir : list Z) : bool :=
  negb enable_nogc && bool_decide (patch_dir = NOGC_PATCH_DIR).

Section Ops.
Context {soc : SoC} {card : Card}.

Definition kip_patches_set_enable_nogc : F unit :=
  fmodify (fun w => w <| f_ips ::= fun s => s <| g_enable_nogc_patches := true |> |>).

(** The C function opens the file to see whether it exists. *)
Definition has_patch (dir : list Z) (subdir : option (list Z)) (hash : list Z) : bool :=
  let path := dir ++ str "/" ++ match subdir with Some s => s ++ str "/" | None => [] end
                ++ hex_upper hash ++ str ".ips" in
  if Z.of_nat (length path) >=? 0x301 then false
  else match sd_file path with Some _ => true | None => false end.

Definition has_needed_default_kip_patches (enable_nogc : bool) (title_id : Z) (hash : list Z) : bool :=
  if (title_id =? 0x0100000000000000) && enable_nogc
  then has_patch (str "atmosphere/kip_patches") (Some NOGC_PATCH_DIR) hash
  else true.

(** The sub-directories of [dir] whose patches count, with their files. *)
Definition patch_dirs (enable_nogc : bool) (dir : list Z) : list (list Z * list (list Z)) :=
  match sd_dir (snprintf 0x300 dir) with
  | None => []
  | Some entries =>
      omap (fun d => if is_dot d || should_ignore_default_patch enable_nogc d then None
                     else files ← sd_dir (snprintf 0x300 (dir ++ str "/" ++ d)); Some (d, files)) entries
  end.

(** The patch files of [dir] for [hash], opened, without their magic: whether
    the patch is an IPS32 one and the rest of the file. *)
Definition open_patch (dir d name hash : list Z) : option (bool * list Z) :=
  if is_dot name || negb (is_patch_name name hash) then None else
  content ← sd_file (snprintf 0x300 (dir ++ str "/" ++ d ++ str "/" ++ name));
  r ← fread content 5;
  let '(header, f_ips) := r : list Z * list Z in
  if bool_decide (header = IPS_MAGIC) then Some (false, f_ips)
  else if bool_decide (header = IPS32_MAGIC) then Some (true, f_ips)
  else None.

Definition matching_patches (enable_nogc : bool) (dir hash : list Z) : list (bool * list Z) :=
  patch_dirs enable_nogc dir ≫= fun '(d, files) => omap (fun name => open_patch dir d name hash) files.

(** The C loops stop at the first patch found. *)
Definition has_ips_patches (enable_nogc : bool) (dir hash : list Z) : bool :=
  existsb (fun '(d, files) =>
    existsb (fun name => match open_patch dir d name hash with Some _ => true | None => false end) files)
  (patch_dirs enable_nogc dir).

Fixpoint apply_all (patches : list (bool * list Z)) (mem : list Z) (mem_size prot_size : Z) : res (list Z) :=
  match patches with
  | [] => Ok mem
  | (is_ips32, f_ips) :: r =>
      mem' ← apply_ips_patch mem mem_size prot_size is_ips32 f_ips;
      apply_all r mem' mem_size prot_size
  end.

Definition apply_ips_patches (enable_nogc : bool) (dir mem : list Z) (mem_size prot_size : Z)
    (hash : list Z) : res (list Z) :=
  apply_all (matching_patches enable_nogc dir hash) mem mem_size prot_size.

Definition nogc_enabled : F bool := fgets (fun w => g_enable_nogc_patches (f_ips w)).

(** [kernel] is the block from the kernel's first byte on. *)
Definition apply_kernel_ips_patches (kernel : list Z) (kernel_size : Z) : F (list Z) :=
  data ← heap (load_at kernel 0 kernel_size);
  hash ← hw (se_calculate_sha256 data kernel_size);
  nogc ← nogc_enabled;
  heap (apply_ips_patches nogc (str "atmosphere/kernel_patches") kernel kernel_size 0 hash).
End Ops.

(** ** KIP decompression *)

(** The block that is decompressed in place, and the two offsets from
    [cmp_start]. *)
Record blz := mk_blz { blz_mem : list Z; cmp_ofs : Z; out_ofs : Z }.

Definition blz_byte (mem : list Z) (cmp_start i : Z) : res Z :=
  b ← load_at mem (cmp_start + i) 1; Ok (byte_at b 0).

Fixpoint blz_copy_loop (js : list Z) (cmp_start out seg_ofs : Z) (mem : list Z) : res (list Z) :=
  match js with
  | [] => Ok mem
  | j :: r =>
      b ← blz_byte mem cmp_start (u32 (out + j + seg_ofs));
      mem' ← store_at mem (cmp_start + u32 (out + j)) [b];
      blz_copy_loop r cmp_start out seg_ofs mem'
  end.

Definition blz_segment (cmp_start : Z) (s : blz) : res blz :=
  if cmp_ofs s <? 2 then Stop Fatal else
  let cmp := cmp_ofs s - 2 in
  hi ← blz_byte (blz_mem s) cmp_start (cmp + 1);
  lo ← blz_byte (blz_mem s) cmp_start cmp;
  let seg_val := u16 ((hi <<. 8) .| lo) in
  let seg_size := ((seg_val >>. 12) .& 0xF) + 3 in
  let seg_ofs := (seg_val .& 0x0FFF) + 3 in
  let seg_size := if out_ofs s <? seg_size then out_ofs s else seg_size in
  let out := out_ofs s - seg_size in
  mem ← blz_copy_loop (range seg_size) cmp_start out seg_ofs (blz_mem s);
  Ok (mk_blz mem cmp out).

Definition blz_literal (cmp_start : Z) (s : blz) : res blz :=
  if cmp_ofs s <? 1 then Stop Fatal else
  b ← blz_byte (blz_mem s) cmp_start (cmp_ofs s - 1);
  mem ← store_at (blz_mem s) (cmp_start + (out_ofs s - 1)) [b];
  Ok (mk_blz mem (cmp_ofs s - 1) (out_ofs s - 1)).

(** The [for] loop over the control byte's bits, which leaves when the output
    is complete. *)
Fixpoint blz_bits (n : nat) (control cmp_start : Z) (s : blz) : res blz :=
  match n with
  | O => Ok s
  | S n' =>
      s' ← (if negb (control .& 0x80 =? 0) then blz_segment cmp_start s else blz_literal cmp_start s);
      if out_ofs s' =? 0 then Ok s' else blz_bits n' (u8 (control <<. 1)) cmp_start s'
  end.

Fixpoint blz_loop (fuel : nat) (cmp_start : Z) (s : blz) : res (list Z) :=
  match fuel with
  | O => Stop Hangs
  | S n =>
      if out_ofs s =? 0 then Ok (blz_mem s) else
      let cmp := u32 (cmp_ofs s - 1) in
      control ← blz_byte (blz_mem s) cmp_start cmp;
      s' ← blz_bits 8 control cmp_start (mk_blz (blz_mem s) cmp (out_ofs s));
      blz_loop n cmp_start s'
  end.

(** [hdr_end] is an offset in the block.  Each round writes at least one byte,
    so the size of the output bounds the rounds. *)
Definition kip1_blz_uncompress (mem : list Z) (hdr_end : Z) : res (list Z) :=
  footer ← load_at mem (hdr_end - 12) 12;
  let addl_size := read32le footer 8 in
  let header_size := read32le footer 4 in
  let cmp_and_hdr_size := read32le footer 0 in
  let out := u32 (cmp_and_hdr_size + addl_size) in
  blz_loop (S (Z.to_nat out)) (hdr_end - cmp_and_hdr_size)
    (mk_blz mem (u32 (cmp_and_hdr_size - header_size)) out).

(** The header [kip1_uncompress] writes: sizes as uncompressed, the compression
    flags cleared. *)
Definition uncompressed_header (h : list Z) : list Z :=
  let h := fold_left (fun h i => write32le h (0x20 + 0x10 * i + 8) (kip_out_size h i)) (range 3) h in
  splice h 0x1F [kip_flags h .& 0xF8].

(** One section: the block, and the offsets of the next section in the new and
    in the old KIP. *)
Definition uncompress_section (kip : list Z) (header : list Z) (st : list Z * Z * Z) (i : Z)
    : res (list Z * Z * Z) :=
  let '(new_kip, new_offset, old_offset) := st in
  let compressed_size := kip_compressed_size header i in
  data ← load_at kip old_offset compressed_size;
  new_kip ← store_at new_kip new_offset data;
  new_kip ← (if negb (kip_flags header .& (1 <<. i) =? 0)
             then kip1_blz_uncompress new_kip (u32 (new_offset + compressed_size)) else Ok new_kip);
  Ok (new_kip, u32 (new_offset + kip_out_size header i), u32 (old_offset + compressed_size)).

Section Kip1.
Context {card : Card}.

(** [kip] is the block from the KIP's first byte on; [None] is NULL. *)
Definition kip1_uncompress (kip : list Z) : res (option (list Z)) :=
  header ← load_at kip 0 kip1_header_size;
  let new_header := uncompressed_header header in
  let size := kip1_get_size_from_header new_header in
  if negb (heap_has size) then Ok None else
  new_kip ← store_at (zeros (Z.to_nat size)) 0 new_header;
  st ← uncompress_section kip header (new_kip, 0x100, 0x100) 0;
  st ← uncompress_section kip header st 1;
  st ← uncompress_section kip header st 2;
  Ok (Some st.1.1).
End Kip1.

Definition g_fs_hashes : list (list Z) :=
  [[0xDE; 0x9F; 0xDD; 0xA4; 0x08; 0x5D; 0xD5; 0xFE];
   [0xCD; 0x7B; 0xBE; 0x18; 0xD6; 0x13; 0x0B; 0x28];
   [0xE7; 0x66; 0x92; 0xDF; 0xAA; 0x04; 0x20; 0xE9];
   [0x0D; 0x70; 0x05; 0x62; 0x7B; 0x07; 0x76; 0x7C];
   [0xDB; 0xD8; 0x5F; 0xCA; 0xCC; 0x19; 0x3D; 0xA8];
   [0xA8; 0x6D; 0xA5; 0xE8; 0x7E; 0xF1; 0x09; 0x7B];
   [0x98; 0x1C; 0x57; 0xE7; 0xF0; 0x2F; 0x70; 0xF7];
   [0x57; 0x39; 0x7C; 0x06; 0x3F; 0x10; 0xB6; 0x31];
   [0x07; 0x30; 0x99; 0xD7; 0xC6; 0xAD; 0x7D; 0x89];
   [0x06; 0xE9; 0x07; 0x19; 0x59; 0x5A; 0x01; 0x0C];
   [0x54; 0x9B; 0x0F; 0x8D; 0x6F; 0x72; 0xC4; 0xE9];
   [0x80; 0x96; 0xAF; 0x7C; 0x6A; 0x35; 0xAA; 0x82];
   [0x02; 0xD5; 0xAB; 0xAA; 0xFD; 0x20; 0xC8; 0xB0];
   [0xA6; 0xF2; 0x7A; 0xD9; 0xAC; 0x7C; 0x73; 0xAD];
   [0xCE; 0x3E; 0xCB; 0xA2; 0xF2; 0xF0; 0x62; 0xF5];
   [0x76; 0xF8; 0x74; 0x02; 0xC9; 0x38; 0x7C; 0x0F];
   [0x10; 0xB2; 0xD8; 0x16; 0x05; 0x48; 0x85; 0x99];
   [0x3A; 0x57; 0x4D; 0x43; 0x61; 0x86; 0x19; 0x1D];
   [0x33; 0x05; 0x53; 0xF6; 0xB5; 0xFB; 0x55; 0xC4];
   [0x2A; 0xDB; 0xE9; 0x7E; 0x9B; 0x5F; 0x41; 0x77];
   [0x2C; 0xCE; 0x65; 0x9C; 0xEC; 0x53; 0x6A; 0x8E];
   [0xB2; 0xF5; 0x17; 0x6B; 0x35; 0x48; 0x36; 0x4D];
   [0xDB; 0xD9; 0x41; 0xC0; 0xC5; 0x3C; 0x52; 0xCC];
   [0x6B; 0x09; 0xB6; 0x7B; 0x29; 0xC0; 0x20; 0x24];
   [0xB4; 0xCA; 0xE1; 0xF2; 0x49; 0x65; 0xD9; 0x2E];
   [0x46; 0x87; 0x40; 0x76; 0x1E; 0x19; 0x3E; 0xB7];
   [0x7C; 0x95; 0x13; 0x76; 0xE5; 0xC1; 0x2D; 0xF8]].

Definition FS_VER_MAX := 27.

(** The last entry whose first eight bytes are those of [hash]. *)
Definition fs_version_of (hash : list Z) : option Z :=
  foldl (fun found i => if bool_decide (take 8 hash = nth (Z.to_nat i) g_fs_hashes []) then Some i else found)
    None (range FS_VER_MAX).

Section Patches.
Context {soc : SoC} {card : Card}.

(** [None] is NULL: no patch to apply.  [*out_fs_ver] is [g_fs_ver], the only
    address the callers pass. *)
Definition apply_kip_ips_patches (kip : list Z) (kip_size : Z) : F (option (list Z)) :=
  data ← heap (load_at kip 0 kip_size);
  hash ← hw (se_calculate_sha256 data kip_size);
  (if kip_title_id kip =? FS_TITLE_ID
   then match fs_version_of hash with
        | Some v => fmodify (fun w => w <| f_strat ::= fun s => s <| g_fs_ver := v |> |>)
        | None => fatal_error
        end
   else mret tt) ;;
  nogc ← nogc_enabled;
  if negb (has_needed_default_kip_patches nogc (kip_title_id kip) hash) then fatal_error else
  if negb (has_ips_patches nogc (str "atmosphere/kip_patches") hash) then mret None else
  r ← heap (kip1_uncompress kip);
  match r : option (list Z) with
  | None => mret None
  | Some uncompressed_kip =>
      patched ← heap (apply_ips_patches nogc (str "atmosphere/kip_patches") uncompressed_kip
                        (Z.of_nat (length uncompressed_kip)) 0x100 hash);
      mret (Some patched)
  end.
End Patches.
End Ips.
