(* ===== verification/KernelPatches.v ===== *)
(** kernel_patches.c: the kernels the boot loader knows, the search for code in
    them, and the hooks it installs. *)
From S2P Require Import Prelude State Utils Se Fusee Ips.
Import SE Kip.

Module KernelPatches.

(** The branch instruction at offset [a] to offset [o]. *)
Definition MAKE_BRANCH (a o : Z) : Z := 0x14000000 .| ((u32 (o - a) >>. 2) .& 0x3FFFFFF).
Definition MAKE_NOP := 0xD503201F.

Record kernel_patch_t := mk_kernel_patch {
  pattern_size : Z;
  pattern : list Z;
  pattern_hook_offset : Z;
  payload_num_instructions : Z;
  branch_back_offset : Z;
  patch_offset : Z;
  payload : list Z }.

(** [num_patches] is the length of [patches]. *)
Record kernel_info_t := mk_kernel_info {
  info_hash : list Z;
  hash_offset : Z;
  hash_size : Z;
  embedded_ini_offset : Z;
  embedded_ini_ptr : Z;
  free_code_space_offset : Z;
  patches : list kernel_patch_t }.

(** ** Patch definitions *)

Definition g_kernel_pattern_100_proc_id_send : list Z :=
  [0x48; 0x29; 0x41; 0xF9; 0xC9; 0xF5; 0x7E; 0xD3; 0xCE; 0x09; 0x00; 0x11; 0x48; 0x6A; 0x29; 0xF8].
Definition g_kernel_patch_100_proc_id_send : list Z :=
  [0xA9BF2FEA; 0x2A0E03EB; 0xD37EF56B; 0xF86B6B8B; 0x92FFFFE9; 0x8A090168; 0xD2FFFFE9; 0x8A09016B;
   0xD2FFFFC9; 0xEB09017F; 0x54000040; 0xF9412948; 0xA8C12FEA].
Definition g_kernel_pattern_100_proc_id_recv : list Z :=
  [0x68; 0x29; 0x41; 0xF9; 0x89; 0xF7; 0x7E; 0xD3; 0x9C; 0x0B; 0x00; 0x11; 0x48; 0x69; 0x29; 0xF8].
Definition g_kernel_patch_100_proc_id_recv : list Z :=
  [0xA9BF2FEA; 0x2A1C03EA; 0xD37EF54A; 0xF86A69AA; 0x92FFFFE9; 0x8A090148; 0xD2FFFFE9; 0x8A09014A;
   0xD2FFFFC9; 0xEB09015F; 0x54000040; 0xF9412968; 0xA8C12FEA].
Definition g_kernel_pattern_200_proc_id_send : list Z :=
  [0x48; 0x31; 0x41; 0xF9; 0xE9; 0x03; 0x18; 0x2A; 0x29; 0xF5; 0x7E; 0xD3; 0xC8; 0x6A; 0x29; 0xF8].
Definition g_kernel_patch_200_proc_id_send : list Z :=
  [0xA9BF2FEA; 0x2A1803EB; 0xD37EF56B; 0xF86B6B8B; 0x92FFFFE9; 0x8A090168; 0xD2FFFFE9; 0x8A09016B;
   0xD2FFFFC9; 0xEB09017F; 0x54000040; 0xF9413148; 0xA8C12FEA].
Definition g_kernel_pattern_200_proc_id_recv : list Z :=
  [0x08; 0x31; 0x41; 0xF9; 0xE9; 0x03; 0x0F; 0x2A; 0x29; 0xF5; 0x7E; 0xD3; 0x48; 0x6B; 0x29; 0xF8].
Definition g_kernel_patch_200_proc_id_recv : list Z :=
  [0xA9BF2FEA; 0x2A0F03EA; 0xD37EF54A; 0xF9405FEB; 0xF86A696A; 0xF9407BEB; 0x92FFFFE9; 0x8A090148;
   0xD2FFFFE9; 0x8A09014A; 0xD2FFFFC9; 0xEB09015F; 0x54000040; 0xF9413168; 0xA8C12FEA].
Definition g_kernel_pattern_300_proc_id_send : list Z :=
  [0x48; 0x55; 0x41; 0xF9; 0xE9; 0x03; 0x18; 0x2A; 0x29; 0xF5; 0x7E; 0xD3; 0xC8; 0x6A; 0x29; 0xF8].
Definition g_kernel_patch_300_proc_id_send : list Z :=
  [0xA9BF2FEA; 0x2A1803EB; 0xD37EF56B; 0xF86B6B8B; 0x92FFFFE9; 0x8A090168; 0xD2FFFFE9; 0x8A09016B;
   0xD2FFFFC9; 0xEB09017F; 0x54000040; 0xF9415548; 0xA8C12FEA].
Definition g_kernel_pattern_300_proc_id_recv : list Z :=
  [0x08; 0x55; 0x41; 0xF9; 0xE9; 0x03; 0x0F; 0x2A; 0x29; 0xF5; 0x7E; 0xD3; 0x48; 0x6B; 0x29; 0xF8].
Definition g_kernel_patch_300_proc_id_recv : list Z :=
  [0xA9BF2FEA; 0x2A0F03EA; 0xD37EF54A; 0xF9405FEB; 0xF86A696A; 0xF9407BEB; 0x92FFFFE9; 0x8A090148;
   0xD2FFFFE9; 0x8A09014A; 0xD2FFFFC9; 0xEB09015F; 0x54000040; 0xF9415568; 0xA8C12FEA].
Definition g_kernel_pattern_302_proc_id_send : list Z :=
  [0x48; 0x55; 0x41; 0xF9; 0xE9; 0x03; 0x18; 0x2A; 0x29; 0xF5; 0x7E; 0xD3; 0xC8; 0x6A; 0x29; 0xF8].
Definition g_kernel_patch_302_proc_id_send : list Z :=
  [0xA9BF2FEA; 0x2A1803EB; 0xD37EF56B; 0xF86B6B8B; 0x92FFFFE9; 0x8A090168; 0xD2FFFFE9; 0x8A09016B;
   0xD2FFFFC9; 0xEB09017F; 0x54000040; 0xF9415548; 0xA8C12FEA].
Definition g_kernel_pattern_302_proc_id_recv : list Z :=
  [0x08; 0x55; 0x41; 0xF9; 0xE9; 0x03; 0x0F; 0x2A; 0x29; 0xF5; 0x7E; 0xD3; 0x48; 0x6B; 0x29; 0xF8].
Definition g_kernel_patch_302_proc_id_recv : list Z :=
  [0xA9BF2FEA; 0x2A0F03EA; 0xD37EF54A; 0xF9405FEB; 0xF86A696A; 0xF9407BEB; 0x92FFFFE9; 0x8A090148;
   0xD2FFFFE9; 0x8A09014A; 0xD2FFFFC9; 0xEB09015F; 0x54000040; 0xF9415568; 0xA8C12FEA].
Definition g_kernel_pattern_400_proc_id_send : list Z :=
  [0xEA; 0x53; 0x40; 0xF9; 0x48; 0x59; 0x41; 0xF9; 0xE9; 0x03; 0x17; 0x2A; 0x29; 0xF5; 0x7E; 0xD3].
Definition g_kernel_patch_400_proc_id_send : list Z :=
  [0x2A1703EA; 0xD37EF54A; 0xF86A6B8A; 0x92FFFFE9; 0x8A090148; 0xD2FFFFE9; 0x8A09014A; 0xD2FFFFC9;
   0xEB09015F; 0x54000060; 0xF94053EA; 0xF9415948; 0xF94053EA].
Definition g_kernel_pattern_400_proc_id_recv : list Z :=
  [0x28; 0x5B; 0x41; 0xF9; 0xE9; 0x03; 0x0E; 0x2A; 0xCE; 0x09; 0x00; 0x11; 0x29; 0xF5; 0x7E; 0xD3].
Definition g_kernel_patch_400_proc_id_recv : list Z :=
  [0xF9403BED; 0x2A0E03EA; 0xD37EF54A; 0xF86A69AA; 0x92FFFFE9; 0x8A090148; 0xD2FFFFE9; 0x8A09014A;
   0xD2FFFFC9; 0xEB09015F; 0x54000040; 0xF9415B28; 0xD503201F].
Definition g_kernel_pattern_500_proc_id_send : list Z :=
  [0xEA; 0x43; 0x40; 0xF9; 0x48; 0x59; 0x41; 0xF9; 0xE9; 0x03; 0x17; 0x2A; 0x29; 0xF5; 0x7E; 0xD3].
Definition g_kernel_patch_500_proc_id_send : list Z :=
  [0x2A1703EA; 0xD37EF54A; 0xF86A6B6A; 0x92FFFFE9; 0x8A090148; 0xD2FFFFE9; 0x8A09014A; 0xD2FFFFC9;
   0xEB09015F; 0x54000060; 0xF94043EA; 0xF9415948; 0xF94043EA].
Definition g_kernel_pattern_500_proc_id_recv : list Z :=
  [0x08; 0x5B; 0x41; 0xF9; 0xEA; 0x6F; 0x40; 0xF9; 0xE9; 0x03; 0x15; 0x2A; 0x29; 0xF5; 0x7E; 0xD3].
Definition g_kernel_patch_500_proc_id_recv : list Z :=
  [0xF9403BED; 0x2A1503EA; 0xD37EF54A; 0xF86A69AA; 0x92FFFFE9; 0x8A090148; 0xD2FFFFE9; 0x8A09014A;
   0xD2FFFFC9; 0xEB09015F; 0x54000040; 0xF9415B08; 0xF9406FEA].
Definition g_kernel_pattern_600_proc_id_send : list Z :=
  [0x08; 0x03; 0x40; 0xF9; 0x08; 0x1D; 0x40; 0xF9; 0xE0; 0x03; 0x18; 0xAA; 0x00; 0x01; 0x3F; 0xD6; 0xE8;
   0x03; 0x15; 0x2A; 0xB5; 0x0A; 0x00; 0x11; 0x08; 0xF5; 0x7E; 0xD3].
Definition g_kernel_patch_600_proc_id_send : list Z :=
  [0xA9BF2FEA; 0xF94037EB; 0x2A1503EA; 0xD37EF54A; 0xF86A696A; 0x92FFFFE9; 0x8A090148; 0xD2FFFFE9;
   0x8A09014A; 0xD2FFFFC9; 0xEB09015F; 0x54000100; 0xA9BF27E8; 0xF9400308; 0xF9401D08; 0xAA1803E0;
   0xD63F0100; 0xA8C127E8; 0xAA0003E8; 0xA8C12FEA; 0xAA0803E0].
Definition g_kernel_pattern_600_proc_id_recv : list Z :=
  [0x08; 0x03; 0x40; 0xF9; 0x08; 0x1D; 0x40; 0xF9; 0xE0; 0x03; 0x18; 0xAA; 0x00; 0x01; 0x3F; 0xD6; 0xE9;
   0x6F; 0x40; 0xF9; 0xE8; 0x03; 0x15; 0x2A; 0xB5; 0x0A; 0x00; 0x11].
Definition g_kernel_patch_600_proc_id_recv : list Z :=
  [0xA9BF2FEA; 0xF94043EB; 0x2A1503EA; 0xD37EF54A; 0xF86A696A; 0x92FFFFE9; 0x8A090148; 0xD2FFFFE9;
   0x8A09014A; 0xD2FFFFC9; 0xEB09015F; 0x54000100; 0xA9BF27E8; 0xF9400308; 0xF9401D08; 0xAA1803E0;
   0xD63F0100; 0xA8C127E8; 0xAA0003E8; 0xA8C12FEA; 0xAA0803E0].
Definition g_kernel_pattern_700_proc_id_send : list Z :=
  [0xA8; 0x02; 0x40; 0xF9; 0x08; 0x1D; 0x40; 0xF9; 0xE0; 0x03; 0x15; 0xAA; 0x00; 0x01; 0x3F; 0xD6; 0xE8;
   0x03; 0x19; 0x2A; 0x39; 0x0B; 0x00; 0x11; 0x08; 0xF5; 0x7E; 0xD3].
Definition g_kernel_patch_700_proc_id_send : list Z :=
  [0xA9BF2FEA; 0xF9403BEB; 0x2A1903EA; 0xD37EF54A; 0xF86A696A; 0x92FFFFE9; 0x8A090148; 0xD2FFFFE9;
   0x8A09014A; 0xD2FFFFC9; 0xEB09015F; 0x54000100; 0xA9BF27E8; 0xF94002A8; 0xF9401D08; 0xAA1503E0;
   0xD63F0100; 0xA8C127E8; 0xAA0003E8; 0xA8C12FEA; 0xAA0803E0].
Definition g_kernel_pattern_700_proc_id_recv : list Z :=
  [0x68; 0x03; 0x40; 0xF9; 0x08; 0x1D; 0x40; 0xF9; 0xE0; 0x03; 0x1B; 0xAA; 0x00; 0x01; 0x3F; 0xD6; 0xA9;
   0x83; 0x50; 0xF8; 0xE8; 0x03; 0x16; 0x2A; 0xD6; 0x0A; 0x00; 0x11].
Definition g_kernel_patch_700_proc_id_recv : list Z :=
  [0xA9BF2FEA; 0xF9404FEB; 0x2A1603EA; 0xD37EF54A; 0xF86A696A; 0x92FFFFE9; 0x8A090148; 0xD2FFFFE9;
   0x8A09014A; 0xD2FFFFC9; 0xEB09015F; 0x54000100; 0xA9BF27E8; 0xF9400368; 0xF9401D08; 0xAA1B03E0;
   0xD63F0100; 0xA8C127E8; 0xAA0003E8; 0xA8C12FEA; 0xAA0803E0].
Definition g_kernel_pattern_800_proc_id_send : list Z :=
  [0xA8; 0x02; 0x40; 0xF9; 0x08; 0x1D; 0x40; 0xF9; 0xE0; 0x03; 0x15; 0xAA; 0x00; 0x01; 0x3F; 0xD6; 0xE8;
   0x03; 0x19; 0x2A; 0x39; 0x0B; 0x00; 0x11; 0x08; 0xF5; 0x7E; 0xD3].
Definition g_kernel_patch_800_proc_id_send : list Z :=
  [0xA9BF2FEA; 0xF9403BEB; 0x2A1903EA; 0xD37EF54A; 0xF86A696A; 0x92FFFFE9; 0x8A090148; 0xD2FFFFE9;
   0x8A09014A; 0xD2FFFFC9; 0xEB09015F; 0x54000100; 0xA9BF27E8; 0xF94002A8; 0xF9401D08; 0xAA1503E0;
   0xD63F0100; 0xA8C127E8; 0xAA0003E8; 0xA8C12FEA; 0xAA0803E0].
Definition g_kernel_pattern_800_proc_id_recv : list Z :=
  [0x68; 0x03; 0x40; 0xF9; 0x08; 0x1D; 0x40; 0xF9; 0xE0; 0x03; 0x1B; 0xAA; 0x00; 0x01; 0x3F; 0xD6; 0xA9;
   0x83; 0x50; 0xF8; 0xE8; 0x03; 0x16; 0x2A; 0xD6; 0x0A; 0x00; 0x11].
Definition g_kernel_patch_800_proc_id_recv : list Z :=
  [0xA9BF2FEA; 0xF9404FEB; 0x2A1603EA; 0xD37EF54A; 0xF86A696A; 0x92FFFFE9; 0x8A090148; 0xD2FFFFE9;
   0x8A09014A; 0xD2FFFFC9; 0xEB09015F; 0x54000100; 0xA9BF27E8; 0xF9400368; 0xF9401D08; 0xAA1B03E0;
   0xD63F0100; 0xA8C127E8; 0xAA0003E8; 0xA8C12FEA; 0xAA0803E0].
Definition g_kernel_pattern_900_proc_id_send : list Z :=
  [0xE8; 0x02; 0x40; 0xF9; 0x08; 0x1D; 0x40; 0xF9; 0xE0; 0x03; 0x17; 0xAA; 0x00; 0x01; 0x3F; 0xD6; 0xE8;
   0x03; 0x16; 0x2A; 0xD6; 0x0A; 0x00; 0x11; 0x08; 0xF5; 0x7E; 0xD3].
Definition g_kernel_patch_900_proc_id_send : list Z :=
  [0xA9BF2FEA; 0xF94037EB; 0x2A1603EA; 0xD37EF54A; 0xF86A696A; 0x92FFFFE9; 0x8A090148; 0xD2FFFFE9;
   0x8A09014A; 0xD2FFFFC9; 0xEB09015F; 0x54000100; 0xA9BF27E8; 0xF94002E8; 0xF9401D08; 0xAA1703E0;
   0xD63F0100; 0xA8C127E8; 0xAA0003E8; 0xA8C12FEA; 0xAA0803E0].
Definition g_kernel_pattern_900_proc_id_recv : list Z :=
  [0x68; 0x03; 0x40; 0xF9; 0x08; 0x1D; 0x40; 0xF9; 0xE0; 0x03; 0x1B; 0xAA; 0x00; 0x01; 0x3F; 0xD6; 0xE8;
   0x03; 0x17; 0x2A; 0xF7; 0x0A; 0x00; 0x11; 0x08; 0xF5; 0x7E; 0xD3].
Definition g_kernel_patch_900_proc_id_recv : list Z :=
  [0xA9BF2FEA; 0xF9404BEB; 0x2A1703EA; 0xD37EF54A; 0xF86A696A; 0x92FFFFE9; 0x8A090148; 0xD2FFFFE9;
   0x8A09014A; 0xD2FFFFC9; 0xEB09015F; 0x54000100; 0xA9BF27E8; 0xF9400368; 0xF9401D08; 0xAA1B03E0;
   0xD63F0100; 0xA8C127E8; 0xAA0003E8; 0xA8C12FEA; 0xAA0803E0].
Definition g_kernel_patch_500_svc_control_codememory : list Z :=
  [MAKE_NOP].
Definition g_kernel_patch_600_svc_control_codememory : list Z :=
  [MAKE_NOP].
Definition g_kernel_patch_700_svc_control_codememory : list Z :=
  [MAKE_NOP].
Definition g_kernel_patch_800_svc_control_codememory : list Z :=
  [MAKE_NOP].
Definition g_kernel_patch_900_svc_control_codememory : list Z :=
  [MAKE_NOP].
Definition g_kernel_patches_100 : list kernel_patch_t :=
  [mk_kernel_patch 0x10 g_kernel_pattern_100_proc_id_send 0x0 (Z.of_nat (length g_kernel_patch_100_proc_id_send)) 0x4 0 g_kernel_patch_100_proc_id_send;
   mk_kernel_patch 0x10 g_kernel_pattern_100_proc_id_recv 0x0 (Z.of_nat (length g_kernel_patch_100_proc_id_recv)) 0x4 0 g_kernel_patch_100_proc_id_recv].
Definition g_kernel_patches_200 : list kernel_patch_t :=
  [mk_kernel_patch 0x10 g_kernel_pattern_200_proc_id_send 0x0 (Z.of_nat (length g_kernel_patch_200_proc_id_send)) 0x4 0 g_kernel_patch_200_proc_id_send;
   mk_kernel_patch 0x10 g_kernel_pattern_200_proc_id_recv 0x0 (Z.of_nat (length g_kernel_patch_200_proc_id_recv)) 0x4 0 g_kernel_patch_200_proc_id_recv].
Definition g_kernel_patches_300 : list kernel_patch_t :=
  [mk_kernel_patch 0x10 g_kernel_pattern_300_proc_id_send 0x0 (Z.of_nat (length g_kernel_patch_300_proc_id_send)) 0x4 0 g_kernel_patch_300_proc_id_send;
   mk_kernel_patch 0x10 g_kernel_pattern_300_proc_id_recv 0x0 (Z.of_nat (length g_kernel_patch_300_proc_id_recv)) 0x4 0 g_kernel_patch_300_proc_id_recv].
Definition g_kernel_patches_302 : list kernel_patch_t :=
  [mk_kernel_patch 0x10 g_kernel_pattern_302_proc_id_send 0x0 (Z.of_nat (length g_kernel_patch_302_proc_id_send)) 0x4 0 g_kernel_patch_302_proc_id_send;
   mk_kernel_patch 0x10 g_kernel_pattern_302_proc_id_recv 0x0 (Z.of_nat (length g_kernel_patch_302_proc_id_recv)) 0x4 0 g_kernel_patch_302_proc_id_recv].
Definition g_kernel_patches_400 : list kernel_patch_t :=
  [mk_kernel_patch 0x10 g_kernel_pattern_400_proc_id_send 0x0 (Z.of_nat (length g_kernel_patch_400_proc_id_send)) 0x8 0 g_kernel_patch_400_proc_id_send;
   mk_kernel_patch 0x10 g_kernel_pattern_400_proc_id_recv 0x0 (Z.of_nat (length g_kernel_patch_400_proc_id_recv)) 0x4 0 g_kernel_patch_400_proc_id_recv].
Definition g_kernel_patches_500 : list kernel_patch_t :=
  [mk_kernel_patch 0x10 g_kernel_pattern_500_proc_id_send 0x0 (Z.of_nat (length g_kernel_patch_500_proc_id_send)) 0x8 0 g_kernel_patch_500_proc_id_send;
   mk_kernel_patch 0x10 g_kernel_pattern_500_proc_id_recv 0x0 (Z.of_nat (length g_kernel_patch_500_proc_id_recv)) 0x8 0 g_kernel_patch_500_proc_id_recv;
   mk_kernel_patch 0 [] 0 (Z.of_nat (length g_kernel_patch_500_svc_control_codememory)) 0 0x38C2C g_kernel_patch_500_svc_control_codememory].
Definition g_kernel_patches_600 : list kernel_patch_t :=
  [mk_kernel_patch 0x1C g_kernel_pattern_600_proc_id_send 0x0 (Z.of_nat (length g_kernel_patch_600_proc_id_send)) 0x10 0 g_kernel_patch_600_proc_id_send;
   mk_kernel_patch 0x1C g_kernel_pattern_600_proc_id_recv 0x0 (Z.of_nat (length g_kernel_patch_600_proc_id_recv)) 0x10 0 g_kernel_patch_600_proc_id_recv;
   mk_kernel_patch 0 [] 0 (Z.of_nat (length g_kernel_patch_600_svc_control_codememory)) 0 0x3A8CC g_kernel_patch_600_svc_control_codememory].
Definition g_kernel_patches_700 : list kernel_patch_t :=
  [mk_kernel_patch 0x1C g_kernel_pattern_700_proc_id_send 0x0 (Z.of_nat (length g_kernel_patch_700_proc_id_send)) 0x10 0 g_kernel_patch_700_proc_id_send;
   mk_kernel_patch 0x1C g_kernel_pattern_700_proc_id_recv 0x0 (Z.of_nat (length g_kernel_patch_700_proc_id_recv)) 0x10 0 g_kernel_patch_700_proc_id_recv;
   mk_kernel_patch 0 [] 0 (Z.of_nat (length g_kernel_patch_700_svc_control_codememory)) 0 0x3C6E0 g_kernel_patch_700_svc_control_codememory].
Definition g_kernel_patches_800 : list kernel_patch_t :=
  [mk_kernel_patch 0x1C g_kernel_pattern_800_proc_id_send 0x0 (Z.of_nat (length g_kernel_patch_800_proc_id_send)) 0x10 0 g_kernel_patch_800_proc_id_send;
   mk_kernel_patch 0x1C g_kernel_pattern_800_proc_id_recv 0x0 (Z.of_nat (length g_kernel_patch_800_proc_id_recv)) 0x10 0 g_kernel_patch_800_proc_id_recv;
   mk_kernel_patch 0 [] 0 (Z.of_nat (length g_kernel_patch_800_svc_control_codememory)) 0 0x3FAD0 g_kernel_patch_800_svc_control_codememory].
Definition g_kernel_patches_900 : list kernel_patch_t :=
  [mk_kernel_patch 0x1C g_kernel_pattern_900_proc_id_send 0x0 (Z.of_nat (length g_kernel_patch_900_proc_id_send)) 0x10 0 g_kernel_patch_900_proc_id_send;
   mk_kernel_patch 0x1C g_kernel_pattern_900_proc_id_recv 0x0 (Z.of_nat (length g_kernel_patch_900_proc_id_recv)) 0x10 0 g_kernel_patch_900_proc_id_recv;
   mk_kernel_patch 0 [] 0 (Z.of_nat (length g_kernel_patch_900_svc_control_codememory)) 0 0x43DFC g_kernel_patch_900_svc_control_codememory].
Definition g_kernel_infos : list kernel_info_t :=
  [mk_kernel_info
     [0x64; 0x44; 0x07; 0x2F; 0x56; 0x44; 0x73; 0xDD; 0xD5; 0x46; 0x1B; 0x8C; 0xDC; 0xEF; 0x54; 0x98; 0x16;
      0xDA; 0x81; 0xDE; 0x5B; 0x1C; 0x9D; 0xD7; 0x5A; 0x13; 0x91; 0xD9; 0x53; 0xAB; 0x8D; 0x8D]
     0 (0) 0 0 0x4797C g_kernel_patches_100;
   mk_kernel_info
     [0xB8; 0xC5; 0x0C; 0x68; 0x25; 0xA9; 0xB9; 0x5B; 0xD2; 0x4D; 0x2C; 0x7C; 0x81; 0x7F; 0xE6; 0x96; 0xF2;
      0x42; 0x4E; 0x1D; 0x78; 0xDF; 0x3B; 0xCA; 0x3D; 0x6B; 0x68; 0x12; 0xDD; 0xA9; 0xCB; 0x9C]
     0 (0) 0 0 0x4797C g_kernel_patches_100;
   mk_kernel_info
     [0x64; 0x0B; 0x51; 0xFF; 0x28; 0x01; 0xB8; 0x30; 0xA7; 0xA3; 0x60; 0x47; 0x86; 0x0D; 0x68; 0xAA; 0x9A;
      0x92; 0x10; 0x0D; 0xB9; 0xCC; 0xEC; 0x8B; 0x05; 0x80; 0x73; 0xBD; 0x33; 0xB4; 0x2C; 0x6C]
     0 (0) 0 0 0x6486C g_kernel_patches_200;
   mk_kernel_info
     [0x50; 0x84; 0x23; 0xAC; 0x6F; 0xA1; 0x5D; 0x3B; 0x56; 0xC2; 0xFC; 0x95; 0x22; 0xCC; 0xD5; 0xA8; 0x15;
      0xD3; 0xB4; 0x6B; 0xA1; 0x2C; 0xF2; 0x93; 0xD3; 0x02; 0x05; 0xAB; 0x52; 0xEF; 0x73; 0xC5]
     0 (0) 0 0 0x494A4 g_kernel_patches_300;
   mk_kernel_info
     [0x81; 0x9D; 0x08; 0xBE; 0xE4; 0x5E; 0x1F; 0xBB; 0x45; 0x5A; 0x6D; 0x70; 0x4B; 0xB2; 0x17; 0xA6; 0x12;
      0x69; 0xF8; 0xB8; 0x75; 0x1C; 0x71; 0x16; 0xF0; 0xE9; 0x79; 0x7F; 0xB0; 0xD1; 0x78; 0xB2]
     0 (0) 0 0 0x494BC g_kernel_patches_302;
   mk_kernel_info
     [0xE6; 0xC0; 0xB7; 0xE3; 0x2F; 0xF9; 0x44; 0x51; 0xEC; 0xD5; 0x95; 0x79; 0xE3; 0x46; 0xB1; 0xDA; 0x2E;
      0xD9; 0x28; 0xC6; 0xF2; 0x31; 0x4F; 0x95; 0xD8; 0xC7; 0xD5; 0xBD; 0x15; 0xD5; 0xE2; 0x5A]
     0 (0) 0 0 0x52890 g_kernel_patches_400;
   mk_kernel_info
     [0xB2; 0x38; 0x61; 0xA8; 0xE1; 0xE2; 0xE4; 0xE4; 0x17; 0x28; 0xED; 0xA9; 0xF6; 0xF6; 0xBD; 0xD2; 0x59;
      0xDB; 0x1F; 0xEF; 0x4A; 0x8B; 0x2F; 0x1C; 0x64; 0x46; 0x06; 0x40; 0xF5; 0x05; 0x9C; 0x43]
     0 (0) 0 0 0x5C020 g_kernel_patches_500;
   mk_kernel_info
     [0x85; 0x97; 0x40; 0xF6; 0xC0; 0x3E; 0x3D; 0x44; 0xDE; 0xA4; 0xA0; 0x35; 0xFD; 0x12; 0x9C; 0xD4; 0x4F;
      0x9C; 0x36; 0x53; 0x74; 0x54; 0x2C; 0x9C; 0x55; 0x47; 0xC4; 0x25; 0xF1; 0x42; 0xFB; 0x97]
     0 (0) 0 0 0x5EE00 g_kernel_patches_600;
   mk_kernel_info
     [0xA2; 0x5E; 0x47; 0x0C; 0x8E; 0x6D; 0x2F; 0xD7; 0x5D; 0xAD; 0x24; 0xD7; 0xD8; 0x24; 0x34; 0xFB; 0xCD;
      0x77; 0xBB; 0xE6; 0x66; 0x03; 0xCB; 0xAF; 0xAB; 0x85; 0x45; 0xA0; 0x91; 0xAF; 0x34; 0x25]
     0 (0) 0 0 0x5FEC0 g_kernel_patches_700;
   mk_kernel_info
     [0xA6; 0xAD; 0x5D; 0x7F; 0xCF; 0x25; 0x80; 0xAE; 0xE6; 0x57; 0x9F; 0x6F; 0xC5; 0xC5; 0xF6; 0x13; 0x77;
      0x23; 0xAC; 0x88; 0x79; 0x76; 0xF7; 0x25; 0x06; 0x16; 0x35; 0x3B; 0x3F; 0xA7; 0x59; 0x49]
     0x1A8 (0x95000 - 0x1A8) 0x95000 0x168 0x607F0 g_kernel_patches_800;
   mk_kernel_info
     [0xD7; 0x95; 0x65; 0x3A; 0x49; 0x4C; 0x5A; 0x9E; 0x2E; 0x04; 0xD6; 0x30; 0x7D; 0x79; 0xE1; 0xEE; 0x10;
      0x2B; 0x30; 0xE0; 0x3E; 0xDD; 0x9F; 0xB3; 0x8A; 0x3C; 0x5E; 0xD3; 0x9B; 0x30; 0x11; 0x9B]
     0x1C0 (0x90000 - 0x1C0) 0x90000 0x180 0x65780 g_kernel_patches_900].

(** ** The search *)

(** [table[c]]: how far the pattern can move when [c] is the last byte of the
    window. *)
Definition bad_char_table (pattern : list Z) (pattern_size : Z) : Z -> Z :=
  foldl (fun table i => upd table (byte_at pattern i) (pattern_size - i - 1))
    (fun _ => pattern_size) (range (pattern_size - 1)).

Fixpoint search_loop (fuel : nat) (mem : list Z) (mem_size : Z) (pattern : list Z) (pattern_size i : Z)
    : res (option Z) :=
  match fuel with
  | O => Stop Hangs
  | S n =>
      if i <=? u32 (mem_size - pattern_size)
      then window ← load_at mem i pattern_size;
           let last := byte_at window (pattern_size - 1) in
           if (byte_at pattern (pattern_size - 1) =? last)
              && bool_decide (slice pattern 0 (pattern_size - 1) = slice window 0 (pattern_size - 1))
           then Ok (Some i)
           else search_loop n mem mem_size pattern pattern_size
                  (u32 (i + bad_char_table pattern pattern_size last))
      else Ok None
  end.

(** The offset of the match, or NULL.  Every round moves on by at least one
    byte. *)
Definition search_pattern (mem : list Z) (mem_size : Z) (pattern : list Z) (pattern_size : Z)
    : res (option Z) :=
  search_loop (S (Z.to_nat mem_size)) mem mem_size pattern pattern_size 0.

(** ** Hooks *)

(** Consecutive instructions from offset [off] on. *)
Definition store_instructions (kernel : list Z) (off : Z) (instructions : list Z) : res (list Z) :=
  store_at kernel off (instructions ≫= le_bytes 4).

(** Each instruction is stored at the same address. *)
Fixpoint store_repeatedly (kernel : list Z) (off : Z) (instructions : list Z) : res (list Z) :=
  match instructions with
  | [] => Ok kernel
  | x :: r => kernel ← store_at kernel off (le_bytes 4 x); store_repeatedly kernel off r
  end.

(** The kernel, the free code space left and its size. *)
Definition hook_state : Type := list Z * Z * Z.

(** The branch to the hook at [hook_start], the hook and the branch back. *)
Definition install_hook (p : kernel_patch_t) (kernel : list Z) (free_space_offset hook_start : Z) : res (list Z) :=
  let n := payload_num_instructions p in
  kernel ← store_instructions kernel hook_start [MAKE_BRANCH hook_start free_space_offset];
  kernel ← store_instructions kernel free_space_offset (take (Z.to_nat n) (payload p));
  if negb (branch_back_offset p =? 0)
  then store_instructions kernel (u32 (free_space_offset + 4 * n))
         [MAKE_BRANCH (u32 (free_space_offset + 4 * n)) (u32 (branch_back_offset p + hook_start))]
  else Ok kernel.

Definition apply_patch (size : Z) (st : hook_state) (p : kernel_patch_t) : res hook_state :=
  let '(kernel, free_space_offset, free_space_size) := st in
  let n := payload_num_instructions p in
  if negb (patch_offset p =? 0)
  then kernel ← store_repeatedly kernel (patch_offset p) (take (Z.to_nat n) (payload p));
       Ok (kernel, free_space_offset, free_space_size)
  else
  let hook_size := u32 (4 * n + (if branch_back_offset p =? 0 then 0 else 4)) in
  if free_space_size <? hook_size then Stop Fatal else
  pattern_loc ← search_pattern kernel size (pattern p) (pattern_size p);
  match pattern_loc : option Z with
  | None => Ok (kernel, free_space_offset, free_space_size)
  | Some loc =>
      kernel ← install_hook p kernel free_space_offset (u32 (loc + pattern_hook_offset p));
      Ok (kernel, u32 (free_space_offset + hook_size), u32 (free_space_size - hook_size))
  end.

Fixpoint apply_patches (size : Z) (st : hook_state) (ps : list kernel_patch_t) : res hook_state :=
  match ps with [] => Ok st | p :: r => st ← apply_patch size st p; apply_patches size st r end.

Definition free_space_size_of (free_space_offset : Z) : Z :=
  u32 (((free_space_offset + 0xFFF) .& not64 0xFFF) - free_space_offset).

(** The stores of [package2_patch_kernel] once the kernel is known. *)
Definition patch_known_kernel (info : kernel_info_t) (kernel : list Z) (size : Z) : res (list Z) :=
  kernel ← (if negb (embedded_ini_offset info =? 0)
            then store_at kernel (embedded_ini_ptr info) (le_bytes 8 size) else Ok kernel);
  st ← apply_patches size (kernel, free_code_space_offset info, free_space_size_of (free_code_space_offset info))
         (patches info);
  Ok st.1.1.

Section Ops.
Context {soc : SoC} {card : Card}.

Fixpoint find_kernel_info (infos : list kernel_info_t) (kernel : list Z) (size : Z) (calculated_hash : list Z)
    : F (option kernel_info_t) :=
  match infos with
  | [] => mret None
  | info :: r =>
      if (hash_size info =? 0) || (size <=? hash_size info)
      then if bool_decide (calculated_hash = info_hash info) then mret (Some info)
           else find_kernel_info r kernel size calculated_hash
      else data ← heap (load_at kernel (hash_offset info) (hash_size info));
           calculated_partial_hash ← hw (se_calculate_sha256 data (hash_size info));
           if bool_decide (calculated_partial_hash = info_hash info) then mret (Some info)
           else find_kernel_info r kernel size calculated_hash
  end.

Definition get_kernel_info (kernel : list Z) (size : Z) : F (option kernel_info_t) :=
  data ← heap (load_at kernel 0 size);
  calculated_hash ← hw (se_calculate_sha256 data size);
  find_kernel_info g_kernel_infos kernel size calculated_hash.

(** [kernel] is the block from the kernel's first byte on.  The result is the
    block and the offset of the embedded INI1, if any ([*out_ini1]). *)
Definition package2_patch_kernel (kernel : list Z) (size : Z) (is_sd_kernel : bool) : F (list Z * option Z) :=
  kernel_info ← get_kernel_info kernel size;
  kernel ← Ips.apply_kernel_ips_patches kernel size;
  match kernel_info : option kernel_info_t with
  | None => if negb is_sd_kernel then fatal_error else mret (kernel, None)
  | Some info =>
      kernel' ← heap (patch_known_kernel info kernel size);
      mret (kernel', if negb (embedded_ini_offset info =? 0) then Some (embedded_ini_offset info) else None)
  end.
End Ops.
End KernelPatches.
