(* ===== verification/Stratosphere.v ===== *)
(** stratosphere.c: the INI1 archives of kernel initial processes (KIPs): the
    built-in ones, those of the SD card, and their merge with package2's. *)
From S2P Require Import Prelude State Utils Se Fusee Ips.
Import SE Kip Ips.

Module Stratosphere.

Definition PACKAGE2_SIZE_MAX := 0x7FC000.
Definition STRATOSPHERE_INI1_SDFILES := 0.
Definition STRATOSPHERE_INI1_EMBEDDED := 1.
Definition STRATOSPHERE_INI1_PACKAGE2 := 2.
Definition STRATOSPHERE_INI1_MAX := 3.
Definition FS_VER_1_0_0 := 0.

(** [injected_kip->capabilities]: the first free slot maps the PMC. *)
Fixpoint add_pmc_capability (n : nat) (i : Z) (kip : list Z) : list Z :=
  match n with
  | O => kip
  | S n' =>
      if kip_capability kip i =? 0xFFFFFFFF then write32le kip (0x80 + 4 * i) 0x07000E7F
      else add_pmc_capability n' (i + 1) kip
  end.

(** The section headers of the injected KIP. *)
Definition update_sections (kip : list Z) (emummc_data_size : Z) : list Z :=
  let kip := write32le kip 0x24 (u32 (kip_out_size kip 0 + emummc_data_size)) in
  let kip := write32le kip 0x28 (u32 (kip_compressed_size kip 0 + emummc_data_size)) in
  fold_left (fun kip i => write32le kip (0x20 + 0x10 * i) (u32 (kip_out_offset kip i + emummc_data_size))) [1; 2; 3] kip.

(** The sections of the emummc KIP, each at its output offset; the offset of the
    next one in the KIP's data. *)
Definition copy_emummc_section (emummc_kip : list Z) (st : list Z * Z) (i : Z) : res (list Z * Z) :=
  let '(kip, ofs) := st in
  data ← load_at emummc_kip (0x100 + ofs) (kip_compressed_size emummc_kip i);
  kip ← store_at kip (0x100 + kip_out_offset emummc_kip i) data;
  Ok (kip, u32 (ofs + kip_compressed_size emummc_kip i)).

Definition enabled_kips {card : Card} (s : stratosphere_state) : list (list Z) :=
  (if g_stratosphere_loader_enabled s then [loader_kip] else [])
  ++ (if g_stratosphere_pm_enabled s then [pm_kip] else [])
  ++ (if g_stratosphere_sm_enabled s then [sm_kip] else [])
  ++ (if g_stratosphere_spl_enabled s then [spl_kip] else [])
  ++ (if g_stratosphere_ams_mitm_enabled s then [ams_mitm_kip] else [])
  ++ (if g_stratosphere_boot_enabled s then [boot_kip] else []).

Section Ops.
Context {soc : SoC} {card : Card}.

Definition stratosphere_get_fs_version : F Z := fgets (fun w => g_fs_ver (f_strat w)).

Definition stratosphere_get_ini1 : F (list Z) :=
  s ← fgets f_strat;
  match g_stratosphere_ini1 s with
  | Some ini1 => mret ini1
  | None =>
      let kips := enabled_kips s in
      let size := u32 (ini1_header_size + Z.of_nat (length (concat kips))) in
      if negb (heap_has size) then fatal_error else
      let ini1 := ini1_header size (Z.of_nat (length kips)) ++ concat kips in
      fmodify (fun w => w <| f_strat ::= fun s => s <| g_stratosphere_ini1 := Some ini1 |> |>) ;;
      mret ini1
  end.

Definition stratosphere_free_ini1 : F unit :=
  fmodify (fun w => w <| f_strat ::= fun s => s <| g_stratosphere_ini1 := None |> <| g_sd_files_ini1 := None |> |>).

(** ** KIPs of the SD card *)

(** The archive is built in a block of [PACKAGE2_SIZE_MAX] bytes; the list holds
    the part below [ini1->size]. *)
Definition try_add_sd_kip (ini1 kip_path : list Z) : res (list Z) :=
  let file_size := get_file_size kip_path in
  if u32 (ini1_size ini1 + file_size) >? PACKAGE2_SIZE_MAX then Stop Fatal else
  let kip_header := read_from_file 0x100 kip_path in
  if negb (length kip_header =? 0x100)%nat || negb (kip_magic kip_header =? MAGIC_KIP1) then Ok ini1 else
  let kip_size := kip1_get_size_from_header kip_header in
  if kip_size >? file_size then Stop Fatal else
  let data := read_from_file kip_size kip_path in
  if negb (Z.of_nat (length data) =? kip_size) then Ok ini1 else
  Ok (ini1_header (u32 (ini1_size ini1 + kip_size)) (u32 (ini1_num_processes ini1 + 1))
      ++ drop (Z.to_nat ini1_header_size) ini1 ++ data).

Fixpoint add_sd_kips (paths : list (list Z)) (ini1 : list Z) : res (list Z) :=
  match paths with [] => Ok ini1 | p :: r => ini1 ← try_add_sd_kip ini1 p; add_sd_kips r ini1 end.

Definition is_file (path : list Z) : bool := match sd_file path with Some _ => true | None => false end.

(** The files of [atmosphere/kips] and of its sub-directories, in the order of
    the two loops. *)
Definition sd_kip_paths : list (list Z) :=
  match sd_dir (str "atmosphere/kips") with
  | None => []
  | Some entries =>
      entries ≫= fun ent =>
        if is_dot ent then [] else
        let kip_path := snprintf 0x300 (str "atmosphere/kips/" ++ ent) in
        if is_file kip_path then [kip_path]
        else match sd_dir kip_path with
             | None => []
             | Some sub => sub ≫= fun sub_ent =>
                 if is_dot sub_ent then [] else
                 let kip_path := snprintf 0x300 (str "atmosphere/kips/" ++ ent ++ str "/" ++ sub_ent) in
                 if is_file kip_path then [kip_path] else []
             end
  end.

(** The allocation is not checked. *)
Definition stratosphere_get_sd_files_ini1 : F (list Z) :=
  s ← fgets f_strat;
  match g_sd_files_ini1 s with
  | Some ini1 => mret ini1
  | None =>
      if negb (heap_has PACKAGE2_SIZE_MAX) then stopped BadAccess else
      ini1 ← heap (add_sd_kips sd_kip_paths (ini1_header ini1_header_size 0));
      fmodify (fun w => w <| f_strat ::= fun s => s <| g_sd_files_ini1 := Some ini1 |> |>) ;;
      mret ini1
  end.

(** ** The emummc KIP *)

Definition inject_emummc_kip (fs_kip emummc_kip : list Z) : F (list Z) :=
  r1 ← heap (kip1_uncompress fs_kip);
  r2 ← heap (kip1_uncompress emummc_kip);
  match r1 : option (list Z), r2 : option (list Z) with
  | Some fs_kip, Some emummc_kip =>
      let size := u32 (Z.of_nat (length fs_kip) + Z.of_nat (length emummc_kip)) in
      if negb (heap_has size) then fatal_error else
      fs_header ← heap (load_at fs_kip 0 0x100);
      injected ← heap (store_at (zeros (Z.to_nat size)) 0 fs_header);
      let fs_contents_size := u32 (kip1_get_size_from_header fs_kip - kip1_header_size) in
      let emummc_data_size := u32 (kip_out_offset emummc_kip 3 + kip_out_size emummc_kip 3) in
      if negb (emummc_data_size .& 0xFFF =? 0) then fatal_error else
      caps ← heap (load_at emummc_kip 0x80 0x80);
      injected ← heap (store_at injected 0x80 caps);
      fs_ver ← stratosphere_get_fs_version;
      let injected := if fs_ver =? FS_VER_1_0_0 then add_pmc_capability 0x20 0 injected else injected in
      let injected := update_sections injected emummc_data_size in
      st ← heap (copy_emummc_section emummc_kip (injected, 0) 0);
      st ← heap (copy_emummc_section emummc_kip st 1);
      st ← heap (copy_emummc_section emummc_kip st 2);
      contents ← heap (load_at fs_kip 0x100 fs_contents_size);
      heap (store_at st.1 (0x100 + emummc_data_size) contents)
  | _, _ => stopped BadAccess
  end.

(** ** The merge *)

(** What has been merged: [process_list], the KIPs, and the space left. *)
Record merging := mk_merging { process_list : list Z; merged_kips : list Z; remaining_size : Z }.

(** The header checks; the result is the number of processes. *)
Fixpoint count_processes (inis : list (option (list Z))) : res Z :=
  match inis with
  | [] => Ok 0
  | None :: _ => Stop Fatal
  | Some ini :: r =>
      header ← load_at ini 0 ini1_header_size;
      if negb (ini1_magic header =? MAGIC_INI1) || (ini1_num_processes header >? INI1_MAX_KIPS) then Stop Fatal else
      n ← count_processes r;
      Ok (u32 (ini1_num_processes header + n))
  end.

(** The KIP to load for [current_kip]: patched and, for FS, with emummc. *)
Definition load_kip (emummc : option (list Z)) (current_kip : list Z) (current_kip_size : Z) : F (option (list Z)) :=
  patched_kip ← apply_kip_ips_patches current_kip current_kip_size;
  match emummc with
  | Some emummc =>
      if kip_title_id current_kip =? FS_TITLE_ID
      then kip ← inject_emummc_kip (default current_kip patched_kip) emummc; mret (Some kip)
      else mret patched_kip
  | None => mret patched_kip
  end.

(** One KIP of an archive: the state, and the offset of the next KIP. *)
Definition merge_kip (emummc : option (list Z)) (ini : list Z) (m : merging) (offset : Z) : F (merging * Z) :=
  header ← heap (load_at ini (ini1_header_size + offset) kip1_header_size);
  let current_kip := drop (Z.to_nat (u32 (ini1_header_size + offset))) ini in
  if negb (kip_magic header =? MAGIC_KIP1) then fatal_error else
  let current_kip_size := kip1_get_size_from_header header in
  let next := u32 (offset + current_kip_size) in
  if existsb (Z.eqb (kip_title_id header)) (process_list m) then mret (m, next) else
  if current_kip_size >? remaining_size m then fatal_error else
  loaded ← load_kip emummc current_kip current_kip_size;
  let kip := default current_kip loaded : list Z in
  let kip_size := kip1_get_size_from_header kip in
  if kip_size >? remaining_size m then fatal_error else
  data ← heap (load_at kip 0 kip_size);
  mret (mk_merging (process_list m ++ [kip_title_id header]) (merged_kips m ++ data) (remaining_size m - kip_size), next).

Fixpoint merge_ini (n : nat) (emummc : option (list Z)) (ini : list Z) (m : merging) (offset : Z) : F merging :=
  match n with
  | O => mret m
  | S n' =>
      r ← merge_kip emummc ini m offset;
      merge_ini n' emummc ini r.1 r.2
  end.

Fixpoint merge_all (emummc : option (list Z)) (inis : list (option (list Z))) (m : merging) : F merging :=
  match inis with
  | [] => mret m
  | ini :: r =>
      let ini := default [] ini in
      m ← merge_ini (Z.to_nat (ini1_num_processes ini)) emummc ini m 0;
      merge_all emummc r m
  end.

(** The part of the block below [merged->size]; what pads it to a multiple of
    four is what the block held when it was allocated. *)
Definition finish_merge (m : merging) : list Z :=
  let used := Z.of_nat (length (merged_kips m)) in
  let size := u32 (ini1_header_size + used) in
  let size := if negb (size .& 3 =? 0) then u32 (size + 3) .& not32 3 else size in
  let block := uninit_buf PACKAGE2_SIZE_MAX ++ zeros (Z.to_nat size) in
  ini1_header size (Z.of_nat (length (process_list m))) ++ merged_kips m
    ++ slice block (ini1_header_size + used) (size - (ini1_header_size + used)).

Definition stratosphere_merge_inis (inis : list (option (list Z))) (emummc : option (list Z)) : F (list Z) :=
  total_num_processes ← heap (count_processes inis);
  if total_num_processes >? INI1_MAX_KIPS then fatal_error else
  if negb (heap_has PACKAGE2_SIZE_MAX) then fatal_error else
  m ← merge_all emummc inis (mk_merging [] [] (PACKAGE2_SIZE_MAX - ini1_header_size));
  mret (finish_merge m).
End Ops.
End Stratosphere.
