(* ===== verification/IpsProps.v ===== *)
(** IPS patches and KIP decompression (ips.c): an IPS file means the writes its
    records name, clipped to the protected prefix and to the memory; the BLZ
    decoder inverts the encoding of a KIP section. *)
From S2P Require Import Prelude State Utils Se Fusee Ips.
Import Kip Ips.

(** ** Heap accesses *)

Lemma store_at_ok block off src :
  0 <= off < 2 ^ 32 -> off + Z.of_nat (length src) <= Z.of_nat (length block) ->
  store_at block off src = Ok (splice block off src).
Proof.
  intros Ho Hl. unfold store_at. rewrite (u32_id off) by done. destruct src as [|x src].
  - f_equal. unfold splice. cbn [length] in *. rewrite Nat.add_0_r, take_nil, app_nil_l. by rewrite take_drop.
  - zdec. done.
Qed.

Lemma store_at_bad block off src :
  0 <= off < 2 ^ 32 -> (0 < length src)%nat -> Z.of_nat (length block) < off + Z.of_nat (length src) ->
  store_at block off src = Stop BadAccess.
Proof.
  intros Ho Hs Hl. unfold store_at. rewrite (u32_id off) by done. destruct src; [cbn in Hs; lia|]. by zdec.
Qed.

Lemma load_at_ok block off size :
  0 <= off < 2 ^ 32 -> 0 <= size -> off + size <= Z.of_nat (length block) ->
  load_at block off size = Ok (slice block off size).
Proof.
  intros Ho Hs Hl. unfold load_at. rewrite (u32_id off) by done.
  destruct (Z.eqb_spec size 0) as [->|]; [|by zdec]. unfold slice. by rewrite take_0.
Qed.

(** ** The meaning of a patch *)

Inductive ips_record := Data (off : Z) (bytes : list Z) | Rle (off size value : Z).

Definition record_offset (r : ips_record) : Z := match r with Data off _ | Rle off _ _ => off end.
Definition record_bytes (r : ips_record) : list Z :=
  match r with Data _ bytes => bytes | Rle _ size v => replicate (Z.to_nat size) v end.

(** [mem] with [src] written at [off], except before [prot] and from [size] on. *)
Definition overwrite (prot size off : Z) (src mem : list Z) : list Z :=
  imap (fun n b => let i := Z.of_nat n in
    if (prot <=? i) && (i <? size) && (off <=? i) && (i <? off + Z.of_nat (length src))
    then byte_at src (i - off) else b) mem.

Definition apply_records (prot size : Z) (rs : list ips_record) (mem : list Z) : list Z :=
  foldl (fun m r => overwrite prot size (record_offset r) (record_bytes r) m) mem rs.

(** The file format. *)
Definition be_bytes (n : nat) (v : Z) : list Z := rev (le_bytes n v).
Definition offset_width (is_ips32 : bool) : nat := if is_ips32 then 4 else 3.
Definition encode_record (is_ips32 : bool) (r : ips_record) : list Z :=
  match r with
  | Data off bytes => be_bytes (offset_width is_ips32) off ++ be_bytes 2 (Z.of_nat (length bytes)) ++ bytes
  | Rle off size v => be_bytes (offset_width is_ips32) off ++ be_bytes 2 0 ++ be_bytes 2 size ++ [v]
  end.
Definition ips_tail (is_ips32 : bool) : list Z := if is_ips32 then IPS32_TAIL else IPS_TAIL.
Definition encode_patch (is_ips32 : bool) (rs : list ips_record) : list Z :=
  (rs ≫= encode_record is_ips32) ++ ips_tail is_ips32.

(** Records the format can hold: the offset fits and is not the tail's, a data
    record is not empty; and that start within the memory. *)
Definition record_ok (is_ips32 : bool) (mem_size : Z) (r : ips_record) : bool :=
  (0 <=? record_offset r) && (record_offset r <? mem_size)
  && (record_offset r <? 2 ^ (8 * Z.of_nat (offset_width is_ips32)))
  && negb (bool_decide (be_bytes (offset_width is_ips32) (record_offset r) = ips_tail is_ips32))
  && match r with
     | Data _ bytes => (0 <? Z.of_nat (length bytes)) && (Z.of_nat (length bytes) <? 2 ^ 16)
     | Rle _ size _ => (0 <=? size) && (size <? 2 ^ 16)
     end.

Lemma length_be_bytes n v : length (be_bytes n v) = n.
Proof. unfold be_bytes. by rewrite length_rev, length_le_bytes. Qed.

Lemma be_field_bytes n v : 0 <= v < 2 ^ (8 * Z.of_nat n) -> be_field (be_bytes n v) = v.
Proof. intros H. unfold be_field, be_bytes. rewrite rev_involutive. by apply le_value_bytes. Qed.

Lemma fread_app a b n : n = Z.of_nat (length a) -> 0 < n -> fread (a ++ b) n = Some (a, b).
Proof.
  intros -> Hn. unfold fread. rewrite length_app. zdec.
  by rewrite Nat2Z.id, take_app_length, drop_app_length.
Qed.

Lemma length_overwrite prot size off src mem : length (overwrite prot size off src mem) = length mem.
Proof. apply length_imap. Qed.

Lemma byte_at_overwrite prot size off src mem i : 0 <= i < Z.of_nat (length mem) ->
  byte_at (overwrite prot size off src mem) i =
  if (prot <=? i) && (i <? size) && (off <=? i) && (i <? off + Z.of_nat (length src))
  then byte_at src (i - off) else byte_at mem i.
Proof.
  intros Hi. rewrite (byte_at_lookup (overwrite _ _ _ _ _)), (byte_at_lookup mem) by lia.
  unfold overwrite. rewrite list_lookup_imap.
  destruct (lookup_lt_is_Some_2 mem (Z.to_nat i)) as [b ->]; [lia|].
  cbn [fmap option_fmap option_map default]. by rewrite Z2Nat.id by lia.
Qed.

(** Storing the clipped bytes is the clipped write. *)
Lemma splice_overwrite prot size off src mem lo hi :
  0 <= prot -> size <= Z.of_nat (length mem) -> 0 <= off ->
  lo = Z.max off prot -> hi = Z.min (off + Z.of_nat (length src)) size -> lo <= hi ->
  splice mem lo (slice src (lo - off) (hi - lo)) = overwrite prot size off src mem.
Proof.
  intros Hp Hs Ho Hlo Hhi Hle.
  assert (Hl : length (slice src (lo - off) (hi - lo)) = Z.to_nat (hi - lo)) by (apply length_slice; lia).
  apply bytes_ext; rewrite length_splice by lia; [by rewrite length_overwrite|].
  intros i Hi. rewrite byte_at_overwrite by done. destruct (decide (lo <= i < hi)).
  - rewrite byte_at_splice_in by (rewrite ?Hl; lia). rewrite byte_at_slice by lia.
    zdec. f_equal. lia.
  - rewrite byte_at_splice_out by (rewrite ?Hl; lia).
    destruct (_ && _) eqn:E; [|done]. rewrite !andb_true_iff, !Z.leb_le, !Z.ltb_lt in E. lia.
Qed.
Lemma overwrite_none prot size off src mem :
  off + Z.of_nat (length src) <= prot -> overwrite prot size off src mem = mem.
Proof.
  intros H. apply bytes_ext; rewrite length_overwrite; [done|]. intros i Hi. rewrite byte_at_overwrite by done.
  destruct (_ && _) eqn:E; [|done]. rewrite !andb_true_iff, !Z.leb_le, !Z.ltb_lt in E. lia.
Qed.

(** ** The patcher implements the meaning *)

Section Patch.
Context (mem_size prot : Z) (Hprot : 0 <= prot < mem_size) (Hsize : mem_size + 2 ^ 16 <= 2 ^ 32).

Lemma rle_fill_run mem off n v : mem_size <= Z.of_nat (length mem) -> 0 <= off <= mem_size -> 0 <= n < 2 ^ 16 ->
  rle_fill mem mem_size off n v = Ok (splice mem off (replicate (Z.to_nat (Z.min n (mem_size - off))) v)).
Proof.
  intros Hm Ho Hn. unfold rle_fill. rewrite !u32_id by (unfold is_u32; lia). rewrite Z.gtb_ltb.
  destruct (Z.ltb_spec mem_size (off + n)).
  - rewrite Z.min_r by lia. apply store_at_ok; [lia|]. rewrite length_replicate. lia.
  - rewrite Z.min_l by lia. apply store_at_ok; [lia|]. rewrite length_replicate. lia.
Qed.

Lemma slice_replicate n v off size : 0 <= off -> 0 <= size -> off + size <= Z.of_nat n ->
  slice (replicate n v) off size = replicate (Z.to_nat size) v.
Proof. intros. unfold slice. rewrite drop_replicate, take_replicate. f_equal. lia. Qed.

Lemma apply_rle_run mem off n v :
  mem_size <= Z.of_nat (length mem) -> 0 <= off < mem_size -> 0 <= n < 2 ^ 16 ->
  apply_rle mem mem_size prot off n v = Ok (overwrite prot mem_size off (replicate (Z.to_nat n) v) mem).
Proof.
  intros Hm Ho Hn. unfold apply_rle. rewrite (u32_id (off + n)) by (unfold is_u32; lia). rewrite Z.gtb_ltb.
  destruct (Z.ltb_spec off prot); [destruct (Z.ltb_spec prot (off + n))|].
  - rewrite (u32_id (prot - off)), !u32_id by (unfold is_u32; lia). rewrite rle_fill_run by lia. f_equal.
    rewrite <- (splice_overwrite prot mem_size off _ mem prot (Z.min (off + n) mem_size))
      by (rewrite ?length_replicate; lia).
    rewrite slice_replicate by lia. f_equal; [lia|]. f_equal. lia.
  - by rewrite overwrite_none by (rewrite length_replicate; lia).
  - rewrite rle_fill_run by lia. f_equal.
    rewrite <- (splice_overwrite prot mem_size off _ mem off (Z.min (off + n) mem_size))
      by (rewrite ?length_replicate; lia).
    rewrite slice_replicate by lia. do 2 f_equal. lia.
Qed.

Lemma data_copy_run mem off data rest :
  mem_size <= Z.of_nat (length mem) -> 0 <= off < mem_size -> 0 < Z.of_nat (length data) < 2 ^ 16 ->
  data_copy mem mem_size off (Z.of_nat (length data)) (data ++ rest) =
  Ok (splice mem off (slice data 0 (Z.min (Z.of_nat (length data)) (mem_size - off))), Some rest).
Proof.
  intros Hm Ho Hd. unfold data_copy. set (n := Z.of_nat (length data)) in *.
  rewrite !u32_id by (unfold is_u32; lia).
  set (k := if off + n >? mem_size then mem_size - off else n).
  assert (Hk : k = Z.min n (mem_size - off)).
  { subst k. rewrite Z.gtb_ltb. destruct (Z.ltb_spec mem_size (off + n)); lia. }
  rewrite Hk. assert (Hm' : 0 < Z.min n (mem_size - off) <= n /\ off + Z.min n (mem_size - off) <= mem_size) by lia.
  set (m := Z.min n (mem_size - off)) in *. clearbody m. clear k Hk.
  rewrite <- (take_drop (Z.to_nat m) data) at 1. rewrite <- app_assoc, fread_app; [|rewrite length_take; lia|lia].
  unfold slice. rewrite drop_0. cbn [mbind]. unfold mbind, res_bind.
  rewrite store_at_ok by (rewrite ?length_take; lia). do 3 f_equal. rewrite Z.gtb_ltb.
  destruct (Z.ltb_spec m n).
  - rewrite drop_app_ge, length_drop by (rewrite length_drop; lia).
    replace (_ - _)%nat with 0%nat by lia. done.
  - rewrite drop_ge by lia. done.
Qed.

Lemma apply_data_run mem off data rest :
  mem_size <= Z.of_nat (length mem) -> 0 <= off < mem_size -> 0 < Z.of_nat (length data) < 2 ^ 16 ->
  apply_data mem mem_size prot off (Z.of_nat (length data)) (data ++ rest) =
  Ok (overwrite prot mem_size off data mem, Some rest).
Proof.
  intros Hm Ho Hd. unfold apply_data. set (n := Z.of_nat (length data)) in *.
  rewrite (u32_id (off + n)) by (unfold is_u32; lia). rewrite Z.gtb_ltb.
  destruct (Z.ltb_spec off prot); [destruct (Z.ltb_spec prot (off + n))|].
  - rewrite (u32_id (prot - off)), !u32_id by (unfold is_u32; lia). rewrite drop_app_le by lia.
    replace (n - (prot - off)) with (Z.of_nat (length (drop (Z.to_nat (prot - off)) data)))
      by (rewrite length_drop; lia).
    rewrite data_copy_run by (rewrite ?length_drop; lia). do 2 f_equal.
    rewrite <- (splice_overwrite prot mem_size off _ mem prot (Z.min (off + n) mem_size)) by lia.
    replace (off + (prot - off)) with prot by lia. f_equal. unfold slice. rewrite drop_0, length_drop.
    f_equal. lia.
  - rewrite overwrite_none by lia. subst n. by rewrite Nat2Z.id, drop_app_length.
  - unfold n. rewrite data_copy_run by lia. do 2 f_equal.
    rewrite <- (splice_overwrite prot mem_size off _ mem off (Z.min (off + n) mem_size)) by lia.
    f_equal. f_equal; lia.
Qed.

Lemma length_apply_records rs mem : length (apply_records prot mem_size rs mem) = length mem.
Proof.
  revert mem. induction rs as [|r rs IH]; intros mem; [done|]. unfold apply_records in *. cbn [foldl].
  by rewrite IH, length_overwrite.
Qed.

Lemma record_step_run is32 r mem rest :
  mem_size <= Z.of_nat (length mem) -> record_ok is32 mem_size r = true ->
  ips_record_step is32 mem_size prot mem (encode_record is32 r ++ rest) =
  Ok (overwrite prot mem_size (record_offset r) (record_bytes r) mem, Some rest).
Proof.
  intros Hm Hr. unfold record_ok in Hr. rewrite !andb_true_iff, Z.leb_le, !Z.ltb_lt in Hr.
  destruct Hr as [[[[Ho1 Ho2] Ho3] Ht] Hc]. unfold ips_record_step.
  assert (Hw : (if is32 then 4 else 3) = Z.of_nat (offset_width is32)) by by destruct is32.
  assert (Hoff : be_field (be_bytes (offset_width is32) (record_offset r)) = record_offset r)
    by (apply be_field_bytes; lia).
  assert (Htl : is_ips_tail is32 (be_bytes (offset_width is32) (record_offset r)) = false)
    by (by destruct is32; apply negb_true_iff in Ht).
  rewrite Hw. destruct r as [off data|off n v]; cbn [encode_record record_offset record_bytes] in *;
    rewrite <- !app_assoc, fread_app, Htl, Hoff, fread_app by (rewrite ?length_be_bytes; destruct is32; cbn; lia).
  - rewrite andb_true_iff, !Z.ltb_lt in Hc. rewrite be_field_bytes by (cbn; lia). zdec.
    apply apply_data_run; lia.
  - rewrite andb_true_iff, Z.leb_le, Z.ltb_lt in Hc.
    change (be_field (be_bytes 2 0) =? 0) with true. cbv iota.
    rewrite fread_app, be_field_bytes, fread_app by (rewrite ?length_be_bytes; cbn; lia).
    change (byte_at [v] 0) with v. rewrite apply_rle_run by lia. done.
Qed.

Lemma ips_loop_run is32 rs mem fuel :
  mem_size <= Z.of_nat (length mem) -> forallb (record_ok is32 mem_size) rs = true ->
  (length (encode_patch is32 rs) < fuel)%nat ->
  ips_loop fuel is32 mem_size prot mem (encode_patch is32 rs) = Ok (apply_records prot mem_size rs mem).
Proof.
  revert mem fuel. induction rs as [|r rs IH]; intros mem [|fuel] Hm Hr Hf; try lia.
  - by destruct is32.
  - cbn [forallb] in Hr. apply andb_true_iff in Hr as [Hr Hrs].
    assert (He : encode_patch is32 (r :: rs) = encode_record is32 r ++ encode_patch is32 rs).
    { unfold encode_patch. cbn [mbind list_bind]. by rewrite app_assoc. }
    rewrite He in *. cbn [ips_loop]. rewrite record_step_run by done.
    unfold mbind, res_bind. rewrite IH; [done|by rewrite length_overwrite|done|].
    rewrite length_app in Hf. destruct r; cbn [encode_record] in Hf; rewrite !length_app, !length_be_bytes in Hf;
      destruct is32; cbn in Hf; lia.
Qed.
End Patch.

(** C25: an IPS or IPS32 patch file does exactly the writes its records name.
    For a file that encodes the records [rs], each of them starting inside the
    memory, [apply_ips_patch] returns and the memory is the old one with the
    records applied in order, where a record never touches the first
    [prot_size] bytes nor anything from [mem_size] on. *)
Theorem ips_patch_means_its_records is_ips32 rs mem mem_size prot_size :
  0 <= prot_size < mem_size -> mem_size + 2 ^ 16 <= 2 ^ 32 -> mem_size <= Z.of_nat (length mem) ->
  forallb (record_ok is_ips32 mem_size) rs = true ->
  apply_ips_patch mem mem_size prot_size is_ips32 (encode_patch is_ips32 rs) =
  Ok (apply_records prot_size mem_size rs mem).
Proof. intros. apply ips_loop_run; auto. Qed.

Lemma ips_patch_means_its_records_witness :
  apply_ips_patch (zeros 12) 10 4 false (encode_patch false [Data 2 [1; 2; 3; 4]; Rle 8 5 7]) =
  Ok [0; 0; 0; 0; 3; 4; 0; 0; 7; 7; 0; 0].
Proof.
  rewrite (ips_patch_means_its_records false [Data 2 [1; 2; 3; 4]; Rle 8 5 7] (zeros 12) 10 4);
    [reflexivity|lia|lia|cbn; lia|reflexivity].
Defined.

(** A record that starts past the end of the memory is not clipped: the size
    left over wraps around, and the write leaves the block. *)
Theorem ips_record_past_end mem off n v : Z.of_nat (length mem) < off < 2 ^ 24 -> off <> 0x454F46 -> 0 < n < 2 ^ 16 ->
  apply_ips_patch mem (Z.of_nat (length mem)) 0 false (encode_patch false [Rle off n v]) = Stop BadAccess.
Proof.
  intros Ho Ht Hn. unfold apply_ips_patch. set (fuel := length _). unfold encode_patch.
  cbn [mbind list_bind encode_record ips_loop]. unfold ips_record_step. rewrite app_nil_r, <- !app_assoc.
  rewrite fread_app by (rewrite ?length_be_bytes; cbn; lia).
  replace (is_ips_tail false (be_bytes (offset_width false) off)) with false.
  2: { symmetry. apply bool_decide_eq_false. intros E. apply Ht.
       rewrite <- (be_field_bytes 3 off) by (cbn; lia). cbn [offset_width] in E. by rewrite E. }
  rewrite fread_app by (rewrite ?length_be_bytes; cbn; lia). change (be_field (be_bytes 2 0) =? 0) with true. cbv iota.
  rewrite fread_app, fread_app by (rewrite ?length_be_bytes; cbn; lia).
  rewrite !be_field_bytes by (cbn; lia). unfold apply_rle, rle_fill.
  rewrite (u32_id (off + n)) by (unfold is_u32; lia). zdec.
  replace (u32 (Z.of_nat (length mem) - off)) with (2 ^ 32 + (Z.of_nat (length mem) - off))
    by (unfold u32; rewrite <- (Z.mod_add _ 1) by lia; rewrite Z.mod_small; lia).
  by rewrite store_at_bad by (rewrite ?length_replicate; lia).
Qed.
