(* ===== verification/BlzProps.v ===== *)
(** KIP section decompression (ips.c: [kip1_blz_uncompress]) against a decoder
    on token lists: the routine, which works in place and from the end of the
    block, leaves the decoder's output. *)
From S2P Require Import Prelude State Utils Se Fusee FuseeToy Ips IpsProps.
Import Kip Ips.

(** ** The format *)

(** A literal byte, or a copy of [size] bytes from [dist] bytes further on. *)
Inductive blz_token := Lit (b : Z) | Seg (size dist : Z).

Definition token_len (t : blz_token) : Z := match t with Lit _ => 1 | Seg size _ => size end.
(** The bytes of a token, in the order the decoder reads them. *)
Definition token_bytes (t : blz_token) : list Z :=
  match t with
  | Lit b => [b]
  | Seg size dist => rev (le_bytes 2 ((size - 3) * 2 ^ 12 + (dist - 3)))
  end.
Definition is_seg (t : blz_token) : bool := match t with Lit _ => false | Seg _ _ => true end.

(** The output grows at its front; [out] is what has been produced. *)
Definition expand_token (out : list Z) (t : blz_token) : list Z :=
  match t with Lit b => b :: out | Seg size dist => slice out (dist - size) size ++ out end.
Definition expand (ts : list blz_token) (out : list Z) : list Z := foldl expand_token out ts.

(** Tokens the format can hold whose copies read produced bytes only. *)
Definition token_ok (out_len : Z) (t : blz_token) : bool :=
  match t with
  | Lit b => (0 <=? b) && (b <? 256)
  | Seg size dist => (3 <=? size) && (size <=? 18) && (size <=? dist) && (dist <=? out_len) && (dist <=? 0x1002)
  end.
Fixpoint tokens_ok (out_len : Z) (ts : list blz_token) : bool :=
  match ts with [] => true | t :: r => token_ok out_len t && tokens_ok (out_len + token_len t) r end.

Definition sum_len (ts : list blz_token) : Z := foldr (fun t n => token_len t + n) 0 ts.

(** The control byte: one bit per token, the first token's highest. *)
Fixpoint control_of (bits : list bool) : Z :=
  match bits with [] => 0 | b :: r => (if b then 0x80 else 0) + control_of r / 2 end.
Definition group_bytes (g : list blz_token) : list Z := control_of (map is_seg g) :: (g ≫= token_bytes).
Definition stream (gs : list (list blz_token)) : list Z := gs ≫= group_bytes.

(** Groups hold eight tokens, the last one at least one. *)
Fixpoint groups_ok (gs : list (list blz_token)) : bool :=
  match gs with
  | [] => true
  | [g] => (0 <? length g)%nat && (length g <=? 8)%nat
  | g :: r => (length g =? 8)%nat && groups_ok r
  end.

(** Decoding in place never overwrites what is still to be read: after each
    token of [ts], followed by [C] bytes of input and [R] bytes of output, the
    output to come is at least as long as the input to come. *)
Fixpoint inplace_tokens (ts : list blz_token) (C R : Z) : bool :=
  match ts with
  | [] => true
  | t :: r => (Z.of_nat (length (r ≫= token_bytes)) + C <=? sum_len r + R) && inplace_tokens r C R
  end.
Fixpoint inplace (gs : list (list blz_token)) : bool :=
  match gs with
  | [] => true
  | g :: r => inplace_tokens g (Z.of_nat (length (stream r))) (sum_len (concat r)) && inplace r
  end.

(** ** Lemmas on the format *)

Lemma control_of_bounds bits : (length bits <= 8)%nat ->
  exists k, control_of bits = k * 2 ^ (8 - Z.of_nat (length bits)) /\ 0 <= k < 2 ^ Z.of_nat (length bits).
Proof.
  induction bits as [|b r IH]; intros H; cbn [control_of length] in *; [by exists 0|].
  destruct IH as (k & -> & Hk); [lia|].
  replace (8 - Z.of_nat (length r)) with (8 - Z.of_nat (S (length r)) + 1) by lia.
  set (e := 8 - Z.of_nat (S (length r))) in *. assert (0 <= e) by (subst e; lia).
  rewrite Z.pow_add_r by lia.
  replace (k * (2 ^ e * 2 ^ 1)) with (k * 2 ^ e * 2) by lia. rewrite Z.div_mul by lia.
  exists ((if b then 2 ^ Z.of_nat (length r) else 0) + k).
  assert (E : 2 ^ Z.of_nat (length r) * 2 ^ e = 0x80).
  { rewrite <- Z.pow_add_r by lia. replace (Z.of_nat (length r) + e) with 7 by lia. done. }
  assert (2 ^ Z.of_nat (S (length r)) = 2 * 2 ^ Z.of_nat (length r)) as ->
    by (rewrite Nat2Z.inj_succ, Z.pow_succ_r; lia).
  destruct b; split; lia.
Qed.

Lemma control_head b r : (length r <= 7)%nat -> negb (control_of (b :: r) .& 0x80 =? 0) = b.
Proof.
  intros H. cbn [control_of]. destruct (control_of_bounds r) as (k & E & Hk); [lia|].
  assert (Hc : 0 <= control_of r / 2 < 2 ^ 7).
  { assert (control_of r < 2 ^ 8).
    { rewrite E. replace (2 ^ 8) with (2 ^ Z.of_nat (length r) * 2 ^ (8 - Z.of_nat (length r)))
        by (rewrite <- Z.pow_add_r by lia; f_equal; lia).
      apply Z.mul_lt_mono_pos_r; [apply Z.pow_pos_nonneg; lia|lia]. }
    assert (0 <= control_of r) by (rewrite E; apply Z.mul_nonneg_nonneg; [lia|apply Z.pow_nonneg; lia]).
    split; [apply Z.div_pos; lia|apply Z.div_lt_upper_bound; lia]. }
  set (c := control_of r / 2) in *. clearbody c.
  assert (Hbit : forall x, 0 <= x < 2 ^ 7 -> x .& 0x80 = 0).
  { intros x Hx. change 0x80 with (1 <<. 7). rewrite Z.land_comm.
    rewrite <- (Z.mod_small x (2 ^ 7)), <- Z.land_ones, Z.land_comm, <- Z.land_assoc by lia. apply Z.land_0_r. }
  destruct b.
  - replace (128 + c) with (1 * 2 ^ 7 + c) by lia. rewrite <- (lor_shiftl_add 1 c 7), Z.land_lor_distr_l, (Hbit c) by lia. done.
  - rewrite Z.add_0_l, Hbit by lia. done.
Qed.

Lemma control_tail b r : (length r <= 7)%nat -> u8 (control_of (b :: r) <<. 1) = control_of r.
Proof.
  intros H. cbn [control_of]. destruct (control_of_bounds r) as (k & E & Hk); [lia|].
  rewrite Z.shiftl_mul_pow2 by lia. unfold u8. set (e := 7 - Z.of_nat (length r)).
  assert (E' : control_of r = k * 2 ^ e * 2).
  { rewrite E. replace (8 - Z.of_nat (length r)) with (e + 1) by lia. rewrite Z.pow_add_r by lia. lia. }
  assert (0 <= k * 2 ^ e < 2 ^ 7).
  { split; [apply Z.mul_nonneg_nonneg; [lia|apply Z.pow_nonneg; lia]|].
    replace (2 ^ 7) with (2 ^ Z.of_nat (length r) * 2 ^ e) by (rewrite <- Z.pow_add_r by lia; f_equal; lia).
    apply Z.mul_lt_mono_pos_r; [apply Z.pow_pos_nonneg; lia|lia]. }
  rewrite E', Z.div_mul by lia. generalize dependent (k * 2 ^ e). intros v _ Hv. destruct b.
  - replace ((128 + v) * 2 ^ 1) with (v * 2 + 1 * 2 ^ 8) by lia. rewrite Z.mod_add by lia.
    apply Z.mod_small. lia.
  - replace ((0 + v) * 2 ^ 1) with (v * 2) by lia. apply Z.mod_small. lia.
Qed.

Lemma token_len_pos out_len t : token_ok out_len t = true -> 0 < token_len t.
Proof. destruct t; cbn [token_ok token_len]; rewrite ?andb_true_iff, ?Z.leb_le; lia. Qed.
Lemma sum_len_cons t ts : sum_len (t :: ts) = token_len t + sum_len ts.
Proof. done. Qed.
Lemma sum_len_nonneg out_len ts : tokens_ok out_len ts = true -> 0 <= sum_len ts.
Proof.
  revert out_len. induction ts as [|t ts IH]; intros n; [done|]. cbn [tokens_ok]. rewrite andb_true_iff.
  intros [H1 H2]. rewrite sum_len_cons. pose proof (token_len_pos _ _ H1). specialize (IH _ H2). lia.
Qed.
Lemma sum_len_app a b : sum_len (a ++ b) = sum_len a + sum_len b.
Proof. induction a as [|t a IH]; [done|]. cbn [app]. rewrite !sum_len_cons, IH. lia. Qed.
Lemma tokens_ok_app n a b : tokens_ok n (a ++ b) = tokens_ok n a && tokens_ok (n + sum_len a) b.
Proof.
  revert n. induction a as [|t a IH]; intros n; [by rewrite Z.add_0_r|].
  cbn [app tokens_ok]. by rewrite IH, andb_assoc, sum_len_cons, Z.add_assoc.
Qed.

Lemma length_expand_token out t : token_ok (Z.of_nat (length out)) t = true ->
  Z.of_nat (length (expand_token out t)) = Z.of_nat (length out) + token_len t.
Proof.
  destruct t as [b|size dist]; cbn [expand_token token_len token_ok]; [cbn [length]; lia|].
  rewrite !andb_true_iff, !Z.leb_le. intros. rewrite length_app, length_slice by lia. lia.
Qed.
Lemma length_expand ts out : tokens_ok (Z.of_nat (length out)) ts = true ->
  Z.of_nat (length (expand ts out)) = Z.of_nat (length out) + sum_len ts.
Proof.
  revert out. induction ts as [|t ts IH]; intros out; [cbn; lia|]. cbn [tokens_ok]. rewrite andb_true_iff.
  intros [H1 H2]. rewrite sum_len_cons. unfold expand in *. cbn [foldl].
  rewrite IH; rewrite length_expand_token by done; [lia|done].
Qed.

(** ** The decoder's steps *)

Section Decode.
Context (mem0 : list Z) (base total : Z).
Context (Hbase : 0 <= base) (Htotal : base + total <= Z.of_nat (length mem0)).
Context (Hmem : Z.of_nat (length mem0) < 2 ^ 32).

(** [rest] is the input still to read, [out] the output so far. *)
Record decoding (s : blz) (rest out : list Z) : Prop := {
  dec_len : length (blz_mem s) = length mem0;
  dec_cmp : cmp_ofs s = Z.of_nat (length rest);
  dec_out : out_ofs s + Z.of_nat (length out) = total;
  dec_le : cmp_ofs s <= out_ofs s;
  dec_rest i : 0 <= i < cmp_ofs s -> byte_at (blz_mem s) (base + i) = byte_at rest (cmp_ofs s - 1 - i);
  dec_done i : 0 <= i < Z.of_nat (length out) -> byte_at (blz_mem s) (base + out_ofs s + i) = byte_at out i;
  dec_frame i : 0 <= i < Z.of_nat (length mem0) -> ~ (base <= i < base + total) ->
    byte_at (blz_mem s) i = byte_at mem0 i }.

Lemma blz_byte_run mem i : length mem = length mem0 -> 0 <= i < total ->
  blz_byte mem base i = Ok (byte_at mem (base + i)).
Proof.
  intros Hl Hi. unfold blz_byte. rewrite load_at_ok by lia. cbn [mbind res_bind].
  rewrite byte_at_slice by lia. do 2 f_equal. lia.
Qed.

Lemma blz_store_run mem i b : length mem = length mem0 -> 0 <= i < total ->
  store_at mem (base + i) [b] = Ok (splice mem (base + i) [b]).
Proof. intros. apply store_at_ok; cbn [length]; lia. Qed.

Lemma byte_at_splice1 mem a b i : 0 <= a < Z.of_nat (length mem) -> 0 <= i ->
  byte_at (splice mem a [b]) i = if i =? a then b else byte_at mem i.
Proof.
  intros Ha Hi. destruct (Z.eqb_spec i a) as [->|].
  - rewrite byte_at_splice_in by (cbn [length]; lia). by rewrite Z.sub_diag.
  - apply byte_at_splice_out; cbn [length]; lia.
Qed.

Lemma literal_run s b rest out : decoding s (b :: rest) out ->
  exists s', blz_literal base s = Ok s' /\ decoding s' rest (b :: out).
Proof.
  intros []. cbn [length] in *. unfold blz_literal. zdec.
  rewrite blz_byte_run by lia. cbn [mbind res_bind]. rewrite dec_rest0 by lia.
  replace (cmp_ofs s - 1 - (cmp_ofs s - 1)) with 0 by lia. change (byte_at (b :: rest) 0) with b.
  rewrite blz_store_run by lia. cbn [mbind res_bind]. eexists. split; [reflexivity|].
  assert (Hin : 0 <= base + (out_ofs s - 1) < Z.of_nat (length (blz_mem s))) by lia.
  split; cbn [blz_mem cmp_ofs out_ofs length].
  - rewrite length_splice; lia.
  - lia.
  - lia.
  - lia.
  - intros i Hi. rewrite byte_at_splice1 by lia. zdec. rewrite dec_rest0 by lia.
    rewrite byte_at_cons by lia. f_equal. lia.
  - intros i Hi. rewrite byte_at_splice1 by lia. destruct (Z.eqb_spec (base + (out_ofs s - 1) + i) (base + (out_ofs s - 1))).
    + by replace i with 0 by lia.
    + replace (base + (out_ofs s - 1) + i) with (base + out_ofs s + (i - 1)) by lia. rewrite dec_done0 by lia.
      by rewrite byte_at_cons by lia.
  - intros i Hi Hn. rewrite byte_at_splice1 by lia. zdec. auto.
Qed.

(** The copy loop from index [k] on: the bytes it writes come from beyond them. *)
Lemma copy_loop_run n k out dist mem : length mem = length mem0 -> 0 <= k -> 0 <= out ->
  k + Z.of_nat n <= dist -> out + k + Z.of_nat n + dist <= total ->
  exists mem', blz_copy_loop (seqZ k (Z.of_nat n)) base out dist mem = Ok mem' /\ length mem' = length mem0 /\
    forall i, 0 <= i < Z.of_nat (length mem0) -> byte_at mem' i =
      if (base + out + k <=? i) && (i <? base + out + k + Z.of_nat n) then byte_at mem (i + dist) else byte_at mem i.
Proof.
  revert k mem. induction n as [|n IH]; intros k mem Hl Hk Ho Hd Ht.
  - exists mem. split; [done|]. split; [done|]. intros i Hi.
    destruct (_ && _) eqn:E; [rewrite andb_true_iff, Z.leb_le, Z.ltb_lt in E; lia|done].
  - rewrite seqZ_cons by lia. cbn [blz_copy_loop].
    rewrite (u32_id (out + k + dist)), (u32_id (out + k)) by (unfold is_u32; lia).
    rewrite blz_byte_run by lia. cbn [mbind res_bind]. rewrite blz_store_run by lia. cbn [mbind res_bind].
    destruct (IH (Z.succ k) (splice mem (base + (out + k)) [byte_at mem (base + (out + k + dist))]))
      as (mem' & E & Hl' & Hb); [rewrite length_splice; lia|lia|lia|lia|lia|].
    exists mem'. replace (Z.pred (Z.of_nat (S n))) with (Z.of_nat n) by lia. split; [done|]. split; [done|].
    intros i Hi. rewrite Hb by done. rewrite !byte_at_splice1 by lia.
    destruct (decide (i = base + out + k)) as [->|Hne]; zdec.
    + f_equal. lia.
    + destruct (Z.leb_spec (base + out + Z.succ k) i), (Z.ltb_spec i (base + out + Z.succ k + Z.of_nat n));
        cbn [andb]; zdec; try lia; done.
Qed.

Lemma seg_fields size dist : 3 <= size <= 18 -> 3 <= dist <= 0x1002 ->
  let v := (size - 3) * 2 ^ 12 + (dist - 3) in
  exists hi lo, rev (le_bytes 2 v) = [hi; lo] /\ u16 ((hi <<. 8) .| lo) = v /\
    ((v >>. 12) .& 0xF) + 3 = size /\ (v .& 0x0FFF) + 3 = dist.
Proof.
  intros Hs Hd v. exists (v / 2 ^ 8 mod 2 ^ 8), (v mod 2 ^ 8). split; [done|].
  assert (0 <= v < 2 ^ 16) by (subst v; lia).
  assert (0 <= v / 2 ^ 8 < 2 ^ 8) by (split; [apply Z.div_pos; lia|apply Z.div_lt_upper_bound; lia]).
  pose proof (Z.mod_pos_bound v (2 ^ 8)). pose proof (Z.div_mod v (2 ^ 8)). split; [|split].
  - rewrite (Z.mod_small (v / 2 ^ 8)), lor_shiftl_add by lia. unfold u16. rewrite Z.mod_small; lia.
  - rewrite Z.shiftr_div_pow2 by lia. change 0xF with (Z.ones 4). rewrite Z.land_ones by lia.
    subst v. rewrite Z.div_add_l, (Z.div_small (dist - 3)), Z.mod_small by lia. lia.
  - change 0x0FFF with (Z.ones 12). rewrite Z.land_ones by lia. subst v.
    rewrite (Z.add_comm ((size - 3) * 2 ^ 12)), Z.mod_add, Z.mod_small by lia. lia.
Qed.

Lemma segment_run s size dist rest out :
  decoding s (token_bytes (Seg size dist) ++ rest) out ->
  token_ok (Z.of_nat (length out)) (Seg size dist) = true ->
  Z.of_nat (length rest) <= out_ofs s - size ->
  exists s', blz_segment base s = Ok s' /\ decoding s' rest (expand_token out (Seg size dist)).
Proof.
  intros [] Hok Hin. cbn [token_ok] in Hok. rewrite !andb_true_iff, !Z.leb_le in Hok.
  destruct (seg_fields size dist) as (hi & lo & Eb & Ev & Es & Ed); [lia|lia|].
  cbn [token_bytes] in *. rewrite Eb in *. cbn [app length] in *. unfold blz_segment. zdec.
  rewrite !blz_byte_run by lia. cbn [mbind res_bind]. rewrite !dec_rest0 by lia.
  replace (cmp_ofs s - 1 - (cmp_ofs s - 2 + 1)) with 0 by lia.
  replace (cmp_ofs s - 1 - (cmp_ofs s - 2)) with 1 by lia.
  change (byte_at (hi :: lo :: rest) 0) with hi. change (byte_at (hi :: lo :: rest) 1) with lo.
  rewrite Ev, Es, Ed. zdec. unfold range.
  destruct (copy_loop_run (Z.to_nat size) 0 (out_ofs s - size) dist (blz_mem s)) as (mem' & E & Hl & Hb); try lia.
  rewrite Z2Nat.id in * by lia. rewrite E. cbn [mbind res_bind]. eexists. split; [reflexivity|].
  split; cbn [blz_mem cmp_ofs out_ofs].
  - done.
  - lia.
  - rewrite length_expand_token by (cbn [token_ok]; zdec; done). cbn [token_len]. lia.
  - lia.
  - intros i Hi. rewrite Hb by lia. zdec. rewrite dec_rest0 by lia.
    rewrite !byte_at_cons by lia. f_equal. lia.
  - intros i Hi. cbn [expand_token] in *.
    assert (Hsl : length (slice out (dist - size) size) = Z.to_nat size) by (apply length_slice; lia).
    rewrite length_app, Hsl in Hi. rewrite Hb by lia.
    destruct (decide (i < size)); zdec.
    + rewrite byte_at_app_l, byte_at_slice by lia.
      replace (base + (out_ofs s - size) + i + dist) with (base + out_ofs s + (dist - size + i)) by lia.
      apply dec_done0. lia.
    + rewrite byte_at_app_r, Hsl, Z2Nat.id by lia.
      replace (base + (out_ofs s - size) + i) with (base + out_ofs s + (i - size)) by lia.
      apply dec_done0. lia.
  - intros i Hi Hn. rewrite Hb by lia.
    destruct (_ && _) eqn:E'; [rewrite andb_true_iff, Z.leb_le, Z.ltb_lt in E'; lia|auto].
Qed.

Lemma token_run s t rest out R : decoding s (token_bytes t ++ rest) out ->
  token_ok (Z.of_nat (length out)) t = true -> out_ofs s = token_len t + R -> Z.of_nat (length rest) <= R ->
  exists s', (if is_seg t then blz_segment base s else blz_literal base s) = Ok s' /\
    decoding s' rest (expand_token out t) /\ out_ofs s' = R.
Proof.
  intros Hd Hok Ho Hin.
  enough (exists s', (if is_seg t then blz_segment base s else blz_literal base s) = Ok s' /\
    decoding s' rest (expand_token out t)) as (s' & E & Hd').
  { exists s'. split; [done|]. split; [done|]. pose proof (dec_out _ _ _ Hd'). pose proof (dec_out _ _ _ Hd).
    rewrite length_expand_token in * by done. lia. }
  destruct t as [b|size dist]; cbn [is_seg token_len] in *.
  - by apply literal_run.
  - apply segment_run; [done|done|lia].
Qed.

Lemma bits_run g n s rest out R :
  decoding s ((g ≫= token_bytes) ++ rest) out -> tokens_ok (Z.of_nat (length out)) g = true ->
  inplace_tokens g (Z.of_nat (length rest)) R = true -> out_ofs s = sum_len g + R -> 0 <= R ->
  (length g <= n <= 8)%nat -> (0 < R \/ g = [] -> length g = n) ->
  exists s', blz_bits n (control_of (map is_seg g)) base s = Ok s' /\ decoding s' rest (expand g out) /\ out_ofs s' = R.
Proof.
  revert n s out. induction g as [|t g IH]; intros n s out Hd Hok Hin Ho HR Hn Hfull.
  - replace n with 0%nat by (symmetry; rewrite <- Hfull by auto; done). exists s. split; [done|].
    split; [done|]. rewrite Ho. cbn. lia.
  - destruct n as [|n]; [cbn in Hn; lia|].
    cbn [tokens_ok inplace_tokens] in Hok, Hin. apply andb_true_iff in Hok as [Ht Hok].
    apply andb_true_iff in Hin as [Hle Hin]. apply Z.leb_le in Hle. rewrite sum_len_cons in Ho.
    cbn [mbind list_bind] in Hd. rewrite <- app_assoc in Hd.
    destruct (token_run s t ((g ≫= token_bytes) ++ rest) out (sum_len g + R)) as (s' & E & Hd' & Ho');
      [done|done|lia|rewrite length_app; lia|].
    cbn [length map blz_bits] in *. rewrite control_head, E by (rewrite length_map; lia). cbn [mbind res_bind].
    assert (Hlen : Z.of_nat (length (expand_token out t)) = Z.of_nat (length out) + token_len t)
      by by apply length_expand_token.
    assert (Hg : 0 <= sum_len g) by by eapply sum_len_nonneg.
    destruct (Z.eqb_spec (out_ofs s') 0) as [H0|H0].
    + assert (g = []) as ->.
      { destruct g as [|t' g]; [done|]. cbn [tokens_ok] in Hok. apply andb_true_iff in Hok as [Hp Hq].
        pose proof (token_len_pos _ _ Hp). pose proof (sum_len_nonneg _ _ Hq). rewrite sum_len_cons in Ho'. lia. }
      exists s'. split; [done|]. split; [done|]. cbn in Ho'. lia.
    + rewrite control_tail by (rewrite length_map; lia). apply IH; [done|by rewrite Hlen|done|done|done|lia|].
      intros [HR'| ->]; [specialize (Hfull (or_introl HR')); lia|]. cbn in Ho'. specialize (Hfull ltac:(lia)). lia.
Qed.

Lemma loop_run gs fuel s out :
  decoding s (stream gs) out -> groups_ok gs = true -> tokens_ok (Z.of_nat (length out)) (concat gs) = true ->
  inplace gs = true -> out_ofs s = sum_len (concat gs) -> (length gs < fuel)%nat ->
  exists s', blz_loop fuel base s = Ok (blz_mem s') /\ decoding s' [] (expand (concat gs) out).
Proof.
  revert fuel s out. induction gs as [|g gs IH]; intros [|fuel] s out Hd Hg Hok Hin Ho Hf; try (cbn in Hf; lia).
  - exists s. split; [|done]. cbn [blz_loop]. by rewrite Ho.
  - cbn [concat inplace] in *. rewrite tokens_ok_app in Hok. apply andb_true_iff in Hok as [Hok1 Hok2].
    apply andb_true_iff in Hin as [Hin1 Hin2]. rewrite sum_len_app in Ho.
    assert (Hsz : (0 < length g <= 8)%nat /\ (gs <> [] -> length g = 8%nat) /\ groups_ok gs = true).
    { destruct gs; cbn [groups_ok] in Hg; rewrite andb_true_iff in Hg.
      - rewrite Nat.ltb_lt, Nat.leb_le in Hg. split; [lia|done].
      - rewrite Nat.eqb_eq in Hg. destruct Hg as [-> ?]. split; [lia|done]. }
    destruct Hsz as (Hlen & H8 & Hg').
    pose proof (sum_len_nonneg _ _ Hok1). pose proof (sum_len_nonneg _ _ Hok2).
    assert (Hpos : 0 < sum_len g).
    { destruct g as [|t g]; [cbn in Hlen; lia|]. cbn [tokens_ok] in Hok1. apply andb_true_iff in Hok1 as [Hp Hq].
      pose proof (token_len_pos _ _ Hp). pose proof (sum_len_nonneg _ _ Hq). rewrite sum_len_cons. lia. }
    cbn [blz_loop]. zdec.
    assert (Hst : stream (g :: gs) = control_of (map is_seg g) :: (g ≫= token_bytes) ++ stream gs) by done.
    rewrite Hst in Hd. pose proof Hd as []. cbn [length] in *.
    rewrite (u32_id (cmp_ofs s - 1)) by (unfold is_u32; lia). rewrite blz_byte_run by lia. cbn [mbind res_bind].
    rewrite dec_rest0 by lia. replace (cmp_ofs s - 1 - (cmp_ofs s - 1)) with 0 by lia.
    change (byte_at (?x :: ?l) 0) with x.
    destruct (bits_run g 8 (mk_blz (blz_mem s) (cmp_ofs s - 1) (out_ofs s)) (stream gs) out (sum_len (concat gs)))
      as (s' & E & Hd' & Ho'); try done; try lia.
    { split; cbn [blz_mem cmp_ofs out_ofs]; try done; try lia. intros i Hi. rewrite dec_rest0 by lia.
      rewrite byte_at_cons by lia. f_equal. lia. }
    { intros [Hr| ->]; [|cbn in Hlen; lia]. apply H8. intros ->. cbn in Hr. lia. }
    rewrite E. cbn [mbind res_bind].
    assert (Hle : Z.of_nat (length (expand g out)) = Z.of_nat (length out) + sum_len g).
    { pose proof (dec_out _ _ _ Hd'). lia. }
    destruct (IH fuel s' (expand g out)) as (s'' & E' & Hd''); try done; [by rewrite Hle|lia|].
    exists s''. split; [done|]. unfold expand in *. by rewrite foldl_app.
Qed.
End Decode.

(** ** A compressed section *)

(** The stream backwards, padding, and the footer with the three sizes. *)
Definition blz_section (gs : list (list blz_token)) (pad : list Z) : list Z :=
  let header_size := Z.of_nat (length pad) + 12 in
  let cmp_and_hdr_size := Z.of_nat (length (stream gs)) + header_size in
  rev (stream gs) ++ pad ++ le_bytes 4 cmp_and_hdr_size ++ le_bytes 4 header_size
    ++ le_bytes 4 (sum_len (concat gs) - cmp_and_hdr_size).

(** The encodings of a section: it is not longer than its contents. *)
Definition blz_ok (gs : list (list blz_token)) (pad : list Z) : bool :=
  groups_ok gs && tokens_ok 0 (concat gs) && inplace gs
  && (Z.of_nat (length (blz_section gs pad)) <=? sum_len (concat gs)).

Lemma length_blz_section gs pad :
  Z.of_nat (length (blz_section gs pad)) = Z.of_nat (length (stream gs)) + (Z.of_nat (length pad) + 12).
Proof. unfold blz_section. rewrite !length_app, length_rev, !length_le_bytes. lia. Qed.

Lemma length_stream_groups gs : (length gs <= length (stream gs))%nat.
Proof.
  induction gs as [|g gs IH]; [done|]. change (stream (g :: gs)) with (group_bytes g ++ stream gs).
  rewrite length_app. unfold group_bytes. cbn [length]. lia.
Qed.

Lemma byte_at_rev l i : 0 <= i < Z.of_nat (length l) -> byte_at (rev l) i = byte_at l (Z.of_nat (length l) - 1 - i).
Proof. intros H. unfold byte_at. rewrite rev_nth by lia. f_equal. lia. Qed.

Lemma read32le_app a v b off : off = Z.of_nat (length a) -> 0 <= v < 2 ^ 32 -> read32le (a ++ le_bytes 4 v ++ b) off = v.
Proof.
  intros Ho Hv. unfold read32le. rewrite slice_app_mid by (rewrite ?length_le_bytes; lia).
  by apply le_value_bytes.
Qed.

Lemma blz_uncompress_run pre gs pad post :
  blz_ok gs pad = true ->
  let mem := pre ++ blz_section gs pad ++ post in
  Z.of_nat (length pre) + sum_len (concat gs) <= Z.of_nat (length mem) -> Z.of_nat (length mem) < 2 ^ 32 ->
  kip1_blz_uncompress mem (Z.of_nat (length pre) + Z.of_nat (length (blz_section gs pad))) =
  Ok (pre ++ expand (concat gs) [] ++ drop (length pre + Z.to_nat (sum_len (concat gs))) mem).
Proof.
  intros Hok mem Hfit Hlt. unfold blz_ok in Hok. rewrite !andb_true_iff, Z.leb_le in Hok.
  destruct Hok as [[[Hg Ht] Hin] Hsz].
  pose proof (length_blz_section gs pad) as Hls.
  set (H := Z.of_nat (length pad) + 12) in *. set (C := Z.of_nat (length (stream gs)) + H) in *.
  set (A := sum_len (concat gs) - C) in *. set (T := sum_len (concat gs)) in *.
  assert (Hmem : mem = (pre ++ rev (stream gs) ++ pad) ++ (le_bytes 4 C ++ le_bytes 4 H ++ le_bytes 4 A) ++ post).
  { subst mem. unfold blz_section. fold H C T A. by rewrite <- !app_assoc. }
  assert (Hpl : Z.of_nat (length (pre ++ rev (stream gs) ++ pad)) = Z.of_nat (length pre) + C - 12).
  { rewrite !length_app, length_rev. lia. }
  unfold kip1_blz_uncompress. rewrite load_at_ok by (subst mem; rewrite !length_app in *; lia).
  assert (Ef : slice mem (Z.of_nat (length pre) + Z.of_nat (length (blz_section gs pad)) - 12) 12
               = le_bytes 4 C ++ le_bytes 4 H ++ le_bytes 4 A).
  { rewrite Hmem. apply slice_app_mid; [rewrite Hpl; lia | rewrite !length_app, !length_le_bytes; lia]. }
  rewrite Ef. clear Ef. cbn [mbind res_bind].
  assert (E0 : read32le (le_bytes 4 C ++ le_bytes 4 H ++ le_bytes 4 A) 0 = C).
  { apply (read32le_app [] C (le_bytes 4 H ++ le_bytes 4 A)); [done|]. subst mem. rewrite !length_app in *. lia. }
  assert (E4 : read32le (le_bytes 4 C ++ le_bytes 4 H ++ le_bytes 4 A) 4 = H).
  { apply (read32le_app (le_bytes 4 C) H (le_bytes 4 A)); [by rewrite length_le_bytes|].
    subst mem. rewrite !length_app in *. lia. }
  assert (E8 : read32le (le_bytes 4 C ++ le_bytes 4 H ++ le_bytes 4 A) 8 = A).
  { rewrite <- (app_nil_r (le_bytes 4 A)), app_assoc. apply read32le_app; [by rewrite length_app, !length_le_bytes|].
    subst mem A. rewrite !length_app in *. lia. }
  rewrite E0, E4, E8. replace (Z.of_nat (length pre) + _ - C) with (Z.of_nat (length pre)) by lia.
  replace (C + A) with T by lia. rewrite !u32_id by (unfold is_u32; subst mem; rewrite !length_app in *; lia).
  replace (C - H) with (Z.of_nat (length (stream gs))) by lia.
  destruct (loop_run mem (Z.of_nat (length pre)) T ltac:(lia) Hfit Hlt gs (S (Z.to_nat T))
    (mk_blz mem (Z.of_nat (length (stream gs))) T) []) as (s' & E & []); try done.
  { split; cbn [blz_mem cmp_ofs out_ofs length]; try done; try lia.
    intros i Hi. subst mem. unfold blz_section.
    rewrite byte_at_app_r, <- !app_assoc by lia. rewrite byte_at_app_l by (rewrite length_rev; lia).
    rewrite byte_at_rev by lia. f_equal. lia. }
  { pose proof (length_stream_groups gs). lia. }
  pose proof (length_expand (concat gs) [] Ht) as Hex. rewrite E. f_equal. cbn [length] in *.
  apply bytes_ext; rewrite dec_len0; [rewrite !length_app, length_drop; lia|]. intros i Hi.
  destruct (decide (i < Z.of_nat (length pre))); [|destruct (decide (i < Z.of_nat (length pre) + T))].
  - rewrite byte_at_app_l by lia. rewrite dec_frame0 by lia. subst mem. by rewrite byte_at_app_l by lia.
  - rewrite byte_at_app_r, byte_at_app_l by lia. rewrite <- dec_done0 by lia. f_equal. lia.
  - rewrite !byte_at_app_r by lia. rewrite byte_at_drop by lia. rewrite dec_frame0 by lia. f_equal. lia.
Qed.

(** ** A whole KIP *)

Inductive kip_section := RawSection (data : list Z) | BlzSection (gs : list (list blz_token)) (pad : list Z).
Definition stored (s : kip_section) : list Z :=
  match s with RawSection data => data | BlzSection gs pad => blz_section gs pad end.
Definition contents (s : kip_section) : list Z :=
  match s with RawSection data => data | BlzSection gs _ => expand (concat gs) [] end.
Definition section_ok (s : kip_section) : bool :=
  match s with RawSection _ => true | BlzSection gs pad => blz_ok gs pad end.
Definition is_compressed (s : kip_section) : bool := match s with RawSection _ => false | BlzSection _ _ => true end.

(** [header] describes [s] as section [i]. *)
Definition describes (header : list Z) (i : Z) (s : kip_section) : bool :=
  (kip_compressed_size header i =? Z.of_nat (length (stored s)))
  && (kip_out_size header i =? Z.of_nat (length (contents s)))
  && eqb (negb (kip_flags header .& (1 <<. i) =? 0)) (is_compressed s).

Lemma length_contents gs pad : blz_ok gs pad = true -> Z.of_nat (length (expand (concat gs) [])) = sum_len (concat gs).
Proof.
  unfold blz_ok. rewrite !andb_true_iff. intros [[[_ H] _] _]. rewrite (length_expand _ []) by done. done.
Qed.
Lemma stored_le_contents s : section_ok s = true -> (length (stored s) <= length (contents s))%nat.
Proof.
  destruct s as [|gs pad]; [done|]. cbn [section_ok stored contents]. intros H.
  pose proof (length_contents gs pad H). unfold blz_ok in H. rewrite !andb_true_iff, Z.leb_le in H. lia.
Qed.

Lemma uncompress_section_run header i s before after done_ n :
  describes header i s = true -> section_ok s = true -> (length (contents s) <= n)%nat ->
  Z.of_nat (length before + length (stored s)) < 2 ^ 32 -> Z.of_nat (length done_ + n) < 2 ^ 32 ->
  uncompress_section (before ++ stored s ++ after) header (done_ ++ zeros n, Z.of_nat (length done_), Z.of_nat (length before)) i =
  Ok ((done_ ++ contents s) ++ zeros (n - length (contents s)), Z.of_nat (length (done_ ++ contents s)),
      Z.of_nat (length (before ++ stored s))).
Proof.
  intros Hd Hok Hn Hb Hl. unfold describes in Hd. rewrite !andb_true_iff, !Z.eqb_eq, eqb_true_iff in Hd.
  destruct Hd as [[Hc Ho] Hf]. pose proof (stored_le_contents s Hok) as Hle. unfold uncompress_section.
  rewrite Hc, Ho, Hf. rewrite load_at_ok by (rewrite ?length_app; lia). cbn [mbind res_bind].
  rewrite slice_app_mid by done.
  rewrite store_at_ok by (unfold zeros; rewrite ?length_app, ?length_replicate; lia). cbn [mbind res_bind].
  assert (Es : splice (done_ ++ zeros n) (Z.of_nat (length done_)) (stored s)
               = done_ ++ stored s ++ zeros (n - length (stored s))).
  { replace n with (length (stored s) + (n - length (stored s)))%nat at 1 by lia.
    unfold zeros. rewrite replicate_add. apply splice_app_at; rewrite ?length_replicate; lia. }
  rewrite Es.
  rewrite !(u32_id (Z.of_nat _ + Z.of_nat _)) by (unfold is_u32; lia).
  rewrite !length_app, !Nat2Z.inj_add. destruct s as [data|gs pad]; cbn [is_compressed stored contents] in *.
  - cbn [mbind res_bind]. by rewrite <- app_assoc.
  - rewrite (blz_uncompress_run done_ gs pad (zeros (n - length (blz_section gs pad)))); cycle 1.
    { done. }
    { pose proof (length_contents gs pad Hok). unfold zeros. rewrite !length_app, length_replicate. lia. }
    { unfold zeros. rewrite !length_app, length_replicate. lia. }
    cbn [mbind res_bind]. do 3 f_equal. rewrite <- app_assoc. do 2 f_equal.
    pose proof (length_contents gs pad Hok).
    unfold zeros. rewrite !drop_app_ge, drop_replicate by lia. f_equal. lia.
Qed.

Lemma read32le_bound l off : is_bytes l -> 0 <= read32le l off < 2 ^ 32.
Proof.
  intros Hb. pose proof (le_value_bound _ (slice_is_bytes l off 4 Hb)) as H. unfold read32le.
  assert (length (slice l off 4) <= 4)%nat by (unfold slice; rewrite length_take; lia).
  assert (2 ^ (8 * Z.of_nat (length (slice l off 4))) <= 2 ^ 32) by (apply Z.pow_le_mono_r; lia). lia.
Qed.

Lemma read_write32_eq l off v : 0 <= off -> off + 4 <= Z.of_nat (length l) -> 0 <= v < 2 ^ 32 ->
  read32le (write32le l off v) off = v.
Proof.
  intros. unfold read32le, write32le. rewrite slice_splice_eq by (rewrite ?length_le_bytes; lia).
  by apply le_value_bytes.
Qed.
Lemma read_write32_ne l off v off' : 0 <= off -> off + 4 <= Z.of_nat (length l) -> 0 <= off' ->
  off' + 4 <= Z.of_nat (length l) -> off' + 4 <= off \/ off + 4 <= off' ->
  read32le (write32le l off v) off' = read32le l off'.
Proof.
  intros. unfold read32le, write32le. rewrite slice_splice_ne by (rewrite ?length_le_bytes; lia). done.
Qed.
Lemma length_write32 l off v : 0 <= off <= Z.of_nat (length l) -> length (write32le l off v) = length l.
Proof. intros. by apply length_splice. Qed.

Lemma uncompressed_header_fields h : length h = 256%nat -> is_bytes h ->
  length (uncompressed_header h) = 256%nat /\
  kip_flags (uncompressed_header h) = kip_flags h .& 0xF8 /\
  forall i, 0 <= i < 3 -> kip_compressed_size (uncompressed_header h) i = kip_out_size h i.
Proof.
  intros Hl Hb. unfold uncompressed_header. change (range 3) with [0; 1; 2]. cbn [fold_left].
  set (h1 := write32le h _ _). set (h2 := write32le h1 _ _). set (h3 := write32le h2 _ _).
  assert (L1 : length h1 = 256%nat) by (subst h1; rewrite length_write32; lia).
  assert (L2 : length h2 = 256%nat) by (subst h2; rewrite length_write32; lia).
  assert (L3 : length h3 = 256%nat) by (subst h3; rewrite length_write32; lia).
  assert (Hfl : forall l off v, length l = 256%nat -> 0x20 <= off <= 252 -> kip_flags (write32le l off v) = kip_flags l).
  { intros l off v E Ho. unfold kip_flags, write32le.
    apply byte_at_splice_out; rewrite ?length_le_bytes; lia. }
  split; [rewrite length_splice; lia|]. split.
  - unfold kip_flags at 1. rewrite byte_at_splice_in by (cbn [length]; lia). cbn [Z.sub byte_at Z.to_nat nth].
    subst h3 h2 h1. by rewrite !Hfl by (rewrite ?length_write32; lia).
  - assert (Hout : forall i, 0 <= i < 3 -> 0 <= kip_out_size h i < 2 ^ 32) by (intros; by apply read32le_bound).
    assert (Hr : forall off, 0x20 <= off <= 252 -> read32le (splice h3 0x1F [kip_flags h3 .& 0xF8]) off = read32le h3 off).
    { intros off Ho. unfold read32le. rewrite slice_splice_ne by (cbn [length]; lia). done. }
    intros i Hi. unfold kip_compressed_size. rewrite Hr by lia.
    assert (O1 : kip_out_size h1 1 = kip_out_size h 1).
    { unfold kip_out_size, h1. apply read_write32_ne; lia. }
    assert (O2 : kip_out_size h2 2 = kip_out_size h 2).
    { unfold kip_out_size, h2. rewrite read_write32_ne by lia. unfold h1. apply read_write32_ne; lia. }
    assert (i = 0 \/ i = 1 \/ i = 2) as [-> |[-> | ->]] by lia; unfold h3; rewrite O2.
    + rewrite read_write32_ne by lia. unfold h2. rewrite read_write32_ne by lia. unfold h1.
      apply read_write32_eq; [lia|lia|auto with lia].
    + rewrite read_write32_ne by lia. unfold h2. rewrite O1. apply read_write32_eq; [lia|lia|auto with lia].
    + apply read_write32_eq; [lia|lia|auto with lia].
Qed.

Section Kip.
Context {card : Card}.

(** C6: [kip1_uncompress] decompresses a KIP.  For a KIP whose header describes
    three sections, each stored as it is or in the BLZ encoding of its contents,
    the new KIP is the header followed by the three contents; the new header's
    compressed sizes are the sizes of the contents, and its compression flags
    are clear. *)
Theorem kip1_uncompress_correct header s0 s1 s2 tail :
  length header = 256%nat -> is_bytes header ->
  describes header 0 s0 && describes header 1 s1 && describes header 2 s2 = true ->
  section_ok s0 && section_ok s1 && section_ok s2 = true ->
  let size := 0x100 + Z.of_nat (length (contents s0 ++ contents s1 ++ contents s2)) in
  size < 2 ^ 32 -> heap_has size = true ->
  kip1_uncompress (header ++ stored s0 ++ stored s1 ++ stored s2 ++ tail) =
    Ok (Some (uncompressed_header header ++ contents s0 ++ contents s1 ++ contents s2)) /\
  kip1_get_size_from_header (uncompressed_header header) = size /\
  kip_flags (uncompressed_header header) .& 7 = 0.
Proof.
  intros Hl Hb Hd Hok size Hlt Hheap. rewrite !andb_true_iff in Hd, Hok.
  destruct Hd as [[D0 D1] D2], Hok as [[K0 K1] K2].
  destruct (uncompressed_header_fields header Hl Hb) as (Hnl & Hnf & Hnc).
  pose proof (stored_le_contents _ K0). pose proof (stored_le_contents _ K1). pose proof (stored_le_contents _ K2).
  subst size. rewrite !length_app, !Nat2Z.inj_add in *.
  assert (Hsize : kip1_get_size_from_header (uncompressed_header header)
                  = 0x100 + (Z.of_nat (length (contents s0)) + (Z.of_nat (length (contents s1)) + Z.of_nat (length (contents s2))))).
  { unfold kip1_get_size_from_header. rewrite !Hnc by lia. unfold describes in D0, D1, D2.
    rewrite !andb_true_iff, !Z.eqb_eq in D0, D1, D2. rewrite u32_id; unfold is_u32; lia. }
  split; [|split; [done|]].
  2: { rewrite Hnf, <- Z.land_assoc. apply Z.land_0_r. }
  unfold kip1_uncompress, kip1_header_size. rewrite load_at_ok by (rewrite ?length_app; lia). cbn [mbind res_bind].
  rewrite (slice_app_mid [] header (stored s0 ++ stored s1 ++ stored s2 ++ tail)) by (rewrite ?Hl; done). rewrite Hsize, Hheap. cbn [negb].
  set (n := Z.to_nat _). rewrite store_at_ok by (unfold zeros; rewrite ?length_replicate; lia). cbn [mbind res_bind].
  assert (Es : splice (zeros n) 0 (uncompressed_header header) = uncompressed_header header ++ zeros (n - 256)).
  { replace n with (256 + (n - 256))%nat at 1 by lia. unfold zeros. rewrite replicate_add.
    apply (splice_app_at [] (replicate 256 0)); rewrite ?length_replicate; done. }
  rewrite Es.
  pose proof (uncompress_section_run header 0 s0 header (stored s1 ++ stored s2 ++ tail) (uncompressed_header header) (n - 256)) as E.
  rewrite Hl, Hnl in E. change (Z.of_nat 256) with 0x100 in E. rewrite E by (done || lia). clear E. cbn [mbind res_bind].
  pose proof (uncompress_section_run header 1 s1 (header ++ stored s0) (stored s2 ++ tail)
    (uncompressed_header header ++ contents s0) (n - 256 - length (contents s0))) as E.
  rewrite <- app_assoc in E. rewrite E by (done || rewrite ?length_app; lia). clear E. cbn [mbind res_bind].
  pose proof (uncompress_section_run header 2 s2 ((header ++ stored s0) ++ stored s1) tail
    ((uncompressed_header header ++ contents s0) ++ contents s1) (n - 256 - length (contents s0) - length (contents s1))) as E.
  rewrite <- !app_assoc in E. rewrite <- !app_assoc. rewrite E by (done || rewrite ?length_app; lia). cbn [mbind res_bind fst].
  do 2 f_equal. replace (n - _ - _ - _ - _)%nat with 0%nat by lia. cbn [zeros replicate]. by rewrite app_nil_r.
Qed.
End Kip.

Module KipWitness.

Definition sample_groups : list (list blz_token) :=
  [[Lit 5; Lit 6; Lit 7; Seg 3 3; Seg 6 6; Seg 12 12; Seg 18 24; Seg 18 18]].
Definition sample_section := BlzSection sample_groups [0xFF].
Definition sample_header : list Z :=
  let h := splice (zeros 256) 0x1F [1] in
  let h := write32le (write32le h 0x24 60) 0x28 (Z.of_nat (length (stored sample_section))) in
  write32le (write32le h 0x34 2) 0x38 2.

Lemma sample_bytes : is_bytes sample_header.
Proof. unfold is_bytes. apply Forall_forall. intros x Hx. apply list_elem_of_In in Hx.
  assert (H : forallb (fun x => (0 <=? x) && (x <? 256)) sample_header = true) by reflexivity.
  rewrite forallb_forall in H. specialize (H _ Hx). rewrite andb_true_iff, Z.leb_le, Z.ltb_lt in H. exact H.
Qed.

Lemma kip1_uncompress_correct_witness :
  kip1_uncompress (sample_header ++ stored sample_section ++ [1; 2] ++ [] ++ [9; 9; 9]) =
    Ok (Some (uncompressed_header sample_header ++ contents sample_section ++ [1; 2] ++ [])) /\
  kip1_get_size_from_header (uncompressed_header sample_header) = 0x100 + 62 /\
  kip_flags (uncompressed_header sample_header) .& 7 = 0.
Proof.
  apply (kip1_uncompress_correct sample_header sample_section (RawSection [1; 2]) (RawSection []) [9; 9; 9]);
    [reflexivity|exact sample_bytes|reflexivity|reflexivity|vm_compute; reflexivity|reflexivity].
Defined.
End KipWitness.
