(* ===== verification/KernelProps.v ===== *)
(** The kernel patcher (kernel_patches.c): its pattern search finds the first
    occurrence, and an installed hook is reached from the patched place and
    returns behind it. *)
From S2P Require Import Prelude State Utils Se Fusee FuseeToy Ips KernelPatches IpsProps BlzProps.
Import KernelPatches.

(** ** The search *)

(** The straightforward search: the first offset at which the pattern stands. *)
Definition matches_at (mem pattern : list Z) (i : Z) : bool :=
  bool_decide (slice mem i (Z.of_nat (length pattern)) = pattern).
Definition first_match (mem : list Z) (mem_size : Z) (pattern : list Z) : option Z :=
  List.find (matches_at mem pattern) (range (mem_size - Z.of_nat (length pattern) + 1)).

Lemma find_seqZ_skip f a n k : 0 <= k <= n -> (forall i, a <= i < a + k -> f i = false) ->
  List.find f (seqZ a n) = List.find f (seqZ (a + k) (n - k)).
Proof.
  intros [Hk Hn]. revert a n Hn. pattern k. apply Zlt_0_ind; [|done]. clear k Hk. intros k IH Hk a n Hn Hf.
  destruct (decide (k = 0)) as [->|Hne]; [by rewrite Z.add_0_r, Z.sub_0_r|].
  rewrite (seqZ_cons a n) by lia. cbn [List.find]. rewrite (Hf a) by lia.
  rewrite (IH (k - 1)) by (lia || intros; apply Hf; lia). f_equal. f_equal; lia.
Qed.

(** The table gives the distance of the last occurrence but the final one. *)
Lemma table_spec pat len n c : Z.of_nat n <= len - 1 -> 1 <= len ->
  let t := foldl (fun table i => upd table (byte_at pat i) (len - i - 1)) (fun _ => len) (range (Z.of_nat n)) c in
  1 <= t <= len /\ forall k, 0 <= k < Z.of_nat n -> byte_at pat k = c -> t <= len - k - 1.
Proof.
  intros Hn Hl. induction n as [|n IH]; cbn zeta; [unfold range; rewrite seqZ_nil by lia; cbn [foldl]; split; lia|].
  destruct IH as [H1 H2]; [lia|]. unfold range in *.
  replace (Z.of_nat (S n)) with (Z.of_nat n + 1) by lia. rewrite seqZ_app, foldl_app by lia.
  rewrite Z.add_0_l, (seqZ_cons (Z.of_nat n) 1), (seqZ_nil (Z.succ _)) by lia. cbn [foldl].
  set (t := foldl _ _ _) in *. unfold upd. destruct (Z.eqb_spec c (byte_at pat (Z.of_nat n))) as [->|Hne].
  - split; [lia|]. intros k Hk _. lia.
  - split; [done|]. intros k Hk E. apply H2; [|done]. destruct (decide (k = Z.of_nat n)); [congruence|lia].
Qed.

Lemma bad_char_spec pat len c : 1 <= len ->
  1 <= bad_char_table pat len c <= len /\
  forall k, 0 <= k < len - 1 -> byte_at pat k = c -> bad_char_table pat len c <= len - k - 1.
Proof.
  intros Hl. pose proof (table_spec pat len (Z.to_nat (len - 1)) c) as H. rewrite Z2Nat.id in H by lia.
  apply H; lia.
Qed.

Section Search.
Context (mem pat : list Z) (mem_size : Z).
Local Abbreviation len := (Z.of_nat (length pat)).
Context (Hlen : 1 <= len <= mem_size) (Hmem : mem_size <= Z.of_nat (length mem)) (Hsize : mem_size + len < 2 ^ 32).

(** Moving by less than the table says finds nothing. *)
Lemma shift_safe i d : 0 <= i -> i + d + len <= mem_size ->
  0 < d < bad_char_table pat len (byte_at mem (i + len - 1)) -> matches_at mem pat (i + d) = false.
Proof.
  intros Hi Hd Hlt. apply bool_decide_eq_false. intros E.
  destruct (bad_char_spec pat len (byte_at mem (i + len - 1))) as [Hr Hk]; [lia|].
  pose proof (f_equal (fun l => byte_at l (len - 1 - d)) E) as H. cbn in H. rewrite byte_at_slice in H by lia.
  replace (i + d + (len - 1 - d)) with (i + len - 1) in H by lia. specialize (Hk (len - 1 - d) ltac:(lia) (eq_sym H)). lia.
Qed.

Lemma window_test i : 0 <= i -> i + len <= mem_size ->
  (byte_at pat (len - 1) =? byte_at mem (i + len - 1))
    && bool_decide (slice pat 0 (len - 1) = slice (slice mem i len) 0 (len - 1)) = matches_at mem pat i.
Proof.
  intros Hi Hd. unfold matches_at.
  assert (Hsl : Z.of_nat (length (slice mem i len)) = len) by (rewrite length_slice; lia).
  apply eq_true_iff_eq. rewrite andb_true_iff, Z.eqb_eq, !bool_decide_eq_true. split.
  - intros [H1 H2]. apply bytes_ext; [lia|]. intros k Hk. destruct (decide (k = len - 1)) as [->|].
    + rewrite byte_at_slice by lia. rewrite H1. f_equal. lia.
    + pose proof (f_equal (fun l => byte_at l k) H2) as H3. cbn in H3. rewrite !byte_at_slice in H3 by lia.
      rewrite byte_at_slice by lia. rewrite Z.add_0_l in H3. congruence.
  - intros E. split; [|by rewrite E].
    pose proof (f_equal (fun l => byte_at l (len - 1)) E) as H. cbn in H. rewrite byte_at_slice in H by lia.
    rewrite <- H. f_equal. lia.
Qed.

Lemma search_loop_run fuel i : 0 <= i <= mem_size -> mem_size - i < Z.of_nat fuel ->
  search_loop fuel mem mem_size pat len i =
  Ok (List.find (matches_at mem pat) (seqZ i (mem_size - len + 1 - i))).
Proof.
  revert i. induction fuel as [|fuel IH]; intros i Hi Hf; [lia|]. cbn [search_loop].
  rewrite (u32_id (mem_size - len)) by (unfold is_u32; lia). destruct (Z.leb_spec i (mem_size - len)) as [Hle|Hgt].
  - rewrite load_at_ok by lia. cbn [mbind res_bind].
    rewrite (byte_at_slice mem i len (len - 1)) by lia. replace (i + (len - 1)) with (i + len - 1) by lia.
    rewrite window_test by lia. rewrite seqZ_cons by lia. cbn [List.find].
    destruct (matches_at mem pat i) eqn:Em; [done|].
    set (c := byte_at mem (i + len - 1)). destruct (bad_char_spec pat len c) as [Ht _]; [lia|].
    set (t := bad_char_table pat len c) in *. rewrite (u32_id (i + t)) by (unfold is_u32; lia).
    rewrite (find_seqZ_skip _ (Z.succ i) _ (Z.min (t - 1) (mem_size - len - i))); [|lia|].
    2: { intros k Hk. replace k with (i + (k - i)) by lia. apply shift_safe; fold c t; lia. }
    destruct (decide (i + t <= mem_size)).
    + rewrite IH by lia. f_equal. destruct (decide (t - 1 <= mem_size - len - i)).
      * f_equal. f_equal; lia.
      * rewrite !seqZ_nil by lia. done.
    + rewrite (seqZ_nil (_ + _)) by lia. destruct fuel as [|fuel']; [lia|]. cbn [search_loop List.find].
      rewrite (u32_id (mem_size - len)) by (unfold is_u32; lia).
      by rewrite (proj2 (Z.leb_gt (i + t) (mem_size - len))) by lia.
  - by rewrite seqZ_nil by lia.
Qed.
End Search.

(** The pattern search of the kernel patcher is the straightforward one.
    For a pattern that is not longer than the memory, the Boyer-Moore-Horspool
    search terminates with the first offset at which the pattern stands, or with
    NULL when there is none. *)
Theorem search_pattern_finds_first mem mem_size pat :
  1 <= Z.of_nat (length pat) <= mem_size -> mem_size <= Z.of_nat (length mem) ->
  mem_size + Z.of_nat (length pat) < 2 ^ 32 ->
  search_pattern mem mem_size pat (Z.of_nat (length pat)) = Ok (first_match mem mem_size pat).
Proof.
  intros H1 H2 H3. unfold search_pattern, first_match, range. rewrite search_loop_run by lia.
  by rewrite Z.sub_0_r.
Qed.

Lemma search_pattern_finds_first_witness :
  search_pattern [1; 2; 1; 2; 3; 1; 2; 3] 8 [1; 2; 3] 3 = Ok (Some 2) /\
  search_pattern [1; 2; 1; 2; 3; 1; 2; 3] 4 [1; 2; 3] 3 = Ok None.
Proof.
  split.
  - apply (search_pattern_finds_first [1; 2; 1; 2; 3; 1; 2; 3] 8 [1; 2; 3]); cbn [length]; lia.
  - apply (search_pattern_finds_first [1; 2; 1; 2; 3; 1; 2; 3] 4 [1; 2; 3]); cbn [length]; lia.
Defined.

(** ** Hooks *)

(** The target of the A64 instruction [B] at offset [pc]: opcode 000101 and a
    signed 26-bit word offset. *)
Definition branch_target (pc insn : Z) : option Z :=
  if insn >>. 26 =? 5
  then let imm := insn mod 2 ^ 26 in Some (pc + 4 * (if imm <? 2 ^ 25 then imm else imm - 2 ^ 26))
  else None.

Definition instruction_at (kernel : list Z) (off : Z) : Z := read32le kernel off.

Lemma make_branch_value a o : MAKE_BRANCH a o = 5 * 2 ^ 26 + (u32 (o - a) >>. 2) mod 2 ^ 26.
Proof.
  unfold MAKE_BRANCH. change 0x3FFFFFF with (Z.ones 26). rewrite Z.land_ones by lia.
  change 0x14000000 with (5 <<. 26). apply lor_shiftl_add; [lia|]. apply Z.mod_pos_bound. lia.
Qed.

(** The signed offset comes back from its low 26 bits. *)
Lemma branch_target_offset pc d : - 2 ^ 25 <= d < 2 ^ 25 ->
  branch_target pc (5 * 2 ^ 26 + d mod 2 ^ 26) = Some (pc + 4 * d).
Proof.
  intros Hd. pose proof (Z.mod_pos_bound d (2 ^ 26)) as Hm. unfold branch_target.
  rewrite Z.shiftr_div_pow2, Z.div_add_l, (Z.div_small (d mod 2 ^ 26)), Z.add_0_r, Z.eqb_refl by lia.
  rewrite (Z.add_comm (5 * 2 ^ 26)), Z.mod_add, Z.mod_mod by lia. do 2 f_equal.
  assert (Hmd : d mod 2 ^ 26 = if d <? 0 then d + 2 ^ 26 else d).
  { destruct (Z.ltb_spec d 0); [rewrite <- (Z.mod_add d 1) by lia|]; apply Z.mod_small; lia. }
  rewrite Hmd. destruct (Z.ltb_spec d 0); zdec; lia.
Qed.

(** The quarter of a word distance that was reduced to [w] bits. *)
Lemma word_distance d w : 28 <= w -> (((4 * d) mod 2 ^ w) >>. 2) mod 2 ^ 26 = d mod 2 ^ 26.
Proof.
  intros Hw. rewrite Z.shiftr_div_pow2 by lia. change (2 ^ 2) with 4.
  replace (2 ^ w) with (4 * (2 ^ 26 * 2 ^ (w - 28))) by (change 4 with (2 ^ 2); rewrite <- !Z.pow_add_r by lia; f_equal; lia).
  assert (0 < 2 ^ (w - 28)) by (apply Z.pow_pos_nonneg; lia).
  rewrite Z.mul_mod_distr_l, (Z.mul_comm 4), Z.div_mul by lia.
  rewrite Z.rem_mul_r by lia. rewrite (Z.mul_comm (2 ^ 26)), Z.mod_add by lia. apply Z.mod_mod. lia.
Qed.

Lemma branch_target_make a o : 0 <= a < 2 ^ 27 -> 0 <= o < 2 ^ 27 -> a mod 4 = 0 -> o mod 4 = 0 ->
  is_u32 (MAKE_BRANCH a o) /\ branch_target a (MAKE_BRANCH a o) = Some o.
Proof.
  intros Ha Ho Ha4 Ho4. rewrite make_branch_value.
  assert (Hd : o - a = 4 * ((o - a) / 4)).
  { apply Z_div_exact_full_2; [lia|]. by rewrite Zminus_mod, Ha4, Ho4. }
  set (d := (o - a) / 4) in *. rewrite Hd. unfold u32. rewrite word_distance by lia.
  pose proof (Z.mod_pos_bound d (2 ^ 26)). split; [unfold is_u32; lia|].
  rewrite branch_target_offset by lia. f_equal. lia.
Qed.

Lemma length_words ws : Z.of_nat (length (ws ≫= le_bytes 4)) = 4 * Z.of_nat (length ws).
Proof.
  induction ws as [|x ws IH]; [done|]. change ((x :: ws) ≫= le_bytes 4) with (le_bytes 4 x ++ (ws ≫= le_bytes 4)).
  rewrite length_app, length_le_bytes. cbn [length]. lia.
Qed.

Lemma slice_words ws k x : ws !! k = Some x -> slice (ws ≫= le_bytes 4) (4 * Z.of_nat k) 4 = le_bytes 4 x.
Proof.
  intros H. rewrite <- (take_drop_middle ws k x H). rewrite bind_app.
  change ((x :: drop (S k) ws) ≫= le_bytes 4) with (le_bytes 4 x ++ (drop (S k) ws ≫= le_bytes 4)).
  apply slice_app_mid; [|by rewrite length_le_bytes]. rewrite length_words, length_take_le; [done|].
  apply lookup_lt_Some in H. lia.
Qed.

(** What one store of instructions does. *)
Lemma store_instructions_run kernel off ws :
  0 <= off < 2 ^ 32 -> off + 4 * Z.of_nat (length ws) <= Z.of_nat (length kernel) -> Forall is_u32 ws ->
  exists kernel', store_instructions kernel off ws = Ok kernel' /\ length kernel' = length kernel /\
    (forall k x, ws !! k = Some x -> instruction_at kernel' (off + 4 * Z.of_nat k) = x) /\
    (forall a n, 0 <= a -> 0 <= n -> a + n <= Z.of_nat (length kernel) ->
       a + n <= off \/ off + 4 * Z.of_nat (length ws) <= a -> slice kernel' a n = slice kernel a n).
Proof.
  intros Ho Hl Hw. pose proof (length_words ws) as Hlw. unfold store_instructions.
  rewrite store_at_ok by lia. eexists. split; [reflexivity|]. split; [rewrite length_splice; lia|]. split.
  - intros k x Hk. pose proof (lookup_lt_Some _ _ _ Hk). unfold instruction_at, read32le.
    replace (slice (splice kernel off (ws ≫= le_bytes 4)) (off + 4 * Z.of_nat k) 4) with (le_bytes 4 x).
    + apply le_value_bytes. eapply Forall_lookup_1 in Hw; [|done]. exact Hw.
    + rewrite <- (slice_words ws k x Hk). apply bytes_ext; rewrite !length_slice by (rewrite ?length_splice; lia); [done|].
      intros i Hi. rewrite !byte_at_slice, byte_at_splice_in by lia. f_equal. lia.
  - intros a n Ha Hn Han Hd. apply slice_splice_ne; lia.
Qed.

(** The parts of a hook and where they go. *)
Record hook_at (p : kernel_patch_t) (kernel kernel' : list Z) (hook free : Z) : Prop := {
  hook_entry : branch_target hook (instruction_at kernel' hook) = Some free;
  hook_payload : forall k x, payload p !! k = Some x -> instruction_at kernel' (free + 4 * Z.of_nat k) = x;
  hook_return : branch_back_offset p <> 0 ->
    let back := free + 4 * Z.of_nat (length (payload p)) in
    branch_target back (instruction_at kernel' back) = Some (hook + branch_back_offset p);
  hook_frame : forall i, 0 <= i < Z.of_nat (length kernel) -> ~ (hook <= i < hook + 4) ->
    ~ (free <= i < free + 4 * Z.of_nat (length (payload p)) + (if branch_back_offset p =? 0 then 0 else 4)) ->
    byte_at kernel' i = byte_at kernel i }.

(** Patches as the tables have them. *)
Definition hook_patch_ok (p : kernel_patch_t) : bool :=
  (patch_offset p =? 0) && (pattern_size p =? Z.of_nat (length (pattern p))) && (0 <? pattern_size p)
  && (pattern_hook_offset p =? 0) && (4 <=? pattern_size p)
  && (payload_num_instructions p =? Z.of_nat (length (payload p)))
  && forallb (fun x => (0 <=? x) && (x <? 2 ^ 32)) (payload p)
  && (branch_back_offset p mod 4 =? 0) && (0 <=? branch_back_offset p) && (branch_back_offset p <=? 0x1000).

Definition hook_bytes (p : kernel_patch_t) : Z :=
  4 * Z.of_nat (length (payload p)) + (if branch_back_offset p =? 0 then 0 else 4).

Lemma make_branch_u32 a o : is_u32 (MAKE_BRANCH a o).
Proof.
  rewrite make_branch_value. pose proof (Z.mod_pos_bound (u32 (o - a) >>. 2) (2 ^ 26)). unfold is_u32. lia.
Qed.

Lemma hook_patch_fields p : hook_patch_ok p = true ->
  patch_offset p = 0 /\ pattern_size p = Z.of_nat (length (pattern p)) /\ 4 <= pattern_size p /\
  pattern_hook_offset p = 0 /\ payload_num_instructions p = Z.of_nat (length (payload p)) /\
  Forall is_u32 (payload p) /\ branch_back_offset p mod 4 = 0 /\ 0 <= branch_back_offset p <= 0x1000.
Proof.
  unfold hook_patch_ok. rewrite !andb_true_iff, !Z.eqb_eq, !Z.leb_le, Z.ltb_lt, forallb_forall.
  intros H. repeat split; try tauto. apply Forall_forall. intros x Hx%list_elem_of_In.
  destruct H as [[[[_ H] _] _] _]. specialize (H _ Hx). rewrite andb_true_iff, Z.leb_le, Z.ltb_lt in H. exact H.
Qed.

Lemma instruction_at_slice kernel kernel' off : slice kernel' off 4 = slice kernel off 4 ->
  instruction_at kernel' off = instruction_at kernel off.
Proof. unfold instruction_at, read32le. by intros ->. Qed.
Lemma byte_at_slice1 kernel kernel' i : 0 <= i -> slice kernel' i 1 = slice kernel i 1 -> byte_at kernel' i = byte_at kernel i.
Proof.
  intros Hi H. pose proof (f_equal (fun l => byte_at l 0) H) as E. cbn beta in E.
  rewrite !byte_at_slice, Z.add_0_r in E by lia. done.
Qed.

Section Hook.
Context (p : kernel_patch_t) (kernel : list Z) (hook free : Z).
Context (Hp : hook_patch_ok p = true) (Hlen : Z.of_nat (length kernel) < 2 ^ 26).
Context (Hhook : 0 <= hook /\ hook + 4 <= Z.of_nat (length kernel)).
Context (Hfree : 0 <= free /\ free + hook_bytes p <= Z.of_nat (length kernel)).

Lemma install_hook_ok : exists kernel', install_hook p kernel free hook = Ok kernel' /\
  length kernel' = length kernel /\
  (hook + 4 <= free \/ free + hook_bytes p <= hook -> hook mod 4 = 0 -> free mod 4 = 0 -> hook_at p kernel kernel' hook free).
Proof.
  destruct (hook_patch_fields p Hp) as (_ & _ & Hs & _ & Hn & Hw & Hb4 & Hb).
  assert (Hhb : hook_bytes p = 4 * Z.of_nat (length (payload p)) + (if branch_back_offset p =? 0 then 0 else 4)) by done.
  assert (Hhb' : 4 * Z.of_nat (length (payload p)) <= hook_bytes p) by (destruct (branch_back_offset p =? 0); lia).
  unfold install_hook. rewrite Hn, Nat2Z.id, take_ge by lia.
  destruct (store_instructions_run kernel hook [MAKE_BRANCH hook free]) as (k1 & E1 & L1 & I1 & F1);
    [lia|cbn [length]; lia|constructor; [apply make_branch_u32|constructor]|].
  rewrite E1. cbn [mbind res_bind]. cbn [length] in F1.
  destruct (store_instructions_run k1 free (payload p)) as (k2 & E2 & L2 & I2 & F2);
    [lia|rewrite L1; lia|done|].
  rewrite E2. cbn [mbind res_bind]. specialize (I1 0%nat _ eq_refl). rewrite Z.add_0_r in I1.
  destruct (Z.eqb_spec (branch_back_offset p) 0) as [Hb0|Hb0]; cbn [negb] in *.
  - exists k2. split; [done|]. split; [lia|]. intros Hd Hh4 Hf4. split.
    + rewrite (instruction_at_slice k1), I1 by (apply F2; lia). apply branch_target_make; lia.
    + done.
    + done.
    + rewrite Hb0. cbn [Z.eqb]. intros i Hi H1 H2. apply byte_at_slice1; [lia|]. rewrite F2, F1 by lia. done.
  - set (back := free + 4 * Z.of_nat (length (payload p))) in *.
    rewrite !(u32_id back), (u32_id (_ + hook)) by (unfold is_u32; lia).
    destruct (store_instructions_run k2 back [MAKE_BRANCH back (branch_back_offset p + hook)]) as (k3 & E3 & L3 & I3 & F3);
      [lia|cbn [length]; lia|constructor; [apply make_branch_u32|constructor]|].
    rewrite E3. cbn [length] in F3. specialize (I3 0%nat _ eq_refl). rewrite Z.add_0_r in I3.
    exists k3. split; [done|]. split; [lia|]. intros Hd Hh4 Hf4. split.
    + rewrite (instruction_at_slice k2), (instruction_at_slice k1), I1 by (apply F2 || apply F3; lia).
      apply branch_target_make; lia.
    + intros k x Hk. pose proof (lookup_lt_Some _ _ _ Hk). rewrite (instruction_at_slice k2) by (apply F3; lia). auto.
    + intros _. cbn zeta. fold back. rewrite I3, (Z.add_comm _ hook). apply branch_target_make; [lia|lia| |].
      * subst back. rewrite Z.mul_comm, Z.mod_add by lia. done.
      * rewrite Z.add_mod, Hh4, Hb4 by lia. done.
    + rewrite (proj2 (Z.eqb_neq _ _) Hb0). fold back. intros i Hi H1 H2. apply byte_at_slice1; [lia|].
      rewrite F3, F2, F1 by lia. done.
Qed.
End Hook.

(** C29: a hook works.  When a table entry's pattern stands in the kernel and the
    free code space has room, [apply_patch] turns the instruction at the first
    occurrence into a branch to the free space, puts the payload there and,
    after it, a branch back to the instruction at the entry's return offset;
    it changes nothing else and takes the hook's bytes off the free space. *)
Theorem kernel_hook_installed p kernel size free free_size loc :
  hook_patch_ok p = true -> Z.of_nat (length kernel) < 2 ^ 26 -> size <= Z.of_nat (length kernel) ->
  pattern_size p <= size -> first_match kernel size (pattern p) = Some loc -> loc mod 4 = 0 ->
  0 <= free -> free mod 4 = 0 -> hook_bytes p <= free_size < 2 ^ 32 ->
  free + hook_bytes p <= Z.of_nat (length kernel) ->
  loc + 4 <= free \/ free + hook_bytes p <= loc ->
  exists kernel', apply_patch size (kernel, free, free_size) p = Ok (kernel', free + hook_bytes p, free_size - hook_bytes p) /\
    length kernel' = length kernel /\ hook_at p kernel kernel' loc free.
Proof.
  intros Hp Hl Hs Hps Hm Hloc Hf Hf4 Hfs Hfl Hd.
  destruct (hook_patch_fields p Hp) as (Hpo & Hpl & Hp4 & Hho & Hn & _ & _ & Hb).
  assert (Hin : 0 <= loc /\ loc + pattern_size p <= size).
  { unfold first_match in Hm. apply find_some in Hm as [Hm _]. apply list_elem_of_In, elem_of_range in Hm. lia. }
  destruct (install_hook_ok p kernel loc free Hp Hl) as (k' & E & L & H); [lia|lia|].
  exists k'. split; [|split; [done|apply H; lia]].
  unfold apply_patch. rewrite Hpo, Hn, Hho. cbn [Z.eqb negb].
  change (4 * Z.of_nat (length (payload p)) + (if branch_back_offset p =? 0 then 0 else 4)) with (hook_bytes p).
  assert (Hhb : 0 <= hook_bytes p) by (unfold hook_bytes; destruct (branch_back_offset p =? 0); lia).
  rewrite (u32_id (hook_bytes p)) by (unfold is_u32; lia). zdec. rewrite Hpl.
  unfold search_pattern. rewrite search_loop_run by lia. rewrite Z.sub_0_r. fold (range (size - Z.of_nat (length (pattern p)) + 1)).
  unfold first_match in Hm. rewrite Hm. cbn [mbind res_bind]. rewrite Z.add_0_r, !u32_id by (unfold is_u32; lia).
  by rewrite E.
Qed.

(** Every entry of the tables that is a hook has this form. *)
Lemma table_hooks_ok : forallb (fun info => forallb (fun p => negb (patch_offset p =? 0) || hook_patch_ok p) (patches info))
  g_kernel_infos = true.
Proof. reflexivity. Qed.

Module HookWitness.

Definition sample_patch := mk_kernel_patch 4 [1; 2; 3; 4] 0 1 4 0 [MAKE_NOP].
Definition sample_kernel : list Z := [9; 9; 9; 9; 1; 2; 3; 4] ++ zeros 24.

Lemma kernel_hook_installed_witness :
  exists kernel', apply_patch 16 (sample_kernel, 16, 16) sample_patch = Ok (kernel', 24, 8) /\
    length kernel' = 32%nat /\ hook_at sample_patch sample_kernel kernel' 4 16.
Proof.
  apply (kernel_hook_installed sample_patch sample_kernel 16 16 16 4);
    first [reflexivity | cbn [length sample_kernel app zeros replicate]; vm_compute; intuition congruence].
Defined.
End HookWitness.

(** ** Known kernels *)

Definition sum_hooks (ps : list kernel_patch_t) : Z :=
  foldr (fun p n => (if patch_offset p =? 0 then hook_bytes p else 0) + n) 0 ps.

(** A table entry fits a kernel of [size] bytes. *)
Definition patch_fits (size : Z) (p : kernel_patch_t) : bool :=
  if patch_offset p =? 0 then hook_patch_ok p && (pattern_size p <=? size)
  else (0 <=? patch_offset p) && (patch_offset p + 4 <=? size).
Definition info_fits (size : Z) (info : kernel_info_t) : bool :=
  let free := free_code_space_offset info in
  forallb (patch_fits size) (patches info) && (0 <=? free) && (sum_hooks (patches info) <=? free_space_size_of free)
  && (free + free_space_size_of free <=? size)
  && (0 <=? embedded_ini_ptr info) && (embedded_ini_ptr info + 8 <=? size).

(** The free space of every known kernel ends below 0x66000. *)
Lemma known_kernels_fit : forallb (info_fits 0x66000) g_kernel_infos = true.
Proof. vm_compute. reflexivity. Qed.

Lemma hook_bytes_nonneg p : 0 <= hook_bytes p.
Proof. unfold hook_bytes. destruct (_ =? _); lia. Qed.
Lemma sum_hooks_nonneg ps : 0 <= sum_hooks ps.
Proof.
  induction ps as [|p ps IH]; [done|]. unfold sum_hooks in *. cbn [foldr]. pose proof (hook_bytes_nonneg p).
  destruct (patch_offset p =? 0); lia.
Qed.

Lemma store_repeatedly_run kernel off ws : 0 <= off < 2 ^ 32 -> off + 4 <= Z.of_nat (length kernel) ->
  exists kernel', store_repeatedly kernel off ws = Ok kernel' /\ length kernel' = length kernel.
Proof.
  intros Ho. revert kernel. induction ws as [|x ws IH]; intros kernel Hl; [by exists kernel|].
  cbn [store_repeatedly]. rewrite store_at_ok by (rewrite ?length_le_bytes; lia). cbn [mbind res_bind].
  destruct (IH (splice kernel off (le_bytes 4 x))) as (k' & E & L); rewrite length_splice in * by lia; [done|]. by exists k'.
Qed.

Lemma patch_fits_mono size size' p : size <= size' -> patch_fits size p = true -> patch_fits size' p = true.
Proof.
  intros Hs. unfold patch_fits. destruct (_ =? _); rewrite !andb_true_iff, !Z.leb_le; intuition lia.
Qed.

Lemma apply_patch_total kernel size free free_size p :
  Z.of_nat (length kernel) < 2 ^ 26 -> size <= Z.of_nat (length kernel) -> patch_fits size p = true ->
  let need := if patch_offset p =? 0 then hook_bytes p else 0 in
  0 <= free -> need <= free_size -> free + free_size <= size ->
  exists kernel' free' free_size', apply_patch size (kernel, free, free_size) p = Ok (kernel', free', free_size') /\
    length kernel' = length kernel /\ free_size - need <= free_size' /\ 0 <= free' /\ free' + free_size' = free + free_size.
Proof.
  intros Hl Hs Hf need Hfr Hn Hfs. unfold apply_patch, patch_fits in *. subst need.
  destruct (Z.eqb_spec (patch_offset p) 0) as [Hp0|Hp0]; cbn [negb].
  - rewrite andb_true_iff, Z.leb_le in Hf. destruct Hf as [Hp Hps].
    destruct (hook_patch_fields p Hp) as (_ & Hpl & Hp4 & Hho & Hnum & _ & _ & _). rewrite Hnum, Hho.
    change (4 * Z.of_nat (length (payload p)) + (if branch_back_offset p =? 0 then 0 else 4)) with (hook_bytes p).
    pose proof (hook_bytes_nonneg p). rewrite (u32_id (hook_bytes p)) by (unfold is_u32; lia). zdec. rewrite Hpl.
    unfold search_pattern. rewrite search_loop_run by lia. cbn [mbind res_bind].
    destruct (List.find _ _) as [loc|] eqn:Em; [|exists kernel, free, free_size; split; [done|split; [done|lia]]].
    apply find_some in Em as [Em _]. apply list_elem_of_In, elem_of_seqZ in Em.
    rewrite Z.add_0_r, !u32_id by (unfold is_u32; lia).
    destruct (install_hook_ok p kernel loc free Hp Hl) as (k' & E & L & _); [lia|lia|].
    rewrite E. cbn [mbind res_bind]. exists k', (free + hook_bytes p), (free_size - hook_bytes p).
    split; [done|]. split; [done|lia].
  - rewrite andb_true_iff, !Z.leb_le in Hf.
    destruct (store_repeatedly_run kernel (patch_offset p) (take (Z.to_nat (payload_num_instructions p)) (payload p)))
      as (k' & E & L); [lia|lia|].
    rewrite E. cbn [mbind res_bind]. exists k', free, free_size. split; [done|]. split; [done|lia].
Qed.

Lemma apply_patches_total ps kernel size free free_size :
  Z.of_nat (length kernel) < 2 ^ 26 -> size <= Z.of_nat (length kernel) -> forallb (patch_fits size) ps = true ->
  0 <= free -> sum_hooks ps <= free_size -> free + free_size <= size ->
  exists st, apply_patches size (kernel, free, free_size) ps = Ok st /\ length st.1.1 = length kernel.
Proof.
  revert kernel free free_size. induction ps as [|p ps IH]; intros kernel free fs Hl Hs Hf H0 Hsum Hfs; [by eexists|].
  cbn [forallb] in Hf. apply andb_true_iff in Hf as [Hf Hfs']. unfold sum_hooks in Hsum. cbn [foldr] in Hsum.
  fold (sum_hooks ps) in Hsum. pose proof (sum_hooks_nonneg ps).
  destruct (apply_patch_total kernel size free fs p) as (k' & f' & s' & E & L & H1 & H2 & H3); try done; [lia|].
  cbn [apply_patches]. rewrite E. cbn [mbind res_bind].
  destruct (IH k' f' s') as (st & E' & L'); [lia|lia|done|done|lia|lia|]. exists st. split; [done|lia].
Qed.


