(* ===== verification/IniProps.v ===== *)
(** The merge of INI1 archives (stratosphere.c): the merged archive holds each
    process once, taken from the first archive that has it. *)
From S2P Require Import Prelude State Utils Se Engine Platform Fusee FuseeToy Ips Stratosphere IpsProps BlzProps.
Import SE Kip Ips Stratosphere.

(** ** Archives and their merge *)

(** A KIP as a byte string of the size its header says. *)
Definition kip_ok (k : list Z) : bool :=
  (kip_magic k =? MAGIC_KIP1) && (Z.of_nat (length k) =? kip1_get_size_from_header k) && (0x100 <=? Z.of_nat (length k)).

Definition ini_of (ks : list (list Z)) : list Z :=
  ini1_header (ini1_header_size + Z.of_nat (length (concat ks))) (Z.of_nat (length ks)) ++ concat ks.

(** The KIPs whose title has not been seen. *)
Fixpoint select (seen : list Z) (ks : list (list Z)) : list (list Z) :=
  match ks with
  | [] => []
  | k :: r => if existsb (Z.eqb (kip_title_id k)) seen then select seen r
              else k :: select (seen ++ [kip_title_id k]) r
  end.

Lemma existsb_eqb x l : existsb (Z.eqb x) l = true <-> x ∈ l.
Proof.
  rewrite existsb_exists, list_elem_of_In. split; [intros (y & H & E); apply Z.eqb_eq in E; by subst|].
  intros H. exists x. by rewrite Z.eqb_refl.
Qed.

Lemma select_app seen a b : select seen (a ++ b) = select seen a ++ select (seen ++ map kip_title_id (select seen a)) b.
Proof.
  revert seen. induction a as [|k a IH]; intros seen; cbn [select app map]; [by rewrite app_nil_r|].
  destruct (existsb _ _); [done|]. cbn [app map]. rewrite IH, <- app_assoc. done.
Qed.
Lemma select_nodup seen ks : NoDup seen -> NoDup (seen ++ map kip_title_id (select seen ks)).
Proof.
  revert seen. induction ks as [|k ks IH]; intros seen Hs; cbn [select]; [by rewrite app_nil_r|].
  destruct (existsb _ _) eqn:E; [by apply IH|]. cbn [map].
  replace (seen ++ kip_title_id k :: map kip_title_id (select (seen ++ [kip_title_id k]) ks))
    with ((seen ++ [kip_title_id k]) ++ map kip_title_id (select (seen ++ [kip_title_id k]) ks))
    by by rewrite <- app_assoc.
  apply IH. apply NoDup_app. split; [done|]. split; [|apply NoDup_singleton].
  intros x Hx ->%list_elem_of_singleton. apply existsb_eqb in Hx. congruence.
Qed.
Lemma select_complete seen ks k : k ∈ ks -> kip_title_id k ∈ seen ++ map kip_title_id (select seen ks).
Proof.
  revert seen. induction ks as [|k' ks IH]; intros seen Hk; [by apply not_elem_of_nil in Hk|].
  cbn [select]. destruct (existsb _ _) eqn:E.
  - apply elem_of_cons in Hk as [->|Hk]; [|by apply IH]. apply elem_of_app. left. by apply existsb_eqb.
  - cbn [map]. apply elem_of_cons in Hk as [->|Hk]; [apply elem_of_app; right; left|].
    specialize (IH (seen ++ [kip_title_id k']) Hk). by rewrite <- app_assoc in IH.
Qed.
Lemma select_subset seen ks k : k ∈ select seen ks -> k ∈ ks.
Proof.
  revert seen. induction ks as [|k' ks IH]; intros seen; cbn [select]; [done|].
  destruct (existsb _ _); [intros H; right; by eapply IH|].
  intros [->|H]%elem_of_cons; [left|right; by eapply IH].
Qed.

(** ** Reading headers *)

Lemma slice_take l n off size : 0 <= off -> 0 <= size -> off + size <= Z.of_nat n -> slice (take n l) off size = slice l off size.
Proof.
  intros. unfold slice. rewrite skipn_firstn_comm, take_take. f_equal. lia.
Qed.
Lemma slice_app_l' a b off size : 0 <= off -> 0 <= size -> off + size <= Z.of_nat (length a) ->
  slice (a ++ b) off size = slice a off size.
Proof.
  intros. unfold slice. rewrite drop_app_le by lia. rewrite take_app_le; [done|]. rewrite length_drop. lia.
Qed.

Lemma header_fields k rest : 0x100 <= Z.of_nat (length k) ->
  let h := slice (k ++ rest) 0 0x100 in
  kip_magic h = kip_magic k /\ kip_title_id h = kip_title_id k /\
  kip1_get_size_from_header h = kip1_get_size_from_header k.
Proof.
  intros Hl. cbn zeta. rewrite slice_app_l' by lia. unfold slice. rewrite drop_0.
  unfold kip_magic, kip_title_id, kip1_get_size_from_header, kip_compressed_size, read32le, read64le.
  rewrite !slice_take by lia. done.
Qed.
Lemma kip_size_app k rest : 0x100 <= Z.of_nat (length k) ->
  kip1_get_size_from_header (k ++ rest) = kip1_get_size_from_header k.
Proof.
  intros Hl. unfold kip1_get_size_from_header, kip_compressed_size, read32le. rewrite !slice_app_l' by lia. done.
Qed.
Lemma kip_title_app k rest : 0x100 <= Z.of_nat (length k) -> kip_title_id (k ++ rest) = kip_title_id k.
Proof. intros Hl. unfold kip_title_id, read64le. rewrite !slice_app_l' by lia. done. Qed.

Lemma ini_header_fields size n rest : 0 <= n < 2 ^ 32 -> 
  ini1_magic (ini1_header size n ++ rest) = MAGIC_INI1 /\ ini1_num_processes (ini1_header size n ++ rest) = n.
Proof.
  intros Hn. unfold ini1_magic, ini1_num_processes, ini1_header. rewrite <- !app_assoc. split.
  - by apply (read32le_app [] MAGIC_INI1).
  - rewrite (app_assoc (le_bytes 4 MAGIC_INI1)). apply read32le_app; [by rewrite length_app, !length_le_bytes|done].
Qed.
Lemma length_ini_header size n : length (ini1_header size n) = 16%nat.
Proof. unfold ini1_header. by rewrite !length_app, !length_le_bytes. Qed.

(** ** Loads from a longer block *)

Lemma load_at_app mem rest off size d :
  load_at mem off size = Ok d -> load_at (mem ++ rest) off size = Ok d.
Proof.
  unfold load_at. destruct (size =? 0); [done|].
  destruct (Z.leb_spec (u32 off + size) (Z.of_nat (length mem))) as [Hl|]; [|done]. intros [= <-].
  rewrite length_app, (proj2 (Z.leb_le _ _)) by (rewrite Nat2Z.inj_add; lia). f_equal.
  destruct (Z.leb_spec 0 size); [apply slice_app_l'; [apply u32_range|lia|lia]|].
  unfold slice. by rewrite (Z2Nat.nonpos size) by lia.
Qed.
Lemma load_at_prefix k rest : 0 < Z.of_nat (length k) -> load_at (k ++ rest) 0 (Z.of_nat (length k)) = Ok k.
Proof.
  intros. unfold load_at. zdec. rewrite length_app, (proj2 (Z.leb_le _ _)) by (change (u32 0) with 0; lia).
  f_equal. change (u32 0) with 0. unfold slice. rewrite drop_0, Nat2Z.id. apply take_app_length.
Qed.

Section Merge.
Context {soc : SoC} {HE : CryptoEngine soc} {card : Card}.

Lemma uncompress_section_app kip rest header st i r :
  uncompress_section kip header st i = Ok r -> uncompress_section (kip ++ rest) header st i = Ok r.
Proof.
  destruct st as [[new n] o]. unfold uncompress_section.
  destruct (load_at kip o (kip_compressed_size header i)) as [d|] eqn:E; [|done].
  rewrite (load_at_app _ _ _ _ _ E). done.
Qed.
Lemma kip1_uncompress_app k rest r : kip1_uncompress k = Ok r -> kip1_uncompress (k ++ rest) = Ok r.
Proof.
  unfold kip1_uncompress. destruct (load_at k 0 kip1_header_size) as [h|] eqn:E; [|done].
  rewrite (load_at_app _ _ _ _ _ E). cbn [mbind res_bind]. destruct (negb _); [done|].
  destruct (store_at _ _ _) as [b|]; [|done]. cbn [mbind res_bind].
  destruct (uncompress_section k h _ 0) as [s0|] eqn:E0; [|done]. rewrite (uncompress_section_app _ _ _ _ _ _ E0).
  cbn [mbind res_bind]. destruct (uncompress_section k h _ 1) as [s1|] eqn:E1; [|done].
  rewrite (uncompress_section_app _ _ _ _ _ _ E1). cbn [mbind res_bind].
  destruct (uncompress_section k h _ 2) as [s2|] eqn:E2; [|done]. by rewrite (uncompress_section_app _ _ _ _ _ _ E2).
Qed.

(** ** One KIP *)

(** The KIP that is placed in the archive for [k], as a function of the card:
    [k] itself when no patch applies, else the decompressed and patched one. *)
Definition loaded_kip (nogc : bool) (k : list Z) : option (list Z) :=
  let hash := sha256 k in
  if (kip_title_id k =? FS_TITLE_ID) && negb (bool_decide (is_Some (fs_version_of hash))) then None else
  if negb (has_needed_default_kip_patches nogc (kip_title_id k) hash) then None else
  if negb (has_ips_patches nogc (str "atmosphere/kip_patches") hash) then Some k else
  match kip1_uncompress k with
  | Ok (Some u) =>
      match apply_ips_patches nogc (str "atmosphere/kip_patches") u (Z.of_nat (length u)) 0x100 hash with
      | Ok p => if kip1_get_size_from_header p <=? Z.of_nat (length p)
                then Some (take (Z.to_nat (kip1_get_size_from_header p)) p) else None
      | Stop _ => None
      end
  | Ok None => Some k
  | Stop _ => None
  end.

(** Only the Security Engine and the known FS version change. *)
Definition keeps_machine (w w' : FWorld) : Prop :=
  exists h v, w' = w <| f_hw ::= (fun x => x <| w_se := h |>) |> <| f_strat ::= fun s => s <| g_fs_ver := v |> |>.
#[local] Instance keeps_machine_preorder : PreOrder keeps_machine.
Proof.
  split.
  - intros w. exists (w_se (f_hw w)), (g_fs_ver (f_strat w)). by destruct w as [[] ? [] ?].
  - intros w w1 w2 (h1 & v1 & ->) (h2 & v2 & ->). by exists h2, v2.
Qed.

(** What [merge_kip] copies of a loaded KIP. *)
Definition copies (current : list Z) (loaded : option (list Z)) (data : list Z) : Prop :=
  kip1_get_size_from_header (default current loaded) = Z.of_nat (length data) /\
  load_at (default current loaded) 0 (kip1_get_size_from_header (default current loaded)) = Ok data.

Lemma load_kip_run k rest w out :
  kip_ok k = true -> is_bytes k -> loaded_kip (g_enable_nogc_patches (f_ips w)) k = Some out ->
  exists r w', load_kip None (k ++ rest) (Z.of_nat (length k)) w = (Ok r, w') /\ keeps_machine w w' /\
    copies (k ++ rest) r out.
Proof.
  intros Hk Hb. unfold kip_ok in Hk. rewrite !andb_true_iff, !Z.eqb_eq, Z.leb_le in Hk. destruct Hk as [[Hm Hs] Hl].
  assert (Hself : copies (k ++ rest) None k).
  { unfold copies. cbn [default]. rewrite kip_size_app by lia. split; [done|].
    rewrite <- Hs. apply load_at_prefix. lia. }
  unfold loaded_kip, load_kip, apply_kip_ips_patches. rewrite kip_title_app by lia.
  rewrite load_at_prefix by lia. rewrite !frun_assoc, frun_heap, frun_assoc.
  destruct (sha256_run k (Z.of_nat (length k)) (f_hw w) Hb) as (h & E & _); [lia|]. rewrite slice_full in E.
  rewrite (frun_bind _ _ _ _ _ (frun_hw _ _ _ _ E)), frun_assoc. set (w1 := w <| f_hw := _ |>).
  set (fs := if kip_title_id k =? FS_TITLE_ID then _ else _).
  destruct ((kip_title_id k =? FS_TITLE_ID) && _) eqn:Efs; [done|].
  assert (exists w2, fs w1 = (Ok tt, w2) /\ keeps_machine w w2 /\
    g_enable_nogc_patches (f_ips w2) = g_enable_nogc_patches (f_ips w)) as (w2 & E2 & K2 & G2).
  { unfold fs. destruct (kip_title_id k =? FS_TITLE_ID).
    - destruct (fs_version_of (sha256 k)) as [v|]; [|by rewrite bool_decide_false in Efs by (intros [? [=]])].
      eexists. split; [reflexivity|]. split; [by eexists h, v|done].
    - eexists. split; [reflexivity|]. split; [|done]. exists h, (g_fs_ver (f_strat w)).
      unfold w1. by destruct w as [? ? [] ?]. }
  rewrite (frun_bind _ _ _ _ _ E2), frun_assoc. unfold nogc_enabled. rewrite frun_gets, G2.
  clear fs E2 Efs. destruct (negb (has_needed_default_kip_patches _ _ _)); [done|].
  destruct (negb (has_ips_patches _ _ _)).
  { intros [= <-]. by exists None, w2. }
  destruct (kip1_uncompress k) as [[u|]|] eqn:Eu; [| |done].
  - rewrite (kip1_uncompress_app _ rest _ Eu), frun_assoc, frun_heap, frun_assoc.
    destruct (apply_ips_patches _ _ _ _ _ _) as [p|] eqn:Ep; [|done]. rewrite frun_heap.
    destruct (Z.leb_spec (kip1_get_size_from_header p) (Z.of_nat (length p))); [|done]. intros [= <-].
    exists (Some p), w2. split; [done|]. split; [done|]. unfold copies. change (default (k ++ rest) (Some p)) with p.
    assert (0 <= kip1_get_size_from_header p) by (unfold kip1_get_size_from_header; apply u32_range).
    rewrite length_take, Nat.min_l by lia. split; [by rewrite Z2Nat.id|]. unfold load_at. destruct (Z.eqb_spec (kip1_get_size_from_header p) 0) as [Hz|]; [by rewrite Hz|].
    change (u32 0) with 0. rewrite (proj2 (Z.leb_le _ _)) by lia. unfold slice. by rewrite drop_0.
  - rewrite (kip1_uncompress_app _ rest _ Eu), frun_assoc, frun_heap. intros [= <-]. by exists None, w2.
  - done.
Qed.

(** ** The merge *)

Definition out_kip (nogc : bool) (k : list Z) : list Z := default k (loaded_kip nogc k).
Definition needed (nogc : bool) (ks : list (list Z)) : Z :=
  foldr (fun k n => Z.max (Z.of_nat (length k)) (Z.of_nat (length (out_kip nogc k))) + n) 0 ks.

(** What a merge of [ks] adds to [m]. *)
Definition merged (nogc : bool) (ks : list (list Z)) (m : merging) : merging :=
  let sel := select (process_list m) ks in
  mk_merging (process_list m ++ map kip_title_id sel) (merged_kips m ++ concat (map (out_kip nogc) sel))
    (remaining_size m - Z.of_nat (length (concat (map (out_kip nogc) sel)))).

Definition loadable (nogc : bool) (k : list Z) : Prop :=
  kip_ok k = true /\ is_bytes k /\ is_Some (loaded_kip nogc k).

Lemma needed_bound nogc ks : Z.of_nat (length (concat (map (out_kip nogc) ks))) <= needed nogc ks.
Proof. induction ks as [|k ks IH]; [done|]. cbn [map concat needed foldr]. fold (needed nogc ks). rewrite length_app. lia. Qed.
Lemma needed_app nogc a b : needed nogc (a ++ b) = needed nogc a + needed nogc b.
Proof. induction a as [|k a IH]; [done|]. cbn [app needed foldr]. fold (needed nogc (a ++ b)) (needed nogc a). lia. Qed.
Lemma needed_nonneg nogc ks : 0 <= needed nogc ks.
Proof. pose proof (needed_bound nogc ks). lia. Qed.

Lemma merged_nil nogc m : merged nogc [] m = m.
Proof. destruct m. unfold merged. cbn. by rewrite !app_nil_r, Z.sub_0_r. Qed.
Lemma merged_app nogc a b m : merged nogc (a ++ b) m = merged nogc b (merged nogc a m).
Proof.
  unfold merged. cbn [process_list merged_kips remaining_size]. rewrite select_app, !map_app, concat_app, !length_app, !app_assoc.
  f_equal. lia.
Qed.

Lemma merge_kip_run ini m offset k rest w :
  let nogc := g_enable_nogc_patches (f_ips w) in
  0 <= offset -> Z.of_nat (length ini) < 2 ^ 32 -> drop (Z.to_nat (ini1_header_size + offset)) ini = k ++ rest ->
  loadable nogc k -> needed nogc (select (process_list m) [k]) <= remaining_size m ->
  exists w', merge_kip None ini m offset w = (Ok (merged nogc [k] m, offset + Z.of_nat (length k)), w') /\ keeps_machine w w'.
Proof.
  intros nogc Ho Hi Hd (Hk & Hb & out & Hout) Hn. pose proof Hk as Hk'. unfold kip_ok in Hk.
  rewrite !andb_true_iff, !Z.eqb_eq, Z.leb_le in Hk. destruct Hk as [[Hm Hs] Hl].
  assert (Hlen : ini1_header_size + offset + Z.of_nat (length k) <= Z.of_nat (length ini)).
  { apply (f_equal length) in Hd. rewrite length_drop, length_app in Hd. unfold ini1_header_size in *. lia. }
  unfold ini1_header_size in *. unfold merge_kip, ini1_header_size, kip1_header_size.
  rewrite load_at_ok by lia. rewrite frun_heap, (u32_id (0x10 + offset)) by (unfold is_u32; lia). rewrite Hd.
  unfold slice. rewrite Hd. destruct (header_fields k rest Hl) as (H1 & H2 & H3). unfold slice in H1, H2, H3.
  rewrite drop_0 in H1, H2, H3. change (Z.to_nat 0x100) with 256%nat in *. rewrite H1, H2, H3, Hm, <- Hs. rewrite Z.eqb_refl. cbn [negb].
  rewrite (u32_id (offset + Z.of_nat (length k))) by (unfold is_u32; lia). unfold merged. cbn [select] in *.
  destruct (existsb _ _) eqn:Ee.
  { exists w. split; [|done]. destruct m. cbn. by rewrite !app_nil_r, Z.sub_0_r. }
  cbn [needed foldr] in Hn. unfold out_kip in *. rewrite Hout in *. cbn [from_option id] in *.
  rewrite Z.gtb_ltb, (proj2 (Z.ltb_ge _ _)) by lia.
  destruct (load_kip_run k rest w out Hk' Hb Hout) as (r & w1 & E & K & [Hsz Hld]).
  rewrite (frun_bind _ _ _ _ _ E). rewrite Hsz in *.
  rewrite Z.gtb_ltb, (proj2 (Z.ltb_ge _ _)) by lia. rewrite Hld, frun_heap.
  exists w1. split; [|done]. cbn [map concat from_option]. rewrite Hout. by rewrite app_nil_r.
Qed.

Lemma keeps_nogc w w' : keeps_machine w w' -> g_enable_nogc_patches (f_ips w') = g_enable_nogc_patches (f_ips w).
Proof. by intros (h & v & ->). Qed.

(** Room for two lists of KIPs is room for the first, and then for the second. *)
Lemma room_app nogc a b m : needed nogc (select (process_list m) (a ++ b)) <= remaining_size m ->
  needed nogc (select (process_list m) a) <= remaining_size m /\
  needed nogc (select (process_list (merged nogc a m)) b) <= remaining_size (merged nogc a m).
Proof.
  rewrite select_app, needed_app. unfold merged. cbn [process_list remaining_size].
  pose proof (needed_bound nogc (select (process_list m) a)).
  pose proof (needed_nonneg nogc (select (process_list m ++ map kip_title_id (select (process_list m) a)) b)). lia.
Qed.

Lemma merge_ini_run ks ini m offset rest w :
  let nogc := g_enable_nogc_patches (f_ips w) in
  0 <= offset -> Z.of_nat (length ini) < 2 ^ 32 -> drop (Z.to_nat (ini1_header_size + offset)) ini = concat ks ++ rest ->
  Forall (loadable nogc) ks -> needed nogc (select (process_list m) ks) <= remaining_size m ->
  exists w', merge_ini (length ks) None ini m offset w = (Ok (merged nogc ks m), w') /\ keeps_machine w w'.
Proof.
  revert m offset w. induction ks as [|k ks IH]; intros m offset w nogc Ho Hi Hd Hk Hn.
  { exists w. split; [|done]. by rewrite merged_nil. }
  apply Forall_cons in Hk as [Hk Hks]. destruct (room_app nogc [k] ks m Hn) as [Hn1 Hn2].
  cbn [concat] in Hd. rewrite <- app_assoc in Hd.
  destruct (merge_kip_run ini m offset k (concat ks ++ rest) w) as (w1 & E1 & K1); [done..|].
  cbn [merge_ini length]. rewrite (frun_bind _ _ _ _ _ E1). cbn [fst snd].
  change (k :: ks) with ([k] ++ ks). rewrite merged_app. pose proof (keeps_nogc _ _ K1) as G1. fold nogc in G1.
  destruct (IH (merged nogc [k] m) (offset + Z.of_nat (length k)) w1) as (w2 & E2 & K2); rewrite ?G1; try done; [lia| |].
  - replace (Z.to_nat (ini1_header_size + (offset + Z.of_nat (length k))))
      with (Z.to_nat (ini1_header_size + offset) + length k)%nat by (unfold ini1_header_size; lia).
    rewrite <- drop_drop, Hd. apply drop_app_length.
  - exists w2. rewrite G1 in E2. split; [done|]. by etransitivity.
Qed.

Lemma ini_of_fields ks : Z.of_nat (length ks) < 2 ^ 32 ->
  ini1_magic (ini_of ks) = MAGIC_INI1 /\ ini1_num_processes (ini_of ks) = Z.of_nat (length ks) /\
  drop 16 (ini_of ks) = concat ks /\ length (ini_of ks) = (16 + length (concat ks))%nat.
Proof.
  intros Hn. unfold ini_of. destruct (ini_header_fields (ini1_header_size + Z.of_nat (length (concat ks)))
    (Z.of_nat (length ks)) (concat ks)) as [H1 H2]; [lia|].
  split; [done|]. split; [done|]. split; [by apply drop_app_length'; rewrite length_ini_header|].
  by rewrite length_app, length_ini_header.
Qed.

Definition small (ks : list (list Z)) : Prop :=
  Z.of_nat (length ks) <= INI1_MAX_KIPS /\ ini1_header_size + Z.of_nat (length (concat ks)) < 2 ^ 32.

Lemma merge_all_run kss m w :
  let nogc := g_enable_nogc_patches (f_ips w) in
  Forall small kss -> Forall (loadable nogc) (concat kss) ->
  needed nogc (select (process_list m) (concat kss)) <= remaining_size m ->
  exists w', merge_all None (map (fun ks => Some (ini_of ks)) kss) m w = (Ok (merged nogc (concat kss) m), w') /\ keeps_machine w w'.
Proof.
  revert m w. induction kss as [|ks kss IH]; intros m w nogc Hs Hk Hn.
  { exists w. split; [|done]. cbn [concat]. by rewrite merged_nil. }
  apply Forall_cons in Hs as [[Hs1 Hs2] Hs]. cbn [concat] in *. apply Forall_app in Hk as [Hk Hks].
  destruct (room_app _ _ _ _ Hn) as [Hn1 Hn2]. unfold INI1_MAX_KIPS, ini1_header_size in *.
  destruct (ini_of_fields ks) as (_ & F2 & F3 & F4); [lia|].
  cbn [map merge_all]. change (default [] (Some (ini_of ks))) with (ini_of ks). rewrite F2, Nat2Z.id.
  destruct (merge_ini_run ks (ini_of ks) m 0 [] w) as (w1 & E1 & K1); [done|lia| |done|done|].
  { rewrite app_nil_r. exact F3. }
  rewrite (frun_bind _ _ _ _ _ E1), merged_app. pose proof (keeps_nogc _ _ K1) as G1. fold nogc in G1.
  destruct (IH (merged nogc ks m) w1) as (w2 & E2 & K2); rewrite ?G1; [done..|].
  exists w2. rewrite G1 in E2. split; [done|]. by etransitivity.
Qed.

Lemma count_processes_run kss : Forall small kss -> Z.of_nat (length (concat kss)) < 2 ^ 32 ->
  count_processes (map (fun ks => Some (ini_of ks)) kss) = Ok (Z.of_nat (length (concat kss))).
Proof.
  induction kss as [|ks kss IH]; intros Hs Hl; [done|]. apply Forall_cons in Hs as [[Hs1 Hs2] Hs].
  cbn [concat] in *. rewrite length_app in *. cbn [map count_processes]. unfold INI1_MAX_KIPS, ini1_header_size in *.
  destruct (ini_of_fields ks) as (F1 & F2 & _ & F4); [lia|].
  rewrite load_at_ok by lia. cbn [mbind res_bind].
  assert (Hm : ini1_magic (slice (ini_of ks) 0 16) = MAGIC_INI1).
  { rewrite <- F1. unfold ini1_magic, read32le, slice at 2 3. rewrite drop_0. by rewrite slice_take by lia. }
  assert (Hp : ini1_num_processes (slice (ini_of ks) 0 16) = Z.of_nat (length ks)).
  { rewrite <- F2. unfold ini1_num_processes, read32le, slice at 2 3. rewrite drop_0. by rewrite slice_take by lia. }
  rewrite Hm, Hp, Z.eqb_refl, Z.gtb_ltb, (proj2 (Z.ltb_ge _ _)) by (unfold INI1_MAX_KIPS; lia). cbn [negb orb].
  rewrite IH by (try done; lia). cbn [mbind res_bind]. rewrite u32_id by (unfold is_u32; lia). f_equal. lia.
Qed.

(** ** The archive *)

Lemma clear_low_2 x : 0 <= x < 2 ^ 32 -> x .& not32 3 = 4 * (x / 4).
Proof.
  intros Hx. change (not32 3) with ((2 ^ 30 - 1) * 2 ^ 2).
  replace ((2 ^ 30 - 1) * 2 ^ 2) with (Z.shiftl (Z.ones 30) 2) by reflexivity.
  apply Z.bits_inj'. intros k Hk. rewrite Z.land_spec, Z.shiftl_spec by done.
  replace (4 * (x / 4)) with (Z.shiftl (Z.shiftr x 2) 2)
    by (rewrite Z.shiftl_mul_pow2, Z.shiftr_div_pow2 by lia; change (2 ^ 2) with 4; lia).
  rewrite Z.shiftl_spec by done. destruct (Z.ltb_spec k 2).
  - rewrite (Z.testbit_neg_r (Z.ones 30)), (Z.testbit_neg_r (Z.shiftr x 2)) by lia. apply andb_false_r.
  - rewrite Z.shiftr_spec by lia. replace (k - 2 + 2) with k by lia. destruct (Z.ltb_spec k 32).
    + by rewrite Z.ones_spec_low, andb_true_r by lia.
    + rewrite (Z.bits_above_log2 x k); [done|lia|]. destruct (Z.eq_dec x 0) as [->|]; [cbn; lia|].
      apply Z.log2_lt_pow2; [lia|]. apply (Z.lt_le_trans _ (2 ^ 32)); [lia|]. by apply Z.pow_le_mono_r; lia.
Qed.
Lemma low_2 x : x .& 3 = x mod 4.
Proof. apply (Z.land_ones x 2). done. Qed.

Definition align4 (n : Z) : Z := 4 * ((n + 3) / 4).
Lemma align4_bounds n : n <= align4 n < n + 4 /\ align4 n mod 4 = 0.
Proof. unfold align4. rewrite Z.mul_comm, Z.mod_mul by lia. pose proof (Z.div_mod (n + 3) 4). pose proof (Z.mod_pos_bound (n + 3) 4). lia. Qed.

Lemma finish_merge_run m : Z.of_nat (length (merged_kips m)) <= PACKAGE2_SIZE_MAX ->
  exists pad, finish_merge m =
    ini1_header (align4 (ini1_header_size + Z.of_nat (length (merged_kips m)))) (Z.of_nat (length (process_list m)))
      ++ merged_kips m ++ pad /\
    Z.of_nat (length (finish_merge m)) = align4 (ini1_header_size + Z.of_nat (length (merged_kips m))).
Proof.
  intros Hl. unfold finish_merge, PACKAGE2_SIZE_MAX, ini1_header_size in *. set (n := 16 + _).
  rewrite (u32_id n) by (unfold is_u32, n; lia).
  assert (Ha : (if negb (n .& 3 =? 0) then u32 (n + 3) .& not32 3 else n) = align4 n).
  { rewrite low_2. unfold align4. destruct (Z.eqb_spec (n mod 4) 0) as [H0|]; cbn [negb].
    - pose proof (Z.div_mod n 4). pose proof (Z.div_mod (n + 3) 4). pose proof (Z.mod_pos_bound (n + 3) 4). lia.
    - rewrite u32_id by (unfold is_u32, n; lia). apply clear_low_2. unfold n. lia. }
  rewrite Ha. pose proof (align4_bounds n) as [Hb _]. eexists. split; [reflexivity|].
  rewrite !length_app, length_ini_header, length_slice; [unfold n in *; lia|..].
  all: rewrite ?length_app; unfold zeros; rewrite ?length_replicate; unfold n in *; lia.
Qed.

Lemma select_unseen seen ks k : k ∈ select seen ks -> kip_title_id k ∉ seen.
Proof.
  revert seen. induction ks as [|k' ks IH]; intros seen; cbn [select]; [by intros ?%not_elem_of_nil|].
  destruct (existsb _ _) eqn:E; [by apply IH|]. intros [->|H]%elem_of_cons.
  - intros Hin%existsb_eqb. congruence.
  - apply IH in H. intros Hin. apply H, elem_of_app. by left.
Qed.
Lemma select_first seen ks k : k ∈ select seen ks -> List.find (fun k' => kip_title_id k' =? kip_title_id k) ks = Some k.
Proof.
  revert seen. induction ks as [|k' ks IH]; intros seen; cbn [select]; [by intros ?%not_elem_of_nil|].
  intros Hk. cbn [List.find]. destruct (existsb _ _) eqn:E.
  - destruct (Z.eqb_spec (kip_title_id k') (kip_title_id k)) as [Ht|]; [|by eapply IH].
    apply select_unseen in Hk. rewrite <- Ht in Hk. by apply existsb_eqb in E.
  - apply elem_of_cons in Hk as [->|Hk]; [by rewrite Z.eqb_refl|].
    destruct (Z.eqb_spec (kip_title_id k') (kip_title_id k)) as [Ht|]; [|by eapply IH].
    apply select_unseen in Hk. exfalso. apply Hk, elem_of_app. right. rewrite Ht. by apply list_elem_of_singleton.
Qed.

Lemma merge_inis_run kss w :
  let nogc := g_enable_nogc_patches (f_ips w) in
  let m := merged nogc (concat kss) (mk_merging [] [] (PACKAGE2_SIZE_MAX - ini1_header_size)) in
  Forall small kss -> Z.of_nat (length (concat kss)) <= INI1_MAX_KIPS -> Forall (loadable nogc) (concat kss) ->
  needed nogc (select [] (concat kss)) <= PACKAGE2_SIZE_MAX - ini1_header_size -> heap_has PACKAGE2_SIZE_MAX = true ->
  exists w', stratosphere_merge_inis (map (fun ks => Some (ini_of ks)) kss) None w = (Ok (finish_merge m), w') /\ keeps_machine w w'.
Proof.
  intros nogc m Hs Hn Hl Hr Hh. unfold stratosphere_merge_inis.
  rewrite count_processes_run by (try done; unfold INI1_MAX_KIPS in *; lia). rewrite frun_heap.
  rewrite Z.gtb_ltb, (proj2 (Z.ltb_ge _ _)) by lia. rewrite Hh. cbn [negb].
  destruct (merge_all_run kss (mk_merging [] [] (PACKAGE2_SIZE_MAX - ini1_header_size)) w Hs Hl Hr) as (w' & E & K).
  rewrite (frun_bind _ _ _ _ _ E). by exists w'.
Qed.

(** C5: the merge of INI1 archives.  For well-formed archives whose KIPs can be
    loaded and fit, [stratosphere_merge_inis] returns one archive: a header with
    its size, a multiple of four, and the number of its KIPs, then for each
    title exactly one KIP, that of the first archive that has it, patched as
    the card says.  No title is lost and none appears twice, and the machine
    keeps its state but for the Security Engine's. *)
Theorem merge_inis_correct kss w :
  let nogc := g_enable_nogc_patches (f_ips w) in
  let sel := select [] (concat kss) in
  let body := concat (map (out_kip nogc) sel) in
  Forall small kss -> Z.of_nat (length (concat kss)) <= INI1_MAX_KIPS -> Forall (loadable nogc) (concat kss) ->
  needed nogc sel <= PACKAGE2_SIZE_MAX - ini1_header_size -> heap_has PACKAGE2_SIZE_MAX = true ->
  (exists pad w',
     let ini := ini1_header (align4 (ini1_header_size + Z.of_nat (length body))) (Z.of_nat (length sel)) ++ body ++ pad in
     stratosphere_merge_inis (map (fun ks => Some (ini_of ks)) kss) None w = (Ok ini, w') /\ keeps_machine w w' /\
     Z.of_nat (length ini) = align4 (ini1_header_size + Z.of_nat (length body))) /\
  NoDup (map kip_title_id sel) /\
  (forall k, k ∈ concat kss -> kip_title_id k ∈ map kip_title_id sel) /\
  (forall k, k ∈ sel -> List.find (fun k' => kip_title_id k' =? kip_title_id k) (concat kss) = Some k).
Proof.
  intros nogc sel body Hs Hn Hl Hr Hh. split; [|split; [|split]].
  - destruct (merge_inis_run kss w Hs Hn Hl Hr Hh) as (w' & E & K).
    destruct (finish_merge_run (merged nogc (concat kss) (mk_merging [] [] (PACKAGE2_SIZE_MAX - ini1_header_size)))) as (pad & F & L).
    { unfold merged. cbn [merged_kips process_list app]. pose proof (needed_bound nogc sel). fold sel. unfold ini1_header_size in *. lia. }
    exists pad, w'. fold nogc in E. rewrite F in E, L. unfold merged in E, L. cbn [merged_kips process_list app] in E, L.
    rewrite length_map in E, L. by split.
  - apply (select_nodup [] (concat kss)), NoDup_nil_2.
  - intros k Hk. by apply (select_complete [] (concat kss)).
  - intros k. apply select_first.
Qed.
End Merge.

(** ** Two archives *)

Import Toy.

(** Two KIPs with the same title and one of another, 0x104 and 0x108 bytes. *)
Definition toy_kip (title size : Z) : list Z :=
  le_bytes 4 MAGIC_KIP1 ++ zeros 12 ++ le_bytes 8 title ++ zeros 16 ++ le_bytes 4 size ++ zeros (Z.to_nat (0xD4 + size)).
Definition toy_archives : list (list (list Z)) := [[toy_kip 7 4]; [toy_kip 7 8; toy_kip 9 8]].
Definition toy_fworld : FWorld :=
  mk_fworld (toy_world 11) (mk_ips_state false)
    (mk_stratosphere_state None None true true true true true true 0) (mk_fusee_keys 0 false [] []) empty_storage.

Lemma toy_kip_loads title size : kip_ok (toy_kip title size) = true -> (kip_title_id (toy_kip title size) =? FS_TITLE_ID) = false ->
  is_bytes (toy_kip title size) -> loadable false (toy_kip title size).
Proof.
  intros Hk Ht Hb. split; [done|]. split; [done|]. unfold loaded_kip, has_needed_default_kip_patches.
  rewrite Ht, andb_false_r. by eexists.
Qed.

Lemma merge_inis_correct_witness :
  exists pad w', stratosphere_merge_inis (map (fun ks => Some (ini_of ks)) toy_archives) None toy_fworld =
    (Ok (ini1_header 0x21C 2 ++ (toy_kip 7 4 ++ toy_kip 9 8) ++ pad), w').
Proof.
  destruct (merge_inis_correct toy_archives toy_fworld) as ((pad & w' & E & _) & _).
  - repeat constructor; vm_compute; intuition congruence.
  - by vm_compute.
  - constructor; [|constructor; [|constructor; [|done]]]; apply toy_kip_loads; first [reflexivity | by repeat constructor].
  - vm_compute. intuition congruence.
  - done.
  - exists pad, w'. exact E.
Defined.
