(* ===== verification/FuseeKeys.v ===== *)
(** The keys of fusee-secondary: the parts of its se.c that exosphere's driver
    does not have (AES-XTS, and the guard of [decrypt_data_into_keyslot]),
    masterkey.c, extkeys.c and key_derivation.c, with the two functions of fuse.c
    they use. *)
From S2P Require Import Prelude State Utils Se Pages Config Keys Fusee.
Import SE.

(** ** se.c *)

Module FuseeSe.

(** The bytes from [key[0]] on, with the bit carried in. *)
Fixpoint shift_left_le (key : list Z) (prev_high_bit : Z) : list Z * Z :=
  match key with
  | [] => ([], prev_high_bit)
  | cur_byte :: rest =>
      let '(rest', high) := shift_left_le rest (cur_byte >>. 7) in
      (u8 (cur_byte <<. 1) .| prev_high_bit :: rest', high)
  end.
Definition shift_left_xor_rb_le (key : list Z) : list Z :=
  let '(key', prev_high_bit) := shift_left_le key 0 in
  if negb (prev_high_bit =? 0) then splice key' 0 [byte_at key' 0 .^ 0x87] else key'.

(** From [tweak[0xF]] down; [sector] is a [size_t]. *)
Fixpoint tweak_bytes (n : nat) (sector : Z) (tweak : list Z) : list Z :=
  match n with
  | O => tweak
  | S n' => tweak_bytes n' (sector >>. 8) ((sector .& 0xFF) :: tweak)
  end.
Definition aes_128_xts_nintendo_get_tweak (sector : Z) : list Z := tweak_bytes 16 (u32 sector) [].

(** The loop over the blocks: the exclusive or of [src] with the tweaks. *)
Fixpoint xor_blocks (n : nat) (tweak src : list Z) : list Z :=
  match n with
  | O => []
  | S n' => xor_bytes (take 16 src) tweak ++ xor_blocks n' (shift_left_xor_rb_le tweak) (drop 16 src)
  end.

Section Ops.
Context {soc : SoC}.

Definition decrypt_data_into_keyslot (keyslot_dst keyslot_src : Z)
    (wrapped_key : list Z) (wrapped_key_size : Z) : M unit :=
  if (keyslot_dst >=? KEYSLOT_AES_MAX) || (keyslot_src >=? KEYSLOT_AES_MAX)
     || (wrapped_key_size >? KEYSIZE_AES_MAX) then generic_panic else
  se_write CONFIG_REG (ALG_AES_DEC .| DST_KEYTAB) ;;
  se_write CRYPTO_REG (u32 (keyslot_src <<. 24)) ;;
  se_write BLOCK_COUNT_REG 0 ;;
  se_write CRYPTO_KEYTABLE_DST_REG (u32 (keyslot_dst <<. 8)) ;;
  trigger_se_blocking_op OP_START None (Some (slice wrapped_key 0 wrapped_key_size)) ;;
  mret tt.

(** [dst] after the call. *)
Definition aes_128_xts_nintendo_xor_with_tweak (keyslot sector : Z) (dst src : list Z) (size : Z) : M (list Z) :=
  if negb (size .& 0xF =? 0) || (size =? 0) then generic_panic else
  tweak ← se_aes_128_ecb_encrypt_block keyslot 0x10 (aes_128_xts_nintendo_get_tweak sector) 0x10;
  mret (splice dst 0 (xor_blocks (Z.to_nat (size >>. 4)) tweak src)).

(** [dst] and [src] are one buffer when [in_place]: the engine then reads what
    the first exclusive or wrote. *)
Definition aes_128_xts_nintendo_crypt_sector (in_place : bool) (keyslot_1 keyslot_2 sector : Z) (encrypt : bool)
    (dst src : list Z) (size : Z) : M (list Z) :=
  if negb (size .& 0xF =? 0) || (size =? 0) then generic_panic else
  dst ← aes_128_xts_nintendo_xor_with_tweak keyslot_2 sector dst src size;
  let src := if in_place then dst else src in
  (if encrypt
   then se_write CONFIG_REG (ALG_AES_ENC .| DST_MEMORY) ;;
        se_write CRYPTO_REG (u32 ((keyslot_1 <<. 24) .| 0x100))
   else se_write CONFIG_REG (ALG_AES_DEC .| DST_MEMORY) ;;
        se_write CRYPTO_REG (u32 (keyslot_1 <<. 24))) ;;
  se_write BLOCK_COUNT_REG (u32 ((size >>. 4) - 1)) ;;
  out ← trigger_se_blocking_op OP_START (Some (slice dst 0 size)) (Some (slice src 0 size));
  let dst := splice dst 0 out in
  aes_128_xts_nintendo_xor_with_tweak keyslot_2 sector dst dst size.

(** The loop over the sectors, from [ofs] on.  A sector is at least one block
    or the call panics, so [size] bounds the rounds.  A last sector that does
    not fit the buffers is an access outside them. *)
Fixpoint xts_sectors (n : nat) (in_place : bool) (keyslot_1 keyslot_2 sector : Z) (encrypt : bool)
    (ofs : Z) (dst src : list Z) (size sector_size : Z) : M (list Z) :=
  match n with
  | O => spin
  | S n' =>
      if negb (ofs <? size) then mret dst else
      if negb ((ofs + sector_size <=? Z.of_nat (length dst)) && (ofs + sector_size <=? Z.of_nat (length src)))
      then fault else
      out ← aes_128_xts_nintendo_crypt_sector in_place keyslot_1 keyslot_2 sector encrypt
              (slice dst ofs sector_size) (slice src ofs sector_size) sector_size;
      xts_sectors n' in_place keyslot_1 keyslot_2 (u32 (sector + 1)) encrypt (u32 (ofs + sector_size))
        (splice dst ofs out) src size sector_size
  end.

Definition se_aes_128_xts_nintendo_encrypt (in_place : bool) (keyslot_1 keyslot_2 base_sector : Z)
    (dst src : list Z) (size sector_size : Z) : M (list Z) :=
  if negb (size .& 0xF =? 0) || (size =? 0) then generic_panic else
  xts_sectors (S (Z.to_nat size)) in_place keyslot_1 keyslot_2 base_sector true 0 dst src size sector_size.

Definition se_aes_128_xts_nintendo_decrypt (in_place : bool) (keyslot_1 keyslot_2 base_sector : Z)
    (dst src : list Z) (size sector_size : Z) : M (list Z) :=
  if negb (size .& 0xF =? 0) || (size =? 0) then generic_panic else
  xts_sectors (S (Z.to_nat size)) in_place keyslot_1 keyslot_2 base_sector false 0 dst src size sector_size.
End Ops.
End FuseeSe.

(** ** masterkey.c *)

Module FuseeMasterKey.

Definition MASTERKEY_REVISION_100_230 := 0x00.
Definition MASTERKEY_REVISION_600_610 := 0x05.
Definition MASTERKEY_REVISION_620 := 0x06.
Definition MASTERKEY_REVISION_700_800 := 0x07.
Definition MASTERKEY_REVISION_810 := 0x08.
Definition MASTERKEY_REVISION_900_CURRENT := 0x09.

Definition mkey_vectors_dev : list (list Z) :=
  [[0x46; 0x22; 0xB4; 0x51; 0x9A; 0x7E; 0xA7; 0x7F; 0x62; 0xA1; 0x1F; 0x8F; 0xC5; 0x3A; 0xDB; 0xFE];
   [0x39; 0x33; 0xF9; 0x31; 0xBA; 0xE4; 0xA7; 0x21; 0x2C; 0xDD; 0xB7; 0xD8; 0xB4; 0x4E; 0x37; 0x23];
   [0x97; 0x29; 0xB0; 0x32; 0x43; 0x14; 0x8C; 0xA6; 0x85; 0xE9; 0x5A; 0x94; 0x99; 0x39; 0xAC; 0x5D];
   [0x2C; 0xCA; 0x9C; 0x31; 0x1E; 0x07; 0xB0; 0x02; 0x97; 0x0A; 0xD8; 0x03; 0xA2; 0x76; 0x3F; 0xA3];
   [0x9B; 0x84; 0x76; 0x14; 0x72; 0x94; 0x52; 0xCB; 0x54; 0x92; 0x9B; 0xC4; 0x8C; 0x5B; 0x0F; 0xBA];
   [0x78; 0xD5; 0xF1; 0x20; 0x3D; 0x16; 0xE9; 0x30; 0x32; 0x27; 0x34; 0x6F; 0xCF; 0xE0; 0x27; 0xDC];
   [0x6F; 0xD2; 0x84; 0x1D; 0x05; 0xEC; 0x40; 0x94; 0x5F; 0x18; 0xB3; 0x81; 0x09; 0x98; 0x8D; 0x4E];
   [0x37; 0xAF; 0xAB; 0x35; 0x79; 0x09; 0xD9; 0x48; 0x29; 0xD2; 0xDB; 0xA5; 0xA5; 0xF5; 0x30; 0x19];
   zeros 16;
   zeros 16].

Definition mkey_vectors : list (list Z) :=
  [[0x0C; 0xF0; 0x59; 0xAC; 0x85; 0xF6; 0x26; 0x65; 0xE1; 0xE9; 0x19; 0x55; 0xE6; 0xF2; 0x67; 0x3D];
   [0x29; 0x4C; 0x04; 0xC8; 0xEB; 0x10; 0xED; 0x9D; 0x51; 0x64; 0x97; 0xFB; 0xF3; 0x4D; 0x50; 0xDD];
   [0xDE; 0xCF; 0xEB; 0xEB; 0x10; 0xAE; 0x74; 0xD8; 0xAD; 0x7C; 0xF4; 0x9E; 0x62; 0xE0; 0xE8; 0x72];
   [0x0A; 0x0D; 0xDF; 0x34; 0x22; 0x06; 0x6C; 0xA4; 0xE6; 0xB1; 0xEC; 0x71; 0x85; 0xCA; 0x4E; 0x07];
   [0x6E; 0x7D; 0x2D; 0xC3; 0x0F; 0x59; 0xC8; 0xFA; 0x87; 0xA8; 0x2E; 0xD5; 0x89; 0x5E; 0xF3; 0xE9];
   [0xEB; 0xF5; 0x6F; 0x83; 0x61; 0x9E; 0xF8; 0xFA; 0xE0; 0x87; 0xD7; 0xA1; 0x4E; 0x25; 0x36; 0xEE];
   [0x1E; 0x1E; 0x22; 0xC0; 0x5A; 0x33; 0x3C; 0xB9; 0x0B; 0xA9; 0x03; 0x04; 0xBA; 0xDB; 0x07; 0x57];
   [0xA4; 0xD4; 0x52; 0x6F; 0xD1; 0xE4; 0x36; 0xAA; 0x9F; 0xCB; 0x61; 0x27; 0x1C; 0x67; 0x65; 0x1F];
   [0xEA; 0x60; 0xB3; 0xEA; 0xCE; 0x8F; 0x24; 0x46; 0x7D; 0x33; 0x9C; 0xD1; 0xBC; 0x24; 0x98; 0x29];
   [0x4D; 0xD9; 0x98; 0x42; 0x45; 0x0D; 0xB1; 0x3C; 0x52; 0x0C; 0x9A; 0x44; 0xBB; 0xAD; 0xAF; 0x80]].

Section Ops.
Context {soc : SoC}.

Definition set_old_masterkey (i : Z) (key : list Z) : F unit :=
  fmodify (fun w => w <| f_keys ::= fun s => s <| f_old_masterkeys ::= fun l => <[Z.to_nat i := key]> l |> |>).

(** [for (i = revision; i > 0; i--)]; the accumulator is [check_keyslot].  The
    last vector is the retail one for every unit. *)
Definition check_mkey_revision (revision : Z) (is_retail : bool) : F bool :=
  check_keyslot ← ffold (fun check_keyslot i =>
      key ← hw (se_aes_ecb_decrypt_block check_keyslot 0x10
                  (if is_retail then key_at mkey_vectors i else key_at mkey_vectors_dev i) 0x10);
      set_old_masterkey (i - 1) key ;;
      hw (set_aes_keyslot KEYSLOT_SWITCH_TEMPKEY key 0x10) ;;
      mret KEYSLOT_SWITCH_TEMPKEY)
    KEYSLOT_SWITCH_MASTERKEY (rev (seqZ 1 revision));
  final_vector ← hw (se_aes_ecb_decrypt_block check_keyslot 0x10 (key_at mkey_vectors 0) 0x10);
  mret (forallb (Z.eqb 0) final_vector).

Fixpoint mkey_detect_loop (n : nat) (rev : Z) (is_retail : bool) : F unit :=
  match n with
  | O => mret tt
  | S n' =>
      ok ← check_mkey_revision rev is_retail;
      if (ok : bool)
      then fmodify (fun w => w <| f_keys ::= fun s =>
             s <| f_determined_mkey_revision := true |> <| f_mkey_revision := rev |> |>)
      else mkey_detect_loop n' (rev + 1) is_retail
  end.

Definition mkey_detect_revision (is_retail : bool) : F Z :=
  determined ← fgets (fun w => f_determined_mkey_revision (f_keys w));
  if (determined : bool) then hw generic_panic else
  mkey_detect_loop (Z.to_nat MASTERKEY_REVISION_MAX) 0 is_retail ;;
  determined ← fgets (fun w => f_determined_mkey_revision (f_keys w));
  mret (if negb determined then -1 else 0).

Definition mkey_get_revision : F Z :=
  determined ← fgets (fun w => f_determined_mkey_revision (f_keys w));
  if negb determined then hw generic_panic else fgets (fun w => f_mkey_revision (f_keys w)).

Definition mkey_get_keyslot (revision : Z) : F Z :=
  determined ← fgets (fun w => f_determined_mkey_revision (f_keys w));
  if negb determined || (revision >=? MASTERKEY_REVISION_MAX) then hw generic_panic else
  cur ← fgets (fun w => f_mkey_revision (f_keys w));
  if revision >? cur then hw generic_panic else
  if revision =? cur then mret KEYSLOT_SWITCH_MASTERKEY else
  key ← fgets (fun w => key_at (f_old_masterkeys (f_keys w)) revision);
  hw (set_aes_keyslot KEYSLOT_SWITCH_TEMPKEY key 0x10) ;;
  mret KEYSLOT_SWITCH_TEMPKEY.
End Ops.
End FuseeMasterKey.

(** ** extkeys.c *)

Module ExtKeys.

Definition SPACE := 0x20.
Definition TAB := 0x09.
Definition LF := 0x0A.
Definition CR := 0x0D.
Definition COMMA := 0x2C.
Definition EQUALS := 0x3D.

Definition is_space (c : Z) : bool := (c =? SPACE) || (c =? TAB).
Fixpoint skip_space (p : list Z) : list Z :=
  match p with c :: r => if is_space c then skip_space r else p | [] => [] end.

(** [fgets(line, n, f)]: the characters read and the rest of the file, or NULL
    at its end. *)
Fixpoint fgets_chars (n : nat) (f : list Z) : list Z * list Z :=
  match n, f with
  | S n', c :: r => if c =? LF then ([c], r) else let '(l, r') := fgets_chars n' r in (c :: l, r')
  | _, _ => ([], f)
  end.
Definition fgets_line (n : Z) (f : list Z) : option (list Z * list Z) :=
  match f with [] => None | _ => Some (fgets_chars (Z.to_nat (n - 1)) f) end.

(** The string a buffer holds, and the part of a string before a character. *)
Fixpoint before (c : Z) (s : list Z) : option (list Z) :=
  match s with
  | [] => None
  | x :: r => if x =? c then Some [] else l ← before c r; Some (x :: l)
  end.
Definition c_string (s : list Z) : list Z := default s (before 0 s).

(** The key in lower case, the character that ends it and the rest; [None] is
    [return -1]. *)
Fixpoint scan_key (p : list Z) : option (list Z * Z * list Z) :=
  match p with
  | [] => None
  | c :: r =>
      if is_space c || (c =? COMMA) || (c =? EQUALS) then Some ([], c, r) else
      if (0x41 <=? c) && (c <=? 0x5A)
      then res ← scan_key r; let '(k, sep, rest) := res : list Z * Z * list Z in Some (0x61 + (c - 0x41) :: k, sep, rest)
      else if negb (c =? 0x5F) && ((c <? 0x30) || (c >? 0x39)) && ((c <? 0x61) || (c >? 0x7A)) then None
      else res ← scan_key r; let '(k, sep, rest) := res : list Z * Z * list Z in Some (c :: k, sep, rest)
  end.

(** The value without the white space at its end. *)
Definition trim_end (v : list Z) : list Z := rev (skip_space (rev v)).

Inductive kv_result :=
| KvPair (key value : list Z)     (* 0, key and value set *)
| KvEmpty                         (* 0, key and value NULL *)
| KvEof                           (* 1 *)
| KvError.                        (* -1 *)

(** What [get_kv] makes of a line.  When the line has neither \r nor \n, [end]
    is past its NUL and nothing is trimmed. *)
Definition parse_line (line : list Z) : kv_result :=
  match line with
  | [] => KvEmpty
  | c :: _ =>
      if (c =? LF) || (c =? CR) then KvEmpty else
      let '(line, ended) := match before CR line with
                            | Some l => (l, true)
                            | None => match before LF line with Some l => (l, true) | None => (line, false) end
                            end in
      match scan_key (skip_space line) with
      | None => KvError
      | Some (k, sep, p) =>
          let value p := let v := skip_space p in if ended : bool then trim_end v else v in
          if (sep =? EQUALS) || (sep =? COMMA)
          then match k with [] => KvError | _ => KvPair k (value p) end
          else match skip_space p with
               | [] => KvError
               | c :: p' => if negb (c =? EQUALS) && negb (c =? COMMA) then KvError
                            else match k with [] => KvError | _ => KvPair k (value p') end
               end
      end
  end.

(** The result and the rest of the file. *)
Definition get_kv (f : list Z) : kv_result * list Z :=
  match fgets_line 1024 f with
  | None => (KvEof, f)
  | Some (line, rest) => (parse_line (c_string line), rest)
  end.

Definition ishex (c : Z) : bool :=
  ((0x61 <=? c) && (c <=? 0x66)) || ((0x41 <=? c) && (c <=? 0x46)) || ((0x30 <=? c) && (c <=? 0x39)).
Definition hextoi (c : Z) : Z :=
  if (0x61 <=? c) && (c <=? 0x66) then c - 0x61 + 0xA else
  if (0x41 <=? c) && (c <=? 0x46) then c - 0x41 + 0xA else
  if (0x30 <=? c) && (c <=? 0x39) then c - 0x30 else 0.

(** [key[i >> 1] |= val], two digits at a time. *)
Fixpoint hex_bytes (hex : list Z) : list Z :=
  match hex with
  | a :: b :: r => u8 (hextoi a <<. 4) .| hextoi b :: hex_bytes r
  | _ => []
  end.
Definition parse_hex_key (hex : list Z) (len : Z) : res (list Z) :=
  if negb (Z.of_nat (length hex) =? u32 (2 * len)) then Stop Fatal else
  if negb (forallb ishex hex) then Stop Fatal else
  Ok (hex_bytes hex).

Record fusee_extkeys_t := mk_extkeys { tsec_root_keys : list (list Z); master_keks : list (list Z) }.
#[export] Instance eta_extkeys : Eta fusee_extkeys_t := fun x => mk_extkeys (tsec_root_keys x) (master_keks x).

(** ["%02x"] *)
Definition hex_lower (n : Z) : Z := if n <? 10 then n + 0x30 else n - 10 + 0x61.
Definition fmt_02x (i : Z) : list Z := [hex_lower (i >>. 4); hex_lower (i .& 0xF)].
Definition tsec_root_key_name (i : Z) : list Z := str "tsec_root_key_" ++ fmt_02x i.
Definition master_kek_name (i : Z) : list Z := str "master_kek_" ++ fmt_02x i.

(** The loop over the names, which ends at the first match. *)
Fixpoint match_key (indices : list Z) (key value : list Z) (keyset : fusee_extkeys_t) : res fusee_extkeys_t :=
  match indices with
  | [] => Ok keyset
  | i :: r =>
      if bool_decide (key = tsec_root_key_name i)
      then k ← parse_hex_key value 0x10; Ok (keyset <| tsec_root_keys ::= fun l => <[Z.to_nat i := k]> l |>)
      else if bool_decide (key = master_kek_name i)
      then k ← parse_hex_key value 0x10; Ok (keyset <| master_keks ::= fun l => <[Z.to_nat i := k]> l |>)
      else match_key r key value keyset
  end.

(** Each round reads at least one character of the file. *)
Fixpoint keyset_loop (fuel : nat) (keyset : fusee_extkeys_t) (f : list Z) : res fusee_extkeys_t :=
  match fuel with
  | O => Stop Hangs
  | S n =>
      match get_kv f with
      | (KvEof, _) => Ok keyset
      | (KvPair key value, rest) => keyset ← match_key (range 0x20) key value keyset; keyset_loop n keyset rest
      | (_, rest) => keyset_loop n keyset rest
      end
  end.
Definition extkeys_initialize_keyset (keyset : fusee_extkeys_t) (f : list Z) : res fusee_extkeys_t :=
  keyset_loop (S (length f)) keyset f.
End ExtKeys.

(** ** key_derivation.c *)

Module KeyDerivation.
Import FuseeSe FuseeMasterKey ExtKeys.

(** The array has MASTERKEY_REVISION_MAX entries; those without an initialiser are
    zero. *)
Definition keyblob_seeds : list (list Z) :=
  [[0xDF; 0x20; 0x6F; 0x59; 0x44; 0x54; 0xEF; 0xDC; 0x70; 0x74; 0x48; 0x3B; 0x0D; 0xED; 0x9F; 0xD3];
   [0x0C; 0x25; 0x61; 0x5D; 0x68; 0x4C; 0xEB; 0x42; 0x1C; 0x23; 0x79; 0xEA; 0x82; 0x25; 0x12; 0xAC];
   [0x33; 0x76; 0x85; 0xEE; 0x88; 0x4A; 0xAE; 0x0A; 0xC2; 0x8A; 0xFD; 0x7D; 0x63; 0xC0; 0x43; 0x3B];
   [0x2D; 0x1F; 0x48; 0x80; 0xED; 0xEC; 0xED; 0x3E; 0x3C; 0xF2; 0x48; 0xB5; 0x65; 0x7D; 0xF7; 0xBE];
   [0xBB; 0x5A; 0x01; 0xF9; 0x88; 0xAF; 0xF5; 0xFC; 0x6C; 0xFF; 0x07; 0x9E; 0x13; 0x3C; 0x39; 0x80];
   [0xD8; 0xCC; 0xE1; 0x26; 0x6A; 0x35; 0x3F; 0xCC; 0x20; 0xF3; 0x2D; 0x3B; 0x51; 0x7D; 0xE9; 0xC0];
   zeros 16;
   zeros 16;
   zeros 16;
   zeros 16].
Definition keyblob_mac_seed : list Z :=
  [0x59; 0xC7; 0xFB; 0x6F; 0xBE; 0x9B; 0xBE; 0x87; 0x65; 0x6B; 0x15; 0xC0; 0x53; 0x73; 0x36; 0xA5].
Definition masterkey_seed : list Z :=
  [0xD8; 0xA2; 0x41; 0x0A; 0xC6; 0xC5; 0x90; 0x01; 0xC6; 0x1D; 0x6A; 0x26; 0x7C; 0x51; 0x3F; 0x3C].
Definition devicekey_seed : list Z :=
  [0x4F; 0x02; 0x5F; 0x0E; 0xB6; 0x6D; 0x11; 0x0E; 0xDC; 0x32; 0x7D; 0x41; 0x86; 0xC2; 0xF4; 0x78].
Definition devicekey_4x_seed : list Z :=
  [0x0C; 0x91; 0x09; 0xDB; 0x93; 0x93; 0x07; 0x81; 0x07; 0x3C; 0xC4; 0x16; 0x22; 0x7C; 0x6C; 0x28].
Definition masterkey_4x_seed : list Z :=
  [0x2D; 0xC1; 0xF4; 0x8D; 0xF3; 0x5B; 0x69; 0x33; 0x42; 0x10; 0xAC; 0x65; 0xDA; 0x90; 0x46; 0x66].
Definition new_master_kek_seeds : list (list Z) :=
  [[0x37; 0x4B; 0x77; 0x29; 0x59; 0xB4; 0x04; 0x30; 0x81; 0xF6; 0xE5; 0x8C; 0x6D; 0x36; 0x17; 0x9A];
   [0x9A; 0x3E; 0xA9; 0xAB; 0xFD; 0x56; 0x46; 0x1C; 0x9B; 0xF6; 0x48; 0x7F; 0x5C; 0xFA; 0x09; 0x5C]].
Definition dev_specific_aes_key_source : list Z :=
  zeros 16.
Definition dev_specific_aes_key_ctr : list Z :=
  [0x3C; 0xD5; 0x92; 0xEC; 0x68; 0x31; 0x4A; 0x06; 0xD4; 0x1B; 0x0C; 0xD9; 0xF6; 0x2E; 0xD9; 0xE9].
Definition dev_specific_aes_key_mask : list Z :=
  [0xAC; 0xCA; 0x9A; 0xCA; 0xFF; 0x2E; 0xB9; 0x22; 0xCC; 0x1F; 0x4F; 0xAD; 0xDD; 0x77; 0x21; 0x1E].
Definition retail_specific_aes_key_source : list Z :=
  [0xE2; 0xD6; 0xB8; 0x7A; 0x11; 0x9C; 0xB8; 0x80; 0xE8; 0x22; 0x88; 0x8A; 0x46; 0xFB; 0xA1; 0x95].
Definition bis_kek_source : list Z :=
  [0x34; 0xC1; 0xA0; 0xC4; 0x82; 0x58; 0xF8; 0xB4; 0xFA; 0x9E; 0x5E; 0x6A; 0xDA; 0xFC; 0x7E; 0x4F].
Definition kek_source : list Z :=
  [0x4D; 0x87; 0x09; 0x86; 0xC4; 0x5D; 0x20; 0x72; 0x2F; 0xBA; 0x10; 0x53; 0xDA; 0x92; 0xE8; 0xA9].
Definition key_source : list Z :=
  [0x89; 0x61; 0x5E; 0xE0; 0x5C; 0x31; 0xB6; 0x80; 0x5F; 0xE5; 0x8F; 0x3D; 0xA2; 0x4F; 0x7A; 0xA8].
Definition key_source_for_bis : list (list (list Z)) :=
  [[[0xF8; 0x3F; 0x38; 0x6E; 0x2C; 0xD2; 0xCA; 0x32; 0xA8; 0x9A; 0xB9; 0xAA; 0x29; 0xBF; 0xC7; 0x48];
    [0x7D; 0x92; 0xB0; 0x3A; 0xA8; 0xBF; 0xDE; 0xE1; 0xA7; 0x4C; 0x3B; 0x6E; 0x35; 0xCB; 0x71; 0x06]];
   [[0x41; 0x00; 0x30; 0x49; 0xDD; 0xCC; 0xC0; 0x65; 0x64; 0x7A; 0x7E; 0xB4; 0x1E; 0xED; 0x9C; 0x5F];
    [0x44; 0x42; 0x4E; 0xDA; 0xB4; 0x9D; 0xFC; 0xD9; 0x87; 0x77; 0x24; 0x9A; 0xDC; 0x9F; 0x7C; 0xA4]];
   [[0x52; 0xC2; 0xE9; 0xEB; 0x09; 0xE3; 0xEE; 0x29; 0x32; 0xA1; 0x0C; 0x1F; 0xB6; 0xA0; 0x92; 0x6C];
    [0x4D; 0x12; 0xE1; 0x4B; 0x2A; 0x47; 0x4C; 0x1C; 0x09; 0xCB; 0x03; 0x59; 0xF0; 0x15; 0xF4; 0xE4]]].

Definition BisPartition_Calibration := 0.
Definition BisPartition_Safe := 1.
Definition BisPartition_UserSystem := 2.

(** [nx_dec_keyblob_t], 0x90 bytes, and [nx_keyblob_t], 0xB0 bytes. *)
Definition master_kek (b : list Z) : list Z := slice b 0 0x10.
Definition package1_key (b : list Z) : list Z := slice b 0x80 0x10.
Definition keyblob_mac (b : list Z) : list Z := slice b 0 0x10.
Definition keyblob_ctr (b : list Z) : list Z := slice b 0x10 0x10.
Definition keyblob_data (b : list Z) : list Z := slice b 0x20 0x90.

(** [None] is -1. *)
Definition get_keyblob (revision : Z) (keyblobs : option (list (list Z))) : option (list Z) :=
  if revision >=? 0x20 then None
  else keyblobs ← keyblobs; Some (key_at keyblobs revision).

(** [true] when they differ. *)
Definition safe_memcmp (a b : list Z) (sz : Z) : bool :=
  negb (foldl (fun different i => different .| (byte_at a i .^ byte_at b i)) 0 (range sz) =? 0).

Definition desired_keyblob_of (target_firmware : Z) : option Z :=
  if target_firmware =? ATMOSPHERE_TARGET_FIRMWARE_620 then Some MASTERKEY_REVISION_620
  else if (target_firmware =? ATMOSPHERE_TARGET_FIRMWARE_700) || (target_firmware =? ATMOSPHERE_TARGET_FIRMWARE_800)
  then Some MASTERKEY_REVISION_700_800
  (* the case of 8.1.0 falls through to that of 9.0.0 *)
  else if (target_firmware =? ATMOSPHERE_TARGET_FIRMWARE_810) || (target_firmware =? ATMOSPHERE_TARGET_FIRMWARE_900)
  then Some MASTERKEY_REVISION_900_CURRENT
  else None.

Section Ops.
Context {soc : SoC} {card : Card}.

(** Entry [i] of the 32 of [g_dec_keyblobs]. *)
Definition dec_keyblob (i : Z) : F (list Z) :=
  blobs ← fgets (fun w => g_dec_keyblobs (f_keys w));
  match blobs !! Z.to_nat i with Some b => mret b | None => stopped BadAccess end.
Definition set_dec_keyblob (i : Z) (b : list Z) : F unit :=
  fmodify (fun w => w <| f_keys ::= fun s => s <| g_dec_keyblobs ::= fun l => <[Z.to_nat i := b]> l |> |>).
Definition set_master_kek (i : Z) (kek : list Z) : F unit :=
  b ← dec_keyblob i; set_dec_keyblob i (splice b 0 kek).

Definition decrypt_keyblob (keyblobs : option (list (list Z))) (revision : Z) : F Z :=
  let keyslot := if revision =? MASTERKEY_REVISION_100_230 then 0xF else KEYSLOT_SWITCH_TEMPKEY in
  match get_keyblob revision keyblobs with
  | None => mret (-1)
  | Some keyblob =>
      work_buffer ← hw (se_aes_ecb_decrypt_block 0xD 0x10 (key_at keyblob_seeds revision) 0x10);
      hw (decrypt_data_into_keyslot keyslot 0xE work_buffer 0x10) ;;
      hw (decrypt_data_into_keyslot 0xB keyslot keyblob_mac_seed 0x10) ;;
      work_buffer ← hw (se_compute_aes_128_cmac 0xB 0x10 (slice keyblob 0x10 0xA0) 0xA0);
      if safe_memcmp (keyblob_mac keyblob) work_buffer 0x10 then mret (-1) else
      old ← dec_keyblob revision;
      dec ← hw (se_aes_ctr_crypt keyslot old 0x90 (keyblob_data keyblob) 0x90 (keyblob_ctr keyblob) 0x10);
      set_dec_keyblob revision dec ;;
      mret 0
  end.

Definition load_package1_key (revision : Z) : F Z :=
  if revision >? MASTERKEY_REVISION_600_610 then mret (-1) else
  b ← dec_keyblob revision;
  hw (set_aes_keyslot 0xB (package1_key b) 0x10) ;;
  mret 0.

(** The loop over the keyblobs, with its early return. *)
Fixpoint decrypt_keyblobs (revs : list Z) (keyblobs : option (list (list Z))) : F Z :=
  match revs with
  | [] => mret 0
  | rev :: r =>
      ret ← decrypt_keyblob keyblobs rev;
      if negb (ret =? 0) then mret ret else decrypt_keyblobs r keyblobs
  end.

(** A TSEC root key gives the master KEK; [new_master_kek_seeds] has two
    entries. *)
Definition kek_from_root_key (rev : Z) (tsec_root_key : list Z) : F unit :=
  hw (set_aes_keyslot 0xC tsec_root_key 0x10) ;;
  match new_master_kek_seeds !! Z.to_nat (rev - MASTERKEY_REVISION_620) with
  | None => stopped BadAccess
  | Some seed =>
      work_buffer ← hw (se_aes_ecb_decrypt_block 0xC 0x10 seed 0x10);
      set_master_kek rev work_buffer
  end.

Definition is_zeroes (k : list Z) : bool := bool_decide (k = zeros 16).
Definition new_revisions : list Z := seqZ MASTERKEY_REVISION_620 (MASTERKEY_REVISION_MAX - MASTERKEY_REVISION_620).

Fixpoint try_emulation (revs : list Z) (tsec_root_keys : list (list Z)) : F unit :=
  match revs with
  | [] => mret tt
  | rev :: r =>
      let k := key_at tsec_root_keys (rev - MASTERKEY_REVISION_620) in
      (if negb (is_zeroes k) then kek_from_root_key rev k else mret tt) ;;
      try_emulation r tsec_root_keys
  end.

Fixpoint use_extkeys (revs : list Z) (extkeys : fusee_extkeys_t) : F unit :=
  match revs with
  | [] => mret tt
  | rev :: r =>
      let k := key_at (ExtKeys.tsec_root_keys extkeys) (rev - MASTERKEY_REVISION_620) in
      (if negb (is_zeroes k) then kek_from_root_key rev k
       else set_master_kek rev (key_at (master_keks extkeys) rev)) ;;
      use_extkeys r extkeys
  end.

(** The key generation of 6.2.0 and later. *)
Definition new_keygen (target_firmware available_revision : Z) (tsec_root_keys : list (list Z)) : F unit :=
  match desired_keyblob_of target_firmware with
  | None => fatal_error
  | Some desired_keyblob =>
      try_emulation new_revisions tsec_root_keys ;;
      b ← dec_keyblob desired_keyblob;
      (if is_zeroes (master_kek b)
       then retail ← hw Fuse.fuse_get_retail_type;
            let keyfile := if negb (retail =? 0) then str "atmosphere/prod.keys" else str "atmosphere/dev.keys" in
            match sd_file keyfile with
            | None => fatal_error
            | Some f =>
                extkeys ← heap (extkeys_initialize_keyset (mk_extkeys (replicate 32 (zeros 16)) (replicate 32 (zeros 16))) f);
                use_extkeys new_revisions extkeys
            end
       else mret tt) ;;
      b ← dec_keyblob available_revision;
      if is_zeroes (master_kek b) then fatal_error else mret tt
  end.

(** The keys for Exosphere; [false] is the default case. *)
Definition derive_exosphere_keys (target_firmware : Z) : F bool :=
  if (ATMOSPHERE_TARGET_FIRMWARE_100 <=? target_firmware) && (target_firmware <=? ATMOSPHERE_TARGET_FIRMWARE_300) then
    hw (decrypt_data_into_keyslot 0xD 0xF devicekey_seed 0x10) ;;
    hw (decrypt_data_into_keyslot 0xC 0xC masterkey_seed 0x10) ;;
    mret true
  else if target_firmware =? ATMOSPHERE_TARGET_FIRMWARE_400 then
    hw (decrypt_data_into_keyslot 0xD 0xF devicekey_4x_seed 0x10) ;;
    hw (decrypt_data_into_keyslot 0xF 0xF devicekey_seed 0x10) ;;
    hw (decrypt_data_into_keyslot 0xE 0xC masterkey_4x_seed 0x10) ;;
    hw (decrypt_data_into_keyslot 0xC 0xC masterkey_seed 0x10) ;;
    mret true
  else if (ATMOSPHERE_TARGET_FIRMWARE_500 <=? target_firmware) && (target_firmware <=? ATMOSPHERE_TARGET_FIRMWARE_900) then
    hw (decrypt_data_into_keyslot 0xA 0xF devicekey_4x_seed 0x10) ;;
    hw (decrypt_data_into_keyslot 0xF 0xF devicekey_seed 0x10) ;;
    hw (decrypt_data_into_keyslot 0xE 0xC masterkey_4x_seed 0x10) ;;
    hw (decrypt_data_into_keyslot 0xC 0xC masterkey_seed 0x10) ;;
    mret true
  else mret false.

(** The C result; [*out_keygen_type] is 0 whenever the function returns. *)
Definition derive_nx_keydata (target_firmware : Z) (keyblobs : option (list (list Z))) (available_revision : Z)
    (tsec_key : list Z) (tsec_root_keys : list (list Z)) : F Z :=
  hw (set_aes_keyslot_flags 0xE 0x15) ;;
  hw (set_aes_keyslot_flags 0xD 0x15) ;;
  hw (set_aes_keyslot 0xD tsec_key 0x10) ;;
  ret ← decrypt_keyblobs (range (MASTERKEY_REVISION_600_610 + 1)) keyblobs;
  if negb (ret =? 0) then mret ret else
  (if target_firmware >=? ATMOSPHERE_TARGET_FIRMWARE_620
   then new_keygen target_firmware available_revision tsec_root_keys else mret tt) ;;
  hw (clear_aes_keyslot 0xE) ;;
  b ← dec_keyblob available_revision;
  hw (set_aes_keyslot 0xC (master_kek b) 0x10) ;;
  (if target_firmware <? ATMOSPHERE_TARGET_FIRMWARE_620
   then load_package1_key available_revision ;; mret tt else mret tt) ;;
  ok ← derive_exosphere_keys target_firmware;
  if negb ok then mret (-1) else
  retail ← hw Fuse.fuse_get_retail_type;
  mkey_detect_revision (negb (retail =? 0)).

Definition device_keyslot (target_firmware : Z) : Z :=
  if target_firmware >=? ATMOSPHERE_TARGET_FIRMWARE_400 then KEYSLOT_SWITCH_4XOLDDEVICEKEY else KEYSLOT_SWITCH_DEVICEKEY.

Definition finalize_nx_keydata (target_firmware : Z) : F unit :=
  hw (set_aes_keyslot_flags 0xC 0xFF) ;;
  hw (set_aes_keyslot_flags (device_keyslot target_firmware) 0xFF).

(** The first 0x10 bytes of [dst] after the call. *)
Definition generate_specific_aes_key (dst wrapped_key : list Z) (should_mask : bool) (target_firmware : Z) : F (list Z) :=
  let keyslot := device_keyslot target_firmware in
  patch_version ← hw Fuse.fuse_get_bootrom_patch_version;
  if patch_version <? 0x7F
  then dst ← hw (se_aes_ctr_crypt keyslot dst 0x10 dev_specific_aes_key_source 0x10 dev_specific_aes_key_ctr 0x10);
       mret (if should_mask then xor_bytes dst dev_specific_aes_key_mask else dst)
  else hw (decrypt_data_into_keyslot KEYSLOT_SWITCH_TEMPKEY keyslot retail_specific_aes_key_source 0x10) ;;
       hw (se_aes_ecb_decrypt_block KEYSLOT_SWITCH_TEMPKEY 0x10 wrapped_key 0x10).

Definition generate_personalized_aes_key_for_bis (wrapped_kek wrapped_key : list Z) (target_firmware : Z) : F (list Z) :=
  let keyslot := device_keyslot target_firmware in
  hw (decrypt_data_into_keyslot KEYSLOT_SWITCH_TEMPKEY keyslot kek_source 0x10) ;;
  hw (decrypt_data_into_keyslot KEYSLOT_SWITCH_TEMPKEY KEYSLOT_SWITCH_TEMPKEY wrapped_kek 0x10) ;;
  hw (decrypt_data_into_keyslot KEYSLOT_SWITCH_TEMPKEY KEYSLOT_SWITCH_TEMPKEY key_source 0x10) ;;
  hw (se_aes_ecb_decrypt_block KEYSLOT_SWITCH_TEMPKEY 0x10 wrapped_key 0x10).

Definition bis_source (partition_id i : Z) : list Z := key_at (nth (Z.to_nat partition_id) key_source_for_bis []) i.

(** The 0x20 bytes of [dst] after the call. *)
Definition derive_bis_key (dst : list Z) (partition_id target_firmware : Z) : F (list Z) :=
  if partition_id =? BisPartition_Calibration then
    a ← generate_specific_aes_key (slice dst 0 0x10) (bis_source partition_id 0) false target_firmware;
    b ← generate_specific_aes_key (slice dst 0x10 0x10) (bis_source partition_id 1) false target_firmware;
    mret (a ++ b)
  else if (partition_id =? BisPartition_Safe) || (partition_id =? BisPartition_UserSystem) then
    a ← generate_personalized_aes_key_for_bis bis_kek_source (bis_source partition_id 0) target_firmware;
    b ← generate_personalized_aes_key_for_bis bis_kek_source (bis_source partition_id 1) target_firmware;
    mret (a ++ b)
  else hw generic_panic.
End Ops.
End KeyDerivation.
