(* ===== verification/FuseePackage2.v ===== *)
(** package2.c of fusee-secondary: the decryption of package2, its rebuilding
    around the patched kernel and the merged INI1, and the copy to the address
    where the monitor's loader (Package2.v) finds it.  The layout of the header
    is that of the monitor's package2.h. *)
From S2P Require Import Prelude State Utils Se Pages Config Keys Power Package2 Fusee Ips KernelPatches Stratosphere FuseeKeys.
Import SE Kip.

Module Package2Rebuild.
Import Package2.

Definition PACKAGE2_SECTION_KERNEL := 0.
Definition PACKAGE2_SECTION_INI1 := 1.
Definition PACKAGE2_SECTION_UNUSED := 2.

Definition align_to_4 (s : Z) : Z := u32 ((u32 (s + 3) >>. 2) <<. 2).

(** A package2 is the block that holds it: the signature (0x100 bytes), the
    metadata (0x100 bytes), the data. *)
Definition signature (package2 : list Z) : list Z := slice package2 0 0x100.
Definition metadata (package2 : list Z) : list Z := slice package2 0x100 0x100.
Definition set_metadata (package2 md : list Z) : list Z := splice package2 0x100 md.
Definition set_section_size (package2 : list Z) (id v : Z) : list Z := splice package2 (0x160 + 4 * id) (le_bytes 4 v).
Definition set_section_offset (package2 : list Z) (id v : Z) : list Z := splice package2 (0x170 + 4 * id) (le_bytes 4 v).
Definition set_section_hash (package2 : list Z) (id : Z) (hash : list Z) : list Z := splice package2 (0x180 + 0x20 * id) hash.
Definition set_ctr_dword (package2 : list Z) (i v : Z) : list Z := splice package2 (0x100 + 4 * i) (le_bytes 4 v).

(** The offset of a section's data in the block. *)
Definition src_section_offset (package2 : list Z) (id : Z) : Z :=
  foldl (fun off i => u32 (off + meta_section_size (metadata package2) i)) package2_header_size (range id).

(** The checks before the section loop; [size_t] is 32 bits wide. *)
Definition fusee_header_checks (md : list Z) : bool :=
  (meta_magic md =? MAGIC_PK21)
  && negb ((get_package2_size md <=? package2_header_size) || (get_package2_size md >? PACKAGE2_SIZE_MAX))
  && negb (header_version md >? MASTERKEY_REVISION_MAX)
  && (meta_entrypoint md .& 3 =? 0)
  && (u32 (meta_section_size md 0 + meta_section_size md 1 + meta_section_size md 2 + package2_header_size)
        =? get_package2_size md).

(** What malloc gives: its contents are not known. *)
Definition malloc_block {soc : SoC} (n : Z) : list Z := take (Z.to_nat n) (uninit_buf n ++ zeros (Z.to_nat n)).

Section Ops.
Context {soc : SoC} {card : Card}.

(** ** Decryption *)

Definition package2_crypt_ctr (master_key_rev : Z) (dst : list Z) (dst_size : Z) (src : list Z)
    (src_size : Z) (ctr : list Z) (ctr_size : Z) : F (list Z) :=
  keyslot ← FuseeMasterKey.mkey_get_keyslot master_key_rev;
  hw (FuseeSe.decrypt_data_into_keyslot KEYSLOT_SWITCH_PACKAGE2KEY keyslot package2_key_source 0x10) ;;
  hw (se_aes_ctr_crypt KEYSLOT_SWITCH_PACKAGE2KEY dst dst_size src src_size ctr ctr_size).

(** The section loop from [section] on; [data] is the block after the header;
    [None] is [return false]. *)
Fixpoint validate_sections (n : nat) (md data : list Z) (section : Z) (found : bool) (cur_section_offset : Z)
    : F (option bool) :=
  match n with
  | O => mret (Some found)
  | S n' =>
      if negb (section_checks md section) then mret None else
      let found := found || section_has_entrypoint md section in
      let size := meta_section_size md section in
      if negb (size =? 0)
      then section_data ← heap (load_at data cur_section_offset size);
           calculated_hash ← hw (se_calculate_sha256 section_data size);
           if negb (bool_decide (calculated_hash = meta_section_hash md section)) then mret None
           else validate_sections n' md data (section + 1) found (u32 (cur_section_offset + size))
      else validate_sections n' md data (section + 1) found cur_section_offset
  end.

Definition package2_validate_metadata (md data : list Z) : F bool :=
  if negb (fusee_header_checks md) then mret false else
  r ← validate_sections (Z.to_nat PACKAGE2_SECTION_MAX) md data 0 false 0;
  match r : option bool with
  | None => mret false
  | Some entrypoint_found =>
      if negb entrypoint_found then mret false
      else mret ((meta_version_max md >=? PACKAGE2_MINVER_THEORETICAL)
                 && (meta_version_min md <? PACKAGE2_MAXVER_900_CURRENT))
  end.

Definition package2_data (package2 : list Z) : list Z := drop (Z.to_nat package2_header_size) package2.

(** The search for the master key: the revision and the decrypted metadata. *)
Fixpoint try_master_keys (n : nat) (mkey_rev : Z) (package2 : list Z) : F (option (Z * list Z)) :=
  match n with
  | O => mret None
  | S n' =>
      let md := metadata package2 in
      dec ← package2_crypt_ctr mkey_rev (zeros 0x100) 0x100 md 0x100 (meta_ctr md) 0x10;
      let dec := splice dec 0 (meta_ctr md) in
      ok ← package2_validate_metadata dec (package2_data package2);
      if (ok : bool) then mret (Some (mkey_rev, dec)) else try_master_keys n' (mkey_rev + 1) package2
  end.

(** The C result and the package2 after the call. *)
Definition package2_decrypt_and_validate_header (package2 : list Z) (is_plaintext : bool) : F (Z * list Z) :=
  if negb is_plaintext
  then cur ← FuseeMasterKey.mkey_get_revision;
       r ← try_master_keys (Z.to_nat (cur + 1)) 0 package2;
       match r : option (Z * list Z) with
       | Some (mkey_rev, md) => mret (mkey_rev, set_metadata package2 md)
       | None => fatal_error
       end
  else ok ← package2_validate_metadata (metadata package2) (package2_data package2);
       if negb ok then fatal_error else mret (0, package2).

(** [signature[0]], and all its bytes equal, and the magic. *)
Definition is_package2_plaintext (package2 : list Z) : bool :=
  negb (byte_at package2 0 =? 0)
  && bool_decide (slice package2 0 0xFF = slice package2 1 0xFF)
  && (meta_magic (metadata package2) =? MAGIC_PK21).

(** One section, in place: the package2 and the offset of the next section. *)
Definition decrypt_section (is_plaintext : bool) (pk21_mkey_revision : Z) (st : list Z * Z) (section : Z) : F (list Z * Z) :=
  let '(package2, cur_section_offset) := st in
  let size := meta_section_size (metadata package2) section in
  if size =? 0 then mret st else
  let off := package2_header_size + cur_section_offset in
  src ← heap (load_at package2 off size);
  out ← (if is_plaintext then mret src
         else package2_crypt_ctr pk21_mkey_revision src size src size
                (meta_section_ctr (metadata package2) section) 0x10);
  package2 ← heap (store_at package2 off out);
  mret (package2, u32 (cur_section_offset + size)).

Definition package2_decrypt (package2 : list Z) : F (list Z) :=
  let is_plaintext := is_package2_plaintext package2 in
  r ← package2_decrypt_and_validate_header package2 is_plaintext;
  st ← ffold (decrypt_section is_plaintext r.1) (r.2, 0) (range PACKAGE2_SECTION_MAX);
  mret (splice st.1 0 (zeros 0x100)).

(** ** Rebuilding *)

(** The built-in thermosphere is disabled: no data. *)
Definition package2_get_thermosphere : list Z := [].

Definition package2_rebuild_ini1 (ini1 : list Z) (emummc : option (list Z)) : F (list Z) :=
  sdfiles ← Stratosphere.stratosphere_get_sd_files_ini1;
  embedded ← Stratosphere.stratosphere_get_ini1;
  merged ← Stratosphere.stratosphere_merge_inis [Some sdfiles; Some embedded; Some ini1] emummc;
  Stratosphere.stratosphere_free_ini1 ;;
  mret merged.

(** Sections are appended in ascending order of [id]; [data] holds [size]
    bytes. *)
Definition package2_append_section (id : Z) (package2 data : list Z) (size : Z) : res (list Z) :=
  src ← load_at data 0 size;
  package2 ← store_at package2 (src_section_offset package2 id) src;
  Ok (set_section_size package2 id (align_to_4 size)).

(** The hash of one section: the package2 and the offset of the next one. *)
Definition fixup_section_hash (st : list Z * Z) (section : Z) : F (list Z * Z) :=
  let '(package2, off) := st in
  let sz := meta_section_size (metadata package2) section in
  if sz =? 0 then mret st else
  data ← heap (load_at package2 off sz);
  hash ← hw (se_calculate_sha256 data sz);
  mret (set_section_hash package2 section hash, u32 (off + sz)).

Definition package2_fixup_header_and_section_hashes (package2 : list Z) (size : Z) : F (list Z) :=
  st ← ffold fixup_section_hash (package2, package2_header_size) (range PACKAGE2_SECTION_MAX);
  let package2 := st.1 in
  let md := metadata package2 in
  mret (set_ctr_dword package2 3 (meta_ctr_dword md 3 .^ (get_package2_size md .^ size))).

(** The kernel of the SD card, if there is one. *)
Definition load_sd_kernel : F (option (list Z)) :=
  let sd_kernel_size := get_file_size (str "atmosphere/kernel.bin") in
  if sd_kernel_size =? 0 then mret None else
  if sd_kernel_size >? PACKAGE2_SIZE_MAX then fatal_error else
  if negb (heap_has sd_kernel_size) then fatal_error else
  let kernel := read_from_file sd_kernel_size (str "atmosphere/kernel.bin") in
  if negb (Z.of_nat (length kernel) =? sd_kernel_size) then fatal_error else
  mret (Some kernel).

(** What the rebuilt package2 is made of: the decrypted package2, the block at
    the patched kernel's first byte, the kernel's size, the merged INI1. *)
Record rebuild_parts := mk_parts { part_package2 : list Z; part_kernel : list Z; part_kernel_size : Z; part_ini1 : list Z }.

(** [package2_rebuild_and_copy] up to the rebuilt INI1.  Package2's own kernel
    is patched where it is in the block; an SD kernel has its own block. *)
Definition package2_prepare (package2 : list Z) (target_firmware : Z) (emummc : option (list Z)) : F rebuild_parts :=
  package2 ← package2_decrypt package2;
  let kernel_offset := src_section_offset package2 PACKAGE2_SECTION_KERNEL in
  let thermosphere := package2_get_thermosphere in
  if negb (Z.of_nat (length thermosphere) =? 0)
     && negb (meta_section_size (metadata package2) PACKAGE2_SECTION_UNUSED =? 0) then fatal_error else
  sd ← load_sd_kernel;
  let is_sd_kernel := match sd : option (list Z) with Some _ => true | None => false end in
  let kernel := default (drop (Z.to_nat kernel_offset) package2) sd in
  let kernel_size := match sd : option (list Z) with
                     | Some k => Z.of_nat (length k)
                     | None => meta_section_size (metadata package2) PACKAGE2_SECTION_KERNEL
                     end in
  r ← KernelPatches.package2_patch_kernel kernel kernel_size is_sd_kernel;
  let '(kernel, embedded) := r : list Z * option Z in
  let package2 := if is_sd_kernel then package2 else take (Z.to_nat kernel_offset) package2 ++ kernel in
  let old := target_firmware <? ATMOSPHERE_TARGET_FIRMWARE_800 in
  if (old && bool_decide (is_Some embedded)) || (negb old && negb (bool_decide (is_Some embedded))) then fatal_error else
  let orig_ini1 := if old then drop (Z.to_nat (src_section_offset package2 PACKAGE2_SECTION_INI1)) package2
                   else drop (Z.to_nat (default 0 embedded)) kernel in
  let package2 := if old then package2
                  else set_section_offset package2 PACKAGE2_SECTION_INI1
                         (u32 (meta_section_offset (metadata package2) PACKAGE2_SECTION_KERNEL
                               + meta_section_size (metadata package2) PACKAGE2_SECTION_KERNEL)) in
  rebuilt_ini1 ← package2_rebuild_ini1 orig_ini1 emummc;
  mret (mk_parts package2 kernel kernel_size rebuilt_ini1).

(** The rest of it but the copy: the rebuilt package2. *)
Definition package2_assemble (parts : rebuild_parts) : F (list Z) :=
  let kernel_size := part_kernel_size parts in
  let thermosphere := package2_get_thermosphere in
  let thermosphere_size := Z.of_nat (length thermosphere) in
  let ini1_size := ini1_size (part_ini1 parts) in
  let rebuilt_package2_size := u32 (package2_header_size + kernel_size + align_to_4 thermosphere_size + align_to_4 ini1_size) in
  if rebuilt_package2_size >? PACKAGE2_SIZE_MAX then fatal_error else
  if negb (heap_has rebuilt_package2_size) then fatal_error else
  header ← heap (load_at (part_package2 parts) 0 package2_header_size);
  rebuilt ← heap (store_at (malloc_block rebuilt_package2_size) 0 header);
  rebuilt ← heap (package2_append_section PACKAGE2_SECTION_KERNEL rebuilt (part_kernel parts) kernel_size);
  rebuilt ← heap (package2_append_section PACKAGE2_SECTION_INI1 rebuilt (part_ini1 parts) ini1_size);
  rebuilt ← heap (package2_append_section PACKAGE2_SECTION_UNUSED rebuilt thermosphere thermosphere_size);
  package2_fixup_header_and_section_hashes rebuilt rebuilt_package2_size.

Definition package2_rebuild_and_copy (package2 : list Z) (target_firmware : Z) (emummc : option (list Z)) : F unit :=
  parts ← package2_prepare package2 target_firmware emummc;
  rebuilt ← package2_assemble parts;
  hw (phys_store NX_BOOTLOADER_PACKAGE2_LOAD_ADDRESS rebuilt).
End Ops.
End Package2Rebuild.
