(* ===== verification/RebuildProps.v ===== *)
(** The rebuilt package2: the boot loader's package2.c against the monitor's.
    What [package2_assemble] builds is a plaintext package2 that the monitor's
    loader accepts, and that puts the patched kernel and the merged INI1 where
    the header says. *)
From S2P Require Import Prelude State Utils Se Engine Pages Config Keys Power Package2 Platform PageProps Package2Props.
From S2P Require Import Fusee FuseeToy Ips KernelPatches Stratosphere FuseeKeys FuseePackage2 IpsProps BlzProps IniProps.
Import SE Kip Package2 Package2Rebuild.

(** ** Headers *)

Lemma slice_slice l a n b m : 0 <= a -> 0 <= b -> 0 <= m -> b + m <= n -> slice (slice l a n) b m = slice l (a + b) m.
Proof.
  intros. unfold slice. rewrite skipn_firstn_comm, take_take, drop_drop. f_equal; [lia|]. f_equal. lia.
Qed.
Lemma meta_read32 p o : 0 <= o -> o + 4 <= 0x100 -> read32le (metadata p) o = read32le p (0x100 + o).
Proof. intros. unfold read32le, metadata. by rewrite slice_slice by lia. Qed.
Lemma meta_slice p o n : 0 <= o -> 0 <= n -> o + n <= 0x100 -> slice (metadata p) o n = slice p (0x100 + o) n.
Proof. intros. unfold metadata. by rewrite slice_slice by lia. Qed.
Lemma meta_byte p o : 0 <= o < 0x100 -> byte_at (metadata p) o = byte_at p (0x100 + o).
Proof. intros. unfold metadata. by rewrite byte_at_slice by lia. Qed.

Lemma byte_at_slices p q i : 0 <= i -> slice p i 1 = slice q i 1 -> byte_at p i = byte_at q i.
Proof.
  intros Hi H. apply (f_equal (fun l => byte_at l 0)) in H. by rewrite !byte_at_slice, Z.add_0_r in H by lia.
Qed.

(** Two blocks with the same bytes in a range of the header. *)
Definition same_range (lo hi : Z) (p q : list Z) : Prop :=
  forall off n, lo <= off -> 0 <= n -> off + n <= hi -> slice q off n = slice p off n.

Lemma same_range_splice lo hi p off src :
  0 <= lo -> hi <= Z.of_nat (length p) -> 0 <= off -> off + Z.of_nat (length src) <= Z.of_nat (length p) ->
  hi <= off \/ off + Z.of_nat (length src) <= lo -> same_range lo hi p (splice p off src).
Proof. intros ? ? ? ? ? o n ? ? ?. apply slice_splice_ne; lia. Qed.
#[export] Instance same_range_preorder lo hi : PreOrder (same_range lo hi).
Proof.
  split; [by intros p o n|]. intros p q r H1 H2 o n ? ? ?. rewrite H2 by done. by apply H1.
Qed.

(** ** Assembling *)

Lemma align_to_4_id n : 0 <= n < 2 ^ 31 -> n mod 4 = 0 -> align_to_4 n = n.
Proof.
  intros Hn Hm. unfold align_to_4. rewrite (u32_id (n + 3)) by (unfold is_u32; lia).
  rewrite Z.shiftr_div_pow2, Z.shiftl_mul_pow2 by lia. change (2 ^ 2) with 4.
  assert (E : (n + 3) / 4 * 4 = n).
  { pose proof (Z.div_mod n 4). rewrite <- (Z.div_unique_pos (n + 3) 4 (n / 4) 3) by lia. lia. }
  rewrite E. apply u32_id. unfold is_u32. lia.
Qed.

Section Assemble.
Context {soc : SoC} {HE : CryptoEngine soc} {card : Card}.

Lemma length_malloc n : 0 <= n -> Z.of_nat (length (malloc_block n)) = n.
Proof. intros. unfold malloc_block, zeros. rewrite length_take, length_app, length_replicate. lia. Qed.

(** The parts fit: sizes are multiples of four and the whole is not too big. *)
Record parts_fit (parts : rebuild_parts) : Prop := {
  pf_header : package2_header_size <= Z.of_nat (length (part_package2 parts));
  pf_header_bytes : is_bytes (take 0x200 (part_package2 parts));
  pf_kernel : 0 < part_kernel_size parts <= Z.of_nat (length (part_kernel parts));
  pf_kernel_aligned : part_kernel_size parts mod 4 = 0;
  pf_kernel_bytes : is_bytes (part_kernel parts);
  pf_ini : 0 < ini1_size (part_ini1 parts) <= Z.of_nat (length (part_ini1 parts));
  pf_ini_aligned : ini1_size (part_ini1 parts) mod 4 = 0;
  pf_ini_bytes : is_bytes (part_ini1 parts);
  pf_max : package2_header_size + part_kernel_size parts + ini1_size (part_ini1 parts) <= PACKAGE2_SIZE_MAX;
  pf_heap : heap_has (package2_header_size + part_kernel_size parts + ini1_size (part_ini1 parts)) = true }.

(** What the assembled package2 holds. *)
Record rebuilt_ok (parts : rebuild_parts) (p : list Z) : Prop := {
  ro_length : Z.of_nat (length p) = package2_header_size + part_kernel_size parts + ini1_size (part_ini1 parts);
  ro_signature : slice p 0 0x100 = slice (part_package2 parts) 0 0x100;
  ro_ctr_1 : same_range 0x104 0x108 (part_package2 parts) p;
  ro_header : same_range 0x110 0x160 (part_package2 parts) p;
  ro_offsets : same_range 0x170 0x180 (part_package2 parts) p;
  ro_kernel : slice p 0x200 (part_kernel_size parts) = slice (part_kernel parts) 0 (part_kernel_size parts);
  ro_ini : slice p (0x200 + part_kernel_size parts) (ini1_size (part_ini1 parts))
             = slice (part_ini1 parts) 0 (ini1_size (part_ini1 parts));
  ro_size_0 : meta_section_size (metadata p) 0 = part_kernel_size parts;
  ro_size_1 : meta_section_size (metadata p) 1 = ini1_size (part_ini1 parts);
  ro_size_2 : meta_section_size (metadata p) 2 = 0;
  ro_hash_0 : meta_section_hash (metadata p) 0 = sha256 (slice (part_kernel parts) 0 (part_kernel_size parts));
  ro_hash_1 : meta_section_hash (metadata p) 1 = sha256 (slice (part_ini1 parts) 0 (ini1_size (part_ini1 parts)));
  ro_total : get_package2_size (metadata p) = Z.of_nat (length p);
  ro_meta_bytes : is_bytes (metadata p) }.

Lemma lxor_u32 a b : 0 <= a < 2 ^ 32 -> 0 <= b < 2 ^ 32 -> 0 <= a .^ b < 2 ^ 32.
Proof.
  intros Ha Hb. split; [by apply Z.lxor_nonneg; lia|].
  destruct (Z.eq_dec (a .^ b) 0) as [->|Hn]; [done|].
  assert (0 <= a .^ b) by (apply Z.lxor_nonneg; lia). apply Z.log2_lt_pow2; [lia|].
  eapply Z.le_lt_trans; [by apply Z.log2_lxor; lia|].
  assert (Hl : forall x, 0 <= x < 2 ^ 32 -> Z.log2 x < 32).
  { intros x Hx. destruct (Z.eq_dec x 0) as [->|]; [done|]. apply Z.log2_lt_pow2; lia. }
  apply Z.max_lub_lt; by apply Hl.
Qed.
Lemma read_field p off v : 0 <= v < 2 ^ 32 -> slice p off 4 = le_bytes 4 v -> read32le p off = v.
Proof. intros Hv H. unfold read32le. rewrite H. by apply le_value_bytes. Qed.

Lemma append_run id p data size off :
  src_section_offset p id = off -> 0 < size <= Z.of_nat (length data) -> 0 <= off -> off + size <= Z.of_nat (length p) -> Z.of_nat (length p) < 2 ^ 31 ->
  package2_append_section id p data size =
    Ok (splice (splice p off (slice data 0 size)) (0x160 + 4 * id) (le_bytes 4 (align_to_4 size))).
Proof.
  intros Ho Hs Hp Hl Hb. unfold package2_append_section. rewrite load_at_ok by lia. cbn [mbind res_bind].
  by rewrite Ho, store_at_ok by (rewrite ?length_slice; lia).
Qed.

Section Image.
Variable parts : rebuild_parts.
Hypothesis fit : parts_fit parts.

Definition kernel_bytes : list Z := slice (part_kernel parts) 0 (part_kernel_size parts).
Definition ini1_bytes : list Z := slice (part_ini1 parts) 0 (ini1_size (part_ini1 parts)).
Definition image_size : Z := package2_header_size + part_kernel_size parts + ini1_size (part_ini1 parts).

(** The block after each step. *)
Definition image_header : list Z := splice (malloc_block image_size) 0 (slice (part_package2 parts) 0 0x200).
Definition image_kernel : list Z :=
  splice (splice image_header 0x200 kernel_bytes) 0x160 (le_bytes 4 (part_kernel_size parts)).
Definition image_ini1 : list Z :=
  splice (splice image_kernel (0x200 + part_kernel_size parts) ini1_bytes) 0x164 (le_bytes 4 (ini1_size (part_ini1 parts))).
Definition image_sections : list Z := splice image_ini1 0x168 (le_bytes 4 0).
Definition image_hash_0 : list Z := splice image_sections 0x180 (sha256 kernel_bytes).
Definition image_hash_1 : list Z := splice image_hash_0 0x1A0 (sha256 ini1_bytes).
Definition image : list Z :=
  splice image_hash_1 0x10C
    (le_bytes 4 (meta_ctr_dword (metadata image_hash_1) 3 .^ (get_package2_size (metadata image_hash_1) .^ image_size))).

Lemma kernel_facts : Z.of_nat (length kernel_bytes) = part_kernel_size parts /\ is_bytes kernel_bytes /\
  length (sha256 kernel_bytes) = 32%nat /\ is_bytes (sha256 kernel_bytes).
Proof.
  destruct fit. assert (is_bytes kernel_bytes) by by apply slice_is_bytes. unfold kernel_bytes in *.
  rewrite length_slice by lia. destruct (sha256_digest (slice (part_kernel parts) 0 (part_kernel_size parts))); [done|].
  split; [lia|done].
Qed.
Lemma ini1_facts : Z.of_nat (length ini1_bytes) = ini1_size (part_ini1 parts) /\ is_bytes ini1_bytes /\
  length (sha256 ini1_bytes) = 32%nat /\ is_bytes (sha256 ini1_bytes).
Proof.
  destruct fit. assert (is_bytes ini1_bytes) by by apply slice_is_bytes. unfold ini1_bytes in *.
  rewrite length_slice by lia. destruct (sha256_digest (slice (part_ini1 parts) 0 (ini1_size (part_ini1 parts)))); [done|].
  split; [lia|done].
Qed.

Lemma image_lengths :
  Z.of_nat (length (slice (part_package2 parts) 0 0x200)) = 0x200 /\ 0x200 < image_size /\
  Z.of_nat (length (malloc_block image_size)) = image_size /\
  Z.of_nat (length image_header) = image_size /\ Z.of_nat (length image_kernel) = image_size /\
  Z.of_nat (length image_ini1) = image_size /\ Z.of_nat (length image_sections) = image_size /\
  Z.of_nat (length image_hash_0) = image_size /\ Z.of_nat (length image_hash_1) = image_size /\
  Z.of_nat (length image) = image_size.
Proof.
  destruct fit. destruct kernel_facts as (HK & _), ini1_facts as (HI & _). unfold package2_header_size in *.
  assert (H0 : 0x200 < image_size) by (unfold image_size, package2_header_size; lia).
  pose proof (length_malloc image_size) as Hm.
  assert (image_size = 0x200 + part_kernel_size parts + ini1_size (part_ini1 parts)) by done.
  assert (L1 : length image_header = length (malloc_block image_size)) by (apply length_splice; lia).
  assert (L2 : length image_kernel = length image_header)
    by (unfold image_kernel; rewrite length_splice; rewrite length_splice; lia).
  assert (L3 : length image_ini1 = length image_kernel)
    by (unfold image_ini1; rewrite length_splice; rewrite length_splice; lia).
  assert (L4 : length image_sections = length image_ini1) by (apply length_splice; lia).
  assert (L5 : length image_hash_0 = length image_sections) by (apply length_splice; lia).
  assert (L6 : length image_hash_1 = length image_hash_0) by (apply length_splice; lia).
  assert (L7 : length image = length image_hash_1) by (apply length_splice; lia).
  rewrite length_slice by lia. lia.
Qed.

Ltac image_facts :=
  destruct image_lengths as (Lp & Hgt & Lm & L0 & L1 & L2 & L3 & L4 & L5 & L6);
  destruct kernel_facts as (HK & BK & DK & DKb); destruct ini1_facts as (HI & BI & DI & DIb);
  assert (Hsize : image_size = 0x200 + part_kernel_size parts + ini1_size (part_ini1 parts)) by done;
  assert (Hk0 : 0 < part_kernel_size parts) by apply (pf_kernel _ fit);
  assert (Hi0 : 0 < ini1_size (part_ini1 parts)) by apply (pf_ini _ fit);
  assert (Hmax : image_size <= PACKAGE2_SIZE_MAX) by apply (pf_max _ fit); unfold PACKAGE2_SIZE_MAX in Hmax.
Ltac image_side := rewrite ?length_le_bytes; rewrite ?length_splice; lia.

(** What each step leaves alone. *)
Lemma keep_image off n : 0 <= off -> 0 <= n -> off + n <= image_size -> off + n <= 0x10C \/ 0x110 <= off ->
  slice image off n = slice image_hash_1 off n.
Proof. image_facts. intros. apply slice_splice_ne; image_side. Qed.
Lemma keep_hash_1 off n : 0 <= off -> 0 <= n -> off + n <= image_size -> off + n <= 0x1A0 \/ 0x1C0 <= off ->
  slice image_hash_1 off n = slice image_hash_0 off n.
Proof. image_facts. intros. apply slice_splice_ne; image_side. Qed.
Lemma keep_hash_0 off n : 0 <= off -> 0 <= n -> off + n <= image_size -> off + n <= 0x180 \/ 0x1A0 <= off ->
  slice image_hash_0 off n = slice image_sections off n.
Proof. image_facts. intros. apply slice_splice_ne; image_side. Qed.
Lemma keep_sections off n : 0 <= off -> 0 <= n -> off + n <= image_size -> off + n <= 0x168 \/ 0x16C <= off ->
  slice image_sections off n = slice image_ini1 off n.
Proof. image_facts. intros. apply slice_splice_ne; image_side. Qed.
Lemma keep_ini1 off n : 0 <= off -> 0 <= n -> off + n <= 0x164 \/ (0x168 <= off /\ off + n <= 0x200 + part_kernel_size parts) ->
  slice image_ini1 off n = slice image_kernel off n.
Proof.
  image_facts. intros. unfold image_ini1. rewrite slice_splice_ne by image_side. apply slice_splice_ne; image_side.
Qed.
Lemma keep_kernel off n : 0 <= off -> 0 <= n -> off + n <= 0x160 \/ (0x164 <= off /\ off + n <= 0x200) ->
  slice image_kernel off n = slice image_header off n.
Proof.
  image_facts. intros. unfold image_kernel. rewrite slice_splice_ne by image_side. apply slice_splice_ne; image_side.
Qed.
Lemma keep_header off n : 0 <= off -> 0 <= n -> off + n <= 0x200 ->
  slice image_header off n = slice (part_package2 parts) off n.
Proof.
  image_facts. intros. pose proof (slice_splice_eq (malloc_block image_size) 0 (slice (part_package2 parts) 0 0x200) 0x200) as E.
  fold image_header in E. specialize (E ltac:(lia) ltac:(lia) ltac:(lia)).
  apply (f_equal (fun l => slice l off n)) in E. by rewrite !slice_slice in E by lia.
Qed.

(** The header fields that no step writes. *)
Lemma image_keeps off n : 0 <= off -> 0 <= n ->
  off + n <= 0x10C \/ (0x110 <= off /\ off + n <= 0x160) \/ (0x170 <= off /\ off + n <= 0x180) ->
  slice image off n = slice (part_package2 parts) off n.
Proof.
  image_facts. intros. rewrite keep_image, keep_hash_1, keep_hash_0, keep_sections by lia.
  rewrite keep_ini1, keep_kernel by lia. apply keep_header; lia.
Qed.

Lemma image_sizes :
  meta_section_size (metadata image) 0 = part_kernel_size parts /\
  meta_section_size (metadata image) 1 = ini1_size (part_ini1 parts) /\ meta_section_size (metadata image) 2 = 0.
Proof.
  image_facts. unfold meta_section_size. rewrite !meta_read32 by lia. repeat split; apply read_field; try lia.
  - rewrite keep_image, keep_hash_1, keep_hash_0, keep_sections, keep_ini1 by lia. apply slice_splice_eq; image_side.
  - rewrite keep_image, keep_hash_1, keep_hash_0, keep_sections by lia. apply slice_splice_eq; image_side.
  - rewrite keep_image, keep_hash_1, keep_hash_0 by lia. apply slice_splice_eq; image_side.
Qed.

Lemma image_data :
  slice image 0x200 (part_kernel_size parts) = kernel_bytes /\
  slice image (0x200 + part_kernel_size parts) (ini1_size (part_ini1 parts)) = ini1_bytes.
Proof.
  image_facts. split; rewrite keep_image, keep_hash_1, keep_hash_0, keep_sections by lia.
  - rewrite keep_ini1 by lia. unfold image_kernel. rewrite slice_splice_ne by image_side. apply slice_splice_eq; image_side.
  - unfold image_ini1. rewrite slice_splice_ne by image_side. apply slice_splice_eq; image_side.
Qed.

Lemma image_hashes :
  meta_section_hash (metadata image) 0 = sha256 kernel_bytes /\ meta_section_hash (metadata image) 1 = sha256 ini1_bytes.
Proof.
  image_facts. unfold meta_section_hash. rewrite !meta_slice by lia. split.
  - rewrite keep_image, keep_hash_1 by lia. apply slice_splice_eq; lia.
  - rewrite keep_image by lia. apply slice_splice_eq; lia.
Qed.

Lemma image_total : get_package2_size (metadata image) = image_size.
Proof.
  image_facts. unfold get_package2_size, meta_ctr_dword.
  assert (Hd : forall p i, 0 <= i < 4 -> read32le (metadata p) (4 * i) = read32le p (0x100 + 4 * i)) by (intros; apply meta_read32; lia).
  rewrite !Hd by lia. assert (E : forall i, 0 <= i < 3 -> read32le image (0x100 + 4 * i) = read32le image_hash_1 (0x100 + 4 * i)).
  { intros i Hi. unfold read32le. f_equal. apply keep_image; lia. }
  rewrite (E 0), (E 2) by lia.
  assert (B : forall i, 0 <= i < 4 -> 0 <= read32le image_hash_1 (0x100 + 4 * i) < 2 ^ 32).
  { intros i Hi. unfold read32le. rewrite keep_hash_1, keep_hash_0, keep_sections, keep_ini1, keep_kernel, keep_header by lia.
    replace (slice (part_package2 parts) (0x100 + 4 * i) 4) with (slice (take 0x200 (part_package2 parts)) (0x100 + 4 * i) 4)
      by (apply slice_take; lia). apply read32le_bound, (pf_header_bytes _ fit). }
  set (c0 := read32le image_hash_1 (0x100 + 4 * 0)) in *. set (c2 := read32le image_hash_1 (0x100 + 4 * 2)) in *.
  assert (E3 : read32le image (0x100 + 4 * 3) = read32le image_hash_1 (0x100 + 4 * 3) .^ (c0 .^ c2 .^ read32le image_hash_1 (0x100 + 4 * 3) .^ image_size)).
  { apply read_field.
    - apply lxor_u32; [by apply B|]. apply lxor_u32; [|lia]. apply lxor_u32; [|by apply B]. apply lxor_u32; by apply B.
    - unfold image. change (0x100 + 4 * 3) with 0x10C at 1. rewrite slice_splice_eq by image_side. f_equal.
      unfold get_package2_size, meta_ctr_dword. by rewrite !Hd by lia. }
  rewrite E3. set (c3 := read32le image_hash_1 (0x100 + 4 * 3)).
  rewrite <- (Z.lxor_assoc (c0 .^ c2)), <- Z.lxor_assoc, Z.lxor_nilpotent. apply Z.lxor_0_l.
Qed.

Lemma splice_is_bytes l off src : is_bytes l -> is_bytes src -> is_bytes (splice l off src).
Proof. intros Hl Hs. unfold splice. repeat apply Forall_app_2; [by apply Forall_take|by apply Forall_take|by apply Forall_drop]. Qed.
Lemma slice_bytes_splice l off src lo n :
  is_bytes src -> is_bytes (slice l lo n) -> 0 <= lo -> 0 <= n -> lo + n <= Z.of_nat (length l) ->
  0 <= off -> off + Z.of_nat (length src) <= Z.of_nat (length l) -> is_bytes (slice (splice l off src) lo n).
Proof.
  intros Hs Hl Hlo Hn Hb Ho Hsrc. apply Forall_lookup. intros i x Hx.
  assert (Hi : (i < length (slice (splice l off src) lo n))%nat) by (by eapply lookup_lt_Some).
  rewrite length_slice in Hi by (rewrite ?length_splice; lia).
  assert (E : x = byte_at (slice (splice l off src) lo n) (Z.of_nat i)) by (by rewrite byte_at_lookup, Nat2Z.id, Hx by lia).
  rewrite E, byte_at_slice by lia. clear E Hx.
  assert (Hget : forall l' j, is_bytes l' -> 0 <= j < Z.of_nat (length l') -> is_u8 (byte_at l' j)).
  { intros l' j Hb' Hj. rewrite byte_at_lookup by lia. destruct (l' !! Z.to_nat j) eqn:E; [|apply lookup_ge_None in E; lia].
    by eapply Forall_lookup in E. }
  destruct (decide (off <= lo + Z.of_nat i < off + Z.of_nat (length src))).
  - rewrite byte_at_splice_in by lia. apply Hget; [done|lia].
  - rewrite byte_at_splice_out by lia. rewrite <- (byte_at_slice l lo n) by lia. apply Hget; [done|].
    rewrite length_slice by lia. lia.
Qed.

Lemma image_meta_bytes : is_bytes (metadata image).
Proof.
  image_facts. unfold metadata.
  assert (B0 : is_bytes (slice image_header 0x100 0x100)).
  { rewrite keep_header by lia. rewrite <- (slice_take _ 0x200) by lia. apply slice_is_bytes, (pf_header_bytes _ fit). }
  assert (Hle : forall v, is_bytes (le_bytes 4 v)) by apply le_bytes_is_bytes.
  assert (B1 : is_bytes (slice image_kernel 0x100 0x100)).
  { do 2 (apply slice_bytes_splice; [done || apply Hle| |lia|lia|image_side|lia|image_side]). done. }
  assert (B2 : is_bytes (slice image_ini1 0x100 0x100)).
  { do 2 (apply slice_bytes_splice; [done || apply Hle| |lia|lia|image_side|lia|image_side]). done. }
  assert (B3 : is_bytes (slice image_sections 0x100 0x100)) by (apply slice_bytes_splice; [apply Hle|done|lia..|image_side]).
  assert (B4 : is_bytes (slice image_hash_0 0x100 0x100)) by (apply slice_bytes_splice; [done|done|lia..]).
  assert (B5 : is_bytes (slice image_hash_1 0x100 0x100)) by (apply slice_bytes_splice; [done|done|lia..]).
  apply slice_bytes_splice; [apply Hle|done|lia..|image_side].
Qed.

Lemma image_ok : rebuilt_ok parts image.
Proof.
  image_facts. destruct image_sizes as (S0 & S1 & S2), image_data as [D0 D1], image_hashes as [H0 H1].
  split; try done.
  - apply image_keeps; lia.
  - intros o n ? ? ?. apply image_keeps; lia.
  - intros o n ? ? ?. apply image_keeps; lia.
  - intros o n ? ? ?. apply image_keeps; lia.
  - rewrite image_total. lia.
  - apply image_meta_bytes.
Qed.

(** ** The run *)

Lemma sections_sizes :
  meta_section_size (metadata image_kernel) 0 = part_kernel_size parts /\
  meta_section_size (metadata image_ini1) 0 = part_kernel_size parts /\
  (forall p, p = image_sections \/ p = image_hash_0 \/ p = image_hash_1 ->
     meta_section_size (metadata p) 0 = part_kernel_size parts /\
     meta_section_size (metadata p) 1 = ini1_size (part_ini1 parts) /\ meta_section_size (metadata p) 2 = 0).
Proof.
  image_facts. unfold meta_section_size.
  assert (S0 : slice image_kernel 0x160 4 = le_bytes 4 (part_kernel_size parts)) by (apply slice_splice_eq; image_side).
  assert (S1 : slice image_ini1 0x164 4 = le_bytes 4 (ini1_size (part_ini1 parts))) by (apply slice_splice_eq; image_side).
  assert (S2 : slice image_sections 0x168 4 = le_bytes 4 0) by (apply slice_splice_eq; image_side).
  rewrite !meta_read32 by lia. split; [apply read_field; [lia|exact S0]|].
  split; [apply read_field; [lia|]; rewrite keep_ini1 by lia; exact S0|].
  assert (T0 : slice image_sections 0x160 4 = le_bytes 4 (part_kernel_size parts))
    by (rewrite keep_sections, keep_ini1 by lia; done).
  assert (T1 : slice image_sections 0x164 4 = le_bytes 4 (ini1_size (part_ini1 parts))) by (rewrite keep_sections by lia; done).
  intros p Hp. rewrite !meta_read32 by lia. repeat split; apply read_field; try lia;
    destruct Hp as [->|[-> | ->]]; rewrite ?keep_hash_1, ?keep_hash_0 by lia; done.
Qed.

Lemma sections_data : slice image_sections 0x200 (part_kernel_size parts) = kernel_bytes /\
  slice image_hash_0 (0x200 + part_kernel_size parts) (ini1_size (part_ini1 parts)) = ini1_bytes.
Proof.
  image_facts. destruct image_data as [<- <-]. split.
  - by rewrite keep_image, keep_hash_1, keep_hash_0 by lia.
  - by rewrite keep_image, keep_hash_1 by lia.
Qed.

Lemma fixup_hash_run p section off sz data w :
  meta_section_size (metadata p) section = sz -> 0 < sz -> 0 <= off -> off + sz <= Z.of_nat (length p) ->
  Z.of_nat (length p) < 2 ^ 31 -> slice p off sz = data -> is_bytes data ->
  exists h, fixup_section_hash (p, off) section w =
    (Ok (set_section_hash p section (sha256 data), off + sz), w <| f_hw ::= (fun x => x <| w_se := h |>) |>).
Proof.
  intros Hsz H0 Ho Hl Hb Hd Hbd. unfold fixup_section_hash. rewrite Hsz, (proj2 (Z.eqb_neq _ _)) by lia.
  rewrite load_at_ok, Hd, frun_heap by lia.
  assert (Hld : Z.of_nat (length data) = sz) by (rewrite <- Hd, length_slice; lia).
  destruct (sha256_run data sz (f_hw w) Hbd) as (h & E & _); [lia|]. rewrite slice_full in E by lia.
  rewrite (frun_bind _ _ _ _ _ (frun_hw _ _ _ _ E)), u32_id by (unfold is_u32; lia). by exists h.
Qed.

Lemma assemble_run w : exists h, package2_assemble parts w = (Ok image, w <| f_hw ::= (fun x => x <| w_se := h |>) |>).
Proof.
  image_facts. destruct fit. destruct sections_sizes as (S0 & S1 & Sp), sections_data as [D0 D1].
  unfold package2_assemble. change package2_get_thermosphere with (@nil Z). cbn [length]. change (Z.of_nat 0) with 0.
  change (align_to_4 0) with 0. rewrite Z.add_0_r, (align_to_4_id (ini1_size _)) by (unfold PACKAGE2_SIZE_MAX, package2_header_size in *; lia).
  fold image_size. rewrite u32_id by (unfold is_u32; lia). rewrite Z.gtb_ltb, (proj2 (Z.ltb_ge _ _)) by (unfold PACKAGE2_SIZE_MAX; lia).
  fold image_size in pf_heap0. rewrite pf_heap0. cbn [negb]. unfold package2_header_size in *.
  rewrite load_at_ok, frun_heap by lia. rewrite store_at_ok, frun_heap by lia. fold image_header.
  rewrite (append_run 0 _ _ _ 0x200), frun_heap, align_to_4_id by (try done; lia). fold kernel_bytes. change (0x160 + 4 * 0) with 0x160. fold image_kernel.
  rewrite (append_run 1 _ _ _ (0x200 + part_kernel_size parts)), frun_heap, align_to_4_id; try done; try lia.
  2: { unfold src_section_offset. change (range 1) with [0]. cbn [foldl]. unfold package2_header_size. rewrite S0.
       apply u32_id. unfold is_u32. lia. }
  fold ini1_bytes. change (0x160 + 4 * 1) with 0x164. fold image_ini1.
  change (package2_append_section PACKAGE2_SECTION_UNUSED image_ini1 [] 0) with (@Ok (list Z) image_sections). rewrite frun_heap.
  unfold package2_fixup_header_and_section_hashes, package2_header_size. change (range PACKAGE2_SECTION_MAX) with [0; 1; 2].
  cbn [ffold]. rewrite frun_assoc.
  destruct (Sp image_sections) as (A0 & _); [by left|]. destruct (Sp image_hash_0) as (_ & A1 & _); [by right; left|].
  destruct (Sp image_hash_1) as (_ & _ & A2); [by right; right|].
  destruct (fixup_hash_run image_sections 0 0x200 _ kernel_bytes w A0) as (h0 & E0); try done; try lia.
  rewrite (frun_bind _ _ _ _ _ E0). clear E0. change (set_section_hash image_sections 0 _) with image_hash_0. rewrite frun_assoc.
  set (w1 := update f_hw _ w).
  destruct (fixup_hash_run image_hash_0 1 (0x200 + part_kernel_size parts) _ ini1_bytes w1 A1) as (h1 & E1); try done; try lia.
  rewrite (frun_bind _ _ _ _ _ E1). clear E1. change (set_section_hash image_hash_0 1 _) with image_hash_1. rewrite frun_assoc.
  unfold fixup_section_hash. rewrite A2. exists h1. done.
Qed.

(** ** The header the monitor reads *)

(** The fields of the decrypted header that the boot loader keeps. *)
Definition boot_header_ok (md : list Z) : bool :=
  (meta_magic md =? MAGIC_PK21) && negb (header_version md >? MASTERKEY_REVISION_MAX) && (meta_entrypoint md .& 3 =? 0)
  && (meta_version_max md >=? PACKAGE2_MINVER_THEORETICAL) && (meta_version_min md <? PACKAGE2_MAXVER_900_CURRENT).

(** Kernel and INI1 have their places in DRAM, and the entry point is in one of
    them. *)
Record layout_fits (md : list Z) (k i : Z) : Prop := {
  lf_kernel : meta_section_offset md 0 + k < 2 ^ 32;
  lf_ini1 : meta_section_offset md 1 + i < 2 ^ 32;
  lf_apart : meta_section_offset md 0 + k <= meta_section_offset md 1 \/ meta_section_offset md 1 + i <= meta_section_offset md 0;
  lf_entry : meta_section_offset md 0 <= meta_entrypoint md < meta_section_offset md 0 + k \/
             meta_section_offset md 1 <= meta_entrypoint md < meta_section_offset md 1 + i }.

Hypothesis header_ok : boot_header_ok (metadata (part_package2 parts)) = true.
Hypothesis layout : layout_fits (metadata (part_package2 parts)) (part_kernel_size parts) (ini1_size (part_ini1 parts)).

Lemma image_fields :
  (forall o, 0x10 <= o -> o + 4 <= 0x60 \/ (0x70 <= o /\ o + 4 <= 0x80) ->
     read32le (metadata image) o = read32le (metadata (part_package2 parts)) o) /\
  read32le (metadata image) 4 = read32le (metadata (part_package2 parts)) 4 /\
  (forall o, 0x10 <= o < 0x60 -> byte_at (metadata image) o = byte_at (metadata (part_package2 parts)) o).
Proof.
  image_facts. repeat split.
  - intros o H1 H2. rewrite !meta_read32 by lia. unfold read32le. f_equal. apply image_keeps; lia.
  - rewrite !meta_read32 by lia. unfold read32le. f_equal. apply image_keeps; lia.
  - intros o Ho. rewrite !meta_byte by lia. apply byte_at_slices; [lia|]. apply image_keeps; lia.
Qed.

Lemma no_overflow a b : 0 <= a -> 0 <= b -> a + b < 2 ^ 32 -> check_32bit_additive_overflow a b = false.
Proof. intros. unfold check_32bit_additive_overflow. rewrite u32_id by (unfold is_u32; lia). by rewrite Z.eqb_refl. Qed.
Lemma overlaps_apart a b c d : a < b -> c < d -> b <= c \/ d <= a -> overlaps a b c d = false.
Proof.
  intros Ha Hc H. unfold overlaps. destruct (Z.leb_spec a c), (Z.ltb_spec c b), (Z.leb_spec c a), (Z.ltb_spec a d); cbn; (done || lia).
Qed.

Lemma image_metadata_ok : metadata_ok (metadata image) = true.
Proof.
  image_facts. destruct image_sizes as (S0 & S1 & S2), image_fields as (F & F1 & FB). destruct layout, fit.
  pose proof header_ok as Hh. unfold boot_header_ok in Hh. rewrite !andb_true_iff in Hh. destruct Hh as ((((M & V) & E) & VM) & Vm).
  assert (O : forall j, 0 <= j < 3 -> meta_section_offset (metadata image) j = meta_section_offset (metadata (part_package2 parts)) j).
  { intros j Hj. unfold meta_section_offset. apply F; lia. }
  assert (OB : forall j, 0 <= meta_section_offset (metadata image) j < 2 ^ 32)
    by (intros j; apply read32le_bound, image_meta_bytes).
  assert (Een : meta_entrypoint (metadata image) = meta_entrypoint (metadata (part_package2 parts))) by (apply F; lia).
  pose proof (OB 0) as B0. pose proof (OB 1) as B1. pose proof (OB 2) as B2.
  rewrite <- (O 0), <- ?(O 1), <- ?Een in * by lia.
  assert (Hend : section_end (metadata image) 0 = meta_section_offset (metadata image) 0 + part_kernel_size parts /\
                 section_end (metadata image) 1 = meta_section_offset (metadata image) 1 + ini1_size (part_ini1 parts)).
  { unfold section_end. rewrite S0, S1, !u32_id by (unfold is_u32; lia). done. }
  destruct Hend as [E0 E1]. unfold metadata_ok. rewrite !andb_true_iff. repeat split.
  - unfold header_checks. rewrite image_total, S0, S1, S2. rewrite !andb_true_iff. repeat split.
    + unfold meta_magic in *. rewrite F by lia. done.
    + unfold package2_header_size, PACKAGE2_SIZE_MAX. rewrite Z.gtb_ltb, (proj2 (Z.leb_gt _ _)), (proj2 (Z.ltb_ge _ _)) by lia. done.
    + unfold header_version, meta_ctr_dword in *. change (4 * 1) with 4 in *. rewrite F1. done.
    + done.
    + rewrite u32_id by (unfold is_u32; lia). unfold package2_header_size. apply Z.eqb_eq. lia.
  - change (range 3) with [0; 1; 2]. cbn [forallb]. unfold section_checks, overlaps_later. rewrite S0, S1, S2.
    rewrite !no_overflow, !land_3_mod, pf_kernel_aligned0, pf_ini_aligned0 by lia.
    change (seqZ (0 + 1) (PACKAGE2_SECTION_MAX - (0 + 1))) with [1; 2]. change (seqZ (1 + 1) (PACKAGE2_SECTION_MAX - (1 + 1))) with [2].
    change (seqZ (2 + 1) (PACKAGE2_SECTION_MAX - (2 + 1))) with (@nil Z). cbn [existsb]. rewrite S1, S2, E0, E1.
    rewrite overlaps_apart by lia. rewrite !andb_false_r. done.
  - change (range 3) with [0; 1; 2]. cbn [existsb]. unfold section_has_entrypoint. rewrite E0, E1, !orb_true_iff, !andb_true_iff, !Z.leb_le, !Z.ltb_lt.
    destruct lf_entry0; [by left|by right; left].
  - unfold meta_version_max in *. rewrite FB by lia. done.
  - unfold meta_version_min in *. rewrite FB by lia. done.
Qed.

Hypothesis unsigned : signature (part_package2 parts) = zeros 256.

Lemma read_back mem pa bs off n : 0 <= off -> off + Z.of_nat n <= Z.of_nat (length bs) ->
  phys_read_bytes (phys_write_bytes mem pa bs) (pa + off) n = slice bs off (Z.of_nat n).
Proof.
  intros Ho Hl. apply bytes_ext.
  - rewrite length_slice, phys_read_at, length_map by lia. unfold range. rewrite length_seqZ. lia.
  - rewrite phys_read_at, length_map. unfold range. rewrite length_seqZ. intros j Hj.
    rewrite byte_at_slice by lia. rewrite byte_at_lookup, list_lookup_fmap by lia.
    rewrite (lookup_seqZ_lt 0 _ (Z.to_nat j)) by lia. cbn [fmap option_fmap option_map default].
    unfold phys_write_bytes. rewrite (proj2 (Z.leb_le _ _)), (proj2 (Z.ltb_lt _ _)) by lia. cbn. f_equal. lia.
Qed.

(** What the monitor does with the image in memory. *)
Lemma image_loaded mem m :
  w_phys m = phys_write_bytes mem NX_BOOTLOADER_PACKAGE2_LOAD_ADDRESS image ->
  length (signed_config (loaded_bootconfig (w_bc m))) = 256%nat -> (0 < length (g_cpu_contexts (w_cpu m)))%nat ->
  let md := metadata (part_package2 parts) in
  exists m', load_package2_image m = (Ret tt, m') /\
    (forall j, 0 <= j < part_kernel_size parts ->
       w_phys m' (DRAM_BASE_PHYSICAL + meta_section_offset md 0 + j) = byte_at (part_kernel parts) j) /\
    (forall j, 0 <= j < ini1_size (part_ini1 parts) ->
       w_phys m' (DRAM_BASE_PHYSICAL + meta_section_offset md 1 + j) = byte_at (part_ini1 parts) j) /\
    ctx_ELR_EL3 (Cpu.context_of 0 m') = DRAM_BASE_PHYSICAL + meta_entrypoint md.
Proof.
  intros Hm Hc Hx md. image_facts. destruct image_ok, image_fields as (F & _).
  destruct (load_plaintext_run (metadata image) m) as (m' & E & L & El & _).
  - split; [|split; [|split; [apply image_meta_bytes|done]]]; rewrite Hm.
    + rewrite <- (Z.add_0_r NX_BOOTLOADER_PACKAGE2_LOAD_ADDRESS), read_back by lia.
      change (Z.of_nat 256) with 0x100. rewrite ro_signature0. exact unsigned.
    + rewrite read_back by lia. done.
  - apply image_metadata_ok.
  - done.
  - exists m'. split; [done|]. destruct (section_source_at (metadata image)) as (Q0 & Q1 & _).
    assert (O : forall j, 0 <= j < 2 -> meta_section_offset (metadata image) j = meta_section_offset md j)
      by (intros j Hj; apply F; lia).
    assert (Hget : forall off n src j, slice image off n = src -> 0 <= off -> off + n <= image_size -> 0 <= j < n ->
      w_phys m (NX_BOOTLOADER_PACKAGE2_LOAD_ADDRESS + (off + j)) = byte_at src j).
    { intros off n src j <- H1 H2 H3. rewrite Hm. unfold phys_write_bytes. rewrite (proj2 (Z.leb_le _ _)), (proj2 (Z.ltb_lt _ _)) by lia.
      cbn [andb]. rewrite byte_at_slice by lia. f_equal. lia. }
    split; [|split].
    + intros j Hj. rewrite (L 0) by (try done; unfold in_section, section_start; rewrite O, ro_size_3; lia).
      rewrite <- (Z.add_0_l j) at 2. rewrite <- (byte_at_slice (part_kernel parts) 0 (part_kernel_size parts)) by lia.
      rewrite <- (Hget 0x200 (part_kernel_size parts) _ j ro_kernel0) by lia. f_equal.
      unfold section_start, package2_header_size. rewrite O by lia. lia.
    + intros j Hj. rewrite (L 1) by (try done; unfold in_section, section_start; rewrite O, ro_size_4; lia).
      rewrite <- (Z.add_0_l j) at 2. rewrite <- (byte_at_slice (part_ini1 parts) 0 (ini1_size (part_ini1 parts))) by lia.
      rewrite <- (Hget (0x200 + part_kernel_size parts) (ini1_size (part_ini1 parts)) _ j ro_ini0) by lia. f_equal.
      unfold section_start, package2_header_size. rewrite Q1, ro_size_3, O by lia. lia.
    + rewrite El. unfold meta_entrypoint. by rewrite F by lia.
Qed.
End Image.

(** ** The decrypted package2 is marked as plaintext *)

Lemma store_at_length block off src block' : store_at block off src = Ok block' -> length block' = length block.
Proof.
  unfold store_at. destruct src; [by intros [= <-]|]. destruct (Z.leb_spec (u32 off + Z.of_nat (length (z :: src))) (Z.of_nat (length block))); [|done].
  intros [= <-]. apply length_splice. pose proof (u32_range off). cbn [length] in *. unfold is_u32 in *. lia.
Qed.

Lemma decrypt_section_length is_plaintext rev n st section w st' w' :
  length st.1 = n -> decrypt_section is_plaintext rev st section w = (Ok st', w') -> length st'.1 = n.
Proof.
  destruct st as [p off]. cbn [fst]. intros Hl. unfold decrypt_section. destruct (_ =? 0); [by intros [= <- _]|].
  intros (src & w1 & _ & E)%frun_inv. apply frun_inv in E as (out & w2 & _ & E). apply frun_inv in E as (q & w3 & E1 & E).
  injection E as <- _. injection E1 as E1 _. cbn [fst]. apply store_at_length in E1. lia.
Qed.

Lemma decrypt_unsigned p w q w' : 0x200 <= Z.of_nat (length p) -> package2_decrypt p w = (Ok q, w') ->
  signature q = zeros 256 /\ length q = length p.
Proof.
  intros Hl. unfold package2_decrypt. intros (r & w1 & E1 & E)%frun_inv. apply frun_inv in E as (st & w2 & E2 & E).
  injection E as <- _. assert (Hr : length r.2 = length p).
  { revert E1. unfold package2_decrypt_and_validate_header. destruct (negb _).
    - intros (cur & w3 & _ & E)%frun_inv. apply frun_inv in E as ([[rev md]|] & w4 & _ & E); [|done].
      injection E as <- _. cbn [snd]. apply length_splice. lia.
    - intros (ok & w3 & _ & E)%frun_inv. destruct (negb ok); [done|]. by injection E as <- _. }
  apply (ffold_inv (fun st => length st.1 = length p)) in E2; [|by intros; eapply decrypt_section_length|done].
  split; [|rewrite length_splice; lia]. apply slice_splice_eq; unfold zeros; rewrite ?length_replicate; lia.
Qed.

Lemma prepare_unsigned p fw emummc w parts w' : 0x200 <= Z.of_nat (length p) ->
  package2_prepare p fw emummc w = (Ok parts, w') -> signature (part_package2 parts) = zeros 256.
Proof.
  intros Hl. unfold package2_prepare. intros (q & w1 & E1 & E)%frun_inv.
  destruct (decrypt_unsigned _ _ _ _ Hl E1) as [Hs Hq]. change (src_section_offset q PACKAGE2_SECTION_KERNEL) with 0x200 in E.
  cbn [length package2_get_thermosphere] in E. apply frun_inv in E as (sd & w2 & _ & E).
  apply frun_inv in E as ([kernel embedded] & w3 & _ & E). destruct (_ || _); [done|].
  apply frun_inv in E as (ini & w4 & _ & E). injection E as <- _. cbn [part_package2].
  set (q' := if (match sd with Some _ => true | None => false end) then q else _).
  assert (signature q' = zeros 256 /\ 0x200 <= Z.of_nat (length q')) as [Hs' Hl'].
  { unfold q'. destruct sd; [split; [done|lia]|]. unfold signature in *.
    rewrite slice_app_l', length_app, length_take by (rewrite ?length_take; lia). rewrite slice_take by lia. split; [done|lia]. }
  destruct (fw <? _); [done|]. unfold signature, set_section_offset, PACKAGE2_SECTION_INI1.
  rewrite slice_splice_ne by (rewrite ?length_le_bytes; lia). done.
Qed.

(** C4: the boot loader's package2 boots.  When the parts are ready (the
    decrypted package2, the patched kernel, the merged INI1), aligned and small
    enough, and the header gives them disjoint places, [package2_rebuild_and_copy]
    returns.  A monitor that then finds this memory loads the image: it returns,
    every byte of the patched kernel and of the merged INI1 is in DRAM at its
    section's offset, core 0 starts at the header's entry point. *)
Theorem rebuilt_package2_boots p fw emummc w parts w1 :
  package2_prepare p fw emummc w = (Ok parts, w1) -> 0x200 <= Z.of_nat (length p) -> parts_fit parts ->
  boot_header_ok (metadata (part_package2 parts)) = true ->
  layout_fits (metadata (part_package2 parts)) (part_kernel_size parts) (ini1_size (part_ini1 parts)) ->
  exists w2, package2_rebuild_and_copy p fw emummc w = (Ok tt, w2) /\
    forall m, w_phys m = w_phys (f_hw w2) -> length (signed_config (loaded_bootconfig (w_bc m))) = 256%nat ->
      (0 < length (g_cpu_contexts (w_cpu m)))%nat ->
      let md := metadata (part_package2 parts) in
      exists m', load_package2_image m = (Ret tt, m') /\
        (forall j, 0 <= j < part_kernel_size parts ->
           w_phys m' (DRAM_BASE_PHYSICAL + meta_section_offset md 0 + j) = byte_at (part_kernel parts) j) /\
        (forall j, 0 <= j < ini1_size (part_ini1 parts) ->
           w_phys m' (DRAM_BASE_PHYSICAL + meta_section_offset md 1 + j) = byte_at (part_ini1 parts) j) /\
        ctx_ELR_EL3 (Cpu.context_of 0 m') = DRAM_BASE_PHYSICAL + meta_entrypoint md.
Proof.
  intros Hp Hl Hfit Hh Hlay. pose proof (prepare_unsigned _ _ _ _ _ _ Hl Hp) as Hs.
  destruct (assemble_run parts Hfit w1) as (h & E).
  unfold package2_rebuild_and_copy. rewrite (frun_bind _ _ _ _ _ Hp), (frun_bind _ _ _ _ _ E).
  eexists. split; [reflexivity|]. intros m Hm Hc Hx. by eapply (image_loaded parts Hfit Hh Hlay Hs _ m Hm).
Qed.
End Assemble.

Section Unaligned.
Context {soc : SoC} {HE : CryptoEngine soc} {card : Card}.

Lemma align_to_4_up n : 0 <= n < 2 ^ 31 -> n mod 4 <> 0 -> n < align_to_4 n < n + 4.
Proof.
  intros Hn Hm. unfold align_to_4. rewrite (u32_id (n + 3)) by (unfold is_u32; lia).
  rewrite Z.shiftr_div_pow2, Z.shiftl_mul_pow2 by lia. change (2 ^ 2) with 4.
  pose proof (Z.div_mod n 4). pose proof (Z.mod_pos_bound n 4). pose proof (Z.div_mod (n + 3) 4). pose proof (Z.mod_pos_bound (n + 3) 4).
  rewrite u32_id by (unfold is_u32; lia). lia.
Qed.

(** A kernel whose size is not a multiple of four (one of the SD card can be):
    the block is allocated for the size, the INI1 is appended after the aligned
    size, and is written past the end of the block. *)
Theorem unaligned_kernel_overflows parts w :
  let k := part_kernel_size parts in
  let i := ini1_size (part_ini1 parts) in
  package2_header_size <= Z.of_nat (length (part_package2 parts)) ->
  0 < k <= Z.of_nat (length (part_kernel parts)) -> k mod 4 <> 0 -> 0 < i <= Z.of_nat (length (part_ini1 parts)) -> i mod 4 = 0 ->
  package2_header_size + k + i <= PACKAGE2_SIZE_MAX -> heap_has (package2_header_size + k + i) = true ->
  package2_assemble parts w = (Stop BadAccess, w).
Proof.
  intros k i Hh Hk Hk4 Hi Hi4 Hmax Hheap. unfold package2_header_size, PACKAGE2_SIZE_MAX in *.
  pose proof (align_to_4_up k) as Hup. unfold package2_assemble. fold k i.
  change package2_get_thermosphere with (@nil Z). cbn [length]. change (Z.of_nat 0) with 0. change (align_to_4 0) with 0.
  rewrite Z.add_0_r, (align_to_4_id i) by lia. unfold package2_header_size. rewrite u32_id by (unfold is_u32; lia).
  rewrite Z.gtb_ltb, (proj2 (Z.ltb_ge _ _)) by (unfold PACKAGE2_SIZE_MAX; lia). rewrite Hheap. cbn [negb].
  pose proof (length_malloc (0x200 + k + i)) as Hm.
  assert (Hs : length (slice (part_package2 parts) 0 0x200) = Z.to_nat 0x200) by (rewrite length_slice; lia).
  rewrite load_at_ok, frun_heap by lia. rewrite store_at_ok, frun_heap by lia.
  set (b := splice _ 0 _). assert (Lb : Z.of_nat (length b) = 0x200 + k + i) by (unfold b; rewrite length_splice; lia).
  rewrite (append_run PACKAGE2_SECTION_KERNEL b _ k 0x200), frun_heap by (try done; lia).
  set (b' := splice (splice b _ _) _ _).
  assert (Lb' : Z.of_nat (length b') = 0x200 + k + i)
    by (unfold b', PACKAGE2_SECTION_KERNEL; rewrite length_splice; rewrite length_splice; lia).
  assert (E : src_section_offset b' PACKAGE2_SECTION_INI1 = 0x200 + align_to_4 k).
  { unfold src_section_offset, PACKAGE2_SECTION_INI1. change (range 1) with [0]. cbn [foldl]. unfold package2_header_size, meta_section_size.
    rewrite meta_read32 by lia. change (0x100 + (0x60 + 4 * 0)) with 0x160. rewrite (read_field _ _ (align_to_4 k)); [apply u32_id; unfold is_u32; lia|lia|].
    unfold b', PACKAGE2_SECTION_KERNEL. apply slice_splice_eq; rewrite ?length_le_bytes; rewrite ?length_splice; lia. }
  assert (A : package2_append_section PACKAGE2_SECTION_INI1 b' (part_ini1 parts) i = Stop BadAccess).
  { unfold package2_append_section. rewrite load_at_ok by lia. cbn [mbind res_bind].
    by rewrite E, store_at_bad by (rewrite ?length_slice; lia). }
  rewrite A. done.
Qed.
End Unaligned.

(** ** A concrete package2 *)

Import Toy.

(** A card with a kernel of 0x40 bytes, and a package2 in plain text: a kernel
    of 0x10 bytes at 0x60000, an INI1 with one KIP at 0x70000. *)
Definition toy_kernel : list Z := range 0x40.
#[local] Instance kernel_card : Card := {
  sd_file path := if bool_decide (path = str "atmosphere/kernel.bin") then Some toy_kernel else None;
  sd_dir _ := None;
  heap_has _ := true;
  loader_kip := [];
  pm_kip := [];
  sm_kip := [];
  spl_kip := [];
  ams_mitm_kip := [];
  boot_kip := [] }.

Definition boot_ini1 : list Z := ini_of [toy_kip 7 4].
Definition boot_metadata : list Z :=
  bytes_of_words32 [0x324; 0; 0; 0] ++ zeros 0x40 ++ bytes_of_words32 [MAGIC_PK21; 0x60000; 0] ++ [0xC; 0; 0; 0]
  ++ bytes_of_words32 [0x10; 0x114; 0; 0] ++ bytes_of_words32 [0x60000; 0x70000; 0; 0]
  ++ toy_digest (replicate 16 5) ++ toy_digest boot_ini1 ++ zeros 0x40.
Definition boot_package2 : list Z := replicate 256 1 ++ boot_metadata ++ replicate 16 5 ++ boot_ini1.
Definition boot_fworld : FWorld :=
  toy_fworld <| f_strat := mk_stratosphere_state None None false false false false false false 0 |>.

Definition boot_parts : rebuild_parts :=
  mk_parts (zeros 256 ++ boot_metadata ++ replicate 16 5 ++ boot_ini1) toy_kernel 0x40 (ini_of [toy_kip 7 4]).
Lemma bytes_checked l : forallb (fun x => (0 <=? x) && (x <? 256)) l = true -> is_bytes l.
Proof.
  rewrite forallb_forall. intros H. apply Forall_forall. intros x Hx. apply list_elem_of_In, H in Hx.
  rewrite andb_true_iff, Z.leb_le, Z.ltb_lt in Hx. done.
Qed.
Lemma boot_prepared_parts : fst (package2_prepare boot_package2 ATMOSPHERE_TARGET_FIRMWARE_700 None boot_fworld) = Ok boot_parts.
Proof. lazy. reflexivity. Qed.
Lemma boot_prepared : exists w1, package2_prepare boot_package2 ATMOSPHERE_TARGET_FIRMWARE_700 None boot_fworld = (Ok boot_parts, w1).
Proof.
  pose proof boot_prepared_parts as H. destruct (package2_prepare _ _ _ _) as [r w1]. exists w1. by rewrite <- H.
Qed.

Lemma rebuilt_package2_boots_witness :
  exists w2, package2_rebuild_and_copy boot_package2 ATMOSPHERE_TARGET_FIRMWARE_700 None boot_fworld = (Ok tt, w2) /\
    exists m', load_package2_image ((toy_world 8) <| w_phys := w_phys (f_hw w2) |>) = (Ret tt, m') /\
      (forall j, 0 <= j < 0x40 -> w_phys m' (0x80060000 + j) = byte_at toy_kernel j).
Proof.
  destruct boot_prepared as (w1 & Hprep).
  destruct (rebuilt_package2_boots boot_package2 ATMOSPHERE_TARGET_FIRMWARE_700 None boot_fworld boot_parts w1 Hprep)
    as (w2 & E & Hboot); clear Hprep.
  - by vm_compute.
  - split; cbn [part_package2 part_kernel part_kernel_size part_ini1 boot_parts].
    + by vm_compute.
    + by apply bytes_checked; vm_compute.
    + by vm_compute.
    + reflexivity.
    + by apply bytes_checked; vm_compute.
    + by vm_compute.
    + by vm_compute.
    + by apply bytes_checked; vm_compute.
    + by vm_compute.
    + reflexivity.
  - reflexivity.
  - split; vm_compute; intuition congruence.
  - exists w2. split; [exact E|].
    destruct (Hboot ((toy_world 8) <| w_phys := w_phys (f_hw w2) |>)) as (m' & Em & Hk & _); [done|done|by apply Nat.ltb_lt|].
    exists m'. split; [exact Em|]. exact Hk.
Defined.
