(* ===== verification/XtsProps.v ===== *)
(** AES-XTS of the boot loader's se.c: the in-place encryption of sectors is XTS
    with the big-endian sector number as tweak, and decryption undoes it. *)
From S2P Require Import Prelude State Utils Se Engine Platform SeProps Fusee FuseeKeys.
Import SE FuseeSe.

(** ** The tweak chain *)

(** The next tweak of XTS: doubling in GF(2^128), little-endian. *)
Definition next_tweak (t : list Z) : list Z := le_bytes 16 (gf128_double (le_value t)).

Lemma shift_left_le_value key c0 : is_bytes key -> 0 <= c0 <= 1 ->
  let '(k, c) := shift_left_le key c0 in
  length k = length key /\ is_bytes k /\ 0 <= c <= 1 /\
  le_value k + 2 ^ (8 * Z.of_nat (length key)) * c = 2 * le_value key + c0.
Proof.
  intros Hb. revert c0. induction Hb as [|b l Hb Hl IH]; intros c0 Hc.
  { cbn. repeat split; try done; try lia. constructor. }
  cbn [shift_left_le]. destruct (shift_byte b c0 Hb Hc) as (H1 & H3 & H2). cbv zeta in *.
  specialize (IH (b >>. 7) H2). destruct (shift_left_le l (b >>. 7)) as [k c]. destruct IH as (L & Bk & Hc' & V).
  split; [cbn; lia|]. split; [by constructor|]. split; [done|]. cbn [le_value length].
  replace (8 * Z.of_nat (S (length l))) with (8 + 8 * Z.of_nat (length l)) by lia.
  rewrite Z.pow_add_r by lia. set (p := 2 ^ (8 * Z.of_nat (length l))) in *. nia.
Qed.

Lemma shift_left_xor_rb_le_next t : is_block t -> shift_left_xor_rb_le t = next_tweak t /\ is_block (shift_left_xor_rb_le t).
Proof.
  intros [L Hb]. unfold shift_left_xor_rb_le, next_tweak. pose proof (shift_left_le_value t 0 Hb ltac:(lia)) as H.
  destruct (shift_left_le t 0) as [k c]. destruct H as (Lk & Hk & Hc & V). rewrite L in *.
  pose proof (le_value_bound k Hk) as Bk. rewrite Lk in Bk. change (8 * Z.of_nat 16) with 128 in *.
  assert (Hv : forall l, length l = 16%nat -> is_bytes l -> le_bytes 16 (le_value l) = l) by (intros l <- ?; by apply le_bytes_value).
  unfold gf128_double. assert (c = 0 \/ c = 1) as [-> | ->] by lia; cbn [Z.eqb negb].
  - rewrite (proj2 (Z.ltb_lt _ _)) by lia. replace (2 * le_value t) with (le_value k) by lia. by rewrite Hv.
  - rewrite (proj2 (Z.ltb_ge _ _)) by lia. destruct k as [|x k]; [done|]. inversion Hk; subst.
    assert (E : splice (x :: k) 0 [byte_at (x :: k) 0 .^ 0x87] = x .^ 0x87 :: k) by (clear; by destruct k). rewrite E.
    assert (Hx : is_bytes (x .^ 0x87 :: k)) by (constructor; [by apply lxor_u8|done]).
    split; [|by split]. rewrite <- (Hv (x .^ 0x87 :: k)) by done. f_equal. cbn [le_value].
    replace (2 * le_value t - 2 ^ 128) with (le_value k * 2 ^ 8 + x) by (cbn [le_value] in V; lia).
    rewrite lxor_low by done. lia.
Qed.

(** ** XTS *)

(** One sector: each block is ciphered between two exclusive ors with its tweak. *)
Fixpoint xts_blocks (f : list Z -> list Z) (n : nat) (tweak data : list Z) : list Z :=
  match n with
  | O => []
  | S n' => xor_bytes (f (xor_bytes (take 16 data) tweak)) tweak ++ xts_blocks f n' (next_tweak tweak) (drop 16 data)
  end.

(** The tweak of a sector: its number as a big-endian block. *)
Definition sector_tweak (sector : Z) : list Z := rev (le_bytes 16 sector).

Lemma tweak_bytes_rev n s acc : tweak_bytes n s acc = rev (le_bytes n s) ++ acc.
Proof.
  revert s acc. induction n as [|n IH]; intros s acc; [done|]. cbn [tweak_bytes le_bytes]. rewrite IH. cbn [rev].
  rewrite <- app_assoc, Z.shiftr_div_pow2 by lia. change 0xFF with (Z.ones 8). by rewrite Z.land_ones by lia.
Qed.
Lemma sector_tweak_block s : is_block (sector_tweak s).
Proof. unfold sector_tweak. split; [by rewrite length_rev, length_le_bytes|]. apply Forall_rev, le_bytes_is_bytes. Qed.

Lemma xor_block a t : is_block a -> is_block t -> is_block (xor_bytes a t).
Proof.
  intros [La Ba] [Lt Bt]. split; [rewrite length_xor_bytes; lia|]. unfold xor_bytes.
  apply (Forall_zip_with_fst _ is_u8); [done|]. eapply Forall_impl; [done|]. intros y Hy x Hx. by apply lxor_u8.
Qed.
Lemma first_block data n : is_bytes data -> length data = (16 * S n)%nat ->
  is_block (take 16 data) /\ is_bytes (drop 16 data) /\ length (drop 16 data) = (16 * n)%nat.
Proof.
  intros Hb Hl. split; [split; [rewrite length_take; lia|by apply Forall_take]|].
  split; [by apply Forall_drop|rewrite length_drop; lia].
Qed.
Lemma next_tweak_block t : is_block t -> is_block (next_tweak t).
Proof. intros Ht. destruct (shift_left_xor_rb_le_next t Ht) as [<- H]. done. Qed.

Definition maps_blocks (f : list Z -> list Z) : Prop := forall b, is_block b -> is_block (f b).

(** The two exclusive ors around the engine's ECB make XTS. *)
Lemma ecb_xts f n t data : maps_blocks f -> is_block t -> is_bytes data -> length data = (16 * n)%nat ->
  let masked := xor_blocks n t data in
  length masked = (16 * n)%nat /\ is_bytes masked /\
  length (ecb f n masked) = (16 * n)%nat /\ xor_blocks n t (ecb f n masked) = xts_blocks f n t data /\
  length (xts_blocks f n t data) = (16 * n)%nat /\ is_bytes (xts_blocks f n t data).
Proof.
  intros Hf. revert t data. induction n as [|n IH]; intros t data Ht Hb Hl; cbn zeta; [repeat split; constructor|].
  destruct (first_block data n Hb Hl) as (Hb1 & Hb2 & Hl2). destruct (shift_left_xor_rb_le_next t Ht) as [En Hn].
  destruct (IH (shift_left_xor_rb_le t) (drop 16 data) Hn Hb2 Hl2) as (I1 & I2 & I3 & I4 & I5 & I6).
  pose proof (xor_block _ _ Hb1 Ht) as Hx. pose proof (Hf _ Hx) as Hfx. pose proof (xor_block _ _ Hfx Ht) as Hy.
  cbn [xor_blocks ecb xts_blocks]. rewrite !length_app, <- En.
  assert (Et : forall r, take 16 (xor_bytes (take 16 data) t ++ r) = xor_bytes (take 16 data) t /\
                         drop 16 (xor_bytes (take 16 data) t ++ r) = r).
  { intros r. split; [apply take_app_length'|apply drop_app_length']; symmetry; apply Hx. }
  rewrite !(proj1 (Et _)), !(proj2 (Et _)).
  assert (Ef : forall r, take 16 (f (xor_bytes (take 16 data) t) ++ r) = f (xor_bytes (take 16 data) t) /\
                         drop 16 (f (xor_bytes (take 16 data) t) ++ r) = r).
  { intros r. split; [apply take_app_length'|apply drop_app_length']; symmetry; apply Hfx. }
  rewrite !(proj1 (Ef _)), !(proj2 (Ef _)), I4, ?length_app.
  split; [rewrite (proj1 Hx), I1; lia|]. split; [apply Forall_app_2; [apply Hx|done]|].
  split; [rewrite (proj1 Hfx), I3; lia|]. split; [done|].
  split; [rewrite (proj1 Hy), I5; lia|]. apply Forall_app_2; [apply Hy|done].
Qed.

Lemma xts_inverse f g n t data :
  maps_blocks f -> (forall b, is_block b -> g (f b) = b) -> is_block t -> is_bytes data -> length data = (16 * n)%nat ->
  xts_blocks g n t (xts_blocks f n t data) = data.
Proof.
  intros Hf Hg. revert t data. induction n as [|n IH]; intros t data Ht Hb Hl; [by destruct data|].
  destruct (first_block data n Hb Hl) as (Hb1 & Hb2 & Hl2). cbn [xts_blocks].
  pose proof (xor_block _ _ Hb1 Ht) as Hx. pose proof (xor_block _ _ (Hf _ Hx) Ht) as Hy.
  rewrite take_app_length', drop_app_length' by (symmetry; apply Hy).
  rewrite xor_bytes_involutive by (rewrite (proj1 (Hf _ Hx)), (proj1 Ht); done).
  rewrite Hg, xor_bytes_involutive by (done || (rewrite (proj1 Hb1), (proj1 Ht); done)).
  rewrite IH by (try done; by apply next_tweak_block). apply take_drop.
Qed.

(** Consecutive sectors of [16 * n] bytes; [tw] is the encrypted tweak of a
    sector. *)
Fixpoint xts_sector_list (f tw : list Z -> list Z) (n m : nat) (sector : Z) (data : list Z) : list Z :=
  match m with
  | O => []
  | S m' => xts_blocks f n (tw (sector_tweak (u32 sector))) (take (16 * n) data)
            ++ xts_sector_list f tw n m' (sector + 1) (drop (16 * n) data)
  end.

(** Sector numbers count modulo 2^32. *)
Lemma xts_list_u32 f tw n m sector data : xts_sector_list f tw n m (u32 sector) data = xts_sector_list f tw n m sector data.
Proof.
  enough (E : forall a b data, u32 a = u32 b -> xts_sector_list f tw n m a data = xts_sector_list f tw n m b data).
  { apply E. unfold u32. apply Z.mod_mod. lia. }
  clear. induction m as [|m IH]; intros a b data Hab; [done|]. cbn [xts_sector_list]. rewrite Hab. f_equal. apply IH.
  unfold u32 in *. rewrite <- (Z.add_mod_idemp_l a), Hab, Z.add_mod_idemp_l by lia. done.
Qed.
Lemma xts_sector_list_inverse f g tw n m sector data :
  maps_blocks f -> (forall b, is_block b -> g (f b) = b) -> maps_blocks tw -> is_bytes data -> length data = (16 * n * m)%nat ->
  is_bytes (xts_sector_list f tw n m sector data) /\ length (xts_sector_list f tw n m sector data) = (16 * n * m)%nat /\
  xts_sector_list g tw n m sector (xts_sector_list f tw n m sector data) = data.
Proof.
  intros Hf Hg Htw. revert sector data. induction m as [|m IH]; intros sector data Hb Hl.
  { cbn [xts_sector_list]. repeat split; [constructor|cbn; lia|]. destruct data; [done|cbn in Hl; lia]. }
  cbn [xts_sector_list]. set (t := tw _). assert (Ht : is_block t) by apply Htw, sector_tweak_block.
  assert (L1 : length (take (16 * n) data) = (16 * n)%nat) by (rewrite length_take; lia).
  destruct (ecb_xts f n t (take (16 * n) data) Hf Ht (Forall_take _ _ _ Hb) L1) as (_ & _ & _ & _ & X1 & X2).
  destruct (IH (sector + 1) (drop (16 * n) data)) as (I1 & I2 & I3); [by apply Forall_drop|rewrite length_drop; lia|].
  split; [by apply Forall_app_2|]. split; [rewrite length_app, X1, I2; lia|].
  rewrite take_app_length', drop_app_length', I3 by done. rewrite xts_inverse by (try done; by apply Forall_take). apply take_drop.
Qed.

(** ** The driver *)

Section Run.
Context {soc : SoC} {HC : CryptoEngine soc} {HB : BulkEngine soc}.

Lemma size_blocks n : (0 < n)%nat -> Z.of_nat (16 * n) < 2 ^ 32 ->
  (negb (Z.of_nat (16 * n) .& 0xF =? 0) || (Z.of_nat (16 * n) =? 0)) = false /\ Z.of_nat (16 * n) >>. 4 = Z.of_nat n.
Proof.
  intros Hn Hl. change 0xF with (Z.ones 4). rewrite Z.land_ones, Z.shiftr_div_pow2 by lia. change (2 ^ 4) with 16.
  replace (Z.of_nat (16 * n)) with (Z.of_nat n * 16) by lia. rewrite Z.mod_mul, Z.div_mul, (proj2 (Z.eqb_neq (Z.of_nat n * 16) 0)) by lia. done.
Qed.

Lemma xor_with_tweak_run slot sector dst src n w :
  0 <= slot < 16 -> (0 < n)%nat -> Z.of_nat (16 * n) < 2 ^ 32 -> length dst = (16 * n)%nat ->
  let t := aes_encrypt (slot_key (w_se w) slot) (sector_tweak (u32 sector)) in
  length (xor_blocks n t src) = (16 * n)%nat ->
  exists h, aes_128_xts_nintendo_xor_with_tweak slot sector dst src (Z.of_nat (16 * n)) w =
    (Ret (xor_blocks n t src), w <| w_se := h |>) /\ same_tables (w_se w) h.
Proof.
  intros Hs Hn Hl Hd t Hx. destruct (size_blocks n Hn Hl) as [G E]. unfold aes_128_xts_nintendo_xor_with_tweak.
  rewrite G, E, Nat2Z.id. unfold aes_128_xts_nintendo_get_tweak. rewrite tweak_bytes_rev, app_nil_r. fold (sector_tweak (u32 sector)).
  destruct (ecb_encrypt_run slot (sector_tweak (u32 sector)) w Hs (sector_tweak_block _)) as (h & Er & Ht).
  rewrite (run_bind _ _ _ _ _ Er). exists h. split; [|done]. fold t. by rewrite splice_block by lia.
Qed.

Definition sector_cipher (encrypt : bool) (key : list Z) : list Z -> list Z := if encrypt then aes_encrypt key else aes_decrypt key.
Lemma sector_cipher_blocks encrypt key : is_block key -> maps_blocks (sector_cipher encrypt key).
Proof. intros Hk b Hb. destruct encrypt; [by apply aes_encrypt_block|by apply aes_decrypt_block]. Qed.

(** The engine on one sector. *)
Lemma bulk_run {A} (encrypt : bool) slot n dst data out w (k : list Z -> M A) :
  0 <= slot < 16 -> length dst = (16 * n)%nat -> length data = (16 * n)%nat -> is_bytes data ->
  out = ecb (sector_cipher encrypt (slot_key (w_se w) slot)) n data -> length out = (16 * n)%nat ->
  exists h, ((if encrypt
     then se_write CONFIG_REG (ALG_AES_ENC .| DST_MEMORY) ;; se_write CRYPTO_REG (u32 ((slot <<. 24) .| 0x100))
     else se_write CONFIG_REG (ALG_AES_DEC .| DST_MEMORY) ;; se_write CRYPTO_REG (u32 (slot <<. 24))) ;;
    se_write BLOCK_COUNT_REG (u32 (Z.of_nat n - 1)) ;;
    (res ← trigger_se_blocking_op OP_START (Some dst) (Some data); k res)) w = k out (w <| w_se := h |>) /\ same_tables (w_se w) h.
Proof.
  intros Hs Hld Hl Hb Ho Hlo. destruct encrypt; cbn [sector_cipher] in Ho.
  - rewrite bind_assoc, !run_se_write. set (w2 := update w_se _ _). set (h := start_op OP_START (w_se w2)).
    assert (Hk : same_tables (w_se w) h) by (unfold h, w2; rewrite !w_se_update; tables).
    destruct (engine_bulk_encrypt h slot n data dst) as [E1 E2]; [done|unfold h, w2; rewrite !w_se_update; by regs..|done|done|].
    rewrite (same_tables_key _ _ _ Hk), <- Ho in E1.
    rewrite (run_bind _ _ _ _ _ (trigger_blocking_run _ _ _ _)). eexists. split; [|etransitivity; [apply Hk|apply E2]].
    unfold run_op. cbn [ll_init default from_option id]. fold h. rewrite E1, splice_block by lia. done.
  - rewrite bind_assoc, !run_se_write. set (w2 := update w_se _ _). set (h := start_op OP_START (w_se w2)).
    assert (Hk : same_tables (w_se w) h) by (unfold h, w2; rewrite !w_se_update; tables).
    destruct (engine_bulk_decrypt h slot n data dst) as [E1 E2]; [done|unfold h, w2; rewrite !w_se_update; by regs..|done|done|].
    rewrite (same_tables_key _ _ _ Hk), <- Ho in E1.
    rewrite (run_bind _ _ _ _ _ (trigger_blocking_run _ _ _ _)). eexists. split; [|etransitivity; [apply Hk|apply E2]].
    unfold run_op. cbn [ll_init default from_option id]. fold h. rewrite E1, splice_block by lia. done.
Qed.

Lemma crypt_sector_run (encrypt : bool) slot1 slot2 sector n data w :
  0 <= slot1 < 16 -> 0 <= slot2 < 16 -> (0 < n)%nat -> Z.of_nat (16 * n) < 2 ^ 32 -> length data = (16 * n)%nat -> is_bytes data ->
  let t := aes_encrypt (slot_key (w_se w) slot2) (sector_tweak (u32 sector)) in
  exists h, aes_128_xts_nintendo_crypt_sector true slot1 slot2 sector encrypt data data (Z.of_nat (16 * n)) w =
    (Ret (xts_blocks (sector_cipher encrypt (slot_key (w_se w) slot1)) n t data), w <| w_se := h |>) /\ same_tables (w_se w) h.
Proof.
  intros H1 H2 Hn Hl Hd Hb t. destruct (size_blocks n Hn Hl) as [G E].
  assert (Ht : is_block t) by (apply aes_encrypt_block; [apply slot_key_block|apply sector_tweak_block]).
  set (f := sector_cipher encrypt (slot_key (w_se w) slot1)).
  assert (Hf : maps_blocks f) by apply sector_cipher_blocks, slot_key_block.
  destruct (ecb_xts f n t data Hf Ht Hb Hd) as (X1 & X2 & X3 & X4 & X5 & _).
  unfold aes_128_xts_nintendo_crypt_sector. rewrite G.
  destruct (xor_with_tweak_run slot2 sector data data n w H2 Hn Hl Hd X1) as (h1 & R1 & T1). fold t in R1.
  rewrite (run_bind _ _ _ _ _ R1). cbv zeta. rewrite E, !slice_all by lia.
  destruct (bulk_run encrypt slot1 n (xor_blocks n t data) (xor_blocks n t data) (ecb f n (xor_blocks n t data)) (w <| w_se := h1 |>)
    (fun out => aes_128_xts_nintendo_xor_with_tweak slot2 sector (splice (xor_blocks n t data) 0 out)
       (splice (xor_blocks n t data) 0 out) (Z.of_nat (16 * n)))) as (h2 & R2 & T2); [done|done|done|done| |done|].
  { unfold f. by rewrite w_se_update, (same_tables_key _ _ _ T1). }
  rewrite R2, splice_block by lia.
  assert (Ek : slot_key h2 slot2 = slot_key (w_se w) slot2) by (rewrite (same_tables_key _ _ _ T2); apply (same_tables_key _ _ _ T1)).
  destruct (xor_with_tweak_run slot2 sector (ecb f n (xor_blocks n t data)) (ecb f n (xor_blocks n t data)) n
    (w <| w_se := h1 |> <| w_se := h2 |>) H2 Hn Hl X3) as (h3 & R3 & T3).
  { rewrite w_se_update, Ek. fold t. by rewrite X4. }
  rewrite w_se_update, Ek in R3. fold t in R3. rewrite X4 in R3. exists h3. split; [exact R3|].
  etransitivity; [apply T1|]. etransitivity; [apply T2|apply T3].
Qed.

(** The loop over [m] sectors: [outs] is done, [rest] is left. *)
Lemma xts_sectors_run (encrypt : bool) slot1 slot2 n m fuel sector outs rest src w :
  0 <= slot1 < 16 -> 0 <= slot2 < 16 -> (0 < n)%nat -> (m < fuel)%nat -> length rest = (16 * n * m)%nat -> is_bytes rest ->
  drop (length outs) src = rest -> length src = length (outs ++ rest) -> Z.of_nat (length src) < 2 ^ 32 ->
  let f := sector_cipher encrypt (slot_key (w_se w) slot1) in
  let tw := aes_encrypt (slot_key (w_se w) slot2) in
  exists h, xts_sectors fuel true slot1 slot2 sector encrypt (Z.of_nat (length outs)) (outs ++ rest) src
      (Z.of_nat (length src)) (Z.of_nat (16 * n)) w =
    (Ret (outs ++ xts_sector_list f tw n m sector rest), w <| w_se := h |>) /\ same_tables (w_se w) h.
Proof.
  intros H1 H2 Hn. revert fuel sector outs rest w. induction m as [|m IH]; intros fuel sector outs rest w Hf Hr Hb Hd Hs Hl f tw.
  { destruct fuel; [lia|]. destruct rest; [|cbn in Hr; lia]. exists (w_se w). rewrite app_nil_r in *. cbn [xts_sectors xts_sector_list].
    rewrite Hs, (proj2 (Z.ltb_ge _ _)) by lia. cbn [negb]. rewrite app_nil_r. split; [by destruct w|done]. }
  destruct fuel as [|fuel]; [lia|]. cbn [xts_sectors]. rewrite length_app in Hs.
  rewrite (proj2 (Z.ltb_lt _ _)) by nia. cbn [negb]. rewrite length_app, Hs, !(proj2 (Z.leb_le _ _)) by nia. cbn [andb negb].
  assert (Hh : length (take (16 * n) rest) = (16 * n)%nat) by (rewrite length_take; lia).
  assert (S1 : slice (outs ++ rest) (Z.of_nat (length outs)) (Z.of_nat (16 * n)) = take (16 * n) rest)
    by (rewrite slice_app_at by done; by rewrite Nat2Z.id).
  assert (S2 : slice src (Z.of_nat (length outs)) (Z.of_nat (16 * n)) = take (16 * n) rest)
    by (unfold slice; rewrite !Nat2Z.id, Hd; done).
  rewrite S1, S2.
  destruct (crypt_sector_run encrypt slot1 slot2 sector n (take (16 * n) rest) w) as (h1 & R1 & T1); try done; [lia|by apply Forall_take|].
  rewrite (run_bind _ _ _ _ _ R1). fold f tw. cbn zeta in *. set (o := xts_blocks f n _ _).
  assert (Lo : length o = (16 * n)%nat).
  { eapply ecb_xts; [by apply sector_cipher_blocks, slot_key_block| |by apply Forall_take|done].
    apply aes_encrypt_block; [apply slot_key_block|apply sector_tweak_block]. }
  assert (Es : splice (outs ++ rest) (Z.of_nat (length outs)) o = (outs ++ o) ++ drop (16 * n) rest).
  { rewrite <- (take_drop (16 * n) rest) at 1. rewrite splice_app_at by lia. apply app_assoc. }
  rewrite Es. rewrite (u32_id (Z.of_nat (length outs) + Z.of_nat (16 * n))) by (unfold is_u32; nia).
  replace (Z.of_nat (length outs) + Z.of_nat (16 * n)) with (Z.of_nat (length (outs ++ o))) by (rewrite length_app; lia).
  assert (Ek : forall s, slot_key h1 s = slot_key (w_se w) s) by (intros s; by apply same_tables_key).
  replace (Z.of_nat (length outs + length rest)) with (Z.of_nat (length src)) by lia.
  destruct (IH fuel (u32 (sector + 1)) (outs ++ o) (drop (16 * n) rest) (w <| w_se := h1 |>)) as (h2 & R2 & T2);
    [lia|rewrite length_drop; nia|by apply Forall_drop| |rewrite !length_app, length_drop; lia|done|].
  { rewrite length_app, <- drop_drop, Hd, Lo. done. }
  rewrite w_se_update, !Ek in R2. fold f tw in R2. exists h2. split; [|by etransitivity].
  cbn [xts_sector_list]. fold o. rewrite app_assoc, <- (xts_list_u32 f tw n m (sector + 1)). exact R2.
Qed.

(** C7: the boot loader's AES-XTS.  Encrypting [m] sectors in place gives, block
    by block, XTS of the data: the tweak of a sector is its number as a
    big-endian block, encrypted with the second key, and doubled in GF(2^128)
    from block to block.  Decrypting the result with the same slots gives the
    data back, and no key changes. *)
Theorem xts_round_trip slot1 slot2 sector n m data w :
  0 <= slot1 < 16 -> 0 <= slot2 < 16 -> (0 < n)%nat -> (0 < m)%nat ->
  length data = (16 * n * m)%nat -> Z.of_nat (length data) < 2 ^ 32 -> is_bytes data ->
  let size := Z.of_nat (length data) in
  let sector_size := Z.of_nat (16 * n) in
  let cipher := xts_sector_list (aes_encrypt (slot_key (w_se w) slot1)) (aes_encrypt (slot_key (w_se w) slot2)) n m sector data in
  exists w1, se_aes_128_xts_nintendo_encrypt true slot1 slot2 sector data data size sector_size w = (Ret cipher, w1) /\
  exists w2, se_aes_128_xts_nintendo_decrypt true slot1 slot2 sector cipher cipher size sector_size w1 = (Ret data, w2) /\
    same_tables (w_se w) (w_se w2).
Proof.
  intros H1 H2 Hn Hm Hl Hb Hd size ss cipher.
  set (k1 := slot_key (w_se w) slot1) in *. set (k2 := slot_key (w_se w) slot2) in *.
  assert (K1 : is_block k1) by apply slot_key_block. assert (K2 : is_block k2) by apply slot_key_block.
  destruct (xts_sector_list_inverse (aes_encrypt k1) (aes_decrypt k1) (aes_encrypt k2) n m sector data) as (C1 & C2 & C3);
    [by apply (sector_cipher_blocks true)|intros b Hbl; by apply aes_decrypt_encrypt|by apply (sector_cipher_blocks true)|done|done|].
  fold cipher in C1, C2, C3. destruct (size_blocks (n * m)) as [G _]; [nia|lia|].
  replace (Z.of_nat (16 * (n * m))) with size in G by (unfold size; lia).
  unfold se_aes_128_xts_nintendo_encrypt, se_aes_128_xts_nintendo_decrypt. rewrite G.
  destruct (xts_sectors_run true slot1 slot2 n m (S (Z.to_nat size)) sector [] data data w) as (h1 & R1 & T1);
    try done; [unfold size; nia|].
  exists (w <| w_se := h1 |>). split; [exact R1|].
  destruct (xts_sectors_run false slot1 slot2 n m (S (Z.to_nat size)) sector [] cipher cipher (w <| w_se := h1 |>)) as (h2 & R2 & T2);
    try done; [unfold size; nia|by rewrite C2, <- Hl|].
  rewrite w_se_update, !(same_tables_key _ _ _ T1) in R2. cbn [sector_cipher app length] in R2. fold k1 k2 in R2.
  rewrite C3 in R2. exists (w <| w_se := h1 |> <| w_se := h2 |>). replace (Z.of_nat (length cipher)) with size in R2 by (unfold size; lia).
  split; [exact R2|]. by etransitivity.
Qed.

(** With different buffers the engine reads [src], and the first exclusive or is
    lost: the result is not XTS. *)
Theorem xts_out_of_place (encrypt : bool) slot1 slot2 sector n dst src w :
  0 <= slot1 < 16 -> 0 <= slot2 < 16 -> (0 < n)%nat -> Z.of_nat (16 * n) < 2 ^ 32 ->
  length dst = (16 * n)%nat -> length src = (16 * n)%nat -> is_bytes src ->
  let t := aes_encrypt (slot_key (w_se w) slot2) (sector_tweak (u32 sector)) in
  let f := sector_cipher encrypt (slot_key (w_se w) slot1) in
  length (ecb f n src) = (16 * n)%nat -> length (xor_blocks n t (ecb f n src)) = (16 * n)%nat ->
  exists w', aes_128_xts_nintendo_crypt_sector false slot1 slot2 sector encrypt dst src (Z.of_nat (16 * n)) w =
    (Ret (xor_blocks n t (ecb f n src)), w').
Proof.
  intros H1 H2 Hn Hl Hd Hs Hb t f Hf Hx. destruct (size_blocks n Hn Hl) as [G E].
  assert (Ht : is_block t) by (apply aes_encrypt_block; [apply slot_key_block|apply sector_tweak_block]).
  destruct (ecb_xts f n t src (sector_cipher_blocks _ _ (slot_key_block _ _)) Ht Hb Hs) as (X1 & _).
  unfold aes_128_xts_nintendo_crypt_sector. rewrite G.
  destruct (xor_with_tweak_run slot2 sector dst src n w H2 Hn Hl Hd X1) as (h1 & R1 & T1). fold t in R1.
  rewrite (run_bind _ _ _ _ _ R1). cbv zeta. rewrite E, !slice_all by lia.
  destruct (bulk_run encrypt slot1 n (xor_blocks n t src) src (ecb f n src) (w <| w_se := h1 |>)
    (fun out => aes_128_xts_nintendo_xor_with_tweak slot2 sector (splice (xor_blocks n t src) 0 out)
       (splice (xor_blocks n t src) 0 out) (Z.of_nat (16 * n)))) as (h2 & R2 & T2); [done|done|done|done| |done|].
  { unfold f. by rewrite w_se_update, (same_tables_key _ _ _ T1). }
  rewrite R2, splice_block by lia.
  assert (Ek : slot_key h2 slot2 = slot_key (w_se w) slot2) by (rewrite (same_tables_key _ _ _ T2); apply (same_tables_key _ _ _ T1)).
  destruct (xor_with_tweak_run slot2 sector (ecb f n src) (ecb f n src) n (w <| w_se := h1 |> <| w_se := h2 |>) H2 Hn Hl Hf) as (h3 & R3 & _).
  { rewrite w_se_update, Ek. done. }
  rewrite w_se_update, Ek in R3. eexists. exact R3.
Qed.
End Run.

Import Toy.

Lemma xts_round_trip_witness :
  exists w1, se_aes_128_xts_nintendo_encrypt true 5 6 2 (range 64) (range 64) 64 32 (toy_world 8) =
      (Ret (xts_sector_list (aes_encrypt (slot_key (w_se (toy_world 8)) 5)) (aes_encrypt (slot_key (w_se (toy_world 8)) 6)) 2 2 2 (range 64)), w1).
Proof.
  destruct (xts_round_trip 5 6 2 2 2 (range 64) (toy_world 8)) as (w1 & E & _).
  - lia.
  - lia.
  - lia.
  - lia.
  - reflexivity.
  - reflexivity.
  - apply Forall_forall. intros x Hx. apply elem_of_range in Hx. unfold is_u8. lia.
  - exists w1. exact E.
Defined.
