(* ===== verification/FuseeKeyProps.v ===== *)
(** The keys of the boot loader: the key file format of extkeys.c, and the keys
    that key_derivation.c leaves for the monitor. *)
From S2P Require Import Prelude State Utils Se Engine Platform Config Keys Fusee FuseeToy FuseeKeys IniProps.
Import SE ExtKeys.

(** ** Key files *)

(** A key as it is written in a file: which kind, its index, its bytes. *)
Record key_entry := mk_entry { is_root_key : bool; entry_index : Z; entry_key : list Z }.

Definition entry_name (e : key_entry) : list Z :=
  if is_root_key e then tsec_root_key_name (entry_index e) else master_kek_name (entry_index e).
Definition print_hex (bs : list Z) : list Z := bs ≫= fmt_02x.
Definition print_entry (e : key_entry) : list Z := entry_name e ++ str " = " ++ print_hex (entry_key e) ++ [LF].
Definition entry_ok (e : key_entry) : Prop := 0 <= entry_index e < 0x20 /\ is_block (entry_key e).

(** What an entry means for a key set. *)
Definition add_entry (ks : fusee_extkeys_t) (e : key_entry) : fusee_extkeys_t :=
  if is_root_key e then ks <| tsec_root_keys ::= fun l => <[Z.to_nat (entry_index e) := entry_key e]> l |>
  else ks <| master_keks ::= fun l => <[Z.to_nat (entry_index e) := entry_key e]> l |>.

Definition hex_chars : list Z := range 16 ≫= fun n => [hex_lower n].
Lemma hex_byte_table : forallb (fun b => bool_decide (hex_bytes (fmt_02x b) = [b]) && forallb ishex (fmt_02x b)
  && forallb (fun c => bool_decide (c ∈ hex_chars)) (fmt_02x b)) (range 256) = true.
Proof. vm_compute. reflexivity. Qed.

Lemma hex_byte b : is_u8 b -> hex_bytes (fmt_02x b) = [b] /\ forallb ishex (fmt_02x b) = true /\ Forall (fun c => c ∈ hex_chars) (fmt_02x b).
Proof.
  intros Hb. pose proof hex_byte_table as H. rewrite forallb_forall in H. specialize (H b).
  rewrite !andb_true_iff, bool_decide_eq_true in H. destruct H as [[H1 H2] H3]; [apply list_elem_of_In, elem_of_range; apply Hb|].
  split; [done|]. split; [done|]. rewrite forallb_forall in H3. apply Forall_forall. intros c Hc.
  apply (bool_decide_eq_true_1 _ (H3 c (proj1 (list_elem_of_In _ _) Hc))).
Qed.

Lemma hex_round_trip bs : is_bytes bs ->
  hex_bytes (print_hex bs) = bs /\ forallb ishex (print_hex bs) = true /\ length (print_hex bs) = (2 * length bs)%nat /\
  Forall (fun c => c ∈ hex_chars) (print_hex bs).
Proof.
  induction 1 as [|b bs Hb Hbs IH]; [repeat split; constructor|]. destruct IH as (I1 & I2 & I3 & I4).
  destruct (hex_byte b Hb) as (H1 & H2 & H3). unfold print_hex in *. rewrite bind_cons.
  assert (Hl : length (fmt_02x b) = 2%nat) by done. destruct (fmt_02x b) as [|x [|y [|]]]; try done.
  cbn [app hex_bytes forallb length] in *. rewrite I1, I2, I3. injection H1 as ->. rewrite andb_true_r in H2. rewrite andb_assoc, H2.
  split; [done|]. split; [done|]. split; [lia|]. by apply (Forall_app_2 _ [x; y]).
Qed.

(** ** One line *)

(** The characters of the lines [print_entry] writes, but the last. *)
Definition plain_char (c : Z) : bool := negb (c =? LF) && negb (c =? CR) && negb (c =? 0).

Lemma fgets_line_run l rest n : forallb (fun c => negb (c =? LF)) l = true -> (length l < n)%nat ->
  fgets_chars n (l ++ LF :: rest) = (l ++ [LF], rest).
Proof.
  revert n. induction l as [|c l IH]; intros n Hl Hn; (destruct n as [|n]; [cbn in Hn; lia|]); [done|].
  cbn [forallb] in Hl. apply andb_true_iff in Hl as [Hc Hl]. apply negb_true_iff in Hc.
  cbn [app fgets_chars]. rewrite Hc, IH by (try done; cbn in Hn; lia). done.
Qed.

Lemma before_none c l : forallb (fun x => negb (x =? c)) l = true -> before c l = None.
Proof.
  induction l as [|x l IH]; [done|]. cbn [forallb before]. intros [Hx Hl]%andb_true_iff. apply negb_true_iff in Hx.
  rewrite Hx, IH by done. done.
Qed.
Lemma before_found c l rest : forallb (fun x => negb (x =? c)) l = true -> before c (l ++ c :: rest) = Some l.
Proof.
  induction l as [|x l IH]; cbn [forallb app before]; [by rewrite Z.eqb_refl|].
  intros [Hx Hl]%andb_true_iff. apply negb_true_iff in Hx. rewrite Hx, IH by done. done.
Qed.

(** Names: lower-case letters, digits and underscores. *)
Definition key_char (c : Z) : bool := (c =? 0x5F) || ((0x30 <=? c) && (c <=? 0x39)) || ((0x61 <=? c) && (c <=? 0x7A)).
Lemma scan_key_run k rest : forallb key_char k = true -> scan_key (k ++ SPACE :: rest) = Some (k, SPACE, rest).
Proof.
  induction k as [|c k IH]; [done|]. cbn [forallb app scan_key]. intros [Hc Hk]%andb_true_iff.
  assert (Hr : c = 0x5F \/ 0x30 <= c <= 0x39 \/ 0x61 <= c <= 0x7A).
  { unfold key_char in Hc. rewrite !orb_true_iff, !andb_true_iff, Z.eqb_eq, !Z.leb_le in Hc. tauto. }
  unfold is_space, SPACE, TAB, COMMA, EQUALS in *. rewrite !(proj2 (Z.eqb_neq c _)) by lia. cbn [orb].
  replace ((0x41 <=? c) && (c <=? 0x5A)) with false by (symmetry; apply andb_false_iff; rewrite !Z.leb_gt; lia).
  replace (negb (c =? 0x5F) && ((c <? 0x30) || (c >? 0x39)) && ((c <? 0x61) || (c >? 0x7A))) with false.
  - rewrite IH by done. done.
  - symmetry. rewrite !Z.gtb_ltb. destruct (Z.eqb_spec c 0x5F); [done|]. cbn [negb andb]. apply andb_false_iff.
    rewrite !orb_false_iff, !Z.ltb_ge. lia.
Qed.

Lemma names_ok : forallb (fun i => forallb key_char (tsec_root_key_name i) && forallb key_char (master_kek_name i)
  && forallb plain_char (tsec_root_key_name i) && forallb plain_char (master_kek_name i)
  && (length (tsec_root_key_name i) =? 16)%nat && (length (master_kek_name i) =? 13)%nat) (range 0x20) = true.
Proof. vm_compute. reflexivity. Qed.
Lemma hex_chars_ok : forallb (fun c => plain_char c && negb (is_space c)) hex_chars = true.
Proof. vm_compute. reflexivity. Qed.

Lemma entry_name_ok e : entry_ok e ->
  forallb key_char (entry_name e) = true /\ forallb plain_char (entry_name e) = true /\ (13 <= length (entry_name e) <= 16)%nat.
Proof.
  intros [Hi _]. pose proof names_ok as H. rewrite forallb_forall in H. specialize (H (entry_index e)).
  rewrite !andb_true_iff, !Nat.eqb_eq in H. destruct H as [[[[[H1 H2] H3] H4] H5] H6]; [by apply list_elem_of_In, elem_of_range|].
  unfold entry_name. destruct (is_root_key e); [rewrite H5|rewrite H6]; split; try done; split; try done; lia.
Qed.

Lemma hex_plain bs : is_bytes bs -> forallb plain_char (print_hex bs) = true /\ forallb (fun c => negb (is_space c)) (print_hex bs) = true.
Proof.
  intros Hb. destruct (hex_round_trip bs Hb) as (_ & _ & _ & Hc). rewrite Forall_forall in Hc.
  pose proof hex_chars_ok as H. rewrite forallb_forall in H. rewrite !forallb_forall.
  split; intros c Hin%list_elem_of_In%Hc%list_elem_of_In%H; apply andb_true_iff in Hin; apply Hin.
Qed.

Lemma skip_space_id l : match l with c :: _ => is_space c = false | [] => True end -> skip_space l = l.
Proof. destruct l; [done|]. intros H. cbn. by rewrite H. Qed.
Lemma trim_end_id l : forallb (fun c => negb (is_space c)) l = true -> trim_end l = l.
Proof.
  intros H. unfold trim_end. rewrite skip_space_id; [apply rev_involutive|]. destruct (rev l) as [|c r] eqn:E; [done|].
  rewrite forallb_forall in H. apply negb_true_iff, H. rewrite in_rev, E. by left.
Qed.

Lemma plain_no c l : (forall x, plain_char x = true -> (x =? c) = false) -> forallb plain_char l = true ->
  forallb (fun x => negb (x =? c)) l = true.
Proof.
  intros Hc H. rewrite forallb_forall in *. intros x Hx. apply negb_true_iff, Hc, H, Hx.
Qed.
Lemma plain_char_no x : plain_char x = true -> (x =? LF) = false /\ (x =? CR) = false /\ (x =? 0) = false.
Proof. unfold plain_char. rewrite !andb_true_iff, !negb_true_iff. tauto. Qed.

(** The line without its end. *)
Definition entry_text (e : key_entry) : list Z := entry_name e ++ SPACE :: str "= " ++ print_hex (entry_key e).

Lemma entry_text_ok e : entry_ok e -> print_entry e = entry_text e ++ [LF] /\ forallb plain_char (entry_text e) = true /\
  (length (entry_text e) < 1023)%nat.
Proof.
  intros He. pose proof He as [Hi [Hl Hb]]. destruct (entry_name_ok e He) as (N1 & N2 & N3).
  destruct (hex_plain _ Hb) as [P1 P2], (hex_round_trip _ Hb) as (_ & _ & L & _).
  split; [unfold print_entry, entry_text; rewrite <- app_assoc; done|]. unfold entry_text. split.
  - rewrite !forallb_app, N2. cbn [forallb str]. rewrite !forallb_app, P1. reflexivity.
  - rewrite !length_app. cbn [length]. rewrite length_app, L, Hl. change (length (str "= ")) with 2%nat. lia.
Qed.

Lemma get_kv_entry e rest : entry_ok e -> get_kv (print_entry e ++ rest) = (KvPair (entry_name e) (print_hex (entry_key e)), rest).
Proof.
  intros He. destruct (entry_text_ok e He) as (Et & Ep & El). pose proof He as [Hi [Hl Hb]].
  destruct (entry_name_ok e He) as (N1 & N2 & N3), (hex_plain _ Hb) as [P1 P2], (hex_round_trip _ Hb) as (_ & _ & L & _).
  rewrite Et, <- app_assoc. cbn [app]. unfold get_kv, fgets_line.
  destruct (entry_text e ++ LF :: rest) eqn:E0; [by destruct (entry_text e)|]. rewrite <- E0. clear E0.
  rewrite fgets_line_run; [|by apply plain_no; [intros x Hx; apply (plain_char_no x Hx)|]|change (Z.to_nat (1024 - 1)) with 1023%nat; lia].
  f_equal. assert (Hp0 : before 0 (entry_text e ++ [LF]) = None).
  { apply before_none. rewrite forallb_app. apply andb_true_iff. split; [|done].
    apply plain_no; [intros x Hx; apply (plain_char_no x Hx)|done]. }
  assert (Hpr : before CR (entry_text e ++ [LF]) = None).
  { apply before_none. rewrite forallb_app. apply andb_true_iff. split; [|done].
    apply plain_no; [intros x Hx; apply (plain_char_no x Hx)|done]. }
  assert (Hpl : before LF (entry_text e ++ [LF]) = Some (entry_text e)).
  { apply before_found, plain_no; [intros x Hx; apply (plain_char_no x Hx)|done]. }
  unfold c_string. rewrite Hp0. cbn [default from_option id]. unfold parse_line. rewrite Hpr, Hpl.
  assert (Hn : exists c r, entry_name e = c :: r) by (destruct (entry_name e); [cbn in N3; lia|by eexists _, _]).
  destruct Hn as (c & r & En).
  assert (Hc : plain_char c = true /\ key_char c = true).
  { rewrite En in N1, N2. cbn [forallb] in N1, N2. apply andb_true_iff in N1, N2. tauto. }
  destruct Hc as [Hc1 Hc2]. destruct (plain_char_no c Hc1) as (C1 & C2 & _).
  unfold entry_text at 1. rewrite En. cbn [app]. rewrite C1, C2. cbn [orb]. rewrite <- En.
  assert (Hsk : is_space c = false).
  { unfold key_char in Hc2. rewrite !orb_true_iff, !andb_true_iff, Z.eqb_eq, !Z.leb_le in Hc2.
    unfold is_space, SPACE, TAB. rewrite !(proj2 (Z.eqb_neq _ _)) by lia. done. }
  rewrite (skip_space_id (entry_text e)) by (unfold entry_text; rewrite En; exact Hsk).
  unfold entry_text. rewrite scan_key_run by done. change ((SPACE =? EQUALS) || (SPACE =? COMMA)) with false. cbv iota.
  change (skip_space (str "= " ++ print_hex (entry_key e))) with (EQUALS :: SPACE :: print_hex (entry_key e)).
  change (negb (EQUALS =? EQUALS) && negb (EQUALS =? COMMA)) with false. cbv iota. rewrite En at 1. cbv zeta.
  change (skip_space (SPACE :: print_hex (entry_key e))) with (skip_space (print_hex (entry_key e))).
  assert (Hh : skip_space (print_hex (entry_key e)) = print_hex (entry_key e)).
  { apply skip_space_id. destruct (print_hex (entry_key e)); [done|]. cbn [forallb] in P2.
    apply andb_true_iff in P2 as [P2 _]. by apply negb_true_iff in P2. }
  by rewrite Hh, trim_end_id, En.
Qed.

Lemma match_names i v ks : 0 <= i < 0x20 ->
  match_key (range 0x20) (tsec_root_key_name i) v ks =
    (k ← parse_hex_key v 0x10; Ok (ks <| tsec_root_keys ::= fun l => <[Z.to_nat i := k]> l |>)) /\
  match_key (range 0x20) (master_kek_name i) v ks =
    (k ← parse_hex_key v 0x10; Ok (ks <| master_keks ::= fun l => <[Z.to_nat i := k]> l |>)).
Proof.
  intros Hi. apply elem_of_range in Hi. change (range 0x20) with (seqZ 0 32) in Hi at 1. vm_compute in Hi.
  repeat (apply elem_of_cons in Hi as [->|Hi]; [split; reflexivity|]). by apply elem_of_nil in Hi.
Qed.

Lemma match_key_entry e ks : entry_ok e -> match_key (range 0x20) (entry_name e) (print_hex (entry_key e)) ks = Ok (add_entry ks e).
Proof.
  intros [Hi [Hl Hb]]. destruct (hex_round_trip _ Hb) as (H1 & H2 & H3 & _).
  assert (E : parse_hex_key (print_hex (entry_key e)) 0x10 = Ok (entry_key e)).
  { unfold parse_hex_key. rewrite H3, Hl, H2, H1. done. }
  destruct (match_names (entry_index e) (print_hex (entry_key e)) ks Hi) as [M1 M2]. unfold entry_name, add_entry.
  destruct (is_root_key e); [rewrite M1, E|rewrite M2, E]; done.
Qed.

Lemma keyset_loop_run es : Forall entry_ok es -> forall fuel ks, (length es < fuel)%nat ->
  keyset_loop fuel ks (es ≫= print_entry) = Ok (foldl add_entry ks es).
Proof.
  induction 1 as [|e es He Hes IH]; intros fuel ks Hf; (destruct fuel as [|fuel]; [cbn in Hf; lia|]); [done|].
  rewrite bind_cons. cbn [keyset_loop foldl]. rewrite get_kv_entry, match_key_entry by done. cbn [mbind res_bind].
  apply IH. cbn in Hf. lia.
Qed.

(** The key file round trip.  Whatever keys are written to a key file, one
    line for each (name, equals sign, the key in hexadecimal), parsing the file
    gives exactly those keys at their indices, a later line overriding an
    earlier one. *)
Theorem key_file_round_trip es ks :
  Forall entry_ok es -> extkeys_initialize_keyset ks (es ≫= print_entry) = Ok (foldl add_entry ks es).
Proof.
  intros Hes. apply keyset_loop_run; [done|]. apply Nat.lt_succ_r.
  clear ks. induction Hes as [|e es He Hes IH]; [done|]. rewrite bind_cons, length_app. cbn [length].
  destruct (entry_text_ok e He) as (-> & _). rewrite length_app. cbn [length]. lia.
Qed.

Definition sample_entries : list key_entry := [mk_entry true 0 (range 16); mk_entry false 7 (replicate 16 0xAB)].
Lemma key_file_round_trip_witness :
  extkeys_initialize_keyset (mk_extkeys (replicate 32 (zeros 16)) (replicate 32 (zeros 16))) (sample_entries ≫= print_entry) =
  Ok (mk_extkeys (<[0%nat := range 16]> (replicate 32 (zeros 16))) (<[7%nat := replicate 16 0xAB]> (replicate 32 (zeros 16)))).
Proof.
  apply (key_file_round_trip sample_entries). unfold sample_entries.
  constructor; [|constructor; [|done]]; (split; [cbn; lia|]); (split; [reflexivity|]); by repeat constructor.
Defined.

(** The last line of a file without a newline keeps its trailing spaces, and the
    boot stops: the value is not a key any more. *)
Theorem unterminated_line_not_trimmed :
  extkeys_initialize_keyset (mk_extkeys [] []) (entry_text (mk_entry true 0 (range 16)) ++ [SPACE; LF]) =
    Ok (mk_extkeys [] []) /\
  extkeys_initialize_keyset (mk_extkeys [] []) (entry_text (mk_entry true 0 (range 16)) ++ [SPACE]) = Stop Fatal.
Proof. split; vm_compute; reflexivity. Qed.

(** ** Keys for the monitor *)

Import KeyDerivation.

Section Derive.
Context {soc : SoC} {HC : CryptoEngine soc}.

Lemma fusee_decrypt_eq dst src key n : src < 16 ->
  FuseeSe.decrypt_data_into_keyslot dst src key n = decrypt_data_into_keyslot dst src key n.
Proof.
  intros Hs. unfold FuseeSe.decrypt_data_into_keyslot, decrypt_data_into_keyslot, KEYSLOT_AES_MAX, KEYSIZE_AES_MAX.
  rewrite !Z.geb_leb, !(proj2 (Z.leb_gt _ src)) by lia. done.
Qed.

Definition slot_keys (w : FWorld) : Z -> list Z := slot_key (w_se (f_hw w)).
Definition set_key (k : Z -> list Z) (dst : Z) (key : list Z) : Z -> list Z := fun s => if s =? dst then key else k s.
(** The keys of the slots are those of [k]. *)
Definition holds_keys (w : FWorld) (k : Z -> list Z) : Prop := forall s, 0 <= s < 16 -> slot_keys w s = k s.

Lemma decrypt_step dst src seed w k :
  0 <= src < 16 -> 0 <= dst < 16 -> is_block seed -> holds_keys w k ->
  exists w', hw (FuseeSe.decrypt_data_into_keyslot dst src seed 0x10) w = (Ok tt, w') /\
    holds_keys w' (set_key k dst (aes_decrypt (k src) seed)).
Proof.
  intros Hs Hd Hb Hk. rewrite fusee_decrypt_eq by lia.
  destruct (decrypt_into_run dst src seed (f_hw w) Hs Hd Hb) as (h & E & Hl & Hr).
  eexists. split; [exact (frun_hw _ _ _ _ E)|]. intros s H. unfold slot_keys, set_key. cbn. destruct (Z.eqb_spec s dst) as [->|Hn].
  - rewrite Hl. by rewrite <- (Hk src Hs).
  - rewrite Hr by done. by apply Hk.
Qed.

(** The keys the monitor finds: the master key in slot 0xC; before 4.0.0 the
    device key in 0xD; since then the old device key in 0xF, the key for new
    console keys in 0xE, and the key for new device keys in 0xD (4.x) or 0xA. *)
Definition handover_keys (target_firmware : Z) (k : Z -> list Z) (s : Z) : list Z :=
  if s =? KEYSLOT_SWITCH_MASTERKEY then aes_decrypt (k 0xC) masterkey_seed
  else if target_firmware <=? ATMOSPHERE_TARGET_FIRMWARE_300
  then (if s =? KEYSLOT_SWITCH_DEVICEKEY then aes_decrypt (k 0xF) devicekey_seed else k s)
  else if s =? KEYSLOT_SWITCH_4XOLDDEVICEKEY then aes_decrypt (k 0xF) devicekey_seed
  else if s =? 0xE then aes_decrypt (k 0xC) masterkey_4x_seed
  else if s =? (if target_firmware =? ATMOSPHERE_TARGET_FIRMWARE_400 then KEYSLOT_SWITCH_4XNEWDEVICEKEYGENKEY
                else KEYSLOT_SWITCH_5XNEWDEVICEKEYGENKEY)
  then aes_decrypt (k 0xF) devicekey_4x_seed
  else k s.

Ltac decrypt_next dst src B K w' K' :=
  destruct (decrypt_step dst src _ _ _ ltac:(lia) ltac:(lia) B K) as (w' & ?E & K'); rewrite (frun_bind _ _ _ _ _ E); clear E.
Ltac seed_block := split; [reflexivity|by repeat constructor].

End Derive.

Import Toy.

(** [new_master_kek_seeds] has no entry for the master keys of 8.1.0 and 9.0.0:
    a TSEC root key for them makes the loop read past the array. *)
Theorem kek_seed_out_of_bounds {soc : SoC} rev key w :
  FuseeMasterKey.MASTERKEY_REVISION_810 <= rev < MASTERKEY_REVISION_MAX ->
  exists w', kek_from_root_key rev key w = (Stop BadAccess, w').
Proof.
  intros Hr. unfold FuseeMasterKey.MASTERKEY_REVISION_810, MASTERKEY_REVISION_MAX in Hr. unfold kek_from_root_key.
  assert (E : new_master_kek_seeds !! Z.to_nat (rev - FuseeMasterKey.MASTERKEY_REVISION_620) = None).
  { apply lookup_ge_None. unfold FuseeMasterKey.MASTERKEY_REVISION_620. cbn [length new_master_kek_seeds]. lia. }
  rewrite E. unfold set_aes_keyslot. cbn. eexists. reflexivity.
Qed.
