(* ===== verification/Storage.v ===== *)
(** The storage stack of fusee-secondary: the partition drivers and ciphers of
    nxfs.c, the sector access of device_partition.c, and the byte access of
    raw_dev.c and emu_dev.c on top of it.

    The card driver (sdmmc/), FatFs and newlib are parameters, collected in the
    class [Storage]: they decide which operation succeeds.  A transfer that
    succeeds moves the bytes of the card; one that fails moves nothing.  A
    function that fills a buffer takes the block the pointer points to and
    returns it changed; an access outside the block stops with [BadAccess].  A
    partition passed by pointer is returned with its changes. *)
From S2P Require Import Prelude State Utils Se Devices Fusee FuseeKeys.
Import SE FuseeSe.

(** ** Error numbers of newlib *)

Definition ENOENT := 2.
Definition EIO := 5.
Definition ENOMEM := 12.
Definition EEXIST := 17.
Definition EINVAL := 22.
Definition ENAMETOOLONG := 91.
Definition ENOTSUP := 134.
Definition EILSEQ := 138.

Definition SDMMC_PARTITION_INVALID := -1.
Definition SDMMC_PARTITION_USER := 0.
Definition SDMMC_PARTITION_BOOT0 := 1.
Definition SDMMC_PARTITION_BOOT1 := 2.

Class Storage := {
  sd_init_ok : bool;
  mmc_init_ok : bool;
  select_ok : Z -> bool;
  (* device, read or write, first sector, number of sectors *)
  transfer_ok : sdmmc_device -> bool -> Z -> Z -> bool;
  (* what an allocated block holds at first *)
  fresh_byte : Z -> Z;
  (* how many devices newlib's table takes *)
  devoptab_room : Z;
  (* where a file of a size stands after a seek to a negative offset *)
  seek_negative : Z -> Z -> Z;
  (* what FatFs leaves between the end of a file and a later write *)
  gap_byte : Z -> Z;
  f_mount_result : list Z -> bool -> Z;
  f_unmount_result : list Z -> Z;
  f_chdrive_result : list Z -> Z;
  volume_is_exfat : list Z -> bool;
  (* the attributes of a file, or the error *)
  f_stat_result : list Z -> Z + Z;
  f_chmod_result : list Z -> Z -> Z -> Z }.

(** ** The state *)

#[global] Abbreviation fret a := (@mret F F_ret _ a) (only parsing).

Definition dget {A} (f : storage_state -> A) : F A := fgets (fun w => f (f_dev w)).
Definition dset (f : storage_state -> storage_state) : F unit := fmodify (fun w => w <| f_dev ::= f |>).
Lemma frun_dget {A B} (g : storage_state -> A) (f : A -> F B) w : (dget g ≫= f) w = f (g (f_dev w)) w.
Proof. done. Qed.
Lemma frun_dset {B} (g : storage_state -> storage_state) (f : unit -> F B) w : (dset g ≫= f) w = f tt (w <| f_dev ::= g |>).
Proof. done. Qed.
Definition set_errno (e : Z) : F unit := dset (fun s => s <| errno := e |>).

(** [long] and [off_t] are 32 bits wide. *)
Definition s32 (x : Z) : Z := if u32 x <? 2 ^ 31 then u32 x else u32 x - 2 ^ 32.

(** The bytes from [a] on of a card, and a card with bytes written. *)
Definition card_read (card : Z -> Z) (a n : Z) : list Z := map card (seqZ a n).
Definition card_write (card : Z -> Z) (a : Z) (data : list Z) : Z -> Z := fun b =>
  if (a <=? b) && (b <? a + Z.of_nat (length data)) then byte_at data (b - a) else card b.

(** ** nxfs.c: drivers and ciphers *)

Module NxfsDriver.

Definition g_sd_mmcpart : mmc_partition_info_t := mk_mmcpart g_sd_device 0 SDMMC_PARTITION_USER.
Definition g_emmc_boot0_mmcpart : mmc_partition_info_t := mk_mmcpart g_emmc_device 3 SDMMC_PARTITION_BOOT0.
Definition g_emmc_boot1_mmcpart : mmc_partition_info_t := mk_mmcpart g_emmc_device 3 SDMMC_PARTITION_BOOT1.
Definition g_emmc_user_mmcpart : mmc_partition_info_t := mk_mmcpart g_emmc_device 3 SDMMC_PARTITION_USER.

Section Ops.
Context {soc : SoC} {card : Card} {sto : Storage}.

Definition allocated (n : Z) : list Z := map fresh_byte (range n).

(** mc.c *)
Definition MC_IRAM_BOM_PA := 0x7001965C.
Definition MC_IRAM_TOM_PA := 0x70019660.
Definition LVL2_CLK_GATE_OVRD_PA := 0x600063A4.
Definition mc_enable_ahb_redirect : M unit :=
  reg_update LVL2_CLK_GATE_OVRD_PA (fun v => (v .& 0xFFF7FFFF) .| 0x80000) ;;
  reg_write MC_IRAM_BOM_PA 0x40000000 ;;
  reg_write MC_IRAM_TOM_PA 0x4003F000.
Definition mc_disable_ahb_redirect : M unit :=
  reg_write MC_IRAM_BOM_PA 0xFFFFF000 ;;
  reg_write MC_IRAM_TOM_PA 0 ;;
  reg_update LVL2_CLK_GATE_OVRD_PA (fun v => v .& 0xFFF7FFFF).

(** The card driver: a transfer uses the part of the eMMC that is selected, which
    is the user area after the reset that its initialisation does. *)
Definition card_bytes (dev : sdmmc_device) : F (Z -> Z) :=
  match dev with
  | g_sd_device => dget sd_bytes
  | g_emmc_device => dget (fun s => emmc_bytes s (emmc_selected s))
  end.
Definition sdmmc_device_read (dev : sdmmc_device) (sector num : Z) : F (option (list Z)) :=
  bytes ← card_bytes dev;
  fret (if transfer_ok dev true sector num then Some (card_read bytes (512 * sector) (512 * num)) else None).
Definition sdmmc_device_write (dev : sdmmc_device) (sector num : Z) (data : list Z) : F bool :=
  if transfer_ok dev false sector num
  then dset (fun s => match dev with
         | g_sd_device => s <| sd_bytes := card_write (sd_bytes s) (512 * sector) data |>
         | g_emmc_device => s <| emmc_bytes ::= fun f p => if p =? emmc_selected s then card_write (f p) (512 * sector) data else f p |>
         end) ;; fret true
  else fret false.
Definition sdmmc_mmc_select_partition (partition : Z) : F bool :=
  if select_ok partition then dset (fun s => s <| emmc_selected := partition |>) ;; fret true else fret false.

(** The allocation both initializers start with. *)
Definition alloc_crypto_work_buffer (dp : device_partition_t) : Z * device_partition_t :=
  match read_cipher dp, write_cipher dp with
  | None, None => (0, dp <| crypto_work_buffer := None |> <| crypto_work_buffer_num_sectors := 0 |>)
  | _, _ =>
      let n := u32 (sector_size dp * 16) in
      if heap_has n
      then (0, dp <| crypto_work_buffer := Some (allocated n) |> <| crypto_work_buffer_num_sectors := n |>)
      else (ENOMEM, dp <| crypto_work_buffer := None |>)
  end.

Definition mmc_partition_initialize (dp : device_partition_t) : F (Z * device_partition_t) :=
  let '(rc, dp) := alloc_crypto_work_buffer dp in
  if negb (rc =? 0) then fret (rc, dp) else
  redirect ← dget g_ahb_redirect_enabled;
  (if negb redirect then hw mc_enable_ahb_redirect ;; dset (fun s => s <| g_ahb_redirect_enabled := true |>)
   else fret tt) ;;
  match device_struct dp return F (Z * device_partition_t) with
  | None => stopped BadAccess
  | Some mmcpart =>
      match mmcpart_device mmcpart with
      | g_sd_device =>
          ready ← dget g_sd_device_initialized;
          if negb ready && negb sd_init_ok then fret (EIO, dp)
          else dset (fun s => s <| g_sd_device_initialized := true |>) ;; fret (0, dp <| initialized := true |>)
      | g_emmc_device =>
          ready ← dget g_emmc_device_initialized;
          if negb ready && negb mmc_init_ok then fret (EIO, dp)
          else dset (fun s => s <| g_emmc_device_initialized := true |>
                 <| emmc_selected := if ready then emmc_selected s else SDMMC_PARTITION_USER |>) ;;
               fret (0, dp <| initialized := true |>)
      end
  end.

(** The freed buffer is not cleared in the partition. *)
Definition mmc_partition_finalize (dp : device_partition_t) : F device_partition_t :=
  match device_struct dp with
  | None => stopped BadAccess
  | Some mmcpart =>
      emummc ← dget g_is_emummc;
      if bool_decide (mmcpart_device mmcpart = g_sd_device) && emummc then fret dp else
      (match mmcpart_device mmcpart with
       | g_sd_device => dset (fun s => s <| g_sd_device_initialized := false |>)
       | g_emmc_device => dset (fun s => s <| g_emmc_device_initialized := false |>)
       end) ;;
      redirect ← dget g_ahb_redirect_enabled;
      (if redirect : bool then hw mc_disable_ahb_redirect ;; dset (fun s => s <| g_ahb_redirect_enabled := false |>)
       else fret tt) ;;
      fret (dp <| initialized := false |>)
  end.

(** Selects the part of the eMMC a partition is in; [false] on an error. *)
Definition select_mmcpart (mmcpart : mmc_partition_info_t) : F bool :=
  current ← dget g_current_emmc_partition;
  if bool_decide (mmcpart_device mmcpart = g_emmc_device) && negb (current =? mmcpart_partition mmcpart)
  then ok ← sdmmc_mmc_select_partition (mmcpart_partition mmcpart);
       if ok : bool then dset (fun s => s <| g_current_emmc_partition := mmcpart_partition mmcpart |>) ;; fret true
       else fret false
  else fret true.

(** The destination is the block [dst] from [ofs] on. *)
Definition mmc_partition_read (dp : device_partition_t) (dst : list Z) (ofs sector num : Z) : F (Z * list Z) :=
  match device_struct dp with
  | None => stopped BadAccess
  | Some mmcpart =>
      ok ← select_mmcpart mmcpart;
      if negb ok then fret (EIO, dst) else
      data ← sdmmc_device_read (mmcpart_device mmcpart) (u32 (start_sector dp + sector)) (u32 num);
      match data with
      | Some data => dst ← heap (store_at dst ofs data); fret (0, dst)
      | None => fret (EIO, dst)
      end
  end.

Definition mmc_partition_write (dp : device_partition_t) (src : list Z) (ofs sector num : Z) : F Z :=
  match device_struct dp with
  | None => stopped BadAccess
  | Some mmcpart =>
      ok ← select_mmcpart mmcpart;
      if negb ok then fret EIO else
      data ← heap (load_at src ofs (512 * u32 num));
      ok ← sdmmc_device_write (mmcpart_device mmcpart) (u32 (start_sector dp + sector)) (u32 num) data;
      fret (if ok : bool then 0 else EIO)
  end.

Definition emummc_partition_initialize (dp : device_partition_t) : F (Z * device_partition_t) :=
  let '(rc, dp) := alloc_crypto_work_buffer dp in
  if negb (rc =? 0) then fret (rc, dp) else fret (0, dp <| initialized := true |>).
Definition emummc_partition_finalize (dp : device_partition_t) : F device_partition_t := fret dp.

(** The backing file of an emulated partition. *)
Definition file_lookup (path : list Z) : F (option (list Z)) :=
  written ← dget written_files;
  fret (match list_find (fun e => fst e = path) written with Some (_, (_, c)) => Some c | None => sd_file path end).
(** [fseek(f, off, SEEK_CUR)] on a file just opened for reading. *)
Definition seek_position (size off : Z) : Z :=
  if s32 off <? 0 then seek_negative size (s32 off) else Z.min (s32 off) size.

Definition emummc_partition_read (dp : device_partition_t) (dst : list Z) (ofs sector num : Z) : F (Z * list Z) :=
  if emu_use_file dp
  then match emu_file_path dp with
       | None => stopped BadAccess
       | Some path =>
           file ← file_lookup path;
           match file with
           | None => stopped BadAccess
           | Some content =>
               let pos := seek_position (Z.of_nat (length content)) (u64 (u64 (start_sector dp + sector) * sector_size dp)) in
               let data := slice content pos (sector_size dp * u32 num) in
               dst ← heap (store_at dst ofs data);
               fret (if Z.of_nat (length data) / sector_size dp >? 0 then 0 else -1, dst)
           end
       end
  else data ← sdmmc_device_read g_sd_device (u32 (start_sector dp + sector)) (u32 num);
       match data with
       | Some data => dst ← heap (store_at dst ofs data); fret (0, dst)
       | None => fret (EIO, dst)
       end.

(** The mode wb empties the file first; a positive seek extends it. *)
Definition emummc_partition_write (dp : device_partition_t) (src : list Z) (ofs sector num : Z) : F Z :=
  if emu_use_file dp
  then match emu_file_path dp with
       | None => stopped BadAccess
       | Some path =>
           let off := u64 (u64 (start_sector dp + sector) * sector_size dp) in
           let pos := if s32 off <? 0 then seek_negative 0 (s32 off) else s32 off in
           data ← heap (load_at src ofs (sector_size dp * u32 num));
           dset (fun s => s <| written_files ::= cons (path, map gap_byte (range pos) ++ data) |>) ;;
           fret (if u32 num >? 0 then 0 else -1)
       end
  else data ← heap (load_at src ofs (512 * u32 num));
       ok ← sdmmc_device_write g_sd_device (u32 (start_sector dp + sector)) (u32 num) data;
       fret (if ok : bool then 0 else EIO).

(** Both ciphers work in place, on the first [size] bytes of the work buffer. *)
Definition keyslot_a := 4.
Definition keyslot_b := 5.
Definition in_work_buffer (dp : device_partition_t) (size : Z) (m : list Z -> F (list Z)) : F (Z * device_partition_t) :=
  match crypto_work_buffer dp with
  | None => stopped BadAccess
  | Some buf =>
      data ← heap (load_at buf 0 size);
      data ← m data;
      fret (0, dp <| crypto_work_buffer := Some (splice buf 0 data) |>)
  end.
Definition nxfs_bis_crypt (encrypt : bool) (dp : device_partition_t) (sector num : Z) : F (Z * device_partition_t) :=
  let size := u32 (num * sector_size dp) in
  let key i := nth i (devpart_keys dp) [] in
  match crypto_mode dp with
  | DevicePartitionCryptoMode_None => fret (0, dp)
  | DevicePartitionCryptoMode_Ctr =>
      hw (set_aes_keyslot keyslot_a (key 0%nat) 0x10) ;;
      in_work_buffer dp size (fun data => hw (se_aes_ctr_crypt keyslot_a data size data size (devpart_iv dp) 0x10))
  | DevicePartitionCryptoMode_Xts =>
      hw (set_aes_keyslot keyslot_a (key 0%nat) 0x10) ;;
      hw (set_aes_keyslot keyslot_b (key 1%nat) 0x10) ;;
      in_work_buffer dp size (fun data => hw (
        if encrypt then se_aes_128_xts_nintendo_encrypt true keyslot_a keyslot_b (u32 sector) data data size (sector_size dp)
        else se_aes_128_xts_nintendo_decrypt true keyslot_a keyslot_b (u32 sector) data data size (sector_size dp)))
  end.
Definition nxfs_bis_crypto_decrypt := nxfs_bis_crypt false.
Definition nxfs_bis_crypto_encrypt := nxfs_bis_crypt true.

Definition g_mmc_devpart_template : device_partition_t := no_devpart <| sector_size := 512 |> <| driver := mmc_partition |>.
Definition g_emummc_devpart_template : device_partition_t := no_devpart <| sector_size := 512 |> <| driver := emummc_partition |>.

(** The calls through the function pointers. *)
Definition initializer (dp : device_partition_t) : F (Z * device_partition_t) :=
  match driver dp with mmc_partition => mmc_partition_initialize dp | emummc_partition => emummc_partition_initialize dp end.
Definition finalizer (dp : device_partition_t) : F device_partition_t :=
  match driver dp with mmc_partition => mmc_partition_finalize dp | emummc_partition => emummc_partition_finalize dp end.
Definition reader (dp : device_partition_t) : list Z -> Z -> Z -> Z -> F (Z * list Z) :=
  match driver dp with mmc_partition => mmc_partition_read dp | emummc_partition => emummc_partition_read dp end.
Definition writer (dp : device_partition_t) : list Z -> Z -> Z -> Z -> F Z :=
  match driver dp with mmc_partition => mmc_partition_write dp | emummc_partition => emummc_partition_write dp end.
Definition call_cipher (c : device_partition_cipher_t) : device_partition_t -> Z -> Z -> F (Z * device_partition_t) :=
  match c with nxfs_bis_crypto_decrypt_fn => nxfs_bis_crypto_decrypt | nxfs_bis_crypto_encrypt_fn => nxfs_bis_crypto_encrypt end.
End Ops.
End NxfsDriver.

(** ** device_partition.c *)

Module DevicePartition.
Import NxfsDriver.

(** The decimal digits of a number, at least [width] of them. *)
Fixpoint digits (fuel width : nat) (n : Z) (acc : list Z) : list Z :=
  match fuel with
  | O => acc
  | S fuel => if (n =? 0) && bool_decide (width = 0%nat) then acc
              else digits fuel (width - 1) (n / 10) (48 + n mod 10 :: acc)
  end.
(** [%02d] *)
Definition format_02d (n : Z) : list Z := if n <? 0 then 45 :: digits 11 1 (- n) [] else digits 11 2 n [].

Section Ops.
Context {soc : SoC} {card : Card} {sto : Storage}.

Definition ensure_initialized (dp : device_partition_t) : F (Z * device_partition_t) :=
  if initialized dp then fret (0, dp) else initializer dp.

(** How many sectors the round from [i] on takes. *)
Definition round_sectors (dp : device_partition_t) (i num : Z) : Z :=
  if u64 (i + crypto_work_buffer_num_sectors dp) >? num then num - i else crypto_work_buffer_num_sectors dp.

(** The loop over the work buffer; a round moves at least one sector unless the
    buffer is empty, and then the loop does not end. *)
Fixpoint read_loop (fuel : nat) (dp : device_partition_t) (c : device_partition_cipher_t)
    (dst : list Z) (ofs sector num i : Z) : F (Z * device_partition_t * list Z) :=
  match fuel with
  | O => stopped Hangs
  | S fuel =>
      if negb (i <? num) then fret (0, dp, dst) else
      let n := round_sectors dp i num in
      match crypto_work_buffer dp with
      | None => stopped BadAccess
      | Some buf =>
          '(rc, buf) ← reader dp buf 0 (u64 (sector + i)) n;
          let dp := dp <| crypto_work_buffer := Some buf |> in
          if negb (rc =? 0) then fret (rc, dp, dst) else
          '(rc, dp) ← call_cipher c dp (u64 (sector + i)) n;
          if negb (rc =? 0) then fret (rc, dp, dst) else
          data ← heap (load_at (default [] (crypto_work_buffer dp)) 0 (u32 (sector_size dp * n)));
          dst ← heap (store_at dst (ofs + u32 (sector_size dp * i)) data);
          read_loop fuel dp c dst ofs sector num (u64 (i + crypto_work_buffer_num_sectors dp))
      end
  end.

Fixpoint write_loop (fuel : nat) (dp : device_partition_t) (c : device_partition_cipher_t)
    (src : list Z) (ofs sector num i : Z) : F (Z * device_partition_t) :=
  match fuel with
  | O => stopped Hangs
  | S fuel =>
      if negb (i <? num) then fret (0, dp) else
      let n := round_sectors dp i num in
      match crypto_work_buffer dp with
      | None => stopped BadAccess
      | Some buf =>
          data ← heap (load_at src (ofs + u32 (sector_size dp * i)) (u32 (sector_size dp * n)));
          buf ← heap (store_at buf 0 data);
          '(rc, dp) ← call_cipher c (dp <| crypto_work_buffer := Some buf |>) (u64 (sector + i)) n;
          if negb (rc =? 0) then fret (rc, dp) else
          rc ← writer dp (default [] (crypto_work_buffer dp)) 0 (u64 (sector + i)) n;
          if negb (rc =? 0) then fret (rc, dp) else
          write_loop fuel dp c src ofs sector num (u64 (i + crypto_work_buffer_num_sectors dp))
      end
  end.

(** The cipher of a mode that has one. *)
Definition active_cipher (c : option device_partition_cipher_t) (dp : device_partition_t) : option device_partition_cipher_t :=
  match crypto_mode dp with DevicePartitionCryptoMode_None => None | _ => c end.

Definition read_sectors (dp : device_partition_t) (dst : list Z) (ofs sector num : Z) : F (Z * device_partition_t * list Z) :=
  match active_cipher (read_cipher dp) dp with
  | Some c => read_loop (S (Z.to_nat num)) dp c dst ofs sector num 0
  | None => '(rc, dst) ← reader dp dst ofs sector num; fret (rc, dp, dst)
  end.
Definition write_sectors (dp : device_partition_t) (src : list Z) (ofs sector num : Z) : F (Z * device_partition_t) :=
  match active_cipher (write_cipher dp) dp with
  | Some c => write_loop (S (Z.to_nat num)) dp c src ofs sector num 0
  | None => rc ← writer dp src ofs sector num; fret (rc, dp)
  end.

Definition device_partition_read_data (dp : device_partition_t) (dst : list Z) (ofs sector num : Z)
    : F (Z * device_partition_t * list Z) :=
  '(rc, dp) ← ensure_initialized dp;
  if negb (rc =? 0) then fret (rc, dp, dst) else read_sectors dp dst ofs sector num.
Definition device_partition_write_data (dp : device_partition_t) (src : list Z) (ofs sector num : Z)
    : F (Z * device_partition_t) :=
  '(rc, dp) ← ensure_initialized dp;
  if negb (rc =? 0) then fret (rc, dp) else write_sectors dp src ofs sector num.

(** Which part of a split image an offset at or past the first limit is in; the
    result is an [int]. *)
Definition target_part (data_offset part_limit : Z) : Z :=
  let data_offset_aligned := u64 (data_offset + u64 (part_limit - 1)) .& not64 (u64 (part_limit - 1)) in
  if data_offset_aligned =? data_offset then s32 (data_offset / part_limit)
  else s32 (data_offset_aligned / part_limit - 1).

(** The sector in the file and the partition with the path of the file, or
    [None] for a part that does not exist.  Both paths fit their buffer of 0x301
    bytes. *)
Definition emu_target (dp : device_partition_t) (sector : Z) (origin_path : list Z) (num_parts part_limit : Z)
    : option (Z * device_partition_t) :=
  if negb (emu_use_file dp) then Some (sector, dp) else
  if num_parts >? 0
  then let data_offset := u64 (sector * sector_size dp) in
       let path part := snprintf 0x300 (origin_path ++ 47 :: format_02d part) in
       if data_offset >=? part_limit
       then let part := target_part data_offset part_limit in
            let target_sector := u64 (data_offset - u64 (part * part_limit)) / sector_size dp in
            if part >? num_parts then None else Some (target_sector, dp <| emu_file_path := Some (path part) |>)
       else Some (sector, dp <| emu_file_path := Some (path 0) |>)
  else Some (sector, dp <| emu_file_path := Some origin_path |>).

Definition emu_device_partition_read_data (origin_path : list Z) (num_parts part_limit : Z)
    (dp : device_partition_t) (dst : list Z) (ofs sector num : Z) : F (Z * device_partition_t * list Z) :=
  '(rc, dp) ← ensure_initialized dp;
  if negb (rc =? 0) then fret (rc, dp, dst) else
  match emu_target dp sector origin_path num_parts part_limit with
  | None => fret (-1, dp, dst)
  | Some (target_sector, dp) => read_sectors dp dst ofs target_sector num
  end.
Definition emu_device_partition_write_data (origin_path : list Z) (num_parts part_limit : Z)
    (dp : device_partition_t) (src : list Z) (ofs sector num : Z) : F (Z * device_partition_t) :=
  '(rc, dp) ← ensure_initialized dp;
  if negb (rc =? 0) then fret (rc, dp) else
  match emu_target dp sector origin_path num_parts part_limit with
  | None => fret (-1, dp)
  | Some (target_sector, dp) => write_sectors dp src ofs target_sector num
  end.
End Ops.
End DevicePartition.

(** ** raw_dev.c and emu_dev.c: reading and writing bytes *)

(** The two files have the same text but for the sector access, which is the
    parameter here. *)
Module FileDev.

Section Ops.
Variable read_data : device_partition_t -> list Z -> Z -> Z -> Z -> F (Z * device_partition_t * list Z).
Variable write_data : device_partition_t -> list Z -> Z -> Z -> Z -> F (Z * device_partition_t).

(** The number of bytes, and the sectors they touch: [begin, finish), of which
    those before [aligned] are covered to their end. *)
Record span := mk_span { sp_len : Z; sp_begin : Z; sp_end : Z; sp_aligned : Z }.
Definition file_span (dp : device_partition_t) (off len : Z) : span :=
  let ss := sector_size dp in
  let sector_begin := off / ss in
  let sector_end := u64 (off + len + ss - 1) / ss in
  let past := sector_end >=? num_sectors dp in
  let len := if past then u32 (u64 (u64 (ss * num_sectors dp) - off)) else len in
  let sector_end := if past then num_sectors dp else sector_end in
  let sector_end_aligned := u64 (sector_end - (if negb (u64 (off + len) mod ss =? 0) then 1 else 0)) in
  mk_span len sector_begin sector_end sector_end_aligned.

(** The caller's block, the partition and [tmp_sector] in the course of a call,
    with [data - ptr] and [current_sector]. *)
Record io := mk_io { io_devpart : device_partition_t; io_tmp : list Z; io_buf : list Z; io_data : Z; io_sector : Z }.

(** Unaligned at the start: the rest of the first sector, or less. *)
Definition head_bytes (ss off len : Z) : Z := if len <=? ss - off mod ss then len else ss - off mod ss.

Definition read_head (off : Z) (sp : span) (s : io) : F (Z * io) :=
  let ss := sector_size (io_devpart s) in
  if off mod ss =? 0 then fret (0, s) else
  '(no, dp, tmp) ← read_data (io_devpart s) (io_tmp s) 0 (sp_begin sp) 1;
  if negb (no =? 0) then fret (no, mk_io dp tmp (io_buf s) (io_data s) (io_sector s)) else
  bytes ← heap (load_at tmp (off mod ss) (head_bytes ss off (sp_len sp)));
  buf ← heap (store_at (io_buf s) 0 bytes);
  fret (0, mk_io dp tmp buf (ss - off mod ss) (io_sector s + 1)).

Definition read_body (sp : span) (s : io) : F (Z * io) :=
  if io_sector s =? sp_aligned sp then fret (0, s) else
  '(no, dp, buf) ← read_data (io_devpart s) (io_buf s) (io_data s) (io_sector s) (u64 (sp_aligned sp - io_sector s));
  if negb (no =? 0) then fret (no, mk_io dp (io_tmp s) buf (io_data s) (io_sector s)) else
  fret (0, mk_io dp (io_tmp s) buf (io_data s + sector_size dp * u64 (sp_aligned sp - io_sector s)) (sp_aligned sp)).

Definition read_tail (off : Z) (sp : span) (s : io) : F (Z * io) :=
  if sp_end sp =? sp_aligned sp then fret (0, s) else
  '(no, dp, tmp) ← read_data (io_devpart s) (io_tmp s) 0 (sp_aligned sp) 1;
  if negb (no =? 0) then fret (no, mk_io dp tmp (io_buf s) (io_data s) (io_sector s)) else
  bytes ← heap (load_at tmp 0 (u64 (off + sp_len sp) mod sector_size dp));
  buf ← heap (store_at (io_buf s) (io_data s) bytes);
  fret (0, mk_io dp tmp buf (io_data s + (sector_size dp - u64 (off + sp_len sp) mod sector_size dp)) (io_sector s + 1)).

(** The result, the device and the file, and the caller's block. *)
Definition finish (d : rawdev_device_t) (f : devfile) (len : Z) (r : Z * io) : F (Z * rawdev_device_t * devfile * list Z) :=
  let '(no, s) := r in
  let d := d <| devpart := io_devpart s |> <| tmp_sector := io_tmp s |> in
  if negb (no =? 0) then set_errno no ;; fret (-1, d, f, io_buf s)
  else fret (s32 len, d, f <| offset := u64 (offset f + len) |>, io_buf s).

(** [k] unless the step before failed. *)
Definition andthen (r : Z * io) (k : io -> F (Z * io)) : F (Z * io) :=
  let '(no, s) := r in if negb (no =? 0) then fret (no, s) else k s.

Definition dev_read (d : rawdev_device_t) (f : devfile) (ptr : list Z) (len : Z)
    : F (Z * rawdev_device_t * devfile * list Z) :=
  let sp := file_span (devpart d) (offset f) len in
  if sp_len sp =? 0 then fret (0, d, f, ptr) else
  r ← read_head (offset f) sp (mk_io (devpart d) (tmp_sector d) ptr 0 (sp_begin sp));
  r ← andthen r (fun s => if io_sector s =? sp_end sp then fret (0, s) else
        r ← read_body sp s; andthen r (read_tail (offset f) sp));
  finish d f (sp_len sp) r.

(** Writing: the sectors at both ends are read, changed and written back. *)
Definition write_head (off : Z) (sp : span) (s : io) : F (Z * io) :=
  let ss := sector_size (io_devpart s) in
  if off mod ss =? 0 then fret (0, s) else
  '(no, dp, tmp) ← read_data (io_devpart s) (io_tmp s) 0 (sp_begin sp) 1;
  if negb (no =? 0) then fret (no, mk_io dp tmp (io_buf s) (io_data s) (io_sector s)) else
  bytes ← heap (load_at (io_buf s) 0 (head_bytes ss off (sp_len sp)));
  tmp ← heap (store_at tmp (off mod ss) bytes);
  '(no, dp) ← write_data dp tmp 0 (sp_begin sp) 1;
  if negb (no =? 0) then fret (no, mk_io dp tmp (io_buf s) (io_data s) (io_sector s)) else
  fret (0, mk_io dp tmp (io_buf s) (ss - off mod ss) (io_sector s + 1)).

Definition write_body (sp : span) (s : io) : F (Z * io) :=
  if io_sector s =? sp_aligned sp then fret (0, s) else
  '(no, dp) ← write_data (io_devpart s) (io_buf s) (io_data s) (io_sector s) (u64 (sp_aligned sp - io_sector s));
  if negb (no =? 0) then fret (no, mk_io dp (io_tmp s) (io_buf s) (io_data s) (io_sector s)) else
  fret (0, mk_io dp (io_tmp s) (io_buf s) (io_data s + sector_size dp * u64 (sp_aligned sp - io_sector s)) (sp_aligned sp)).

Definition write_tail (off : Z) (sp : span) (s : io) : F (Z * io) :=
  if sp_end sp =? sp_aligned sp then fret (0, s) else
  '(no, dp, tmp) ← read_data (io_devpart s) (io_tmp s) 0 (sp_aligned sp) 1;
  if negb (no =? 0) then fret (no, mk_io dp tmp (io_buf s) (io_data s) (io_sector s)) else
  bytes ← heap (load_at (io_buf s) (io_data s) (u64 (off + sp_len sp) mod sector_size dp));
  tmp ← heap (store_at tmp 0 bytes);
  '(no, dp) ← write_data dp tmp 0 (sp_aligned sp) 1;
  if negb (no =? 0) then fret (no, mk_io dp tmp (io_buf s) (io_data s) (io_sector s)) else
  fret (0, mk_io dp tmp (io_buf s) (io_data s + (sector_size dp - u64 (off + sp_len sp) mod sector_size dp)) (io_sector s + 1)).

Definition dev_write (d : rawdev_device_t) (f : devfile) (ptr : list Z) (len : Z)
    : F (Z * rawdev_device_t * devfile * list Z) :=
  let sp := file_span (devpart d) (offset f) len in
  if sp_len sp =? 0 then fret (0, d, f, ptr) else
  r ← write_head (offset f) sp (mk_io (devpart d) (tmp_sector d) ptr 0 (sp_begin sp));
  r ← andthen r (fun s => if io_sector s =? sp_end sp then fret (0, s) else
        r ← write_body sp s; andthen r (write_tail (offset f) sp));
  finish d f (sp_len sp) r.
End Ops.

Definition SEEK_SET := 0.
Definition SEEK_CUR := 1.
Definition SEEK_END := 2.
Definition O_APPEND := 0x8.
Definition O_TRUNC := 0x400.
Definition O_EXCL := 0x800.

(** [pos + off] is a [uint64_t], so the check for a position before the start
    never holds. *)
Definition dev_seek (d : rawdev_device_t) (f : devfile) (pos whence : Z) : F (Z * devfile) :=
  let seek off :=
    if (pos <? 0) && (u64 (pos + off) <? 0) then set_errno EINVAL ;; fret (-1, f)
    else fret (s32 (u64 (pos + off)), f <| offset := u64 (pos + off) |>) in
  if whence =? SEEK_SET then seek 0
  else if whence =? SEEK_CUR then seek (offset f)
  else if whence =? SEEK_END then seek (u64 (num_sectors (devpart d) * sector_size (devpart d)))
  else set_errno EINVAL ;; fret (-1, f).

(** A file of the device, or [None] with the error set. *)
Definition dev_open (d : rawdev_device_t) (path : list Z) (flags : Z) : F (option devfile) :=
  if negb (bool_decide (path = root_path d)) then set_errno ENOENT ;; fret None else
  if negb (flags .& (O_APPEND .| O_TRUNC .| O_EXCL) =? 0) then set_errno EINVAL ;; fret None
  else fret (Some (mk_devfile flags 0)).
Definition dev_close (f : devfile) : devfile := mk_devfile 0 0.

(** The members of [struct stat] that are set. *)
Record stat := mk_stat { st_size : Z; st_nlink : Z; st_blksize : Z; st_blocks : Z; st_mode : Z }.
Definition S_IFBLK_RW := 0x6000 .| 0x1B6.
Definition dev_stat_impl (d : rawdev_device_t) : stat :=
  let size := s32 (u64 (num_sectors (devpart d) * sector_size (devpart d))) in
  mk_stat size 1 (sector_size (devpart d)) (Z.quot size (sector_size (devpart d))) S_IFBLK_RW.
Definition dev_stat (d : rawdev_device_t) (file : list Z) : F (option stat) :=
  if negb (bool_decide (file = root_path d)) then set_errno ENOENT ;; fret None else fret (Some (dev_stat_impl d)).
End FileDev.

(** ** raw_dev.c and emu_dev.c: the device tables *)

Module RawDev.
Import NxfsDriver DevicePartition FileDev.

Definition RAWDEV_MAX_DEVICES := 16.

Section Ops.
Context {soc : SoC} {card : Card} {sto : Storage}.

(** newlib's table of devices. *)
Definition AddDevice (name : list Z) : F bool :=
  names ← dget devoptab_names;
  if bool_decide (name ∈ names) then fret true else
  if Z.of_nat (length names) <? devoptab_room then dset (fun s => s <| devoptab_names ::= cons name |>) ;; fret true
  else fret false.
Definition RemoveDevice (name : list Z) : F bool :=
  names ← dget devoptab_names;
  if bool_decide (name ∈ names)
  then dset (fun s => s <| devoptab_names ::= filter (fun n => n <> name) |>) ;; fret true else fret false.

(** [EINVAL], [ENAMETOOLONG] and [EEXIST]: what is wrong with the name of a new
    device. *)
Definition name_error (name : list Z) (exists_ : bool) : option Z :=
  match name with
  | [] => Some EINVAL
  | _ => if Z.of_nat (length name) >? 32 then Some ENAMETOOLONG else if exists_ then Some EEXIST else None
  end.

(** The index of the device with a name, and of the first free slot. *)
Definition find_index (name : list Z) (l : list rawdev_device_t) : option nat :=
  fst <$> list_find (fun d => setup d = true /\ dev_name d = name) l.
Definition free_index (l : list rawdev_device_t) : option nat := fst <$> list_find (fun d => setup d = false) l.

Definition rawdev_find_device (name : list Z) : F (option nat) := dget (fun s => find_index name (g_rawdev_devices s)).
Definition rawdev_at (i : nat) : F rawdev_device_t := dget (fun s => nth i (g_rawdev_devices s) no_rawdev).
Definition set_rawdev (i : nat) (d : rawdev_device_t) : F unit :=
  dset (fun s => s <| g_rawdev_devices ::= fun l => <[i := d]> l |>).

(** A device in a free slot, before its initialisation. *)
Definition new_device (name : list Z) (dp : device_partition_t) : rawdev_device_t :=
  mk_rawdev [] dp name (name ++ str ":/") false false.

(** The 40 bytes of [drname] are filled before the length is checked. *)
Definition rawdev_mount_device (name : list Z) (dp : device_partition_t) (initialize_immediately : bool) : F Z :=
  if 38 <? Z.of_nat (length name) then stopped BadAccess else
  found ← rawdev_find_device name;
  match name_error name (bool_decide (is_Some found)) with
  | Some e => set_errno e ;; fret (-1)
  | None =>
      slot ← dget (fun s => free_index (g_rawdev_devices s));
      match slot with
      | None => set_errno ENOMEM ;; fret (-1)
      | Some i =>
          let d := new_device name dp in
          '(rc, dp') ← (if initialize_immediately then initializer dp else fret (0, dp));
          let d := d <| devpart := dp' |> in
          set_rawdev i d ;;
          if negb (rc =? 0) then set_errno rc ;; fret (-1) else
          if negb (heap_has (sector_size dp)) then set_errno ENOMEM ;; fret (-1) else
          set_rawdev i (d <| tmp_sector := allocated (sector_size dp) |> <| setup := true |>) ;; fret 0
      end
  end.

Definition rawdev_register_device (name : list Z) : F Z :=
  found ← rawdev_find_device name;
  match found with
  | None => set_errno ENOENT ;; fret (-1)
  | Some i =>
      d ← rawdev_at i;
      if registered d then fret 0 else
      ok ← AddDevice name;
      if ok : bool then set_rawdev i (d <| registered := true |>) ;; fret 0 else set_errno ENOMEM ;; fret (-1)
  end.

Definition rawdev_unregister_device (name : list Z) : F Z :=
  found ← rawdev_find_device name;
  match found with
  | None => set_errno ENOENT ;; fret (-1)
  | Some i =>
      d ← rawdev_at i;
      if negb (registered d) then fret 0 else
      ok ← RemoveDevice name;
      if ok : bool then set_rawdev i (d <| registered := false |>) ;; fret 0 else set_errno ENOENT ;; fret (-1)
  end.

Definition rawdev_unmount_device (name : list Z) : F Z :=
  found ← rawdev_find_device name;
  match found with
  | None => set_errno ENOENT ;; fret (-1)
  | Some i =>
      rc ← rawdev_unregister_device name;
      if rc =? -1 then fret (-1) else
      d ← rawdev_at i;
      finalizer (devpart d) ;;
      set_rawdev i no_rawdev ;; fret 0
  end.

(** The loop from slot [i] on; an unused slot has the empty name. *)
Fixpoint unmount_slots (n : nat) (i : nat) : F Z :=
  match n with
  | O => fret 0
  | S n =>
      d ← rawdev_at i;
      rc ← rawdev_unmount_device (dev_name d);
      if negb (rc =? 0) then fret rc else unmount_slots n (S i)
  end.
Definition rawdev_unmount_all : F Z := unmount_slots 16 0.

(** The operations of [g_rawdev_devoptab] on the device in slot [i]. *)
Definition rawdev_io (i : nat) (m : rawdev_device_t -> F (Z * rawdev_device_t * devfile * list Z)) : F (Z * devfile * list Z) :=
  d ← rawdev_at i;
  '(rc, d, f, buf) ← m d;
  set_rawdev i d ;; fret (rc, f, buf).
Definition rawdev_read (i : nat) (f : devfile) (ptr : list Z) (len : Z) : F (Z * devfile * list Z) :=
  rawdev_io i (fun d => dev_read device_partition_read_data d f ptr len).
Definition rawdev_write (i : nat) (f : devfile) (ptr : list Z) (len : Z) : F (Z * devfile * list Z) :=
  rawdev_io i (fun d => dev_write device_partition_read_data device_partition_write_data d f ptr len).
Definition rawdev_seek (i : nat) (f : devfile) (pos whence : Z) : F (Z * devfile) :=
  d ← rawdev_at i; dev_seek d f pos whence.
Definition rawdev_open (i : nat) (path : list Z) (flags : Z) : F (option devfile) :=
  d ← rawdev_at i; dev_open d path flags.
Definition rawdev_close (f : devfile) : F devfile := fret (dev_close f).
Definition rawdev_fstat (i : nat) : F stat := d ← rawdev_at i; fret (dev_stat_impl d).
Definition rawdev_stat (i : nat) (file : list Z) : F (option stat) := d ← rawdev_at i; dev_stat d file.
Definition rawdev_fsync : F Z := fret 0.
End Ops.
End RawDev.

Module EmuDev.
Import NxfsDriver DevicePartition FileDev RawDev.

Section Ops.
Context {soc : SoC} {card : Card} {sto : Storage}.

Definition emudev_find_device (name : list Z) : F (option nat) :=
  dget (fun s => find_index name (map emu_base (g_emudev_devices s))).
Definition emudev_at (i : nat) : F emudev_device_t := dget (fun s => nth i (g_emudev_devices s) no_emudev).
Definition set_emudev (i : nat) (d : emudev_device_t) : F unit :=
  dset (fun s => s <| g_emudev_devices ::= fun l => <[i := d]> l |>).

(** The path of a device in file mode fills an array of 0x301 bytes. *)
Definition emudev_mount_device (name : list Z) (dp : device_partition_t) (origin_path : list Z) (num_parts part_limit : Z) : F Z :=
  found ← emudev_find_device name;
  match name_error name (bool_decide (is_Some found)) with
  | Some e => set_errno e ;; fret (-1)
  | None =>
      slot ← dget (fun s => free_index (map emu_base (g_emudev_devices s)));
      match slot with
      | None => set_errno ENOMEM ;; fret (-1)
      | Some i =>
          if emu_use_file dp && (0x300 <? Z.of_nat (length origin_path)) then stopped BadAccess else
          '(rc, dp') ← initializer dp;
          let d := mk_emudev ((new_device name dp) <| devpart := dp' |>) (if emu_use_file dp then origin_path else []) num_parts part_limit in
          set_emudev i d ;;
          if negb (rc =? 0) then set_errno rc ;; fret (-1) else
          if negb (heap_has (sector_size dp)) then set_errno ENOMEM ;; fret (-1) else
          set_emudev i (d <| emu_base ::= fun b => b <| tmp_sector := allocated (sector_size dp) |> <| setup := true |> |>) ;; fret 0
      end
  end.

Definition emudev_register_device (name : list Z) : F Z :=
  found ← emudev_find_device name;
  match found with
  | None => set_errno ENOENT ;; fret (-1)
  | Some i =>
      d ← emudev_at i;
      if registered (emu_base d) then fret 0 else
      ok ← AddDevice name;
      if ok : bool then set_emudev i (d <| emu_base ::= fun b => b <| registered := true |> |>) ;; fret 0
      else set_errno ENOMEM ;; fret (-1)
  end.

Definition emudev_unregister_device (name : list Z) : F Z :=
  found ← emudev_find_device name;
  match found with
  | None => set_errno ENOENT ;; fret (-1)
  | Some i =>
      d ← emudev_at i;
      if negb (registered (emu_base d)) then fret 0 else
      ok ← RemoveDevice name;
      if ok : bool then set_emudev i (d <| emu_base ::= fun b => b <| registered := false |> |>) ;; fret 0
      else set_errno ENOENT ;; fret (-1)
  end.

Definition emudev_unmount_device (name : list Z) : F Z :=
  found ← emudev_find_device name;
  match found with
  | None => set_errno ENOENT ;; fret (-1)
  | Some i =>
      rc ← emudev_unregister_device name;
      if rc =? -1 then fret (-1) else
      d ← emudev_at i;
      finalizer (devpart (emu_base d)) ;;
      set_emudev i no_emudev ;; fret 0
  end.

Fixpoint unmount_emu_slots (n : nat) (i : nat) : F Z :=
  match n with
  | O => fret 0
  | S n =>
      d ← emudev_at i;
      rc ← emudev_unmount_device (dev_name (emu_base d));
      if negb (rc =? 0) then fret rc else unmount_emu_slots n (S i)
  end.
Definition emudev_unmount_all : F Z := unmount_emu_slots 16 0.

Definition emudev_io (i : nat) (m : emudev_device_t -> F (Z * rawdev_device_t * devfile * list Z)) : F (Z * devfile * list Z) :=
  d ← emudev_at i;
  '(rc, b, f, buf) ← m d;
  set_emudev i (d <| emu_base := b |>) ;; fret (rc, f, buf).
Definition emudev_read (i : nat) (f : devfile) (ptr : list Z) (len : Z) : F (Z * devfile * list Z) :=
  emudev_io i (fun d =>
    dev_read (emu_device_partition_read_data (origin_path d) (num_parts d) (part_limit d)) (emu_base d) f ptr len).
Definition emudev_write (i : nat) (f : devfile) (ptr : list Z) (len : Z) : F (Z * devfile * list Z) :=
  emudev_io i (fun d =>
    dev_write (emu_device_partition_read_data (origin_path d) (num_parts d) (part_limit d))
      (emu_device_partition_write_data (origin_path d) (num_parts d) (part_limit d)) (emu_base d) f ptr len).
Definition emudev_seek (i : nat) (f : devfile) (pos whence : Z) : F (Z * devfile) :=
  d ← emudev_at i; dev_seek (emu_base d) f pos whence.
Definition emudev_open (i : nat) (path : list Z) (flags : Z) : F (option devfile) :=
  d ← emudev_at i; dev_open (emu_base d) path flags.
Definition emudev_close (f : devfile) : F devfile := fret (dev_close f).
Definition emudev_fstat (i : nat) : F stat := d ← emudev_at i; fret (dev_stat_impl (emu_base d)).
Definition emudev_stat (i : nat) (file : list Z) : F (option stat) := d ← emudev_at i; dev_stat (emu_base d) file.
Definition emudev_fsync : F Z := fret 0.
End Ops.
End EmuDev.

(** ** fs_dev.c: the table of FAT volumes *)

(** A volume is kept as a [rawdev_device_t] without [tmp_sector] and root path;
    its files are FatFs's. *)
Module FsDev.
Import NxfsDriver RawDev.

Definition FR_OK := 0.
Definition FR_NOT_READY := 3.
Definition FKNAM : list Z := 255 :: replicate 35 36.

(** [errno] for a result of FatFs. *)
Definition fsdev_errno (rc : Z) : Z :=
  nth (Z.to_nat rc) [0; EIO; EINVAL; EIO; ENOENT; ENOENT; EINVAL; 13; EEXIST; 14; 30; 19; 8; 23; 8; 11; 16; ENOMEM; 24; EINVAL] 1.

Section Ops.
Context {soc : SoC} {card : Card} {sto : Storage}.

Definition fsdev_convert_rc (rc : Z) : F Z :=
  set_errno (fsdev_errno rc) ;; fret (if fsdev_errno rc =? 0 then 0 else -1).

Definition fsdev_find_device (name : list Z) : F (option nat) := dget (fun s => find_index name (g_fsdev_devices s)).
Definition fsdev_at (i : nat) : F rawdev_device_t := dget (fun s => nth i (g_fsdev_devices s) no_rawdev).
Definition set_fsdev (i : nat) (d : rawdev_device_t) : F unit :=
  dset (fun s => s <| g_fsdev_devices ::= fun l => <[i := d]> l |>).

(** [f_mount]: a volume mounted at once has its drive initialised
    ([disk_initialize] of diskio.c). *)
Definition f_mount (name : list Z) (dp : device_partition_t) (immediately : bool) : F (Z * device_partition_t) :=
  if immediately
  then '(rc, dp) ← initializer dp;
       fret (if negb (rc =? 0) then FR_NOT_READY else f_mount_result name true, dp)
  else fret (f_mount_result name false, dp).

Definition fsdev_mount_device (name : list Z) (dp : device_partition_t) (initialize_immediately : bool) : F Z :=
  found ← fsdev_find_device name;
  if bool_decide (is_Some found) then set_errno EEXIST ;; fret (-1) else
  if 38 <? Z.of_nat (length name) then stopped BadAccess else
  if bool_decide (name = []) || bool_decide (name = FKNAM) then set_errno EINVAL ;; fret (-1) else
  if Z.of_nat (length name) >? 32 then set_errno ENAMETOOLONG ;; fret (-1) else
  slot ← dget (fun s => free_index (g_fsdev_devices s));
  match slot with
  | None => set_errno ENOMEM ;; fret (-1)
  | Some i =>
      '(rc, dp) ← f_mount name dp initialize_immediately;
      set_fsdev i (mk_rawdev [] dp name [] (rc =? FR_OK) false) ;;
      if negb (rc =? FR_OK) then fsdev_convert_rc rc else fret 0
  end.

Definition fsdev_register_device (name : list Z) : F Z :=
  found ← fsdev_find_device name;
  match found with
  | None => set_errno ENOENT ;; fret (-1)
  | Some i =>
      d ← fsdev_at i;
      if registered d then fret 0 else
      ok ← AddDevice name;
      if ok : bool then set_fsdev i (d <| registered := true |>) ;; fret 0 else set_errno ENOMEM ;; fret (-1)
  end.

Definition fsdev_unregister_device (name : list Z) : F Z :=
  found ← fsdev_find_device name;
  match found with
  | None => set_errno ENOENT ;; fret (-1)
  | Some i =>
      d ← fsdev_at i;
      if negb (registered d) then fret 0 else
      ok ← RemoveDevice name;
      if ok : bool then set_fsdev i (d <| registered := false |>) ;; fret 0 else set_errno ENOENT ;; fret (-1)
  end.

Definition fsdev_set_default_device (name : list Z) : F Z :=
  names ← dget devoptab_names;
  found ← fsdev_find_device name;
  if negb (bool_decide (name ∈ names)) || negb (bool_decide (is_Some found)) then set_errno ENOENT ;; fret (-1) else
  ret ← fsdev_convert_rc (f_chdrive_result name);
  (if ret =? 0 then dset (fun s => s <| default_device := name |>) else fret tt) ;;
  fret ret.

Definition fsdev_is_exfat (name : list Z) : F Z :=
  found ← fsdev_find_device name;
  match found with
  | None => set_errno ENOENT ;; fret (-1)
  | Some i =>
      d ← fsdev_at i;
      if registered d then fret (if volume_is_exfat name then 1 else 0) else set_errno ENOENT ;; fret (-1)
  end.

Definition fsdev_unmount_device (name : list Z) : F Z :=
  found ← fsdev_find_device name;
  match found with
  | None => set_errno ENOENT ;; fret (-1)
  | Some i =>
      ret ← fsdev_unregister_device name;
      if ret =? -1 then fret (-1) else
      ret ← fsdev_convert_rc (f_unmount_result name);
      if negb (ret =? 0) then fret ret else
      d ← fsdev_at i;
      finalizer (devpart d) ;;
      set_fsdev i no_rawdev ;; fret 0
  end.

Fixpoint unmount_volumes (n : nat) (i : nat) : F Z :=
  match n with
  | O => fret 0
  | S n =>
      d ← fsdev_at i;
      ret ← fsdev_unmount_device (dev_name d);
      if negb (ret =? 0) then fret ret else unmount_volumes n (S i)
  end.
Definition fsdev_unmount_all : F Z := unmount_volumes 10 0.

Definition fsdev_set_attr (file : list Z) (attr mask : Z) : F Z := fsdev_convert_rc (f_chmod_result file (u8 attr) (u8 mask)).
Definition fsdev_get_attr (file : list Z) : F Z :=
  match f_stat_result file with inl rc => fsdev_convert_rc rc | inr attr => fret attr end.
End Ops.
End FsDev.
