(* ===== verification/Nxfs.v ===== *)
(** Reading the eMMC of fusee-secondary: stdio on the devices of Storage.v,
    gpt.c, the mounting functions of nxfs.c, and package1.c.

    A [FILE] on a device passes each request on to the device: newlib's buffer,
    which only changes how requests are grouped, is left out. *)
From S2P Require Import Prelude State Utils Se Devices Fusee FuseeKeys Storage.
Import SE NxfsDriver DevicePartition FileDev RawDev EmuDev FsDev.

(** ** stdio *)

Inductive device_ref := on_rawdev (i : nat) | on_emudev (i : nat).
Record FILE := mk_file { fp_dev : device_ref; fp_state : devfile }.

Section Stdio.
Context {soc : SoC} {card : Card} {sto : Storage}.

(** [fopen("name:/", "rb")] for a registered device. *)
Definition fopen (name : list Z) : F (option FILE) :=
  names ← dget devoptab_names;
  if negb (bool_decide (name ∈ names)) then set_errno ENOENT ;; fret None else
  raw ← rawdev_find_device name;
  match raw with
  | Some i => f ← rawdev_open i (name ++ str ":/") 0; fret (mk_file (on_rawdev i) <$> f)
  | None =>
      emu ← emudev_find_device name;
      match emu with
      | Some i => f ← emudev_open i (name ++ str ":/") 0; fret (mk_file (on_emudev i) <$> f)
      | None => set_errno ENOENT ;; fret None
      end
  end.

(** [fread(block, size, 1, fp)]: the number of elements, 0 or 1. *)
Definition fread1 (fp : FILE) (block : list Z) (size : Z) : F (Z * FILE * list Z) :=
  if size =? 0 then fret (0, fp, block) else
  '(rc, f, block) ← (match fp_dev fp with
     | on_rawdev i => rawdev_read i (fp_state fp) block size
     | on_emudev i => emudev_read i (fp_state fp) block size
     end);
  fret (if rc =? -1 then 0 else rc / size, mk_file (fp_dev fp) f, block).

(** [fseek(fp, off, whence)], with [off] a [long]. *)
Definition fseek (fp : FILE) (off whence : Z) : F (Z * FILE) :=
  '(rc, f) ← (match fp_dev fp with
     | on_rawdev i => rawdev_seek i (fp_state fp) (s32 off) whence
     | on_emudev i => emudev_seek i (fp_state fp) (s32 off) whence
     end);
  fret (if rc =? -1 then -1 else 0, mk_file (fp_dev fp) f).
Definition ftell (fp : FILE) : Z := s32 (offset (fp_state fp)).
End Stdio.

(** ** gpt.c *)

Module Gpt.

(** The members of [efi_header_t] and [efi_entry_t]. *)
Definition sizeof_efi_header_t := 92.
Definition sizeof_efi_entry_t := 128.
Definition EFI_PART : list Z := str "EFI PART".
Definition hdr_revision (h : list Z) : Z := read32le h 8.
Definition hdr_header_size (h : list Z) : Z := read32le h 12.
Definition hdr_header_lba (h : list Z) : Z := read64le h 24.
Definition hdr_partitions_first_lba (h : list Z) : Z := read64le h 40.
Definition hdr_partitions_last_lba (h : list Z) : Z := read64le h 48.
Definition hdr_entries_first_lba (h : list Z) : Z := read64le h 72.
Definition hdr_entry_count (h : list Z) : Z := read32le h 80.
Definition hdr_entry_size (h : list Z) : Z := read32le h 84.
Definition entry_first_lba (e : list Z) : Z := read64le e 32.
Definition entry_last_lba (e : list Z) : Z := read64le e 40.
(** [uint16_t name[36]] *)
Definition entry_name (e : list Z) : list Z := map (fun i => le_value (slice e (56 + 2 * i) 2)) (range 36).

(** What is wrong with the header in sector 1: the error number. *)
Definition header_error (sector_size : Z) (sector : list Z) : option Z :=
  if negb (bool_decide (slice sector 0 8 = EFI_PART)) then Some EILSEQ else
  if negb (hdr_header_lba sector =? 1) || (hdr_entries_first_lba sector <? 2)
     || (hdr_partitions_last_lba sector <? hdr_partitions_first_lba sector) then Some EILSEQ else
  if (hdr_header_size sector <? sizeof_efi_header_t) || (hdr_entry_size sector <? sizeof_efi_entry_t) then Some EILSEQ else
  if (hdr_header_size sector >? sector_size) || negb (hdr_revision sector =? 0x10000) then Some ENOTSUP else None.

Section Ops.
Context {soc : SoC} {card : Card} {sto : Storage}.

(** The header, or [None] for -1; the file has moved in any case. *)
Definition gpt_get_header (disk : FILE) (sector_size : Z) : F (option (list Z) * FILE) :=
  '(n, disk, sector) ← fread1 disk (allocated 512) 512;
  if n =? 0 then fret (None, disk) else
  '(rc, disk) ← fseek disk (u32 (sector_size - 512)) SEEK_CUR;
  if negb (rc =? 0) then fret (None, disk) else
  if negb (byte_at sector 0x1FE =? 0x55) || negb (byte_at sector 0x1FF =? 0xAA)
  then set_errno EILSEQ ;; fret (None, disk) else
  '(n, disk, sector) ← fread1 disk sector 512;
  if n =? 0 then fret (None, disk) else
  '(rc, disk) ← fseek disk (u32 (sector_size - 512)) SEEK_CUR;
  if negb (rc =? 0) then fret (None, disk) else
  match header_error sector_size sector with
  | Some e => set_errno e ;; fret (None, disk)
  | None => fret (Some (slice sector 0 sizeof_efi_header_t), disk)
  end.

(** The loop over the entries; [callback] gets the entry. *)
Fixpoint entries_loop (n : nat) (callback : list Z -> F Z) (delta : Z) (disk : FILE) (entry : list Z) : F (Z * FILE) :=
  match n with
  | O => fret (0, disk)
  | S n =>
      '(k, disk, entry) ← fread1 disk entry sizeof_efi_entry_t;
      if k =? 0 then fret (-1, disk) else
      rc ← callback entry;
      if negb (rc =? 0) then fret (-1, disk) else
      '(rc, disk) ← (if negb (delta =? 0) then fseek disk delta SEEK_CUR else fret (0, disk));
      if negb (rc =? 0) then fret (-1, disk) else
      entries_loop n callback delta disk entry
  end.

Definition gpt_iterate_through_entries (disk : FILE) (sector_size : Z) (callback : list Z -> F Z) : F (Z * FILE) :=
  '(hdr, disk) ← gpt_get_header disk sector_size;
  match hdr with
  | None => fret (-1, disk)
  | Some hdr =>
      '(rc, disk) ← fseek disk (u64 (u64 (sector_size * hdr_entries_first_lba hdr) - 2 * 512)) SEEK_CUR;
      if negb (rc =? 0) then fret (-1, disk) else
      let delta := u32 (hdr_entry_size hdr - sizeof_efi_entry_t) in
      entries_loop (Z.to_nat (hdr_entry_count hdr)) callback delta disk (allocated sizeof_efi_entry_t)
  end.

(** The same with further arguments for the callback, which are applied already. *)
Definition gpt_iterate_through_emu_entries : FILE -> Z -> (list Z -> F Z) -> F (Z * FILE) := gpt_iterate_through_entries.
End Ops.
End Gpt.

(** ** nxfs.c *)

Module Nxfs.
Import Gpt.

Record known_partition := mk_known {
  partition_name : list Z; mount_point : list Z; is_fat : bool; is_encrypted : bool; register_immediately : bool }.
Definition known_partitions : list known_partition := [
  mk_known (str "PRODINFO") (str "prodinfo") false true false;
  mk_known (str "PRODINFOF") (str "prodinfof") true true false;
  mk_known (str "BCPKG2-1-Normal-Main") (str "bcpkg21") false false true;
  mk_known (str "BCPKG2-2-Normal-Sub") (str "bcpkg22") false false false;
  mk_known (str "BCPKG2-3-SafeMode-Main") (str "bcpkg23") false false false;
  mk_known (str "BCPKG2-4-SafeMode-Sub") (str "bcpkg24") false false false;
  mk_known (str "BCPKG2-5-Repair-Main") (str "bcpkg25") false false false;
  mk_known (str "BCPKG2-6-Repair-Sub") (str "bcpkg26") false false false;
  mk_known (str "SAFE") (str "safe") true true false;
  mk_known (str "SYSTEM") (str "system") true true false;
  mk_known (str "USER") (str "user") true true false ].

(** The loop that converts the name: it stops at a NUL or after
    [sizeof(entry->name)] = 72 characters, but the name has 36 and the entry ends
    with it. *)
Fixpoint name_to_ascii (name : list Z) : res (list Z) :=
  match name with
  | [] => Stop BadAccess
  | c :: rest => if c =? 0 then Ok [] else r ← name_to_ascii rest; mret (u8 c :: r)
  end.

(** The partition of an entry: its place, and its ciphers when it is encrypted.
    [None]: it is larger than the parent. *)
Definition entry_partition (k : known_partition) (entry : list Z) (parent_sectors : Z) (dp : device_partition_t) : option device_partition_t :=
  let dp := dp <| start_sector := u64 (start_sector dp + entry_first_lba entry) |>
               <| num_sectors := u64 (entry_last_lba entry + 1 - entry_first_lba entry) |> in
  if parent_sectors <? num_sectors dp then None else
  Some (if is_encrypted k
        then dp <| read_cipher := Some nxfs_bis_crypto_decrypt_fn |> <| write_cipher := Some nxfs_bis_crypto_encrypt_fn |>
                <| crypto_mode := DevicePartitionCryptoMode_Xts |>
        else dp).

(** The names of C strings end at the first NUL; a converted name has none. *)
Section Callback.
Context {soc : SoC} {card : Card} {sto : Storage}.
(** [rawdev_mount_device] or [emudev_mount_device] with its further arguments. *)
Variable mount : list Z -> device_partition_t -> F Z.
Variable register : list Z -> F Z.

Definition mount_known (k : known_partition) (dp : device_partition_t) : F Z :=
  rc ← (if is_fat k then fsdev_mount_device (mount_point k) dp false else mount (mount_point k) dp);
  if rc =? -1 then fret (-1) else
  if negb (register_immediately k) then fret 0 else
  rc ← (if is_fat k then fsdev_register_device (mount_point k) else register (mount_point k));
  if rc =? -1 then fret (-1) else fret 0.

Fixpoint known_loop (ks : list known_partition) (name entry : list Z) (parent_sectors : Z) (dp : device_partition_t) : F Z :=
  match ks with
  | [] => fret 0
  | k :: ks =>
      if bool_decide (name = partition_name k)
      then match entry_partition k entry parent_sectors dp with
           | None => set_errno EINVAL ;; fret (-1)
           | Some dp =>
               rc ← mount_known k dp;
               if negb (rc =? 0) then fret rc else known_loop ks name entry parent_sectors dp
           end
      else known_loop ks name entry parent_sectors dp
  end.
Definition mount_partition_callback (parent : device_partition_t) (entry : list Z) : F Z :=
  name ← heap (name_to_ascii (entry_name entry));
  known_loop known_partitions name entry (num_sectors parent) parent.
End Callback.

Section Ops.
Context {soc : SoC} {card : Card} {sto : Storage}.

Definition nxfs_mount_partition_gpt_callback : device_partition_t -> list Z -> F Z :=
  mount_partition_callback (fun name dp => rawdev_mount_device name dp false) rawdev_register_device.
Definition nxfs_mount_emu_partition_gpt_callback (origin_path : list Z) (num_parts part_limit : Z)
    : device_partition_t -> list Z -> F Z :=
  mount_partition_callback (fun name dp => emudev_mount_device name dp origin_path num_parts part_limit) emudev_register_device.

Definition nxfs_mount_sd : F Z :=
  let model := g_mmc_devpart_template <| device_struct := Some g_sd_mmcpart |> <| start_sector := 0 |> <| num_sectors := 2 ^ 30 |> in
  rc ← fsdev_mount_device (str "sdmc") model true;
  if rc =? -1 then fret (-1) else
  rc ← fsdev_register_device (str "sdmc");
  if rc =? -1 then fret (-1) else
  (if rc =? 0 then dset (fun s => s <| g_fsdev_ready := true |>) else fret tt) ;;
  fret rc.

(** A part of the eMMC as a partition of its own. *)
Definition emmc_model (part : mmc_partition_info_t) (bytes : Z) : device_partition_t :=
  g_mmc_devpart_template <| device_struct := Some part |> <| start_sector := 0 |> <| num_sectors := bytes / 512 |>.

Definition nxfs_mount_emmc : F Z :=
  rc ← rawdev_mount_device (str "boot0") (emmc_model g_emmc_boot0_mmcpart 0x184000) true;
  if rc =? -1 then fret (-1) else
  rc ← rawdev_register_device (str "boot0");
  if rc =? -1 then fret (-1) else
  rc ← rawdev_mount_device (str "boot1") (emmc_model g_emmc_boot1_mmcpart 0x80000) false;
  if rc =? -1 then fret (-1) else
  let model := emmc_model g_emmc_user_mmcpart (256 <<. 30) in
  rc ← rawdev_mount_device (str "rawnand") model false;
  if rc =? -1 then fret (-1) else
  rc ← rawdev_register_device (str "rawnand");
  if rc =? -1 then fret (-1) else
  rawnand ← fopen (str "rawnand");
  match rawnand with
  | None => fret (-1)
  | Some rawnand =>
      '(rc, _) ← gpt_iterate_through_entries rawnand 512 (nxfs_mount_partition_gpt_callback model);
      (if rc =? 0 then dset (fun s => s <| g_rawdev_ready := true |>) else fret tt) ;;
      fret rc
  end.

(** Area [i] of an emulated eMMC on the SD card; each boot area has 4 MiB. *)
Definition emummc_model (start bytes : Z) (use_file : bool) : device_partition_t :=
  g_emummc_devpart_template <| start_sector := start |> <| num_sectors := bytes / 512 |> <| emu_use_file := use_file |>.

(** The end of both: the entries of the emulated raw NAND. *)
Definition mount_emu_rawnand (model : device_partition_t) (origin_path : list Z) (num_parts part_limit not_opened : Z) : F Z :=
  rawnand ← fopen (str "rawnand");
  match rawnand with
  | None => fret not_opened
  | Some rawnand =>
      '(rc, _) ← gpt_iterate_through_emu_entries rawnand 512
                   (nxfs_mount_emu_partition_gpt_callback origin_path num_parts part_limit model);
      (if rc =? 0 then dset (fun s => s <| g_emudev_ready := true |> <| g_is_emummc := true |>) else fret tt) ;;
      fret rc
  end.

Definition nxfs_mount_emummc_partition (emummc_start_sector : Z) : F Z :=
  let area i bytes := emummc_model (u64 (emummc_start_sector + 0x400000 * i / 512)) bytes false in
  rc ← emudev_mount_device (str "boot0") (area 0 0x400000) [] 0 0;
  if rc =? -1 then fret (-1) else
  rc ← emudev_register_device (str "boot0");
  if rc =? -1 then fret (-2) else
  rc ← emudev_mount_device (str "boot1") (area 1 0x400000) [] 0 0;
  if rc =? -1 then fret (-3) else
  let model := area 2 (256 <<. 30) in
  rc ← emudev_mount_device (str "rawnand") model [] 0 0;
  if rc =? -1 then fret (-4) else
  rc ← emudev_register_device (str "rawnand");
  if rc =? -1 then fret (-5) else
  mount_emu_rawnand model [] 0 0 (-6).

Definition AM_DIR := 0x10.
Definition AM_ARC := 0x20.
Definition nxfs_mount_emummc_file (emummc_path : list Z) (num_parts part_limit : Z) : F Z :=
  rc ← fsdev_is_exfat (str "sdmc");
  if rc =? -1 then fret (-1) else
  if negb (rc =? 1) && (num_parts <=? 1) then fret (-2) else
  attr ← fsdev_get_attr emummc_path;
  if attr =? -1 then fret (-3) else
  if attr .& AM_DIR =? 0 then fret (-4) else
  rc ← (if attr .& AM_ARC =? 0 then fsdev_set_attr emummc_path AM_ARC AM_ARC else fret 0);
  if rc =? -1 then fret (-5) else
  rc ← emudev_mount_device (str "boot0") (emummc_model 0 0x400000 true) (snprintf 0x300 (emummc_path ++ str "/boot0")) 0 0;
  if rc =? -1 then fret (-6) else
  rc ← emudev_register_device (str "boot0");
  if rc =? -1 then fret (-7) else
  rc ← emudev_mount_device (str "boot1") (emummc_model 0 0x400000 true) (snprintf 0x300 (emummc_path ++ str "/boot1")) 0 0;
  if rc =? -1 then fret (-8) else
  rc ← emudev_register_device (str "boot1");
  if rc =? -1 then fret (-9) else
  let model := emummc_model 0 (256 <<. 30) true in
  rc ← emudev_mount_device (str "rawnand") model emummc_path num_parts part_limit;
  if rc =? -1 then fret (-10) else
  rc ← emudev_register_device (str "rawnand");
  if rc =? -1 then fret (-11) else
  mount_emu_rawnand model emummc_path num_parts part_limit (-12).

Definition nxfs_unmount_sd : F Z :=
  ready ← dget g_fsdev_ready;
  if negb ready then fret 0 else
  rc ← fsdev_unmount_all; dset (fun s => s <| g_fsdev_ready := false |>) ;; fret rc.
Definition nxfs_unmount_emmc : F Z :=
  ready ← dget g_rawdev_ready;
  if negb ready then fret 0 else
  rc ← rawdev_unmount_all; dset (fun s => s <| g_rawdev_ready := false |>) ;; fret rc.
Definition nxfs_unmount_emummc : F Z :=
  ready ← dget g_emudev_ready;
  if negb ready then fret 0 else
  rc ← emudev_unmount_all; dset (fun s => s <| g_emudev_ready := false |>) ;; fret rc.

Definition nxfs_init : F Z :=
  rc ← nxfs_mount_sd;
  if rc =? 0 then fsdev_set_default_device (str "sdmc") else fret rc.

(** The first failure keeps the others from running. *)
Definition nxfs_end : F Z :=
  rc ← nxfs_unmount_sd;
  if negb (rc =? 0) then fret (-1) else
  rc ← nxfs_unmount_emmc;
  if negb (rc =? 0) then fret (-1) else
  rc ← nxfs_unmount_emummc;
  if negb (rc =? 0) then fret (-1) else fret 0.
End Ops.
End Nxfs.

(** ** package1.c *)

Module Package1.

Definition PACKAGE1LOADER_SIZE_MAX := 0x40000.
(** bct.h: [sizeof(nvboot_config_table)] and the members used of it. *)
Definition sizeof_bct := 0x2800.
Definition bct_bootloader_used (bct : list Z) : Z := read32le bct 0x232C.
Definition bootloader_version (bct : list Z) : Z := read32le bct 0x2330.
Definition bootloader_start_blk (bct : list Z) : Z := read32le bct 0x2334.
Definition bootloader_start_page (bct : list Z) : Z := read32le bct 0x2338.
Definition bootloader_length (bct : list Z) : Z := read32le bct 0x233C.

Section Ops.
Context {soc : SoC} {card : Card} {sto : Storage}.

Fixpoint keyblob_loop (n : nat) (boot0 : FILE) (sector : list Z) (acc : list (list Z)) : F (option (list (list Z)) * FILE) :=
  match n with
  | O => fret (Some acc, boot0)
  | S n =>
      '(k, boot0, sector) ← fread1 boot0 sector 0x200;
      if k =? 0 then fret (None, boot0) else keyblob_loop n boot0 sector (acc ++ [slice sector 0 0xB0])
  end.

(** [package1loader], [revision] and the key blobs, or [None] for -1. *)
Definition package1_read_and_parse_boot0 (boot0 : FILE) : F (option (list Z * Z * list (list Z)) * FILE) :=
  if negb (heap_has sizeof_bct) then set_errno ENOMEM ;; fret (None, boot0) else
  let fpos := u32 (ftell boot0) in
  '(k, boot0, bct) ← fread1 boot0 (allocated sizeof_bct) sizeof_bct;
  if k =? 0 then fret (None, boot0) else
  if (bct_bootloader_used bct <? 1) || (bootloader_version bct <? 1) then set_errno EILSEQ ;; fret (None, boot0) else
  let revision := bootloader_version bct - 1 in
  let size := bootloader_length bct in
  let pk1l_offset := u32 (0x4000 * bootloader_start_blk bct + 0x200 * bootloader_start_page bct) in
  if negb (heap_has size) then set_errno ENOMEM ;; fret (None, boot0) else
  '(rc, boot0) ← fseek boot0 (u32 (fpos + pk1l_offset)) SEEK_SET;
  if negb (rc =? 0) then fret (None, boot0) else
  '(k, boot0, package1loader) ← fread1 boot0 (allocated size) size;
  if k =? 0 then fret (None, boot0) else
  '(rc, boot0) ← fseek boot0 (u32 (fpos + pk1l_offset + 2 * PACKAGE1LOADER_SIZE_MAX)) SEEK_SET;
  if negb (rc =? 0) then fret (None, boot0) else
  '(keyblobs, boot0) ← keyblob_loop 32 boot0 (allocated 0x200) [];
  fret ((fun ks => (package1loader, revision, ks)) <$> keyblobs, boot0).
End Ops.

(** The first offset, a multiple of 256, with the first word of the TSEC
    firmware; the word must lie within the block. *)
Fixpoint tsec_loop (n : nat) (package1loader : list Z) (size pos : Z) : res (option Z) :=
  match n with
  | O => Stop Hangs
  | S n =>
      if negb (pos <? size) then Ok None else
      w ← load_at package1loader pos 4;
      if le_value w =? 0xCF42004D then Ok (Some pos) else tsec_loop n package1loader size (pos + 0x100)
  end.
Definition package1_get_tsec_fw (package1loader : list Z) (size : Z) : res (option Z) :=
  tsec_loop (S (Z.to_nat size)) package1loader size 0.

(** The offset of package1, its counter and its size. *)
Definition package1_get_encrypted_package1 (package1loader : list Z) (size : Z) : res (option (Z * list Z * Z)) :=
  if size <? 0x4000 then Ok None else
  ctr ← load_at package1loader (0x4000 - 0x20 + 0x10) 0x10;
  n ← load_at package1loader (0x4000 - 0x20) 4;
  Ok (Some (0x4000, ctr, le_value n)).

Section Decrypt.
Context {soc : SoC}.
(** The block after the decryption in place, and whether it has the magic. *)
Definition package1_decrypt (package1 : list Z) (size : Z) (ctr : list Z) : F (bool * list Z) :=
  if Z.of_nat (length package1) <? size then stopped BadAccess else
  package1 ← hw (SE.se_aes_ctr_crypt 0xB package1 size package1 size ctr 16);
  magic ← heap (load_at package1 0 4);
  fret (bool_decide (magic = str "PK11"), package1).
End Decrypt.

Definition pk11_nx_bootloader_size (package1 : list Z) : Z := read32le package1 0x10.
Definition pk11_secmon_size (package1 : list Z) : Z := read32le package1 0x18.
(** The offset in the block of the first part that is neither the secure monitor
    nor the boot loader; [None] for NULL. *)
Fixpoint warmboot_loop (n : nat) (package1 : list Z) (data : Z) : res (option Z) :=
  match n with
  | O => Ok None
  | S n =>
      w ← load_at package1 data 4;
      let w := le_value w in
      if w =? 0xD5034FDF then warmboot_loop n package1 (data + 4 * (pk11_secmon_size package1 / 4))
      else if (w =? 0xE328F0C0) || (w =? 0xF0C0A7F0) then warmboot_loop n package1 (data + 4 * (pk11_nx_bootloader_size package1 / 4))
      else Ok (Some data)
  end.
Definition package1_get_warmboot_fw (package1 : list Z) : res (option Z) := warmboot_loop 3 package1 0x20.
End Package1.
