(* ===== verification/StorageProps.v ===== *)
(** Byte access to a partition (raw_dev.c, device_partition.c, nxfs.c): the
    sector reads and writes of the drivers make the partition an array of bytes,
    through its cipher if it has one, and [rawdev_read] and [rawdev_write] are
    reading and writing that array.

    The interface between the two layers is [SectorDevice]: what
    device_partition.c promises to the file operations.  The file operations are
    proved against it, and the plain and the encrypted partitions of the eMMC
    discharge it. *)
From S2P Require Import Prelude State Utils Se Engine Platform SeProps Devices Fusee FuseeToy FuseeKeys IpsProps XtsProps Storage.
Import SE FuseeSe NxfsDriver DevicePartition FileDev RawDev.

(** ** Cards as arrays of bytes *)

Lemma length_card_read c a n : length (card_read c a n) = Z.to_nat n.
Proof. unfold card_read. by rewrite length_map, length_seqZ. Qed.
Lemma byte_at_card_read c a n i : 0 <= i < n -> byte_at (card_read c a n) i = c (a + i).
Proof.
  intros Hi. rewrite byte_at_lookup by lia. unfold card_read. rewrite list_lookup_fmap.
  rewrite (proj2 (lookup_seqZ a n (Z.to_nat i) (a + i))) by lia. done.
Qed.
Lemma card_read_is_bytes c a n : (forall b, is_u8 (c b)) -> is_bytes (card_read c a n).
Proof. intros H. apply Forall_map, Forall_true. intros b. apply H. Qed.
Lemma card_read_ext c c' a n : (forall b, a <= b < a + n -> c b = c' b) -> card_read c a n = card_read c' a n.
Proof.
  intros H. apply bytes_ext; rewrite !length_card_read; [done|]. intros i Hi. rewrite !byte_at_card_read by lia. apply H. lia.
Qed.
Lemma card_read_app c a n m : 0 <= n -> 0 <= m -> card_read c a (n + m) = card_read c a n ++ card_read c (a + n) m.
Proof. intros Hn Hm. unfold card_read. rewrite seqZ_app by done. apply map_app. Qed.
Lemma card_read_slice c a n o m : 0 <= o -> 0 <= m -> o + m <= n -> slice (card_read c a n) o m = card_read c (a + o) m.
Proof.
  intros. apply bytes_ext; rewrite length_slice, ?length_card_read by (rewrite ?length_card_read; lia); [done|].
  intros i Hi. rewrite byte_at_slice, !byte_at_card_read by lia. f_equal. lia.
Qed.
Lemma card_write_in c a data b : a <= b < a + Z.of_nat (length data) -> card_write c a data b = byte_at data (b - a).
Proof. intros. unfold card_write. by zdec. Qed.
Lemma card_write_out c a data b : ~ (a <= b < a + Z.of_nat (length data)) -> card_write c a data b = c b.
Proof. intros H. unfold card_write. destruct (a <=? b) eqn:E1, (b <? _) eqn:E2; cbn; try done. lia. Qed.
Lemma card_write_bytes c a data : (forall b, is_u8 (c b)) -> is_bytes data -> forall b, is_u8 (card_write c a data b).
Proof.
  intros Hc Hd b. destruct (decide (a <= b < a + Z.of_nat (length data))).
  - rewrite card_write_in by done. rewrite byte_at_lookup by lia.
    destruct (data !! Z.to_nat (b - a)) eqn:E; cbn; [by eapply Forall_lookup_1 in E|done].
  - by rewrite card_write_out.
Qed.
Lemma card_read_write c a data n : n = Z.of_nat (length data) -> card_read (card_write c a data) a n = data.
Proof.
  intros ->. apply bytes_ext; rewrite length_card_read; [lia|]. intros i Hi.
  rewrite byte_at_card_read, card_write_in by lia. f_equal. lia.
Qed.
(** Writing a stretch in two pieces, and changing part of what was read. *)
Lemma card_write_app c a d1 d2 b : card_write (card_write c a d1) (a + Z.of_nat (length d1)) d2 b = card_write c a (d1 ++ d2) b.
Proof.
  destruct (decide (a <= b < a + Z.of_nat (length d1))) as [H1|H1].
  - rewrite card_write_out, !card_write_in by (rewrite ?length_app; lia). by rewrite byte_at_app_l by lia.
  - destruct (decide (a + Z.of_nat (length d1) <= b < a + Z.of_nat (length d1) + Z.of_nat (length d2))) as [H2|H2].
    + rewrite !card_write_in by (rewrite ?length_app; lia). rewrite byte_at_app_r by lia. f_equal. lia.
    + by rewrite !card_write_out by (rewrite ?length_app; lia).
Qed.
Lemma card_rmw c a n o data b : 0 <= o -> o + Z.of_nat (length data) <= n ->
  card_write c a (splice (card_read c a n) o data) b = card_write c (a + o) data b.
Proof.
  intros Ho Hl. assert (L : length (splice (card_read c a n) o data) = Z.to_nat n)
    by (rewrite length_splice; rewrite length_card_read; lia).
  destruct (decide (a + o <= b < a + o + Z.of_nat (length data))) as [H1|H1].
  - rewrite !card_write_in by (rewrite ?L; lia). rewrite byte_at_splice_in by (rewrite ?length_card_read; lia). f_equal. lia.
  - rewrite (card_write_out c (a + o)) by done. destruct (decide (a <= b < a + n)).
    + rewrite card_write_in, byte_at_splice_out, byte_at_card_read by (rewrite ?L, ?length_card_read; lia). f_equal. lia.
    + apply card_write_out. rewrite L. lia.
Qed.
Lemma card_write_ext c c' a data b : c b = c' b -> card_write c a data b = card_write c' a data b.
Proof. intros H. unfold card_write. by rewrite H. Qed.

(** ** Heap blocks *)

Lemma frun_bind_stop {A B} (m : F A) (f : A -> F B) w e w' : m w = (Stop e, w') -> (m ≫= f) w = (Stop e, w').
Proof. unfold mbind, F_bind. by intros ->. Qed.

Lemma splice_splice block a b : (length a + length b <= length block)%nat ->
  splice (splice block 0 a) (Z.of_nat (length a)) b = splice block 0 (a ++ b).
Proof.
  intros H. apply bytes_ext; rewrite !length_splice by (rewrite ?length_splice; lia); [done|]. intros i Hi.
  destruct (decide (i < Z.of_nat (length a))).
  - rewrite byte_at_splice_out, !byte_at_splice_in by (rewrite ?length_splice, ?length_app; lia). by rewrite byte_at_app_l by lia.
  - destruct (decide (i < Z.of_nat (length a) + Z.of_nat (length b))).
    + rewrite !byte_at_splice_in by (rewrite ?length_splice, ?length_app; lia). rewrite byte_at_app_r by lia. f_equal. lia.
    + by rewrite !byte_at_splice_out by (rewrite ?length_splice, ?length_app; lia).
Qed.

(** ** What the sector access promises *)

(** A partition of [sectors] sectors of 512 bytes.  [dev_ok] holds of the
    partition and the state, and keeps holding; [dev_bytes] are the bytes of the
    partition.  A transfer of at most [max] sectors within the partition reads
    exactly these bytes into the buffer, or writes exactly the bytes of the
    buffer. *)
Class SectorDevice
    (read_data : device_partition_t -> list Z -> Z -> Z -> Z -> F (Z * device_partition_t * list Z))
    (write_data : device_partition_t -> list Z -> Z -> Z -> Z -> F (Z * device_partition_t))
    (sectors max : Z) := {
  dev_ok : device_partition_t -> FWorld -> Prop;
  dev_bytes : FWorld -> Z -> Z;
  dev_sectors_range : 0 < sectors <= 2 ^ 32 /\ 0 < max;
  dev_geometry dp w : dev_ok dp w -> sector_size dp = 512 /\ num_sectors dp = sectors;
  dev_holds_bytes dp w : dev_ok dp w -> forall a, is_u8 (dev_bytes w a);
  dev_read_law dp w dst ofs sector num :
    dev_ok dp w -> 0 <= sector -> 0 < num <= max -> sector + num <= sectors ->
    0 <= ofs -> ofs + 512 * num <= Z.of_nat (length dst) -> Z.of_nat (length dst) < 2 ^ 32 ->
    exists dp' w',
      read_data dp dst ofs sector num w = (Ok (0, dp', splice dst ofs (card_read (dev_bytes w) (512 * sector) (512 * num))), w') /\
      dev_ok dp' w' /\ (forall a, 0 <= a -> dev_bytes w' a = dev_bytes w a);
  dev_write_law dp w src ofs sector num :
    dev_ok dp w -> 0 <= sector -> 0 < num <= max -> sector + num <= sectors -> is_bytes src ->
    0 <= ofs -> ofs + 512 * num <= Z.of_nat (length src) -> Z.of_nat (length src) < 2 ^ 32 ->
    exists dp' w',
      write_data dp src ofs sector num w = (Ok (0, dp'), w') /\
      dev_ok dp' w' /\
      (forall a, 0 <= a -> dev_bytes w' a = card_write (dev_bytes w) (512 * sector) (slice src ofs (512 * num)) a) }.

Section Bytes.
Context {read_data : device_partition_t -> list Z -> Z -> Z -> Z -> F (Z * device_partition_t * list Z)}.
Context {write_data : device_partition_t -> list Z -> Z -> Z -> Z -> F (Z * device_partition_t)}.
Context {sectors max : Z} {SD : SectorDevice read_data write_data sectors max}.

(** The requests that the code serves: within the partition, and, when they end
    in the last sector, ending with it; not too many sectors at once. *)
Definition request_ok (off len : Z) : Prop :=
  0 <= off /\ 0 < len < 2 ^ 31 /\ off + len <= 512 * sectors /\
  ((off + len + 511) / 512 < sectors \/ off + len = 512 * sectors) /\
  (off + len) / 512 - (off + 511) / 512 <= max.

Ltac div512 := repeat match goal with
  | |- context [?a / 512] => lazymatch goal with H : 512 * (a / 512) <= a < _ |- _ => fail | _ =>
      assert (512 * (a / 512) <= a < 512 * (a / 512) + 512)
        by (pose proof (Z.div_mod a 512); pose proof (Z.mod_pos_bound a 512); lia) end
  | _ : context [?a / 512] |- _ => lazymatch goal with H : 512 * (a / 512) <= a < _ |- _ => fail | _ =>
      assert (512 * (a / 512) <= a < 512 * (a / 512) + 512)
        by (pose proof (Z.div_mod a 512); pose proof (Z.mod_pos_bound a 512); lia) end
  end.

Lemma mod512 a : a mod 512 = a - 512 * (a / 512).
Proof. pose proof (Z.div_mod a 512). lia. Qed.

Lemma file_span_ok dp w off len : dev_ok dp w -> request_ok off len ->
  file_span dp off len = mk_span len (off / 512) ((off + len + 511) / 512) ((off + len) / 512).
Proof.
  intros Ok (H0 & Hl & Ht & Hend & _). destruct (dev_geometry dp w Ok) as [Es En].
  destruct dev_sectors_range as [Hs _]. unfold file_span. rewrite Es, En.
  replace (off + len + 512 - 1) with (off + len + 511) by lia. rewrite u64_id by (unfold is_u64; lia).
  assert (E : (off + len + 511) / 512 <= sectors) by (div512; lia).
  assert (Hp : forall l, l = len -> u64 ((off + len + 511) / 512 - (if negb (u64 (off + l) mod 512 =? 0) then 1 else 0)) = (off + len) / 512).
  { intros l ->. rewrite (u64_id (off + len)), mod512 by (unfold is_u64; lia).
    destruct (off + len - _ =? 0) eqn:E0; cbn [negb]; [apply Z.eqb_eq in E0|apply Z.eqb_neq in E0];
      rewrite u64_id; div512; unfold is_u64; lia. }
  rewrite Z.geb_leb. destruct (sectors <=? _) eqn:G; [apply Z.leb_le in G|apply Z.leb_gt in G; by rewrite (Hp len eq_refl)].
  assert (Et : off + len = 512 * sectors) by (destruct Hend; div512; lia).
  assert (El : u32 (u64 (u64 (512 * sectors) - off)) = len).
  { rewrite (u64_id (512 * _)), u64_id, u32_id by (unfold is_u64, is_u32; lia). lia. }
  rewrite El. replace sectors with ((off + len + 511) / 512) by (div512; lia). by rewrite (Hp len eq_refl).
Qed.

(** ** Reading *)

(** After reading up to sector [cur], the bytes before it are in the buffer. *)
Record read_upto (ptr : list Z) (v : Z -> Z) (off len cur : Z) (s : io) (w : FWorld) : Prop := {
  ru_ok : dev_ok (io_devpart s) w;
  ru_same : forall a, 0 <= a -> dev_bytes w a = v a;
  ru_tmp : length (io_tmp s) = 512%nat;
  ru_sector : io_sector s = cur;
  ru_data : io_data s = 512 * cur - off;
  ru_buf : io_buf s = splice ptr 0 (card_read v off (Z.min len (512 * cur - off))) }.

Context (ptr : list Z) (off len : Z) (Hreq : request_ok off len) (Hptr : len <= Z.of_nat (length ptr) < 2 ^ 32).

Let sp := mk_span len (off / 512) ((off + len + 511) / 512) ((off + len) / 512).

Lemma card_read_view w (v : Z -> Z) a n : (forall b, 0 <= b -> dev_bytes w b = v b) -> 0 <= a -> card_read (dev_bytes w) a n = card_read v a n.
Proof. intros H Ha. apply card_read_ext. intros b Hb. apply H. lia. Qed.
Lemma splice_nil (l : list Z) : splice l 0 [] = l.
Proof. unfold splice. by rewrite take_nil, take_0, drop_0. Qed.
Lemma length_read_buf v n : n <= len -> length (splice ptr 0 (card_read v off n)) = length ptr.
Proof. intros H. apply length_splice. lia. Qed.

Lemma read_head_run dp tmp w : dev_ok dp w -> length tmp = 512%nat ->
  exists s w', read_head read_data off sp (mk_io dp tmp ptr 0 (off / 512)) w = (Ok (0, s), w') /\
    read_upto ptr (dev_bytes w) off len ((off + 511) / 512) s w'.
Proof.
  intros Hok Ht. destruct Hreq as (H0 & Hl & Htot & Hend & Hmax). destruct (dev_geometry _ _ Hok) as [Es En].
  destruct dev_sectors_range as [Hs Hm].
  unfold read_head. cbn [io_devpart io_tmp io_buf io_data io_sector sp sp_begin sp_len]. rewrite Es, mod512.
  destruct (off - _ =? 0) eqn:E; [apply Z.eqb_eq in E|apply Z.eqb_neq in E].
  { eexists _, w. split; [reflexivity|]. assert (Ec : (off + 511) / 512 = off / 512) by (div512; lia).
    split; cbn; rewrite ?Ec; try done; [lia|]. rewrite Z.min_r by lia. rewrite <- E. replace (off - _) with 0 by lia.
    replace (512 * (off / 512) - off) with 0 by lia. symmetry. apply splice_nil. }
  assert (Ec : (off + 511) / 512 = off / 512 + 1) by (div512; lia).
  destruct (dev_read_law dp w tmp 0 (off / 512) 1) as (dp' & w' & R & Hok' & Hv); [done|div512; lia..|].
  rewrite (frun_bind _ _ _ _ _ R). change (512 * 1) with 512. set (tmp' := splice tmp 0 _).
  assert (Lt : length tmp' = 512%nat) by (unfold tmp'; rewrite length_splice; lia).
  assert (Et : tmp' = card_read (dev_bytes w) (512 * (off / 512)) 512).
  { apply splice_block. rewrite length_card_read. lia. }
  cbv zeta. cbn [negb Z.eqb]. unfold head_bytes. rewrite mod512.
  set (nb := if _ <=? _ then _ else _). assert (Enb : nb = Z.min len (512 * ((off + 511) / 512) - off)).
  { unfold nb. destruct (_ <=? _) eqn:G; [apply Z.leb_le in G|apply Z.leb_gt in G]; rewrite Ec; lia. }
  rewrite load_at_ok, frun_heap by (rewrite ?Lt; div512; lia). rewrite Et, card_read_slice by (div512; lia).
  replace (512 * (off / 512) + (off - 512 * (off / 512))) with off by lia.
  rewrite store_at_ok, frun_heap by (rewrite ?length_card_read; div512; lia).
  eexists _, w'. split; [reflexivity|]. split; cbn [io_devpart io_tmp io_buf io_data io_sector]; try done.
  - lia.
  - by rewrite Enb.
Qed.

Lemma read_more v s w n m : read_upto ptr v off len n s w -> 0 <= 512 * n - off <= len -> 0 <= m -> 512 * n - off + m <= len ->
  splice (io_buf s) (io_data s) (card_read v (512 * n) m) = splice ptr 0 (card_read v off (512 * n - off + m)).
Proof.
  intros [_ _ _ _ Ed Eb] Hn Hm Hl. rewrite Eb, Ed, Z.min_r by lia.
  replace (512 * n - off) with (Z.of_nat (length (card_read v off (512 * n - off)))) at 2 by (rewrite length_card_read; lia).
  rewrite splice_splice by (rewrite !length_card_read; lia). f_equal. rewrite card_read_app by lia. do 2 f_equal. lia.
Qed.

Lemma read_body_run v s w : read_upto ptr v off len ((off + 511) / 512) s w -> (off + 511) / 512 <= (off + len) / 512 ->
  exists s' w', read_body read_data sp s w = (Ok (0, s'), w') /\ read_upto ptr v off len ((off + len) / 512) s' w'.
Proof.
  intros Hu Hc. destruct Hreq as (H0 & Hl & Htot & Hend & Hmax). pose proof dev_sectors_range as [Hs Hm].
  destruct Hu as [Hok Hv Ht Es Ed Eb] eqn:EU. unfold read_body. cbn [sp sp_aligned]. rewrite Es.
  destruct (_ =? _) eqn:E; [apply Z.eqb_eq in E; exists s, w; split; [done|]; by rewrite <- E|apply Z.eqb_neq in E].
  set (cur := (off + 511) / 512) in *. set (al := (off + len) / 512) in *.
  assert (Hal : 512 * al <= off + len /\ off <= 512 * cur /\ 0 <= cur /\ al <= sectors) by (unfold cur, al in *; div512; lia).
  rewrite u64_id by (unfold is_u64; lia).
  destruct (dev_read_law (io_devpart s) w (io_buf s) (io_data s) cur (al - cur)) as (dp' & w' & R & Hok' & Hv');
    [done|lia..|rewrite Eb, length_read_buf by lia; lia|rewrite Eb, length_read_buf by lia; lia|].
  rewrite (frun_bind _ _ _ _ _ R). cbn [negb Z.eqb]. destruct (dev_geometry _ _ Hok') as [Es' _].
  rewrite (card_read_view w v) by (done || lia). rewrite (read_more v s w cur _ Hu) by lia.
  eexists _, w'. split; [reflexivity|]. split; cbn [io_devpart io_tmp io_buf io_data io_sector]; try done.
  - intros a Ha. by rewrite Hv', Hv.
  - rewrite Es', Ed. lia.
  - do 2 f_equal. lia.
Qed.

Lemma read_tail_run v s w : read_upto ptr v off len ((off + len) / 512) s w -> off <= 512 * ((off + len) / 512) ->
  exists s' w', read_tail read_data off sp s w = (Ok (0, s'), w') /\
    dev_ok (io_devpart s') w' /\ (forall a, 0 <= a -> dev_bytes w' a = v a) /\ length (io_tmp s') = 512%nat /\
    io_buf s' = splice ptr 0 (card_read v off len).
Proof.
  intros Hu Hc. destruct Hreq as (H0 & Hl & Htot & Hend & Hmax). pose proof dev_sectors_range as [Hs Hm].
  destruct Hu as [Hok Hv Ht Es Ed Eb] eqn:EU. unfold read_tail. cbn [sp sp_aligned sp_end sp_len].
  set (al := (off + len) / 512) in *.
  destruct (_ =? al) eqn:E; [apply Z.eqb_eq in E|apply Z.eqb_neq in E].
  { exists s, w. repeat (split; [done|]). rewrite Eb. do 2 f_equal. unfold al in *. div512. lia. }
  assert (Hal : 512 * al <= off + len < 512 * al + 512 /\ 0 <= al < sectors) by (unfold al in *; div512; lia).
  destruct (dev_read_law (io_devpart s) w (io_tmp s) 0 al 1) as (dp' & w' & R & Hok' & Hv'); [done|lia..|].
  rewrite (frun_bind _ _ _ _ _ R). cbn [negb Z.eqb]. destruct (dev_geometry _ _ Hok') as [Es' _].
  change (512 * 1) with 512. rewrite (card_read_view w v) by (done || lia).
  rewrite splice_block by (rewrite length_card_read; lia). rewrite Es', u64_id by (unfold is_u64; lia). rewrite mod512. fold al.
  rewrite load_at_ok, frun_heap by (rewrite ?length_card_read; lia). rewrite card_read_slice, Z.add_0_r by lia.
  rewrite store_at_ok, frun_heap by (rewrite ?Eb, ?length_read_buf, ?length_card_read by lia; lia).
  rewrite (read_more v s w al _ Hu) by lia.
  eexists _, w'. split; [reflexivity|]. cbn [io_devpart io_tmp io_buf io_data io_sector].
  split; [done|]. split; [intros a Ha; by rewrite Hv', Hv|]. split; [by rewrite length_card_read|]. do 2 f_equal. lia.
Qed.

(** [dev_read] fills the buffer with the bytes of the partition. *)
Lemma dev_read_run d f w : dev_ok (devpart d) w -> length (tmp_sector d) = 512%nat -> offset f = off ->
  exists d' w', dev_read read_data d f ptr len w =
      (Ok (len, d', f <| offset := off + len |>, splice ptr 0 (card_read (dev_bytes w) off len)), w') /\
    dev_ok (devpart d') w' /\ length (tmp_sector d') = 512%nat /\
    d' = d <| devpart := devpart d' |> <| tmp_sector := tmp_sector d' |> /\
    (forall a, 0 <= a -> dev_bytes w' a = dev_bytes w a).
Proof.
  intros Hok Ht Ho. pose proof Hreq as (H0 & Hl & Htot & Hend & Hmax). unfold dev_read.
  rewrite Ho, (file_span_ok _ w) by done. fold sp. cbn [sp sp_len sp_begin sp_end]. zdec.
  destruct (read_head_run (devpart d) (tmp_sector d) w Hok Ht) as (s1 & w1 & R1 & U1).
  rewrite (frun_bind _ _ _ _ _ R1). unfold andthen at 1. cbn [negb Z.eqb].
  assert (Hrest : exists s2 w2, (if io_sector s1 =? (off + len + 511) / 512 then fret (0, s1) else
      r ← read_body read_data sp s1; andthen r (read_tail read_data (off) sp)) w1 = (Ok (0, s2), w2) /\
    dev_ok (io_devpart s2) w2 /\ (forall a, 0 <= a -> dev_bytes w2 a = dev_bytes w a) /\ length (io_tmp s2) = 512%nat /\
    io_buf s2 = splice ptr 0 (card_read (dev_bytes w) (off) len)).
  { pose proof U1 as [Hok1 Hv1 Ht1 Es1 Ed1 Eb1]. rewrite Es1. destruct (_ =? _) eqn:E; [apply Z.eqb_eq in E|apply Z.eqb_neq in E].
    - exists s1, w1. repeat (split; [done|]). rewrite Eb1. do 2 f_equal. div512. lia.
    - assert (Hc : (off + 511) / 512 <= (off + len) / 512) by (div512; lia).
      destruct (read_body_run _ _ _ U1 Hc) as (s2 & w2 & R2 & U2). rewrite (frun_bind _ _ _ _ _ R2).
      unfold andthen. cbn [negb Z.eqb]. apply read_tail_run; [done|div512; lia]. }
  destruct Hrest as (s2 & w2 & R2 & Hok2 & Hv2 & Ht2 & Eb2). rewrite (frun_bind _ _ _ _ _ R2). unfold finish. cbn [negb Z.eqb]. rewrite Ho.
  rewrite Eb2. pose proof dev_sectors_range as [Hs _]. rewrite u64_id by (unfold is_u64; lia). unfold s32.
  rewrite u32_id by (unfold is_u32; lia). zdec.
  eexists _, w2. split; [reflexivity|]. by repeat split.
Qed.

(** ** Writing *)

Context (Hbytes : is_bytes ptr).

Record write_upto (v : Z -> Z) (cur : Z) (s : io) (w : FWorld) : Prop := {
  wu_ok : dev_ok (io_devpart s) w;
  wu_same : forall a, 0 <= a -> dev_bytes w a = card_write v off (slice ptr 0 (Z.min len (512 * cur - off))) a;
  wu_tmp : length (io_tmp s) = 512%nat;
  wu_sector : io_sector s = cur;
  wu_data : io_data s = 512 * cur - off;
  wu_buf : io_buf s = ptr }.

(** One sector read, changed from [o] on and written back. *)
Lemma rmw_run dp tmp w sector o n k : dev_ok dp w -> length tmp = 512%nat -> 0 <= sector < sectors ->
  0 <= o -> 0 <= n -> o + n <= 512 -> 0 <= k -> k + n <= len ->
  exists dp1 w1 dp2 w2,
    read_data dp tmp 0 sector 1 w = (Ok (0, dp1, card_read (dev_bytes w) (512 * sector) 512), w1) /\
    sector_size dp1 = 512 /\
    load_at ptr k n = Ok (slice ptr k n) /\
    store_at (card_read (dev_bytes w) (512 * sector) 512) o (slice ptr k n) =
      Ok (splice (card_read (dev_bytes w) (512 * sector) 512) o (slice ptr k n)) /\
    write_data dp1 (splice (card_read (dev_bytes w) (512 * sector) 512) o (slice ptr k n)) 0 sector 1 w1 = (Ok (0, dp2), w2) /\
    dev_ok dp2 w2 /\ sector_size dp2 = 512 /\
    length (splice (card_read (dev_bytes w) (512 * sector) 512) o (slice ptr k n)) = 512%nat /\
    (forall a, 0 <= a -> dev_bytes w2 a = card_write (dev_bytes w) (512 * sector + o) (slice ptr k n) a).
Proof.
  intros Hok Ht Hse Ho Hn Hon Hk Hkn. pose proof dev_sectors_range as [Hs Hm].
  destruct (dev_read_law dp w tmp 0 sector 1) as (dp1 & w1 & R & Hok1 & Hv1); [done|lia..|].
  change (512 * 1) with 512 in R. rewrite splice_block in R by (rewrite length_card_read; lia).
  assert (Ls : length (slice ptr k n) = Z.to_nat n) by (apply length_slice; lia).
  set (old := card_read _ _ _) in *. assert (Lo : length old = 512%nat) by (unfold old; by rewrite length_card_read).
  assert (Ln : length (splice old o (slice ptr k n)) = 512%nat) by (rewrite length_splice; lia).
  assert (Hb : is_bytes (splice old o (slice ptr k n))).
  { apply Forall_app_2; [apply Forall_take, card_read_is_bytes; by eapply dev_holds_bytes|].
    apply Forall_app_2; [by apply Forall_take, slice_is_bytes|apply Forall_drop, card_read_is_bytes; by eapply dev_holds_bytes]. }
  destruct (dev_write_law dp1 w1 (splice old o (slice ptr k n)) 0 sector 1) as (dp2 & w2 & W & Hok2 & Hv2); [done|lia..|done|lia|lia|lia|].
  exists dp1, w1, dp2, w2. split; [done|]. split; [by apply (dev_geometry _ _ Hok1)|]. split; [apply load_at_ok; lia|].
  split; [apply store_at_ok; lia|]. split; [done|]. split; [done|]. split; [by apply (dev_geometry _ _ Hok2)|]. split; [done|].
  intros a Ha. rewrite Hv2 by done. rewrite (slice_full _ (512 * 1)) by lia.
  rewrite (card_write_ext _ (dev_bytes w)) by (by apply Hv1). unfold old. apply card_rmw; lia.
Qed.

Lemma slice_app_next k m : 0 <= k -> 0 <= m -> k + m <= len -> slice ptr 0 k ++ slice ptr k m = slice ptr 0 (k + m).
Proof.
  intros Hk Hm Hl. apply bytes_ext; rewrite ?length_app, !length_slice by lia; [lia|]. intros i Hi.
  destruct (decide (i < k)).
  - rewrite byte_at_app_l by (rewrite length_slice by lia; lia). by rewrite !byte_at_slice by lia.
  - rewrite byte_at_app_r by (rewrite length_slice by lia; lia). rewrite length_slice by lia.
    rewrite !byte_at_slice by lia. f_equal. lia.
Qed.
Lemma write_more v w w' k m : 0 <= k -> 0 <= m -> k + m <= len ->
  (forall a, 0 <= a -> dev_bytes w a = card_write v off (slice ptr 0 k) a) ->
  (forall a, 0 <= a -> dev_bytes w' a = card_write (dev_bytes w) (off + k) (slice ptr k m) a) ->
  forall a, 0 <= a -> dev_bytes w' a = card_write v off (slice ptr 0 (k + m)) a.
Proof.
  intros Hk Hm Hl H1 H2 a Ha. rewrite H2 by done. rewrite (card_write_ext _ (card_write v off (slice ptr 0 k))) by auto.
  rewrite <- slice_app_next, <- card_write_app by lia. do 2 f_equal. rewrite length_slice; lia.
Qed.
Lemma write_nothing (v : Z -> Z) a : v a = card_write v off (slice ptr 0 0) a.
Proof. rewrite card_write_out; [done|]. unfold slice. change (Z.to_nat 0) with 0%nat. rewrite take_0. cbn [length]. lia. Qed.

Lemma write_head_run dp tmp w : dev_ok dp w -> length tmp = 512%nat ->
  exists s w', write_head read_data write_data off sp (mk_io dp tmp ptr 0 (off / 512)) w = (Ok (0, s), w') /\
    write_upto (dev_bytes w) ((off + 511) / 512) s w'.
Proof.
  intros Hok Ht. destruct Hreq as (H0 & Hl & Htot & Hend & Hmax). destruct (dev_geometry _ _ Hok) as [Es En].
  unfold write_head. cbn [io_devpart io_tmp io_buf io_data io_sector sp sp_begin sp_len]. rewrite Es, mod512.
  destruct (off - _ =? 0) eqn:E; [apply Z.eqb_eq in E|apply Z.eqb_neq in E].
  { eexists _, w. split; [reflexivity|]. assert (Ec : (off + 511) / 512 = off / 512) by (div512; lia).
    split; cbn [io_devpart io_tmp io_buf io_data io_sector]; rewrite ?Ec; try done; [|lia].
    intros a Ha. replace (Z.min _ _) with 0 by lia. apply write_nothing. }
  assert (Ec : (off + 511) / 512 = off / 512 + 1) by (div512; lia).
  assert (Enb : head_bytes 512 off len = Z.min len (512 * ((off + 511) / 512) - off)).
  { unfold head_bytes. rewrite mod512, Ec. destruct (_ <=? _) eqn:G; [apply Z.leb_le in G|apply Z.leb_gt in G]; lia. }
  rewrite Enb. set (nb := Z.min _ _) in *.
  destruct (rmw_run dp tmp w (off / 512) (off - 512 * (off / 512)) nb 0) as (dp1 & w1 & dp2 & w2 & R & _ & L & S & W & Hok2 & _ & Lt & Hv);
    [done|done|unfold nb; div512; lia..|].
  rewrite (frun_bind _ _ _ _ _ R). cbn [negb Z.eqb]. rewrite L, frun_heap, S, frun_heap, (frun_bind _ _ _ _ _ W).
  eexists _, w2. split; [reflexivity|]. split; cbn [io_devpart io_tmp io_buf io_data io_sector]; try done; [|lia].
  intros a Ha. rewrite Hv by done. f_equal. lia.
Qed.

Lemma write_body_run v s w : write_upto v ((off + 511) / 512) s w -> (off + 511) / 512 <= (off + len) / 512 ->
  exists s' w', write_body write_data sp s w = (Ok (0, s'), w') /\ write_upto v ((off + len) / 512) s' w'.
Proof.
  intros Hu Hc. destruct Hreq as (H0 & Hl & Htot & Hend & Hmax). pose proof dev_sectors_range as [Hs Hm].
  pose proof Hu as [Hok Hv Ht Es Ed Eb]. unfold write_body. cbn [sp sp_aligned]. rewrite Es.
  destruct (_ =? _) eqn:E; [apply Z.eqb_eq in E; exists s, w; split; [done|]; by rewrite <- E|apply Z.eqb_neq in E].
  set (cur := (off + 511) / 512) in *. set (al := (off + len) / 512) in *.
  assert (Hal : 512 * al <= off + len /\ off <= 512 * cur /\ 0 <= cur /\ al <= sectors) by (unfold cur, al in *; div512; lia).
  rewrite u64_id by (unfold is_u64; lia). rewrite Eb.
  destruct (dev_write_law (io_devpart s) w ptr (io_data s) cur (al - cur)) as (dp' & w' & R & Hok' & Hv'); [done|lia..|done|lia|lia|lia|].
  rewrite (frun_bind _ _ _ _ _ R). cbn [negb Z.eqb]. destruct (dev_geometry _ _ Hok') as [Es' _].
  eexists _, w'. split; [reflexivity|]. split; cbn [io_devpart io_tmp io_buf io_data io_sector]; try done.
  - rewrite (Z.min_r _ (512 * al - off)) by lia. replace (512 * al - off) with ((512 * cur - off) + 512 * (al - cur)) by lia.
    apply (write_more v w); [lia..| |].
    + intros a Ha. rewrite Hv by done. do 2 f_equal. lia.
    + intros a Ha. rewrite Hv' by done. rewrite Ed. f_equal. lia.
  - rewrite Es', Ed. lia.
Qed.

Lemma write_tail_run v s w : write_upto v ((off + len) / 512) s w -> off <= 512 * ((off + len) / 512) ->
  exists s' w', write_tail read_data write_data off sp s w = (Ok (0, s'), w') /\
    dev_ok (io_devpart s') w' /\ length (io_tmp s') = 512%nat /\ io_buf s' = ptr /\
    (forall a, 0 <= a -> dev_bytes w' a = card_write v off (slice ptr 0 len) a).
Proof.
  intros Hu Hc. destruct Hreq as (H0 & Hl & Htot & Hend & Hmax). pose proof Hu as [Hok Hv Ht Es Ed Eb].
  unfold write_tail. cbn [sp sp_aligned sp_end sp_len]. set (al := (off + len) / 512) in *.
  destruct (_ =? al) eqn:E; [apply Z.eqb_eq in E|apply Z.eqb_neq in E].
  { exists s, w. repeat (split; [done|]). intros a Ha. rewrite Hv by done. do 2 f_equal. unfold al in *. div512. lia. }
  assert (Hal : 512 * al <= off + len < 512 * al + 512 /\ 0 <= al < sectors) by (unfold al in *; div512; lia).
  destruct (rmw_run (io_devpart s) (io_tmp s) w al 0 (off + len - 512 * al) (512 * al - off))
    as (dp1 & w1 & dp2 & w2 & R & Es1 & L & S & W & Hok2 & Es2 & Lt & Hv2); [done|done|lia..|].
  pose proof dev_sectors_range as [Hs Hm].
  rewrite (frun_bind _ _ _ _ _ R). cbn [negb Z.eqb]. rewrite Es1, u64_id, mod512, Ed, Eb by (unfold is_u64; lia). fold al.
  rewrite L, frun_heap, S, frun_heap, (frun_bind _ _ _ _ _ W).
  eexists _, w2. split; [reflexivity|]. cbn [io_devpart io_tmp io_buf io_data io_sector]. split; [done|]. split; [done|]. split; [done|].
  pose proof (write_more v w w2 (512 * al - off) (off + len - 512 * al)) as HM.
  replace (512 * al - off + (off + len - 512 * al)) with len in HM by lia. apply HM; [lia..| |].
  - intros a Ha. rewrite Hv by done. do 2 f_equal. lia.
  - intros a Ha. rewrite Hv2 by done. f_equal. lia.
Qed.

(** [dev_write] changes exactly the bytes of the request. *)
Lemma dev_write_run d f w : dev_ok (devpart d) w -> length (tmp_sector d) = 512%nat -> offset f = off ->
  exists d' w', dev_write read_data write_data d f ptr len w = (Ok (len, d', f <| offset := off + len |>, ptr), w') /\
    dev_ok (devpart d') w' /\ length (tmp_sector d') = 512%nat /\
    d' = d <| devpart := devpart d' |> <| tmp_sector := tmp_sector d' |> /\
    (forall a, 0 <= a -> dev_bytes w' a = card_write (dev_bytes w) off (slice ptr 0 len) a).
Proof.
  intros Hok Ht Ho. pose proof Hreq as (H0 & Hl & Htot & Hend & Hmax). unfold dev_write.
  rewrite Ho, (file_span_ok _ w) by done. fold sp. cbn [sp sp_len sp_begin sp_end]. zdec.
  destruct (write_head_run (devpart d) (tmp_sector d) w Hok Ht) as (s1 & w1 & R1 & U1).
  rewrite (frun_bind _ _ _ _ _ R1). unfold andthen at 1. cbn [negb Z.eqb].
  assert (Hrest : exists s2 w2, (if io_sector s1 =? (off + len + 511) / 512 then fret (0, s1) else
      r ← write_body write_data sp s1; andthen r (write_tail read_data write_data off sp)) w1 = (Ok (0, s2), w2) /\
    dev_ok (io_devpart s2) w2 /\ length (io_tmp s2) = 512%nat /\ io_buf s2 = ptr /\
    (forall a, 0 <= a -> dev_bytes w2 a = card_write (dev_bytes w) off (slice ptr 0 len) a)).
  { pose proof U1 as [Hok1 Hv1 Ht1 Es1 Ed1 Eb1]. rewrite Es1. destruct (_ =? _) eqn:E; [apply Z.eqb_eq in E|apply Z.eqb_neq in E].
    - exists s1, w1. repeat (split; [done|]). intros a Ha. rewrite Hv1 by done. do 2 f_equal. div512. lia.
    - assert (Hc : (off + 511) / 512 <= (off + len) / 512) by (div512; lia).
      destruct (write_body_run _ _ _ U1 Hc) as (s2 & w2 & R2 & U2). rewrite (frun_bind _ _ _ _ _ R2).
      unfold andthen. cbn [negb Z.eqb]. apply write_tail_run; [done|div512; lia]. }
  destruct Hrest as (s2 & w2 & R2 & Hok2 & Ht2 & Eb2 & Hv2). rewrite (frun_bind _ _ _ _ _ R2). unfold finish. cbn [negb Z.eqb]. rewrite Ho.
  rewrite Eb2. pose proof dev_sectors_range as [Hs _]. rewrite u64_id by (unfold is_u64; lia). unfold s32.
  rewrite u32_id by (unfold is_u32; lia). zdec.
  eexists _, w2. split; [reflexivity|]. by repeat split.
Qed.
End Bytes.

(** ** The driver of the cards (nxfs.c) *)

(** The code's record of the selected part of the eMMC agrees with the card. *)
Definition selection_ok (s : storage_state) : Prop :=
  g_current_emmc_partition s = SDMMC_PARTITION_INVALID \/
  g_current_emmc_partition s = if g_emmc_device_initialized s then emmc_selected s else SDMMC_PARTITION_USER.

(** The state but for what transfers change: the cards and their drivers. *)
Definition others (s : storage_state) : storage_state :=
  s <| sd_bytes := fun _ => 0 |> <| emmc_bytes := fun _ _ => 0 |> <| emmc_selected := 0 |> <| g_ahb_redirect_enabled := false |>
    <| g_sd_device_initialized := false |> <| g_emmc_device_initialized := false |> <| g_current_emmc_partition := 0 |>.

(** The bytes of the card or of the part of the eMMC. *)
Definition part_card (part : mmc_partition_info_t) (s : storage_state) : Z -> Z :=
  match mmcpart_device part with g_sd_device => sd_bytes s | g_emmc_device => emmc_bytes s (mmcpart_partition part) end.

Lemma card_read_shift c base a n : card_read c (base + a) n = card_read (fun b => c (base + b)) a n.
Proof.
  apply bytes_ext; rewrite !length_card_read; [done|]. intros i Hi. rewrite !byte_at_card_read by lia. f_equal. lia.
Qed.
Lemma card_write_shift c base a data b : card_write c (base + a) data (base + b) = card_write (fun x => c (base + x)) a data b.
Proof.
  destruct (decide (a <= b < a + Z.of_nat (length data))); [rewrite !card_write_in by lia; f_equal; lia|].
  by rewrite !card_write_out by lia.
Qed.

(** A platform on which the cards work and memory does not run out. *)
Class WorkingCards (sto : Storage) (card : Card) := {
  sd_works : sd_init_ok = true;
  mmc_works : mmc_init_ok = true;
  select_works p : select_ok p = true;
  transfer_works dev rd sector num : transfer_ok dev rd sector num = true;
  heap_works n : heap_has n = true }.

Section Cards.
Context {soc : SoC} {card : Card} {sto : Storage} {Hcards : WorkingCards sto card}.
Context (part : mmc_partition_info_t) (start sectors : Z) (table : storage_state).
Context (Hpart : 0 <= mmcpart_partition part) (Hstart : 0 <= start) (Hsectors : 0 < sectors) (Hend : start + sectors <= 2 ^ 32).

(** The partition on the card, before any cipher. *)
Definition raw_bytes (w : FWorld) (a : Z) : Z := part_card part (f_dev w) (512 * start + a).

Record mmc_ok (dp : device_partition_t) (w : FWorld) : Prop := {
  mo_driver : driver dp = mmc_partition;
  mo_struct : device_struct dp = Some part;
  mo_start : start_sector dp = start;
  mo_num : num_sectors dp = sectors;
  mo_size : sector_size dp = 512;
  mo_bytes : forall a, is_u8 (raw_bytes w a);
  mo_selection : selection_ok (f_dev w);
  mo_table : others (f_dev w) = table;
  mo_init : initialized dp = true -> mmcpart_device part = g_emmc_device -> g_emmc_device_initialized (f_dev w) = true }.

Definition same_place (dp dp' : device_partition_t) : Prop :=
  device_struct dp' = device_struct dp /\ driver dp' = driver dp /\ start_sector dp' = start_sector dp /\
  num_sectors dp' = num_sectors dp /\ sector_size dp' = sector_size dp.
Lemma mmc_ok_moved dp dp' w w' : mmc_ok dp w -> same_place dp dp' -> raw_bytes w' = raw_bytes w -> selection_ok (f_dev w') ->
  others (f_dev w') = table -> (initialized dp' = true -> mmcpart_device part = g_emmc_device -> g_emmc_device_initialized (f_dev w') = true) -> mmc_ok dp' w'.
Proof. intros [] (E1 & E2 & E3 & E4 & E5) Hr Hs Ht Hi. split; try congruence. all: done || (intros a; by rewrite Hr). Qed.

Lemma redirect_run (w : FWorld) : exists w', (if negb (g_ahb_redirect_enabled (f_dev w))
    then hw mc_enable_ahb_redirect ;; dset (fun s => s <| g_ahb_redirect_enabled := true |>) else fret tt) w = (Ok tt, w') /\
  part_card part (f_dev w') = part_card part (f_dev w) /\ (selection_ok (f_dev w) -> selection_ok (f_dev w')) /\
  g_emmc_device_initialized (f_dev w') = g_emmc_device_initialized (f_dev w) /\ others (f_dev w') = others (f_dev w).
Proof. destruct (g_ahb_redirect_enabled _); eexists; (split; [reflexivity|]); done. Qed.

(** Initialising the partition: the work buffer, then the card. *)
Lemma mmc_initialize_run dp w : mmc_ok dp w ->
  let dp1 := snd (alloc_crypto_work_buffer dp) in
  exists w', mmc_partition_initialize dp w = (Ok (0, dp1 <| initialized := true |>), w') /\
    mmc_ok (dp1 <| initialized := true |>) w' /\ raw_bytes w' = raw_bytes w.
Proof.
  intros H dp1. unfold mmc_partition_initialize.
  assert (Ea : alloc_crypto_work_buffer dp = (0, dp1)) by (unfold dp1, alloc_crypto_work_buffer; by destruct (read_cipher dp), (write_cipher dp); rewrite ?heap_works).
  assert (E1 : same_place dp dp1)
    by (unfold dp1, alloc_crypto_work_buffer; by destruct (read_cipher dp), (write_cipher dp); rewrite ?heap_works).
  rewrite Ea. cbn [negb Z.eqb]. rewrite frun_dget.
  destruct (redirect_run w) as (w1 & R & Ec & Hsel & Ei & Et). rewrite (mo_table _ _ H) in Et. rewrite (frun_bind _ _ _ _ _ R), (proj1 E1), (mo_struct _ _ H).
  assert (Hraw : forall w', part_card part (f_dev w') = part_card part (f_dev w1) -> raw_bytes w' = raw_bytes w)
    by (intros w' Hw'; unfold raw_bytes; by rewrite Hw', Ec).
  specialize (Hsel (mo_selection _ _ H)).
  destruct (mmcpart_device part) eqn:Ed; rewrite frun_dget.
  - rewrite sd_works, andb_false_r. eexists. split; [reflexivity|].
    match goal with |- mmc_ok _ ?x /\ _ => set (w2 := x) end.
    assert (Er : raw_bytes w2 = raw_bytes w) by (apply Hraw; unfold part_card; by rewrite Ed).
    split; [|exact Er]. apply (mmc_ok_moved dp _ w); try done. congruence.
  - rewrite mmc_works, andb_false_r. eexists. split; [reflexivity|].
    match goal with |- mmc_ok _ ?x /\ _ => set (w2 := x) end.
    assert (Er : raw_bytes w2 = raw_bytes w) by (apply Hraw; unfold part_card; by rewrite Ed).
    split; [|exact Er]. apply (mmc_ok_moved dp _ w); try done.
Qed.

Lemma ensure_initialized_run dp w : mmc_ok dp w ->
  let dp1 := if initialized dp then dp else (snd (alloc_crypto_work_buffer dp)) <| initialized := true |> in
  exists w', ensure_initialized dp w = (Ok (0, dp1), w') /\ mmc_ok dp1 w' /\ initialized dp1 = true /\ raw_bytes w' = raw_bytes w.
Proof.
  intros H. unfold ensure_initialized, initializer. rewrite (mo_driver _ _ H). destruct (initialized dp) eqn:E.
  - exists w. done.
  - destruct (mmc_initialize_run dp w H) as (w' & R & O & V). by exists w'.
Qed.

Lemma select_run dp w : mmc_ok dp w -> initialized dp = true ->
  exists w', select_mmcpart part w = (Ok true, w') /\ mmc_ok dp w' /\ raw_bytes w' = raw_bytes w /\
    (mmcpart_device part = g_emmc_device -> emmc_selected (f_dev w') = mmcpart_partition part) /\ f_hw w' = f_hw w.
Proof.
  intros H Hi. unfold select_mmcpart. rewrite frun_dget.
  destruct (mmcpart_device part) eqn:Ed; [exists w; by rewrite bool_decide_false by done|]. rewrite bool_decide_true by done.
  destruct (_ =? _) eqn:E; cbn [andb negb]; [apply Z.eqb_eq in E|apply Z.eqb_neq in E].
  - exists w. repeat (split; [done|]). split; [|done]. intros _. destruct (mo_selection _ _ H) as [S|S]; rewrite E in S.
    + unfold SDMMC_PARTITION_INVALID in S. lia.
    + by rewrite (mo_init _ _ H Hi Ed) in S.
  - unfold sdmmc_mmc_select_partition. rewrite select_works. eexists. split; [reflexivity|].
    match goal with |- mmc_ok _ ?x /\ _ => set (w2 := x) end.
    assert (Er : raw_bytes w2 = raw_bytes w) by (unfold raw_bytes, part_card; by rewrite Ed).
    pose proof (mo_init _ _ H Hi Ed) as Hin. split; [|split; [exact Er|done]]. pose proof (mo_table _ _ H). apply (mmc_ok_moved dp _ w); try done.
    right. change (g_emmc_device_initialized (f_dev w2)) with (g_emmc_device_initialized (f_dev w)). by rewrite Hin.
Qed.

(** What the card holds is stored in the block, if it fits. *)
Lemma mmc_reads dp w dst ofs sector num : mmc_ok dp w -> initialized dp = true -> 0 <= sector -> 0 < num < 2 ^ 32 -> sector + num <= sectors ->
  exists w', mmc_partition_read dp dst ofs sector num w =
      (b ← heap (store_at dst ofs (card_read (raw_bytes w) (512 * sector) (512 * num))); fret (0, b)) w' /\
    mmc_ok dp w' /\ raw_bytes w' = raw_bytes w /\ f_hw w' = f_hw w.
Proof.
  intros H Hi Hs Hn Hsn. unfold mmc_partition_read. rewrite (mo_struct _ _ H).
  destruct (select_run dp w H Hi) as (w' & R & O & V & S & Eh). rewrite (frun_bind _ _ _ _ _ R). cbn [negb].
  rewrite (mo_start _ _ H), !u32_id by (unfold is_u32; lia). exists w'. split; [|done].
  assert (Ec : card_bytes (mmcpart_device part) w' = (Ok (part_card part (f_dev w')), w')).
  { unfold card_bytes, part_card. destruct (mmcpart_device part); [done|]. unfold dget, fgets. by rewrite S by done. }
  assert (Er : sdmmc_device_read (mmcpart_device part) (start + sector) num w' =
    (Ok (Some (card_read (raw_bytes w) (512 * sector) (512 * num))), w')).
  { unfold sdmmc_device_read. rewrite (frun_bind _ _ _ _ _ Ec), transfer_works.
    replace (512 * (start + sector)) with (512 * start + 512 * sector) by lia. rewrite card_read_shift.
    change (fun b => part_card part (f_dev w') (512 * start + b)) with (raw_bytes w'). by rewrite V. }
  by rewrite (frun_bind _ _ _ _ _ Er).
Qed.
Lemma mmc_read_run dp w dst ofs sector num : mmc_ok dp w -> initialized dp = true -> 0 <= sector -> 0 < num -> sector + num <= sectors ->
  0 <= ofs -> ofs + 512 * num <= Z.of_nat (length dst) -> Z.of_nat (length dst) < 2 ^ 32 ->
  exists w', mmc_partition_read dp dst ofs sector num w =
      (Ok (0, splice dst ofs (card_read (raw_bytes w) (512 * sector) (512 * num))), w') /\
    mmc_ok dp w' /\ raw_bytes w' = raw_bytes w /\ f_hw w' = f_hw w.
Proof.
  intros H Hi Hs Hn Hsn Ho Hd Hl. destruct (mmc_reads dp w dst ofs sector num) as (w' & R & K); [done|done|lia..|].
  exists w'. split; [|done]. rewrite R. by rewrite store_at_ok by (rewrite ?length_card_read; lia).
Qed.
Lemma mmc_read_bounds dp w dst sector num : mmc_ok dp w -> initialized dp = true -> 0 <= sector -> 0 < num < 2 ^ 32 -> sector + num <= sectors ->
  Z.of_nat (length dst) < 512 * num -> exists w', mmc_partition_read dp dst 0 sector num w = (Stop BadAccess, w').
Proof.
  intros H Hi Hs Hn Hsn Hd. destruct (mmc_reads dp w dst 0 sector num) as (w' & R & _); [done..|].
  exists w'. rewrite R. unfold store_at. destruct (card_read _ _ _) eqn:E; [pose proof (length_card_read (raw_bytes w) (512 * sector) (512 * num)) as L; rewrite E in L; cbn in L; lia|].
  rewrite <- E, length_card_read. change (u32 0) with 0. destruct (_ <=? _) eqn:G; [apply Z.leb_le in G; lia|done].
Qed.

Lemma mmc_write_run dp w src ofs sector num : mmc_ok dp w -> initialized dp = true -> 0 <= sector -> 0 < num -> sector + num <= sectors ->
  0 <= ofs -> ofs + 512 * num <= Z.of_nat (length src) -> Z.of_nat (length src) < 2 ^ 32 -> is_bytes (slice src ofs (512 * num)) ->
  exists w', mmc_partition_write dp src ofs sector num w = (Ok 0, w') /\ mmc_ok dp w' /\
    (forall a, raw_bytes w' a = card_write (raw_bytes w) (512 * sector) (slice src ofs (512 * num)) a) /\ f_hw w' = f_hw w.
Proof.
  intros H Hi Hs Hn Hsn Ho Hd Hl Hb. unfold mmc_partition_write. rewrite (mo_struct _ _ H).
  destruct (select_run dp w H Hi) as (w1 & R & O & V & S & Eh). rewrite (frun_bind _ _ _ _ _ R). cbn [negb].
  rewrite (mo_start _ _ H), !u32_id, load_at_ok, frun_heap by (unfold is_u32; lia). set (data := slice src ofs _).
  unfold sdmmc_device_write. rewrite transfer_works.
  assert (Hw : forall w2, part_card part (f_dev w2) = card_write (part_card part (f_dev w1)) (512 * (start + sector)) data ->
    forall a, raw_bytes w2 a = card_write (raw_bytes w) (512 * sector) data a).
  { intros w2 E a. unfold raw_bytes at 1. rewrite E. replace (512 * (start + sector)) with (512 * start + 512 * sector) by lia.
    rewrite card_write_shift. change (fun x => part_card part (f_dev w1) (512 * start + x)) with (raw_bytes w1). by rewrite V. }
  eexists. split; [reflexivity|]. match goal with |- mmc_ok _ ?x /\ _ => set (w2 := x) end.
  assert (Hraw : forall a, raw_bytes w2 a = card_write (raw_bytes w) (512 * sector) data a).
  { apply Hw. unfold part_card, w2. destruct (mmcpart_device part); [done|]. cbn. rewrite S by done. by rewrite Z.eqb_refl. }
  split; [|split; [exact Hraw|done]]. pose proof (mo_bytes _ _ H) as Hbytes. destruct O. split; try done.
  - intros a. rewrite Hraw. by apply card_write_bytes.
  - unfold w2. by destruct (mmcpart_device part).
  - unfold w2. by destruct (mmcpart_device part).
  - intros _ Hd'. unfold w2. rewrite Hd'. exact (mo_init0 Hi Hd').
Qed.
End Cards.

(** ** A partition without a cipher *)

Section Plain.
Context {soc : SoC} {card : Card} {sto : Storage} {Hcards : WorkingCards sto card}.
Context (part : mmc_partition_info_t) (start sectors : Z) (table : storage_state).
Context (Hpart : 0 <= mmcpart_partition part) (Hstart : 0 <= start) (Hsectors : 0 < sectors) (Hend : start + sectors <= 2 ^ 32).

Definition plain_ok (dp : device_partition_t) (w : FWorld) : Prop :=
  mmc_ok part start sectors table dp w /\ crypto_mode dp = DevicePartitionCryptoMode_None.

Lemma plain_initialized dp w : plain_ok dp w -> exists dp1 w1, ensure_initialized dp w = (Ok (0, dp1), w1) /\
  plain_ok dp1 w1 /\ initialized dp1 = true /\ raw_bytes part start w1 = raw_bytes part start w.
Proof.
  intros [H Hm]. destruct (ensure_initialized_run part start sectors table dp w H) as (w1 & R & O & I & V).
  eexists _, w1. split; [exact R|]. split; [|done]. split; [done|].
  destruct (initialized dp); [done|]. unfold alloc_crypto_work_buffer. by destruct (read_cipher dp), (write_cipher dp); rewrite ?heap_works.
Qed.

#[export] Program Instance plain_device : SectorDevice device_partition_read_data device_partition_write_data sectors sectors := {
  dev_ok := plain_ok; dev_bytes := raw_bytes part start }.
Next Obligation. lia. Qed.
Next Obligation. by intros dp w [[] _]. Qed.
Next Obligation. by intros dp w [[] _]. Qed.
Next Obligation.
  intros dp w dst ofs sector num Hok Hs Hn Hsn Ho Hd Hl.
  destruct (plain_initialized dp w Hok) as (dp1 & w1 & R & [O M] & I & V). unfold device_partition_read_data.
  rewrite (frun_bind _ _ _ _ _ R). cbn [negb Z.eqb]. unfold read_sectors, active_cipher. rewrite M. unfold reader. rewrite (mo_driver _ _ _ _ _ _ O).
  destruct (mmc_read_run part start sectors table Hpart Hstart Hend dp1 w1 dst ofs sector num) as (w2 & R2 & O2 & V2 & _); [done|done|lia..|].
  rewrite (frun_bind _ _ _ _ _ R2), V. exists dp1, w2. split; [reflexivity|]. split; [done|]. intros a _. by rewrite V2, V.
Qed.
Next Obligation.
  intros dp w src ofs sector num Hok Hs Hn Hsn Hb Ho Hd Hl.
  destruct (plain_initialized dp w Hok) as (dp1 & w1 & R & [O M] & I & V). unfold device_partition_write_data.
  rewrite (frun_bind _ _ _ _ _ R). cbn [negb Z.eqb]. unfold write_sectors, active_cipher. rewrite M. unfold writer. rewrite (mo_driver _ _ _ _ _ _ O).
  destruct (mmc_write_run part start sectors table Hpart Hstart Hend dp1 w1 src ofs sector num) as (w2 & R2 & O2 & V2 & _); [done|done|lia..|by apply slice_is_bytes|].
  rewrite (frun_bind _ _ _ _ _ R2). exists dp1, w2. split; [reflexivity|]. split; [done|]. intros a _. by rewrite V2, V.
Qed.
End Plain.

(** ** A partition encrypted with AES-XTS *)

Section Encrypted.
Context {soc : SoC} {HC : CryptoEngine soc} {HB : BulkEngine soc}.
Context {card : Card} {sto : Storage} {Hcards : WorkingCards sto card}.
Context (part : mmc_partition_info_t) (start sectors : Z) (table : storage_state) (k0 k1 : list Z).
Context (Hpart : 0 <= mmcpart_partition part) (Hstart : 0 <= start) (Hsectors : 0 < sectors) (Hend : start + sectors <= 2 ^ 32).
Context (Hk0 : is_block k0) (Hk1 : is_block k1).

Let dec := xts_sector_list (aes_decrypt k0) (aes_encrypt k1) 32.
Let enc := xts_sector_list (aes_encrypt k0) (aes_encrypt k1) 32.

(** The bytes behind the cipher: each sector decrypted with its number, counted
    from the start of the partition, as tweak. *)
Definition xts_view (c : Z -> Z) (a : Z) : Z := byte_at (dec 1 (a / 512) (card_read c (512 * (a / 512)) 512)) (a mod 512).

Lemma dec_blocks : maps_blocks (aes_decrypt k0).
Proof. intros b Hb. by apply aes_decrypt_block. Qed.
Lemma enc_blocks : maps_blocks (aes_encrypt k0).
Proof. intros b Hb. by apply aes_encrypt_block. Qed.
Lemma tweak_blocks : maps_blocks (aes_encrypt k1).
Proof. intros b Hb. by apply aes_encrypt_block. Qed.

Lemma xts_list_length f m sector data : maps_blocks f -> is_bytes data -> length data = (512 * m)%nat ->
  length (xts_sector_list f (aes_encrypt k1) 32 m sector data) = (512 * m)%nat /\ is_bytes (xts_sector_list f (aes_encrypt k1) 32 m sector data).
Proof.
  intros Hf. revert sector data. induction m as [|m IH]; intros sector data Hb Hl; cbn [xts_sector_list]; [split; [done|constructor]|].
  change (16 * 32)%nat with 512%nat. assert (L1 : length (take 512 data) = (16 * 32)%nat) by (rewrite length_take; lia).
  destruct (ecb_xts f 32 (aes_encrypt k1 (sector_tweak (u32 sector))) (take 512 data) Hf) as (_ & _ & _ & _ & X1 & X2);
    [apply tweak_blocks, sector_tweak_block|by apply Forall_take|done|].
  destruct (IH (sector + 1) (drop 512 data)) as [I1 I2]; [by apply Forall_drop|rewrite length_drop; lia|].
  split; [rewrite length_app, X1, I1; lia|by apply Forall_app_2].
Qed.

Lemma dec_one sector data : dec 1 sector data = xts_blocks (aes_decrypt k0) 32 (aes_encrypt k1 (sector_tweak (u32 sector))) (take 512 data).
Proof. unfold dec. cbn [xts_sector_list]. by rewrite app_nil_r. Qed.

Lemma dec_view c m sector : (forall b, is_u8 (c b)) -> 0 <= sector ->
  dec m sector (card_read c (512 * sector) (512 * Z.of_nat m)) = card_read (xts_view c) (512 * sector) (512 * Z.of_nat m).
Proof.
  intros Hc. revert sector. induction m as [|m IH]; intros sector Hs; [done|].
  replace (512 * Z.of_nat (S m)) with (512 + 512 * Z.of_nat m) by lia. rewrite !card_read_app by lia.
  unfold dec. cbn [xts_sector_list]. change (16 * 32)%nat with 512%nat. fold dec.
  rewrite take_app_length', drop_app_length' by (by rewrite length_card_read).
  replace (512 * sector + 512) with (512 * (sector + 1)) by lia. rewrite IH by lia. f_equal.
  assert (Ld : length (dec 1 sector (card_read c (512 * sector) 512)) = 512%nat).
  { apply (xts_list_length _ 1); [apply dec_blocks|by apply card_read_is_bytes|by rewrite length_card_read]. }
  assert (E1 : dec 1 sector (card_read c (512 * sector) 512) =
    xts_blocks (aes_decrypt k0) 32 (aes_encrypt k1 (sector_tweak (u32 sector))) (card_read c (512 * sector) 512)).
  { rewrite dec_one, take_ge by (rewrite length_card_read; lia). done. }
  rewrite <- E1. apply bytes_ext; [by rewrite length_card_read|]. rewrite Ld. intros i Hi. rewrite byte_at_card_read by lia.
  unfold xts_view. replace ((512 * sector + i) / 512) with sector by (apply Z.div_unique with i; lia).
  replace ((512 * sector + i) mod 512) with i by (apply Z.mod_unique with sector; lia). done.
Qed.

Lemma xts_view_bytes c : (forall b, is_u8 (c b)) -> forall a, is_u8 (xts_view c a).
Proof.
  intros Hc a. unfold xts_view. set (l := dec _ _ _).
  assert (Hb : is_bytes l) by (apply (xts_list_length _ 1); [apply dec_blocks|by apply card_read_is_bytes|by rewrite length_card_read]).
  pose proof (Z.mod_pos_bound a 512). rewrite byte_at_lookup by lia. destruct (l !! _) eqn:E; cbn; [by eapply Forall_lookup_1 in E|done].
Qed.

(** Writing encrypted sectors writes the bytes behind the cipher. *)
Lemma xts_view_write c m sector data a : (forall b, is_u8 (c b)) -> is_bytes data -> length data = (512 * m)%nat -> 0 <= sector -> 0 <= a ->
  xts_view (card_write c (512 * sector) (enc m sector data)) a = card_write (xts_view c) (512 * sector) data a.
Proof.
  intros Hc Hb Hl Hs Ha. destruct (xts_list_length (aes_encrypt k0) m sector data enc_blocks Hb Hl) as [Le Be]. fold (enc m sector data) in Le, Be.
  set (c' := card_write c (512 * sector) (enc m sector data)).
  assert (Hc' : forall b, is_u8 (c' b)) by (by apply card_write_bytes).
  destruct (decide (512 * sector <= a < 512 * sector + Z.of_nat (length data))) as [Hin|Hout].
  - rewrite card_write_in by done.
    assert (E : card_read (xts_view c') (512 * sector) (512 * Z.of_nat m) = data).
    { rewrite <- dec_view by done. unfold c'. rewrite card_read_write by lia.
      apply (xts_sector_list_inverse (aes_encrypt k0) (aes_decrypt k0) (aes_encrypt k1) 32 m sector data);
        [apply enc_blocks|intros b Hbb; by apply aes_decrypt_encrypt|apply tweak_blocks|done|lia]. }
    transitivity (byte_at (card_read (xts_view c') (512 * sector) (512 * Z.of_nat m)) (a - 512 * sector)); [|by rewrite E].
    rewrite byte_at_card_read by lia. f_equal. lia.
  - rewrite card_write_out by done. unfold xts_view. do 2 f_equal. apply card_read_ext. intros b Hb'. unfold c'. apply card_write_out.
    pose proof (Z.div_mod a 512). pose proof (Z.mod_pos_bound a 512). lia.
Qed.

(** The cipher on the work buffer. *)
Lemma bis_crypt_run (encrypt : bool) dp buf sector m w :
  crypto_mode dp = DevicePartitionCryptoMode_Xts -> devpart_keys dp = [k0; k1] -> sector_size dp = 512 ->
  crypto_work_buffer dp = Some buf -> (0 < m)%nat -> (512 * m <= length buf)%nat -> Z.of_nat (length buf) < 2 ^ 32 ->
  is_bytes (take (512 * m) buf) ->
  exists w', nxfs_bis_crypt encrypt dp sector (Z.of_nat m) w =
      (Ok (0, dp <| crypto_work_buffer := Some (splice buf 0 ((if encrypt then enc else dec) m sector (take (512 * m) buf))) |>), w') /\
    f_dev w' = f_dev w.
Proof.
  intros Hm Hk Hss Hbuf Hm0 Hl Hlen Hb. unfold nxfs_bis_crypt. rewrite Hm, Hss, Hk. cbn [nth].
  destruct (set_aes_keyslot_run keyslot_a k0 (f_hw w)) as (h1 & R1 & [K1 _] & _); [unfold keyslot_a; lia|done|].
  rewrite (frun_bind _ _ _ _ _ (frun_hw _ _ _ _ R1)). set (w1 := w <| f_hw := _ |>).
  destruct (set_aes_keyslot_run keyslot_b k1 (f_hw w1)) as (h2 & R2 & [K2 O2] & _); [unfold keyslot_b; lia|done|].
  rewrite (frun_bind _ _ _ _ _ (frun_hw _ _ _ _ R2)). set (w2 := w1 <| f_hw := _ |>).
  assert (Ek0 : slot_key (w_se (f_hw w2)) keyslot_a = k0) by (unfold w2; cbn; rewrite O2 by (unfold keyslot_a, keyslot_b; lia); exact K1).
  assert (Ek1 : slot_key (w_se (f_hw w2)) keyslot_b = k1) by exact K2.
  unfold in_work_buffer. rewrite Hbuf, (u32_id (Z.of_nat m * 512)) by (unfold is_u32; lia).
  rewrite load_at_ok, frun_heap by lia. set (data := slice buf 0 _).
  assert (Ed : data = take (512 * m) buf) by (unfold data, slice; rewrite drop_0; f_equal; lia).
  assert (Ld : length data = (16 * 32 * m)%nat) by (rewrite Ed, length_take; lia).
  replace (Z.of_nat m * 512) with (Z.of_nat (length data)) by lia. change 512 with (Z.of_nat (16 * 32)) at 1 2.
  assert (Hx : exists h, (if encrypt
      then se_aes_128_xts_nintendo_encrypt true keyslot_a keyslot_b (u32 sector) data data (Z.of_nat (length data)) (Z.of_nat (16 * 32))
      else se_aes_128_xts_nintendo_decrypt true keyslot_a keyslot_b (u32 sector) data data (Z.of_nat (length data)) (Z.of_nat (16 * 32))) (f_hw w2) =
    (Ret ((if encrypt then enc else dec) m sector data), h)).
  { destruct (size_blocks (32 * m)) as [G _]; [lia|lia|]. replace (Z.of_nat (16 * (32 * m))) with (Z.of_nat (length data)) in G by lia.
    destruct (xts_sectors_run encrypt keyslot_a keyslot_b 32 m (S (Z.to_nat (Z.of_nat (length data)))) (u32 sector) [] data data (f_hw w2))
      as (h & R & _); [unfold keyslot_a; lia|unfold keyslot_b; lia|lia|lia|lia|by rewrite Ed|done|done|lia|].
    cbn [length app] in R. change (Z.of_nat 0) with 0 in R. rewrite Ek0, Ek1, xts_list_u32 in R.
    unfold se_aes_128_xts_nintendo_encrypt, se_aes_128_xts_nintendo_decrypt. rewrite G. eexists.
    destruct encrypt; exact R. }
  destruct Hx as (h & Hx). rewrite (frun_bind _ _ _ _ _ (frun_hw _ _ _ _ Hx)). rewrite Ed. eexists. split; [reflexivity|done].
Qed.

Record encrypted_ok (dp : device_partition_t) (w : FWorld) : Prop := {
  eo_mmc : mmc_ok part start sectors table dp w;
  eo_mode : crypto_mode dp = DevicePartitionCryptoMode_Xts;
  eo_read : read_cipher dp = Some nxfs_bis_crypto_decrypt_fn;
  eo_write : write_cipher dp = Some nxfs_bis_crypto_encrypt_fn;
  eo_keys : devpart_keys dp = [k0; k1];
  eo_buffer : initialized dp = true -> crypto_work_buffer_num_sectors dp = 8192 /\
    exists buf, crypto_work_buffer dp = Some buf /\ Z.of_nat (length buf) = 8192 }.

Lemma encrypted_ok_moved dp w w' buf : encrypted_ok dp w -> mmc_ok part start sectors table dp w' -> Z.of_nat (length buf) = 8192 ->
  encrypted_ok (dp <| crypto_work_buffer := Some buf |>) w'.
Proof.
  intros [] [] Hl. split; try done. intros Hi. split; [by apply eo_buffer0|by exists buf].
Qed.
Lemma mmc_ok_world dp w w' : mmc_ok part start sectors table dp w -> f_dev w' = f_dev w -> mmc_ok part start sectors table dp w'.
Proof. intros [] E. split; try done; [intros a; unfold raw_bytes in *; by rewrite E|by rewrite E..]. Qed.

Lemma encrypted_initialized dp w : encrypted_ok dp w -> exists dp1 w1, ensure_initialized dp w = (Ok (0, dp1), w1) /\
  encrypted_ok dp1 w1 /\ initialized dp1 = true /\ raw_bytes part start w1 = raw_bytes part start w.
Proof.
  intros H. destruct (ensure_initialized_run part start sectors table dp w (eo_mmc _ _ H)) as (w1 & R & O & I & V).
  eexists _, w1. split; [exact R|]. split; [|done]. destruct (initialized dp) eqn:E; [by destruct H|].
  pose proof (mo_size _ _ _ _ _ _ (eo_mmc _ _ H)) as Hss. destruct H. unfold alloc_crypto_work_buffer in *. rewrite eo_read0, heap_works, Hss in *.
  split; try done. intros _. split; [done|]. eexists. split; [reflexivity|]. unfold allocated, range. rewrite length_map, length_seqZ, Z2Nat.id; done.
Qed.

Lemma take_splice (buf data : list Z) : (length data <= length buf)%nat -> take (length data) (splice buf 0 data) = data.
Proof.
  intros H. rewrite <- (Nat2Z.id (length data)) at 1. change (slice (splice buf 0 data) 0 (Z.of_nat (length data)) = data).
  apply slice_splice_eq; lia.
Qed.

#[export] Program Instance encrypted_device : SectorDevice device_partition_read_data device_partition_write_data sectors 16 := {
  dev_ok := encrypted_ok; dev_bytes w := xts_view (raw_bytes part start w) }.
Next Obligation. lia. Qed.
Next Obligation. by intros dp w [[]]. Qed.
Next Obligation. intros dp w [[]] a. by apply xts_view_bytes. Qed.
Next Obligation.
  intros dp w dst ofs sector num Hok Hs Hn Hsn Ho Hd Hl.
  destruct (encrypted_initialized dp w Hok) as (dp1 & w1 & R & O & I & V). unfold device_partition_read_data.
  rewrite (frun_bind _ _ _ _ _ R). cbn [negb Z.eqb]. unfold read_sectors, active_cipher. rewrite (eo_mode _ _ O), (eo_read _ _ O).
  destruct (eo_buffer _ _ O I) as (En & buf & Eb & Lb).
  assert (Er : round_sectors dp1 0 num = num) by (unfold round_sectors; rewrite En, u64_id by (unfold is_u64; lia); zdec; lia).
  cbn [read_loop]. rewrite Er, Eb. zdec. rewrite Z.add_0_r, (u64_id sector) by (unfold is_u64; lia).
  unfold reader. rewrite (mo_driver _ _ _ _ _ _ (eo_mmc _ _ O)).
  destruct (mmc_read_run part start sectors table Hpart Hstart Hend dp1 w1 buf 0 sector num) as (w2 & R2 & O2 & V2 & _); [apply O|done|lia..|].
  rewrite (frun_bind _ _ _ _ _ R2). cbn [negb Z.eqb]. set (raw := card_read _ _ _).
  assert (Lraw : length raw = Z.to_nat (512 * num)) by apply length_card_read.
  assert (Hraw : is_bytes raw) by (apply card_read_is_bytes, (mo_bytes _ _ _ _ _ _ (eo_mmc _ _ O))).
  set (buf1 := splice buf 0 raw). assert (Lb1 : Z.of_nat (length buf1) = 8192) by (unfold buf1; rewrite length_splice; lia).
  assert (Et : take (512 * Z.to_nat num) buf1 = raw) by (replace (512 * Z.to_nat num)%nat with (length raw) by lia; apply take_splice; lia).
  destruct (bis_crypt_run false (dp1 <| crypto_work_buffer := Some buf1 |>) buf1 sector (Z.to_nat num) w2)
    as (w3 & R3 & E3); [apply O|apply O|apply (mo_size _ _ _ _ _ _ (eo_mmc _ _ O))|done|lia|lia|lia|by rewrite Et|].
  rewrite Et, Z2Nat.id in R3 by lia. cbn [call_cipher]. unfold nxfs_bis_crypto_decrypt. rewrite (frun_bind _ _ _ _ _ R3). cbn [negb Z.eqb].
  assert (Ed : dec (Z.to_nat num) sector raw = card_read (xts_view (raw_bytes part start w)) (512 * sector) (512 * num)).
  { unfold raw. rewrite V. replace (512 * num) with (512 * Z.of_nat (Z.to_nat num)) by lia. apply dec_view; [|done].
    intros a. rewrite <- V. apply (mo_bytes _ _ _ _ _ _ (eo_mmc _ _ O)). }
  rewrite Ed. set (plain := card_read _ _ _). assert (Lp : length plain = Z.to_nat (512 * num)) by apply length_card_read.
  assert (Ess : sector_size dp1 = 512) by apply (mo_size _ _ _ _ _ _ (eo_mmc _ _ O)).
  cbn [crypto_work_buffer sector_size update eta_devpart]. 
  change (sector_size (dp1 <| crypto_work_buffer := Some buf1 |> <| crypto_work_buffer := Some (splice buf1 0 plain) |>)) with (sector_size dp1).
  change (crypto_work_buffer (dp1 <| crypto_work_buffer := Some buf1 |> <| crypto_work_buffer := Some (splice buf1 0 plain) |>)) with (Some (splice buf1 0 plain)).
  cbn [default from_option id]. rewrite Ess, (u32_id (512 * num)) by (unfold is_u32; lia).
  rewrite load_at_ok, frun_heap by (rewrite ?length_splice; lia). rewrite slice_splice_eq by lia.
  change (u32 (512 * 0)) with 0. rewrite Z.add_0_r, store_at_ok, frun_heap by lia.
  destruct (Z.to_nat num) as [|fuel] eqn:Ef; [lia|]. cbn [read_loop].
  change (crypto_work_buffer_num_sectors (dp1 <| crypto_work_buffer := Some buf1 |> <| crypto_work_buffer := Some (splice buf1 0 plain) |>))
    with (crypto_work_buffer_num_sectors dp1). rewrite En, (u64_id (0 + 8192)) by (unfold is_u64; lia). zdec.
  eexists _, w3. split; [reflexivity|]. split.
  - apply (encrypted_ok_moved dp1 w1); [done|by apply (mmc_ok_world dp1 w2)|rewrite length_splice; lia].
  - intros a Ha. replace (raw_bytes part start w3) with (raw_bytes part start w); [done|].
    rewrite <- V, <- V2. unfold raw_bytes. by rewrite E3.
Qed.
Next Obligation.
  intros dp w src ofs sector num Hok Hs Hn Hsn Hb Ho Hd Hl.
  destruct (encrypted_initialized dp w Hok) as (dp1 & w1 & R & O & I & V). unfold device_partition_write_data.
  rewrite (frun_bind _ _ _ _ _ R). cbn [negb Z.eqb]. unfold write_sectors, active_cipher. rewrite (eo_mode _ _ O), (eo_write _ _ O).
  destruct (eo_buffer _ _ O I) as (En & buf & Eb & Lb).
  assert (Er : round_sectors dp1 0 num = num) by (unfold round_sectors; rewrite En, u64_id by (unfold is_u64; lia); zdec; lia).
  assert (Ess : sector_size dp1 = 512) by apply (mo_size _ _ _ _ _ _ (eo_mmc _ _ O)).
  cbn [write_loop]. rewrite Er, Eb, Ess. zdec. rewrite Z.add_0_r, (u64_id sector), (u32_id (512 * num)) by (unfold is_u64, is_u32; lia).
  change (u32 (512 * 0)) with 0. rewrite Z.add_0_r, load_at_ok, frun_heap by lia. set (plain := slice src ofs _).
  assert (Lp : length plain = Z.to_nat (512 * num)) by (apply length_slice; lia).
  assert (Hp : is_bytes plain) by (by apply slice_is_bytes).
  rewrite store_at_ok, frun_heap by lia. set (buf1 := splice buf 0 plain).
  assert (Lb1 : Z.of_nat (length buf1) = 8192) by (unfold buf1; rewrite length_splice; lia).
  assert (Et : take (512 * Z.to_nat num) buf1 = plain) by (replace (512 * Z.to_nat num)%nat with (length plain) by lia; apply take_splice; lia).
  destruct (bis_crypt_run true (dp1 <| crypto_work_buffer := Some buf1 |>) buf1 sector (Z.to_nat num) w1)
    as (w2 & R2 & E2); [apply O|apply O|done|done|lia|lia|lia|by rewrite Et|].
  rewrite Et, Z2Nat.id in R2 by lia. cbn [call_cipher]. unfold nxfs_bis_crypto_encrypt. rewrite (frun_bind _ _ _ _ _ R2). cbn [negb Z.eqb].
  set (ct := enc _ _ _). destruct (xts_list_length (aes_encrypt k0) (Z.to_nat num) sector plain enc_blocks Hp) as [Lc Hc]; [lia|].
  fold (enc (Z.to_nat num) sector plain) in Lc, Hc. fold ct in Lc, Hc.
  set (dp2 := (dp1 <| crypto_work_buffer := Some buf1 |>) <| crypto_work_buffer := Some (splice buf1 0 ct) |>).
  assert (Lb2 : Z.of_nat (length (splice buf1 0 ct)) = 8192) by (rewrite length_splice; lia).
  change (default [] (crypto_work_buffer dp2)) with (splice buf1 0 ct).
  assert (O2 : mmc_ok part start sectors table dp2 w2) by (apply (mmc_ok_world dp2 w1); [by destruct O as [[]]|done]).
  unfold writer. rewrite (mo_driver _ _ _ _ _ _ O2).
  assert (Ec : slice (splice buf1 0 ct) 0 (512 * num) = ct) by (apply slice_splice_eq; lia).
  destruct (mmc_write_run part start sectors table Hpart Hstart Hend dp2 w2 (splice buf1 0 ct) 0 sector num) as (w3 & R3 & O3 & V3 & _);
    [done|done|lia..|by rewrite Ec|]. rewrite Ec in V3. rewrite (frun_bind _ _ _ _ _ R3). cbn [negb Z.eqb].
  destruct (Z.to_nat num) as [|fuel] eqn:Ef; [lia|]. cbn [write_loop].
  change (crypto_work_buffer_num_sectors dp2) with (crypto_work_buffer_num_sectors dp1). rewrite En, (u64_id (0 + 8192)) by (unfold is_u64; lia). zdec.
  eexists _, w3. split; [reflexivity|]. split; [apply (encrypted_ok_moved (dp1 <| crypto_work_buffer := Some buf1 |>) w1);
    [apply (encrypted_ok_moved dp1 w1); [done|apply O|done]|by destruct O3|done]|].
  intros a Ha. rewrite <- (xts_view_write (raw_bytes part start w) (Z.to_nat num) sector plain a); [|..].
  - unfold xts_view. do 2 f_equal. apply card_read_ext. intros b _. rewrite V3. rewrite Ef. fold ct. apply card_write_ext.
    rewrite <- V. unfold raw_bytes. by rewrite E2.
  - intros b. rewrite <- V. apply (mo_bytes _ _ _ _ _ _ (eo_mmc _ _ O)).
  - done.
  - lia.
  - done.
  - done.
Qed.
End Encrypted.
