(* ===== verification/StorageToy.v ===== *)
(** Concrete cards for the witnesses of the storage theorems: transfers succeed,
    memory is zero when it is allocated, and the eMMC holds given bytes. *)
From S2P Require Import Prelude State Utils Se Platform Devices Fusee FuseeToy FuseeKeys Storage StorageProps.
Import NxfsDriver Toy.

#[export] Instance toy_storage : Storage := {
  sd_init_ok := true;
  mmc_init_ok := true;
  select_ok _ := true;
  transfer_ok _ _ _ _ := true;
  fresh_byte _ := 0;
  devoptab_room := 16;
  seek_negative size off := Z.max 0 (size + off);
  gap_byte _ := 0;
  f_mount_result _ _ := 0;
  f_unmount_result _ := 0;
  f_chdrive_result _ := 0;
  volume_is_exfat _ := false;
  f_stat_result _ := inl 4;
  f_chmod_result _ _ _ := 4 }.

#[export] Instance toy_working_cards : WorkingCards toy_storage empty_card.
Proof. by split. Qed.

(** A partition of [n] sectors at sector [start] of the user area; with keys, it
    is encrypted. *)
Definition toy_partition (start n : Z) (keys : option (list Z * list Z)) : device_partition_t :=
  let dp := g_mmc_devpart_template <| device_struct := Some g_emmc_user_mmcpart |> <| start_sector := start |> <| num_sectors := n |> in
  match keys with
  | None => dp
  | Some (k0, k1) => dp <| read_cipher := Some nxfs_bis_crypto_decrypt_fn |> <| write_cipher := Some nxfs_bis_crypto_encrypt_fn |>
                        <| crypto_mode := DevicePartitionCryptoMode_Xts |> <| devpart_keys := [k0; k1] |>
  end.
Definition toy_device (start n : Z) (keys : option (list Z * list Z)) : rawdev_device_t :=
  mk_rawdev (zeros 512) (toy_partition start n keys) (str "toy") (str "toy:/") true false.

(** A machine with the device in slot 0 and the bytes [c] on the eMMC. *)
Definition toy_disk (c : Z -> Z) (d : rawdev_device_t) : FWorld :=
  mk_fworld (toy_world 11) (mk_ips_state false)
    (mk_stratosphere_state None None true true true true true true 0) (mk_fusee_keys 0 false [] [])
    (empty_storage <| emmc_bytes := fun _ => c |> <| g_rawdev_devices := d :: replicate 15 no_rawdev |>).
