(* ===== verification/RawDevProps.v ===== *)
(** The raw devices (raw_dev.c) as files: reading and writing a mounted device is
    reading and writing the bytes of its partition, plain or encrypted; what goes
    wrong at the end of a device and with large encrypted transfers; seeking and
    unmounting. *)
From S2P Require Import Prelude State Utils Se Engine Platform SeProps Devices Fusee FuseeToy FuseeKeys XtsProps Storage Nxfs StorageProps StorageToy.
Import SE FuseeSe NxfsDriver DevicePartition FileDev RawDev.

Section Raw.
Context {soc : SoC} {HC : CryptoEngine soc} {HB : BulkEngine soc}.
Context {card : Card} {sto : Storage} {Hcards : WorkingCards sto card}.
Context (part : mmc_partition_info_t) (start sectors : Z) (keys : option (list Z * list Z)).

(** The contents of a partition, seen through its keys if it has any. *)
Definition device_view (w : FWorld) : Z -> Z :=
  match keys with
  | None => raw_bytes part start w
  | Some (k0, k1) => xts_view k0 k1 (raw_bytes part start w)
  end.
Definition devpart_ok (table : storage_state) (dp : device_partition_t) (w : FWorld) : Prop :=
  match keys with
  | None => plain_ok part start sectors table dp w
  | Some (k0, k1) => encrypted_ok part start sectors table k0 k1 dp w
  end.
(** How many sectors one request may cover in full. *)
Definition max_request : Z := match keys with None => sectors | Some _ => 16 end.

(** Slot [i] holds a mounted device for the partition. *)
Definition device_ready (i : nat) (w : FWorld) : Prop :=
  exists d, g_rawdev_devices (f_dev w) !! i = Some d /\ length (tmp_sector d) = 512%nat /\
    devpart_ok (others (f_dev w)) (devpart d) w.

Definition partition_in_range : Prop :=
  0 <= mmcpart_partition part /\ 0 <= start /\ 0 < sectors /\ start + sectors <= 2 ^ 32 /\
  match keys with None => True | Some (k0, k1) => is_block k0 /\ is_block k1 end.
Context (Hrange : partition_in_range).

(** The device table may change without the partition. *)
Definition with_table (s : list rawdev_device_t) (w : FWorld) : FWorld := w <| f_dev ::= fun x => x <| g_rawdev_devices := s |> |>.
Definition cards (s : storage_state) := (sd_bytes s, emmc_bytes s, emmc_selected s, g_emmc_device_initialized s, g_current_emmc_partition s).
Lemma devpart_ok_kept tbl dp w w' : devpart_ok tbl dp w -> cards (f_dev w') = cards (f_dev w) -> devpart_ok (others (f_dev w')) dp w'.
Proof.
  intros Hok [= C1 C2 C3 C4 C5].
  assert (Hm : mmc_ok part start sectors tbl dp w -> mmc_ok part start sectors (others (f_dev w')) dp w').
  { intros []. split; try done.
    - intros a. pose proof (mo_bytes a). unfold raw_bytes, part_card in *. by rewrite C1, C2.
    - unfold selection_ok in *. by rewrite C3, C4, C5.
    - intros. rewrite C4. auto. }
  unfold devpart_ok in *. destruct keys as [[k0 k1]|]; destruct Hok; split; auto.
Qed.
Lemma device_view_kept w w' a : cards (f_dev w') = cards (f_dev w) -> device_view w' a = device_view w a.
Proof.
  intros [= C1 C2 C3 C4 C5]. assert (E : raw_bytes part start w' = raw_bytes part start w) by (unfold raw_bytes, part_card; by rewrite C1, C2).
  unfold device_view. destruct keys as [[]|]; by rewrite E.
Qed.
Lemma devpart_table tbl dp w : devpart_ok tbl dp w -> others (f_dev w) = tbl.
Proof. unfold devpart_ok. intros H. destruct keys as [[]|]; apply H. Qed.
Lemma run_set_rawdev {B} i d (k : unit -> F B) w :
  (set_rawdev i d ≫= k) w = k tt (with_table (<[i := d]> (g_rawdev_devices (f_dev w))) w).
Proof. done. Qed.

(** From [w] to [w'] only the cards, their drivers, and the partition and the
    sector buffer of the device in slot [i] have changed. *)
Definition same_device (d d' : rawdev_device_t) : Prop :=
  dev_name d' = dev_name d /\ root_path d' = root_path d /\ setup d' = setup d /\ registered d' = registered d.
Definition only_slot (i : nat) (w w' : FWorld) : Prop := exists d d',
  g_rawdev_devices (f_dev w) !! i = Some d /\ same_device d d' /\
  others (f_dev w') = others ((f_dev w) <| g_rawdev_devices := <[i := d']> (g_rawdev_devices (f_dev w)) |>).

(** The operations on the device of a slot, from what they do to its record. *)
Lemma device_io i m w (v : Z -> Z) (r : Z * devfile * list Z) : device_ready i w ->
  (forall d, length (tmp_sector d) = 512%nat -> devpart_ok (others (f_dev w)) (devpart d) w ->
    exists d' w', m d w = (Ok (r.1.1, d', r.1.2, r.2), w') /\ devpart_ok (others (f_dev w)) (devpart d') w' /\
      length (tmp_sector d') = 512%nat /\ same_device d d' /\ (forall a, 0 <= a -> device_view w' a = v a)) ->
  exists w', rawdev_io i m w = (Ok r, w') /\ device_ready i w' /\ only_slot i w w' /\ (forall a, 0 <= a -> device_view w' a = v a).
Proof.
  intros (d & Hd & Ht & Hok) Hm. unfold rawdev_io, rawdev_at. rewrite frun_dget.
  rewrite (nth_lookup_Some _ _ _ _ Hd). destruct (Hm d Ht Hok) as (d' & w' & E & Hok' & Ht' & Hs & HV).
  rewrite (frun_bind _ _ _ _ _ E), run_set_rawdev. destruct r as [[rc f'] buf]. cbn [fst snd].
  pose proof (devpart_table _ _ _ Hok') as Eo.
  assert (Et : g_rawdev_devices (f_dev w') = g_rawdev_devices (f_dev w)) by exact (f_equal g_rawdev_devices Eo).
  rewrite Et. eexists. split; [reflexivity|]. split; [|split].
  - exists d'. split; [apply list_lookup_insert_eq; by eapply lookup_lt_Some|]. split; [done|]. by eapply devpart_ok_kept.
  - exists d, d'. split; [done|]. split; [done|].
    exact (f_equal (fun x => x <| g_rawdev_devices := <[i := d']> (g_rawdev_devices (f_dev w)) |>) Eo).
  - intros a Ha. rewrite (device_view_kept w') by done. by apply HV.
Qed.

(** What a request changes in the record of the device and on the card, whatever
    the partition. *)
Lemma device_reads d f ptr len w : devpart_ok (others (f_dev w)) (devpart d) w -> length (tmp_sector d) = 512%nat ->
  @request_ok sectors max_request (offset f) len -> len <= Z.of_nat (length ptr) < 2 ^ 32 ->
  exists d' w', dev_read device_partition_read_data d f ptr len w =
      (Ok (len, d', f <| offset := offset f + len |>, splice ptr 0 (card_read (device_view w) (offset f) len)), w') /\
    devpart_ok (others (f_dev w)) (devpart d') w' /\ length (tmp_sector d') = 512%nat /\ same_device d d' /\
    (forall a, 0 <= a -> device_view w' a = device_view w a).
Proof.
  intros Hok Ht Hr Hp. destruct Hrange as (H1 & H2 & H3 & H4 & Hk). set (tbl := others (f_dev w)) in *.
  unfold devpart_ok, device_view, max_request in *. destruct keys as [[k0 k1]|].
  - destruct Hk as [Hk0 Hk1].
    destruct (dev_read_run (SD := encrypted_device part start sectors tbl k0 k1 H1 H2 H3 H4 Hk0 Hk1) ptr _ len Hr Hp d f w)
      as (d' & w' & R & O & T & S & V); [done..|]. exists d', w'. do 3 (split; [done|]). split; [rewrite S; by repeat split|done].
  - destruct (dev_read_run (SD := plain_device part start sectors tbl H1 H2 H3 H4) ptr _ len Hr Hp d f w)
      as (d' & w' & R & O & T & S & V); [done..|]. exists d', w'. do 3 (split; [done|]). split; [rewrite S; by repeat split|done].
Qed.
Lemma device_writes d f ptr len w : devpart_ok (others (f_dev w)) (devpart d) w -> length (tmp_sector d) = 512%nat ->
  @request_ok sectors max_request (offset f) len -> len <= Z.of_nat (length ptr) < 2 ^ 32 -> is_bytes ptr ->
  exists d' w', dev_write device_partition_read_data device_partition_write_data d f ptr len w =
      (Ok (len, d', f <| offset := offset f + len |>, ptr), w') /\
    devpart_ok (others (f_dev w)) (devpart d') w' /\ length (tmp_sector d') = 512%nat /\ same_device d d' /\
    (forall a, 0 <= a -> device_view w' a = card_write (device_view w) (offset f) (slice ptr 0 len) a).
Proof.
  intros Hok Ht Hr Hp Hb. destruct Hrange as (H1 & H2 & H3 & H4 & Hk). set (tbl := others (f_dev w)) in *.
  unfold devpart_ok, device_view, max_request in *. destruct keys as [[k0 k1]|].
  - destruct Hk as [Hk0 Hk1].
    destruct (dev_write_run (SD := encrypted_device part start sectors tbl k0 k1 H1 H2 H3 H4 Hk0 Hk1) ptr _ len Hr Hp Hb d f w)
      as (d' & w' & R & O & T & S & V); [done..|]. exists d', w'. do 3 (split; [done|]). split; [rewrite S; by repeat split|done].
  - destruct (dev_write_run (SD := plain_device part start sectors tbl H1 H2 H3 H4) ptr _ len Hr Hp Hb d f w)
      as (d' & w' & R & O & T & S & V); [done..|]. exists d', w'. do 3 (split; [done|]). split; [rewrite S; by repeat split|done].
Qed.



(** What was written is read back: after a write, a seek to where it began and
    a read of the same length, the caller's buffer holds the bytes written. *)
Theorem rawdev_write_read i f ptr buf len w : device_ready i w ->
  @request_ok sectors max_request (offset f) len -> offset f < 2 ^ 31 -> is_bytes ptr ->
  len <= Z.of_nat (length ptr) < 2 ^ 32 -> len <= Z.of_nat (length buf) < 2 ^ 32 ->
  exists w', (r ← rawdev_write i f ptr len;
              s ← rawdev_seek i r.1.2 (offset f) SEEK_SET;
              rawdev_read i s.2 buf len) w =
    (Ok (len, f <| offset := offset f + len |>, splice buf 0 (slice ptr 0 len)), w') /\ device_ready i w'.
Proof.
  intros Hd Hr Ho Hb Hp Hq.
  destruct (device_io i (fun d => dev_write device_partition_read_data device_partition_write_data d f ptr len) w _
    (len, f <| offset := offset f + len |>, ptr) Hd (fun d Ht Hok => device_writes d f ptr len w Hok Ht Hr Hp Hb)) as (w1 & R1 & D1 & _ & V1).
  rewrite (frun_bind _ _ _ _ _ R1). unfold rawdev_seek, rawdev_at, dev_seek, SEEK_SET. rewrite frun_assoc, frun_dget. cbn [fst snd Z.eqb].
  pose proof Hr as (H0 & Hl & _). rewrite Z.add_0_r, u64_id by (unfold is_u64; lia). zdec. cbn [andb].
  rewrite frun_ret. cbn [snd]. set (f1 := f <| offset := offset f |>).
  destruct (device_io i (fun d => dev_read device_partition_read_data d f1 buf len) w1 _
    (len, f <| offset := offset f + len |>, splice buf 0 (card_read (device_view w1) (offset f) len)) D1
    (fun d Ht Hok => device_reads d f1 buf len w1 Hok Ht Hr Hq)) as (w2 & R2 & D2 & _).
  exists w2. split; [|done]. etransitivity; [exact R2|]. do 4 f_equal.
  rewrite (card_read_ext _ (card_write (device_view w) (offset f) (slice ptr 0 len))) by (intros b Hbb; apply V1; lia).
  apply card_read_write. rewrite length_slice; lia.
Qed.

(** A request that reaches the last sector is the request for all the rest. *)
Lemma file_span_last dp off len : sector_size dp = 512 -> num_sectors dp = sectors -> 0 <= off <= 512 * sectors ->
  512 * (sectors - 1) < off + len < 2 ^ 63 -> file_span dp off len = file_span dp off (512 * sectors - off).
Proof.
  intros Es En Ho Hl. destruct Hrange as (_ & _ & Hs & He & _). unfold file_span. rewrite Es, En.
  rewrite !(u64_id (_ + _ + 512 - 1)) by (unfold is_u64; lia).
  assert (H1 : sectors <= (off + len + 512 - 1) / 512) by (apply Z.div_le_lower_bound; lia).
  assert (H2 : sectors <= (off + (512 * sectors - off) + 512 - 1) / 512) by (apply Z.div_le_lower_bound; lia).
  rewrite !Z.geb_leb. apply Z.leb_le in H1, H2. by rewrite H1, H2.
Qed.
Lemma devpart_geometry tbl dp w : devpart_ok tbl dp w -> sector_size dp = 512 /\ num_sectors dp = sectors.
Proof. unfold devpart_ok. destruct keys as [[]|]; [by intros [[]]|by intros [[] _]]. Qed.

(** At the end of a device a read is not limited to what was asked: every
    request that reaches the last sector, even one that ends inside it, returns all
    the bytes up to the end of the partition, which may be more than the length
    asked for; a read at the end returns nothing. *)
Theorem rawdev_read_to_end i f ptr len w : device_ready i w -> 0 <= offset f <= 512 * sectors ->
  512 * (sectors - 1) < offset f + len < 2 ^ 63 -> 512 * sectors - offset f < 2 ^ 31 ->
  sectors - (offset f + 511) / 512 <= max_request -> 512 * sectors - offset f <= Z.of_nat (length ptr) < 2 ^ 32 ->
  exists w', rawdev_read i f ptr len w = (Ok (512 * sectors - offset f, f <| offset := 512 * sectors |>,
      splice ptr 0 (card_read (device_view w) (offset f) (512 * sectors - offset f))), w') /\ device_ready i w'.
Proof.
  intros Hd Ho Hl Hn Hm Hp. set (rest := 512 * sectors - offset f) in *.
  destruct (device_io i (fun d => dev_read device_partition_read_data d f ptr len) w (device_view w)
    (rest, f <| offset := 512 * sectors |>, splice ptr 0 (card_read (device_view w) (offset f) rest))) as (w' & R & D & _);
    [done| |by exists w'].
  intros d Ht Hok. destruct (devpart_geometry _ _ _ Hok) as [Es En].
  assert (E : dev_read device_partition_read_data d f ptr len w = dev_read device_partition_read_data d f ptr rest w)
    by (unfold dev_read; by rewrite (file_span_last _ _ len)).
  rewrite E. destruct (decide (rest = 0)) as [E0|E0].
  - exists d, w. split; [|done]. unfold dev_read, file_span. rewrite Es, En, E0. pose proof Hrange as (_ & _ & Hs & He & _).
    replace (offset f + 0) with (512 * sectors) by lia. rewrite (u64_id (_ + _ - 1)) by (unfold is_u64; lia).
    assert (H2 : sectors <= (512 * sectors + 512 - 1) / 512) by (apply Z.div_le_lower_bound; lia).
    rewrite Z.geb_leb. apply Z.leb_le in H2. rewrite H2, (u64_id (512 * _)), u64_id by (unfold is_u64; lia). fold rest. rewrite E0.
    cbn [sp_len Z.eqb u32 fst snd]. rewrite splice_nil. replace (f <| offset := 512 * sectors |>) with f; [done|].
    replace (512 * sectors) with (offset f) by lia. by destruct f.
  - destruct (device_reads d f ptr rest w) as (d' & w' & R & K); [done|done| |done|].
    + pose proof Hrange as (_ & _ & Hs & He & _). unfold request_ok. unfold rest in *. split; [lia|]. split; [lia|]. split; [lia|].
      replace (offset f + (512 * sectors - offset f)) with (sectors * 512) by lia. rewrite Z.div_mul by lia. split; [right; lia|lia].
    + exists d', w'. split; [|done]. rewrite R. cbn [fst snd]. by replace (offset f + rest) with (512 * sectors) by lia.
Qed.

(** ** Mounting *)

Lemma length_allocated n : 0 <= n -> Z.of_nat (length (allocated n)) = n.
Proof. intros H. unfold allocated, range. rewrite length_map, length_seqZ. lia. Qed.

Lemma find_index_insert name tbl i d : find_index name tbl = None -> (i < length tbl)%nat -> setup d = true -> dev_name d = name ->
  find_index name (<[i := d]> tbl) = Some i.
Proof.
  unfold find_index. intros Hn Hi Hs Hd. destruct (list_find _ tbl) eqn:E in Hn; [done|]. apply list_find_None in E.
  replace (list_find _ (<[i := d]> tbl)) with (Some (i, d)); [done|]. symmetry. apply list_find_Some.
  split; [by apply list_lookup_insert_eq|]. split; [done|]. intros j y Hj Hlt. rewrite list_lookup_insert_ne in Hj by lia.
  by eapply Forall_lookup_1 in E.
Qed.
Lemma free_index_lt tbl i : free_index tbl = Some i -> exists d, tbl !! i = Some d /\ setup d = false.
Proof.
  unfold free_index. destruct (list_find _ tbl) as [[j d]|] eqn:E; [|done]. apply list_find_Some in E as (Hl & Hs & _).
  intros [= <-]. by exists d.
Qed.

Lemma initializer_run tbl dp w : devpart_ok tbl dp w -> initialized dp = false ->
  exists dp1 w1, initializer dp w = (Ok (0, dp1), w1) /\ devpart_ok tbl dp1 w1 /\ (forall a, device_view w1 a = device_view w a).
Proof.
  intros Hok Hi. assert (E : initializer dp w = ensure_initialized dp w) by (unfold ensure_initialized; by rewrite Hi).
  rewrite E. clear E. unfold devpart_ok, device_view in *. destruct keys as [[k0 k1]|].
  - destruct (encrypted_initialized part start sectors tbl k0 k1 dp w Hok) as (dp1 & w1 & R & O & _ & V).
    exists dp1, w1. split; [done|]. split; [done|]. intros a. by rewrite V.
  - destruct (plain_initialized part start sectors tbl dp w Hok) as (dp1 & w1 & R & O & _ & V).
    exists dp1, w1. split; [done|]. split; [done|]. intros a. by rewrite V.
Qed.

(** Mounting: a partition that is in order, with a name of 1 to 32 characters
    that no mounted device has, goes into the first free slot of the table; the
    device can be used at once, is found by its name, and shows the bytes of the
    partition; the other slots are as before. *)
Lemma rawdev_mount_ready name dp immediately i w : devpart_ok (others (f_dev w)) dp w -> initialized dp = false ->
  name_error name false = None -> find_index name (g_rawdev_devices (f_dev w)) = None ->
  free_index (g_rawdev_devices (f_dev w)) = Some i ->
  exists w' d, rawdev_mount_device name dp immediately w = (Ok 0, w') /\ device_ready i w' /\
    find_index name (g_rawdev_devices (f_dev w')) = Some i /\
    others (f_dev w') = others ((f_dev w) <| g_rawdev_devices := <[i := d]> (g_rawdev_devices (f_dev w)) |>) /\
    root_path d = name ++ str ":/" /\ registered d = false /\
    (forall a, device_view w' a = device_view w a).
Proof.
  intros Hok Hi Hname Hfind Hfree. destruct (free_index_lt _ _ Hfree) as (d0 & Hd0 & _). destruct (devpart_geometry _ _ _ Hok) as [Es _].
  assert (Hlen : Z.of_nat (length name) <= 32) by (destruct name; [done|]; unfold name_error in Hname; destruct (_ >? 32) eqn:E; [done|lia]).
  unfold rawdev_mount_device, rawdev_find_device. zdec. rewrite frun_dget, Hfind. cbn [is_Some].
  rewrite bool_decide_false, Hname by (by intros []). rewrite frun_dget, Hfree.
  assert (Hinit : exists dp1 w1, (if immediately then initializer dp else fret (0, dp)) w = (Ok (0, dp1), w1) /\
    devpart_ok (others (f_dev w)) dp1 w1 /\ (forall a, device_view w1 a = device_view w a)).
  { destruct immediately; [by apply initializer_run|by exists dp, w]. }
  destruct Hinit as (dp1 & w1 & R & Hok1 & V1). rewrite (frun_bind _ _ _ _ _ R), run_set_rawdev, heap_works, Es. cbn [negb Z.eqb].
  rewrite run_set_rawdev. pose proof (devpart_table _ _ _ Hok1) as Eo.
  assert (Et : g_rawdev_devices (f_dev w1) = g_rawdev_devices (f_dev w)) by exact (f_equal g_rawdev_devices Eo).
  match goal with |- context [with_table (<[i := ?x]> _) (with_table _ _)] => set (d := x) end.
  assert (Ew : forall x, with_table (<[i := d]> (g_rawdev_devices (f_dev (with_table (<[i := x]> (g_rawdev_devices (f_dev w1))) w1))))
      (with_table (<[i := x]> (g_rawdev_devices (f_dev w1))) w1) = with_table (<[i := d]> (g_rawdev_devices (f_dev w))) w1).
  { intros x. change (with_table (<[i := d]> (<[i := x]> (g_rawdev_devices (f_dev w1)))) w1 = with_table (<[i := d]> (g_rawdev_devices (f_dev w))) w1).
    by rewrite list_insert_insert_eq, Et. }
  rewrite Ew. eexists _, d. split; [reflexivity|].
  assert (Hlt : (i < length (g_rawdev_devices (f_dev w)))%nat) by (by eapply lookup_lt_Some).
  split; [exists d; split; [by apply list_lookup_insert_eq|]; split; [apply Nat2Z.inj; by apply (length_allocated 512)|by apply (devpart_ok_kept _ dp1 w1 _ Hok1)]|].
  split; [exact (find_index_insert name _ i d Hfind Hlt eq_refl eq_refl)|]. split; [|split; [done|split; [done|intros a; by rewrite (device_view_kept w1)]]].
  exact (f_equal (fun x => x <| g_rawdev_devices := <[i := d]> (g_rawdev_devices (f_dev w)) |>) Eo).
Qed.
End Raw.

(** ** The work buffer of an encrypted partition *)

Section Overflow.
Context {soc : SoC} {card : Card} {sto : Storage} {Hcards : WorkingCards sto card}.
Context (part : mmc_partition_info_t) (start sectors : Z) (table : storage_state) (k0 k1 : list Z).
Context (Hpart : 0 <= mmcpart_partition part) (Hstart : 0 <= start) (Hend : start + sectors <= 2 ^ 32).

(** C38: the work buffer holds 16 sectors, but its size in bytes is taken for its
    number of sectors, so a read of more than 16 sectors of an encrypted partition
    runs over the end of the buffer, wherever it goes and however large the
    caller's buffer is. *)
Theorem encrypted_read_overflow dp w dst ofs sector num : encrypted_ok part start sectors table k0 k1 dp w ->
  0 <= sector -> 16 < num -> sector + num <= sectors ->
  exists w', device_partition_read_data dp dst ofs sector num w = (Stop BadAccess, w').
Proof.
  intros Hok Hs Hn Hsn. destruct (encrypted_initialized part start sectors table k0 k1 dp w Hok) as (dp1 & w1 & R & O & I & V).
  unfold device_partition_read_data.
  rewrite (frun_bind _ _ _ _ _ R). cbn [negb Z.eqb]. unfold read_sectors, active_cipher. rewrite (eo_mode _ _ _ _ _ _ _ _ O), (eo_read _ _ _ _ _ _ _ _ O).
  destruct (eo_buffer _ _ _ _ _ _ _ _ O I) as (En & buf & Eb & Lb). set (n := round_sectors dp1 0 num).
  assert (Er : 16 < n <= Z.min num 8192) by (unfold n, round_sectors; rewrite En, u64_id by (unfold is_u64; lia); destruct (_ >? _) eqn:G; lia).
  cbn [read_loop]. zdec. fold n. rewrite Eb, Z.add_0_r, (u64_id sector) by (unfold is_u64; lia).
  pose proof (eo_mmc _ _ _ _ _ _ _ _ O) as OM. unfold reader. rewrite (mo_driver _ _ _ _ _ _ OM).
  destruct (mmc_read_bounds part start sectors table Hpart Hstart Hend dp1 w1 buf sector n) as (w2 & R2); [done|done|lia..|].
  exists w2. by rewrite (frun_bind_stop _ _ _ _ _ R2).
Qed.
End Overflow.

(** ** Witnesses *)

Import Toy.

Definition toy_keys : list Z * list Z := (zeros 16, zeros 16).
Definition toy_bytes (a : Z) : Z := u8 (3 * a).
Lemma toy_range keys : (keys = None \/ keys = Some toy_keys) -> partition_in_range g_emmc_user_mmcpart 2 8 keys.
Proof. intros [-> | ->]; by repeat constructor. Qed.
Lemma toy_ready keys : (keys = None \/ keys = Some toy_keys) ->
  device_ready g_emmc_user_mmcpart 2 8 keys 0 (toy_disk toy_bytes (toy_device 2 8 keys)).
Proof.
  intros Hk. exists (toy_device 2 8 keys). split; [done|]. split; [done|].
  assert (Hm : mmc_ok g_emmc_user_mmcpart 2 8 (others (f_dev (toy_disk toy_bytes (toy_device 2 8 keys)))) (devpart (toy_device 2 8 keys)) (toy_disk toy_bytes (toy_device 2 8 keys))).
  { split; try (by destruct Hk as [-> | ->]); [|by left]. intros a. unfold raw_bytes, part_card, is_u8. cbn. apply Z.mod_pos_bound. lia. }
  unfold devpart_ok. destruct Hk as [-> | ->]; [done|]. by split.
Qed.
Lemma toy_request max off len : 0 <= off -> 0 < len -> off + len <= 3584 -> 8 <= max -> @request_ok 8 max off len.
Proof.
  intros Ho Hl Ht Hm. unfold request_ok. assert ((off + len) / 512 <= 7) by (apply Z.div_le_upper_bound; lia).
  assert (0 <= (off + 511) / 512) by (apply Z.div_pos; lia).
  assert ((off + len + 511) / 512 < 8) by (apply Z.div_lt_upper_bound; lia). lia.
Qed.



Lemma rawdev_write_read_witness : exists w',
  (r ← rawdev_write 0 (mk_devfile 0 100) (map u8 (range 1000)) 1000;
   s ← rawdev_seek 0 r.1.2 100 SEEK_SET;
   rawdev_read 0 s.2 (zeros 1000) 1000) (toy_disk toy_bytes (toy_device 2 8 (Some toy_keys))) =
    (Ok (1000, mk_devfile 0 1100, map u8 (range 1000)), w').
Proof.
  destruct (rawdev_write_read g_emmc_user_mmcpart 2 8 (Some toy_keys) (toy_range _ (or_intror eq_refl)) 0 (mk_devfile 0 100) (map u8 (range 1000))
    (zeros 1000) 1000 _ (toy_ready _ (or_intror eq_refl))) as (w' & R & _);
    [apply toy_request; cbn; lia|done|by apply Forall_map, Forall_true; intros x; apply Z.mod_pos_bound|by vm_compute|by vm_compute|].
  exists w'. etransitivity; [exact R|]. by vm_compute.
Defined.

(** 10 bytes are asked for in the last sector, 96 come back. *)
Lemma rawdev_read_to_end_witness : exists w',
  rawdev_read 0 (mk_devfile 0 4000) (zeros 100) 10 (toy_disk toy_bytes (toy_device 2 8 None)) =
    (Ok (96, mk_devfile 0 4096, card_read toy_bytes 5024 96 ++ zeros 4), w').
Proof.
  destruct (rawdev_read_to_end g_emmc_user_mmcpart 2 8 None (toy_range None (or_introl eq_refl)) 0 (mk_devfile 0 4000) (zeros 100) 10 _
    (toy_ready None (or_introl eq_refl))) as (w' & R & _); [by vm_compute..|].
  exists w'. rewrite R. by vm_compute.
Defined.
(** With a buffer for what was asked, the code writes past its end. *)
Lemma last_sector_overrun :
  fst (rawdev_read 0 (mk_devfile 0 4000) (zeros 10) 10 (toy_disk toy_bytes (toy_device 2 8 None))) = Stop BadAccess.
Proof. by vm_compute. Qed.

Lemma encrypted_read_overflow_witness : exists w',
  device_partition_read_data (toy_partition 0 64 (Some toy_keys)) (replicate (Z.to_nat 8704) 0) 0 0 17 (toy_disk toy_bytes (toy_device 0 64 None)) = (Stop BadAccess, w').
Proof.
  apply (encrypted_read_overflow g_emmc_user_mmcpart 0 64 (others (f_dev (toy_disk toy_bytes (toy_device 0 64 None)))) (zeros 16) (zeros 16)); try done.
  split; try done. split; try done; [|by left]. intros a. apply Z.mod_pos_bound. lia.
Defined.
