(* ===== verification/MountProps.v ===== *)
(** Mounting and reading the eMMC (raw_dev.c, gpt.c, nxfs.c, package1.c): a
    mounted partition can be read, stdio on it reads its bytes, the partition
    table is walked entry by entry, and package1 is found where the boot
    configuration table says. *)
From S2P Require Import Prelude State Utils Se Engine Platform SeProps Devices Fusee FuseeToy FuseeKeys XtsProps RebuildProps Storage Nxfs StorageProps StorageToy RawDevProps.
Import SE NxfsDriver DevicePartition FileDev RawDev FsDev Gpt Nxfs Package1.

(** ** stdio on a raw device *)

Section Stdio.
Context {soc : SoC} {HC : CryptoEngine soc} {HB : BulkEngine soc}.
Context {card : Card} {sto : Storage} {Hcards : WorkingCards sto card}.
Context {part : mmc_partition_info_t} {start sectors : Z} {keys : option (list Z * list Z)}.
Context (Hrange : partition_in_range part start sectors keys).

Abbreviation ready := (device_ready part start sectors keys).
Abbreviation view := (device_view part start keys).

(** The device in slot [i] can be used and its partition holds the bytes [v]; the
    rest is as in [w]. *)
Definition stable (i : nat) (v : Z -> Z) (w w' : FWorld) : Prop :=
  ready i w' /\ only_slot i w w' /\ (forall a, 0 <= a -> view w' a = v a).

Lemma only_slot_trans i w w1 w2 : only_slot i w w1 -> only_slot i w1 w2 -> only_slot i w w2.
Proof.
  intros (d & d1 & Hd & (S1 & S2 & S3 & S4) & E1) (d1' & d2 & Hd' & (T1 & T2 & T3 & T4) & E2). exists d, d2.
  pose proof (f_equal g_rawdev_devices E1) as Et. change (g_rawdev_devices (f_dev w1) = <[i := d1]> (g_rawdev_devices (f_dev w))) in Et.
  rewrite Et, list_lookup_insert_eq in Hd' by (by eapply lookup_lt_Some). injection Hd' as <-.
  split; [done|]. split; [repeat split; congruence|]. rewrite E2, Et, list_insert_insert_eq.
  exact (f_equal (fun x => x <| g_rawdev_devices := <[i := d2]> (g_rawdev_devices (f_dev w)) |>) E1).
Qed.
Lemma only_slot_refl i w : ready i w -> only_slot i w w.
Proof.
  intros (d & Hd & _). exists d, d. split; [done|]. split; [done|]. rewrite list_insert_id by done. by destruct w as [? ? ? ? []].
Qed.

(** One whole read with stdio. *)
Lemma fread1_bytes i f block size w : ready i w -> @request_ok sectors (max_request sectors keys) (offset f) size ->
  size <= Z.of_nat (length block) < 2 ^ 32 ->
  exists w', fread1 (mk_file (on_rawdev i) f) block size w =
      (Ok (1, mk_file (on_rawdev i) (f <| offset := offset f + size |>), splice block 0 (card_read (view w) (offset f) size)), w') /\
    stable i (view w) w w'.
Proof.
  intros Hd Hr Hp. unfold fread1, rawdev_read. cbn [fp_dev fp_state]. pose proof Hr as (_ & Hl & _). zdec.
  destruct (device_io part start sectors keys i (fun d => dev_read device_partition_read_data d f block size) w (view w)
    (size, f <| offset := offset f + size |>, splice block 0 (card_read (view w) (offset f) size)))
    as (w' & R & K); [done|by intros d Ht Hok; apply (device_reads part start sectors keys)|].
  exists w'. split; [|done]. rewrite (frun_bind _ _ _ _ _ R). zdec. by rewrite Z.div_same by lia.
Qed.
(** Reading a new block in full. *)
Lemma fread1_block i f block size w : ready i w -> @request_ok sectors (max_request sectors keys) (offset f) size ->
  size = Z.of_nat (length block) ->
  exists w', fread1 (mk_file (on_rawdev i) f) block size w =
      (Ok (1, mk_file (on_rawdev i) (f <| offset := offset f + size |>), card_read (view w) (offset f) size), w') /\
    stable i (view w) w w'.
Proof.
  intros Hd Hr Hp. pose proof Hr as (_ & Hl & _). destruct (fread1_bytes i f block size w) as (w' & R & K); [done|done|lia|].
  exists w'. split; [|done]. rewrite R, splice_block; [done|rewrite length_card_read; lia].
Qed.

Lemma fseek_run i f off whence base w : 0 <= u64 (s32 off + base) < 2 ^ 31 ->
  (whence = SEEK_SET /\ base = 0 \/ whence = SEEK_CUR /\ base = offset f) ->
  fseek (mk_file (on_rawdev i) f) off whence w = (Ok (0, mk_file (on_rawdev i) (f <| offset := u64 (s32 off + base) |>)), w).
Proof.
  intros Hu Hw. unfold fseek, rawdev_seek, rawdev_at, dev_seek. cbn [fp_dev fp_state]. rewrite frun_assoc, frun_dget.
  set (n := u64 (s32 off + base)) in *.
  assert (E : s32 n = n) by (unfold s32; rewrite (u32_id n) by (unfold is_u32; lia); by zdec).
  assert (Hn : (n <? 0) = false) by (apply Z.ltb_ge; lia).
  destruct Hw as [[-> ->]|[-> ->]]; cbn [SEEK_SET SEEK_CUR Z.eqb Pos.eqb]; fold n; rewrite Hn, andb_false_r, frun_ret, E; by zdec.
Qed.
End Stdio.

(** ** Reading a partition without a cipher *)

Section Plain.
Context {soc : SoC} {HC : CryptoEngine soc} {HB : BulkEngine soc}.
Context {card : Card} {sto : Storage} {Hcards : WorkingCards sto card}.
Context (part : mmc_partition_info_t) (start sectors : Z).
Context (Hrange : partition_in_range part start sectors None).

Abbreviation ready := (device_ready part start sectors None).
Abbreviation view := (device_view part start None).
Abbreviation stable_plain := (stable (part := part) (start := start) (sectors := sectors) (keys := None)).

(** Requests that do not reach the last sector. *)
Lemma before_last off len : 0 <= off -> 0 < len < 2 ^ 31 -> off + len <= 512 * (sectors - 1) ->
  @request_ok sectors (max_request sectors None) off len.
Proof.
  intros Ho Hl Ht. unfold request_ok, max_request. split; [lia|]. split; [lia|]. split; [lia|]. split.
  - left. apply Z.div_lt_upper_bound; lia.
  - assert ((off + len) / 512 <= sectors) by (apply Z.div_le_upper_bound; lia).
    assert (0 <= (off + 511) / 512) by (apply Z.div_pos; lia). lia.
Qed.

Lemma stable_trans i v w w1 w2 : stable_plain i v w w1 -> stable_plain i (view w1) w1 w2 -> stable_plain i v w w2.
Proof.
  intros (R1 & S1 & V1) (R2 & S2 & V2). split; [done|]. split; [by eapply only_slot_trans|]. intros a Ha. by rewrite V2, V1.
Qed.
Lemma stable_refl i w : ready i w -> stable_plain i (view w) w w.
Proof. intros H. split; [done|]. split; [by eapply only_slot_refl|done]. Qed.
Lemma stable_read i v w w1 a n : stable_plain i v w w1 -> 0 <= a -> card_read (view w1) a n = card_read v a n.
Proof. intros (_ & _ & V) Ha. apply card_read_ext. intros b Hb. apply V. lia. Qed.

Lemma s32_id n : 0 <= n < 2 ^ 31 -> s32 n = n.
Proof. intros H. unfold s32. rewrite u32_id by (unfold is_u32; lia). by zdec. Qed.
Lemma seek_set_run i f n w : 0 <= n < 2 ^ 31 ->
  fseek (mk_file (on_rawdev i) f) n SEEK_SET w = (Ok (0, mk_file (on_rawdev i) (f <| offset := n |>)), w).
Proof.
  intros Hn. assert (E : u64 (s32 n + 0) = n) by (rewrite s32_id, Z.add_0_r, u64_id by (unfold is_u64; lia); done).
  pose proof (fseek_run i f n SEEK_SET 0 w) as R. rewrite E in R. apply R; [done|by left].
Qed.
Lemma seek_cur_run i f n w : 0 <= n -> 0 <= offset f -> offset f + n < 2 ^ 31 ->
  fseek (mk_file (on_rawdev i) f) n SEEK_CUR w = (Ok (0, mk_file (on_rawdev i) (f <| offset := offset f + n |>)), w).
Proof.
  intros Hn Hf Hs. assert (E : u64 (s32 n + offset f) = offset f + n) by (rewrite s32_id, u64_id by (unfold is_u64; lia); lia).
  pose proof (fseek_run i f n SEEK_CUR (offset f) w) as R. rewrite E in R. apply R; [lia|by right].
Qed.

(** The first [len] bytes of every [size] bytes from [first] on. *)
Definition reads_at (v : Z -> Z) (first size len count : Z) : list (list Z) :=
  map (fun k => card_read v (first + size * k) len) (range count).
Lemma reads_at_S v first size len n :
  reads_at v first size len (Z.of_nat (S n)) = card_read v first len :: reads_at v (first + size) size len (Z.of_nat n).
Proof.
  unfold reads_at, range. rewrite (seqZ_cons 0) by lia. cbn [map]. f_equal; [f_equal; lia|].
  replace (Z.pred (Z.of_nat (S n))) with (Z.of_nat n) by lia. change (Z.succ 0) with (1 + 0). rewrite <- fmap_add_seqZ.
  change (fmap (Z.add 1) (seqZ 0 (Z.of_nat n))) with (map (Z.add 1) (seqZ 0 (Z.of_nat n))). rewrite map_map.
  apply map_ext. intros k. f_equal. lia.
Qed.
Lemma stable_reads_at i v w w1 first size len count : stable_plain i v w w1 -> 0 <= first -> 0 <= size ->
  reads_at (view w1) first size len count = reads_at v first size len count.
Proof.
  intros K Hf Hs. apply map_ext_in. intros k Hk. apply list_elem_of_In, elem_of_range in Hk. eapply stable_read; [done|lia].
Qed.

(** ** gpt.c *)

Lemma gpt_header_fields sector : let h := slice sector 0 sizeof_efi_header_t in
  hdr_entries_first_lba h = hdr_entries_first_lba sector /\ hdr_entry_size h = hdr_entry_size sector /\
  hdr_entry_count h = hdr_entry_count sector.
Proof.
  unfold hdr_entries_first_lba, hdr_entry_size, hdr_entry_count, read64le, read32le, sizeof_efi_header_t.
  by rewrite !slice_slice by lia.
Qed.
Lemma header_error_ok sector : header_error 512 sector = None -> 2 <= hdr_entries_first_lba sector /\ sizeof_efi_entry_t <= hdr_entry_size sector.
Proof.
  unfold header_error, sizeof_efi_entry_t. destruct (bool_decide _); [|done]. cbn [negb].
  destruct (hdr_header_lba _ =? 1), (_ <? 2) eqn:E1, (_ <? hdr_partitions_first_lba _); try done; cbn [negb orb].
  destruct (_ <? sizeof_efi_header_t), (_ <? 128) eqn:E2; try done. cbn [orb]. lia.
Qed.

(** A valid boot sector and header. *)
Definition gpt_valid (v : Z -> Z) : Prop := v 0x1FE = 0x55 /\ v 0x1FF = 0xAA /\ header_error 512 (card_read v 512 512) = None.

Lemma gpt_header_run i f w : ready i w -> offset f = 0 -> gpt_valid (view w) -> 2 < sectors ->
  exists w', gpt_get_header (mk_file (on_rawdev i) f) 512 w =
    (Ok (Some (slice (card_read (view w) 512 512) 0 sizeof_efi_header_t), mk_file (on_rawdev i) (f <| offset := 1024 |>)), w') /\
    stable_plain i (view w) w w'.
Proof.
  intros Hd Hf (V1 & V2 & Hh) Hs. unfold gpt_get_header.
  destruct (fread1_block Hrange i f (allocated 512) 512 w Hd) as (w1 & R1 & K1); [rewrite Hf; apply before_last; lia|by rewrite length_allocated|].
  rewrite (frun_bind _ _ _ _ _ R1), Hf. cbn [Z.eqb]. change (u32 (512 - 512)) with 0.
  rewrite (fun f A B C => frun_bind _ _ _ _ _ (seek_cur_run i f 0 w1 A B C)) by (cbn; lia). cbn [negb Z.eqb].
  rewrite !byte_at_card_read, !Z.add_0_l, V1, V2 by lia. cbn [negb Z.eqb Pos.eqb orb].
  match goal with |- context [mk_file (on_rawdev i) ?x] => set (f1 := x) end.
  destruct (fread1_block Hrange i f1 (card_read (view w) 0 512) 512 w1) as (w2 & R2 & K2);
    [apply K1|apply before_last; cbn; lia|by rewrite length_card_read|].
  rewrite (frun_bind _ _ _ _ _ R2). cbn [Z.eqb].
  rewrite (fun f A B C => frun_bind _ _ _ _ _ (seek_cur_run i f 0 w2 A B C)) by (cbn; lia). cbn [negb Z.eqb].
  change (offset f1) with 512. rewrite (stable_read i (view w) w w1) by (done || lia). rewrite Hh.
  exists w2. split; [reflexivity|by eapply stable_trans].
Qed.

(** What a walk through the table keeps: [I es] holds after the callback has been
    given the entries [es]; reading the disk does not disturb it. *)
Context (i : nat) (v : Z -> Z) (callback : list Z -> F Z) (I : list (list Z) -> FWorld -> Prop).
Definition reading_keeps : Prop := forall es w w', only_slot i w w' -> I es w -> I es w'.
Definition callback_keeps (entries : list (list Z)) : Prop := forall es e w, (es ++ [e]) `prefix_of` entries ->
  ready i w -> (forall a, 0 <= a -> view w a = v a) -> I es w ->
  exists w', callback e w = (Ok 0, w') /\ ready i w' /\ (forall a, 0 <= a -> view w' a = v a) /\ I (es ++ [e]) w'.

Lemma entries_loop_run all n es f entry size w : reading_keeps -> callback_keeps all ->
  ready i w -> (forall a, 0 <= a -> view w a = v a) -> I es w -> Z.of_nat (length entry) = sizeof_efi_entry_t ->
  0 <= offset f -> sizeof_efi_entry_t <= size < 2 ^ 31 -> offset f + size * Z.of_nat n < 2 ^ 31 ->
  offset f + size * Z.of_nat n <= 512 * (sectors - 1) ->
  all = es ++ reads_at v (offset f) size sizeof_efi_entry_t (Z.of_nat n) ->
  exists disk w', entries_loop n callback (u32 (size - sizeof_efi_entry_t)) (mk_file (on_rawdev i) f) entry w = (Ok (0, disk), w') /\
    ready i w' /\ (forall a, 0 <= a -> view w' a = v a) /\ I all w'.
Proof.
  intros Hread Hcb. unfold sizeof_efi_entry_t. revert es f entry w. induction n as [|n IH]; intros es f entry w Hd Hv HI He Ho Hs Hl Ht Ha.
  { eexists _, w. split; [reflexivity|]. rewrite Ha. change (reads_at _ _ _ _ _) with (@nil (list Z)). by rewrite app_nil_r. }
  cbn [entries_loop]. unfold sizeof_efi_entry_t.
  destruct (fread1_block Hrange i f entry 128 w Hd) as (w1 & R1 & (Hd1 & S1 & V1)); [apply before_last; lia|lia|].
  rewrite (frun_bind _ _ _ _ _ R1). cbn [Z.eqb]. rewrite (card_read_ext _ v) by (intros b Hb; apply Hv; lia).
  rewrite reads_at_S in Ha. set (e := card_read v (offset f) 128) in *.
  destruct (Hcb es e w1) as (w2 & R2 & Hd2 & V2 & I2); [|done|by intros a Ha0; rewrite V1, Hv|by eapply Hread|].
  { rewrite Ha. exists (reads_at v (offset f + size) size 128 (Z.of_nat n)). by rewrite <- app_assoc. }
  rewrite (frun_bind _ _ _ _ _ R2). cbn [negb Z.eqb]. rewrite (u32_id (size - 128)) by (unfold is_u32; lia).
  set (f1 := f <| offset := offset f + 128 |>).
  assert (Hseek : (if negb (size - 128 =? 0) then fseek (mk_file (on_rawdev i) f1) (size - 128) SEEK_CUR else fret (0, mk_file (on_rawdev i) f1)) w2
    = (Ok (0, mk_file (on_rawdev i) (f <| offset := offset f + size |>)), w2)).
  { destruct (_ =? 0) eqn:E; cbn [negb]; [apply Z.eqb_eq in E; replace size with 128 by lia; done|].
    rewrite seek_cur_run by (cbn; lia). by replace (offset f1 + (size - 128)) with (offset f + size) by (cbn; lia). }
  rewrite (frun_bind _ _ _ _ _ Hseek). cbn [negb Z.eqb].
  destruct (IH (es ++ [e]) (f <| offset := offset f + size |>) e w2) as (disk & w3 & R3 & K3); try done.
  - cbn. lia.
  - cbn. lia.
  - cbn. lia.
  - by rewrite Ha, <- app_assoc.
  - exists disk, w3. rewrite u32_id in R3 by (unfold is_u32; lia). done.
Qed.

(** The partition table is walked as it is on the disk: on a mounted device with
    a valid boot sector and header, [gpt_iterate_through_entries] gives the
    callback exactly the entries of the table, each with the bytes on the disk, in
    order and none twice, and succeeds.  Stated for every invariant that the
    callback carries from entry to entry: it holds of all entries at the end. *)
Theorem gpt_walk f w : let sector := card_read v 512 512 in
  let entries := reads_at v (512 * hdr_entries_first_lba sector) (hdr_entry_size sector) sizeof_efi_entry_t (hdr_entry_count sector) in
  ready i w -> (forall a, 0 <= a -> view w a = v a) -> offset f = 0 -> gpt_valid v -> 0 <= hdr_entry_count sector -> hdr_entry_size sector < 2 ^ 31 ->
  512 * hdr_entries_first_lba sector + hdr_entry_size sector * hdr_entry_count sector < 2 ^ 31 ->
  512 * hdr_entries_first_lba sector + hdr_entry_size sector * hdr_entry_count sector <= 512 * (sectors - 1) ->
  reading_keeps -> callback_keeps entries -> I [] w ->
  exists disk w', gpt_iterate_through_entries (mk_file (on_rawdev i) f) 512 callback w = (Ok (0, disk), w') /\
    ready i w' /\ (forall a, 0 <= a -> view w' a = v a) /\ I entries w'.
Proof.
  intros sector entries Hd Hv Hf (G1 & G2 & G3) Hc Hz Hl Hs Hread Hcb HI. destruct (header_error_ok _ G3) as [Hfirst Hsize].
  fold sector in Hfirst, Hsize. unfold sizeof_efi_entry_t in Hsize.
  assert (Es : card_read (view w) 512 512 = sector) by (apply card_read_ext; intros b Hb; apply Hv; lia).
  destruct (gpt_header_run i f w Hd Hf) as (w1 & R1 & (Hd1 & S1 & V1)); [|nia|].
  { split; [rewrite Hv by lia; done|]. split; [rewrite Hv by lia; done|]. by rewrite Es. }
  unfold gpt_iterate_through_entries. rewrite (frun_bind _ _ _ _ _ R1), Es.
  destruct (gpt_header_fields sector) as (F1 & F2 & F3). rewrite F1, F2, F3.
  set (first := hdr_entries_first_lba sector) in *. set (size := hdr_entry_size sector) in *. set (count := hdr_entry_count sector) in *.
  assert (Hfl : 0 <= size * count) by nia. rewrite (u64_id (512 * first)), u64_id by (unfold is_u64; lia).
  rewrite (fun f A B C => frun_bind _ _ _ _ _ (seek_cur_run i f (512 * first - 2 * 512) w1 A B C)) by (cbn; lia). cbn [negb Z.eqb].
  match goal with |- context [mk_file (on_rawdev i) ?x] => set (f1 := x) end.
  assert (Ef : offset f1 = 512 * first) by (cbn; lia).
  apply (entries_loop_run entries (Z.to_nat count) [] f1 _ size w1); rewrite ?Z2Nat.id, ?Ef by lia; try done; try lia.
  - intros a Ha. by rewrite V1, Hv.
  - by eapply Hread.
Qed.
End Plain.

(** ** package1.c *)

Section Pk1.
Context {soc : SoC} {HC : CryptoEngine soc} {HB : BulkEngine soc}.
Context {card : Card} {sto : Storage} {Hcards : WorkingCards sto card}.
Context (part : mmc_partition_info_t) (start sectors : Z).
Context (Hrange : partition_in_range part start sectors None) (Hsmall : 512 * sectors < 2 ^ 31).

Abbreviation ready := (device_ready part start sectors None).
Abbreviation view := (device_view part start None).
Abbreviation stable_plain := (stable (part := part) (start := start) (sectors := sectors) (keys := None)).

(** The first 0xB0 bytes of [n] successive sectors. *)
Abbreviation keyblobs_at v off n := (reads_at v off 0x200 0xB0 n).

Lemma keyblob_loop_run n i f sector acc w : ready i w -> length sector = 512%nat -> 0 <= offset f ->
  offset f + 512 * Z.of_nat n <= 512 * (sectors - 1) ->
  exists f' w', keyblob_loop n (mk_file (on_rawdev i) f) sector acc w =
      (Ok (Some (acc ++ keyblobs_at (view w) (offset f) (Z.of_nat n)), f'), w') /\
    stable_plain i (view w) w w'.
Proof.
  revert f sector acc w. induction n as [|n IH]; intros f sector acc w Hd Hs Ho Hl; cbn [keyblob_loop].
  - eexists _, w. rewrite app_nil_r. split; [reflexivity|]. split; [done|]. split; [by eapply only_slot_refl|done].
  - destruct (fread1_block Hrange i f sector 0x200 w Hd) as (w1 & R & K); [apply before_last; lia|lia|].
    rewrite (frun_bind _ _ _ _ _ R). cbn [Z.eqb].
    destruct (IH (f <| offset := offset f + 0x200 |>) (card_read (view w) (offset f) 0x200)
      (acc ++ [slice (card_read (view w) (offset f) 0x200) 0 0xB0]) w1) as (f' & w2 & R2 & K2);
      [apply K|by rewrite length_card_read|cbn; lia|cbn; lia|].
    exists f', w2. split; [|by eapply stable_trans]. etransitivity; [exact R2|]. do 4 f_equal.
    rewrite reads_at_S, <- app_assoc. cbn [app]. f_equal. apply (f_equal2 cons); [rewrite card_read_slice by lia; f_equal; lia|].
    eapply stable_reads_at; [done|cbn; lia|lia].
Qed.

(** C20: package1 is read from where the boot configuration table at the start of
    BOOT0 says: from an open file on a mounted partition with a valid table,
    [package1_read_and_parse_boot0] returns the bytes of the boot loader at its
    block and page, its version less one, and the first 0xB0 bytes of the 32
    sectors that start 0x80000 bytes after it, and leaves the device usable and
    everything else unchanged. *)
Theorem package1_from_boot0 i f w : ready i w -> offset f = 0 ->
  let bct := card_read (view w) 0 sizeof_bct in
  let pk1l_offset := 0x4000 * bootloader_start_blk bct + 0x200 * bootloader_start_page bct in
  1 <= bct_bootloader_used bct -> 1 <= bootloader_version bct -> 0 < bootloader_length bct -> 0 <= pk1l_offset ->
  pk1l_offset + bootloader_length bct <= 512 * (sectors - 1) ->
  pk1l_offset + 2 * PACKAGE1LOADER_SIZE_MAX + 32 * 0x200 <= 512 * (sectors - 1) ->
  exists boot0 w', package1_read_and_parse_boot0 (mk_file (on_rawdev i) f) w =
      (Ok (Some (card_read (view w) pk1l_offset (bootloader_length bct), bootloader_version bct - 1,
           keyblobs_at (view w) (pk1l_offset + 2 * PACKAGE1LOADER_SIZE_MAX) 32), boot0), w') /\
    device_ready part start sectors None i w' /\ only_slot i w w' /\ (forall a, 0 <= a -> view w' a = view w a).
Proof.
  intros Hd Hf bct ofs Hu Hv Hs Ho Hp Hk. unfold package1_read_and_parse_boot0, ftell, PACKAGE1LOADER_SIZE_MAX in *. cbn [fp_state].
  rewrite Hf, heap_works. cbn [negb]. change (u32 (s32 0)) with 0.
  destruct (fread1_block Hrange i f (allocated sizeof_bct) sizeof_bct w Hd) as (w1 & R1 & K1);
    [rewrite Hf; apply before_last; unfold sizeof_bct; lia|by rewrite length_allocated|].
  rewrite (frun_bind _ _ _ _ _ R1), Hf. fold bct. cbn [Z.eqb]. replace (_ || _) with false
    by (symmetry; apply orb_false_iff; split; apply Z.ltb_ge; lia).
  rewrite heap_works. cbn [negb]. fold ofs. rewrite !Z.add_0_l, (u32_id ofs), !u32_id by (unfold is_u32; lia).
  rewrite (frun_bind _ _ _ _ _ (seek_set_run i _ ofs w1 ltac:(lia))). cbn [negb Z.eqb].
  match goal with |- context [mk_file (on_rawdev i) ?x] => set (f1 := x) end.
  destruct (fread1_block Hrange i f1 (allocated (bootloader_length bct)) (bootloader_length bct) w1) as (w2 & R2 & K2);
    [apply K1|apply before_last; cbn; lia|rewrite length_allocated; lia|].
  rewrite (frun_bind _ _ _ _ _ R2). cbn [Z.eqb].
  rewrite (frun_bind _ _ _ _ _ (seek_set_run i _ (ofs + 2 * 0x40000) w2 ltac:(lia))). cbn [negb Z.eqb].
  match goal with |- context [mk_file (on_rawdev i) ?x] => set (f2 := x) end.
  destruct (keyblob_loop_run 32 i f2 (allocated 0x200) [] w2) as (fp & w3 & R3 & K3);
    [apply K2|apply Nat2Z.inj; by rewrite length_allocated|cbn; lia|cbn; lia|].
  rewrite (frun_bind _ _ _ _ _ R3).
  assert (K12 : stable_plain i (view w) w w2) by (by eapply stable_trans).
  exists fp, w3. split; [|by eapply stable_trans].
  assert (E1 : card_read (view w1) ofs (bootloader_length bct) = card_read (view w) ofs (bootloader_length bct)) by (by eapply stable_read).
  assert (E2 : keyblobs_at (view w2) (ofs + 2 * 0x40000) 32 = keyblobs_at (view w) (ofs + 2 * 0x40000) 32) by (eapply stable_reads_at; [done|lia|lia]).
  change (offset f1) with ofs. rewrite E1. cbn [app]. change (offset f2) with (ofs + 2 * 0x40000).
  change (Z.of_nat 32) with 32. by rewrite E2.
Qed.
End Pk1.

(** ** nxfs.c: the partitions of the table *)

Lemma find_index_same name tbl i d d' : tbl !! i = Some d -> dev_name d' = dev_name d -> setup d' = setup d ->
  find_index name (<[i := d']> tbl) = find_index name tbl.
Proof.
  intros Hl E1 E3. unfold find_index. revert i Hl. induction tbl as [|x tbl IH]; intros [|i] Hl; try done.
  - injection Hl as ->. cbn. assert (Hp : (setup d' = true /\ dev_name d' = name) <-> (setup d = true /\ dev_name d = name)) by (by rewrite E1, E3).
    destruct (decide _), (decide _); (done || tauto).
  - cbn. destruct (decide _); [done|]. specialize (IH i Hl). destruct (list_find _ tbl) as [[]|], (list_find _ (<[i := d']> tbl)) as [[]|]; cbn in *; congruence.
Qed.

Section Known.
Context {soc : SoC} {HC : CryptoEngine soc} {HB : BulkEngine soc}.
Context {card : Card} {sto : Storage} {Hcards : WorkingCards sto card}.

Lemma rawdev_register_run part start sectors keys name i d w : device_ready part start sectors keys i w ->
  find_index name (g_rawdev_devices (f_dev w)) = Some i -> g_rawdev_devices (f_dev w) !! i = Some d -> registered d = false ->
  name ∉ devoptab_names (f_dev w) -> Z.of_nat (length (devoptab_names (f_dev w))) < devoptab_room ->
  exists w', rawdev_register_device name w = (Ok 0, w') /\ device_ready part start sectors keys i w' /\
    find_index name (g_rawdev_devices (f_dev w')) = Some i /\ devoptab_names (f_dev w') = name :: devoptab_names (f_dev w) /\
    (forall a, device_view part start keys w' a = device_view part start keys w a).
Proof.
  intros Hd Hf Hl Hr Hn Hroom. unfold rawdev_register_device, rawdev_find_device, rawdev_at.
  rewrite frun_dget, Hf, frun_dget, (nth_lookup_Some _ _ _ _ Hl), Hr. unfold AddDevice.
  rewrite frun_assoc, frun_dget, bool_decide_false by done. zdec. rewrite frun_assoc, frun_dset, frun_ret, run_set_rawdev.
  eexists. split; [reflexivity|]. destruct Hd as (d0 & Hd0 & Ht & Hok).
  assert (d0 = d) as -> by (change (g_rawdev_devices (f_dev w) !! i = Some d0) in Hd0; congruence).
  split; [|split; [|split; [done|intros a; by rewrite (device_view_kept part start keys w)]]].
  - exists (d <| registered := true |>). split; [apply list_lookup_insert_eq; by eapply lookup_lt_Some|]. split; [done|].
    by eapply (devpart_ok_kept part start sectors keys).
  - etransitivity; [|exact Hf]. by apply (find_index_same name _ i d).
Qed.

(** The loop over the known partitions does nothing for an unknown name. *)
Lemma known_loop_skip mount register ks name entry n dp w : Forall (fun k => name <> partition_name k) ks ->
  known_loop mount register ks name entry n dp w = (Ok 0, w).
Proof. induction 1 as [|k ks Hk _ IH]; [done|]. cbn [known_loop]. by rewrite bool_decide_false. Qed.
Lemma known_loop_one mount register pre k post name entry n dp dp' w w' :
  Forall (fun k => name <> partition_name k) pre -> name = partition_name k -> Forall (fun k => name <> partition_name k) post ->
  entry_partition k entry n dp = Some dp' -> mount_known mount register k dp' w = (Ok 0, w') ->
  known_loop mount register (pre ++ k :: post) name entry n dp w = (Ok 0, w').
Proof.
  intros Hpre Hk Hpost He Hm. induction Hpre as [|k' pre Hk' _ IH]; cbn [app known_loop].
  - rewrite bool_decide_true, He by done. rewrite (frun_bind _ _ _ _ _ Hm). cbn [negb Z.eqb]. by apply known_loop_skip.
  - by rewrite bool_decide_false.
Qed.
(** The names of the known partitions differ. *)
Lemma known_split k : k ∈ known_partitions -> exists pre post, known_partitions = pre ++ k :: post /\
  Forall (fun k' => partition_name k <> partition_name k') pre /\ Forall (fun k' => partition_name k <> partition_name k') post.
Proof.
  intros Hk. apply list_elem_of_split in Hk as (pre & post & E). exists pre, post. split; [done|].
  assert (Hnd : NoDup (map partition_name known_partitions)) by (by apply (bool_decide_unpack _ (dec := NoDup_dec _)); vm_compute).
  rewrite E, map_app in Hnd. cbn [map] in Hnd. apply NoDup_app in Hnd as (_ & Hd & Hnd). apply NoDup_cons in Hnd as [Hnk _].
  split; apply Forall_forall; intros k' Hin Heq.
  - apply (Hd (partition_name k')); [by apply list_elem_of_fmap_2|]. rewrite <- Heq. apply list_elem_of_here.
  - apply Hnk. rewrite Heq. by apply list_elem_of_fmap_2.
Qed.

(** The keys that the partition of an entry has: none, or those of the parent,
    which nothing sets. *)
Definition entry_keys (k : known_partition) : option (list Z * list Z) :=
  if is_encrypted k then Some (zeros 16, zeros 16) else None.
Lemma entry_partition_ok k entry part start sectors tbl dp w : plain_ok part start sectors tbl dp w -> initialized dp = false ->
  devpart_keys dp = [zeros 16; zeros 16] -> 0 <= start -> 0 <= entry_first_lba entry <= entry_last_lba entry -> entry_last_lba entry < sectors ->
  start + sectors <= 2 ^ 32 ->
  exists dp', entry_partition k entry sectors dp = Some dp' /\ initialized dp' = false /\
    devpart_ok part (start + entry_first_lba entry) (entry_last_lba entry + 1 - entry_first_lba entry) (entry_keys k) tbl dp' w.
Proof.
  intros [[] Hm] Hi Hk Hs Hf Hl He. unfold entry_partition. cbn [num_sectors]. rewrite mo_start.
  rewrite (u64_id (_ + 1 - _)), (u64_id (start + _)) by (unfold is_u64; lia). cbn.
  destruct (sectors <? _) eqn:E; [apply Z.ltb_lt in E; lia|].
  assert (Hb : forall a, is_u8 (raw_bytes part (start + entry_first_lba entry) w a)).
  { intros a. pose proof (mo_bytes (512 * entry_first_lba entry + a)) as Hb. unfold raw_bytes in *.
    replace (512 * (start + entry_first_lba entry) + a) with (512 * start + (512 * entry_first_lba entry + a)) by lia. exact Hb. }
  unfold entry_keys. destruct (is_encrypted k); eexists; (split; [reflexivity|]); (split; [exact Hi|]).
  - split; [split|..]; try done; cbn; congruence.
  - split; [split|]; try done; cbn; congruence.
Qed.

Lemma known_mount_names k : k ∈ known_partitions -> name_error (mount_point k) false = None.
Proof.
  assert (H : Forall (fun k => name_error (mount_point k) false = None) known_partitions) by (repeat constructor).
  rewrite Forall_forall in H. apply H.
Qed.

(** What the entries of the partition table become: an entry with the name of a
    known partition without a FAT volume is mounted under the partition's mount
    point in the first free slot, as the sectors from its first to its last LBA
    within the disk, ready to be read and written, and is registered at once if
    the list of known partitions says so.  An encrypted partition is mounted with
    keys that are all zero. *)
Theorem gpt_callback_mounts k entry part start sectors parent i w :
  k ∈ known_partitions -> is_fat k = false -> name_to_ascii (entry_name entry) = Ok (partition_name k) ->
  plain_ok part start sectors (others (f_dev w)) parent w -> initialized parent = false -> devpart_keys parent = [zeros 16; zeros 16] ->
  partition_in_range part start sectors None -> 0 <= entry_first_lba entry <= entry_last_lba entry -> entry_last_lba entry < sectors ->
  find_index (mount_point k) (g_rawdev_devices (f_dev w)) = None -> free_index (g_rawdev_devices (f_dev w)) = Some i ->
  mount_point k ∉ devoptab_names (f_dev w) -> Z.of_nat (length (devoptab_names (f_dev w))) < devoptab_room ->
  let first := start + entry_first_lba entry in let size := entry_last_lba entry + 1 - entry_first_lba entry in
  exists w', nxfs_mount_partition_gpt_callback parent entry w = (Ok 0, w') /\
    device_ready part first size (entry_keys k) i w' /\ find_index (mount_point k) (g_rawdev_devices (f_dev w')) = Some i /\
    devoptab_names (f_dev w') = (if register_immediately k then [mount_point k] else []) ++ devoptab_names (f_dev w) /\
    (forall a, device_view part first (entry_keys k) w' a = device_view part first (entry_keys k) w a).
Proof.
  intros Hk Hfat Hname Hok Hi Hkeys (R1 & R2 & R3 & R4 & _) Hf Hl Hnew Hfree Hn Hroom first size.
  destruct (entry_partition_ok k entry part start sectors _ parent w Hok Hi Hkeys) as (dp & He & Hi' & Hok'); [done..|].
  fold first size in Hok'.
  assert (Hr : partition_in_range part first size (entry_keys k)).
  { unfold first, size, entry_keys. do 4 (split; [lia|]). destruct (is_encrypted k); [|done]. split; (split; [done|by repeat constructor]). }
  destruct (rawdev_mount_ready part first size (entry_keys k) (mount_point k) dp false i w)
    as (w1 & d & M & D1 & F1 & E1 & _ & Hreg & V1); [done|done|by apply known_mount_names|done|done|].
  assert (En : devoptab_names (f_dev w1) = devoptab_names (f_dev w)) by exact (f_equal devoptab_names E1).
  assert (Hd : g_rawdev_devices (f_dev w1) !! i = Some d).
  { destruct (free_index_lt _ _ Hfree) as (d0 & Hd0 & _). pose proof (f_equal g_rawdev_devices E1) as Et.
    change (g_rawdev_devices (f_dev w1) = <[i := d]> (g_rawdev_devices (f_dev w))) in Et. rewrite Et.
    apply list_lookup_insert_eq. by eapply lookup_lt_Some. }
  destruct (known_split k Hk) as (pre & post & Es & Hpre & Hpost).
  assert (Hm : exists w', mount_known (fun name dp => rawdev_mount_device name dp false) rawdev_register_device k dp w = (Ok 0, w') /\
    device_ready part first size (entry_keys k) i w' /\ find_index (mount_point k) (g_rawdev_devices (f_dev w')) = Some i /\
    devoptab_names (f_dev w') = (if register_immediately k then [mount_point k] else []) ++ devoptab_names (f_dev w) /\
    (forall a, device_view part first (entry_keys k) w' a = device_view part first (entry_keys k) w a)).
  { unfold mount_known. rewrite Hfat, (frun_bind _ _ _ _ _ M). cbn [Z.eqb]. destruct (register_immediately k); cbn [negb]; [|by exists w1].
    destruct (rawdev_register_run part first size (entry_keys k) (mount_point k) i d w1) as (w2 & G & D2 & F2 & N2 & V2); [by rewrite ?En..|].
    exists w2. rewrite (frun_bind _ _ _ _ _ G). rewrite N2, En. split; [done|]. do 3 (split; [done|]). intros a. by rewrite V2, V1. }
  destruct Hm as (w' & Hm & Post). exists w'. split; [|exact Post]. unfold nxfs_mount_partition_gpt_callback, mount_partition_callback.
  rewrite Hname, frun_heap, Es. destruct Hok as [[? ? ? -> ? ? ? ? ?] _]. by eapply known_loop_one.
Qed.
End Known.

(** ** Witnesses *)

Import Toy.

Lemma toy_disk_ready c n : 0 < n -> (forall a, is_u8 (c a)) ->
  device_ready g_emmc_user_mmcpart 0 n None 0 (toy_disk c (toy_device 0 n None)).
Proof.
  intros Hn Hc. exists (toy_device 0 n None). split; [done|]. split; [done|]. split; [|done]. split; try done. by left.
Qed.
Lemma toy_disk_range n : 0 < n -> n <= 2 ^ 32 -> partition_in_range g_emmc_user_mmcpart 0 n None.
Proof. intros. repeat (split; [done || lia|]). done. Qed.

(** A disk with a partition table of two entries. *)
Definition toy_entry (name : string) (first last : Z) : list Z :=
  zeros 32 ++ le_bytes 8 first ++ le_bytes 8 last ++ zeros 8 ++ flat_map (fun c => [c; 0]) (str name) ++ zeros (72 - 2 * length (str name)).
Definition toy_header : list Z :=
  EFI_PART ++ le_bytes 4 0x10000 ++ le_bytes 4 92 ++ zeros 8 ++ le_bytes 8 1 ++ zeros 8 ++ le_bytes 8 3 ++ le_bytes 8 90 ++ zeros 16 ++
  le_bytes 8 2 ++ le_bytes 4 2 ++ le_bytes 4 128 ++ zeros 4.
Definition toy_table : list (list Z) := [toy_entry "SAFE" 10 19; toy_entry "BCPKG2-1-Normal-Main" 20 29].
Definition toy_gpt : Z -> Z :=
  card_write (card_write (card_write (fun _ => 0) 0x1FE [0x55; 0xAA]) 512 toy_header) 1024 (concat toy_table).
Lemma toy_gpt_bytes a : is_u8 (toy_gpt a).
Proof.
  assert (H : forallb (fun b => (0 <=? b) && (b <? 256)) (toy_header ++ concat toy_table) = true) by (by vm_compute).
  assert (Hb : is_bytes (toy_header ++ concat toy_table)).
  { apply Forall_forall. intros b Hin. apply list_elem_of_In in Hin. eapply forallb_forall in H; [|exact Hin]. unfold is_u8. lia. }
  apply Forall_app in Hb as [H1 H2]. apply card_write_bytes; [|done]. apply card_write_bytes; [|done]. apply card_write_bytes; [done|]. by repeat constructor.
Qed.
(** The callback notes where the last partition begins. *)
Definition note_start (e : list Z) : F Z := set_errno (entry_first_lba e) ;; fret 0.

Lemma gpt_walk_witness : exists disk w',
  gpt_iterate_through_entries (mk_file (on_rawdev 0) (mk_devfile 0 0)) 512 note_start (toy_disk toy_gpt (toy_device 0 100 None)) = (Ok (0, disk), w') /\
  errno (f_dev w') = 20.
Proof.
  destruct (gpt_walk g_emmc_user_mmcpart 0 100 ltac:(by apply toy_disk_range) 0 toy_gpt note_start
    (fun es w => errno (f_dev w) = default 0 (last (map entry_first_lba es))) (mk_devfile 0 0) (toy_disk toy_gpt (toy_device 0 100 None)))
    as (disk & w' & R & _ & _ & HI).
  - apply toy_disk_ready; [done|apply toy_gpt_bytes].
  - intros a _. done.
  - done.
  - by vm_compute.
  - by vm_compute.
  - by vm_compute.
  - by vm_compute.
  - by vm_compute.
  - intros es w w' (d & d' & _ & _ & E) <-. exact (f_equal errno E).
  - intros es e w _ (d & Hd & Ht & Hok) Hv _. eexists. split; [reflexivity|]. split.
    + exists d. split; [done|]. split; [done|]. by eapply (devpart_ok_kept g_emmc_user_mmcpart 0 100 None).
    + split; [intros a Ha; by rewrite <- Hv|]. rewrite map_app. cbn [map]. by rewrite last_snoc.
  - done.
  - exists disk, w'. split; [exact R|]. rewrite HI. by vm_compute.
Defined.

(** A BOOT0 with a boot loader of four bytes in block 1. *)
Definition toy_boot0 : Z -> Z :=
  card_write (card_write (fun _ => 0) 0x232C (le_bytes 4 1 ++ le_bytes 4 2 ++ le_bytes 4 1 ++ le_bytes 4 0 ++ le_bytes 4 4)) 0x4000 [1; 2; 3; 4].
Lemma toy_boot0_bytes a : is_u8 (toy_boot0 a).
Proof. apply card_write_bytes; [apply card_write_bytes|]; [done|by repeat constructor..]. Qed.

Lemma package1_from_boot0_witness : exists keyblobs boot0 w',
  package1_read_and_parse_boot0 (mk_file (on_rawdev 0) (mk_devfile 0 0)) (toy_disk toy_boot0 (toy_device 0 3104 None)) =
    (Ok (Some ([1; 2; 3; 4], 1, keyblobs), boot0), w').
Proof.
  destruct (package1_from_boot0 g_emmc_user_mmcpart 0 3104 ltac:(by apply toy_disk_range) ltac:(done) 0 (mk_devfile 0 0) (toy_disk toy_boot0 (toy_device 0 3104 None)))
    as (boot0 & w' & R & _); [apply toy_disk_ready; [done|apply toy_boot0_bytes]|by vm_compute..|].
  eexists _, boot0, w'. rewrite R. do 4 f_equal.
Defined.

Lemma gpt_callback_mounts_witness : exists w',
  nxfs_mount_partition_gpt_callback (emmc_model g_emmc_user_mmcpart 0xC800) (toy_entry "BCPKG2-1-Normal-Main" 20 29) (toy_disk toy_gpt (toy_device 0 100 None)) = (Ok 0, w') /\
  device_ready g_emmc_user_mmcpart 20 10 None 1 w' /\ devoptab_names (f_dev w') = [str "bcpkg21"].
Proof.
  destruct (gpt_callback_mounts (mk_known (str "BCPKG2-1-Normal-Main") (str "bcpkg21") false false true) (toy_entry "BCPKG2-1-Normal-Main" 20 29)
    g_emmc_user_mmcpart 0 100 (emmc_model g_emmc_user_mmcpart 0xC800) 1 (toy_disk toy_gpt (toy_device 0 100 None))) as (w' & R & D & _ & N & _).
  - apply list_elem_of_further, list_elem_of_further, list_elem_of_here.
  - done.
  - by vm_compute.
  - split; [|done]. split; try done; [|by left]. intros a. apply toy_gpt_bytes.
  - done.
  - done.
  - by apply toy_disk_range.
  - by vm_compute.
  - by vm_compute.
  - done.
  - done.
  - apply not_elem_of_nil.
  - by vm_compute.
  - exists w'. done.
Defined.
