(* ===== verification/EmuDevProps.v ===== *)
(** The emulated eMMC and the end of the storage stack (device_partition.c,
    raw_dev.c, nxfs.c): which part of a split image a sector is in, and what
    unmounting leaves mounted. *)
From S2P Require Import Prelude State Utils Se Engine Platform SeProps Devices Fusee FuseeToy FuseeKeys XtsProps Storage Nxfs StorageProps StorageToy RawDevProps MountProps.
Import SE NxfsDriver DevicePartition FileDev RawDev EmuDev FsDev Gpt Nxfs.

(** ** Split images *)

Section Target.
Context {soc : SoC} {card : Card} {sto : Storage}.

Lemma land_not64_pow x k : 0 <= x < 2 ^ 64 -> 0 <= k -> x .& not64 (2 ^ k - 1) = 2 ^ k * (x / 2 ^ k).
Proof.
  intros Hx Hk. replace (2 ^ k - 1) with (Z.ones k) by (rewrite Z.ones_equiv; lia). unfold not64, u64.
  rewrite <- (Z.land_ones (Z.lnot _)), (Z.land_comm (Z.lnot _)), Z.land_assoc, (Z.land_ones x), Z.mod_small by lia.
  rewrite <- Z.ldiff_land, Z.ldiff_ones_r, Z.shiftl_mul_pow2, Z.shiftr_div_pow2 by lia. lia.
Qed.

(** With parts of a power of two bytes the part is the quotient. *)
Lemma target_part_pow x k : 0 <= x -> 0 <= k -> x + 2 ^ k <= 2 ^ 64 -> x / 2 ^ k < 2 ^ 31 -> target_part x (2 ^ k) = x / 2 ^ k.
Proof.
  intros Hx Hk Hs Hq. pose proof (Z.pow_pos_nonneg 2 k). pose proof (Z.div_mod x (2 ^ k)) as D. pose proof (Z.mod_pos_bound x (2 ^ k)) as B.
  assert (Hq0 : 0 <= x / 2 ^ k) by (apply Z.div_pos; lia). unfold target_part.
  rewrite (u64_id (2 ^ k - 1)), u64_id, land_not64_pow by (unfold is_u64; lia). set (q := x / 2 ^ k) in *.
  destruct (decide (x mod 2 ^ k = 0)) as [E0|E0].
  - assert (E : (x + (2 ^ k - 1)) / 2 ^ k = q) by (symmetry; apply Z.div_unique with (2 ^ k - 1); lia).
    rewrite E. replace (2 ^ k * q) with x by lia. rewrite Z.eqb_refl. by apply s32_id.
  - assert (E : (x + (2 ^ k - 1)) / 2 ^ k = q + 1) by (symmetry; apply Z.div_unique with (x mod 2 ^ k - 1); lia).
    rewrite E. destruct (_ =? x) eqn:G; [apply Z.eqb_eq in G; nia|]. rewrite Z.mul_comm, Z.div_mul by lia.
    replace (q + 1 - 1) with q by lia. by apply s32_id.
Qed.

(** In an image split into parts of a power of two bytes, a sector is looked up
    in the part its byte offset divided by the size of a part gives, at the sector
    the remainder gives, as the emulated eMMC itself does it; a number above the
    number of parts is refused. *)
Theorem emu_target_split dp sector origin parts k : emu_use_file dp = true -> sector_size dp = 512 -> 0 < parts ->
  0 <= sector -> 0 <= k -> 512 * sector + 2 ^ k <= 2 ^ 64 -> 512 * sector / 2 ^ k < 2 ^ 31 ->
  let part := 512 * sector / 2 ^ k in
  emu_target dp sector origin parts (2 ^ k) =
    if part >? parts then None
    else Some ((512 * sector) mod 2 ^ k / 512, dp <| emu_file_path := Some (snprintf 0x300 (origin ++ 47 :: format_02d part)) |>).
Proof.
  intros Hu Hss Hp Hs Hk Hb Hq part. pose proof (Z.pow_pos_nonneg 2 k). unfold emu_target. rewrite Hu, Hss. cbn [negb].
  replace (parts >? 0) with true by (symmetry; rewrite Z.gtb_ltb; apply Z.ltb_lt; lia).
  rewrite (Z.mul_comm sector), (u64_id (512 * sector)) by (unfold is_u64; lia).
  pose proof (Z.div_mod (512 * sector) (2 ^ k)) as D. pose proof (Z.mod_pos_bound (512 * sector) (2 ^ k)) as B. fold part in D.
  destruct (_ >=? 2 ^ k) eqn:E; rewrite Z.geb_leb in E; [apply Z.leb_le in E|apply Z.leb_gt in E].
  - rewrite target_part_pow by lia. fold part. assert (0 <= part) by (apply Z.div_pos; lia).
    rewrite (u64_id (part * _)), u64_id by (unfold is_u64; nia). by replace (512 * sector - part * 2 ^ k) with ((512 * sector) mod 2 ^ k) by lia.
  - assert (Ep : part = 0) by (apply Z.div_small; lia). rewrite Ep, Z.mod_small by lia.
    rewrite (Z.mul_comm 512), Z.div_mul by lia. replace (0 >? parts) with false by (symmetry; rewrite Z.gtb_ltb; apply Z.ltb_ge; lia). done.
Qed.

(** Parts of 0xFE000000 bytes, the largest whole number of 32 MiB that fits
    FAT32: the first byte of the second part is looked up in the first. *)
Lemma target_part_other : target_part 0xFE000000 0xFE000000 = 0 /\ 0xFE000000 / 0xFE000000 = 1.
Proof. by vm_compute. Qed.
End Target.

(** ** Unmounting *)

Section Unmount.
Context {soc : SoC} {card : Card} {sto : Storage}.

(** Every mounted volume has a name and a card. *)
Definition volumes_ok (tbl : list rawdev_device_t) : Prop :=
  Forall (fun d => setup d = true -> dev_name d <> [] /\ driver (devpart d) = mmc_partition /\ is_Some (device_struct (devpart d))) tbl.
Definition raw_kept (w w' : FWorld) : Prop :=
  g_rawdev_devices (f_dev w') = g_rawdev_devices (f_dev w) /\ g_rawdev_ready (f_dev w') = g_rawdev_ready (f_dev w).
Definition volumes_kept (w w' : FWorld) : Prop := g_fsdev_devices (f_dev w') = g_fsdev_devices (f_dev w).

Lemma raw_kept_trans w w1 w2 : raw_kept w w1 -> raw_kept w1 w2 -> raw_kept w w2.
Proof. intros [A B] [C D]. split; congruence. Qed.

Lemma finalizer_run dp w : driver dp = mmc_partition -> is_Some (device_struct dp) ->
  exists dp' w', finalizer dp w = (Ok dp', w') /\ raw_kept w w' /\ volumes_kept w w'.
Proof.
  intros Hd [p Hp]. unfold finalizer, mmc_partition_finalize. rewrite Hd, Hp, frun_dget.
  destruct (bool_decide _ && _); [by exists dp, w|].
  destruct (mmcpart_device p); rewrite frun_dset, frun_dget; destruct (g_ahb_redirect_enabled _); by eexists _, _.
Qed.

Lemma volumes_ok_find name tbl i : volumes_ok tbl -> find_index name tbl = Some i ->
  exists d, tbl !! i = Some d /\ name <> [] /\ dev_name d = name /\ driver (devpart d) = mmc_partition /\ is_Some (device_struct (devpart d)).
Proof.
  unfold find_index. intros H. destruct (list_find _ tbl) as [[j d]|] eqn:E; [|done]. intros [= <-].
  apply list_find_Some in E as (Hl & [Hs Hn] & _). pose proof (Forall_lookup_1 _ _ _ _ H Hl Hs) as (A & B & C). exists d. by subst name.
Qed.
Lemma unregister_run name i w : find_index name (g_fsdev_devices (f_dev w)) = Some i ->
  exists rc w', fsdev_unregister_device name w = (Ok rc, w') /\ raw_kept w w' /\
    (volumes_kept w w' \/ exists d, g_fsdev_devices (f_dev w) !! i = Some d /\ g_fsdev_devices (f_dev w') = <[i := d <| registered := false |>]> (g_fsdev_devices (f_dev w))).
Proof.
  intros Hf. assert (Hd : exists d, g_fsdev_devices (f_dev w) !! i = Some d).
  { unfold find_index in Hf. destruct (list_find _ _) as [[j d]|] eqn:E; [|done]. injection Hf as <-. apply list_find_Some in E as (Hl & _). by exists d. }
  destruct Hd as [d Hd]. unfold fsdev_unregister_device, fsdev_find_device, fsdev_at. rewrite frun_dget, Hf, frun_dget, (nth_lookup_Some _ _ _ _ Hd).
  destruct (registered d); cbn [negb]; [|by eexists _, w; split; [reflexivity|]; split; [done|left]].
  unfold RemoveDevice. rewrite frun_assoc, frun_dget. destruct (bool_decide _).
  - rewrite frun_assoc, frun_dset, frun_ret. eexists _, _. split; [reflexivity|]. split; [done|]. right. by exists d.
  - rewrite frun_ret. eexists _, _. split; [reflexivity|]. split; [done|by left].
Qed.

(** The volumes are in order and slot [j] is unused. *)
Definition unused (j : nat) (w : FWorld) : Prop :=
  volumes_ok (g_fsdev_devices (f_dev w)) /\ exists d, g_fsdev_devices (f_dev w) !! j = Some d /\ dev_name d = [].
Lemma unused_insert j i d d' w w' : unused j w -> g_fsdev_devices (f_dev w) !! i = Some d ->
  (setup d' = true -> setup d = true /\ dev_name d' = dev_name d /\ devpart d' = devpart d) -> (dev_name d = [] -> dev_name d' = []) ->
  g_fsdev_devices (f_dev w') = <[i := d']> (g_fsdev_devices (f_dev w)) -> unused j w'.
Proof.
  intros [Hv (dj & Hj & Hn)] Hd Hs He E. split; rewrite E.
  - apply Forall_insert; [done|]. intros H. destruct (Hs H) as (S1 & -> & ->). by apply (Forall_lookup_1 _ _ _ _ Hv Hd).
  - destruct (decide (i = j)) as [->|]; [exists d'|exists dj; by rewrite list_lookup_insert_ne].
    rewrite list_lookup_insert_eq by (by eapply lookup_lt_Some). split; [done|]. apply He. congruence.
Qed.

Lemma unmount_volume_run name j w : unused j w -> exists rc w', fsdev_unmount_device name w = (Ok rc, w') /\ raw_kept w w' /\
  (name = [] -> rc = -1) /\ (rc = 0 -> unused j w').
Proof.
  intros Hu. unfold fsdev_unmount_device, fsdev_find_device. rewrite frun_dget.
  destruct (find_index name _) as [i|] eqn:Hf; [|eexists _, _; split; [reflexivity|]; split; [by split|]; by split].
  destruct (volumes_ok_find _ _ _ (proj1 Hu) Hf) as (d & Hd & Hne & Hnm & Hdrv & Hst).
  destruct (unregister_run name i w Hf) as (rc & w1 & R1 & K1 & T1).
  assert (H1 : unused j w1 /\ exists d1, g_fsdev_devices (f_dev w1) !! i = Some d1 /\ dev_name d1 = name /\
    driver (devpart d1) = mmc_partition /\ is_Some (device_struct (devpart d1))).
  { destruct T1 as [E|(d0 & Hd0 & E)].
    - split; [unfold unused in *; by rewrite E|exists d; by rewrite E].
    - assert (d0 = d) as -> by congruence. split; [by apply (unused_insert j i d (d <| registered := false |>) w)|]. exists (d <| registered := false |>).
      rewrite E, list_lookup_insert_eq by (by eapply lookup_lt_Some). done. }
  destruct H1 as (Hu1 & d1 & Hd1 & Hn1 & Hdrv1 & Hst1). rewrite (frun_bind _ _ _ _ _ R1).
  destruct (rc =? -1); [exists (-1), w1; split; [done|]; split; [done|]; by split|]. unfold fsdev_convert_rc. rewrite frun_assoc. unfold set_errno. rewrite frun_dset, frun_ret.
  match goal with |- context [_ ?x = (Ok _, _)] => set (w2 := x) end.
  assert (Hu2 : unused j w2) by exact Hu1. assert (K2 : raw_kept w w2) by exact K1.
  destruct (negb _) eqn:En; [eexists _, w2; split; [reflexivity|]; split; [done|]; split; [done|]; intros E0; by rewrite E0 in En|].
  unfold fsdev_at. rewrite frun_dget. rewrite (nth_lookup_Some _ _ _ _ Hd1).
  destruct (finalizer_run (devpart d1) w2 Hdrv1 Hst1) as (dp' & w3 & R3 & K3 & V3). rewrite (frun_bind _ _ _ _ _ R3). unfold set_fsdev. rewrite frun_dset.
  eexists _, _. split; [reflexivity|]. split; [by apply (raw_kept_trans w w2)|]. split; [done|]. intros _.
  eapply (unused_insert j i d1 no_rawdev w2); [done|done|done|done|]. cbn. f_equal. exact V3.
Qed.

Lemma unmount_volumes_run n i j w : unused j w -> (i <= j < i + n)%nat -> exists rc w', unmount_volumes n i w = (Ok rc, w') /\ raw_kept w w' /\ rc <> 0.
Proof.
  revert i w. induction n as [|n IH]; intros i w Hu Hj; [lia|]. cbn [unmount_volumes]. unfold fsdev_at. rewrite frun_dget.
  destruct (unmount_volume_run (dev_name (nth i (g_fsdev_devices (f_dev w)) no_rawdev)) j w Hu) as (rc & w1 & R & K & He & H0).
  rewrite (frun_bind _ _ _ _ _ R). destruct (rc =? 0) eqn:E; cbn [negb]; [apply Z.eqb_eq in E|apply Z.eqb_neq in E; by exists rc, w1].
  destruct (decide (i = j)) as [->|Hij].
  - destruct Hu as [_ (d & Hd & Hn)]. rewrite (nth_lookup_Some _ _ _ _ Hd) in He. specialize (He Hn). lia.
  - destruct (IH (S i) w1) as (rc' & w2 & R2 & K2 & Hr); [by apply H0|lia|]. exists rc', w2. split; [done|]. split; [by eapply raw_kept_trans|done].
Qed.

(** The end of the storage stack stops at the SD card: while fewer volumes are
    mounted than the table has slots, [fsdev_unmount_all] takes the first unused
    slot for an error, so [nxfs_end] fails and leaves the eMMC devices mounted. *)
Theorem nxfs_end_keeps_emmc j w : g_fsdev_ready (f_dev w) = true -> unused j w -> (j < 10)%nat ->
  exists w', nxfs_end w = (Ok (-1), w') /\ g_rawdev_devices (f_dev w') = g_rawdev_devices (f_dev w) /\
    g_rawdev_ready (f_dev w') = g_rawdev_ready (f_dev w).
Proof.
  intros Hr Hu Hj. unfold nxfs_end, nxfs_unmount_sd. rewrite frun_assoc, frun_dget, Hr. cbn [negb].
  destruct (unmount_volumes_run 10 0 j w Hu) as (rc & w1 & R & K & Hne); [lia|]. unfold fsdev_unmount_all. rewrite frun_assoc, (frun_bind _ _ _ _ _ R).
  rewrite frun_assoc, frun_dset, frun_ret. apply Z.eqb_neq in Hne. rewrite Hne. by eexists.
Qed.
End Unmount.

(** ** Witnesses *)

Import Toy.

Lemma emu_target_split_witness :
  emu_target (emummc_model 0 (256 <<. 30) true) (2 ^ 23 + 5) (str "emummc/00") 8 (2 ^ 32) =
    Some (5, (emummc_model 0 (256 <<. 30) true) <| emu_file_path := Some (str "emummc/00/01") |>).
Proof.
  rewrite (emu_target_split (emummc_model 0 (256 <<. 30) true) (2 ^ 23 + 5) (str "emummc/00") 8 32) by (done || by vm_compute).
  by vm_compute.
Defined.

(** The SD card alone is mounted, as after [nxfs_init]. *)
Definition toy_sd_mounted : FWorld :=
  (toy_disk toy_gpt (toy_device 0 100 None)) <| f_dev ::= fun s => s <| g_fsdev_ready := true |>
    <| g_fsdev_devices := mk_rawdev [] (g_mmc_devpart_template <| device_struct := Some g_sd_mmcpart |>) (str "sdmc") [] true false :: replicate 9 no_rawdev |> |>.
Lemma nxfs_end_keeps_emmc_witness : exists w', nxfs_end toy_sd_mounted = (Ok (-1), w') /\
  g_rawdev_devices (f_dev w') = toy_device 0 100 None :: replicate 15 no_rawdev.
Proof.
  destruct (nxfs_end_keeps_emmc 1 toy_sd_mounted) as (w' & R & T & _); [done| |lia|by exists w'].
  split; [|by exists no_rawdev]. apply Forall_cons; split; [|by apply Forall_replicate]. by intros _.
Defined.

(** The whole of [nxfs_mount_emmc] on the disk with two entries: both boot areas,
    the raw NAND and package2 are devices, the volume SAFE is mounted. *)
Lemma mount_emmc_run :
  let '(rc, w') := nxfs_mount_emmc ((toy_disk toy_gpt no_rawdev) <| f_dev ::= fun s => s <| g_rawdev_devices := replicate 16 no_rawdev |> |>) in
  rc = Ok 0 /\ devoptab_names (f_dev w') = [str "bcpkg21"; str "rawnand"; str "boot0"] /\
  map dev_name (filter (fun d => setup d = true) (g_rawdev_devices (f_dev w'))) = [str "boot0"; str "boot1"; str "rawnand"; str "bcpkg21"] /\
  map dev_name (filter (fun d => setup d = true) (g_fsdev_devices (f_dev w'))) = [str "safe"].
Proof. by vm_compute. Qed.
