(* ===== verification/StorageInv.v ===== *)
(** The device tables of fusee-secondary stay well formed: whatever the mounting,
    reading, writing and unmounting functions of nxfs.c, raw_dev.c, emu_dev.c and
    fs_dev.c do, and however they end, the tables keep their sizes, and the
    mounted devices have different names of 1 to 32 characters.

    [frames] and [keeps_tables] describe what a computation leaves alone; the rules for
    the monad are hints, so that the driver functions need no proof of their own. *)
From S2P Require Import Prelude State Utils Se Platform Devices Fusee FuseeToy FuseeKeys Storage Nxfs StorageToy.
Import SE NxfsDriver DevicePartition FileDev RawDev EmuDev FsDev Gpt Nxfs Package1.

(** ** Computations that leave the device tables alone *)

Definition tables (s : storage_state) := (g_rawdev_devices s, g_emudev_devices s, g_fsdev_devices s).
Definition frames {A} (m : F A) : Prop := forall w, tables (f_dev (snd (m w))) = tables (f_dev w).

Create HintDb frames.
Lemma frames_bind {A B} (m : F A) (k : A -> F B) : frames m -> (forall a, frames (k a)) -> frames (m ≫= k).
Proof.
  intros Hm Hk w. specialize (Hm w). unfold mbind, F_bind. destruct (m w) as [[a|e] w1]; cbn in *; [|done].
  by rewrite (Hk a w1).
Qed.
Lemma frames_ret {A} (a : A) : frames (mret a).
Proof. by intros w. Qed.
Lemma frames_stopped {A} e : frames (@stopped A e).
Proof. by intros w. Qed.
Lemma frames_dget {A} (f : storage_state -> A) : frames (dget f).
Proof. by intros w. Qed.
Lemma frames_dset g : (forall s, tables (g s) = tables s) -> frames (dset g).
Proof. intros H w. apply H. Qed.
Lemma frames_heap {A} (r : res A) : frames (heap r).
Proof. by intros w. Qed.
Lemma frames_hw {A} (m : M A) : frames (hw m).
Proof. intros w. unfold hw. by destruct (m (f_hw w)) as [[] ?]. Qed.
#[export] Hint Resolve frames_ret frames_stopped frames_dget frames_heap frames_hw : frames.

(** Goes through a computation: binds, branches, and the leaves by hints. *)
Ltac framed :=
  repeat first
    [ progress intros
    | match goal with
      | |- frames (_ ≫= _) => apply frames_bind
      | |- frames (match ?x with _ => _ end) => destruct x
      end
    | progress cbv zeta
    | solve [eauto with frames]
    | apply frames_dset; intros; reflexivity ].

Lemma frames_set_errno e : frames (set_errno e).
Proof. unfold set_errno. framed. Qed.
#[export] Hint Resolve frames_set_errno : frames.

Section Drivers.
Context {soc : SoC} {card : Card} {sto : Storage}.

Lemma frames_initializer dp : frames (initializer dp).
Proof.
  unfold initializer, mmc_partition_initialize, emummc_partition_initialize. destruct (driver dp); framed.
Qed.

Lemma frames_finalizer dp : frames (finalizer dp).
Proof. unfold finalizer, mmc_partition_finalize, emummc_partition_finalize. framed. Qed.
Lemma frames_sdmmc_read dev sector num : frames (sdmmc_device_read dev sector num).
Proof. unfold sdmmc_device_read, card_bytes. framed. Qed.
Lemma frames_sdmmc_write dev sector num data : frames (sdmmc_device_write dev sector num data).
Proof. unfold sdmmc_device_write. destruct dev; framed. Qed.
Lemma frames_select part : frames (select_mmcpart part).
Proof. unfold select_mmcpart, sdmmc_mmc_select_partition. framed. Qed.
Hint Resolve frames_sdmmc_read frames_sdmmc_write frames_select : frames.
Lemma frames_reader dp dst ofs sector num : frames (reader dp dst ofs sector num).
Proof. unfold reader, mmc_partition_read, emummc_partition_read, file_lookup. destruct (driver dp); framed. Qed.
Lemma frames_writer dp src ofs sector num : frames (writer dp src ofs sector num).
Proof. unfold writer, mmc_partition_write, emummc_partition_write. destruct (driver dp); framed. Qed.
Lemma frames_cipher c dp sector num : frames (call_cipher c dp sector num).
Proof.
  unfold call_cipher, nxfs_bis_crypto_decrypt, nxfs_bis_crypto_encrypt, nxfs_bis_crypt, in_work_buffer. destruct c; framed.
Qed.
Hint Resolve frames_initializer frames_finalizer frames_reader frames_writer frames_cipher : frames.

Lemma frames_read_loop fuel dp c dst ofs sector num i : frames (read_loop fuel dp c dst ofs sector num i).
Proof. revert dp dst i. induction fuel as [|fuel IH]; intros; cbn [read_loop]; framed. Qed.
Lemma frames_write_loop fuel dp c src ofs sector num i : frames (write_loop fuel dp c src ofs sector num i).
Proof. revert dp i. induction fuel as [|fuel IH]; intros; cbn [write_loop]; framed. Qed.
Hint Resolve frames_read_loop frames_write_loop : frames.
Lemma frames_read_sectors dp dst ofs sector num : frames (read_sectors dp dst ofs sector num).
Proof. unfold read_sectors. framed. Qed.
Lemma frames_write_sectors dp src ofs sector num : frames (write_sectors dp src ofs sector num).
Proof. unfold write_sectors. framed. Qed.
Lemma frames_ensure dp : frames (ensure_initialized dp).
Proof. unfold ensure_initialized. framed. Qed.
Hint Resolve frames_read_sectors frames_write_sectors frames_ensure : frames.
Lemma frames_read_data dp dst ofs sector num : frames (device_partition_read_data dp dst ofs sector num).
Proof. unfold device_partition_read_data. framed. Qed.
Lemma frames_write_data dp src ofs sector num : frames (device_partition_write_data dp src ofs sector num).
Proof. unfold device_partition_write_data. framed. Qed.
Lemma frames_emu_read_data path n l dp dst ofs sector num : frames (emu_device_partition_read_data path n l dp dst ofs sector num).
Proof. unfold emu_device_partition_read_data. framed. Qed.
Lemma frames_emu_write_data path n l dp src ofs sector num : frames (emu_device_partition_write_data path n l dp src ofs sector num).
Proof. unfold emu_device_partition_write_data. framed. Qed.

(** What reading and writing returns is the same device, with another partition
    and sector buffer; nothing else of it changes. *)
Definition same_record (d d' : rawdev_device_t) : Prop := d' = d <| devpart := devpart d' |> <| tmp_sector := tmp_sector d' |>.
Definition returns {A} (m : F A) (P : A -> Prop) : Prop := forall w a w', m w = (Ok a, w') -> P a.
Lemma returns_bind {A B} (m : F A) (k : A -> F B) P : (forall a, returns (k a) P) -> returns (m ≫= k) P.
Proof. intros H w b w' E. apply frun_inv in E as (a & w1 & _ & E2). by apply (H a w1 b w'). Qed.
Lemma finish_same d f len r : returns (finish d f len r) (fun x => same_record d x.1.1.2).
Proof.
  intros w x w' E. unfold finish in E. destruct r as [no s]. destruct (negb _); cbn in E; by injection E as <- <-.
Qed.

Section Files.
Context {read_data : device_partition_t -> list Z -> Z -> Z -> Z -> F (Z * device_partition_t * list Z)}.
Context {write_data : device_partition_t -> list Z -> Z -> Z -> Z -> F (Z * device_partition_t)}.
Context (Hr : forall dp dst ofs sector num, frames (read_data dp dst ofs sector num)).
Context (Hw : forall dp dst ofs sector num, frames (write_data dp dst ofs sector num)).
Hint Resolve Hr Hw : frames.
Lemma frames_dev_read d f ptr len : frames (dev_read read_data d f ptr len).
Proof. unfold dev_read, read_head, read_body, read_tail, finish, andthen. framed. Qed.
Lemma frames_dev_write d f ptr len : frames (dev_write read_data write_data d f ptr len).
Proof. unfold dev_write, write_head, write_body, write_tail, finish, andthen. framed. Qed.
End Files.
End Drivers.

(** ** Well-formed tables *)

Record names_ok (n : nat) (l : list rawdev_device_t) : Prop := {
  no_size : length l = n;
  no_name : forall i d, l !! i = Some d -> setup d = true -> (1 <= length (dev_name d) <= 32)%nat;
  no_unique : forall i j di dj, l !! i = Some di -> l !! j = Some dj -> setup di = true -> setup dj = true -> dev_name di = dev_name dj -> i = j }.

Lemma names_ok_insert n l i d : names_ok n l ->
  (setup d = true -> (1 <= length (dev_name d) <= 32)%nat /\ forall j dj, l !! j = Some dj -> setup dj = true -> dev_name dj = dev_name d -> j = i) ->
  names_ok n (<[i := d]> l).
Proof.
  intros [Hs Hn Hu] Hd. split; [by rewrite length_insert| |].
  - intros j dj Hj Hset. apply list_lookup_insert_Some in Hj as [(-> & -> & _)|[_ Hj]]; [by apply Hd|by eapply Hn].
  - intros j k dj dk Hj Hk Sj Sk E.
    apply list_lookup_insert_Some in Hj as [(-> & -> & _)|[Nj Hj]]; apply list_lookup_insert_Some in Hk as [(<- & -> & _)|[Nk Hk]].
    + done.
    + symmetry. by apply (proj2 (Hd Sj) k dk).
    + by apply (proj2 (Hd Sk) j dj).
    + by eapply Hu.
Qed.
(** Three ways a slot changes: its device keeps its name, goes, or is new. *)
Lemma names_ok_same n l i d : names_ok n l -> setup d = setup (nth i l no_rawdev) -> dev_name d = dev_name (nth i l no_rawdev) ->
  names_ok n (<[i := d]> l).
Proof.
  intros H E1 E2. destruct (decide (i < length l)%nat) as [Hi|Hi]; [|rewrite list_insert_ge by lia; done].
  destruct (lookup_lt_is_Some_2 l i Hi) as [d0 Hd0]. rewrite (nth_lookup_Some _ _ _ _ Hd0) in E1, E2.
  apply names_ok_insert; [done|]. intros Hs. rewrite E1 in Hs. rewrite E2. split; [by eapply no_name|].
  intros j dj Hj Sj E. by eapply no_unique.
Qed.
Lemma names_ok_gone n l i d : names_ok n l -> setup d = false -> names_ok n (<[i := d]> l).
Proof. intros H E. apply names_ok_insert; [done|]. by rewrite E. Qed.
Lemma name_error_length name b : name_error name b = None -> (1 <= length name <= 32)%nat.
Proof. unfold name_error. destruct name; [done|]. destruct (_ >? 32) eqn:E; [done|]. intros _. rewrite Z.gtb_ltb in E. apply Z.ltb_ge in E. cbn [length] in *. lia. Qed.
Lemma name_error_exists name (found : option nat) : name_error name (bool_decide (is_Some found)) = None -> found = None.
Proof. destruct found; [|done]. rewrite bool_decide_true by done. unfold name_error. destruct name; [done|]. by destruct (_ >? 32). Qed.
Lemma names_ok_new n l i d name : names_ok n l -> find_index name l = None -> (1 <= length name <= 32)%nat -> dev_name d = name ->
  names_ok n (<[i := d]> l).
Proof.
  intros H Hf Hl Hd. apply names_ok_insert; [done|]. intros _. rewrite Hd. split; [done|]. intros j dj Hj Sj E. exfalso.
  unfold find_index in Hf. destruct (list_find _ l) eqn:EF in Hf; [done|]. apply list_find_None in EF.
  by apply (Forall_lookup_1 _ _ _ _ EF Hj).
Qed.

(** The three tables. *)
Record tables_ok (s : storage_state) : Prop := {
  to_raw : names_ok 16 (g_rawdev_devices s);
  to_emu : names_ok 16 (map emu_base (g_emudev_devices s));
  to_fs : names_ok 10 (g_fsdev_devices s) }.
Lemma tables_ok_tables s s' : tables s' = tables s -> tables_ok s -> tables_ok s'.
Proof. intros [= E1 E2 E3] []. split; congruence. Qed.

(** However [m] ends, the tables are in order if they were. *)
Definition keeps_tables {A} (m : F A) : Prop := forall w, tables_ok (f_dev w) -> tables_ok (f_dev (snd (m w))).
Create HintDb tables.
Lemma tables_kept_frames {A} (m : F A) : frames m -> keeps_tables m.
Proof. intros H w Hok. eapply tables_ok_tables; [apply H|done]. Qed.
Lemma tables_kept_bind {A B} (m : F A) (k : A -> F B) : keeps_tables m -> (forall a, keeps_tables (k a)) -> keeps_tables (m ≫= k).
Proof.
  intros Hm Hk w Hok. specialize (Hm w Hok). unfold mbind, F_bind. destruct (m w) as [[a|e] w1]; cbn in *; [|done]. by apply Hk.
Qed.
(** After a step that leaves the tables alone. *)
Lemma tables_kept_after {A B} (m : F A) (k : A -> F B) w : frames m -> tables_ok (f_dev w) ->
  (forall a w1, tables (f_dev w1) = tables (f_dev w) -> tables_ok (f_dev (snd (k a w1)))) -> tables_ok (f_dev (snd ((m ≫= k) w))).
Proof.
  intros Hm Hok Hk. specialize (Hm w). unfold mbind, F_bind. destruct (m w) as [[a|e] w1]; cbn in *; [by apply Hk|].
  by eapply tables_ok_tables.
Qed.
Ltac kept :=
  repeat first
    [ progress intros
    | match goal with
      | |- keeps_tables (_ ≫= _) => apply tables_kept_bind
      | |- keeps_tables (match ?x with _ => _ end) => destruct x
      end
    | progress cbv zeta
    | solve [eauto with tables]
    | apply tables_kept_frames; solve [framed] ].

Section Tables.
Context {soc : SoC} {card : Card} {sto : Storage}.

Lemma tables_ok_raw w l : tables_ok (f_dev w) -> names_ok 16 l -> tables_ok ((f_dev w) <| g_rawdev_devices := l |>).
Proof. intros [] ?. by split. Qed.
Lemma tables_ok_emu w l : tables_ok (f_dev w) -> names_ok 16 (map emu_base l) -> tables_ok ((f_dev w) <| g_emudev_devices := l |>).
Proof. intros [] ?. by split. Qed.
Lemma tables_ok_fs w l : tables_ok (f_dev w) -> names_ok 10 l -> tables_ok ((f_dev w) <| g_fsdev_devices := l |>).
Proof. intros [] ?. by split. Qed.
Lemma frames_AddDevice name : frames (AddDevice name).
Proof. unfold AddDevice. framed. Qed.
Lemma frames_RemoveDevice name : frames (RemoveDevice name).
Proof. unfold RemoveDevice. framed. Qed.
Lemma frames_convert rc : frames (fsdev_convert_rc rc).
Proof. unfold fsdev_convert_rc. framed. Qed.
Lemma frames_find name : frames (rawdev_find_device name) /\ frames (emudev_find_device name) /\ frames (fsdev_find_device name).
Proof. repeat split; apply frames_dget. Qed.
Lemma frames_f_mount name dp now : frames (f_mount name dp now).
Proof. unfold f_mount. pose proof frames_initializer. framed. Qed.
Hint Resolve frames_AddDevice frames_RemoveDevice frames_convert frames_f_mount frames_initializer frames_finalizer : frames.

(** Goes through an operation on a slot up to where it changes the table. *)
Ltac walk := cbv zeta; repeat first
  [ rewrite frun_dget
  | match goal with |- tables_ok (f_dev (snd ((match ?x with _ => _ end) _))) => destruct x eqn:? end
  | solve [apply tables_kept_frames; [framed|done]]
  | apply tables_kept_after; [solve [framed]|done|intros ? ? ?];
    match goal with H : tables (f_dev ?w1) = tables (f_dev ?w), Hok : tables_ok (f_dev ?w) |- _ =>
      let Hok1 := fresh "Hok" in pose proof (tables_ok_tables _ _ H Hok) as Hok1;
      let E1 := fresh "E" in let E2 := fresh "E" in let E3 := fresh "E" in injection H as E1 E2 E3 end ].

(** raw_dev.c *)
Lemma set_rawdev_same i d w : tables_ok (f_dev w) -> setup d = setup (nth i (g_rawdev_devices (f_dev w)) no_rawdev) ->
  dev_name d = dev_name (nth i (g_rawdev_devices (f_dev w)) no_rawdev) -> tables_ok (f_dev (snd (set_rawdev i d w))).
Proof. intros Hok E1 E2. apply tables_ok_raw; [done|]. apply names_ok_same; [apply Hok|done|done]. Qed.

Lemma keeps_rawdev_mount name dp now : keeps_tables (rawdev_mount_device name dp now).
Proof.
  intros w Hok. unfold rawdev_mount_device, rawdev_find_device. destruct (38 <? _); [done|]. rewrite frun_dget.
  destruct (name_error name _) as [e|] eqn:En; [by apply tables_kept_frames; [framed|]|]. rewrite frun_dget.
  pose proof (name_error_exists _ _ En) as Ef.
  destruct (free_index _) as [i|]; [|by apply tables_kept_frames; [framed|]].
  apply tables_kept_after; [framed|done|]. intros [rc dp'] w1 E. assert (Hok1 : tables_ok (f_dev w1)) by (by eapply tables_ok_tables).
  injection E as E1 _ _. rewrite <- E1 in Ef. pose proof (name_error_length _ _ En) as Hl.
  match goal with |- context [set_rawdev i ?x ≫= _] => set (d := x) end.
  assert (Hok2 : tables_ok (f_dev (snd (set_rawdev i d w1)))).
  { apply tables_ok_raw; [done|]. apply names_ok_gone; [apply Hok1|done]. }
  cbv zeta. change ((set_rawdev i d ≫= ?k) w1) with (k tt (snd (set_rawdev i d w1))). cbv beta.
  destruct (negb _); [by apply tables_kept_frames; [framed|]|]. destruct (negb _); [by apply tables_kept_frames; [framed|]|].
  apply (tables_ok_raw (snd (set_rawdev i d w1))); [done|]. change (g_rawdev_devices (f_dev (snd (set_rawdev i d w1)))) with (<[i := d]> (g_rawdev_devices (f_dev w1))).
  rewrite list_insert_insert_eq. by apply (names_ok_new _ _ _ _ name); [apply Hok1|..].
Qed.

Lemma set_rawdev_gone i w : tables_ok (f_dev w) -> tables_ok (f_dev (snd (set_rawdev i no_rawdev w))).
Proof. intros Hok. apply tables_ok_raw; [done|]. apply names_ok_gone; [apply Hok|done]. Qed.
Lemma keeps_rawdev_register name : keeps_tables (rawdev_register_device name).
Proof.
  intros w Hok. unfold rawdev_register_device, rawdev_find_device, rawdev_at. walk.
  apply (set_rawdev_same n _ w1); rewrite ?E; done.
Qed.
Lemma keeps_rawdev_unregister name : keeps_tables (rawdev_unregister_device name).
Proof.
  intros w Hok. unfold rawdev_unregister_device, rawdev_find_device, rawdev_at. walk.
  apply (set_rawdev_same n _ w1); rewrite ?E; done.
Qed.
Hint Resolve keeps_rawdev_mount keeps_rawdev_register keeps_rawdev_unregister : tables.
Lemma keeps_rawdev_unmount name : keeps_tables (rawdev_unmount_device name).
Proof.
  unfold rawdev_unmount_device, rawdev_find_device, rawdev_at. kept.
  intros w Hok. by apply (set_rawdev_gone _ w).
Qed.
Hint Resolve keeps_rawdev_unmount : tables.
Lemma keeps_unmount_slots n i : keeps_tables (unmount_slots n i).
Proof. revert i. induction n as [|n IH]; intros i; cbn [unmount_slots]; unfold rawdev_at; kept. Qed.
(** Reading and writing put the device back as it was. *)
Lemma keeps_rawdev_io i m : (forall d, frames (m d)) -> (forall d, returns (m d) (fun x => same_record d x.1.1.2)) -> keeps_tables (rawdev_io i m).
Proof.
  intros Hf Hr w Hok. unfold rawdev_io, rawdev_at. rewrite frun_dget. set (d := nth i _ _).
  pose proof (Hf d w) as E. destruct (m d w) as [[[[[rc d'] f'] buf]|e] w1] eqn:Em; unfold mbind at 1, F_bind; rewrite Em; cbn [snd] in *;
    [|by eapply tables_ok_tables].
  pose proof (Hr d w _ w1 Em) as Hs. cbn in Hs. assert (Hok1 : tables_ok (f_dev w1)) by (by eapply tables_ok_tables).
  injection E as E1 _ _. apply (set_rawdev_same i d' w1 Hok1); rewrite E1, Hs; done.
Qed.
Lemma returns_dev_read rd d f ptr len : returns (dev_read rd d f ptr len) (fun x => same_record d x.1.1.2).
Proof.
  unfold dev_read. destruct (_ =? 0); [intros w x w' E; injection E as <- _; by destruct d|].
  apply returns_bind. intros r. apply returns_bind. intros r'. apply finish_same.
Qed.
Lemma returns_dev_write rd wr d f ptr len : returns (dev_write rd wr d f ptr len) (fun x => same_record d x.1.1.2).
Proof.
  unfold dev_write. destruct (_ =? 0); [intros w x w' E; injection E as <- _; by destruct d|].
  apply returns_bind. intros r. apply returns_bind. intros r'. apply finish_same.
Qed.
Lemma keeps_rawdev_read i f ptr len : keeps_tables (rawdev_read i f ptr len).
Proof. apply keeps_rawdev_io; intros d; [apply frames_dev_read; intros; apply frames_read_data|apply returns_dev_read]. Qed.
Lemma keeps_rawdev_write i f ptr len : keeps_tables (rawdev_write i f ptr len).
Proof.
  apply keeps_rawdev_io; intros d; [apply frames_dev_write; intros; (apply frames_read_data || apply frames_write_data)|apply returns_dev_write].
Qed.
Lemma frames_rawdev_seek i f pos whence : frames (rawdev_seek i f pos whence).
Proof. unfold rawdev_seek, rawdev_at, dev_seek. framed. Qed.
Lemma frames_rawdev_open i path flags : frames (rawdev_open i path flags).
Proof. unfold rawdev_open, rawdev_at, dev_open. framed. Qed.

(** emu_dev.c *)
Lemma map_insert_base i d l : map emu_base (<[i := d]> l) = <[i := emu_base d]> (map emu_base l).
Proof. apply list_fmap_insert. Qed.
Lemma nth_base i l : nth i (map emu_base l) no_rawdev = emu_base (nth i l no_emudev).
Proof. change no_rawdev with (emu_base no_emudev). apply map_nth. Qed.
Lemma set_emudev_same i d w : tables_ok (f_dev w) -> setup (emu_base d) = setup (emu_base (nth i (g_emudev_devices (f_dev w)) no_emudev)) ->
  dev_name (emu_base d) = dev_name (emu_base (nth i (g_emudev_devices (f_dev w)) no_emudev)) -> tables_ok (f_dev (snd (set_emudev i d w))).
Proof.
  intros Hok E1 E2. apply tables_ok_emu; [done|]. rewrite map_insert_base. apply names_ok_same; [apply Hok|by rewrite nth_base..].
Qed.
Lemma set_emudev_gone i d w : tables_ok (f_dev w) -> setup (emu_base d) = false -> tables_ok (f_dev (snd (set_emudev i d w))).
Proof. intros Hok E. apply tables_ok_emu; [done|]. rewrite map_insert_base. apply names_ok_gone; [apply Hok|done]. Qed.
Lemma keeps_emudev_mount name dp path n limit : keeps_tables (emudev_mount_device name dp path n limit).
Proof.
  intros w Hok. unfold emudev_mount_device, emudev_find_device. rewrite frun_dget.
  destruct (name_error name _) as [e|] eqn:En; [by apply tables_kept_frames; [framed|]|]. rewrite frun_dget.
  pose proof (name_error_exists _ _ En) as Ef. destruct (free_index _) as [i|]; [|by apply tables_kept_frames; [framed|]].
  destruct (_ && _); [done|]. apply tables_kept_after; [framed|done|]. intros [rc dp'] w1 E. assert (Hok1 : tables_ok (f_dev w1)) by (by eapply tables_ok_tables).
  injection E as _ E1 _. rewrite <- E1 in Ef. pose proof (name_error_length _ _ En) as Hl.
  match goal with |- context [set_emudev i ?x ≫= _] => set (d := x) end.
  assert (Hok2 : tables_ok (f_dev (snd (set_emudev i d w1)))) by (by apply set_emudev_gone).
  cbv zeta. change ((set_emudev i d ≫= ?k) w1) with (k tt (snd (set_emudev i d w1))). cbv beta.
  destruct (negb _); [by apply tables_kept_frames; [framed|]|]. destruct (negb _); [by apply tables_kept_frames; [framed|]|].
  apply (tables_ok_emu (snd (set_emudev i d w1))); [done|]. change (g_emudev_devices (f_dev (snd (set_emudev i d w1)))) with (<[i := d]> (g_emudev_devices (f_dev w1))).
  rewrite list_insert_insert_eq, map_insert_base. by apply (names_ok_new _ _ _ _ name); [apply Hok1|..].
Qed.
Lemma keeps_emudev_register name : keeps_tables (emudev_register_device name).
Proof.
  intros w Hok. unfold emudev_register_device, emudev_find_device, emudev_at. walk.
  apply (set_emudev_same n _ w1); rewrite ?E0; done.
Qed.
Lemma keeps_emudev_unregister name : keeps_tables (emudev_unregister_device name).
Proof.
  intros w Hok. unfold emudev_unregister_device, emudev_find_device, emudev_at. walk.
  apply (set_emudev_same n _ w1); rewrite ?E0; done.
Qed.
Hint Resolve keeps_emudev_mount keeps_emudev_register keeps_emudev_unregister : tables.
Lemma keeps_emudev_unmount name : keeps_tables (emudev_unmount_device name).
Proof.
  unfold emudev_unmount_device, emudev_find_device, emudev_at. kept. intros w Hok. by apply (set_emudev_gone _ no_emudev w).
Qed.
Hint Resolve keeps_emudev_unmount : tables.
Lemma keeps_unmount_emu_slots n i : keeps_tables (unmount_emu_slots n i).
Proof. revert i. induction n as [|n IH]; intros i; cbn [unmount_emu_slots]; unfold emudev_at; kept. Qed.
Lemma keeps_emudev_io i m : (forall d, frames (m d)) -> (forall d, returns (m d) (fun x => same_record (emu_base d) x.1.1.2)) -> keeps_tables (emudev_io i m).
Proof.
  intros Hf Hr w Hok. unfold emudev_io, emudev_at. rewrite frun_dget. set (d := nth i _ _).
  pose proof (Hf d w) as E. destruct (m d w) as [[[[[rc d'] f'] buf]|e] w1] eqn:Em; unfold mbind at 1, F_bind; rewrite Em; cbn [snd] in *;
    [|by eapply tables_ok_tables].
  pose proof (Hr d w _ w1 Em) as Hs. cbn in Hs. assert (Hok1 : tables_ok (f_dev w1)) by (by eapply tables_ok_tables).
  injection E as _ E1 _. apply (set_emudev_same i (d <| emu_base := d' |>) w1 Hok1); rewrite E1; cbn; by rewrite Hs.
Qed.
Lemma keeps_emudev_read i f ptr len : keeps_tables (emudev_read i f ptr len).
Proof. apply keeps_emudev_io; intros d; [apply frames_dev_read; intros; apply frames_emu_read_data|apply returns_dev_read]. Qed.
Lemma keeps_emudev_write i f ptr len : keeps_tables (emudev_write i f ptr len).
Proof.
  apply keeps_emudev_io; intros d; [apply frames_dev_write; intros; (apply frames_emu_read_data || apply frames_emu_write_data)|apply returns_dev_write].
Qed.
Lemma frames_emudev_seek i f pos whence : frames (emudev_seek i f pos whence).
Proof. unfold emudev_seek, emudev_at, dev_seek. framed. Qed.
Lemma frames_emudev_open i path flags : frames (emudev_open i path flags).
Proof. unfold emudev_open, emudev_at, dev_open. framed. Qed.

(** fs_dev.c *)
Lemma set_fsdev_same i d w : tables_ok (f_dev w) -> setup d = setup (nth i (g_fsdev_devices (f_dev w)) no_rawdev) ->
  dev_name d = dev_name (nth i (g_fsdev_devices (f_dev w)) no_rawdev) -> tables_ok (f_dev (snd (set_fsdev i d w))).
Proof. intros Hok E1 E2. apply tables_ok_fs; [done|]. apply names_ok_same; [apply Hok|done|done]. Qed.
Lemma set_fsdev_gone i w : tables_ok (f_dev w) -> tables_ok (f_dev (snd (set_fsdev i no_rawdev w))).
Proof. intros Hok. apply tables_ok_fs; [done|]. apply names_ok_gone; [apply Hok|done]. Qed.
Lemma keeps_fsdev_mount name dp now : keeps_tables (fsdev_mount_device name dp now).
Proof.
  intros w Hok. unfold fsdev_mount_device, fsdev_find_device. rewrite frun_dget.
  destruct (find_index name _) eqn:Ef; [rewrite bool_decide_true by done; by apply tables_kept_frames; [framed|]|]. rewrite bool_decide_false by (by intros []).
  destruct (38 <? _); [done|]. destruct (_ || _) eqn:Ee; [by apply tables_kept_frames; [framed|]|].
  destruct (_ >? 32) eqn:El; [by apply tables_kept_frames; [framed|]|]. rewrite frun_dget. destruct (free_index _) as [i|]; [|by apply tables_kept_frames; [framed|]].
  assert (Hl : (1 <= length name <= 32)%nat).
  { apply orb_false_iff in Ee as [Ee _]. apply bool_decide_eq_false in Ee. rewrite Z.gtb_ltb in El. apply Z.ltb_ge in El. destruct name; [done|]. cbn [length] in *. lia. }
  apply tables_kept_after; [framed|done|]. intros [rc dp'] w1 E. assert (Hok1 : tables_ok (f_dev w1)) by (by eapply tables_ok_tables).
  injection E as _ _ E1. rewrite <- E1 in Ef.
  match goal with |- context [set_fsdev i ?x ≫= _] => set (d := x) end.
  assert (Hok2 : tables_ok (f_dev (snd (set_fsdev i d w1)))).
  { apply tables_ok_fs; [done|]. by apply (names_ok_new _ _ _ _ name); [apply Hok1|..]. }
  change ((set_fsdev i d ≫= ?k) w1) with (k tt (snd (set_fsdev i d w1))). cbv beta. destruct (negb _); by apply tables_kept_frames; [framed|].
Qed.
Lemma keeps_fsdev_register name : keeps_tables (fsdev_register_device name).
Proof.
  intros w Hok. unfold fsdev_register_device, fsdev_find_device, fsdev_at. walk.
  apply (set_fsdev_same n _ w1); rewrite ?E1; done.
Qed.
Lemma keeps_fsdev_unregister name : keeps_tables (fsdev_unregister_device name).
Proof.
  intros w Hok. unfold fsdev_unregister_device, fsdev_find_device, fsdev_at. walk.
  apply (set_fsdev_same n _ w1); rewrite ?E1; done.
Qed.
Hint Resolve keeps_fsdev_mount keeps_fsdev_register keeps_fsdev_unregister : tables.
Lemma keeps_fsdev_unmount name : keeps_tables (fsdev_unmount_device name).
Proof.
  unfold fsdev_unmount_device, fsdev_find_device, fsdev_at. kept. intros w Hok. by apply (set_fsdev_gone _ w).
Qed.
Hint Resolve keeps_fsdev_unmount : tables.
Lemma keeps_unmount_volumes n i : keeps_tables (unmount_volumes n i).
Proof. revert i. induction n as [|n IH]; intros i; cbn [unmount_volumes]; unfold fsdev_at; kept. Qed.

(** stdio and gpt.c *)
Hint Resolve frames_rawdev_seek frames_rawdev_open frames_emudev_seek frames_emudev_open : frames.
Hint Resolve keeps_rawdev_read keeps_emudev_read keeps_unmount_volumes keeps_unmount_slots keeps_unmount_emu_slots : tables.
Lemma frames_fopen name : frames (fopen name).
Proof. unfold fopen, rawdev_find_device, emudev_find_device. framed. Qed.
Lemma keeps_fread1 fp block size : keeps_tables (fread1 fp block size).
Proof. unfold fread1. kept. Qed.
Lemma frames_fseek fp off whence : frames (fseek fp off whence).
Proof. unfold fseek. framed. Qed.
Hint Resolve frames_fopen frames_fseek : frames.
Hint Resolve keeps_fread1 : tables.
Lemma keeps_gpt_header disk size : keeps_tables (gpt_get_header disk size).
Proof. unfold gpt_get_header. kept. Qed.
Hint Resolve keeps_gpt_header : tables.
Lemma keeps_entries_loop n callback delta disk entry : (forall e, keeps_tables (callback e)) -> keeps_tables (entries_loop n callback delta disk entry).
Proof. intros H. revert disk entry. induction n as [|n IH]; intros disk entry; cbn [entries_loop]; kept. Qed.
Lemma keeps_gpt disk size callback : (forall e, keeps_tables (callback e)) -> keeps_tables (gpt_iterate_through_entries disk size callback).
Proof. intros H. pose proof (keeps_entries_loop). unfold gpt_iterate_through_entries. kept. Qed.

(** nxfs.c *)
Lemma keeps_known_loop mount register ks name entry n dp : (forall name dp, keeps_tables (mount name dp)) -> (forall name, keeps_tables (register name)) ->
  keeps_tables (known_loop mount register ks name entry n dp).
Proof. intros Hm Hr. revert dp. induction ks as [|k ks IH]; intros dp; cbn [known_loop]; [|unfold mount_known]; kept. Qed.
Lemma keeps_callback parent entry : keeps_tables (nxfs_mount_partition_gpt_callback parent entry).
Proof. unfold nxfs_mount_partition_gpt_callback, mount_partition_callback. kept. apply keeps_known_loop; intros; eauto with tables. Qed.
Lemma keeps_emu_callback path n limit parent entry : keeps_tables (nxfs_mount_emu_partition_gpt_callback path n limit parent entry).
Proof. unfold nxfs_mount_emu_partition_gpt_callback, mount_partition_callback. kept. apply keeps_known_loop; intros; eauto with tables. Qed.
Hint Resolve keeps_gpt keeps_callback keeps_emu_callback : tables.
Lemma keeps_mount_sd : keeps_tables nxfs_mount_sd.
Proof. unfold nxfs_mount_sd. kept. Qed.
Lemma keeps_mount_emmc : keeps_tables nxfs_mount_emmc.
Proof. unfold nxfs_mount_emmc. kept. Qed.
Lemma keeps_mount_emu_rawnand model path n limit e : keeps_tables (mount_emu_rawnand model path n limit e).
Proof. unfold mount_emu_rawnand, gpt_iterate_through_emu_entries. kept. Qed.
Hint Resolve keeps_mount_emu_rawnand : tables.
Lemma keeps_mount_emummc_partition start : keeps_tables (nxfs_mount_emummc_partition start).
Proof. unfold nxfs_mount_emummc_partition. kept. Qed.
Lemma keeps_mount_emummc_file path n limit : keeps_tables (nxfs_mount_emummc_file path n limit).
Proof. unfold nxfs_mount_emummc_file, fsdev_is_exfat, fsdev_get_attr, fsdev_set_attr, fsdev_find_device, fsdev_at. kept. Qed.
Lemma keeps_nxfs_end : keeps_tables nxfs_end.
Proof.
  unfold nxfs_end, nxfs_unmount_sd, nxfs_unmount_emmc, nxfs_unmount_emummc, fsdev_unmount_all, rawdev_unmount_all, emudev_unmount_all. kept.
Qed.
Lemma keeps_nxfs_init : keeps_tables nxfs_init.
Proof. unfold nxfs_init, fsdev_set_default_device, fsdev_find_device. pose proof keeps_mount_sd. kept. Qed.

(** ** All operations *)

(** The operations of the storage stack, with their results left out. *)
Inductive storage_op :=
  | op_init | op_mount_emmc | op_mount_emummc_partition (start : Z) | op_mount_emummc_file (path : list Z) (parts limit : Z) | op_end
  | op_mount (name : list Z) (dp : device_partition_t) (now : bool) | op_register (name : list Z) | op_unregister (name : list Z) | op_unmount (name : list Z)
  | op_mount_emu (name : list Z) (dp : device_partition_t) (path : list Z) (parts limit : Z) | op_register_emu (name : list Z)
  | op_unregister_emu (name : list Z) | op_unmount_emu (name : list Z)
  | op_mount_fs (name : list Z) (dp : device_partition_t) (now : bool) | op_register_fs (name : list Z) | op_unregister_fs (name : list Z)
  | op_unmount_fs (name : list Z)
  | op_fopen (name : list Z) | op_fread (fp : FILE) (block : list Z) (size : Z) | op_fseek (fp : FILE) (off whence : Z)
  | op_write (i : nat) (f : devfile) (ptr : list Z) (len : Z) | op_write_emu (i : nat) (f : devfile) (ptr : list Z) (len : Z).
Definition run_op (o : storage_op) : F unit :=
  match o with
  | op_init => nxfs_init ;; fret tt
  | op_mount_emmc => nxfs_mount_emmc ;; fret tt
  | op_mount_emummc_partition start => nxfs_mount_emummc_partition start ;; fret tt
  | op_mount_emummc_file path parts limit => nxfs_mount_emummc_file path parts limit ;; fret tt
  | op_end => nxfs_end ;; fret tt
  | op_mount name dp now => rawdev_mount_device name dp now ;; fret tt
  | op_register name => rawdev_register_device name ;; fret tt
  | op_unregister name => rawdev_unregister_device name ;; fret tt
  | op_unmount name => rawdev_unmount_device name ;; fret tt
  | op_mount_emu name dp path parts limit => emudev_mount_device name dp path parts limit ;; fret tt
  | op_register_emu name => emudev_register_device name ;; fret tt
  | op_unregister_emu name => emudev_unregister_device name ;; fret tt
  | op_unmount_emu name => emudev_unmount_device name ;; fret tt
  | op_mount_fs name dp now => fsdev_mount_device name dp now ;; fret tt
  | op_register_fs name => fsdev_register_device name ;; fret tt
  | op_unregister_fs name => fsdev_unregister_device name ;; fret tt
  | op_unmount_fs name => fsdev_unmount_device name ;; fret tt
  | op_fopen name => fopen name ;; fret tt
  | op_fread fp block size => fread1 fp block size ;; fret tt
  | op_fseek fp off whence => fseek fp off whence ;; fret tt
  | op_write i f ptr len => rawdev_write i f ptr len ;; fret tt
  | op_write_emu i f ptr len => emudev_write i f ptr len ;; fret tt
  end.

(** From cleared tables, by any operations in any order, finished or not. *)
Inductive storage_reachable : FWorld -> Prop :=
  | storage_start w : tables (f_dev w) = (replicate 16 no_rawdev, replicate 16 no_emudev, replicate 10 no_rawdev) -> storage_reachable w
  | storage_step o w : storage_reachable w -> storage_reachable (snd (run_op o w)).

Lemma cleared_names n : names_ok n (replicate n no_rawdev).
Proof.
  split; [apply length_replicate|..]; intros i *; rewrite lookup_replicate; [by intros [-> _]|]. by intros [-> _] _.
Qed.
Lemma run_op_keeps o : keeps_tables (run_op o).
Proof.
  pose proof keeps_nxfs_init. pose proof keeps_mount_emmc. pose proof keeps_mount_emummc_partition. pose proof keeps_mount_emummc_file.
  pose proof keeps_nxfs_end. pose proof keeps_rawdev_write. pose proof keeps_emudev_write. destruct o; cbn [run_op]; kept.
Qed.

(** C14: the device tables stay well formed: after any sequence of mounting,
    registering, reading, writing, seeking and unmounting operations, whether they
    succeed, fail or stop in the middle, the tables have their 16, 16 and 10
    slots, and the mounted devices of a table have different names of 1 to 32
    characters, so that a name finds at most one device. *)
Theorem device_tables_well_formed w : storage_reachable w -> tables_ok (f_dev w).
Proof.
  induction 1 as [w E|o w _ IH]; [|by apply run_op_keeps]. injection E as E1 E2 E3.
  split; rewrite ?E1, ?E2, ?E3, ?map_replicate; apply cleared_names.
Qed.
End Tables.

(** ** Witness *)

Import Toy.
(** After the SD card and the eMMC have been mounted. *)
Definition toy_mounted : FWorld := snd (run_op op_mount_emmc (snd (run_op op_init (toy_disk (fun _ => 0) no_rawdev)))).
Lemma device_tables_well_formed_witness : tables_ok (f_dev toy_mounted) /\ Forall (fun d => dev_name d <> []) (take 3 (g_rawdev_devices (f_dev toy_mounted))).
Proof.
  split; [|vm_compute; repeat constructor; discriminate]. apply device_tables_well_formed. apply storage_step, storage_step, storage_start. done.
Defined.
