(* ===== verification/IniFile.v ===== *)
(** Configuration files: the INI parser of fusee-secondary (lib/ini.c), on
    strings.  A C string is the list of its characters without the NUL. *)
From S2P Require Import Prelude State Fusee.

Module IniFile.

Definition INI_MAX_LINE := 200.
Definition MAX_SECTION := 50.
Definition MAX_NAME := 50.
Definition LF := 10.
Definition SEMICOLON := 59.

(** [isspace] of the C locale. *)
Definition isspace (c : Z) : bool := (c =? 32) || ((9 <=? c) && (c <=? 13)).
Fixpoint lskip (s : list Z) : list Z := match s with c :: r => if isspace c then lskip r else s | [] => [] end.
Definition rstrip (s : list Z) : list Z := rev (lskip (rev s)).

(** The part before the first of [chars] or an inline comment, and the rest, which
    begins with what was found; no [chars] stand for NULL. *)
Fixpoint find_chars_or_comment (was_space : bool) (chars s : list Z) : list Z * list Z :=
  match s with
  | [] => ([], [])
  | c :: r =>
      if bool_decide (c ∈ chars) || (was_space && (c =? SEMICOLON)) then ([], s)
      else let '(a, b) := find_chars_or_comment (isspace c) chars r in (c :: a, b)
  end.
Definition strncpy0 (src : list Z) (size : Z) : list Z := take (Z.to_nat (size - 1)) src.

(** The next line, at most [space] = [num - 1] characters with the newline, and the
    rest. *)
Fixpoint ini_reader_string (space : nat) (s : list Z) : list Z * list Z :=
  match space, s with
  | S space, c :: r => if c =? LF then ([c], r) else let '(l, r') := ini_reader_string space r in (c :: l, r')
  | _, _ => ([], s)
  end.

Section Parse.
Context {U : Type}.
(** The handler's new user data and its result. *)
Variable handler : U -> list Z -> list Z -> list Z -> F (U * Z).

Record ini_state := mk_ini { ini_section : list Z; prev_name : list Z; lineno : Z; ini_error : Z; ini_user : U }.

(** The byte order mark at the start of the first line. *)
Definition skip_bom (lineno : Z) (line : list Z) : list Z :=
  match line with
  | a :: b :: c :: r => if (lineno =? 1) && (a =? 0xEF) && (b =? 0xBB) && (c =? 0xBF) then r else line
  | _ => line
  end.

Definition failed (st : ini_state) : Z := if ini_error st =? 0 then lineno st else ini_error st.
Definition call_handler (st : ini_state) (name value : list Z) : F ini_state :=
  '(user, r) ← handler (ini_user st) (ini_section st) name value;
  mret (mk_ini (ini_section st) (prev_name st) (lineno st) (if r =? 0 then failed st else ini_error st) user).

(** One line; [start > line] says that something was skipped at its start. *)
Definition ini_line (st : ini_state) (line : list Z) : F ini_state :=
  let st := mk_ini (ini_section st) (prev_name st) (lineno st + 1) (ini_error st) (ini_user st) in
  let text := rstrip (skip_bom (lineno st) line) in
  let start := lskip text in
  let indented := bool_decide (length start <> length text) || bool_decide (length (skip_bom (lineno st) line) <> length line) in
  let error := mk_ini (ini_section st) (prev_name st) (lineno st) (failed st) (ini_user st) in
  match start with
  | [] => mret st
  | c :: r =>
      if (c =? 59) || (c =? 35) then mret st
      else if negb (bool_decide (prev_name st = [])) && indented then call_handler st (prev_name st) start
      else if c =? 91
      then match find_chars_or_comment false [93] r with
           | (name, 93 :: _) => mret (mk_ini (strncpy0 name MAX_SECTION) [] (lineno st) (ini_error st) (ini_user st))
           | _ => mret error
           end
      else match find_chars_or_comment false [61; 58] start with
           | (name, c :: value) =>
               if (c =? 61) || (c =? 58)
               then let name := rstrip name in
                    let value := rstrip (lskip (fst (find_chars_or_comment false [] value))) in
                    call_handler (mk_ini (ini_section st) (strncpy0 name MAX_NAME) (lineno st) (ini_error st) (ini_user st)) name value
               else mret error
           | _ => mret error
           end
  end.

(** Every line takes at least one character. *)
Fixpoint ini_parse_stream (fuel : nat) (s : list Z) (st : ini_state) : F ini_state :=
  match fuel with
  | O => stopped Hangs
  | S fuel =>
      match s with
      | [] => mret st
      | _ => let '(line, rest) := ini_reader_string (Z.to_nat (INI_MAX_LINE - 1)) s in
             st ← ini_line st line; ini_parse_stream fuel rest st
      end
  end.

(** The number of the first bad line, or 0, and the user data. *)
Definition ini_parse_string (s : list Z) (user : U) : F (Z * U) :=
  st ← ini_parse_stream (S (length s)) s (mk_ini [] [] 0 0 user);
  mret (ini_error st, ini_user st).
End Parse.

(** A handler that only computes. *)
Definition pure_handler {U} (h : U -> list Z -> list Z -> list Z -> U * Z) (user : U) (section name value : list Z) : F (U * Z) :=
  mret (h user section name value).
End IniFile.
