(* ===== verification/IniFileProps.v ===== *)
(** The INI parser (lib/ini.c): what is printed as sections of name = value lines
    is parsed back, entry by entry and in order. *)
From S2P Require Import Prelude State Fusee IniFile StorageToy.
Import IniFile.

(** ** Printing *)

(** A section with its entries, and the text of a configuration. *)
Definition config := list (list Z * list (list Z * list Z)).
Definition print_entry (e : list Z * list Z) : list Z := fst e ++ [32; 61; 32] ++ snd e ++ [LF].
Definition print_section (s : list Z * list (list Z * list Z)) : list Z := [91] ++ fst s ++ [93; LF] ++ concat (map print_entry (snd s)).
Definition print_config (cfg : config) : list Z := concat (map print_section cfg).
Definition config_entries (cfg : config) : list (list Z * list Z * list Z) :=
  concat (map (fun s => map (fun e => (fst s, fst e, snd e)) (snd s)) cfg).

(** Names have no white space and none of the characters with a meaning. *)
Definition plain (c : Z) : bool := (33 <=? c) && (c <=? 126) && negb (bool_decide (c ∈ [35; 58; 59; 61; 91; 93])).
Definition word (s : list Z) : Prop := s <> [] /\ (length s < 50)%nat /\ Forall (fun c => plain c = true) s.
(** Values are lines without a semicolon, with no white space at their ends. *)
Definition value_ok (v : list Z) : Prop :=
  Forall (fun c => c <> LF /\ c <> SEMICOLON) v /\ lskip v = v /\ rstrip v = v.
Definition entry_ok (e : list Z * list Z) : Prop :=
  word (fst e) /\ value_ok (snd e) /\ (length (fst e) + length (snd e) < 190)%nat.
Definition config_ok (cfg : config) : Prop := Forall (fun s => word (fst s) /\ Forall entry_ok (snd s)) cfg.

(** ** Lines *)

Ltac in_list := match goal with |- ?P => exact (bool_decide_eq_true_1 P eq_refl) end.

Lemma plain_not_space c : plain c = true -> isspace c = false.
Proof. unfold plain, isspace. intros H. destruct (33 <=? c) eqn:E; [|done]. apply orb_false_iff. split; [lia|]. destruct (9 <=? c), (c <=? 13) eqn:E2; try done. lia. Qed.
Lemma plain_not_special c x : plain c = true -> x ∈ [35; 58; 59; 61; 91; 93] -> c <> x.
Proof. unfold plain. intros H Hx ->. rewrite (bool_decide_true (x ∈ _)) in H by done. by rewrite andb_false_r in H. Qed.

Lemma lskip_nospace s : match s with c :: _ => isspace c = false | [] => True end -> lskip s = s.
Proof. destruct s as [|c r]; cbn; [done|]. by intros ->. Qed.
Lemma lskip_spaces a s : forallb isspace a -> lskip (a ++ s) = lskip s.
Proof. induction a as [|c a IH]; [done|]. cbn. destruct (isspace c); [apply IH|done]. Qed.
Lemma rstrip_spaces a s : forallb isspace a -> rstrip (s ++ a) = rstrip s.
Proof.
  intros Ha. unfold rstrip. rewrite rev_app_distr, lskip_spaces; [done|]. apply Is_true_eq_true in Ha. apply Is_true_eq_left.
  rewrite forallb_forall in Ha |- *. intros x Hx. apply Ha. by apply in_rev.
Qed.
Lemma lskip_stop a c s : isspace c = false -> lskip (a ++ c :: s) = lskip a ++ c :: s.
Proof. intros Hc. induction a as [|x a IH]; cbn; [by rewrite Hc|]. by destruct (isspace x). Qed.
Lemma lskip_tail a s : lskip a <> [] -> lskip (a ++ s) = lskip a ++ s.
Proof. induction a as [|x a IH]; cbn; [done|]. by destruct (isspace x). Qed.
Lemma rstrip_stop a c s : isspace c = false -> rstrip (a ++ c :: s) = a ++ c :: rstrip s.
Proof.
  intros Hc. unfold rstrip. rewrite rev_app_distr. cbn. rewrite <- app_assoc. cbn. rewrite lskip_stop by done.
  by rewrite rev_app_distr; cbn; rewrite rev_involutive, <- app_assoc.
Qed.
Lemma rstrip_cons c s : rstrip s <> [] -> rstrip (c :: s) = c :: rstrip s.
Proof.
  unfold rstrip. intros H. cbn. rewrite lskip_tail; [by rewrite rev_app_distr|]. intros E. by rewrite E in H.
Qed.
Lemma lskip_suffix s : exists a, s = a ++ lskip s.
Proof. induction s as [|c s [a IH]]; [by exists []|]. cbn. destruct (isspace c); [exists (c :: a); cbn; by f_equal|by exists []]. Qed.
Lemma rstrip_Forall (P : Z -> Prop) s : Forall P s -> Forall P (rstrip s).
Proof.
  intros H. unfold rstrip. destruct (lskip_suffix (rev s)) as [a E]. apply Forall_rev in H. rewrite E in H.
  apply Forall_app in H as [_ H]. by apply Forall_rev.
Qed.

Lemma find_none was chars s : Forall (fun c => (c ∉ chars) /\ c <> SEMICOLON) s -> find_chars_or_comment was chars s = (s, []).
Proof.
  intros H. revert was. induction H as [|c s [H1 H2] _ IH]; intros was; [done|]. cbn [find_chars_or_comment].
  rewrite bool_decide_false by done. replace (c =? SEMICOLON) with false by (symmetry; by apply Z.eqb_neq). by rewrite andb_false_r, IH.
Qed.
Lemma find_first was chars a c s : Forall (fun c => (c ∉ chars) /\ c <> SEMICOLON) a -> c ∈ chars ->
  find_chars_or_comment was chars (a ++ c :: s) = (a, c :: s).
Proof.
  intros H Hc. revert was. induction H as [|x a [H1 H2] _ IH]; intros was; cbn [app find_chars_or_comment].
  - by rewrite bool_decide_true.
  - rewrite bool_decide_false by done. replace (x =? SEMICOLON) with false by (symmetry; by apply Z.eqb_neq). by rewrite andb_false_r, IH.
Qed.

Lemma reader_line n line rest : Forall (fun c => c <> LF) line -> (length line < n)%nat ->
  ini_reader_string n (line ++ LF :: rest) = (line ++ [LF], rest).
Proof.
  intros H. revert n. induction H as [|c line Hc _ IH]; intros n Hn; destruct n as [|n]; cbn [length] in Hn; try lia; cbn [app ini_reader_string].
  - by rewrite Z.eqb_refl.
  - replace (c =? LF) with false by (symmetry; by apply Z.eqb_neq). by rewrite IH by lia.
Qed.
Lemma skip_bom_other n c s : c <> 0xEF -> skip_bom n (c :: s) = c :: s.
Proof.
  intros H. destruct s as [|b [|d s]]; [done..|]. unfold skip_bom.
  replace (c =? 0xEF) with false by (symmetry; by apply Z.eqb_neq). by rewrite andb_false_r.
Qed.
Lemma plain_find chars s : Forall (fun c => c ∈ [35; 58; 59; 61; 91; 93]) chars -> Forall (fun c => plain c = true) s ->
  Forall (fun c => (c ∉ chars) /\ c <> SEMICOLON) s.
Proof.
  intros Hc H. eapply Forall_impl; [exact H|]. intros c Hp. split.
  - intros Hin. rewrite Forall_forall in Hc. exact (plain_not_special c c Hp (Hc c Hin) eq_refl).
  - eapply plain_not_special; [done|]. in_list.
Qed.
Lemma plain_no_lf s : Forall (fun c => plain c = true) s -> Forall (fun c => c <> LF) s.
Proof. intros H. eapply Forall_impl; [exact H|]. intros c Hp ->. by apply plain_not_space in Hp. Qed.
Lemma word_strncpy0 s size : word s -> 50 <= size -> strncpy0 s size = s.
Proof. intros (_ & H & _) Hs. unfold strncpy0. apply take_ge. lia. Qed.
Lemma word_rstrip s a : word s -> forallb isspace a -> rstrip (s ++ a) = s.
Proof.
  intros (Hn & _ & H) Ha. rewrite rstrip_spaces by done. destruct (exists_last Hn) as (s' & c & ->).
  apply Forall_app in H as [_ H]. inversion H as [|? ? Hc]; subst. apply plain_not_space in Hc. by rewrite rstrip_stop.
Qed.

(** ** One line *)

Section Lines.
Context {U : Type} (handler : U -> list Z -> list Z -> list Z -> F (U * Z)).

(** A line that begins with [c], an ordinary character or a bracket, and is [text]
    when stripped. *)
Lemma line_text st line c text : isspace c = false -> c <> 0xEF -> c <> 59 -> c <> 35 -> rstrip (c :: line) = c :: text ->
  ini_line handler st (c :: line) =
  let st := mk_ini (ini_section st) (prev_name st) (lineno st + 1) (ini_error st) (ini_user st) in
  let error := mk_ini (ini_section st) (prev_name st) (lineno st) (failed st) (ini_user st) in
  if c =? 91
  then match find_chars_or_comment false [93] text with
       | (name, 93 :: _) => mret (mk_ini (strncpy0 name MAX_SECTION) [] (lineno st) (ini_error st) (ini_user st))
       | _ => mret error
       end
  else match find_chars_or_comment false [61; 58] (c :: text) with
       | (name, c :: value) =>
           if (c =? 61) || (c =? 58)
           then let name := rstrip name in
                let value := rstrip (lskip (fst (find_chars_or_comment false [] value))) in
                call_handler handler (mk_ini (ini_section st) (strncpy0 name MAX_NAME) (lineno st) (ini_error st) (ini_user st)) name value
           else mret error
       | _ => mret error
       end.
Proof.
  intros Hs Hb H1 H2 Ht. unfold ini_line. rewrite (skip_bom_other _ c line), Ht by done. cbn [lskip]. rewrite Hs.
  replace ((c =? 59) || (c =? 35)) with false by (symmetry; apply orb_false_iff; split; by apply Z.eqb_neq).
  rewrite !(bool_decide_false (_ <> _)) by (intros E; by apply E). by rewrite andb_false_r.
Qed.

Lemma section_line st name : word name ->
  ini_line handler st ([91] ++ name ++ [93] ++ [LF]) = mret (mk_ini name [] (lineno st + 1) (ini_error st) (ini_user st)).
Proof.
  intros Hw. pose proof Hw as (_ & _ & Hp). cbn [app]. rewrite (line_text _ _ _ (name ++ [93])); [|done..|].
  - cbn [Z.eqb Pos.eqb]. rewrite find_first; [|apply plain_find; [repeat constructor; in_list|done]|in_list].
    by rewrite word_strncpy0 by (done || unfold MAX_SECTION; lia).
  - change (91 :: name ++ [93; LF]) with ((91 :: name) ++ 93 :: [LF]). by rewrite rstrip_stop.
Qed.

Lemma stripped_value v : value_ok v -> rstrip (lskip (fst (find_chars_or_comment false [] (rstrip (32 :: v ++ [LF]))))) = v.
Proof.
  intros (Hv & Hl & Hr). change (32 :: v ++ [LF]) with ((32 :: v) ++ [LF]). rewrite (rstrip_spaces [LF]) by done.
  rewrite find_none; cbn [fst].
  - destruct v as [|c v]; [done|]. rewrite rstrip_cons by (by rewrite Hr). rewrite Hr. change (lskip (32 :: c :: v)) with (lskip (c :: v)).
    by rewrite Hl.
  - apply rstrip_Forall. constructor; [by split; [set_solver|]|]. eapply Forall_impl; [exact Hv|]. intros c [_ Hc]. by split; [set_solver|].
Qed.

Lemma entry_line st e : entry_ok e ->
  ini_line handler st (print_entry e) =
  call_handler handler (mk_ini (ini_section st) (fst e) (lineno st + 1) (ini_error st) (ini_user st)) (fst e) (snd e).
Proof.
  destruct e as [name v]. cbn [fst snd]. intros (Hw & Hv & Hn). cbn [fst snd] in *. pose proof Hw as (Hne & _ & Hp). unfold print_entry. cbn [fst snd].
  destruct name as [|c name]; [done|]. inversion Hp as [|? ? Hc Hp']; subst. cbn [app].
  rewrite (line_text _ _ _ (name ++ [32] ++ 61 :: rstrip (32 :: v ++ [LF]))).
  - replace (c =? 91) with false by (symmetry; apply Z.eqb_neq; eapply plain_not_special; [done|in_list]).
    replace (c :: name ++ [32] ++ 61 :: rstrip (32 :: v ++ [LF])) with ((c :: name ++ [32]) ++ 61 :: rstrip (32 :: v ++ [LF])) by (cbn; by rewrite <- app_assoc).
    rewrite find_first; [|change (c :: name ++ [32]) with ((c :: name) ++ [32]); apply Forall_app; split; [by apply plain_find; [repeat constructor; in_list|]|constructor; [split; in_list|done]]|in_list].
    cbn [Z.eqb Pos.eqb orb]. cbv zeta. rewrite stripped_value by done.
    change (c :: name ++ [32]) with ((c :: name) ++ [32]). rewrite word_rstrip by done. by rewrite word_strncpy0 by (done || unfold MAX_NAME; lia).
  - by apply plain_not_space.
  - intros ->. by unfold plain in Hc.
  - eapply plain_not_special; [done|in_list].
  - eapply plain_not_special; [done|in_list].
  - replace (c :: name ++ 32 :: 61 :: 32 :: v ++ [LF]) with ((c :: name ++ [32]) ++ 61 :: 32 :: v ++ [LF]) by (cbn; by rewrite <- app_assoc).
    rewrite rstrip_stop by done. cbn. by rewrite <- app_assoc.
Qed.

(** ** The whole text *)

(** What parsing amounts to: the handler is called on each entry, and the error is
    the line of the first entry it does not accept. *)
Definition handle_entry (sec : list Z) (acc : Z * Z * U) (e : list Z * list Z) : F (Z * Z * U) :=
  let '(n, err, user) := acc in
  '(user, r) ← handler user sec (fst e) (snd e);
  mret (n + 1, if (r =? 0) && (err =? 0) then n + 1 else err, user).
Definition handle_section (acc : Z * Z * U) (s : list Z * list (list Z * list Z)) : F (Z * Z * U) :=
  let '(n, err, user) := acc in ffold (handle_entry (fst s)) (n + 1, err, user) (snd s).
Definition handle_config (cfg : config) (user : U) : F (Z * U) :=
  '(n, err, user) ← ffold handle_section (0, 0, user) cfg; mret (err, user).

Lemma stream_line fuel line rest st w : Forall (fun c => c <> LF) line -> (length line < 199)%nat ->
  ini_parse_stream handler (S fuel) (line ++ LF :: rest) st w =
  (ini_line handler st (line ++ [LF]) ≫= ini_parse_stream handler fuel rest) w.
Proof.
  intros Hl Hn. cbn [ini_parse_stream]. rewrite reader_line by (done || exact Hn). by destruct line.
Qed.

Lemma entry_step fuel e rest st w : entry_ok e ->
  ini_parse_stream handler (S fuel) (print_entry e ++ rest) st w =
  (call_handler handler (mk_ini (ini_section st) (fst e) (lineno st + 1) (ini_error st) (ini_user st)) (fst e) (snd e)
     ≫= ini_parse_stream handler fuel rest) w.
Proof.
  intros He. rewrite <- (entry_line st e He). destruct He as ((_ & _ & Hp) & (Hv & _) & Hn).
  unfold print_entry. rewrite !app_assoc, <- (app_assoc _ [LF]). cbn [app]. rewrite stream_line; [done| |].
  - apply Forall_app. split; [apply Forall_app; split; [by apply plain_no_lf|by repeat constructor]|].
    eapply Forall_impl; [exact Hv|]. by intros c [? _].
  - rewrite !length_app. cbn [length]. lia.
Qed.

Lemma entries_parse es fuel sec rest prev n err user w : Forall entry_ok es ->
  ini_parse_stream handler (length es + fuel) (concat (map print_entry es) ++ rest) (mk_ini sec prev n err user) w =
  (ffold (handle_entry sec) (n, err, user) es ≫= fun '(n, err, user) =>
     ini_parse_stream handler fuel rest (mk_ini sec (default prev (fst <$> last es)) n err user)) w.
Proof.
  intros H. revert prev n err user w. induction H as [|e es He _ IH]; intros prev n err user w; [done|].
  cbn [length map concat plus]. rewrite <- app_assoc, entry_step by done. unfold call_handler at 1. cbn [ini_section lineno ini_error ini_user prev_name].
  cbn [ffold]. rewrite !frun_assoc. unfold handle_entry at 2. rewrite frun_assoc. unfold mbind, F_bind. cbn.
  destruct (handler user sec (fst e) (snd e) w) as [[[user' r]|] w']; [|done]. cbn. unfold failed. cbn [ini_error lineno].
  replace (if r =? 0 then _ else err) with (if (r =? 0) && (err =? 0) then n + 1 else err) by (by destruct (r =? 0), (err =? 0)).
  rewrite IH. unfold mbind, F_bind. destruct (ffold _ _ _ w') as [[[[n' err'] u']|] w'']; [|done].
  f_equal. rewrite (last_cons e es). by destruct (last es).
Qed.

Lemma section_step fuel s es rest st w : word s ->
  ini_parse_stream handler (S fuel) (print_section (s, es) ++ rest) st w =
  ini_parse_stream handler fuel (concat (map print_entry es) ++ rest) (mk_ini s [] (lineno st + 1) (ini_error st) (ini_user st)) w.
Proof.
  intros Hs. unfold print_section. cbn [fst snd].
  replace (([91] ++ s ++ [93; LF] ++ concat (map print_entry es)) ++ rest)
    with (([91] ++ s ++ [93]) ++ LF :: concat (map print_entry es) ++ rest) by (cbn; by rewrite <- !app_assoc).
  pose proof Hs as (_ & Hn & Hp). rewrite stream_line.
  - replace (([91] ++ s ++ [93]) ++ [LF]) with ([91] ++ s ++ [93] ++ [LF]) by (cbn; by rewrite <- app_assoc).
    by rewrite section_line.
  - cbn. constructor; [done|]. apply Forall_app. split; [by apply plain_no_lf|by repeat constructor].
  - rewrite !length_app. cbn. lia.
Qed.

Definition config_lines (cfg : config) : nat := sum_list_with (fun s => S (length (snd s))) cfg.
Lemma entries_length es : (length es <= length (concat (map print_entry es)))%nat.
Proof. induction es as [|e es IH]; [done|]. cbn. unfold print_entry at 1. rewrite !length_app. cbn. lia. Qed.
Lemma config_lines_length cfg : (config_lines cfg <= length (print_config cfg))%nat.
Proof.
  induction cfg as [|[s es] cfg IH]; [done|]. unfold config_lines, print_config in *. cbn. rewrite !length_app. cbn [length].
  pose proof (entries_length es). lia.
Qed.

Lemma config_parse cfg fuel sec prev n err user w : config_ok cfg ->
  (ini_parse_stream handler (config_lines cfg + S fuel) (print_config cfg) (mk_ini sec prev n err user)
     ≫= fun st => mret (ini_error st, ini_user st)) w =
  (ffold handle_section (n, err, user) cfg ≫= fun '(_, err, user) => mret (err, user)) w.
Proof.
  intros H. revert sec prev n err user w. induction H as [|[s es] cfg [Hs He] _ IH]; intros sec prev n err user w; [done|].
  cbn [fst snd] in *. cbn [ffold handle_section fst snd]. rewrite frun_assoc. unfold mbind, F_bind.
  unfold config_lines, print_config. cbn [map concat sum_list_with plus fst snd].
  rewrite section_step by done. rewrite <- Nat.add_assoc. rewrite entries_parse by done. unfold mbind, F_bind. cbn [lineno ini_error ini_user].
  destruct (ffold (handle_entry s) _ _ w) as [[[[n' err'] u']|] w']; [|done]. apply IH.
Qed.

Lemma parse_printed cfg user w : config_ok cfg ->
  ini_parse_string handler (print_config cfg) user w = handle_config cfg user w.
Proof.
  intros H. unfold ini_parse_string, handle_config. pose proof (config_lines_length cfg) as Hn.
  replace (S (length (print_config cfg))) with (config_lines cfg + S (length (print_config cfg) - config_lines cfg))%nat by lia.
  by apply config_parse.
Qed.

(** ** Any text *)

(** Characters are read, so the parser comes to the end; what the handler keeps is
    kept, and the error is 0 or the number of a line. *)
Section Kept.
Variable I : U -> FWorld -> Prop.
Hypothesis handler_keeps : forall user s n v w, I user w -> exists user' r w', handler user s n v w = (Ok (user', r), w') /\ I user' w'.

Definition counted (n : Z) (st : ini_state (U := U)) (w : FWorld) : Prop := I (ini_user st) w /\ lineno st = n /\ 0 <= ini_error st <= n.

Lemma call_handler_counted n st name value w : 0 <= n -> counted n st w ->
  exists st' w', call_handler handler st name value w = (Ok st', w') /\ counted n st' w'.
Proof.
  intros Hn (Hi & Hl & He). destruct (handler_keeps _ (ini_section st) name value _ Hi) as (user & r & w' & E & Hi').
  unfold call_handler. rewrite (frun_bind _ _ _ _ _ E). do 2 eexists. split; [done|]. split; [done|]. split; [done|].
  cbn [ini_error]. unfold failed. destruct (r =? 0), (ini_error st =? 0); lia.
Qed.
Lemma ini_line_counted n st line w : 0 <= n -> counted n st w ->
  exists st' w', ini_line handler st line w = (Ok st', w') /\ counted (n + 1) st' w'.
Proof.
  intros Hn (Hi & Hl & He). unfold ini_line. set (st1 := mk_ini _ _ _ _ _).
  assert (counted (n + 1) st1 w) as C1. { split; [done|]. cbn. split; lia. }
  set (bad := mk_ini _ _ _ _ _).
  assert (counted (n + 1) bad w) as C2. { split; [done|]. cbn. unfold failed. cbn. case_match; lia. }
  clearbody bad. cbv zeta.
  repeat case_match; try (by do 2 eexists); try (apply call_handler_counted; [lia|]; done).
Qed.
Lemma reader_rest m (s : list Z) : exists line, s = line ++ snd (ini_reader_string m s).
Proof.
  revert s. induction m as [|m IH]; intros [|c s]; try by exists []. cbn. destruct (c =? LF); [by exists [c]|].
  destruct (IH s) as [l E]. exists (c :: l). destruct (ini_reader_string m s). cbn in *. by rewrite <- E.
Qed.
Lemma reader_shorter m c (s : list Z) : (length (snd (ini_reader_string (S m) (c :: s))) <= length s)%nat.
Proof.
  cbn. destruct (c =? LF); [done|]. destruct (reader_rest m s) as [l E]. destruct (ini_reader_string m s) as [a b]. cbn in *.
  rewrite E, length_app. lia.
Qed.
Lemma stream_counted fuel s n st w : (length s < fuel)%nat -> 0 <= n -> counted n st w ->
  exists st' w' n', ini_parse_stream handler fuel s st w = (Ok st', w') /\ counted n' st' w' /\ n' <= n + Z.of_nat (length s).
Proof.
  revert s n st w. induction fuel as [|fuel IH]; intros s n st w Hf Hn C; [lia|]. cbn [ini_parse_stream].
  destruct s as [|c s]; [exists st, w, n; split; [done|]; split; [done|lia]|].
  pose proof (reader_shorter 198 c s) as Hr. change (Z.to_nat (INI_MAX_LINE - 1)) with 199%nat.
  destruct (ini_reader_string 199 (c :: s)) as [line rest]. cbn [snd length] in *.
  destruct (ini_line_counted n st line w Hn C) as (st1 & w1 & E1 & C1). rewrite (frun_bind _ _ _ _ _ E1).
  destruct (IH rest (n + 1) st1 w1) as (st2 & w2 & n2 & E2 & C2 & L2); [lia|lia|done|].
  exists st2, w2, n2. split; [done|]. split; [done|]. lia.
Qed.
Lemma ini_parse_keeps s user w : I user w ->
  exists e user' w', ini_parse_string handler s user w = (Ok (e, user'), w') /\ 0 <= e <= Z.of_nat (length s) /\ I user' w'.
Proof.
  intros Hi. unfold ini_parse_string.
  destruct (stream_counted (S (length s)) s 0 (mk_ini [] [] 0 0 user) w) as (st & w' & n & E & (H1 & H2 & H3) & Hn); [lia|lia|by repeat split|].
  rewrite (frun_bind _ _ _ _ _ E). do 3 eexists. split; [done|]. split; [lia|done].
Qed.
End Kept.
End Lines.

(** The same for what a handler keeps when it returns. *)
Section Partial.
Context {U : Type} (handler : U -> list Z -> list Z -> list Z -> F (U * Z)) (I : U -> FWorld -> Prop).
Hypothesis handler_inv : forall user s n v w user' r w', I user w -> handler user s n v w = (Ok (user', r), w') -> I user' w'.

Lemma call_handler_inv st name value w st' w' : I (ini_user st) w -> call_handler handler st name value w = (Ok st', w') -> I (ini_user st') w'.
Proof. intros Hi ([user r] & w1 & E & [= <- <-])%frun_inv. by eapply handler_inv. Qed.
Lemma ini_line_inv st line w st' w' : I (ini_user st) w -> ini_line handler st line w = (Ok st', w') -> I (ini_user st') w'.
Proof.
  intros Hi. unfold ini_line. cbv zeta. repeat case_match; try (intros [= <- <-]; exact Hi); apply call_handler_inv; exact Hi.
Qed.
Lemma ini_parse_inv s user w e user' w' : I user w -> ini_parse_string handler s user w = (Ok (e, user'), w') -> I user' w'.
Proof.
  intros Hi. unfold ini_parse_string. intros (st & w1 & E & [= _ <- <-])%frun_inv. revert E. generalize (S (length s)). intros fuel.
  change user with (ini_user (mk_ini [] [] 0 0 user)) in Hi. generalize dependent (mk_ini [] [] 0 0 user). revert s w.
  induction fuel as [|fuel IH]; intros s w st0 Hi; [done|]. cbn [ini_parse_stream]. destruct s as [|c s]; [by intros [= <- <-]|].
  destruct (ini_reader_string _ _) as [line rest]. intros (st2 & w2 & E1 & E2)%frun_inv. eapply IH; [|exact E2]. by eapply ini_line_inv.
Qed.
End Partial.

(** ** Settings *)

(** A handler that only computes, on the entries of a configuration. *)
Section Pure.
Context {U : Type} (handler : U -> list Z -> list Z -> list Z -> F (U * Z)) (h : U -> list Z -> list Z -> list Z -> U * Z).
Definition handle (user : U) (e : list Z * list Z * list Z) : U := fst (h user (fst (fst e)) (snd (fst e)) (snd e)).
Definition computes (e : list Z * list Z * list Z) : Prop :=
  forall user w, handler user (fst (fst e)) (snd (fst e)) (snd e) w = (Ok (h user (fst (fst e)) (snd (fst e)) (snd e)), w).

Lemma handle_entries_pure sec es n err user w : Forall computes (map (fun e => (sec, fst e, snd e)) es) -> 0 <= n -> 0 <= err ->
  exists n' err', ffold (handle_entry handler sec) (n, err, user) es w =
    (Ok (n', err', fold_left handle (map (fun e => (sec, fst e, snd e)) es) user), w) /\ 0 <= n' /\ 0 <= err'.
Proof.
  revert n err user. induction es as [|e es IH]; intros n err user Hp Hn He; [by exists n, err|]. cbn [ffold map fold_left].
  inversion Hp as [|? ? Hc Hp']; subst. specialize (Hc user w). cbn [fst snd] in Hc.
  destruct (h user sec (fst e) (snd e)) as [user' r] eqn:Eh.
  assert (handle_entry handler sec (n, err, user) e w = (Ok (n + 1, if (r =? 0) && (err =? 0) then n + 1 else err, user'), w)) as E.
  { unfold handle_entry. by rewrite (frun_bind _ _ _ _ _ Hc). }
  rewrite (frun_bind _ _ _ _ _ E). unfold handle at 2. cbn [fst snd]. rewrite Eh. apply IH; [done|lia|]. by case_match; lia.
Qed.
Lemma printed_computed cfg user w : config_ok cfg -> Forall computes (config_entries cfg) ->
  exists e, ini_parse_string handler (print_config cfg) user w = (Ok (e, fold_left handle (config_entries cfg) user), w) /\ 0 <= e.
Proof.
  intros H Hp. rewrite parse_printed by done. unfold handle_config.
  assert (forall n err user, 0 <= n -> 0 <= err -> exists n' err',
    ffold (handle_section handler) (n, err, user) cfg w = (Ok (n', err', fold_left handle (config_entries cfg) user), w) /\ 0 <= err') as G.
  { clear H user. induction cfg as [|[s es] cfg IH]; intros n err user Hn He; [by exists n, err|]. cbn [ffold handle_section fst snd].
    unfold config_entries in *. cbn [map concat fst snd] in *. apply Forall_app in Hp as [Hp1 Hp2].
    destruct (handle_entries_pure s es (n + 1) err user w) as (n1 & err1 & E & Hn1 & He1); [done|lia|done|]. rewrite (frun_bind _ _ _ _ _ E).
    rewrite fold_left_app. by apply IH. }
  destruct (G 0 0 user) as (n & err & E & He); [done..|]. rewrite (frun_bind _ _ _ _ _ E). by exists err.
Qed.
End Pure.
Lemma printed_pure {U} (h : U -> list Z -> list Z -> list Z -> U * Z) cfg user w : config_ok cfg ->
  exists e, ini_parse_string (pure_handler h) (print_config cfg) user w = (Ok (e, fold_left (handle h) (config_entries cfg) user), w) /\ 0 <= e.
Proof. intros H. apply printed_computed; [done|]. apply Forall_true. by intros e user' w'. Qed.

(** The last value of a name in a section that [p] accepts. *)
Definition matching {A} (sec name : list Z) (p : list Z -> option A) (e : list Z * list Z * list Z) : option A :=
  if bool_decide (fst (fst e) = sec) && bool_decide (snd (fst e) = name) then p (snd e) else None.
Definition setting {A} (sec name : list Z) (p : list Z -> option A) (es : list (list Z * list Z * list Z)) : option A :=
  last (omap (matching sec name p) es).
(** A part of the user data that only those entries change. *)
Lemma fold_setting_on {U A} (h : U -> list Z -> list Z -> list Z -> U * Z) (g : U -> A) sec name p es user :
  Forall (fun e => forall user, g (handle h user e) = default (g user) (matching sec name p e)) es ->
  g (fold_left (handle h) es user) = default (g user) (setting sec name p es).
Proof.
  intros H. unfold setting. revert user. induction H as [|e es He _ IH]; intros user; [done|]. cbn [fold_left omap list_omap]. rewrite IH, He.
  destruct (matching sec name p e) as [a|]; cbn; [|done]. rewrite last_cons. by destruct (last _).
Qed.
Lemma fold_setting {U A} (h : U -> list Z -> list Z -> list Z -> U * Z) (g : U -> A) sec name p es user :
  (forall user s n v, g (fst (h user s n v)) = default (g user) (matching sec name p (s, n, v))) ->
  g (fold_left (handle h) es user) = default (g user) (setting sec name p es).
Proof. intros H. apply fold_setting_on, Forall_true. intros [[s n] v] u. apply H. Qed.

(** ** Theorems *)

(** C11: parsing the text of a configuration calls the handler on exactly its
    entries, in order, with their section, name and value, and returns the number
    of the line of the first entry that the handler refuses, or 0. *)
Theorem ini_round_trip {U} (handler : U -> list Z -> list Z -> list Z -> F (U * Z)) cfg user w : config_ok cfg ->
  ini_parse_string handler (print_config cfg) user w = handle_config handler cfg user w.
Proof. apply parse_printed. Qed.

(** The parser reads every text to its end: with a handler that returns, it
    returns 0 or the number of a line of the text, and never a negative number, so
    that the tests for a failed parse in loader.c and nxboot.c are never met. *)
Theorem ini_parse_total {U} (handler : U -> list Z -> list Z -> list Z -> F (U * Z)) s user w :
  (forall user s n v w, exists user' r w', handler user s n v w = (Ok (user', r), w')) ->
  exists e user' w', ini_parse_string handler s user w = (Ok (e, user'), w') /\ 0 <= e <= Z.of_nat (length s).
Proof.
  intros H. destruct (ini_parse_keeps handler (fun _ _ => True)) with (s := s) (user := user) (w := w) as (e & user' & w' & E & He & _); [|done|by exists e, user', w'].
  intros u s' n v w1 _. destruct (H u s' n v w1) as (u' & r & w2 & E2). by exists u', r, w2.
Qed.

(** A configuration. *)
Definition toy_config : config :=
  [(str "exosphere", [(str "target_firmware", str "9"); (str "debugmode", str "0"); (str "debugmode_user", str "1")]);
   (str "stage2", [(str "package2", str "a/b c.bin"); (str "exosphere", [])])].
Lemma toy_config_ok : config_ok toy_config.
Proof.
  repeat (constructor; try done); cbn; try lia.
Qed.
Definition toy_boot : FWorld := toy_disk (fun _ => 0) (toy_device 0 0 None).

(** A handler that collects the entries and refuses one of them. *)
Definition collect (l : list (list Z * list Z * list Z)) (s n v : list Z) : list (list Z * list Z * list Z) * Z :=
  (l ++ [(s, n, v)], if bool_decide (n = str "debugmode") then 0 else 1).
Lemma ini_round_trip_witness :
  ini_parse_string (pure_handler collect) (print_config toy_config) [] toy_boot = (Ok (3, config_entries toy_config), toy_boot).
Proof. rewrite (ini_round_trip (pure_handler collect) toy_config [] toy_boot toy_config_ok). reflexivity. Defined.
Lemma ini_parse_total_witness :
  exists e l w', ini_parse_string (pure_handler collect) (str "[a" ++ [LF] ++ str "b") [] toy_boot = (Ok (e, l), w') /\ 0 <= e <= 4.
Proof.
  apply (ini_parse_total (pure_handler collect)). intros u s n v w. unfold pure_handler. destruct (collect u s n v) as [u' r]. by exists u', r, w.
Defined.
