(* ===== verification/Loader.v ===== *)
(** The payload loader of fusee-secondary: loader.c, chainloader.c and the address
    checks of utils.h.  The memory that payloads are loaded to is a function from
    addresses to bytes. *)
From S2P Require Import Prelude State Utils Fusee FuseeKeys Storage IniFile.
Import IniFile.

(** ** sscanf of a number *)

Module Scan.
Definition digit_value (c : Z) : Z :=
  if (48 <=? c) && (c <=? 57) then c - 48
  else if (97 <=? c) && (c <=? 102) then c - 87
  else if (65 <=? c) && (c <=? 70) then c - 55 else 16.
(** The value of the digits at the start, when there are any. *)
Fixpoint scan_digits (base : Z) (acc : option Z) (s : list Z) : option Z :=
  match s with
  | c :: r => if digit_value c <? base then scan_digits base (Some (default 0 acc * base + digit_value c)) r else acc
  | [] => acc
  end.
Definition sign (s : list Z) : bool * list Z :=
  match s with c :: r => if c =? 45 then (true, r) else if c =? 43 then (false, r) else (false, s) | [] => (false, []) end.
Definition hex_prefix (s : list Z) : list Z :=
  match s with
  | a :: x :: d :: r => if (a =? 48) && ((x =? 120) || (x =? 88)) && (digit_value d <? 16) then d :: r else s
  | _ => s
  end.

(** [sscanf(s, "%d", &n)] and ["%ld"], with [int] and [long] of 32 bits: [None]
    leaves [n] as it is.  Numbers out of range are cut to the nearest end. *)
Definition sscanf_d (s : list Z) : option Z :=
  let '(neg, s) := sign (lskip s) in
  (fun v => if neg : bool then Z.max (- 2 ^ 31) (- v) else Z.min (2 ^ 31 - 1) v) <$> scan_digits 10 None s.
(** [sscanf(s, "%x", &n)] and ["%lx"]. *)
Definition sscanf_x (s : list Z) : option Z :=
  let '(neg, s) := sign (lskip s) in
  (fun v => if v >=? 2 ^ 32 then 2 ^ 32 - 1 else if neg : bool then u32 (- v) else v) <$> scan_digits 16 None (hex_prefix s).
End Scan.
Import Scan.

(** ** chainloader.c *)

Module Chainloader.
Definition CHAINLOADER_MAX_ENTRIES := 128.
Record chainloader_entry_t := mk_entry { load_address : Z; src_address : Z; entry_size : Z; entry_num : Z }.
#[export] Instance eta_entry : Eta chainloader_entry_t := fun x => mk_entry (load_address x) (src_address x) (entry_size x) (entry_num x).
Definition no_entry := mk_entry 0 0 0 0.
Definition memory := Z -> Z.
Definition poke (m : memory) (a v : Z) : memory := fun x => if x =? a then v else m x.

(** The loop of the first branch, from byte [i] on, and that of the second, whose
    index stays at [len]. *)
Fixpoint copy_up (n : nat) (m : memory) (dst src i : Z) : memory :=
  match n with O => m | S n => copy_up n (poke m (u32 (dst + i)) (m (u32 (src + i)))) dst src (i + 1) end.
Fixpoint copy_last (n : nat) (m : memory) (dst src i : Z) : memory :=
  match n with O => m | S n => copy_last n (poke m (u32 (dst + (i - 1))) (m (u32 (src + (i - 1))))) dst src i end.
Definition xmemmove (m : memory) (dst src len : Z) : memory :=
  if dst <? src then copy_up (Z.to_nat len) m dst src 0
  else if dst >? src then copy_last (Z.to_nat len) m dst src len
  else m.
(** Up to the call of the entry point. *)
Definition relocate_and_chainload_main (entries : list chainloader_entry_t) (m : memory) : memory :=
  fold_left (fun m e => xmemmove m (load_address e) (src_address e) (entry_size e)) entries m.
End Chainloader.
Import Chainloader.

(** ** loader.c *)

Module Loader.
Definition LOADER_MAX_PATH_SIZE := 255.

Record load_file_t := mk_load_file { lf_path : list Z; lf_key : list Z; lf_load_address : Z }.
Record loader_ctx_t := mk_loader_ctx {
  bct0 : list Z;
  chainload_entrypoint : Z;
  file_id_of_entrypoint : Z;
  nb_files_to_load : Z;
  package2_path : list Z;
  exosphere_path : list Z;
  tsecfw_path : list Z;
  warmboot_path : list Z;
  custom_splash_path : list Z;
  file_paths_to_load : list (list Z) }.
#[export] Instance eta_loader_ctx : Eta loader_ctx_t := fun x =>
  mk_loader_ctx (bct0 x) (chainload_entrypoint x) (file_id_of_entrypoint x) (nb_files_to_load x) (package2_path x)
    (exosphere_path x) (tsecfw_path x) (warmboot_path x) (custom_splash_path x) (file_paths_to_load x).
(** [g_loader_ctx], the variables of chainloader.c, and the memory. *)
Record loader_state := mk_loader {
  g_loader_ctx : loader_ctx_t;
  g_chainloader_entries : list chainloader_entry_t;
  g_chainloader_num_entries : Z;
  ram : memory }.
#[export] Instance eta_loader : Eta loader_state := fun x =>
  mk_loader (g_loader_ctx x) (g_chainloader_entries x) (g_chainloader_num_entries x) (ram x).

(** utils.h *)
Definition check_32bit_address_loadable (addr : Z) : bool :=
  ((addr >=? 0x40010000) && (addr <? 0x40040000)) || (addr >=? 0x80000000).
Definition check_32bit_address_range_loadable (addr size : Z) : bool :=
  (u32 (addr + size) =? addr + size) &&
  check_32bit_address_loadable addr && check_32bit_address_loadable (addr + size) &&
  negb ((addr >=? 0x40010000) && (addr <? 0x40040000) && (addr + size >=? 0x40040000)).

(** The linker's symbols, and [qsort]. *)
Class Layout := {
  chainloader_start : Z; chainloader_end : Z;
  stack_bottom : Z; stack_top : Z;
  heap_start : Z; heap_end : Z;
  program_start : Z; program_end : Z;
  qsort : (chainloader_entry_t -> chainloader_entry_t -> Z) -> list chainloader_entry_t -> list chainloader_entry_t }.

Section Ops.
Context {card : Card} {lay : Layout}.

Definition check_32bit_address_range_in_program (addr size : Z) : bool :=
  let e := u32 (addr + size) in
  overlaps addr e chainloader_start chainloader_end || overlaps addr e stack_bottom stack_top ||
  overlaps addr e heap_start heap_end || overlaps addr e program_start program_end.

(** [stat]: the size of a file, 0 for a directory. *)
Definition stat_size (path : list Z) : option Z :=
  match sd_file path, sd_dir path with
  | Some f, _ => Some (Z.of_nat (length f))
  | None, Some _ => Some 0
  | None, None => None
  end.

Definition set_path (value : list Z) : list Z := strncpy0 value (LOADER_MAX_PATH_SIZE + 1).

Definition loadlist_entry_ini_handler (u : load_file_t) (section name value : list Z) : load_file_t * Z :=
  if bool_decide (section = str "stage2") && bool_decide (lf_key u `prefix_of` name)
  then let ext := drop (length (lf_key u)) name in
       if bool_decide (ext = str "_path") then (mk_load_file (strncpy0 value 0x100) (lf_key u) (lf_load_address u), 1)
       else if bool_decide (ext = str "_addr") then (mk_load_file (lf_path u) (lf_key u) (default 0 (sscanf_x value)), 1)
       else (u, 0)
  else (u, 0).

Definition load_list_entry (st : loader_state) (key : list Z) : F loader_state :=
  '(e, f) ← ini_parse_string (pure_handler loadlist_entry_ini_handler) (bct0 (g_loader_ctx st)) (mk_load_file [] key 0);
  if e <? 0 then fatal_error else
  if (lf_load_address f =? 0) || bool_decide (lf_path f = []) then fatal_error else
  if Z.of_nat (length (lf_path f)) >? LOADER_MAX_PATH_SIZE then fatal_error else
  if negb (check_32bit_address_loadable (lf_load_address f)) then fatal_error else
  match stat_size (lf_path f) with
  | None => fatal_error
  | Some st_size =>
      let size := u32 st_size in
      if negb (check_32bit_address_range_loadable (lf_load_address f) size) then fatal_error else
      let n := g_chainloader_num_entries st in
      if n >=? CHAINLOADER_MAX_ENTRIES then stopped BadAccess else
      mret (st <| g_chainloader_num_entries := n + 1 |>
               <| g_chainloader_entries ::= <[Z.to_nat n := mk_entry (lf_load_address f) (src_address (default no_entry (g_chainloader_entries st !! Z.to_nat n))) size n]> |>
               <| g_loader_ctx ::= fun c => c <| nb_files_to_load := nb_files_to_load c + 1 |>
                                              <| file_paths_to_load ::= <[Z.to_nat n := lf_path f]> |> |>)
  end.

(** A character of the buffer [load_list], and the first position from [p] on that
    is none of [chars]. *)
Definition char_at (buf : list Z) (p : nat) : res Z := match buf !! p with Some c => Ok c | None => Stop BadAccess end.
Fixpoint skip_chars (fuel : nat) (chars buf : list Z) (p : nat) : res nat :=
  match fuel with
  | O => Stop Hangs
  | S fuel => c ← char_at buf p; if bool_decide (c ∈ chars) then skip_chars fuel chars buf (S p) else Ok p
  end.

Fixpoint loadlist_loop (fuel : nat) (buf : list Z) (entry p : nat) (st : loader_state) : F loader_state :=
  match fuel with
  | O => stopped Hangs
  | S fuel =>
      c ← heap (char_at buf p);
      if c =? 0 then mret st else
      '(buf, entry, p, st) ←
        (if (c =? 32) || (c =? 9)
         then let buf := <[p := 0]> buf in
              st ← load_list_entry st (ExtKeys.c_string (drop entry buf));
              p ← heap (skip_chars (S (length buf)) [32; 9; 0] buf p);
              c ← heap (char_at buf p);
              if negb (c =? 124) then fatal_error else
              p ← heap (skip_chars (S (length buf)) [32; 9; 124] buf p);
              mret (buf, p, p, st)
         else mret (buf, entry, p, st));
      let p := S p in
      c ← heap (char_at buf p);
      st ← (if c =? 0 then load_list_entry st (ExtKeys.c_string (drop entry buf)) else mret st);
      loadlist_loop fuel buf entry p st
  end.
(** The buffer of 0x200 characters is zero after the copy. *)
Definition parse_loadlist (st : loader_state) (ll : list Z) : F loader_state :=
  let text := strncpy0 ll 0x200 in
  loadlist_loop 0x201 (text ++ replicate (0x200 - length text) 0) 0 0 st.

Definition with_ctx (st : loader_state) (f : loader_ctx_t -> loader_ctx_t) : loader_state := st <| g_loader_ctx ::= f |>.
Definition loadlist_ini_handler (st : loader_state) (section name value : list Z) : F (loader_state * Z) :=
  if bool_decide (section = str "stage2") then
    if bool_decide (name = str "loadlist") then st ← parse_loadlist st value; mret (st, 1)
    else if bool_decide (name = str "entrypoint")
    then mret (with_ctx st (fun c => c <| chainload_entrypoint := default 0 (sscanf_x value) |>), 1)
    else if bool_decide (name = str "custom_splash") then mret (with_ctx st (fun c => c <| custom_splash_path := set_path value |>), 1)
    else if bool_decide (name = str "package2") then mret (with_ctx st (fun c => c <| package2_path := set_path value |>), 1)
    else if bool_decide (name = str "exosphere") then mret (with_ctx st (fun c => c <| exosphere_path := set_path value |>), 1)
    else if bool_decide (name = str "tsecfw") then mret (with_ctx st (fun c => c <| tsecfw_path := set_path value |>), 1)
    else if bool_decide (name = str "warmboot") then mret (with_ctx st (fun c => c <| warmboot_path := set_path value |>), 1)
    else mret (st, 0)
  else mret (st, 0).

Definition chainloader_entry_comparator (e1 e2 : chainloader_entry_t) : Z := s32 (u32 (load_address e1 - load_address e2)).

Fixpoint find_carveout (entries : list chainloader_entry_t) (requested : Z) : Z :=
  match entries with
  | [] => 0
  | e :: r =>
      let lbound := u32 (load_address e + entry_size e) in
      if check_32bit_address_range_loadable lbound requested &&
         match r with [] => true | e' :: _ => u32 (lbound + requested) <=? load_address e' end
      then lbound else find_carveout r requested
  end.

Definition entry_at (st : loader_state) (i : nat) : chainloader_entry_t := default no_entry (g_chainloader_entries st !! i).
Definition entry_end (e : chainloader_entry_t) : Z := u32 (load_address e + entry_size e).
Definition file_path (st : loader_state) (e : chainloader_entry_t) : list Z :=
  default [] (file_paths_to_load (g_loader_ctx st) !! Z.to_nat (entry_num e)).

(** The loop over the entries from the [i]th on, [n] of them: overlaps, the file of
    the entry point, and [can_load_in_place]. *)
Fixpoint check_entries (n i : nat) (st : loader_state) (can_load_in_place : bool) : F (loader_state * bool) :=
  match n with
  | O => mret (st, can_load_in_place)
  | S n =>
      let e := entry_at st i in
      let e' := entry_at st (S i) in
      if negb (Z.of_nat i =? u32 (nb_files_to_load (g_loader_ctx st) - 1)) &&
         overlaps (load_address e) (entry_end e) (load_address e') (entry_end e')
      then fatal_error else
      let entrypoint := chainload_entrypoint (g_loader_ctx st) in
      let st := if (entrypoint >=? load_address e) && (entrypoint <? entry_end e)
                then with_ctx st (fun c => c <| file_id_of_entrypoint := entry_num e |>) else st in
      check_entries n (S i) st (can_load_in_place && check_32bit_address_range_in_program (load_address e) (entry_end e))
  end.

Fixpoint pokes (m : memory) (a : Z) (bytes : list Z) : memory :=
  match bytes with [] => m | b :: r => pokes (poke m (u32 a) b) (a + 1) r end.
(** The files of [n] entries from the [i]th on, in their places or one after the
    other from [pos]. *)
Fixpoint load_files (n i : nat) (pos : option Z) (st : loader_state) : F loader_state :=
  match n with
  | O => mret st
  | S n =>
      let e := entry_at st i in
      let src := default (load_address e) pos in
      let content := read_from_file (entry_size e) (file_path st e) in
      if negb (Z.of_nat (length content) =? entry_size e) then fatal_error else
      load_files n (S i) ((fun p => u32 (p + entry_size e)) <$> pos)
        (st <| g_chainloader_entries ::= <[i := e <| src_address := src |>]> |> <| ram ::= fun m => pokes m src content |>)
  end.

Definition nonallocatable_entries (min_addr max_addr : Z) : list chainloader_entry_t :=
  let range a b := mk_entry a 0 (u32 (b - a)) 0 in
  [ mk_entry 0 0 0x40010000 0; range 0x40040000 0x80000000;
    range chainloader_start chainloader_end; range stack_bottom stack_top;
    range heap_start heap_end; range program_start program_end; range min_addr max_addr ].

Definition load_payload (st : loader_state) (bct : list Z) : F loader_state :=
  let st := with_ctx st (fun c => c <| bct0 := bct |>) in
  '(e, st) ← ini_parse_string loadlist_ini_handler bct st;
  if e <? 0 then fatal_error else
  let ctx := g_loader_ctx st in
  if negb (chainload_entrypoint ctx =? 0) || (nb_files_to_load ctx >? 0) then fatal_error else
  let count := Z.to_nat (g_chainloader_num_entries st) in
  let files := Z.to_nat (nb_files_to_load ctx) in
  let st := st <| g_chainloader_entries ::= fun l => qsort chainloader_entry_comparator (take count l) ++ drop count l |> in
  let st := with_ctx st (fun c => c <| file_id_of_entrypoint := nb_files_to_load c |>) in
  '(st, in_place) ← check_entries files 0 st true;
  if negb (chainload_entrypoint (g_loader_ctx st) =? 0) && (file_id_of_entrypoint (g_loader_ctx st) >=? nb_files_to_load (g_loader_ctx st))
  then fatal_error else
  if in_place : bool then load_files files 0 None st else
  let total_size := fold_left (fun a e => u32 (a + entry_size e)) (take files (g_chainloader_entries st)) 0 in
  if (count =? 0)%nat then stopped BadAccess else
  let last := entry_at st (count - 1) in
  let carveout := find_carveout (qsort chainloader_entry_comparator (nonallocatable_entries (load_address last) (entry_end last))) total_size in
  let carveout := if carveout =? 0 then find_carveout (take count (g_chainloader_entries st)) total_size else carveout in
  if carveout =? 0 then fatal_error else load_files files 0 (Some carveout) st.
End Ops.
End Loader.
