(* ===== verification/LoaderProps.v ===== *)
(** The payload loader (loader.c, chainloader.c): Horizon is what is booted, with
    the paths of the configuration; and what [xmemmove] moves. *)
From S2P Require Import Prelude State Utils Devices Fusee Storage IniFile Loader IniFileProps FuseeToy StorageToy.
Import IniFile Scan Chainloader Loader.

(** ** xmemmove *)

Lemma copy_up_below n m dst src i x : 0 <= dst -> 0 <= i -> dst + i + Z.of_nat n <= 2 ^ 32 -> x < dst + i \/ dst + i + Z.of_nat n <= x ->
  copy_up n m dst src i x = m x.
Proof.
  revert m i. induction n as [|n IH]; intros m i H1 H2 H3 H4; [done|]. cbn [copy_up]. rewrite IH by lia. unfold poke, u32.
  rewrite Z.mod_small by lia. destruct (Z.eqb_spec x (dst + i)); [lia|done].
Qed.
Lemma copy_up_at n m dst src i k : 0 <= dst < src -> 0 <= i <= k -> k < i + Z.of_nat n -> src + i + Z.of_nat n <= 2 ^ 32 ->
  copy_up n m dst src i (dst + k) = m (src + k).
Proof.
  revert m i. induction n as [|n IH]; intros m i H1 H2 H3 H4; [lia|]. cbn [copy_up].
  assert (forall x, poke m (u32 (dst + i)) (m (u32 (src + i))) x = if x =? dst + i then m (src + i) else m x) as Hp.
  { intros x. unfold poke, u32. by rewrite !Z.mod_small by lia. }
  destruct (Z.eq_dec k i) as [->|Hk].
  - rewrite copy_up_below, Hp, Z.eqb_refl by lia. done.
  - rewrite IH, Hp by lia. destruct (Z.eqb_spec (src + k) (dst + i)); [lia|done].
Qed.
Lemma copy_last_fix n m dst src i v x : m (u32 (src + (i - 1))) = v -> u32 (dst + (i - 1)) <> u32 (src + (i - 1)) ->
  copy_last (S n) m dst src i x = if x =? u32 (dst + (i - 1)) then v else m x.
Proof.
  revert m. induction n as [|n IH]; intros m Hv Hne.
  - cbn [copy_last]. unfold poke. by rewrite Hv.
  - change (copy_last (S (S n)) m dst src i) with (copy_last (S n) (poke m (u32 (dst + (i - 1))) (m (u32 (src + (i - 1))))) dst src i).
    rewrite IH; [unfold poke; rewrite Hv; by destruct (x =? _)| |done].
    unfold poke. destruct (Z.eqb_spec (u32 (src + (i - 1))) (u32 (dst + (i - 1)))); [by destruct Hne|done].
Qed.

(** A block that moves to a lower address arrives whole, whether or not the
    ranges overlap, and nothing else changes; of a block that moves to a higher
    address only the last byte is copied. *)
Theorem xmemmove_moves m dst src len x : 0 <= dst -> 0 <= src -> 0 < len -> dst + len <= 2 ^ 32 -> src + len <= 2 ^ 32 ->
  xmemmove m dst src len x =
  if dst <=? src then (if (dst <=? x) && (x <? dst + len) then m (src + (x - dst)) else m x)
  else (if x =? dst + len - 1 then m (src + len - 1) else m x).
Proof.
  intros H1 H2 H3 H4 H5. unfold xmemmove. destruct (Z.ltb_spec dst src) as [L|L].
  - replace (dst <=? src) with true by lia. destruct ((dst <=? x) && (x <? dst + len)) eqn:E.
    + replace x with (dst + (x - dst)) at 1 by lia. apply copy_up_at; lia.
    + apply copy_up_below; lia.
  - destruct (Z.eq_dec dst src) as [->|Hne].
    + rewrite Z.gtb_ltb, Z.ltb_irrefl, Z.leb_refl. replace (src + (x - src)) with x by lia. by case_match.
    + replace (dst >? src) with true by lia. replace (dst <=? src) with false by lia.
      replace (Z.to_nat len) with (S (Z.to_nat (len - 1))) by lia.
      unfold u32 in *. rewrite (copy_last_fix _ _ _ _ _ (m (src + len - 1))); unfold u32; rewrite !Z.mod_small by lia; [|f_equal; lia|lia].
      by replace (dst + (len - 1)) with (dst + len - 1) by lia.
Qed.

(** ** load_payload *)

Section Payload.
Context {card : Card} {lay : Layout}.

(** What configuring leaves: the memory, the machine, and one file per entry. *)
Definition configured (st0 : loader_state) (w0 : FWorld) (st : loader_state) (w : FWorld) : Prop :=
  w = w0 /\ ram st = ram st0 /\ nb_files_to_load (g_loader_ctx st) = g_chainloader_num_entries st /\ 0 <= g_chainloader_num_entries st.

Lemma load_list_entry_inv st0 w0 st key w st' w' : configured st0 w0 st w -> load_list_entry st key w = (Ok st', w') -> configured st0 w0 st' w'.
Proof.
  intros (-> & Hr & Hn & H0). unfold load_list_entry.
  destruct (ini_parse_keeps (pure_handler loadlist_entry_ini_handler) (fun _ w => w = w0)) with (s := bct0 (g_loader_ctx st)) (user := mk_load_file [] key 0) (w := w0)
    as (e & f & w1 & E & _ & ->); [intros user s n v w ->|done|].
  { unfold pure_handler. destruct (loadlist_entry_ini_handler user s n v) as [u r]. by exists u, r, w0. }
  rewrite (frun_bind _ _ _ _ _ E). repeat case_match; try done. intros [= <- <-]. split; [done|]. split; [done|]. cbn. lia.
Qed.
Lemma heap_inv {A B} (r : res A) (f : A -> F B) w b w' : (heap r ≫= f) w = (Ok b, w') -> exists a, r = Ok a /\ f a w = (Ok b, w').
Proof. intros (a & w1 & [= E <-] & E2)%frun_inv. by exists a. Qed.
Lemma loadlist_loop_inv st0 w0 fuel : forall buf entry p st w st' w', configured st0 w0 st w ->
  loadlist_loop fuel buf entry p st w = (Ok st', w') -> configured st0 w0 st' w'.
Proof.
  induction fuel as [|fuel IH]; intros buf entry p st w st' w' Hc; [done|]. cbn [loadlist_loop].
  intros (c & _ & E)%heap_inv. destruct (c =? 0); [by injection E as <- <-|].
  apply frun_inv in E as ([[[buf1 entry1] p1] st1] & w1 & E1 & E).
  assert (configured st0 w0 st1 w1) as Hc1.
  { destruct (_ || _); [|by injection E1 as <- <- <- <- <-]. apply frun_inv in E1 as (st2 & w2 & E2 & E1).
    apply heap_inv in E1 as (p2 & _ & E1). apply heap_inv in E1 as (c2 & _ & E1). destruct (negb _); [done|].
    apply heap_inv in E1 as (p3 & _ & E1). injection E1 as <- <- <- <- <-. by eapply load_list_entry_inv. }
  apply heap_inv in E as (c3 & _ & E). apply frun_inv in E as (st3 & w3 & E3 & E). eapply IH; [|exact E].
  destruct (c3 =? 0); [by eapply load_list_entry_inv|by injection E3 as <- <-].
Qed.
Lemma loadlist_handler_inv st0 w0 st s n v w st' r w' : configured st0 w0 st w ->
  loadlist_ini_handler st s n v w = (Ok (st', r), w') -> configured st0 w0 st' w'.
Proof.
  intros Hc. unfold loadlist_ini_handler. repeat case_match; try (by intros [= <- <- <-]).
  intros (st1 & w1 & E & [= <- <- <-])%frun_inv. by eapply loadlist_loop_inv.
Qed.

(** C39: whatever the BCT.ini says, a payload loader that returns has loaded no
    payload: the entry point is 0, the list of files is empty and memory is as it
    was, so that [main] goes on to boot Horizon. *)
Theorem load_payload_boots_horizon st bct w st' w' :
  nb_files_to_load (g_loader_ctx st) = 0 -> g_chainloader_num_entries st = 0 -> load_payload st bct w = (Ok st', w') ->
  w' = w /\ chainload_entrypoint (g_loader_ctx st') = 0 /\ nb_files_to_load (g_loader_ctx st') = 0 /\
  g_chainloader_num_entries st' = 0 /\ ram st' = ram st.
Proof.
  intros Hf Hn. unfold load_payload. set (st1 := with_ctx st _). intros ([e st2] & w2 & E & Hr)%frun_inv.
  apply (ini_parse_inv _ (configured st1 w)) in E as (-> & Hram & Hnb & H0); [|intros * Hc He; by eapply loadlist_handler_inv|by repeat split; cbn; lia].
  destruct (e <? 0); [done|]. destruct (_ || _) eqn:Eg; [done|]. apply orb_false_iff in Eg as [Ge%negb_false_iff%Z.eqb_eq Gn].
  assert (g_chainloader_num_entries st2 = 0) as Hz by lia. rewrite Hnb, Hz in Hr.
  change (Z.to_nat 0) with O in Hr. cbn [check_entries load_files] in Hr. set (st3 := with_ctx _ _) in Hr.
  assert (chainload_entrypoint (g_loader_ctx st3) = 0) as G3 by exact Ge.
  apply frun_inv in Hr as ([st4 b] & w4 & [= <- <- <-] & Hr). rewrite G3 in Hr. injection Hr as <- <-.
  split; [done|]. split; [done|]. split; [etrans; [exact Hnb|done]|]. split; [exact Hz|exact Hram].
Qed.

(** *** Paths *)

(** The handler on entries that name no payload. *)
Definition horizon_entry (e : list Z * list Z * list Z) : Prop :=
  ~ (fst (fst e) = str "stage2" /\ (snd (fst e) = str "loadlist" \/ snd (fst e) = str "entrypoint")).
Definition path_handler (w0 : FWorld) (st : loader_state) (s n v : list Z) : loader_state * Z :=
  match loadlist_ini_handler st s n v w0 with (Ok r, _) => r | _ => (st, 0) end.
Lemma horizon_computes w0 e : horizon_entry e -> computes loadlist_ini_handler (path_handler w0) e.
Proof.
  destruct e as [[s n] v]. unfold horizon_entry. cbn [fst snd]. intros He st w. cbn [fst snd]. unfold path_handler, loadlist_ini_handler.
  repeat case_bool_decide; try done. exfalso. apply He. by auto.
Qed.

(** The paths, and what stays. *)
Definition path_setting (bct : config) (name : string) (otherwise : list Z) : list Z :=
  default otherwise (setting (str "stage2") (str name) (fun v => Some (set_path v)) (config_entries bct)).
Definition paths_of (c : loader_ctx_t) : list (list Z) :=
  [package2_path c; exosphere_path c; tsecfw_path c; warmboot_path c; custom_splash_path c].
Definition kept_of (st : loader_state) := (chainload_entrypoint (g_loader_ctx st), nb_files_to_load (g_loader_ctx st), g_chainloader_num_entries st).

Lemma path_handler_kept w0 es st : Forall horizon_entry es -> kept_of (fold_left (handle (path_handler w0)) es st) = kept_of st.
Proof.
  intros H. revert st. induction H as [|e es He _ IH]; intros st; [done|]. cbn [fold_left]. rewrite IH.
  destruct e as [[s n] v]. unfold handle, path_handler, loadlist_ini_handler. cbn [fst snd]. unfold horizon_entry in He. cbn [fst snd] in He.
  repeat case_bool_decide; try done; exfalso; apply He; auto.
Qed.
Definition path_members : list ((loader_ctx_t -> list Z) * string) :=
  [(package2_path, "package2"); (exosphere_path, "exosphere"); (tsecfw_path, "tsecfw"); (warmboot_path, "warmboot"); (custom_splash_path, "custom_splash")]%string.
Lemma path_handler_setting w0 (g : loader_ctx_t -> list Z) name es st : Forall horizon_entry es ->
  (g, name) ∈ path_members ->
  g (g_loader_ctx (fold_left (handle (path_handler w0)) es st)) =
  default (g (g_loader_ctx st)) (setting (str "stage2") (str name) (fun v => Some (set_path v)) es).
Proof.
  intros H Hg. apply (fold_setting_on _ (fun st => g (g_loader_ctx st))). eapply Forall_impl; [exact H|]. intros [[s n] v] He c.
  unfold horizon_entry in He. cbn [fst snd] in He. unfold handle, path_handler, loadlist_ini_handler, matching. cbn [fst snd].
  unfold path_members in Hg. rewrite !elem_of_cons, elem_of_nil in Hg.
  destruct Hg as [[= -> ->]|[[= -> ->]|[[= -> ->]|[[= -> ->]|[[= -> ->]|[]]]]]];
  repeat case_bool_decide; subst; try done; exfalso; try (by apply He; auto);
  match goal with H : str _ = str _ |- _ => vm_compute in H; discriminate end.
Qed.

Lemma load_payload_returns st bct w :
  config_ok bct -> Forall horizon_entry (config_entries bct) -> kept_of st = (0, 0, 0) ->
  exists st', load_payload st (print_config bct) w = (Ok st', w) /\
    forall g name, (g, name) ∈ path_members -> g (g_loader_ctx st') = path_setting bct name (g (g_loader_ctx st)).
Proof.
  intros Hb Hh Hk. unfold load_payload. set (st1 := with_ctx st _).
  destruct (printed_computed loadlist_ini_handler (path_handler w) bct st1 w Hb) as (e & E & He).
  { eapply Forall_impl; [exact Hh|]. apply horizon_computes. }
  pose proof (path_handler_kept w _ st1 Hh) as K. rewrite (frun_bind _ _ _ _ _ E).
  pose proof (fun g name Hg => path_handler_setting w g name _ st1 Hh Hg) as Hs. set (st2 := fold_left _ _ _) in *.
  assert (kept_of st2 = (0, 0, 0)) as [= K1 K2 K3] by (rewrite K; exact Hk).
  replace (e <? 0) with false by lia. rewrite K1, K2, K3. change (Z.to_nat 0) with O. cbn [Z.eqb negb orb Z.gtb Z.compare check_entries]. rewrite frun_ret.
  set (st3 := with_ctx _ _). assert (chainload_entrypoint (g_loader_ctx st3) = 0) as -> by exact K1. cbn [Z.eqb negb andb load_files].
  exists st3. split; [done|]. intros g name Hg. specialize (Hs g name Hg). unfold path_members in Hg. rewrite !elem_of_cons, elem_of_nil in Hg.
  by destruct Hg as [[= -> ->]|[[= -> ->]|[[= -> ->]|[[= -> ->]|[[= -> ->]|[]]]]]].
Qed.

(** With a BCT.ini that names no payload, the loader returns, and each path it
    leaves in the context is the last one the file gives under its name, cut to
    255 characters, or the one that was there. *)
Theorem load_payload_paths st bct w :
  config_ok bct -> Forall horizon_entry (config_entries bct) -> kept_of st = (0, 0, 0) ->
  exists st', load_payload st (print_config bct) w = (Ok st', w) /\
    package2_path (g_loader_ctx st') = path_setting bct "package2" (package2_path (g_loader_ctx st)) /\
    exosphere_path (g_loader_ctx st') = path_setting bct "exosphere" (exosphere_path (g_loader_ctx st)) /\
    tsecfw_path (g_loader_ctx st') = path_setting bct "tsecfw" (tsecfw_path (g_loader_ctx st)) /\
    warmboot_path (g_loader_ctx st') = path_setting bct "warmboot" (warmboot_path (g_loader_ctx st)) /\
    custom_splash_path (g_loader_ctx st') = path_setting bct "custom_splash" (custom_splash_path (g_loader_ctx st)).
Proof.
  intros Hb Hh Hk. destruct (load_payload_returns st bct w Hb Hh Hk) as (st' & E & H). exists st'. split; [done|].
  split; [|split; [|split; [|split]]]; apply H; repeat constructor.
Qed.
End Payload.

(** ** Examples *)

#[export] Instance toy_layout : Layout := {
  chainloader_start := 0x4003E000; chainloader_end := 0x4003F000; stack_bottom := 0x90000000; stack_top := 0x90010000;
  heap_start := 0x90020000; heap_end := 0xA0000000; program_start := 0xF0000000; program_end := 0xF0100000;
  qsort _ l := l }.
Definition toy_loader : loader_state :=
  mk_loader (mk_loader_ctx [] 0 0 0 [] [] [] [] [] (replicate 128 [])) (replicate 128 no_entry) 0 (fun a => a mod 256).

Lemma xmemmove_moves_witness :
  xmemmove (fun a => a mod 256) 0x100 0x102 4 0x103 = 5 /\ xmemmove (fun a => a mod 256) 0x102 0x100 4 0x104 = 4.
Proof. split; [rewrite (xmemmove_moves _ 0x100 0x102 4 0x103) by lia|rewrite (xmemmove_moves _ 0x102 0x100 4 0x104) by lia]; reflexivity. Defined.
Lemma toy_config_horizon : Forall horizon_entry (config_entries toy_config).
Proof. repeat (constructor; [unfold horizon_entry; cbn [fst snd]; intros [H1 [H2|H2]]; vm_compute in H1; vm_compute in H2; discriminate|]). constructor. Qed.
Lemma load_payload_paths_witness : exists st', load_payload toy_loader (print_config toy_config) toy_boot = (Ok st', toy_boot) /\
  package2_path (g_loader_ctx st') = str "a/b c.bin".
Proof.
  destruct (load_payload_paths toy_loader toy_config toy_boot toy_config_ok toy_config_horizon eq_refl) as (st' & E & P & _).
  exists st'. split; [exact E|]. rewrite P. reflexivity.
Defined.
Lemma load_payload_boots_horizon_witness : exists st' w', load_payload toy_loader (print_config toy_config) toy_boot = (Ok st', w') /\
  w' = toy_boot /\ chainload_entrypoint (g_loader_ctx st') = 0 /\ ram st' = ram toy_loader.
Proof.
  destruct (load_payload_returns toy_loader toy_config toy_boot toy_config_ok toy_config_horizon eq_refl) as (st' & E & _).
  destruct (load_payload_boots_horizon toy_loader _ toy_boot st' toy_boot eq_refl eq_refl E) as (_ & H1 & _ & _ & H2).
  exists st', toy_boot. split; [exact E|]. split; [reflexivity|]. split; [exact H1|exact H2].
Defined.
