(* ===== verification/Nxboot.v ===== *)
(** The configuration of a boot, nxboot.c of fusee-secondary: the handlers of the
    configuration files, and the functions that configure emummc, the monitor
    and the system modules. *)
From S2P Require Import Prelude State Utils Se Pages Config Devices Fusee FuseeKeys Ips Storage Nxfs Stratosphere IniFile Loader.
Import IniFile Scan Fuse Stratosphere Ips Nxfs.

Module Nxboot.

(** A member of [n] characters that holds the string [s]. *)
Definition char_array (n : Z) (s : list Z) : list Z := s ++ replicate (Z.to_nat n - length s) 0.

(** ** Handlers *)

Record emummc_config_t := mk_emummc_cfg { ec_enabled : bool; ec_id : Z; ec_sector : Z; ec_path : list Z; ec_nintendo_path : list Z }.
#[export] Instance eta_emummc_cfg : Eta emummc_config_t := fun x =>
  mk_emummc_cfg (ec_enabled x) (ec_id x) (ec_sector x) (ec_path x) (ec_nintendo_path x).

Definition emummc_ini_handler (cfg : emummc_config_t) (section name value : list Z) : emummc_config_t * Z :=
  if bool_decide (section = str "emummc") then
    let cfg := if bool_decide (name = str "enabled")
               then cfg <| ec_enabled := negb (default 0 (sscanf_d value) =? 0) |> else cfg in
    if bool_decide (name = str "sector") then (cfg <| ec_sector := default 0 (sscanf_x value) |>, 1)
    else if bool_decide (name = str "id") then (cfg <| ec_id ::= fun old => default old (sscanf_x value) |>, 1)
    else if bool_decide (name = str "path") then (cfg <| ec_path := strncpy0 value 0x80 |>, 1)
    else if bool_decide (name = str "nintendo_path") then (cfg <| ec_nintendo_path := strncpy0 value 0x80 |>, 1)
    else (cfg, 0)
  else (cfg, 0).

(** [flags |= f] or [flags &= ~f]. *)
Definition set_flag (flags f value : Z) : Z := if negb (value =? 0) then flags .| f else flags .& u32 (Z.lnot f).
Definition EXOSPHERE_FLAG_PERFORM_620_KEYGEN := 1 <<. 0.
Definition EXOSPHERE_FLAG_IS_DEBUGMODE_PRIV := 1 <<. 1.
Definition EXOSPHERE_FLAG_IS_DEBUGMODE_USER := 1 <<. 2.
Definition EXOSPHERE_FLAG_DISABLE_USERMODE_EXCEPTION_HANDLERS := 1 <<. 3.
Definition EXOSPHERE_FLAGS_DEFAULT := EXOSPHERE_FLAG_IS_DEBUGMODE_PRIV.

Definition exosphere_ini_handler (cfg : exosphere_config_t) (section name value : list Z) : exosphere_config_t * Z :=
  let flag f := mk_exosphere_config (cfg_magic cfg) (target_firmware cfg)
                  (set_flag (cfg_flags cfg) f (default 0 (sscanf_d value))) (emummc_cfg cfg) in
  if bool_decide (section = str "exosphere") then
    if bool_decide (name = str "target_firmware")
    then (mk_exosphere_config (cfg_magic cfg) (from_option u32 (target_firmware cfg) (sscanf_d value)) (cfg_flags cfg) (emummc_cfg cfg), 1)
    else if bool_decide (name = str "debugmode") then (flag EXOSPHERE_FLAG_IS_DEBUGMODE_PRIV, 1)
    else if bool_decide (name = str "debugmode_user") then (flag EXOSPHERE_FLAG_IS_DEBUGMODE_USER, 1)
    else if bool_decide (name = str "disable_user_exception_handlers")
    then (flag EXOSPHERE_FLAG_DISABLE_USERMODE_EXCEPTION_HANDLERS, 1)
    else (cfg, 0)
  else (cfg, 0).

Record stratosphere_cfg_t := mk_strat_cfg { has_nogc_config : bool; enable_nogc : bool }.
Definition stratosphere_ini_handler (cfg : stratosphere_cfg_t) (section name value : list Z) : stratosphere_cfg_t * Z :=
  if bool_decide (section = str "stratosphere") && bool_decide (name = str "nogc")
  then (mk_strat_cfg true (negb (default 0 (sscanf_d value) =? 0)), 1)
  else (cfg, 0).

(** ** The firmware of package1 *)

Definition pk1l_version (package1loader : list Z) : Z := byte_at package1loader 0x1F.
Definition build_date (package1loader : list Z) : list Z := slice package1loader 0x10 8.
Definition nxboot_get_target_firmware (package1loader : list Z) : res Z :=
  let version := pk1l_version package1loader in
  let date := build_date package1loader in
  if version =? 0x01 then Ok ATMOSPHERE_TARGET_FIRMWARE_100
  else if version =? 0x02 then Ok ATMOSPHERE_TARGET_FIRMWARE_200
  else if version =? 0x04 then Ok ATMOSPHERE_TARGET_FIRMWARE_300
  else if version =? 0x07 then Ok ATMOSPHERE_TARGET_FIRMWARE_400
  else if version =? 0x0B then Ok ATMOSPHERE_TARGET_FIRMWARE_500
  else if version =? 0x0E
  then if bool_decide (date = str "20180802") then Ok ATMOSPHERE_TARGET_FIRMWARE_600
       else if bool_decide (date = str "20181107") then Ok ATMOSPHERE_TARGET_FIRMWARE_620 else Stop Fatal
  else if version =? 0x0F then Ok ATMOSPHERE_TARGET_FIRMWARE_700
  else if version =? 0x10
  then if bool_decide (date = str "20190314") then Ok ATMOSPHERE_TARGET_FIRMWARE_800
       else if bool_decide (date = str "20190531") then Ok ATMOSPHERE_TARGET_FIRMWARE_810
       else if bool_decide (date = str "20190809") then Ok ATMOSPHERE_TARGET_FIRMWARE_900 else Stop Fatal
  else Stop Fatal.

(** ** Configuration *)

Section Ops.
Context {soc : SoC} {card : Card} {sto : Storage}.

Definition MAGIC_EMUMMC_CONFIG := 0x30534645.

Definition is_valid_folder (path : list Z) : bool := match sd_dir path with Some _ => true | None => false end.
(** ["%02d"] of a number below 100. *)
Definition two_digits (i : nat) : list Z := [48 + Z.of_nat i / 10; 48 + Z.of_nat i mod 10].
(** The raw image files from the [i]th on: their number and the part limit. *)
Fixpoint find_parts (n i : nat) (emummc_path : list Z) (num_parts part_limit : Z) : Z * Z :=
  match n with
  | O => (num_parts, part_limit)
  | S n =>
      let path := snprintf 0x300 (emummc_path ++ str "/" ++ two_digits i) in
      if is_file path
      then find_parts n (S i) emummc_path (num_parts + 1) (if (i =? 0)%nat then get_file_size path else part_limit)
      else (num_parts, part_limit)
  end.

Definition mount_emummc_files (path : list Z) : F unit :=
  let emummc_path := snprintf 0x100 (path ++ str "/eMMC") in
  if negb (is_valid_folder emummc_path) then fatal_error else
  if negb (is_file (snprintf 0x300 (emummc_path ++ str "/boot0"))) || negb (is_file (snprintf 0x300 (emummc_path ++ str "/boot1")))
  then fatal_error else
  let '(num_parts, part_limit) := find_parts 64 0 emummc_path 0 0 in
  if (num_parts =? 0) || (part_limit =? 0) then fatal_error else
  rc ← nxfs_mount_emummc_file emummc_path num_parts part_limit;
  if rc <? 0 then fatal_error else mret tt.

(** The result and [*exo_emummc_config]. *)
Definition nxboot_configure_emummc : F (bool * exo_emummc_config_t) :=
  let config ty id union dir := mk_emummc_config MAGIC_EMUMMC_CONFIG ty id FS_VER_1_0_0 union dir in
  let text := read_from_file 0xFFFF (str "emummc/emummc.ini") in
  if bool_decide (text = [])
  then mret (false, config AMS.EMUMMC_TYPE_NONE 0 (replicate 0x80 0) (replicate 0x80 0)) else
  '(e, cfg) ← ini_parse_string (pure_handler emummc_ini_handler) (ExtKeys.c_string text) (mk_emummc_cfg false 0 0 [] []);
  if e <? 0 then fatal_error else
  let dir := char_array 0x80 (ec_nintendo_path cfg) in
  if negb (ec_enabled cfg) then mret (false, config AMS.EMUMMC_TYPE_NONE (ec_id cfg) (replicate 0x80 0) dir)
  else if ec_sector cfg >? 0
  then rc ← nxfs_mount_emummc_partition (ec_sector cfg);
       if rc <? 0 then fatal_error else
       mret (true, config AMS.EMUMMC_TYPE_PARTITION (ec_id cfg) (le_bytes 8 (ec_sector cfg) ++ replicate 0x78 0) dir)
  else if is_valid_folder (ec_path cfg)
  then mount_emummc_files (ec_path cfg) ;;
       mret (true, config AMS.EMUMMC_TYPE_FILES (ec_id cfg) (char_array 0x80 (ec_path cfg)) dir)
  else fatal_error.

(** Writes [*(MAILBOX_EXOSPHERE_CONFIGURATION)]. *)
Definition nxboot_configure_exosphere (bct0 : list Z) (fw keygen_type : Z) (exo_emummc_cfg : exo_emummc_config_t) : F unit :=
  let flags := if negb (keygen_type =? 0) then EXOSPHERE_FLAGS_DEFAULT .| EXOSPHERE_FLAG_PERFORM_620_KEYGEN else EXOSPHERE_FLAGS_DEFAULT in
  '(e, cfg) ← ini_parse_string (pure_handler exosphere_ini_handler) bct0 (mk_exosphere_config MAGIC_EXOSPHERE_CONFIG fw flags exo_emummc_cfg);
  if e <? 0 then fatal_error else
  if (target_firmware cfg <? ATMOSPHERE_TARGET_FIRMWARE_100) || (target_firmware cfg >? ATMOSPHERE_TARGET_FIRMWARE_900) then fatal_error else
  hw (modify (fun w => w <| w_exo ::= fun s => s <| mailbox_exosphere_config := cfg |> |>)).

Definition nxboot_configure_stratosphere (bct0 : list Z) (fw : Z) : F unit :=
  '(e, cfg) ← ini_parse_string (pure_handler stratosphere_ini_handler) bct0 (mk_strat_cfg false false);
  if e <? 0 then fatal_error else
  if has_nogc_config cfg then (if enable_nogc cfg then kip_patches_set_enable_nogc else mret tt) else
  (if fw >=? ATMOSPHERE_TARGET_FIRMWARE_400
   then odm ← hw (fuse_get_reserved_odm 7); if odm .& u32 (Z.lnot 0xF) =? 0 then kip_patches_set_enable_nogc else mret tt
   else mret tt) ;;
  (if fw >=? ATMOSPHERE_TARGET_FIRMWARE_900
   then odm ← hw (fuse_get_reserved_odm 7); if odm .& u32 (Z.lnot 0x3FF) =? 0 then kip_patches_set_enable_nogc else mret tt
   else mret tt).
End Ops.
End Nxboot.
