(* ===== verification/NxbootProps.v ===== *)
(** What the boot loader configures (nxboot.c) and what the monitor then finds. *)
From S2P Require Import Prelude State Utils Se Config Devices Fusee Ips Storage Nxfs Stratosphere IniFile Loader Nxboot IniFileProps Platform FuseeToy StorageToy.
Import IniFile Scan Nxboot.

(** The cases of a handler on the section and the name. *)
Ltac handler_cases :=
  repeat case_bool_decide; subst; cbn [andb fst snd default]; try done;
  try (exfalso; match goal with H : str _ = str _ |- _ => vm_compute in H; discriminate end).

(** ** The configuration of the monitor *)

Lemma set_flag_bit flags j i v : 0 <= j < 32 -> 0 <= i < 32 ->
  Z.testbit (set_flag flags (1 <<. j) v) i = if i =? j then negb (v =? 0) else Z.testbit flags i.
Proof.
  intros Hj Hi. unfold set_flag, u32. rewrite Z.shiftl_1_l. destruct (v =? 0); cbn [negb].
  - rewrite Z.land_spec, Z.mod_pow2_bits_low, Z.lnot_spec, Z.pow2_bits_eqb by lia. rewrite (Z.eqb_sym j).
    destruct (i =? j); [by rewrite andb_false_r|by rewrite andb_true_r].
  - rewrite Z.lor_spec, Z.pow2_bits_eqb by lia. rewrite (Z.eqb_sym j). destruct (i =? j); [by rewrite orb_true_r|by rewrite orb_false_r].
Qed.
Lemma flag_test flags i : 0 <= i -> negb (flags .& (1 <<. i) =? 0) = Z.testbit flags i.
Proof.
  intros Hi. rewrite Z.shiftl_1_l. destruct (Z.testbit flags i) eqn:E.
  - destruct (_ =? 0) eqn:E0; [|done]. apply Z.eqb_eq in E0. exfalso.
    assert (Z.testbit (flags .& 2 ^ i) i = false) as F by (rewrite E0; apply Z.bits_0).
    rewrite Z.land_spec, E, Z.pow2_bits_true in F; done.
  - apply negb_false_iff, Z.eqb_eq, Z.bits_inj_0. intros k. rewrite Z.land_spec, Z.pow2_bits_eqb by done.
    destruct (Z.eqb_spec i k) as [<-|]; [by rewrite E|by rewrite andb_false_r].
Qed.

(** The settings of a BCT.ini for the monitor. *)
Definition on (v : list Z) : option bool := Some (negb (default 0 (sscanf_d v) =? 0)).
Definition exo_flag (bct : config) (name : list Z) (otherwise : bool) : bool :=
  default otherwise (setting (str "exosphere") name on (config_entries bct)).
Definition exo_firmware (bct : config) (fw : Z) : Z :=
  default fw (setting (str "exosphere") (str "target_firmware") (fun v => u32 <$> sscanf_d v) (config_entries bct)).

Section Fold.
Context (bct : config) (cfg : exosphere_config_t).
Abbreviation result := (fold_left (handle exosphere_ini_handler) (config_entries bct) cfg).
Lemma result_firmware : target_firmware result = exo_firmware bct (target_firmware cfg).
Proof. apply (fold_setting _ target_firmware). intros c s n v. unfold exosphere_ini_handler, matching. cbn [fst snd]. handler_cases. by destruct (sscanf_d v). Qed.
Lemma result_flag name j :
  (j, name) ∈ [(1, str "debugmode"); (2, str "debugmode_user"); (3, str "disable_user_exception_handlers")] ->
  Z.testbit (cfg_flags result) j = exo_flag bct name (Z.testbit (cfg_flags cfg) j).
Proof.
  intros Hj. apply (fold_setting _ (fun c => Z.testbit (cfg_flags c) j)). intros c s n v.
  unfold exosphere_ini_handler, matching, on, EXOSPHERE_FLAG_IS_DEBUGMODE_PRIV, EXOSPHERE_FLAG_IS_DEBUGMODE_USER, EXOSPHERE_FLAG_DISABLE_USERMODE_EXCEPTION_HANDLERS.
  rewrite !elem_of_cons, elem_of_nil in Hj. destruct Hj as [[= -> ->]|[[= -> ->]|[[= -> ->]|[]]]]; cbn [fst snd]; handler_cases; cbn [cfg_flags]; by rewrite set_flag_bit by lia.
Qed.
Lemma result_kept : cfg_magic result = cfg_magic cfg /\ emummc_cfg result = emummc_cfg cfg.
Proof.
  generalize (config_entries bct). intros es. revert cfg. induction es as [|[[s n] v] es IH]; intros c; [done|]. cbn [fold_left].
  destruct (IH (handle exosphere_ini_handler c (s, n, v))) as [-> ->]. unfold handle, exosphere_ini_handler. cbn [fst snd]. by repeat case_match.
Qed.
End Fold.

Section Configure.
Context {soc : SoC} {card : Card} {sto : Storage}.

Lemma configure_exosphere_run bct fw keygen_type em w : config_ok bct -> exists cfg,
  nxboot_configure_exosphere (print_config bct) fw keygen_type em w =
    (if (ATMOSPHERE_TARGET_FIRMWARE_100 <=? exo_firmware bct fw) && (exo_firmware bct fw <=? ATMOSPHERE_TARGET_FIRMWARE_900)
     then (Ok tt, w <| f_hw ::= fun h => h <| w_exo ::= fun s => s <| mailbox_exosphere_config := cfg |> |> |>)
     else (Stop Fatal, w)) /\
  cfg_magic cfg = MAGIC_EXOSPHERE_CONFIG /\ emummc_cfg cfg = em /\ target_firmware cfg = exo_firmware bct fw /\
  Z.testbit (cfg_flags cfg) 1 = exo_flag bct (str "debugmode") true /\
  Z.testbit (cfg_flags cfg) 2 = exo_flag bct (str "debugmode_user") false /\
  Z.testbit (cfg_flags cfg) 3 = exo_flag bct (str "disable_user_exception_handlers") false.
Proof.
  intros Hb. unfold nxboot_configure_exosphere. set (flags := if negb _ then _ else _). set (cfg0 := mk_exosphere_config _ _ _ _).
  destruct (printed_pure exosphere_ini_handler bct cfg0 w Hb) as (e & E & He). rewrite (frun_bind _ _ _ _ _ E).
  pose proof (result_flag bct cfg0) as Hf. destruct (result_kept bct cfg0) as [Hm Hem]. pose proof (result_firmware bct cfg0) as Hfw.
  set (cfg := fold_left _ _ _) in *. clearbody cfg. exists cfg. replace (e <? 0) with false by lia.
  split; [|split; [done|split; [done|split; [done|]]]].
  - rewrite Hfw. cbn [target_firmware cfg0]. unfold ATMOSPHERE_TARGET_FIRMWARE_100, ATMOSPHERE_TARGET_FIRMWARE_900.
    destruct ((1 <=? exo_firmware bct fw) && (exo_firmware bct fw <=? 11)) eqn:E1.
    + by replace ((exo_firmware bct fw <? 1) || (exo_firmware bct fw >? 11)) with false by lia.
    + by replace ((exo_firmware bct fw <? 1) || (exo_firmware bct fw >? 11)) with true by lia.
  - rewrite (Hf (str "debugmode")), (Hf (str "debugmode_user")), (Hf (str "disable_user_exception_handlers")) by in_list.
    unfold cfg0, flags. cbn [cfg_flags]. by destruct (negb (keygen_type =? 0)).
Qed.

End Configure.

(** Before the monitor runs. *)
Definition toy_fresh : FWorld := toy_boot <| f_hw ::= fun h => h <| w_exo ::= fun s => s <| g_has_loaded_config := false |> |> |>.
Definition toy_emummc := mk_emummc_config 0 0 0 0 [] [].
