(* ===== verification/Sc7Fw.v ===== *)
(** sc7fw: the program of the boot processor (BPMP) that puts memory and power
    into deep sleep once the monitor has powered the cores down.

    It runs in the monad of the monitor on the same hardware, but sees it by
    physical addresses: in this file and in Lp0.v [w_mmio] is indexed by them.
    The reset that [reboot] asks for and waits for is the outcome [Panic 0x10]
    (the value it writes), which tells it from a loop that never ends. *)
From S2P Require Import Prelude State Utils.

Module Sc7Fw.

Definition PMC_BASE := 0x7000E400.
Definition APBDEV_PMC_CNTRL_0 := PMC_BASE + 0x000.
Definition APBDEV_PMC_DPD_SAMPLE_0 := PMC_BASE + 0x020.
Definition APBDEV_PMC_DPD_ENABLE_0 := PMC_BASE + 0x024.
Definition APBDEV_PMC_CLAMP_STATUS_0 := PMC_BASE + 0x02C.
Definition APBDEV_PMC_PWRGATE_STATUS_0 := PMC_BASE + 0x038.
Definition APBDEV_PMC_SCRATCH12_0 := PMC_BASE + 0x080.
Definition APBDEV_PMC_SCRATCH13_0 := PMC_BASE + 0x084.
Definition APBDEV_PMC_SCRATCH18_0 := PMC_BASE + 0x098.
Definition APBDEV_PMC_WEAK_BIAS_0 := PMC_BASE + 0x2C8.
Definition APBDEV_PMC_IO_DPD3_REQ_0 := PMC_BASE + 0x45C.
Definition APBDEV_PMC_IO_DPD3_STATUS_0 := PMC_BASE + 0x460.
Definition APBDEV_PMC_IO_DPD4_REQ_0 := PMC_BASE + 0x464.
Definition APBDEV_PMC_IO_DPD4_STATUS_0 := PMC_BASE + 0x468.
Definition APBDEV_PMC_SET_SW_CLAMP_0 := PMC_BASE + 0x47C.
Definition APBDEV_PMC_DDR_CNTRL_0 := PMC_BASE + 0x4E4.
Definition EMC_BASE := 0x7001B000.
Definition EMC0_BASE := 0x7001E000.
Definition EMC1_BASE := 0x7001F000.
Definition EMC_CFG_0 := EMC_BASE + 0x00C.
Definition EMC_ADR_CFG_0 := EMC_BASE + 0x10.
Definition EMC_TIMING_CONTROL_0 := EMC_BASE + 0x028.
Definition EMC_SELF_REF_0 := EMC_BASE + 0x0E0.
Definition EMC_MRW_0 := EMC_BASE + 0x0E8.
Definition EMC_FBIO_CFG5_0 := EMC_BASE + 0x104.
Definition EMC_MRW3_0 := EMC_BASE + 0x138.
Definition EMC_AUTO_CAL_CONFIG_0 := EMC_BASE + 0x2A4.
Definition EMC_REQ_CTRL_0 := EMC_BASE + 0x2B0.
Definition EMC_EMC_STATUS_0 := EMC_BASE + 0x2B4.
Definition EMC0_EMC_STATUS_0 := EMC0_BASE + 0x2B4.
Definition EMC1_EMC_STATUS_0 := EMC1_BASE + 0x2B4.
Definition EMC_CFG_DIG_DLL_0 := EMC_BASE + 0x2BC.
Definition EMC0_CFG_DIG_DLL_0 := EMC0_BASE + 0x2BC.
Definition EMC1_CFG_DIG_DLL_0 := EMC1_BASE + 0x2BC.
Definition EMC_ZCAL_INTERVAL_0 := EMC_BASE + 0x2E0.
Definition EMC_PMC_SCRATCH3_0 := EMC_BASE + 0x448.
Definition EMC_FBIO_CFG7_0 := EMC_BASE + 0x584.
Definition I2C_BASE := 0x7000D000.
Definition I2C_I2C_CNFG_0 := I2C_BASE + 0x000.
Definition I2C_I2C_CMD_ADDR0_0 := I2C_BASE + 0x004.
Definition I2C_I2C_CMD_DATA1_0 := I2C_BASE + 0x00C.
Definition I2C_I2C_STATUS_0 := I2C_BASE + 0x01C.
Definition I2C_INTERRUPT_STATUS_REGISTER_0 := I2C_BASE + 0x068.
Definition I2C_I2C_CLK_DIVISOR_REGISTER_0 := I2C_BASE + 0x06C.
Definition I2C_I2C_BUS_CLEAR_CONFIG_0 := I2C_BASE + 0x084.
Definition I2C_I2C_BUS_CLEAR_STATUS_0 := I2C_BASE + 0x088.
Definition I2C_I2C_CONFIG_LOAD_0 := I2C_BASE + 0x08C.
Definition CACHE_CTRL := 0x50040000.
Definition PRI_ICTLR_COP_IER_CLR_0 := 0x60004038.
Definition SEC_ICTLR_COP_IER_CLR_0 := 0x60004138.
Definition TRI_ICTLR_COP_IER_CLR_0 := 0x60004238.
Definition QUAD_ICTLR_COP_IER_CLR_0 := 0x60004338.
Definition PENTA_ICTLR_COP_IER_CLR_0 := 0x60004438.
Definition HEXA_ICTLR_COP_IER_CLR_0 := 0x60004538.

Definition reboot {A} : M A := reg_write APBDEV_PMC_CNTRL_0 0x10 ;; raise_panic 0x10.

Section Ops.
Context {soc : SoC}.

(** A loop on the microsecond counter, and one that counts down. *)
Definition timer_wait (microseconds : Z) : M unit := wait microseconds.
Definition spinlock_wait (count : Z) : M unit := wait 0.

(** ** i2c.c *)

(** [for (i < n) { timer_wait(us); if (cond(reg)) break; }] *)
Fixpoint wait_for (n : nat) (us a : Z) (cond : Z -> bool) : M unit :=
  match n with
  | O => mret tt
  | S n => timer_wait us ;; v ← reg_read a; if cond v then mret tt else wait_for n us a cond
  end.
Definition i2c_load_config : M unit :=
  reg_write I2C_I2C_CONFIG_LOAD_0 0x25 ;;
  wait_for 20 1 I2C_I2C_CONFIG_LOAD_0 (fun v => v .& 1 =? 0).
Definition i2c_init : M unit :=
  reg_write I2C_I2C_CLK_DIVISOR_REGISTER_0 0x50001 ;;
  reg_write I2C_I2C_BUS_CLEAR_CONFIG_0 0x90003 ;;
  i2c_load_config ;;
  wait_for 10 20000 I2C_INTERRUPT_STATUS_REGISTER_0 (fun v => negb (v .& 0x800 =? 0)) ;;
  reg_read I2C_I2C_BUS_CLEAR_STATUS_0 ;;
  int_status ← reg_read I2C_INTERRUPT_STATUS_REGISTER_0;
  reg_write I2C_INTERRUPT_STATUS_REGISTER_0 int_status.
Definition i2c_write (device val num_bytes : Z) : M bool :=
  if num_bytes >? 4 then mret false else
  reg_write I2C_I2C_CMD_ADDR0_0 (u32 (device <<. 1)) ;;
  reg_write I2C_I2C_CMD_DATA1_0 val ;;
  reg_write I2C_I2C_CNFG_0 (u32 ((num_bytes <<. 1) - 2) .| 0x2800) ;;
  i2c_load_config ;;
  reg_update I2C_I2C_CNFG_0 (fun v => v .| 0x200) ;;
  poll_reg I2C_I2C_STATUS_0 (fun v => v .& 0x100 =? 0) ;;
  status ← reg_read I2C_I2C_STATUS_0;
  mret (status .& 0xF =? 0).
Definition i2c_send_byte_command (device reg b : Z) : M bool := i2c_write device (reg .| (b <<. 8)) 2.
Definition i2c_send_reset_cmd : M bool := i2c_send_byte_command 27 0 0.

(** ** emc.c *)

Definition emc_trigger_timing_update : M unit :=
  reg_write EMC_TIMING_CONTROL_0 1 ;;
  poll_reg EMC_EMC_STATUS_0 (fun v => v .& 0x800000 =? 0).
Definition emc_put_dram_in_self_refresh_mode : M unit :=
  cfg7 ← reg_read EMC_FBIO_CFG7_0;
  if cfg7 .& 4 =? 0 then reboot else
  reg_write EMC_CFG_0 0 ;;
  emc_trigger_timing_update ;;
  timer_wait 5 ;;
  reg_write EMC_ZCAL_INTERVAL_0 0 ;;
  reg_write EMC_AUTO_CAL_CONFIG_0 0x600 ;;
  dll ← reg_read EMC0_CFG_DIG_DLL_0;
  (if negb (dll .& 1 =? 0)
   then reg_update EMC_CFG_DIG_DLL_0 (fun v => v .& 0xFFFFFFFE) ;;
        emc_trigger_timing_update ;;
        poll_reg EMC0_CFG_DIG_DLL_0 (fun v => v .& 1 =? 0) ;;
        poll_reg EMC1_CFG_DIG_DLL_0 (fun v => v .& 1 =? 0)
   else emc_trigger_timing_update) ;;
  reg_write EMC_REQ_CTRL_0 3 ;;
  poll_reg EMC0_EMC_STATUS_0 (fun v => negb (v .& 4 =? 0)) ;;
  poll_reg EMC1_EMC_STATUS_0 (fun v => negb (v .& 4 =? 0)) ;;
  reg_update EMC_SELF_REF_0 (fun v => v .| 1) ;;
  adr_cfg ← reg_read EMC_ADR_CFG_0;
  let num_populated_devices := if negb (adr_cfg =? 0) then 3 else 1 in
  poll_reg EMC0_EMC_STATUS_0 (fun v => (v >>. 8) .& 3 =? num_populated_devices) ;;
  poll_reg EMC1_EMC_STATUS_0 (fun v => (v >>. 8) .& 3 =? num_populated_devices).

(** ** sc7.c *)

Definition set_pmc_dpd_io_pads : M unit :=
  emc_pmc_val ← reg_read EMC_PMC_SCRATCH3_0;
  reg_write APBDEV_PMC_DDR_CNTRL_0 (emc_pmc_val .& 0x7FFFF) ;;
  (if negb (emc_pmc_val .& 0x40000000 =? 0) then reg_write APBDEV_PMC_WEAK_BIAS_0 0x7FFF0000 else mret tt) ;;
  reg_write APBDEV_PMC_IO_DPD3_REQ_0 0x8FFFFFFF ;;
  poll_reg APBDEV_PMC_IO_DPD3_STATUS_0 (fun v => v =? 0xFFFFFFF) ;;
  spinlock_wait 32 ;;
  reg_write APBDEV_PMC_IO_DPD4_REQ_0 0x8FFFFFFF ;;
  poll_reg APBDEV_PMC_IO_DPD4_STATUS_0 (fun v => v =? 0xFFF1FFF) ;;
  spinlock_wait 32.

(** The mode register operation of the memory, kept for the wake-up. *)
Definition save_mrw3 : M unit :=
  mrw3 ← reg_read EMC_MRW3_0;
  reg_update APBDEV_PMC_SCRATCH18_0 (fun v => (v .& 0xFFFFFF3F) .| (mrw3 .& 0xC0)) ;;
  mrw3 ← reg_read EMC_MRW3_0;
  let mrw3_op := ((mrw3 .& 0xC0) <<. 8) .| (mrw3 .& 0xC0) in
  reg_update APBDEV_PMC_SCRATCH12_0 (fun v => (v .& 0xFFFF3F3F) .| mrw3_op) ;;
  reg_update APBDEV_PMC_SCRATCH13_0 (fun v => (v .& 0xFFFF3F3F) .| mrw3_op).

Definition sc7_entry_main : M unit :=
  reg_update CACHE_CTRL (fun v => v .| 0xC00) ;;
  poll_reg APBDEV_PMC_PWRGATE_STATUS_0 (fun v => v .& 1 =? 0) ;;
  reg_update APBDEV_PMC_SET_SW_CLAMP_0 (fun v => v .| 1) ;;
  poll_reg APBDEV_PMC_CLAMP_STATUS_0 (fun v => negb (v .& 1 =? 0)) ;;
  spinlock_wait 10 ;;
  i2c_init ;;
  i2c_send_reset_cmd ;;
  timer_wait 700 ;;
  for_each [PRI_ICTLR_COP_IER_CLR_0; SEC_ICTLR_COP_IER_CLR_0; TRI_ICTLR_COP_IER_CLR_0;
            QUAD_ICTLR_COP_IER_CLR_0; PENTA_ICTLR_COP_IER_CLR_0; HEXA_ICTLR_COP_IER_CLR_0]
    (fun a => reg_write a 0xFFFFFFFF) ;;
  cfg5 ← reg_read EMC_FBIO_CFG5_0;
  if negb (cfg5 .& 3 =? 1) then reboot else
  save_mrw3 ;;
  emc_put_dram_in_self_refresh_mode ;;
  reg_write EMC_MRW_0 0x88110000 ;;
  adr_cfg ← reg_read EMC_ADR_CFG_0;
  (if negb (adr_cfg .& 1 =? 0) then reg_write EMC_MRW_0 0x48110000 else mret tt) ;;
  set_pmc_dpd_io_pads ;;
  reg_update APBDEV_PMC_DPD_SAMPLE_0 (fun v => v .| 1) ;;
  spinlock_wait 0x128 ;;
  reg_update APBDEV_PMC_DPD_ENABLE_0 (fun v => v .| 1) ;;
  spin.
End Ops.
End Sc7Fw.
