(* ===== verification/Lp0.v ===== *)
(** lp0fw: the program the boot processor starts with when the console wakes
    from deep sleep.  It sets clocks and power up, decrypts the monitor's image
    from memory back into TZRAM, checks it and starts the core.

    As in Sc7Fw.v, [w_mmio] is indexed by physical addresses and [reboot] ends
    in [Panic 0x10].  The Security Engine driver is a copy of the monitor's
    that reboots where that one panics; the parts of Se.v without a panic (the
    registers, the key table ports, the engine, the padding of the CMAC) are
    used as they are.  Memory accesses are not checked against the carveout
    that [disable_bpmp_access_to_dram] sets up. *)
From S2P Require Import Prelude State Utils Se Power.

Module Lp0.

Definition PMC_BASE := 0x7000E400.
Definition APBDEV_PMC_CNTRL_0 := PMC_BASE + 0x000.
Definition APBDEV_PMC_DPD_SAMPLE_0 := PMC_BASE + 0x020.
Definition APBDEV_PMC_CLAMP_STATUS_0 := PMC_BASE + 0x02C.
Definition APBDEV_PMC_PWRGATE_TOGGLE_0 := PMC_BASE + 0x030.
Definition APBDEV_PMC_REMOVE_CLAMPING_CMD_0 := PMC_BASE + 0x034.
Definition APBDEV_PMC_PWRGATE_STATUS_0 := PMC_BASE + 0x038.
Definition APBDEV_PMC_OSC_EDPD_OVER_0 := PMC_BASE + 0x1A4.
Definition APBDEV_PMC_STICKY_BITS_0 := PMC_BASE + 0x2C0.
Definition APBDEV_PMC_SEC_DISABLE2_0 := PMC_BASE + 0x2C4.
Definition APBDEV_PMC_SECURE_SCRATCH21_0 := PMC_BASE + 0x334.
Definition APBDEV_PMC_SECURE_SCRATCH34_0 := PMC_BASE + 0x368.
Definition APBDEV_PMC_SECURE_SCRATCH35_0 := PMC_BASE + 0x36C.
Definition APBDEV_PMC_SET_SW_CLAMP_0 := PMC_BASE + 0x47C.
Definition APBDEV_PMC_SCRATCH190_0 := PMC_BASE + 0x818.
Definition APBDEV_PMC_SECURE_SCRATCH112_0 := PMC_BASE + 0xB18.
Definition APBDEV_PMC_SECURE_SCRATCH113_0 := PMC_BASE + 0xB1C.
Definition APBDEV_PMC_SECURE_SCRATCH114_0 := PMC_BASE + 0xB20.
Definition APBDEV_PMC_SECURE_SCRATCH115_0 := PMC_BASE + 0xB24.
Definition CAR_BASE := 0x60006000.
Definition MAKE_CAR_REG (n : Z) := CAR_BASE + n.
Definition CLK_RST_CONTROLLER_MISC_CLK_ENB_0 := MAKE_CAR_REG 0x048.
Definition CLK_RST_CONTROLLER_OSC_CTRL_0 := MAKE_CAR_REG 0x050.
Definition CLK_RST_CONTROLLER_PLLX_BASE_0 := MAKE_CAR_REG 0x0E0.
Definition CLK_RST_CONTROLLER_RST_CPUG_CMPLX_CLR_0 := MAKE_CAR_REG 0x454.
Definition CLK_RST_CONTROLLER_SUPER_CCLKG_DIVIDER_0 := MAKE_CAR_REG 0x36C.
Definition CLK_RST_CONTROLLER_SUPER_CCLKP_DIVIDER_0 := MAKE_CAR_REG 0x374.
Definition CLK_RST_CONTROLLER_CLK_SOURCE_I2C5_0 := MAKE_CAR_REG 0x128.
Definition CLK_RST_CONTROLLER_CLK_SOURCE_DVFS_REF_0 := MAKE_CAR_REG 0x62C.
Definition CLK_RST_CONTROLLER_CLK_SOURCE_DVFS_SOC_0 := MAKE_CAR_REG 0x630.
Definition CLK_RST_CONTROLLER_CPU_SOFTRST_CTRL2_0 := MAKE_CAR_REG 0x388.
Definition CLK_RST_CONTROLLER_CLK_SOURCE_MSELECT_0 := MAKE_CAR_REG 0x3B4.
Definition CLK_RST_CONTROLLER_LVL2_CLK_GATE_OVRA_0 := MAKE_CAR_REG 0x0F8.
Definition CLK_RST_CONTROLLER_LVL2_CLK_GATE_OVRB_0 := MAKE_CAR_REG 0x0FC.
Definition CLK_RST_CONTROLLER_LVL2_CLK_GATE_OVRC_0 := MAKE_CAR_REG 0x3A0.
Definition CLK_RST_CONTROLLER_LVL2_CLK_GATE_OVRD_0 := MAKE_CAR_REG 0x3A4.
Definition CLK_RST_CONTROLLER_LVL2_CLK_GATE_OVRE_0 := MAKE_CAR_REG 0x554.
Definition CLK_RST_CONTROLLER_CCLKG_BURST_POLICY_0 := MAKE_CAR_REG 0x368.
Definition CLK_RST_CONTROLLER_CCLKP_BURST_POLICY_0 := MAKE_CAR_REG 0x370.
Definition CLK_RST_CONTROLLER_SPARE_REG0_0 := MAKE_CAR_REG 0x55C.
Definition CLK_RST_CONTROLLER_RST_DEV_H_SET_0 := MAKE_CAR_REG 0x308.
Definition CLK_RST_CONTROLLER_RST_DEV_U_SET_0 := MAKE_CAR_REG 0x310.
Definition CLK_RST_CONTROLLER_RST_DEV_H_CLR_0 := MAKE_CAR_REG 0x30C.
Definition CLK_RST_CONTROLLER_RST_DEV_U_CLR_0 := MAKE_CAR_REG 0x314.
Definition CLK_RST_CONTROLLER_RST_DEV_V_CLR_0 := MAKE_CAR_REG 0x434.
Definition CLK_RST_CONTROLLER_CLK_ENB_L_SET_0 := MAKE_CAR_REG 0x320.
Definition CLK_RST_CONTROLLER_CLK_ENB_H_SET_0 := MAKE_CAR_REG 0x328.
Definition CLK_RST_CONTROLLER_CLK_ENB_U_SET_0 := MAKE_CAR_REG 0x330.
Definition CLK_RST_CONTROLLER_CLK_ENB_V_SET_0 := MAKE_CAR_REG 0x440.
Definition CLK_RST_CONTROLLER_CLK_ENB_W_SET_0 := MAKE_CAR_REG 0x448.
Definition CLK_RST_CONTROLLER_CLK_ENB_Y_SET_0 := MAKE_CAR_REG 0x29C.
Definition CLK_RST_CONTROLLER_CLK_ENB_H_CLR_0 := MAKE_CAR_REG 0x32C.
Definition CLK_RST_CONTROLLER_CLK_ENB_W_CLR_0 := MAKE_CAR_REG 0x44C.
Definition TIMERUS_USEC_CFG_0 := 0x60005014.
Definition MSELECT_CONFIG_0 := 0x50060000.
Definition EMC_BASE := 0x7001B000.
Definition EMC_FBIO_CFG7_0 := EMC_BASE + 0x584.
Definition EMC_PMACRO_CFG_PM_GLOBAL_0_0 := EMC_BASE + 0xC30.
Definition EMC_PMACRO_TRAINING_CTRL_0_0 := EMC_BASE + 0xCF8.
Definition EMC_PMACRO_TRAINING_CTRL_1_0 := EMC_BASE + 0xCFC.
Definition FLOW_BASE := 0x60007000.
Definition FLOW_CTLR_HALT_COP_EVENTS_0 := FLOW_BASE + 0x004.
Definition FLOW_CTLR_RAM_REPAIR_0 := FLOW_BASE + 0x040.
Definition FLOW_CTLR_BPMP_CLUSTER_CONTROL_0 := FLOW_BASE + 0x098.
Definition FUSE_REGS := 0x7000F800.
Definition FUSE_FUSEBYPASS := FUSE_REGS + 0x24.
Definition FUSE_PRIVATEKEYDISABLE := FUSE_REGS + 0x28.
Definition FUSE_DIS_PGM := FUSE_REGS + 0x2C.
Definition FUSE_WRITE_ACCESS := FUSE_REGS + 0x30.
Definition FUSE_CHIP_REGS := 0x7000F900.
Definition FUSE_SECURITY_MODE := FUSE_CHIP_REGS + 0xA0.
Definition I2C_BASE := 0x7000D000.
Definition I2C_I2C_CNFG_0 := I2C_BASE + 0x000.
Definition I2C_I2C_CMD_ADDR0_0 := I2C_BASE + 0x004.
Definition I2C_I2C_CMD_DATA1_0 := I2C_BASE + 0x00C.
Definition I2C_I2C_STATUS_0 := I2C_BASE + 0x01C.
Definition I2C_I2C_CONFIG_LOAD_0 := I2C_BASE + 0x08C.
Definition MISC_BASE := 0x70000000.
Definition APB_MISC_PP_CONFIG_CTL_0 := MISC_BASE + 0x024.
Definition APB_MISC_GP_ASDBGREG_0 := MISC_BASE + 0x810.
Definition PINMUX_AUX_PWR_I2C_SCL_0 := MISC_BASE + 0x30DC.
Definition PINMUX_AUX_PWR_I2C_SDA_0 := MISC_BASE + 0x30E0.
Definition PINMUX_AUX_DVFS_PWM_0 := MISC_BASE + 0x3184.
Definition PINMUX_AUX_GPIO_PA6_0 := MISC_BASE + 0x3244.
Definition SB_BASE := 0x6000C200.
Definition SB_PFCFG_0 := SB_BASE + 0x08.
Definition SB_AA64_RESET_LOW_0 := SB_BASE + 0x30.
Definition SB_AA64_RESET_HIGH_0 := SB_BASE + 0x34.
Definition MC_BASE := 0x70019000.
Definition WARMBOOT_MAGIC := 0x30544257.
Definition ATMOSPHERE_TARGET_FIRMWARE_MAX := ATMOSPHERE_TARGET_FIRMWARE_900.

(** lp0.h *)
Record warmboot_metadata_t := mk_warmboot_metadata { meta_magic : Z; meta_target_firmware : Z }.

Definition reboot {A} : M A := reg_write APBDEV_PMC_CNTRL_0 0x10 ;; raise_panic 0x10.

Section Ops.
Context {soc : SoC}.

Definition timer_wait (microseconds : Z) : M unit := wait microseconds.

(** ** se.c *)

Definition se_check_error_status_reg : M unit :=
  err ← SE.se_read SE.ERR_STATUS_REG; if negb (err =? 0) then reboot else mret tt.
Definition se_check_for_error : M unit :=
  int_status ← SE.se_read SE.INT_STATUS_REG;
  flags ← SE.se_read SE.FLAGS_REG;
  err ← SE.se_read SE.ERR_STATUS_REG;
  if negb (int_status .& 0x10000 =? 0) || negb (flags .& 3 =? 0) || negb (err =? 0) then reboot else mret tt.
Definition se_verify_flags_cleared : M unit :=
  flags ← SE.se_read SE.FLAGS_REG; if negb (flags .& 3 =? 0) then reboot else mret tt.

Definition clear_aes_keyslot (keyslot : Z) : M unit :=
  if keyslot >=? SE.KEYSLOT_AES_MAX then reboot else
  for_each (range 0x10) (fun i => SE.aes_keytable_store ((keyslot <<. 4) .| i) 0).
Definition clear_rsa_keyslot (keyslot : Z) : M unit :=
  if keyslot >=? SE.KEYSLOT_RSA_MAX then reboot else
  for_each (range 0x40) (fun i => SE.rsa_keytable_store ((keyslot <<. 7) .| i .| 0x40) 0) ;;
  for_each (range 0x40) (fun i => SE.rsa_keytable_store ((keyslot <<. 7) .| i) 0).
Definition clear_aes_keyslot_iv (keyslot : Z) : M unit :=
  if keyslot >=? SE.KEYSLOT_AES_MAX then reboot else
  for_each (range (0x10 >>. 2)) (fun i => SE.aes_keytable_store ((keyslot <<. 4) .| 8 .| i) 0).

Definition trigger_se_blocking_op (op : Z) (dst src : option (list Z)) : M (list Z) :=
  let in_ll := SE.ll_init src in
  let out_ll := SE.ll_init dst in
  SE.ack_reg SE.ERR_STATUS_REG ;;
  SE.ack_reg SE.INT_STATUS_REG ;;
  SE.se_write SE.OPERATION_REG op ;;
  out ← SE.se_run op in_ll out_ll;
  SE.poll_int_status 0x10 ;;
  se_check_for_error ;;
  mret (splice (default [] dst) 0 out).

Definition se_perform_aes_block_operation (dst_size : Z) (src : list Z) (src_size : Z) : M (list Z) :=
  if (src_size >? 0x10) || (dst_size >? 0x10) then reboot else
  let block := splice (zeros 0x10) 0 (slice src 0 src_size) in
  SE.se_write SE.BLOCK_COUNT_REG 0 ;;
  block ← trigger_se_blocking_op SE.OP_START (Some block) (Some block);
  mret (slice block 0 dst_size).
Definition se_aes_ecb_encrypt_block (keyslot dst_size : Z) (src : list Z) (src_size config_high : Z) : M (list Z) :=
  if (keyslot >=? SE.KEYSLOT_AES_MAX) || negb (dst_size =? 0x10) || negb (src_size =? 0x10) then reboot else
  SE.se_write SE.CONFIG_REG (u32 (SE.ALG_AES_ENC .| SE.DST_MEMORY .| (config_high <<. 16))) ;;
  SE.se_write SE.CRYPTO_REG (u32 ((keyslot <<. 24) .| 0x100)) ;;
  se_perform_aes_block_operation 0x10 src 0x10.
Definition se_aes_ecb_decrypt_block (keyslot dst_size : Z) (src : list Z) (src_size : Z) : M (list Z) :=
  if (keyslot >=? SE.KEYSLOT_AES_MAX) || negb (dst_size =? 0x10) || negb (src_size =? 0x10) then reboot else
  SE.se_write SE.CONFIG_REG (SE.ALG_AES_DEC .| SE.DST_MEMORY) ;;
  SE.se_write SE.CRYPTO_REG (u32 (keyslot <<. 24)) ;;
  se_perform_aes_block_operation 0x10 src 0x10.

Definition se_compute_aes_cmac (keyslot cmac_size : Z) (data : list Z) (data_size config_high : Z) : M (list Z) :=
  if keyslot >=? SE.KEYSLOT_AES_MAX then reboot else
  derived_key ← se_aes_ecb_encrypt_block keyslot 0x10 (zeros 0x10) 0x10 config_high;
  let derived_key := SE.shift_left_xor_rb derived_key in
  let derived_key := if negb (data_size .& 0xF =? 0) then SE.shift_left_xor_rb derived_key else derived_key in
  SE.se_write SE.CONFIG_REG (u32 (SE.ALG_AES_ENC .| SE.DST_HASHREG .| (config_high <<. 16))) ;;
  SE.se_write SE.CRYPTO_REG (u32 ((keyslot <<. 24) .| 0x145)) ;;
  clear_aes_keyslot_iv keyslot ;;
  let num_blocks := u32 ((data_size + 0xF) >>. 4) in
  (if num_blocks >? 1
   then SE.se_write SE.BLOCK_COUNT_REG (u32 (num_blocks - 2)) ;;
        trigger_se_blocking_op SE.OP_START None (Some (slice data 0 data_size)) ;;
        crypto ← SE.se_read SE.CRYPTO_REG;
        SE.se_write SE.CRYPTO_REG (crypto .| 0x80)
   else mret tt) ;;
  let last_block := xor_bytes (SE.cmac_last_block data data_size) derived_key in
  SE.se_write SE.BLOCK_COUNT_REG 0 ;;
  trigger_se_blocking_op SE.OP_START None (Some last_block) ;;
  gets (fun w => range (cmac_size >>. 2) ≫= fun i => le_bytes 4 (se_regs (w_se w) (SE.HASH_RESULT_REG + (i <<. 2)))).
Definition se_compute_aes_256_cmac (keyslot cmac_size : Z) (data : list Z) (data_size : Z) : M (list Z) :=
  se_compute_aes_cmac keyslot cmac_size data data_size 0x202.
Definition se_aes_256_cbc_decrypt (keyslot : Z) (dst : list Z) (dst_size : Z) (src : list Z) (src_size : Z) : M (list Z) :=
  if (keyslot >=? SE.KEYSLOT_AES_MAX) || (src_size <? 0x10) then reboot else
  SE.se_write SE.CONFIG_REG (u32 (SE.ALG_AES_DEC .| SE.DST_MEMORY .| (0x202 <<. 16))) ;;
  SE.se_write SE.CRYPTO_REG (u32 ((keyslot <<. 24) .| 0x66)) ;;
  clear_aes_keyslot_iv keyslot ;;
  SE.se_write SE.BLOCK_COUNT_REG (u32 ((src_size >>. 4) - 1)) ;;
  trigger_se_blocking_op SE.OP_START (Some (slice dst 0 dst_size)) (Some (slice src 0 src_size)).

(** ** fuse.c *)

Definition fuse_check_downgrade_status : bool := false.
Definition fuse_disable_programming : M unit := reg_write FUSE_DIS_PGM 1.
Definition g_fuse_bypass_entries : list (Z * Z) := [].
Definition fuse_configure_fuse_bypass : M unit :=
  reg_update CLK_RST_CONTROLLER_MISC_CLK_ENB_0 (fun v => v .| 0x10000000) ;;
  dis_pgm ← reg_read FUSE_DIS_PGM;
  if negb (dis_pgm .& 1 =? 0) then mret tt else
  reg_update FUSE_WRITE_ACCESS (fun v => (v .& not32 0x1) .| 0x10000) ;;
  reg_write FUSE_FUSEBYPASS 1 ;;
  for_each g_fuse_bypass_entries (fun e => reg_write (FUSE_REGS + e.1) e.2) ;;
  reg_update FUSE_WRITE_ACCESS (fun v => v .| 1) ;;
  reg_write FUSE_FUSEBYPASS 1 ;;
  reg_update FUSE_DIS_PGM (fun v => v .& 0xFFFFFFFE) ;;
  scratch21 ← reg_read APBDEV_PMC_SECURE_SCRATCH21_0;
  reg_update FUSE_PRIVATEKEYDISABLE (fun v => v .| (scratch21 .& 0x10)) ;;
  reg_update APBDEV_PMC_SEC_DISABLE2_0 (fun v => v .| 0x4000000).

(** ** mc.c *)

(** The members of carveout 4, in the order they are written. *)
Definition disable_bpmp_access_to_dram : M unit :=
  let carveout := MC_BASE + 0xC08 + 0x50 * (4 - Mc.CARVEOUT_ID_MIN) in
  reg_write (carveout + 0x4) 0 ;;
  reg_write (carveout + 0x8) 0 ;;
  reg_write (carveout + 0xC) 1 ;;
  reg_write (carveout + 0x10) 0 ;;
  reg_write (carveout + 0x14) 0 ;;
  reg_write (carveout + 0x18) 0 ;;
  reg_write (carveout + 0x1C) 0 ;;
  reg_write (carveout + 0x20) 0 ;;
  reg_write (carveout + 0x24) (BIT Mc.CSR_AVPCARM7R) ;;
  reg_write (carveout + 0x28) (BIT Mc.CSW_AVPCARM7W) ;;
  reg_write (carveout + 0x2C) 0 ;;
  reg_write (carveout + 0x30) 0 ;;
  reg_write (carveout + 0x34) 0 ;;
  reg_write carveout 0x8F.

(** ** misc.c *)

Definition misc_configure_device_dbg_settings : M unit :=
  reg_write APB_MISC_PP_CONFIG_CTL_0 0x80 ;;
  mode ← reg_read FUSE_SECURITY_MODE;
  (if mode =? 1
   then sticky ← reg_read APBDEV_PMC_STICKY_BITS_0;
        let '(secure_boot_val, misc_val) := if negb (sticky .& 0x40 =? 0) then (0x4, 0x0) else (0xD, 0x40) in
        reg_update SB_PFCFG_0 (fun v => (v .& not32 0xF) .| secure_boot_val) ;;
        reg_update APB_MISC_PP_CONFIG_CTL_0 (fun v => v .| misc_val)
   else mret tt) ;;
  mode ← reg_read FUSE_SECURITY_MODE;
  reg_update APBDEV_PMC_STICKY_BITS_0 (fun v => v .| mode) ;;
  reg_update PINMUX_AUX_GPIO_PA6_0 (fun v => v .| 0x40).
Definition misc_restore_ram_svop : M unit :=
  reg_update APB_MISC_GP_ASDBGREG_0 (fun v => (v .& 0xFCFFFFFF) .| 0x02000000).

(** ** emc.c *)

Definition emc_configure_pmacro_training : M unit :=
  reg_write EMC_PMACRO_CFG_PM_GLOBAL_0_0 0xFF0000 ;;
  reg_write EMC_PMACRO_TRAINING_CTRL_0_0 8 ;;
  reg_write EMC_PMACRO_TRAINING_CTRL_1_0 8 ;;
  reg_write EMC_PMACRO_CFG_PM_GLOBAL_0_0 0x0.

(** ** car.c *)

Definition g_clk_reg_offsets : list Z := [0x010; 0x014; 0x018; 0x360; 0x364; 0x280; 0x298].
Definition g_rst_reg_offsets : list Z := [0x004; 0x008; 0x00C; 0x358; 0x35C; 0x28C; 0x2A4].
Definition g_clk_clr_reg_offsets : list Z := [0x324; 0x32C; 0x334; 0x444; 0x44C; 0x228; 0x2A0].
Definition car_configure_oscillators : M unit :=
  osc ← reg_read APBDEV_PMC_OSC_EDPD_OVER_0;
  reg_update CLK_RST_CONTROLLER_OSC_CTRL_0 (fun v => (v .& 0xFFFFFC0E) .| 1 .| (((osc >>. 1) .& 0x3F) <<. 4)) ;;
  reg_write CLK_RST_CONTROLLER_SPARE_REG0_0 (1 <<. 2) ;;
  reg_read CLK_RST_CONTROLLER_SPARE_REG0_0 ;;
  reg_write TIMERUS_USEC_CFG_0 0x45F.
(** The clocks of a bank that are turned off: all but those of the mask's zeros. *)
Definition mbist_masks : list Z := [0x7FFFFECF; 0xFDFFFF3E; 0xFE0FFDFF; 0x3FBFFFF7; 0xFFDFFF03; 0xDCFFB87F; 0xFFFFFCFF].
Definition car_mbist_workaround : M unit :=
  reg_write CLK_RST_CONTROLLER_LVL2_CLK_GATE_OVRA_0 0 ;;
  reg_write CLK_RST_CONTROLLER_LVL2_CLK_GATE_OVRB_0 0 ;;
  reg_write CLK_RST_CONTROLLER_LVL2_CLK_GATE_OVRC_0 0 ;;
  reg_write CLK_RST_CONTROLLER_LVL2_CLK_GATE_OVRD_0 0 ;;
  reg_write CLK_RST_CONTROLLER_LVL2_CLK_GATE_OVRE_0 0 ;;
  for_each (range 7) (fun i =>
    enabled ← reg_read (MAKE_CAR_REG (byte_at g_clk_reg_offsets i));
    reg_write (MAKE_CAR_REG (byte_at g_clk_clr_reg_offsets i)) (enabled .& byte_at mbist_masks i)) ;;
  cfg7 ← reg_read EMC_FBIO_CFG7_0;
  if negb (cfg7 .& 4 =? 0) then reg_update CLK_RST_CONTROLLER_CLK_ENB_W_SET_0 (fun v => v .| 0x40000000) else mret tt.

Definition get_special_clk_reg (dev : Z) : M Z :=
  if dev =? Car.CARDEVICE_UARTA then mret 0x178 else
  if dev =? Car.CARDEVICE_UARTB then mret 0x17C else
  if dev =? Car.CARDEVICE_I2C1 then mret 0x124 else
  if dev =? Car.CARDEVICE_I2C5 then mret 0x128 else
  if dev =? Car.CARDEVICE_ACTMON then mret 0x3E8 else
  if dev =? Car.CARDEVICE_BPMP then mret 0 else reboot.
Definition get_special_clk_val (dev : Z) : M Z :=
  if (dev =? Car.CARDEVICE_UARTA) || (dev =? Car.CARDEVICE_UARTB) || (dev =? Car.CARDEVICE_BPMP) then mret 0 else
  if (dev =? Car.CARDEVICE_I2C1) || (dev =? Car.CARDEVICE_I2C5) || (dev =? Car.CARDEVICE_ACTMON)
  then mret (u32 (6 <<. 29)) else reboot.
Definition clk_enable (dev : Z) : M unit :=
  special_reg ← get_special_clk_reg dev;
  (if negb (special_reg =? 0) then val ← get_special_clk_val dev; reg_write (MAKE_CAR_REG special_reg) val else mret tt) ;;
  reg_update (MAKE_CAR_REG (byte_at g_clk_reg_offsets (dev >>. 5))) (fun v => v .| BIT (dev .& 0x1F)).
Definition clk_disable (dev : Z) : M unit :=
  reg_update (MAKE_CAR_REG (byte_at g_clk_reg_offsets (dev >>. 5))) (fun v => v .& not32 (BIT (dev .& 0x1F))).
Definition rst_enable (dev : Z) : M unit :=
  reg_update (MAKE_CAR_REG (byte_at g_rst_reg_offsets (dev >>. 5))) (fun v => v .| BIT (dev .& 0x1F)).
Definition rst_disable (dev : Z) : M unit :=
  reg_update (MAKE_CAR_REG (byte_at g_rst_reg_offsets (dev >>. 5))) (fun v => v .& not32 (BIT (dev .& 0x1F))).
Definition clkrst_enable (dev : Z) : M unit := clk_enable dev ;; rst_disable dev.
Definition clkrst_disable (dev : Z) : M unit := rst_enable dev ;; clk_disable dev.
Definition clkrst_reboot (dev : Z) : M unit := clkrst_disable dev ;; clkrst_enable dev.

(** ** i2c.c *)

Definition i2c_set_test_master_config_load : M unit :=
  reg_write I2C_I2C_CONFIG_LOAD_0 0x1 ;;
  poll_reg I2C_I2C_CONFIG_LOAD_0 (fun v => v .& 1 =? 0).
Definition i2c_write (device val num_bytes : Z) : M unit :=
  if num_bytes >? 4 then mret tt else
  reg_write I2C_I2C_CMD_ADDR0_0 (u32 (device <<. 1)) ;;
  reg_write I2C_I2C_CMD_DATA1_0 val ;;
  reg_write I2C_I2C_CNFG_0 (u32 ((num_bytes <<. 1) - 2) .| 0x2800) ;;
  i2c_set_test_master_config_load ;;
  reg_write I2C_I2C_CNFG_0 (u32 ((num_bytes <<. 1) - 2) .| 0x2800 .| 0x200) ;;
  poll_reg I2C_I2C_STATUS_0 (fun v => v .& 0x100 =? 0) ;;
  poll_reg I2C_I2C_STATUS_0 (fun v => v .& 0xF =? 0).
Definition i2c_send_byte_command (device reg b : Z) : M unit := i2c_write device (reg .| (b <<. 8)) 2.
Definition i2c_enable_pmic : M unit := i2c_send_byte_command 27 0 0x80.

(** ** flow.c, cluster.c *)

Definition flow_perform_ram_repair : M unit :=
  active ← reg_read FLOW_CTLR_BPMP_CLUSTER_CONTROL_0;
  if negb (active .& 1 =? 0) then mret tt else
  reg_write FLOW_CTLR_RAM_REPAIR_0 1 ;;
  poll_reg FLOW_CTLR_RAM_REPAIR_0 (fun v => negb (v .& 2 =? 0)).
Definition cluster_pmc_enable_partition (mask toggle : Z) : M unit :=
  status ← reg_read APBDEV_PMC_PWRGATE_STATUS_0;
  (if status .& mask =? 0 then reg_write APBDEV_PMC_PWRGATE_TOGGLE_0 toggle else mret tt) ;;
  poll_reg APBDEV_PMC_PWRGATE_STATUS_0 (fun v => negb (v .& mask =? 0)) ;;
  reg_write APBDEV_PMC_REMOVE_CLAMPING_CMD_0 mask ;;
  poll_reg APBDEV_PMC_CLAMP_STATUS_0 (fun v => v .& mask =? 0).

(** The first part: the clocks and the power supply. *)
Definition cluster_clocks_on : M unit :=
  reg_write CLK_RST_CONTROLLER_RST_DEV_U_SET_0 0x200 ;;
  reg_update CLK_RST_CONTROLLER_CPU_SOFTRST_CTRL2_0 (fun v => v .& 0xFFFFF000) ;;
  low ← reg_read APBDEV_PMC_SECURE_SCRATCH34_0;
  reg_write SB_AA64_RESET_LOW_0 (low .| 1) ;;
  high ← reg_read APBDEV_PMC_SECURE_SCRATCH35_0;
  reg_write SB_AA64_RESET_HIGH_0 high ;;
  reg_write CLK_RST_CONTROLLER_SUPER_CCLKG_DIVIDER_0 0x80000000 ;;
  reg_write CLK_RST_CONTROLLER_SUPER_CCLKP_DIVIDER_0 0x80000000 ;;
  reg_write CLK_RST_CONTROLLER_CLK_ENB_U_SET_0 0x200 ;;
  reg_write CLK_RST_CONTROLLER_RST_DEV_U_CLR_0 0x200 ;;
  reg_write CLK_RST_CONTROLLER_CLK_SOURCE_MSELECT_0 6 ;;
  reg_write CLK_RST_CONTROLLER_CLK_ENB_V_SET_0 0x8 ;;
  timer_wait 2 ;;
  reg_write CLK_RST_CONTROLLER_RST_DEV_V_CLR_0 0x8 ;;
  reg_update MSELECT_CONFIG_0 (fun v => (v .& 0xFCFFFFFF) .| 0x38000000) ;;
  reg_update CLK_RST_CONTROLLER_PLLX_BASE_0 (fun v => v .& 0xBFFFFFFF) ;;
  reg_update APBDEV_PMC_SCRATCH190_0 (fun v => v .& 0xFFFFFFFE) ;;
  reg_write APBDEV_PMC_DPD_SAMPLE_0 0 ;;
  timer_wait 10 ;;
  reg_update 0x6000D108 (fun v => v .| 4) ;;
  reg_update 0x6000D118 (fun v => v .| 4) ;;
  reg_update 0x6000D128 (fun v => v .& not32 4) ;;
  reg_write PINMUX_AUX_DVFS_PWM_0 0x11 ;;
  reg_read PINMUX_AUX_DVFS_PWM_0 ;;
  reg_write PINMUX_AUX_PWR_I2C_SCL_0 0x40 ;;
  reg_write PINMUX_AUX_PWR_I2C_SDA_0 0x40 ;;
  reg_write CLK_RST_CONTROLLER_CLK_ENB_W_SET_0 0x08000000 ;;
  reg_write CLK_RST_CONTROLLER_CLK_SOURCE_DVFS_REF_0 0xE ;;
  reg_write CLK_RST_CONTROLLER_CLK_SOURCE_DVFS_SOC_0 0xE ;;
  reg_write CLK_RST_CONTROLLER_CLK_ENB_H_SET_0 0x8000 ;;
  reg_write CLK_RST_CONTROLLER_RST_DEV_H_SET_0 0x8000 ;;
  timer_wait 5 ;;
  reg_write CLK_RST_CONTROLLER_CLK_SOURCE_I2C5_0 0x4 ;;
  reg_write CLK_RST_CONTROLLER_RST_DEV_H_CLR_0 0x8000 ;;
  i2c_enable_pmic ;;
  timer_wait 2000.
(** The countdown from 8 takes time only. *)
Definition cluster_initialize_cpu : M unit :=
  cluster_clocks_on ;;
  cluster_pmc_enable_partition 1 0x100 ;;
  reg_write APBDEV_PMC_SET_SW_CLAMP_0 0 ;;
  reg_write APBDEV_PMC_REMOVE_CLAMPING_CMD_0 1 ;;
  poll_reg APBDEV_PMC_CLAMP_STATUS_0 (fun v => v .& 1 =? 0) ;;
  wait 0 ;;
  reg_write CLK_RST_CONTROLLER_RST_DEV_H_SET_0 0x8000 ;;
  reg_write CLK_RST_CONTROLLER_CLK_ENB_H_CLR_0 0x8000 ;;
  reg_write CLK_RST_CONTROLLER_CLK_ENB_W_CLR_0 0x08000000 ;;
  flow_perform_ram_repair ;;
  cluster_pmc_enable_partition 0x8000 0x10F ;;
  reg_write CLK_RST_CONTROLLER_CLK_ENB_Y_SET_0 0x80000000 ;;
  timer_wait 2 ;;
  reg_write CLK_RST_CONTROLLER_CLK_ENB_L_SET_0 1 ;;
  reg_write CLK_RST_CONTROLLER_CLK_ENB_V_SET_0 1 ;;
  timer_wait 10 ;;
  reg_write CLK_RST_CONTROLLER_CCLKG_BURST_POLICY_0 0x20004444 ;;
  reg_write CLK_RST_CONTROLLER_CCLKP_BURST_POLICY_0 0x20004444 ;;
  timer_wait 10 ;;
  reg_write CLK_RST_CONTROLLER_RST_CPUG_CMPLX_CLR_0 0x20000000.
Definition cluster_power_on_cpu : M unit :=
  cluster_pmc_enable_partition 0x4000 0x10E ;;
  reg_write CLK_RST_CONTROLLER_RST_CPUG_CMPLX_CLR_0 0x10001.

(** ** secmon.c *)

Definition saved_keyslots : list Z :=
  [Sc7.KEYSLOT_SWITCH_LP0TZRAMKEY; SE.KEYSLOT_SWITCH_SESSIONKEY; SE.KEYSLOT_SWITCH_RNGKEY;
   SE.KEYSLOT_SWITCH_MASTERKEY; SE.KEYSLOT_SWITCH_DEVICEKEY; SE.KEYSLOT_SWITCH_4XOLDDEVICEKEY].
Definition secmon_should_clear_aes_keyslot (keyslot : Z) : bool := negb (existsb (Z.eqb keyslot) saved_keyslots).
Definition secmon_clear_unused_keyslots : M unit :=
  for_each (range SE.KEYSLOT_AES_MAX) (fun i =>
    (if secmon_should_clear_aes_keyslot i then clear_aes_keyslot i else mret tt) ;;
    clear_aes_keyslot_iv i) ;;
  for_each (range SE.KEYSLOT_RSA_MAX) clear_rsa_keyslot.

Definition secmon_decrypt_saved_image (dst src size : Z) : M unit :=
  out ← phys_load dst size;
  image ← phys_load src size;
  out ← se_aes_256_cbc_decrypt Sc7.KEYSLOT_SWITCH_LP0TZRAMKEY out size image size;
  phys_store dst out ;;
  tzram ← phys_load dst size;
  tzram_cmac ← se_compute_aes_256_cmac Sc7.KEYSLOT_SWITCH_LP0TZRAMKEY 0x10 tzram size;
  mac0 ← reg_read APBDEV_PMC_SECURE_SCRATCH112_0;
  mac1 ← reg_read APBDEV_PMC_SECURE_SCRATCH113_0;
  mac2 ← reg_read APBDEV_PMC_SECURE_SCRATCH114_0;
  mac3 ← reg_read APBDEV_PMC_SECURE_SCRATCH115_0;
  if negb (read32le tzram_cmac 0 =? mac0) || negb (read32le tzram_cmac 4 =? mac1)
     || negb (read32le tzram_cmac 8 =? mac2) || negb (read32le tzram_cmac 12 =? mac3)
  then reboot else
  reg_write APBDEV_PMC_SECURE_SCRATCH112_0 0 ;;
  reg_write APBDEV_PMC_SECURE_SCRATCH113_0 0 ;;
  reg_write APBDEV_PMC_SECURE_SCRATCH114_0 0 ;;
  reg_write APBDEV_PMC_SECURE_SCRATCH115_0 0 ;;
  clear_aes_keyslot Sc7.KEYSLOT_SWITCH_LP0TZRAMKEY.

Definition secmon_restore_to_tzram (target_firmware : Z) : M unit :=
  (if target_firmware >=? ATMOSPHERE_TARGET_FIRMWARE_500 then secmon_clear_unused_keyslots else mret tt) ;;
  let tzram_src := 0x80010000 in
  let tzram_dst := if target_firmware >=? ATMOSPHERE_TARGET_FIRMWARE_500 then 0x7C012000 else 0x7C010000 in
  let tzram_size := 0xE000 in
  secmon_decrypt_saved_image tzram_dst tzram_src tzram_size ;;
  for_each (range (tzram_size / 4)) (fun i => phys_store (tzram_src + 4 * i) (le_bytes 4 0)) ;;
  SE.se_write 0x4 0 ;;
  fuse_disable_programming.

(** ** lp0.c *)

(** Everything before the monitor is restored. *)
Definition lp0_prepare (meta : warmboot_metadata_t) : M unit :=
  let target_firmware := meta_target_firmware meta in
  if negb (meta_magic meta =? WARMBOOT_MAGIC) || (target_firmware >? ATMOSPHERE_TARGET_FIRMWARE_MAX) then reboot else
  (if target_firmware >=? ATMOSPHERE_TARGET_FIRMWARE_400 then disable_bpmp_access_to_dram else mret tt) ;;
  misc_configure_device_dbg_settings ;;
  if fuse_check_downgrade_status then reboot else
  fuse_configure_fuse_bypass ;;
  car_configure_oscillators ;;
  misc_restore_ram_svop ;;
  emc_configure_pmacro_training ;;
  car_mbist_workaround ;;
  cluster_initialize_cpu.
Definition lp0_entry_main (meta : warmboot_metadata_t) : M unit :=
  let target_firmware := meta_target_firmware meta in
  lp0_prepare meta ;;
  secmon_restore_to_tzram target_firmware ;;
  cluster_power_on_cpu ;;
  let halt_val := if target_firmware >=? ATMOSPHERE_TARGET_FIRMWARE_400 then 0x40000000 else 0x50000000 in
  reg_write FLOW_CTLR_HALT_COP_EVENTS_0 halt_val ;;
  spin.
End Ops.
End Lp0.
