(* ===== verification/Sleep.v ===== *)
(** What deep sleep relies on of the Security Engine: AES-256 in ECB and CBC
    mode and the CBC-MAC that the drivers build the CMAC from, and the driver
    functions of the monitor and of lp0fw run against it. *)
From S2P Require Import Prelude State Utils Se Engine SeProps Power Lp0.
Import SE.

(** The eight words of a key, the IV, and the IV the engine goes on with. *)
Definition slot_words (h : se_hw) (slot first n : Z) : list Z :=
  range n ≫= fun i => le_bytes 4 (aes_keytable h (16 * slot + first + i)).
Definition slot_key256 (h : se_hw) (slot : Z) : list Z := slot_words h slot 0 8.
Definition slot_iv (h : se_hw) (slot : Z) : list Z := slot_words h slot 8 4.
Definition updated_iv (h : se_hw) (slot : Z) : list Z := slot_words h slot 12 4.
Definition hash_words (h : se_hw) : list Z := range 4 ≫= fun i => le_bytes 4 (se_regs h (HASH_RESULT_REG + (i <<. 2))).

(** CBC on [n] blocks, and the last block of an encryption. *)
Fixpoint cbc_encrypt (f : list Z -> list Z) (n : nat) (iv data : list Z) : list Z :=
  match n with O => [] | S n => let c := f (xor_bytes (take 16 data) iv) in c ++ cbc_encrypt f n c (drop 16 data) end.
Fixpoint cbc_decrypt (g : list Z -> list Z) (n : nat) (iv data : list Z) : list Z :=
  match n with O => [] | S n => let c := take 16 data in xor_bytes (g c) iv ++ cbc_decrypt g n c (drop 16 data) end.
Fixpoint cbc_mac (f : list Z -> list Z) (n : nat) (iv data : list Z) : list Z :=
  match n with O => iv | S n => cbc_mac f n (f (xor_bytes (take 16 data) iv)) (drop 16 data) end.
(** CMAC of [n + 1] full blocks: the last one is masked with the doubled
    encryption of zero. *)
Definition cmac (f : list Z -> list Z) (n : nat) (data : list Z) : list Z :=
  f (xor_bytes (xor_bytes (drop (16 * n) data) (shift_left_xor_rb (f (zeros 16)))) (cbc_mac f n (zeros 16) data)).

(** The configurations of CONFIG_REG with 256-bit keys. *)
Definition CONFIG_ENC_256 := u32 (ALG_AES_ENC .| DST_MEMORY .| (0x202 <<. 16)).
Definition CONFIG_DEC_256 := u32 (ALG_AES_DEC .| DST_MEMORY .| (0x202 <<. 16)).
Definition CONFIG_MAC_256 := u32 (ALG_AES_ENC .| DST_HASHREG .| (0x202 <<. 16)).

Definition is_key256 (k : list Z) : Prop := length k = 32%nat /\ is_bytes k.

Class SleepEngine (soc : SoC) := {
  sleep_done :: EngineDone soc;
  aes256_encrypt : list Z -> list Z -> list Z;
  aes256_decrypt : list Z -> list Z -> list Z;
  aes256_encrypt_block k b : is_key256 k -> is_block b -> is_block (aes256_encrypt k b);
  aes256_decrypt_block k b : is_key256 k -> is_block b -> is_block (aes256_decrypt k b);
  aes256_decrypt_encrypt k b : is_key256 k -> is_block b -> aes256_decrypt k (aes256_encrypt k b) = b;
  engine_ecb_encrypt_256 h slot b o :
    0 <= slot < 16 -> se_regs h CONFIG_REG = CONFIG_ENC_256 -> se_regs h CRYPTO_REG = u32 ((slot <<. 24) .| 0x100) ->
    se_regs h BLOCK_COUNT_REG = 0 -> is_block b ->
    let r := se_engine OP_START (ll_buf b) (ll_buf o) h in
    snd r = aes256_encrypt (slot_key256 h slot) b /\ slot_key256 (fst r) slot = slot_key256 h slot;
  engine_cbc_encrypt_256 h slot n b o :
    0 <= slot < 16 -> se_regs h CONFIG_REG = CONFIG_ENC_256 -> se_regs h CRYPTO_REG = u32 ((slot <<. 24) .| 0x144) ->
    se_regs h BLOCK_COUNT_REG = u32 (Z.of_nat n - 1) -> length b = (16 * n)%nat -> is_bytes b ->
    let r := se_engine OP_START (ll_buf b) (ll_buf o) h in
    snd r = cbc_encrypt (aes256_encrypt (slot_key256 h slot)) n (slot_iv h slot) b /\
    slot_key256 (fst r) slot = slot_key256 h slot;
  engine_cbc_decrypt_256 h slot n b o :
    0 <= slot < 16 -> se_regs h CONFIG_REG = CONFIG_DEC_256 -> se_regs h CRYPTO_REG = u32 ((slot <<. 24) .| 0x66) ->
    se_regs h BLOCK_COUNT_REG = u32 (Z.of_nat n - 1) -> length b = (16 * n)%nat -> is_bytes b ->
    let r := se_engine OP_START (ll_buf b) (ll_buf o) h in
    snd r = cbc_decrypt (aes256_decrypt (slot_key256 h slot)) n (slot_iv h slot) b /\
    slot_key256 (fst r) slot = slot_key256 h slot;
  engine_keeps_config op i o h r : r = CONFIG_REG \/ r = CRYPTO_REG -> se_regs (fst (se_engine op i o h)) r = se_regs h r;
  (* bit 7 of CRYPTO_REG selects the updated IV *)
  engine_mac_256 h slot n b (chained : bool) :
    0 <= slot < 16 -> se_regs h CONFIG_REG = CONFIG_MAC_256 ->
    se_regs h CRYPTO_REG = u32 ((slot <<. 24) .| 0x145) .| (if chained then 0x80 else 0) ->
    se_regs h BLOCK_COUNT_REG = u32 (Z.of_nat n - 1) -> (16 * n <= length b)%nat -> (0 < n)%nat -> Z.of_nat n < 2 ^ 32 -> is_bytes b ->
    let h' := fst (se_engine OP_START (ll_buf b) ll_null h) in
    let iv := if chained then updated_iv h slot else slot_iv h slot in
    let mac := cbc_mac (aes256_encrypt (slot_key256 h slot)) n iv b in
    hash_words h' = mac /\ updated_iv h' slot = mac /\ slot_key256 h' slot = slot_key256 h slot }.

(** ** Modes *)

Lemma is_block_xor a b : is_block a -> is_block b -> is_block (xor_bytes a b).
Proof.
  intros [Ha1 Ha2] [Hb1 Hb2]. split; [rewrite length_xor_bytes; lia|]. unfold xor_bytes.
  apply (Forall_zip_with_fst _ is_u8); [done|]. eapply Forall_impl; [exact Hb2|]. intros y Hy x Hx. by apply lxor_u8.
Qed.
Lemma take_block data n : length data = (16 * S n)%nat -> is_bytes data -> is_block (take 16 data).
Proof. intros Hl Hb. split; [rewrite length_take; lia|by apply Forall_take]. Qed.

Lemma zeros_block : is_block (zeros 16).
Proof. by split; [|repeat constructor]. Qed.

Section Modes.
Context (f g : list Z -> list Z) (Hf : forall b, is_block b -> is_block (f b)) (Hg : forall b, is_block b -> is_block (g b))
  (Hgf : forall b, is_block b -> g (f b) = b).

Lemma cbc_encrypt_ok n iv data : is_block iv -> length data = (16 * n)%nat -> is_bytes data ->
  length (cbc_encrypt f n iv data) = (16 * n)%nat /\ is_bytes (cbc_encrypt f n iv data).
Proof.
  revert iv data. induction n as [|n IH]; intros iv data Hi Hl Hb; [by split; [|constructor]|]. cbn [cbc_encrypt].
  assert (is_block (f (xor_bytes (take 16 data) iv))) as Hc by (apply Hf, is_block_xor; [by apply (take_block _ n)|done]).
  destruct (IH (f (xor_bytes (take 16 data) iv)) (drop 16 data)) as [IH1 IH2]; [done|rewrite length_drop; lia|by apply Forall_drop|].
  destruct Hc as [Hc1 Hc2]. split; [rewrite length_app, Hc1, IH1; lia|by apply Forall_app].
Qed.
Lemma cbc_decrypt_ok n iv data : is_block iv -> length data = (16 * n)%nat -> is_bytes data ->
  length (cbc_decrypt g n iv data) = (16 * n)%nat /\ is_bytes (cbc_decrypt g n iv data).
Proof.
  revert iv data. induction n as [|n IH]; intros iv data Hi Hl Hb; [by split; [|constructor]|]. cbn [cbc_decrypt].
  pose proof (take_block data n Hl Hb) as Ht. assert (is_block (xor_bytes (g (take 16 data)) iv)) as Hc by (by apply is_block_xor; [apply Hg|]).
  destruct (IH (take 16 data) (drop 16 data)) as [IH1 IH2]; [done|rewrite length_drop; lia|by apply Forall_drop|].
  destruct Hc as [Hc1 Hc2]. split; [rewrite length_app, Hc1, IH1; lia|by apply Forall_app].
Qed.
Lemma cbc_mac_block n iv data : is_block iv -> (16 * n <= length data)%nat -> is_bytes data -> is_block (cbc_mac f n iv data).
Proof.
  revert iv data. induction n as [|n IH]; intros iv data Hi Hl Hb; [done|]. cbn [cbc_mac].
  apply IH; [|rewrite length_drop; lia|by apply Forall_drop]. apply Hf, is_block_xor; [|done]. split; [rewrite length_take; lia|by apply Forall_take].
Qed.
Lemma cbc_round_trip n iv data : is_block iv -> length data = (16 * n)%nat -> is_bytes data ->
  cbc_decrypt g n iv (cbc_encrypt f n iv data) = data.
Proof.
  revert iv data. induction n as [|n IH]; intros iv data Hi Hl Hb; [by destruct data|]. cbn [cbc_encrypt cbc_decrypt].
  pose proof (take_block data n Hl Hb) as Ht. assert (is_block (xor_bytes (take 16 data) iv)) as Hx by (by apply is_block_xor).
  pose proof (Hf _ Hx) as [Hc1 _]. rewrite take_app_length', drop_app_length' by done. rewrite Hgf by done.
  rewrite xor_bytes_involutive by (rewrite (proj1 Ht), (proj1 Hi); lia).
  rewrite IH; [apply take_drop|by apply Hf|rewrite length_drop; lia|by apply Forall_drop].
Qed.
End Modes.

(** ** The key table *)

Lemma slot_address slot i : 0 <= i < 16 -> (slot <<. 4) .| i = 16 * slot + i.
Proof. intros Hi. rewrite lor_shiftl_add by lia. lia. Qed.
Lemma iv_address slot i : 0 <= i < 4 -> (slot <<. 4) .| 8 .| i = 16 * slot + 8 + i.
Proof.
  intros Hi. rewrite <- Z.lor_assoc. replace (8 .| i) with (8 + i); [rewrite slot_address; lia|].
  assert (i = 0 \/ i = 1 \/ i = 2 \/ i = 3) as H by lia. by repeat destruct H as [->|H]; try subst i.
Qed.
Lemma slot_words_ext h h' slot first n :
  (forall i, 0 <= i < n -> aes_keytable h' (16 * slot + first + i) = aes_keytable h (16 * slot + first + i)) ->
  slot_words h' slot first n = slot_words h slot first n.
Proof. intros H. unfold slot_words. apply bind_range_ext. intros i Hi. by rewrite H. Qed.
Lemma slot_words_bytes h slot first n : 0 <= n -> length (slot_words h slot first n) = Z.to_nat (4 * n) /\ is_bytes (slot_words h slot first n).
Proof.
  intros Hn. unfold slot_words. rewrite <- (Z2Nat.id n Hn). induction (Z.to_nat n) as [|k IH]; [by split; [|constructor]|].
  unfold range in *. rewrite seqZ_S, bind_app. cbn [mbind list_bind]. rewrite app_nil_r, length_app, length_le_bytes.
  destruct IH as [IH1 IH2]. split; [rewrite IH1; lia|]. apply Forall_app_2; [done|apply le_bytes_is_bytes].
Qed.
Lemma slot_key256_ok h slot : is_key256 (slot_key256 h slot).
Proof. apply (slot_words_bytes h slot 0 8). lia. Qed.

(** Stores of zero leave everything else as it was. *)
Lemma keytable_zero_run {A} (l : list A) (addr val : A -> Z) w : (forall i, i ∈ l -> val i = 0) ->
  exists h', for_each l (fun i => aes_keytable_store (addr i) (val i)) w = (Ret tt, w <| w_se := h' |>) /\
    (forall r, r <> AES_KEYTABLE_ADDR -> r <> AES_KEYTABLE_DATA -> se_regs h' r = se_regs (w_se w) r) /\
    (forall a, aes_keytable h' a = if existsb (fun i => addr i =? a) l then 0 else aes_keytable (w_se w) a).
Proof.
  revert w. induction l as [|i l IH]; intros w Hv; cbn [for_each existsb].
  - exists (w_se w). by destruct w.
  - rewrite (run_bind _ _ _ _ _ (run_aes_keytable_store _ _ _)).
    destruct (IH (w <| w_se ::= hw_keytable_store (addr i) (val i) |>)) as (h' & Hr & Hregs & Hk); [intros j Hj; apply Hv; by right|].
    exists h'. split; [done|]. split.
    + intros r H1 H2. rewrite Hregs by done. rewrite w_se_update. by apply hw_keytable_store_regs.
    + intros a. rewrite Hk, w_se_update, hw_keytable_store_aes, (Hv i) by left. unfold upd. rewrite (Z.eqb_sym (addr i)).
      by destruct (a =? addr i), (existsb _ l).
Qed.
(** The IV of a slot is cleared, and the key and the registers stay. *)
Definition iv_cleared (h h' : se_hw) (slot : Z) : Prop :=
  (forall r, r <> AES_KEYTABLE_ADDR -> r <> AES_KEYTABLE_DATA -> se_regs h' r = se_regs h r) /\
  slot_iv h' slot = zeros 16 /\ slot_key256 h' slot = slot_key256 h slot.
Lemma iv_stores_run val slot w : (forall i, 0 <= i < 4 -> val i = 0) ->
  exists h', for_each (range 4) (fun i => aes_keytable_store ((slot <<. 4) .| 8 .| i) (val i)) w = (Ret tt, w <| w_se := h' |>) /\
    iv_cleared (w_se w) h' slot.
Proof.
  intros Hv. destruct (keytable_zero_run (range 4) (fun i => (slot <<. 4) .| 8 .| i) val w) as (h' & Hr & Hregs & Hk).
  { intros i Hi%elem_of_range. by apply Hv. }
  exists h'. split; [done|]. split; [done|]. split.
  - unfold slot_iv, slot_words. rewrite (bind_range_ext _ (fun _ => zeros 4)); [done|]. intros i Hi. rewrite Hk.
    replace (existsb _ _) with true; [done|]. symmetry. apply existsb_exists. exists i. rewrite iv_address by done.
    rewrite Z.eqb_refl. split; [by apply list_elem_of_In, elem_of_range|done].
  - apply slot_words_ext. intros i Hi. rewrite Hk. replace (existsb _ _) with false; [done|]. symmetry.
    apply not_true_iff_false. intros (j & Hj%list_elem_of_In%elem_of_range & E)%existsb_exists. rewrite iv_address in E by done. lia.
Qed.
Lemma set_iv_run {soc : SoC} slot w : 0 <= slot < 16 ->
  exists h', set_aes_keyslot_iv slot (zeros 0x10) 0x10 w = (Ret tt, w <| w_se := h' |>) /\ iv_cleared (w_se w) h' slot.
Proof.
  intros Hs. unfold set_aes_keyslot_iv, KEYSLOT_AES_MAX. zdec. change (0x10 >>. 2) with 4. apply iv_stores_run.
  intros i Hi. assert (i = 0 \/ i = 1 \/ i = 2 \/ i = 3) as H by lia. by repeat destruct H as [->|H]; try subst i.
Qed.
Lemma clear_iv_run {soc : SoC} slot w : 0 <= slot < 16 ->
  exists h', clear_aes_keyslot_iv slot w = (Ret tt, w <| w_se := h' |>) /\ iv_cleared (w_se w) h' slot.
Proof. intros Hs. unfold clear_aes_keyslot_iv, KEYSLOT_AES_MAX. zdec. by apply (iv_stores_run (fun _ => 0)). Qed.

(** ** The copy of the driver in lp0fw *)

Lemma bind_ext {A B} (m m' : M A) (f f' : A -> M B) w : m w = m' w -> (forall a w', f a w' = f' a w') -> (m ≫= f) w = (m' ≫= f') w.
Proof. intros Hm Hf. unfold mbind, M_bind. rewrite Hm. by destruct (m' w) as [[] ?]. Qed.

Section Copy.
Context {soc : SoC} {HD : EngineDone soc}.

Lemma lp0_check_run op i o h w : w_se w = fst (se_engine op i o h) -> Lp0.se_check_for_error w = (Ret tt, w).
Proof.
  intros E. unfold Lp0.se_check_for_error, se_read. rewrite !run_gets, E.
  destruct (engine_int_status op i o h) as (_ & _ & ->). by rewrite engine_flags, engine_err.
Qed.
Lemma lp0_trigger op dst src w : Lp0.trigger_se_blocking_op op dst src w = trigger_se_blocking_op op dst src w.
Proof.
  rewrite trigger_blocking_run. unfold Lp0.trigger_se_blocking_op, ack_reg, se_read, se_write. cbv zeta.
  rewrite bind_assoc, run_gets, run_modify, bind_assoc, run_gets, run_modify, run_modify.
  rewrite (run_bind _ _ _ (snd (run_op op dst src (w_se w))) (w <| w_se := fst (run_op op dst src (w_se w)) |>)) by done.
  set (w' := update _ _ w). assert (Hp : poll_int_status 0x10 w' = (Ret tt, w')).
  { unfold poll_int_status, se_read. rewrite run_gets. change (w_se w') with (fst (run_op op dst src (w_se w))).
    destruct (engine_int_status op (ll_init src) (ll_init dst) (start_op op (w_se w))) as (H & _).
    unfold run_op. by rewrite (proj2 (Z.eqb_neq _ _) H). }
  rewrite (run_bind _ _ _ _ _ Hp). by rewrite (run_bind _ _ _ _ _ (lp0_check_run op (ll_init src) (ll_init dst) (start_op op (w_se w)) w' eq_refl)).
Qed.
Lemma lp0_clear_iv slot w : 0 <= slot < 16 -> Lp0.clear_aes_keyslot_iv slot w = clear_aes_keyslot_iv slot w.
Proof. intros Hs. unfold Lp0.clear_aes_keyslot_iv, clear_aes_keyslot_iv, KEYSLOT_AES_MAX. by zdec. Qed.
Lemma lp0_ecb slot src cfg w : 0 <= slot < 16 ->
  Lp0.se_aes_ecb_encrypt_block slot 0x10 src 0x10 cfg w = se_aes_ecb_encrypt_block slot 0x10 src 0x10 cfg w.
Proof.
  intros Hs. unfold Lp0.se_aes_ecb_encrypt_block, se_aes_ecb_encrypt_block, KEYSLOT_AES_MAX. zdec. do 2 (apply bind_ext; [done|intros _ ?]).
  unfold Lp0.se_perform_aes_block_operation, se_perform_aes_block_operation. zdec. apply bind_ext; [done|intros _ ?].
  apply bind_ext; [apply lp0_trigger|done].
Qed.
Lemma lp0_cmac slot size data n w : 0 <= slot < 16 ->
  Lp0.se_compute_aes_256_cmac slot size data n w = se_compute_aes_256_cmac slot size data n w.
Proof.
  intros Hs. unfold Lp0.se_compute_aes_256_cmac, se_compute_aes_256_cmac, Lp0.se_compute_aes_cmac, se_compute_aes_cmac, KEYSLOT_AES_MAX. zdec.
  apply bind_ext; [by apply lp0_ecb|intros key ?]. cbv zeta. do 2 (apply bind_ext; [done|intros _ ?]).
  apply bind_ext; [by apply lp0_clear_iv|intros _ ?]. apply bind_ext.
  - case_match; [|done]. apply bind_ext; [done|intros _ ?]. apply bind_ext; [apply lp0_trigger|done].
  - intros _ ?. apply bind_ext; [done|intros _ ?]. apply bind_ext; [apply lp0_trigger|done].
Qed.
End Copy.

(** ** The driver's functions *)

Section Runs.
Context {soc : SoC} {HS : SleepEngine soc}.

Lemma key256_ext h h' slot : (forall a, aes_keytable h' a = aes_keytable h a) -> slot_key256 h' slot = slot_key256 h slot.
Proof. intros H. apply slot_words_ext. intros i _. apply H. Qed.

Lemma random_key_run dst rng w : 0 <= dst < 16 -> 0 <= rng < 16 ->
  exists h', se_generate_random_key dst rng w = (Ret tt, w <| w_se := h' |>).
Proof.
  intros Hd Hr. unfold se_generate_random_key, KEYSLOT_AES_MAX. zdec. rewrite !run_se_write.
  rewrite (run_bind _ _ _ _ _ (trigger_blocking_run _ _ _ _)), run_se_write, (run_bind _ _ _ _ _ (trigger_blocking_run _ _ _ _)). by eexists.
Qed.
Lemma ecb_encrypt_256_run slot src w : 0 <= slot < 16 -> is_block src ->
  exists h', se_aes_ecb_encrypt_block slot 0x10 src 0x10 0x202 w =
    (Ret (aes256_encrypt (slot_key256 (w_se w) slot) src), w <| w_se := h' |>) /\ slot_key256 h' slot = slot_key256 (w_se w) slot.
Proof.
  intros Hs Hb. unfold se_aes_ecb_encrypt_block, KEYSLOT_AES_MAX. zdec. rewrite !run_se_write. set (w2 := update w_se _ (update w_se _ w)).
  set (h := start_op OP_START (hw_write BLOCK_COUNT_REG 0 (w_se w2))).
  assert (Hk : slot_key256 h slot = slot_key256 (w_se w) slot) by (apply key256_ext; intros a; by assert (same_tables (w_se w) h) as [H _] by (unfold h, w2; rewrite !w_se_update; tables)).
  destruct (engine_ecb_encrypt_256 h slot src src) as [Ho Ht]; [done|unfold h, w2; rewrite !w_se_update; by regs..|done|].
  rewrite Hk in Ho. eexists. split.
  - rewrite (block_operation_run w2 src _ _ (proj1 Hb) eq_refl Ho); [reflexivity|].
    apply aes256_encrypt_block; [apply slot_key256_ok|done].
  - etransitivity; [exact Ht|exact Hk].
Qed.

(** The state an operation starts in after the IV was cleared. *)
Lemma started_iv h h' slot v : iv_cleared h h' slot ->
  let h2 := start_op OP_START (hw_write BLOCK_COUNT_REG v h') in
  slot_iv h2 slot = zeros 16 /\ slot_key256 h2 slot = slot_key256 h slot /\ se_regs h2 BLOCK_COUNT_REG = v /\
  se_regs h2 CONFIG_REG = se_regs h CONFIG_REG /\ se_regs h2 CRYPTO_REG = se_regs h CRYPTO_REG.
Proof.
  intros (Hr & Hi & Hk) h2. assert (same_tables h' h2) as [Ht _] by (unfold h2; tables).
  split; [rewrite <- Hi; apply slot_words_ext; intros; apply Ht|]. split; [rewrite <- Hk; by apply key256_ext|]. unfold h2.
  split; [by regs|]. split; rewrite start_op_regs, hw_write_regs, upd_ne by done; by apply Hr.
Qed.
Lemma cbc_encrypt_256_run slot n dst src w : 0 <= slot < 16 -> length src = (16 * n)%nat -> (0 < n)%nat -> is_bytes src -> length dst = length src ->
  exists h', se_aes_256_cbc_encrypt slot dst (Z.of_nat (16 * n)) src (Z.of_nat (16 * n)) (zeros 0x10) w =
    (Ret (cbc_encrypt (aes256_encrypt (slot_key256 (w_se w) slot)) n (zeros 16) src), w <| w_se := h' |>) /\
    slot_key256 h' slot = slot_key256 (w_se w) slot.
Proof.
  intros Hs Hl Hn Hb Hd. unfold se_aes_256_cbc_encrypt, KEYSLOT_AES_MAX. zdec. rewrite !run_se_write. set (w2 := update w_se _ (update w_se _ w)).
  destruct (set_iv_run slot w2 Hs) as (h1 & Hr & Hiv). rewrite (run_bind _ _ _ _ _ Hr), run_se_write, trigger_blocking_run, !w_se_update.
  set (v := u32 _). destruct (started_iv _ _ slot v Hiv) as (Ei & Ek & Eb & Ec & Ey). set (h2 := start_op OP_START _) in *.
  assert (slot_key256 (w_se w2) slot = slot_key256 (w_se w) slot) as Hk.
  { assert (same_tables (w_se w) (w_se w2)) as [Ht _] by (unfold w2; rewrite !w_se_update; tables). by apply key256_ext. }
  rewrite (slice_all src), (slice_all dst) by lia. unfold run_op. cbn [default from_option id ll_init]. fold h2.
  destruct (engine_cbc_encrypt_256 h2 slot n src dst) as [Ho Ht]; [done|rewrite Ec; unfold w2; rewrite !w_se_update; by regs|
    rewrite Ey; unfold w2; rewrite !w_se_update; by regs|rewrite Eb; unfold v; f_equal; rewrite Z.shiftr_div_pow2 by lia; change (2 ^ 4) with 16; Z.div_mod_to_equations; lia|done|done|].
  rewrite Ho, Ek, Ei, Hk. pose proof (slot_key256_ok (w_se w) slot) as Hkey.
  rewrite splice_block; [eexists; split; [reflexivity|]; by rewrite Ht, Ek, Hk|]. rewrite Hd, Hl. symmetry. apply cbc_encrypt_ok; [|apply zeros_block|done|done].
  intros b Hb'. by apply aes256_encrypt_block.
Qed.
Lemma cbc_decrypt_256_run slot n dst src w : 0 <= slot < 16 -> length src = (16 * n)%nat -> (0 < n)%nat -> is_bytes src -> length dst = length src ->
  exists h', Lp0.se_aes_256_cbc_decrypt slot dst (Z.of_nat (16 * n)) src (Z.of_nat (16 * n)) w =
    (Ret (cbc_decrypt (aes256_decrypt (slot_key256 (w_se w) slot)) n (zeros 16) src), w <| w_se := h' |>) /\
    slot_key256 h' slot = slot_key256 (w_se w) slot.
Proof.
  intros Hs Hl Hn Hb Hd. unfold Lp0.se_aes_256_cbc_decrypt, KEYSLOT_AES_MAX. zdec. rewrite !run_se_write. set (w2 := update w_se _ (update w_se _ w)).
  destruct (clear_iv_run slot w2 Hs) as (h1 & Hr & Hiv). rewrite <- lp0_clear_iv in Hr by done.
  rewrite (run_bind _ _ _ _ _ Hr), run_se_write, lp0_trigger, trigger_blocking_run, !w_se_update.
  set (v := u32 _). destruct (started_iv _ _ slot v Hiv) as (Ei & Ek & Eb & Ec & Ey). set (h2 := start_op OP_START _) in *.
  assert (slot_key256 (w_se w2) slot = slot_key256 (w_se w) slot) as Hk.
  { assert (same_tables (w_se w) (w_se w2)) as [Ht _] by (unfold w2; rewrite !w_se_update; tables). by apply key256_ext. }
  rewrite (slice_all src), (slice_all dst) by lia. unfold run_op. cbn [default from_option id ll_init]. fold h2.
  destruct (engine_cbc_decrypt_256 h2 slot n src dst) as [Ho Ht]; [done|rewrite Ec; unfold w2; rewrite !w_se_update; by regs|
    rewrite Ey; unfold w2; rewrite !w_se_update; by regs|rewrite Eb; unfold v; f_equal; rewrite Z.shiftr_div_pow2 by lia; change (2 ^ 4) with 16; Z.div_mod_to_equations; lia|done|done|].
  rewrite Ho, Ek, Ei, Hk. pose proof (slot_key256_ok (w_se w) slot) as Hkey.
  rewrite splice_block; [eexists; split; [reflexivity|]; by rewrite Ht, Ek, Hk|]. rewrite Hd, Hl. symmetry. apply cbc_decrypt_ok; [|apply zeros_block|done|done].
  intros b Hb'. by apply aes256_decrypt_block.
Qed.

Lemma shift_left_xor_rb_block key : is_block key -> is_block (shift_left_xor_rb key).
Proof.
  intros [Hl Hb]. unfold shift_left_xor_rb. pose proof (shift_left_bytes_value key Hb) as H. destruct (shift_left_bytes key) as [r c].
  destruct H as (H1 & H2 & _). rewrite Hl in H1. destruct (negb _); [|by split]. split; [by rewrite length_splice by (rewrite H1; lia)|].
  by apply (be_value_xor_last r 0x87).
Qed.
Lemma full_blocks n : Z.of_nat (16 * n) .& 0xF = 0.
Proof. change 0xF with (Z.ones 4). rewrite Z.land_ones by lia. replace (Z.of_nat (16 * n)) with (Z.of_nat n * 2 ^ 4) by lia. by apply Z_mod_mult. Qed.
Lemma cmac_last_block_full data n : length data = (16 * S n)%nat -> cmac_last_block data (Z.of_nat (16 * S n)) = drop (16 * n) data.
Proof.
  intros Hl. unfold cmac_last_block. rewrite full_blocks. cbn [Z.eqb negb]. zdec.
  assert (slice data (Z.of_nat (16 * S n) - 0x10) 0x10 = drop (16 * n) data) as ->.
  { unfold slice. replace (Z.to_nat (Z.of_nat (16 * S n) - 0x10)) with (16 * n)%nat by lia.
    apply take_ge. rewrite length_drop. change (Z.to_nat 0x10) with 16%nat. lia. }
  apply splice_block. rewrite length_drop. change (length (zeros 16)) with 16%nat. lia.
Qed.
(** The registers of the two halves of the CMAC. *)
Lemma mac_start_run slot n data w h1 : 0 <= slot < 16 -> (0 < n)%nat -> Z.of_nat n < 2 ^ 32 -> (16 * n <= length data)%nat -> is_bytes data ->
  iv_cleared (w_se w) h1 slot -> se_regs (w_se w) CONFIG_REG = CONFIG_MAC_256 -> se_regs (w_se w) CRYPTO_REG = u32 ((slot <<. 24) .| 0x145) ->
  let h2 := fst (run_op OP_START None (Some data) (hw_write BLOCK_COUNT_REG (u32 (Z.of_nat n - 1)) h1)) in
  let key := slot_key256 (w_se w) slot in
  updated_iv h2 slot = cbc_mac (aes256_encrypt key) n (zeros 16) data /\ slot_key256 h2 slot = key /\
  se_regs h2 CONFIG_REG = CONFIG_MAC_256 /\ se_regs h2 CRYPTO_REG = u32 ((slot <<. 24) .| 0x145).
Proof.
  intros Hs Hn Hn32 Hl Hb Hiv Hc Hy. destruct (started_iv _ _ slot (u32 (Z.of_nat n - 1)) Hiv) as (Ei & Ek & Eb & Ec & Ey). unfold run_op. cbn [ll_init].
  set (h := start_op _ _) in *. destruct (engine_mac_256 h slot n data false) as (_ & Hu & Hk); [done|congruence|rewrite Z.lor_0_r; congruence|done..|].
  cbv zeta. rewrite Hu, Hk, Ei, Ek. split; [done|]. split; [done|]. rewrite !engine_keeps_config by auto. split; congruence.
Qed.
Lemma mac_end_run slot last h : 0 <= slot < 16 -> is_block last ->
  se_regs h CONFIG_REG = CONFIG_MAC_256 -> se_regs h CRYPTO_REG = u32 ((slot <<. 24) .| 0x145) ->
  let h2 := fst (run_op OP_START None (Some last) (hw_write BLOCK_COUNT_REG 0 (hw_write CRYPTO_REG (se_regs h CRYPTO_REG .| 0x80) h))) in
  let key := slot_key256 h slot in
  hash_words h2 = aes256_encrypt key (xor_bytes last (updated_iv h slot)) /\ slot_key256 h2 slot = key.
Proof.
  intros Hs [Hl Hb] Hc Hy. unfold run_op. cbn [ll_init]. set (h1 := start_op _ _).
  assert (same_tables h h1) as [Ht _] by (unfold h1; tables).
  assert (slot_key256 h1 slot = slot_key256 h slot) as Ek by (by apply key256_ext).
  assert (updated_iv h1 slot = updated_iv h slot) as Ei by (apply slot_words_ext; intros; apply Ht).
  destruct (engine_mac_256 h1 slot 1 last true) as (Hh & _ & Hk);
    [done|unfold h1; rewrite start_op_regs, !hw_write_regs by done; rewrite !upd_ne by done; done|unfold h1; rewrite Hy; by regs|by unfold h1; regs|lia|lia|lia|done|].
  cbv zeta. rewrite Hh, Hk, Ei, Ek. cbn [cbc_mac]. rewrite take_ge by lia. done.
Qed.
Lemma cmac_256_run slot n data w : 0 <= slot < 16 -> (0 < n)%nat -> length data = (16 * S n)%nat -> is_bytes data -> Z.of_nat (16 * S n) < 2 ^ 32 ->
  exists h', se_compute_aes_256_cmac slot 0x10 data (Z.of_nat (16 * S n)) w =
    (Ret (cmac (aes256_encrypt (slot_key256 (w_se w) slot)) n data), w <| w_se := h' |>) /\ slot_key256 h' slot = slot_key256 (w_se w) slot.
Proof.
  intros Hs Hn Hl Hb Hsz. unfold se_compute_aes_256_cmac, se_compute_aes_cmac, KEYSLOT_AES_MAX. replace (slot >=? 16) with false by lia.
  destruct (ecb_encrypt_256_run slot (zeros 16) w Hs) as (h0 & H0 & K0); [apply zeros_block|]. rewrite (run_bind _ _ _ _ _ H0). cbv zeta.
  rewrite full_blocks. cbn [Z.eqb negb]. rewrite !run_se_write. set (w2 := update w_se _ (update w_se _ _)).
  assert (slot_key256 (w_se w2) slot = slot_key256 (w_se w) slot) as Hk.
  { rewrite <- K0. assert (same_tables h0 (w_se w2)) as [Ht _] by (unfold w2; rewrite !w_se_update; tables). by apply key256_ext. }
  destruct (clear_iv_run slot w2 Hs) as (h1 & Hr & Hiv). rewrite (run_bind _ _ _ _ _ Hr).
  assert (u32 ((Z.of_nat (16 * S n) + 15) >>. 4) = Z.of_nat n + 1) as ->.
  { rewrite Z.shiftr_div_pow2 by lia. change (2 ^ 4) with 16. rewrite u32_id; [|unfold is_u32]; Z.div_mod_to_equations; lia. }
  replace (Z.of_nat n + 1 >? 1) with true by lia. rewrite bind_assoc, run_se_write, bind_assoc, (run_bind _ _ _ _ _ (trigger_blocking_run _ _ _ _)), !w_se_update.
  replace (Z.of_nat n + 1 - 2) with (Z.of_nat n - 1) by lia. rewrite (slice_all data) by lia.
  destruct (mac_start_run slot n data w2 h1) as (Eu & Ek & Ec & Ey); [done|done|lia|lia|done|done|unfold w2; rewrite !w_se_update; by regs..|].
  cbv zeta in Eu, Ek, Ec, Ey. set (h2 := fst (run_op OP_START None (Some data) _)) in *. rewrite Hk in *.
  unfold se_read. rewrite bind_assoc, run_gets, !run_se_write, (run_bind _ _ _ _ _ (trigger_blocking_run _ _ _ _)), !w_se_update. cbv beta.
  rewrite cmac_last_block_full by done. set (last := xor_bytes _ _).
  assert (is_block last) as Hlast.
  { apply is_block_xor; [split; [rewrite length_drop; lia|by apply Forall_drop]|]. apply shift_left_xor_rb_block, aes256_encrypt_block; [apply slot_key256_ok|apply zeros_block]. }
  destruct (mac_end_run slot last h2 Hs Hlast Ec Ey) as (Hh & Hk2). cbv zeta in Hh, Hk2. eexists. split.
  - unfold gets. rewrite w_se_update. change (0x10 >>. 2) with 4. fold (hash_words (fst (run_op OP_START None (Some last) (hw_write BLOCK_COUNT_REG 0 (hw_write CRYPTO_REG (se_regs h2 CRYPTO_REG .| 0x80) h2))))).
    rewrite Hh, Eu, Ek. reflexivity.
  - by rewrite Hk2, Ek.
Qed.
End Runs.
