(* ===== verification/Lp0Props.v ===== *)
(** Deep sleep: what the monitor saves before it, the two programs of the boot
    processor keep and restore, byte for byte; an image that does not check is
    never started. *)
From S2P Require Import Prelude State Utils Se Engine SeProps Power PageProps KeyProps ConfigProps Platform Sc7Fw Lp0 Sleep.
Import SE.

(** ** The devices during the wake-up *)

(** The registers that keep the CMAC during sleep. *)
Definition mac_reg (i : Z) : Z := Lp0.PMC_BASE + 0xB18 + 4 * i.
Definition is_mac_reg (a : Z) : bool := existsb (fun i => mac_reg i =? a) (range 4).
(** The device registers after so many reads of a status register. *)
Definition after `{SoC} (k : nat) (m : Z -> Z) : Z -> Z := Nat.iter k (soc_wait 0) m.

(** The devices answer what they are asked, within the polls of the model; the
    registers of the CMAC change only by stores. *)
Class WakeHardware (soc : SoC) := {
  wait_keeps_macs us m a : is_mac_reg a = true -> soc_wait us m a = m a;
  i2c_config_loads m : m Lp0.I2C_I2C_CONFIG_LOAD_0 = 1 ->
    exists k, (k < soc_fuel)%nat /\ after k m Lp0.I2C_I2C_CONFIG_LOAD_0 .& 1 = 0;
  i2c_transfer_ends m j : m Lp0.I2C_I2C_CNFG_0 .& 0x200 <> 0 ->
    exists k, (k < soc_fuel)%nat /\ after k (after j m) Lp0.I2C_I2C_STATUS_0 .& 0x100 = 0;
  i2c_transfer_acked m j : m Lp0.I2C_I2C_CNFG_0 .& 0x200 <> 0 ->
    exists k, (k < soc_fuel)%nat /\ after k (after j m) Lp0.I2C_I2C_STATUS_0 .& 0xF = 0;
  partition_powers m mask toggle : (mask, toggle) ∈ [(1, 0x100); (0x8000, 0x10F); (0x4000, 0x10E)] ->
    m Lp0.APBDEV_PMC_PWRGATE_TOGGLE_0 = toggle ->
    exists k, (k < soc_fuel)%nat /\ after k m Lp0.APBDEV_PMC_PWRGATE_STATUS_0 .& mask <> 0;
  clamp_opens m mask : m Lp0.APBDEV_PMC_REMOVE_CLAMPING_CMD_0 = mask ->
    exists k, (k < soc_fuel)%nat /\ after k m Lp0.APBDEV_PMC_CLAMP_STATUS_0 .& mask = 0;
  ram_repairs m : m Lp0.FLOW_CTLR_RAM_REPAIR_0 = 1 ->
    exists k, (k < soc_fuel)%nat /\ after k m Lp0.FLOW_CTLR_RAM_REPAIR_0 .& 2 <> 0 }.

(** What the programs of the boot processor must keep for the image. *)
Definition kept (w w' : World) : Prop :=
  w_se w' = w_se w /\ w_phys w' = w_phys w /\ forall i, 0 <= i < 4 -> w_mmio w' (mac_reg i) = w_mmio w (mac_reg i).
#[export] Instance kept_preorder : PreOrder kept.
Proof.
  split; [by split|]. intros x y z (A1 & A2 & A3) (B1 & B2 & B3). split; [congruence|]. split; [congruence|].
  intros i Hi. by rewrite B3, A3.
Qed.
Lemma mac_reg_spec a : is_mac_reg a = false -> forall i, 0 <= i < 4 -> mac_reg i <> a.
Proof.
  intros H i Hi E. apply not_true_iff_false in H. apply H, existsb_exists. exists i.
  split; [by apply list_elem_of_In, elem_of_range|by apply Z.eqb_eq].
Qed.

(** ** Programs that end *)

(** [ends R m]: [m] returns, and the states are related by [R]. *)
Definition ends {A} (R : World -> World -> Prop) (m : M A) : Prop := forall w, exists a w', m w = (Ret a, w') /\ R w w'.

Section Ends.
Context (R : World -> World -> Prop) {HR : PreOrder R}.
Lemma ends_ret {A} (a : A) : ends R (mret a).
Proof. intros w. by exists a, w. Qed.
Lemma ends_gets {A} (f : World -> A) : ends R (gets f).
Proof. intros w. by exists (f w), w. Qed.
Lemma ends_modify f : (forall w, R w (f w)) -> ends R (modify f).
Proof. intros H w. by exists tt, (f w). Qed.
Lemma ends_bind {A B} (m : M A) (f : A -> M B) : ends R m -> (forall a, ends R (f a)) -> ends R (m ≫= f).
Proof.
  intros Hm Hf w. destruct (Hm w) as (a & w1 & E1 & R1). destruct (Hf a w1) as (b & w2 & E2 & R2). exists b, w2.
  rewrite (run_bind _ _ _ _ _ E1). split; [done|by etransitivity].
Qed.
Lemma ends_for_each {A} (l : list A) body : (forall x, x ∈ l -> ends R (body x)) -> ends R (for_each l body).
Proof.
  induction l as [|x l IH]; intros H; cbn [for_each]; [apply ends_ret|]. apply ends_bind; [apply H; left|].
  intros _. apply IH. intros y Hy. apply H. by right.
Qed.
End Ends.

Lemma kept_write a v w : is_mac_reg a = false -> kept w (w <| w_mmio ::= fun m => upd m a v |>).
Proof. intros H. split; [done|]. split; [done|]. intros i Hi. cbn. apply upd_ne. by apply mac_reg_spec. Qed.

Section Wake.
Context {soc : SoC} {HW : WakeHardware soc}.

Lemma ends_write a v : is_mac_reg a = false -> ends kept (reg_write a v).
Proof. intros H. apply ends_modify. intros w. by apply kept_write. Qed.
Lemma ends_update a f : is_mac_reg a = false -> ends kept (reg_update a f).
Proof. intros H. apply ends_bind; [typeclasses eauto| |intros v; by apply ends_write]. unfold reg_read. apply ends_gets. typeclasses eauto. Qed.
Lemma kept_waited us w : kept w (w <| w_mmio ::= soc_wait us |>).
Proof.
  split; [done|]. split; [done|]. intros i Hi. cbn. apply wait_keeps_macs. apply existsb_exists. exists i.
  split; [by apply list_elem_of_In, elem_of_range|by apply Z.eqb_eq].
Qed.
Lemma ends_wait us : ends kept (wait us).
Proof. apply ends_modify. intros w. apply kept_waited. Qed.
Lemma kept_after k w : kept w (w <| w_mmio ::= after k |>).
Proof.
  unfold after. induction k as [|k IH]; [by destruct w|]. etransitivity; [exact IH|]. exact (kept_waited 0 (w <| w_mmio ::= after k |>)).
Qed.

Lemma after_S k m : after k (soc_wait 0 m) = after (S k) m.
Proof. unfold after. symmetry. apply Nat.iter_succ_r. Qed.

(** A poll ends when the register gets the value within its reads. *)
Lemma poll_loop_run fuel k a cond w : (k < fuel)%nat -> cond (after k (w_mmio w) a) = true ->
  exists j, poll_loop fuel a cond w = (Ret tt, w <| w_mmio ::= after j |>).
Proof.
  revert k w. induction fuel as [|fuel IH]; intros k w Hk Hc; [lia|]. cbn [poll_loop]. unfold reg_read. rewrite run_gets.
  destruct (cond (w_mmio w a)) eqn:E; [exists 0%nat; by destruct w|]. destruct k as [|k]; [cbn in Hc; congruence|].
  unfold wait. rewrite run_modify. destruct (IH k (w <| w_mmio ::= soc_wait 0 |>)) as (j & Hj); [lia|by rewrite <- after_S in Hc|].
  exists (S j). rewrite Hj. f_equal. change (w <| w_mmio := after j (soc_wait 0 (w_mmio w)) |> = w <| w_mmio := after (S j) (w_mmio w) |>). by rewrite after_S.
Qed.
Lemma poll_run a cond w : (exists k, (k < soc_fuel)%nat /\ cond (after k (w_mmio w) a) = true) ->
  exists j, poll_reg a cond w = (Ret tt, w <| w_mmio ::= after j |>).
Proof. intros (k & Hk & Hc). by apply (poll_loop_run _ k). Qed.
(** A store that asks for the value a poll then waits for. *)
Lemma ends_ask a v b cond : is_mac_reg a = false -> (forall m, m a = v -> exists k, (k < soc_fuel)%nat /\ cond (after k m b) = true) ->
  ends kept (reg_write a v ;; poll_reg b cond).
Proof.
  intros Ha H w. unfold reg_write. rewrite run_modify. destruct (poll_run b cond (w <| w_mmio ::= fun m => upd m a v |>)) as (j & ->); [apply H; apply upd_eq|].
  eexists _, _. split; [done|]. etransitivity; [by apply (kept_write a v)|apply kept_after].
Qed.
Lemma test_zero v mask : v .& mask = 0 -> (v .& mask =? 0) = true.
Proof. intros ->. done. Qed.
Lemma test_nonzero v mask : v .& mask <> 0 -> negb (v .& mask =? 0) = true.
Proof. intros H. by apply negb_true_iff, Z.eqb_neq. Qed.

Lemma ends_bind_assoc {A B C} (m : M A) (f : A -> M B) (g : B -> M C) : ends kept ((m ≫= f) ≫= g) -> ends kept (m ≫= fun a => f a ≫= g).
Proof. intros H w. destruct (H w) as (c & w' & E & Hk). exists c, w'. by rewrite <- bind_assoc. Qed.

Create HintDb ends.
(** Splits along the program; a store to one of the four registers is not allowed. *)
Ltac ends_step :=
  match goal with
  | |- ends _ (reg_write _ _) => apply ends_write; reflexivity
  | |- ends _ (reg_update _ _) => apply ends_update; reflexivity
  | |- ends _ (reg_read _) => apply ends_gets; typeclasses eauto
  | |- ends _ (wait _) => apply ends_wait
  | |- ends _ (Lp0.timer_wait _) => apply ends_wait
  | |- ends _ (mret _) => apply ends_ret; typeclasses eauto
  | |- ends _ (if ?b then _ else _) => destruct b
  | |- ends _ (let '_ := ?b in _) => destruct b
  | |- ends _ (mbind _ _) => apply ends_bind; [typeclasses eauto| |intros]
  | _ => solve [eauto 2 with ends nocore]
  end.
Ltac solve_ends := repeat (cbv zeta; ends_step).

Lemma ends_config_load : ends kept Lp0.i2c_set_test_master_config_load.
Proof.
  apply ends_ask; [done|]. intros m Hm. destruct (i2c_config_loads m Hm) as (k & Hk & E). exists k. split; [done|by apply test_zero].
Qed.
Lemma ends_i2c_write device val n : ends kept (Lp0.i2c_write device val n).
Proof.
  unfold Lp0.i2c_write. destruct (n >? 4); [solve_ends|]. do 3 (apply ends_bind; [typeclasses eauto|by apply ends_write|intros _]).
  apply ends_bind; [typeclasses eauto|apply ends_config_load|intros _]. intros w. unfold reg_write. rewrite run_modify. set (w1 := update _ _ w).
  assert (w_mmio w1 Lp0.I2C_I2C_CNFG_0 .& 0x200 <> 0) as Hc.
  { change (w_mmio w1 Lp0.I2C_I2C_CNFG_0) with (u32 ((n <<. 1) - 2) .| 0x2800 .| 0x200). rewrite Z.land_comm, Z.land_lor_distr_r, Z.lor_comm.
    change (0x200 .& 0x200) with 0x200. intros E. apply Z.lor_eq_0_iff in E as [E _]. done. }
  destruct (poll_run Lp0.I2C_I2C_STATUS_0 (fun v => v .& 0x100 =? 0) w1) as (j & Hj).
  { destruct (i2c_transfer_ends (w_mmio w1) 0 Hc) as (k & Hk & E). exists k. split; [done|by apply test_zero]. }
  rewrite (run_bind _ _ _ _ _ Hj). destruct (poll_run Lp0.I2C_I2C_STATUS_0 (fun v => v .& 0xF =? 0) (w1 <| w_mmio ::= after j |>)) as (j2 & ->).
  { destruct (i2c_transfer_acked (w_mmio w1) j Hc) as (k & Hk & E). exists k. split; [done|by apply test_zero]. }
  eexists _, _. split; [done|]. etransitivity; [|apply kept_after]. etransitivity; [|apply kept_after]. by apply (kept_write Lp0.I2C_I2C_CNFG_0).
Qed.
Lemma ends_enable_pmic : ends kept Lp0.i2c_enable_pmic.
Proof. apply ends_i2c_write. Qed.
#[local] Hint Resolve ends_enable_pmic : ends.
Lemma ends_ram_repair : ends kept Lp0.flow_perform_ram_repair.
Proof.
  unfold Lp0.flow_perform_ram_repair. apply ends_bind; [typeclasses eauto|apply ends_gets; typeclasses eauto|intros v]. destruct (negb _); [solve_ends|].
  apply ends_ask; [done|]. intros m Hm. destruct (ram_repairs m Hm) as (k & Hk & E). exists k. split; [done|by apply test_nonzero].
Qed.
Lemma ends_unclamp mask : ends kept (reg_write Lp0.APBDEV_PMC_REMOVE_CLAMPING_CMD_0 mask ;; poll_reg Lp0.APBDEV_PMC_CLAMP_STATUS_0 (fun v => v .& mask =? 0)).
Proof.
  apply ends_ask; [done|]. intros m Hm. destruct (clamp_opens m mask Hm) as (k & Hk & E). exists k. split; [done|by apply test_zero].
Qed.
Lemma ends_partition mask toggle : (0 < soc_fuel)%nat -> (mask, toggle) ∈ [(1, 0x100); (0x8000, 0x10F); (0x4000, 0x10E)] ->
  ends kept (Lp0.cluster_pmc_enable_partition mask toggle).
Proof.
  intros Hf Hin w. unfold Lp0.cluster_pmc_enable_partition, reg_read at 1. rewrite run_gets.
  set (w1 := if w_mmio w Lp0.APBDEV_PMC_PWRGATE_STATUS_0 .& mask =? 0 then w <| w_mmio ::= fun m => upd m Lp0.APBDEV_PMC_PWRGATE_TOGGLE_0 toggle |> else w).
  rewrite (run_bind _ _ _ tt w1) by (unfold w1; by destruct (_ =? 0)).
  destruct (poll_run Lp0.APBDEV_PMC_PWRGATE_STATUS_0 (fun v => negb (v .& mask =? 0)) w1) as (j & Hj).
  { unfold w1. destruct (Z.eqb_spec (w_mmio w Lp0.APBDEV_PMC_PWRGATE_STATUS_0 .& mask) 0) as [E|E].
    - destruct (partition_powers (upd (w_mmio w) Lp0.APBDEV_PMC_PWRGATE_TOGGLE_0 toggle) mask toggle Hin) as (k & Hk & E'); [apply upd_eq|].
      exists k. split; [done|by apply test_nonzero].
    - exists 0%nat. split; [done|by apply test_nonzero]. }
  rewrite (run_bind _ _ _ _ _ Hj). destruct (ends_unclamp mask (w1 <| w_mmio ::= after j |>)) as (u & w' & -> & Hk). exists u, w'. split; [done|].
  etransitivity; [|exact Hk]. etransitivity; [|apply kept_after]. unfold w1. destruct (_ =? 0); [by apply kept_write|done].
Qed.

Lemma ends_cluster_clocks : ends kept Lp0.cluster_clocks_on.
Proof. unfold Lp0.cluster_clocks_on. solve_ends. Qed.
Lemma ends_initialize_cpu : (0 < soc_fuel)%nat -> ends kept Lp0.cluster_initialize_cpu.
Proof.
  intros Hf. unfold Lp0.cluster_initialize_cpu. apply ends_bind; [typeclasses eauto|apply ends_cluster_clocks|intros _].
  apply ends_bind; [typeclasses eauto|apply ends_partition; [done|set_solver]|intros _].
  apply ends_bind; [typeclasses eauto|by apply ends_write|intros _]. apply ends_bind_assoc.
  apply ends_bind; [typeclasses eauto|apply ends_unclamp|intros _].
  do 4 (apply ends_bind; [typeclasses eauto|first [apply ends_wait|by apply ends_write]|intros _]).
  apply ends_bind; [typeclasses eauto|apply ends_ram_repair|intros _].
  apply ends_bind; [typeclasses eauto|apply ends_partition; [done|set_solver]|intros _]. solve_ends.
Qed.
Lemma ends_mbist : ends kept Lp0.car_mbist_workaround.
Proof.
  unfold Lp0.car_mbist_workaround. change (range 7) with [0; 1; 2; 3; 4; 5; 6]. cbn [for_each]. solve_ends.
Qed.
#[local] Hint Resolve ends_mbist ends_initialize_cpu : ends.
Definition meta_ok (meta : Lp0.warmboot_metadata_t) : Prop :=
  Lp0.meta_magic meta = Lp0.WARMBOOT_MAGIC /\ Lp0.meta_target_firmware meta <= Lp0.ATMOSPHERE_TARGET_FIRMWARE_MAX.
Lemma ends_prepare meta : (0 < soc_fuel)%nat -> meta_ok meta -> ends kept (Lp0.lp0_prepare meta).
Proof.
  intros Hf [Hm Hfw]. unfold Lp0.lp0_prepare. rewrite Hm, Z.eqb_refl. replace (_ >? _) with false by lia. cbn [negb orb].
  unfold Lp0.disable_bpmp_access_to_dram, Lp0.misc_configure_device_dbg_settings, Lp0.fuse_check_downgrade_status, Lp0.fuse_configure_fuse_bypass,
    Lp0.car_configure_oscillators, Lp0.misc_restore_ram_svop, Lp0.emc_configure_pmacro_training, Lp0.g_fuse_bypass_entries. cbn [for_each].
  solve_ends.
Qed.
End Wake.

(** ** Going to sleep *)

Section Asleep.
Context {soc : SoC} {HW : WakeHardware soc}.

Lemma keeps_write a v : is_mac_reg a = false -> keeps kept (reg_write a v).
Proof. intros H w. by apply kept_write. Qed.
Lemma keeps_update a f : is_mac_reg a = false -> keeps kept (reg_update a f).
Proof. intros H w. by apply (kept_write a). Qed.
Lemma keeps_bpmp_wait us : keeps kept (wait us).
Proof. intros w. apply kept_waited. Qed.
Lemma keeps_poll a cond : keeps kept (poll_reg a cond).
Proof.
  unfold poll_reg. induction soc_fuel as [|n IH]; cbn [poll_loop]; [apply keeps_spin; typeclasses eauto|].
  apply keeps_bind; [typeclasses eauto|apply keeps_gets; typeclasses eauto|intros v]. destruct (cond v); [apply keeps_ret; typeclasses eauto|].
  apply keeps_bind; [typeclasses eauto|apply keeps_bpmp_wait|intros _; apply IH].
Qed.
Lemma keeps_wait_for n us a cond : keeps kept (Sc7Fw.wait_for n us a cond).
Proof.
  induction n as [|n IH]; cbn [Sc7Fw.wait_for]; [apply keeps_ret; typeclasses eauto|].
  apply keeps_bind; [typeclasses eauto|apply keeps_bpmp_wait|intros _].
  apply keeps_bind; [typeclasses eauto|apply keeps_gets; typeclasses eauto|intros v]. destruct (cond v); [apply keeps_ret; typeclasses eauto|apply IH].
Qed.
Lemma keeps_reboot {A} : keeps kept (Sc7Fw.reboot : M A).
Proof. apply keeps_bind; [typeclasses eauto|by apply keeps_write|intros _; apply keeps_raise_panic; typeclasses eauto]. Qed.
Ltac keeps_sc7 := repeat (cbv zeta;
  match goal with
  | |- keeps _ (reg_write _ _) => apply keeps_write; reflexivity
  | |- keeps _ (reg_update _ _) => apply keeps_update; reflexivity
  | |- keeps _ (reg_read _) => apply keeps_gets; typeclasses eauto
  | |- keeps _ (poll_reg _ _) => apply keeps_poll
  | |- keeps _ (Sc7Fw.timer_wait _) => apply keeps_bpmp_wait
  | |- keeps _ (Sc7Fw.spinlock_wait _) => apply keeps_bpmp_wait
  | |- keeps _ (Sc7Fw.wait_for _ _ _ _) => apply keeps_wait_for
  | |- keeps _ Sc7Fw.reboot => apply keeps_reboot
  | |- keeps _ spin => apply keeps_spin; typeclasses eauto
  | |- keeps _ (mret _) => apply keeps_ret; typeclasses eauto
  | |- keeps _ (if ?b then _ else _) => destruct b
  | |- keeps _ (mbind _ _) => apply keeps_bind; [typeclasses eauto| |intros]
  | |- keeps _ (for_each _ _) => cbn [for_each]
  | |- keeps _ ?m => let rec head t := match t with ?f _ => head f | _ => t end in let h := head m in unfold h
  end).
(** However far it gets, sc7fw keeps the image, its key and its CMAC. *)
Lemma sc7_entry_main_keeps : keeps kept Sc7Fw.sc7_entry_main.
Proof. unfold Sc7Fw.sc7_entry_main. keeps_sc7. Qed.
End Asleep.

(** ** Waking up *)

(** The key of the image and everything but the engine stay. *)
Definition key_kept (w w' : World) : Prop :=
  w_phys w' = w_phys w /\ w_mmio w' = w_mmio w /\ slot_key256 (w_se w') 2 = slot_key256 (w_se w) 2.
#[export] Instance key_kept_preorder : PreOrder key_kept.
Proof. split; [by split|]. intros x y z (A1 & A2 & A3) (B1 & B2 & B3). split; [congruence|]. split; congruence. Qed.

Section Restore.
Context {soc : SoC}.

Lemma ends_clear_slot slot : 0 <= slot < 16 -> slot <> 2 -> ends key_kept (Lp0.clear_aes_keyslot slot).
Proof.
  intros Hs Hne w. unfold Lp0.clear_aes_keyslot, KEYSLOT_AES_MAX. replace (slot >=? 16) with false by lia.
  destruct (keytable_zero_run (range 16) (fun i => (slot <<. 4) .| i) (fun _ => 0) w) as (h' & -> & _ & Hk); [done|].
  eexists _, _. split; [done|]. split; [done|]. split; [done|]. apply slot_words_ext. intros i Hi. cbn. rewrite Hk.
  replace (existsb _ _) with false; [done|]. symmetry. apply not_true_iff_false.
  intros (j & Hj%list_elem_of_In%elem_of_range & E)%existsb_exists. rewrite slot_address in E by done. lia.
Qed.
Lemma ends_clear_iv slot : 0 <= slot < 16 -> ends key_kept (Lp0.clear_aes_keyslot_iv slot).
Proof.
  intros Hs w. unfold Lp0.clear_aes_keyslot_iv, KEYSLOT_AES_MAX. replace (slot >=? 16) with false by lia.
  destruct (keytable_zero_run (range 4) (fun i => (slot <<. 4) .| 8 .| i) (fun _ => 0) w) as (h' & Hr & _ & Hk); [done|].
  eexists _, _. split; [exact Hr|]. split; [done|]. split; [done|]. apply slot_words_ext. intros i Hi. cbn. rewrite Hk.
  replace (existsb _ _) with false; [done|]. symmetry. apply not_true_iff_false.
  intros (j & Hj%list_elem_of_In%elem_of_range & E)%existsb_exists. rewrite iv_address in E by done. lia.
Qed.
Lemma ends_rsa_store a v : ends key_kept (rsa_keytable_store a v).
Proof.
  intros w. eexists _, _. split; [reflexivity|]. split; [done|]. split; [done|]. apply key256_ext. intros x.
  rewrite !w_se_update. by rewrite !hw_write_keytable.
Qed.
Lemma ends_clear_rsa slot : 0 <= slot < 2 -> ends key_kept (Lp0.clear_rsa_keyslot slot).
Proof.
  intros Hs. unfold Lp0.clear_rsa_keyslot, KEYSLOT_RSA_MAX. replace (slot >=? 2) with false by lia.
  apply ends_bind; [typeclasses eauto| |intros _]; (apply ends_for_each; [typeclasses eauto|]); intros i _; apply ends_rsa_store.
Qed.
Lemma ends_clear_unused : ends key_kept Lp0.secmon_clear_unused_keyslots.
Proof.
  unfold Lp0.secmon_clear_unused_keyslots, KEYSLOT_AES_MAX, KEYSLOT_RSA_MAX. apply ends_bind; [typeclasses eauto| |intros _].
  - apply ends_for_each; [typeclasses eauto|]. intros i Hi%elem_of_range. apply ends_bind; [typeclasses eauto| |intros _; by apply ends_clear_iv].
    destruct (Lp0.secmon_should_clear_aes_keyslot i) eqn:E; [|apply ends_ret; typeclasses eauto]. apply ends_clear_slot; [done|]. intros ->. done.
  - apply ends_for_each; [typeclasses eauto|]. intros i Hi%elem_of_range. by apply ends_clear_rsa.
Qed.
End Restore.

(** The image: its length in blocks, where it is saved, and where it runs. *)
Definition image_blocks : nat := Z.to_nat 0xE00.
Definition tzram_pa (fw : Z) : Z := if fw >=? ATMOSPHERE_TARGET_FIRMWARE_500 then 0x7C012000 else 0x7C010000.
Definition image (w : World) (pa : Z) : list Z := phys_read_bytes (w_phys w) pa (Z.to_nat 0xE000).
Definition phys_ok (w : World) : Prop := forall a, is_u8 (w_phys w a).

Lemma image_size : exists n, image_blocks = S n /\ (0 < n)%nat /\ 0xE000 = Z.of_nat (16 * S n) /\ Z.of_nat (16 * S n) < 2 ^ 32.
Proof. exists (Z.to_nat 0xDFF). unfold image_blocks. split; [lia|]. split; [lia|]. split; lia. Qed.
Lemma image_length : (16 * image_blocks)%nat = Z.to_nat 0xE000.
Proof. unfold image_blocks. lia. Qed.
Lemma tz_image_ok w pa : phys_ok w -> length (image w pa) = (16 * image_blocks)%nat /\ is_bytes (image w pa).
Proof.
  intros Hw. unfold image, image_blocks. rewrite phys_read_at. split.
  - rewrite length_map. unfold range. rewrite length_seqZ. lia.
  - apply Forall_map, Forall_true. intros i. apply Hw.
Qed.
Lemma length_phys_read mem pa n : length (phys_read_bytes mem pa n) = n.
Proof. revert pa. induction n as [|n IH]; intros pa; cbn [phys_read_bytes length]; auto. Qed.
Lemma phys_read_ext mem mem' pa n : (forall a, pa <= a < pa + Z.of_nat n -> mem' a = mem a) -> phys_read_bytes mem' pa n = phys_read_bytes mem pa n.
Proof. intros H. rewrite !phys_read_at. apply map_ext_in. intros i Hi%list_elem_of_In%elem_of_range. apply H. lia. Qed.

#[local] Opaque phys_read_bytes cbc_decrypt cmac image_blocks.
Section Image.
Context {soc : SoC} {HS : SleepEngine soc}.

Definition image_mac (key plain : list Z) : list Z := cmac (aes256_encrypt key) (image_blocks - 1) plain.
(** What the image in memory decrypts to, and whether it checks. *)
Definition plain_image (w : World) : list Z :=
  cbc_decrypt (aes256_decrypt (slot_key256 (w_se w) 2)) image_blocks (zeros 16) (image w 0x80010000).
Definition image_checks (w : World) : bool :=
  forallb (fun i => read32le (image_mac (slot_key256 (w_se w) 2) (plain_image w)) (4 * i) =? w_mmio w (mac_reg i)) (range 4).

Lemma plain_image_ok w : phys_ok w -> length (plain_image w) = (16 * image_blocks)%nat /\ is_bytes (plain_image w).
Proof.
  intros Hw. destruct (tz_image_ok w 0x80010000 Hw) as [Hl Hb]. apply cbc_decrypt_ok; [|apply zeros_block|done|done].
  intros b Hb'. apply aes256_decrypt_block; [apply slot_key256_ok|done].
Qed.

(** The decryption and its check: the image is at the destination, memory is as
    before elsewhere, and a wrong CMAC reboots. *)
Lemma decrypt_saved_image_run dst w : phys_ok w ->
  exists w', Lp0.secmon_decrypt_saved_image dst 0x80010000 0xE000 w = (if image_checks w then Ret tt else Panic 0x10, w') /\
    w_phys w' = phys_write_bytes (w_phys w) dst (plain_image w).
Proof.
  intros Hw. destruct (plain_image_ok w Hw) as [Hpl Hpb]. destruct (tz_image_ok w 0x80010000 Hw) as [Hil Hib].
  pose proof (proj1 (tz_image_ok w dst Hw)) as Hol. unfold Lp0.secmon_decrypt_saved_image, phys_load, image in *. rewrite !run_gets.
  destruct image_size as (n & En & Hn & Es & Hsz). change Sc7.KEYSLOT_SWITCH_LP0TZRAMKEY with 2. rewrite Es in *. rewrite Nat2Z.id in *.
  destruct (cbc_decrypt_256_run 2 (S n) (phys_read_bytes (w_phys w) dst (16 * S n)) (phys_read_bytes (w_phys w) 0x80010000 (16 * S n)) w)
    as (h1 & Hr1 & Hk1); [lia|by rewrite length_phys_read|lia|done|by rewrite !length_phys_read|]. rewrite (run_bind _ _ _ _ _ Hr1). clear Hr1.
  replace (cbc_decrypt _ (S n) (zeros 16) _) with (plain_image w) by (unfold plain_image, image; by rewrite En, Es, Nat2Z.id).
  unfold phys_store. rewrite run_modify, run_gets. set (w1 := update w_phys _ _).
  assert (phys_read_bytes (w_phys w1) dst (16 * S n) = plain_image w) as ->.
  { unfold w1. change (w_phys (update w_phys ?f ?w)) with (f (w_phys w)). cbv beta. rewrite <- (phys_read_write (w_phys w) dst (plain_image w)) at 2.
    by rewrite Hpl, En. }
  destruct (cmac_256_run 2 n (plain_image w) w1) as (h2 & Hr2 & Hk2); [lia|done|by rewrite Hpl, En|done|done|].
  rewrite <- lp0_cmac in Hr2 by lia. rewrite (run_bind _ _ _ _ _ Hr2). unfold reg_read. rewrite !run_gets.
  assert (slot_key256 (w_se w1) 2 = slot_key256 (w_se w) 2) as Ek by exact Hk1. rewrite Ek.
  set (mac := cmac _ n _). assert (mac = image_mac (slot_key256 (w_se w) 2) (plain_image w)) as Em by (unfold image_mac; by rewrite En, Nat.sub_1_r).
  set (w2 := update w_se _ w1). assert (w_mmio w2 = w_mmio w) as Hm by done.
  assert (image_checks w = negb (negb (read32le mac 0 =? w_mmio w (mac_reg 0)) || negb (read32le mac 4 =? w_mmio w (mac_reg 1))
    || negb (read32le mac 8 =? w_mmio w (mac_reg 2)) || negb (read32le mac 12 =? w_mmio w (mac_reg 3)))) as ->.
  { unfold image_checks. rewrite <- Em. change (range 4) with [0; 1; 2; 3]. cbn [forallb]. change (4 * 0) with 0. change (4 * 1) with 4.
    change (4 * 2) with 8. change (4 * 3) with 12. rewrite andb_true_r, !negb_orb, !negb_involutive. by rewrite !andb_assoc. }
  rewrite Hm. change Lp0.APBDEV_PMC_SECURE_SCRATCH112_0 with (mac_reg 0). change Lp0.APBDEV_PMC_SECURE_SCRATCH113_0 with (mac_reg 1).
  change Lp0.APBDEV_PMC_SECURE_SCRATCH114_0 with (mac_reg 2). change Lp0.APBDEV_PMC_SECURE_SCRATCH115_0 with (mac_reg 3).
  destruct (_ || _); cbn [negb].
  - eexists. split; [reflexivity|]. done.
  - unfold reg_write. rewrite !run_modify. unfold Lp0.clear_aes_keyslot, KEYSLOT_AES_MAX. change (2 >=? 16) with false. cbv iota.
    match goal with |- context [for_each _ _ ?w'] => destruct (keytable_zero_run (range 16) (fun i => (2 <<. 4) .| i) (fun _ => 0) w') as (h' & -> & _); [done|] end.
    eexists. split; [reflexivity|done].
Qed.

Lemma phys_write_out mem pa bs a : ~ (pa <= a < pa + Z.of_nat (length bs)) -> phys_write_bytes mem pa bs a = mem a.
Proof. intros H. unfold phys_write_bytes. by replace ((pa <=? a) && (a <? pa + Z.of_nat (length bs))) with false by lia. Qed.
(** The loop that clears the saved image does not touch TZRAM. *)
Lemma clear_saved_run n w : exists w', for_each (range n) (fun i => phys_store (0x80010000 + 4 * i) (le_bytes 4 0)) w = (Ret tt, w') /\
  w_mmio w' = w_mmio w /\ forall a, a < 0x80010000 -> w_phys w' a = w_phys w a.
Proof.
  assert (forall l, (forall i, i ∈ l -> 0 <= i) -> forall w, exists w', for_each l (fun i => phys_store (0x80010000 + 4 * i) (le_bytes 4 0)) w = (Ret tt, w') /\
    w_mmio w' = w_mmio w /\ forall a, a < 0x80010000 -> w_phys w' a = w_phys w a) as H.
  { induction l as [|i l IH]; intros Hl w0; cbn [for_each]; [by exists w0|]. unfold phys_store. rewrite run_modify.
    destruct (IH ltac:(intros j Hj; apply Hl; by right) (w0 <| w_phys ::= fun m => phys_write_bytes m (0x80010000 + 4 * i) (le_bytes 4 0) |>)) as (w' & Hr & Hm & Hp).
    exists w'. split; [exact Hr|]. split; [exact Hm|]. intros a Ha. rewrite Hp by done. apply phys_write_out. specialize (Hl i ltac:(left)). lia. }
  apply H. intros i Hi%elem_of_range. lia.
Qed.
Lemma tzram_pa_below fw a : a < tzram_pa fw + 0xE000 -> a < 0x80010000.
Proof. unfold tzram_pa. destruct (_ >=? _); lia. Qed.

Lemma restore_run fw w : phys_ok w ->
  exists w', Lp0.secmon_restore_to_tzram fw w = (if image_checks w then Ret tt else Panic 0x10, w') /\
    (image_checks w = true -> image w' (tzram_pa fw) = plain_image w).
Proof.
  intros Hw. unfold Lp0.secmon_restore_to_tzram. fold (tzram_pa fw). cbv zeta.
  assert (ends key_kept (if fw >=? ATMOSPHERE_TARGET_FIRMWARE_500 then Lp0.secmon_clear_unused_keyslots else mret tt)) as He.
  { destruct (_ >=? _); [apply ends_clear_unused|apply ends_ret; typeclasses eauto]. }
  destruct (He w) as ([] & w1 & H1 & Ep & Em & Ek). rewrite (run_bind _ _ _ _ _ H1).
  assert (plain_image w1 = plain_image w) as Epl by (unfold plain_image, image; by rewrite Ep, Ek).
  assert (image_checks w1 = image_checks w) as Ech by (unfold image_checks; by rewrite Epl, Ek, Em).
  destruct (decrypt_saved_image_run (tzram_pa fw) w1) as (w2 & H2 & Hp2); [intros a; rewrite Ep; apply Hw|]. rewrite Ech in H2.
  destruct (image_checks w); [|rewrite (run_bind_panic _ _ _ _ _ H2); eexists; split; [reflexivity|discriminate]].
  rewrite (run_bind _ _ _ _ _ H2). destruct (clear_saved_run (0xE000 / 4) w2) as (w3 & H3 & _ & Hp3). rewrite (run_bind _ _ _ _ _ H3).
  unfold Lp0.fuse_disable_programming, reg_write. rewrite run_se_write. eexists. split; [reflexivity|]. intros _.
  destruct (plain_image_ok w Hw) as [Hpl _]. rewrite <- Epl, <- (phys_read_write (w_phys w1) (tzram_pa fw) (plain_image w1)), <- Hp2.
  replace (length (plain_image w1)) with (Z.to_nat 0xE000) by (rewrite Epl, Hpl; symmetry; apply image_length).
  apply phys_read_ext. intros a Ha. apply Hp3, (tzram_pa_below fw). lia.
Qed.

(** What the monitor leaves behind: the encrypted image and its CMAC. *)
Lemma save_tzram_run w : g_has_loaded_config (w_exo w) = true -> phys_ok w ->
  let plain := image w (tzram_pa (target_firmware (g_exosphere_cfg (w_exo w)))) in
  exists w1, Sc7.save_tzram_state w = (Ret tt, w1) /\
    image w1 0x80010000 = cbc_encrypt (aes256_encrypt (slot_key256 (w_se w1) 2)) image_blocks (zeros 16) plain /\
    forall i, 0 <= i < 4 -> w_mmio w1 (PMC_BASE + 0xB18 + 4 * i) = read32le (image_mac (slot_key256 (w_se w1) 2) plain) (4 * i).
Proof.
  intros Hl Hw plain. unfold Sc7.save_tzram_state, Sc7.set_suspend_for_debug. rewrite run_modify. set (w0 := update w_smc _ w).
  rewrite (run_bind _ _ _ _ _ (target_firmware_run w0 Hl)). cbv zeta. change (target_firmware (g_exosphere_cfg (w_exo w0))) with (target_firmware (g_exosphere_cfg (w_exo w))).
  set (fw := target_firmware _) in *. unfold Cpu.clear_priv_smc_in_progress, lock_release. rewrite run_modify. set (wa := update w_smc _ w0).
  change Sc7.KEYSLOT_SWITCH_LP0TZRAMKEY with 2. destruct (random_key_run 2 KEYSLOT_SWITCH_RNGKEY wa) as (h0 & H0); [lia|unfold KEYSLOT_SWITCH_RNGKEY; lia|].
  rewrite (run_bind _ _ _ _ _ H0). set (wb := update w_se _ wa). unfold phys_load. rewrite !run_gets.
  replace (if fw >=? ATMOSPHERE_TARGET_FIRMWARE_500 then Sc7.LP0_CURRENT_TZRAM_PA + 0x2000 else Sc7.LP0_CURRENT_TZRAM_PA) with (tzram_pa fw) by (unfold tzram_pa; by destruct (_ >=? _)).
  change (phys_read_bytes (w_phys wb) (tzram_pa fw) (Z.to_nat Sc7.LP0_TZRAM_SAVE_SIZE)) with plain.
  destruct (tz_image_ok w (tzram_pa fw) Hw) as [Hpl Hpb]. fold plain in Hpl, Hpb. destruct image_size as (n & En & Hn & Es & Hsz).
  unfold Sc7.LP0_TZRAM_SAVE_SIZE. rewrite Es, Nat2Z.id. rewrite En in Hpl.
  destruct (cbc_encrypt_256_run 2 (S n) (phys_read_bytes (w_phys wb) Sc7.LP0_ENCRYPTED_TZRAM_PA (16 * S n)) plain wb) as (h1 & H1 & Hk1);
    [lia|done|lia|done|by rewrite length_phys_read|]. rewrite (run_bind _ _ _ _ _ H1). set (key := slot_key256 (w_se wb) 2) in *. set (enc := cbc_encrypt _ _ _ _).
  assert (length enc = (16 * S n)%nat) as Hel by (apply cbc_encrypt_ok; [intros b Hb; apply aes256_encrypt_block; [apply slot_key256_ok|done]|apply zeros_block|done|done]).
  unfold phys_store. rewrite run_modify, run_gets. set (wc := update w_phys _ _).
  assert (phys_read_bytes (w_phys wc) Sc7.LP0_ENCRYPTED_TZRAM_PA (16 * S n) = enc) as -> by (rewrite <- Hel; apply phys_read_write).
  rewrite run_modify. set (wd := update w_phys _ wc).
  destruct (cmac_256_run 2 n plain wd) as (h2 & H2 & Hk2); [lia|done|done|done|done|]. rewrite (run_bind _ _ _ _ _ H2).
  assert (slot_key256 (w_se wd) 2 = key) as Ek by exact Hk1. rewrite Ek in *. set (mac := cmac _ _ _).
  assert (mac = image_mac key plain) as Em by (unfold image_mac; by rewrite En, Nat.sub_1_r).
  unfold reg_write. rewrite !run_modify. set (we := update w_mmio _ _).
  match goal with |- exists w1, ?m we = _ /\ _ => assert (exists w1, m we = (Ret tt, w1) /\ w_se w1 = w_se we /\ w_phys w1 = w_phys we /\
    forall i, 0 <= i < 4 -> w_mmio w1 (PMC_BASE + 0xB18 + 4 * i) = w_mmio we (PMC_BASE + 0xB18 + 4 * i)) as (w1 & Hr & Hse & Hph & Hmm) end.
  { destruct (fw <? _); [|by exists we]. eexists. split; [reflexivity|]. split; [done|]. split; [done|]. intros i Hi.
    assert (i = 0 \/ i = 1 \/ i = 2 \/ i = 3) as Hc by lia. by repeat destruct Hc as [->|Hc]; try subst i. }
  exists w1. split; [exact Hr|]. assert (slot_key256 (w_se w1) 2 = key) as -> by (rewrite Hse; exact Hk2). split.
  - unfold image. rewrite Hph, En, Es, Nat2Z.id, <- Hel. apply (phys_read_write (w_phys wc) 0x80010000 enc).
  - intros i Hi. rewrite (Hmm i Hi), <- Em. assert (i = 0 \/ i = 1 \/ i = 2 \/ i = 3) as Hc by lia. by repeat destruct Hc as [->|Hc]; try subst i.
Qed.
End Image.

(** ** The whole programs *)

Section Sleep.
Context {soc : SoC} {HS : SleepEngine soc} {HW : WakeHardware soc}.

Lemma fuel_positive : (0 < soc_fuel)%nat.
Proof. destruct (ram_repairs (fun _ => 1) eq_refl) as (k & Hk & _). lia. Qed.
Lemma ends_cpu_partition : ends kept (Lp0.cluster_pmc_enable_partition 0x4000 0x10E).
Proof. apply ends_partition; [apply fuel_positive|set_solver]. Qed.
Lemma kept_image w w' : kept w w' -> plain_image w' = plain_image w /\ image_checks w' = image_checks w.
Proof.
  intros (Es & Ep & Em). assert (plain_image w' = plain_image w) as E by (unfold plain_image, image; by rewrite Es, Ep). split; [done|].
  unfold image_checks. rewrite E, Es. change (range 4) with [0; 1; 2; 3]. cbn [forallb]. by rewrite !Em by lia.
Qed.
Definition halt_val (fw : Z) : Z := if fw >=? ATMOSPHERE_TARGET_FIRMWARE_400 then 0x40000000 else 0x50000000.

Lemma lp0_run meta w : meta_ok meta -> phys_ok w ->
  exists w', Lp0.lp0_entry_main meta w = (if image_checks w then Spin else Panic 0x10, w') /\
    (image_checks w = true ->
      image w' (tzram_pa (Lp0.meta_target_firmware meta)) = plain_image w /\
      w_mmio w' Lp0.CLK_RST_CONTROLLER_RST_CPUG_CMPLX_CLR_0 = 0x10001 /\
      w_mmio w' Lp0.FLOW_CTLR_HALT_COP_EVENTS_0 = halt_val (Lp0.meta_target_firmware meta)).
Proof.
  intros Hm Hw. unfold Lp0.lp0_entry_main. cbv zeta. set (fw := Lp0.meta_target_firmware meta).
  destruct (ends_prepare meta fuel_positive Hm w) as ([] & w1 & H1 & Hk). rewrite (run_bind _ _ _ _ _ H1).
  destruct (kept_image w w1 Hk) as [Epl Ech]. destruct Hk as (_ & Ep & _).
  destruct (restore_run fw w1) as (w2 & H2 & Hi); [intros a; rewrite Ep; apply Hw|]. rewrite Ech, Epl in *.
  destruct (image_checks w); [|rewrite (run_bind_panic _ _ _ _ _ H2); eexists; split; [reflexivity|discriminate]].
  rewrite (run_bind _ _ _ _ _ H2). unfold Lp0.cluster_power_on_cpu. rewrite bind_assoc.
  destruct (ends_cpu_partition w2) as ([] & w3 & H3 & _ & Ep3 & _). rewrite (run_bind _ _ _ _ _ H3).
  unfold reg_write. rewrite !run_modify. eexists. split; [reflexivity|]. intros _. split; [|split; reflexivity].
  rewrite <- (Hi eq_refl). apply phys_read_ext. intros a _. by rewrite <- Ep3.
Qed.


(** The hand-over from the monitor, which names the scratch registers by its
    virtual addresses, to the boot processor, and the time asleep: memory in
    self-refresh, the scratch registers and the engine's key, which the boot ROM
    restores from the saved context, are as they were. *)
Definition handed_over (w1 w2 : World) : Prop :=
  slot_key256 (w_se w2) 2 = slot_key256 (w_se w1) 2 /\ image w2 0x80010000 = image w1 0x80010000 /\
  forall i, 0 <= i < 4 -> w_mmio w2 (mac_reg i) = w_mmio w1 (PMC_BASE + 0xB18 + 4 * i).
Definition survived (w2 w3 : World) : Prop :=
  slot_key256 (w_se w3) 2 = slot_key256 (w_se w2) 2 /\ image w3 0x80010000 = image w2 0x80010000 /\
  (forall i, 0 <= i < 4 -> w_mmio w3 (mac_reg i) = w_mmio w2 (mac_reg i)) /\ phys_ok w3.

(** C15: what the monitor has in TZRAM when it goes to sleep is there again, byte for byte, when the core starts: saving returns; whatever sc7fw, the boot processor's program for going to sleep, has done when power goes, and if the key, the saved image and the scratch registers survive the sleep, lp0fw accepts the image, restores all 56 KiB to their place and starts the core. *)
Theorem deep_sleep_round_trip w : g_has_loaded_config (w_exo w) = true -> phys_ok w ->
  let fw := target_firmware (g_exosphere_cfg (w_exo w)) in fw <= ATMOSPHERE_TARGET_FIRMWARE_900 ->
  exists w1, Sc7.save_tzram_state w = (Ret tt, w1) /\
    forall w2 w3, handed_over w1 w2 -> survived (snd (Sc7Fw.sc7_entry_main w2)) w3 ->
    exists w4, Lp0.lp0_entry_main (Lp0.mk_warmboot_metadata Lp0.WARMBOOT_MAGIC fw) w3 = (Spin, w4) /\
      image w4 (tzram_pa fw) = image w (tzram_pa fw) /\ w_mmio w4 Lp0.CLK_RST_CONTROLLER_RST_CPUG_CMPLX_CLR_0 = 0x10001.
Proof.
  intros Hl Hw fw Hfw. destruct (save_tzram_run w Hl Hw) as (w1 & H1 & Hi & Hm). fold fw in Hi, Hm. exists w1. split; [done|].
  intros w2 w3 (A1 & A2 & A3) (B1 & B2 & B3 & B4). destruct (sc7_entry_main_keeps w2) as (K1 & K2 & K3).
  assert (slot_key256 (w_se w3) 2 = slot_key256 (w_se w1) 2) as Ek by (rewrite B1, K1; exact A1).
  assert (image w3 0x80010000 = image w1 0x80010000) as Ei by (rewrite B2, <- A2; unfold image; rewrite K2; reflexivity).
  destruct (tz_image_ok w (tzram_pa fw) Hw) as [Hpl Hpb]. pose proof (slot_key256_ok (w_se w1) 2) as Hkey.
  assert (plain_image w3 = image w (tzram_pa fw)) as Epl.
  { unfold plain_image. rewrite Ei, Ek, Hi. apply cbc_round_trip; [| |apply zeros_block|done|done].
    - intros b Hb. by apply aes256_encrypt_block.
    - intros b Hb. by apply aes256_decrypt_encrypt. }
  assert (image_checks w3 = true) as Hc.
  { apply forallb_forall. intros i Hin%list_elem_of_In%elem_of_range. rewrite Epl, Ek, B3, K3, A3, Hm by done. apply Z.eqb_refl. }
  destruct (lp0_run (Lp0.mk_warmboot_metadata Lp0.WARMBOOT_MAGIC fw) w3) as (w4 & H4 & Hf); [by split|done|]. rewrite Hc in *. exists w4.
  destruct (Hf eq_refl) as (F1 & F2 & _). split; [exact H4|]. rewrite <- Epl. split; [exact F1|exact F2].
Qed.
End Sleep.

(** ** A concrete platform *)

(** XOR with half of the key as cipher, and devices that answer at once. *)
Module Night.
Import Toy.

Definition cipher256 (key block : list Z) : list Z := xor_bytes block (take 16 key).
Definition put_iv (t : Z -> Z) (slot : Z) (mac : list Z) : Z -> Z :=
  fun a => if (16 * slot + 12 <=? a) && (a <? 16 * slot + 16) then byte_at (words32 4 mac) (a - (16 * slot + 12)) else t a.
Definition night_engine (op : Z) (input output : se_ll) (h : se_hw) : se_hw * list Z :=
  let cfg := se_regs h CONFIG_REG in
  let slot := crypto_slot h in
  let f := cipher256 (slot_key256 h slot) in
  let data := ll_bytes input in
  let h1 := h <| se_regs ::= done_status |> in
  if cfg =? CONFIG_ENC_256 then
    (h1, if se_regs h CRYPTO_REG .& 0xFFFF =? 0x100 then f data else cbc_encrypt f (length data / 16) (slot_iv h slot) data)
  else if cfg =? CONFIG_DEC_256 then (h1, cbc_decrypt f (length data / 16) (slot_iv h slot) data)
  else if cfg =? CONFIG_MAC_256 then
    let iv := if Z.testbit (se_regs h CRYPTO_REG) 7 then updated_iv h slot else slot_iv h slot in
    let mac := cbc_mac f (Z.to_nat (se_regs h BLOCK_COUNT_REG + 1)) iv data in
    (h1 <| se_regs ::= fun r => put_words r HASH_RESULT_REG (words32 4 mac) |> <| aes_keytable ::= fun t => put_iv t slot mac |>, [])
  else (h1, []).
Definition night_wait (us : Z) (m : Z -> Z) : Z -> Z := fun a =>
  if a =? Lp0.I2C_I2C_CONFIG_LOAD_0 then 0
  else if a =? Lp0.I2C_I2C_STATUS_0 then 0
  else if a =? Lp0.APBDEV_PMC_PWRGATE_STATUS_0 then 0xFFFFFFFF
  else if a =? Lp0.APBDEV_PMC_CLAMP_STATUS_0 then 0
  else if a =? Lp0.FLOW_CTLR_RAM_REPAIR_0 then 3
  else m a.
#[export] Instance night_soc : SoC := {|
  se_engine := night_engine; soc_wait := night_wait; soc_fuel := 2%nat; uninit_buf := fun n => replicate (Z.to_nat n) 0;
  rebootstub_bin := []; sc7fw_bin := []; ATMOSPHERE_RELEASE_VERSION_HASH := 0 |}.

Lemma cipher256_block k b : is_key256 k -> is_block b -> is_block (cipher256 k b).
Proof. intros [Hk1 Hk2] Hb. apply is_block_xor; [done|]. split; [rewrite length_take; lia|by apply Forall_take]. Qed.
Lemma crypto_fields slot low : 0 <= slot < 16 -> 0 <= low < 2 ^ 16 ->
  let r := u32 ((slot <<. 24) .| low) in (r >>. 24) .& 0xF = slot /\ r .& 0xFFFF = low /\ forall i, 0 <= i < 16 -> Z.testbit r i = Z.testbit low i.
Proof.
  intros Hs Hl. cbv zeta. assert ((slot <<. 24) .| low = slot * 2 ^ 24 + low) as E by (apply lor_shiftl_add; lia).
  rewrite u32_id by (rewrite E; unfold is_u32; lia). split; [|split].
  - rewrite E, Z.shiftr_div_pow2 by lia. rewrite Z.div_add_l, (Z.div_small low) by lia. rewrite Z.add_0_r. change 0xF with (Z.ones 4). rewrite Z.land_ones by lia. by apply Z.mod_small.
  - rewrite E. change 0xFFFF with (Z.ones 16). rewrite Z.land_ones by lia. replace (slot * 2 ^ 24 + low) with (low + slot * 2 ^ 8 * 2 ^ 16) by lia.
    rewrite Z_mod_plus_full. by apply Z.mod_small.
  - intros i Hi. rewrite Z.lor_spec, Z.shiftl_spec_low by lia. done.
Qed.
Lemma slot_of h slot low : 0 <= slot < 16 -> 0 <= low < 2 ^ 16 -> se_regs h CRYPTO_REG = u32 ((slot <<. 24) .| low) -> crypto_slot h = slot.
Proof. intros Hs Hl E. unfold crypto_slot. rewrite E. by apply crypto_fields. Qed.
Lemma chained_crypto slot (chained : bool) : 0 <= slot < 16 ->
  u32 ((slot <<. 24) .| (if chained then 0x1C5 else 0x145)) = u32 ((slot <<. 24) .| 0x145) .| (if chained then 0x80 else 0).
Proof.
  intros Hs. destruct chained; [|by rewrite Z.lor_0_r].
  assert (forallb (fun s => u32 ((s <<. 24) .| 0x1C5) =? u32 ((s <<. 24) .| 0x145) .| 0x80) (range 16) = true) as H by (vm_compute; reflexivity).
  rewrite forallb_forall in H. apply Z.eqb_eq, H, list_elem_of_In, elem_of_range. done.
Qed.
Lemma mac_words mac : is_block mac -> (range 4 ≫= fun i => le_bytes 4 (byte_at (words32 4 mac) i)) = mac.
Proof.
  intros [Hl Hb]. change (range 4) with (range (Z.of_nat (length (words32 4 mac)))). rewrite (bind_range_nth (le_bytes 4)). by apply words32_bytes.
Qed.
Lemma night_mac h slot n b (chained : bool) : 0 <= slot < 16 -> se_regs h CONFIG_REG = CONFIG_MAC_256 ->
  se_regs h CRYPTO_REG = u32 ((slot <<. 24) .| 0x145) .| (if chained then 0x80 else 0) ->
  se_regs h BLOCK_COUNT_REG = u32 (Z.of_nat n - 1) -> (16 * n <= length b)%nat -> (0 < n)%nat -> Z.of_nat n < 2 ^ 32 -> is_bytes b ->
  let h' := fst (night_engine OP_START (ll_buf b) ll_null h) in
  let iv := if chained then updated_iv h slot else slot_iv h slot in
  let mac := cbc_mac (cipher256 (slot_key256 h slot)) n iv b in
  hash_words h' = mac /\ updated_iv h' slot = mac /\ slot_key256 h' slot = slot_key256 h slot.
Proof.
  intros Hs E1 E2 E3 Hl Hn Hn32 Hb. rewrite <- chained_crypto in E2 by done.
  assert (crypto_slot h = slot) as Es by (apply (slot_of h slot (if chained then 0x1C5 else 0x145)); [done|by destruct chained|done]).
  assert (Z.testbit (se_regs h CRYPTO_REG) 7 = chained) as Et.
  { rewrite E2. destruct (crypto_fields slot (if chained then 0x1C5 else 0x145) Hs) as (_ & _ & Hb7); [by destruct chained|]. rewrite Hb7 by lia. by destruct chained. }
  cbv zeta. unfold night_engine. rewrite E1, Es, Et, E3, u32_id by (unfold is_u32; lia). change (CONFIG_MAC_256 =? CONFIG_ENC_256) with false.
  change (CONFIG_MAC_256 =? CONFIG_DEC_256) with false. change (CONFIG_MAC_256 =? CONFIG_MAC_256) with true. cbv iota zeta. cbn [ll_bytes].
  replace (Z.to_nat (Z.of_nat n - 1 + 1)) with n by lia. set (iv := if chained then _ else _). set (mac := cbc_mac _ _ _ _). cbn [fst].
  assert (is_block mac) as Hmac.
  { apply cbc_mac_block; [intros x Hx; apply cipher256_block; [apply slot_key256_ok|done]| |done|done].
    unfold iv. destruct chained; [apply (slot_words_bytes h slot 12 4)|apply (slot_words_bytes h slot 8 4)]; lia. }
  split; [|split].
  - transitivity (range 4 ≫= fun i => le_bytes 4 (byte_at (words32 4 mac) i)); [|by apply mac_words]. unfold hash_words. apply bind_range_ext. intros i Hi. f_equal.
    change (put_words (done_status (se_regs h)) HASH_RESULT_REG (words32 4 mac) (HASH_RESULT_REG + (i <<. 2)) = byte_at (words32 4 mac) i).
    rewrite Z.shiftl_mul_pow2, Z.mul_comm by lia. apply put_words_at. rewrite length_words32. lia.
  - transitivity (range 4 ≫= fun i => le_bytes 4 (byte_at (words32 4 mac) i)); [|by apply mac_words]. unfold updated_iv, slot_words. apply bind_range_ext. intros i Hi. f_equal.
    change (put_iv (aes_keytable h) slot mac (16 * slot + 12 + i) = byte_at (words32 4 mac) i). unfold put_iv. zdec. f_equal. lia.
  - apply slot_words_ext. intros i Hi. change (put_iv (aes_keytable h) slot mac (16 * slot + 0 + i) = aes_keytable h (16 * slot + 0 + i)).
    unfold put_iv. by zdec.
Qed.
Lemma night_status op i o h : let r := se_regs (fst (night_engine op i o h)) in
  r INT_STATUS_REG = 0x12 /\ r FLAGS_REG = 0 /\ r ERR_STATUS_REG = 0 /\ r CONFIG_REG = se_regs h CONFIG_REG /\ r CRYPTO_REG = se_regs h CRYPTO_REG.
Proof.
  unfold night_engine. destruct (_ =? _); [by repeat split|]. destruct (_ =? _); [by repeat split|]. destruct (_ =? _); [|by repeat split].
  cbv zeta. cbn [fst]. set (mac := cbc_mac _ _ _ _).
  assert (forall a, a < HASH_RESULT_REG \/ HASH_RESULT_REG + 16 <= a -> se_regs
    (update aes_keytable (fun t => put_iv t (crypto_slot h) mac) (update se_regs (fun r => put_words r HASH_RESULT_REG (words32 4 mac)) (h <| se_regs ::= done_status |>))) a
    = done_status (se_regs h) a) as H.
  { intros a Ha. change (put_words (done_status (se_regs h)) HASH_RESULT_REG (words32 4 mac) a = done_status (se_regs h) a). apply put_words_out. exact Ha. }
  rewrite !H by (unfold HASH_RESULT_REG, INT_STATUS_REG, FLAGS_REG, ERR_STATUS_REG, CONFIG_REG, CRYPTO_REG; lia). by repeat split.
Qed.
#[export] Instance night_done : EngineDone night_soc.
Proof.
  split; intros op i o h; destruct (night_status op i o h) as (H1 & H2 & H3 & _); cbn [se_engine night_soc]; [by rewrite H1|by rewrite H2|done].
Qed.
Lemma blocks_of (b : list Z) n : length b = (16 * n)%nat -> (length b / 16)%nat = n.
Proof. intros ->. rewrite Nat.mul_comm. by apply Nat.div_mul. Qed.
#[export] Instance night_sleep : SleepEngine night_soc.
Proof.
  unshelve refine {| aes256_encrypt := cipher256; aes256_decrypt := cipher256 |}.
  - apply cipher256_block.
  - apply cipher256_block.
  - intros k b [Hk _] [Hb _]. apply xor_bytes_involutive. rewrite length_take. lia.
  - intros h slot b o Hs E1 E2 _ Hb. cbn [se_engine night_soc]. unfold night_engine. rewrite E1, (slot_of h slot 0x100 Hs ltac:(lia) E2), E2.
    destruct (crypto_fields slot 0x100 Hs ltac:(lia)) as (_ & -> & _). done.
  - intros h slot n b o Hs E1 E2 _ Hl Hb. cbn [se_engine night_soc]. unfold night_engine. rewrite E1, (slot_of h slot 0x144 Hs ltac:(lia) E2), E2.
    destruct (crypto_fields slot 0x144 Hs ltac:(lia)) as (_ & -> & _). cbn [ll_bytes]. by rewrite (blocks_of b n Hl).
  - intros h slot n b o Hs E1 E2 _ Hl Hb. cbn [se_engine night_soc]. unfold night_engine. rewrite E1, (slot_of h slot 0x66 Hs ltac:(lia) E2). cbn [ll_bytes].
    by rewrite (blocks_of b n Hl).
  - intros op i o h r Hr. destruct (night_status op i o h) as (_ & _ & _ & H4 & H5). by destruct Hr as [->| ->].
  - intros h slot n b chained. apply night_mac.
Defined.
#[export] Instance night_wake : WakeHardware night_soc.
Proof.
  split; cbn [soc_wait soc_fuel night_soc].
  - intros us m a Ha. unfold night_wait. assert (forall b, is_mac_reg b = false -> (a =? b) = false) as H.
    { intros b Hb. apply Z.eqb_neq. intros ->. congruence. }
    by rewrite !H by reflexivity.
  - intros m _. exists 1%nat. split; [lia|done].
  - intros m j _. exists 1%nat. split; [lia|done].
  - intros m j _. exists 1%nat. split; [lia|done].
  - intros m mask toggle Hin _. exists 1%nat. split; [lia|]. change (0xFFFFFFFF .& mask <> 0).
    rewrite !elem_of_cons in Hin. destruct Hin as [[= -> _]|[[= -> _]|[[= -> _]|Hin]]]; [done|done|done|by apply not_elem_of_nil in Hin].
  - intros m mask _. exists 1%nat. split; [lia|done].
  - intros m _. exists 1%nat. split; [lia|done].
Qed.
End Night.
#[local] Existing Instance Night.night_soc.
#[local] Existing Instance Night.night_sleep.
#[local] Existing Instance Night.night_wake.

(** A monitor of 5.0.0 with a pattern in memory. *)
Definition evening : World := (Toy.toy_world 5) <| w_phys := fun a => u8 (7 * a) |>.
Lemma evening_ok : phys_ok evening.
Proof. intros a. apply u8_range. Qed.


(** The registers as the boot processor addresses them. *)
Definition bpmp_view (w : World) : World := w <| w_mmio := fun a => w_mmio w (PMC_BASE + (a - Lp0.PMC_BASE)) |>.
(** Memory of which only the image is kept. *)
Definition only_image (w : World) : World :=
  w <| w_phys := fun a => if (0x80010000 <=? a) && (a <? 0x80010000 + 0xE000) then w_phys w a else 0 |>.
Lemma only_image_ok w : is_bytes (image w 0x80010000) -> phys_ok (only_image w).
Proof.
  intros H a. change (is_u8 (if (0x80010000 <=? a) && (a <? 0x80010000 + 0xE000) then w_phys w a else 0)).
  destruct (_ && _) eqn:E; [|done]. unfold image in H. rewrite phys_read_at in H. unfold is_bytes in H. rewrite Forall_map, Forall_forall in H.
  specialize (H (a - 0x80010000)). cbn in H. rewrite Zplus_minus in H. apply H. apply elem_of_range. lia.
Qed.
Lemma only_image_image w : image (only_image w) 0x80010000 = image w 0x80010000.
Proof.
  apply phys_read_ext. intros a Ha. change ((if (0x80010000 <=? a) && (a <? 0x80010000 + 0xE000) then w_phys w a else 0) = w_phys w a).
  replace ((0x80010000 <=? a) && (a <? 0x80010000 + 0xE000)) with true by lia. reflexivity.
Qed.
Lemma deep_sleep_round_trip_witness : exists w1 w3 w4, Sc7.save_tzram_state evening = (Ret tt, w1) /\
  Lp0.lp0_entry_main (Lp0.mk_warmboot_metadata Lp0.WARMBOOT_MAGIC 5) w3 = (Spin, w4) /\ image w4 (tzram_pa 5) = image evening (tzram_pa 5).
Proof.
  destruct (deep_sleep_round_trip evening eq_refl evening_ok ltac:(cbn; unfold ATMOSPHERE_TARGET_FIRMWARE_900; lia)) as (w1 & H1 & Hw).
  destruct (save_tzram_run evening eq_refl evening_ok) as (w1' & H1' & Hi & _). assert (w1' = w1) as -> by congruence.
  set (w3 := only_image (snd (Sc7Fw.sc7_entry_main (bpmp_view w1)))). destruct (sc7_entry_main_keeps (bpmp_view w1)) as (_ & K2 & _).
  assert (image (snd (Sc7Fw.sc7_entry_main (bpmp_view w1))) 0x80010000 = image w1 0x80010000) as Ei by (unfold image; rewrite K2; reflexivity).
  destruct (Hw (bpmp_view w1) w3) as (w4 & H4 & H5 & _).
  - split; [reflexivity|]. split; [reflexivity|]. intros i Hi'. change (w_mmio w1 (PMC_BASE + (mac_reg i - Lp0.PMC_BASE)) = w_mmio w1 (PMC_BASE + 0xB18 + 4 * i)).
    f_equal. unfold mac_reg. lia.
  - split; [reflexivity|]. split; [apply only_image_image|]. split; [intros; reflexivity|]. apply only_image_ok. rewrite Ei, Hi.
    apply cbc_encrypt_ok; [|apply zeros_block|apply (tz_image_ok evening), evening_ok|apply (tz_image_ok evening), evening_ok].
    intros b Hb. apply aes256_encrypt_block; [apply slot_key256_ok|exact Hb].
  - exists w1, w3, w4. split; [exact H1|]. split; [exact H4|exact H5].
Defined.
