(* ===== verification/LibC.v ===== *)
(** The C library of the monitor (my_libc.c): its memory and string functions,
    in the version for small size, which the Makefile's -Os selects, and in the
    one that works by words.

    Memory is a function from addresses to bytes, and a word is 8 bytes, least
    significant first.  A [while] loop on a string has the distance it may go as
    fuel and is [None] when it has not come to its end; a loop that counts a
    length down is bounded by that length. *)
From S2P Require Import Prelude.

Module LibC.

Definition memory := Z -> Z.
Definition LBLOCKSIZE := 8.
Definition BIGBLOCKSIZE := LBLOCKSIZE <<. 2.

Definition load64 (m : memory) (a : Z) : Z := le_value (map (fun i => m (a + i)) (range 8)).
Fixpoint store_bytes (m : memory) (a : Z) (bs : list Z) : memory :=
  match bs with [] => m | b :: r => store_bytes (upd m a b) (a + 1) r end.
Definition store64 (m : memory) (a v : Z) : memory := store_bytes m a (le_bytes 8 v).

Definition UNALIGNED (x : Z) : bool := negb (x .& (LBLOCKSIZE - 1) =? 0).
Definition UNALIGNED2 (x y : Z) : bool := negb ((x .& (LBLOCKSIZE - 1)) .| (y .& (LBLOCKSIZE - 1)) =? 0).
(** Nonzero if a byte of the word is zero, and if one is that of [mask]. *)
Definition DETECTNULL (x : Z) : Z := u64 (x - 0x0101010101010101) .& not64 x .& 0x8080808080808080.
Definition DETECTCHAR (x mask : Z) : Z := DETECTNULL (x .^ mask).
(** The word of eight times the byte [d], as the loops build it. *)
Definition fill_word (d : Z) : Z :=
  let buffer := (d <<. 8) .| d in
  let buffer := buffer .| (buffer <<. 16) in
  (buffer <<. 32) .| buffer.

(** While [stop] does not hold, [p] moves by [step]. *)
Fixpoint advance (fuel : nat) (stop : Z -> bool) (step p : Z) : option Z :=
  match fuel with
  | O => None
  | S fuel => if stop p then Some p else advance fuel stop step (p + step)
  end.

(** ** Copying *)

(** The loops of byte copies, upwards, and downwards from the ends. *)
Fixpoint copy_bytes (length : nat) (m : memory) (dst src : Z) : memory :=
  match length with O => m | S n => copy_bytes n (upd m dst (m src)) (dst + 1) (src + 1) end.
Fixpoint copy_back (length : nat) (m : memory) (dst src : Z) : memory :=
  match length with O => m | S n => copy_back n (upd m (dst - 1) (m (src - 1))) (dst - 1) (src - 1) end.

(** One word, and both pointers behind it. *)
Definition copy_word (p : memory * Z * Z) : memory * Z * Z :=
  let '(m, dst, src) := p in (store64 m dst (load64 m src), dst + LBLOCKSIZE, src + LBLOCKSIZE).
Fixpoint copy_big (fuel : nat) (p : memory * Z * Z) (length : Z) : memory * Z * Z * Z :=
  match fuel with
  | O => (p, length)
  | S fuel => if length >=? BIGBLOCKSIZE
              then copy_big fuel (copy_word (copy_word (copy_word (copy_word p)))) (length - BIGBLOCKSIZE)
              else (p, length)
  end.
Fixpoint copy_little (fuel : nat) (p : memory * Z * Z) (length : Z) : memory * Z * Z * Z :=
  match fuel with
  | O => (p, length)
  | S fuel => if length >=? LBLOCKSIZE then copy_little fuel (copy_word p) (length - LBLOCKSIZE) else (p, length)
  end.

(** The memory after the call; the result is [dst]. *)
Definition memcpy (m : memory) (dst src len : Z) : memory := copy_bytes (Z.to_nat len) m dst src.
Definition memcpy_words (m : memory) (dst src len : Z) : memory :=
  let '(m, dst, src, len) :=
    if negb (len <? BIGBLOCKSIZE) && negb (UNALIGNED2 src dst)
    then let '(p, len) := copy_big (Z.to_nat len) (m, dst, src) len in copy_little (Z.to_nat len) p len
    else (m, dst, src, len) in
  copy_bytes (Z.to_nat len) m dst src.
Definition memmove (m : memory) (dst src length : Z) : memory :=
  if (src <? dst) && (dst <? src + length) then copy_back (Z.to_nat length) m (dst + length) (src + length)
  else copy_bytes (Z.to_nat length) m dst src.
Definition memmove_words (m : memory) (dst src length : Z) : memory :=
  if (src <? dst) && (dst <? src + length) then copy_back (Z.to_nat length) m (dst + length) (src + length)
  else memcpy_words m dst src length.

(** ** Filling *)

Fixpoint set_bytes (n : nat) (m : memory) (s c : Z) : memory :=
  match n with O => m | S n => set_bytes n (upd m s (u8 c)) (s + 1) c end.
Definition memset (m : memory) (s c n : Z) : memory := set_bytes (Z.to_nat n) m s c.

(** Up to the next word: [None] for the early return. *)
Fixpoint set_unaligned (fuel : nat) (m : memory) (s c n : Z) : memory * option (Z * Z) :=
  if negb (UNALIGNED s) then (m, Some (s, n)) else
  match fuel with
  | O => (m, None)
  | S fuel => if n =? 0 then (m, None) else set_unaligned fuel (upd m s (u8 c)) (s + 1) c (n - 1)
  end.
Fixpoint set_words (fuel : nat) (per_round : nat) (m : memory) (s buffer n : Z) : memory * Z * Z :=
  match fuel with
  | O => (m, s, n)
  | S fuel =>
      let bytes := LBLOCKSIZE * Z.of_nat per_round in
      if n >=? bytes
      then set_words fuel per_round
             (fold_left (fun m i => store64 m (s + LBLOCKSIZE * i) buffer) (range (Z.of_nat per_round)) m)
             (s + bytes) buffer (n - bytes)
      else (m, s, n)
  end.
Definition memset_words (m : memory) (s c n : Z) : memory :=
  match set_unaligned 8 m s c n with
  | (m, None) => m
  | (m, Some (s, n)) =>
      let '(m, s, n) :=
        if negb (n <? LBLOCKSIZE)
        then let buffer := fill_word (c .& 0xff) in
             let '(m, s, n) := set_words (Z.to_nat n) 4 m s buffer n in set_words (Z.to_nat n) 1 m s buffer n
        else (m, s, n) in
      set_bytes (Z.to_nat n) m s c
  end.

(** ** Searching and comparing memory *)

(** The address, [None] for NULL. *)
Fixpoint find_byte (length : nat) (m : memory) (src d : Z) : option Z :=
  match length with
  | O => None
  | S n => if m src =? d then Some src else find_byte n m (src + 1) d
  end.
Definition memchr (m : memory) (src c length : Z) : option Z := find_byte (Z.to_nat length) m src (u8 c).
(** Up to the next word: the result of an early return, or the place and the
    length left. *)
Fixpoint find_unaligned (fuel : nat) (m : memory) (src d length : Z) : option Z + Z * Z :=
  if negb (UNALIGNED src) then inr (src, length) else
  match fuel with
  | O => inl None
  | S fuel => if length =? 0 then inl None
              else if m src =? d then inl (Some src) else find_unaligned fuel m (src + 1) d (length - 1)
  end.
Fixpoint skip_words (fuel : nat) (m : memory) (asrc mask length : Z) : Z * Z :=
  match fuel with
  | O => (asrc, length)
  | S fuel => if (length >=? LBLOCKSIZE) && (DETECTCHAR (load64 m asrc) mask =? 0)
              then skip_words fuel m (asrc + LBLOCKSIZE) mask (length - LBLOCKSIZE)
              else (asrc, length)
  end.
Definition memchr_words (m : memory) (src c length : Z) : option Z :=
  let d := u8 c in
  match find_unaligned 8 m src d length with
  | inl r => r
  | inr (src, length) =>
      let '(src, length) := if negb (length <? LBLOCKSIZE) then skip_words (Z.to_nat length) m src (fill_word d) length
                            else (src, length) in
      find_byte (Z.to_nat length) m src d
  end.

Fixpoint compare_bytes (n : nat) (m : memory) (s1 s2 : Z) : Z :=
  match n with
  | O => 0
  | S n => if negb (m s1 =? m s2) then m s1 - m s2 else compare_bytes n m (s1 + 1) (s2 + 1)
  end.
Definition memcmp (m : memory) (s1 s2 n : Z) : Z := compare_bytes (Z.to_nat n) m s1 s2.
Fixpoint skip_equal (fuel : nat) (m : memory) (a1 a2 n : Z) : Z * Z * Z :=
  match fuel with
  | O => (a1, a2, n)
  | S fuel => if (n >=? LBLOCKSIZE) && (load64 m a1 =? load64 m a2)
              then skip_equal fuel m (a1 + LBLOCKSIZE) (a2 + LBLOCKSIZE) (n - LBLOCKSIZE)
              else (a1, a2, n)
  end.
Definition memcmp_words (m : memory) (s1 s2 n : Z) : Z :=
  let '(s1, s2, n) := if negb (n <? LBLOCKSIZE) && negb (UNALIGNED2 s1 s2) then skip_equal (Z.to_nat n) m s1 s2 n else (s1, s2, n) in
  compare_bytes (Z.to_nat n) m s1 s2.

(** ** Strings *)

(** Up to the next word, or to a character where the loop returns. *)
Fixpoint align_until (fuel : nat) (stop : Z -> bool) (s : Z) : Z + Z :=
  if negb (UNALIGNED s) then inr s else
  match fuel with
  | O => inl s
  | S fuel => if stop s then inl s else align_until fuel stop (s + 1)
  end.
Definition is_nul (m : memory) (p : Z) : bool := m p =? 0.
Definition has_nul (m : memory) (a : Z) : bool := negb (DETECTNULL (load64 m a) =? 0).

Definition strlen (fuel : nat) (m : memory) (str : Z) : option Z :=
  p ← advance fuel (is_nul m) 1 str; Some (p - str).
Definition strlen_words (fuel : nat) (m : memory) (str : Z) : option Z :=
  match align_until 8 (is_nul m) str with
  | inl p => Some (p - str)
  | inr p => a ← advance fuel (has_nul m) LBLOCKSIZE p; p ← advance fuel (is_nul m) 1 a; Some (p - str)
  end.
Fixpoint strnlen_loop (n : nat) (m : memory) (str : Z) : Z :=
  match n with O => str | S n => if m str =? 0 then str else strnlen_loop n m (str + 1) end.
Definition strnlen (m : memory) (str n : Z) : Z := strnlen_loop (Z.to_nat n) m str - str.

(** The place of the character; [Some None] is NULL. *)
Definition strchr_bytes (fuel : nat) (m : memory) (s c : Z) : option (option Z) :=
  p ← advance fuel (fun p => is_nul m p || (m p =? c)) 1 s; Some (if m p =? c then Some p else None).
Definition strchr (fuel : nat) (m : memory) (s i : Z) : option (option Z) := strchr_bytes fuel m s (u8 i).
Definition strchr_words (fuel : nat) (m : memory) (s i : Z) : option (option Z) :=
  let c := u8 i in
  if c =? 0
  then match align_until 8 (is_nul m) s with
       | inl p => Some (Some p)
       | inr p => a ← advance fuel (has_nul m) LBLOCKSIZE p; p ← advance fuel (is_nul m) 1 a; Some (Some p)
       end
  else match align_until 8 (fun p => is_nul m p || (m p =? c)) s with
       | inl p => Some (if is_nul m p then None else Some p)
       | inr p => a ← advance fuel (fun a => has_nul m a || negb (DETECTCHAR (load64 m a) (fill_word c) =? 0)) LBLOCKSIZE p;
                  strchr_bytes fuel m a c
       end.

(** The loop over equal characters, by the distance from the start. *)
Definition strcmp_bytes (fuel : nat) (m : memory) (s1 s2 : Z) : option Z :=
  k ← advance fuel (fun k => is_nul m (s1 + k) || negb (m (s1 + k) =? m (s2 + k))) 1 0; Some (m (s1 + k) - m (s2 + k)).
Definition strcmp := strcmp_bytes.
Definition strcmp_words (fuel : nat) (m : memory) (s1 s2 : Z) : option Z :=
  if negb (UNALIGNED2 s1 s2)
  then k ← advance fuel (fun k => negb (load64 m (s1 + k) =? load64 m (s2 + k)) || has_nul m (s1 + k)) LBLOCKSIZE 0;
       if load64 m (s1 + k) =? load64 m (s2 + k) then Some 0 else strcmp_bytes fuel m (s1 + k) (s2 + k)
  else strcmp_bytes fuel m s1 s2.

(** The loop over equal characters; it ends behind a terminator or the last one. *)
Fixpoint strncmp_loop (n : nat) (m : memory) (s1 s2 : Z) : Z :=
  match n with
  | O => m s1 - m s2
  | S n => if negb (m s1 =? m s2) || (n =? 0)%nat || (m s1 =? 0) then m s1 - m s2 else strncmp_loop n m (s1 + 1) (s2 + 1)
  end.
Definition strncmp (m : memory) (s1 s2 n : Z) : Z := if n =? 0 then 0 else strncmp_loop (Z.to_nat n) m s1 s2.
(** [inl] is the early return of 0. *)
Fixpoint strncmp_words_loop (fuel : nat) (m : memory) (a1 a2 n : Z) : unit + Z * Z * Z :=
  match fuel with
  | O => inr (a1, a2, n)
  | S fuel =>
      if (n >=? LBLOCKSIZE) && (load64 m a1 =? load64 m a2)
      then if (n - LBLOCKSIZE =? 0) || has_nul m a1 then inl tt
           else strncmp_words_loop fuel m (a1 + LBLOCKSIZE) (a2 + LBLOCKSIZE) (n - LBLOCKSIZE)
      else inr (a1, a2, n)
  end.
Definition strncmp_words (m : memory) (s1 s2 n : Z) : Z :=
  if n =? 0 then 0 else
  match (if negb (UNALIGNED2 s1 s2) then strncmp_words_loop (Z.to_nat n) m s1 s2 n else inr (s1, s2, n)) with
  | inl _ => 0
  | inr (s1, s2, n) => strncmp_loop (Z.to_nat n) m s1 s2
  end.

(** Characters up to and with the terminator. *)
Fixpoint strcpy_loop (fuel : nat) (m : memory) (dst src : Z) : option memory :=
  match fuel with
  | O => None
  | S fuel => let c := m src in let m := upd m dst c in if c =? 0 then Some m else strcpy_loop fuel m (dst + 1) (src + 1)
  end.
Definition strcpy := strcpy_loop.
Fixpoint strcpy_skip (fuel : nat) (p : memory * Z * Z) : option (memory * Z * Z) :=
  match fuel with
  | O => None
  | S fuel => let '(m, dst, src) := p in if has_nul m src then Some p else strcpy_skip fuel (copy_word p)
  end.
Definition strcpy_words (fuel : nat) (m : memory) (dst src : Z) : option memory :=
  '(m, dst, src) ← (if negb (UNALIGNED2 src dst) then strcpy_skip fuel (m, dst, src) else Some (m, dst, src));
  strcpy_loop fuel m dst src.

(** The characters up to the terminator, then zeros. *)
Fixpoint strncpy_loop (count : nat) (m : memory) (dst src : Z) : memory :=
  match count with
  | O => m
  | S n => let c := m src in let m := upd m dst c in
           if c =? 0 then set_bytes n m (dst + 1) 0 else strncpy_loop n m (dst + 1) (src + 1)
  end.
Definition strncpy (m : memory) (dst src count : Z) : memory := strncpy_loop (Z.to_nat count) m dst src.
Fixpoint strncpy_skip (fuel : nat) (p : memory * Z * Z) (count : Z) : memory * Z * Z * Z :=
  match fuel with
  | O => (p, count)
  | S fuel => let '(m, _, src) := p in
              if (count >=? LBLOCKSIZE) && negb (has_nul m src) then strncpy_skip fuel (copy_word p) (count - LBLOCKSIZE) else (p, count)
  end.
Definition strncpy_words (m : memory) (dst src count : Z) : memory :=
  let '(m, dst, src, count) := if negb (UNALIGNED2 src dst) && negb (count <? LBLOCKSIZE)
                               then strncpy_skip (Z.to_nat count) (m, dst, src) count else (m, dst, src, count) in
  strncpy_loop (Z.to_nat count) m dst src.

(** ** Start and end of the program *)

(** The functions of an array run in order, those of .fini_array in reverse. *)
Section Init.
Context {W : Type}.
Definition libc_init_array (preinit init : list (W -> W)) (w : W) : W :=
  fold_left (fun w f => f w) init (fold_left (fun w f => f w) preinit w).
Definition libc_fini_array (fini : list (W -> W)) (w : W) : W := fold_left (fun w f => f w) (rev fini) w.
End Init.
End LibC.
