(* ===== verification/LibCProps.v ===== *)
(** The C library of the monitor: both versions of each function do what the
    standard says, so that the choice of the build does not matter. *)
From S2P Require Import Prelude LibC.
Import LibC.

(** ** Copies *)

Definition mem_ok (m : memory) : Prop := forall a, is_u8 (m a).
(** Memory with the [n] bytes at [src] also at [dst], and with [n] bytes [c] at [s]. *)
Definition moved (m : memory) (dst src n : Z) : memory :=
  fun x => if (dst <=? x) && (x <? dst + n) then m (src + (x - dst)) else m x.
Definition filled (m : memory) (s c n : Z) : memory := fun x => if (s <=? x) && (x <? s + n) then c else m x.
(** A copy upwards does not overwrite what it still has to read. *)
Definition apart (dst src n : Z) : Prop := dst <= src \/ src + n <= dst.

(** Decides the comparisons of a goal about one address. *)
Ltac cmp := repeat (case_match; try lia); try done; try lia; try (f_equal; lia).

Lemma moved_ext m m' dst src n x : (forall y, m y = m' y) -> moved m dst src n x = moved m' dst src n x.
Proof. intros H. unfold moved. by rewrite !H. Qed.
Lemma moved_moved m dst src a b x : 0 <= a -> 0 <= b -> apart dst src (a + b) ->
  moved (moved m dst src a) (dst + a) (src + a) b x = moved m dst src (a + b) x.
Proof. unfold moved, apart. intros. cmp. Qed.
Lemma filled_filled m s c a b x : 0 <= a -> 0 <= b -> filled (filled m s c a) (s + a) c b x = filled m s c (a + b) x.
Proof. unfold filled. intros. cmp. Qed.
Lemma moved_ok m dst src n : mem_ok m -> mem_ok (moved m dst src n).
Proof. intros H x. unfold moved. by case_match. Qed.

Lemma store_bytes_at m a bs x :
  store_bytes m a bs x = if (a <=? x) && (x <? a + Z.of_nat (length bs)) then byte_at bs (x - a) else m x.
Proof.
  revert m a. induction bs as [|b bs IH]; intros m a; cbn [store_bytes length].
  - change (Z.of_nat 0) with 0. by replace ((a <=? x) && (x <? a + 0)) with false by lia.
  - rewrite IH. rewrite Nat2Z.inj_succ, <- Z.add_1_r. pose proof (Nat2Z.is_nonneg (length bs)). unfold upd, byte_at. destruct (Z.eqb_spec x a) as [->|Hne].
  { replace (a + 1 <=? a) with false by lia. replace (a <=? a) with true by lia. replace (a <? a + (Z.of_nat (length bs) + 1)) with true by lia. by rewrite Z.sub_diag. }
    replace (Z.to_nat (x - (a + 1))) with (Z.to_nat (x - a) - 1)%nat by lia. cbn [andb].
    destruct ((a + 1 <=? x) && (x <? a + 1 + Z.of_nat (length bs))) eqn:E.
    + replace ((a <=? x) && (x <? a + (Z.of_nat (length bs) + 1))) with true by lia.
      destruct (Z.to_nat (x - a)) as [|k] eqn:Ek; [lia|]. cbn. f_equal. lia.
    + by replace ((a <=? x) && (x <? a + (Z.of_nat (length bs) + 1))) with false by lia.
Qed.
Lemma word_bytes m a i : mem_ok m -> 0 <= i < 8 -> byte_at (le_bytes 8 (load64 m a)) i = m (a + i).
Proof.
  intros Hm Hi. unfold load64. set (bs := map _ _). change 8%nat with (length bs). rewrite le_bytes_value.
  - assert (i = 0 \/ i = 1 \/ i = 2 \/ i = 3 \/ i = 4 \/ i = 5 \/ i = 6 \/ i = 7) as H by lia. by repeat destruct H as [->|H]; try subst i.
  - apply Forall_map, Forall_true. intros j. apply Hm.
Qed.
Lemma copy_word_moved m dst src x : mem_ok m -> store64 m dst (load64 m src) x = moved m dst src 8 x.
Proof.
  intros Hm. unfold store64, moved. rewrite store_bytes_at, length_le_bytes. change (Z.of_nat 8) with 8.
  destruct ((dst <=? x) && (x <? dst + 8)) eqn:E; [|done]. by rewrite word_bytes by (done || lia).
Qed.

Lemma copy_bytes_moved n m dst src x : apart dst src (Z.of_nat n) -> copy_bytes n m dst src x = moved m dst src (Z.of_nat n) x.
Proof.
  revert m dst src. induction n as [|n IH]; intros m dst src Ha; cbn [copy_bytes].
  - unfold moved. by replace ((dst <=? x) && (x <? dst + Z.of_nat 0)) with false by (change (Z.of_nat 0) with 0; lia).
  - rewrite Nat2Z.inj_succ, <- Z.add_1_r in *. pose proof (Nat2Z.is_nonneg n). rewrite IH by (unfold apart in *; lia).
    replace (Z.of_nat n + 1) with (1 + Z.of_nat n) in * by lia. rewrite <- (moved_moved m dst src 1) by done.
    apply moved_ext. intros y. unfold upd, moved. destruct (Z.eqb_spec y dst) as [->|]; cmp.
Qed.
Lemma copy_back_moved n m dst src x : src < dst ->
  copy_back n m (dst + Z.of_nat n) (src + Z.of_nat n) x = moved m dst src (Z.of_nat n) x.
Proof.
  intros Hd. revert m. induction n as [|n IH]; intros m; cbn [copy_back].
  - unfold moved. by replace ((dst <=? x) && (x <? dst + Z.of_nat 0)) with false by (change (Z.of_nat 0) with 0; lia).
  - rewrite Nat2Z.inj_succ, <- Z.add_1_r in *. pose proof (Nat2Z.is_nonneg n).
    replace (dst + (Z.of_nat n + 1) - 1) with (dst + Z.of_nat n) by lia. replace (src + (Z.of_nat n + 1) - 1) with (src + Z.of_nat n) by lia.
    rewrite IH. unfold moved, upd. generalize dependent (Z.of_nat n). intros k _ Hk.
    destruct (Z.eqb_spec x (dst + k)) as [->|].
    + replace ((dst <=? dst + k) && (dst + k <? dst + k)) with false by lia. replace ((dst <=? dst + k) && (dst + k <? dst + (k + 1))) with true by lia. f_equal; lia.
    + destruct ((dst <=? x) && (x <? dst + k)) eqn:E.
      * replace ((dst <=? x) && (x <? dst + (k + 1))) with true by lia. destruct (Z.eqb_spec (src + (x - dst)) (dst + k)); [lia|done].
      * by replace ((dst <=? x) && (x <? dst + (k + 1))) with false by lia.
Qed.

(** The loops by words stop anywhere: what they have copied so far, and the rest. *)
Definition copied (m : memory) (dst src len : Z) (r : memory * Z * Z * Z) : Prop :=
  let '(m', dst', src', len') := r in
  exists k, 0 <= k <= len /\ dst' = dst + k /\ src' = src + k /\ len' = len - k /\ forall x, m' x = moved m dst src k x.

Lemma copied_word m dst src len p len' : mem_ok m -> apart dst src len -> copied m dst src len (p, len') -> LBLOCKSIZE <= len' ->
  copied m dst src len (copy_word p, len' - LBLOCKSIZE).
Proof.
  destruct p as [[m1 d1] s1]. unfold LBLOCKSIZE. intros Hm Ha (k & Hk & -> & -> & -> & H1) Hl. exists (k + 8). unfold LBLOCKSIZE.
  split; [lia|]. split; [lia|]. split; [lia|]. split; [lia|]. intros x.
  rewrite copy_word_moved by (intros a; rewrite H1; by apply moved_ok).
  rewrite (moved_ext _ _ _ _ _ _ H1). apply moved_moved; [lia..|]. unfold apart in *. lia.
Qed.
Lemma copy_little_copied m dst src len fuel p len' : mem_ok m -> apart dst src len -> copied m dst src len (p, len') ->
  copied m dst src len (copy_little fuel p len').
Proof.
  intros Hm Ha. revert p len'. induction fuel as [|fuel IH]; intros p len' Hc; cbn [copy_little]; [done|].
  destruct (len' >=? LBLOCKSIZE) eqn:E; [|done]. apply IH. apply copied_word; [done..|lia].
Qed.
Lemma copy_big_copied m dst src len fuel p len' : mem_ok m -> apart dst src len -> copied m dst src len (p, len') ->
  copied m dst src len (copy_big fuel p len').
Proof.
  intros Hm Ha. revert p len'. induction fuel as [|fuel IH]; intros p len' Hc; cbn [copy_big]; [done|].
  destruct (len' >=? BIGBLOCKSIZE) eqn:E; [|done]. change BIGBLOCKSIZE with 32 in *. unfold LBLOCKSIZE in *. apply IH.
  replace (len' - 32) with (len' - LBLOCKSIZE - LBLOCKSIZE - LBLOCKSIZE - LBLOCKSIZE) by (unfold LBLOCKSIZE; lia).
  do 4 (apply copied_word; [done| |..]; [done| |unfold LBLOCKSIZE; lia]). done.
Qed.
Lemma copied_rest m dst src len r x : apart dst src len -> copied m dst src len r ->
  (let '(m', dst', src', len') := r in copy_bytes (Z.to_nat len') m' dst' src') x = moved m dst src len x.
Proof.
  destruct r as [[[m1 d1] s1] l1]. intros Ha (k & Hk & -> & -> & -> & H1). rewrite copy_bytes_moved by (unfold apart in *; lia).
  rewrite Z2Nat.id by lia. rewrite (moved_ext _ _ _ _ _ _ H1), moved_moved; [|lia|lia|]; rewrite Zplus_minus; done.
Qed.
Lemma copied_start m dst src len : 0 <= len -> copied m dst src len (m, dst, src, len).
Proof. intros H. exists 0. split; [lia|]. do 3 (split; [lia|]). intros x. unfold moved. cmp. Qed.

Lemma memcpy_words_moved m dst src len x : mem_ok m -> 0 <= len -> apart dst src len -> memcpy_words m dst src len x = moved m dst src len x.
Proof.
  intros Hm Hl Ha. unfold memcpy_words. apply (copied_rest m dst src len); [done|]. destruct (_ && _); [|by apply copied_start].
  pose proof (copy_big_copied m dst src len (Z.to_nat len) (m, dst, src) len Hm Ha (copied_start m dst src len Hl)) as Hc.
  destruct (copy_big _ _ _) as [p len']. by apply copy_little_copied.
Qed.
Lemma memcpy_moved m dst src len x : 0 <= len -> apart dst src len -> memcpy m dst src len x = moved m dst src len x.
Proof. intros Hl Ha. unfold memcpy. rewrite copy_bytes_moved by (by rewrite Z2Nat.id). by rewrite Z2Nat.id. Qed.
Lemma memmove_moved m dst src len x : 0 <= len -> memmove m dst src len x = moved m dst src len x.
Proof.
  intros Hl. unfold memmove. destruct (_ && _) eqn:E.
  - rewrite <- (Z2Nat.id len) at 2 3 4 by done. apply copy_back_moved. lia.
  - apply memcpy_moved; [done|]. unfold apart. lia.
Qed.
Lemma memmove_words_moved m dst src len x : mem_ok m -> 0 <= len -> memmove_words m dst src len x = moved m dst src len x.
Proof.
  intros Hm Hl. unfold memmove_words. destruct (_ && _) eqn:E.
  - rewrite <- (Z2Nat.id len) at 2 3 4 by done. apply copy_back_moved. lia.
  - apply memcpy_words_moved; [done..|]. unfold apart. lia.
Qed.

(** ** Words *)

Lemma byte_forall (P : Z -> bool) : forallb P (range 256) = true -> forall b, is_u8 b -> P b = true.
Proof. intros H b Hb. rewrite forallb_forall in H. apply H, list_elem_of_In, elem_of_range. exact Hb. Qed.

(** The low byte of a number and the rest, bit by bit. *)
Lemma split_bits a x i : is_u8 a -> 0 <= i -> Z.testbit (a + 2 ^ 8 * x) i = if i <? 8 then Z.testbit a i else Z.testbit x (i - 8).
Proof.
  intros Ha Hi. destruct (Z.ltb_spec i 8).
  - rewrite <- (Z.mod_pow2_bits_low (a + 2 ^ 8 * x) 8) by lia. rewrite Z.mul_comm, Z_mod_plus_full, (Z.mod_small a); [done|apply Ha].
  - rewrite <- (Z.sub_add 8 i) at 1. rewrite <- Z.div_pow2_bits by lia. rewrite Z.mul_comm, Z_div_plus_full, Z.div_small by (apply Ha || lia). done.
Qed.
Lemma land_split a b x y : is_u8 a -> is_u8 b -> (a + 2 ^ 8 * x) .& (b + 2 ^ 8 * y) = (a .& b) + 2 ^ 8 * (x .& y).
Proof.
  intros Ha Hb. assert (is_u8 (a .& b)) as Hab.
  { replace (a .& b) with (u8 (a .& b)); [apply u8_range|]. apply Z.bits_inj'. intros i Hi. unfold u8. rewrite Z.testbit_mod_pow2, Z.land_spec by lia.
    destruct (Z.ltb_spec i 8); [done|]. by rewrite (testbit_u8 a) by (done || lia). }
  apply Z.bits_inj'. intros i Hi. rewrite Z.land_spec, !split_bits, !Z.land_spec by done. by destruct (i <? 8).
Qed.
Lemma lxor_split a b x y : is_u8 a -> is_u8 b -> (a + 2 ^ 8 * x) .^ (b + 2 ^ 8 * y) = (a .^ b) + 2 ^ 8 * (x .^ y).
Proof.
  intros Ha Hb. apply Z.bits_inj'. intros i Hi. rewrite Z.lxor_spec, !split_bits, !Z.lxor_spec by (done || by apply lxor_u8). by destruct (i <? 8).
Qed.

(** The test for a zero byte on the bytes of a word. *)
Definition detect (bs : list Z) : Z :=
  let n := length bs in
  (le_value bs - le_value (replicate n 1)) .& Z.lnot (le_value bs) .& le_value (replicate n 128).
Lemma detect_spec bs : is_bytes bs -> detect bs = 0 <-> 0 ∉ bs.
Proof.
  induction 1 as [|b bs Hb Hbs IH]; [by split; [intros _; apply not_elem_of_nil|]|].
  rewrite not_elem_of_cons, <- IH. unfold detect. cbn [length replicate le_value]. set (X := le_value bs). set (o := le_value (replicate _ 1)).
  set (h := le_value (replicate _ 128)). replace (Z.lnot (b + 2 ^ 8 * X)) with ((255 - b) + 2 ^ 8 * Z.lnot X) by (unfold Z.lnot; lia).
  assert (is_u8 (255 - b)) as H1 by (unfold is_u8 in *; lia). assert (is_u8 128) as H2 by done.
  destruct (Z.eq_dec b 0) as [->|Hb0].
  - replace (0 + 2 ^ 8 * X - (1 + 2 ^ 8 * o)) with (255 + 2 ^ 8 * (X - o - 1)) by lia. rewrite !land_split by done.
    change (255 .& (255 - 0) .& 128) with 128. split; [lia|by intros []].
  - replace (b + 2 ^ 8 * X - (1 + 2 ^ 8 * o)) with ((b - 1) + 2 ^ 8 * (X - o)) by lia.
    assert (is_u8 (b - 1)) as H3 by (unfold is_u8 in *; lia). assert (is_u8 ((b - 1) .& (255 - b)) /\ (b - 1) .& (255 - b) .& 128 = 0) as [H4 H5].
    { pose proof (byte_forall (fun b => (b =? 0) || ((0 <=? (b - 1) .& (255 - b)) && ((b - 1) .& (255 - b) <? 256) && ((b - 1) .& (255 - b) .& 128 =? 0)))
        ltac:(vm_compute; reflexivity) b Hb) as H. cbn beta in H. unfold is_u8. change (2 ^ 8) with 256. split; lia. }
    rewrite !land_split, H5 by done. split; [intros E; split; [lia|lia]|lia].
Qed.
Lemma detectnull_bytes bs : length bs = 8%nat -> is_bytes bs -> (DETECTNULL (le_value bs) =? 0) = bool_decide (0 ∉ bs).
Proof.
  intros Hl Hb. replace (DETECTNULL (le_value bs)) with (detect bs).
  - pose proof (detect_spec bs Hb) as H. case_bool_decide as E; [by apply Z.eqb_eq, H|]. apply Z.eqb_neq. intros E2. exact (proj1 H E2 E).
  - unfold detect, DETECTNULL, not64, u64. rewrite Hl. change (le_value (replicate 8 1)) with 0x0101010101010101.
    change (le_value (replicate 8 128)) with 0x8080808080808080. apply Z.bits_inj'. intros i Hi. rewrite !Z.land_spec, !Z.testbit_mod_pow2 by lia.
    destruct (Z.ltb_spec i 64); [done|]. replace (Z.testbit 0x8080808080808080 i) with false; [by rewrite !andb_false_r|].
    symmetry. apply Z.bits_above_log2; [done|]. change (Z.log2 0x8080808080808080) with 63. lia.
Qed.
Lemma fill_word_bytes d : is_u8 d -> fill_word d = le_value (replicate 8 d).
Proof.
  intros Hd. apply Z.eqb_eq, (byte_forall (fun d => fill_word d =? le_value (replicate 8 d))); [vm_compute; reflexivity|done].
Qed.
Lemma le_value_xor d bs : is_u8 d -> is_bytes bs -> le_value bs .^ le_value (replicate (length bs) d) = le_value (map (fun b => b .^ d) bs).
Proof.
  intros Hd. induction 1 as [|b bs Hb _ IH]; [done|]. cbn [length replicate le_value map]. by rewrite lxor_split, IH.
Qed.
Lemma detectchar_bytes bs d : length bs = 8%nat -> is_bytes bs -> is_u8 d -> (DETECTCHAR (le_value bs) (fill_word d) =? 0) = bool_decide (d ∉ bs).
Proof.
  intros Hl Hb Hd. unfold DETECTCHAR. rewrite fill_word_bytes, <- Hl, le_value_xor by done. rewrite detectnull_bytes.
  - apply bool_decide_ext. rewrite list_elem_of_fmap. split; intros H Hin; apply H.
    + exists d. by rewrite Z.lxor_nilpotent.
    + destruct Hin as (b & E & Hin). symmetry in E. apply Z.lxor_eq in E. by subst.
  - by rewrite length_map.
  - apply Forall_map. eapply Forall_impl; [exact Hb|]. intros b Hb'. by apply lxor_u8.
Qed.

(** ** Words of memory *)

Definition word (m : memory) (a : Z) : list Z := map (fun i => m (a + i)) (range 8).
Lemma word_elem m a d : d ∈ word m a <-> exists j, 0 <= j < 8 /\ m (a + j) = d.
Proof.
  unfold word. rewrite list_elem_of_fmap. split.
  - intros (j & -> & Hj%elem_of_range). by exists j.
  - intros (j & Hj & <-). exists j. by rewrite elem_of_range.
Qed.
Lemma word_is_bytes m a : mem_ok m -> is_bytes (word m a).
Proof. intros Hm. apply Forall_map, Forall_true. intros i. apply Hm. Qed.
Lemma load64_eq m a b : mem_ok m -> (load64 m a =? load64 m b) = true <-> forall j, 0 <= j < 8 -> m (a + j) = m (b + j).
Proof.
  intros Hm. rewrite Z.eqb_eq. split.
  - intros E j Hj. by rewrite <- !word_bytes, E by done.
  - intros H. unfold load64. f_equal. apply map_ext_in. intros j Hj. apply H. by apply elem_of_range, list_elem_of_In.
Qed.
Lemma has_nul_spec m a : mem_ok m -> has_nul m a = true <-> exists j, 0 <= j < 8 /\ is_nul m (a + j) = true.
Proof.
  intros Hm. unfold has_nul, is_nul. change (load64 m a) with (le_value (word m a)). rewrite detectnull_bytes by (done || by apply word_is_bytes).
  rewrite <- bool_decide_not, bool_decide_eq_true. setoid_rewrite Z.eqb_eq. rewrite <- word_elem.
  split; [|by auto]. intros H. by apply dec_stable.
Qed.
Lemma has_char_spec m a d : mem_ok m -> is_u8 d -> (DETECTCHAR (load64 m a) (fill_word d) =? 0) = false <-> exists j, 0 <= j < 8 /\ (m (a + j) =? d) = true.
Proof.
  intros Hm Hd. change (load64 m a) with (le_value (word m a)). rewrite detectchar_bytes by (done || by apply word_is_bytes).
  rewrite bool_decide_eq_false. setoid_rewrite Z.eqb_eq. rewrite <- word_elem. split; [intros H; by apply dec_stable|by auto].
Qed.
Lemma unaligned_mod x : UNALIGNED x = negb (x mod 8 =? 0).
Proof. unfold UNALIGNED, LBLOCKSIZE. change (8 - 1) with (Z.ones 3). by rewrite Z.land_ones. Qed.

(** ** Filling *)

Lemma filled_ext m m' s c n x : (forall y, m y = m' y) -> filled m s c n x = filled m' s c n x.
Proof. intros H. unfold filled. by rewrite H. Qed.
Lemma set_bytes_filled n m s c x : set_bytes n m s c x = filled m s (u8 c) (Z.of_nat n) x.
Proof.
  revert m s. induction n as [|n IH]; intros m s; cbn [set_bytes].
  - unfold filled. by replace ((s <=? x) && (x <? s + Z.of_nat 0)) with false by (change (Z.of_nat 0) with 0; lia).
  - rewrite IH, Nat2Z.inj_succ, <- Z.add_1_r. pose proof (Nat2Z.is_nonneg n).
    replace (Z.of_nat n + 1) with (1 + Z.of_nat n) by lia. rewrite <- (filled_filled m s (u8 c) 1) by lia.
    apply filled_ext. intros y. unfold upd, filled. destruct (Z.eqb_spec y s) as [->|]; cmp.
Qed.
Definition set_so_far (m : memory) (s c n : Z) (r : memory * Z * Z) : Prop :=
  let '(m', s', n') := r in exists k, 0 <= k <= n /\ s' = s + k /\ n' = n - k /\ forall x, m' x = filled m s c k x.
Lemma set_rest m s c n r x : set_so_far m s (u8 c) n r -> (let '(m', s', n') := r in set_bytes (Z.to_nat n') m' s' c) x = filled m s (u8 c) n x.
Proof.
  destruct r as [[m1 s1] n1]. intros (k & Hk & -> & -> & H). rewrite set_bytes_filled, Z2Nat.id, (filled_ext _ _ _ _ _ _ H), filled_filled by lia.
  f_equal. lia.
Qed.
Lemma store_fill_word m a d x : is_u8 d -> store64 m a (fill_word d) x = filled m a d 8 x.
Proof.
  intros Hd. unfold store64, filled. rewrite store_bytes_at, length_le_bytes. change (Z.of_nat 8) with 8.
  destruct ((a <=? x) && (x <? a + 8)) eqn:E; [|done]. rewrite fill_word_bytes by done.
  change 8%nat with (length (replicate 8 d)) at 1. rewrite le_bytes_value by (by apply Forall_replicate). apply byte_at_replicate. change (Z.of_nat 8) with 8. lia.
Qed.
Lemma fold_fill_words d k m s x : is_u8 d ->
  fold_left (fun m i => store64 m (s + LBLOCKSIZE * i) (fill_word d)) (range (Z.of_nat k)) m x = filled m s d (LBLOCKSIZE * Z.of_nat k) x.
Proof.
  intros Hd. unfold LBLOCKSIZE. revert x. induction k as [|k IH]; intros x.
  - unfold filled. change (8 * Z.of_nat 0) with 0. by replace ((s <=? x) && (x <? s + 0)) with false by lia.
  - unfold range. rewrite seqZ_S, fold_left_app. cbn [fold_left]. rewrite store_fill_word by done.
    rewrite (filled_ext _ _ _ _ _ _ IH), Z.add_0_l, filled_filled by lia. f_equal. rewrite Nat2Z.inj_succ. lia.
Qed.
Lemma set_words_so_far m s d n fuel k m1 s1 n1 : is_u8 d -> set_so_far m s d n (m1, s1, n1) ->
  set_so_far m s d n (set_words fuel k m1 s1 (fill_word d) n1).
Proof.
  intros Hd. revert m1 s1 n1. induction fuel as [|fuel IH]; intros m1 s1 n1 H; cbn [set_words]; [done|].
  destruct (n1 >=? _) eqn:E; [|done]. apply IH. destruct H as (j & Hj & -> & -> & H). set (b := LBLOCKSIZE * Z.of_nat k) in *.
  assert (0 <= b) by (unfold b, LBLOCKSIZE; lia). exists (j + b). split; [lia|]. split; [lia|]. split; [lia|]. intros x.
  rewrite fold_fill_words by done. fold b. rewrite (filled_ext _ _ _ _ _ _ H). apply filled_filled; lia.
Qed.
Lemma set_unaligned_so_far fuel m s c n : 0 <= n -> (s mod 8 = 0 \/ 8 - s mod 8 <= Z.of_nat fuel) ->
  match set_unaligned fuel m s c n with
  | (m', Some (s', n')) => set_so_far m s (u8 c) n (m', s', n')
  | (m', None) => forall x, m' x = filled m s (u8 c) n x
  end.
Proof.
  revert m s n. induction fuel as [|fuel IH]; intros m s n Hn Hf; cbn [set_unaligned]; rewrite unaligned_mod; destruct (Z.eqb_spec (s mod 8) 0) as [E|E]; cbn [negb].
  - exists 0. do 3 (split; [lia|]). intros x. unfold filled. by replace ((s <=? x) && (x <? s + 0)) with false by lia.
  - exfalso. pose proof (Z.mod_pos_bound s 8). lia.
  - exists 0. do 3 (split; [lia|]). intros x. unfold filled. by replace ((s <=? x) && (x <? s + 0)) with false by lia.
  - destruct (Z.eqb_spec n 0) as [->|Hn0].
    { intros x. unfold filled. by replace ((s <=? x) && (x <? s + 0)) with false by lia. }
    assert (forall x, upd m s (u8 c) x = filled m s (u8 c) 1 x) as H1.
    { intros x. unfold upd, filled. destruct (Z.eqb_spec x s) as [->|]; cmp. }
    specialize (IH (upd m s (u8 c)) (s + 1) (n - 1)). destruct (set_unaligned _ _ _ _ _) as [m' [[s' n']|]].
    + destruct IH as (k & Hk & -> & -> & H); [lia|rewrite Nat2Z.inj_succ in Hf; Z.div_mod_to_equations; lia|].
      exists (1 + k). do 3 (split; [lia|]). intros x. rewrite H, (filled_ext _ _ _ _ _ _ H1), filled_filled by lia. done.
    + intros x. rewrite IH, (filled_ext _ _ _ _ _ _ H1), filled_filled; [f_equal; lia|lia..|rewrite Nat2Z.inj_succ in Hf; Z.div_mod_to_equations; lia].
Qed.
Lemma memset_filled m s c n x : 0 <= n -> memset m s c n x = filled m s (u8 c) n x.
Proof. intros Hn. unfold memset. by rewrite set_bytes_filled, Z2Nat.id. Qed.
Lemma memset_words_filled m s c n x : 0 <= n -> memset_words m s c n x = filled m s (u8 c) n x.
Proof.
  intros Hn. unfold memset_words. pose proof (set_unaligned_so_far 8 m s c n Hn) as H.
  destruct (set_unaligned 8 m s c n) as [m' [[s' n']|]]; [|apply H; pose proof (Z.mod_pos_bound s 8); lia].
  apply set_rest. specialize (H ltac:(pose proof (Z.mod_pos_bound s 8); lia)). destruct (negb _); [|done].
  change (c .& 255) with (c .& Z.ones 8). rewrite Z.land_ones by done. fold (u8 c).
  pose proof (set_words_so_far m s (u8 c) n (Z.to_nat n') 4 m' s' n' (u8_range c) H) as H'. destruct (set_words _ _ _ _ _ _) as [[m2 s2] n2].
  by apply set_words_so_far; [apply u8_range|].
Qed.

(** ** Searching and comparing memory *)

Lemma find_byte_skip k n m src d : (forall j, 0 <= j < Z.of_nat k -> (m (src + j) =? d) = false) ->
  find_byte (k + n) m src d = find_byte n m (src + Z.of_nat k) d.
Proof.
  revert src. induction k as [|k IH]; intros src H; cbn [find_byte Nat.add]; [by rewrite Z.add_0_r|].
  rewrite <- (Z.add_0_r src) at 1. rewrite H by lia. rewrite IH; [f_equal; lia|]. intros j Hj. rewrite <- Z.add_assoc. apply H. lia.
Qed.
Lemma find_byte_spec n m src d :
  match find_byte n m src d with
  | Some r => src <= r < src + Z.of_nat n /\ m r = d /\ forall x, src <= x < r -> m x <> d
  | None => forall x, src <= x < src + Z.of_nat n -> m x <> d
  end.
Proof.
  revert src. induction n as [|n IH]; intros src; cbn [find_byte]; [intros x Hx; lia|].
  destruct (Z.eqb_spec (m src) d) as [E|E]; [split; [lia|]; split; [done|]; intros x Hx; lia|]. specialize (IH (src + 1)).
  destruct (find_byte n m (src + 1) d) as [r|].
  - destruct IH as (Hr & Hd & H). split; [lia|]. split; [done|]. intros x Hx. destruct (Z.eq_dec x src) as [->|]; [done|]. apply H. lia.
  - intros x Hx. destruct (Z.eq_dec x src) as [->|]; [done|]. apply IH. lia.
Qed.
Lemma compare_bytes_skip k n m s1 s2 : (forall j, 0 <= j < Z.of_nat k -> m (s1 + j) = m (s2 + j)) ->
  compare_bytes (k + n) m s1 s2 = compare_bytes n m (s1 + Z.of_nat k) (s2 + Z.of_nat k).
Proof.
  revert s1 s2. induction k as [|k IH]; intros s1 s2 H; cbn [compare_bytes Nat.add]; [by rewrite !Z.add_0_r|].
  specialize (H 0 ltac:(lia)) as H0. rewrite !Z.add_0_r in H0. rewrite H0, Z.eqb_refl. cbn [negb].
  rewrite IH; [f_equal; lia|]. intros j Hj. rewrite <- !Z.add_assoc. apply H. lia.
Qed.
Lemma compare_bytes_spec n m s1 s2 :
  (compare_bytes n m s1 s2 = 0 /\ forall j, 0 <= j < Z.of_nat n -> m (s1 + j) = m (s2 + j)) \/
  exists k, 0 <= k < Z.of_nat n /\ (forall j, 0 <= j < k -> m (s1 + j) = m (s2 + j)) /\ m (s1 + k) <> m (s2 + k) /\
            compare_bytes n m s1 s2 = m (s1 + k) - m (s2 + k).
Proof.
  revert s1 s2. induction n as [|n IH]; intros s1 s2; cbn [compare_bytes]; [left; split; [done|]; intros j Hj; lia|].
  destruct (Z.eqb_spec (m s1) (m s2)) as [E|E]; cbn [negb].
  - destruct (IH (s1 + 1) (s2 + 1)) as [[Hc H]|(k & Hk & H & Hne & Hc)].
    + left. split; [done|]. intros j Hj. destruct (Z.eq_dec j 0) as [->|]; [by rewrite !Z.add_0_r|].
      replace (s1 + j) with (s1 + 1 + (j - 1)) by lia. replace (s2 + j) with (s2 + 1 + (j - 1)) by lia. apply H. lia.
    + right. exists (1 + k). rewrite !Z.add_assoc. split; [lia|]. split; [|done]. intros j Hj. destruct (Z.eq_dec j 0) as [->|]; [by rewrite !Z.add_0_r|].
      replace (s1 + j) with (s1 + 1 + (j - 1)) by lia. replace (s2 + j) with (s2 + 1 + (j - 1)) by lia. apply H. lia.
  - right. exists 0. rewrite !Z.add_0_r. split; [lia|]. split; [intros j Hj; lia|done].
Qed.

Lemma skip_words_same fuel m src d n : mem_ok m -> is_u8 d ->
  (let '(src', n') := skip_words fuel m src (fill_word d) n in find_byte (Z.to_nat n') m src' d) = find_byte (Z.to_nat n) m src d.
Proof.
  intros Hm Hd. revert src n. induction fuel as [|fuel IH]; intros src n; cbn [skip_words]; [done|].
  destruct (_ && _) eqn:E; [|done]. unfold LBLOCKSIZE in *. apply andb_true_iff in E as [E1 E2]. rewrite IH.
  replace (Z.to_nat n) with (8 + Z.to_nat (n - 8))%nat by lia. rewrite find_byte_skip; [done|]. intros j Hj.
  apply not_true_iff_false. intros E. assert ((DETECTCHAR (load64 m src) (fill_word d) =? 0) = false) by (apply has_char_spec; [done..|by exists j]). congruence.
Qed.
Lemma find_unaligned_same fuel m src d n : 0 <= n -> (src mod 8 = 0 \/ 8 - src mod 8 <= Z.of_nat fuel) ->
  match find_unaligned fuel m src d n with
  | inl r => r = find_byte (Z.to_nat n) m src d
  | inr (src', n') => find_byte (Z.to_nat n') m src' d = find_byte (Z.to_nat n) m src d
  end.
Proof.
  revert src n. induction fuel as [|fuel IH]; intros src n Hn Hf; cbn [find_unaligned]; rewrite unaligned_mod; destruct (Z.eqb_spec (src mod 8) 0) as [E|E]; cbn [negb]; try done.
  - exfalso. pose proof (Z.mod_pos_bound src 8). lia.
  - destruct (Z.eqb_spec n 0) as [->|Hn0]; [done|]. specialize (IH (src + 1) (n - 1) ltac:(lia) ltac:(rewrite Nat2Z.inj_succ in Hf; Z.div_mod_to_equations; lia)).
    replace (Z.to_nat n) with (S (Z.to_nat (n - 1))) by lia. cbn [find_byte]. destruct (m src =? d); [done|].
    destruct (find_unaligned _ _ _ _ _) as [r|[src' n']]; done.
Qed.
Lemma memchr_words_same m src c n : mem_ok m -> 0 <= n -> memchr_words m src c n = memchr m src c n.
Proof.
  intros Hm Hn. unfold memchr_words, memchr. pose proof (find_unaligned_same 8 m src (u8 c) n Hn ltac:(pose proof (Z.mod_pos_bound src 8); lia)) as H.
  destruct (find_unaligned _ _ _ _ _) as [r|[src' n']]; [done|]. rewrite <- H. destruct (negb _); [|done].
  apply skip_words_same; [done|apply u8_range].
Qed.
Lemma skip_equal_same fuel m s1 s2 n : mem_ok m ->
  (let '(a1, a2, n') := skip_equal fuel m s1 s2 n in compare_bytes (Z.to_nat n') m a1 a2) = compare_bytes (Z.to_nat n) m s1 s2.
Proof.
  intros Hm. revert s1 s2 n. induction fuel as [|fuel IH]; intros s1 s2 n; cbn [skip_equal]; [done|].
  destruct (_ && _) eqn:E; [|done]. unfold LBLOCKSIZE in *. apply andb_true_iff in E as [E1 E2]. rewrite IH.
  replace (Z.to_nat n) with (8 + Z.to_nat (n - 8))%nat by lia. rewrite compare_bytes_skip; [done|]. by apply load64_eq.
Qed.
Lemma memcmp_words_same m s1 s2 n : mem_ok m -> memcmp_words m s1 s2 n = memcmp m s1 s2 n.
Proof. intros Hm. unfold memcmp_words, memcmp. destruct (_ && _); [by apply skip_equal_same|done]. Qed.

(** ** Scanning strings *)

(** The first place at or after [s] where [stop] holds. *)
Definition first (stop : Z -> bool) (s r : Z) : Prop := s <= r /\ stop r = true /\ forall x, s <= x < r -> stop x = false.

Lemma first_later stop s p r : first stop s r -> s <= p <= r -> first stop p r.
Proof. intros (Hr & Hs & H) Hp. split; [lia|]. split; [done|]. intros x Hx. apply H. lia. Qed.
Lemma first_ext stop stop' s r : (forall x, stop x = stop' x) -> first stop s r -> first stop' s r.
Proof. intros He (Hr & Hs & H). split; [done|]. rewrite <- He. split; [done|]. intros x Hx. rewrite <- He. by apply H. Qed.
Lemma first_shift stop s k r : first stop (s + k) r -> first (fun x => stop (s + x)) k (r - s).
Proof. intros (Hr & Hs & H). split; [lia|]. rewrite Zplus_minus. split; [done|]. intros x Hx. apply H. lia. Qed.
Lemma advance_first fuel stop s r : first stop s r -> r - s < Z.of_nat fuel -> advance fuel stop 1 s = Some r.
Proof.
  revert s. induction fuel as [|fuel IH]; intros s Hf Hn; cbn [advance]; [destruct Hf; lia|].
  pose proof Hf as (Hr & Hs & H). destruct (Z.eq_dec s r) as [->|]; [by rewrite Hs|]. rewrite H by lia.
  apply IH; [apply (first_later _ s); [done|lia]|lia].
Qed.
(** A test of words holds when the test of one of their bytes does. *)
Definition lifts (stop wstop : Z -> bool) : Prop := forall a, wstop a = true <-> exists j, 0 <= j < 8 /\ stop (a + j) = true.
Lemma advance_words fuel stop wstop s r : lifts stop wstop -> first stop s r -> (r - s) / 8 < Z.of_nat fuel ->
  exists a, advance fuel wstop LBLOCKSIZE s = Some a /\ s <= a /\ a <= r < a + 8.
Proof.
  intros Hl. unfold LBLOCKSIZE. revert s. induction fuel as [|fuel IH]; intros s Hf Hn; cbn [advance]; [destruct Hf as (Hr & _); Z.div_mod_to_equations; lia|].
  pose proof Hf as (Hr & Hs & H). destruct (wstop s) eqn:E.
  - exists s. split; [done|]. split; [lia|]. apply Hl in E as (j & Hj & Ej). destruct (Z.le_gt_cases (s + 8) r); [|lia].
    rewrite H in Ej by lia. done.
  - assert (s + 8 <= r) as H8.
    { destruct (Z.le_gt_cases (s + 8) r); [done|]. enough (wstop s = true) by congruence. apply Hl. exists (r - s). split; [lia|]. by rewrite Zplus_minus. }
    destruct (IH (s + 8)) as (a & Ha & Hsa & Hra); [apply (first_later _ s); [done|lia]|rewrite Nat2Z.inj_succ in Hn; Z.div_mod_to_equations; lia|].
    exists a. split; [done|lia].
Qed.
Lemma scan_words fuel stop wstop s r : lifts stop wstop -> first stop s r -> r - s < Z.of_nat fuel -> 8 <= Z.of_nat fuel ->
  exists a, advance fuel wstop LBLOCKSIZE s = Some a /\ s <= a <= r /\ advance fuel stop 1 a = Some r.
Proof.
  intros Hl Hf Hn H8. destruct (advance_words fuel stop wstop s r Hl Hf) as (a & Ha & Hsa & Hra).
  { destruct Hf as (Hr & _). Z.div_mod_to_equations; lia. }
  exists a. split; [done|]. split; [lia|]. apply advance_first; [apply (first_later _ s); [done|lia]|lia].
Qed.
Lemma align_until_first fuel stop s r : first stop s r -> (s mod 8 = 0 \/ 8 - s mod 8 <= Z.of_nat fuel) ->
  match align_until fuel stop s with inl p => p = r | inr p => s <= p <= r end.
Proof.
  revert s. induction fuel as [|fuel IH]; intros s Hf Hn; cbn [align_until]; rewrite unaligned_mod; destruct (Z.eqb_spec (s mod 8) 0) as [E|E]; cbn [negb]; try (destruct Hf; lia).
  - exfalso. pose proof (Z.mod_pos_bound s 8). lia.
  - pose proof Hf as (Hr & Hs & H). destruct (Z.eq_dec s r) as [->|]; [by rewrite Hs|]. rewrite H by lia.
    specialize (IH (s + 1) ltac:(apply (first_later _ s); [done|lia]) ltac:(rewrite Nat2Z.inj_succ in Hn; Z.div_mod_to_equations; lia)).
    destruct (align_until _ _ _); lia.
Qed.

Lemma lifts_nul m : mem_ok m -> lifts (is_nul m) (has_nul m).
Proof. intros Hm a. by apply has_nul_spec. Qed.
Lemma lifts_or stop1 stop2 w1 w2 : lifts stop1 w1 -> lifts stop2 w2 -> lifts (fun p => stop1 p || stop2 p) (fun a => w1 a || w2 a).
Proof.
  intros H1 H2 a. rewrite orb_true_iff, (H1 a), (H2 a). split.
  - intros [(j & Hj & E)|(j & Hj & E)]; exists j; rewrite E; split; (done || by rewrite orb_true_r).
  - intros (j & Hj & E). apply orb_true_iff in E as [E|E]; [left|right]; by exists j.
Qed.
Lemma lifts_char m c : mem_ok m -> is_u8 c -> lifts (fun p => m p =? c) (fun a => negb (DETECTCHAR (load64 m a) (fill_word c) =? 0)).
Proof. intros Hm Hc a. rewrite negb_true_iff. by apply has_char_spec. Qed.
Lemma lifts_differ m s1 s2 : mem_ok m ->
  lifts (fun k => negb (m (s1 + k) =? m (s2 + k))) (fun k => negb (load64 m (s1 + k) =? load64 m (s2 + k))).
Proof.
  intros Hm k. rewrite negb_true_iff, <- not_true_iff_false, (load64_eq m _ _ Hm). split.
  - intros H. destruct (compare_bytes_spec 8 m (s1 + k) (s2 + k)) as [[_ He]|(j & Hj & _ & Hne & _)]; [by destruct H|].
    exists j. split; [done|]. rewrite !Z.add_assoc. by apply negb_true_iff, Z.eqb_neq.
  - intros (j & Hj & E) H. rewrite !Z.add_assoc, H, Z.eqb_refl in E; done.
Qed.
Lemma lifts_shift stop w s : lifts stop w -> lifts (fun k => stop (s + k)) (fun k => w (s + k)).
Proof. intros H k. rewrite (H (s + k)). by setoid_rewrite Z.add_assoc. Qed.

(** A scan that aligns, goes on by words and ends by bytes finds the first place. *)
Lemma scan_aligned fuel stop wstop s r : lifts stop wstop -> first stop s r -> r - s < Z.of_nat fuel -> 8 <= Z.of_nat fuel ->
  match align_until 8 stop s with
  | inl p => p = r
  | inr p => exists a, advance fuel wstop LBLOCKSIZE p = Some a /\ advance fuel stop 1 a = Some r
  end.
Proof.
  intros Hl Hf Hn H8. pose proof (align_until_first 8 stop s r Hf ltac:(pose proof (Z.mod_pos_bound s 8); lia)) as H.
  destruct (align_until 8 stop s) as [p|p]; [done|].
  destruct (scan_words fuel stop wstop p r Hl) as (a & Ha & _ & Hr); [by apply (first_later _ s)|lia|done|]. by exists a.
Qed.

Lemma strlen_first fuel m s r : first (is_nul m) s r -> r - s < Z.of_nat fuel -> strlen fuel m s = Some (r - s).
Proof. intros Hf Hn. unfold strlen. by rewrite (advance_first fuel _ s r Hf Hn). Qed.
Lemma strlen_words_first fuel m s r : mem_ok m -> first (is_nul m) s r -> r - s < Z.of_nat fuel -> 8 <= Z.of_nat fuel ->
  strlen_words fuel m s = Some (r - s).
Proof.
  intros Hm Hf Hn H8. unfold strlen_words. pose proof (scan_aligned fuel _ _ s r (lifts_nul m Hm) Hf Hn H8) as H.
  destruct (align_until 8 _ s) as [p|p]; [by subst|]. destruct H as (a & Ha & Hr). rewrite Ha. cbn [mbind option_bind]. by rewrite Hr.
Qed.
Lemma strnlen_loop_spec n m s : exists k, strnlen_loop n m s = s + k /\ 0 <= k <= Z.of_nat n /\
  (forall j, 0 <= j < k -> m (s + j) <> 0) /\ (k < Z.of_nat n -> m (s + k) = 0).
Proof.
  revert s. induction n as [|n IH]; intros s; cbn [strnlen_loop]; [exists 0; split; [lia|]; split; [lia|]; split; [intros j Hj; lia|lia]|].
  destruct (Z.eqb_spec (m s) 0) as [E|E]; [exists 0; rewrite Z.add_0_r; split; [done|]; split; [lia|]; split; [intros j Hj; lia|done]|].
  destruct (IH (s + 1)) as (k & Hk & Hb & Hn & Hz). exists (1 + k). rewrite Z.add_assoc. split; [done|]. split; [lia|]. split.
  - intros j Hj. destruct (Z.eq_dec j 0) as [->|]; [by rewrite Z.add_0_r|]. replace (s + j) with (s + 1 + (j - 1)) by lia. apply Hn. lia.
  - intros Hlt. apply Hz. lia.
Qed.
Lemma strnlen_first m s r n : first (is_nul m) s r -> 0 <= n -> strnlen m s n = Z.min (r - s) n.
Proof.
  intros (Hr & Hs & H) Hn. unfold strnlen. destruct (strnlen_loop_spec (Z.to_nat n) m s) as (k & -> & Hk & Hnz & Hz).
  rewrite Z2Nat.id in * by done. unfold is_nul in *. destruct (Z.lt_trichotomy (s + k) r) as [Hlt|[Heq|Hgt]]; [|lia|].
  - destruct (Z.eq_dec k n) as [->|]; [lia|]. specialize (H (s + k) ltac:(lia)). specialize (Hz ltac:(lia)). lia.
  - specialize (Hnz (r - s) ltac:(lia)). rewrite Zplus_minus in Hnz. lia.
Qed.
Lemma strchr_bytes_first fuel m s c r : first (fun p => is_nul m p || (m p =? c)) s r -> r - s < Z.of_nat fuel ->
  strchr_bytes fuel m s c = Some (if m r =? c then Some r else None).
Proof. intros Hf Hn. unfold strchr_bytes. by rewrite (advance_first fuel _ s r Hf Hn). Qed.
Lemma strchr_words_first fuel m s i r : mem_ok m -> first (fun p => is_nul m p || (m p =? u8 i)) s r -> r - s < Z.of_nat fuel -> 8 <= Z.of_nat fuel ->
  strchr_words fuel m s i = Some (if m r =? u8 i then Some r else None).
Proof.
  intros Hm Hf Hn H8. unfold strchr_words. pose proof (u8_range i) as Hc. pose proof Hf as (_ & Hs & _). destruct (Z.eqb_spec (u8 i) 0) as [E|E].
  - rewrite E in *. assert (first (is_nul m) s r) as Hf' by (eapply first_ext, Hf; intros x; cbn beta; unfold is_nul; apply orb_diag).
    unfold is_nul in Hs. rewrite orb_diag in Hs. rewrite Hs. pose proof (scan_aligned fuel _ _ s r (lifts_nul m Hm) Hf' Hn H8) as H.
    destruct (align_until 8 _ s) as [p|p]; [by subst|]. destruct H as (a & Ha & Hr). rewrite Ha. cbn [mbind option_bind]. by rewrite Hr.
  - pose proof (scan_aligned fuel _ _ s r (lifts_or _ _ _ _ (lifts_nul m Hm) (lifts_char m (u8 i) Hm Hc)) Hf Hn H8) as H.
    destruct (align_until 8 _ s) as [p|p].
    + subst. unfold is_nul in *. destruct (Z.eqb_spec (m r) 0) as [->|]; [|by destruct (m r =? u8 i)]. by destruct (Z.eqb_spec 0 (u8 i)); [congruence|].
    + destruct H as (a & Ha & Hr). rewrite Ha. cbn [mbind option_bind]. unfold strchr_bytes. by rewrite Hr.
Qed.

(** Where the comparison of two strings ends. *)
Definition cmp_stop (m : memory) (s1 s2 k : Z) : bool := is_nul m (s1 + k) || negb (m (s1 + k) =? m (s2 + k)).
Lemma strcmp_first fuel m s1 s2 k : first (cmp_stop m s1 s2) 0 k -> k < Z.of_nat fuel -> strcmp fuel m s1 s2 = Some (m (s1 + k) - m (s2 + k)).
Proof. intros Hf Hn. unfold strcmp, strcmp_bytes. rewrite (advance_first fuel (fun k => _) 0 k Hf); [done|lia]. Qed.
Lemma strcmp_words_first fuel m s1 s2 k : mem_ok m -> first (cmp_stop m s1 s2) 0 k -> k < Z.of_nat fuel -> 8 <= Z.of_nat fuel ->
  strcmp_words fuel m s1 s2 = Some (m (s1 + k) - m (s2 + k)).
Proof.
  intros Hm Hf Hn H8. unfold strcmp_words. destruct (UNALIGNED2 s1 s2); cbn [negb]; [by apply strcmp_first|].
  destruct (advance_words fuel (cmp_stop m s1 s2) (fun k => negb (load64 m (s1 + k) =? load64 m (s2 + k)) || has_nul m (s1 + k)) 0 k) as (a & -> & Ha & Hk).
  - intros a. rewrite orb_comm. exact (lifts_or _ _ _ _ (lifts_shift _ _ s1 (lifts_nul m Hm)) (lifts_differ m s1 s2 Hm) a).
  - done.
  - destruct Hf as (Hr & _). Z.div_mod_to_equations; lia.
  - cbn [mbind option_bind]. destruct (load64 m (s1 + a) =? load64 m (s2 + a)) eqn:E.
    + rewrite load64_eq in E by done. specialize (E (k - a) ltac:(lia)). rewrite <- !Z.add_assoc, Zplus_minus in E. rewrite E. f_equal. lia.
    + replace k with (a + (k - a)) by lia. rewrite !Z.add_assoc. apply strcmp_first; [|lia]. unfold first, cmp_stop in *. destruct Hf as (H0 & Hs & H).
      split; [lia|]. rewrite <- !Z.add_assoc, Zplus_minus. split; [done|]. intros x Hx. rewrite <- !Z.add_assoc. apply H. lia.
Qed.

(** ** Comparing and copying at most so many characters *)

Lemma strncmp_loop_skip k n m s1 s2 : (forall j, 0 <= j < Z.of_nat k -> cmp_stop m s1 s2 j = false) -> (0 < n)%nat ->
  strncmp_loop (k + n) m s1 s2 = strncmp_loop n m (s1 + Z.of_nat k) (s2 + Z.of_nat k).
Proof.
  intros H Hn. revert s1 s2 H. induction k as [|k IH]; intros s1 s2 H; cbn [strncmp_loop Nat.add]; [by rewrite !Z.add_0_r|].
  pose proof (H 0 ltac:(lia)) as H0. unfold cmp_stop, is_nul in H0. rewrite !Z.add_0_r in H0. apply orb_false_iff in H0 as [-> ->].
  replace (k + n =? 0)%nat with false by (symmetry; apply Nat.eqb_neq; lia). cbn [orb].
  rewrite IH; [f_equal; lia|]. intros j Hj. unfold cmp_stop. rewrite <- !Z.add_assoc. apply (H (1 + j)). lia.
Qed.
(** The end of the comparison, or the last character. *)
Lemma strncmp_loop_first n m s1 s2 k : first (fun k => cmp_stop m s1 s2 k || (k =? Z.of_nat n - 1)) 0 k -> k < Z.of_nat n ->
  strncmp_loop n m s1 s2 = m (s1 + k) - m (s2 + k).
Proof.
  intros (Hk & Hs & H) Hn. pose proof (Z2Nat.id k Hk) as Ek. replace n with (Z.to_nat k + S (n - Z.to_nat k - 1))%nat by lia.
  rewrite strncmp_loop_skip; [|intros j Hj; specialize (H j ltac:(lia)); by apply orb_false_iff in H as [-> _]|lia].
  rewrite Ek. cbn [strncmp_loop]. unfold cmp_stop, is_nul in Hs. destruct (Nat.eqb_spec (n - Z.to_nat k - 1) 0) as [E|E]; [by rewrite orb_true_r|].
  replace (k =? Z.of_nat n - 1) with false in Hs by lia. rewrite orb_false_r, orb_comm in Hs. by rewrite orb_false_r, Hs.
Qed.
Lemma strncmp_first m s1 s2 n k : first (fun k => cmp_stop m s1 s2 k || (k =? n - 1)) 0 k -> k < n -> strncmp m s1 s2 n = m (s1 + k) - m (s2 + k).
Proof.
  intros Hf Hn. unfold strncmp. pose proof Hf as (Hk & _). replace (n =? 0) with false by lia.
  apply strncmp_loop_first; rewrite Z2Nat.id by lia; done.
Qed.
Lemma strncmp_words_loop_same fuel m s1 s2 n : mem_ok m -> 0 < n ->
  match strncmp_words_loop fuel m s1 s2 n with
  | inl _ => strncmp_loop (Z.to_nat n) m s1 s2 = 0
  | inr (a1, a2, n') => strncmp_loop (Z.to_nat n') m a1 a2 = strncmp_loop (Z.to_nat n) m s1 s2
  end.
Proof.
  intros Hm. revert s1 s2 n. induction fuel as [|fuel IH]; intros s1 s2 n Hn; cbn [strncmp_words_loop]; [done|].
  destruct (_ && _) eqn:E; [|done]. unfold LBLOCKSIZE in *. apply andb_true_iff in E as [E1 E2]. rewrite load64_eq in E2 by done.
  destruct (_ || _) eqn:E3.
  - assert (exists k, first (fun k => cmp_stop m s1 s2 k || (k =? Z.of_nat (Z.to_nat n) - 1)) 0 k /\ k < 8 /\ k < Z.of_nat (Z.to_nat n)) as (k & Hk & Hk8 & Hkn).
    { destruct (strnlen_loop_spec 8 m s1) as (k & _ & Hk & Hnz & Hz). rewrite Z2Nat.id by lia. change (Z.of_nat 8) with 8 in *.
      assert (forall j, 0 <= j < k -> cmp_stop m s1 s2 j = false) as Hc.
      { intros j Hj. unfold cmp_stop, is_nul. rewrite E2 by lia. specialize (Hnz j Hj). rewrite E2 in Hnz by lia. by rewrite Z.eqb_refl, orb_false_r, Z.eqb_neq. }
      destruct (Z.eq_dec k 8) as [->|].
      - assert (n = 8) as ->.
        { apply orb_true_iff in E3 as [E3|E3]; [lia|]. apply has_nul_spec in E3 as (j & Hj & E3); [|done]. exfalso. apply (Hnz j Hj). by apply Z.eqb_eq. }
        exists 7. split; [|lia]. split; [lia|]. split; [by rewrite orb_true_r|]. intros x Hx. rewrite Hc by lia. lia.
      - exists k. split; [|lia]. split; [lia|]. split.
        + unfold cmp_stop, is_nul. rewrite Hz by lia. done.
        + intros x Hx. rewrite Hc by lia. lia. }
    rewrite (strncmp_loop_first _ _ _ _ _ Hk Hkn). destruct Hk as (H0 & _). rewrite E2 by lia. lia.
  - apply orb_false_iff in E3 as [E3 E4]. specialize (IH (s1 + 8) (s2 + 8) (n - 8) ltac:(lia)).
    replace (Z.to_nat n) with (8 + Z.to_nat (n - 8))%nat by lia. rewrite strncmp_loop_skip; [exact IH| |lia].
    intros j Hj. unfold cmp_stop. rewrite E2 by done. rewrite Z.eqb_refl, orb_false_r. apply not_true_iff_false. intros En.
    assert (has_nul m s1 = true) by (apply has_nul_spec; [done|]; by exists j). congruence.
Qed.
Lemma strncmp_words_same m s1 s2 n : mem_ok m -> 0 <= n -> strncmp_words m s1 s2 n = strncmp m s1 s2 n.
Proof.
  intros Hm Hn. unfold strncmp_words, strncmp. destruct (Z.eqb_spec n 0) as [|Hn0]; [done|]. destruct (negb _); [|done].
  pose proof (strncmp_words_loop_same (Z.to_nat n) m s1 s2 n Hm ltac:(lia)) as H. destruct (strncmp_words_loop _ _ _ _ _) as [[]|[[a1 a2] n']]; done.
Qed.

(** A copy so far has not changed what is still to be copied. *)
Lemma moved_source m dst src k n x : apart dst src n -> k <= n -> src + k <= x < src + n -> moved m dst src k x = m x.
Proof. unfold moved, apart. intros Ha Hk Hx. cmp. Qed.
Lemma moved_one m dst src x : upd m dst (m src) x = moved m dst src 1 x.
Proof. unfold upd, moved. destruct (Z.eqb_spec x dst) as [->|]; cmp. Qed.
Lemma strcpy_loop_moved fuel m dst src n : first (is_nul m) src (src + n) -> apart dst src (n + 1) -> n < Z.of_nat fuel ->
  exists m', strcpy_loop fuel m dst src = Some m' /\ forall x, m' x = moved m dst src (n + 1) x.
Proof.
  revert m dst src n. induction fuel as [|fuel IH]; intros m dst src n (H0 & Hz & Hnz) Ha Hn; cbn [strcpy_loop]; [lia|]. unfold is_nul in *.
  destruct (Z.eq_dec n 0) as [->|].
  - rewrite Z.add_0_r in Hz. rewrite Hz. exists (upd m dst (m src)). split; [done|]. intros x. apply moved_one.
  - rewrite Hnz by lia. destruct (IH (upd m dst (m src)) (dst + 1) (src + 1) (n - 1)) as (m' & Hm' & H).
    + replace (src + 1 + (n - 1)) with (src + n) by lia. split; [lia|]. unfold is_nul. setoid_rewrite moved_one.
      split; [rewrite (moved_source _ _ _ 1 (n + 1)) by (done || lia); done|].
      intros x Hx. rewrite (moved_source _ _ _ 1 (n + 1)) by (done || lia). apply Hnz. lia.
    + unfold apart in *. lia.
    + lia.
    + exists m'. split; [done|]. intros x. rewrite H, (moved_ext _ _ _ _ _ _ (moved_one m dst src)), moved_moved; [f_equal; lia|lia..|unfold apart in *; lia].
Qed.
Lemma strcpy_skip_copied fuel m dst src n p len' : mem_ok m -> first (is_nul m) src (src + n) -> apart dst src (n + 1) ->
  copied m dst src (n + 1) (p, len') -> 0 < len' -> len' <= Z.of_nat fuel ->
  exists p' l, strcpy_skip fuel p = Some p' /\ copied m dst src (n + 1) (p', l) /\ 0 < l.
Proof.
  intros Hm Hf Ha. revert p len'. induction fuel as [|fuel IH]; intros p len' Hc H0 Hl; [lia|].
  destruct p as [[m1 d1] s1]. cbn [strcpy_skip]. destruct (has_nul m1 s1) eqn:E; [by exists (m1, d1, s1), len'|].
  apply not_true_iff_false in E. destruct Hc as (k & Hk & -> & -> & -> & H1).
  assert (mem_ok m1) as Hm1 by (intros x; rewrite H1; by apply moved_ok).
  rewrite (has_nul_spec m1 _ Hm1) in E. assert (n - k >= 8) as Hge.
  { destruct (Z.lt_ge_cases (n - k) 8) as [Hlt|]; [|lia]. exfalso. apply E. exists (n - k). destruct Hf as (Hr & Hz & _). split; [lia|].
    unfold is_nul in *. rewrite H1, (moved_source m dst src k (n + 1)); [|done|lia|lia]. by replace (src + k + (n - k)) with (src + n) by lia. }
  apply (IH (copy_word (m1, dst + k, src + k)) (n + 1 - k - LBLOCKSIZE)); [|unfold LBLOCKSIZE; lia..].
  apply copied_word; [done..| |unfold LBLOCKSIZE; lia]. by exists k.
Qed.
Lemma strcpy_words_moved fuel m dst src n : mem_ok m -> first (is_nul m) src (src + n) -> apart dst src (n + 1) -> n < Z.of_nat fuel ->
  exists m', strcpy_words fuel m dst src = Some m' /\ forall x, m' x = moved m dst src (n + 1) x.
Proof.
  intros Hm Hf Ha Hn. unfold strcpy_words. destruct (UNALIGNED2 src dst); cbn [negb mbind option_bind]; [by apply strcpy_loop_moved|].
  pose proof Hf as (Hr & Hz & Hnz). destruct (strcpy_skip_copied fuel m dst src n (m, dst, src) (n + 1) Hm Hf Ha (copied_start m dst src (n + 1) ltac:(lia)) ltac:(lia) ltac:(lia))
    as ([[m1 d1] s1] & l & -> & (k & Hk & -> & -> & -> & H1) & Hl). cbn [mbind option_bind].
  destruct (strcpy_loop_moved fuel m1 (dst + k) (src + k) (n - k)) as (m' & -> & H).
  - replace (src + k + (n - k)) with (src + n) by lia. unfold is_nul in *. split; [lia|]. setoid_rewrite H1.
    split; [by rewrite (moved_source _ _ _ k (n + 1)) by (done || lia)|]. intros x Hx. rewrite (moved_source _ _ _ k (n + 1)) by (done || lia). apply Hnz. lia.
  - unfold apart in *. lia.
  - lia.
  - exists m'. split; [done|]. intros x. rewrite H, (moved_ext _ _ _ _ _ _ H1), moved_moved; [f_equal; lia|lia..|unfold apart in *; lia].
Qed.

(** The length of the string at [src], or [n] where it has no end before. *)
Definition nlen (m : memory) (src n k : Z) : Prop := 0 <= k <= n /\ (forall j, 0 <= j < k -> m (src + j) <> 0) /\ (k < n -> m (src + k) = 0).
Lemma nlen_strnlen m src n : 0 <= n -> nlen m src n (strnlen m src n).
Proof.
  intros Hn. unfold strnlen. destruct (strnlen_loop_spec (Z.to_nat n) m src) as (k & -> & Hk & Hnz & Hz). rewrite Z2Nat.id in * by done.
  by replace (src + k - src) with k by lia.
Qed.
Lemma nlen_later m m' src n k j : nlen m src n k -> 0 <= j <= k -> (forall x, src + j <= x < src + n -> m' x = m x) -> nlen m' (src + j) (n - j) (k - j).
Proof.
  intros (Hk & Hnz & Hz) Hj He. split; [lia|]. split.
  - intros i Hi. rewrite He by lia. rewrite <- Z.add_assoc. apply Hnz. lia.
  - intros Hlt. rewrite He by lia. replace (src + j + (k - j)) with (src + k) by lia. apply Hz. lia.
Qed.
(** What [strncpy] makes of memory. *)
Definition padded (m : memory) (dst src k n : Z) : memory := filled (moved m dst src k) (dst + k) 0 (n - k).
Lemma padded_later m m' dst src k n j x : apart dst src n -> 0 <= j <= k -> k <= n -> (forall y, m' y = moved m dst src j y) ->
  padded m' (dst + j) (src + j) (k - j) (n - j) x = padded m dst src k n x.
Proof.
  intros Ha Hj Hk He. unfold padded. replace (dst + j + (k - j)) with (dst + k) by lia. replace (n - j - (k - j)) with (n - k) by lia.
  apply filled_ext. intros y. rewrite (moved_ext _ _ _ _ _ _ He), moved_moved; [f_equal; lia|lia..|unfold apart in *; lia].
Qed.
Lemma strncpy_loop_padded n m dst src k x : nlen m src (Z.of_nat n) k -> apart dst src (Z.of_nat n) ->
  strncpy_loop n m dst src x = padded m dst src k (Z.of_nat n) x.
Proof.
  revert m dst src k. induction n as [|n IH]; intros m dst src k Hl Ha; pose proof Hl as (Hk & Hnz & Hz); cbn [strncpy_loop].
  - change (Z.of_nat 0) with 0 in *. unfold padded, filled, moved. cmp.
  - rewrite Nat2Z.inj_succ, <- Z.add_1_r in *. pose proof (Nat2Z.is_nonneg n). destruct (Z.eq_dec k 0) as [->|Hk0].
    + rewrite Z.add_0_r in Hz. rewrite Hz by lia. rewrite Z.eqb_refl, set_bytes_filled. change (u8 0) with 0. unfold padded, filled, moved, upd.
      generalize dependent (Z.of_nat n). intros z **. destruct (Z.eqb_spec x dst) as [->|]; cmp.
    + pose proof (Hnz 0 ltac:(lia)) as H0. rewrite Z.add_0_r in H0. apply Z.eqb_neq in H0. rewrite H0.
      assert (forall y, upd m dst (m src) y = moved m dst src 1 y) as He by apply moved_one.
      rewrite <- (padded_later m _ dst src k (Z.of_nat n + 1) 1 x Ha ltac:(lia) ltac:(lia) He). rewrite Z.add_simpl_r. apply IH.
      * rewrite <- (Z.add_simpl_r (Z.of_nat n) 1). apply (nlen_later m); [done|lia|]. intros y Hy. rewrite He. apply (moved_source _ _ _ _ (Z.of_nat n + 1)); [done|lia..].
      * unfold apart in *. lia.
Qed.
Lemma strncpy_skip_copied fuel m dst src n k p len' : mem_ok m -> nlen m src n k -> apart dst src n ->
  copied m dst src n (p, len') -> n - len' <= k ->
  copied m dst src n (strncpy_skip fuel p len') /\ n - snd (strncpy_skip fuel p len') <= k.
Proof.
  intros Hm Hl Ha. revert p len'. induction fuel as [|fuel IH]; intros p len' Hc Hk; [done|].
  destruct p as [[m1 d1] s1]. cbn [strncpy_skip]. destruct (_ && _) eqn:E; [|done]. apply andb_true_iff in E as [E1 E2].
  apply IH; [apply copied_word; [done..|lia]|]. unfold LBLOCKSIZE in *. apply negb_true_iff, not_true_iff_false in E2.
  destruct Hc as (j & Hj & -> & -> & -> & H1).
  assert (mem_ok m1) as Hm1 by (intros x; rewrite H1; by apply moved_ok). rewrite (has_nul_spec m1 _ Hm1) in E2.
  destruct (Z.le_gt_cases (j + 8) k) as [|Hgt]; [lia|]. exfalso. apply E2. destruct Hl as (Hk' & _ & Hz). exists (k - j). split; [lia|].
  unfold is_nul. rewrite H1, (moved_source m dst src j n); [|done|lia|lia]. replace (src + j + (k - j)) with (src + k) by lia. apply Z.eqb_eq, Hz. lia.
Qed.
Lemma strncpy_padded m dst src n x : 0 <= n -> apart dst src n -> strncpy m dst src n x = padded m dst src (strnlen m src n) n x.
Proof.
  intros Hn Ha. unfold strncpy. rewrite (strncpy_loop_padded _ _ _ _ (strnlen m src n)); rewrite Z2Nat.id by done; [done| |done]. by apply nlen_strnlen.
Qed.
Lemma strncpy_words_padded m dst src n x : mem_ok m -> 0 <= n -> apart dst src n ->
  strncpy_words m dst src n x = padded m dst src (strnlen m src n) n x.
Proof.
  intros Hm Hn Ha. unfold strncpy_words. destruct (_ && _); [|by apply strncpy_padded]. pose proof (nlen_strnlen m src n Hn) as Hl. set (k := strnlen m src n) in *.
  destruct (strncpy_skip_copied (Z.to_nat n) m dst src n k (m, dst, src) n Hm Hl Ha (copied_start m dst src n Hn) ltac:(destruct Hl; lia)) as [Hc Hk].
  destruct (strncpy_skip _ _ _) as [[[m1 d1] s1] l]. cbn [snd] in Hk. destruct Hc as (j & Hj & -> & -> & -> & H1).
  rewrite <- (padded_later m m1 dst src k n j x Ha ltac:(lia) ltac:(destruct Hl; lia) H1).
  rewrite (strncpy_loop_padded _ _ _ _ (k - j)); rewrite Z2Nat.id by lia; [done| |unfold apart in *; lia].
  apply (nlen_later m); [done|lia|]. intros y Hy. rewrite H1. by apply (moved_source _ _ _ _ n); [|lia|].
Qed.

(** ** The two versions *)

(** C30: on any memory of bytes the version for small size and the one that works by words agree, and both do what the standard says: [memmove] leaves the [n] bytes that were at the source at the destination, however the two overlap; so does [memcpy] where it is used as it may be; [memset] fills; [memchr] returns the first place of the byte, or NULL if it is not among the [n]; [memcmp] returns the difference of the first bytes that differ, or 0 if none does. *)
Theorem libc_memory_functions (m : memory) : mem_ok m ->
  (forall dst src n x, 0 <= n -> memmove m dst src n x = moved m dst src n x /\ memmove_words m dst src n x = moved m dst src n x) /\
  (forall dst src n x, 0 <= n -> apart dst src n -> memcpy m dst src n x = moved m dst src n x /\ memcpy_words m dst src n x = moved m dst src n x) /\
  (forall s c n x, 0 <= n -> memset m s c n x = filled m s (u8 c) n x /\ memset_words m s c n x = filled m s (u8 c) n x) /\
  (forall src c n, 0 <= n -> memchr_words m src c n = memchr m src c n /\
     match memchr m src c n with
     | Some r => src <= r < src + n /\ m r = u8 c /\ forall x, src <= x < r -> m x <> u8 c
     | None => forall x, src <= x < src + n -> m x <> u8 c
     end) /\
  (forall s1 s2 n, 0 <= n -> memcmp_words m s1 s2 n = memcmp m s1 s2 n /\
     ((memcmp m s1 s2 n = 0 /\ forall j, 0 <= j < n -> m (s1 + j) = m (s2 + j)) \/
      exists k, 0 <= k < n /\ (forall j, 0 <= j < k -> m (s1 + j) = m (s2 + j)) /\ m (s1 + k) <> m (s2 + k) /\
                memcmp m s1 s2 n = m (s1 + k) - m (s2 + k))).
Proof.
  intros Hm. split; [|split; [|split; [|split]]].
  - intros dst src n x Hn. by rewrite memmove_moved, memmove_words_moved.
  - intros dst src n x Hn Ha. by rewrite memcpy_moved, memcpy_words_moved.
  - intros s c n x Hn. by rewrite memset_filled, memset_words_filled.
  - intros src c n Hn. split; [by apply memchr_words_same|]. pose proof (find_byte_spec (Z.to_nat n) m src (u8 c)) as H. by rewrite Z2Nat.id in H.
  - intros s1 s2 n Hn. split; [by apply memcmp_words_same|]. pose proof (compare_bytes_spec (Z.to_nat n) m s1 s2) as H. by rewrite Z2Nat.id in H.
Qed.

(** Memory with some text at address 0, for the instances. *)
Definition text (bs : list Z) : memory := fun x => if 0 <=? x then byte_at bs x else 0.
Lemma text_ok bs : is_bytes bs -> mem_ok (text bs).
Proof. intros H x. unfold text. case_match; [|done]. unfold byte_at. destruct (nth_in_or_default (Z.to_nat x) bs 0) as [Hin| ->]; [|done].
  by apply (proj1 (List.Forall_forall _ _) H). Qed.
Definition sample : memory := text [97; 98; 99; 100; 101; 102; 103; 104; 105; 106; 107; 0; 97; 98; 0].
Lemma libc_memory_functions_witness :
  memmove_words sample 3 0 12 13 = 107 /\ memmove sample 3 0 12 13 = 107 /\
  moved sample 3 0 12 13 = 107 /\ memchr_words sample 3 107 11 = memchr sample 3 107 11 /\ memchr sample 3 107 11 = Some 10.
Proof.
  assert (mem_ok sample) as Hm by (apply text_ok; repeat (apply Forall_cons_2; [done|]); apply Forall_nil_2).
  pose proof (libc_memory_functions sample Hm) as (H1 & _ & _ & H2 & _).
  destruct (H1 3 0 12 13) as [E1 E2]; [lia|]. destruct (H2 3 107 11) as [E3 _]; [lia|].
  rewrite E1, E2, E3. repeat split; reflexivity.
Defined.

(** C31: on any memory of bytes both versions of the string functions return on strings that end within the distance given, with the same result: [strlen] the distance of the terminator, [strnlen] at most [n]; [strchr] the first place of the character, the terminator included, or NULL; [strcmp] and [strncmp] the difference where the strings first differ or end, or at the last character compared; [strcpy] copies the string with its terminator, and [strncpy] its characters and zeros behind them, exactly [n] bytes in all. *)
Theorem libc_string_functions (m : memory) (fuel : nat) : mem_ok m -> 8 <= Z.of_nat fuel ->
  (forall s r, first (is_nul m) s r -> r - s < Z.of_nat fuel -> strlen fuel m s = Some (r - s) /\ strlen_words fuel m s = Some (r - s)) /\
  (forall s r n, first (is_nul m) s r -> 0 <= n -> strnlen m s n = Z.min (r - s) n) /\
  (forall s i r, first (fun p => is_nul m p || (m p =? u8 i)) s r -> r - s < Z.of_nat fuel ->
     let place := if m r =? u8 i then Some r else None in strchr fuel m s i = Some place /\ strchr_words fuel m s i = Some place) /\
  (forall s1 s2 k, first (cmp_stop m s1 s2) 0 k -> k < Z.of_nat fuel ->
     strcmp fuel m s1 s2 = Some (m (s1 + k) - m (s2 + k)) /\ strcmp_words fuel m s1 s2 = Some (m (s1 + k) - m (s2 + k))) /\
  (forall s1 s2 n k, first (fun k => cmp_stop m s1 s2 k || (k =? n - 1)) 0 k -> k < n ->
     strncmp m s1 s2 n = m (s1 + k) - m (s2 + k) /\ strncmp_words m s1 s2 n = m (s1 + k) - m (s2 + k)) /\
  (forall dst src n, first (is_nul m) src (src + n) -> apart dst src (n + 1) -> n < Z.of_nat fuel -> exists m1 m2,
     strcpy fuel m dst src = Some m1 /\ strcpy_words fuel m dst src = Some m2 /\ forall x, m1 x = moved m dst src (n + 1) x /\ m2 x = moved m dst src (n + 1) x) /\
  (forall dst src n x, 0 <= n -> apart dst src n -> let k := strnlen m src n in
     strncpy m dst src n x = filled (moved m dst src k) (dst + k) 0 (n - k) x /\
     strncpy_words m dst src n x = filled (moved m dst src k) (dst + k) 0 (n - k) x).
Proof.
  intros Hm H8. split; [|split; [|split; [|split; [|split; [|split]]]]].
  - intros s r Hf Hn. by rewrite (strlen_first fuel m s r), (strlen_words_first fuel m s r).
  - intros s r n. apply strnlen_first.
  - intros s i r Hf Hn. split; [by apply strchr_bytes_first|by apply strchr_words_first].
  - intros s1 s2 k Hf Hn. by rewrite (strcmp_first fuel m s1 s2 k), (strcmp_words_first fuel m s1 s2 k).
  - intros s1 s2 n k Hf Hn. pose proof Hf as (Hk & _). rewrite strncmp_words_same by (done || lia). by rewrite (strncmp_first m s1 s2 n k).
  - intros dst src n Hf Ha Hn. destruct (strcpy_loop_moved fuel m dst src n Hf Ha Hn) as (m1 & H1 & E1).
    destruct (strcpy_words_moved fuel m dst src n Hm Hf Ha Hn) as (m2 & H2 & E2). by exists m1, m2.
  - intros dst src n x Hn Ha. by rewrite strncpy_padded, strncpy_words_padded.
Qed.

Lemma libc_string_functions_witness :
  strlen 20 sample 0 = Some 11 /\ strlen_words 20 sample 0 = Some 11 /\ strnlen sample 0 5 = 5 /\
  strcmp_words 20 sample 0 12 = Some 99 /\ strchr_words 20 sample 0 0x16b = Some (Some 10) /\ strncpy_words sample 24 12 8 28 = 0.
Proof.
  assert (mem_ok sample) as Hm by (apply text_ok; repeat (apply Forall_cons_2; [done|]); apply Forall_nil_2).
  pose proof (libc_string_functions sample 20 Hm ltac:(lia)) as (H1 & H2 & H3 & H4 & _ & _ & H5).
  assert (forall stop s r, s <= r -> stop r = true -> forallb (fun j => negb (stop (s + j))) (range (r - s)) = true -> first stop s r) as Hfirst.
  { intros stop s r Hr Hs H. split; [done|]. split; [done|]. intros x Hx. rewrite forallb_forall in H.
    specialize (H (x - s)). rewrite Zplus_minus in H. apply negb_true_iff, H, list_elem_of_In, elem_of_range. lia. }
  assert (first (is_nul sample) 0 11) as Hf by (apply Hfirst; [lia|reflexivity|vm_compute; reflexivity]).
  destruct (H1 0 11 Hf ltac:(lia)) as [E1 E2]. specialize (H2 0 11 5 Hf ltac:(lia)).
  destruct (H4 0 12 2) as [_ E4]; [apply Hfirst; [lia|reflexivity|vm_compute; reflexivity]|lia|].
  destruct (H3 0 0x16b 10) as [_ E3]; [apply Hfirst; [lia|reflexivity|vm_compute; reflexivity]|lia|].
  destruct (H5 24 12 8 28) as [_ E5]; [lia|right; lia|].
  rewrite E1, E2, E3, E4, E5, H2. repeat split; reflexivity.
Defined.
