(* ===== verification/FsOffsets.v ===== *)
(** emummc: the places in the file system module (FS) that emummc patches or
    calls, for each version of FS: FS_versions.h, FS_offsets.h, FS_offsets.c and
    the tables offsets/100.h .. offsets/900_exfat.h.  Offsets are relative to the
    code of FS. *)
From S2P Require Import Prelude.

(** FS_versions.h: the versions that the code compares with. *)
Definition FS_VER_1_0_0 : Z := 0.
Definition FS_VER_7_0_0 : Z := 19.
Definition FS_VER_8_0_0 : Z := 21.
Definition FS_VER_MAX : Z := 27.

Record fs_offsets_nintendo_path_t := mk_path {
  opcode_reg : Z;
  adrp_offset : Z;
  add_rel_offset : Z }.

(** The fields have their C names after [fo_]. *)
Record fs_offsets_t := mk_fs_offsets {
  fo_sdmmc_accessor_gc : Z;
  fo_sdmmc_accessor_sd : Z;
  fo_sdmmc_accessor_nand : Z;
  fo_sdmmc_wrapper_read : Z;
  fo_sdmmc_wrapper_write : Z;
  fo_rtld : Z;
  fo_rtld_destination : Z;
  fo_clkrst_set_min_v_clock_rate : Z;
  fo_lock_mutex : Z;
  fo_unlock_mutex : Z;
  fo_sdmmc_accessor_controller_close : Z;
  fo_sd_mutex : Z;
  fo_nand_mutex : Z;
  fo_active_partition : Z;
  fo_sdmmc_das_handle : Z;
  fo_sd_das_init : Z;
  nintendo_paths : list fs_offsets_nintendo_path_t }.

Definition g_offsets_100 : fs_offsets_t := {|
  fo_sdmmc_accessor_gc := 0x6F850; fo_sdmmc_accessor_sd := 0x6F65C; fo_sdmmc_accessor_nand := 0x6F230;
  fo_sdmmc_wrapper_read := 0x6A930; fo_sdmmc_wrapper_write := 0x6A9F0; fo_rtld := 0x534;
  fo_rtld_destination := 0xA0; fo_clkrst_set_min_v_clock_rate := 0x0; fo_lock_mutex := 0x2884;
  fo_unlock_mutex := 0x28F0; fo_sdmmc_accessor_controller_close := 0x6A8AC; fo_sd_mutex := 0xE36058;
  fo_nand_mutex := 0xE30610; fo_active_partition := 0xE30650; fo_sdmmc_das_handle := 0xE2F730;
  fo_sd_das_init := 0x0;
  nintendo_paths := [
    mk_path 9 0x32C58 4;
    mk_path 8 0x32C60 4;
    mk_path 9 0x32F3C 4;
    mk_path 8 0x32F44 4;
    mk_path 0 0 0] |}.

Definition g_offsets_200 : fs_offsets_t := {|
  fo_sdmmc_accessor_gc := 0x78BAC; fo_sdmmc_accessor_sd := 0x7894C; fo_sdmmc_accessor_nand := 0x784BC;
  fo_sdmmc_wrapper_read := 0x73478; fo_sdmmc_wrapper_write := 0x73538; fo_rtld := 0x500;
  fo_rtld_destination := 0x98; fo_clkrst_set_min_v_clock_rate := 0x0; fo_lock_mutex := 0x3264;
  fo_unlock_mutex := 0x32D0; fo_sdmmc_accessor_controller_close := 0x733F4; fo_sd_mutex := 0xE42268;
  fo_nand_mutex := 0xE3CED0; fo_active_partition := 0xE3CF10; fo_sdmmc_das_handle := 0xE3BDD0;
  fo_sd_das_init := 0x0;
  nintendo_paths := [
    mk_path 3 0x33F08 0x4;
    mk_path 3 0x35084 0xC;
    mk_path 3 0x3537C 0xC;
    mk_path 0 0 0] |}.

Definition g_offsets_200_exfat : fs_offsets_t := {|
  fo_sdmmc_accessor_gc := 0x78BAC; fo_sdmmc_accessor_sd := 0x7894C; fo_sdmmc_accessor_nand := 0x784BC;
  fo_sdmmc_wrapper_read := 0x73478; fo_sdmmc_wrapper_write := 0x73538; fo_rtld := 0x500;
  fo_rtld_destination := 0x98; fo_clkrst_set_min_v_clock_rate := 0x0; fo_lock_mutex := 0x3264;
  fo_unlock_mutex := 0x32D0; fo_sdmmc_accessor_controller_close := 0x733F4; fo_sd_mutex := 0xF22268;
  fo_nand_mutex := 0xF1CED0; fo_active_partition := 0xF1CF10; fo_sdmmc_das_handle := 0xF1BDD0;
  fo_sd_das_init := 0x0;
  nintendo_paths := [
    mk_path 3 0x33F08 0x4;
    mk_path 3 0x35084 0xC;
    mk_path 3 0x3537C 0xC;
    mk_path 0 0 0] |}.

Definition g_offsets_210 : fs_offsets_t := {|
  fo_sdmmc_accessor_gc := 0x78F8C; fo_sdmmc_accessor_sd := 0x78D2C; fo_sdmmc_accessor_nand := 0x7889C;
  fo_sdmmc_wrapper_read := 0x73858; fo_sdmmc_wrapper_write := 0x73918; fo_rtld := 0x500;
  fo_rtld_destination := 0x98; fo_clkrst_set_min_v_clock_rate := 0x0; fo_lock_mutex := 0x3264;
  fo_unlock_mutex := 0x32D0; fo_sdmmc_accessor_controller_close := 0x737D4; fo_sd_mutex := 0xE43268;
  fo_nand_mutex := 0xE3DED0; fo_active_partition := 0xE3DF10; fo_sdmmc_das_handle := 0xE3CDD0;
  fo_sd_das_init := 0x0;
  nintendo_paths := [
    mk_path 3 0x342E0 0x4;
    mk_path 3 0x3545C 0xC;
    mk_path 3 0x35754 0xC;
    mk_path 0 0 0] |}.

Definition g_offsets_210_exfat : fs_offsets_t := {|
  fo_sdmmc_accessor_gc := 0x78F8C; fo_sdmmc_accessor_sd := 0x78D2C; fo_sdmmc_accessor_nand := 0x7889C;
  fo_sdmmc_wrapper_read := 0x73858; fo_sdmmc_wrapper_write := 0x73918; fo_rtld := 0x500;
  fo_rtld_destination := 0x98; fo_clkrst_set_min_v_clock_rate := 0x0; fo_lock_mutex := 0x3264;
  fo_unlock_mutex := 0x32D0; fo_sdmmc_accessor_controller_close := 0x737D4; fo_sd_mutex := 0xF22268;
  fo_nand_mutex := 0xF1CED0; fo_active_partition := 0xF1CF10; fo_sdmmc_das_handle := 0xF1BDD0;
  fo_sd_das_init := 0x0;
  nintendo_paths := [
    mk_path 3 0x342E0 0x4;
    mk_path 3 0x3545C 0xC;
    mk_path 3 0x35754 0xC;
    mk_path 0 0 0] |}.

Definition g_offsets_300 : fs_offsets_t := {|
  fo_sdmmc_accessor_gc := 0x8FAAC; fo_sdmmc_accessor_sd := 0x8F84C; fo_sdmmc_accessor_nand := 0x8F3B8;
  fo_sdmmc_wrapper_read := 0x8A2F4; fo_sdmmc_wrapper_write := 0x8A3B4; fo_rtld := 0x4E8;
  fo_rtld_destination := 0x8C; fo_clkrst_set_min_v_clock_rate := 0x0; fo_lock_mutex := 0x35CC;
  fo_unlock_mutex := 0x3638; fo_sdmmc_accessor_controller_close := 0x8A270; fo_sd_mutex := 0xE69268;
  fo_nand_mutex := 0xE646F0; fo_active_partition := 0xE64730; fo_sdmmc_das_handle := 0xE635A0;
  fo_sd_das_init := 0x0;
  nintendo_paths := [
    mk_path 3 0x391F4 0x4;
    mk_path 3 0x3A480 0xC;
    mk_path 3 0x3A778 0xC;
    mk_path 0 0 0] |}.

Definition g_offsets_300_exfat : fs_offsets_t := {|
  fo_sdmmc_accessor_gc := 0x8FAAC; fo_sdmmc_accessor_sd := 0x8F84C; fo_sdmmc_accessor_nand := 0x8F3B8;
  fo_sdmmc_wrapper_read := 0x8A2F4; fo_sdmmc_wrapper_write := 0x8A3B4; fo_rtld := 0x4E8;
  fo_rtld_destination := 0x8C; fo_clkrst_set_min_v_clock_rate := 0x0; fo_lock_mutex := 0x35CC;
  fo_unlock_mutex := 0x3638; fo_sdmmc_accessor_controller_close := 0x8A270; fo_sd_mutex := 0xF4C268;
  fo_nand_mutex := 0xF476F0; fo_active_partition := 0xF47730; fo_sdmmc_das_handle := 0xF465A0;
  fo_sd_das_init := 0x0;
  nintendo_paths := [
    mk_path 3 0x391F4 0x4;
    mk_path 3 0x3A480 0xC;
    mk_path 3 0x3A778 0xC;
    mk_path 0 0 0] |}.

Definition g_offsets_301 : fs_offsets_t := {|
  fo_sdmmc_accessor_gc := 0x8FB68; fo_sdmmc_accessor_sd := 0x8F908; fo_sdmmc_accessor_nand := 0x8F474;
  fo_sdmmc_wrapper_read := 0x8A3B0; fo_sdmmc_wrapper_write := 0x8A470; fo_rtld := 0x4E8;
  fo_rtld_destination := 0x8C; fo_clkrst_set_min_v_clock_rate := 0x0; fo_lock_mutex := 0x3638;
  fo_unlock_mutex := 0x36A4; fo_sdmmc_accessor_controller_close := 0x8A32C; fo_sd_mutex := 0xE69268;
  fo_nand_mutex := 0xE646F0; fo_active_partition := 0xE64730; fo_sdmmc_das_handle := 0xE635A0;
  fo_sd_das_init := 0x0;
  nintendo_paths := [
    mk_path 3 0x39260 0x4;
    mk_path 3 0x3A4EC 0xC;
    mk_path 3 0x3A7E4 0xC;
    mk_path 0 0 0] |}.

Definition g_offsets_301_exfat : fs_offsets_t := {|
  fo_sdmmc_accessor_gc := 0x8FB68; fo_sdmmc_accessor_sd := 0x8F908; fo_sdmmc_accessor_nand := 0x8F474;
  fo_sdmmc_wrapper_read := 0x8A3B0; fo_sdmmc_wrapper_write := 0x8A470; fo_rtld := 0x4E8;
  fo_rtld_destination := 0x8C; fo_clkrst_set_min_v_clock_rate := 0x0; fo_lock_mutex := 0x3638;
  fo_unlock_mutex := 0x36A4; fo_sdmmc_accessor_controller_close := 0x8A32C; fo_sd_mutex := 0xF4C268;
  fo_nand_mutex := 0xF476F0; fo_active_partition := 0xF47730; fo_sdmmc_das_handle := 0xF465A0;
  fo_sd_das_init := 0x0;
  nintendo_paths := [
    mk_path 3 0x39260 0x4;
    mk_path 3 0x3A4EC 0xC;
    mk_path 3 0x3A7E4 0xC;
    mk_path 0 0 0] |}.

Definition g_offsets_400 : fs_offsets_t := {|
  fo_sdmmc_accessor_gc := 0xA3374; fo_sdmmc_accessor_sd := 0xA3114; fo_sdmmc_accessor_nand := 0xA2C80;
  fo_sdmmc_wrapper_read := 0x9DBCC; fo_sdmmc_wrapper_write := 0x9DC8C; fo_rtld := 0x4DC;
  fo_rtld_destination := 0x98; fo_clkrst_set_min_v_clock_rate := 0x0; fo_lock_mutex := 0x39A0;
  fo_unlock_mutex := 0x3A0C; fo_sdmmc_accessor_controller_close := 0x9DB48; fo_sd_mutex := 0xE80268;
  fo_nand_mutex := 0xE7BC60; fo_active_partition := 0xE7BCA0; fo_sdmmc_das_handle := 0xE7ABF0;
  fo_sd_das_init := 0x0;
  nintendo_paths := [
    mk_path 3 0x2023C 0x4;
    mk_path 3 0x21BE8 0xC;
    mk_path 3 0x21EC4 0xC;
    mk_path 0 0 0] |}.

Definition g_offsets_400_exfat : fs_offsets_t := {|
  fo_sdmmc_accessor_gc := 0xA3374; fo_sdmmc_accessor_sd := 0xA3114; fo_sdmmc_accessor_nand := 0xA2C80;
  fo_sdmmc_wrapper_read := 0x9DBCC; fo_sdmmc_wrapper_write := 0x9DC8C; fo_rtld := 0x4DC;
  fo_rtld_destination := 0x98; fo_clkrst_set_min_v_clock_rate := 0x0; fo_lock_mutex := 0x39A0;
  fo_unlock_mutex := 0x3A0C; fo_sdmmc_accessor_controller_close := 0x9DB48; fo_sd_mutex := 0xF63268;
  fo_nand_mutex := 0xF5EC60; fo_active_partition := 0xF5ECA0; fo_sdmmc_das_handle := 0xF5DBF0;
  fo_sd_das_init := 0x0;
  nintendo_paths := [
    mk_path 3 0x2023C 0x4;
    mk_path 3 0x21BE8 0xC;
    mk_path 3 0x21EC4 0xC;
    mk_path 0 0 0] |}.

Definition g_offsets_410 : fs_offsets_t := {|
  fo_sdmmc_accessor_gc := 0xA33D8; fo_sdmmc_accessor_sd := 0xA3178; fo_sdmmc_accessor_nand := 0xA2CE4;
  fo_sdmmc_wrapper_read := 0x9DC30; fo_sdmmc_wrapper_write := 0x9DCF0; fo_rtld := 0x4DC;
  fo_rtld_destination := 0x98; fo_clkrst_set_min_v_clock_rate := 0x0; fo_lock_mutex := 0x39A0;
  fo_unlock_mutex := 0x3A0C; fo_sdmmc_accessor_controller_close := 0x9DBAC; fo_sd_mutex := 0xE80268;
  fo_nand_mutex := 0xE7BC60; fo_active_partition := 0xE7BCA0; fo_sdmmc_das_handle := 0xE7ABF0;
  fo_sd_das_init := 0x0;
  nintendo_paths := [
    mk_path 3 0x2023C 0x4;
    mk_path 3 0x21BE8 0xC;
    mk_path 3 0x21EC4 0xC;
    mk_path 0 0 0] |}.

Definition g_offsets_410_exfat : fs_offsets_t := {|
  fo_sdmmc_accessor_gc := 0xA33D8; fo_sdmmc_accessor_sd := 0xA3178; fo_sdmmc_accessor_nand := 0xA2CE4;
  fo_sdmmc_wrapper_read := 0x9DC30; fo_sdmmc_wrapper_write := 0x9DCF0; fo_rtld := 0x4DC;
  fo_rtld_destination := 0x98; fo_clkrst_set_min_v_clock_rate := 0x0; fo_lock_mutex := 0x39A0;
  fo_unlock_mutex := 0x3A0C; fo_sdmmc_accessor_controller_close := 0x9DBAC; fo_sd_mutex := 0xF63268;
  fo_nand_mutex := 0xF5EC60; fo_active_partition := 0xF5ECA0; fo_sdmmc_das_handle := 0xF5DBF0;
  fo_sd_das_init := 0x0;
  nintendo_paths := [
    mk_path 3 0x2023C 4;
    mk_path 3 0x21BE8 12;
    mk_path 3 0x21EC4 12;
    mk_path 0 0 0] |}.

Definition g_offsets_500 : fs_offsets_t := {|
  fo_sdmmc_accessor_gc := 0xCF250; fo_sdmmc_accessor_sd := 0xCEFD0; fo_sdmmc_accessor_nand := 0xCE990;
  fo_sdmmc_wrapper_read := 0xC9420; fo_sdmmc_wrapper_write := 0xC9500; fo_rtld := 0x584;
  fo_rtld_destination := 0x94; fo_clkrst_set_min_v_clock_rate := 0x0; fo_lock_mutex := 0x4080;
  fo_unlock_mutex := 0x40D0; fo_sdmmc_accessor_controller_close := 0xC9380; fo_sd_mutex := 0xEC3268;
  fo_nand_mutex := 0xEBDE58; fo_active_partition := 0xEBDE98; fo_sdmmc_das_handle := 0xEBCE30;
  fo_sd_das_init := 0x0;
  nintendo_paths := [
    mk_path 3 0x28980 4;
    mk_path 3 0x2ACE4 4;
    mk_path 3 0x2B220 4;
    mk_path 0 0 0] |}.

Definition g_offsets_500_exfat : fs_offsets_t := {|
  fo_sdmmc_accessor_gc := 0xCF250; fo_sdmmc_accessor_sd := 0xCEFD0; fo_sdmmc_accessor_nand := 0xCE990;
  fo_sdmmc_wrapper_read := 0xC9420; fo_sdmmc_wrapper_write := 0xC9500; fo_rtld := 0x584;
  fo_rtld_destination := 0x94; fo_clkrst_set_min_v_clock_rate := 0x0; fo_lock_mutex := 0x4080;
  fo_unlock_mutex := 0x40D0; fo_sdmmc_accessor_controller_close := 0xC9380; fo_sd_mutex := 0xFA8268;
  fo_nand_mutex := 0xFA2E58; fo_active_partition := 0xFA2E98; fo_sdmmc_das_handle := 0xFA1E30;
  fo_sd_das_init := 0x0;
  nintendo_paths := [
    mk_path 3 0x28980 4;
    mk_path 3 0x2ACE4 4;
    mk_path 3 0x2B220 4;
    mk_path 0 0 0] |}.

Definition g_offsets_510 : fs_offsets_t := {|
  fo_sdmmc_accessor_gc := 0xCF620; fo_sdmmc_accessor_sd := 0xCF3A0; fo_sdmmc_accessor_nand := 0xCED60;
  fo_sdmmc_wrapper_read := 0xC97F0; fo_sdmmc_wrapper_write := 0xC98D0; fo_rtld := 0x584;
  fo_rtld_destination := 0x94; fo_clkrst_set_min_v_clock_rate := 0x0; fo_lock_mutex := 0x4080;
  fo_unlock_mutex := 0x40D0; fo_sdmmc_accessor_controller_close := 0xC9750; fo_sd_mutex := 0xEC4268;
  fo_nand_mutex := 0xEBEE58; fo_active_partition := 0xEBEE98; fo_sdmmc_das_handle := 0xEBDE30;
  fo_sd_das_init := 0x0;
  nintendo_paths := [
    mk_path 3 0x289B0 4;
    mk_path 3 0x2AD14 4;
    mk_path 3 0x2B250 4;
    mk_path 0 0 0] |}.

Definition g_offsets_510_exfat : fs_offsets_t := {|
  fo_sdmmc_accessor_gc := 0xCF620; fo_sdmmc_accessor_sd := 0xCF3A0; fo_sdmmc_accessor_nand := 0xCED60;
  fo_sdmmc_wrapper_read := 0xC97F0; fo_sdmmc_wrapper_write := 0xC98D0; fo_rtld := 0x584;
  fo_rtld_destination := 0x94; fo_clkrst_set_min_v_clock_rate := 0x0; fo_lock_mutex := 0x4080;
  fo_unlock_mutex := 0x40D0; fo_sdmmc_accessor_controller_close := 0xC9750; fo_sd_mutex := 0xFA9268;
  fo_nand_mutex := 0xFA3E58; fo_active_partition := 0xFA3E98; fo_sdmmc_das_handle := 0xFA2E30;
  fo_sd_das_init := 0x0;
  nintendo_paths := [
    mk_path 3 0x289B0 4;
    mk_path 3 0x2AD14 4;
    mk_path 3 0x2B250 4;
    mk_path 0 0 0] |}.

Definition g_offsets_600 : fs_offsets_t := {|
  fo_sdmmc_accessor_gc := 0x153780; fo_sdmmc_accessor_sd := 0x1534F0; fo_sdmmc_accessor_nand := 0x14F990;
  fo_sdmmc_wrapper_read := 0x1485A0; fo_sdmmc_wrapper_write := 0x148680; fo_rtld := 0x5B0;
  fo_rtld_destination := 0x98; fo_clkrst_set_min_v_clock_rate := 0x0; fo_lock_mutex := 0x1412C0;
  fo_unlock_mutex := 0x141310; fo_sdmmc_accessor_controller_close := 0x148500; fo_sd_mutex := 0xF06268;
  fo_nand_mutex := 0xF01BA0; fo_active_partition := 0xF01BE0; fo_sdmmc_das_handle := 0xE01670;
  fo_sd_das_init := 0x0;
  nintendo_paths := [
    mk_path 3 0x790DC 4;
    mk_path 3 0x7A924 4;
    mk_path 3 0x7AB18 4;
    mk_path 3 0x7AEF4 4;
    mk_path 0 0 0] |}.

Definition g_offsets_600_exfat : fs_offsets_t := {|
  fo_sdmmc_accessor_gc := 0x15EE80; fo_sdmmc_accessor_sd := 0x15EBF0; fo_sdmmc_accessor_nand := 0x15B090;
  fo_sdmmc_wrapper_read := 0x153CA0; fo_sdmmc_wrapper_write := 0x153D80; fo_rtld := 0x5B0;
  fo_rtld_destination := 0x98; fo_clkrst_set_min_v_clock_rate := 0x0; fo_lock_mutex := 0x14C9C0;
  fo_unlock_mutex := 0x14CA10; fo_sdmmc_accessor_controller_close := 0x153C00; fo_sd_mutex := 0xFEB268;
  fo_nand_mutex := 0xFE6BA0; fo_active_partition := 0xFE6BE0; fo_sdmmc_das_handle := 0xEE6670;
  fo_sd_das_init := 0x0;
  nintendo_paths := [
    mk_path 3 0x847DC 4;
    mk_path 3 0x86024 4;
    mk_path 3 0x86218 4;
    mk_path 3 0x865F4 4;
    mk_path 0 0 0] |}.

Definition g_offsets_700 : fs_offsets_t := {|
  fo_sdmmc_accessor_gc := 0x15BD90; fo_sdmmc_accessor_sd := 0x15BB00; fo_sdmmc_accessor_nand := 0x157FF0;
  fo_sdmmc_wrapper_read := 0x14FDF0; fo_sdmmc_wrapper_write := 0x14FED0; fo_rtld := 0x5B4;
  fo_rtld_destination := 0x9C; fo_clkrst_set_min_v_clock_rate := 0x0; fo_lock_mutex := 0x148A90;
  fo_unlock_mutex := 0x148AE0; fo_sdmmc_accessor_controller_close := 0x14FD50; fo_sd_mutex := 0xF123E8;
  fo_nand_mutex := 0xF0DBE8; fo_active_partition := 0xF0DC28; fo_sdmmc_das_handle := 0xE0E7A0;
  fo_sd_das_init := 0x85FE8;
  nintendo_paths := [
    mk_path 3 0x7DA90 4;
    mk_path 3 0x7F344 4;
    mk_path 3 0x7F538 4;
    mk_path 3 0x7F914 4;
    mk_path 4 0x7FAD8 4;
    mk_path 0 0 0] |}.

Definition g_offsets_700_exfat : fs_offsets_t := {|
  fo_sdmmc_accessor_gc := 0x167340; fo_sdmmc_accessor_sd := 0x1670B0; fo_sdmmc_accessor_nand := 0x1635A0;
  fo_sdmmc_wrapper_read := 0x15B3A0; fo_sdmmc_wrapper_write := 0x15B480; fo_rtld := 0x5B4;
  fo_rtld_destination := 0x9C; fo_clkrst_set_min_v_clock_rate := 0x0; fo_lock_mutex := 0x154040;
  fo_unlock_mutex := 0x154090; fo_sdmmc_accessor_controller_close := 0x15B300; fo_sd_mutex := 0xFF73E8;
  fo_nand_mutex := 0xFF2BE8; fo_active_partition := 0xFF2C28; fo_sdmmc_das_handle := 0xEF3A00;
  fo_sd_das_init := 0x91598;
  nintendo_paths := [
    mk_path 3 0x89040 4;
    mk_path 3 0x8A8F4 4;
    mk_path 3 0x8AAE8 4;
    mk_path 3 0x8AEC4 4;
    mk_path 4 0x8B088 4;
    mk_path 0 0 0] |}.

Definition g_offsets_800 : fs_offsets_t := {|
  fo_sdmmc_accessor_gc := 0x15EA20; fo_sdmmc_accessor_sd := 0x15E790; fo_sdmmc_accessor_nand := 0x15AC80;
  fo_sdmmc_wrapper_read := 0x152A80; fo_sdmmc_wrapper_write := 0x152B60; fo_rtld := 0x5B4;
  fo_rtld_destination := 0x9C; fo_clkrst_set_min_v_clock_rate := 0x16F370; fo_lock_mutex := 0x14B6D0;
  fo_unlock_mutex := 0x14B720; fo_sdmmc_accessor_controller_close := 0x1529E0; fo_sd_mutex := 0xF1A3E8;
  fo_nand_mutex := 0xF15BE8; fo_active_partition := 0xF15C28; fo_sdmmc_das_handle := 0xE167C0;
  fo_sd_das_init := 0x87D58;
  nintendo_paths := [
    mk_path 3 0x7F5F0 4;
    mk_path 3 0x81084 4;
    mk_path 3 0x81278 4;
    mk_path 3 0x81654 4;
    mk_path 4 0x81818 4;
    mk_path 0 0 0] |}.

Definition g_offsets_800_exfat : fs_offsets_t := {|
  fo_sdmmc_accessor_gc := 0x169FD0; fo_sdmmc_accessor_sd := 0x169D40; fo_sdmmc_accessor_nand := 0x166230;
  fo_sdmmc_wrapper_read := 0x15E030; fo_sdmmc_wrapper_write := 0x15E110; fo_rtld := 0x5B4;
  fo_rtld_destination := 0x9C; fo_clkrst_set_min_v_clock_rate := 0x17A920; fo_lock_mutex := 0x156C80;
  fo_unlock_mutex := 0x156CD0; fo_sdmmc_accessor_controller_close := 0x15DF90; fo_sd_mutex := 0xFFE3E8;
  fo_nand_mutex := 0xFF9BE8; fo_active_partition := 0xFF9C28; fo_sdmmc_das_handle := 0xEFAA20;
  fo_sd_das_init := 0x93308;
  nintendo_paths := [
    mk_path 3 0x8ABA0 4;
    mk_path 3 0x8C634 4;
    mk_path 3 0x8C828 4;
    mk_path 3 0x8CC04 4;
    mk_path 4 0x8CDC8 4;
    mk_path 0 0 0] |}.

Definition g_offsets_810 : fs_offsets_t := {|
  fo_sdmmc_accessor_gc := 0x15EA20; fo_sdmmc_accessor_sd := 0x15E790; fo_sdmmc_accessor_nand := 0x15AC80;
  fo_sdmmc_wrapper_read := 0x152A80; fo_sdmmc_wrapper_write := 0x152B60; fo_rtld := 0x5B4;
  fo_rtld_destination := 0x9C; fo_clkrst_set_min_v_clock_rate := 0x16F370; fo_lock_mutex := 0x14B6D0;
  fo_unlock_mutex := 0x14B720; fo_sdmmc_accessor_controller_close := 0x1529E0; fo_sd_mutex := 0xF1A3E8;
  fo_nand_mutex := 0xF15BE8; fo_active_partition := 0xF15C28; fo_sdmmc_das_handle := 0xE167C0;
  fo_sd_das_init := 0x87D58;
  nintendo_paths := [
    mk_path 3 0x7F5F0 4;
    mk_path 3 0x81084 4;
    mk_path 3 0x81278 4;
    mk_path 3 0x81654 4;
    mk_path 4 0x81818 4;
    mk_path 0 0 0] |}.

Definition g_offsets_810_exfat : fs_offsets_t := {|
  fo_sdmmc_accessor_gc := 0x169FD0; fo_sdmmc_accessor_sd := 0x169D40; fo_sdmmc_accessor_nand := 0x166230;
  fo_sdmmc_wrapper_read := 0x15E030; fo_sdmmc_wrapper_write := 0x15E110; fo_rtld := 0x5B4;
  fo_rtld_destination := 0x9C; fo_clkrst_set_min_v_clock_rate := 0x17A920; fo_lock_mutex := 0x156C80;
  fo_unlock_mutex := 0x156CD0; fo_sdmmc_accessor_controller_close := 0x15DF90; fo_sd_mutex := 0xFFE3E8;
  fo_nand_mutex := 0xFF9BE8; fo_active_partition := 0xFF9C28; fo_sdmmc_das_handle := 0xEFAA20;
  fo_sd_das_init := 0x93308;
  nintendo_paths := [
    mk_path 3 0x8ABA0 4;
    mk_path 3 0x8C634 4;
    mk_path 3 0x8C828 4;
    mk_path 3 0x8CC04 4;
    mk_path 4 0x8CDC8 4;
    mk_path 0 0 0] |}.

Definition g_offsets_900 : fs_offsets_t := {|
  fo_sdmmc_accessor_gc := 0x1430F0; fo_sdmmc_accessor_sd := 0x141200; fo_sdmmc_accessor_nand := 0x13C080;
  fo_sdmmc_wrapper_read := 0x1377E0; fo_sdmmc_wrapper_write := 0x1378C0; fo_rtld := 0x454;
  fo_rtld_destination := 0x9C; fo_clkrst_set_min_v_clock_rate := 0x136A00; fo_lock_mutex := 0x25280;
  fo_unlock_mutex := 0x252D0; fo_sdmmc_accessor_controller_close := 0x137740; fo_sd_mutex := 0xE1D3E8;
  fo_nand_mutex := 0xE18258; fo_active_partition := 0xE18298; fo_sdmmc_das_handle := 0xDFEFA0;
  fo_sd_das_init := 0x1472BC;
  nintendo_paths := [
    mk_path 3 0x68A60 0x4;
    mk_path 3 0x70A40 0x4;
    mk_path 3 0x81CB4 0x4;
    mk_path 3 0x81EF4 0x4;
    mk_path 4 0x8211C 0x4;
    mk_path 0 0 0] |}.

Definition g_offsets_900_exfat : fs_offsets_t := {|
  fo_sdmmc_accessor_gc := 0x1430F0; fo_sdmmc_accessor_sd := 0x141200; fo_sdmmc_accessor_nand := 0x13C080;
  fo_sdmmc_wrapper_read := 0x1377E0; fo_sdmmc_wrapper_write := 0x1378C0; fo_rtld := 0x454;
  fo_rtld_destination := 0x9C; fo_clkrst_set_min_v_clock_rate := 0x136A00; fo_lock_mutex := 0x25280;
  fo_unlock_mutex := 0x252D0; fo_sdmmc_accessor_controller_close := 0x137740; fo_sd_mutex := 0xE2B3E8;
  fo_nand_mutex := 0xE26258; fo_active_partition := 0xE26298; fo_sdmmc_das_handle := 0xE0CFA0;
  fo_sd_das_init := 0x1472BC;
  nintendo_paths := [
    mk_path 3 0x68A60 0x4;
    mk_path 3 0x70A40 0x4;
    mk_path 3 0x81CB4 0x4;
    mk_path 3 0x81EF4 0x4;
    mk_path 4 0x8211C 0x4;
    mk_path 0 0 0] |}.

(** The structures in the order of [enum FS_VER]. *)
Definition all_offsets : list fs_offsets_t := [
  g_offsets_100; g_offsets_200; g_offsets_200_exfat; g_offsets_210; g_offsets_210_exfat;
  g_offsets_300; g_offsets_300_exfat; g_offsets_301; g_offsets_301_exfat; g_offsets_400;
  g_offsets_400_exfat; g_offsets_410; g_offsets_410_exfat; g_offsets_500; g_offsets_500_exfat;
  g_offsets_510; g_offsets_510_exfat; g_offsets_600; g_offsets_600_exfat; g_offsets_700;
  g_offsets_700_exfat; g_offsets_800; g_offsets_800_exfat; g_offsets_810; g_offsets_810_exfat;
  g_offsets_900; g_offsets_900_exfat].

(** [None]: the default case, [fatal_abort(Fatal_UnknownVersion)]. *)
Definition get_fs_offsets (version : Z) : option fs_offsets_t :=
  if version <? 0 then None else all_offsets !! Z.to_nat version.
