(* ===== verification/Emummc.v ===== *)
(** emummc (src/emummc/source): the code that runs inside the file system module
    of the operating system (FS) and serves its eMMC requests from the SD card.
    Modules Smc (nx/smc.c), Fatal (utils/fatal.c), EmuMMC (emuMMC/emummc.c) and
    Inject (main.c).

    Outside of it are FS, the kernel, the card driver and FatFs: the class
    [EmuSystem], whose [Dev] is their state.  A mutex is a function of FS; the
    calls of it are recorded in [lock_log]. *)
From S2P Require Import Prelude State Fusee FuseeKeys FsOffsets.

Class EmuSystem := {
  Dev : Type;
  (** the objects of open files; [fil_zero] has all bytes 0 *)
  FIL : Type;
  fil_zero : FIL;
  (** the card driver: results are those of the C functions, a buffer comes back
      as the call leaves it *)
  sdmmc_storage_init_mmc : Dev -> bool * Dev;
  sdmmc_storage_set_mmc_partition : Z -> Dev -> bool * Dev;
  sdmmc_storage_init_sd : Dev -> bool * Dev;
  sdmmc_storage_end : Dev -> bool * Dev;
  sdmmc_storage_read : Z -> Z -> list Z -> Dev -> (Z * list Z) * Dev;
  sdmmc_storage_write : Z -> Z -> list Z -> Dev -> Z * Dev;
  set_current_accessor : Z -> Dev -> Dev;
  gpio_read : Z -> Z -> Dev -> Z * Dev;
  msleep : Z -> Dev -> Dev;
  (** the heap: the address of a new FATFS, 0 if there is none *)
  malloc_FATFS : Dev -> Z * Dev;
  (** FatFs: the file object comes back as the call leaves it *)
  f_mount : Z -> Z -> Dev -> Z * Dev;
  f_open : FIL -> list Z -> Z -> Dev -> (Z * FIL) * Dev;
  f_close : FIL -> Dev -> (Z * FIL) * Dev;
  f_size : FIL -> Z;
  f_lseek : FIL -> Z -> Dev -> (Z * FIL) * Dev;
  f_read : FIL -> list Z -> Z -> Dev -> (Z * list Z * FIL) * Dev;
  f_write : FIL -> list Z -> Z -> Dev -> (Z * FIL) * Dev;
  (** FS: its functions by their addresses, its memory, and the methods of an
      accessor *)
  fs_call : Z -> Dev -> Z * Dev;
  fs_mutex_call : Z -> Z -> Dev -> Dev;
  read_int : Z -> Dev -> Z;
  controller_close : Z -> Dev -> Z * Dev;
  accessor_read_write : Z -> Z -> Z -> list Z -> Z -> Z -> Dev -> (Z * list Z) * Dev;
  clkrst_vt_set_min_v_clock_rate : Z -> Z -> Dev -> Z * Dev;
  (** the kernel; [uninit] is what a register has that is not set before a call *)
  svcCallSecureMonitor : list Z -> Dev -> (Z * list Z) * Dev;
  svcAttachDeviceAddressSpace : Z -> Z -> Dev -> Dev;
  svcQueryMemory_addr : Z -> Dev -> Z * Dev;
  uninit : Z;
  (** the own memory of emummc *)
  read_memory : Z -> Z -> Dev -> list Z;
  write_memory : Z -> list Z -> Dev -> Dev;
  (** where the linker and the stack put things *)
  addr_start : Z;
  addr_argdata : Z;
  addr_sdmmc_wrapper_read : Z;
  addr_sdmmc_wrapper_write : Z;
  addr_sdmmc_wrapper_controller_close : Z;
  addr_clkrst_set_min_v_clock_rate : Z;
  addr_nintendo_path : Z;
  addr_nintendo_path_album_100 : Z;
  addr_nintendo_path_contents_100 : Z;
  addr_paths : Z;
  addr_error_ctx : Z;
  (** [__libc_init_array], [clock_enable_i2c5] and [i2c_init] *)
  libc_init_array : Dev -> Dev;
  clock_enable_i2c5 : Dev -> Dev;
  i2c_init : Dev -> Dev }.

(** emummc_ctx.h: [emuMMC_ctx_t]. *)
Record emuMMC_ctx_t := mk_emuMMC_ctx {
  ctx_magic : Z;
  ctx_id : Z;
  ctx_fs_ver : Z;
  EMMC_Type : Z;
  SD_Type : Z;
  EMMC_StoragePartitionOffset : Z;
  SD_StoragePartitionOffset : Z;
  storagePath : list Z }.
#[export] Instance eta_emuMMC_ctx : Eta emuMMC_ctx_t := fun x =>
  mk_emuMMC_ctx (ctx_magic x) (ctx_id x) (ctx_fs_ver x) (EMMC_Type x) (SD_Type x)
    (EMMC_StoragePartitionOffset x) (SD_StoragePartitionOffset x) (storagePath x).

Definition EMUMMC_STORAGE_MAGIC : Z := 0x30534645.
Definition emuMMC_EMMC : Z := 0.
Definition emuMMC_SD : Z := 1.
Definition emuMMC_SD_File : Z := 2.

(** FS.h *)
Definition FS_SDMMC_EMMC : Z := 0.
Definition FS_SDMMC_SD : Z := 1.
Definition FS_SDMMC_GC : Z := 2.
Definition FS_EMMC_PARTITION_GPP : Z := 0.
Definition FS_EMMC_PARTITION_BOOT0 : Z := 1.
Definition FS_EMMC_PARTITION_BOOT1 : Z := 2.
Definition BOOT_PARTITION_SIZE : Z := 0x2000.
Definition FS_READ_WRITE_ERROR : Z := 1048.

(** fatal.h: [enum FatalReason]. *)
Definition Fatal_InitMMC : Z := 0.
Definition Fatal_InitSD : Z := 1.
Definition Fatal_InvalidAccessor : Z := 2.
Definition Fatal_ReadNoAccessor : Z := 3.
Definition Fatal_WriteNoAccessor : Z := 4.
Definition Fatal_UnknownVersion : Z := 6.
Definition Fatal_BadResult : Z := 7.
Definition Fatal_GetConfig : Z := 8.
Definition Fatal_CloseAccessor : Z := 9.

(** main.c: the pointers that [populate_function_pointers] sets. *)
Record fs_pointers := mk_fs_pointers {
  sdmmc_accessor_gc : Z;
  sdmmc_accessor_sd : Z;
  sdmmc_accessor_nand : Z;
  lock_mutex : Z;
  unlock_mutex : Z;
  sd_mutex : Z;
  nand_mutex : Z;
  active_partition : Z;
  sdmmc_das_handle : Z }.

Inductive lock_event := Lock (mtx : Z) | Unlock (mtx : Z).

Section State.
Context {sys : EmuSystem}.

(** emummc.h: [file_based_ctxt]. *)
Record file_based_ctxt := mk_file_based {
  parts : Z;
  part_size : Z;
  sd_fs : Z;
  fp_boot0 : FIL;
  fp_boot1 : FIL;
  fp_gpp : list FIL }.
#[export] Instance eta_file_based : Eta file_based_ctxt := fun x =>
  mk_file_based (parts x) (part_size x) (sd_fs x) (fp_boot0 x) (fp_boot1 x) (fp_gpp x).

(** The static variables of emummc.c ([did_attach], [init_done] and
    [first_sd_read] are those of its functions) and main.c. *)
Record emu_state := mk_emu_state {
  sdmmc_first_init : bool;
  storageMMCinitialized : bool;
  storageSDinitialized : bool;
  custom_driver : bool;
  fat_mounted : bool;
  f_emu : file_based_ctxt;
  did_attach : bool;
  init_done : bool;
  first_sd_read : bool;
  emuMMC_ctx : emuMMC_ctx_t;
  pointers : fs_pointers;
  fs_offsets : option fs_offsets_t;
  text_base : Z;
  nintendo_path : list Z;
  nintendo_path_album_100 : list Z;
  nintendo_path_contents_100 : list Z;
  lock_log : list lock_event;
  dev : Dev }.
#[export] Instance eta_emu_state : Eta emu_state := fun x =>
  mk_emu_state (sdmmc_first_init x) (storageMMCinitialized x) (storageSDinitialized x) (custom_driver x)
    (fat_mounted x) (f_emu x) (did_attach x) (init_done x) (first_sd_read x) (emuMMC_ctx x) (pointers x)
    (fs_offsets x) (text_base x) (nintendo_path x) (nintendo_path_album_100 x)
    (nintendo_path_contents_100 x) (lock_log x) (dev x).

(** A call returns, ends in [fatal_abort], or does what C leaves undefined: a
    division by zero, an index outside an array, a null pointer. *)
Inductive outcome (A : Type) := Done (a : A) | Fatal (reason : Z) | Undefined.
#[global] Arguments Done {_}. #[global] Arguments Fatal {_}. #[global] Arguments Undefined {_}.

Definition E (A : Type) : Type := emu_state -> outcome A * emu_state.
#[export] Instance E_ret : MRet E := fun A a s => (Done a, s).
#[export] Instance E_bind : MBind E := fun A B f m s =>
  match m s with
  | (Done a, s') => f a s'
  | (Fatal r, s') => (Fatal r, s')
  | (Undefined, s') => (Undefined, s')
  end.

Definition get {A} (f : emu_state -> A) : E A := fun s => (Done (f s), s).
Definition modify (f : emu_state -> emu_state) : E unit := fun s => (Done tt, f s).
Definition undefined {A} : E A := fun s => (Undefined, s).
Definition halt {A} (reason : Z) : E A := fun s => (Fatal reason, s).
(** A call of a function outside. *)
Definition io {A} (f : Dev -> A * Dev) : E A := fun s =>
  let '(a, d) := f (dev s) in (Done a, s <| dev := d |>).
Definition io_ (f : Dev -> Dev) : E unit := io (fun d => (tt, f d)).

Lemma then_run {A B} (m : E A) (k : A -> E B) s a s' : m s = (Done a, s') -> (m ≫= k) s = k a s'.
Proof. unfold mbind, E_bind. by intros ->. Qed.

Lemma io_run {A} (f : Dev -> A * Dev) s a d : f (dev s) = (a, d) -> io f s = (Done a, s <| dev := d |>).
Proof. unfold io. by intros ->. Qed.

Fixpoint for_each (l : list Z) (body : Z -> E unit) : E unit :=
  match l with [] => mret tt | i :: l => body i ;; for_each l body end.
End State.

Module Smc.
Section Smc.
Context {sys : EmuSystem}.

(** The error of the library for the result of the monitor. *)
Definition spl_result (x0 : Z) : Z := u32 (26 .| (u32 x0 <<. 9)).

Definition smc_call (args : list Z) : E (Z * list Z) :=
  '(rc, X) ← io (svcCallSecureMonitor args);
  mret (if (u32 rc =? 0) && negb (nth 0 X 0 =? 0) then spl_result (nth 0 X 0) else u32 rc, X).

Definition SplConfigItem_NeedsReboot : Z := 65001.
Definition smcRebootToRcm : E unit :=
  io (svcCallSecureMonitor [0xC3000401; SplConfigItem_NeedsReboot; uninit; 1; uninit; uninit; uninit; uninit]) ;; mret tt.

Definition smcCopyToIram (iram_addr src_addr size : Z) : E Z :=
  '(rc, _) ← smc_call [0xF0000201; src_addr; iram_addr; size; 1; uninit; uninit; uninit];
  mret rc.

Definition _smcWriteAddress (dst_addr val size : Z) : E Z :=
  '(rc, _) ← smc_call [0xF0000003; dst_addr; val; size; uninit; uninit; uninit; uninit];
  mret rc.
Definition smcWriteAddress32 (dst_addr val : Z) : E Z := _smcWriteAddress dst_addr (u32 val) 4.

Definition EXO_EMUMMC_MMC_NAND : Z := 0.

(** The result and, if it is 0, the bytes of [*out_cfg] (0x18 of them). *)
Definition smcGetEmummcConfig (mmc_id out_paths : Z) : E (Z * list Z) :=
  '(rc, X) ← smc_call [0xF0000404; mmc_id; out_paths; uninit; uninit; uninit; uninit; uninit];
  mret (rc, if rc =? 0 then slice (bytes_of_words64 (drop 1 X)) 0 0x18 else []).
End Smc.
End Smc.

Module Fatal.
Section Fatal.
Context {sys : EmuSystem}.
Definition ATMOSPHERE_REBOOT_TO_FATAL_MAGIC : Z := 0x31454641.
Definition ATMOSPHERE_FATAL_ERROR_ADDR : Z := 0x4003E000.

(** fatal.h: [atmosphere_fatal_error_ctx], 0x350 bytes. *)
Definition error_ctx (abortReason : Z) : list Z :=
  le_bytes 4 ATMOSPHERE_REBOOT_TO_FATAL_MAGIC ++ le_bytes 4 abortReason ++ le_bytes 8 0x0100000000000000
  ++ zeros 832.

(** The loop at the end is the outcome [Fatal]. *)
Definition fatal_abort {A} (abortReason : Z) : E A :=
  io_ (write_memory addr_error_ctx (error_ctx abortReason)) ;;
  Smc.smcCopyToIram ATMOSPHERE_FATAL_ERROR_ADDR addr_error_ctx 0x350 ;;
  Smc.smcRebootToRcm ;;
  halt abortReason.
End Fatal.
End Fatal.

Module EmuMMC.
Section EmuMMC.
Context {sys : EmuSystem}.
Import Fatal.

Definition set_f_emu (f : file_based_ctxt -> file_based_ctxt) : E unit :=
  modify (fun s => s <| f_emu ::= f |>).

(** A [FIL] of [f_emu], by its place. *)
Inductive fp := Boot0 | Boot1 | Gpp (i : Z).
#[export] Instance fp_eq_dec : EqDecision fp.
Proof. solve_decision. Defined.

Definition get_fp (p : fp) : E FIL :=
  c ← get f_emu;
  match p with
  | Boot0 => mret (fp_boot0 c)
  | Boot1 => mret (fp_boot1 c)
  | Gpp i => if (i <? 0) then undefined else
             match fp_gpp c !! Z.to_nat i with Some f => mret f | None => undefined end
  end.
Definition put_fp (p : fp) (f : FIL) (c : file_based_ctxt) : file_based_ctxt :=
  match p with
  | Boot0 => c <| fp_boot0 := f |>
  | Boot1 => c <| fp_boot1 := f |>
  | Gpp i => c <| fp_gpp ::= <[Z.to_nat i := f]> |>
  end.
Definition set_fp (p : fp) (f : FIL) : E unit := set_f_emu (put_fp p f).

(** The calls of FatFs on such an object. *)
Definition open_fp (p : fp) (path : list Z) (mode : Z) : E Z :=
  f ← get_fp p; '(rc, f) ← io (f_open f path mode); set_fp p f ;; mret rc.
Definition close_fp (p : fp) : E Z :=
  f ← get_fp p; '(rc, f) ← io (f_close f); set_fp p f ;; mret rc.
Definition FR_INVALID_OBJECT : Z := 9.
(** FatFs refuses a null pointer. *)
Definition lseek_fp (p : option fp) (ofs : Z) : E Z :=
  match p with
  | None => mret FR_INVALID_OBJECT
  | Some p => f ← get_fp p; '(rc, f) ← io (f_lseek f ofs); set_fp p f ;; mret rc
  end.
Definition read_fp (p : option fp) (buf : list Z) (btr : Z) : E (Z * list Z) :=
  match p with
  | None => mret (FR_INVALID_OBJECT, buf)
  | Some p => f ← get_fp p; '(rc, buf, f) ← io (f_read f buf btr); set_fp p f ;; mret (rc, buf)
  end.
Definition write_fp (p : option fp) (buf : list Z) (btw : Z) : E Z :=
  match p with
  | None => mret FR_INVALID_OBJECT
  | Some p => f ← get_fp p; '(rc, f) ← io (f_write f buf btw); set_fp p f ;; mret rc
  end.

Definition DeviceName_SDMMC1A : Z := 19.
Definition _sdmmc_ensure_device_attached : E unit :=
  attached ← get did_attach;
  if negb attached
  then p ← get pointers;
       io_ (fun d => svcAttachDeviceAddressSpace DeviceName_SDMMC1A (read_int (sdmmc_das_handle p) d) d) ;;
       modify (fun s => s <| did_attach := true |>)
  else mret tt.

(** The string at [outFilename] after the call: [part_idx] is below 100. *)
Definition _file_based_update_filename (base : list Z) (part_idx : Z) : list Z :=
  base ++ snprintf 3 [48 + part_idx / 10; 48 + part_idx mod 10].

Definition _file_based_emmc_finalize : E unit :=
  ctx ← get emuMMC_ctx;
  mounted ← get fat_mounted;
  if (EMMC_Type ctx =? emuMMC_SD_File) && mounted
  then close_fp Boot0 ;;
       close_fp Boot1 ;;
       c ← get f_emu;
       for_each (range (parts c)) (fun i => close_fp (Gpp i) ;; mret tt) ;;
       io (f_mount 0 1) ;;
       modify (fun s => s <| fat_mounted := false |>)
  else mret tt.

Definition sdmmc_finalize : E unit :=
  _file_based_emmc_finalize ;;
  ok ← io sdmmc_storage_end;
  if negb ok then fatal_abort Fatal_InitSD else
  modify (fun s => s <| storageSDinitialized := false |>).

Definition FA_READ_WRITE : Z := 3.

(** The loop over [f_emu.parts]: [n] is [32 - f_emu.parts]. *)
Fixpoint open_parts (n : nat) (base : list Z) : E unit :=
  match n with
  | O => mret tt
  | S n =>
      c ← get f_emu;
      rc ← open_fp (Gpp (parts c)) (_file_based_update_filename base (parts c)) FA_READ_WRITE;
      if negb (rc =? 0)
      then if parts c =? 1 then set_f_emu (fun c => c <| parts := 0 |>) else mret tt
      else set_f_emu (fun c => c <| parts ::= Z.succ |>) ;; open_parts n base
  end.

Definition f_emu_zero : file_based_ctxt := mk_file_based 0 0 0 fil_zero fil_zero (replicate 32 fil_zero).

Definition _file_based_emmc_initialize : E unit :=
  set_f_emu (fun _ => f_emu_zero) ;;
  ctx ← get emuMMC_ctx;
  let base := ExtKeys.c_string (storagePath ctx) ++ str "/eMMC/" in
  rc ← open_fp Boot0 (base ++ str "BOOT0") FA_READ_WRITE;
  if negb (rc =? 0) then fatal_abort Fatal_InitSD else
  rc ← open_fp Boot1 (base ++ str "BOOT1") FA_READ_WRITE;
  if negb (rc =? 0) then fatal_abort Fatal_InitSD else
  rc ← open_fp (Gpp 0) (_file_based_update_filename base 0) FA_READ_WRITE;
  if negb (rc =? 0) then fatal_abort Fatal_InitSD else
  f ← get_fp (Gpp 0);
  set_f_emu (fun c => c <| part_size := f_size f >>. 9 |>) ;;
  set_f_emu (fun c => c <| parts := 1 |>) ;;
  open_parts 31 base.

(** The body of the retry loop after [sdmmc_storage_init_sd] succeeded. *)
Definition sd_initialized : E unit :=
  modify (fun s => s <| storageSDinitialized := true |>) ;;
  ctx ← get emuMMC_ctx;
  mounted ← get fat_mounted;
  if (EMMC_Type ctx =? emuMMC_SD_File) && negb mounted
  then fs ← io malloc_FATFS;
       set_f_emu (fun c => c <| sd_fs := fs |>) ;;
       rc ← io (f_mount fs 1);
       if negb (rc =? 0) then fatal_abort Fatal_InitSD else
       modify (fun s => s <| fat_mounted := true |>) ;;
       _file_based_emmc_initialize
  else mret tt.

Fixpoint init_sd_retry (retries : nat) : E unit :=
  match retries with
  | O => mret tt
  | S retries =>
      ok ← io sdmmc_storage_init_sd;
      if (ok : bool) then sd_initialized
      else io_ (msleep 100) ;; init_sd_retry retries
  end.

Definition sdmmc_initialize : E bool :=
  mmc ← get storageMMCinitialized;
  (if negb mmc
   then ok ← io sdmmc_storage_init_mmc;
        if (ok : bool)
        then set ← io (sdmmc_storage_set_mmc_partition FS_EMMC_PARTITION_GPP);
             if (set : bool) then modify (fun s => s <| storageMMCinitialized := true |>) else mret tt
        else fatal_abort Fatal_InitMMC
   else mret tt) ;;
  sd ← get storageSDinitialized;
  (if negb sd
   then init_sd_retry 5 ;;
        sd ← get storageSDinitialized;
        if negb sd then fatal_abort Fatal_InitSD else mret tt
   else mret tt) ;;
  get (fun s => storageMMCinitialized s && storageSDinitialized s).

Definition GPIO_PORT_E : Z := 4.
Definition GPIO_PIN_4 : Z := 1 <<. 4.

Definition _sdmmc_ensure_initialized : E unit :=
  first ← get sdmmc_first_init;
  if negb first
  then sdmmc_initialize ;; modify (fun s => s <| sdmmc_first_init := true |>)
  else fin ← get init_done;
       if negb fin
       then power ← io (gpio_read GPIO_PORT_E GPIO_PIN_4);
            if power =? 0
            then sdmmc_finalize ;; sdmmc_initialize ;; modify (fun s => s <| init_done := true |>)
            else mret tt
       else mret tt.

Definition sdmmc_accessor_get (mmc_id : Z) : E Z :=
  p ← get pointers;
  if mmc_id =? FS_SDMMC_EMMC then io (fs_call (sdmmc_accessor_nand p))
  else if mmc_id =? FS_SDMMC_SD then io (fs_call (sdmmc_accessor_sd p))
  else if mmc_id =? FS_SDMMC_GC then io (fs_call (sdmmc_accessor_gc p))
  else fatal_abort Fatal_InvalidAccessor.

Definition call_lock (mtx : Z) : E unit :=
  p ← get pointers;
  io_ (fs_mutex_call (lock_mutex p) mtx) ;; modify (fun s => s <| lock_log ::= fun l => l ++ [Lock mtx] |>).
Definition call_unlock (mtx : Z) : E unit :=
  p ← get pointers;
  io_ (fs_mutex_call (unlock_mutex p) mtx) ;; modify (fun s => s <| lock_log ::= fun l => l ++ [Unlock mtx] |>).

Definition mutex_lock_handler : E unit :=
  p ← get pointers;
  custom ← get custom_driver;
  (if (custom : bool) then call_lock (sd_mutex p) else mret tt) ;;
  call_lock (nand_mutex p).

Definition mutex_unlock_handler : E unit :=
  p ← get pointers;
  call_unlock (nand_mutex p) ;;
  custom ← get custom_driver;
  if (custom : bool) then call_unlock (sd_mutex p) else mret tt.

Definition sdmmc_nand_get_active_partition_index : E Z :=
  part ← get (fun s => read_int (active_partition (pointers s)) (dev s));
  if part =? FS_EMMC_PARTITION_GPP then mret 2
  else if part =? FS_EMMC_PARTITION_BOOT1 then mret 1
  else if part =? FS_EMMC_PARTITION_BOOT0 then mret 0
  else fatal_abort Fatal_InvalidAccessor.

(** The file and the sector in it. *)
Definition file_target (sector : Z) : E (option fp * Z) :=
  part ← get (fun s => read_int (active_partition (pointers s)) (dev s));
  c ← get f_emu;
  if part =? FS_EMMC_PARTITION_GPP
  then if negb (parts c =? 0)
       then if part_size c =? 0 then undefined else
            let i := sector / part_size c in
            if 32 <=? i then undefined else mret (Some (Gpp i), sector mod part_size c)
       else mret (Some (Gpp 0), sector)
  else if part =? FS_EMMC_PARTITION_BOOT1 then mret (Some Boot1, sector)
  else if part =? FS_EMMC_PARTITION_BOOT0 then mret (Some Boot0, sector)
  else mret (None, sector).

(** The result and the buffer; sectors are 32 bits wide, also in [sector << 9]. *)
Definition emummc_read_write_inner (buf : list Z) (sector num_sectors : Z) (is_write : bool) : E (Z * list Z) :=
  ctx ← get emuMMC_ctx;
  if EMMC_Type ctx =? emuMMC_SD
  then let sector := u32 (sector + EMMC_StoragePartitionOffset ctx) in
       index ← sdmmc_nand_get_active_partition_index;
       let sector := u32 (sector + index * BOOT_PARTITION_SIZE) in
       if negb is_write
       then io (sdmmc_storage_read sector num_sectors buf)
       else res ← io (sdmmc_storage_write sector num_sectors buf); mret (res, buf)
  else '(fp_tmp, sector) ← file_target sector;
       lseek_fp fp_tmp (u32 (sector <<. 9)) ;;
       if negb is_write
       then '(res, buf) ← read_fp fp_tmp buf (u32 (num_sectors <<. 9)); mret (Z.b2z (res =? 0), buf)
       else res ← write_fp fp_tmp buf (u32 (num_sectors <<. 9)); mret (Z.b2z (res =? 0), buf).

Definition sdmmc_wrapper_controller_close (mmc_id : Z) : E Z :=
  this ← sdmmc_accessor_get mmc_id;
  if negb (this =? 0)
  then if mmc_id =? FS_SDMMC_SD then mret 0 else
       if mmc_id =? FS_SDMMC_EMMC
       then _file_based_emmc_finalize ;;
            sd ← sdmmc_accessor_get FS_SDMMC_SD;
            if sd =? 0 then undefined else
            sd' ← sdmmc_accessor_get FS_SDMMC_SD;
            io (controller_close sd') ;;
            io (controller_close this)
       else io (controller_close this)
  else fatal_abort Fatal_CloseAccessor.

(** What the wrappers return for the result of a transfer, after unlocking. *)
Definition finish (res : Z) : E Z :=
  mutex_unlock_handler ;; mret (if negb (res =? 0) then 0 else FS_READ_WRITE_ERROR).

Definition sdmmc_wrapper_read (buf : list Z) (bufSize mmc_id sector num_sectors : Z) : E (Z * list Z) :=
  this ← sdmmc_accessor_get mmc_id;
  if negb (this =? 0)
  then (if (mmc_id =? FS_SDMMC_EMMC) || (mmc_id =? FS_SDMMC_SD)
        then mutex_lock_handler ;;
             io_ (set_current_accessor this) ;;
             _sdmmc_ensure_device_attached ;;
             _sdmmc_ensure_initialized
        else mret tt) ;;
       if mmc_id =? FS_SDMMC_EMMC
       then '(res, buf) ← emummc_read_write_inner buf sector num_sectors false;
            rc ← finish res; mret (rc, buf)
       else if mmc_id =? FS_SDMMC_SD
       then first ← get first_sd_read;
            (if (first : bool)
             then modify (fun s => s <| first_sd_read := false |> <| custom_driver := false |>) ;;
                  p ← get pointers;
                  call_unlock (sd_mutex p)
             else mret tt) ;;
            '(res, buf) ← io (sdmmc_storage_read sector num_sectors buf);
            rc ← finish res; mret (rc, buf)
       else io (accessor_read_write this sector num_sectors buf bufSize 1)
  else fatal_abort Fatal_ReadNoAccessor.

Definition sdmmc_wrapper_write (mmc_id sector num_sectors : Z) (buf : list Z) (bufSize : Z) : E (Z * list Z) :=
  this ← sdmmc_accessor_get mmc_id;
  if negb (this =? 0)
  then if mmc_id =? FS_SDMMC_EMMC
       then mutex_lock_handler ;;
            io_ (set_current_accessor this) ;;
            '(res, buf) ← emummc_read_write_inner buf sector num_sectors true;
            rc ← finish res; mret (rc, buf)
       else if mmc_id =? FS_SDMMC_SD
       then mutex_lock_handler ;;
            io_ (set_current_accessor this) ;;
            res ← io (sdmmc_storage_write sector num_sectors buf);
            rc ← finish res; mret (rc, buf)
       else io (accessor_read_write this sector num_sectors buf bufSize 0)
  else fatal_abort Fatal_WriteNoAccessor.
End EmuMMC.
End EmuMMC.

Module Inject.
Section Inject.
Context {sys : EmuSystem}.
Import Smc Fatal.

(** Results are truncated to [u32] when they are stored. *)
Definition GENERATE_ADD (register register_target value : Z) : Z :=
  0x91000000 .| (value <<. 10) .| (register <<. 5) .| register_target.
Definition GENERATE_ADRP (register page_addr : Z) : Z :=
  0x90000000 .| (((page_addr >>. 12) .& 0x3) <<. 29) .| (((page_addr >>. 12) .& 0x1FFFFC) <<. 3) .| (register .& 0x1F).
Definition GENERATE_BRANCH (source destination : Z) : Z :=
  0x14000000 .| ((u64 (destination - source) >>. 2) .& 0x3FFFFFF).
Definition GENERATE_NOP : Z := 0xD503201F.

Definition INJECTED_SIZE : Z := u64 (addr_argdata - addr_start).
Definition INJECT_OFFSET (offset : Z) : E Z :=
  base ← get text_base; mret (u64 (base + INJECTED_SIZE + offset)).

Definition clkrst_set_min_v_clock_rate (session clk_rate : Z) : E Z :=
  rc ← io (clkrst_vt_set_min_v_clock_rate session clk_rate);
  if (rc =? 0x6C0) || (rc =? 0) then mret 0
  else if negb (rc =? 0xAC0) then fatal_abort Fatal_BadResult
  else mret rc.

Definition hook_function (source target : Z) : E unit :=
  smcWriteAddress32 source (u32 (GENERATE_BRANCH source target)) ;; mret tt.

Definition write_nop (source : Z) : E unit :=
  smcWriteAddress32 source GENERATE_NOP ;; mret tt.

(** The masks are 32 bits wide: they keep bits 12 to 31 of an address. *)
Definition write_adrp_add (reg pc add_rel_offset destination : Z) : E unit :=
  let add_opcode_location := u64 (pc + add_rel_offset) in
  let offset := (destination .& 0xFFFFF000) - (pc .& 0xFFFFF000) in
  let opcode_adrp := u32 (GENERATE_ADRP reg offset) in
  let opcode_add := u32 (GENERATE_ADD reg reg (destination .& 0xFFF)) in
  smcWriteAddress32 pc opcode_adrp ;;
  smcWriteAddress32 add_opcode_location opcode_add ;; mret tt.

Definition offsets : E fs_offsets_t :=
  o ← get fs_offsets; match o with Some o => mret o | None => undefined end.

Definition INJECT_HOOK (offset destination : Z) : E unit :=
  source ← INJECT_OFFSET offset; hook_function source destination.
Definition INJECT_HOOK_RELATIVE (offset relative_destination : Z) : E unit :=
  source ← INJECT_OFFSET offset; hook_function source (u64 (source + relative_destination)).
Definition INJECT_NOP (offset : Z) : E unit :=
  source ← INJECT_OFFSET offset; write_nop source.

Definition setup_hooks : E unit :=
  o ← offsets;
  INJECT_HOOK_RELATIVE (fo_rtld o) (fo_rtld_destination o) ;;
  INJECT_HOOK (fo_sdmmc_wrapper_read o) addr_sdmmc_wrapper_read ;;
  INJECT_HOOK (fo_sdmmc_wrapper_write o) addr_sdmmc_wrapper_write ;;
  INJECT_HOOK (fo_sdmmc_accessor_controller_close o) addr_sdmmc_wrapper_controller_close ;;
  ctx ← get emuMMC_ctx;
  if FS_VER_8_0_0 <=? ctx_fs_ver ctx
  then INJECT_HOOK (fo_clkrst_set_min_v_clock_rate o) addr_clkrst_set_min_v_clock_rate
  else mret tt.

Definition populate_function_pointers : E unit :=
  o ← offsets;
  gc ← INJECT_OFFSET (fo_sdmmc_accessor_gc o);
  sd ← INJECT_OFFSET (fo_sdmmc_accessor_sd o);
  nand ← INJECT_OFFSET (fo_sdmmc_accessor_nand o);
  lock ← INJECT_OFFSET (fo_lock_mutex o);
  unlock ← INJECT_OFFSET (fo_unlock_mutex o);
  sd_m ← INJECT_OFFSET (fo_sd_mutex o);
  nand_m ← INJECT_OFFSET (fo_nand_mutex o);
  active ← INJECT_OFFSET (fo_active_partition o);
  das ← INJECT_OFFSET (fo_sdmmc_das_handle o);
  modify (fun s => s <| pointers := mk_fs_pointers gc sd nand lock unlock sd_m nand_m active das |>).

Definition write_nops : E unit :=
  o ← offsets;
  ctx ← get emuMMC_ctx;
  if FS_VER_7_0_0 <=? ctx_fs_ver ctx then INJECT_NOP (fo_sd_das_init o) else mret tt.

(** [sprintf] of ["%04x"]: eight hexadecimal digits, less up to four zeros. *)
Definition hex_digit (d : Z) : Z := if d <? 10 then 48 + d else 87 + d.
Fixpoint strip_zeros (n : nat) (s : list Z) : list Z :=
  match n, s with
  | S n, c :: r => if c =? 48 then strip_zeros n r else s
  | _, _ => s
  end.
Definition format_04x (v : Z) : list Z :=
  strip_zeros 4 (map (fun i => hex_digit ((v >>. (28 - 4 * i)) .& 0xF)) (range 8)).

(** A string and its NUL put at the start of a buffer. *)
Definition put_string (buf s : list Z) : list Z := splice buf 0 (s ++ [0]).

Definition load_emummc_ctx : E unit :=
  '(x, config) ← smcGetEmummcConfig EXO_EMUMMC_MMC_NAND addr_paths;
  if negb (x =? 0) then fatal_abort Fatal_GetConfig else
  if read32le config 0 =? EMUMMC_STORAGE_MAGIC
  then modify (fun s => s <| emuMMC_ctx ::= fun c => c <| ctx_magic := read32le config 0 |>
                 <| ctx_id := read32le config 8 |> <| EMMC_Type := read32le config 4 |>
                 <| ctx_fs_ver := read32le config 12 |> |>) ;;
       paths ← get (fun s => read_memory addr_paths 0x100 (dev s));
       (if read32le config 4 =? emuMMC_SD
        then modify (fun s => s <| emuMMC_ctx ::= fun c => c <| EMMC_StoragePartitionOffset := read64le config 16 |> |>)
        else if read32le config 4 =? emuMMC_SD_File
        then modify (fun s => s <| emuMMC_ctx ::= fun c => c <| storagePath := slice paths 0 0x7F ++ [0] |> |>)
        else mret tt) ;;
       modify (fun s => s <| nintendo_path := slice paths 0x80 0x7F ++ [0] |>) ;;
       path ← get nintendo_path;
       if bool_decide (ExtKeys.c_string path = [])
       then modify (fun s => s <| nintendo_path ::= fun buf =>
              put_string buf (snprintf 0x80 (str "emummc/Nintendo_" ++ format_04x (read32le config 8))) |>)
       else mret tt
  else fatal_abort Fatal_GetConfig.

(** The loop runs to an entry without an offset; there is one in each table. *)
Fixpoint patch_nintendo_paths (l : list fs_offsets_nintendo_path_t) : E unit :=
  match l with
  | [] => undefined
  | e :: l =>
      if adrp_offset e =? 0 then mret tt else
      pc ← INJECT_OFFSET (adrp_offset e);
      write_adrp_add (opcode_reg e) pc (add_rel_offset e) addr_nintendo_path ;;
      patch_nintendo_paths l
  end.

(** The two instructions of an entry of the 1.0.0 table. *)
Definition patch_path_at (o : fs_offsets_t) (i : nat) (destination : Z) : E unit :=
  match nintendo_paths o !! i with
  | Some e => pc ← INJECT_OFFSET (adrp_offset e); write_adrp_add (opcode_reg e) pc (add_rel_offset e) destination
  | None => undefined
  end.

Definition setup_nintendo_paths : E unit :=
  ctx ← get emuMMC_ctx;
  o ← offsets;
  if FS_VER_1_0_0 <? ctx_fs_ver ctx then patch_nintendo_paths (nintendo_paths o) else
  path ← get nintendo_path;
  let album := str "/" ++ ExtKeys.c_string path ++ str "/Album" in
  modify (fun s => s <| nintendo_path_album_100 ::= fun buf => put_string buf (snprintf 0x100 album) |>) ;;
  patch_path_at o 0 addr_nintendo_path_album_100 ;;
  patch_path_at o 1 (addr_nintendo_path_album_100 + Z.of_nat (length album) - 6) ;;
  let contents := str "/" ++ ExtKeys.c_string path ++ str "/Contents" in
  modify (fun s => s <| nintendo_path_contents_100 ::= fun buf => put_string buf (snprintf 0x100 contents) |>) ;;
  patch_path_at o 2 addr_nintendo_path_contents_100 ;;
  patch_path_at o 3 (addr_nintendo_path_contents_100 + Z.of_nat (length contents) - 9).

Definition init : E unit :=
  io_ libc_init_array ;;
  base ← io (svcQueryMemory_addr addr_start);
  modify (fun s => s <| text_base := base |>) ;;
  load_emummc_ctx ;;
  ctx ← get emuMMC_ctx;
  (match get_fs_offsets (ctx_fs_ver ctx) with
   | Some o => modify (fun s => s <| fs_offsets := Some o |>)
   | None => fatal_abort Fatal_UnknownVersion
   end) ;;
  setup_hooks ;;
  populate_function_pointers ;;
  write_nops ;;
  setup_nintendo_paths ;;
  io_ clock_enable_i2c5 ;;
  io_ i2c_init.

(** The state when the module is loaded; pointers are null. *)
Definition boot_ctx : emuMMC_ctx_t :=
  mk_emuMMC_ctx EMUMMC_STORAGE_MAGIC 0 FS_VER_MAX emuMMC_EMMC emuMMC_SD 0 0 (replicate 0x80 0).
Definition boot_state (d : Dev) : emu_state := {|
  sdmmc_first_init := false; storageMMCinitialized := false; storageSDinitialized := false;
  custom_driver := true; fat_mounted := false; f_emu := EmuMMC.f_emu_zero; did_attach := false;
  init_done := false; first_sd_read := true; emuMMC_ctx := boot_ctx;
  pointers := mk_fs_pointers 0 0 0 0 0 0 0 0 0; fs_offsets := None; text_base := 0;
  nintendo_path := put_string (replicate 0x80 0) (str "Nintendo");
  nintendo_path_album_100 := put_string (replicate 0x100 0) (str "/Nintendo/Album");
  nintendo_path_contents_100 := put_string (replicate 0x100 0) (str "/Nintendo/Contents");
  lock_log := []; dev := d |}.
End Inject.
End Inject.
