(* ===== verification/InjectProps.v ===== *)
(** The injection of emummc into FS (main.c): the instructions it writes branch
    to emummc's functions and load emummc's paths, for every known version of FS,
    and its configuration is the one the monitor has. *)
From S2P Require Import Prelude State Fusee FuseeKeys KernelPatches KernelProps FsOffsets Emummc.
Import Smc Inject.

(** Membership in a list that is written out. *)
Ltac in_list := solve [repeat first [apply list_elem_of_here | apply list_elem_of_further]].

(** ** The instructions *)

Lemma generate_branch_target s t : s mod 4 = 0 -> t mod 4 = 0 -> - 2 ^ 27 <= t - s < 2 ^ 27 ->
  is_u32 (GENERATE_BRANCH s t) /\ branch_target s (GENERATE_BRANCH s t) = Some t.
Proof.
  intros Hs Ht Hd. unfold GENERATE_BRANCH. change 0x3FFFFFF with (Z.ones 26). rewrite Z.land_ones by lia.
  change 0x14000000 with (5 <<. 26).
  assert (E : t - s = 4 * ((t - s) / 4)) by (apply Z_div_exact_full_2; [lia|by rewrite Zminus_mod, Hs, Ht]).
  set (d := (t - s) / 4) in *. unfold u64. rewrite E, word_distance by lia.
  pose proof (Z.mod_pos_bound d (2 ^ 26)). rewrite lor_shiftl_add by lia.
  split; [unfold is_u32; lia|]. rewrite branch_target_offset by lia. f_equal. lia.
Qed.

(** The register and the value of [ADRP x, page] at [pc] followed by
    [ADD x, x, imm]. *)
Definition address_loaded (pc adrp add : Z) : option (Z * Z) :=
  let rd := adrp mod 32 in
  if (adrp / 2 ^ 31 =? 1) && ((adrp / 2 ^ 24) mod 32 =? 16) && (add / 2 ^ 22 =? 0x244)
     && ((add / 32) mod 32 =? rd) && (add mod 32 =? rd)
  then let imm := 4 * ((adrp / 32) mod 2 ^ 19) + (adrp / 2 ^ 29) mod 4 in
       Some (rd, pc - pc mod 2 ^ 12 + 2 ^ 12 * (if imm <? 2 ^ 20 then imm else imm - 2 ^ 21) + (add / 2 ^ 10) mod 2 ^ 12)
  else None.

Lemma land_shifted_ones x n k : 0 <= n -> 0 <= k -> x .& (Z.ones n <<. k) = (x / 2 ^ k) mod 2 ^ n * 2 ^ k.
Proof.
  intros Hn Hk. rewrite <- Z.shiftl_mul_pow2, <- Z.land_ones, <- Z.shiftr_div_pow2 by lia.
  apply Z.bits_inj'. intros i Hi. rewrite Z.land_spec. destruct (decide (i < k)).
  - rewrite !Z.shiftl_spec_low by lia. apply andb_false_r.
  - rewrite !Z.shiftl_spec by lia. rewrite Z.land_spec, Z.shiftr_spec by lia. do 2 f_equal. lia.
Qed.

Lemma generate_adrp_value r off : 0 <= r < 32 ->
  GENERATE_ADRP r off = (0x90 + 0x20 * ((off / 2 ^ 12) mod 4)) * 2 ^ 24 + (off / 2 ^ 12 / 4) mod 2 ^ 19 * 2 ^ 5 + r.
Proof.
  intros Hr. unfold GENERATE_ADRP. rewrite (Z.shiftr_div_pow2 off) by lia. set (p := off / 2 ^ 12).
  change 0x1FFFFC with (Z.ones 19 <<. 2). rewrite land_shifted_ones by lia.
  change (p .& 0x3) with (p .& Z.ones 2). change 0x1F with (Z.ones 5). rewrite !Z.land_ones by lia.
  change (2 ^ 2) with 4. rewrite (Z.mod_small r) by lia.
  pose proof (Z.mod_pos_bound (p / 4) (2 ^ 19)). pose proof (Z.mod_pos_bound p 4).
  set (h := (p / 4) mod 2 ^ 19) in *. set (l := p mod 4) in *.
  replace ((h * 4) <<. 3) with (h <<. 5) by (rewrite !Z.shiftl_mul_pow2; lia).
  rewrite <- Z.lor_assoc, (lor_shiftl_add h) by lia.
  assert (0x90000000 .| (l <<. 29) = (0x90 + 0x20 * l) <<. 24) as ->.
  { assert (l = 0 \/ l = 1 \/ l = 2 \/ l = 3) as [->|[->|[->| ->]]] by lia; reflexivity. }
  rewrite lor_shiftl_add by lia. lia.
Qed.

Lemma generate_add_value r v : 0 <= r < 32 -> 0 <= v < 2 ^ 12 ->
  GENERATE_ADD r r v = 0x244 * 2 ^ 22 + v * 2 ^ 10 + r * 2 ^ 5 + r.
Proof.
  intros Hr Hv. unfold GENERATE_ADD. change 0x91000000 with (0x244 <<. 22).
  rewrite <- !Z.lor_assoc, (lor_shiftl_add r), (lor_shiftl_add v), lor_shiftl_add by lia. lia.
Qed.

Lemma page_number x : x / 2 ^ 12 = 2 ^ 20 * (x / 2 ^ 32) + (x / 2 ^ 12) mod 2 ^ 20.
Proof. change (2 ^ 32) with (2 ^ 12 * 2 ^ 20). rewrite <- Z.div_div by lia. apply Z.div_mod. lia. Qed.

(** Addresses in the same 4 GiB lose nothing by the 32-bit masks. *)
Lemma page_distance a b : 0 <= a -> 0 <= b -> a / 2 ^ 32 = b / 2 ^ 32 ->
  (a .& 0xFFFFF000) - (b .& 0xFFFFF000) = 2 ^ 12 * (a / 2 ^ 12 - b / 2 ^ 12).
Proof.
  intros Ha Hb He.
  change 0xFFFFF000 with (Z.ones 20 <<. 12). rewrite !land_shifted_ones by lia. rewrite !(Z.mul_comm _ (2 ^ 12)).
  rewrite <- Z.mul_sub_distr_l. f_equal.
  rewrite (page_number a) at 2. rewrite (page_number b) at 2. lia.
Qed.

Lemma adrp_fields l h r : 0 <= l < 4 -> 0 <= h < 2 ^ 19 -> 0 <= r < 32 ->
  let w := (0x90 + 0x20 * l) * 2 ^ 24 + h * 2 ^ 5 + r in
  is_u32 w /\ w mod 32 = r /\ (w / 32) mod 2 ^ 19 = h /\ (w / 2 ^ 29) mod 4 = l /\ w / 2 ^ 31 = 1 /\ (w / 2 ^ 24) mod 32 = 16.
Proof.
  intros Hl Hh Hr. cbn zeta. unfold is_u32.
  assert (l = 0 \/ l = 1 \/ l = 2 \/ l = 3) as [->|[->|[->| ->]]] by lia; split_and!;
    Z.div_mod_to_equations; lia.
Qed.

Lemma add_fields v r : 0 <= v < 2 ^ 12 -> 0 <= r < 32 ->
  let w := 0x244 * 2 ^ 22 + v * 2 ^ 10 + r * 2 ^ 5 + r in
  is_u32 w /\ w / 2 ^ 22 = 0x244 /\ (w / 32) mod 32 = r /\ w mod 32 = r /\ (w / 2 ^ 10) mod 2 ^ 12 = v.
Proof. intros Hv Hr. cbn zeta. unfold is_u32. split_and!; Z.div_mod_to_equations; lia. Qed.

(** Twenty-one bits, taken apart and put together, with their sign. *)
Lemma signed_page p : - 2 ^ 20 <= p < 2 ^ 20 ->
  let imm := 4 * ((p / 4) mod 2 ^ 19) + p mod 4 in (if imm <? 2 ^ 20 then imm else imm - 2 ^ 21) = p.
Proof.
  intros Hp. cbn zeta. rewrite (Z.add_comm (4 * _)), <- Z.rem_mul_r by lia. change (4 * 2 ^ 19) with (2 ^ 21).
  assert (p mod 2 ^ 21 = if p <? 0 then p + 2 ^ 21 else p) as ->.
  { destruct (Z.ltb_spec p 0); [rewrite <- (Z.mod_add p 1) by lia|]; apply Z.mod_small; lia. }
  destruct (Z.ltb_spec p 0); zdec; lia.
Qed.

Lemma generated_address r pc dst : 0 <= r < 32 -> 0 <= pc -> 0 <= dst -> pc / 2 ^ 32 = dst / 2 ^ 32 ->
  let adrp := GENERATE_ADRP r ((dst .& 0xFFFFF000) - (pc .& 0xFFFFF000)) in
  let add := GENERATE_ADD r r (dst .& 0xFFF) in
  is_u32 adrp /\ is_u32 add /\ address_loaded pc adrp add = Some (r, dst).
Proof.
  intros Hr Hpc Hdst He. cbn zeta. rewrite page_distance by done.
  change 0xFFF with (Z.ones 12). rewrite Z.land_ones by lia.
  pose proof (Z.mod_pos_bound dst (2 ^ 12)). rewrite generate_adrp_value, generate_add_value by lia.
  rewrite (Z.mul_comm (2 ^ 12)), Z.div_mul by lia. set (p := dst / 2 ^ 12 - pc / 2 ^ 12).
  unfold address_loaded.
  assert (Hp : - 2 ^ 20 < p < 2 ^ 20).
  { pose proof (Z.mod_pos_bound (dst / 2 ^ 12) (2 ^ 20)). pose proof (Z.mod_pos_bound (pc / 2 ^ 12) (2 ^ 20)).
    subst p. rewrite (page_number dst), (page_number pc). lia. }
  destruct (adrp_fields (p mod 4) ((p / 4) mod 2 ^ 19) r) as (U & -> & -> & -> & -> & ->);
    [apply Z.mod_pos_bound; lia|apply Z.mod_pos_bound; lia|done|].
  destruct (add_fields (dst mod 2 ^ 12) r) as (U' & -> & -> & -> & ->); [lia|done|].
  rewrite !Z.eqb_refl. cbn [andb]. rewrite signed_page by lia. split_and!; [done|done|]. do 2 f_equal.
  subst p. pose proof (Z.div_mod dst (2 ^ 12)). pose proof (Z.div_mod pc (2 ^ 12)). lia.
Qed.

(** ** The writes *)

(** What is assumed of the kernel and the monitor: a write of an aligned word in
    the code of FS is carried out ([ams_write_address] of the monitor). *)
Class CodePatching {sys : EmuSystem} := {
  code : Dev -> Z -> Z;
  text_start : Z;
  text_end : Z;
  smc_writes : forall a v d, text_start <= a < text_end -> a mod 4 = 0 -> is_u32 v ->
    exists X d', svcCallSecureMonitor [0xF0000003; a; v; 4; uninit; uninit; uninit; uninit] d = ((0, X), d') /\
      nth 0 X 0 = 0 /\ forall b, code d' b = upd (code d) a v b }.

Fixpoint apply_writes (ws : list (Z * Z)) (c : Z -> Z) : Z -> Z :=
  match ws with [] => c | (a, v) :: ws => apply_writes ws (upd c a v) end.

Lemma apply_writes_ext ws c c' : (forall a, c a = c' a) -> forall a, apply_writes ws c a = apply_writes ws c' a.
Proof. revert c c'. induction ws as [|[b v] ws IH]; [done|]. intros c c' H a. apply IH. intros x. unfold upd. by rewrite H. Qed.
Lemma apply_writes_app ws1 ws2 c a : apply_writes (ws1 ++ ws2) c a = apply_writes ws2 (apply_writes ws1 c) a.
Proof. revert c. induction ws1 as [|[b v] ws1 IH]; [done|]. intros c. apply IH. Qed.
Lemma apply_writes_other ws c a : a ∉ ws.*1 -> apply_writes ws c a = c a.
Proof.
  revert c. induction ws as [|[b v] ws IH]; [done|]. intros c. cbn. rewrite not_elem_of_cons. intros [Hne Hn].
  rewrite IH by done. unfold upd. by rewrite (proj2 (Z.eqb_neq a b)).
Qed.
Lemma apply_writes_at ws c a v : NoDup ws.*1 -> (a, v) ∈ ws -> apply_writes ws c a = v.
Proof.
  revert c. induction ws as [|[b w] ws IH]; intros c; [by intros _ ?%elem_of_nil|]. cbn.
  intros [Hn Hd]%NoDup_cons [[= <- <-]|Hin]%elem_of_cons; [|by apply IH].
  rewrite apply_writes_other by done. unfold upd. by rewrite Z.eqb_refl.
Qed.

(** The patches: a branch to [target] at [off], a NOP at [off], a load of the
    address [dst] into [reg] by the instructions at [off] and [off + rel].
    Offsets are relative to the code of FS. *)
Inductive patch := Hook (off target : Z) | Nop (off : Z) | Load (reg off rel dst : Z).

Definition sites (p : patch) : list Z :=
  match p with Hook off _ => [off] | Nop off => [off] | Load _ off rel _ => [off; off + rel] end.

(** What a patch is for, on the code of FS at [base]. *)
Definition installed (base : Z) (c : Z -> Z) (p : patch) : Prop :=
  match p with
  | Hook off target => branch_target (base + off) (c (base + off)) = Some target
  | Nop off => c (base + off) = GENERATE_NOP
  | Load reg off rel dst => address_loaded (base + off) (c (base + off)) (c (base + off + rel)) = Some (reg, dst)
  end.

Section Patches.
Context {sys : EmuSystem}.

(** The patches for version [v], whose table is [o]; [path] is the directory
    that takes the place of "Nintendo". *)
Definition path_loads (v : Z) (o : fs_offsets_t) (path : list Z) : list patch :=
  let load e dst := Load (opcode_reg e) (adrp_offset e) (add_rel_offset e) dst in
  if FS_VER_1_0_0 <? v
  then map (fun e => load e addr_nintendo_path) (filter (fun e => adrp_offset e <> 0) (nintendo_paths o))
  else zip_with load (nintendo_paths o)
         [addr_nintendo_path_album_100;
          addr_nintendo_path_album_100 + 1 + Z.of_nat (length (ExtKeys.c_string path));
          addr_nintendo_path_contents_100;
          addr_nintendo_path_contents_100 + 1 + Z.of_nat (length (ExtKeys.c_string path))].

Definition hooks (base v : Z) (o : fs_offsets_t) : list patch :=
  [Hook (fo_rtld o) (base + fo_rtld o + fo_rtld_destination o);
   Hook (fo_sdmmc_wrapper_read o) addr_sdmmc_wrapper_read;
   Hook (fo_sdmmc_wrapper_write o) addr_sdmmc_wrapper_write;
   Hook (fo_sdmmc_accessor_controller_close o) addr_sdmmc_wrapper_controller_close]
  ++ (if FS_VER_8_0_0 <=? v then [Hook (fo_clkrst_set_min_v_clock_rate o) addr_clkrst_set_min_v_clock_rate] else []).
Definition nops (v : Z) (o : fs_offsets_t) : list patch := if FS_VER_7_0_0 <=? v then [Nop (fo_sd_das_init o)] else [].

Definition patches (base v : Z) (o : fs_offsets_t) (path : list Z) : list patch :=
  hooks base v o ++ nops v o ++ path_loads v o path.

(** The tables: places are aligned, in the first 2 MiB and each used once, and
    the lists of paths end. *)
Definition shape_ok (p : patch) : bool :=
  forallb (fun off => (0 <=? off) && (off <? 2 ^ 21) && (off mod 4 =? 0)) (sites p)
  && match p with Load reg _ _ _ => (0 <=? reg) && (reg <? 32) | _ => true end.
Definition table_ok (v : Z) (o : fs_offsets_t) : bool :=
  forallb shape_ok (patches 0 v o []) && bool_decide (NoDup (patches 0 v o [] ≫= sites))
  && (fo_rtld_destination o mod 4 =? 0) && (0 <=? fo_rtld_destination o) && (fo_rtld o + fo_rtld_destination o <? 2 ^ 21)
  && match rev (nintendo_paths o) with
     | e :: l => (adrp_offset e =? 0) && forallb (fun e => negb (adrp_offset e =? 0)) l
     | [] => false
     end
  && forallb (fun off => (0 <=? off) && (off <? 2 ^ 25))
       [fo_sdmmc_accessor_gc o; fo_sdmmc_accessor_sd o; fo_sdmmc_accessor_nand o; fo_lock_mutex o; fo_unlock_mutex o;
        fo_sd_mutex o; fo_nand_mutex o; fo_active_partition o; fo_sdmmc_das_handle o].

Lemma tables_ok : forallb (fun vo => table_ok vo.1 vo.2) (zip (range 27) all_offsets) = true.
Proof. vm_compute. reflexivity. Qed.

Lemma table_of v o : get_fs_offsets v = Some o -> table_ok v o = true /\ 0 <= v < 27.
Proof.
  unfold get_fs_offsets. destruct (Z.ltb_spec v 0) as [|Hv]; [done|]. intros Ho.
  pose proof (lookup_lt_Some _ _ _ Ho) as Hl. change (length all_offsets) with 27%nat in Hl. split; [|lia].
  pose proof (proj1 (forallb_forall _ _) tables_ok (v, o)) as H. cbn [fst snd] in H. apply H.
  apply list_elem_of_In, list_elem_of_lookup. exists (Z.to_nat v). apply lookup_zip_with_Some.
  exists v, o. split_and!; [done| |done]. unfold range. rewrite lookup_seqZ. lia.
Qed.

(** Shapes and places do not depend on where things are loaded. *)
Lemma patches_shape base v o path :
  shape_ok <$> patches base v o path = shape_ok <$> patches 0 v o [] /\
  patches base v o path ≫= sites = patches 0 v o [] ≫= sites.
Proof.
  unfold patches, path_loads. destruct (FS_VER_1_0_0 <? v); [done|]. rewrite !fmap_app, !bind_app.
  split; do 2 f_equal; [by destruct (nintendo_paths o) as [|? [|? [|? [|? ?]]]]..].
Qed.

Lemma table_patches v o base path : table_ok v o = true ->
  Forall (fun p => shape_ok p = true) (patches base v o path) /\ NoDup (patches base v o path ≫= sites).
Proof.
  unfold table_ok. rewrite !andb_true_iff, bool_decide_eq_true. intros [[[[[[Hs Hd] _] _] _] _] _].
  destruct (patches_shape base v o path) as [Es ->]. split; [|done]. apply Forall_forall. intros p Hp.
  apply (list_elem_of_fmap_2 shape_ok) in Hp. rewrite Es in Hp. apply list_elem_of_fmap in Hp as (q & -> & Hq).
  rewrite forallb_forall in Hs. by apply Hs, list_elem_of_In.
Qed.

Context {patching : CodePatching}.

Definition patch_writes (base : Z) (p : patch) : list (Z * Z) :=
  match p with
  | Hook off t => [(base + off, u32 (GENERATE_BRANCH (base + off) t))]
  | Nop off => [(base + off, GENERATE_NOP)]
  | Load r off rel dst =>
      [(base + off, u32 (GENERATE_ADRP r ((dst .& 0xFFFFF000) - ((base + off) .& 0xFFFFF000))));
       (base + off + rel, u32 (GENERATE_ADD r r (dst .& 0xFFF)))]
  end.

Lemma patch_writes_sites base p : (patch_writes base p).*1 = Z.add base <$> sites p.
Proof. destruct p; cbn; rewrite ?Z.add_assoc; done. Qed.

(** Where the code of FS and emummc lie: near enough for branches, in the same
    4 GiB, all of the patched code within what may be written. *)
Record placed (base : Z) := {
  base_aligned : base mod 4 = 0;
  base_text : 0 <= base /\ text_start <= base /\ base + 2 ^ 21 <= text_end <= 2 ^ 64 /\ base + 2 ^ 25 <= 2 ^ 64;
  near_targets : Forall (fun a => a mod 4 = 0 /\ - 2 ^ 26 <= a - base <= 2 ^ 26)
    [addr_sdmmc_wrapper_read; addr_sdmmc_wrapper_write; addr_sdmmc_wrapper_controller_close;
     addr_clkrst_set_min_v_clock_rate];
  same_region : (base + 2 ^ 21 - 1) / 2 ^ 32 = base / 2 ^ 32 /\
    Forall (fun a => 0 <= a /\ a / 2 ^ 32 = base / 2 ^ 32 /\ (a + 0xFF) / 2 ^ 32 = base / 2 ^ 32)
      [addr_nintendo_path; addr_nintendo_path_album_100; addr_nintendo_path_contents_100] }.

Definition target_ok (base : Z) (p : patch) : Prop :=
  match p with
  | Hook _ t => t mod 4 = 0 /\ - 2 ^ 26 <= t - base <= 2 ^ 26
  | Nop _ => True
  | Load _ _ _ dst => 0 <= dst /\ dst / 2 ^ 32 = base / 2 ^ 32
  end.

Lemma shape_sites p : shape_ok p = true -> Forall (fun off => 0 <= off < 2 ^ 21 /\ off mod 4 = 0) (sites p).
Proof.
  unfold shape_ok. intros [H _]%andb_prop. rewrite forallb_forall in H. apply Forall_forall. intros off Hin%list_elem_of_In.
  specialize (H _ Hin). rewrite !andb_true_iff, Z.leb_le, Z.ltb_lt, Z.eqb_eq in H. tauto.
Qed.

Section Placed.
Context (base : Z) (Hbase : placed base).

Lemma site_placed off : 0 <= off < 2 ^ 21 /\ off mod 4 = 0 ->
  text_start <= base + off < text_end /\ (base + off) mod 4 = 0 /\ 0 <= base + off < 2 ^ 64 /\
  (base + off) / 2 ^ 32 = base / 2 ^ 32.
Proof.
  intros [Ho Hm]. destruct (base_text _ Hbase). destruct (same_region _ Hbase) as [Hs _].
  split_and!; [lia|lia| |lia|lia|].
  - by rewrite Zplus_mod, (base_aligned _ Hbase), Hm.
  - pose proof (Z.div_le_mono base (base + off) (2 ^ 32)). pose proof (Z.div_le_mono (base + off) (base + 2 ^ 21 - 1) (2 ^ 32)). lia.
Qed.

(** A patch that is written does what it is for. *)
Lemma patch_installed p c : shape_ok p = true -> target_ok base p ->
  Forall (fun w => c w.1 = w.2) (patch_writes base p) -> installed base c p.
Proof.
  intros Hs Ht Hw. pose proof (shape_sites p Hs) as Hp. unfold shape_ok in Hs. apply andb_prop in Hs as [_ Hr].
  destruct p as [off t|off|r off rel dst]; cbn [sites patch_writes installed target_ok] in *.
  - apply Forall_cons in Hw as [Hw _]. apply Forall_cons in Hp as [Hp _]. cbn [fst snd] in Hw. rewrite Hw. destruct (site_placed _ Hp) as (_ & Hm & _).
    destruct (generate_branch_target (base + off) t) as [Hu Hb]; [done|tauto|lia|]. by rewrite u32_id.
  - by apply Forall_cons in Hw as [Hw _].
  - apply Forall_cons in Hw as [H1 H2]. apply Forall_cons in H2 as [H2 _]. apply Forall_cons in Hp as [Hp _]. cbn [fst snd] in *.
    rewrite H1, H2. destruct (site_placed _ Hp) as (_ & _ & Hpc & Hk). apply andb_prop in Hr as [?%Z.leb_le ?%Z.ltb_lt].
    destruct (generated_address r (base + off) dst) as (U & U' & A); [lia|lia|tauto|lia|].
    by rewrite !u32_id.
Qed.

Lemma patch_words p : shape_ok p = true ->
  Forall (fun w => text_start <= w.1 < text_end /\ w.1 mod 4 = 0 /\ is_u32 w.2) (patch_writes base p).
Proof.
  intros Hs%shape_sites. destruct p; cbn [sites patch_writes] in *;
    repeat (apply Forall_cons in Hs as [?%site_placed Hs]); repeat constructor; cbn [fst snd];
    rewrite <- ?Z.add_assoc; try tauto; (apply u32_range || done).
Qed.

Context (v : Z) (o : fs_offsets_t) (path : list Z).

(** The state between the steps of the injection. *)
Definition injecting (s : emu_state) : Prop :=
  text_base s + INJECTED_SIZE = base /\ fs_offsets s = Some o /\ ctx_fs_ver (emuMMC_ctx s) = v /\ nintendo_path s = path.

Definition kept_part (s : emu_state) := (pointers s, emuMMC_ctx s).

(** [m] carries out the patches [ps] and nothing else that matters here. *)
Definition does (m : E unit) (ps : list patch) : Prop := forall s, injecting s ->
  exists s', m s = (Done tt, s') /\ injecting s' /\ kept_part s' = kept_part s /\
    forall a, code (dev s') a = apply_writes (ps ≫= patch_writes base) (code (dev s)) a.

Lemma does_nothing : does (mret tt) [].
Proof. intros s Hs. by exists s. Qed.

Lemma does_bind m1 m2 ps1 ps2 : does m1 ps1 -> does m2 ps2 -> does (m1 ;; m2) (ps1 ++ ps2).
Proof.
  intros H1 H2 s Hs. destruct (H1 s Hs) as (s1 & E1 & I1 & P1 & C1). destruct (H2 s1 I1) as (s2 & E2 & I2 & P2 & C2).
  exists s2. split_and!; [by cbv [mbind E_bind]; rewrite E1| done | congruence |].
  intros a. rewrite C2, bind_app, apply_writes_app. by apply apply_writes_ext.
Qed.

Lemma write_runs a w s : text_start <= a < text_end -> a mod 4 = 0 -> is_u32 w ->
  exists d, smcWriteAddress32 a w s = (Done 0, s <| dev := d |>) /\ forall b, code d b = upd (code (dev s)) a w b.
Proof.
  intros Ha Hm Hw. destruct (smc_writes a w (dev s) Ha Hm Hw) as (X & d & E & HX & C). exists d. split; [|done].
  unfold smcWriteAddress32, _smcWriteAddress, smc_call, io, mbind, E_bind. rewrite (u32_id w Hw), E.
  cbn [mret E_ret]. rewrite HX. done.
Qed.

Lemma injecting_dev s d : injecting s -> injecting (s <| dev := d |>).
Proof. done. Qed.
Lemma inject_offset_run s off : injecting s -> 0 <= base + off < 2 ^ 64 -> INJECT_OFFSET off s = (Done (base + off), s).
Proof. intros (Hb & _) Ho. unfold INJECT_OFFSET, get, mbind, E_bind. cbn. by rewrite Hb, u64_id. Qed.

Lemma first_site p : shape_ok p = true -> 0 <= base + default 0 (head (sites p)) < 2 ^ 64.
Proof.
  intros Hs%shape_sites. destruct p; cbn [sites head default] in *; apply Forall_cons in Hs as [Hs _]; by apply site_placed.
Qed.

(** One word written is a step. *)
Lemma writes_step s a w {A} (k : Z -> E A) : injecting s -> text_start <= a < text_end -> a mod 4 = 0 -> is_u32 w ->
  exists s', (smcWriteAddress32 a w ≫= k) s = k 0 s' /\ injecting s' /\ kept_part s' = kept_part s /\
    forall b, code (dev s') b = upd (code (dev s)) a w b.
Proof.
  intros Hs Ha Hm Hw. destruct (write_runs a w s Ha Hm Hw) as (d & E & C). exists (s <| dev := d |>).
  split_and!; [by cbv [mbind E_bind]; rewrite E|done|done|done].
Qed.

Lemma does_hook off t : shape_ok (Hook off t) = true -> does (INJECT_HOOK off t) [Hook off t].
Proof.
  intros Hp s Hs. pose proof (patch_words _ Hp) as Hw. apply Forall_cons in Hw as [(Ht & Hm & Hu) _]. cbn [fst snd] in *.
  unfold INJECT_HOOK, hook_function. cbv [mbind E_bind]. rewrite inject_offset_run by (done || by apply (first_site _ Hp)).
  destruct (writes_step s _ _ (fun _ => mret tt) Hs Ht Hm Hu) as (s' & E & ?). by exists s'.
Qed.

Lemma does_hook_relative off rel : shape_ok (Hook off (base + off + rel)) = true -> 0 <= rel ->
  base + off + rel < 2 ^ 64 -> does (INJECT_HOOK_RELATIVE off rel) [Hook off (base + off + rel)].
Proof.
  intros Hp Hr Hb s Hs. destruct (does_hook _ _ Hp s Hs) as (s' & E & ?). exists s'. split; [|done]. rewrite <- E.
  pose proof (shape_sites _ Hp) as Ho. apply Forall_cons in Ho as [Ho _]. destruct (site_placed _ Ho) as (_ & _ & Hpc & _).
  unfold INJECT_HOOK_RELATIVE, INJECT_HOOK. cbv [mbind E_bind]. rewrite inject_offset_run by done. rewrite u64_id; [done|unfold is_u64; lia].
Qed.

Lemma does_nop off : shape_ok (Nop off) = true -> does (INJECT_NOP off) [Nop off].
Proof.
  intros Hp s Hs. pose proof (patch_words _ Hp) as Hw. apply Forall_cons in Hw as [(Ht & Hm & Hu) _]. cbn [fst snd] in *.
  unfold INJECT_NOP, write_nop. cbv [mbind E_bind]. rewrite inject_offset_run by (done || by apply (first_site _ Hp)).
  destruct (writes_step s _ _ (fun _ => mret tt) Hs Ht Hm Hu) as (s' & E & ?). by exists s'.
Qed.

Lemma does_load e dst : shape_ok (Load (opcode_reg e) (adrp_offset e) (add_rel_offset e) dst) = true ->
  does (pc ← INJECT_OFFSET (adrp_offset e); write_adrp_add (opcode_reg e) pc (add_rel_offset e) dst)
    [Load (opcode_reg e) (adrp_offset e) (add_rel_offset e) dst].
Proof.
  intros Hp s Hs. pose proof (patch_words _ Hp) as Hw. apply Forall_cons in Hw as [(Ht & Hm & Hu) Hw].
  apply Forall_cons in Hw as [(Ht2 & Hm2 & Hu2) _]. cbn [fst snd] in *.
  pose proof (first_site _ Hp) as Hpc. cbn [sites head] in Hpc. pose proof (base_text _ Hbase).
  pose proof (shape_sites _ Hp) as Ho. apply Forall_cons in Ho as [_ Ho]. apply Forall_cons in Ho as [Ho _].
  cbv [mbind E_bind]. rewrite inject_offset_run by (done || lia).
  unfold write_adrp_add. rewrite (u64_id (_ + add_rel_offset e)) by (unfold is_u64; lia).
  destruct (writes_step s _ _ (fun _ => smcWriteAddress32 (base + adrp_offset e + add_rel_offset e)
    (u32 (GENERATE_ADD (opcode_reg e) (opcode_reg e) (dst .& 0xFFF))) ;; mret tt) Hs Ht Hm Hu) as (s1 & E1 & I1 & P1 & C1).
  destruct (writes_step s1 _ _ (fun _ => mret tt) I1 Ht2 Hm2 Hu2) as (s2 & E2 & I2 & P2 & C2).
  exists s2. split_and!; [by etransitivity; [exact E1|exact E2]|done|congruence|].
  intros a. rewrite C2. cbn [list_bind patch_writes app apply_writes]. unfold upd. destruct (a =? base + adrp_offset e + add_rel_offset e); [done|]. apply C1.
Qed.

Lemma does_get {A} (m : E A) (x : A) k ps : (forall s, injecting s -> m s = (Done x, s)) -> does (k x) ps -> does (m ≫= k) ps.
Proof. intros Hm Hk s Hs. destruct (Hk s Hs) as (s' & E & ?). exists s'. split; [|done]. cbv [mbind E_bind]. by rewrite Hm. Qed.
Lemma does_version k ps : (forall c, ctx_fs_ver c = v -> does (k c) ps) -> does (get emuMMC_ctx ≫= k) ps.
Proof. intros Hk s Hs. destruct Hs as (Hb & Ho & Hv & Hp). by apply (Hk (emuMMC_ctx s) Hv). Qed.
Lemma offsets_run s : injecting s -> offsets s = (Done o, s).
Proof. intros (_ & Ho & _). unfold offsets, get, mbind, E_bind. by rewrite Ho. Qed.

(** The loop over the paths of the later versions. *)
Lemma does_paths l e : adrp_offset e = 0 -> forallb (fun e => negb (adrp_offset e =? 0)) l = true ->
  forallb (fun e => shape_ok (Load (opcode_reg e) (adrp_offset e) (add_rel_offset e) addr_nintendo_path)) l = true ->
  does (patch_nintendo_paths (l ++ [e]))
    (map (fun e => Load (opcode_reg e) (adrp_offset e) (add_rel_offset e) addr_nintendo_path) l).
Proof.
  intros He. induction l as [|x l IH]; cbn [app patch_nintendo_paths map forallb].
  - intros _ _. rewrite He. apply does_nothing.
  - intros [Hx Hl]%andb_prop [Sx Sl]%andb_prop. apply negb_true_iff in Hx. rewrite Hx.
    pose proof (does_bind _ _ _ _ (does_load x _ Sx) (IH Hl Sl)) as D. intros s Hs. destruct (D s Hs) as (s' & E & ?).
    exists s'. split; [|done]. rewrite <- E. cbv [mbind E_bind]. destruct (INJECT_OFFSET _ s) as [[]]; done.
Qed.

Lemma does_path_at i e dst : nintendo_paths o !! i = Some e ->
  shape_ok (Load (opcode_reg e) (adrp_offset e) (add_rel_offset e) dst) = true ->
  does (patch_path_at o i dst) [Load (opcode_reg e) (adrp_offset e) (add_rel_offset e) dst].
Proof. intros He Hs. unfold patch_path_at. rewrite He. by apply does_load. Qed.

(** Changes of what does not matter here. *)
Lemma does_modify f : (forall s, injecting s -> injecting (f s) /\ kept_part (f s) = kept_part s /\ dev (f s) = dev s) ->
  does (modify f) [].
Proof. intros Hf s Hs. destruct (Hf s Hs) as (I & P & D). exists (f s). unfold modify. by rewrite D. Qed.

Context (Htable : table_ok v o = true) (Hpath : Z.of_nat (length (ExtKeys.c_string path)) <= 0x7F).

Lemma rtld_bounds : 0 <= fo_rtld_destination o /\ fo_rtld o + fo_rtld_destination o < 2 ^ 21 /\ fo_rtld_destination o mod 4 = 0.
Proof.
  pose proof Htable as T. unfold table_ok in T. rewrite !andb_true_iff in T. destruct T as [[[[[_ T1] T2] T3] _] _].
  rewrite Z.eqb_eq, Z.leb_le, Z.ltb_lt in *. done.
Qed.

Lemma shapes : Forall (fun p => shape_ok p = true) (hooks base v o) /\ Forall (fun p => shape_ok p = true) (nops v o) /\
  Forall (fun p => shape_ok p = true) (path_loads v o path).
Proof. destruct (table_patches v o base path Htable) as [H _]. unfold patches in H. rewrite !Forall_app in H. tauto. Qed.

Lemma does_setup_hooks : does setup_hooks (hooks base v o).
Proof.
  destruct shapes as (H & _). unfold hooks in *. apply Forall_app in H as [H1 H2].
  repeat (apply Forall_cons in H1 as [? H1]). pose proof rtld_bounds. destruct (base_text _ Hbase).
  apply (does_get _ _ _ _ offsets_run). cbn [app].
  refine (does_bind _ _ [_] _ (does_hook_relative _ _ _ _ _) (does_bind _ _ [_] _ (does_hook _ _ _)
    (does_bind _ _ [_] _ (does_hook _ _ _) (does_bind _ _ [_] _ (does_hook _ _ _) _)))); try done.
  - tauto.
  - lia.
  - apply does_version. intros c Hc. rewrite Hc. destruct (FS_VER_8_0_0 <=? v); [|apply does_nothing].
    apply does_hook. by apply Forall_cons in H2 as [H2 _].
Qed.

Lemma does_write_nops : does write_nops (nops v o).
Proof.
  destruct shapes as (_ & H & _). unfold nops in *. apply (does_get _ _ _ _ offsets_run), does_version. intros c ->.
  destruct (FS_VER_7_0_0 <=? v); [|apply does_nothing]. apply does_nop. by apply Forall_cons in H as [H _].
Qed.

Lemma does_setup_paths : get_fs_offsets v = Some o -> does setup_nintendo_paths (path_loads v o path).
Proof.
  intros Hv. destruct shapes as (_ & _ & H). unfold path_loads in *. apply does_version. intros c ->.
  apply (does_get _ _ _ _ offsets_run). destruct (Z.ltb_spec FS_VER_1_0_0 v) as [|Hle].
  - pose proof Htable as T. unfold table_ok in T. rewrite !andb_true_iff in T. destruct T as [[_ T] _].
    destruct (rev (nintendo_paths o)) as [|e l] eqn:E; [done|]. apply andb_prop in T as [He%Z.eqb_eq Hl].
    assert (nintendo_paths o = rev l ++ [e]) as Eo by by rewrite <- (rev_involutive (nintendo_paths o)), E.
    assert (Hl' : forallb (fun e => negb (adrp_offset e =? 0)) (rev l) = true).
    { apply forallb_forall. intros x Hx%in_rev. rewrite forallb_forall in Hl. by apply Hl. }
    assert (Ef : filter (fun e => adrp_offset e <> 0) (nintendo_paths o) = rev l).
    { rewrite Eo, filter_app. rewrite (filter_cons_False _ e) by tauto. rewrite filter_nil, app_nil_r.
      clear -Hl'. induction (rev l) as [|x r IH]; [done|]. apply andb_prop in Hl' as [Hx Hr].
      rewrite filter_cons_True by by apply negb_true_iff, Z.eqb_neq in Hx. by rewrite IH. }
    rewrite Ef in *. rewrite Eo. apply does_paths; [done|done|]. apply forallb_forall. intros x Hx.
    rewrite Forall_forall in H. apply H. apply list_elem_of_In, in_map_iff. by exists x.
  - assert (exists e0 e1 e2 e3 e4, nintendo_paths o = [e0; e1; e2; e3; e4]) as (e0 & e1 & e2 & e3 & e4 & En).
    { assert (v = 0) as E by (apply table_of in Hv; unfold FS_VER_1_0_0 in *; lia). rewrite E in Hv. injection Hv as <-. by do 5 eexists. }
    rewrite En in *. cbn [zip_with] in *. do 4 (apply Forall_cons in H as [? H]).
    apply (does_get _ path); [by intros s (_ & _ & _ & <-)|]. cbv zeta. rewrite !length_app.
    change (length (str "/")) with 1%nat. change (length (str "/Album")) with 6%nat. change (length (str "/Contents")) with 9%nat.
    set (n := length _) in *.
    replace (addr_nintendo_path_album_100 + Z.of_nat (1 + (n + 6)) - 6) with (addr_nintendo_path_album_100 + 1 + Z.of_nat n) by lia.
    replace (addr_nintendo_path_contents_100 + Z.of_nat (1 + (n + 9)) - 9) with (addr_nintendo_path_contents_100 + 1 + Z.of_nat n) by lia.
    refine (does_bind _ _ [] _ (does_modify _ _) (does_bind _ _ [_] _ (does_path_at 0 e0 _ _ _)
      (does_bind _ _ [_] _ (does_path_at 1 e1 _ _ _) (does_bind _ _ [] _ (does_modify _ _)
      (does_bind _ _ [_] _ (does_path_at 2 e2 _ _ _) (does_path_at 3 e3 _ _ _)))))); (done || by rewrite En).
Qed.

(** The pointers into FS. *)
Definition fs_pointers_at : fs_pointers :=
  mk_fs_pointers (base + fo_sdmmc_accessor_gc o) (base + fo_sdmmc_accessor_sd o) (base + fo_sdmmc_accessor_nand o)
    (base + fo_lock_mutex o) (base + fo_unlock_mutex o) (base + fo_sd_mutex o) (base + fo_nand_mutex o)
    (base + fo_active_partition o) (base + fo_sdmmc_das_handle o).

Lemma populate_runs s : injecting s -> populate_function_pointers s = (Done tt, s <| pointers := fs_pointers_at |>).
Proof.
  intros Hs. pose proof Htable as T. unfold table_ok in T. apply andb_true_iff in T as [_ T].
  assert (R : forall off, off ∈ [fo_sdmmc_accessor_gc o; fo_sdmmc_accessor_sd o; fo_sdmmc_accessor_nand o; fo_lock_mutex o;
    fo_unlock_mutex o; fo_sd_mutex o; fo_nand_mutex o; fo_active_partition o; fo_sdmmc_das_handle o] ->
    INJECT_OFFSET off s = (Done (base + off), s)).
  { intros off Ho%list_elem_of_In. rewrite forallb_forall in T. specialize (T _ Ho). apply andb_prop in T as [?%Z.leb_le ?%Z.ltb_lt].
    apply inject_offset_run; [done|]. pose proof (base_text _ Hbase). lia. }
  unfold populate_function_pointers. cbv [mbind E_bind]. rewrite offsets_run by done.
  rewrite !R by in_list. done.
Qed.

Lemma patches_targets : Forall (target_ok base) (patches base v o path).
Proof.
  pose proof (near_targets _ Hbase) as N. repeat (apply Forall_cons in N as [? N]).
  destruct (same_region _ Hbase) as [_ R]. rewrite Forall_forall in R. destruct shapes as (Sh & _).
  unfold patches. rewrite !Forall_app. split_and!.
  - unfold hooks in *. apply Forall_app in Sh as [Sh _]. apply Forall_cons in Sh as [Sh _]. apply shape_sites in Sh.
    apply Forall_cons in Sh as [Sh _]. pose proof rtld_bounds. apply Forall_app. split.
    + repeat constructor; try tauto; try lia.
      rewrite Zplus_mod, (Zplus_mod base), (base_aligned _ Hbase), (proj2 Sh), (proj2 (proj2 rtld_bounds)). done.
    + destruct (FS_VER_8_0_0 <=? v); [by apply Forall_singleton|apply Forall_nil_2].
  - unfold nops. destruct (FS_VER_7_0_0 <=? v); [by apply Forall_singleton|apply Forall_nil_2].
  - assert (D : forall a k, a ∈ [addr_nintendo_path; addr_nintendo_path_album_100; addr_nintendo_path_contents_100] ->
      0 <= k <= 0xFF -> 0 <= a + k /\ (a + k) / 2 ^ 32 = base / 2 ^ 32).
    { intros a k Ha Hk. destruct (R _ Ha) as (? & ? & ?). pose proof (Z.div_le_mono a (a + k) (2 ^ 32)).
      pose proof (Z.div_le_mono (a + k) (a + 0xFF) (2 ^ 32)). lia. }
    unfold path_loads. destruct (FS_VER_1_0_0 <? v).
    + apply Forall_forall. intros p Hp. apply list_elem_of_In, in_map_iff in Hp as (e & <- & _). cbn [target_ok].
      rewrite <- (Z.add_0_r addr_nintendo_path). apply D; [in_list|lia].
    + assert (Z0 : forall (l : list fs_offsets_nintendo_path_t) ds, Forall (fun d => 0 <= d /\ d / 2 ^ 32 = base / 2 ^ 32) ds ->
        Forall (target_ok base) (zip_with (fun e dst => Load (opcode_reg e) (adrp_offset e) (add_rel_offset e) dst) l ds)).
      { intros l ds Hd. revert l. induction Hd; intros [|]; constructor; done. }
      apply Z0. rewrite <- (Z.add_0_r addr_nintendo_path_album_100) at 1. rewrite <- (Z.add_0_r addr_nintendo_path_contents_100) at 1.
      rewrite <- !Z.add_assoc. repeat constructor; apply D; (lia || in_list).
Qed.

(** Everything that was written. *)
Lemma installed_all c c' : (forall a, c' a = apply_writes (patches base v o path ≫= patch_writes base) c a) ->
  Forall (installed base c') (patches base v o path) /\
  forall a, a ∉ Z.add base <$> (patches base v o path ≫= sites) -> c' a = c a.
Proof.
  intros Hc. destruct (table_patches v o base path Htable) as [Hs Hd].
  assert (E : (patches base v o path ≫= patch_writes base).*1 = Z.add base <$> (patches base v o path ≫= sites)).
  { clear. induction (patches base v o path) as [|p l IH]; [done|]. cbn. rewrite !fmap_app, <- patch_writes_sites. f_equal. exact IH. }
  split; [|intros a Ha; rewrite Hc; apply apply_writes_other; by rewrite E].
  pose proof patches_targets as Ht. rewrite Forall_forall in *. intros p Hp.
  apply patch_installed; [by apply Hs|by apply Ht|]. apply Forall_forall. intros [a w] Hw. cbn [fst snd]. rewrite Hc.
  apply apply_writes_at; [rewrite E; apply NoDup_fmap_2; [intros x y; lia|done]|]. apply list_elem_of_bind. by exists p.
Qed.
End Placed.
End Patches.
