(* ===== verification/EmummcInit.v ===== *)
(** The start of emummc: from the configuration in the monitor to the patched
    file system module. *)
From S2P Require Import Prelude State Utils Pages PageProps Fusee FuseeKeys FsOffsets Emummc InjectProps.
Import Smc Inject.

(** ** The configuration *)

Record emummc_cfg_ok (cfg : exo_emummc_config_t) : Prop := {
  cfg_words : is_u32 (emummc_type cfg) /\ is_u32 (emummc_id cfg) /\ is_u32 (emummc_fs_version cfg);
  cfg_magic_ok : emummc_magic cfg = EMUMMC_STORAGE_MAGIC;
  cfg_type_ok : In (emummc_type cfg) [AMS.EMUMMC_TYPE_NONE; AMS.EMUMMC_TYPE_PARTITION; AMS.EMUMMC_TYPE_FILES];
  cfg_union : length (emummc_union cfg) = 0x80%nat /\ is_bytes (emummc_union cfg);
  cfg_dir : length (emu_dir_path cfg) = 0x80%nat /\ is_bytes (emu_dir_path cfg) }.

Lemma words64_bytes n l : length l = (8 * n)%nat -> is_bytes l -> bytes_of_words64 (words64 n l) = l.
Proof.
  unfold bytes_of_words64. revert l. induction n as [|n IH]; intros l Hl Hb; [symmetry; apply nil_length_inv; lia|].
  cbn [words64]. change ((?x :: ?r) ≫= le_bytes 8) with (le_bytes 8 x ++ (r ≫= le_bytes 8)).
  rewrite IH by (rewrite ?length_drop; lia || by apply Forall_drop). rewrite <- (take_drop 8 l) at 3. f_equal.
  replace 8%nat with (length (take 8 l)) at 1 by (rewrite length_take; lia). apply le_bytes_value. by apply Forall_take.
Qed.

(** What the fourth argument of [smcGetEmummcConfig] receives. *)
Definition config_bytes (cfg : exo_emummc_config_t) : list Z :=
  AMS.base_cfg_bytes cfg ++ (if emummc_type cfg =? AMS.EMUMMC_TYPE_PARTITION then slice (emummc_union cfg) 0 8 else zeros 8).

Lemma base_cfg_length cfg : length (AMS.base_cfg_bytes cfg) = 16%nat.
Proof. reflexivity. Qed.
Lemma base_cfg_is_bytes cfg : is_bytes (AMS.base_cfg_bytes cfg).
Proof.
  unfold AMS.base_cfg_bytes, bytes_of_words32, is_bytes. cbn [mbind list_bind].
  rewrite !Forall_app. split_and!; try apply le_bytes_is_bytes. constructor.
Qed.

Lemma answer_bytes cfg : emummc_cfg_ok cfg ->
  nth 0 (emummc_answer cfg) 0 = 0 /\ length (emummc_answer cfg) = 8%nat /\
  slice (bytes_of_words64 (drop 1 (emummc_answer cfg))) 0 0x18 = config_bytes cfg.
Proof.
  intros Hc. destruct (cfg_union _ Hc) as [Hl Hb]. pose proof (base_cfg_is_bytes cfg) as Hbb.
  unfold config_bytes, emummc_answer. set (part := emummc_type cfg =? AMS.EMUMMC_TYPE_PARTITION).
  set (bs := AMS.base_cfg_bytes cfg ++ _).
  assert (Hbs : is_bytes bs /\ length bs = (if part then 24 else 16)%nat).
  { subst bs. rewrite length_app, base_cfg_length. unfold is_bytes. destruct part.
    - split; [apply Forall_app; split; [done|by apply slice_is_bytes]|]. rewrite length_slice; lia.
    - split; [by rewrite app_nil_r|done]. }
  set (R := bs ++ zeros (56 - length bs)).
  assert (HR : length R = 56%nat /\ is_bytes R).
  { subst R. rewrite length_app. unfold zeros. rewrite length_replicate. split; [destruct part; lia|].
    apply Forall_app. split; [tauto|]. apply Forall_replicate. unfold is_u8. lia. }
  assert (E : copy_to_X (zeros 8) 1 bs = 0 :: words64 7 R).
  { unfold copy_to_X, splice. change (bytes_of_words64 (zeros 8)) with (zeros 64). change (Z.to_nat (8 * 1)) with 8%nat.
    rewrite (take_ge bs) by (unfold zeros; rewrite length_replicate; destruct part; lia).
    unfold zeros. rewrite drop_replicate. replace (64 - (8 + length bs))%nat with (56 - length bs)%nat by lia.
    fold (zeros (56 - length bs)). fold R. reflexivity. }
  rewrite E. split_and!; [done|done|]. change (drop 1 (0 :: words64 7 R)) with (words64 7 R). rewrite words64_bytes by (tauto || lia). subst R bs. rewrite <- app_assoc.
  rewrite length_app, base_cfg_length. unfold slice. rewrite drop_0. destruct part.
  - rewrite take_app_ge by (rewrite base_cfg_length; lia). f_equal. rewrite base_cfg_length.
    rewrite take_app_le by (fold (slice (emummc_union cfg) 0 8); rewrite length_slice; lia).
    apply take_ge. fold (slice (emummc_union cfg) 0 8). rewrite length_slice; lia.
  - rewrite app_nil_l. reflexivity.
Qed.

Lemma config_fields cfg : emummc_cfg_ok cfg ->
  read32le (config_bytes cfg) 0 = EMUMMC_STORAGE_MAGIC /\ read32le (config_bytes cfg) 4 = emummc_type cfg /\
  read32le (config_bytes cfg) 8 = emummc_id cfg /\ read32le (config_bytes cfg) 12 = emummc_fs_version cfg /\
  (emummc_type cfg = emuMMC_SD -> read64le (config_bytes cfg) 16 = read64le (emummc_union cfg) 0).
Proof.
  intros Hc. destruct (cfg_words _ Hc) as (Ht & Hi & Hv). pose proof (cfg_magic_ok _ Hc) as Hm.
  assert (R : forall v, is_u32 v -> le_value (le_bytes 4 v) = v) by (intros v Hv'; by apply le_value_bytes).
  split_and!.
  - rewrite <- Hm. apply (R (emummc_magic cfg)). by rewrite Hm.
  - by apply (R (emummc_type cfg)).
  - by apply (R (emummc_id cfg)).
  - by apply (R (emummc_fs_version cfg)).
  - intros E. unfold config_bytes, read64le. rewrite E. cbn [Z.eqb emuMMC_SD AMS.EMUMMC_TYPE_PARTITION Pos.eqb].
    rewrite slice_app_at by done. f_equal. apply take_ge. rewrite length_slice; destruct (cfg_union _ Hc); lia.
Qed.

(** What emummc makes of it. *)
Definition configured (cfg : exo_emummc_config_t) : emuMMC_ctx_t := {|
  ctx_magic := EMUMMC_STORAGE_MAGIC; ctx_id := emummc_id cfg; ctx_fs_ver := emummc_fs_version cfg;
  EMMC_Type := emummc_type cfg; SD_Type := emuMMC_SD;
  EMMC_StoragePartitionOffset := if emummc_type cfg =? emuMMC_SD then read64le (emummc_union cfg) 0 else 0;
  SD_StoragePartitionOffset := 0;
  storagePath := if emummc_type cfg =? emuMMC_SD_File then take 0x7F (emummc_union cfg) ++ [0] else replicate 0x80 0 |}.

(** The directory that stands for "Nintendo". *)
Definition directory (cfg : exo_emummc_config_t) : list Z :=
  let dir := ExtKeys.c_string (take 0x7F (emu_dir_path cfg)) in
  if bool_decide (dir = []) then str "emummc/Nintendo_" ++ format_04x (emummc_id cfg) else dir.

Lemma before_app c a b : c ∉ a -> ExtKeys.before c (a ++ c :: b) = Some a.
Proof.
  induction a as [|x a IH]; cbn; [by rewrite Z.eqb_refl|]. rewrite not_elem_of_cons. intros [Hx Ha].
  rewrite (proj2 (Z.eqb_neq x c)) by done. by rewrite IH.
Qed.
Lemma c_string_app a b : 0 ∉ a -> ExtKeys.c_string (a ++ 0 :: b) = a.
Proof. intros H. unfold ExtKeys.c_string. by rewrite before_app. Qed.
Lemma c_string_snoc a : ExtKeys.c_string (a ++ [0]) = ExtKeys.c_string a.
Proof.
  unfold ExtKeys.c_string. assert (ExtKeys.before 0 (a ++ [0]) = Some (default a (ExtKeys.before 0 a))) as ->; [|done].
  induction a as [|x a IH]; [done|]. cbn. destruct (x =? 0); [done|]. rewrite IH. by destruct (ExtKeys.before 0 a).
Qed.
Lemma c_string_length a : (length (ExtKeys.c_string a) <= length a)%nat.
Proof.
  unfold ExtKeys.c_string. induction a as [|x a IH]; [done|]. cbn. destruct (x =? 0); cbn; [lia|].
  destruct (ExtKeys.before 0 a); cbn in *; lia.
Qed.
Lemma c_string_put buf s : 0 ∉ s -> (length s < length buf)%nat -> ExtKeys.c_string (put_string buf s) = s.
Proof.
  intros Hs Hl. unfold put_string, splice. change (Z.to_nat 0) with 0%nat. rewrite take_0, app_nil_l, take_ge by (rewrite length_app; cbn; lia).
  rewrite <- app_assoc. by apply c_string_app.
Qed.

Lemma format_04x_chars v : ~ (0 ∈ format_04x v) /\ (length (format_04x v) <= 8)%nat.
Proof.
  assert (H : forall n s, Forall (fun c => 0 < c) s -> Forall (fun c => 0 < c) (strip_zeros n s) /\ (length (strip_zeros n s) <= length s)%nat).
  { intros n s Hs. revert s Hs. induction n as [|n IH]; intros s Hs; [done|]. destruct s as [|c s]; [done|]. cbn [strip_zeros].
    apply Forall_cons in Hs as [Hc Hs]. destruct (IH s Hs) as [I1 I2].
    destruct (c =? 48); [cbn [length]; split; [done|lia]|]. split; [by constructor|done]. }
  unfold format_04x. set (ds := map _ _).
  assert (Hd : Forall (fun c => 0 < c) ds).
  { apply Forall_forall. intros c Hc%list_elem_of_In. apply in_map_iff in Hc as (i & <- & _). unfold hex_digit.
    change 0xF with (Z.ones 4). rewrite Z.land_ones by lia. pose proof (Z.mod_pos_bound (v >>. (28 - 4 * i)) (2 ^ 4)).
    destruct (_ <? 10); lia. }
  destruct (H 4%nat ds Hd) as [H1 H2]. split; [|exact H2]. intros Hin. rewrite Forall_forall in H1. specialize (H1 0 Hin). lia.
Qed.

Section Start.
Context {sys : EmuSystem} {soc : SoC} {patching : CodePatching}.

Definition get_config_args (out : Z) : list Z := [0xF0000404; 0; out; uninit; uninit; uninit; uninit; uninit].

(** The kernel takes the call to the monitor, whose state is [w], with [pa] for
    the address of [paths]; the registers come back, and the page holds what the
    monitor wrote. *)
Definition forwards_config (d : Dev) (w : World) (pa : Z) : Prop := forall r regs w',
  AMS.ams_get_emummc_config (get_config_args pa) w = (Ret (r, regs), w') ->
  exists d', svcCallSecureMonitor (get_config_args addr_paths) d = ((0, set_X regs 0 r), d') /\
    read_memory addr_paths 0x100 d' = phys_read_bytes (w_phys w') pa 256 /\
    forall a, code d' a = code d a.

(** The monitor is idle and has a configuration; the page is one it accepts. *)
Record monitor_ready (w : World) (pa : Z) : Prop := {
  ready_config : g_has_loaded_config (w_exo w) = true;
  ready_ams : w_ams w = mk_ams false false;
  ready_page : 0x80000000 <= pa < 0x80000000 + (6 <<. 30) /\ pa mod 0x1000 <= 0xF00;
  ready_cfg : emummc_cfg_ok (emummc_cfg (g_exosphere_cfg (w_exo w))) }.

Lemma page_slice m pa off l : 0 <= off -> off + 127 <= 256 -> (127 <= length l)%nat ->
  (forall i, 0 <= i < 127 -> m (pa + (off + i)) = byte_at l i) ->
  slice (phys_read_bytes m pa 256) off 0x7F = take 127 l.
Proof.
  intros Ho Ho' Hl H. rewrite phys_read_at. change (Z.of_nat 256) with 256.
  assert (Hlen : length (map (fun i => m (pa + i)) (range 256)) = 256%nat) by (rewrite length_map; unfold range; rewrite length_seqZ; done).
  apply bytes_ext; [rewrite length_slice, length_take by lia; lia|]. rewrite length_slice by lia.
  intros i Hi. rewrite byte_at_slice, byte_at_take by lia. rewrite <- H by lia.
  rewrite byte_at_lookup by lia. change (map ?f ?l) with (f <$> l). rewrite list_lookup_fmap. unfold range.
  rewrite (proj2 (lookup_seqZ 0 256 (Z.to_nat (off + i)) (off + i))) by lia. done.
Qed.

Lemma paths_read cfg mem pa : emummc_cfg_ok cfg ->
  let page := phys_read_bytes (emummc_paths cfg mem pa) pa 256 in
  slice page 0x80 0x7F = take 127 (emu_dir_path cfg) /\
  (emummc_type cfg = emuMMC_SD_File -> slice page 0 0x7F = take 127 (emummc_union cfg)).
Proof.
  intros Hc. destruct (cfg_union _ Hc) as [Hu _]. destruct (cfg_dir _ Hc) as [Hd _]. cbn zeta. split.
  - apply page_slice; [lia..|]. intros i Hi. unfold emummc_paths, phys_write_bytes. rewrite Hu, Hd. destruct (_ =? _); zdec; f_equal; lia.
  - intros E. apply page_slice; [lia..|]. intros i Hi. unfold emummc_paths, phys_write_bytes. rewrite E, Hu. cbn [Z.eqb Pos.eqb emuMMC_SD_File AMS.EMUMMC_TYPE_FILES]. zdec. f_equal; lia.
Qed.

Lemma load_runs s w pa : monitor_ready w pa -> forwards_config (dev s) w pa -> emuMMC_ctx s = boot_ctx ->
  let cfg := emummc_cfg (g_exosphere_cfg (w_exo w)) in
  exists s', load_emummc_ctx s = (Done tt, s') /\ text_base s' = text_base s /\ emuMMC_ctx s' = configured cfg /\
    ExtKeys.c_string (nintendo_path s') = directory cfg /\ pointers s' = pointers s /\
    forall a, code (dev s') a = code (dev s) a.
Proof.
  intros Hr Hf Hs. cbn zeta. pose proof (ready_cfg _ _ Hr) as Hc. set (cfg := emummc_cfg (g_exosphere_cfg (w_exo w))) in *.
  destruct (ready_page _ _ Hr) as [Hp Ho].
  destruct (ams_get_emummc_config_run (get_config_args pa) w eq_refl Hp Ho (ready_config _ _ Hr) (ready_ams _ _ Hr) (cfg_type_ok _ Hc))
    as (w' & E & _ & Hm).
  destruct (Hf _ _ _ E) as (d' & Ec & Er & Hcode). fold cfg in E, Hm, Ec. rewrite Hm in Er.
  destruct (answer_bytes cfg Hc) as (H0 & H8 & Hb). destruct (config_fields cfg Hc) as (F0 & F4 & F8 & F12 & F16).
  destruct (paths_read cfg (w_phys w) pa Hc) as [Pd Pf].
  assert (Eg : smcGetEmummcConfig EXO_EMUMMC_MMC_NAND addr_paths s = (Done (0, config_bytes cfg), s <| dev := d' |>)).
  { unfold smcGetEmummcConfig, smc_call, io. cbv [mbind E_bind]. fold (get_config_args addr_paths).
    change [_; _; _; _; _; _; _; _] with (get_config_args addr_paths). rewrite Ec. cbn [mret E_ret].
    destruct (emummc_answer cfg) as [|x l]; [done|]. cbn in H0. subst x. unfold set_X. cbn [nth insert list_insert Z.to_nat].
    change (drop 1 (0 :: l)) with l in *. rewrite <- Hb. reflexivity. }
  unfold load_emummc_ctx. rewrite (then_run _ _ _ _ _ Eg). cbn [Z.eqb negb]. rewrite F0, F4, F8, F12. cbn [Z.eqb Pos.eqb EMUMMC_STORAGE_MAGIC].
  erewrite then_run by reflexivity. erewrite then_run by reflexivity. cbn beta.
  set (page := read_memory addr_paths 256 _). assert (Epage : page = phys_read_bytes (emummc_paths cfg (w_phys w) pa) pa 256) by exact Er.
  rewrite Epage. clear page Epage.
  set (s1 := (s <| dev := d' |>) <| emuMMC_ctx ::= _ |>).
  assert (E3 : exists s2, (if emummc_type cfg =? emuMMC_SD
    then modify (fun s => s <| emuMMC_ctx ::= fun c => c <| EMMC_StoragePartitionOffset := read64le (config_bytes cfg) 16 |> |>)
    else if emummc_type cfg =? emuMMC_SD_File
    then modify (fun s => s <| emuMMC_ctx ::= fun c => c <| storagePath := slice (phys_read_bytes (emummc_paths cfg (w_phys w) pa) pa 256) 0 0x7F ++ [0] |> |>)
    else mret tt) s1 = (Done tt, s2) /\ text_base s2 = text_base s /\ emuMMC_ctx s2 = configured cfg /\ pointers s2 = pointers s /\ dev s2 = d').
  { assert (T : emummc_type cfg = 0 \/ emummc_type cfg = 1 \/ emummc_type cfg = 2).
    { destruct (cfg_type_ok _ Hc) as [<-|[<-|[<-|[]]]]; auto. }
    unfold configured. subst s1. destruct T as [T|[T|T]]; rewrite T in *; cbn [Z.eqb Pos.eqb emuMMC_SD emuMMC_SD_File];
      (eexists; split; [reflexivity|]); rewrite <- ?F16, <- ?Pf by done;
      (split_and!; [reflexivity| |reflexivity|reflexivity]); cbn; rewrite Hs; reflexivity. }
  destruct E3 as (s2 & E3 & T2 & C2 & P2 & D2). rewrite (then_run _ _ _ _ _ E3). rewrite Pd.
  erewrite then_run by reflexivity. erewrite then_run by reflexivity. cbn beta.
  change (nintendo_path (s2 <| nintendo_path := ?p |>)) with p. unfold directory. rewrite c_string_snoc. case_bool_decide as B.
  - eexists. split; [reflexivity|]. split_and!; try done; [|cbn; by rewrite D2].
    destruct (format_04x_chars (emummc_id cfg)) as [Z0 L]. set (h := format_04x (emummc_id cfg)) in *.
    assert (Hn : ~ (0 ∈ str "emummc/Nintendo_" ++ h)).
    { rewrite elem_of_app. intros [H|H]; [|done]. apply (bool_decide_unpack (0 ∉ str "emummc/Nintendo_")); done. }
    change (nintendo_path _) with (put_string (take 127 (emu_dir_path cfg) ++ [0]) (snprintf 0x80 (str "emummc/Nintendo_" ++ h))). unfold snprintf. rewrite (take_ge (str _ ++ h)) by (rewrite length_app; change (length (str _)) with 16%nat; lia).
    apply c_string_put; [done|]. rewrite !length_app, length_take. change (length (str _)) with 16%nat.
    destruct (cfg_dir _ Hc). cbn [length]. lia.
  - eexists. split; [reflexivity|]. split_and!; try done; [apply c_string_snoc|cbn; by rewrite D2].
Qed.

(** The rest of the start does not write the code of FS. *)
Class QuietStart := {
  libc_keeps_code d a : code (libc_init_array d) a = code d a;
  query_keeps_code x d a : code (snd (svcQueryMemory_addr x d)) a = code d a;
  clock_keeps_code d a : code (clock_enable_i2c5 d) a = code d a;
  i2c_keeps_code d a : code (i2c_init d) a = code d a }.
Context {quiet : QuietStart}.

(** The steps after the configuration is known. *)
Lemma injection_runs s base v o path : placed base -> get_fs_offsets v = Some o ->
  Z.of_nat (length (ExtKeys.c_string path)) <= 0x7F -> injecting base v o path s ->
  exists s', (setup_hooks ;; populate_function_pointers ;; write_nops ;; setup_nintendo_paths) s = (Done tt, s') /\
    injecting base v o path s' /\ emuMMC_ctx s' = emuMMC_ctx s /\ pointers s' = fs_pointers_at base o /\
    Forall (installed base (code (dev s'))) (patches base v o path) /\
    forall a, a ∉ Z.add base <$> (patches base v o path ≫= sites) -> code (dev s') a = code (dev s) a.
Proof.
  intros Hb Hv Hp Hs. destruct (table_of v o Hv) as [Ht _].
  destruct (does_setup_hooks base Hb v o path Ht s Hs) as (s1 & E1 & I1 & [= _ K1] & C1).
  pose proof (populate_runs base Hb v o path Ht s1 I1) as E2. set (s2 := s1 <| pointers := fs_pointers_at base o |>) in E2.
  destruct (does_write_nops base Hb v o path Ht s2 I1) as (s3 & E3 & I3 & [= P3 K3] & C3).
  destruct (does_setup_paths base Hb v o path Ht Hp Hv s3 I3) as (s4 & E4 & I4 & [= P4 K4] & C4).
  exists s4. rewrite (then_run _ _ _ _ _ E1), (then_run _ _ _ _ _ E2), (then_run _ _ _ _ _ E3).
  destruct (installed_all base Hb v o path Ht Hp (code (dev s)) (code (dev s4))) as [A B].
  { intros a. rewrite C4. unfold patches. rewrite !bind_app, !apply_writes_app. apply apply_writes_ext. intros b.
    rewrite C3. apply apply_writes_ext. exact C1. }
  split_and!; try done; [rewrite K4, K3; exact K1|rewrite P4, P3; done].
Qed.

Lemma directory_length cfg : emummc_cfg_ok cfg -> Z.of_nat (length (directory cfg)) <= 0x7F.
Proof.
  intros Hc. destruct (cfg_dir _ Hc) as [Hd _]. unfold directory. case_bool_decide.
  - destruct (format_04x_chars (emummc_id cfg)) as [_ H']. rewrite length_app. change (length (str _)) with 16%nat. lia.
  - pose proof (c_string_length (take 127 (emu_dir_path cfg))) as H'. rewrite length_take in H'. lia.
Qed.

(** C9: when emummc starts inside a known version of FS, at most 64 MiB away from
    its code and in the same 4 GiB, and the monitor has an emummc configuration
    (the boot loader's, passed on by the kernel), then its start returns with that
    configuration taken over, the start sector or the path of the files included;
    the entry point and the read, write and close functions of FS branch to
    emummc's (from 8.0.0 on also the regulator's), the abort of 7.0.0 and later is
    a NOP, the places that load a path load the one of the emulated SD directory,
    the pointers are those of the version's table, and no other instruction of FS
    is changed. *)
Theorem emummc_injected d w pa o tb d1 :
  let base := tb + INJECTED_SIZE in
  let cfg := emummc_cfg (g_exosphere_cfg (w_exo w)) in
  svcQueryMemory_addr addr_start (libc_init_array d) = (tb, d1) -> placed base ->
  monitor_ready w pa -> forwards_config d1 w pa -> get_fs_offsets (emummc_fs_version cfg) = Some o ->
  exists s, init (boot_state d) = (Done tt, s) /\
    emuMMC_ctx s = configured cfg /\ ExtKeys.c_string (nintendo_path s) = directory cfg /\
    pointers s = fs_pointers_at base o /\
    let ps := patches base (emummc_fs_version cfg) o (nintendo_path s) in
    Forall (installed base (code (dev s))) ps /\
    forall a, a ∉ Z.add base <$> (ps ≫= sites) -> code (dev s) a = code d a.
Proof.
  intros base cfg Eq Hb Hr Hf Ho. unfold init.
  rewrite (then_run (io_ libc_init_array) _ _ tt ((boot_state d) <| dev := libc_init_array d |>)) by done.
  set (s1 := (boot_state d) <| dev := libc_init_array d |>).
  assert (E1 : io (svcQueryMemory_addr addr_start) s1 = (Done tb, s1 <| dev := d1 |>)).
  { unfold io. change (dev s1) with (libc_init_array d). by rewrite Eq. }
  rewrite (then_run _ _ _ _ _ E1). erewrite then_run by reflexivity. set (s2 := (s1 <| dev := d1 |>) <| text_base := tb |>).
  destruct (load_runs s2 w pa Hr Hf eq_refl) as (s3 & E3 & T3 & C3 & N3 & P3 & K3). fold cfg in C3, N3.
  rewrite (then_run _ _ _ _ _ E3). erewrite then_run by reflexivity. rewrite C3. cbn [configured ctx_fs_ver]. rewrite Ho.
  erewrite then_run by reflexivity. set (s4 := s3 <| fs_offsets := Some o |>).
  assert (Hp : Z.of_nat (length (ExtKeys.c_string (nintendo_path s3))) <= 0x7F).
  { rewrite N3. apply directory_length. exact (ready_cfg _ _ Hr). }
  assert (I4 : injecting base (emummc_fs_version cfg) o (nintendo_path s3) s4).
  { split; [|split; [done|split; [|done]]]; [by cbn; rewrite T3|cbn; by rewrite C3]. }
  destruct (injection_runs s4 base _ o _ Hb Ho Hp I4) as (s5 & E5 & (_ & _ & _ & N5) & C5 & P5 & A5 & B5).
  assert (Es : (setup_hooks ;; populate_function_pointers ;; write_nops ;; setup_nintendo_paths ;; io_ clock_enable_i2c5 ;; io_ i2c_init) s4
    = (Done tt, s5 <| dev := i2c_init (clock_enable_i2c5 (dev s5)) |>)).
  { revert E5. cbv [mbind E_bind].
    destruct (setup_hooks s4) as [[] ?]; try done. destruct (populate_function_pointers _) as [[] ?]; try done.
    destruct (write_nops _) as [[] ?]; try done. by intros ->. }
  rewrite Es. eexists. split; [reflexivity|].
  assert (K : forall a, code (i2c_init (clock_enable_i2c5 (dev s5))) a = code (dev s5) a) by (intros a; by rewrite i2c_keeps_code, clock_keeps_code).
  split_and!; [by cbn; rewrite C5|by cbn; rewrite N5|done|cbn; rewrite N5..].
  - eapply Forall_impl; [exact A5|]. intros p. by destruct p; cbn [installed]; rewrite !K.
  - intros a Ha. rewrite K, B5 by done. change (dev s4) with (dev s3). rewrite K3. change (dev s2) with d1.
    rewrite <- (libc_keeps_code d), <- (query_keeps_code addr_start (libc_init_array d)). by rewrite Eq.
Qed.
End Start.
