(* ===== verification/EmummcProps.v ===== *)
(** emummc: what FS reads and writes on the emulated eMMC (emuMMC/emummc.c). *)
From S2P Require Import Prelude State Fusee FuseeKeys Storage StorageProps FsOffsets Emummc.
Import EmuMMC.

(** ** What is assumed outside *)

(** The SD card and the files on it are arrays of bytes; an open file has a
    number and a position; [file_at] finds the number of a path. *)
Class EmuData {sys : EmuSystem} := {
  sd_data : Dev -> Z -> Z;
  sd_sectors : Z;
  file_data : Dev -> nat -> Z -> Z;
  file_size : Dev -> nat -> Z;
  file_at : Dev -> list Z -> option nat;
  file_id : FIL -> nat;
  file_pos : FIL -> Z;
  file_open : Dev -> FIL -> Prop }.

Record same_data {sys : EmuSystem} {data : EmuData} (d d' : Dev) : Prop := {
  same_sd a : sd_data d' a = sd_data d a;
  same_file i a : file_data d' i a = file_data d i a }.
Record keeps_dev {sys : EmuSystem} {data : EmuData} (d d' : Dev) : Prop := {
  keeps_int x : read_int x d' = read_int x d;
  keeps_size i : file_size d' i = file_size d i;
  keeps_at path : file_at d' path = file_at d path;
  keeps_open f : file_open d f -> file_open d' f }.
Definition quiet {sys : EmuSystem} {data : EmuData} (d d' : Dev) : Prop := same_data d d' /\ keeps_dev d d'.

#[export] Instance keeps_dev_preorder {sys : EmuSystem} {data : EmuData} : PreOrder keeps_dev.
Proof.
  split; [done|]. intros a b c [I1 S1 A1 O1] [I2 S2 A2 O2]. split; intros; [by rewrite I2|by rewrite S2|by rewrite A2|by apply O2, O1].
Qed.
#[export] Instance same_data_preorder {sys : EmuSystem} {data : EmuData} : PreOrder same_data.
Proof. split; [done|]. intros a b c [S1 F1] [S2 F2]. split; intros; [by rewrite S2|by rewrite F2]. Qed.
#[export] Instance quiet_preorder {sys : EmuSystem} {data : EmuData} : PreOrder quiet.
Proof. split; [done|]. intros a b c [S1 K1] [S2 K2]. by split; etransitivity. Qed.

(** A card and a file system that work; FS does not touch the data or switch the
    partition while it is called. *)
Class WorkingEmu {sys : EmuSystem} {data : EmuData} := {
  fs_call_quiet x d : quiet d (snd (fs_call x d));
  mutex_call_quiet f m d : quiet d (fs_mutex_call f m d);
  accessor_quiet a d : quiet d (set_current_accessor a d);
  attach_quiet x h d : quiet d (svcAttachDeviceAddressSpace x h d);
  gpio_quiet p b d : quiet d (snd (gpio_read p b d));
  storage_read_ok sector n buf d : 0 <= sector -> 0 <= n -> sector + n <= sd_sectors -> 512 * n <= Z.of_nat (length buf) ->
    exists r d', sdmmc_storage_read sector n buf d = ((r, splice buf 0 (card_read (sd_data d) (512 * sector) (512 * n))), d') /\
      r <> 0 /\ quiet d d';
  storage_write_ok sector n buf d : 0 <= sector -> 0 <= n -> sector + n <= sd_sectors -> 512 * n <= Z.of_nat (length buf) ->
    exists r d', sdmmc_storage_write sector n buf d = (r, d') /\ r <> 0 /\ keeps_dev d d' /\
      forall a, sd_data d' a = card_write (sd_data d) (512 * sector) (slice buf 0 (512 * n)) a;
  lseek_ok f ofs d : file_open d f -> 0 <= ofs <= file_size d (file_id f) ->
    exists f' d', f_lseek f ofs d = ((0, f'), d') /\ file_id f' = file_id f /\ file_pos f' = ofs /\ file_open d' f' /\ quiet d d';
  fread_ok f buf n d : file_open d f -> 0 <= n -> file_pos f + n <= file_size d (file_id f) -> n <= Z.of_nat (length buf) ->
    exists f' d', f_read f buf n d = ((0, splice buf 0 (card_read (file_data d (file_id f)) (file_pos f) n), f'), d') /\
      file_id f' = file_id f /\ file_open d' f' /\ quiet d d';
  fwrite_ok f buf n d : file_open d f -> 0 <= n -> file_pos f + n <= file_size d (file_id f) -> n <= Z.of_nat (length buf) ->
    exists f' d', f_write f buf n d = ((0, f'), d') /\ file_id f' = file_id f /\ file_open d' f' /\ keeps_dev d d' /\
      forall i a, file_data d' i a =
        if decide (i = file_id f) then card_write (file_data d i) (file_pos f) (slice buf 0 n) a else file_data d i a }.

Section Emulation.
Context {sys : EmuSystem} {data : EmuData} {working : WorkingEmu}.

(** ** What a call keeps *)

Record like (c c' : file_based_ctxt) : Prop := {
  like_parts : parts c' = parts c /\ part_size c' = part_size c;
  like_boot : file_id (fp_boot0 c') = file_id (fp_boot0 c) /\ file_id (fp_boot1 c') = file_id (fp_boot1 c);
  like_gpp : file_id <$> fp_gpp c' = file_id <$> fp_gpp c }.
#[local] Instance like_preorder : PreOrder like.
Proof. split; [done|]. intros a b c [[] [] ?] [[] [] ?]. split; [split|split|]; congruence. Qed.

(** The places whose files must be open. *)
Definition used (c : file_based_ctxt) (p : fp) : Prop :=
  match p with Gpp i => 0 <= i < Z.max 1 (parts c) | _ => True end.
Definition handle (c : file_based_ctxt) (p : fp) : option FIL :=
  match p with
  | Boot0 => Some (fp_boot0 c)
  | Boot1 => Some (fp_boot1 c)
  | Gpp i => fp_gpp c !! Z.to_nat i
  end.
Definition handles_open (c : file_based_ctxt) (d : Dev) : Prop :=
  forall p, used c p -> exists f, handle c p = Some f /\ file_open d f.

Definition fixed (s : emu_state) :=
  (emuMMC_ctx s, pointers s, custom_driver s, sdmmc_first_init s, init_done s, first_sd_read s).

(** [s'] is [s] but for the data on the card. *)
Record kept (s s' : emu_state) : Prop := {
  kept_fixed : fixed s' = fixed s;
  kept_like : like (f_emu s) (f_emu s');
  kept_open : handles_open (f_emu s) (dev s) -> handles_open (f_emu s') (dev s');
  kept_dev : keeps_dev (dev s) (dev s') }.
#[local] Instance kept_preorder : PreOrder kept.
Proof.
  split; [done|]. intros a b c [F1 L1 O1 D1] [F2 L2 O2 D2].
  split; [congruence|by etransitivity|auto|by etransitivity].
Qed.

(** A call that returns [a], changes no data and calls the mutexes as in [log]. *)
Definition calmly {A} (m : E A) (s : emu_state) (a : A) (log : list lock_event) (s' : emu_state) : Prop :=
  m s = (Done a, s') /\ kept s s' /\ same_data (dev s) (dev s') /\ lock_log s' = lock_log s ++ log.

Lemma calmly_bind {A B} (m : E A) (k : A -> E B) s s1 a b l1 l2 s2 :
  calmly m s a l1 s1 -> calmly (k a) s1 b l2 s2 -> calmly (m ≫= k) s b (l1 ++ l2) s2.
Proof.
  intros (E1 & K1 & S1 & L1) (E2 & K2 & S2 & L2). split; [by rewrite (then_run _ _ _ _ _ E1)|].
  split_and!; [by etransitivity|by etransitivity|]. by rewrite L2, L1, app_assoc.
Qed.
Lemma calmly_ret {A} (a : A) s : calmly (mret a) s a [] s.
Proof. split_and!; [done|done|done|by rewrite app_nil_r]. Qed.
Lemma calmly_get {A} (f : emu_state -> A) s : calmly (get f) s (f s) [] s.
Proof. split_and!; [done|done|done|by rewrite app_nil_r]. Qed.

Lemma open_kept c d d' : keeps_dev d d' -> handles_open c d -> handles_open c d'.
Proof. intros K H p Hp. destruct (H p Hp) as (f & ? & ?). exists f. split; [done|]. by apply (keeps_open _ _ K). Qed.

Lemma calmly_io {A} (f : Dev -> A * Dev) s : quiet (dev s) (snd (f (dev s))) ->
  calmly (io f) s (fst (f (dev s))) [] (s <| dev := snd (f (dev s)) |>).
Proof.
  intros [S K]. unfold calmly, io. destruct (f (dev s)) as [a d]. cbn in *. split_and!; [done| |done|by rewrite app_nil_r].
  split; [done|done| |done]. by apply open_kept.
Qed.

Lemma calmly_io_ (f : Dev -> Dev) s : quiet (dev s) (f (dev s)) -> calmly (io_ f) s tt [] (s <| dev := f (dev s) |>).
Proof. intros Q. by apply (calmly_io (fun d => (tt, f d))). Qed.

(** ** The mutexes and the preparations *)

Lemma calmly_lock m s : exists s', calmly (call_lock m) s tt [Lock m] s'.
Proof.
  eexists. unfold call_lock. apply (calmly_bind _ _ _ _ _ _ [] [Lock m] _ (calmly_get _ _)).
  apply (calmly_bind _ _ _ _ _ _ [] [Lock m] _ (calmly_io_ _ _ (mutex_call_quiet _ _ _))).
  split; [reflexivity|]. split; [by split|]. done.
Qed.
Lemma calmly_unlock m s : exists s', calmly (call_unlock m) s tt [Unlock m] s'.
Proof.
  eexists. unfold call_unlock. apply (calmly_bind _ _ _ _ _ _ [] [Unlock m] _ (calmly_get _ _)).
  apply (calmly_bind _ _ _ _ _ _ [] [Unlock m] _ (calmly_io_ _ _ (mutex_call_quiet _ _ _))).
  split; [reflexivity|]. split; [by split|]. done.
Qed.

Definition lock_calls (s : emu_state) : list lock_event :=
  (if custom_driver s then [Lock (sd_mutex (pointers s))] else []) ++ [Lock (nand_mutex (pointers s))].
Definition unlock_calls (s : emu_state) : list lock_event :=
  [Unlock (nand_mutex (pointers s))] ++ (if custom_driver s then [Unlock (sd_mutex (pointers s))] else []).

Lemma fixed_eq s s' : kept s s' -> emuMMC_ctx s' = emuMMC_ctx s /\ pointers s' = pointers s /\
  custom_driver s' = custom_driver s /\ sdmmc_first_init s' = sdmmc_first_init s /\ init_done s' = init_done s /\
  first_sd_read s' = first_sd_read s.
Proof. intros K. pose proof (kept_fixed _ _ K) as F. unfold fixed in F. by injection F as -> -> -> -> -> ->. Qed.

Lemma calmly_lock_handler s : exists s', calmly mutex_lock_handler s tt (lock_calls s) s'.
Proof.
  unfold mutex_lock_handler, lock_calls. destruct (custom_driver s) eqn:C.
  - destruct (calmly_lock (sd_mutex (pointers s)) s) as [s1 H1]. destruct (calmly_lock (nand_mutex (pointers s)) s1) as [s2 H2].
    exists s2. apply (calmly_bind _ _ _ _ _ _ [] _ _ (calmly_get _ _)), (calmly_bind _ _ _ _ _ _ [] _ _ (calmly_get _ _)).
    rewrite C. exact (calmly_bind _ _ _ _ _ _ _ _ _ H1 H2).
  - destruct (calmly_lock (nand_mutex (pointers s)) s) as [s2 H2]. exists s2.
    apply (calmly_bind _ _ _ _ _ _ [] _ _ (calmly_get _ _)), (calmly_bind _ _ _ _ _ _ [] _ _ (calmly_get _ _)).
    rewrite C. exact (calmly_bind _ _ _ _ _ _ [] _ _ (calmly_ret _ _) H2).
Qed.

Lemma calmly_unlock_handler s : exists s', calmly mutex_unlock_handler s tt (unlock_calls s) s'.
Proof.
  unfold mutex_unlock_handler, unlock_calls. destruct (calmly_unlock (nand_mutex (pointers s)) s) as [s1 H1].
  destruct (fixed_eq _ _ (proj1 (proj2 H1))) as (_ & P1 & C1 & _).
  assert (H2 : exists s2, calmly (if custom_driver s then call_unlock (sd_mutex (pointers s)) else mret tt) s1 tt
    (if custom_driver s then [Unlock (sd_mutex (pointers s))] else []) s2).
  { destruct (custom_driver s); [apply calmly_unlock|exists s1; apply calmly_ret]. }
  destruct H2 as [s2 H2]. exists s2. apply (calmly_bind _ _ _ _ _ _ [] _ _ (calmly_get _ _)).
  apply (calmly_bind _ _ _ _ _ _ _ _ _ H1), (calmly_bind _ _ _ _ _ _ [] _ _ (calmly_get _ _)). by rewrite C1.
Qed.

Lemma calmly_attach s : exists s', calmly _sdmmc_ensure_device_attached s tt [] s'.
Proof.
  unfold _sdmmc_ensure_device_attached. destruct (did_attach s) eqn:A.
  - exists s. apply (calmly_bind _ _ _ _ _ _ [] [] _ (calmly_get _ _)). rewrite A. apply calmly_ret.
  - eexists. apply (calmly_bind _ _ _ _ _ _ [] [] _ (calmly_get _ _)). rewrite A. cbn [negb].
    apply (calmly_bind _ _ _ _ _ _ [] [] _ (calmly_get _ _)), (calmly_bind _ _ _ _ _ _ [] [] _ (calmly_io_ _ _ (attach_quiet _ _ _))).
    split; [reflexivity|]. split; [by split|]. split; [done|by rewrite app_nil_r].
Qed.

(** Once the cards are set up, with the power of the SD card on or already
    restored. *)
Definition initialized (s : emu_state) : Prop :=
  sdmmc_first_init s = true /\ (init_done s = true \/ forall d, fst (gpio_read GPIO_PORT_E GPIO_PIN_4 d) <> 0).

Lemma calmly_initialized s : initialized s -> exists s', calmly _sdmmc_ensure_initialized s tt [] s'.
Proof.
  intros [F P]. unfold _sdmmc_ensure_initialized. destruct (init_done s) eqn:D.
  - exists s. apply (calmly_bind _ _ _ _ _ _ [] [] _ (calmly_get _ _)). rewrite F. cbn [negb].
    apply (calmly_bind _ _ _ _ _ _ [] [] _ (calmly_get _ _)). rewrite D. apply calmly_ret.
  - destruct P as [?|P]; [done|]. eexists. apply (calmly_bind _ _ _ _ _ _ [] [] _ (calmly_get _ _)). rewrite F. cbn [negb].
    apply (calmly_bind _ _ _ _ _ _ [] [] _ (calmly_get _ _)). rewrite D. cbn [negb].
    apply (calmly_bind _ _ _ _ _ _ [] [] _ (calmly_io _ _ (gpio_quiet _ _ _))).
    rewrite (proj2 (Z.eqb_neq _ _) (P _)). apply calmly_ret.
Qed.

(** ** Files *)

Definition id_at (c : file_based_ctxt) (p : fp) : nat := default 0%nat (file_id <$> handle c p).

Lemma get_fp_run p f s : used (f_emu s) p -> handle (f_emu s) p = Some f -> get_fp p s = (Done f, s).
Proof.
  intros U H. unfold get_fp. erewrite then_run by reflexivity. destruct p as [| |i]; cbn in H, U; [by injection H as ->..|].
  rewrite (proj2 (Z.ltb_ge i 0)) by lia. by rewrite H.
Qed.

Lemma handle_put p q f c : used c p -> used c q -> is_Some (handle c p) ->
  handle (put_fp p f c) q = if decide (p = q) then Some f else handle c q.
Proof.
  intros U V [g H]. destruct p as [| |i], q as [| |j]; cbn in *; try done. destruct (decide (Gpp i = Gpp j)) as [[= ->]|N].
  - apply list_lookup_insert_eq. by apply lookup_lt_Some in H.
  - apply list_lookup_insert_ne. intros E. apply N. f_equal. lia.
Qed.

(** A file object that went through a call of FatFs takes its place again. *)
Lemma put_kept p f f' s d' : used (f_emu s) p -> handle (f_emu s) p = Some f -> file_id f' = file_id f ->
  file_open d' f' -> keeps_dev (dev s) d' ->
  kept s ((s <| dev := d' |>) <| f_emu ::= put_fp p f' |>).
Proof.
  intros U H I O K. split; [done| | |done].
  - destruct p as [| |i]; cbn in H; [injection H as <-; by split; [|split|]..|]. split; [done|done|]. cbn.
    rewrite list_fmap_insert. apply list_insert_id. by rewrite list_lookup_fmap, H, I.
  - intros Ho q Hq. assert (Uq : used (f_emu s) q) by (destruct p, q; exact Hq). cbn. rewrite handle_put by (done || by eexists).
    destruct (decide (p = q)); [by eexists|]. by apply (open_kept _ _ _ K Ho q).
Qed.

Section FileCalls.
Context (s : emu_state) (p : fp) (f : FIL).
Context (Hused : used (f_emu s) p) (Hhandle : handle (f_emu s) p = Some f) (Hopen : file_open (dev s) f).

Lemma lseek_run ofs : 0 <= ofs <= file_size (dev s) (file_id f) -> exists f' s',
  calmly (lseek_fp (Some p) ofs) s 0 [] s' /\ used (f_emu s') p /\ handle (f_emu s') p = Some f' /\
  file_id f' = file_id f /\ file_pos f' = ofs /\ file_open (dev s') f'.
Proof.
  intros Ho. destruct (lseek_ok f ofs (dev s) Hopen Ho) as (f' & d' & E & I & P & O & Q). exists f'.
  eexists. split; [split|].
  - cbn [lseek_fp]. rewrite (then_run _ _ _ _ _ (get_fp_run p f s Hused Hhandle)). unfold io, mbind, E_bind. by rewrite E.
  - split; [apply (put_kept p f f' s d'); try done; by apply Q|]. split; [apply Q|by rewrite app_nil_r].
  - split_and!; try done; [by destruct p|]. cbn. rewrite handle_put by (done || by eexists). by rewrite decide_True.
Qed.

Lemma fread_run buf n : 0 <= n -> file_pos f + n <= file_size (dev s) (file_id f) -> n <= Z.of_nat (length buf) -> exists s',
  calmly (read_fp (Some p) buf n) s (0, splice buf 0 (card_read (file_data (dev s) (file_id f)) (file_pos f) n)) [] s'.
Proof.
  intros Hn Ho Hb. destruct (fread_ok f buf n (dev s) Hopen Hn Ho Hb) as (f' & d' & E & I & O & Q). eexists. split.
  - cbn [read_fp]. rewrite (then_run _ _ _ _ _ (get_fp_run p f s Hused Hhandle)). unfold io, mbind, E_bind. by rewrite E.
  - split; [apply (put_kept p f f' s d'); try done; by apply Q|]. split; [apply Q|by rewrite app_nil_r].
Qed.

Lemma fwrite_run buf n : 0 <= n -> file_pos f + n <= file_size (dev s) (file_id f) -> n <= Z.of_nat (length buf) -> exists s',
  write_fp (Some p) buf n s = (Done 0, s') /\ kept s s' /\ lock_log s' = lock_log s /\
  forall i a, file_data (dev s') i a =
    if decide (i = file_id f) then card_write (file_data (dev s) i) (file_pos f) (slice buf 0 n) a else file_data (dev s) i a.
Proof.
  intros Hn Ho Hb. destruct (fwrite_ok f buf n (dev s) Hopen Hn Ho Hb) as (f' & d' & E & I & O & K & W). eexists. split_and!.
  - cbn [write_fp]. rewrite (then_run _ _ _ _ _ (get_fp_run p f s Hused Hhandle)). unfold io, mbind, E_bind. by rewrite E.
  - by apply (put_kept p f f' s d').
  - done.
  - exact W.
Qed.
End FileCalls.

(** ** The emulated eMMC *)

(** Where the byte [a] of a partition lies: its file and the place in it. *)
Definition place (c : file_based_ctxt) (part a : Z) : fp * Z :=
  if part =? FS_EMMC_PARTITION_GPP
  then if parts c =? 0 then (Gpp 0, a) else (Gpp (a / (512 * part_size c)), a mod (512 * part_size c))
  else if part =? FS_EMMC_PARTITION_BOOT1 then (Boot1, a) else (Boot0, a).
Definition part_index (part : Z) : Z :=
  if part =? FS_EMMC_PARTITION_GPP then 2 else if part =? FS_EMMC_PARTITION_BOOT1 then 1 else 0.
Definition raw_start (ctx : emuMMC_ctx_t) (part : Z) : Z :=
  EMMC_StoragePartitionOffset ctx + part_index part * BOOT_PARTITION_SIZE.

Definition is_raw (s : emu_state) : bool := EMMC_Type (emuMMC_ctx s) =? emuMMC_SD.
Definition known_part (part : Z) : Prop := part = FS_EMMC_PARTITION_GPP \/ part = FS_EMMC_PARTITION_BOOT0 \/ part = FS_EMMC_PARTITION_BOOT1.

(** The bytes of a partition, and which of them there are. *)
Definition view (s : emu_state) (part a : Z) : Z :=
  if is_raw s then sd_data (dev s) (512 * raw_start (emuMMC_ctx s) part + a)
  else let '(p, b) := place (f_emu s) part a in file_data (dev s) (id_at (f_emu s) p) b.
Definition extent (s : emu_state) (part a : Z) : Prop :=
  known_part part /\ 0 <= a /\
  if is_raw s then part <> FS_EMMC_PARTITION_GPP -> a < 512 * BOOT_PARTITION_SIZE
  else used (f_emu s) (place (f_emu s) part a).1.

(** The abstract eMMC: three arrays of bytes. *)
Definition emmc := Z -> Z -> Z.
Definition emmc_write (m : emmc) (part a : Z) (bytes : list Z) : emmc := fun q b =>
  if q =? part then card_write (m q) a bytes b else m q b.
Definition represents (s : emu_state) (m : emmc) : Prop := forall part a, extent s part a -> view s part a = m part a.

(** Requests that are served: within the card, and a boot partition not left; or
    within one file, below 4 GiB. *)
Definition served (s : emu_state) (part sector n : Z) : Prop :=
  known_part part /\ 0 <= sector /\ 0 < n /\ 512 * n < 2 ^ 32 /\
  if is_raw s
  then 0 <= EMMC_StoragePartitionOffset (emuMMC_ctx s) /\
       raw_start (emuMMC_ctx s) part + sector + n <= sd_sectors /\ sd_sectors <= 2 ^ 32 /\
       (part <> FS_EMMC_PARTITION_GPP -> sector + n <= BOOT_PARTITION_SIZE)
  else let '(p, a) := place (f_emu s) part (512 * sector) in
       used (f_emu s) p /\ 0 <= part_size (f_emu s) /\ a < 2 ^ 32 /\
       a + 512 * n <= file_size (dev s) (id_at (f_emu s) p) /\
       (part = FS_EMMC_PARTITION_GPP -> parts (f_emu s) <> 0 -> a + 512 * n <= 512 * part_size (f_emu s)).

Record ready (s : emu_state) : Prop := {
  ready_init : initialized s;
  ready_accessor d : fst (fs_call (sdmmc_accessor_nand (pointers s)) d) <> 0;
  ready_files : is_raw s = false -> handles_open (f_emu s) (dev s) /\ 0 <= parts (f_emu s) <= 32 /\
    forall p q, used (f_emu s) p -> used (f_emu s) q -> id_at (f_emu s) p = id_at (f_emu s) q -> p = q }.

Lemma like_id c c' p : like c c' -> id_at c' p = id_at c p.
Proof.
  intros [_ [L1 L2] L3]. unfold id_at. destruct p as [| |i]; cbn; [by rewrite L1|by rewrite L2|].
  by rewrite <- !list_lookup_fmap, L3.
Qed.
Lemma like_used c c' p : like c c' -> used c' p <-> used c p.
Proof. intros [[L _] _ _]. destruct p; cbn; [done|done|by rewrite L]. Qed.
Lemma like_place c c' part a : like c c' -> place c' part a = place c part a.
Proof. intros [[L1 L2] _ _]. unfold place. by rewrite L1, L2. Qed.

(** Everything but the data follows the state. *)
Lemma kept_raw s s' : kept s s' -> is_raw s' = is_raw s.
Proof. intros K. destruct (fixed_eq _ _ K) as (C & _). unfold is_raw. by rewrite C. Qed.
Lemma kept_extent s s' part a : kept s s' -> extent s' part a <-> extent s part a.
Proof.
  intros K. unfold extent. rewrite (kept_raw _ _ K), (like_place _ _ _ _ (kept_like _ _ K)).
  destruct (is_raw s); [done|]. by rewrite (like_used _ _ _ (kept_like _ _ K)).
Qed.
Lemma kept_served s s' part sector n : kept s s' -> served s part sector n -> served s' part sector n.
Proof.
  intros K (A & B & C & D & E). pose proof (kept_like _ _ K) as L. split_and!; try done.
  destruct (fixed_eq _ _ K) as (X & _). rewrite (kept_raw _ _ K), (like_place _ _ _ _ L), X. destruct (is_raw s); [done|].
  destruct (place _ _ _) as [p b]. rewrite (like_used _ _ _ L), (like_id _ _ _ L), (keeps_size _ _ (kept_dev _ _ K)).
  destruct (like_parts _ _ L) as [-> ->]. done.
Qed.
Lemma kept_ready s s' : kept s s' -> ready s -> ready s'.
Proof.
  intros K [[I1 I2] A F]. destruct (fixed_eq _ _ K) as (X & P & _ & I & D & _). pose proof (kept_like _ _ K) as L. split.
  - unfold initialized. by rewrite I, D.
  - by rewrite P.
  - rewrite (kept_raw _ _ K). intros R. destruct (F R) as (O & Q & N). split; [by apply (kept_open _ _ K)|].
    destruct (like_parts _ _ L) as [-> _]. split; [done|]. intros p q. rewrite !(like_used _ _ _ L), !(like_id _ _ _ L). apply N.
Qed.
Lemma same_view s s' part a : kept s s' -> same_data (dev s) (dev s') -> view s' part a = view s part a.
Proof.
  intros K [S F]. pose proof (kept_like _ _ K) as L. destruct (fixed_eq _ _ K) as (X & _). unfold view.
  rewrite (kept_raw _ _ K), X, (like_place _ _ _ _ L). destruct (is_raw s); [apply S|]. destruct (place _ _ _) as [p b].
  rewrite (like_id _ _ _ L). apply F.
Qed.

(** ** Transfers *)

Lemma card_read_same c c' a b n : (forall i, 0 <= i < n -> c (a + i) = c' (b + i)) -> card_read c a n = card_read c' b n.
Proof.
  intros H. apply bytes_ext; rewrite !length_card_read; [done|]. intros i Hi. rewrite !byte_at_card_read by lia. apply H. lia.
Qed.

(** A request that stays in one file is a stretch of that file. *)
Lemma place_offset c part sector n i : 0 <= sector -> 0 <= part_size c -> 0 <= i < 512 * n ->
  let '(p, a) := place c part (512 * sector) in
  (part = FS_EMMC_PARTITION_GPP -> parts c <> 0 -> a + 512 * n <= 512 * part_size c) ->
  place c part (512 * sector + i) = (p, a + i).
Proof.
  intros Hs Hp Hi. unfold place. destruct (Z.eqb_spec part FS_EMMC_PARTITION_GPP) as [->|]; [|by destruct (_ =? _)].
  destruct (Z.eqb_spec (parts c) 0) as [|Hn]; [done|]. intros H. specialize (H eq_refl Hn).
  set (q := 512 * part_size c) in *. assert (0 < q).
  { destruct (Z.eq_dec q 0) as [E|]; [|lia]. rewrite E, Z.mod_0_r in H. lia. }
  pose proof (Z.mod_pos_bound (512 * sector) q). pose proof (Z.div_mod (512 * sector) q).
  f_equal; [f_equal|].
  - symmetry. apply (Z.div_unique _ _ _ ((512 * sector) mod q + i)); lia.
  - symmetry. apply (Z.mod_unique _ _ (512 * sector / q)); lia.
Qed.

(** A file belongs to one partition, and keeps distances. *)
Lemma place_same c q a part x p b y : known_part q -> known_part part -> place c q a = (p, b) -> place c part x = (p, y) ->
  q = part /\ b - y = a - x.
Proof.
  unfold place. intros [->|[->| ->]] [->|[->| ->]];
    cbn [Z.eqb FS_EMMC_PARTITION_GPP FS_EMMC_PARTITION_BOOT0 FS_EMMC_PARTITION_BOOT1 Pos.eqb];
    destruct (parts c =? 0); intros E1 E2; try congruence; injection E1 as <- <-; injection E2; try (intros; split; [done|lia]).
  intros <- E. split; [done|]. pose proof (Z_div_mod_eq_full a (512 * part_size c)) as Ha. pose proof (Z_div_mod_eq_full x (512 * part_size c)) as Hx.
  rewrite <- E in Ha. lia.
Qed.

Section Request.
Context (s : emu_state) (part sector n : Z).
Context (Hready : ready s) (Hactive : read_int (active_partition (pointers s)) (dev s) = part) (Hserved : served s part sector n).

(** The sector on the card. *)
Lemma raw_sector : is_raw s = true ->
  u32 (u32 (sector + EMMC_StoragePartitionOffset (emuMMC_ctx s)) + part_index part * BOOT_PARTITION_SIZE) =
  raw_start (emuMMC_ctx s) part + sector.
Proof.
  intros R. destruct Hserved as (Hp & H1 & H2 & H3 & H4). rewrite R in H4. unfold raw_start in *.
  assert (0 <= part_index part * BOOT_PARTITION_SIZE) by (destruct Hp as [->|[->| ->]]; done).
  rewrite (u32_id (sector + _)) by (unfold is_u32; lia). rewrite u32_id by (unfold is_u32; lia). lia.
Qed.

Lemma partition_index_run : sdmmc_nand_get_active_partition_index s = (Done (part_index part), s).
Proof.
  destruct Hserved as ([P|[P|P]] & _); unfold sdmmc_nand_get_active_partition_index; erewrite then_run by reflexivity;
    cbn beta; rewrite Hactive, P; done.
Qed.

(** The file of a request, and the sector in it. *)
Lemma file_target_run : is_raw s = false -> exists p f sec,
  file_target sector s = (Done (Some p, sec), s) /\ place (f_emu s) part (512 * sector) = (p, 512 * sec) /\ 0 <= sec /\
  512 * sec < 2 ^ 32 /\ used (f_emu s) p /\ handle (f_emu s) p = Some f /\ file_open (dev s) f /\ id_at (f_emu s) p = file_id f /\
  512 * sec + 512 * n <= file_size (dev s) (file_id f).
Proof.
  intros R. destruct Hserved as (Hp & H1 & H2 & H3 & H4). rewrite R in H4. destruct (ready_files _ Hready R) as (Ho & Hparts & _).
  destruct (place _ _ _) as [p a] eqn:Ep. destruct H4 as (U & Q & A & F & G). destruct (Ho p U) as (f & Hh & Hf).
  assert (Hid : id_at (f_emu s) p = file_id f) by (unfold id_at; by rewrite Hh).
  assert (T : exists sec, file_target sector s = (Done (Some p, sec), s) /\ a = 512 * sec /\ 0 <= sec).
  { unfold file_target. erewrite then_run by reflexivity. cbn beta. rewrite Hactive. erewrite then_run by reflexivity. cbn beta.
    unfold place in Ep. destruct Hp as [P|[P|P]]; rewrite P in Ep |- *; cbn [Z.eqb FS_EMMC_PARTITION_GPP FS_EMMC_PARTITION_BOOT0 FS_EMMC_PARTITION_BOOT1 Pos.eqb] in Ep |- *;
      [|injection Ep as <- <-; by eexists..].
    destruct (Z.eqb_spec (parts (f_emu s)) 0) as [|Hn]; [injection Ep as <- <-; by eexists|]. cbn [negb].
    injection Ep as <- <-. set (ps := part_size (f_emu s)) in *.
    assert (0 < ps). { destruct (Z.eq_dec ps 0) as [E|]; [|lia]. specialize (G P Hn). rewrite E, Z.mul_0_r, Z.mod_0_r in G. lia. }
    rewrite Z.div_mul_cancel_l, Z.mul_mod_distr_l in * by lia. cbn in U.
    rewrite (proj2 (Z.eqb_neq ps 0)), (proj2 (Z.leb_gt 32 (sector / ps))) by lia.
    exists (sector mod ps). split_and!; [done|done|]. apply Z.mod_pos_bound. lia. }
  destruct T as (sec & T & -> & Hsec). exists p, f, sec. rewrite <- Hid. by split_and!.
Qed.

Lemma shl9 x : 0 <= x -> 512 * x < 2 ^ 32 -> u32 (x <<. 9) = 512 * x.
Proof. intros H H'. rewrite Z.shiftl_mul_pow2 by lia. change (2 ^ 9) with 512. rewrite u32_id; [lia|unfold is_u32; lia]. Qed.

Lemma view_read c a p b : is_raw s = false -> place (f_emu s) part (512 * sector) = (p, b) -> c = file_data (dev s) (id_at (f_emu s) p) ->
  a = b -> card_read (view s part) (512 * sector) (512 * n) = card_read c a (512 * n).
Proof.
  intros R Ep -> ->. apply card_read_same. intros i Hi. unfold view. rewrite R.
  destruct Hserved as (_ & H1 & H2 & _ & H4). rewrite R, Ep in H4. destruct H4 as (_ & Q & _ & _ & G).
  pose proof (place_offset (f_emu s) part sector n i H1 Q Hi) as O. rewrite Ep in O. by rewrite (O G).
Qed.

Lemma inner_read buf : 512 * n <= Z.of_nat (length buf) -> exists r s',
  calmly (emummc_read_write_inner buf sector n false) s (r, splice buf 0 (card_read (view s part) (512 * sector) (512 * n))) [] s' /\ r <> 0.
Proof.
  intros Hb. pose proof Hserved as (_ & H1 & H2 & H3 & H4). unfold emummc_read_write_inner. destruct (is_raw s) eqn:R.
  - destruct (storage_read_ok (raw_start (emuMMC_ctx s) part + sector) n buf (dev s)) as (r & d' & E & Hr & S & K); [|lia|lia|lia|].
    { unfold raw_start, BOOT_PARTITION_SIZE in *. destruct Hserved as ([->|[->| ->]] & _); cbn; lia. }
    exists r, (s <| dev := d' |>). split; [|done]. split.
    + erewrite then_run by reflexivity. unfold is_raw in R. cbn beta. rewrite R. rewrite (then_run _ _ _ _ _ partition_index_run).
      rewrite raw_sector by done. unfold io. cbn [negb]. rewrite E. do 4 f_equal. apply card_read_same. intros i _.
      unfold view, is_raw. rewrite R. f_equal. lia.
    + split; [split; [done|done|by apply open_kept|done]|]. split; [done|by rewrite app_nil_r].
  - destruct (file_target_run R) as (p & f & sec & T & Ep & Hs & Hs2 & U & Hh & Hf & Hid & Hsz).
    destruct (lseek_run s p f U Hh Hf (512 * sec)) as (f' & s1 & C1 & U1 & Hh1 & I1 & P1 & O1); [lia|].
    pose proof C1 as (E1 & K1 & [_ S1] & _).
    destruct (fread_run s1 p f' U1 Hh1 O1 buf (512 * n)) as (s2 & C2); [lia| |done|].
    { rewrite P1, I1, (keeps_size _ _ (kept_dev _ _ K1)). lia. }
    exists 1, s2. split; [|done].
    assert (Ev : card_read (view s part) (512 * sector) (512 * n) = card_read (file_data (dev s1) (file_id f')) (file_pos f') (512 * n)).
    { rewrite I1, P1. rewrite (card_read_ext (file_data (dev s1) (file_id f)) (file_data (dev s) (file_id f))) by (intros; apply S1).
      apply (view_read _ _ p (512 * sec)); [done|done|by rewrite Hid|done]. }
    rewrite Ev. split.
    + erewrite then_run by reflexivity. unfold is_raw in R. cbn beta. rewrite R. rewrite (then_run _ _ _ _ _ T).
      rewrite !shl9 by lia. rewrite (then_run _ _ _ _ _ E1). cbn [negb]. by rewrite (then_run _ _ _ _ _ (proj1 C2)).
    + destruct C1 as (_ & ? & ? & L1), C2 as (_ & ? & ? & L2). split_and!; [by etransitivity|by etransitivity|]. by rewrite L2, L1, <- app_assoc.
Qed.

(** What is written to a file is written to the one partition. *)
Lemma written_file s1 p sec bytes : is_raw s = false -> place (f_emu s) part (512 * sector) = (p, 512 * sec) -> used (f_emu s) p ->
  Z.of_nat (length bytes) = 512 * n -> kept s s1 ->
  (forall i a, file_data (dev s1) i a = if decide (i = id_at (f_emu s) p) then card_write (file_data (dev s) i) (512 * sec) bytes a
                                      else file_data (dev s) i a) ->
  forall q a, extent s q a -> view s1 q a = emmc_write (view s) part (512 * sector) bytes q a.
Proof.
  intros R Ep U Hl K W q a (Hq & Ha & Hx). rewrite R in Hx. destruct (ready_files _ Hready R) as (_ & _ & Inj).
  pose proof (kept_like _ _ K) as L. unfold view, emmc_write. rewrite (kept_raw _ _ K), R, (like_place _ _ _ _ L).
  destruct (place (f_emu s) q a) as [p' b] eqn:Eq. cbn in Hx. rewrite (like_id _ _ _ L), W.
  destruct (decide (id_at (f_emu s) p' = id_at (f_emu s) p)) as [E|N].
  - apply Inj in E; [|done|done]. subst p'.
    destruct (place_same _ _ _ _ _ _ _ _ Hq (proj1 Hserved) Eq Ep) as [-> D]. rewrite Z.eqb_refl.
    destruct (decide (512 * sector <= a < 512 * sector + Z.of_nat (length bytes))).
    + rewrite !card_write_in by lia. f_equal. lia.
    + rewrite !card_write_out by lia. by rewrite Eq.
  - destruct (Z.eqb_spec q part) as [->|]; [|done]. rewrite card_write_out; [by rewrite Eq|].
    intros Hr. apply N. f_equal. destruct Hserved as (_ & H1 & _ & _ & H4). rewrite R, Ep in H4. destruct H4 as (_ & Q & _ & _ & G).
    pose proof (place_offset (f_emu s) part sector n (a - 512 * sector) H1 Q ltac:(lia)) as O. rewrite Ep in O.
    replace (512 * sector + (a - 512 * sector)) with a in O by lia. rewrite (O G) in Eq. by injection Eq as <- _.
Qed.

Lemma written_raw s1 bytes : is_raw s = true -> Z.of_nat (length bytes) = 512 * n -> kept s s1 ->
  (forall a, sd_data (dev s1) a = card_write (sd_data (dev s)) (512 * (raw_start (emuMMC_ctx s) part + sector)) bytes a) ->
  forall q a, extent s q a -> view s1 q a = emmc_write (view s) part (512 * sector) bytes q a.
Proof.
  intros R Hl K W q a (Hq & Ha & Hx). rewrite R in Hx. destruct Hserved as (Hp & H1 & _ & _ & H4). rewrite R in H4.
  destruct (fixed_eq _ _ K) as (X & _). unfold view, emmc_write. rewrite (kept_raw _ _ K), R, X, W.
  destruct (Z.eqb_spec q part) as [->|N].
  - destruct (decide (512 * sector <= a < 512 * sector + Z.of_nat (length bytes))).
    + rewrite !card_write_in by lia. f_equal. lia.
    + by rewrite !card_write_out by lia.
  - rewrite card_write_out; [done|]. rewrite Hl. unfold raw_start, BOOT_PARTITION_SIZE in *.
    destruct Hp as [->|[->| ->]], Hq as [->|[->| ->]]; try done;
      unfold part_index, FS_EMMC_PARTITION_GPP, FS_EMMC_PARTITION_BOOT0, FS_EMMC_PARTITION_BOOT1 in *; cbn [Z.eqb Pos.eqb] in *; lia.
Qed.

Lemma inner_write buf : 512 * n <= Z.of_nat (length buf) -> exists r s',
  emummc_read_write_inner buf sector n true s = (Done (r, buf), s') /\ r <> 0 /\ kept s s' /\ lock_log s' = lock_log s /\
  forall q a, extent s q a -> view s' q a = emmc_write (view s) part (512 * sector) (slice buf 0 (512 * n)) q a.
Proof.
  intros Hb. pose proof Hserved as (_ & H1 & H2 & H3 & H4). unfold emummc_read_write_inner.
  assert (Hl : Z.of_nat (length (slice buf 0 (512 * n))) = 512 * n) by (rewrite length_slice; lia).
  destruct (is_raw s) eqn:R.
  - destruct (storage_write_ok (raw_start (emuMMC_ctx s) part + sector) n buf (dev s)) as (r & d' & E & Hr & K & W); [|lia|lia|lia|].
    { unfold raw_start, BOOT_PARTITION_SIZE in *. destruct Hserved as ([->|[->| ->]] & _); cbn; lia. }
    assert (Ks : kept s (s <| dev := d' |>)) by (split; [done|done|by apply open_kept|done]).
    exists r, (s <| dev := d' |>). split_and!; [|done|done|done|by apply written_raw].
    erewrite then_run by reflexivity. unfold is_raw in R. cbn beta. rewrite R. rewrite (then_run _ _ _ _ _ partition_index_run).
    rewrite raw_sector by done. unfold io, mbind, E_bind. cbn [negb]. by rewrite E.
  - destruct (file_target_run R) as (p & f & sec & T & Ep & Hs & Hs2 & U & Hh & Hf & Hid & Hsz).
    destruct (lseek_run s p f U Hh Hf (512 * sec)) as (f' & s1 & (E1 & K1 & [_ S1] & L1) & U1 & Hh1 & I1 & P1 & O1); [lia|].
    destruct (fwrite_run s1 p f' U1 Hh1 O1 buf (512 * n)) as (s2 & E2 & K2 & L2 & W2); [lia| |done|].
    { rewrite P1, I1, (keeps_size _ _ (kept_dev _ _ K1)). lia. }
    assert (K : kept s s2) by by etransitivity.
    exists 1, s2. split_and!; [|done|done|by rewrite L2, L1, app_nil_r|].
    + erewrite then_run by reflexivity. unfold is_raw in R. cbn beta. rewrite R. rewrite (then_run _ _ _ _ _ T).
      rewrite !shl9 by lia. rewrite (then_run _ _ _ _ _ E1). cbn [negb]. by rewrite (then_run _ _ _ _ _ E2).
    + apply (written_file s2 p sec); [done|done|done|done|done|]. intros i a. rewrite W2, I1, P1, Hid, !S1.
      destruct (decide _); [|done]. by apply card_write_ext.
Qed.
End Request.

(** ** The wrappers *)

Lemma calmly_accessor s : ready s -> exists a s', calmly (sdmmc_accessor_get FS_SDMMC_EMMC) s a [] s' /\ a <> 0.
Proof.
  intros R. eexists _, _. split.
  - unfold sdmmc_accessor_get. apply (calmly_bind _ _ _ _ _ _ [] [] _ (calmly_get _ _)). apply calmly_io, fs_call_quiet.
  - apply (ready_accessor _ R).
Qed.

Lemma calmly_finish s r : r <> 0 -> exists s', calmly (finish r) s 0 (unlock_calls s) s'.
Proof.
  intros Hr. destruct (calmly_unlock_handler s) as [s' H]. exists s'. unfold finish. rewrite (proj2 (Z.eqb_neq r 0) Hr).
  rewrite <- (app_nil_r (unlock_calls s)). apply (calmly_bind _ _ _ _ _ _ _ _ _ H), calmly_ret.
Qed.

Lemma unlock_calls_kept s s' : kept s s' -> unlock_calls s' = unlock_calls s.
Proof. intros K. destruct (fixed_eq _ _ K) as (_ & P & C & _). unfold unlock_calls. by rewrite P, C. Qed.

(** Up to the transfer: the accessor is assigned and the mutexes are held. *)
Lemma calmly_locked s : ready s -> exists a s1 s2 s3, calmly (sdmmc_accessor_get FS_SDMMC_EMMC) s a [] s1 /\ a <> 0 /\
  calmly mutex_lock_handler s1 tt (lock_calls s1) s2 /\ calmly (io_ (set_current_accessor a)) s2 tt [] s3 /\
  kept s s3 /\ same_data (dev s) (dev s3) /\ lock_log s3 = lock_log s ++ lock_calls s.
Proof.
  intros R. destruct (calmly_accessor s R) as (a & s1 & C1 & Ha). destruct (calmly_lock_handler s1) as [s2 C2].
  pose proof (calmly_io_ (set_current_accessor a) s2 (accessor_quiet _ _)) as C3. eexists a, s1, s2, _. split_and!; [done|done|done|exact C3|..].
  - etransitivity; [apply C1|]. etransitivity; [apply C2|apply C3].
  - etransitivity; [apply C1|]. etransitivity; [apply C2|apply C3].
  - destruct C1 as (_ & K1 & _ & L1), C2 as (_ & _ & _ & L2), C3 as (_ & _ & _ & L3). rewrite L3, L2, L1, !app_nil_r.
    destruct (fixed_eq _ _ K1) as (_ & P & C & _). unfold lock_calls. by rewrite P, C.
Qed.

Lemma active_kept s s' part : kept s s' -> read_int (active_partition (pointers s)) (dev s) = part ->
  read_int (active_partition (pointers s')) (dev s') = part.
Proof. intros K <-. destruct (fixed_eq _ _ K) as (_ & -> & _). apply (keeps_int _ _ (kept_dev _ _ K)). Qed.

Lemma served_extent s part sector n b : served s part sector n -> 512 * sector <= b < 512 * sector + 512 * n -> extent s part b.
Proof.
  intros (P & H1 & H2 & H3 & H4) Hb. split_and!; [done|lia|]. destruct (is_raw s); [intros N; specialize (proj2 (proj2 (proj2 H4)) N); lia|].
  destruct (place _ _ _) as [p a] eqn:Ep. destruct H4 as (U & Q & _ & _ & G).
  pose proof (place_offset (f_emu s) part sector n (b - 512 * sector) H1 Q ltac:(lia)) as O. rewrite Ep in O.
  replace (512 * sector + (b - 512 * sector)) with b in O by lia. by rewrite (O G).
Qed.

Section Wrapped.
Context (s : emu_state) (m : emmc) (part sector n : Z) (buf : list Z) (bufSize : Z).
Context (R : ready s) (M : represents s m) (A : read_int (active_partition (pointers s)) (dev s) = part).
Context (V : served s part sector n) (Hb : 512 * n <= Z.of_nat (length buf)).

Lemma wrapper_read_run : exists s', sdmmc_wrapper_read buf bufSize FS_SDMMC_EMMC sector n s =
    (Done (0, splice buf 0 (card_read (m part) (512 * sector) (512 * n))), s') /\
  ready s' /\ represents s' m /\ lock_log s' = lock_log s ++ lock_calls s ++ unlock_calls s.
Proof.
  destruct (calmly_locked s R) as (a & s1 & s2 & s3 & C1 & Ha & C2 & C3 & K3 & S3 & L3).
  destruct (calmly_attach s3) as [s4 C4].
  destruct (calmly_initialized s4) as [s5 C5].
  { apply ready_init. apply (kept_ready _ _ (proj1 (proj2 C4))). by apply (kept_ready _ _ K3). }
  assert (K5 : kept s s5) by (etransitivity; [apply K3|]; etransitivity; [apply C4|apply C5]).
  assert (S5 : same_data (dev s) (dev s5)) by (etransitivity; [apply S3|]; etransitivity; [apply C4|apply C5]).
  destruct (inner_read s5 part sector n (kept_ready _ _ K5 R) (active_kept _ _ _ K5 A) (kept_served _ _ _ _ _ K5 V) buf Hb) as (r & s6 & C6 & Hr).
  destruct (calmly_finish s6 r Hr) as [s7 C7].
  assert (K7 : kept s5 s7) by (etransitivity; [apply C6|apply C7]).
  assert (S7 : same_data (dev s5) (dev s7)) by (etransitivity; [apply C6|apply C7]).
  exists s7. split_and!.
  - unfold sdmmc_wrapper_read. rewrite (then_run _ _ _ _ _ (proj1 C1)), (proj2 (Z.eqb_neq a 0) Ha). cbn [negb orb FS_SDMMC_EMMC Z.eqb].
    erewrite then_run; [|rewrite (then_run _ _ _ _ _ (proj1 C2)), (then_run _ _ _ _ _ (proj1 C3)), (then_run _ _ _ _ _ (proj1 C4)); apply C5].
    rewrite (then_run _ _ _ _ _ (proj1 C6)), (then_run _ _ _ _ _ (proj1 C7)). unfold mret, E_ret. do 4 f_equal.
    apply card_read_ext. intros b Hin. rewrite (same_view _ _ _ _ K5 S5). apply M. by apply (served_extent _ _ _ _ _ V).
  - apply (kept_ready _ _ K7), (kept_ready _ _ K5 R).
  - intros q b Hx. apply (kept_extent _ _ _ _ K7), (kept_extent _ _ _ _ K5) in Hx.
    rewrite (same_view _ _ _ _ K7 S7), (same_view _ _ _ _ K5 S5). by apply M.
  - destruct C4 as (_ & K4 & _ & L4), C5 as (_ & _ & _ & L5), C6 as (_ & K6 & _ & L6), C7 as (_ & _ & _ & L7).
    rewrite L7, L6, L5, L4, L3, !app_nil_r, <- app_assoc. do 2 f_equal. rewrite (unlock_calls_kept _ _ K6). by apply unlock_calls_kept.
Qed.

Lemma wrapper_write_run : exists s', sdmmc_wrapper_write FS_SDMMC_EMMC sector n buf bufSize s = (Done (0, buf), s') /\
  ready s' /\ represents s' (emmc_write m part (512 * sector) (slice buf 0 (512 * n))) /\
  lock_log s' = lock_log s ++ lock_calls s ++ unlock_calls s.
Proof.
  destruct (calmly_locked s R) as (a & s1 & s2 & s3 & C1 & Ha & C2 & C3 & K3 & S3 & L3).
  destruct (inner_write s3 part sector n (kept_ready _ _ K3 R) (active_kept _ _ _ K3 A) (kept_served _ _ _ _ _ K3 V) buf Hb)
    as (r & s4 & E4 & Hr & K4 & L4 & W4).
  destruct (calmly_finish s4 r Hr) as [s5 C5]. pose proof C5 as (_ & K5 & S5 & L5).
  exists s5. split_and!.
  - unfold sdmmc_wrapper_write. rewrite (then_run _ _ _ _ _ (proj1 C1)), (proj2 (Z.eqb_neq a 0) Ha). cbn [negb FS_SDMMC_EMMC Z.eqb].
    rewrite (then_run _ _ _ _ _ (proj1 C2)), (then_run _ _ _ _ _ (proj1 C3)), (then_run _ _ _ _ _ E4). by rewrite (then_run _ _ _ _ _ (proj1 C5)).
  - apply (kept_ready _ _ K5), (kept_ready _ _ K4), (kept_ready _ _ K3 R).
  - intros q b Hx. apply (kept_extent _ _ _ _ K5), (kept_extent _ _ _ _ K4) in Hx. rewrite (same_view _ _ _ _ K5 S5), W4 by done.
    apply (kept_extent _ _ _ _ K3) in Hx. unfold emmc_write. destruct (q =? part); [apply card_write_ext|];
      rewrite (same_view _ _ _ _ K3 S3); by apply M.
  - rewrite L5, L4, L3, <- app_assoc. do 2 f_equal. rewrite (unlock_calls_kept _ _ K4). by apply unlock_calls_kept.
Qed.
End Wrapped.


(** ** The start of the file mode *)

(** The cards can be set up, the volume mounted and files opened. *)
Class StartingCards := {
  init_mmc_ok d : exists d', sdmmc_storage_init_mmc d = (true, d') /\ quiet d d';
  set_partition_ok p d : exists d', sdmmc_storage_set_mmc_partition p d = (true, d') /\ quiet d d';
  init_sd_ok d : exists d', sdmmc_storage_init_sd d = (true, d') /\ quiet d d';
  malloc_ok d : exists fs d', malloc_FATFS d = (fs, d') /\ fs <> 0 /\ quiet d d';
  mount_ok fs d : fs <> 0 -> exists d', f_mount fs 1 d = (0, d') /\ quiet d d';
  open_ok f path i d : file_at d path = Some i ->
    exists f' d', f_open f path FA_READ_WRITE d = ((0, f'), d') /\ file_id f' = i /\ f_size f' = file_size d i /\
      file_open d' f' /\ quiet d d';
  open_fails f path d : file_at d path = None ->
    exists rc f' d', f_open f path FA_READ_WRITE d = ((rc, f'), d') /\ rc <> 0 /\ quiet d d' }.
Context {starting : StartingCards}.

Definition base_path (ctx : emuMMC_ctx_t) : list Z := ExtKeys.c_string (storagePath ctx) ++ str "/eMMC/".
Definition file_path (ctx : emuMMC_ctx_t) (p : fp) : list Z :=
  match p with
  | Boot0 => base_path ctx ++ str "BOOT0"
  | Boot1 => base_path ctx ++ str "BOOT1"
  | Gpp i => _file_based_update_filename (base_path ctx) i
  end.

(** The file at [p] is open and is the one of its path. *)
Definition has_open (s : emu_state) (p : fp) : Prop :=
  exists f, handle (f_emu s) p = Some f /\ file_open (dev s) f /\ file_at (dev s) (file_path (emuMMC_ctx s) p) = Some (file_id f).

(** Between the openings: [s'] has opened more than [s]. *)
Record opens (s s' : emu_state) : Prop := {
  opens_fixed : fixed s' = fixed s /\ storageMMCinitialized s' = storageMMCinitialized s /\
    storageSDinitialized s' = storageSDinitialized s /\ fat_mounted s' = fat_mounted s;
  opens_dev : quiet (dev s) (dev s');
  opens_length : length (fp_gpp (f_emu s')) = length (fp_gpp (f_emu s)) }.
#[local] Instance opens_preorder : PreOrder opens.
Proof.
  split; [done|]. intros a b c [[F1 [M1 [S1 T1]]] D1 L1] [[F2 [M2 [S2 T2]]] D2 L2].
  split; [split_and!; congruence|by etransitivity|congruence].
Qed.

Definition in_array (s : emu_state) (p : fp) : Prop := match p with Gpp i => 0 <= i < Z.of_nat (length (fp_gpp (f_emu s))) | _ => True end.

Lemma get_in_array s p : in_array s p -> exists f, get_fp p s = (Done f, s) /\ handle (f_emu s) p = Some f.
Proof.
  destruct p as [| |i]; cbn; [by eexists..|]. intros Hi. destruct (lookup_lt_is_Some_2 (fp_gpp (f_emu s)) (Z.to_nat i)) as [f Hf]; [lia|].
  exists f. split; [|done]. unfold get_fp. erewrite then_run by reflexivity. rewrite (proj2 (Z.ltb_ge i 0)) by lia. by rewrite Hf.
Qed.

Lemma handle_put_in s p q f : in_array s p -> in_array s q ->
  handle (put_fp p f (f_emu s)) q = if decide (p = q) then Some f else handle (f_emu s) q.
Proof.
  destruct p as [| |i], q as [| |j]; cbn; try done. intros Hi Hj. destruct (decide (Gpp i = Gpp j)) as [[= ->]|N].
  - apply list_lookup_insert_eq. lia.
  - apply list_lookup_insert_ne. intros E. apply N. f_equal. lia.
Qed.

(** Opening an existing file. *)
Lemma open_run s p i : in_array s p -> file_at (dev s) (file_path (emuMMC_ctx s) p) = Some i -> exists s',
  open_fp p (file_path (emuMMC_ctx s) p) FA_READ_WRITE s = (Done 0, s') /\ opens s s' /\ has_open s' p /\
  (exists f, handle (f_emu s') p = Some f /\ f_size f = file_size (dev s) i) /\
  parts (f_emu s') = parts (f_emu s) /\ part_size (f_emu s') = part_size (f_emu s) /\
  forall q, in_array s q -> q <> p -> handle (f_emu s') q = handle (f_emu s) q.
Proof.
  intros Hp Hi. destruct (get_in_array s p Hp) as (f & Eg & Hf). destruct (open_ok f _ i (dev s) Hi) as (f' & d' & E & I & Z & O & Q).
  eexists. split; [unfold open_fp; rewrite (then_run _ _ _ _ _ Eg); unfold io, mbind, E_bind; rewrite E; reflexivity|].
  pose proof (handle_put_in s p p f' Hp Hp) as Hh. rewrite decide_True in Hh by done. split_and!.
  - split; [done|exact Q|]. destruct p; [done|done|]. apply length_insert.
  - exists f'. split_and!; [done|done|]. cbn. by rewrite (keeps_at _ _ (proj2 Q)), Hi, I.
  - by exists f'.
  - by destruct p.
  - by destruct p.
  - intros q Hq N. cbn. rewrite handle_put_in by done. by rewrite decide_False.
Qed.

Lemma open_fails_run s p : in_array s p -> file_at (dev s) (file_path (emuMMC_ctx s) p) = None -> exists rc s',
  open_fp p (file_path (emuMMC_ctx s) p) FA_READ_WRITE s = (Done rc, s') /\ rc <> 0 /\ opens s s' /\
  parts (f_emu s') = parts (f_emu s) /\ part_size (f_emu s') = part_size (f_emu s) /\
  forall q, in_array s q -> q <> p -> handle (f_emu s') q = handle (f_emu s) q.
Proof.
  intros Hp Hi. destruct (get_in_array s p Hp) as (f & Eg & Hf). destruct (open_fails f _ (dev s) Hi) as (rc & f' & d' & E & Hrc & Q).
  exists rc. eexists. split; [unfold open_fp; rewrite (then_run _ _ _ _ _ Eg); unfold io, mbind, E_bind; rewrite E; reflexivity|].
  split_and!; [done| |by destruct p|by destruct p|].
  - split; [done|exact Q|]. destruct p; [done|done|]. apply length_insert.
  - intros q Hq N. cbn. rewrite handle_put_in by done. by rewrite decide_False.
Qed.

Lemma opens_ctx s s' : opens s s' -> emuMMC_ctx s' = emuMMC_ctx s.
Proof. intros O. destruct (opens_fixed _ _ O) as [F _]. unfold fixed in F. by injection F as -> _. Qed.
Lemma opens_at s s' p : opens s s' -> file_at (dev s') (file_path (emuMMC_ctx s') p) = file_at (dev s) (file_path (emuMMC_ctx s) p).
Proof. intros O. rewrite (opens_ctx _ _ O). apply (keeps_at _ _ (proj2 (opens_dev _ _ O))). Qed.
Lemma has_open_mono s s' p : opens s s' -> handle (f_emu s') p = handle (f_emu s) p -> has_open s p -> has_open s' p.
Proof.
  intros O E (f & H & F & A). exists f. rewrite E, (opens_at _ _ _ O). split_and!; [done| |done].
  by apply (keeps_open _ _ (proj2 (opens_dev _ _ O))).
Qed.
Lemma in_array_opens s s' p : opens s s' -> in_array s p -> in_array s' p.
Proof. intros O. destruct p; cbn; [done|done|by rewrite (opens_length _ _ O)]. Qed.

(** The parts from [j] on: they are opened up to the first that is missing. *)
Lemma open_parts_run k n s j : length (fp_gpp (f_emu s)) = 32%nat -> parts (f_emu s) = j -> Z.of_nat n = 32 - j -> 1 <= j <= k -> k <= 32 ->
  (forall i, j <= i < k -> is_Some (file_at (dev s) (file_path (emuMMC_ctx s) (Gpp i)))) ->
  (k < 32 -> file_at (dev s) (file_path (emuMMC_ctx s) (Gpp k)) = None) ->
  exists s', open_parts n (base_path (emuMMC_ctx s)) s = (Done tt, s') /\ opens s s' /\
    parts (f_emu s') = (if k =? 1 then 0 else k) /\ part_size (f_emu s') = part_size (f_emu s) /\
    (forall i, j <= i < k -> has_open s' (Gpp i)) /\
    (forall q, in_array s q -> (forall i, q = Gpp i -> i < j) -> handle (f_emu s') q = handle (f_emu s) q).
Proof.
  revert s j. induction n as [|n IH]; intros s j Hl Hp Hn Hj Hk Hex Hno.
  - exists s. split_and!; [done|done| |done|lia|done]. rewrite (proj2 (Z.eqb_neq k 1)) by lia. lia.
  - cbn [open_parts]. erewrite then_run by reflexivity. rewrite Hp. destruct (decide (j < k)) as [Hlt|Hge].
    + destruct (Hex j ltac:(lia)) as [i Hi]. destruct (open_run s (Gpp j) i) as (s1 & E1 & O1 & H1 & _ & P1 & Z1 & F1); [cbn; lia|done|].
      rewrite (then_run _ _ _ _ _ E1). change (negb (0 =? 0)) with false. cbv iota. erewrite then_run by reflexivity.
      set (s2 := s1 <| f_emu ::= _ |>). assert (O2 : opens s s2) by (etransitivity; [exact O1|by split]).
      rewrite <- (opens_ctx _ _ O2). destruct (IH s2 (j + 1)) as (s' & E & O & P & Z & N & F).
      * by rewrite <- Hl, <- (opens_length _ _ O2).
      * cbn. rewrite P1. lia.
      * lia.
      * lia.
      * lia.
      * intros x Hx. rewrite (opens_at _ _ _ O2). apply Hex. lia.
      * intros Hx. rewrite (opens_at _ _ _ O2). by apply Hno.
      * exists s'. split_and!; [done|by etransitivity|done|by rewrite Z| |].
        -- intros x Hx. destruct (Z.eq_dec x j) as [->|]; [|apply N; lia].
           apply (has_open_mono s2); [done|apply F; [cbn; rewrite (opens_length _ _ O1); lia|intros ? [= <-]; lia]|exact H1].
        -- intros q Hq Hlt'. rewrite F; [|by apply (in_array_opens _ _ _ O2)|intros x ->; specialize (Hlt' x eq_refl); lia].
           apply F1; [done|]. intros ->. specialize (Hlt' j eq_refl). lia.
    + assert (j = k) as -> by lia. destruct (open_fails_run s (Gpp k)) as (rc & s1 & E1 & Hrc & O1 & P1 & Z1 & F1); [cbn; lia|apply Hno; lia|].
      rewrite (then_run _ _ _ _ _ E1), (proj2 (Z.eqb_neq rc 0) Hrc). cbn [negb].
      exists (if k =? 1 then s1 <| f_emu ::= (fun c => c <| parts := 0 |>) |> else s1).
      destruct (k =? 1) eqn:K; (split_and!; [done|..]); cbn; try done; try lia; try (by rewrite P1, Hp).
      * etransitivity; [exact O1|by split].
      * intros q Hq Hlt'. transitivity (handle (f_emu s1) q); [by destruct q|]. apply F1; [done|]. intros ->.
        specialize (Hlt' k eq_refl). lia.
      * intros q Hq Hlt'. apply F1; [done|]. intros ->. specialize (Hlt' k eq_refl). lia.
Qed.

(** The files of an emulated eMMC with [k] parts: [ids] are their numbers. *)
Definition stored (k : Z) (p : fp) : Prop := match p with Gpp i => 0 <= i < k | _ => True end.
Record emmc_files (d : Dev) (ctx : emuMMC_ctx_t) (k : Z) (ids : fp -> nat) : Prop := {
  files_count : 1 <= k <= 32;
  files_there p : stored k p -> file_at d (file_path ctx p) = Some (ids p);
  files_end : k < 32 -> file_at d (file_path ctx (Gpp k)) = None;
  files_distinct p q : stored k p -> stored k q -> ids p = ids q -> p = q }.

(** The eMMC they hold: the parts one after another, each of the size of the
    first. *)
Definition files_emmc (d : Dev) (k : Z) (ids : fp -> nat) : emmc := fun part a =>
  let size := 512 * (file_size d (ids (Gpp 0)) >>. 9) in
  let '(p, b) :=
    if part =? FS_EMMC_PARTITION_GPP then if k =? 1 then (Gpp 0, a) else (Gpp (a / size), a mod size)
    else if part =? FS_EMMC_PARTITION_BOOT1 then (Boot1, a) else (Boot0, a) in
  file_data d (ids p) b.

Section FileStart.
Context (k : Z) (ids : fp -> nat).

(** One file after another is opened; a failure would end the program. *)
Lemma open_then s0 s p i {A} (fail next : E A) : opens s0 s -> in_array s p ->
  file_at (dev s0) (file_path (emuMMC_ctx s0) p) = Some i -> exists s',
  (rc ← open_fp p (file_path (emuMMC_ctx s0) p) FA_READ_WRITE; if negb (rc =? 0) then fail else next) s = next s' /\
  opens s0 s' /\ has_open s' p /\ (exists f, handle (f_emu s') p = Some f /\ f_size f = file_size (dev s0) i) /\
  forall q, in_array s q -> q <> p -> has_open s q -> has_open s' q.
Proof.
  intros O Hp Hi. rewrite <- (opens_ctx _ _ O). destruct (open_run s p i Hp) as (s' & E & O' & H & (f & Hf & Sf) & _ & _ & F);
    [by rewrite (opens_at _ _ _ O)|].
  exists s'. split; [by rewrite (then_run _ _ _ _ _ E)|]. split_and!; [by etransitivity|done| |].
  - exists f. split; [done|]. by rewrite Sf, (keeps_size _ _ (proj2 (opens_dev _ _ O))).
  - intros q Hq N. apply (has_open_mono _ _ _ O'). by apply F.
Qed.

Lemma has_open_sizes s p g : (forall c q, handle (g c) q = handle c q) -> has_open s p -> has_open (s <| f_emu ::= g |>) p.
Proof. intros G (f & H & ?). exists f. cbn. by rewrite G. Qed.

Lemma file_initialize_run s : emmc_files (dev s) (emuMMC_ctx s) k ids -> exists s',
  _file_based_emmc_initialize s = (Done tt, s') /\ opens (s <| f_emu := f_emu_zero |>) s' /\
  parts (f_emu s') = (if k =? 1 then 0 else k) /\ part_size (f_emu s') = file_size (dev s) (ids (Gpp 0)) >>. 9 /\
  forall p, stored k p -> has_open s' p.
Proof.
  intros F. pose proof (files_count _ _ _ _ F) as Hk. unfold _file_based_emmc_initialize. erewrite then_run by reflexivity.
  set (s0 := s <| f_emu ::= (fun _ => f_emu_zero) |>). erewrite then_run by reflexivity. cbv zeta.
  change (ExtKeys.c_string _ ++ str "/eMMC/") with (base_path (emuMMC_ctx s0)).
  assert (F0 : forall p, stored k p -> file_at (dev s0) (file_path (emuMMC_ctx s0) p) = Some (ids p)) by exact (files_there _ _ _ _ F).
  assert (L0 : length (fp_gpp (f_emu s0)) = 32%nat) by done.
  change (base_path (emuMMC_ctx s0) ++ str "BOOT0") with (file_path (emuMMC_ctx s0) Boot0).
  change (base_path (emuMMC_ctx s0) ++ str "BOOT1") with (file_path (emuMMC_ctx s0) Boot1).
  change (_file_based_update_filename (base_path (emuMMC_ctx s0)) 0) with (file_path (emuMMC_ctx s0) (Gpp 0)).
  edestruct (open_then s0 s0 Boot0) as (s1 & -> & O1 & H1 & _ & _); [done|done|by apply F0|].
  edestruct (open_then s0 s1 Boot1) as (s2 & -> & O2 & H2 & _ & N2); [done|done|by apply F0|].
  edestruct (open_then s0 s2 (Gpp 0)) as (s3 & -> & O3 & H3 & (f & Hf & Sf) & N3); [done| |apply F0; cbn; lia|].
  { cbn. rewrite (opens_length _ _ O2), L0. lia. }
  assert (A3 : forall q, in_array s0 q -> in_array s3 q) by (intros q; by apply in_array_opens).
  destruct (get_in_array s3 (Gpp 0)) as (f' & Eg & Hf'); [apply A3; cbn; lia|]. rewrite Hf in Hf'. injection Hf' as <-.
  rewrite (then_run _ _ _ _ _ Eg). erewrite then_run by reflexivity. erewrite then_run by reflexivity.
  set (s4 := (s3 <| f_emu ::= _ |>) <| f_emu ::= _ |>). assert (O4 : opens s0 s4) by (etransitivity; [exact O3|by split]).
  rewrite <- (opens_ctx _ _ O4). destruct (open_parts_run k 31 s4 1) as (s5 & E5 & O5 & P5 & Z5 & N5 & F5);
    [by rewrite (opens_length _ _ O4)|done|done|lia|lia|..].
  - intros i Hi. rewrite (opens_at _ _ _ O4), F0 by (cbn; lia). done.
  - intros H. rewrite (opens_at _ _ _ O4). by apply (files_end _ _ _ _ F).
  - exists s5. split_and!; [done|by etransitivity|done|rewrite Z5; cbn; by rewrite Sf|]. intros p Hp.
    assert (Hs4 : (p = Boot0 \/ p = Boot1 \/ p = Gpp 0) -> has_open s5 p).
    { intros Hq. apply (has_open_mono s4); [done|apply F5; [|intros i ->; destruct Hq as [|[|[= ->]]]; [done..|lia]]|].
      - apply (in_array_opens _ _ _ O4). destruct p; cbn in *; lia || done.
      - apply (has_open_sizes (s3 <| f_emu ::= _ |>)), (has_open_sizes s3); [by intros c []|by intros c []|].
        destruct Hq as [->|[->| ->]]; [|by apply N3|done]. apply N3; [done|done|]. by apply N2. }
    destruct p as [| |i]; [by apply Hs4; auto..|]. destruct (Z.eq_dec i 0) as [->|]; [by apply Hs4; auto|].
    apply N5. cbn in Hp. lia.
Qed.

(** Before the first request, in file mode. *)
Record unstarted (s : emu_state) : Prop := {
  unstarted_init : sdmmc_first_init s = false /\ storageMMCinitialized s = false /\ storageSDinitialized s = false /\ fat_mounted s = false;
  unstarted_type : EMMC_Type (emuMMC_ctx s) = emuMMC_SD_File;
  unstarted_power : init_done s = true \/ forall d, fst (gpio_read GPIO_PORT_E GPIO_PIN_4 d) <> 0;
  unstarted_accessor d : fst (fs_call (sdmmc_accessor_nand (pointers s)) d) <> 0 }.

Lemma sd_initialized_run s : EMMC_Type (emuMMC_ctx s) = emuMMC_SD_File -> fat_mounted s = false ->
  emmc_files (dev s) (emuMMC_ctx s) k ids -> exists s', sd_initialized s = (Done tt, s') /\ fixed s' = fixed s /\
    storageMMCinitialized s' = storageMMCinitialized s /\ storageSDinitialized s' = true /\ quiet (dev s) (dev s') /\
    parts (f_emu s') = (if k =? 1 then 0 else k) /\ part_size (f_emu s') = file_size (dev s) (ids (Gpp 0)) >>. 9 /\
    forall p, stored k p -> has_open s' p.
Proof.
  intros T M F. unfold sd_initialized. erewrite then_run by reflexivity. erewrite then_run by reflexivity. erewrite then_run by reflexivity.
  cbn beta. change (emuMMC_ctx (s <| storageSDinitialized := true |>)) with (emuMMC_ctx s).
  change (fat_mounted (s <| storageSDinitialized := true |>)) with (fat_mounted s). rewrite T, M. change (_ && _) with true. cbv iota.
  destruct (malloc_ok (dev s)) as (fs & d1 & E1 & Hfs & Q1). destruct (mount_ok fs d1 Hfs) as (d2 & E2 & Q2).
  erewrite then_run; [|apply io_run; exact E1]. erewrite then_run by reflexivity. erewrite then_run; [|apply io_run; exact E2].
  change (negb (0 =? 0)) with false. cbv iota. erewrite then_run by reflexivity.
  match goal with |- context [_file_based_emmc_initialize ?x] => set (s1 := x) end.
  assert (Q : quiet (dev s) (dev s1)) by (etransitivity; [exact Q1|exact Q2]).
  assert (F1 : emmc_files (dev s1) (emuMMC_ctx s1) k ids).
  { destruct F as [C A B D]. split; [done| | |done]; intros; rewrite (keeps_at _ _ (proj2 Q)); auto. }
  destruct (file_initialize_run s1 F1) as (s' & E & O & P & Z & H). destruct (opens_fixed _ _ O) as (Fx & Mx & Sx & _).
  exists s'. split_and!; try done; [by etransitivity; [|apply (opens_dev _ _ O)]|]. by rewrite Z, (keeps_size _ _ (proj2 Q)).
Qed.

Lemma initialize_run s : unstarted s -> emmc_files (dev s) (emuMMC_ctx s) k ids -> exists s',
  sdmmc_initialize s = (Done true, s') /\ fixed s' = fixed s /\ quiet (dev s) (dev s') /\
  parts (f_emu s') = (if k =? 1 then 0 else k) /\ part_size (f_emu s') = file_size (dev s) (ids (Gpp 0)) >>. 9 /\
  forall p, stored k p -> has_open s' p.
Proof.
  intros [(I1 & I2 & I3 & I4) T _ _] F. unfold sdmmc_initialize. erewrite then_run by reflexivity. rewrite I2. cbn [negb].
  destruct (init_mmc_ok (dev s)) as (d1 & E1 & Q1). destruct (set_partition_ok FS_EMMC_PARTITION_GPP d1) as (d2 & E2 & Q2).
  destruct (init_sd_ok d2) as (d3 & E3 & Q3).
  erewrite then_run; [|erewrite then_run; [|apply io_run; exact E1]; cbv iota; erewrite then_run; [|apply io_run; exact E2]; reflexivity].
  match goal with |- context [(get storageSDinitialized ≫= _) ?x] => set (s1 := x) end.
  erewrite then_run by reflexivity. change (storageSDinitialized s1) with (storageSDinitialized s). rewrite I3. cbn [negb].
  set (s2 := s1 <| dev := d3 |>). assert (Q : quiet (dev s) (dev s2)) by (etransitivity; [exact Q1|]; etransitivity; [exact Q2|exact Q3]).
  assert (F2 : emmc_files (dev s2) (emuMMC_ctx s2) k ids).
  { destruct F as [C A B D]. split; [done| | |done]; intros; rewrite (keeps_at _ _ (proj2 Q)); auto. }
  destruct (sd_initialized_run s2 T I4 F2) as (s' & E & Fx & Mx & Sx & Q' & P & Z & H).
  assert (E' : init_sd_retry 5 s1 = (Done tt, s')) by (cbn [init_sd_retry]; erewrite then_run; [|apply io_run; exact E3]; exact E).
  exists s'. split_and!; try done; [|by etransitivity|by rewrite Z, (keeps_size _ _ (proj2 Q))].
  erewrite then_run; [|rewrite (then_run _ _ _ _ _ E'); erewrite then_run by reflexivity; rewrite Sx; reflexivity].
  unfold get. by rewrite Mx, Sx.
Qed.

End FileStart.
End Emulation.
