(* ===== verification/EmummcThreads.v ===== *)
(** emummc: threads of FS in the wrappers (emuMMC/emummc.c).  Each step of a thread
    is one access to what the threads share: [custom_driver], [first_sd_read] and
    the two mutexes. *)
From S2P Require Import Prelude State.

(** What is assumed of the mutexes of FS: a free one is given to the thread that
    asks, one that another thread holds makes it wait, and its holder frees it. *)
Class FsMutex := {
  mtx : Type;
  owner : mtx -> option nat;
  acquire : nat -> mtx -> option mtx;
  release : nat -> mtx -> mtx;
  acquire_free t m : owner m = None -> exists m', acquire t m = Some m' /\ owner m' = Some t;
  acquire_held t u m : owner m = Some u -> u <> t -> acquire t m = None;
  release_own t m : owner m = Some t -> owner (release t m) = None }.

Module Threads.

(** The calls that use the mutexes, and where a thread is in one: its next access. *)
Inductive request := EmmcRead | SdRead | EmmcWrite | SdWrite.
#[export] Instance request_eq_dec : EqDecision request.
Proof. solve_decision. Defined.
Inductive pc :=
| Idle                     (* outside *)
| LockTest (r : request)   (* mutex_lock_handler: if (custom_driver) *)
| LockSd (r : request)     (* lock_mutex(sd_mutex) *)
| LockNand (r : request)   (* lock_mutex(nand_mutex) *)
| TestFirst                (* sdmmc_wrapper_read: if (first_sd_read) *)
| SetFirst                 (* first_sd_read = false *)
| SetCustom                (* custom_driver = false *)
| EarlyUnlock              (* unlock_mutex(sd_mutex) *)
| Transfer                 (* the card is accessed *)
| UnlockNand               (* mutex_unlock_handler: unlock_mutex(nand_mutex) *)
| UnlockTest               (* if (custom_driver) *)
| UnlockSd.                (* unlock_mutex(sd_mutex) *)
#[export] Instance pc_eq_dec : EqDecision pc.
Proof. solve_decision. Defined.

Section Threads.
Context {mutex : FsMutex}.

Record threads := mk_threads { t_custom : bool; t_first : bool; t_sd : mtx; t_nand : mtx; t_pc : nat -> pc }.
#[export] Instance eta_threads : Eta threads := fun x => mk_threads (t_custom x) (t_first x) (t_sd x) (t_nand x) (t_pc x).

Definition goto (t : nat) (p : pc) (s : threads) : threads :=
  s <| t_pc ::= fun f u => if decide (u = t) then p else f u |>.

(** A step of thread [t], which makes the request [r] when it is idle; [None]
    while it waits. *)
Definition step (t : nat) (r : request) (s : threads) : option threads :=
  match t_pc s t with
  | Idle => Some (goto t (LockTest r) s)
  | LockTest r => Some (goto t (if t_custom s then LockSd r else LockNand r) s)
  | LockSd r => m ← acquire t (t_sd s); Some (goto t (LockNand r) (s <| t_sd := m |>))
  | LockNand r => m ← acquire t (t_nand s);
      Some (goto t (match r with SdRead => TestFirst | _ => Transfer end) (s <| t_nand := m |>))
  | TestFirst => Some (goto t (if t_first s then SetFirst else Transfer) s)
  | SetFirst => Some (goto t SetCustom (s <| t_first := false |>))
  | SetCustom => Some (goto t EarlyUnlock (s <| t_custom := false |>))
  | EarlyUnlock => Some (goto t Transfer (s <| t_sd := release t (t_sd s) |>))
  | Transfer => Some (goto t UnlockNand s)
  | UnlockNand => Some (goto t UnlockTest (s <| t_nand := release t (t_nand s) |>))
  | UnlockTest => Some (goto t (if t_custom s then UnlockSd else Idle) s)
  | UnlockSd => Some (goto t Idle (s <| t_sd := release t (t_sd s) |>))
  end.

Inductive steps : threads -> threads -> Prop :=
| steps_refl s : steps s s
| steps_next s s' s'' t r : steps s s' -> step t r s' = Some s'' -> steps s s''.

(** No call yet, the mutexes free. *)
Definition starting (s : threads) : Prop :=
  t_custom s = true /\ t_first s = true /\ owner (t_sd s) = None /\ owner (t_nand s) = None /\ forall t, t_pc s t = Idle.

(** ** Invariant *)

Definition in_nand (p : pc) : bool :=
  match p with TestFirst | SetFirst | SetCustom | EarlyUnlock | Transfer | UnlockNand => true | _ => false end.
(** Where a thread holds the mutex of the SD card while [custom_driver] is set. *)
Definition has_sd (p : pc) : bool :=
  match p with Idle | LockTest _ | LockSd _ | EarlyUnlock => false | _ => true end.

Record ok (s : threads) : Prop := {
  ok_nand t : in_nand (t_pc s t) = true <-> owner (t_nand s) = Some t;
  ok_sd t : t_custom s = true -> t_pc s t <> EarlyUnlock /\ (has_sd (t_pc s t) = true <-> owner (t_sd s) = Some t);
  ok_first t : t_pc s t = SetCustom -> t_first s = false;
  ok_swapped t : t_custom s = false -> t_first s = false /\ t_pc s t <> SetFirst /\ t_pc s t <> SetCustom /\ t_pc s t <> UnlockSd /\
    (t_pc s t = EarlyUnlock -> owner (t_sd s) = Some t) /\ (forall r, t_pc s t = LockSd r -> owner (t_sd s) <> Some t) }.

Lemma acquire_some t m m' : owner m <> Some t -> acquire t m = Some m' -> owner m = None /\ owner m' = Some t.
Proof.
  intros H E. destruct (owner m) as [u|] eqn:O.
  - rewrite (acquire_held t u m O) in E by congruence. done.
  - destruct (acquire_free t m O) as (m'' & E' & O'). by rewrite E in E'; injection E' as ->.
Qed.

Lemma ok_starting s : starting s -> ok s.
Proof.
  intros (C & F & S & N & P). split; intros t; rewrite ?P, ?S, ?N; try done.
  - intros C'. congruence.
Qed.

Lemma goto_pc t p s u : t_pc (goto t p s) u = if decide (u = t) then p else t_pc s u.
Proof. done. Qed.

(** The cases of a step, on the pc of the thread [u] that is looked at. *)
Ltac step_cases u E :=
  unfold step in E;
  match type of E with context [t_pc ?s ?t] =>
    destruct (t_pc s t) eqn:Hp; try (apply bind_Some in E as (m & Em & E)); injection E as <-;
    try match goal with |- context [t_pc (goto _ _ _) u] => rewrite goto_pc end; cbn [t_custom t_first t_sd t_nand goto];
    destruct (decide (u = t)) as [->|Hu]
  end.

Lemma step_nand s s' t r : ok s -> step t r s = Some s' -> forall u, in_nand (t_pc s' u) = true <-> owner (t_nand s') = Some u.
Proof.
  intros [N _ _ _] E u. pose proof (N t) as Nt. pose proof (N u) as Nu. step_cases u E; rewrite ?Hp in Nt; cbn in *; try done.
  - by destruct (t_custom s).
  - apply acquire_some in Em as [_ ->]; [|intros O; by apply Nt in O]. by destruct r0.
  - apply acquire_some in Em as [O ->]; [|intros O; by apply Nt in O]. rewrite Nu. split; congruence.
  - by destruct (t_first s).
  - rewrite release_own by by apply Nt. done.
  - rewrite release_own by by apply Nt. split; [intros H%Nu|done]. destruct Nt as [Nt _]. specialize (Nt eq_refl). congruence.
  - by destruct (t_custom s).
Qed.

Lemma step_sd s s' t r : ok s -> step t r s = Some s' -> forall u, t_custom s' = true ->
  t_pc s' u <> EarlyUnlock /\ (has_sd (t_pc s' u) = true <-> owner (t_sd s') = Some u).
Proof.
  intros [_ S _ _] E u. pose proof (S t) as St. pose proof (S u) as Su. step_cases u E; rewrite ?Hp in St; cbn in *; try done.
  all: intros C; destruct (St C) as [St1 St2]; destruct (Su C) as [Su1 Su2]; try rewrite C; try (split; [done|]); try done.
  - apply acquire_some in Em as [_ ->]; [done|]. intros O. by apply St2 in O.
  - apply acquire_some in Em as [O ->]; [|intros O; by apply St2 in O]. rewrite Su2. split; congruence.
  - by destruct r0.
  - by destruct (t_first s).
  - rewrite release_own by by apply St2. done.
  - assert (O : owner (t_sd s) = Some t) by by apply St2. rewrite (release_own _ _ O), Su2. split; congruence.
Qed.

Lemma step_first s s' t r : ok s -> step t r s = Some s' -> forall u, t_pc s' u = SetCustom -> t_first s' = false.
Proof.
  intros [_ _ F _] E u. pose proof (F u) as Fu. step_cases u E; cbn in *; try done.
  - by destruct (t_custom s).
  - by destruct r0.
  - by destruct (t_first s).
  - by destruct (t_custom s).
Qed.

Lemma step_swapped s s' t r : ok s -> step t r s = Some s' -> forall u, t_custom s' = false ->
  t_first s' = false /\ t_pc s' u <> SetFirst /\ t_pc s' u <> SetCustom /\ t_pc s' u <> UnlockSd /\
  (t_pc s' u = EarlyUnlock -> owner (t_sd s') = Some u) /\ (forall r, t_pc s' u = LockSd r -> owner (t_sd s') <> Some u).
Proof.
  intros [_ S F W] E u. pose proof (S t) as St. pose proof (S u) as Su. pose proof (W t) as Wt. pose proof (W u) as Wu.
  step_cases u E; rewrite ?Hp in St, Wt; cbn in *; try done.
  all: intros C; try (destruct (Wt C) as (F1 & Q1 & Q2 & Q3 & Q4 & Q5)); try (destruct (Wu C) as (_ & V1 & V2 & V3 & V4 & V5));
    rewrite ?C, ?F1 in *; try (by split_and!).
  - apply acquire_some in Em as [O O']; [|by eapply Q5]. split_and!; try done; [intros H%V4|intros ? _]; congruence.
  - by destruct r0.
  - destruct (t_custom s); [|by destruct (Wt eq_refl) as (_ & _ & [] & _)]. destruct (St eq_refl) as [_ [O _]].
    split_and!; try done; [by apply (F t)|intros _; by apply O].
  - destruct (t_custom s); [|by destruct (Wt eq_refl) as (_ & _ & [] & _)]. destruct (St eq_refl) as [_ [O _]]. specialize (O eq_refl).
    destruct (Su eq_refl) as [Su1 [Su2 _]].
    split_and!; [by apply (F t)|intros H; rewrite H in Su2; specialize (Su2 eq_refl); congruence..|done|intros ? _; congruence].
  - specialize (Q4 eq_refl). rewrite (release_own _ _ Q4). split_and!; try done. intros H%V4. congruence.
Qed.

Lemma ok_step s s' t r : ok s -> step t r s = Some s' -> ok s'.
Proof.
  intros O E. split; [by eapply step_nand|by eapply step_sd|by eapply step_first|by eapply step_swapped].
Qed.

Lemma ok_steps s s' : starting s -> steps s s' -> ok s'.
Proof. intros S H. induction H; [by apply ok_starting|]. eapply ok_step; [by apply IHsteps|done]. Qed.


(** ** The mutex of the SD card *)

(** Once the driver was swapped and the early release is over, nobody releases it. *)
Lemma sd_kept s s' v : steps s s' -> ok s -> t_custom s = false -> (forall t, t_pc s t <> EarlyUnlock) -> owner (t_sd s) = Some v ->
  ok s' /\ t_custom s' = false /\ (forall t, t_pc s' t <> EarlyUnlock) /\ owner (t_sd s') = Some v.
Proof.
  induction 1 as [s|s s1 s2 t r H IH E]; intros O C U V; [done|]. destruct (IH O C U V) as (O1 & C1 & U1 & V1).
  split; [by eapply ok_step|]. pose proof (ok_swapped _ O1 t C1) as (_ & _ & W1 & W2 & _ & W3).
  assert (Hv : forall r0 m, t_pc s1 t = LockSd r0 -> acquire t (t_sd s1) = Some m -> False).
  { intros r0 m P A. apply acquire_some in A as [A _]; [congruence|by eapply W3]. }
  split_and!; [by unfold step in E; repeat case_match; simplify_option_eq| |].
  - intros u. specialize (U1 u). step_cases u E; try done; [by rewrite C1|by destruct r0|by destruct (t_first s1)|by rewrite C1].
  - unfold step in E. destruct (t_pc s1 t) eqn:P; try (apply bind_Some in E as (m & Em & E)); injection E as <-; try done.
    + by edestruct Hv.
    + by destruct (U1 t).
Qed.

Definition initial (sd nand : mtx) : threads := mk_threads true true sd nand (fun _ => Idle).

(** A schedule: which thread steps, and with which request if it is idle. *)
Definition run (sched : list (nat * request)) (s : threads) : option threads :=
  foldl (fun s x => s ≫= step x.1 x.2) (Some s) sched.
Lemma run_steps sched s s' : run sched s = Some s' -> steps s s'.
Proof.
  unfold run. revert s'. induction sched as [|[t r] sched IH] using rev_ind; intros s' E; [injection E as <-; constructor|].
  rewrite foldl_app in E. cbn in E. apply bind_Some in E as (s1 & E1 & E2). eapply steps_next; [by apply IH|exact E2].
Qed.

(** Thread 1 asks for the mutex of the SD card just before thread 0 makes the first
    read of the card. *)
Definition leak_schedule : list (nat * request) :=
  replicate 3 (0%nat, SdRead) ++ replicate 2 (1%nat, EmmcRead) ++ replicate 5 (0%nat, SdRead) ++ [(1%nat, EmmcRead)]
  ++ replicate 3 (0%nat, SdRead) ++ replicate 4 (1%nat, EmmcRead).

(** C19: the swap of the SD driver on the first read of the card can leave the
    mutex of the SD card locked for ever: a thread that waits for it at that moment
    takes it when the reading thread releases it early, and does not give it back,
    since by then the driver is the other one.  There is such a run that ends with
    every thread outside and the mutex held, and nothing emummc does afterwards
    releases it. *)
Theorem sd_mutex_leaks sd nand : owner sd = None -> owner nand = None ->
  exists s v, steps (initial sd nand) s /\ (forall t, t_pc s t = Idle) /\ owner (t_sd s) = Some v /\
    forall s', steps s s' -> owner (t_sd s') = Some v.
Proof.
  intros Osd Onand. destruct (acquire_free 0 sd Osd) as (sd1 & A1 & O1). destruct (acquire_free 0 nand Onand) as (n1 & A2 & O2).
  destruct (acquire_free 1 (release 0 sd1) (release_own _ _ O1)) as (sd2 & A3 & O3).
  destruct (acquire_free 1 (release 0 n1) (release_own _ _ O2)) as (n2 & A4 & O4).
  assert (R : exists s, run leak_schedule (initial sd nand) = Some s /\ t_custom s = false /\ t_sd s = sd2 /\ forall t, t_pc s t = Idle).
  { eexists. split; [|split; [|split; [|shelve]]].
    - cbv -[acquire release mtx]. rewrite A1. cbv -[acquire release mtx]. rewrite A2. cbv -[acquire release mtx].
      rewrite A3. cbv -[acquire release mtx]. rewrite A4. reflexivity.
    - reflexivity.
    - reflexivity.
    Unshelve. intros [|[|t]]; reflexivity. }
  destruct R as (s & R%run_steps & C & E & P). exists s, 1%nat. rewrite E. split_and!; [done|done|done|].
  intros s' H. eapply (sd_kept s s' 1); [done|eapply ok_steps; [|done]|done|intros t; by rewrite P|by rewrite E].
  by split_and!.
Qed.
End Threads.
End Threads.
