(* ===== verification/EmummcToy.v ===== *)
(** A concrete console for emummc: FS, kernel, card and files that satisfy what is
    assumed of them.  The witnesses run on it. *)
From S2P Require Import Prelude State Utils Se Engine Pages Platform PageProps Fusee FuseeKeys Storage StorageProps FsOffsets Emummc InjectProps EmummcInit EmummcProps EmummcThreads.

Module Console.

(** The code of FS, the page [paths], the SD card and the files, by number. *)
Record console := mk_console { k_code : Z -> Z; k_page : list Z; k_sd : Z -> Z; k_file : nat -> Z -> Z }.
#[export] Instance eta_console : Eta console := fun x => mk_console (k_code x) (k_page x) (k_sd x) (k_file x).

(** The files of the emulated eMMC, in the directory "emu": two parts. *)
Definition file_number (path : list Z) : option nat :=
  if bool_decide (path = str "emu/eMMC/BOOT0") then Some 0%nat
  else if bool_decide (path = str "emu/eMMC/BOOT1") then Some 1%nat
  else if bool_decide (path = str "emu/eMMC/00") then Some 2%nat
  else if bool_decide (path = str "emu/eMMC/01") then Some 3%nat
  else None.

Definition cfg : exo_emummc_config_t :=
  mk_emummc_config EMUMMC_STORAGE_MAGIC 2 7 21 (str "emu" ++ zeros 125) (str "emu/Nintendo" ++ zeros 116).
Definition monitor : World := (Toy.toy_world 11) <| w_exo := mk_exocfg (mk_exosphere_config 0 11 0 cfg) true (mk_exosphere_config 0 11 0 cfg) |>.
Definition page_address : Z := 0x80001000.

Definition smc (args : list Z) (d : console) : (Z * list Z) * console :=
  match args with
  | f :: a :: v :: size :: _ =>
      if (f =? 0xF0000003) && (size =? 4) then ((0, [0]), d <| k_code ::= fun c => upd c a v |>)
      else if f =? 0xF0000404
      then ((0, set_X (emummc_answer cfg) 0 0),
            d <| k_page := phys_read_bytes (emummc_paths cfg (w_phys monitor) page_address) page_address 256 |>)
      else ((0, [0]), d)
  | _ => ((0, [0]), d)
  end.

#[export] Instance system : EmuSystem := {|
  Dev := console; FIL := nat * Z; fil_zero := (0%nat, 0);
  sdmmc_storage_init_mmc d := (true, d); sdmmc_storage_set_mmc_partition _ d := (true, d);
  sdmmc_storage_init_sd d := (true, d); sdmmc_storage_end d := (true, d);
  sdmmc_storage_read sector n buf d := ((1, splice buf 0 (card_read (k_sd d) (512 * sector) (512 * n))), d);
  sdmmc_storage_write sector n buf d := (1, d <| k_sd ::= fun c => card_write c (512 * sector) (slice buf 0 (512 * n)) |>);
  set_current_accessor _ d := d; gpio_read _ _ d := (1, d); msleep _ d := d; malloc_FATFS d := (1, d);
  f_mount _ _ d := (0, d);
  f_open f path _ d := match file_number path with Some i => ((0, (i, 0)), d) | None => ((4, f), d) end;
  f_close f d := ((0, f), d); f_size f := 1024;
  f_lseek f ofs d := ((0, (f.1, ofs)), d);
  f_read f buf n d := ((0, splice buf 0 (card_read (k_file d f.1) f.2 n), (f.1, f.2 + n)), d);
  f_write f buf n d := ((0, (f.1, f.2 + n)),
    d <| k_file ::= fun g i => if decide (i = f.1) then card_write (g i) f.2 (slice buf 0 n) else g i |>);
  fs_call _ d := (1, d); fs_mutex_call _ _ d := d; read_int _ _ := 0;
  controller_close _ d := (0, d); accessor_read_write _ _ _ buf _ _ d := ((0, buf), d);
  clkrst_vt_set_min_v_clock_rate _ _ d := (0, d);
  svcCallSecureMonitor := smc; svcAttachDeviceAddressSpace _ _ d := d; svcQueryMemory_addr _ d := (0x8000000, d);
  uninit := 0; read_memory _ _ d := k_page d; write_memory _ _ d := d;
  addr_start := 0x8000000; addr_argdata := 0x8030000;
  addr_sdmmc_wrapper_read := 0x8001000; addr_sdmmc_wrapper_write := 0x8001100;
  addr_sdmmc_wrapper_controller_close := 0x8001200; addr_clkrst_set_min_v_clock_rate := 0x8001300;
  addr_nintendo_path := 0x8020000; addr_nintendo_path_album_100 := 0x8020080; addr_nintendo_path_contents_100 := 0x8020180;
  addr_paths := 0x8021000; addr_error_ctx := 0x8022000;
  libc_init_array d := d; clock_enable_i2c5 d := d; i2c_init d := d |}.

Definition base : Z := 0x8030000.
Definition power_on : Dev (EmuSystem := system) := mk_console (fun _ => 0) [] (fun a => a mod 251) (fun i a => (7 * Z.of_nat i + a) mod 253).

#[export] Program Instance patching : CodePatching := {| code := k_code; text_start := base; text_end := base + 2 ^ 21 |}.
Next Obligation. intros a v d _ _ _. by exists [0], (d <| k_code ::= fun c => upd c a v |>). Qed.
#[export] Instance quiet_start : QuietStart.
Proof. by split. Qed.

#[export] Instance data : EmuData := {|
  sd_data := k_sd; sd_sectors := 2 ^ 25; file_data := k_file; file_size _ _ := 1024;
  file_at _ path := file_number path; file_id := fst; file_pos := snd; file_open _ _ := True |}.
#[export] Instance working : WorkingEmu.
Proof.
  split; try done.
  - intros sector n buf d _ _ _ _. by exists 1, d.
  - intros sector n buf d _ _ _ _. eexists 1, _. split; [reflexivity|]. by split.
  - intros f ofs d _ _. by exists (f.1, ofs), d.
  - intros f buf n d _ _ _ _. by exists (f.1, f.2 + n), d.
  - intros f buf n d _ _ _ _. eexists (f.1, f.2 + n), _. split; [reflexivity|]. split_and!; [done|done|by split|].
    intros i a. cbn. by destruct (decide _).
Qed.
#[export] Instance starting_cards : StartingCards.
Proof.
  split; try by eexists.
  - intros d. by exists 1, d.
  - intros f path i d H. exists (i, 0), d. cbn in *. by rewrite H.
  - intros f path d H. exists 4, f, d. cbn in *. by rewrite H.
Qed.

(** ** The start *)

Lemma base_placed : placed base.
Proof.
  split; [done|by vm_compute|repeat (apply Forall_cons_2; [by vm_compute|]); done|].
  split; [done|]. repeat (apply Forall_cons_2; [by vm_compute|]). done.
Qed.
Lemma cfg_ok : emummc_cfg_ok cfg.
Proof.
  assert (B : forall l, forallb (fun b => (0 <=? b) && (b <? 256)) l = true -> is_bytes l).
  { intros l H. rewrite forallb_forall in H. apply Forall_forall. intros x Hx%list_elem_of_In. specialize (H x Hx).
    rewrite andb_true_iff, Z.leb_le, Z.ltb_lt in H. exact H. }
  split; [done|done|right; right; by left|split; [done|by apply B]|split; [done|by apply B]].
Qed.
Lemma monitor_is_ready : monitor_ready monitor page_address.
Proof. by split; [| | |apply cfg_ok]. Qed.
Lemma monitor_forwards d : forwards_config d monitor page_address.
Proof.
  intros r regs w' E. destruct (ams_get_emummc_config_run (get_config_args page_address) monitor) as (w1 & E1 & _ & P); try done.
  { cbn. auto. }
  rewrite E in E1. injection E1 as -> -> ->. eexists. split; [reflexivity|]. split; [|done]. cbn [read_memory system k_page]. by rewrite P.
Qed.

Lemma emummc_injected_witness : exists s, Inject.init (Inject.boot_state power_on) = (Done tt, s) /\
  emuMMC_ctx s = configured cfg /\
  Forall (installed base (code (dev s))) (patches base 21 g_offsets_800 (nintendo_path s)).
Proof.
  destruct (emummc_injected power_on monitor page_address g_offsets_800 0x8000000 power_on eq_refl base_placed
    monitor_is_ready (monitor_forwards _) eq_refl) as (s & E & C & _ & _ & I & _).
  exists s. split; [exact E|]. split; [exact C|exact I].
Defined.

(** ** Requests *)

(** The eMMC in a partition of the SD card, set up. *)
Definition raw_state : emu_state :=
  ((Inject.boot_state power_on) <| sdmmc_first_init := true |>) <| emuMMC_ctx := mk_emuMMC_ctx EMUMMC_STORAGE_MAGIC 7 21 emuMMC_SD emuMMC_SD 0x1000 0 (zeros 128) |>.
Lemma raw_ready : ready raw_state.
Proof. split; [split; [done|by right]|done|done]. Qed.
Lemma raw_served : served raw_state FS_EMMC_PARTITION_GPP 3 2.
Proof. unfold served. change (is_raw raw_state) with true. split_and!; try done; by left. Qed.


(** The eMMC in files, before the first request. *)
Definition file_state : emu_state := (Inject.boot_state power_on) <| emuMMC_ctx := configured cfg |>.
Definition file_ids (p : EmuMMC.fp) : nat :=
  match p with EmuMMC.Boot0 => 0 | EmuMMC.Boot1 => 1 | EmuMMC.Gpp i => Z.to_nat (2 + i) end.
Lemma file_unstarted : unstarted file_state.
Proof. by split; [| |right|]. Qed.
Lemma file_stored : emmc_files (dev file_state) (emuMMC_ctx file_state) 2 file_ids.
Proof.
  split; [done| |by vm_compute|].
  - intros [| |i] H; [by vm_compute..|]. cbn in H. assert (i = 0 \/ i = 1) as [->| ->] by lia; by vm_compute.
  - intros [| |i] [| |j]; cbn [stored file_ids]; intros; try done; try lia. f_equal. lia.
Qed.


(** ** Threads *)

#[export] Instance mutex : FsMutex.
Proof.
  refine {| mtx := option nat; owner m := m; acquire t m := match m with None => Some (Some t) | Some _ => None end; release _ _ := None |}.
  - intros t m ->. by eexists.
  - by intros t u m -> _.
  - done.
Defined.

Definition unlocked : mtx (FsMutex := mutex) := None.


Lemma sd_mutex_leaks_witness : exists s v, Threads.steps (Threads.initial unlocked unlocked) s /\ (forall t, Threads.t_pc s t = Threads.Idle) /\
  owner (Threads.t_sd s) = Some v.
Proof.
  destruct (Threads.sd_mutex_leaks unlocked unlocked eq_refl eq_refl) as (s & v & H & P & O & _). by exists s, v.
Defined.
End Console.
